(* ===== verification/_CoqProject ===== *)
-Q . S2P
Prelude.v
Floats.v
CmdFormat.v
GLES2Format.v
GLES2Commands.v
CommandBufferService.v
CmdParser.v
CommonDecoder.v
GpuScheduler.v
RingProtocol.v
CmdBufferHelper.v
GLES2CmdHelper.v
InProcess.v
Tokens.v
FencedAllocator.v
FencedAllocatorWrapper.v
RingBuffer.v
MappedMemory.v
IdAllocator.v
GLConstants.v
Validators.v
GLES2Util.v
FeatureInfo.v
BufferManager.v
VertexAttribManager.v
DrawValidation.v
VertexSafety.v
TextureInfo.v
TextureManager.v
RenderbufferManager.v
FramebufferManager.v
ContextState.v
ContextInvariant.v
TextureDecoder.v
FramebufferDecoder.v
ObjectNames.v
ReadPixels.v
ContextCommands.v
Names.v
Uniforms.v
ShaderManager.v
ProgramManager.v
ProgramInvariant.v
DrawTextures.v
ProgramCounting.v
ProgramInfoManager.v
ProgramRoundTrip.v
ProgramDecoder.v
UniformDecoder.v
ProgramQueries.v
ProgramSafety.v
ProgramCommands.v
DecoderState.v
HandlerSafety.v
BufferDecoder.v
QueryDecoder.v
QuerySafety.v
AttribRoundTrip.v
StateDecoder.v
DrawCalls.v
AttribSimulation.v
DecoderCommands.v
Connection.v
TransferBuffer.v
ClientState.v
ClientBindings.v
ClientBuffers.v
ClientTextures.v
ClientPrograms.v
ClientCommands.v
ClientDelivery.v
ClientBuckets.v
ClientUploads.v
GLES2Dispatch.v
ProgramExamples.v
ContextExamples.v
ClientExamples.v
GLES2EndToEnd.v
GLES2Examples.v
DrawExamples.v
