(* ===== verification/Prelude.v ===== *)
(** * The GPU command buffer of Chromium: a verification library

    The program is [src/src/gpu/command_buffer] (paths below are relative to it): the
    protocol by which a sandboxed renderer, the client, has the privileged GPU process,
    the service, execute OpenGL ES commands.  The client is not trusted: whatever it
    writes to shared memory and however it orders its messages, the service must not
    read or write outside its buffers, and must hand the driver only calls that stay
    inside the objects they name.

    ** Parts

    _The wire._  [CmdFormat] ([common/cmd_buffer_common.{h,cc}], [common/constants.h]):
    entries of 32 bits, command headers, the twelve common commands with their writing
    and reading back.  [RingProtocol]: what client and service agree on, the layout of a
    queue of commands in the ring buffer.  [GLES2Format] and [GLES2Commands]
    ([common/gles2_cmd_format.h], [common/gles2_cmd_format_autogen.h],
    [common/gles2_cmd_ids_autogen.h]): the structs of the 201 GLES2 commands, a value
    of [Struct] each, with what writes and reads them.

    _The service._  [CommandBufferService] ([service/command_buffer_service.{h,cc}]):
    offsets, token, error state, the ring buffer and the registry of transfer buffers.
    [CmdParser] ([service/cmd_parser.{h,cc}]): cuts commands out of the ring buffer.
    [CommonDecoder] ([service/common_decoder.{h,cc}]): buckets, call stack, checked
    shared memory, and the handlers of the common commands.  [GpuScheduler]
    ([service/gpu_scheduler.cc], and [DoCommand] of [service/gles2_cmd_decoder.cc]) ties
    them: a flush runs the parser, which runs the decoder, which moves the parser.

    _The client._  [CmdBufferHelper] ([client/cmd_buffer_helper.{h,cc}]): space in the
    ring buffer, wrapping, flushing, tokens.  [GLES2CmdHelper]
    ([client/gles2_cmd_helper.h], [client/gles2_cmd_helper_autogen.h]): a method per GLES2
    command.  [FencedAllocator],
    [FencedAllocatorWrapper] ([client/fenced_allocator.{h,cc}]), [RingBuffer]
    ([client/ring_buffer.{h,cc}]) and [MappedMemory] ([client/mapped_memory.{h,cc}]):
    allocators of shared memory that reuse it once a token has passed.  [IdAllocator]
    ([common/id_allocator.{h,cc}]): the names of resources.

    _The state of OpenGL ES in the service._  [GLES2Util]
    ([common/gles2_cmd_utils.{h,cc}]): checked arithmetic and sizes of images.
    [Validators] ([service/gles2_cmd_validation.h] and its generated tables) and
    [FeatureInfo] ([service/feature_info.{h,cc}]): which enumerants are valid, and how
    the extensions of the driver add to them.  [BufferManager]
    ([service/buffer_manager.{h,cc}]), [VertexAttribManager]
    ([service/vertex_attrib_manager.{h,cc}]), and [DrawValidation], the handlers of
    [service/gles2_cmd_decoder.cc] that fill buffers and let draw calls through.
    [TextureInfo] and [TextureManager] ([service/texture_manager.{h,cc}]): levels and
    parameters of textures, and whether they can be rendered.
    [RenderbufferManager] and [FramebufferManager]
    ([service/renderbuffer_manager.{h,cc}], [service/framebuffer_manager.{h,cc}]): what is
    attached to framebuffers, and whether it was ever cleared.

    _The texture and framebuffer commands_ of [service/gles2_cmd_decoder.cc] and
    [service/gles2_cmd_decoder_autogen.h].  [ContextState]: the members of a context that
    these commands use, as a record [Context] over the managers of its group, with the
    calls that reached the driver and the errors raised, in order; [ContextInvariant]: what
    is true of it, and of the driver after those calls.  [TextureDecoder]: binding,
    parameters, uploads, sub-images, compressed images, copies.  [FramebufferDecoder]:
    framebuffers, renderbuffers, the clearing of new ones, masks and capabilities, clears.
    [ObjectNames]: the generation, deletion and testing of names.  [ReadPixels]:
    [HandleReadPixels].  [ContextCommands]: a new context, the fifty commands as one
    relation, reachability.  [ContextExamples]: a small context at work.

    _Shaders and programs._  [Names] and [Uniforms]: the names of variables and how they are
    looked up, by the service and by the client.  [ShaderManager] and [ProgramManager]
    ([service/shader_manager.{h,cc}], [service/program_manager.{h,cc}]): the objects, what is
    read from the driver after a link, use counts, and the bucket that describes a program;
    [ProgramInvariant] and [ProgramCounting]: what is true of the tables of a program and of the
    bucket, and of the counts.  [ProgramInfoManager]
    ([client/program_info_manager.cc]): the client's cache of that bucket, and
    [ProgramRoundTrip]: the cache against the service.  [ProgramDecoder], [UniformDecoder] and
    [ProgramQueries]: the handlers of [service/gles2_cmd_decoder.cc] and
    [service/gles2_cmd_decoder_autogen.h] that make, link and use programs, set uniforms, and
    answer questions; [ProgramSafety] and [ProgramCommands]: their safety one by one, then the
    seventy commands as one function, with reachability.  [DrawTextures]: the black texture
    that replaces what cannot be sampled while a draw runs.  [ProgramExamples]: a program
    that is linked and used.

    _The whole decoder._  [Floats]: floating point numbers as their bits.  [DecoderState]:
    [GLES2DecoderImpl] with all of the above, the error bits and the calls of the driver in
    one order, and the monad of its handlers; [HandlerSafety]: a small logic for them, of
    good states and of room in the client's memory; [VertexSafety]: what the commands of
    vertex attributes keep.  [BufferDecoder]: buffers and the values of
    attributes.  [QueryDecoder] and [QuerySafety]: [GetHelper] and every [glGet], errors,
    strings; [AttribRoundTrip]: values set and asked for, errors recorded and told.
    [StateDecoder]: the handlers that check their arguments and call the driver, the forms of
    [glTexParameter], shared ids, features.  [DrawCalls]: [HandleDrawArrays] and
    [HandleDrawElements] from the checks to what is given back, with the buffers that stand in
    for attribute 0 and for attributes of type [GL_FIXED]; [AttribSimulation]: what the first
    of them holds, in the driver.  [DecoderCommands]: these commands as one type.
    [DrawExamples]: a program that draws.

    _The API of the client_, [client/gles2_implementation.{h,cc}] and
    [client/gles2_implementation_autogen.h].  [Connection]: what [GLES2Implementation] asks of its
    helper and of the memory it shares, as an interface; a service that works by a schedule.
    [TransferBuffer]: [AlignedRingBuffer], and how data is put there for a command and given
    back with a token.  [ClientState]: the members, the monad of methods, errors, results,
    uploads and downloads, buckets, ids and their handlers; [ClientBindings]: what is bound,
    the names of objects, errors asked for; [ClientBuffers]: buffers, vertex attributes, draws
    with vertices in the client's memory; [ClientTextures]: images, flipping, pixels read back,
    mapped images; [ClientPrograms]: shaders, programs, queries, streams, the constructor;
    [ClientCommands]: the generated methods.  [ClientDelivery]: a program logic of what a method
    issues and what its commands find; [ClientUploads], [ClientBuckets]: buffers,
    images and buckets on their way.  [ClientExamples]: a client at work, and going wrong.

    _From words to handlers._  [GLES2Dispatch]: the switch of [DoCommand], which takes the
    words of a command to the handlers of the parts above, all but six of two hundred.
    [GLES2EndToEnd]: a client that
    calls methods of the helper, through the ring buffer, the parser and the switch, to the
    state of the context; [GLES2Examples]: such a client.

    ** How the parts meet

    Definitions keep the names of the source; a class of the source is a [Record] of
    its members (a trailing underscore as in the source), a method a definition whose
    last argument is the state.  Code that can go wrong answers in [outcome]: [Done],
    [UB] where the C++ would read or write outside an array or dereference a null
    pointer, [Fuel] for a loop that was cut off.  Shared objects (buffers, textures)
    live in a store and are named by addresses, so that a deleted object that is still
    bound behaves as in the source.  An array is a list indexed by [Z]; machine integers
    are [Z] with [u8], [u16], [u32], [i32], [usize] after operations that can wrap.

    Components are proved against interfaces and then joined.  [AsyncAPIInterface]
    stands between the parser and the decoder, [CommandBufferEngine] between the decoder
    and the scheduler, [GLES2Handlers] for the handlers behind the scheduler;
    [CommandBuffer] with its laws [CommandBufferLaws] between the client's helper and
    whatever carries its commands, which [InProcess] shows the service to meet;
    [TokenHelper] with [TokenLaws] ([Tokens]) between the allocators and the helper, and
    [TransferBuffers] with [MappingLaws] between mapped memory and the command buffer;
    [IdAllocatorInterface] over the two allocators of ids; [CmdStruct] over the commands;
    [Connection] with [ConnectionLaws] between the methods of the client and whatever carries out
    their commands, in order, at a time nobody knows: [Link] meets it for every schedule.

    ** What the theorems show

    - The wire is lossless: commands round-trip ([fixed_command_roundtrip],
      [command_round_trip] for those of GLES2, laid out as the source asserts,
      [struct_layouts]), a client's
      queue stays first-in first-out through wrapping and concurrent reading
      ([issue_fifo], [WaitForToken_waits], [Finish_executes_all]), and client plus
      service execute exactly what was issued ([client_service_end_to_end]).  A method of
      the GLES2 helper queues its struct ([method_queues_command]), the struct reaches its
      handler with its arguments and data ([command_reaches_handler]), and a client's calls
      have, at the other end, the effect of their handlers one after the other
      ([gl_calls_end_to_end]).
    - What the methods of [GLES2Implementation] put in the transfer buffer is still there when the
      service gets to it, whatever the schedule: the rows of images, where they are not
      flipped and one fits, reach the driver through [HandleTexSubImage2D]
      ([TexSubImage2D_arrives]), buffers arrive byte for byte ([BufferSubData_arrives]), and buckets
      there and back, from the handlers of the common commands ([bucket_contents_round_trip]).
    - The service is safe from any client: every reachable step of the process stays
      inside the ring, shared memory, buckets and objects of the decoder
      ([gpu_reachable_safe], with [ProcessCommand_in_bounds] and [DoCommonCommand_safe] for
      the parts), and whatever words a client writes behind the id of a GLES2 command, the
      switch and the handlers answer ([gles2_stream_safe]): up to the first GLES2 command that
      is not [careful], one of the six without a model or a use of one of the others in front
      of which the source has no check; the driver is taken to keep its documented promises
      ([driver_promised]).  A flush stops early only for an error or by descheduling
      ([PutChanged_outcome]).
    - The registry of transfer buffers refines a finite map
      ([RegisterTransferBuffer_refines_insert], [DestroyTransferBuffer_refines_delete],
      [registry_reachable_ok]); buckets collect their chunks
      ([bucket_collects_chunks], [SetFromString_GetAsString]).
    - The allocators hand out disjoint memory whose token has passed, always return, and
      find memory whenever there is enough ([Alloc_takes_passed_memory],
      [allocator_reachable_consistent], [Alloc_succeeds_iff],
      [destructor_leaves_one_free_block], [Free_of_Alloc], [RingBuffer_Alloc_room],
      [mapped_memory_reachable]); ids are fresh and refine a set
      ([allocate_all_distinct], [IdAllocator_refines_set]).
    - Sizes of images cover what an upload reads, and overflow is refused
      ([ComputeImageDataSize_covers]); pixels of every valid format have a size
      ([valid_pixels_have_size]), whatever features were requested
      ([features_advertised]).
    - Draw calls pass the checks only inside the buffers
      ([draw_arrays_in_bounds], [draw_elements_in_bounds], [GetMaxValueForRange_bounds]); the
      driver draws at most once for a command, and then with a complete framebuffer, a linked
      program, the masks of the context, textures that can be rendered, and vertices and
      indices inside their buffers ([draw_arrays_reaches_driver],
      [draw_elements_reaches_driver]: no attribute is of fixed point, elements are no wider than
      the stride, the masks were current).  Where attribute 0 is simulated, the buffer it reads
      from holds its current value for every vertex, if the driver has the memory and nothing
      else writes there ([attribute_0_stands_in]).
    - What is set is what is answered, to the bit ([vertex_attrib_round_trip]), and the errors
      of OpenGL are a set of which every question takes one ([errors_told_once]).
    - The cached completeness of textures is that of the standard, and what is made of it is the
      rule of the standard for textures that have the images it asks for
      ([cached_completeness_correct], [MarkMipmapsGenerated_completes]); the count of
      those that cannot be rendered is right, up to the external default texture and as long as
      the features stay the same ([unrenderable_count], [no_unrenderable_textures]).
    - A context stays sound under any sequence of those fifty commands
      ([context_safe]: no null pointer, index out of range or access out of shared memory;
      every upload brings the bytes that the driver reads), and draws with the masks that
      its state asks for ([clears_with_current_masks]).  What is attached is
      cleared first ([ClearUnclearedRenderbuffers_clears]); sub-images and copies
      stay inside the level and the framebuffer ([sub_image_inside], [copy_inside]);
      [HandleReadPixels] writes only where it was told to ([ReadPixels_safe]) and what the
      framebuffer holds ([ReadPixels_content]).
    - Commands of shaders, programs and uniforms are safe in every order, if the driver
      locates what it says is active and two preconditions hold that the source leaves
      unchecked ([program_commands_safe], [command_ok]); use counts count, and the program in
      use was linked ([program_counts], [CheckCurrentProgram_exact]).  The table of locations
      is the inverse of the uniforms ([Update_locations]), elements of arrays are found by
      their names ([uniform_element_found]), and the client reads back what the service wrote
      ([program_info_round_trip], [active_answer_bounded]).
    - A draw samples no texture that cannot be rendered, without external textures
      ([draw_samples_renderable]); what is bound after it is known exactly, and is what was bound
      before where each was the last of its unit ([textures_after_draw]).
    - Where the source misbehaves, a theorem shows how: [DoCommonCommand_unknown_diverges],
      [put_at_end_never_returns], [Initialize_without_memory_crashes],
      [lost_context_overruns_ring], [overlapping_vertices_overrun],
      [empty_texture_renders], [incomplete_cube_renders], [external_texture_hides_one],
      [npot_lost_uncounted], [AddFeatures_forgets_npot],
      [Clip_overflows], [read_framebuffer_not_cleared], [storage_after_attach_uncleared],
      [storage_keeps_stale_masks], [deleted_framebuffer_read], [uniform_prefix_confused],
      [unlocated_element_written_out_of_bounds], [short_array_elements_lost],
      [max_length_differs], [detached_shader_read_after_free],
      [attached_shaders_beyond_memory], [attached_deleted_shader_is_an_error],
      [deleted_program_used_again], [stale_program_info], [black_texture_left],
      [oversized_command_hangs], [unsized_methods], [unsized_commands],
      [out_of_memory_rebinds], [sub_rows_read_past_end], [flipped_row_misplaced],
      [invalid_alignment_used], [negative_length_read_past_end], [shared_ids_without_room],
      [long_binary_without_room], [deleted_texture_stays_bound], [compressed_formats_refused].

    ** Bounds and fuel

    Loops over the messages of the other side take fuel; the theorems say how much is
    enough.  The helper's waits ([WaitForAvailableEntries], [Finish], [WaitForToken]) need
    one flush per usable entry of the ring: each flush with a reader that works moves it
    by a command at least.  The loops of the allocators take the number of their blocks as
    fuel, inside their definitions, and the theorems show [Done].  [PutChanged] runs for
    as long as the client's program says (the commands have jumps), so its theorems hold
    for any fuel, and [put_at_end_never_returns] is about all of it.  [depth] bounds the
    recursion of [DoCommonCommand] on unknown commands, which is infinite in the source.
    [size_t] is 32 or 64 bits wide ([Platform]); all theorems hold for both.

    ** Not modelled

    Logging and [ReportError]; reference counts, so that an object is never reclaimed
    while its address is held; the unmapping of memory; the clock of the helper, an
    argument; the driver, whose answers are arguments; the shared memory of the operating
    system, whose answers are arguments; transfer buffers that alias the ring buffer.
    Of two hundred GLES2 handlers six: [HandleSwapBuffers], [HandleResizeCHROMIUM],
    [HandleGetRequestableExtensionsCHROMIUM], [HandleRequestExtensionCHROMIUM], and the two of
    stream textures; the switch takes them as a parameter, and the theorems of safety stop in front
    of them.  Of the context: one context per group; the resolve of a
    multisampled back buffer; the part of [Initialize] that reads the
    limits and makes the offscreen target, which are constants; in the handlers of textures and
    programs, the errors that the driver raised before a command
    ([CopyRealGLErrorsToWrapper]); the overflow of the
    count of attachments of a texture.  The
    names in a command are read from shared memory once, where the source reads them
    twice.  Of programs: the shader translator and what the driver tells of a linked program,
    which are answers; the overflow of use counts and of the index in a name.
    Of the client: [Connection] is an interface there, and the ring buffer with the service is
    proved against [CommandBuffer], the one below it; output pointers are not null; the text of
    the last error.
    The names of enumerants, which only messages use.  Around the
    command buffer, the rest of the browser: processes, IPC, networking, user interface. *)

From Stdlib Require Import ZArith Lia ZifyBool Bool.
From stdpp Require Import base list gmap numbers option sorting.

#[global] Open Scope Z_scope.

Declare Scope gpu_scope.
Delimit Scope gpu_scope with gpu.

(** ** Machine integers

    Values are kept as [Z] inside their range; every operation of the source
    that can leave the range is followed by the wrap-around of its type. *)

Definition u8 (x : Z) : Z := x mod 2 ^ 8.
Definition u16 (x : Z) : Z := x mod 2 ^ 16.
Definition u32 (x : Z) : Z := x mod 2 ^ 32.
Definition i32 (x : Z) : Z := (x + 2 ^ 31) mod 2 ^ 32 - 2 ^ 31.

(** The width of [size_t]: 32 bits on the armhf and ia32 builds, 64 bits on the
    amd64 build.  Every theorem holds on each of them. *)
Class Platform := {
  size_bits : Z;
  size_bits_ok : size_bits = 32 \/ size_bits = 64;
}.

Definition usize `{Platform} (x : Z) : Z := x mod 2 ^ size_bits.

#[export] Instance armhf : Platform :=
  {| size_bits := 32; size_bits_ok := or_introl eq_refl |}.

Definition is_u32 (x : Z) : Prop := 0 <= x < 2 ^ 32.
Definition is_i32 (x : Z) : Prop := - 2 ^ 31 <= x < 2 ^ 31.
Definition all_u32 (ws : list Z) : bool :=
  forallb (fun x => (0 <=? x) && (x <? 2 ^ 32)) ws.
Definition is_byte (x : Z) : Prop := 0 <= x < 256.

(** ** Arrays

    A C array is a list read and written at a [Z] index: [None] is the access
    outside the array, which is undefined behaviour in the source. *)

Section arrays.
Context {A : Type}.
Implicit Types (l : list A).

Definition zlen l : Z := Z.of_nat (length l).

Definition zget l (i : Z) : option A :=
  if 0 <=? i then l !! Z.to_nat i else None.

Definition zset l (i : Z) (x : A) : option (list A) :=
  if (0 <=? i) && (i <? zlen l) then Some (<[Z.to_nat i := x]> l) else None.

(** [memcpy] out of an array: [n] elements from index [off]. *)
Definition zread l (off n : Z) : option (list A) :=
  if (0 <=? off) && (0 <=? n) && (off + n <=? zlen l)
  then Some (take (Z.to_nat n) (drop (Z.to_nat off) l)) else None.

(** [memcpy] into an array: the whole of [src] at index [off]. *)
Definition zwrite l (off : Z) (src : list A) : option (list A) :=
  if (0 <=? off) && (off + zlen src <=? zlen l)
  then Some (take (Z.to_nat off) l ++ src
             ++ drop (Z.to_nat off + length src) l) else None.

End arrays.

(** ** [std::set]: a finite set visited in increasing order *)

Section ordered_set.
Implicit Types s : gset Z.

Definition set_seq s : list Z := merge_sort Z.le (elements s).

(** [*begin()] and [*rbegin()] of a set, [None] at [end()]. *)
Definition set_begin s : option Z := head (set_seq s).
Definition set_rbegin s : option Z := last (set_seq s).

(** [lower_bound(d)]: the first element that is not below [d]. *)
Definition set_lower_bound (d : Z) s : option Z :=
  head (filter (fun x => d <= x) (set_seq s)).

End ordered_set.

(** ** Little-endian storage of 32-bit words, as on every supported target. *)

Fixpoint le_bytes (n : nat) (w : Z) : list Z :=
  match n with
  | O => []
  | S n => w mod 256 :: le_bytes n (w / 256)
  end.

Fixpoint le_word (bs : list Z) : Z :=
  match bs with
  | [] => 0
  | b :: bs => b + 256 * le_word bs
  end.

Definition words_to_bytes (ws : list Z) : list Z := flat_map (le_bytes 4) ws.

Fixpoint bytes_to_words (bs : list Z) : list Z :=
  match bs with
  | b0 :: b1 :: b2 :: b3 :: bs => le_word [b0; b1; b2; b3] :: bytes_to_words bs
  | _ => []
  end.

(** ** Outcomes of stateful code

    [UB] is undefined behaviour of the C++ source (a read or write outside an
    array), [Fuel] a loop that was still running when its bound ran out. *)
Inductive outcome (A : Type) : Type :=
| Done (a : A)
| UB
| Fuel.
Arguments Done {A} a.
Arguments UB {A}.
Arguments Fuel {A}.

Definition obind {A B} (m : outcome A) (f : A -> outcome B) : outcome B :=
  match m with
  | Done a => f a
  | UB => UB
  | Fuel => Fuel
  end.

Definition of_option {A} (o : option A) : outcome A :=
  match o with
  | Some a => Done a
  | None => UB
  end.

Notation "'do' x <- c ;; k" := (obind c (fun x => k))
  (at level 10, x pattern, c at level 99, k at level 200) : gpu_scope.

Definition safe {A} (m : outcome A) : Prop := m <> UB.

(** Reflexive transitive closure of a step relation. *)
Inductive steps {S : Type} (R : S -> S -> Prop) : S -> S -> Prop :=
| steps_refl s : steps R s s
| steps_next s1 s2 s3 : steps R s1 s2 -> R s2 s3 -> steps R s1 s3.

(** ** Automation *)

Create HintDb gpu discriminated.
Create Rewrite HintDb gpu.
#[global] Hint Constants Opaque : gpu.
#[global] Hint Variables Opaque : gpu.
#[global] Hint Constructors steps : gpu.

(** Turn every boolean comparison of the context and the goal into the
    proposition it decides. *)
Ltac zbool :=
  repeat match goal with
  | H : (_ && _) = true |- _ => apply andb_prop in H; destruct H
  | H : (_ && _) = false |- _ => apply andb_false_iff in H
  | H : (_ || _) = true |- _ => apply orb_prop in H
  | H : (_ || _) = false |- _ => apply orb_false_elim in H; destruct H
  | H : negb _ = true |- _ => apply negb_true_iff in H
  | H : negb _ = false |- _ => apply negb_false_iff in H
  | H : (_ <? _) = true |- _ => apply Z.ltb_lt in H
  | H : (_ <? _) = false |- _ => apply Z.ltb_ge in H
  | H : (_ <=? _) = true |- _ => apply Z.leb_le in H
  | H : (_ <=? _) = false |- _ => apply Z.leb_gt in H
  | H : (_ =? _) = true |- _ => apply Z.eqb_eq in H
  | H : (_ =? _) = false |- _ => apply Z.eqb_neq in H
  | H : (_ >? _) = _ |- _ => rewrite Z.gtb_ltb in H
  | H : (_ >=? _) = _ |- _ => rewrite Z.geb_leb in H
  end.

(** Case analysis on the first test of the goal, or of hypothesis [H]. *)
Ltac ztest := case_match; zbool.
Ltac zauto := zbool; simplify_eq/=; try lia; eauto with gpu.

(** Run a computation that is known to be done, from the hypothesis [H]. *)
Ltac orun H :=
  repeat (cbn [obind of_option] in H;
    match type of H with
    | obind ?m _ = Done _ => let E := fresh "E" in destruct m eqn:E; [|discriminate H..]
    | (let '(_, _) := ?p in _) = Done _ => let E := fresh "E" in destruct p eqn:E
    | match ?m with _ => _ end = Done _ =>
        let E := fresh "E" in destruct m eqn:E; try discriminate H
    end); try (injection H as ?; subst).

(** Prove a conditional's test from the arithmetic in the context. *)
Ltac btrue t := replace t with true by lia.
Ltac bfalse t := replace t with false by lia.

(** ** Lemmas on machine integers *)

Lemma u32_id x : is_u32 x -> u32 x = x.
Proof. intros H. apply Z.mod_small, H. Qed.

Lemma u32_range x : is_u32 (u32 x).
Proof. apply Z.mod_pos_bound. lia. Qed.

Lemma i32_id x : is_i32 x -> i32 x = x.
Proof. unfold is_i32, i32. intros H. rewrite Z.mod_small; lia. Qed.

Lemma i32_wrap x : 2 ^ 31 <= x < 2 ^ 32 + 2 ^ 31 -> i32 x = x - 2 ^ 32.
Proof.
  intros Hx. unfold i32. replace (x + 2 ^ 31) with (x - 2 ^ 31 + 1 * 2 ^ 32) by lia.
  rewrite Z.mod_add, Z.mod_small by lia. lia.
Qed.

Lemma i32_range x : is_i32 (i32 x).
Proof.
  unfold is_i32, i32.
  pose proof (Z.mod_pos_bound (x + 2 ^ 31) (2 ^ 32) ltac:(lia)). lia.
Qed.

Lemma i32_u32 x : i32 (u32 x) = i32 x.
Proof. unfold i32, u32. by rewrite Zplus_mod_idemp_l. Qed.

Lemma u32_u32 x : u32 (u32 x) = u32 x.
Proof. apply u32_id, u32_range. Qed.

Lemma all_u32_ok ws : all_u32 ws = true -> Forall is_u32 ws.
Proof.
  unfold all_u32. induction ws as [|w ws IH]; simpl; [by constructor|].
  intros [H1 H2]%andb_prop. constructor; [|by apply IH]. unfold is_u32. lia.
Qed.

(** The sum of two unsigned values, when it overflows, is below each of them:
    the test by which the source detects overflow. *)
Lemma u32_add_cases a b :
  is_u32 a -> is_u32 b ->
  (a + b < 2 ^ 32 /\ u32 (a + b) = a + b) \/
  (2 ^ 32 <= a + b /\ u32 (a + b) = a + b - 2 ^ 32).
Proof.
  unfold is_u32, u32. intros Ha Hb.
  destruct (Z.lt_ge_cases (a + b) (2 ^ 32)); [left | right]; split; try lia.
  - apply Z.mod_small; lia.
  - rewrite <- (Z_mod_plus_full (a + b) (-1) (2 ^ 32)). rewrite Z.mod_small; lia.
Qed.

Lemma usize_add_cases `{Platform} a b :
  0 <= a < 2 ^ size_bits -> 0 <= b < 2 ^ size_bits ->
  (a + b < 2 ^ size_bits /\ usize (a + b) = a + b) \/
  (2 ^ size_bits <= a + b /\ usize (a + b) = a + b - 2 ^ size_bits).
Proof.
  unfold usize. intros Ha Hb.
  destruct (Z.lt_ge_cases (a + b) (2 ^ size_bits)); [left | right]; split; try lia.
  - apply Z.mod_small; lia.
  - rewrite <- (Z_mod_plus_full (a + b) (-1) (2 ^ size_bits)).
    rewrite Z.mod_small; lia.
Qed.

Lemma u32_is_usize `{Platform} x : is_u32 x -> 0 <= x < 2 ^ size_bits.
Proof. unfold is_u32. destruct size_bits_ok as [-> | ->]; lia. Qed.

#[export] Hint Resolve u32_range i32_range u32_is_usize : gpu.
#[export] Hint Rewrite u32_u32 i32_u32 : gpu.

(** ** Lemmas on arrays *)

Section array_lemmas.
Context {A : Type}.
Implicit Types (l src : list A).

Lemma zlen_nonneg l : 0 <= zlen l.
Proof. unfold zlen. lia. Qed.

Lemma zlen_app l1 l2 : zlen (l1 ++ l2) = zlen l1 + zlen l2.
Proof. unfold zlen. rewrite length_app. lia. Qed.

Lemma zlen_cons x l : zlen (x :: l) = 1 + zlen l.
Proof. unfold zlen. simpl length. lia. Qed.

Lemma zget_in l i : 0 <= i < zlen l -> exists x, zget l i = Some x.
Proof.
  unfold zget, zlen. intros H. btrue (0 <=? i).
  apply lookup_lt_is_Some_2. lia.
Qed.

Lemma zget_range l i x : zget l i = Some x -> 0 <= i < zlen l.
Proof.
  unfold zget, zlen. ztest; [|done]. intros H1%lookup_lt_Some. lia.
Qed.

Lemma elem_of_zget l x : x ∈ l <-> exists i, zget l i = Some x.
Proof.
  rewrite list_elem_of_lookup. unfold zget. split.
  - intros [i Hi]. exists (Z.of_nat i). rewrite Nat2Z.id. by btrue (0 <=? Z.of_nat i).
  - intros [i Hi]. case_match; [eauto|done].
Qed.

Lemma zset_in l i x : 0 <= i < zlen l -> zset l i x = Some (<[Z.to_nat i := x]> l).
Proof. intros H. unfold zset. by btrue ((0 <=? i) && (i <? zlen l)). Qed.

Lemma zset_inv l l' i x :
  zset l i x = Some l' -> 0 <= i < zlen l /\ l' = <[Z.to_nat i := x]> l.
Proof. unfold zset. ztest; [|done]. intros ?; simplify_eq. auto with lia. Qed.

Lemma zlen_zset l l' i x : zset l i x = Some l' -> zlen l' = zlen l.
Proof. intros [_ ->]%zset_inv. unfold zlen. by rewrite length_insert. Qed.

Lemma zget_zset l l' i j x :
  zset l i x = Some l' -> zget l' j = if i =? j then Some x else zget l j.
Proof.
  intros [Hi ->]%zset_inv. unfold zget, zlen in *.
  destruct (0 <=? j) eqn:Hj; zbool; [|ztest; [lia|done]].
  destruct (i =? j) eqn:Hij; zbool.
  - subst. apply list_lookup_insert_eq. lia.
  - apply list_lookup_insert_ne. lia.
Qed.

Lemma zread_in l off n :
  0 <= off -> 0 <= n -> off + n <= zlen l ->
  zread l off n = Some (take (Z.to_nat n) (drop (Z.to_nat off) l)).
Proof.
  intros. unfold zread.
  by btrue ((0 <=? off) && (0 <=? n) && (off + n <=? zlen l)).
Qed.

Lemma zread_inv l off n r :
  zread l off n = Some r ->
  0 <= off /\ 0 <= n /\ off + n <= zlen l /\
  r = take (Z.to_nat n) (drop (Z.to_nat off) l).
Proof. unfold zread. ztest; [|done]. intros ?; simplify_eq. auto with lia. Qed.

Lemma zlen_zread l off n r : zread l off n = Some r -> zlen r = n.
Proof.
  intros (?&?&?&->)%zread_inv. unfold zlen in *.
  rewrite length_take, length_drop. lia.
Qed.

Lemma zread_lookup l off n r i :
  zread l off n = Some r -> 0 <= i < n -> zget r i = zget l (off + i).
Proof.
  intros (?&?&?&->)%zread_inv Hi. unfold zget, zlen in *.
  btrue (0 <=? i). btrue (0 <=? off + i).
  rewrite lookup_take_lt, lookup_drop by lia. f_equal. lia.
Qed.

Lemma zwrite_in l off src :
  0 <= off -> off + zlen src <= zlen l ->
  zwrite l off src = Some (take (Z.to_nat off) l ++ src
                           ++ drop (Z.to_nat off + length src) l).
Proof.
  intros. unfold zwrite.
  by btrue ((0 <=? off) && (off + zlen src <=? zlen l)).
Qed.

Lemma zwrite_inv l off src l' :
  zwrite l off src = Some l' ->
  0 <= off /\ off + zlen src <= zlen l /\
  l' = take (Z.to_nat off) l ++ src ++ drop (Z.to_nat off + length src) l.
Proof. unfold zwrite. ztest; [|done]. intros ?; simplify_eq. auto with lia. Qed.

Lemma zlen_zwrite l off src l' : zwrite l off src = Some l' -> zlen l' = zlen l.
Proof.
  intros (?&?&->)%zwrite_inv. unfold zlen in *.
  rewrite !length_app, length_take, length_drop. lia.
Qed.

Lemma zget_zwrite l off src l' i :
  zwrite l off src = Some l' ->
  zget l' i = if (off <=? i) && (i <? off + zlen src)
              then zget src (i - off) else zget l i.
Proof.
  intros (?&?&->)%zwrite_inv. unfold zget, zlen in *.
  destruct (0 <=? i) eqn:Hi; zbool.
  - destruct (_ && _) eqn:Hr; zbool.
    + btrue (0 <=? i - off).
      rewrite lookup_app_r by (rewrite length_take; lia).
      rewrite length_take, lookup_app_l by lia. f_equal. lia.
    + destruct (Z.lt_ge_cases i off).
      * rewrite lookup_app_l by (rewrite length_take; lia).
        by rewrite lookup_take_lt by lia.
      * rewrite lookup_app_r by (rewrite length_take; lia).
        rewrite lookup_app_r by (rewrite length_take; lia).
        rewrite length_take, lookup_drop. f_equal. lia.
  - by bfalse ((off <=? i) && (i <? off + Z.of_nat (length src))).
Qed.

Lemma zlist_eq l1 l2 :
  zlen l1 = zlen l2 -> (forall i, 0 <= i < zlen l1 -> zget l1 i = zget l2 i) ->
  l1 = l2.
Proof.
  unfold zlen, zget. intros Hlen H.
  apply list_eq_same_length with (length l1); [lia|done|].
  intros i x y Hi Hx Hy. specialize (H (Z.of_nat i)).
  rewrite Nat2Z.id, (proj2 (Z.leb_le 0 (Z.of_nat i))) in H by lia.
  rewrite H in Hx by lia. congruence.
Qed.

End array_lemmas.

(** ** Lemmas on ordered sets *)

Section ordered_set_lemmas.
Implicit Types s : gset Z.

Lemma elem_of_set_seq x s : x ∈ set_seq s <-> x ∈ s.
Proof. unfold set_seq. by rewrite merge_sort_Permutation, elem_of_elements. Qed.

Lemma set_seq_sorted s : StronglySorted Z.le (set_seq s).
Proof. apply (StronglySorted_merge_sort _). Qed.

Lemma set_seq_NoDup s : NoDup (set_seq s).
Proof. unfold set_seq. rewrite merge_sort_Permutation. apply NoDup_elements. Qed.

Lemma set_begin_Some x s :
  set_begin s = Some x -> x ∈ s /\ forall y, y ∈ s -> x <= y.
Proof.
  unfold set_begin. pose proof (set_seq_sorted s) as Hs.
  destruct (set_seq s) as [|z l] eqn:E; intros; simplify_eq/=. split.
  - apply elem_of_set_seq. rewrite E. apply list_elem_of_here.
  - intros y Hy%elem_of_set_seq. rewrite E in Hy.
    apply elem_of_cons in Hy as [->|Hy]; [lia|].
    inversion Hs as [|?? _ Hall]. by eapply Forall_forall in Hall.
Qed.

Lemma set_begin_None s : set_begin s = None <-> s = ∅.
Proof.
  unfold set_begin. rewrite head_None. split.
  - intros E. apply set_eq. intros x. rewrite <- elem_of_set_seq, E. set_solver.
  - intros ->. done.
Qed.

Lemma set_rbegin_Some x s :
  set_rbegin s = Some x -> x ∈ s /\ forall y, y ∈ s -> y <= x.
Proof.
  unfold set_rbegin. intros Hl. pose proof (set_seq_sorted s) as Hs.
  apply last_Some in Hl as [l E]. split.
  - apply elem_of_set_seq. rewrite E. set_solver.
  - intros y Hy%elem_of_set_seq. rewrite E in Hy, Hs.
    apply elem_of_app in Hy as [Hy|Hy%list_elem_of_singleton]; [|lia].
    eapply StronglySorted_app_1_elem_of; [exact Hs|done|set_solver].
Qed.

Lemma set_rbegin_None s : set_rbegin s = None <-> s = ∅.
Proof.
  unfold set_rbegin. rewrite last_None. split.
  - intros E. apply set_eq. intros x. rewrite <- elem_of_set_seq, E. set_solver.
  - intros ->. done.
Qed.

Lemma StronglySorted_filter {A} (R : A -> A -> Prop) (P : A -> Prop)
    `{!forall x, Decision (P x)} l :
  StronglySorted R l -> StronglySorted R (filter P l).
Proof.
  induction 1 as [|x l Hl IH Hx]; [constructor|]. rewrite filter_cons.
  case_decide; [|done]. constructor; [done|].
  apply Forall_forall. intros y [_ Hy]%list_elem_of_filter.
  by eapply Forall_forall in Hx.
Qed.

Lemma set_lower_bound_Some d x s :
  set_lower_bound d s = Some x ->
  x ∈ s /\ d <= x /\ forall y, y ∈ s -> d <= y -> x <= y.
Proof.
  unfold set_lower_bound. intros Hh.
  pose proof (StronglySorted_filter Z.le (fun x => d <= x) _ (set_seq_sorted s)) as Hs.
  assert (Hin : forall y, y ∈ filter (fun x => d <= x) (set_seq s) <-> d <= y /\ y ∈ s).
  { intros y. by rewrite list_elem_of_filter, elem_of_set_seq. }
  destruct (filter _ _) as [|z l]; simplify_eq/=.
  destruct (proj1 (Hin x)) as [Hd Hx]; [apply list_elem_of_here|].
  split_and!; [done..|]. intros y Hy Hdy.
  destruct (proj1 (elem_of_cons l y x)) as [->|Hl]; [by apply Hin|lia|].
  inversion Hs as [|?? _ Hall]. by eapply Forall_forall in Hall.
Qed.

Lemma set_lower_bound_None d s :
  set_lower_bound d s = None -> forall y, y ∈ s -> y < d.
Proof.
  unfold set_lower_bound. intros Hh%head_None y Hy.
  destruct (Z.lt_ge_cases y d); [done|].
  assert (y ∈ filter (fun x => d <= x) (set_seq s)) as Hf.
  { by rewrite list_elem_of_filter, elem_of_set_seq. }
  rewrite Hh in Hf. set_solver.
Qed.

End ordered_set_lemmas.

(** ** Lemmas on stored words *)

Lemma zlen_le_bytes n w : zlen (le_bytes n w) = Z.of_nat n.
Proof.
  revert w. induction n as [|n IH]; intros w; [done|].
  cbn [le_bytes]. rewrite zlen_cons, IH. lia.
Qed.

Lemma le_word_bytes n w : le_word (le_bytes n w) = w mod 2 ^ (8 * Z.of_nat n).
Proof.
  revert w. induction n as [|n IH]; intros w; [by rewrite Z.mod_1_r|].
  cbn [le_bytes le_word]. rewrite IH.
  replace (8 * Z.of_nat (S n)) with (8 + 8 * Z.of_nat n) by lia.
  rewrite Z.pow_add_r by lia. change (2 ^ 8) with 256.
  rewrite (Z.rem_mul_r w 256 (2 ^ (8 * Z.of_nat n))) by lia. lia.
Qed.

Lemma zlen_words_to_bytes ws : zlen (words_to_bytes ws) = 4 * zlen ws.
Proof.
  induction ws as [|w ws IH]; [done|]. unfold words_to_bytes in *. cbn [flat_map].
  rewrite zlen_app, IH, zlen_le_bytes, zlen_cons. lia.
Qed.

Lemma words_to_bytes_cons w ws : words_to_bytes (w :: ws) = le_bytes 4 w ++ words_to_bytes ws.
Proof. done. Qed.

Lemma words_to_bytes_app ws ws' : words_to_bytes (ws ++ ws') = words_to_bytes ws ++ words_to_bytes ws'.
Proof. unfold words_to_bytes. by rewrite flat_map_app. Qed.

Lemma zlen_bytes_to_words n bs : zlen bs = 4 * Z.of_nat n -> zlen (bytes_to_words bs) = Z.of_nat n.
Proof.
  revert bs. induction n as [|n IH]; intros bs Hl.
  - destruct bs; [done|]. rewrite zlen_cons in Hl. pose proof (zlen_nonneg bs). lia.
  - destruct bs as [|b0 [|b1 [|b2 [|b3 bs]]]]; try (unfold zlen in Hl; cbn in Hl; lia).
    cbn [bytes_to_words]. rewrite zlen_cons, IH; [lia|]. rewrite !zlen_cons in Hl. lia.
Qed.

Lemma le_bytes_is_byte n w : Forall is_byte (le_bytes n w).
Proof.
  revert w. induction n as [|n IH]; intros w; constructor; [|done].
  unfold is_byte. apply Z.mod_pos_bound. lia.
Qed.

Lemma words_to_bytes_is_byte ws : Forall is_byte (words_to_bytes ws).
Proof.
  induction ws as [|w ws IH]; [constructor|]. rewrite words_to_bytes_cons.
  apply Forall_app. split; [apply le_bytes_is_byte|done].
Qed.

Lemma bytes_to_words_cons w bs : bytes_to_words (le_bytes 4 w ++ bs) = u32 w :: bytes_to_words bs.
Proof. cbn [le_bytes app bytes_to_words]. f_equal. apply (le_word_bytes 4). Qed.

Lemma bytes_to_words_words ws : bytes_to_words (words_to_bytes ws) = u32 <$> ws.
Proof.
  induction ws as [|w ws IH]; [done|]. rewrite words_to_bytes_cons, bytes_to_words_cons.
  cbn. by rewrite IH.
Qed.

Lemma le_word_u32 b0 b1 b2 b3 :
  is_byte b0 -> is_byte b1 -> is_byte b2 -> is_byte b3 -> is_u32 (le_word [b0; b1; b2; b3]).
Proof. unfold is_byte, is_u32. cbn [le_word]. lia. Qed.

Lemma le_bytes_word b0 b1 b2 b3 :
  is_byte b0 -> is_byte b1 -> is_byte b2 -> is_byte b3 ->
  le_bytes 4 (le_word [b0; b1; b2; b3]) = [b0; b1; b2; b3].
Proof.
  unfold is_byte. intros. cbn [le_bytes le_word].
  assert (Hm : forall x y, 0 <= x < 256 -> (x + 256 * y) mod 256 = x).
  { intros x y Hx. rewrite Z.mul_comm, Z_mod_plus_full. by apply Z.mod_small. }
  assert (Hd : forall x y, 0 <= x < 256 -> (x + 256 * y) / 256 = y).
  { intros x y Hx. rewrite Z.mul_comm, Z.div_add by lia. rewrite Z.div_small by done. lia. }
  by rewrite ?Hm, ?Hd, ?Hm, ?Hd, ?Hm, ?Hd, ?Hm by lia.
Qed.

(** Whole words of bytes are the bytes of their words. *)
Lemma words_of_bytes n bs :
  zlen bs = 4 * Z.of_nat n -> Forall is_byte bs ->
  words_to_bytes (bytes_to_words bs) = bs /\ Forall is_u32 (bytes_to_words bs).
Proof.
  revert bs. induction n as [|n IH]; intros bs Hl Hb.
  - destruct bs; [by split; [|constructor]|]. rewrite zlen_cons in Hl. pose proof (zlen_nonneg bs). lia.
  - destruct bs as [|b0 [|b1 [|b2 [|b3 bs]]]]; try (unfold zlen in Hl; cbn in Hl; lia).
    rewrite !Forall_cons in Hb. destruct Hb as (H0 & H1 & H2 & H3 & Hb).
    rewrite !zlen_cons in Hl. destruct (IH bs) as [E Hu]; [lia|done|].
    cbn [bytes_to_words]. rewrite words_to_bytes_cons, E, le_bytes_word by done.
    split; [done|]. constructor; [by apply le_word_u32|done].
Qed.

Lemma zlen_replicate {A} n (x : A) : 0 <= n -> zlen (replicate (Z.to_nat n) x) = n.
Proof. unfold zlen. rewrite length_replicate. lia. Qed.

Lemma zlen_drop {A} (l : list A) i :
  0 <= i <= zlen l -> zlen (drop (Z.to_nat i) l) = zlen l - i.
Proof. unfold zlen. intros. rewrite length_drop. lia. Qed.

Lemma zread_Some {A} (l : list A) off n :
  0 <= off -> 0 <= n -> off + n <= zlen l ->
  exists r, zread l off n = Some r /\ zlen r = n.
Proof.
  intros. rewrite zread_in by done. eexists. split; [done|].
  unfold zlen in *. rewrite length_take, length_drop. lia.
Qed.

Lemma zwrite_Some {A} (l src : list A) off :
  0 <= off -> off + zlen src <= zlen l ->
  exists l', zwrite l off src = Some l' /\ zlen l' = zlen l.
Proof.
  intros. destruct (zwrite l off src) as [l'|] eqn:E.
  - eexists. split; [done|]. by eapply zlen_zwrite.
  - by rewrite zwrite_in in E.
Qed.

Lemma zwrite_Forall {A} (P : A -> Prop) (l src l' : list A) off :
  Forall P l -> Forall P src -> zwrite l off src = Some l' -> Forall P l'.
Proof.
  intros Hl Hs (_ & _ & ->)%zwrite_inv. rewrite !Forall_app.
  auto using Forall_take, Forall_drop.
Qed.

(** What is written is read, and what is not written stays. *)
(** One piece after the other is the whole. *)
Lemma zwrite_app {A} (l src1 src2 l1 : list A) off :
  zwrite l off src1 = Some l1 -> off + zlen src1 + zlen src2 <= zlen l ->
  zwrite l1 (off + zlen src1) src2 = zwrite l off (src1 ++ src2).
Proof.
  intros E1 Hl. pose proof (zlen_zwrite _ _ _ _ E1) as Hl1. pose proof (zwrite_inv _ _ _ _ E1) as (Ho & _ & _).
  pose proof (zlen_nonneg src1). pose proof (zlen_nonneg src2).
  destruct (zwrite_Some l1 src2 (off + zlen src1)) as (l2 & E2 & Hl2); [lia..|].
  destruct (zwrite_Some l (src1 ++ src2) off) as (l3 & E3 & Hl3); [lia|rewrite zlen_app; lia|].
  rewrite E2, E3. f_equal. apply zlist_eq; [lia|]. intros i Hi.
  rewrite (zget_zwrite _ _ _ _ i E2), (zget_zwrite _ _ _ _ i E1), (zget_zwrite _ _ _ _ i E3), zlen_app.
  destruct (Z.lt_ge_cases i off); [by bfalse (off <=? i); bfalse (off + zlen src1 <=? i)|]. btrue (off <=? i).
  unfold zget. btrue (0 <=? i - off). destruct (Z.lt_ge_cases i (off + zlen src1)).
  - bfalse (off + zlen src1 <=? i). btrue (i <? off + zlen src1). btrue (i <? off + (zlen src1 + zlen src2)). cbn [andb].
    unfold zlen in *. by rewrite lookup_app_l by lia.
  - btrue (off + zlen src1 <=? i). bfalse (i <? off + zlen src1). cbn [andb].
    replace (i <? off + (zlen src1 + zlen src2)) with (i <? off + zlen src1 + zlen src2) by lia.
    case_match; [|done]. btrue (0 <=? i - (off + zlen src1)). unfold zlen in *. rewrite lookup_app_r by lia. f_equal. lia.
Qed.

Lemma zread_written {A} (l l' src : list A) off : zwrite l off src = Some l' -> zread l' off (zlen src) = Some src.
Proof.
  intros Hw. pose proof (zlen_zwrite _ _ _ _ Hw) as Hl. pose proof (zwrite_inv _ _ _ _ Hw) as (H1 & H2 & _).
  pose proof (zlen_nonneg src). destruct (zread_Some l' off (zlen src)) as (r & E1 & Hr); [lia..|]. rewrite E1. f_equal.
  apply zlist_eq; [done|]. intros i Hi. rewrite (zread_lookup _ _ _ _ _ E1), (zget_zwrite _ _ _ _ _ Hw) by lia.
  btrue ((off <=? off + i) && (off + i <? off + zlen src)). f_equal. lia.
Qed.

Lemma zread_unwritten {A} (l l' src : list A) off o n :
  zwrite l off src = Some l' -> o + n <= off \/ off + zlen src <= o -> zread l' o n = zread l o n.
Proof.
  intros Hw Hd. pose proof (zlen_zwrite _ _ _ _ Hw) as Hl. destruct ((0 <=? o) && (0 <=? n) && (o + n <=? zlen l)) eqn:Eb.
  - destruct (zread_Some l' o n) as (r & E1 & Hr); [lia..|]. destruct (zread_Some l o n) as (r' & E2 & Hr'); [lia..|].
    rewrite E1, E2. f_equal. apply zlist_eq; [lia|]. intros i Hi.
    rewrite (zread_lookup _ _ _ _ _ E1), (zread_lookup _ _ _ _ _ E2), (zget_zwrite _ _ _ _ _ Hw) by lia.
    by bfalse ((off <=? o + i) && (o + i <? off + zlen src)).
  - unfold zread. rewrite Hl. by rewrite Eb.
Qed.

Lemma zread_append {A} (l r1 r2 : list A) o n m :
  zread l o n = Some r1 -> zread l (o + n) m = Some r2 -> zread l o (n + m) = Some (r1 ++ r2).
Proof.
  intros (H1 & H2 & H3 & ->)%zread_inv (H4 & H5 & H6 & ->)%zread_inv. rewrite zread_in by lia. f_equal.
  rewrite !Z2Nat.inj_add by lia. rewrite <- take_take_drop, drop_drop. done.
Qed.
