(* ===== verification/Floats.v ===== *)
(** * Floating point numbers

    What the decoder does with numbers of type [float]: it compares them, makes them from
    integers and makes integers of them.  A number is its 32 bits, a sign, eight bits of
    exponent and twenty-three of mantissa. *)

From Stdlib Require Import ZArith Lia ZifyBool Bool.
From stdpp Require Import base numbers option list.
From S2P Require Import Prelude.
Local Open Scope Z_scope.

(** [1.0f] *)
Definition one_f : Z := 1065353216.

(** The bits but for the sign. *)
Definition magnitude (bits : Z) : Z := Z.land bits (2 ^ 31 - 1).

Definition is_nan (bits : Z) : bool := 2139095040 <? magnitude bits.
Definition is_zero (bits : Z) : bool := magnitude bits =? 0.

(** [a == b]: the two zeros are equal, and no number is equal to what is none. *)
Definition float_eqb (a b : Z) : bool :=
  negb (is_nan a) && negb (is_nan b) && ((a =? b) || (is_zero a && is_zero b)).

(** The exponent, and the mantissa with its leading bit, of a number that is not
    subnormal: its magnitude is [mantissa * 2 ^ (exponent - 23)]. *)
Definition exponent (bits : Z) : Z := Z.shiftr (magnitude bits) 23 - 127.
Definition mantissa (bits : Z) : Z := Z.land bits (2 ^ 23 - 1) + 2 ^ 23.

(** [static_cast<float>(n)], rounded to the nearest, to even between two. *)
Definition rounded (m : Z) : Z :=
  let e := Z.log2 m in
  if e <=? 23 then m * 2 ^ (23 - e)
  else
    let unit := 2 ^ (e - 23) in
    let q := m / unit in
    let rest := m mod unit in
    if (unit <? 2 * rest) || ((unit =? 2 * rest) && Z.odd q) then q + 1 else q.

Definition float_of_magnitude (m : Z) : Z :=
  if m =? 0 then 0 else (Z.log2 m + 127) * 2 ^ 23 + (rounded m - 2 ^ 23).

Definition float_of_int (n : Z) : Z :=
  if n <? 0 then 2 ^ 31 + float_of_magnitude (- n) else float_of_magnitude n.

(** [static_cast<int>(bits)] drops the fraction.  Numbers that an [int] does not hold have
    no defined result: [None]. *)
Definition int_of_float (bits : Z) : option Z :=
  let e := exponent bits in
  if e <? 0 then Some 0
  else if 31 <? e then None
  else
    let m := if e <=? 23 then mantissa bits / 2 ^ (23 - e) else mantissa bits * 2 ^ (e - 23) in
    let n := if bits <? 2 ^ 31 then m else - m in
    if (- 2 ^ 31 <=? n) && (n <? 2 ^ 31) then Some n else None.

(** ** Lemmas *)

Lemma magnitude_mod bits : magnitude bits = bits mod 2 ^ 31.
Proof. apply (Z.land_ones bits 31). lia. Qed.

Lemma float_eqb_refl a : is_nan a = false -> float_eqb a a = true.
Proof. intros Hn. unfold float_eqb. by rewrite Hn, Z.eqb_refl. Qed.

Lemma float_eqb_sym a b : float_eqb a b = float_eqb b a.
Proof.
  unfold float_eqb. rewrite (Z.eqb_sym a b), (andb_comm (negb (is_nan a))), (andb_comm (is_zero a)). done.
Qed.

Lemma float_eqb_trans a b c : float_eqb a b = true -> float_eqb b c = true -> float_eqb a c = true.
Proof.
  unfold float_eqb. rewrite !andb_true_iff, !orb_true_iff, !andb_true_iff, !Z.eqb_eq.
  intros [[Ha Hb] Hab] [[_ Hc] Hbc]. split; [done|].
  destruct Hab as [->|[Za Zb]], Hbc as [<-|[Zb' Zc]]; auto.
Qed.

Lemma log2_le m n : 0 < m <= 2 ^ n -> 0 <= n -> 0 <= Z.log2 m <= n.
Proof.
  intros Hm Hn. split; [apply Z.log2_nonneg|]. rewrite <- (Z.log2_pow2 n Hn). apply Z.log2_le_mono. lia.
Qed.

(** A power of two that is split at the twenty-third. *)
Lemma pow_split a b c : 0 <= a -> 0 <= b -> a + b = c -> 2 ^ c = 2 ^ a * 2 ^ b.
Proof. intros Ha Hb <-. by apply Z.pow_add_r. Qed.

Lemma rounded_range m : 0 < m -> 2 ^ 23 <= rounded m <= 2 ^ 24.
Proof.
  intros Hm. unfold rounded. pose proof (Z.log2_spec m Hm) as [Hl Hu]. pose proof (Z.log2_nonneg m).
  cbv zeta. set (e := Z.log2 m) in *. destruct (e <=? 23) eqn:Ee; zbool.
  - pose proof (pow_split e (23 - e) 23). pose proof (pow_split (Z.succ e) (23 - e) 24).
    assert (0 < 2 ^ (23 - e)) by (apply Z.pow_pos_nonneg; lia). nia.
  - pose proof (pow_split 23 (e - 23) e). pose proof (pow_split 24 (e - 23) (Z.succ e)).
    assert (0 < 2 ^ (e - 23)) as Hp by (apply Z.pow_pos_nonneg; lia). set (unit := 2 ^ (e - 23)) in *.
    assert (2 ^ 23 <= m / unit < 2 ^ 24) as Hq.
    { split; [apply Z.div_le_lower_bound; lia|apply Z.div_lt_upper_bound; lia]. }
    destruct (_ || _); lia.
Qed.

(** Twenty-four bits are kept. *)
Lemma rounded_exact m : 0 < m <= 2 ^ 24 ->
  rounded m < 2 ^ 24 /\
  (if Z.log2 m <=? 23 then rounded m / 2 ^ (23 - Z.log2 m) else rounded m * 2 ^ (Z.log2 m - 23)) = m.
Proof.
  intros Hm. unfold rounded. pose proof (Z.log2_spec m ltac:(lia)) as [Hl Hu]. pose proof (log2_le m 24 Hm).
  cbv zeta. destruct (Z.log2 m <=? 23) eqn:Ee; zbool.
  - set (e := Z.log2 m) in *. pose proof (pow_split (Z.succ e) (23 - e) 24).
    assert (0 < 2 ^ (23 - e)) by (apply Z.pow_pos_nonneg; lia). split; [nia|]. apply Z.div_mul. lia.
  - assert (Z.log2 m = 24) as E by lia. rewrite E in *. assert (m = 2 ^ 24) as -> by lia. by split.
Qed.

Lemma float_of_magnitude_u32 m : 0 <= m <= 2 ^ 31 -> 0 <= float_of_magnitude m < 2 ^ 31.
Proof.
  intros Hm. unfold float_of_magnitude. destruct (m =? 0) eqn:E0; zbool; [lia|].
  pose proof (rounded_range m ltac:(lia)). pose proof (log2_le m 31 ltac:(lia)). lia.
Qed.

Lemma float_of_int_u32 n : is_i32 n -> is_u32 (float_of_int n).
Proof.
  unfold is_i32, is_u32, float_of_int. intros Hn. destruct (n <? 0) eqn:E; zbool.
  - pose proof (float_of_magnitude_u32 (- n) ltac:(lia)). lia.
  - pose proof (float_of_magnitude_u32 n ltac:(lia)). lia.
Qed.

Lemma int_of_float_range bits n : int_of_float bits = Some n -> is_i32 n.
Proof.
  unfold int_of_float, is_i32. cbv zeta. destruct (exponent bits <? 0); [intros [= <-]; lia|].
  destruct (31 <? exponent bits); [discriminate|].
  match goal with |- context [if _ then Some ?x else _] => generalize x; intros r end.
  destruct ((- 2 ^ 31 <=? r) && (r <? 2 ^ 31)) eqn:Eb; [|discriminate]. intros [= <-]. zbool. lia.
Qed.

Lemma int_of_float_magnitude m s :
  0 < m <= 2 ^ 24 -> s = 0 \/ s = 2 ^ 31 ->
  int_of_float (s + float_of_magnitude m) = Some (if s =? 0 then m else - m).
Proof.
  intros Hm Hs. pose proof (rounded_range m ltac:(lia)) as Hr. destruct (rounded_exact m Hm) as [Hlt Hback].
  pose proof (log2_le m 24 Hm). unfold float_of_magnitude. destruct (m =? 0) eqn:E0; zbool; [lia|].
  set (e := Z.log2 m) in *. set (r := rounded m) in *. clearbody e r.
  set (bits := s + ((e + 127) * 2 ^ 23 + (r - 2 ^ 23))).
  assert (magnitude bits = (e + 127) * 2 ^ 23 + (r - 2 ^ 23)) as Emag.
  { rewrite magnitude_mod. unfold bits. destruct Hs as [-> | ->]; [rewrite Z.mod_small; lia|].
    replace (2 ^ 31 + _) with ((e + 127) * 2 ^ 23 + (r - 2 ^ 23) + 1 * 2 ^ 31) by lia.
    rewrite Z_mod_plus_full, Z.mod_small; lia. }
  assert (exponent bits = e) as Eexp.
  { unfold exponent. rewrite Emag, Z.shiftr_div_pow2, Z.div_add_l, Z.div_small by lia. lia. }
  assert (mantissa bits = r) as Eman.
  { unfold mantissa. change (2 ^ 23 - 1) with (Z.ones 23). rewrite Z.land_ones by lia. unfold bits.
    replace (s + _) with (r - 2 ^ 23 + (e + 127 + s / 2 ^ 23) * 2 ^ 23)
      by (destruct Hs as [-> | ->]; [change (0 / 2 ^ 23) with 0|change (2 ^ 31 / 2 ^ 23) with 256]; lia).
    rewrite Z_mod_plus_full, Z.mod_small; lia. }
  unfold int_of_float. rewrite Eexp, Eman, Hback.
  destruct (e <? 0) eqn:E1; zbool; [lia|]. destruct (31 <? e) eqn:E2; zbool; [lia|].
  assert ((bits <? 2 ^ 31) = (s =? 0)) as -> by (destruct Hs as [-> | ->]; unfold bits; lia).
  destruct (s =? 0).
  - assert ((- 2 ^ 31 <=? m) && (m <? 2 ^ 31) = true) as -> by lia. done.
  - assert ((- 2 ^ 31 <=? - m) && (- m <? 2 ^ 31) = true) as -> by lia. done.
Qed.

(** Integers of at most 24 bits pass through a [float] unchanged. *)
Lemma int_of_float_of_int n : - 2 ^ 24 <= n <= 2 ^ 24 -> int_of_float (float_of_int n) = Some n.
Proof.
  intros Hn. unfold float_of_int. destruct (n <? 0) eqn:E; zbool.
  - rewrite int_of_float_magnitude by lia. change (2 ^ 31 =? 0) with false. cbv iota. f_equal. lia.
  - destruct (Z.eq_dec n 0) as [->|]; [done|].
    rewrite <- (Z.add_0_l (float_of_magnitude n)), int_of_float_magnitude by lia. done.
Qed.
