(* ===== verification/CmdFormat.v ===== *)
(** * The wire format of the command buffer

    [gpu/command_buffer/common/cmd_buffer_common.h], [constants.h]: error codes,
    the packed command header, the twelve common command structs with their
    [Init] functions and their reading back out of the ring buffer.  A ring
    buffer entry is a 32-bit word. *)

From S2P Require Import Prelude.
From Stdlib Require Import ZArith Lia ZifyBool Bool.
From stdpp Require Import base list numbers option strings.
Local Open Scope Z_scope.

(** ** Error codes ([constants.h]) *)

Inductive Error :=
| kNoError
| kInvalidSize
| kOutOfBounds
| kUnknownCommand
| kInvalidArguments
| kLostContext
| kGenericError.

#[export] Instance Error_eq_dec : EqDecision Error.
Proof. solve_decision. Defined.

Definition IsError (e : Error) : bool :=
  match e with kNoError => false | _ => true end.

Inductive ContextLostReason := kGuilty | kInnocent | kUnknown.

#[export] Instance ContextLostReason_eq_dec : EqDecision ContextLostReason.
Proof. solve_decision. Defined.

(** ** Sizes *)

Inductive ArgFlags := kFixed | kAtLeastN.

#[export] Instance ArgFlags_eq_dec : EqDecision ArgFlags.
Proof. solve_decision. Defined.

Definition kCommandBufferEntrySize : Z := 4.

Definition ComputeNumEntries `{Platform} (size_in_bytes : Z) : Z :=
  u32 (usize (size_in_bytes + 4 - 1) / 4).

Definition RoundSizeToMultipleOfEntries `{Platform} (size_in_bytes : Z) : Z :=
  usize (ComputeNumEntries size_in_bytes * 4).

(** ** The command header: [size:21], [command:11], low bits first. *)

Record CommandHeader := mkHeader { h_size : Z; h_command : Z }.

Definition kMaxSize : Z := Z.shiftl 1 21 - 1.

(** Assignment to a bit field keeps the low bits of the value. *)
Definition CommandHeader_Init (command size : Z) : CommandHeader :=
  {| h_size := size mod 2 ^ 21; h_command := command mod 2 ^ 11 |}.

(** The storage unit of the header, seen as [value_uint32] and back. *)
Definition header_word (h : CommandHeader) : Z :=
  Z.lor (h_size h) (Z.shiftl (h_command h) 21).

Definition value_header (w : Z) : CommandHeader :=
  {| h_size := Z.land w kMaxSize; h_command := Z.shiftr w 21 |}.

(** ** Command identifiers *)

Inductive CommandId :=
| kNoop
| kSetToken
| kJump
| kJumpRelative
| kCall
| kCallRelative
| kReturn
| kSetBucketSize
| kSetBucketData
| kSetBucketDataImmediate
| kGetBucketSize
| kGetBucketData.

(** The enumerator's value: its place in [COMMON_COMMAND_BUFFER_CMDS]. *)
Definition id_num (c : CommandId) : Z :=
  match c with
  | kNoop => 0
  | kSetToken => 1
  | kJump => 2
  | kJumpRelative => 3
  | kCall => 4
  | kCallRelative => 5
  | kReturn => 6
  | kSetBucketSize => 7
  | kSetBucketData => 8
  | kSetBucketDataImmediate => 9
  | kGetBucketSize => 10
  | kGetBucketData => 11
  end.

Definition kNumCommands : Z := 12.
Definition kLastCommonId : Z := 255.

Definition all_ids : list CommandId :=
  [kNoop; kSetToken; kJump; kJumpRelative; kCall; kCallRelative; kReturn;
   kSetBucketSize; kSetBucketData; kSetBucketDataImmediate; kGetBucketSize;
   kGetBucketData].

(** ** Command structs

    A struct is its fields after the header.  [cmd_size] is [sizeof], in
    bytes and with the header; [cmd_fields] the words [Init] stores after the
    header; [cmd_read] the fields found at an address, which is what the
    service does with [*static_cast<const cmd::name*>(cmd_data)]. *)
Class CmdStruct (T : Type) := {
  kCmdId : CommandId;
  kArgFlags : ArgFlags;
  cmd_size : Z;
  cmd_fields : T -> list Z;
  cmd_read : list Z -> option T;
}.

Section templates.
Context (T : Type) `{CmdStruct T} `{Platform}.

Definition SetCmd : CommandHeader :=
  CommandHeader_Init (id_num (kCmdId (T := T)))
    (ComputeNumEntries (cmd_size (T := T))).

Definition SetCmdBySize (size_of_data_in_bytes : Z) : CommandHeader :=
  CommandHeader_Init (id_num (kCmdId (T := T)))
    (ComputeNumEntries (usize (cmd_size (T := T) + size_of_data_in_bytes))).

Definition SetCmdByTotalSize (size_in_bytes : Z) : CommandHeader :=
  CommandHeader_Init (id_num (kCmdId (T := T))) (ComputeNumEntries size_in_bytes).

(** Addresses are byte addresses. *)
Definition ImmediateDataAddress (cmd : Z) : Z := cmd + cmd_size (T := T).

Definition NextCmdAddress (cmd : Z) : Z := cmd + cmd_size (T := T).

Definition NextImmediateCmdAddress (cmd size_of_data_in_bytes : Z) : Z :=
  cmd + cmd_size (T := T) + RoundSizeToMultipleOfEntries size_of_data_in_bytes.

Definition NextImmediateCmdAddressTotalSize (cmd total_size_in_bytes : Z) : Z :=
  cmd + RoundSizeToMultipleOfEntries total_size_in_bytes.

End templates.

Record Noop := mkNoop {}.
Record SetToken := mkSetToken { SetToken_token : Z }.
Record Jump := mkJump { Jump_offset : Z }.
Record JumpRelative := mkJumpRelative { JumpRelative_offset : Z }.
Record Call := mkCall { Call_offset : Z }.
Record CallRelative := mkCallRelative { CallRelative_offset : Z }.
Record Return := mkReturn {}.

Record SetBucketSize := mkSetBucketSize {
  SetBucketSize_bucket_id : Z;
  SetBucketSize_size : Z;
}.

Record SetBucketData := mkSetBucketData {
  SetBucketData_bucket_id : Z;
  SetBucketData_offset : Z;
  SetBucketData_size : Z;
  SetBucketData_shared_memory_id : Z;
  SetBucketData_shared_memory_offset : Z;
}.

Record SetBucketDataImmediate := mkSetBucketDataImmediate {
  SetBucketDataImmediate_bucket_id : Z;
  SetBucketDataImmediate_offset : Z;
  SetBucketDataImmediate_size : Z;
}.

Record GetBucketSize := mkGetBucketSize {
  GetBucketSize_bucket_id : Z;
  GetBucketSize_shared_memory_id : Z;
  GetBucketSize_shared_memory_offset : Z;
}.

Record GetBucketData := mkGetBucketData {
  GetBucketData_bucket_id : Z;
  GetBucketData_offset : Z;
  GetBucketData_size : Z;
  GetBucketData_shared_memory_id : Z;
  GetBucketData_shared_memory_offset : Z;
}.

#[export] Instance Noop_struct : CmdStruct Noop := {|
  kCmdId := kNoop; kArgFlags := kAtLeastN; cmd_size := 4;
  cmd_fields _ := [];
  cmd_read ws := match ws with _ :: _ => Some mkNoop | _ => None end
|}.

#[export] Instance SetToken_struct : CmdStruct SetToken := {|
  kCmdId := kSetToken; kArgFlags := kFixed; cmd_size := 8;
  cmd_fields c := [u32 (SetToken_token c)];
  cmd_read ws := match ws with _ :: a :: _ => Some (mkSetToken a) | _ => None end
|}.

#[export] Instance Jump_struct : CmdStruct Jump := {|
  kCmdId := kJump; kArgFlags := kFixed; cmd_size := 8;
  cmd_fields c := [u32 (Jump_offset c)];
  cmd_read ws := match ws with _ :: a :: _ => Some (mkJump a) | _ => None end
|}.

#[export] Instance JumpRelative_struct : CmdStruct JumpRelative := {|
  kCmdId := kJumpRelative; kArgFlags := kFixed; cmd_size := 8;
  cmd_fields c := [u32 (JumpRelative_offset c)];
  cmd_read ws :=
    match ws with _ :: a :: _ => Some (mkJumpRelative (i32 a)) | _ => None end
|}.

#[export] Instance Call_struct : CmdStruct Call := {|
  kCmdId := kCall; kArgFlags := kFixed; cmd_size := 8;
  cmd_fields c := [u32 (Call_offset c)];
  cmd_read ws := match ws with _ :: a :: _ => Some (mkCall a) | _ => None end
|}.

#[export] Instance CallRelative_struct : CmdStruct CallRelative := {|
  kCmdId := kCallRelative; kArgFlags := kFixed; cmd_size := 8;
  cmd_fields c := [u32 (CallRelative_offset c)];
  cmd_read ws :=
    match ws with _ :: a :: _ => Some (mkCallRelative (i32 a)) | _ => None end
|}.

#[export] Instance Return_struct : CmdStruct Return := {|
  kCmdId := kReturn; kArgFlags := kFixed; cmd_size := 4;
  cmd_fields _ := [];
  cmd_read ws := match ws with _ :: _ => Some mkReturn | _ => None end
|}.

#[export] Instance SetBucketSize_struct : CmdStruct SetBucketSize := {|
  kCmdId := kSetBucketSize; kArgFlags := kFixed; cmd_size := 12;
  cmd_fields c := [u32 (SetBucketSize_bucket_id c); u32 (SetBucketSize_size c)];
  cmd_read ws :=
    match ws with
    | _ :: a :: b :: _ => Some (mkSetBucketSize a b)
    | _ => None
    end
|}.

#[export] Instance SetBucketData_struct : CmdStruct SetBucketData := {|
  kCmdId := kSetBucketData; kArgFlags := kFixed; cmd_size := 24;
  cmd_fields c :=
    [u32 (SetBucketData_bucket_id c); u32 (SetBucketData_offset c);
     u32 (SetBucketData_size c); u32 (SetBucketData_shared_memory_id c);
     u32 (SetBucketData_shared_memory_offset c)];
  cmd_read ws :=
    match ws with
    | _ :: a :: b :: c :: d :: e :: _ => Some (mkSetBucketData a b c d e)
    | _ => None
    end
|}.

#[export] Instance SetBucketDataImmediate_struct :
  CmdStruct SetBucketDataImmediate := {|
  kCmdId := kSetBucketDataImmediate; kArgFlags := kAtLeastN; cmd_size := 16;
  cmd_fields c :=
    [u32 (SetBucketDataImmediate_bucket_id c);
     u32 (SetBucketDataImmediate_offset c); u32 (SetBucketDataImmediate_size c)];
  cmd_read ws :=
    match ws with
    | _ :: a :: b :: c :: _ => Some (mkSetBucketDataImmediate a b c)
    | _ => None
    end
|}.

#[export] Instance GetBucketSize_struct : CmdStruct GetBucketSize := {|
  kCmdId := kGetBucketSize; kArgFlags := kFixed; cmd_size := 16;
  cmd_fields c :=
    [u32 (GetBucketSize_bucket_id c); u32 (GetBucketSize_shared_memory_id c);
     u32 (GetBucketSize_shared_memory_offset c)];
  cmd_read ws :=
    match ws with
    | _ :: a :: b :: c :: _ => Some (mkGetBucketSize a b c)
    | _ => None
    end
|}.

#[export] Instance GetBucketData_struct : CmdStruct GetBucketData := {|
  kCmdId := kGetBucketData; kArgFlags := kFixed; cmd_size := 24;
  cmd_fields c :=
    [u32 (GetBucketData_bucket_id c); u32 (GetBucketData_offset c);
     u32 (GetBucketData_size c); u32 (GetBucketData_shared_memory_id c);
     u32 (GetBucketData_shared_memory_offset c)];
  cmd_read ws :=
    match ws with
    | _ :: a :: b :: c :: d :: e :: _ => Some (mkGetBucketData a b c d e)
    | _ => None
    end
|}.

(** ** [Init]: the words each command stores in the ring buffer *)

Definition Fixed_Init `{Platform} {T} `{CmdStruct T} (c : T) : list Z :=
  header_word (SetCmd T) :: cmd_fields c.

Definition Noop_Init (skip_count : Z) : list Z :=
  [header_word (CommandHeader_Init (id_num kNoop) (i32 skip_count))].

Definition SetToken_Init `{Platform} (token : Z) : list Z :=
  Fixed_Init (mkSetToken token).

Definition Jump_Init `{Platform} (offset : Z) : list Z := Fixed_Init (mkJump offset).

Definition JumpRelative_Init `{Platform} (offset : Z) : list Z :=
  Fixed_Init (mkJumpRelative offset).

Definition Call_Init `{Platform} (offset : Z) : list Z := Fixed_Init (mkCall offset).

Definition CallRelative_Init `{Platform} (offset : Z) : list Z :=
  Fixed_Init (mkCallRelative offset).

Definition Return_Init `{Platform} : list Z := Fixed_Init mkReturn.

Definition SetBucketSize_Init `{Platform} (bucket_id size : Z) : list Z :=
  Fixed_Init (mkSetBucketSize bucket_id size).

Definition SetBucketData_Init `{Platform}
    (bucket_id offset size shared_memory_id shared_memory_offset : Z) : list Z :=
  Fixed_Init (mkSetBucketData bucket_id offset size shared_memory_id
                shared_memory_offset).

Definition SetBucketDataImmediate_Init `{Platform}
    (bucket_id offset size : Z) : list Z :=
  header_word (SetCmdBySize SetBucketDataImmediate size)
  :: cmd_fields (mkSetBucketDataImmediate bucket_id offset size).

Definition GetBucketSize_Init `{Platform}
    (bucket_id shared_memory_id shared_memory_offset : Z) : list Z :=
  Fixed_Init (mkGetBucketSize bucket_id shared_memory_id shared_memory_offset).

Definition GetBucketData_Init `{Platform}
    (bucket_id offset size shared_memory_id shared_memory_offset : Z) : list Z :=
  Fixed_Init (mkGetBucketData bucket_id offset size shared_memory_id
                shared_memory_offset).

(** [Set]: the words stored at [cmd] and the address it answers, for the caller to
    put the next command at. *)
Definition Fixed_Set `{Platform} {T} `{CmdStruct T} (cmd : Z) (c : T) : list Z * Z :=
  (Fixed_Init c, NextCmdAddress T cmd).

Definition Noop_Set `{Platform} (cmd skip_count : Z) : list Z * Z :=
  (Noop_Init skip_count, NextImmediateCmdAddress Noop cmd (u32 (usize (skip_count * 4)))).

Definition SetBucketDataImmediate_Set `{Platform} (cmd bucket_id offset size : Z)
    : list Z * Z :=
  (SetBucketDataImmediate_Init bucket_id offset size,
   NextImmediateCmdAddress SetBucketDataImmediate cmd size).

(** ** Names, for error messages *)

Definition command_name (c : CommandId) : string :=
  match c with
  | kNoop => "Noop"
  | kSetToken => "SetToken"
  | kJump => "Jump"
  | kJumpRelative => "JumpRelative"
  | kCall => "Call"
  | kCallRelative => "CallRelative"
  | kReturn => "Return"
  | kSetBucketSize => "SetBucketSize"
  | kSetBucketData => "SetBucketData"
  | kSetBucketDataImmediate => "SetBucketDataImmediate"
  | kGetBucketSize => "GetBucketSize"
  | kGetBucketData => "GetBucketData"
  end.

Definition GetCommandName (command_id : Z) : string :=
  if (command_id >=? 0) && (command_id <? kNumCommands)
  then default "" (command_name <$> all_ids !! Z.to_nat command_id)
  else "*unknown-command*".

(** The promise of a command struct to the code that writes and reads it:
    [Init] stores as many words as [sizeof] says, and reading returns what was
    stored, whatever follows. *)
Class CmdLaws (T : Type) `{CmdStruct T} (wf : T -> Prop) : Prop := {
  cmd_fields_length c : 4 + 4 * zlen (cmd_fields c) = cmd_size (T := T);
  cmd_fields_words c : Forall is_u32 (cmd_fields c);
  cmd_size_words : exists k, cmd_size (T := T) = 4 * k /\ 0 < k <= 16;
  cmd_read_fields c h rest :
    wf c -> cmd_read (h :: cmd_fields c ++ rest) = Some c;
}.

(** ** Lemmas *)

Lemma header_word_split s c :
  0 <= s < 2 ^ 21 -> Z.lor s (Z.shiftl c 21) = s + c * 2 ^ 21.
Proof.
  intros Hs. rewrite <- Z.shiftl_mul_pow2 by lia.
  rewrite <- (Z.add_lor_land s), <- (Z.add_0_r (Z.lor _ _)) at 1. f_equal.
  symmetry. apply Z.bits_inj'. intros n Hn.
  rewrite Z.land_spec, Z.bits_0, Z.shiftl_spec by lia.
  destruct (Z.lt_ge_cases n 21).
  - rewrite (Z.testbit_neg_r c) by lia. apply andb_false_r.
  - rewrite (Z.bits_above_log2 s); [done|lia|].
    destruct (decide (s = 0)) as [->|]; [simpl; lia|].
    apply Z.lt_le_trans with 21; [|done]. apply Z.log2_lt_pow2; lia.
Qed.

Lemma value_header_word h :
  0 <= h_size h < 2 ^ 21 -> 0 <= h_command h < 2 ^ 11 ->
  value_header (header_word h) = h.
Proof.
  intros Hs Hc. unfold value_header, header_word, kMaxSize.
  rewrite header_word_split by done. change (Z.shiftl 1 21 - 1) with (Z.ones 21).
  rewrite Z.land_ones, Z.shiftr_div_pow2 by lia.
  rewrite Z_mod_plus_full, Z.div_add by lia.
  rewrite Z.mod_small, Z.div_small by lia. by destruct h.
Qed.

Lemma value_header_Init c s :
  0 <= s < 2 ^ 21 -> 0 <= c < 2 ^ 11 ->
  value_header (header_word (CommandHeader_Init c s)) = mkHeader s c.
Proof.
  intros Hs Hc. rewrite value_header_word; simpl.
  - unfold CommandHeader_Init. by rewrite !Z.mod_small by lia.
  - apply Z.mod_pos_bound. lia.
  - apply Z.mod_pos_bound. lia.
Qed.

Lemma value_header_range w : is_u32 w ->
  0 <= h_size (value_header w) < 2 ^ 21 /\ 0 <= h_command (value_header w) < 2 ^ 11.
Proof.
  unfold is_u32, value_header, kMaxSize. simpl. intros Hw.
  change (Z.shiftl 1 21 - 1) with (Z.ones 21).
  rewrite Z.land_ones, Z.shiftr_div_pow2 by lia. split.
  - apply Z.mod_pos_bound. lia.
  - split; [apply Z.div_pos; lia|]. apply Z.div_lt_upper_bound; lia.
Qed.

Lemma header_word_u32 c s : is_u32 (header_word (CommandHeader_Init c s)).
Proof.
  unfold header_word, CommandHeader_Init, is_u32. simpl h_size. simpl h_command.
  pose proof (Z.mod_pos_bound s (2 ^ 21) ltac:(lia)).
  pose proof (Z.mod_pos_bound c (2 ^ 11) ltac:(lia)).
  rewrite header_word_split by done. lia.
Qed.

Lemma ComputeNumEntries_spec `{Platform} n :
  0 <= n < 2 ^ 31 -> ComputeNumEntries n = (n + 3) / 4.
Proof.
  intros Hn. unfold ComputeNumEntries. replace (n + 4 - 1) with (n + 3) by lia.
  unfold usize. rewrite (Z.mod_small (n + 3)).
  - apply u32_id. unfold is_u32. split; [apply Z.div_pos; lia|].
    apply Z.div_lt_upper_bound; lia.
  - apply u32_is_usize. unfold is_u32. lia.
Qed.

Lemma ComputeNumEntries_words `{Platform} n :
  0 <= n < 2 ^ 28 -> ComputeNumEntries (4 * n) = n.
Proof.
  intros Hn. rewrite ComputeNumEntries_spec by lia.
  symmetry. apply (Z.div_unique _ 4 n 3); lia.
Qed.

Lemma id_num_range c : 0 <= id_num c < kNumCommands.
Proof. by destruct c. Qed.

Definition any {T : Type} (_ : T) : Prop := True.

#[export] Instance Noop_laws : CmdLaws Noop any.
Proof. split; intros; [done|by constructor|by exists 1|by destruct c]. Qed.

#[export] Instance Return_laws : CmdLaws Return any.
Proof. split; intros; [done|by constructor|by exists 1|by destruct c]. Qed.

(** The laws of a struct whose fields are all words: by computation. *)
Ltac solve_cmd_laws :=
  split;
  [ done
  | intros []; simpl; rewrite ?Forall_cons, ?Forall_nil; auto 10 using u32_range
  | match goal with |- exists _, ?s = _ /\ _ => exists (s / 4); by vm_compute end
  | intros [] ?? ?; simpl in *; destruct_and?; rewrite ?u32_id, ?i32_u32 by done;
    rewrite ?i32_id by done; done ].

#[export] Instance SetToken_laws :
  CmdLaws SetToken (fun c => is_u32 (SetToken_token c)).
Proof. solve_cmd_laws. Qed.

#[export] Instance Jump_laws : CmdLaws Jump (fun c => is_u32 (Jump_offset c)).
Proof. solve_cmd_laws. Qed.

#[export] Instance JumpRelative_laws :
  CmdLaws JumpRelative (fun c => is_i32 (JumpRelative_offset c)).
Proof. solve_cmd_laws. Qed.

#[export] Instance Call_laws : CmdLaws Call (fun c => is_u32 (Call_offset c)).
Proof. solve_cmd_laws. Qed.

#[export] Instance CallRelative_laws :
  CmdLaws CallRelative (fun c => is_i32 (CallRelative_offset c)).
Proof. solve_cmd_laws. Qed.

#[export] Instance SetBucketSize_laws :
  CmdLaws SetBucketSize (fun c => is_u32 (SetBucketSize_bucket_id c) /\
    is_u32 (SetBucketSize_size c)).
Proof. solve_cmd_laws. Qed.

#[export] Instance SetBucketData_laws :
  CmdLaws SetBucketData (fun c => is_u32 (SetBucketData_bucket_id c) /\
    is_u32 (SetBucketData_offset c) /\ is_u32 (SetBucketData_size c) /\
    is_u32 (SetBucketData_shared_memory_id c) /\
    is_u32 (SetBucketData_shared_memory_offset c)).
Proof. solve_cmd_laws. Qed.

#[export] Instance SetBucketDataImmediate_laws :
  CmdLaws SetBucketDataImmediate (fun c =>
    is_u32 (SetBucketDataImmediate_bucket_id c) /\
    is_u32 (SetBucketDataImmediate_offset c) /\
    is_u32 (SetBucketDataImmediate_size c)).
Proof. solve_cmd_laws. Qed.

#[export] Instance GetBucketSize_laws :
  CmdLaws GetBucketSize (fun c => is_u32 (GetBucketSize_bucket_id c) /\
    is_u32 (GetBucketSize_shared_memory_id c) /\
    is_u32 (GetBucketSize_shared_memory_offset c)).
Proof. solve_cmd_laws. Qed.

#[export] Instance GetBucketData_laws :
  CmdLaws GetBucketData (fun c => is_u32 (GetBucketData_bucket_id c) /\
    is_u32 (GetBucketData_offset c) /\ is_u32 (GetBucketData_size c) /\
    is_u32 (GetBucketData_shared_memory_id c) /\
    is_u32 (GetBucketData_shared_memory_offset c)).
Proof. solve_cmd_laws. Qed.

Section fixed.
Context `{Platform} {T : Type} `{CmdStruct T} {wf : T -> Prop} `{!CmdLaws T wf}.

Lemma SetCmd_header :
  value_header (header_word (SetCmd T))
  = mkHeader (cmd_size (T := T) / 4) (id_num (kCmdId (T := T))).
Proof.
  destruct (cmd_size_words (T := T)) as (k & E & Hk). unfold SetCmd.
  rewrite !E, ComputeNumEntries_words by lia.
  pose proof (id_num_range kCmdId). unfold kNumCommands in *.
  rewrite value_header_Init, (Z.mul_comm 4), Z.div_mul by lia. done.
Qed.

Lemma Fixed_Init_length (c : T) : zlen (Fixed_Init c) = cmd_size (T := T) / 4.
Proof.
  pose proof (cmd_fields_length c). destruct (cmd_size_words (T := T)) as (k & Hk & _).
  unfold Fixed_Init. rewrite zlen_cons, Hk, (Z.mul_comm 4), Z.div_mul by lia. lia.
Qed.

Lemma Fixed_Init_words (c : T) : Forall is_u32 (Fixed_Init c).
Proof. constructor; [apply header_word_u32|apply cmd_fields_words]. Qed.

End fixed.

#[export] Hint Resolve header_word_u32 id_num_range : gpu.

(** ** Properties *)

Section roundtrip.
Context `{Platform} {T : Type} `{CmdStruct T} {wf : T -> Prop} `{!CmdLaws T wf}.

(** Round trip of the wire format.  The words a fixed-size command's [Init]
    stores carry, in their first word, exactly the command's identifier and its
    length in entries, occupy exactly that many entries, and are read back by
    the service as the same struct whatever entries follow them in the ring
    buffer. *)
Theorem fixed_command_roundtrip (c : T) (rest : list Z) :
  wf c ->
  cmd_read (Fixed_Init c ++ rest) = Some c /\
  value_header (hd 0 (Fixed_Init c))
    = mkHeader (zlen (Fixed_Init c)) (id_num (kCmdId (T := T))).
Proof.
  intros Hc. split.
  - by apply (cmd_read_fields c).
  - by rewrite Fixed_Init_length, <- SetCmd_header.
Qed.

End roundtrip.

Lemma fixed_command_roundtrip_witness :
  cmd_read (Fixed_Init (mkJumpRelative (-5)) ++ [7; 8]) = Some (mkJumpRelative (-5)) /\
  value_header (hd 0 (Fixed_Init (mkJumpRelative (-5))))
    = mkHeader (zlen (Fixed_Init (mkJumpRelative (-5)))) (id_num kJumpRelative).
Proof.
  refine (fixed_command_roundtrip (mkJumpRelative (-5)) [7; 8] _).
  unfold is_i32. simpl. lia.
Defined.
