(* ===== verification/GLES2Format.v ===== *)
(** * The format of the GLES2 commands

    [gpu/command_buffer/common/gles2_cmd_format.h], [gles2_cmd_format_autogen.h] and
    [gles2_cmd_ids_autogen.h].  Every command is a packed struct: the header, fields of 32
    bits, and for some commands data that follows the struct.  The structs differ in their
    fields and in how the size of their data is found, so that a struct is a value of
    [Struct]; [ComputeDataSize], [ComputeSize], [SetHeader], [Init] and [Set] are functions of
    it.  The structs themselves are in [GLES2Commands.v]. *)

From S2P Require Import Prelude CmdFormat.
From Stdlib Require Import ZArith Lia ZifyBool Bool.
From stdpp Require Import base list numbers option strings.
Local Open Scope Z_scope.

(** ** Structs *)

Inductive FieldType := Uint32 | Int32 | Float.

#[export] Instance FieldType_eq_dec : EqDecision FieldType.
Proof. solve_decision. Defined.

(** What follows a struct, and what size [Init] gives the header.

    - [NoTail]: nothing; [SetCmd].
    - [ElementsOf bytes count]: [bytes] for each of [count], copied; [SetCmdByTotalSize].
    - [Values bytes]: [bytes], copied; [SetCmdByTotalSize].
    - [BytesOf size]: [size] bytes, copied; [SetCmdBySize].
    - [RoomFor size]: room for [size] bytes, which [Init] leaves to its caller;
      [SetCmdByTotalSize].
    - [NoSize]: as [RoomFor], but the total size is 0, "TODO(gman): get correct size".
    - [Name]: the characters of a string, whose number is the last field. *)
Inductive Tail :=
| NoTail
| ElementsOf (bytes : Z) (count : string)
| Values (bytes : Z)
| BytesOf (size : string)
| RoomFor (size : string)
| NoSize
| Name.

#[export] Instance Tail_eq_dec : EqDecision Tail.
Proof. solve_decision. Defined.

Record Struct := mkStruct {
  s_name : string;
  s_ArgFlags : ArgFlags;
  s_fields : list (string * FieldType);   (* after [header] *)
  s_tail : Tail;
  s_sizeof : Z;                           (* what the code asserts of the layout: [sizeof], *)
  s_offsetof : list Z;                    (* and [offsetof] of [header] and of each field *)
}.

(** A packed struct of 32 bit fields. *)
Definition sizeof (c : Struct) : Z := 4 * (1 + zlen (s_fields c)).

Definition offsetof (c : Struct) : list Z :=
  (fun i => 4 * Z.of_nat i) <$> seq 0 (S (length (s_fields c))).

(** The value of a field that was stored as a word. *)
Definition load (t : FieldType) (w : Z) : Z :=
  match t with Int32 => i32 w | Uint32 | Float => w end.

(** What a parameter of [Init] can be; a float is its bits. *)
Definition arg_ok (t : FieldType) (a : Z) : Prop :=
  match t with Int32 => is_i32 a | Uint32 | Float => is_u32 a end.

(** ** Command ids *)

(** The commands, the first of which is 256. *)
Definition GLES2_COMMAND_LIST : list string := (
  [
   "ActiveTexture"; "AttachShader"; "BindAttribLocation"; "BindAttribLocationImmediate";
   "BindBuffer"; "BindFramebuffer"; "BindRenderbuffer"; "BindTexture"; "BlendColor";
   "BlendEquation"; "BlendEquationSeparate"; "BlendFunc"; "BlendFuncSeparate"; "BufferData";
   "BufferDataImmediate"; "BufferSubData"; "BufferSubDataImmediate"; "CheckFramebufferStatus";
   "Clear"; "ClearColor"; "ClearDepthf"; "ClearStencil"; "ColorMask"; "CompileShader";
   "CompressedTexImage2D"; "CompressedTexImage2DImmediate"; "CompressedTexSubImage2D";
   "CompressedTexSubImage2DImmediate"; "CopyTexImage2D"; "CopyTexSubImage2D"; "CreateProgram";
   "CreateShader"; "CullFace"; "DeleteBuffers"; "DeleteBuffersImmediate"; "DeleteFramebuffers";
   "DeleteFramebuffersImmediate"; "DeleteProgram"; "DeleteRenderbuffers";
   "DeleteRenderbuffersImmediate"; "DeleteShader"; "DeleteTextures"; "DeleteTexturesImmediate";
   "DepthFunc"; "DepthMask"; "DepthRangef"; "DetachShader"; "Disable";
   "DisableVertexAttribArray"; "DrawArrays"; "DrawElements"; "Enable";
   "EnableVertexAttribArray"; "Finish"; "Flush"; "FramebufferRenderbuffer";
   "FramebufferTexture2D"; "FrontFace"; "GenBuffers"; "GenBuffersImmediate"; "GenerateMipmap";
   "GenFramebuffers"; "GenFramebuffersImmediate"; "GenRenderbuffers";
   "GenRenderbuffersImmediate"; "GenTextures"; "GenTexturesImmediate"; "GetActiveAttrib";
   "GetActiveUniform"; "GetAttachedShaders"; "GetAttribLocation"; "GetAttribLocationImmediate";
   "GetBooleanv"; "GetBufferParameteriv"; "GetError"; "GetFloatv";
   "GetFramebufferAttachmentParameteriv"; "GetIntegerv"; "GetProgramiv"; "GetProgramInfoLog";
   "GetRenderbufferParameteriv"; "GetShaderiv"; "GetShaderInfoLog"; "GetShaderPrecisionFormat";
   "GetShaderSource"; "GetString"; "GetTexParameterfv"; "GetTexParameteriv"; "GetUniformfv";
   "GetUniformiv"; "GetUniformLocation"; "GetUniformLocationImmediate"; "GetVertexAttribfv";
   "GetVertexAttribiv"; "GetVertexAttribPointerv"; "Hint"; "IsBuffer"; "IsEnabled";
   "IsFramebuffer"; "IsProgram"; "IsRenderbuffer"; "IsShader"; "IsTexture"; "LineWidth";
   "LinkProgram"; "PixelStorei"; "PolygonOffset"; "ReadPixels"; "RenderbufferStorage";
   "SampleCoverage"; "Scissor"; "ShaderSource"; "ShaderSourceImmediate"; "StencilFunc";
   "StencilFuncSeparate"; "StencilMask"; "StencilMaskSeparate"; "StencilOp";
   "StencilOpSeparate"; "TexImage2D"; "TexImage2DImmediate"; "TexParameterf"; "TexParameterfv";
   "TexParameterfvImmediate"; "TexParameteri"; "TexParameteriv"; "TexParameterivImmediate";
   "TexSubImage2D"; "TexSubImage2DImmediate"; "Uniform1f"; "Uniform1fv"; "Uniform1fvImmediate";
   "Uniform1i"; "Uniform1iv"; "Uniform1ivImmediate"; "Uniform2f"; "Uniform2fv";
   "Uniform2fvImmediate"; "Uniform2i"; "Uniform2iv"; "Uniform2ivImmediate"; "Uniform3f";
   "Uniform3fv"; "Uniform3fvImmediate"; "Uniform3i"; "Uniform3iv"; "Uniform3ivImmediate";
   "Uniform4f"; "Uniform4fv"; "Uniform4fvImmediate"; "Uniform4i"; "Uniform4iv";
   "Uniform4ivImmediate"; "UniformMatrix2fv"; "UniformMatrix2fvImmediate"; "UniformMatrix3fv";
   "UniformMatrix3fvImmediate"; "UniformMatrix4fv"; "UniformMatrix4fvImmediate"; "UseProgram";
   "ValidateProgram"; "VertexAttrib1f"; "VertexAttrib1fv"; "VertexAttrib1fvImmediate";
   "VertexAttrib2f"; "VertexAttrib2fv"; "VertexAttrib2fvImmediate"; "VertexAttrib3f";
   "VertexAttrib3fv"; "VertexAttrib3fvImmediate"; "VertexAttrib4f"; "VertexAttrib4fv";
   "VertexAttrib4fvImmediate"; "VertexAttribPointer"; "Viewport"; "SwapBuffers";
   "BindAttribLocationBucket"; "GetUniformLocationBucket"; "GetAttribLocationBucket";
   "ShaderSourceBucket"; "ShaderBinary"; "ReleaseShaderCompiler";
   "GetMaxValueInBufferCHROMIUM"; "GenSharedIdsCHROMIUM"; "DeleteSharedIdsCHROMIUM";
   "RegisterSharedIdsCHROMIUM"; "EnableFeatureCHROMIUM"; "CompressedTexImage2DBucket";
   "CompressedTexSubImage2DBucket"; "RenderbufferStorageMultisampleEXT"; "BlitFramebufferEXT";
   "Placeholder447CHROMIUM"; "ResizeCHROMIUM"; "GetRequestableExtensionsCHROMIUM";
   "RequestExtensionCHROMIUM"; "CreateStreamTextureCHROMIUM"; "DestroyStreamTextureCHROMIUM";
   "Placeholder453CHROMIUM"; "GetMultipleIntegervCHROMIUM"; "GetProgramInfoCHROMIUM";
   "GetTranslatedShaderSourceANGLE"])%string.

Definition CommandId_of (name : string) : Z :=
  match list_find (eq name) GLES2_COMMAND_LIST with
  | Some (i, _) => kLastCommonId + 1 + Z.of_nat i
  | None => 0
  end.

Definition kCmdId (c : Struct) : Z := CommandId_of (s_name c).

(** ** Writing a command *)

(** The parameters of [Init] that are fields: all the fields, but for the length of a name. *)
Definition params (c : Struct) : list (string * FieldType) :=
  match s_tail c with Name => take (pred (length (s_fields c))) (s_fields c) | _ => s_fields c end.

(** A parameter by its name. *)
Definition arg (c : Struct) (name : string) (args : list Z) : Z :=
  match list_find (fun f => f.1 = name) (params c) with
  | Some (i, _) => default 0 (args !! i)
  | None => 0
  end.

(** The characters before the first that is 0, which ends the string. *)
Fixpoint strlen (s : list Z) : option Z :=
  match s with
  | [] => None
  | b :: s => if b =? 0 then Some 0 else Z.succ <$> strlen s
  end.

Section write.
Context `{Platform}.
Implicit Types (c : Struct) (args data entries : list Z).

(** The bytes of data; a number of elements is converted to [size_t]. *)
Definition ComputeDataSize c args data : outcome Z :=
  match s_tail c with
  | ElementsOf bytes count => Done (u32 (usize (bytes * usize (arg c count args))))
  | Values bytes => Done bytes
  | BytesOf size | RoomFor size => Done (u32 (arg c size args))
  | Name => (do n <- of_option (strlen data) ;; Done (u32 n))%gpu
  | NoTail | NoSize => Done 0
  end.

Definition ComputeSize c args data : outcome Z :=
  (do n <- ComputeDataSize c args data ;;
   match s_tail c with
   | NoTail => Done (sizeof c)
   | RoomFor _ | NoSize => Done (u32 (usize (sizeof c + RoundSizeToMultipleOfEntries n)))
   | _ => Done (u32 (usize (sizeof c + n)))
   end)%gpu.

(** What [Init] and [Set] take for the total size. *)
Definition total_size c args data : outcome Z :=
  match s_tail c with NoSize => Done 0 | _ => ComputeSize c args data end.

Definition SetHeader c args data : outcome CommandHeader :=
  match s_tail c with
  | NoTail => Done (CommandHeader_Init (kCmdId c) (ComputeNumEntries (sizeof c)))
  | BytesOf _ =>
      (do n <- ComputeDataSize c args data ;;
       Done (CommandHeader_Init (kCmdId c) (ComputeNumEntries (usize (sizeof c + n)))))%gpu
  | _ =>
      (do n <- total_size c args data ;; Done (CommandHeader_Init (kCmdId c) (ComputeNumEntries n)))%gpu
  end.

(** The values of the fields. *)
Definition values c args data : outcome (list Z) :=
  match s_tail c with
  | Name => (do n <- ComputeDataSize c args data ;; Done (args ++ [n]))%gpu
  | _ => Done args
  end.

(** How many bytes [Init] copies. *)
Definition copied c args data : outcome Z :=
  match s_tail c with
  | NoTail | RoomFor _ | NoSize => Done 0
  | _ => ComputeDataSize c args data
  end.

(** [memcpy] of the first [n] bytes at [data] to the byte [off] of the entries. *)
Definition copy_bytes entries off data n : outcome (list Z) :=
  (do src <- of_option (zread data 0 n) ;;
   do bytes <- of_option (zwrite (words_to_bytes entries) off src) ;;
   Done (bytes_to_words bytes))%gpu.

(** [entries] are those from the address of the command on. *)
Definition Init c args data entries : outcome (list Z) :=
  (do header <- SetHeader c args data ;;
   do fields <- values c args data ;;
   do entries <- of_option (zwrite entries 0 (header_word header :: (u32 <$> fields))) ;;
   do n <- copied c args data ;;
   copy_bytes entries (sizeof c) data n)%gpu.

(** [Set] answers where the next command goes, here from the address of this one. *)
Definition Struct_Set c args data entries : outcome (list Z * Z) :=
  (do entries <- Init c args data entries ;;
   match s_tail c with
   | NoTail => Done (entries, sizeof c)
   | BytesOf _ =>
       do n <- ComputeDataSize c args data ;;
       Done (entries, sizeof c + RoundSizeToMultipleOfEntries n)
   | _ =>
       do n <- total_size c args data ;; Done (entries, RoundSizeToMultipleOfEntries n)
   end)%gpu.

End write.

(** ** Reading a command *)

(** The fields of [*static_cast<const name*>(cmd_data)]. *)
Definition read (c : Struct) (cmd_data : list Z) : option (list Z) :=
  zip_with (fun f w => load f.2 w) (s_fields c) <$> zread cmd_data 1 (zlen (s_fields c)).

(** The [size] bytes after the struct. *)
Definition immediate_data (c : Struct) (size : Z) (cmd_data : list Z) : list Z :=
  take (Z.to_nat size) (drop (Z.to_nat (sizeof c)) (words_to_bytes cmd_data)).

(** ** What is written *)

(** The length of the data, as a number: [None] if there are not that many bytes, or the
    number is not one. *)
Definition data_length (c : Struct) (args data : list Z) : option Z :=
  match s_tail c with
  | NoTail => Some 0
  | ElementsOf bytes count =>
      let n := bytes * arg c count args in if (0 <=? n) && (n <=? zlen data) then Some n else None
  | Values bytes => if bytes <=? zlen data then Some bytes else None
  | BytesOf size => let n := arg c size args in if n <=? zlen data then Some n else None
  | RoomFor size => let n := arg c size args in if 0 <=? n then Some n else None
  | NoSize => None
  | Name => strlen data
  end.

(** The arguments that an [Init] can be given. *)
Definition args_ok (c : Struct) (args : list Z) : Prop := Forall2 (fun f a => arg_ok f.2 a) (params c) args.

(** The data is copied by [Init]. *)
Definition copies (c : Struct) : bool :=
  match s_tail c with NoTail | RoomFor _ | NoSize => false | _ => true end.

(** [words] is the command [c] with these arguments and [n] bytes of data. *)
Record written (c : Struct) (args data : list Z) (n : Z) (words : list Z) : Prop := {
  w_header : exists rest, words = header_word (CommandHeader_Init (kCmdId c) (zlen words)) :: rest;
  w_size : zlen words = (sizeof c + n + 3) / 4;
  w_words : Forall is_u32 words;
  w_fields : read c words = Some (args ++ match s_tail c with Name => [n] | _ => [] end);
  w_data : copies c = true -> zread (words_to_bytes words) (sizeof c) n = zread data 0 n;
}.

(** The structs are as the functions above take them: the sizes that are asserted are those of
    the layout, the count is a field, data goes with [kAtLeastN]. *)
Definition is_param (c : Struct) (name : string) (t : FieldType) : bool :=
  bool_decide ((name, t) ∈ params c).

Definition struct_ok (c : Struct) : bool :=
  (s_sizeof c =? sizeof c) && bool_decide (s_offsetof c = offsetof c)
  && (zlen (s_fields c) <? 16)
  && bool_decide (NoDup (s_fields c).*1)
  && bool_decide (s_name c ∈ GLES2_COMMAND_LIST)
  && match s_tail c with
     | NoTail => bool_decide (s_ArgFlags c = kFixed)
     | t =>
         bool_decide (s_ArgFlags c = kAtLeastN)
         && match t with
            | ElementsOf bytes count => (0 <? bytes) && (bytes <=? 64) && is_param c count Int32
            | Values bytes => (0 <? bytes) && (bytes <=? 64)
            | BytesOf size =>
                is_param c size Uint32 && bool_decide (last (s_fields c) = Some (size, Uint32))
            | RoomFor size => is_param c size Uint32 || is_param c size Int32
            | Name => bool_decide (last (s_fields c) = Some ("data_size"%string, Uint32))
            | _ => true
            end
     end.

(** ** Lemmas *)

(** *** Parameters *)

Lemma is_param_at c name t :
  NoDup (s_fields c).*1 -> is_param c name t = true ->
  exists i, list_find (fun f => f.1 = name) (params c) = Some (i, (name, t)).
Proof.
  unfold is_param. intros Hnd Hin%bool_decide_eq_true_1.
  assert (NoDup (params c).*1) as Hn.
  { unfold params. destruct (s_tail c); try done. rewrite fmap_take.
    eapply sublist_NoDup; [exact Hnd|apply sublist_take]. }
  apply list_elem_of_lookup in Hin as [i Hi]. exists i. apply list_find_Some. split_and!; [done|done|].
  intros j [x u] Hj Hlt [= ->].
  assert (j = i) as ->; [|lia].
  eapply NoDup_lookup; [exact Hn| |]; rewrite list_lookup_fmap; [by rewrite Hj|by rewrite Hi].
Qed.

Lemma arg_is_ok c name t args :
  NoDup (s_fields c).*1 -> is_param c name t = true -> args_ok c args -> arg_ok t (arg c name args).
Proof.
  intros Hnd Hp Hargs. destruct (is_param_at c name t Hnd Hp) as [i Hi]. unfold arg. rewrite Hi.
  apply list_find_Some in Hi as (Hi & _ & _).
  destruct (Forall2_lookup_l _ _ _ _ _ Hargs Hi) as (a & -> & Ha). done.
Qed.

(** The last parameter. *)
Lemma arg_last c name t args a :
  NoDup (s_fields c).*1 -> params c = s_fields c -> last (s_fields c) = Some (name, t) ->
  args_ok c (args ++ [a]) -> arg c name (args ++ [a]) = a.
Proof.
  intros Hnd Hp Hl Hargs. assert (is_param c name t = true) as Hi.
  { apply bool_decide_eq_true_2. rewrite Hp. by apply last_Some_elem_of. }
  destruct (is_param_at c name t Hnd Hi) as [i E]. unfold arg. rewrite E.
  apply list_find_Some in E as (Ei & _ & _).
  unfold args_ok in Hargs. rewrite Hp in *. apply Forall2_length in Hargs as Hlen.
  rewrite length_app in Hlen. cbn in Hlen.
  rewrite last_lookup in Hl.
  assert (i = pred (length (s_fields c))) as ->.
  { eapply NoDup_lookup; [exact Hnd| |]; rewrite list_lookup_fmap; [by rewrite Ei|by rewrite Hl]. }
  rewrite lookup_app_r by lia. by replace (_ - _)%nat with 0%nat by lia.
Qed.

Lemma strlen_spec s n :
  strlen s = Some n -> 0 <= n < zlen s /\ zget s n = Some 0 /\ forall i, 0 <= i < n -> zget s i <> Some 0.
Proof.
  revert n. induction s as [|b s IH]; intros n; cbn [strlen]; [done|].
  rewrite zlen_cons. pose proof (zlen_nonneg s).
  destruct (b =? 0) eqn:Eb.
  - intros [= <-]. assert (b = 0) as -> by lia. split_and!; [lia|lia|done|lia].
  - destruct (strlen s) as [k|]; [|done]. intros [= <-]. destruct (IH k eq_refl) as (H1 & H2 & H3).
    assert (Hget : forall i, 0 < i -> zget (b :: s) i = zget s (i - 1)).
    { intros i Hi. unfold zget. btrue (0 <=? i). btrue (0 <=? i - 1).
      by replace (Z.to_nat i) with (S (Z.to_nat (i - 1))) by lia. }
    split_and!; [lia|lia|rewrite Hget by lia; by replace (Z.succ k - 1) with k by lia|].
    intros i Hi. destruct (decide (i = 0)) as [->|]; [unfold zget; cbn; intros [= ->]; lia|].
    rewrite Hget by lia. apply H3. lia.
Qed.

(** *** Sizes *)

(** What [struct_ok] says, in pieces. *)
Lemma struct_ok_inv c : struct_ok c = true ->
  s_sizeof c = sizeof c /\ s_offsetof c = offsetof c /\ zlen (s_fields c) < 16 /\
  NoDup (s_fields c).*1 /\ s_name c ∈ GLES2_COMMAND_LIST /\
  s_ArgFlags c = (match s_tail c with NoTail => kFixed | _ => kAtLeastN end) /\
  match s_tail c with
  | ElementsOf bytes count => 0 < bytes <= 64 /\ is_param c count Int32 = true
  | Values bytes => 0 < bytes <= 64
  | BytesOf size => is_param c size Uint32 = true /\ last (s_fields c) = Some (size, Uint32)
  | RoomFor size => is_param c size Uint32 = true \/ is_param c size Int32 = true
  | Name => last (s_fields c) = Some ("data_size"%string, Uint32)
  | _ => True
  end.
Proof.
  unfold struct_ok. rewrite !andb_true_iff. intros (((((H1 & H2) & H3) & H4) & H5) & H6).
  apply bool_decide_eq_true_1 in H2, H4, H5. split_and!; try done; try lia;
    destruct (s_tail c); rewrite ?andb_true_iff, ?orb_true_iff in H6; destruct_and?;
    repeat match goal with H : bool_decide _ = true |- _ => apply bool_decide_eq_true_1 in H end;
    try done; split; try done; lia.
Qed.

Lemma sizeof_bounds c : zlen (s_fields c) < 16 -> 4 <= sizeof c <= 64 /\ sizeof c mod 4 = 0.
Proof.
  unfold sizeof. pose proof (zlen_nonneg (s_fields c)). split; [lia|].
  rewrite Z.mul_comm. apply Z_mod_mult.
Qed.

Lemma CommandId_of_range name :
  name ∈ GLES2_COMMAND_LIST -> 256 <= CommandId_of name < 457.
Proof.
  intros Hin. unfold CommandId_of, kLastCommonId.
  destruct (list_find_elem_of (eq name) GLES2_COMMAND_LIST name Hin eq_refl) as [[i x] E]. rewrite E.
  apply list_find_Some in E as (E & _ & _). apply lookup_lt_Some in E.
  change (length GLES2_COMMAND_LIST) with 201%nat in E. lia.
Qed.

Section lemmas.
Context `{Platform}.
Implicit Types (c : Struct) (args data entries : list Z).

Lemma usize_small x : 0 <= x < 2 ^ 32 -> usize x = x.
Proof. intros Hx. unfold usize. apply Z.mod_small. by apply u32_is_usize. Qed.

Lemma data_length_nonneg c args data n :
  struct_ok c = true -> args_ok c args -> data_length c args data = Some n ->
  0 <= n /\ (copies c = true -> n <= zlen data).
Proof.
  intros (_ & _ & _ & Hnd & _ & _ & Ht)%struct_ok_inv Hargs. unfold data_length, copies.
  destruct (s_tail c) as [|bytes count|bytes|size|size| |] eqn:Et; intros Hn.
  - by injection Hn as <-.
  - cbn zeta in Hn. destruct (_ && _) eqn:E in Hn; [|done]. injection Hn as <-. lia.
  - destruct (_ <=? _) eqn:E in Hn; [|done]. injection Hn as <-. lia.
  - cbn zeta in Hn. destruct (_ <=? _) eqn:E in Hn; [|done]. injection Hn as <-.
    pose proof (arg_is_ok c size Uint32 args Hnd (proj1 Ht) Hargs) as Ha. unfold arg_ok, is_u32 in Ha. lia.
  - cbn zeta in Hn. destruct (_ <=? _) eqn:E in Hn; [|done]. injection Hn as <-. split; [lia|done].
  - done.
  - apply strlen_spec in Hn as (Hn & _ & _). lia.
Qed.

(** Where the numbers are in range, the sizes that the code computes are exact. *)
Lemma ComputeDataSize_exact c args data n :
  struct_ok c = true -> args_ok c args -> data_length c args data = Some n -> n < 2 ^ 23 ->
  ComputeDataSize c args data = Done n.
Proof.
  intros Hok Hargs Hn Hlt. pose proof (data_length_nonneg c args data n Hok Hargs Hn) as [H0 _].
  apply struct_ok_inv in Hok as (_ & _ & _ & Hnd & _ & _ & Ht). unfold data_length, ComputeDataSize in *.
  destruct (s_tail c) as [|bytes count|bytes|size|size| |] eqn:Et; cbn zeta in Hn.
  - by injection Hn as <-.
  - destruct (_ && _) eqn:E in Hn; [|done]. injection Hn as <-.
    destruct Ht as [Hb Ht].
    assert (0 <= arg c count args) by nia. assert (arg c count args < 2 ^ 23) by nia.
    rewrite (usize_small (arg c count args)), usize_small by lia. f_equal. apply u32_id. unfold is_u32. lia.
  - destruct (_ <=? _) eqn:E in Hn; [|done]. by injection Hn as <-.
  - destruct (_ <=? _) eqn:E in Hn; [|done]. injection Hn as <-. f_equal. apply u32_id. unfold is_u32. lia.
  - destruct (_ <=? _) eqn:E in Hn; [|done]. injection Hn as <-. f_equal. apply u32_id. unfold is_u32. lia.
  - done.
  - rewrite Hn. cbn [of_option obind]. f_equal. apply u32_id. unfold is_u32. lia.
Qed.

Lemma RoundSize_spec n : 0 <= n < 2 ^ 24 -> RoundSizeToMultipleOfEntries n = 4 * ((n + 3) / 4).
Proof.
  intros Hn. unfold RoundSizeToMultipleOfEntries. rewrite ComputeNumEntries_spec by lia.
  rewrite usize_small; [lia|]. pose proof (Z.div_mod (n + 3) 4). pose proof (Z.mod_pos_bound (n + 3) 4). lia.
Qed.

Lemma entries_of_size a n : a mod 4 = 0 -> (a + n + 3) / 4 = a / 4 + (n + 3) / 4.
Proof.
  intros Ha. rewrite (Z.div_mod a 4), Ha, Z.add_0_r by lia.
  replace (4 * (a / 4) + n + 3) with ((n + 3) + a / 4 * 4) by lia.
  rewrite Z.div_add by lia. rewrite (Z.mul_comm 4), Z.div_mul by lia. lia.
Qed.

Lemma total_size_exact c args data n :
  struct_ok c = true -> args_ok c args -> data_length c args data = Some n ->
  (sizeof c + n + 3) / 4 < 2 ^ 21 -> s_tail c <> NoSize ->
  exists t, total_size c args data = Done t /\ 0 <= t < 2 ^ 24 /\ (t + 3) / 4 = (sizeof c + n + 3) / 4.
Proof.
  intros Hok Hargs Hn Hlt Ht. pose proof (data_length_nonneg c args data n Hok Hargs Hn) as [H0 _].
  destruct (struct_ok_inv c Hok) as (_ & _ & Hf & _). destruct (sizeof_bounds c Hf) as [Hs Hm].
  pose proof (Z.div_mod (sizeof c + n + 3) 4). pose proof (Z.mod_pos_bound (sizeof c + n + 3) 4).
  assert (n < 2 ^ 23) by lia.
  unfold total_size, ComputeSize. rewrite (ComputeDataSize_exact c args data n) by done. cbn [obind].
  assert (Hx : u32 (usize (sizeof c + n)) = sizeof c + n).
  { rewrite usize_small by lia. apply u32_id. unfold is_u32. lia. }
  destruct (s_tail c) eqn:Et; try done; try (eexists; split; [done|]; rewrite Hx; split; [lia|done]).
  - injection (eq_trans (eq_sym Hn) ltac:(unfold data_length; by rewrite Et)) as ->.
    exists (sizeof c). split; [done|]. split; [lia|]. f_equal. lia.
  - eexists. split; [done|]. rewrite RoundSize_spec by lia.
    pose proof (Z.div_mod (n + 3) 4). pose proof (Z.mod_pos_bound (n + 3) 4).
    rewrite usize_small, u32_id by (unfold is_u32; lia). split; [lia|].
    rewrite !entries_of_size by done. f_equal.
    replace (4 * ((n + 3) / 4) + 3) with (3 + (n + 3) / 4 * 4) by lia. rewrite Z.div_add by lia. done.
Qed.

Lemma SetHeader_exact c args data n :
  struct_ok c = true -> args_ok c args -> data_length c args data = Some n ->
  (sizeof c + n + 3) / 4 < 2 ^ 21 -> s_tail c <> NoSize ->
  SetHeader c args data = Done (CommandHeader_Init (kCmdId c) ((sizeof c + n + 3) / 4)).
Proof.
  intros Hok Hargs Hn Hlt Ht. pose proof (data_length_nonneg c args data n Hok Hargs Hn) as [H0 _].
  destruct (struct_ok_inv c Hok) as (_ & _ & Hf & _). destruct (sizeof_bounds c Hf) as [Hs Hm].
  pose proof (Z.div_mod (sizeof c + n + 3) 4). pose proof (Z.mod_pos_bound (sizeof c + n + 3) 4).
  destruct (total_size_exact c args data n) as (t & Et & Hb & Ee); [done..|].
  unfold SetHeader. rewrite Et. cbn [obind].
  destruct (s_tail c) eqn:Etl; try done; try by rewrite ComputeNumEntries_spec, Ee by lia.
  - injection (eq_trans (eq_sym Hn) ltac:(unfold data_length; by rewrite Etl)) as ->.
    rewrite ComputeNumEntries_spec by lia. do 3 f_equal. lia.
  - rewrite (ComputeDataSize_exact c args data n) by (done || lia). cbn [obind].
    by rewrite usize_small, ComputeNumEntries_spec by lia.
Qed.

(** *** Storing *)

Lemma fmap_u32 ws : Forall is_u32 ws -> u32 <$> ws = ws.
Proof. induction 1 as [|w ws Hw _ IH]; [done|]. cbn. by rewrite IH, u32_id. Qed.

Lemma copy_bytes_spec hd mid rest data n :
  Forall is_u32 (hd ++ mid ++ rest) -> Forall is_byte data -> 0 <= n <= zlen data -> zlen mid = (n + 3) / 4 ->
  exists mid', copy_bytes (hd ++ mid ++ rest) (4 * zlen hd) data n = Done (hd ++ mid' ++ rest) /\
    zlen mid' = zlen mid /\ Forall is_u32 mid' /\ zread (words_to_bytes mid') 0 n = zread data 0 n.
Proof.
  intros Hu Hb Hn Hm. pose proof (Z.div_mod (n + 3) 4). pose proof (Z.mod_pos_bound (n + 3) 4).
  pose proof (zlen_words_to_bytes mid) as Hlm. pose proof (zlen_nonneg hd).
  destruct (zread_Some data 0 n) as (src & Esrc & Hsrc); [lia..|].
  set (new := src ++ drop (Z.to_nat n) (words_to_bytes mid)).
  assert (Hnew : zlen new = 4 * Z.of_nat (length mid)).
  { unfold new. rewrite zlen_app, Hsrc, zlen_drop by lia. unfold zlen in *. lia. }
  assert (Hnb : Forall is_byte new).
  { unfold new. apply Forall_app. split; [|apply Forall_drop, words_to_bytes_is_byte].
    apply zread_inv in Esrc as (_ & _ & _ & ->). by apply Forall_take, Forall_drop. }
  destruct (words_of_bytes _ _ Hnew Hnb) as [Ew Hw].
  exists (bytes_to_words new). split_and!; [|rewrite (zlen_bytes_to_words _ _ Hnew); unfold zlen; lia|done|].
  - unfold copy_bytes. rewrite Esrc. cbn [of_option obind].
    rewrite !words_to_bytes_app. rewrite zwrite_in by (rewrite ?zlen_app, ?zlen_words_to_bytes; pose proof (zlen_nonneg rest); lia).
    cbn [of_option obind]. f_equal.
    assert (Hhd : Z.to_nat (4 * zlen hd) = length (words_to_bytes hd)).
    { pose proof (zlen_words_to_bytes hd). unfold zlen in *. lia. }
    rewrite Hhd, take_app_length, <- drop_drop, drop_app_length, drop_app_le.
    2: { unfold zlen in *. lia. }
    rewrite app_assoc with (l := src). replace (length src) with (Z.to_nat n) by (unfold zlen in *; lia).
    fold new.
    replace (words_to_bytes hd ++ new ++ words_to_bytes rest)
      with (words_to_bytes (hd ++ bytes_to_words new ++ rest)) by (rewrite !words_to_bytes_app, Ew; done).
    rewrite bytes_to_words_words. apply fmap_u32. rewrite !Forall_app in *. tauto.
  - rewrite Ew, Esrc, zread_in by (unfold zlen in *; lia). f_equal. unfold new.
    apply take_app_length'. unfold zlen in *. lia.
Qed.

Lemma load_u32 t a : arg_ok t a -> load t (u32 a) = a.
Proof.
  destruct t; cbn [arg_ok load]; intros Ha; [by apply u32_id| |by apply u32_id].
  by rewrite i32_u32, i32_id.
Qed.

Lemma load_fields fields vals :
  Forall2 (fun f a => arg_ok f.2 a) fields vals ->
  zip_with (fun f w => load f.2 w) (fields : list (string * FieldType)) (u32 <$> vals) = vals.
Proof.
  induction 1 as [|f a fields vals Ha _ IH]; [done|]. cbn [fmap list_fmap zip_with].
  f_equal; [by apply load_u32|exact IH].
Qed.

(** What [values] adds to the parameters. *)
Definition extra_fields c (n : Z) : list Z := match s_tail c with Name => [n] | _ => [] end.

Lemma values_exact c args data n :
  struct_ok c = true -> args_ok c args -> data_length c args data = Some n -> n < 2 ^ 23 ->
  values c args data = Done (args ++ extra_fields c n) /\
  Forall2 (fun f a => arg_ok f.2 a) (s_fields c) (args ++ extra_fields c n).
Proof.
  intros Hok Hargs Hn Hlt. pose proof (data_length_nonneg c args data n Hok Hargs Hn) as [H0 _].
  pose proof (ComputeDataSize_exact c args data n Hok Hargs Hn Hlt) as Hc.
  apply struct_ok_inv in Hok as (_ & _ & _ & _ & _ & _ & Ht).
  unfold values, extra_fields, args_ok, params in *.
  destruct (s_tail c); rewrite ?app_nil_r; try done.
  rewrite Hc. split; [done|]. apply last_Some in Ht as [l El]. rewrite El in *.
  rewrite length_app, Nat.add_1_r in Hargs. cbn [length pred] in Hargs.
  rewrite take_app_length in Hargs. apply Forall2_app; [done|]. constructor; [|constructor].
  cbn. unfold is_u32. lia.
Qed.

Lemma copied_exact c args data n :
  struct_ok c = true -> args_ok c args -> data_length c args data = Some n -> n < 2 ^ 23 ->
  copied c args data = Done (if copies c then n else 0).
Proof.
  intros Hok Hargs Hn Hlt. pose proof (ComputeDataSize_exact c args data n Hok Hargs Hn Hlt) as Hc.
  unfold copied, copies. by destruct (s_tail c).
Qed.

(** The copy into entries that begin with a struct. *)
Lemma copy_after c hd entries data n :
  zlen hd = sizeof c / 4 -> sizeof c mod 4 = 0 -> Forall is_u32 (hd ++ entries) -> Forall is_byte data ->
  0 <= n -> (copies c = true -> n <= zlen data) -> (n + 3) / 4 <= zlen entries ->
  exists mid, copy_bytes (hd ++ entries) (sizeof c) data (if copies c then n else 0)
      = Done ((hd ++ mid) ++ drop (Z.to_nat ((n + 3) / 4)) entries) /\
    zlen mid = (n + 3) / 4 /\ Forall is_u32 mid /\
    (copies c = true -> zread (words_to_bytes mid) 0 n = zread data 0 n).
Proof.
  intros Hhd Hm Hu Hb H0 Hc Hroom. pose proof (Z.div_mod (sizeof c) 4).
  assert (Hsz : sizeof c = 4 * zlen hd) by lia. rewrite Hsz.
  pose proof (Z.div_mod (n + 3) 4). pose proof (Z.mod_pos_bound (n + 3) 4).
  set (m := Z.to_nat ((n + 3) / 4)).
  assert (Hlen : zlen (take m entries) = (n + 3) / 4) by (unfold zlen in *; rewrite length_take; lia).
  destruct (copies c).
  - destruct (copy_bytes_spec hd (take m entries) (drop m entries) data n) as (mid & E & Hl & Hw & Hr);
      [by rewrite take_drop|done|auto|done|].
    rewrite take_drop in E. exists mid. rewrite E, app_assoc. rewrite Hl. auto.
  - destruct (copy_bytes_spec hd [] entries data 0) as (mid & E & Hl & _); [done|done| |done|].
    { pose proof (zlen_nonneg data). lia. }
    destruct mid as [|? ?]; [|unfold zlen in Hl; cbn in Hl; lia].
    cbn [app] in E. exists (take m entries). rewrite E. split_and!; [|done| |done].
    + by rewrite <- app_assoc, take_drop.
    + apply Forall_app in Hu as [_ Hu]. by apply Forall_take.
Qed.

Lemma zread_past_prefix (hd mid : list Z) n :
  0 <= n <= zlen mid -> zread (hd ++ mid) (zlen hd) n = zread mid 0 n.
Proof.
  intros Hn. pose proof (zlen_nonneg hd). pose proof (zlen_app hd mid).
  rewrite zread_in by lia. rewrite zread_in by lia.
  f_equal. f_equal. rewrite drop_app_ge by (unfold zlen; lia).
  f_equal. unfold zlen. lia.
Qed.

(** [Init] writes the command to the entries it takes, and leaves the rest. *)
Lemma Init_written c args data n entries :
  struct_ok c = true -> args_ok c args -> data_length c args data = Some n ->
  (sizeof c + n + 3) / 4 < 2 ^ 21 -> s_tail c <> NoSize ->
  Forall is_byte data -> Forall is_u32 entries -> (sizeof c + n + 3) / 4 <= zlen entries ->
  exists words, Init c args data entries = Done (words ++ drop (length words) entries) /\
    written c args data n words.
Proof.
  intros Hok Hargs Hn Hlt Ht Hb Hu Hroom.
  pose proof (data_length_nonneg c args data n Hok Hargs Hn) as [H0 Hc].
  destruct (struct_ok_inv c Hok) as (_ & _ & Hf & _). destruct (sizeof_bounds c Hf) as [Hs Hm].
  pose proof (Z.div_mod (sizeof c + n + 3) 4). pose proof (Z.mod_pos_bound (sizeof c + n + 3) 4).
  pose proof (Z.div_mod (n + 3) 4). pose proof (Z.mod_pos_bound (n + 3) 4).
  pose proof (entries_of_size (sizeof c) n Hm) as He.
  destruct (values_exact c args data n) as [Ev Hv]; [done..|lia|].
  assert (Hl : zlen (args ++ extra_fields c n) = zlen (s_fields c)).
  { unfold zlen. by rewrite (Forall2_length _ _ _ Hv). }
  unfold Init. rewrite (SetHeader_exact c args data n) by done. cbn [obind]. rewrite Ev. cbn [obind].
  set (vals := args ++ extra_fields c n) in *.
  set (header := header_word _). set (hd := header :: (u32 <$> vals)).
  assert (Hhd : zlen hd = sizeof c / 4).
  { unfold hd. rewrite zlen_cons. unfold zlen at 1. rewrite length_fmap. fold (zlen vals).
    rewrite Hl. unfold sizeof. rewrite (Z.mul_comm 4), Z.div_mul; lia. }
  assert (Hdu : Forall is_u32 hd).
  { constructor; [apply header_word_u32|]. apply Forall_fmap, Forall_forall. intros. apply u32_range. }
  rewrite zwrite_in by (rewrite ?Hhd; lia). cbn [of_option obind].
  rewrite take_0, Nat.add_0_l. cbn [app Z.to_nat].
  rewrite (copied_exact c args data n) by (done || lia). cbn [obind].
  destruct (copy_after c hd (drop (length hd) entries) data n) as (mid & E & Hml & Hmu & Hmr).
  - done.
  - done.
  - apply Forall_app. split; [done|by apply Forall_drop].
  - done.
  - done.
  - done.
  - unfold zlen in *. rewrite length_drop. lia.
  - exists (hd ++ mid). rewrite E. split.
    { f_equal. rewrite drop_drop. do 2 f_equal. rewrite length_app. unfold zlen in *. lia. }
    assert (Hlw : zlen (hd ++ mid) = (sizeof c + n + 3) / 4) by (rewrite zlen_app; lia).
    split.
    + rewrite Hlw. by eexists.
    + done.
    + by apply Forall_app.
    + unfold read. change ((hd ++ mid)) with (header :: ((u32 <$> vals) ++ mid)).
      rewrite zread_in; [|lia|apply zlen_nonneg|].
      2: { rewrite zlen_cons, zlen_app. unfold zlen at 2. rewrite length_fmap. fold (zlen vals).
           rewrite Hl. pose proof (zlen_nonneg mid). lia. }
      change (Z.to_nat 1) with 1%nat. cbn [drop fmap option_fmap option_map].
      rewrite drop_0. f_equal. rewrite take_app_le, take_ge by (rewrite length_fmap; unfold zlen in *; lia).
      by apply load_fields.
    + intros Hcp. rewrite words_to_bytes_app.
      replace (sizeof c) with (zlen (words_to_bytes hd)) by (rewrite zlen_words_to_bytes; pose proof (Z.div_mod (sizeof c) 4); lia).
      rewrite zread_past_prefix; [by apply Hmr|]. rewrite zlen_words_to_bytes. lia.
Qed.

(** [Set] answers the address after the command. *)
Lemma Set_written c args data n entries :
  struct_ok c = true -> args_ok c args -> data_length c args data = Some n ->
  (sizeof c + n + 3) / 4 < 2 ^ 21 -> s_tail c <> NoSize ->
  Forall is_byte data -> Forall is_u32 entries -> (sizeof c + n + 3) / 4 <= zlen entries ->
  exists words, Struct_Set c args data entries = Done (words ++ drop (length words) entries, 4 * zlen words) /\
    written c args data n words.
Proof.
  intros Hok Hargs Hn Hlt Ht Hb Hu Hroom.
  pose proof (data_length_nonneg c args data n Hok Hargs Hn) as [H0 _].
  destruct (struct_ok_inv c Hok) as (_ & _ & Hf & _). destruct (sizeof_bounds c Hf) as [Hs Hm].
  pose proof (Z.div_mod (sizeof c) 4). pose proof (entries_of_size (sizeof c) n Hm) as He.
  pose proof (Z.div_mod (sizeof c + n + 3) 4). pose proof (Z.mod_pos_bound (sizeof c + n + 3) 4).
  destruct (Init_written c args data n entries) as (words & E & Hw); [done..|].
  exists words. split; [|done]. unfold Struct_Set. rewrite E. cbn [obind]. rewrite (w_size _ _ _ _ _ Hw).
  destruct (total_size_exact c args data n) as (t & Et & Hb' & Ee); [done..|]. rewrite Et. cbn [obind].
  destruct (s_tail c) eqn:Etl; try done; try by rewrite RoundSize_spec, Ee by lia.
  - injection (eq_trans (eq_sym Hn) ltac:(unfold data_length; by rewrite Etl)) as ->.
    do 2 f_equal. rewrite He. change ((0 + 3) / 4) with 0. lia.
  - rewrite (ComputeDataSize_exact c args data n) by (done || lia). cbn [obind].
    rewrite RoundSize_spec, He by lia. do 2 f_equal. lia.
Qed.

(** A command whose size is "TODO" has no size in its header, and [Set] answers its own
    address. *)
Lemma Set_NoSize c args data entries :
  struct_ok c = true -> args_ok c args -> s_tail c = NoSize ->
  Forall is_byte data -> Forall is_u32 entries -> sizeof c / 4 <= zlen entries ->
  exists header entries', Struct_Set c args data entries = Done (header :: entries', 0) /\
    value_header header = mkHeader 0 (kCmdId c).
Proof.
  intros Hok Hargs Ht Hb Hu Hroom.
  destruct (struct_ok_inv c Hok) as (_ & _ & Hf & _ & Hin & _). destruct (sizeof_bounds c Hf) as [Hs Hm].
  unfold args_ok, params in Hargs. rewrite Ht in Hargs.
  unfold Struct_Set, Init, SetHeader, values, copied, total_size. rewrite Ht. cbn [obind].
  change (ComputeNumEntries 0) with (u32 (usize (0 + 4 - 1) / 4)). rewrite usize_small by lia.
  change (u32 ((0 + 4 - 1) / 4)) with 0.
  set (header := header_word _).
  assert (Hl : zlen (header :: (u32 <$> args)) = sizeof c / 4).
  { rewrite zlen_cons. unfold zlen at 1. rewrite length_fmap, <- (Forall2_length _ _ _ Hargs).
    unfold sizeof. rewrite (Z.mul_comm 4), Z.div_mul by lia. done. }
  rewrite zwrite_in by (rewrite ?Hl; lia). cbn [of_option obind].
  rewrite take_0. cbn [app]. set (rest := drop _ entries).
  destruct (copy_bytes_spec (header :: (u32 <$> args)) [] rest data 0) as (mid & E & Hm0 & _).
  - cbn [app]. constructor; [apply header_word_u32|]. apply Forall_app. split; [|by apply Forall_drop].
    apply Forall_fmap, Forall_forall. intros. apply u32_range.
  - done.
  - pose proof (zlen_nonneg data). lia.
  - done.
  - rewrite Hl in E. pose proof (Z.div_mod (sizeof c) 4).
    replace (4 * (sizeof c / 4)) with (sizeof c) in E by lia. cbn [app] in E. rewrite E. cbn [obind].
    change (RoundSizeToMultipleOfEntries 0) with (usize (ComputeNumEntries 0 * 4)).
    change (ComputeNumEntries 0) with (u32 (usize (0 + 4 - 1) / 4)). rewrite (usize_small (0 + 4 - 1)) by lia.
    change (u32 ((0 + 4 - 1) / 4) * 4) with 0. rewrite usize_small by lia.
    eexists _, _. split; [done|]. apply value_header_Init; [lia|].
    pose proof (CommandId_of_range _ Hin). unfold kCmdId. lia.
Qed.
End lemmas.
