(* ===== verification/GLES2Commands.v ===== *)
(** * The GLES2 commands

    The structs of [gles2_cmd_format_autogen.h], in its order, and the six of
    [gles2_cmd_format.h]: for each the name, the flags, the fields with their types, what
    follows the struct, and what the code asserts of its layout.  Every [Init] assigns its
    parameters to the fields of the same names in their order. *)

From S2P Require Import Prelude CmdFormat GLES2Format.
From Stdlib Require Import ZArith Lia ZifyBool Bool.
From stdpp Require Import base list numbers option strings.
Local Open Scope Z_scope.

(** ** The structs *)

Module cmds.
Local Open Scope string_scope.

Definition ActiveTexture : Struct := {|
  s_name := "ActiveTexture"; s_ArgFlags := kFixed;
  s_fields :=
    [("texture", Uint32)];
  s_tail := NoTail; s_sizeof := 8; s_offsetof := [0; 4]
|}.

Definition AttachShader : Struct := {|
  s_name := "AttachShader"; s_ArgFlags := kFixed;
  s_fields :=
    [("program", Uint32); ("shader", Uint32)];
  s_tail := NoTail; s_sizeof := 12; s_offsetof := [0; 4; 8]
|}.

Definition BindAttribLocation : Struct := {|
  s_name := "BindAttribLocation"; s_ArgFlags := kFixed;
  s_fields :=
    [("program", Uint32); ("index", Uint32); ("name_shm_id", Uint32);
     ("name_shm_offset", Uint32); ("data_size", Uint32)];
  s_tail := NoTail; s_sizeof := 24; s_offsetof := [0; 4; 8; 12; 16; 20]
|}.

Definition BindAttribLocationImmediate : Struct := {|
  s_name := "BindAttribLocationImmediate"; s_ArgFlags := kAtLeastN;
  s_fields :=
    [("program", Uint32); ("index", Uint32); ("data_size", Uint32)];
  s_tail := BytesOf "data_size"; s_sizeof := 16; s_offsetof := [0; 4; 8; 12]
|}.

Definition BindAttribLocationBucket : Struct := {|
  s_name := "BindAttribLocationBucket"; s_ArgFlags := kFixed;
  s_fields :=
    [("program", Uint32); ("index", Uint32); ("name_bucket_id", Uint32)];
  s_tail := NoTail; s_sizeof := 16; s_offsetof := [0; 4; 8; 12]
|}.

Definition BindBuffer : Struct := {|
  s_name := "BindBuffer"; s_ArgFlags := kFixed;
  s_fields :=
    [("target", Uint32); ("buffer", Uint32)];
  s_tail := NoTail; s_sizeof := 12; s_offsetof := [0; 4; 8]
|}.

Definition BindFramebuffer : Struct := {|
  s_name := "BindFramebuffer"; s_ArgFlags := kFixed;
  s_fields :=
    [("target", Uint32); ("framebuffer", Uint32)];
  s_tail := NoTail; s_sizeof := 12; s_offsetof := [0; 4; 8]
|}.

Definition BindRenderbuffer : Struct := {|
  s_name := "BindRenderbuffer"; s_ArgFlags := kFixed;
  s_fields :=
    [("target", Uint32); ("renderbuffer", Uint32)];
  s_tail := NoTail; s_sizeof := 12; s_offsetof := [0; 4; 8]
|}.

Definition BindTexture : Struct := {|
  s_name := "BindTexture"; s_ArgFlags := kFixed;
  s_fields :=
    [("target", Uint32); ("texture", Uint32)];
  s_tail := NoTail; s_sizeof := 12; s_offsetof := [0; 4; 8]
|}.

Definition BlendColor : Struct := {|
  s_name := "BlendColor"; s_ArgFlags := kFixed;
  s_fields :=
    [("red", Float); ("green", Float); ("blue", Float); ("alpha", Float)];
  s_tail := NoTail; s_sizeof := 20; s_offsetof := [0; 4; 8; 12; 16]
|}.

Definition BlendEquation : Struct := {|
  s_name := "BlendEquation"; s_ArgFlags := kFixed;
  s_fields :=
    [("mode", Uint32)];
  s_tail := NoTail; s_sizeof := 8; s_offsetof := [0; 4]
|}.

Definition BlendEquationSeparate : Struct := {|
  s_name := "BlendEquationSeparate"; s_ArgFlags := kFixed;
  s_fields :=
    [("modeRGB", Uint32); ("modeAlpha", Uint32)];
  s_tail := NoTail; s_sizeof := 12; s_offsetof := [0; 4; 8]
|}.

Definition BlendFunc : Struct := {|
  s_name := "BlendFunc"; s_ArgFlags := kFixed;
  s_fields :=
    [("sfactor", Uint32); ("dfactor", Uint32)];
  s_tail := NoTail; s_sizeof := 12; s_offsetof := [0; 4; 8]
|}.

Definition BlendFuncSeparate : Struct := {|
  s_name := "BlendFuncSeparate"; s_ArgFlags := kFixed;
  s_fields :=
    [("srcRGB", Uint32); ("dstRGB", Uint32); ("srcAlpha", Uint32); ("dstAlpha", Uint32)];
  s_tail := NoTail; s_sizeof := 20; s_offsetof := [0; 4; 8; 12; 16]
|}.

Definition BufferData : Struct := {|
  s_name := "BufferData"; s_ArgFlags := kFixed;
  s_fields :=
    [("target", Uint32); ("size", Int32); ("data_shm_id", Uint32); ("data_shm_offset", Uint32);
     ("usage", Uint32)];
  s_tail := NoTail; s_sizeof := 24; s_offsetof := [0; 4; 8; 12; 16; 20]
|}.

Definition BufferDataImmediate : Struct := {|
  s_name := "BufferDataImmediate"; s_ArgFlags := kAtLeastN;
  s_fields :=
    [("target", Uint32); ("size", Int32); ("usage", Uint32)];
  s_tail := NoSize; s_sizeof := 16; s_offsetof := [0; 4; 8; 12]
|}.

Definition BufferSubData : Struct := {|
  s_name := "BufferSubData"; s_ArgFlags := kFixed;
  s_fields :=
    [("target", Uint32); ("offset", Int32); ("size", Int32); ("data_shm_id", Uint32);
     ("data_shm_offset", Uint32)];
  s_tail := NoTail; s_sizeof := 24; s_offsetof := [0; 4; 8; 12; 16; 20]
|}.

Definition BufferSubDataImmediate : Struct := {|
  s_name := "BufferSubDataImmediate"; s_ArgFlags := kAtLeastN;
  s_fields :=
    [("target", Uint32); ("offset", Int32); ("size", Int32)];
  s_tail := RoomFor "size"; s_sizeof := 16; s_offsetof := [0; 4; 8; 12]
|}.

Definition CheckFramebufferStatus : Struct := {|
  s_name := "CheckFramebufferStatus"; s_ArgFlags := kFixed;
  s_fields :=
    [("target", Uint32); ("result_shm_id", Uint32); ("result_shm_offset", Uint32)];
  s_tail := NoTail; s_sizeof := 16; s_offsetof := [0; 4; 8; 12]
|}.

Definition Clear : Struct := {|
  s_name := "Clear"; s_ArgFlags := kFixed;
  s_fields :=
    [("mask", Uint32)];
  s_tail := NoTail; s_sizeof := 8; s_offsetof := [0; 4]
|}.

Definition ClearColor : Struct := {|
  s_name := "ClearColor"; s_ArgFlags := kFixed;
  s_fields :=
    [("red", Float); ("green", Float); ("blue", Float); ("alpha", Float)];
  s_tail := NoTail; s_sizeof := 20; s_offsetof := [0; 4; 8; 12; 16]
|}.

Definition ClearDepthf : Struct := {|
  s_name := "ClearDepthf"; s_ArgFlags := kFixed;
  s_fields :=
    [("depth", Float)];
  s_tail := NoTail; s_sizeof := 8; s_offsetof := [0; 4]
|}.

Definition ClearStencil : Struct := {|
  s_name := "ClearStencil"; s_ArgFlags := kFixed;
  s_fields :=
    [("s", Int32)];
  s_tail := NoTail; s_sizeof := 8; s_offsetof := [0; 4]
|}.

Definition ColorMask : Struct := {|
  s_name := "ColorMask"; s_ArgFlags := kFixed;
  s_fields :=
    [("red", Uint32); ("green", Uint32); ("blue", Uint32); ("alpha", Uint32)];
  s_tail := NoTail; s_sizeof := 20; s_offsetof := [0; 4; 8; 12; 16]
|}.

Definition CompileShader : Struct := {|
  s_name := "CompileShader"; s_ArgFlags := kFixed;
  s_fields :=
    [("shader", Uint32)];
  s_tail := NoTail; s_sizeof := 8; s_offsetof := [0; 4]
|}.

Definition CompressedTexImage2D : Struct := {|
  s_name := "CompressedTexImage2D"; s_ArgFlags := kFixed;
  s_fields :=
    [("target", Uint32); ("level", Int32); ("internalformat", Uint32); ("width", Int32);
     ("height", Int32); ("border", Int32); ("imageSize", Int32); ("data_shm_id", Uint32);
     ("data_shm_offset", Uint32)];
  s_tail := NoTail; s_sizeof := 40; s_offsetof := [0; 4; 8; 12; 16; 20; 24; 28; 32; 36]
|}.

Definition CompressedTexImage2DImmediate : Struct := {|
  s_name := "CompressedTexImage2DImmediate"; s_ArgFlags := kAtLeastN;
  s_fields :=
    [("target", Uint32); ("level", Int32); ("internalformat", Uint32); ("width", Int32);
     ("height", Int32); ("border", Int32); ("imageSize", Int32)];
  s_tail := NoSize; s_sizeof := 32; s_offsetof := [0; 4; 8; 12; 16; 20; 24; 28]
|}.

Definition CompressedTexImage2DBucket : Struct := {|
  s_name := "CompressedTexImage2DBucket"; s_ArgFlags := kFixed;
  s_fields :=
    [("target", Uint32); ("level", Int32); ("internalformat", Uint32); ("width", Int32);
     ("height", Int32); ("border", Int32); ("bucket_id", Uint32)];
  s_tail := NoTail; s_sizeof := 32; s_offsetof := [0; 4; 8; 12; 16; 20; 24; 28]
|}.

Definition CompressedTexSubImage2D : Struct := {|
  s_name := "CompressedTexSubImage2D"; s_ArgFlags := kFixed;
  s_fields :=
    [("target", Uint32); ("level", Int32); ("xoffset", Int32); ("yoffset", Int32);
     ("width", Int32); ("height", Int32); ("format", Uint32); ("imageSize", Int32);
     ("data_shm_id", Uint32); ("data_shm_offset", Uint32)];
  s_tail := NoTail; s_sizeof := 44; s_offsetof := [0; 4; 8; 12; 16; 20; 24; 28; 32; 36; 40]
|}.

Definition CompressedTexSubImage2DImmediate : Struct := {|
  s_name := "CompressedTexSubImage2DImmediate"; s_ArgFlags := kAtLeastN;
  s_fields :=
    [("target", Uint32); ("level", Int32); ("xoffset", Int32); ("yoffset", Int32);
     ("width", Int32); ("height", Int32); ("format", Uint32); ("imageSize", Int32)];
  s_tail := RoomFor "imageSize"; s_sizeof := 36; s_offsetof := [0; 4; 8; 12; 16; 20; 24; 28; 32]
|}.

Definition CompressedTexSubImage2DBucket : Struct := {|
  s_name := "CompressedTexSubImage2DBucket"; s_ArgFlags := kFixed;
  s_fields :=
    [("target", Uint32); ("level", Int32); ("xoffset", Int32); ("yoffset", Int32);
     ("width", Int32); ("height", Int32); ("format", Uint32); ("bucket_id", Uint32)];
  s_tail := NoTail; s_sizeof := 36; s_offsetof := [0; 4; 8; 12; 16; 20; 24; 28; 32]
|}.

Definition CopyTexImage2D : Struct := {|
  s_name := "CopyTexImage2D"; s_ArgFlags := kFixed;
  s_fields :=
    [("target", Uint32); ("level", Int32); ("internalformat", Uint32); ("x", Int32);
     ("y", Int32); ("width", Int32); ("height", Int32); ("border", Int32)];
  s_tail := NoTail; s_sizeof := 36; s_offsetof := [0; 4; 8; 12; 16; 20; 24; 28; 32]
|}.

Definition CopyTexSubImage2D : Struct := {|
  s_name := "CopyTexSubImage2D"; s_ArgFlags := kFixed;
  s_fields :=
    [("target", Uint32); ("level", Int32); ("xoffset", Int32); ("yoffset", Int32);
     ("x", Int32); ("y", Int32); ("width", Int32); ("height", Int32)];
  s_tail := NoTail; s_sizeof := 36; s_offsetof := [0; 4; 8; 12; 16; 20; 24; 28; 32]
|}.

Definition CreateProgram : Struct := {|
  s_name := "CreateProgram"; s_ArgFlags := kFixed;
  s_fields :=
    [("client_id", Uint32)];
  s_tail := NoTail; s_sizeof := 8; s_offsetof := [0; 4]
|}.

Definition CreateShader : Struct := {|
  s_name := "CreateShader"; s_ArgFlags := kFixed;
  s_fields :=
    [("type", Uint32); ("client_id", Uint32)];
  s_tail := NoTail; s_sizeof := 12; s_offsetof := [0; 4; 8]
|}.

Definition CullFace : Struct := {|
  s_name := "CullFace"; s_ArgFlags := kFixed;
  s_fields :=
    [("mode", Uint32)];
  s_tail := NoTail; s_sizeof := 8; s_offsetof := [0; 4]
|}.

Definition DeleteBuffers : Struct := {|
  s_name := "DeleteBuffers"; s_ArgFlags := kFixed;
  s_fields :=
    [("n", Int32); ("buffers_shm_id", Uint32); ("buffers_shm_offset", Uint32)];
  s_tail := NoTail; s_sizeof := 16; s_offsetof := [0; 4; 8; 12]
|}.

Definition DeleteBuffersImmediate : Struct := {|
  s_name := "DeleteBuffersImmediate"; s_ArgFlags := kAtLeastN;
  s_fields :=
    [("n", Int32)];
  s_tail := ElementsOf 4 "n"; s_sizeof := 8; s_offsetof := [0; 4]
|}.

Definition DeleteFramebuffers : Struct := {|
  s_name := "DeleteFramebuffers"; s_ArgFlags := kFixed;
  s_fields :=
    [("n", Int32); ("framebuffers_shm_id", Uint32); ("framebuffers_shm_offset", Uint32)];
  s_tail := NoTail; s_sizeof := 16; s_offsetof := [0; 4; 8; 12]
|}.

Definition DeleteFramebuffersImmediate : Struct := {|
  s_name := "DeleteFramebuffersImmediate"; s_ArgFlags := kAtLeastN;
  s_fields :=
    [("n", Int32)];
  s_tail := ElementsOf 4 "n"; s_sizeof := 8; s_offsetof := [0; 4]
|}.

Definition DeleteProgram : Struct := {|
  s_name := "DeleteProgram"; s_ArgFlags := kFixed;
  s_fields :=
    [("program", Uint32)];
  s_tail := NoTail; s_sizeof := 8; s_offsetof := [0; 4]
|}.

Definition DeleteRenderbuffers : Struct := {|
  s_name := "DeleteRenderbuffers"; s_ArgFlags := kFixed;
  s_fields :=
    [("n", Int32); ("renderbuffers_shm_id", Uint32); ("renderbuffers_shm_offset", Uint32)];
  s_tail := NoTail; s_sizeof := 16; s_offsetof := [0; 4; 8; 12]
|}.

Definition DeleteRenderbuffersImmediate : Struct := {|
  s_name := "DeleteRenderbuffersImmediate"; s_ArgFlags := kAtLeastN;
  s_fields :=
    [("n", Int32)];
  s_tail := ElementsOf 4 "n"; s_sizeof := 8; s_offsetof := [0; 4]
|}.

Definition DeleteShader : Struct := {|
  s_name := "DeleteShader"; s_ArgFlags := kFixed;
  s_fields :=
    [("shader", Uint32)];
  s_tail := NoTail; s_sizeof := 8; s_offsetof := [0; 4]
|}.

Definition DeleteTextures : Struct := {|
  s_name := "DeleteTextures"; s_ArgFlags := kFixed;
  s_fields :=
    [("n", Int32); ("textures_shm_id", Uint32); ("textures_shm_offset", Uint32)];
  s_tail := NoTail; s_sizeof := 16; s_offsetof := [0; 4; 8; 12]
|}.

Definition DeleteTexturesImmediate : Struct := {|
  s_name := "DeleteTexturesImmediate"; s_ArgFlags := kAtLeastN;
  s_fields :=
    [("n", Int32)];
  s_tail := ElementsOf 4 "n"; s_sizeof := 8; s_offsetof := [0; 4]
|}.

Definition DepthFunc : Struct := {|
  s_name := "DepthFunc"; s_ArgFlags := kFixed;
  s_fields :=
    [("func", Uint32)];
  s_tail := NoTail; s_sizeof := 8; s_offsetof := [0; 4]
|}.

Definition DepthMask : Struct := {|
  s_name := "DepthMask"; s_ArgFlags := kFixed;
  s_fields :=
    [("flag", Uint32)];
  s_tail := NoTail; s_sizeof := 8; s_offsetof := [0; 4]
|}.

Definition DepthRangef : Struct := {|
  s_name := "DepthRangef"; s_ArgFlags := kFixed;
  s_fields :=
    [("zNear", Float); ("zFar", Float)];
  s_tail := NoTail; s_sizeof := 12; s_offsetof := [0; 4; 8]
|}.

Definition DetachShader : Struct := {|
  s_name := "DetachShader"; s_ArgFlags := kFixed;
  s_fields :=
    [("program", Uint32); ("shader", Uint32)];
  s_tail := NoTail; s_sizeof := 12; s_offsetof := [0; 4; 8]
|}.

Definition Disable : Struct := {|
  s_name := "Disable"; s_ArgFlags := kFixed;
  s_fields :=
    [("cap", Uint32)];
  s_tail := NoTail; s_sizeof := 8; s_offsetof := [0; 4]
|}.

Definition DisableVertexAttribArray : Struct := {|
  s_name := "DisableVertexAttribArray"; s_ArgFlags := kFixed;
  s_fields :=
    [("index", Uint32)];
  s_tail := NoTail; s_sizeof := 8; s_offsetof := [0; 4]
|}.

Definition DrawArrays : Struct := {|
  s_name := "DrawArrays"; s_ArgFlags := kFixed;
  s_fields :=
    [("mode", Uint32); ("first", Int32); ("count", Int32)];
  s_tail := NoTail; s_sizeof := 16; s_offsetof := [0; 4; 8; 12]
|}.

Definition DrawElements : Struct := {|
  s_name := "DrawElements"; s_ArgFlags := kFixed;
  s_fields :=
    [("mode", Uint32); ("count", Int32); ("type", Uint32); ("index_offset", Uint32)];
  s_tail := NoTail; s_sizeof := 20; s_offsetof := [0; 4; 8; 12; 16]
|}.

Definition Enable : Struct := {|
  s_name := "Enable"; s_ArgFlags := kFixed;
  s_fields :=
    [("cap", Uint32)];
  s_tail := NoTail; s_sizeof := 8; s_offsetof := [0; 4]
|}.

Definition EnableVertexAttribArray : Struct := {|
  s_name := "EnableVertexAttribArray"; s_ArgFlags := kFixed;
  s_fields :=
    [("index", Uint32)];
  s_tail := NoTail; s_sizeof := 8; s_offsetof := [0; 4]
|}.

Definition Finish : Struct := {|
  s_name := "Finish"; s_ArgFlags := kFixed;
  s_fields := [];
  s_tail := NoTail; s_sizeof := 4; s_offsetof := [0]
|}.

Definition Flush : Struct := {|
  s_name := "Flush"; s_ArgFlags := kFixed;
  s_fields := [];
  s_tail := NoTail; s_sizeof := 4; s_offsetof := [0]
|}.

Definition FramebufferRenderbuffer : Struct := {|
  s_name := "FramebufferRenderbuffer"; s_ArgFlags := kFixed;
  s_fields :=
    [("target", Uint32); ("attachment", Uint32); ("renderbuffertarget", Uint32);
     ("renderbuffer", Uint32)];
  s_tail := NoTail; s_sizeof := 20; s_offsetof := [0; 4; 8; 12; 16]
|}.

Definition FramebufferTexture2D : Struct := {|
  s_name := "FramebufferTexture2D"; s_ArgFlags := kFixed;
  s_fields :=
    [("target", Uint32); ("attachment", Uint32); ("textarget", Uint32); ("texture", Uint32);
     ("level", Int32)];
  s_tail := NoTail; s_sizeof := 24; s_offsetof := [0; 4; 8; 12; 16; 20]
|}.

Definition FrontFace : Struct := {|
  s_name := "FrontFace"; s_ArgFlags := kFixed;
  s_fields :=
    [("mode", Uint32)];
  s_tail := NoTail; s_sizeof := 8; s_offsetof := [0; 4]
|}.

Definition GenBuffers : Struct := {|
  s_name := "GenBuffers"; s_ArgFlags := kFixed;
  s_fields :=
    [("n", Int32); ("buffers_shm_id", Uint32); ("buffers_shm_offset", Uint32)];
  s_tail := NoTail; s_sizeof := 16; s_offsetof := [0; 4; 8; 12]
|}.

Definition GenBuffersImmediate : Struct := {|
  s_name := "GenBuffersImmediate"; s_ArgFlags := kAtLeastN;
  s_fields :=
    [("n", Int32)];
  s_tail := ElementsOf 4 "n"; s_sizeof := 8; s_offsetof := [0; 4]
|}.

Definition GenerateMipmap : Struct := {|
  s_name := "GenerateMipmap"; s_ArgFlags := kFixed;
  s_fields :=
    [("target", Uint32)];
  s_tail := NoTail; s_sizeof := 8; s_offsetof := [0; 4]
|}.

Definition GenFramebuffers : Struct := {|
  s_name := "GenFramebuffers"; s_ArgFlags := kFixed;
  s_fields :=
    [("n", Int32); ("framebuffers_shm_id", Uint32); ("framebuffers_shm_offset", Uint32)];
  s_tail := NoTail; s_sizeof := 16; s_offsetof := [0; 4; 8; 12]
|}.

Definition GenFramebuffersImmediate : Struct := {|
  s_name := "GenFramebuffersImmediate"; s_ArgFlags := kAtLeastN;
  s_fields :=
    [("n", Int32)];
  s_tail := ElementsOf 4 "n"; s_sizeof := 8; s_offsetof := [0; 4]
|}.

Definition GenRenderbuffers : Struct := {|
  s_name := "GenRenderbuffers"; s_ArgFlags := kFixed;
  s_fields :=
    [("n", Int32); ("renderbuffers_shm_id", Uint32); ("renderbuffers_shm_offset", Uint32)];
  s_tail := NoTail; s_sizeof := 16; s_offsetof := [0; 4; 8; 12]
|}.

Definition GenRenderbuffersImmediate : Struct := {|
  s_name := "GenRenderbuffersImmediate"; s_ArgFlags := kAtLeastN;
  s_fields :=
    [("n", Int32)];
  s_tail := ElementsOf 4 "n"; s_sizeof := 8; s_offsetof := [0; 4]
|}.

Definition GenTextures : Struct := {|
  s_name := "GenTextures"; s_ArgFlags := kFixed;
  s_fields :=
    [("n", Int32); ("textures_shm_id", Uint32); ("textures_shm_offset", Uint32)];
  s_tail := NoTail; s_sizeof := 16; s_offsetof := [0; 4; 8; 12]
|}.

Definition GenTexturesImmediate : Struct := {|
  s_name := "GenTexturesImmediate"; s_ArgFlags := kAtLeastN;
  s_fields :=
    [("n", Int32)];
  s_tail := ElementsOf 4 "n"; s_sizeof := 8; s_offsetof := [0; 4]
|}.

Definition GetActiveAttrib : Struct := {|
  s_name := "GetActiveAttrib"; s_ArgFlags := kFixed;
  s_fields :=
    [("program", Uint32); ("index", Uint32); ("name_bucket_id", Uint32);
     ("result_shm_id", Uint32); ("result_shm_offset", Uint32)];
  s_tail := NoTail; s_sizeof := 24; s_offsetof := [0; 4; 8; 12; 16; 20]
|}.

Definition GetActiveUniform : Struct := {|
  s_name := "GetActiveUniform"; s_ArgFlags := kFixed;
  s_fields :=
    [("program", Uint32); ("index", Uint32); ("name_bucket_id", Uint32);
     ("result_shm_id", Uint32); ("result_shm_offset", Uint32)];
  s_tail := NoTail; s_sizeof := 24; s_offsetof := [0; 4; 8; 12; 16; 20]
|}.

Definition GetAttachedShaders : Struct := {|
  s_name := "GetAttachedShaders"; s_ArgFlags := kFixed;
  s_fields :=
    [("program", Uint32); ("result_shm_id", Uint32); ("result_shm_offset", Uint32);
     ("result_size", Uint32)];
  s_tail := NoTail; s_sizeof := 20; s_offsetof := [0; 4; 8; 12; 16]
|}.

Definition GetBooleanv : Struct := {|
  s_name := "GetBooleanv"; s_ArgFlags := kFixed;
  s_fields :=
    [("pname", Uint32); ("params_shm_id", Uint32); ("params_shm_offset", Uint32)];
  s_tail := NoTail; s_sizeof := 16; s_offsetof := [0; 4; 8; 12]
|}.

Definition GetBufferParameteriv : Struct := {|
  s_name := "GetBufferParameteriv"; s_ArgFlags := kFixed;
  s_fields :=
    [("target", Uint32); ("pname", Uint32); ("params_shm_id", Uint32);
     ("params_shm_offset", Uint32)];
  s_tail := NoTail; s_sizeof := 20; s_offsetof := [0; 4; 8; 12; 16]
|}.

Definition GetError : Struct := {|
  s_name := "GetError"; s_ArgFlags := kFixed;
  s_fields :=
    [("result_shm_id", Uint32); ("result_shm_offset", Uint32)];
  s_tail := NoTail; s_sizeof := 12; s_offsetof := [0; 4; 8]
|}.

Definition GetFloatv : Struct := {|
  s_name := "GetFloatv"; s_ArgFlags := kFixed;
  s_fields :=
    [("pname", Uint32); ("params_shm_id", Uint32); ("params_shm_offset", Uint32)];
  s_tail := NoTail; s_sizeof := 16; s_offsetof := [0; 4; 8; 12]
|}.

Definition GetFramebufferAttachmentParameteriv : Struct := {|
  s_name := "GetFramebufferAttachmentParameteriv"; s_ArgFlags := kFixed;
  s_fields :=
    [("target", Uint32); ("attachment", Uint32); ("pname", Uint32); ("params_shm_id", Uint32);
     ("params_shm_offset", Uint32)];
  s_tail := NoTail; s_sizeof := 24; s_offsetof := [0; 4; 8; 12; 16; 20]
|}.

Definition GetIntegerv : Struct := {|
  s_name := "GetIntegerv"; s_ArgFlags := kFixed;
  s_fields :=
    [("pname", Uint32); ("params_shm_id", Uint32); ("params_shm_offset", Uint32)];
  s_tail := NoTail; s_sizeof := 16; s_offsetof := [0; 4; 8; 12]
|}.

Definition GetProgramiv : Struct := {|
  s_name := "GetProgramiv"; s_ArgFlags := kFixed;
  s_fields :=
    [("program", Uint32); ("pname", Uint32); ("params_shm_id", Uint32);
     ("params_shm_offset", Uint32)];
  s_tail := NoTail; s_sizeof := 20; s_offsetof := [0; 4; 8; 12; 16]
|}.

Definition GetProgramInfoLog : Struct := {|
  s_name := "GetProgramInfoLog"; s_ArgFlags := kFixed;
  s_fields :=
    [("program", Uint32); ("bucket_id", Uint32)];
  s_tail := NoTail; s_sizeof := 12; s_offsetof := [0; 4; 8]
|}.

Definition GetRenderbufferParameteriv : Struct := {|
  s_name := "GetRenderbufferParameteriv"; s_ArgFlags := kFixed;
  s_fields :=
    [("target", Uint32); ("pname", Uint32); ("params_shm_id", Uint32);
     ("params_shm_offset", Uint32)];
  s_tail := NoTail; s_sizeof := 20; s_offsetof := [0; 4; 8; 12; 16]
|}.

Definition GetShaderiv : Struct := {|
  s_name := "GetShaderiv"; s_ArgFlags := kFixed;
  s_fields :=
    [("shader", Uint32); ("pname", Uint32); ("params_shm_id", Uint32);
     ("params_shm_offset", Uint32)];
  s_tail := NoTail; s_sizeof := 20; s_offsetof := [0; 4; 8; 12; 16]
|}.

Definition GetShaderInfoLog : Struct := {|
  s_name := "GetShaderInfoLog"; s_ArgFlags := kFixed;
  s_fields :=
    [("shader", Uint32); ("bucket_id", Uint32)];
  s_tail := NoTail; s_sizeof := 12; s_offsetof := [0; 4; 8]
|}.

Definition GetShaderPrecisionFormat : Struct := {|
  s_name := "GetShaderPrecisionFormat"; s_ArgFlags := kFixed;
  s_fields :=
    [("shadertype", Uint32); ("precisiontype", Uint32); ("result_shm_id", Uint32);
     ("result_shm_offset", Uint32)];
  s_tail := NoTail; s_sizeof := 20; s_offsetof := [0; 4; 8; 12; 16]
|}.

Definition GetShaderSource : Struct := {|
  s_name := "GetShaderSource"; s_ArgFlags := kFixed;
  s_fields :=
    [("shader", Uint32); ("bucket_id", Uint32)];
  s_tail := NoTail; s_sizeof := 12; s_offsetof := [0; 4; 8]
|}.

Definition GetString : Struct := {|
  s_name := "GetString"; s_ArgFlags := kFixed;
  s_fields :=
    [("name", Uint32); ("bucket_id", Uint32)];
  s_tail := NoTail; s_sizeof := 12; s_offsetof := [0; 4; 8]
|}.

Definition GetTexParameterfv : Struct := {|
  s_name := "GetTexParameterfv"; s_ArgFlags := kFixed;
  s_fields :=
    [("target", Uint32); ("pname", Uint32); ("params_shm_id", Uint32);
     ("params_shm_offset", Uint32)];
  s_tail := NoTail; s_sizeof := 20; s_offsetof := [0; 4; 8; 12; 16]
|}.

Definition GetTexParameteriv : Struct := {|
  s_name := "GetTexParameteriv"; s_ArgFlags := kFixed;
  s_fields :=
    [("target", Uint32); ("pname", Uint32); ("params_shm_id", Uint32);
     ("params_shm_offset", Uint32)];
  s_tail := NoTail; s_sizeof := 20; s_offsetof := [0; 4; 8; 12; 16]
|}.

Definition GetUniformfv : Struct := {|
  s_name := "GetUniformfv"; s_ArgFlags := kFixed;
  s_fields :=
    [("program", Uint32); ("location", Int32); ("params_shm_id", Uint32);
     ("params_shm_offset", Uint32)];
  s_tail := NoTail; s_sizeof := 20; s_offsetof := [0; 4; 8; 12; 16]
|}.

Definition GetUniformiv : Struct := {|
  s_name := "GetUniformiv"; s_ArgFlags := kFixed;
  s_fields :=
    [("program", Uint32); ("location", Int32); ("params_shm_id", Uint32);
     ("params_shm_offset", Uint32)];
  s_tail := NoTail; s_sizeof := 20; s_offsetof := [0; 4; 8; 12; 16]
|}.

Definition GetVertexAttribfv : Struct := {|
  s_name := "GetVertexAttribfv"; s_ArgFlags := kFixed;
  s_fields :=
    [("index", Uint32); ("pname", Uint32); ("params_shm_id", Uint32);
     ("params_shm_offset", Uint32)];
  s_tail := NoTail; s_sizeof := 20; s_offsetof := [0; 4; 8; 12; 16]
|}.

Definition GetVertexAttribiv : Struct := {|
  s_name := "GetVertexAttribiv"; s_ArgFlags := kFixed;
  s_fields :=
    [("index", Uint32); ("pname", Uint32); ("params_shm_id", Uint32);
     ("params_shm_offset", Uint32)];
  s_tail := NoTail; s_sizeof := 20; s_offsetof := [0; 4; 8; 12; 16]
|}.

Definition GetVertexAttribPointerv : Struct := {|
  s_name := "GetVertexAttribPointerv"; s_ArgFlags := kFixed;
  s_fields :=
    [("index", Uint32); ("pname", Uint32); ("pointer_shm_id", Uint32);
     ("pointer_shm_offset", Uint32)];
  s_tail := NoTail; s_sizeof := 20; s_offsetof := [0; 4; 8; 12; 16]
|}.

Definition Hint : Struct := {|
  s_name := "Hint"; s_ArgFlags := kFixed;
  s_fields :=
    [("target", Uint32); ("mode", Uint32)];
  s_tail := NoTail; s_sizeof := 12; s_offsetof := [0; 4; 8]
|}.

Definition IsBuffer : Struct := {|
  s_name := "IsBuffer"; s_ArgFlags := kFixed;
  s_fields :=
    [("buffer", Uint32); ("result_shm_id", Uint32); ("result_shm_offset", Uint32)];
  s_tail := NoTail; s_sizeof := 16; s_offsetof := [0; 4; 8; 12]
|}.

Definition IsEnabled : Struct := {|
  s_name := "IsEnabled"; s_ArgFlags := kFixed;
  s_fields :=
    [("cap", Uint32); ("result_shm_id", Uint32); ("result_shm_offset", Uint32)];
  s_tail := NoTail; s_sizeof := 16; s_offsetof := [0; 4; 8; 12]
|}.

Definition IsFramebuffer : Struct := {|
  s_name := "IsFramebuffer"; s_ArgFlags := kFixed;
  s_fields :=
    [("framebuffer", Uint32); ("result_shm_id", Uint32); ("result_shm_offset", Uint32)];
  s_tail := NoTail; s_sizeof := 16; s_offsetof := [0; 4; 8; 12]
|}.

Definition IsProgram : Struct := {|
  s_name := "IsProgram"; s_ArgFlags := kFixed;
  s_fields :=
    [("program", Uint32); ("result_shm_id", Uint32); ("result_shm_offset", Uint32)];
  s_tail := NoTail; s_sizeof := 16; s_offsetof := [0; 4; 8; 12]
|}.

Definition IsRenderbuffer : Struct := {|
  s_name := "IsRenderbuffer"; s_ArgFlags := kFixed;
  s_fields :=
    [("renderbuffer", Uint32); ("result_shm_id", Uint32); ("result_shm_offset", Uint32)];
  s_tail := NoTail; s_sizeof := 16; s_offsetof := [0; 4; 8; 12]
|}.

Definition IsShader : Struct := {|
  s_name := "IsShader"; s_ArgFlags := kFixed;
  s_fields :=
    [("shader", Uint32); ("result_shm_id", Uint32); ("result_shm_offset", Uint32)];
  s_tail := NoTail; s_sizeof := 16; s_offsetof := [0; 4; 8; 12]
|}.

Definition IsTexture : Struct := {|
  s_name := "IsTexture"; s_ArgFlags := kFixed;
  s_fields :=
    [("texture", Uint32); ("result_shm_id", Uint32); ("result_shm_offset", Uint32)];
  s_tail := NoTail; s_sizeof := 16; s_offsetof := [0; 4; 8; 12]
|}.

Definition LineWidth : Struct := {|
  s_name := "LineWidth"; s_ArgFlags := kFixed;
  s_fields :=
    [("width", Float)];
  s_tail := NoTail; s_sizeof := 8; s_offsetof := [0; 4]
|}.

Definition LinkProgram : Struct := {|
  s_name := "LinkProgram"; s_ArgFlags := kFixed;
  s_fields :=
    [("program", Uint32)];
  s_tail := NoTail; s_sizeof := 8; s_offsetof := [0; 4]
|}.

Definition PixelStorei : Struct := {|
  s_name := "PixelStorei"; s_ArgFlags := kFixed;
  s_fields :=
    [("pname", Uint32); ("param", Int32)];
  s_tail := NoTail; s_sizeof := 12; s_offsetof := [0; 4; 8]
|}.

Definition PolygonOffset : Struct := {|
  s_name := "PolygonOffset"; s_ArgFlags := kFixed;
  s_fields :=
    [("factor", Float); ("units", Float)];
  s_tail := NoTail; s_sizeof := 12; s_offsetof := [0; 4; 8]
|}.

Definition ReadPixels : Struct := {|
  s_name := "ReadPixels"; s_ArgFlags := kFixed;
  s_fields :=
    [("x", Int32); ("y", Int32); ("width", Int32); ("height", Int32); ("format", Uint32);
     ("type", Uint32); ("pixels_shm_id", Uint32); ("pixels_shm_offset", Uint32);
     ("result_shm_id", Uint32); ("result_shm_offset", Uint32)];
  s_tail := NoTail; s_sizeof := 44; s_offsetof := [0; 4; 8; 12; 16; 20; 24; 28; 32; 36; 40]
|}.

Definition ReleaseShaderCompiler : Struct := {|
  s_name := "ReleaseShaderCompiler"; s_ArgFlags := kFixed;
  s_fields := [];
  s_tail := NoTail; s_sizeof := 4; s_offsetof := [0]
|}.

Definition RenderbufferStorage : Struct := {|
  s_name := "RenderbufferStorage"; s_ArgFlags := kFixed;
  s_fields :=
    [("target", Uint32); ("internalformat", Uint32); ("width", Int32); ("height", Int32)];
  s_tail := NoTail; s_sizeof := 20; s_offsetof := [0; 4; 8; 12; 16]
|}.

Definition SampleCoverage : Struct := {|
  s_name := "SampleCoverage"; s_ArgFlags := kFixed;
  s_fields :=
    [("value", Float); ("invert", Uint32)];
  s_tail := NoTail; s_sizeof := 12; s_offsetof := [0; 4; 8]
|}.

Definition Scissor : Struct := {|
  s_name := "Scissor"; s_ArgFlags := kFixed;
  s_fields :=
    [("x", Int32); ("y", Int32); ("width", Int32); ("height", Int32)];
  s_tail := NoTail; s_sizeof := 20; s_offsetof := [0; 4; 8; 12; 16]
|}.

Definition ShaderBinary : Struct := {|
  s_name := "ShaderBinary"; s_ArgFlags := kFixed;
  s_fields :=
    [("n", Int32); ("shaders_shm_id", Uint32); ("shaders_shm_offset", Uint32);
     ("binaryformat", Uint32); ("binary_shm_id", Uint32); ("binary_shm_offset", Uint32);
     ("length", Int32)];
  s_tail := NoTail; s_sizeof := 32; s_offsetof := [0; 4; 8; 12; 16; 20; 24; 28]
|}.

Definition ShaderSource : Struct := {|
  s_name := "ShaderSource"; s_ArgFlags := kFixed;
  s_fields :=
    [("shader", Uint32); ("data_shm_id", Uint32); ("data_shm_offset", Uint32);
     ("data_size", Uint32)];
  s_tail := NoTail; s_sizeof := 20; s_offsetof := [0; 4; 8; 12; 16]
|}.

Definition ShaderSourceImmediate : Struct := {|
  s_name := "ShaderSourceImmediate"; s_ArgFlags := kAtLeastN;
  s_fields :=
    [("shader", Uint32); ("data_size", Uint32)];
  s_tail := RoomFor "data_size"; s_sizeof := 12; s_offsetof := [0; 4; 8]
|}.

Definition ShaderSourceBucket : Struct := {|
  s_name := "ShaderSourceBucket"; s_ArgFlags := kFixed;
  s_fields :=
    [("shader", Uint32); ("data_bucket_id", Uint32)];
  s_tail := NoTail; s_sizeof := 12; s_offsetof := [0; 4; 8]
|}.

Definition StencilFunc : Struct := {|
  s_name := "StencilFunc"; s_ArgFlags := kFixed;
  s_fields :=
    [("func", Uint32); ("ref", Int32); ("mask", Uint32)];
  s_tail := NoTail; s_sizeof := 16; s_offsetof := [0; 4; 8; 12]
|}.

Definition StencilFuncSeparate : Struct := {|
  s_name := "StencilFuncSeparate"; s_ArgFlags := kFixed;
  s_fields :=
    [("face", Uint32); ("func", Uint32); ("ref", Int32); ("mask", Uint32)];
  s_tail := NoTail; s_sizeof := 20; s_offsetof := [0; 4; 8; 12; 16]
|}.

Definition StencilMask : Struct := {|
  s_name := "StencilMask"; s_ArgFlags := kFixed;
  s_fields :=
    [("mask", Uint32)];
  s_tail := NoTail; s_sizeof := 8; s_offsetof := [0; 4]
|}.

Definition StencilMaskSeparate : Struct := {|
  s_name := "StencilMaskSeparate"; s_ArgFlags := kFixed;
  s_fields :=
    [("face", Uint32); ("mask", Uint32)];
  s_tail := NoTail; s_sizeof := 12; s_offsetof := [0; 4; 8]
|}.

Definition StencilOp : Struct := {|
  s_name := "StencilOp"; s_ArgFlags := kFixed;
  s_fields :=
    [("fail", Uint32); ("zfail", Uint32); ("zpass", Uint32)];
  s_tail := NoTail; s_sizeof := 16; s_offsetof := [0; 4; 8; 12]
|}.

Definition StencilOpSeparate : Struct := {|
  s_name := "StencilOpSeparate"; s_ArgFlags := kFixed;
  s_fields :=
    [("face", Uint32); ("fail", Uint32); ("zfail", Uint32); ("zpass", Uint32)];
  s_tail := NoTail; s_sizeof := 20; s_offsetof := [0; 4; 8; 12; 16]
|}.

Definition TexImage2D : Struct := {|
  s_name := "TexImage2D"; s_ArgFlags := kFixed;
  s_fields :=
    [("target", Uint32); ("level", Int32); ("internalformat", Int32); ("width", Int32);
     ("height", Int32); ("border", Int32); ("format", Uint32); ("type", Uint32);
     ("pixels_shm_id", Uint32); ("pixels_shm_offset", Uint32)];
  s_tail := NoTail; s_sizeof := 44; s_offsetof := [0; 4; 8; 12; 16; 20; 24; 28; 32; 36; 40]
|}.

Definition TexImage2DImmediate : Struct := {|
  s_name := "TexImage2DImmediate"; s_ArgFlags := kAtLeastN;
  s_fields :=
    [("target", Uint32); ("level", Int32); ("internalformat", Int32); ("width", Int32);
     ("height", Int32); ("border", Int32); ("format", Uint32); ("type", Uint32)];
  s_tail := NoSize; s_sizeof := 36; s_offsetof := [0; 4; 8; 12; 16; 20; 24; 28; 32]
|}.

Definition TexParameterf : Struct := {|
  s_name := "TexParameterf"; s_ArgFlags := kFixed;
  s_fields :=
    [("target", Uint32); ("pname", Uint32); ("param", Float)];
  s_tail := NoTail; s_sizeof := 16; s_offsetof := [0; 4; 8; 12]
|}.

Definition TexParameterfv : Struct := {|
  s_name := "TexParameterfv"; s_ArgFlags := kFixed;
  s_fields :=
    [("target", Uint32); ("pname", Uint32); ("params_shm_id", Uint32);
     ("params_shm_offset", Uint32)];
  s_tail := NoTail; s_sizeof := 20; s_offsetof := [0; 4; 8; 12; 16]
|}.

Definition TexParameterfvImmediate : Struct := {|
  s_name := "TexParameterfvImmediate"; s_ArgFlags := kAtLeastN;
  s_fields :=
    [("target", Uint32); ("pname", Uint32)];
  s_tail := Values 4; s_sizeof := 12; s_offsetof := [0; 4; 8]
|}.

Definition TexParameteri : Struct := {|
  s_name := "TexParameteri"; s_ArgFlags := kFixed;
  s_fields :=
    [("target", Uint32); ("pname", Uint32); ("param", Int32)];
  s_tail := NoTail; s_sizeof := 16; s_offsetof := [0; 4; 8; 12]
|}.

Definition TexParameteriv : Struct := {|
  s_name := "TexParameteriv"; s_ArgFlags := kFixed;
  s_fields :=
    [("target", Uint32); ("pname", Uint32); ("params_shm_id", Uint32);
     ("params_shm_offset", Uint32)];
  s_tail := NoTail; s_sizeof := 20; s_offsetof := [0; 4; 8; 12; 16]
|}.

Definition TexParameterivImmediate : Struct := {|
  s_name := "TexParameterivImmediate"; s_ArgFlags := kAtLeastN;
  s_fields :=
    [("target", Uint32); ("pname", Uint32)];
  s_tail := Values 4; s_sizeof := 12; s_offsetof := [0; 4; 8]
|}.

Definition TexSubImage2D : Struct := {|
  s_name := "TexSubImage2D"; s_ArgFlags := kFixed;
  s_fields :=
    [("target", Uint32); ("level", Int32); ("xoffset", Int32); ("yoffset", Int32);
     ("width", Int32); ("height", Int32); ("format", Uint32); ("type", Uint32);
     ("pixels_shm_id", Uint32); ("pixels_shm_offset", Uint32); ("internal", Uint32)];
  s_tail := NoTail; s_sizeof := 48; s_offsetof := [0; 4; 8; 12; 16; 20; 24; 28; 32; 36; 40; 44]
|}.

Definition TexSubImage2DImmediate : Struct := {|
  s_name := "TexSubImage2DImmediate"; s_ArgFlags := kAtLeastN;
  s_fields :=
    [("target", Uint32); ("level", Int32); ("xoffset", Int32); ("yoffset", Int32);
     ("width", Int32); ("height", Int32); ("format", Uint32); ("type", Uint32);
     ("internal", Uint32)];
  s_tail := NoSize; s_sizeof := 40; s_offsetof := [0; 4; 8; 12; 16; 20; 24; 28; 32; 36]
|}.

Definition Uniform1f : Struct := {|
  s_name := "Uniform1f"; s_ArgFlags := kFixed;
  s_fields :=
    [("location", Int32); ("x", Float)];
  s_tail := NoTail; s_sizeof := 12; s_offsetof := [0; 4; 8]
|}.

Definition Uniform1fv : Struct := {|
  s_name := "Uniform1fv"; s_ArgFlags := kFixed;
  s_fields :=
    [("location", Int32); ("count", Int32); ("v_shm_id", Uint32); ("v_shm_offset", Uint32)];
  s_tail := NoTail; s_sizeof := 20; s_offsetof := [0; 4; 8; 12; 16]
|}.

Definition Uniform1fvImmediate : Struct := {|
  s_name := "Uniform1fvImmediate"; s_ArgFlags := kAtLeastN;
  s_fields :=
    [("location", Int32); ("count", Int32)];
  s_tail := ElementsOf 4 "count"; s_sizeof := 12; s_offsetof := [0; 4; 8]
|}.

Definition Uniform1i : Struct := {|
  s_name := "Uniform1i"; s_ArgFlags := kFixed;
  s_fields :=
    [("location", Int32); ("x", Int32)];
  s_tail := NoTail; s_sizeof := 12; s_offsetof := [0; 4; 8]
|}.

Definition Uniform1iv : Struct := {|
  s_name := "Uniform1iv"; s_ArgFlags := kFixed;
  s_fields :=
    [("location", Int32); ("count", Int32); ("v_shm_id", Uint32); ("v_shm_offset", Uint32)];
  s_tail := NoTail; s_sizeof := 20; s_offsetof := [0; 4; 8; 12; 16]
|}.

Definition Uniform1ivImmediate : Struct := {|
  s_name := "Uniform1ivImmediate"; s_ArgFlags := kAtLeastN;
  s_fields :=
    [("location", Int32); ("count", Int32)];
  s_tail := ElementsOf 4 "count"; s_sizeof := 12; s_offsetof := [0; 4; 8]
|}.

Definition Uniform2f : Struct := {|
  s_name := "Uniform2f"; s_ArgFlags := kFixed;
  s_fields :=
    [("location", Int32); ("x", Float); ("y", Float)];
  s_tail := NoTail; s_sizeof := 16; s_offsetof := [0; 4; 8; 12]
|}.

Definition Uniform2fv : Struct := {|
  s_name := "Uniform2fv"; s_ArgFlags := kFixed;
  s_fields :=
    [("location", Int32); ("count", Int32); ("v_shm_id", Uint32); ("v_shm_offset", Uint32)];
  s_tail := NoTail; s_sizeof := 20; s_offsetof := [0; 4; 8; 12; 16]
|}.

Definition Uniform2fvImmediate : Struct := {|
  s_name := "Uniform2fvImmediate"; s_ArgFlags := kAtLeastN;
  s_fields :=
    [("location", Int32); ("count", Int32)];
  s_tail := ElementsOf 8 "count"; s_sizeof := 12; s_offsetof := [0; 4; 8]
|}.

Definition Uniform2i : Struct := {|
  s_name := "Uniform2i"; s_ArgFlags := kFixed;
  s_fields :=
    [("location", Int32); ("x", Int32); ("y", Int32)];
  s_tail := NoTail; s_sizeof := 16; s_offsetof := [0; 4; 8; 12]
|}.

Definition Uniform2iv : Struct := {|
  s_name := "Uniform2iv"; s_ArgFlags := kFixed;
  s_fields :=
    [("location", Int32); ("count", Int32); ("v_shm_id", Uint32); ("v_shm_offset", Uint32)];
  s_tail := NoTail; s_sizeof := 20; s_offsetof := [0; 4; 8; 12; 16]
|}.

Definition Uniform2ivImmediate : Struct := {|
  s_name := "Uniform2ivImmediate"; s_ArgFlags := kAtLeastN;
  s_fields :=
    [("location", Int32); ("count", Int32)];
  s_tail := ElementsOf 8 "count"; s_sizeof := 12; s_offsetof := [0; 4; 8]
|}.

Definition Uniform3f : Struct := {|
  s_name := "Uniform3f"; s_ArgFlags := kFixed;
  s_fields :=
    [("location", Int32); ("x", Float); ("y", Float); ("z", Float)];
  s_tail := NoTail; s_sizeof := 20; s_offsetof := [0; 4; 8; 12; 16]
|}.

Definition Uniform3fv : Struct := {|
  s_name := "Uniform3fv"; s_ArgFlags := kFixed;
  s_fields :=
    [("location", Int32); ("count", Int32); ("v_shm_id", Uint32); ("v_shm_offset", Uint32)];
  s_tail := NoTail; s_sizeof := 20; s_offsetof := [0; 4; 8; 12; 16]
|}.

Definition Uniform3fvImmediate : Struct := {|
  s_name := "Uniform3fvImmediate"; s_ArgFlags := kAtLeastN;
  s_fields :=
    [("location", Int32); ("count", Int32)];
  s_tail := ElementsOf 12 "count"; s_sizeof := 12; s_offsetof := [0; 4; 8]
|}.

Definition Uniform3i : Struct := {|
  s_name := "Uniform3i"; s_ArgFlags := kFixed;
  s_fields :=
    [("location", Int32); ("x", Int32); ("y", Int32); ("z", Int32)];
  s_tail := NoTail; s_sizeof := 20; s_offsetof := [0; 4; 8; 12; 16]
|}.

Definition Uniform3iv : Struct := {|
  s_name := "Uniform3iv"; s_ArgFlags := kFixed;
  s_fields :=
    [("location", Int32); ("count", Int32); ("v_shm_id", Uint32); ("v_shm_offset", Uint32)];
  s_tail := NoTail; s_sizeof := 20; s_offsetof := [0; 4; 8; 12; 16]
|}.

Definition Uniform3ivImmediate : Struct := {|
  s_name := "Uniform3ivImmediate"; s_ArgFlags := kAtLeastN;
  s_fields :=
    [("location", Int32); ("count", Int32)];
  s_tail := ElementsOf 12 "count"; s_sizeof := 12; s_offsetof := [0; 4; 8]
|}.

Definition Uniform4f : Struct := {|
  s_name := "Uniform4f"; s_ArgFlags := kFixed;
  s_fields :=
    [("location", Int32); ("x", Float); ("y", Float); ("z", Float); ("w", Float)];
  s_tail := NoTail; s_sizeof := 24; s_offsetof := [0; 4; 8; 12; 16; 20]
|}.

Definition Uniform4fv : Struct := {|
  s_name := "Uniform4fv"; s_ArgFlags := kFixed;
  s_fields :=
    [("location", Int32); ("count", Int32); ("v_shm_id", Uint32); ("v_shm_offset", Uint32)];
  s_tail := NoTail; s_sizeof := 20; s_offsetof := [0; 4; 8; 12; 16]
|}.

Definition Uniform4fvImmediate : Struct := {|
  s_name := "Uniform4fvImmediate"; s_ArgFlags := kAtLeastN;
  s_fields :=
    [("location", Int32); ("count", Int32)];
  s_tail := ElementsOf 16 "count"; s_sizeof := 12; s_offsetof := [0; 4; 8]
|}.

Definition Uniform4i : Struct := {|
  s_name := "Uniform4i"; s_ArgFlags := kFixed;
  s_fields :=
    [("location", Int32); ("x", Int32); ("y", Int32); ("z", Int32); ("w", Int32)];
  s_tail := NoTail; s_sizeof := 24; s_offsetof := [0; 4; 8; 12; 16; 20]
|}.

Definition Uniform4iv : Struct := {|
  s_name := "Uniform4iv"; s_ArgFlags := kFixed;
  s_fields :=
    [("location", Int32); ("count", Int32); ("v_shm_id", Uint32); ("v_shm_offset", Uint32)];
  s_tail := NoTail; s_sizeof := 20; s_offsetof := [0; 4; 8; 12; 16]
|}.

Definition Uniform4ivImmediate : Struct := {|
  s_name := "Uniform4ivImmediate"; s_ArgFlags := kAtLeastN;
  s_fields :=
    [("location", Int32); ("count", Int32)];
  s_tail := ElementsOf 16 "count"; s_sizeof := 12; s_offsetof := [0; 4; 8]
|}.

Definition UniformMatrix2fv : Struct := {|
  s_name := "UniformMatrix2fv"; s_ArgFlags := kFixed;
  s_fields :=
    [("location", Int32); ("count", Int32); ("transpose", Uint32); ("value_shm_id", Uint32);
     ("value_shm_offset", Uint32)];
  s_tail := NoTail; s_sizeof := 24; s_offsetof := [0; 4; 8; 12; 16; 20]
|}.

Definition UniformMatrix2fvImmediate : Struct := {|
  s_name := "UniformMatrix2fvImmediate"; s_ArgFlags := kAtLeastN;
  s_fields :=
    [("location", Int32); ("count", Int32); ("transpose", Uint32)];
  s_tail := ElementsOf 16 "count"; s_sizeof := 16; s_offsetof := [0; 4; 8; 12]
|}.

Definition UniformMatrix3fv : Struct := {|
  s_name := "UniformMatrix3fv"; s_ArgFlags := kFixed;
  s_fields :=
    [("location", Int32); ("count", Int32); ("transpose", Uint32); ("value_shm_id", Uint32);
     ("value_shm_offset", Uint32)];
  s_tail := NoTail; s_sizeof := 24; s_offsetof := [0; 4; 8; 12; 16; 20]
|}.

Definition UniformMatrix3fvImmediate : Struct := {|
  s_name := "UniformMatrix3fvImmediate"; s_ArgFlags := kAtLeastN;
  s_fields :=
    [("location", Int32); ("count", Int32); ("transpose", Uint32)];
  s_tail := ElementsOf 36 "count"; s_sizeof := 16; s_offsetof := [0; 4; 8; 12]
|}.

Definition UniformMatrix4fv : Struct := {|
  s_name := "UniformMatrix4fv"; s_ArgFlags := kFixed;
  s_fields :=
    [("location", Int32); ("count", Int32); ("transpose", Uint32); ("value_shm_id", Uint32);
     ("value_shm_offset", Uint32)];
  s_tail := NoTail; s_sizeof := 24; s_offsetof := [0; 4; 8; 12; 16; 20]
|}.

Definition UniformMatrix4fvImmediate : Struct := {|
  s_name := "UniformMatrix4fvImmediate"; s_ArgFlags := kAtLeastN;
  s_fields :=
    [("location", Int32); ("count", Int32); ("transpose", Uint32)];
  s_tail := ElementsOf 64 "count"; s_sizeof := 16; s_offsetof := [0; 4; 8; 12]
|}.

Definition UseProgram : Struct := {|
  s_name := "UseProgram"; s_ArgFlags := kFixed;
  s_fields :=
    [("program", Uint32)];
  s_tail := NoTail; s_sizeof := 8; s_offsetof := [0; 4]
|}.

Definition ValidateProgram : Struct := {|
  s_name := "ValidateProgram"; s_ArgFlags := kFixed;
  s_fields :=
    [("program", Uint32)];
  s_tail := NoTail; s_sizeof := 8; s_offsetof := [0; 4]
|}.

Definition VertexAttrib1f : Struct := {|
  s_name := "VertexAttrib1f"; s_ArgFlags := kFixed;
  s_fields :=
    [("indx", Uint32); ("x", Float)];
  s_tail := NoTail; s_sizeof := 12; s_offsetof := [0; 4; 8]
|}.

Definition VertexAttrib1fv : Struct := {|
  s_name := "VertexAttrib1fv"; s_ArgFlags := kFixed;
  s_fields :=
    [("indx", Uint32); ("values_shm_id", Uint32); ("values_shm_offset", Uint32)];
  s_tail := NoTail; s_sizeof := 16; s_offsetof := [0; 4; 8; 12]
|}.

Definition VertexAttrib1fvImmediate : Struct := {|
  s_name := "VertexAttrib1fvImmediate"; s_ArgFlags := kAtLeastN;
  s_fields :=
    [("indx", Uint32)];
  s_tail := Values 4; s_sizeof := 8; s_offsetof := [0; 4]
|}.

Definition VertexAttrib2f : Struct := {|
  s_name := "VertexAttrib2f"; s_ArgFlags := kFixed;
  s_fields :=
    [("indx", Uint32); ("x", Float); ("y", Float)];
  s_tail := NoTail; s_sizeof := 16; s_offsetof := [0; 4; 8; 12]
|}.

Definition VertexAttrib2fv : Struct := {|
  s_name := "VertexAttrib2fv"; s_ArgFlags := kFixed;
  s_fields :=
    [("indx", Uint32); ("values_shm_id", Uint32); ("values_shm_offset", Uint32)];
  s_tail := NoTail; s_sizeof := 16; s_offsetof := [0; 4; 8; 12]
|}.

Definition VertexAttrib2fvImmediate : Struct := {|
  s_name := "VertexAttrib2fvImmediate"; s_ArgFlags := kAtLeastN;
  s_fields :=
    [("indx", Uint32)];
  s_tail := Values 8; s_sizeof := 8; s_offsetof := [0; 4]
|}.

Definition VertexAttrib3f : Struct := {|
  s_name := "VertexAttrib3f"; s_ArgFlags := kFixed;
  s_fields :=
    [("indx", Uint32); ("x", Float); ("y", Float); ("z", Float)];
  s_tail := NoTail; s_sizeof := 20; s_offsetof := [0; 4; 8; 12; 16]
|}.

Definition VertexAttrib3fv : Struct := {|
  s_name := "VertexAttrib3fv"; s_ArgFlags := kFixed;
  s_fields :=
    [("indx", Uint32); ("values_shm_id", Uint32); ("values_shm_offset", Uint32)];
  s_tail := NoTail; s_sizeof := 16; s_offsetof := [0; 4; 8; 12]
|}.

Definition VertexAttrib3fvImmediate : Struct := {|
  s_name := "VertexAttrib3fvImmediate"; s_ArgFlags := kAtLeastN;
  s_fields :=
    [("indx", Uint32)];
  s_tail := Values 12; s_sizeof := 8; s_offsetof := [0; 4]
|}.

Definition VertexAttrib4f : Struct := {|
  s_name := "VertexAttrib4f"; s_ArgFlags := kFixed;
  s_fields :=
    [("indx", Uint32); ("x", Float); ("y", Float); ("z", Float); ("w", Float)];
  s_tail := NoTail; s_sizeof := 24; s_offsetof := [0; 4; 8; 12; 16; 20]
|}.

Definition VertexAttrib4fv : Struct := {|
  s_name := "VertexAttrib4fv"; s_ArgFlags := kFixed;
  s_fields :=
    [("indx", Uint32); ("values_shm_id", Uint32); ("values_shm_offset", Uint32)];
  s_tail := NoTail; s_sizeof := 16; s_offsetof := [0; 4; 8; 12]
|}.

Definition VertexAttrib4fvImmediate : Struct := {|
  s_name := "VertexAttrib4fvImmediate"; s_ArgFlags := kAtLeastN;
  s_fields :=
    [("indx", Uint32)];
  s_tail := Values 16; s_sizeof := 8; s_offsetof := [0; 4]
|}.

Definition VertexAttribPointer : Struct := {|
  s_name := "VertexAttribPointer"; s_ArgFlags := kFixed;
  s_fields :=
    [("indx", Uint32); ("size", Int32); ("type", Uint32); ("normalized", Uint32);
     ("stride", Int32); ("offset", Uint32)];
  s_tail := NoTail; s_sizeof := 28; s_offsetof := [0; 4; 8; 12; 16; 20; 24]
|}.

Definition Viewport : Struct := {|
  s_name := "Viewport"; s_ArgFlags := kFixed;
  s_fields :=
    [("x", Int32); ("y", Int32); ("width", Int32); ("height", Int32)];
  s_tail := NoTail; s_sizeof := 20; s_offsetof := [0; 4; 8; 12; 16]
|}.

Definition BlitFramebufferEXT : Struct := {|
  s_name := "BlitFramebufferEXT"; s_ArgFlags := kFixed;
  s_fields :=
    [("srcX0", Int32); ("srcY0", Int32); ("srcX1", Int32); ("srcY1", Int32); ("dstX0", Int32);
     ("dstY0", Int32); ("dstX1", Int32); ("dstY1", Int32); ("mask", Uint32); ("filter", Uint32)];
  s_tail := NoTail; s_sizeof := 44; s_offsetof := [0; 4; 8; 12; 16; 20; 24; 28; 32; 36; 40]
|}.

Definition RenderbufferStorageMultisampleEXT : Struct := {|
  s_name := "RenderbufferStorageMultisampleEXT"; s_ArgFlags := kFixed;
  s_fields :=
    [("target", Uint32); ("samples", Int32); ("internalformat", Uint32); ("width", Int32);
     ("height", Int32)];
  s_tail := NoTail; s_sizeof := 24; s_offsetof := [0; 4; 8; 12; 16; 20]
|}.

Definition SwapBuffers : Struct := {|
  s_name := "SwapBuffers"; s_ArgFlags := kFixed;
  s_fields := [];
  s_tail := NoTail; s_sizeof := 4; s_offsetof := [0]
|}.

Definition GetMaxValueInBufferCHROMIUM : Struct := {|
  s_name := "GetMaxValueInBufferCHROMIUM"; s_ArgFlags := kFixed;
  s_fields :=
    [("buffer_id", Uint32); ("count", Int32); ("type", Uint32); ("offset", Uint32);
     ("result_shm_id", Uint32); ("result_shm_offset", Uint32)];
  s_tail := NoTail; s_sizeof := 28; s_offsetof := [0; 4; 8; 12; 16; 20; 24]
|}.

Definition GenSharedIdsCHROMIUM : Struct := {|
  s_name := "GenSharedIdsCHROMIUM"; s_ArgFlags := kFixed;
  s_fields :=
    [("namespace_id", Uint32); ("id_offset", Uint32); ("n", Int32); ("ids_shm_id", Uint32);
     ("ids_shm_offset", Uint32)];
  s_tail := NoTail; s_sizeof := 24; s_offsetof := [0; 4; 8; 12; 16; 20]
|}.

Definition DeleteSharedIdsCHROMIUM : Struct := {|
  s_name := "DeleteSharedIdsCHROMIUM"; s_ArgFlags := kFixed;
  s_fields :=
    [("namespace_id", Uint32); ("n", Int32); ("ids_shm_id", Uint32); ("ids_shm_offset", Uint32)];
  s_tail := NoTail; s_sizeof := 20; s_offsetof := [0; 4; 8; 12; 16]
|}.

Definition RegisterSharedIdsCHROMIUM : Struct := {|
  s_name := "RegisterSharedIdsCHROMIUM"; s_ArgFlags := kFixed;
  s_fields :=
    [("namespace_id", Uint32); ("n", Int32); ("ids_shm_id", Uint32); ("ids_shm_offset", Uint32)];
  s_tail := NoTail; s_sizeof := 20; s_offsetof := [0; 4; 8; 12; 16]
|}.

Definition EnableFeatureCHROMIUM : Struct := {|
  s_name := "EnableFeatureCHROMIUM"; s_ArgFlags := kFixed;
  s_fields :=
    [("bucket_id", Uint32); ("result_shm_id", Uint32); ("result_shm_offset", Uint32)];
  s_tail := NoTail; s_sizeof := 16; s_offsetof := [0; 4; 8; 12]
|}.

Definition ResizeCHROMIUM : Struct := {|
  s_name := "ResizeCHROMIUM"; s_ArgFlags := kFixed;
  s_fields :=
    [("width", Uint32); ("height", Uint32)];
  s_tail := NoTail; s_sizeof := 12; s_offsetof := [0; 4; 8]
|}.

Definition GetRequestableExtensionsCHROMIUM : Struct := {|
  s_name := "GetRequestableExtensionsCHROMIUM"; s_ArgFlags := kFixed;
  s_fields :=
    [("bucket_id", Uint32)];
  s_tail := NoTail; s_sizeof := 8; s_offsetof := [0; 4]
|}.

Definition RequestExtensionCHROMIUM : Struct := {|
  s_name := "RequestExtensionCHROMIUM"; s_ArgFlags := kFixed;
  s_fields :=
    [("bucket_id", Uint32)];
  s_tail := NoTail; s_sizeof := 8; s_offsetof := [0; 4]
|}.

Definition GetMultipleIntegervCHROMIUM : Struct := {|
  s_name := "GetMultipleIntegervCHROMIUM"; s_ArgFlags := kFixed;
  s_fields :=
    [("pnames_shm_id", Uint32); ("pnames_shm_offset", Uint32); ("count", Uint32);
     ("results_shm_id", Uint32); ("results_shm_offset", Uint32); ("size", Int32)];
  s_tail := NoTail; s_sizeof := 28; s_offsetof := [0; 4; 8; 12; 16; 20; 24]
|}.

Definition GetProgramInfoCHROMIUM : Struct := {|
  s_name := "GetProgramInfoCHROMIUM"; s_ArgFlags := kFixed;
  s_fields :=
    [("program", Uint32); ("bucket_id", Uint32)];
  s_tail := NoTail; s_sizeof := 12; s_offsetof := [0; 4; 8]
|}.

Definition Placeholder447CHROMIUM : Struct := {|
  s_name := "Placeholder447CHROMIUM"; s_ArgFlags := kFixed;
  s_fields := [];
  s_tail := NoTail; s_sizeof := 4; s_offsetof := [0]
|}.

Definition CreateStreamTextureCHROMIUM : Struct := {|
  s_name := "CreateStreamTextureCHROMIUM"; s_ArgFlags := kFixed;
  s_fields :=
    [("client_id", Uint32); ("result_shm_id", Uint32); ("result_shm_offset", Uint32)];
  s_tail := NoTail; s_sizeof := 16; s_offsetof := [0; 4; 8; 12]
|}.

Definition DestroyStreamTextureCHROMIUM : Struct := {|
  s_name := "DestroyStreamTextureCHROMIUM"; s_ArgFlags := kFixed;
  s_fields :=
    [("texture", Uint32)];
  s_tail := NoTail; s_sizeof := 8; s_offsetof := [0; 4]
|}.

Definition Placeholder453CHROMIUM : Struct := {|
  s_name := "Placeholder453CHROMIUM"; s_ArgFlags := kFixed;
  s_fields := [];
  s_tail := NoTail; s_sizeof := 4; s_offsetof := [0]
|}.

Definition GetTranslatedShaderSourceANGLE : Struct := {|
  s_name := "GetTranslatedShaderSourceANGLE"; s_ArgFlags := kFixed;
  s_fields :=
    [("shader", Uint32); ("bucket_id", Uint32)];
  s_tail := NoTail; s_sizeof := 12; s_offsetof := [0; 4; 8]
|}.

(** Those written by hand. *)

Definition GetAttribLocation : Struct := {|
  s_name := "GetAttribLocation"; s_ArgFlags := kFixed;
  s_fields :=
    [("program", Uint32); ("name_shm_id", Uint32); ("name_shm_offset", Uint32);
     ("location_shm_id", Uint32); ("location_shm_offset", Uint32); ("data_size", Uint32)];
  s_tail := NoTail; s_sizeof := 28; s_offsetof := [0; 4; 8; 12; 16; 20; 24]
|}.

Definition GetAttribLocationImmediate : Struct := {|
  s_name := "GetAttribLocationImmediate"; s_ArgFlags := kAtLeastN;
  s_fields :=
    [("program", Uint32); ("location_shm_id", Uint32); ("location_shm_offset", Uint32);
     ("data_size", Uint32)];
  s_tail := Name; s_sizeof := 20; s_offsetof := [0; 4; 8; 12; 16]
|}.

Definition GetAttribLocationBucket : Struct := {|
  s_name := "GetAttribLocationBucket"; s_ArgFlags := kFixed;
  s_fields :=
    [("program", Uint32); ("name_bucket_id", Uint32); ("location_shm_id", Uint32);
     ("location_shm_offset", Uint32)];
  s_tail := NoTail; s_sizeof := 20; s_offsetof := [0; 4; 8; 12; 16]
|}.

Definition GetUniformLocation : Struct := {|
  s_name := "GetUniformLocation"; s_ArgFlags := kFixed;
  s_fields :=
    [("program", Uint32); ("name_shm_id", Uint32); ("name_shm_offset", Uint32);
     ("location_shm_id", Uint32); ("location_shm_offset", Uint32); ("data_size", Uint32)];
  s_tail := NoTail; s_sizeof := 28; s_offsetof := [0; 4; 8; 12; 16; 20; 24]
|}.

Definition GetUniformLocationImmediate : Struct := {|
  s_name := "GetUniformLocationImmediate"; s_ArgFlags := kAtLeastN;
  s_fields :=
    [("program", Uint32); ("location_shm_id", Uint32); ("location_shm_offset", Uint32);
     ("data_size", Uint32)];
  s_tail := Name; s_sizeof := 20; s_offsetof := [0; 4; 8; 12; 16]
|}.

Definition GetUniformLocationBucket : Struct := {|
  s_name := "GetUniformLocationBucket"; s_ArgFlags := kFixed;
  s_fields :=
    [("program", Uint32); ("name_bucket_id", Uint32); ("location_shm_id", Uint32);
     ("location_shm_offset", Uint32)];
  s_tail := NoTail; s_sizeof := 20; s_offsetof := [0; 4; 8; 12; 16]
|}.

End cmds.

(** All of them, by the order of their ids. *)
Definition structs : list Struct :=
  [cmds.ActiveTexture; cmds.AttachShader; cmds.BindAttribLocation;
   cmds.BindAttribLocationImmediate; cmds.BindBuffer; cmds.BindFramebuffer;
   cmds.BindRenderbuffer; cmds.BindTexture; cmds.BlendColor; cmds.BlendEquation;
   cmds.BlendEquationSeparate; cmds.BlendFunc; cmds.BlendFuncSeparate; cmds.BufferData;
   cmds.BufferDataImmediate; cmds.BufferSubData; cmds.BufferSubDataImmediate;
   cmds.CheckFramebufferStatus; cmds.Clear; cmds.ClearColor; cmds.ClearDepthf;
   cmds.ClearStencil; cmds.ColorMask; cmds.CompileShader; cmds.CompressedTexImage2D;
   cmds.CompressedTexImage2DImmediate; cmds.CompressedTexSubImage2D;
   cmds.CompressedTexSubImage2DImmediate; cmds.CopyTexImage2D; cmds.CopyTexSubImage2D;
   cmds.CreateProgram; cmds.CreateShader; cmds.CullFace; cmds.DeleteBuffers;
   cmds.DeleteBuffersImmediate; cmds.DeleteFramebuffers; cmds.DeleteFramebuffersImmediate;
   cmds.DeleteProgram; cmds.DeleteRenderbuffers; cmds.DeleteRenderbuffersImmediate;
   cmds.DeleteShader; cmds.DeleteTextures; cmds.DeleteTexturesImmediate; cmds.DepthFunc;
   cmds.DepthMask; cmds.DepthRangef; cmds.DetachShader; cmds.Disable;
   cmds.DisableVertexAttribArray; cmds.DrawArrays; cmds.DrawElements; cmds.Enable;
   cmds.EnableVertexAttribArray; cmds.Finish; cmds.Flush; cmds.FramebufferRenderbuffer;
   cmds.FramebufferTexture2D; cmds.FrontFace; cmds.GenBuffers; cmds.GenBuffersImmediate;
   cmds.GenerateMipmap; cmds.GenFramebuffers; cmds.GenFramebuffersImmediate;
   cmds.GenRenderbuffers; cmds.GenRenderbuffersImmediate; cmds.GenTextures;
   cmds.GenTexturesImmediate; cmds.GetActiveAttrib; cmds.GetActiveUniform;
   cmds.GetAttachedShaders; cmds.GetAttribLocation; cmds.GetAttribLocationImmediate;
   cmds.GetBooleanv; cmds.GetBufferParameteriv; cmds.GetError; cmds.GetFloatv;
   cmds.GetFramebufferAttachmentParameteriv; cmds.GetIntegerv; cmds.GetProgramiv;
   cmds.GetProgramInfoLog; cmds.GetRenderbufferParameteriv; cmds.GetShaderiv;
   cmds.GetShaderInfoLog; cmds.GetShaderPrecisionFormat; cmds.GetShaderSource; cmds.GetString;
   cmds.GetTexParameterfv; cmds.GetTexParameteriv; cmds.GetUniformfv; cmds.GetUniformiv;
   cmds.GetUniformLocation; cmds.GetUniformLocationImmediate; cmds.GetVertexAttribfv;
   cmds.GetVertexAttribiv; cmds.GetVertexAttribPointerv; cmds.Hint; cmds.IsBuffer;
   cmds.IsEnabled; cmds.IsFramebuffer; cmds.IsProgram; cmds.IsRenderbuffer; cmds.IsShader;
   cmds.IsTexture; cmds.LineWidth; cmds.LinkProgram; cmds.PixelStorei; cmds.PolygonOffset;
   cmds.ReadPixels; cmds.RenderbufferStorage; cmds.SampleCoverage; cmds.Scissor;
   cmds.ShaderSource; cmds.ShaderSourceImmediate; cmds.StencilFunc; cmds.StencilFuncSeparate;
   cmds.StencilMask; cmds.StencilMaskSeparate; cmds.StencilOp; cmds.StencilOpSeparate;
   cmds.TexImage2D; cmds.TexImage2DImmediate; cmds.TexParameterf; cmds.TexParameterfv;
   cmds.TexParameterfvImmediate; cmds.TexParameteri; cmds.TexParameteriv;
   cmds.TexParameterivImmediate; cmds.TexSubImage2D; cmds.TexSubImage2DImmediate;
   cmds.Uniform1f; cmds.Uniform1fv; cmds.Uniform1fvImmediate; cmds.Uniform1i; cmds.Uniform1iv;
   cmds.Uniform1ivImmediate; cmds.Uniform2f; cmds.Uniform2fv; cmds.Uniform2fvImmediate;
   cmds.Uniform2i; cmds.Uniform2iv; cmds.Uniform2ivImmediate; cmds.Uniform3f; cmds.Uniform3fv;
   cmds.Uniform3fvImmediate; cmds.Uniform3i; cmds.Uniform3iv; cmds.Uniform3ivImmediate;
   cmds.Uniform4f; cmds.Uniform4fv; cmds.Uniform4fvImmediate; cmds.Uniform4i; cmds.Uniform4iv;
   cmds.Uniform4ivImmediate; cmds.UniformMatrix2fv; cmds.UniformMatrix2fvImmediate;
   cmds.UniformMatrix3fv; cmds.UniformMatrix3fvImmediate; cmds.UniformMatrix4fv;
   cmds.UniformMatrix4fvImmediate; cmds.UseProgram; cmds.ValidateProgram; cmds.VertexAttrib1f;
   cmds.VertexAttrib1fv; cmds.VertexAttrib1fvImmediate; cmds.VertexAttrib2f;
   cmds.VertexAttrib2fv; cmds.VertexAttrib2fvImmediate; cmds.VertexAttrib3f;
   cmds.VertexAttrib3fv; cmds.VertexAttrib3fvImmediate; cmds.VertexAttrib4f;
   cmds.VertexAttrib4fv; cmds.VertexAttrib4fvImmediate; cmds.VertexAttribPointer;
   cmds.Viewport; cmds.SwapBuffers; cmds.BindAttribLocationBucket;
   cmds.GetUniformLocationBucket; cmds.GetAttribLocationBucket; cmds.ShaderSourceBucket;
   cmds.ShaderBinary; cmds.ReleaseShaderCompiler; cmds.GetMaxValueInBufferCHROMIUM;
   cmds.GenSharedIdsCHROMIUM; cmds.DeleteSharedIdsCHROMIUM; cmds.RegisterSharedIdsCHROMIUM;
   cmds.EnableFeatureCHROMIUM; cmds.CompressedTexImage2DBucket;
   cmds.CompressedTexSubImage2DBucket; cmds.RenderbufferStorageMultisampleEXT;
   cmds.BlitFramebufferEXT; cmds.Placeholder447CHROMIUM; cmds.ResizeCHROMIUM;
   cmds.GetRequestableExtensionsCHROMIUM; cmds.RequestExtensionCHROMIUM;
   cmds.CreateStreamTextureCHROMIUM; cmds.DestroyStreamTextureCHROMIUM;
   cmds.Placeholder453CHROMIUM; cmds.GetMultipleIntegervCHROMIUM; cmds.GetProgramInfoCHROMIUM;
   cmds.GetTranslatedShaderSourceANGLE].

(** [g_command_info] of [gles2_cmd_decoder.cc]: the flags and the number of arguments of every
    command. *)
Definition command_info (c : Struct) : ArgFlags * Z := (s_ArgFlags c, sizeof c / kCommandBufferEntrySize - 1).

Definition g_command_info : list (ArgFlags * Z) := command_info <$> structs.

(** ** Lemmas *)

Lemma structs_ok : forallb struct_ok structs = true.
Proof. vm_compute. reflexivity. Qed.

Lemma structs_names : s_name <$> structs = GLES2_COMMAND_LIST.
Proof. reflexivity. Qed.

Lemma names_NoDup : NoDup GLES2_COMMAND_LIST.
Proof. apply (bool_decide_eq_true_1 (NoDup GLES2_COMMAND_LIST)). vm_compute. reflexivity. Qed.

Lemma struct_in c : c ∈ structs -> struct_ok c = true.
Proof.
  intros Hc. pose proof structs_ok as Hs. rewrite forallb_forall in Hs. apply Hs.
  by apply list_elem_of_In.
Qed.

(** The ids are the places in the list. *)
Lemma kCmdId_at i c : structs !! i = Some c -> kCmdId c = 256 + Z.of_nat i.
Proof.
  intros Hi.
  assert (Hn : GLES2_COMMAND_LIST !! i = Some (s_name c)) by (by rewrite <- structs_names, list_lookup_fmap, Hi).
  unfold kCmdId, CommandId_of.
  destruct (list_find_elem_of (eq (s_name c)) GLES2_COMMAND_LIST (s_name c)) as [[j x] E];
    [by apply list_elem_of_lookup_2 with i|done|].
  rewrite E. apply list_find_Some in E as (Ej & <- & _).
  rewrite (NoDup_lookup _ _ _ _ names_NoDup Ej Hn). unfold kLastCommonId. lia.
Qed.

Lemma structs_at c : c ∈ structs -> exists i, structs !! i = Some c /\ kCmdId c = 256 + Z.of_nat i /\ (i < 201)%nat.
Proof.
  intros Hc. apply list_elem_of_lookup in Hc as [i Hi]. exists i. split_and!; [done|by apply kCmdId_at|].
  apply lookup_lt_Some in Hi. by change (length structs) with 201%nat in Hi.
Qed.

(** The table has the entry of each command at the index that [DoCommand] takes. *)
Lemma info_at c : c ∈ structs ->
  g_command_info !! Z.to_nat (kCmdId c - 256) = Some (command_info c).
Proof.
  intros (i & Hi & -> & _)%structs_at. replace (256 + Z.of_nat i - 256) with (Z.of_nat i) by lia.
  unfold g_command_info. by rewrite Nat2Z.id, list_lookup_fmap, Hi.
Qed.

Lemma command_info_args c : command_info c = (s_ArgFlags c, zlen (s_fields c)).
Proof.
  unfold command_info, sizeof, kCommandBufferEntrySize. f_equal.
  rewrite (Z.mul_comm 4), Z.div_mul by lia. lia.
Qed.

(** ** Properties *)

(** The structs lie in memory as the code asserts, every command of the list has one struct,
    and its id is its place in the list. *)
Theorem struct_layouts :
  s_name <$> structs = GLES2_COMMAND_LIST /\
  (forall i c, structs !! i = Some c -> kCmdId c = 256 + Z.of_nat i) /\
  (forall c, c ∈ structs ->
     s_sizeof c = sizeof c /\ s_offsetof c = offsetof c /\
     (s_ArgFlags c = kFixed <-> s_tail c = NoTail) /\
     command_info c = (s_ArgFlags c, zlen (s_fields c))).
Proof.
  split; [apply structs_names|]. split; [apply kCmdId_at|].
  intros c Hc%struct_in. apply struct_ok_inv in Hc as (H1 & H2 & _ & _ & _ & H3 & _).
  split_and!; [done|done|rewrite H3; by destruct (s_tail c)|].
  apply command_info_args.
Qed.

(** C5: Every command but the four whose size [Init] cannot say (see [unsized_commands]) is
    written as it is read.  [Set], with arguments of the types of its
    parameters, enough data and enough entries, stores a header with the number of entries of
    the command and its id, the fields such that the service reads the arguments back, and the
    data right after them; it leaves the entries behind the command as they were, and it
    answers the address of the first of these. *)
Theorem command_round_trip `{Platform} c args data n entries :
  c ∈ structs -> s_tail c <> NoSize ->
  args_ok c args -> data_length c args data = Some n -> Forall is_byte data ->
  Forall is_u32 entries -> (sizeof c + n + 3) / 4 <= zlen entries -> (sizeof c + n + 3) / 4 < 2 ^ 21 ->
  exists words, Struct_Set c args data entries = Done (words ++ drop (length words) entries, 4 * zlen words) /\
    written c args data n words.
Proof. intros Hc%struct_in. intros. by apply Set_written. Qed.

Lemma command_round_trip_witness :
  let c := cmds.Uniform2fvImmediate in let args := [3; 1] in
  let data := [0; 0; 128; 63; 0; 0; 0; 64] in
  data_length c args data = Some 8 /\
  exists words, Struct_Set c args data (replicate 6 7) = Done (words ++ drop (length words) (replicate 6 7), 4 * zlen words) /\
    written c args data 8 words.
Proof.
  intros c args data. split; [reflexivity|]. apply (command_round_trip c args data 8 (replicate 6 7)).
  - apply (list_elem_of_lookup_2 _ (Z.to_nat (kCmdId c - 256))). reflexivity.
  - discriminate.
  - repeat constructor; discriminate.
  - reflexivity.
  - repeat constructor; discriminate.
  - apply all_u32_ok. reflexivity.
  - discriminate.
  - reflexivity.
Defined.

(** The four commands whose data has no size yet: [Set] stores a header of size 0, which the
    parser refuses, and answers the address of the command itself. *)
Theorem unsized_commands `{Platform} :
  s_name <$> filter (fun c => s_tail c = NoSize) structs
    = (["BufferDataImmediate"; "CompressedTexImage2DImmediate"; "TexImage2DImmediate";
        "TexSubImage2DImmediate"])%string /\
  forall c args data entries, c ∈ structs -> s_tail c = NoSize ->
    args_ok c args -> Forall is_byte data -> Forall is_u32 entries -> sizeof c / 4 <= zlen entries ->
    exists header entries', Struct_Set c args data entries = Done (header :: entries', 0) /\
      value_header header = mkHeader 0 (kCmdId c).
Proof.
  split; [reflexivity|]. intros c args data entries Hc%struct_in. intros. by apply Set_NoSize.
Qed.
