(* ===== verification/CommandBufferService.v ===== *)
(** * The service end of the command buffer

    [gpu/command_buffer/service/command_buffer_service.cc] with the types of
    [common/buffer.h] and [common/command_buffer.h]: offsets, token, error state
    and the registry of transfer buffers. *)

From S2P Require Import Prelude CmdFormat.
From Stdlib Require Import ZArith Lia ZifyBool Bool.
From stdpp Require Import base list gmap numbers option.
Local Open Scope Z_scope.

(** ** Data *)

(** A memory block and a [base::SharedMemory] object are named by numbers; the
    contents of blocks are kept in the heap of [CommonDecoder]. *)
Record Buffer := mkBuffer {
  ptr : option Z;
  b_size : Z;
  shared_memory : option Z;
}.

(** [Buffer()] *)
Definition null_buffer : Buffer :=
  {| ptr := None; b_size := 0; shared_memory := None |}.

#[export] Instance Buffer_eq_dec : EqDecision Buffer.
Proof. solve_decision. Defined.

Definition kMaxCommandBufferSize : Z := 4 * 1024 * 1024.

(** [CommandBuffer::State].  [s_context_lost_reason] is [None] while the member
    it is copied from has not been initialised. *)
Record State := mkState {
  s_num_entries : Z;
  s_get_offset : Z;
  s_put_offset : Z;
  s_token : Z;
  s_error : Error;
  s_context_lost_reason : option ContextLostReason;
  s_generation : Z;
}.

Definition default_State : State :=
  {| s_num_entries := 0; s_get_offset := 0; s_put_offset := 0; s_token := -1;
     s_error := kNoError; s_context_lost_reason := Some kUnknown;
     s_generation := 0 |}.

Record Service := mkService {
  ring_buffer : Buffer;
  num_entries : Z;
  get_offset : Z;
  put_offset : Z;
  put_offset_change_callback : bool;  (* the callback is set *)
  parse_error_callback : bool;
  registered_objects : list Buffer;
  unused_registered_object_elements : gset Z;
  token : Z;
  generation : Z;
  error : Error;
  context_lost_reason : option ContextLostReason;
}.

(** What the operating system answers to [ShareToProcess] and [Map], and the
    names of the memory block and the [SharedMemory] object it yields. *)
Record MapResult := mkMapResult {
  share_ok : bool;
  map_ok : bool;
  map_memory : Z;
  map_object : Z;
}.

(** Field updates, one per member the operations write. *)
Definition with_ring (s : Service) (b : Buffer) (n : Z) : Service :=
  mkService b n (get_offset s) (put_offset s) (put_offset_change_callback s)
    (parse_error_callback s) (registered_objects s)
    (unused_registered_object_elements s) (token s) (generation s) (error s)
    (context_lost_reason s).

Definition with_get (s : Service) (g : Z) : Service :=
  mkService (ring_buffer s) (num_entries s) g (put_offset s)
    (put_offset_change_callback s) (parse_error_callback s)
    (registered_objects s) (unused_registered_object_elements s) (token s)
    (generation s) (error s) (context_lost_reason s).

Definition with_put (s : Service) (p : Z) : Service :=
  mkService (ring_buffer s) (num_entries s) (get_offset s) p
    (put_offset_change_callback s) (parse_error_callback s)
    (registered_objects s) (unused_registered_object_elements s) (token s)
    (generation s) (error s) (context_lost_reason s).

Definition with_callbacks (s : Service) (put parse : bool) : Service :=
  mkService (ring_buffer s) (num_entries s) (get_offset s) (put_offset s)
    put parse (registered_objects s) (unused_registered_object_elements s)
    (token s) (generation s) (error s) (context_lost_reason s).

Definition with_registry (s : Service) (r : list Buffer) (u : gset Z) : Service :=
  mkService (ring_buffer s) (num_entries s) (get_offset s) (put_offset s)
    (put_offset_change_callback s) (parse_error_callback s) r u (token s)
    (generation s) (error s) (context_lost_reason s).

Definition with_token (s : Service) (t : Z) : Service :=
  mkService (ring_buffer s) (num_entries s) (get_offset s) (put_offset s)
    (put_offset_change_callback s) (parse_error_callback s)
    (registered_objects s) (unused_registered_object_elements s) t
    (generation s) (error s) (context_lost_reason s).

Definition with_generation (s : Service) (g : Z) : Service :=
  mkService (ring_buffer s) (num_entries s) (get_offset s) (put_offset s)
    (put_offset_change_callback s) (parse_error_callback s)
    (registered_objects s) (unused_registered_object_elements s) (token s) g
    (error s) (context_lost_reason s).

Definition with_error (s : Service) (e : Error) : Service :=
  mkService (ring_buffer s) (num_entries s) (get_offset s) (put_offset s)
    (put_offset_change_callback s) (parse_error_callback s)
    (registered_objects s) (unused_registered_object_elements s) (token s)
    (generation s) e (context_lost_reason s).

Definition with_reason (s : Service) (r : option ContextLostReason) : Service :=
  mkService (ring_buffer s) (num_entries s) (get_offset s) (put_offset s)
    (put_offset_change_callback s) (parse_error_callback s)
    (registered_objects s) (unused_registered_object_elements s) (token s)
    (generation s) (error s) r.

(** ** Operations *)

(** The constructor: [context_lost_reason_] is not in its initialiser list. *)
Definition CommandBufferService_new : Service :=
  {| ring_buffer := null_buffer; num_entries := 0; get_offset := 0;
     put_offset := 0; put_offset_change_callback := false;
     parse_error_callback := false; registered_objects := [null_buffer];
     unused_registered_object_elements := ∅; token := 0; generation := 0;
     error := kNoError; context_lost_reason := None |}.

(** [Initialize(base::SharedMemory*, int32)] *)
Definition Initialize_shared (os : MapResult) (size : Z) (s : Service)
    : bool * Service :=
  if bool_decide (is_Some (shared_memory (ring_buffer s))) then (false, s)
  else if negb (share_ok os) then (false, s)
  else if negb (map_ok os) then (false, s)
  else (true,
        with_ring s (mkBuffer (Some (map_memory os)) size (Some (map_object os)))
          (size / 4)).

(** [Initialize(int32)]; [create_ok] is the result of [CreateAnonymous]. *)
Definition Initialize (create_ok : bool) (os : MapResult) (size : Z) (s : Service)
    : bool * Service :=
  if bool_decide (is_Some (shared_memory (ring_buffer s))) then (false, s)
  else if (size <=? 0) || (size >? kMaxCommandBufferSize) then (false, s)
  else
    let s := with_ring s (ring_buffer s) (size / 4) in
    if negb create_ok then (true, s)
    else Initialize_shared os size s.

Definition GetRingBuffer (s : Service) : Buffer := ring_buffer s.

Definition GetState (s : Service) : State * Service :=
  let g := u32 (generation s + 1) in
  ({| s_num_entries := num_entries s; s_get_offset := get_offset s;
      s_put_offset := put_offset s; s_token := token s; s_error := error s;
      s_context_lost_reason := context_lost_reason s; s_generation := g |},
   with_generation s g).

Definition GetLastState (s : Service) : State * Service := GetState s.

(** The two flushes end in the put-offset callback, which acts on the whole of
    the GPU process: [W] is that world, seen through the service it contains. *)
Class HasService (W : Type) := {
  service : W -> Service;
  set_service : W -> Service -> W;
}.

Section flush.
Context {W : Type} `{HasService W}.
Variable run_put_offset_change : W -> outcome W.
Variable run_parse_error : W -> outcome W.

Definition Flush (put : Z) (w : W) : outcome W :=
  if (put <? 0) || (put >? num_entries (service w))
  then Done (set_service w (with_error (service w) kOutOfBounds))
  else
    let w := set_service w (with_put (service w) put) in
    if put_offset_change_callback (service w) then run_put_offset_change w
    else Done w.

Definition FlushSync (put last_known_get : Z) (w : W) : outcome (State * W) :=
  if (put <? 0) || (put >? num_entries (service w))
  then
    let w := set_service w (with_error (service w) kOutOfBounds) in
    let '(st, s) := GetState (service w) in Done (st, set_service w s)
  else
    let w := set_service w (with_put (service w) put) in
    (do w <- (if put_offset_change_callback (service w)
              then run_put_offset_change w else Done w) ;;
     let '(st, s) := GetState (service w) in Done (st, set_service w s))%gpu.

Definition SetParseError (e : Error) (w : W) : outcome W :=
  if decide (error (service w) = kNoError) then
    let w := set_service w (with_error (service w) e) in
    if parse_error_callback (service w) then run_parse_error w else Done w
  else Done w.

End flush.

Definition SetGetOffset (get : Z) (s : Service) : Service := with_get s get.

(** The id allocation that ends [RegisterTransferBuffer], on the registry. *)
Definition register_object (objs : list Buffer) (unused : gset Z)
    (buffer : Buffer) (id_request : Z) : Z * list Buffer * gset Z :=
  let fresh :=
    match set_begin unused with
    | None => (i32 (zlen objs), objs ++ [buffer], unused)
    | Some handle =>
        (handle, <[Z.to_nat handle := buffer]> objs, unused ∖ {[handle]})
    end in
  if negb (id_request =? -1) then
    let cur_size := i32 (zlen objs) in
    if cur_size <=? id_request then
      (id_request,
       <[Z.to_nat id_request := buffer]>
         (resize (Z.to_nat (id_request + 1)) null_buffer objs),
       unused ∪ list_to_set (seqZ cur_size (id_request - cur_size)))
    else
      match objs !! Z.to_nat id_request with
      | Some b =>
          if bool_decide (shared_memory b = None) then
            (id_request, <[Z.to_nat id_request := buffer]> objs,
             unused ∖ {[id_request]})
          else fresh
      | None => fresh
      end
  else fresh.

Definition RegisterTransferBuffer (os : MapResult) (size id_request : Z)
    (s : Service) : Z * Service :=
  let objs := registered_objects s in
  let unused := unused_registered_object_elements s in
  if bool_decide (unused = ∅) && (zlen objs >? 2 ^ 32 - 1) then (-1, s)
  else if negb (id_request =? -1) && ((id_request >? 100) || (id_request <? -1))
  then (-1, s)
  else if negb (share_ok os) then (-1, s)
  else if negb (map_ok os) then (-1, s)
  else
    let buffer := mkBuffer (Some (map_memory os)) size (Some (map_object os)) in
    let '(handle, objs, unused) := register_object objs unused buffer id_request in
    (handle, with_registry s objs unused).

Definition CreateTransferBuffer (create_ok : bool) (os : MapResult)
    (size id_request : Z) (s : Service) : Z * Service :=
  if negb create_ok then (-1, s)
  else RegisterTransferBuffer os size id_request s.

(** The loop that shrinks the registry, the vector given last element first. *)
Fixpoint shrink_rev (robjs : list Buffer) (unused : gset Z)
    : list Buffer * gset Z :=
  match robjs with
  | b :: (_ :: _) as rest =>
      if bool_decide (shared_memory b = None)
      then shrink_rev rest (unused ∖ {[zlen rest]})
      else (robjs, unused)
  | _ => (robjs, unused)
  end.

Definition DestroyTransferBuffer (handle : Z) (s : Service) : Service :=
  if handle <=? 0 then s
  else if handle >=? zlen (registered_objects s) then s
  else
    let objs := <[Z.to_nat handle := null_buffer]> (registered_objects s) in
    let unused := unused_registered_object_elements s ∪ {[handle]} in
    let '(robjs, unused) := shrink_rev (rev objs) unused in
    with_registry s (rev robjs) unused.

Definition GetTransferBuffer (handle : Z) (s : Service) : Buffer :=
  if handle <? 0 then null_buffer
  else if handle >=? zlen (registered_objects s) then null_buffer
  else default null_buffer (registered_objects s !! Z.to_nat handle).

Definition Service_SetToken (t : Z) (s : Service) : Service := with_token s t.

Definition SetContextLostReason (r : ContextLostReason) (s : Service) : Service :=
  with_reason s (Some r).

Definition SetPutOffsetChangeCallback (set : bool) (s : Service) : Service :=
  with_callbacks s set (parse_error_callback s).

Definition SetParseErrorCallback (set : bool) (s : Service) : Service :=
  with_callbacks s (put_offset_change_callback s) set.

(** ** The registry, abstractly

    What the registry promises is a finite map from handles to live buffers. *)

Definition live_at (objs : list Buffer) (h : Z) : option Buffer :=
  b ← zget objs h; if bool_decide (shared_memory b = None) then None else Some b.

Definition live (s : Service) (h : Z) : option Buffer :=
  live_at (registered_objects s) h.

(** The free list is exactly the set of empty slots past slot zero. *)
Definition unused_ok (objs : list Buffer) (unused : gset Z) : Prop :=
  forall i, i ∈ unused <->
    0 < i /\ exists b, zget objs i = Some b /\ shared_memory b = None.

(** The vector does not end in an empty slot, slot zero apart. *)
Definition tight (objs : list Buffer) : Prop :=
  zlen objs = 1 \/ is_Some (live_at objs (zlen objs - 1)).

Record registry_ok (s : Service) : Prop := {
  reg_nonempty : 0 < zlen (registered_objects s);
  reg_unused :
    unused_ok (registered_objects s) (unused_registered_object_elements s);
  reg_tight : tight (registered_objects s);
}.

(** The calls that change the registry, with whatever the system answers. *)
Inductive registry_step (s : Service) : Service -> Prop :=
| step_register os size id_request s' h :
    zlen (registered_objects s) < 2 ^ 30 ->
    RegisterTransferBuffer os size id_request s = (h, s') ->
    registry_step s s'
| step_create ok os size id_request s' h :
    zlen (registered_objects s) < 2 ^ 30 ->
    CreateTransferBuffer ok os size id_request s = (h, s') ->
    registry_step s s'
| step_destroy h : registry_step s (DestroyTransferBuffer h s).

(** ** Lemmas *)

Lemma zget_None_l {A} (l : list A) i : i < 0 -> zget l i = None.
Proof. intros H. unfold zget. by bfalse (0 <=? i). Qed.

Lemma zget_None_r {A} (l : list A) i : zlen l <= i -> zget l i = None.
Proof.
  unfold zget, zlen. intros H. ztest; [|done]. apply lookup_ge_None_2. lia.
Qed.

Lemma zget_insert {A} (l : list A) h k x :
  0 <= h < zlen l ->
  zget (<[Z.to_nat h := x]> l) k = if h =? k then Some x else zget l k.
Proof. intros H. by apply zget_zset, zset_in. Qed.

Lemma zget_snoc {A} (l : list A) k x :
  zget (l ++ [x]) k = if k =? zlen l then Some x else zget l k.
Proof.
  unfold zget, zlen. destruct (Z.leb_spec 0 k); [|by bfalse (k =? Z.of_nat (length l))].
  destruct (Z.eqb_spec k (Z.of_nat (length l))) as [->|Hne].
  - rewrite Nat2Z.id, lookup_app_r, Nat.sub_diag by done. done.
  - destruct (Z.lt_ge_cases k (Z.of_nat (length l))).
    + apply lookup_app_l. lia.
    + rewrite !lookup_ge_None_2; [done|lia|rewrite length_app; simpl; lia].
Qed.

Lemma zget_resize {A} (l : list A) n x k :
  zlen l <= n ->
  zget (resize (Z.to_nat n) x l) k =
    if (zlen l <=? k) && (k <? n) then Some x else zget l k.
Proof.
  unfold zget, zlen. intros Hn.
  destruct (Z.leb_spec 0 k); [|by bfalse ((Z.of_nat (length l) <=? k) && (k <? n))].
  destruct (_ && _) eqn:E; zbool.
  - by rewrite lookup_resize_new by lia.
  - destruct (Z.lt_ge_cases k (Z.of_nat (length l))).
    + by rewrite lookup_resize by lia.
    + rewrite lookup_resize_old, lookup_ge_None_2; [done|lia..].
Qed.

Lemma live_at_Some objs h b :
  live_at objs h = Some b <-> zget objs h = Some b /\ shared_memory b <> None.
Proof.
  unfold live_at. destruct (zget objs h) as [b'|]; simpl; [|naive_solver].
  case_bool_decide; naive_solver.
Qed.

Lemma live_at_insert objs h k b :
  0 <= h < zlen objs -> shared_memory b <> None ->
  live_at (<[Z.to_nat h := b]> objs) k = if h =? k then Some b else live_at objs k.
Proof.
  intros Hh Hb. unfold live_at. rewrite zget_insert by done.
  destruct (h =? k); simpl; [|done]. by rewrite bool_decide_false.
Qed.

Lemma live_at_insert_null objs h k :
  0 <= h < zlen objs ->
  live_at (<[Z.to_nat h := null_buffer]> objs) k
    = if h =? k then None else live_at objs k.
Proof.
  intros Hh. unfold live_at. rewrite zget_insert by done. by destruct (h =? k).
Qed.

Lemma live_at_snoc objs k b :
  live_at (objs ++ [b]) k =
    if k =? zlen objs then live_at [b] 0 else live_at objs k.
Proof. unfold live_at. rewrite zget_snoc. by destruct (k =? zlen objs). Qed.

Lemma live_at_resize objs n k :
  zlen objs <= n -> live_at (resize (Z.to_nat n) null_buffer objs) k = live_at objs k.
Proof.
  intros Hn. unfold live_at. rewrite zget_resize by done.
  destruct (_ && _) eqn:E; [|done]. zbool. by rewrite zget_None_r.
Qed.

Lemma live_at_out objs h : zlen objs <= h -> live_at objs h = None.
Proof. intros H. unfold live_at. by rewrite zget_None_r. Qed.

Lemma live_at_sm b : shared_memory b <> None -> live_at [b] 0 = Some b.
Proof. intros H. unfold live_at. simpl. by rewrite bool_decide_false. Qed.

Lemma zlen_insert {A} (l : list A) i x : zlen (<[i := x]> l) = zlen l.
Proof. unfold zlen. by rewrite length_insert. Qed.

Lemma unused_null objs unused i :
  unused_ok objs unused -> i ∈ unused -> 0 < i < zlen objs /\ live_at objs i = None.
Proof.
  intros H [Hi (b & Hb & Hn)]%H. split; [apply zget_range in Hb; lia|].
  unfold live_at. rewrite Hb. simpl. by rewrite bool_decide_true.
Qed.

(** Filling an empty slot. *)
Lemma fill_slot objs unused h b :
  unused_ok objs unused -> tight objs -> 0 <= h < zlen objs ->
  shared_memory b <> None ->
  unused_ok (<[Z.to_nat h := b]> objs) (unused ∖ {[h]}) /\
  tight (<[Z.to_nat h := b]> objs).
Proof.
  intros Hu Ht Hh Hb. split.
  - intros i. rewrite elem_of_difference, elem_of_singleton, (Hu i), zget_insert by done.
    destruct (Z.eqb_spec h i); naive_solver.
  - unfold tight in *. rewrite zlen_insert, live_at_insert by done.
    destruct (Z.eqb_spec h (zlen objs - 1)); naive_solver.
Qed.

Lemma push_slot objs unused b :
  unused_ok objs unused -> shared_memory b <> None ->
  unused_ok (objs ++ [b]) unused /\ tight (objs ++ [b]).
Proof.
  intros Hu Hb. split.
  - intros i. rewrite (Hu i), zget_snoc.
    destruct (Z.eqb_spec i (zlen objs)) as [->|]; [|done].
    rewrite zget_None_r by done. naive_solver.
  - right. rewrite zlen_app, live_at_snoc. change (zlen [b]) with 1.
    btrue (zlen objs + 1 - 1 =? zlen objs). by rewrite live_at_sm.
Qed.

Lemma pad_slot objs unused h b :
  unused_ok objs unused -> 0 < zlen objs <= h -> shared_memory b <> None ->
  let objs' := <[Z.to_nat h := b]> (resize (Z.to_nat (h + 1)) null_buffer objs) in
  unused_ok objs' (unused ∪ list_to_set (seqZ (zlen objs) (h - zlen objs))) /\
  tight objs' /\
  forall k, live_at objs' k = if h =? k then Some b else live_at objs k.
Proof.
  intros Hu Hh Hb objs'.
  assert (Hlen : zlen (resize (Z.to_nat (h + 1)) null_buffer objs) = h + 1).
  { unfold zlen. rewrite length_resize. lia. }
  split_and!.
  - intros i. unfold objs'.
    rewrite elem_of_union, elem_of_list_to_set, elem_of_seqZ, (Hu i).
    rewrite zget_insert, zget_resize by lia.
    destruct (Z.eqb_spec h i) as [->|].
    + rewrite zget_None_r by lia. naive_solver lia.
    + destruct (_ && _) eqn:E; zbool; [|naive_solver lia].
      rewrite zget_None_r by lia. split; [|intros _; right; lia].
      intros _. split; [lia|]. by exists null_buffer.
  - right. unfold objs'. rewrite zlen_insert, Hlen, live_at_insert by (done || lia).
    by btrue (h =? h + 1 - 1).
  - intros k. unfold objs'. rewrite live_at_insert by (done || lia).
    by rewrite live_at_resize by lia.
Qed.

(** What a successful registration does to the registry. *)
Lemma register_object_spec objs unused b id h objs' unused' :
  unused_ok objs unused -> tight objs -> 0 < zlen objs < 2 ^ 30 ->
  -1 <= id <= 100 -> shared_memory b <> None ->
  register_object objs unused b id = (h, objs', unused') ->
  unused_ok objs' unused' /\ tight objs' /\ 0 < zlen objs' /\ 0 <= h /\
  live_at objs h = None /\ (id <> 0 -> 0 < h) /\
  (0 <= id -> live_at objs id = None -> h = id) /\
  forall k, live_at objs' k = if h =? k then Some b else live_at objs k.
Proof.
  intros Hu Ht Hlen Hid Hb. unfold register_object.
  rewrite i32_id by (unfold is_i32; lia).
  assert (Hfresh : forall h' o' u',
    match set_begin unused with
    | None => (zlen objs, objs ++ [b], unused)
    | Some handle =>
        (handle, <[Z.to_nat handle := b]> objs, unused ∖ {[handle]})
    end = (h', o', u') ->
    unused_ok o' u' /\ tight o' /\ 0 < zlen o' /\ 0 < h' /\ live_at objs h' = None /\
    forall k, live_at o' k = if h' =? k then Some b else live_at objs k).
  { intros h' o' u'. destruct (set_begin unused) as [i|] eqn:E; intros [= <- <- <-].
    - apply set_begin_Some in E as [[Hi Hn]%(unused_null objs) _]; [|done].
      destruct (fill_slot objs unused i b) as [? ?]; [done|done|lia|done|].
      split_and!; try done; [rewrite zlen_insert; lia|lia|].
      intros k. apply live_at_insert; [lia|done].
    - destruct (push_slot objs unused b) as [? ?]; [done..|].
      split_and!; try done; [rewrite zlen_app; change (zlen [b]) with 1; lia|lia| |].
      + by apply live_at_out.
      + intros k. rewrite live_at_snoc, (live_at_sm b), Z.eqb_sym by done. done. }
  destruct (Z.eqb_spec id (-1)) as [->|Hne]; simpl.
  { intros (?&?&?&?&?&?)%Hfresh. split_and!; try done; lia. }
  destruct (Z.leb_spec (zlen objs) id) as [Hge|Hlt].
  { intros [= <- <- <-]. destruct (pad_slot objs unused id b) as (?&?&?);
      [done|lia|done|]. split_and!; try done; try lia.
    - rewrite zlen_insert. unfold zlen in *. rewrite length_resize. lia.
    - by apply live_at_out. }
  destruct (zget_in objs id) as [b' Hb']; [lia|].
  assert (E : objs !! Z.to_nat id = Some b').
  { unfold zget in Hb'. by rewrite (proj2 (Z.leb_le 0 id)) in Hb' by lia. }
  rewrite E. unfold live_at at 2. rewrite Hb'. simpl. case_bool_decide as Hn.
  - intros [= <- <- <-].
    destruct (fill_slot objs unused id b) as [? ?]; [done|done|lia|done|].
    split_and!; try done; try lia; [rewrite zlen_insert; lia| |].
    + unfold live_at. rewrite Hb'. simpl. by rewrite bool_decide_true.
    + intros k. apply live_at_insert; [lia|done].
  - intros (?&?&?&?&?&?)%Hfresh. split_and!; try done; lia.
Qed.

Lemma shrink_rev_spec robjs unused robjs' unused' :
  unused_ok (rev robjs) unused -> 0 < zlen robjs ->
  shrink_rev robjs unused = (robjs', unused') ->
  unused_ok (rev robjs') unused' /\ tight (rev robjs') /\ 0 < zlen robjs' /\
  forall k, live_at (rev robjs') k = live_at (rev robjs) k.
Proof.
  revert unused. induction robjs as [|b rest IH]; intros unused Hu Hlen; [done|].
  destruct rest as [|b2 rest2]; simpl shrink_rev.
  { intros [= <- <-]. split_and!; try done. by left. }
  set (rest := b2 :: rest2) in *. rewrite bool_decide_decide. case_decide as Hn.
  - intros Hs. apply IH in Hs as (H1 & H2 & H3 & H4).
    + split_and!; try done. intros k. rewrite H4.
      change (rev (b :: rest)) with (rev rest ++ [b]). rewrite live_at_snoc.
      destruct (Z.eqb_spec k (zlen (rev rest))) as [->|]; [|done].
      rewrite live_at_out by done. unfold live_at. simpl. by rewrite bool_decide_true.
    + intros i. rewrite elem_of_difference, elem_of_singleton, (Hu i).
      change (rev (b :: rest)) with (rev rest ++ [b]). rewrite zget_snoc.
      replace (zlen rest) with (zlen (rev rest))
        by (unfold zlen; by rewrite length_rev).
      destruct (Z.eqb_spec i (zlen (rev rest))) as [->|].
      * rewrite zget_None_r by done. naive_solver.
      * naive_solver.
    + unfold rest. rewrite zlen_cons. pose proof (zlen_nonneg rest2). lia.
  - intros [= <- <-]. split_and!; try done. right.
    change (rev (b :: rest)) with (rev rest ++ [b]).
    rewrite zlen_app, live_at_snoc. change (zlen [b]) with 1.
    btrue (zlen (rev rest) + 1 - 1 =? zlen (rev rest)). by rewrite live_at_sm.
Qed.

Lemma RegisterTransferBuffer_cases os size id s h s' :
  registry_ok s -> zlen (registered_objects s) < 2 ^ 30 ->
  RegisterTransferBuffer os size id s = (h, s') ->
  (h = -1 /\ s' = s) \/
  (let b := mkBuffer (Some (map_memory os)) size (Some (map_object os)) in
   share_ok os = true /\ map_ok os = true /\ -1 <= id <= 100 /\
   registry_ok s' /\ 0 <= h /\ live s h = None /\ (id <> 0 -> 0 < h) /\
   (0 <= id -> live s id = None -> h = id) /\
   forall k, live s' k = if h =? k then Some b else live s k).
Proof.
  intros [Hne Hu Ht] Hsmall. unfold RegisterTransferBuffer.
  destruct (_ && (zlen _ >? _)) eqn:E1; [intros [= <- <-]; auto|].
  destruct (negb _ && _) eqn:E2; [intros [= <- <-]; auto|].
  destruct (share_ok os) eqn:E3; simpl; [|intros [= <- <-]; auto].
  destruct (map_ok os) eqn:E4; simpl; [|intros [= <- <-]; auto].
  destruct (register_object _ _ _ _) as [[h' objs'] unused'] eqn:E.
  intros [= <- <-]. right.
  assert (Hid : -1 <= id <= 100).
  { apply andb_false_iff in E2 as [E2|E2]; zbool; [lia|]. lia. }
  apply register_object_spec in E as (?&?&?&?&?&?&?&?); try done.
Qed.

Lemma DestroyTransferBuffer_spec h s :
  registry_ok s -> registry_ok (DestroyTransferBuffer h s) /\
  forall k, live (DestroyTransferBuffer h s) k =
    if (0 <? h) && (h =? k) then None else live s k.
Proof.
  intros [Hne Hu Ht]. unfold DestroyTransferBuffer.
  destruct (Z.leb_spec h 0).
  { split; [done|]. intros k. by bfalse (0 <? h). }
  btrue (0 <? h). simpl. destruct (h >=? _) eqn:Eh; zbool.
  { split; [done|]. intros k. destruct (Z.eqb_spec h k) as [->|]; [|done].
    by apply live_at_out. }
  set (objs := <[_ := null_buffer]> _). set (unused := _ ∪ _).
  assert (Hu' : unused_ok (rev (rev objs)) unused).
  { rewrite rev_involutive. intros i. unfold objs, unused.
    rewrite elem_of_union, elem_of_singleton, (Hu i), zget_insert by lia.
    destruct (Z.eqb_spec h i) as [->|]; [|naive_solver].
    split; [|by auto]. intros _. split; [lia|]. by exists null_buffer. }
  assert (Hpos : 0 < zlen (rev objs)).
  { unfold objs, zlen in *. rewrite length_rev, length_insert. done. }
  destruct (shrink_rev _ _) as [r u] eqn:E.
  apply shrink_rev_spec in E as (H1 & H2 & H3 & H4); [|done..].
  split.
  - split; try done. simpl. unfold zlen in *. by rewrite length_rev.
  - intros k. unfold live. simpl. rewrite H4, rev_involutive.
    apply live_at_insert_null. lia.
Qed.

Lemma CommandBufferService_new_ok : registry_ok CommandBufferService_new.
Proof.
  split; [done| |by left]. intros i. simpl. split; [set_solver|].
  intros (Hi & b & Hb%zget_range & _). change (zlen _) with 1 in Hb. lia.
Qed.

Lemma registry_step_ok s s' : registry_step s s' -> registry_ok s -> registry_ok s'.
Proof.
  intros [os size id s2 h Hs E|ok os size id s2 h Hs E|h] Hok.
  - apply RegisterTransferBuffer_cases in E; naive_solver.
  - unfold CreateTransferBuffer in E. destruct ok; simplify_eq/=; [|done].
    apply RegisterTransferBuffer_cases in E; naive_solver.
  - by apply DestroyTransferBuffer_spec.
Qed.

(** *** Where the buffers of the registry come from *)

Lemma elem_of_resize_null (objs : list Buffer) n b :
  b ∈ resize n null_buffer objs -> b ∈ objs \/ b = null_buffer.
Proof.
  rewrite resize_spec, elem_of_app. intros [Hb|Hb]; [left|right].
  - apply list_elem_of_lookup in Hb as [i Hi]. apply lookup_take_Some in Hi as [Hi _].
    by eapply list_elem_of_lookup_2.
  - apply elem_of_replicate in Hb. naive_solver.
Qed.

Lemma elem_of_insert_at {A} i (b b' : A) (l : list A) :
  b' ∈ <[i := b]> l -> b' ∈ l \/ b' = b.
Proof.
  intros [k Hk]%list_elem_of_lookup.
  apply list_lookup_insert_Some in Hk as [(_ & -> & _)|(_ & Hk)]; [by right|].
  left. by eapply list_elem_of_lookup_2.
Qed.

Lemma register_object_elem objs unused b id h objs' unused' b' :
  register_object objs unused b id = (h, objs', unused') ->
  b' ∈ objs' -> b' ∈ objs \/ b' = null_buffer \/ b' = b.
Proof.
  unfold register_object. intros E Hb. repeat case_match; simplify_eq;
    try (apply elem_of_app in Hb; set_solver);
    apply elem_of_insert_at in Hb as [Hb|Hb]; auto.
  apply elem_of_resize_null in Hb. naive_solver.
Qed.

Lemma RegisterTransferBuffer_elem os size id s h s' b :
  RegisterTransferBuffer os size id s = (h, s') ->
  b ∈ registered_objects s' ->
  b ∈ registered_objects s \/ b = null_buffer \/
  b = mkBuffer (Some (map_memory os)) size (Some (map_object os)).
Proof.
  unfold RegisterTransferBuffer. repeat (ztest; [intros [= <- <-]; by auto|]).
  destruct (register_object _ _ _ _) as [[h' objs'] u'] eqn:E. intros [= <- <-].
  by eapply register_object_elem.
Qed.

Lemma shrink_rev_elem robjs unused robjs' unused' b :
  shrink_rev robjs unused = (robjs', unused') -> b ∈ robjs' -> b ∈ robjs.
Proof.
  revert unused. induction robjs as [|b1 rest IH]; intros unused; [by intros [= <- <-]|].
  destruct rest as [|b2 rest2]; simpl shrink_rev; [by intros [= <- <-]|].
  case_bool_decide; [|by intros [= <- <-]]. intros E Hb. right. by eapply IH.
Qed.

Lemma elem_of_rev {A} (b : A) l : b ∈ rev l <-> b ∈ l.
Proof. by rewrite !list_elem_of_In, <- in_rev. Qed.

Lemma DestroyTransferBuffer_elem h s b :
  b ∈ registered_objects (DestroyTransferBuffer h s) ->
  b ∈ registered_objects s \/ b = null_buffer.
Proof.
  unfold DestroyTransferBuffer. repeat (ztest; [by auto|]).
  destruct (shrink_rev _ _) as [r u] eqn:E. simpl. intros Hb.
  rewrite elem_of_rev in Hb. pose proof (shrink_rev_elem _ _ _ _ _ E Hb) as Hb2.
  rewrite elem_of_rev in Hb2. by apply elem_of_insert_at in Hb2.
Qed.

Lemma GetTransferBuffer_elem id s b :
  GetTransferBuffer id s = b -> b = null_buffer \/ b ∈ registered_objects s.
Proof.
  unfold GetTransferBuffer. intros <-. repeat (ztest; [by auto|]).
  destruct (_ !! _) eqn:E; simpl; [|by auto]. right. by eapply list_elem_of_lookup_2.
Qed.

Lemma elem_GetTransferBuffer s b :
  b ∈ registered_objects s -> exists id, GetTransferBuffer id s = b.
Proof.
  intros [k Hk]%list_elem_of_lookup. exists (Z.of_nat k). unfold GetTransferBuffer.
  pose proof (lookup_lt_Some _ _ _ Hk). unfold zlen.
  bfalse (Z.of_nat k <? 0). bfalse (Z.of_nat k >=? Z.of_nat (length (registered_objects s))).
  by rewrite Nat2Z.id, Hk.
Qed.

#[export] Hint Resolve CommandBufferService_new_ok registry_step_ok : gpu.

(** ** Properties *)

(** C24: the registry of transfer buffers is well formed in every state the
    service can reach by any sequence of registrations, creations (successful or
    refused) and destructions: its free list is exactly the set of empty slots
    past slot zero and, apart from slot zero, the vector never ends in an empty
    slot, so destroying every buffer gives the memory back. *)
Theorem registry_reachable_ok s :
  steps registry_step CommandBufferService_new s -> registry_ok s.
Proof.
  intros H. remember CommandBufferService_new as s0 eqn:E0.
  induction H as [s|s1 s2 s3 _ IH Hstep]; subst; eauto with gpu.
Qed.

Lemma registry_reachable_ok_witness :
  registry_ok (DestroyTransferBuffer 3 (snd (RegisterTransferBuffer
    (mkMapResult true true 7 8) 16 3 CommandBufferService_new))).
Proof.
  apply registry_reachable_ok. eapply steps_next; [|apply step_destroy].
  eapply steps_next; [apply steps_refl|].
  apply (step_register _ (mkMapResult true true 7 8) 16 3 _ 3); done.
Defined.

(** [RegisterTransferBuffer] implements insertion into a finite map of live
    handles: it either refuses, changing nothing, or it returns a handle that
    was not in use, binds exactly that handle to the new buffer and leaves every
    other handle as it was; a requested id that is free is the id returned. *)
Theorem RegisterTransferBuffer_refines_insert os size id s h s' :
  registry_ok s -> zlen (registered_objects s) < 2 ^ 30 ->
  RegisterTransferBuffer os size id s = (h, s') ->
  (h = -1 /\ s' = s) \/
  (0 <= h /\ live s h = None /\ (0 <= id -> live s id = None -> h = id) /\
   forall k, live s' k =
     if h =? k then Some (mkBuffer (Some (map_memory os)) size (Some (map_object os)))
     else live s k).
Proof.
  intros Hok Hs E. apply RegisterTransferBuffer_cases in E; naive_solver.
Qed.

Lemma RegisterTransferBuffer_refines_insert_witness :
  let s := CommandBufferService_new in
  let s' := snd (RegisterTransferBuffer (mkMapResult true true 7 8) 16 5 s) in
  (5 = -1 /\ s' = s) \/
  (0 <= 5 /\ live s 5 = None /\ (0 <= 5 -> live s 5 = None -> 5 = 5) /\
   forall k, live s' k =
     if 5 =? k then Some (mkBuffer (Some 7) 16 (Some 8)) else live s k).
Proof.
  intros s s'.
  apply (RegisterTransferBuffer_refines_insert (mkMapResult true true 7 8) 16 5 s 5 s');
    [apply CommandBufferService_new_ok|done|done].
Defined.

(** [DestroyTransferBuffer] implements deletion from that map: afterwards the
    handle resolves to the null buffer, every other handle resolves to what it
    did before, and handles that are zero, negative or out of range are
    ignored. *)
Theorem DestroyTransferBuffer_refines_delete h s :
  registry_ok s ->
  forall k, live (DestroyTransferBuffer h s) k =
    if (0 <? h) && (h =? k) then None else live s k.
Proof. intros Hok. by apply DestroyTransferBuffer_spec. Qed.

Lemma DestroyTransferBuffer_refines_delete_witness :
  live (DestroyTransferBuffer 1 CommandBufferService_new) 1 =
    if (0 <? 1) && (1 =? 1) then None else live CommandBufferService_new 1.
Proof.
  apply (DestroyTransferBuffer_refines_delete 1 CommandBufferService_new).
  apply CommandBufferService_new_ok.
Defined.

(** Slot zero is not always null, against the comments of the constructor
    and of [DestroyTransferBuffer]: a client that requests id zero is given it,
    and a buffer registered there can never be released. *)
Theorem registry_slot_zero_leak os size s :
  registry_ok s -> zlen (registered_objects s) < 2 ^ 30 ->
  share_ok os = true -> map_ok os = true -> live s 0 = None ->
  let s' := snd (RegisterTransferBuffer os size 0 s) in
  fst (RegisterTransferBuffer os size 0 s) = 0 /\
  GetTransferBuffer 0 s' = mkBuffer (Some (map_memory os)) size (Some (map_object os)) /\
  DestroyTransferBuffer 0 s' = s'.
Proof.
  intros Hok Hs Hshare Hmap Hlive s'. pose proof (reg_nonempty _ Hok) as Hpos.
  assert (E : RegisterTransferBuffer os size 0 s = (0, s')).
  { unfold s', RegisterTransferBuffer. rewrite Hshare, Hmap.
    bfalse (zlen (registered_objects s) >? 2 ^ 32 - 1). rewrite andb_false_r. simpl.
    destruct (zget_in (registered_objects s) 0) as [b Hb]; [split; [done|apply Hok]|].
    unfold live, live_at in Hlive. rewrite Hb in Hlive. simpl in Hlive.
    unfold register_object. simpl. rewrite i32_id by (unfold is_i32; lia).
    bfalse (zlen (registered_objects s) <=? 0).
    change (zget (registered_objects s) 0) with (registered_objects s !! 0%nat) in Hb.
    change (Z.to_nat 0) with 0%nat. rewrite Hb. by case_bool_decide. }
  rewrite E. split; [done|]. split; [|done].
  apply RegisterTransferBuffer_cases in E as [[? _]|E]; [done| |done..].
  destruct E as (_ & _ & _ & [Hne _ _] & _ & _ & _ & _ & Hk).
  specialize (Hk 0). simpl in Hk. apply live_at_Some in Hk as [Hk _].
  unfold GetTransferBuffer. simpl. bfalse (0 >=? zlen (registered_objects s')).
  change (Z.to_nat 0) with 0%nat.
  change (registered_objects s' !! 0%nat) with (zget (registered_objects s') 0).
  by rewrite Hk.
Qed.

Lemma registry_slot_zero_leak_witness :
  let s := CommandBufferService_new in
  let os := mkMapResult true true 7 8 in
  let s' := snd (RegisterTransferBuffer os 16 0 s) in
  fst (RegisterTransferBuffer os 16 0 s) = 0 /\
  GetTransferBuffer 0 s' = mkBuffer (Some 7) 16 (Some 8) /\
  DestroyTransferBuffer 0 s' = s'.
Proof.
  intros s os s'. apply (registry_slot_zero_leak os 16 s); try done.
  apply CommandBufferService_new_ok.
Defined.

(** [Initialize] answers [true] although it set no ring buffer up when the
    system cannot create the shared memory; the entry count is then that of a
    buffer which does not exist, so every put offset up to it is accepted. *)
Theorem Initialize_reports_success_without_memory os size s :
  shared_memory (ring_buffer s) = None -> 0 < size <= kMaxCommandBufferSize ->
  let '(ok, s') := Initialize false os size s in
  ok = true /\ GetRingBuffer s' = ring_buffer s /\ num_entries s' = size / 4.
Proof.
  intros Hn Hs. unfold Initialize. rewrite Hn. simpl.
  by bfalse ((size <=? 0) || (size >? kMaxCommandBufferSize)).
Qed.

Lemma Initialize_reports_success_without_memory_witness :
  let '(ok, s') := Initialize false (mkMapResult true true 1 2) 64
                     CommandBufferService_new in
  ok = true /\ GetRingBuffer s' = null_buffer /\ num_entries s' = 16.
Proof.
  apply (Initialize_reports_success_without_memory (mkMapResult true true 1 2) 64
           CommandBufferService_new); [done|unfold kMaxCommandBufferSize; lia].
Defined.
