(* ===== verification/CmdParser.v ===== *)
(** * The command parser

    [gpu/command_buffer/service/cmd_parser.{h,cc}]: walks the ring buffer from
    [get_] to [put_], handing each command to an asynchronous API handler. *)

From S2P Require Import Prelude CmdFormat.
From Stdlib Require Import ZArith Lia ZifyBool Bool.
From stdpp Require Import base list numbers option.
Local Open Scope Z_scope.

(** ** State *)

(** [buffer_] points into the ring buffer memory; the list is that memory from
    the parser's first entry on, and is longer than [entry_count_] when the
    memory block is. *)
Record Parser := mkParser {
  get_ : Z;
  put_ : Z;
  buffer_ : list Z;
  entry_count_ : Z;
}.

Definition with_get_ (p : Parser) (g : Z) : Parser :=
  mkParser g (put_ p) (buffer_ p) (entry_count_ p).

(** The constructor; [shm] are the words of the shared memory block, [offset]
    and [size] in bytes. *)
Definition CommandParser_new (shm : list Z) (offset size start_get : Z) : Parser :=
  {| get_ := start_get; put_ := start_get;
     buffer_ := drop (Z.to_nat (offset / 4)) shm; entry_count_ := size / 4 |}.

Definition set_get (get : Z) (p : Parser) : bool * Parser :=
  if (get >=? 0) && (get <? entry_count_ p) then (true, with_get_ p get)
  else (false, p).

Definition set_put (put : Z) (p : Parser) : Parser :=
  mkParser (get_ p) put (buffer_ p) (entry_count_ p).

Definition IsEmpty (p : Parser) : bool := put_ p =? get_ p.

(** The process the parser runs in: a command's handler can move the parser. *)
Class HasParser (W : Type) := {
  parser : W -> Parser;
  set_parser : W -> Parser -> W;
}.

Class HasParserLaws (W : Type) `{HasParser W} : Prop := {
  parser_set w p : parser (set_parser w p) = p;
}.

(** [AsyncAPIInterface]: [DoCommand command arg_count cmd_data], where
    [cmd_data] are the ring buffer's entries from the command's header on. *)
Class AsyncAPIInterface (W : Type) :=
  DoCommand : Z -> Z -> list Z -> W -> outcome (Error * W).

(** What a handler promises the parser: it may move [get_] inside the buffer and
    changes nothing else of it, and it is never undefined on entries that hold
    the whole command, header included. *)
Class AsyncAPILaws (W : Type) `{HasParser W} `{AsyncAPIInterface W}
    (wf : W -> Prop) : Prop := {
  DoCommand_safe command arg_count cmd_data w :
    wf w -> 0 <= arg_count -> 1 + arg_count <= zlen cmd_data ->
    Forall is_u32 cmd_data ->
    safe (DoCommand command arg_count cmd_data w);
  DoCommand_wf command arg_count cmd_data w e w' :
    wf w -> 0 <= arg_count -> 1 + arg_count <= zlen cmd_data ->
    Forall is_u32 cmd_data ->
    DoCommand command arg_count cmd_data w = Done (e, w') ->
    wf w' /\ exists g, parser w' = with_get_ (parser w) g /\
      (g = get_ (parser w) \/ 0 <= g < entry_count_ (parser w));
}.

(** ** Operations *)

Section parser.
Context {W : Type} `{HasParser W} `{AsyncAPIInterface W}.

Definition ProcessCommand (w : W) : outcome (Error * W) :=
  let p := parser w in
  let get := get_ p in
  if get =? put_ p then Done (kNoError, w)
  else
    (do word <- of_option (zget (buffer_ p) get) ;;
     let header := value_header word in
     if h_size header =? 0 then Done (kInvalidSize, w)
     else if h_size header + get >? entry_count_ p then Done (kOutOfBounds, w)
     else
       do (result, w) <- DoCommand (h_command header) (h_size header - 1)
                           (drop (Z.to_nat get) (buffer_ p)) w ;;
       let p := parser w in
       Done (result,
             if get =? get_ p
             then set_parser w (with_get_ p ((get + h_size header) mod entry_count_ p))
             else w))%gpu.

(** The loop runs until the buffer is empty or a command fails: a malicious
    client can keep it running forever with a jump, hence the fuel. *)
Fixpoint ProcessAllCommands (fuel : nat) (w : W) : outcome (Error * W) :=
  if IsEmpty (parser w) then Done (kNoError, w)
  else
    match fuel with
    | O => Fuel
    | S fuel =>
        (do (e, w) <- ProcessCommand w ;;
         if IsError e then Done (e, w) else ProcessAllCommands fuel w)%gpu
    end.

(** ** Invariant

    The ring buffer memory holds [entry_count_] words and both offsets point
    into it.  [put_] may also be the entry count itself, which is what
    [CommandBufferService] accepts from a client. *)
Record parser_ok (p : Parser) : Prop := {
  parser_get : 0 <= get_ p < entry_count_ p;
  parser_put : 0 <= put_ p <= entry_count_ p;
  parser_buffer : entry_count_ p <= zlen (buffer_ p);
  parser_words : Forall is_u32 (buffer_ p);
}.

End parser.

(** ** Lemmas *)

Lemma with_get_ok p g :
  parser_ok p -> 0 <= g < entry_count_ p -> parser_ok (with_get_ p g).
Proof. intros [? ? ? ?] ?. by split. Qed.

Lemma zget_word (ws : list Z) i w : Forall is_u32 ws -> zget ws i = Some w -> is_u32 w.
Proof.
  unfold zget. intros Hf. ztest; [|done]. intros Hl.
  by apply (Forall_lookup_1 _ _ _ _ Hf Hl).
Qed.

Section laws.
Context {W : Type} `{!HasParser W, !HasParserLaws W} `{!AsyncAPIInterface W}.
Context {wf : W -> Prop} `{!AsyncAPILaws W wf}.
Hypothesis wf_set_get : forall w g,
  wf w -> 0 <= g < entry_count_ (parser w) ->
  wf (set_parser w (with_get_ (parser w) g)).

(** Everything the invariant gives about one step: the header is read inside the
    buffer, the handler gets the whole command, and the new [get_] is again an
    entry of the buffer. *)
Lemma ProcessCommand_step w :
  wf w -> parser_ok (parser w) ->
  safe (ProcessCommand w) /\
  forall e w', ProcessCommand w = Done (e, w') ->
    wf w' /\ parser_ok (parser w') /\ put_ (parser w') = put_ (parser w) /\
    buffer_ (parser w') = buffer_ (parser w).
Proof.
  intros Hwf Hp. pose proof Hp as [Hg Hput Hbuf Hwords]. unfold ProcessCommand.
  destruct (_ =? _) eqn:E0; [by split; [|intros ? ? [= <- <-]]|].
  destruct (zget_in (buffer_ (parser w)) (get_ (parser w))) as [word Hw]; [lia|].
  rewrite Hw. cbn [of_option obind]. set (h := value_header word).
  pose proof (value_header_range word (zget_word _ _ _ Hwords Hw)) as [Hs _].
  fold h in Hs. destruct (h_size h =? 0) eqn:E1; [by split; [|intros ? ? [= <- <-]]|].
  destruct (_ >? _) eqn:E2; [by split; [|intros ? ? [= <- <-]]|]. zbool.
  set (data := drop _ _).
  assert (Hdata : 1 + (h_size h - 1) <= zlen data).
  { unfold data. rewrite zlen_drop by lia. lia. }
  assert (Hu : Forall is_u32 data) by by apply Forall_drop.
  pose proof (DoCommand_safe (h_command h) (h_size h - 1) data w Hwf ltac:(lia)
    Hdata Hu) as Hsafe.
  destruct (DoCommand _ _ _ w) as [[e w']| |] eqn:Hdo; simpl; [|done..].
  apply DoCommand_wf in Hdo as (Hwf' & g & Hpar & Hgin); [|done|lia|done..].
  split; [done|]. intros e' w'' [= <- <-].
  destruct (Z.eqb_spec (get_ (parser w)) (get_ (parser w'))) as [E|E].
  - set (g' := _ mod _).
    assert (Hg' : 0 <= g' < entry_count_ (parser w')).
    { apply Z.mod_pos_bound. rewrite Hpar. simpl. lia. }
    rewrite parser_set. split_and!; [by apply wf_set_get| |by rewrite Hpar..].
    rewrite Hpar in *. by apply (with_get_ok (parser w)).
  - rewrite Hpar in *. split_and!; try done. apply with_get_ok; [done|].
    simpl in E. lia.
Qed.

(** ** Properties *)

(** Memory safety of the parser.  Whatever words the client has put in the
    ring buffer and whatever the handler answers, [ProcessCommand] reads headers
    only inside the buffer, hands the handler only commands that lie whole
    inside it, and leaves [get_] an entry of the buffer, with [put_] and the
    buffer unchanged. *)
Theorem ProcessCommand_in_bounds w :
  wf w -> parser_ok (parser w) ->
  safe (ProcessCommand w) /\
  forall e w', ProcessCommand w = Done (e, w') ->
    wf w' /\ parser_ok (parser w') /\ put_ (parser w') = put_ (parser w) /\
    buffer_ (parser w') = buffer_ (parser w).
Proof. apply ProcessCommand_step. Qed.

(** The whole parsing loop is memory safe too, for as long as the client
    makes it run. *)
Theorem ProcessAllCommands_in_bounds fuel w :
  wf w -> parser_ok (parser w) ->
  safe (ProcessAllCommands fuel w) /\
  forall e w', ProcessAllCommands fuel w = Done (e, w') ->
    wf w' /\ parser_ok (parser w') /\ (e = kNoError -> get_ (parser w') = put_ (parser w)).
Proof.
  revert w. induction fuel as [|fuel IH]; intros w Hwf Hp; cbn [ProcessAllCommands];
    destruct (IsEmpty (parser w)) eqn:E0.
  1, 3: split; [done|]; intros e w' [= <- <-]; unfold IsEmpty in E0;
    split_and!; [done..|lia].
  { done. }
  destruct (ProcessCommand_step w Hwf Hp) as [Hsafe Hdone].
  destruct (ProcessCommand w) as [[e w']| |]; cbn [obind]; [|done..].
  destruct (Hdone e w' eq_refl) as (Hwf' & Hp' & Hput & _).
  destruct (IsError e) eqn:Ee.
  - split; [done|]. intros ? ? [= <- <-]. by destruct e.
  - rewrite <- Hput. by apply IH.
Qed.

End laws.
