(* ===== verification/CommonDecoder.v ===== *)
(** * The decoder of the common commands

    [gpu/command_buffer/service/common_decoder.{h,cc}] over the engine interface
    of [cmd_buffer_engine.h]: buckets, the call stack, shared memory access and
    the twelve command handlers. *)

From S2P Require Import Prelude CmdFormat CommandBufferService.
From Stdlib Require Import ZArith Lia ZifyBool Bool.
From stdpp Require Import base list gmap numbers option.
Local Open Scope Z_scope.

(** ** The engine *)

(** [CommandBufferEngine]: what the decoder asks of the process around it. *)
Class CommandBufferEngine (E : Type) := {
  GetSharedMemoryBuffer : E -> Z -> Buffer;
  set_token : Z -> E -> E;
  engine_SetGetOffset : Z -> E -> bool * E;
  GetGetOffset : E -> Z;
}.

(** What an engine promises.  [engine_ok] is its invariant and [engine_entries]
    the number of entries of the ring buffer it walks. *)
Class EngineLaws (E : Type) `{CommandBufferEngine E}
    (engine_ok : E -> Prop) (engine_entries : E -> Z) : Prop := {
  set_token_ok t e : engine_ok e -> engine_ok (set_token t e);
  set_token_get t e : GetGetOffset (set_token t e) = GetGetOffset e;
  set_token_entries t e : engine_entries (set_token t e) = engine_entries e;
  set_token_memory t e id :
    GetSharedMemoryBuffer (set_token t e) id = GetSharedMemoryBuffer e id;
  SetGetOffset_result o e :
    fst (engine_SetGetOffset o e) = (0 <=? o) && (o <? engine_entries e);
  SetGetOffset_fail o e :
    fst (engine_SetGetOffset o e) = false -> snd (engine_SetGetOffset o e) = e;
  SetGetOffset_get o e :
    fst (engine_SetGetOffset o e) = true ->
    GetGetOffset (snd (engine_SetGetOffset o e)) = o;
  SetGetOffset_ok o e : engine_ok e -> engine_ok (snd (engine_SetGetOffset o e));
  SetGetOffset_entries o e :
    engine_entries (snd (engine_SetGetOffset o e)) = engine_entries e;
  SetGetOffset_memory o e id :
    GetSharedMemoryBuffer (snd (engine_SetGetOffset o e)) id
      = GetSharedMemoryBuffer e id;
  GetGetOffset_range e :
    engine_ok e -> 0 <= GetGetOffset e < engine_entries e;
  engine_entries_bound e : engine_ok e -> engine_entries e < 2 ^ 31;
}.

(** ** Buckets *)

(** [data_] is [None] for the null pointer of an empty bucket. *)
Record Bucket := mkBucket { size_ : Z; data_ : option (list Z) }.

(** [Bucket()] *)
Definition new_Bucket : Bucket := {| size_ := 0; data_ := None |}.

Section bucket.
Context `{Platform}.

Definition OffsetSizeValid (offset size : Z) (b : Bucket) : bool :=
  let temp := usize (offset + size) in (temp <=? size_ b) && (temp >=? offset).

(** The offset of the section inside [data_]; [None] is the null pointer. *)
Definition GetData (offset size : Z) (b : Bucket) : option Z :=
  if OffsetSizeValid offset size b then
    match data_ b with Some _ => Some offset | None => None end
  else None.

Definition SetSize (size : Z) (b : Bucket) : Bucket :=
  if negb (size =? size_ b) then
    {| size_ := size;
       data_ := if size =? 0 then None else Some (replicate (Z.to_nat size) 0) |}
  else b.

(** [src n] are the [n] bytes found at the source pointer, [None] when they run
    out of the memory the pointer is in. *)
Definition SetData (src : Z -> option (list Z)) (offset size : Z) (b : Bucket)
    : outcome (bool * Bucket) :=
  if OffsetSizeValid offset size b then
    (do bytes <- of_option (src size) ;;
     match data_ b with
     | Some d =>
         do d <- of_option (zwrite d offset bytes) ;;
         Done (true, {| size_ := size_ b; data_ := Some d |})
     | None => if size =? 0 then Done (true, b) else UB
     end)%gpu
  else Done (false, b).

(** A C string is its characters before the terminating zero. *)
Definition SetFromString (str : option (list Z)) (b : Bucket) : outcome Bucket :=
  match str with
  | None => Done (SetSize 0 b)
  | Some s =>
      let size := zlen s + 1 in
      (do (_, b) <- SetData (zread (s ++ [0]) 0) 0 size (SetSize size b) ;;
       Done b)%gpu
  end.

Definition GetAsString (b : Bucket) : outcome (option (list Z)) :=
  if size_ b =? 0 then Done None
  else
    match GetData 0 (size_ b - 1) b, data_ b with
    | Some o, Some d =>
        (do s <- of_option (zread d o (size_ b - 1)) ;; Done (Some s))%gpu
    | _, _ => UB
    end.

End bucket.

(** ** The decoder *)

Record Decoder (E : Type) := mkDecoder {
  engine : E;
  buckets_ : gmap Z Bucket;
  call_stack_ : list Z;
  heap : gmap Z (list Z);   (* the bytes of every mapped memory block *)
}.
Arguments mkDecoder {E} _ _ _ _.
Arguments engine {E} _.
Arguments buckets_ {E} _.
Arguments call_stack_ {E} _.
Arguments heap {E} _.

Definition with_engine {E} (d : Decoder E) (e : E) : Decoder E :=
  mkDecoder e (buckets_ d) (call_stack_ d) (heap d).
Definition with_buckets {E} (d : Decoder E) (bs : gmap Z Bucket) : Decoder E :=
  mkDecoder (engine d) bs (call_stack_ d) (heap d).
Definition with_call_stack {E} (d : Decoder E) (s : list Z) : Decoder E :=
  mkDecoder (engine d) (buckets_ d) s (heap d).
Definition with_heap {E} (d : Decoder E) (h : gmap Z (list Z)) : Decoder E :=
  mkDecoder (engine d) (buckets_ d) (call_stack_ d) h.

Definition kMaxStackDepth : Z := 32.

(** The table [g_command_info]: one row per common command. *)
Definition command_info (c : CommandId) : ArgFlags * Z :=
  match c with
  | kNoop => (kArgFlags (T := Noop), cmd_size (T := Noop) / 4 - 1)
  | kSetToken => (kArgFlags (T := SetToken), cmd_size (T := SetToken) / 4 - 1)
  | kJump => (kArgFlags (T := Jump), cmd_size (T := Jump) / 4 - 1)
  | kJumpRelative =>
      (kArgFlags (T := JumpRelative), cmd_size (T := JumpRelative) / 4 - 1)
  | kCall => (kArgFlags (T := Call), cmd_size (T := Call) / 4 - 1)
  | kCallRelative =>
      (kArgFlags (T := CallRelative), cmd_size (T := CallRelative) / 4 - 1)
  | kReturn => (kArgFlags (T := Return), cmd_size (T := Return) / 4 - 1)
  | kSetBucketSize =>
      (kArgFlags (T := SetBucketSize), cmd_size (T := SetBucketSize) / 4 - 1)
  | kSetBucketData =>
      (kArgFlags (T := SetBucketData), cmd_size (T := SetBucketData) / 4 - 1)
  | kSetBucketDataImmediate =>
      (kArgFlags (T := SetBucketDataImmediate),
       cmd_size (T := SetBucketDataImmediate) / 4 - 1)
  | kGetBucketSize =>
      (kArgFlags (T := GetBucketSize), cmd_size (T := GetBucketSize) / 4 - 1)
  | kGetBucketData =>
      (kArgFlags (T := GetBucketData), cmd_size (T := GetBucketData) / 4 - 1)
  end.

Section decoder.
Context `{Platform} {E : Type} `{CommandBufferEngine E}.
Implicit Types d : Decoder E.

(** An address is a memory block and an offset in it. *)
Definition GetAddressAndCheckSize (shm_id offset size : Z) d : option (Z * Z) :=
  let buffer := GetSharedMemoryBuffer (engine d) (i32 shm_id) in
  match ptr buffer with
  | None => None
  | Some block =>
      let stop := u32 (offset + size) in
      if (stop >? b_size buffer) || (stop <? offset) then None
      else Some (block, offset)
  end.

(** Reads and writes through such an address. *)
Definition mem_read d (a : Z * Z) (n : Z) : option (list Z) :=
  bytes ← heap d !! a.1; zread bytes a.2 n.

Definition mem_write d (a : Z * Z) (bytes : list Z) : option (Decoder E) :=
  old ← heap d !! a.1; new ← zwrite old a.2 bytes;
  Some (with_heap d (<[a.1 := new]> (heap d))).

Definition PushAddress (offset : Z) d : bool * Decoder E :=
  if zlen (call_stack_ d) <? kMaxStackDepth then
    let return_address := u32 (GetGetOffset (engine d)) in
    let '(ok, e) := engine_SetGetOffset (i32 offset) (engine d) in
    if ok
    then (true, with_call_stack (with_engine d e) (return_address :: call_stack_ d))
    else (false, with_engine d e)
  else (false, d).

Definition GetBucket (bucket_id : Z) d : option Bucket := buckets_ d !! bucket_id.

Definition set_bucket (bucket_id : Z) (b : Bucket) d : Decoder E :=
  with_buckets d (<[bucket_id := b]> (buckets_ d)).

Definition CreateBucket (bucket_id : Z) d : Bucket * Decoder E :=
  match GetBucket bucket_id d with
  | Some b => (b, d)
  | None => (new_Bucket, set_bucket bucket_id new_Bucket d)
  end.

(** *** Handlers *)

Definition HandleNoop (args : Noop) d : outcome (Error * Decoder E) :=
  Done (kNoError, d).

Definition HandleSetToken (args : SetToken) d : outcome (Error * Decoder E) :=
  Done (kNoError, with_engine d (set_token (i32 (SetToken_token args)) (engine d))).

Definition HandleJump (args : Jump) d : outcome (Error * Decoder E) :=
  let '(ok, e) := engine_SetGetOffset (i32 (Jump_offset args)) (engine d) in
  Done (if ok then kNoError else kInvalidArguments, with_engine d e).

Definition HandleJumpRelative (args : JumpRelative) d : outcome (Error * Decoder E) :=
  let '(ok, e) := engine_SetGetOffset
    (i32 (GetGetOffset (engine d) + JumpRelative_offset args)) (engine d) in
  Done (if ok then kNoError else kInvalidArguments, with_engine d e).

Definition HandleCall (args : Call) d : outcome (Error * Decoder E) :=
  let '(ok, d) := PushAddress (Call_offset args) d in
  Done (if ok then kNoError else kInvalidArguments, d).

Definition HandleCallRelative (args : CallRelative) d : outcome (Error * Decoder E) :=
  let '(ok, d) := PushAddress
    (u32 (GetGetOffset (engine d) + CallRelative_offset args)) d in
  Done (if ok then kNoError else kInvalidArguments, d).

Definition HandleReturn (args : Return) d : outcome (Error * Decoder E) :=
  match call_stack_ d with
  | [] => Done (kInvalidArguments, d)
  | return_address :: rest =>
      let d := with_call_stack d rest in
      let '(ok, e) := engine_SetGetOffset (i32 return_address) (engine d) in
      Done (if ok then kNoError else kInvalidArguments, with_engine d e)
  end.

Definition HandleSetBucketSize (args : SetBucketSize) d : outcome (Error * Decoder E) :=
  let bucket_id := SetBucketSize_bucket_id args in
  let size := SetBucketSize_size args in
  let '(bucket, d) := CreateBucket bucket_id d in
  Done (kNoError, set_bucket bucket_id (SetSize size bucket) d).

Definition HandleSetBucketData (args : SetBucketData) d : outcome (Error * Decoder E) :=
  let bucket_id := SetBucketData_bucket_id args in
  let offset := SetBucketData_offset args in
  let size := SetBucketData_size args in
  match GetAddressAndCheckSize (SetBucketData_shared_memory_id args)
          (SetBucketData_shared_memory_offset args) size d with
  | None => Done (kInvalidArguments, d)
  | Some data =>
      match GetBucket bucket_id d with
      | None => Done (kInvalidArguments, d)
      | Some bucket =>
          (do (ok, bucket) <- SetData (mem_read d data) offset size bucket ;;
           if negb ok then Done (kInvalidArguments, d)
           else Done (kNoError, set_bucket bucket_id bucket d))%gpu
      end
  end.

(** The immediate data are the bytes of the ring buffer after the struct. *)
Definition HandleSetBucketDataImmediate (immediate_data_size : Z)
    (args : SetBucketDataImmediate) (cmd_data : list Z) d
    : outcome (Error * Decoder E) :=
  let data := zread (words_to_bytes (drop 4 cmd_data)) 0 in
  let bucket_id := SetBucketDataImmediate_bucket_id args in
  let offset := SetBucketDataImmediate_offset args in
  let size := SetBucketDataImmediate_size args in
  if size >? immediate_data_size then Done (kInvalidArguments, d)
  else
    match GetBucket bucket_id d with
    | None => Done (kInvalidArguments, d)
    | Some bucket =>
        (do (ok, bucket) <- SetData data offset size bucket ;;
         if negb ok then Done (kInvalidArguments, d)
         else Done (kNoError, set_bucket bucket_id bucket d))%gpu
    end.

Definition HandleGetBucketSize (args : GetBucketSize) d : outcome (Error * Decoder E) :=
  let bucket_id := GetBucketSize_bucket_id args in
  match GetAddressAndCheckSize (GetBucketSize_shared_memory_id args)
          (GetBucketSize_shared_memory_offset args) 4 d with
  | None => Done (kInvalidArguments, d)
  | Some data =>
      (do result <- of_option (mem_read d data 4) ;;
       if negb (le_word result =? 0) then Done (kInvalidArguments, d)
       else
         match GetBucket bucket_id d with
         | None => Done (kInvalidArguments, d)
         | Some bucket =>
             do d <- of_option (mem_write d data (le_bytes 4 (u32 (size_ bucket)))) ;;
             Done (kNoError, d)
         end)%gpu
  end.

Definition HandleGetBucketData (args : GetBucketData) d : outcome (Error * Decoder E) :=
  let bucket_id := GetBucketData_bucket_id args in
  let offset := GetBucketData_offset args in
  let size := GetBucketData_size args in
  match GetAddressAndCheckSize (GetBucketData_shared_memory_id args)
          (GetBucketData_shared_memory_offset args) size d with
  | None => Done (kInvalidArguments, d)
  | Some data =>
      match GetBucket bucket_id d with
      | None => Done (kInvalidArguments, d)
      | Some bucket =>
          match GetData offset size bucket, data_ bucket with
          | Some o, Some bytes =>
              (do src <- of_option (zread bytes o size) ;;
               do d <- of_option (mem_write d data src) ;;
               Done (kNoError, d))%gpu
          | _, _ => Done (kInvalidArguments, d)
          end
      end
  end.

(** The [switch]: the struct is read from the entries at the command. *)
Definition dispatch (c : CommandId) (immediate_data_size : Z) (cmd_data : list Z) d
    : outcome (Error * Decoder E) :=
  (match c with
   | kNoop => do args <- of_option (cmd_read cmd_data) ;; HandleNoop args d
   | kSetToken => do args <- of_option (cmd_read cmd_data) ;; HandleSetToken args d
   | kJump => do args <- of_option (cmd_read cmd_data) ;; HandleJump args d
   | kJumpRelative =>
       do args <- of_option (cmd_read cmd_data) ;; HandleJumpRelative args d
   | kCall => do args <- of_option (cmd_read cmd_data) ;; HandleCall args d
   | kCallRelative =>
       do args <- of_option (cmd_read cmd_data) ;; HandleCallRelative args d
   | kReturn => do args <- of_option (cmd_read cmd_data) ;; HandleReturn args d
   | kSetBucketSize =>
       do args <- of_option (cmd_read cmd_data) ;; HandleSetBucketSize args d
   | kSetBucketData =>
       do args <- of_option (cmd_read cmd_data) ;; HandleSetBucketData args d
   | kSetBucketDataImmediate =>
       do args <- of_option (cmd_read cmd_data) ;;
       HandleSetBucketDataImmediate immediate_data_size args cmd_data d
   | kGetBucketSize =>
       do args <- of_option (cmd_read cmd_data) ;; HandleGetBucketSize args d
   | kGetBucketData =>
       do args <- of_option (cmd_read cmd_data) ;; HandleGetBucketData args d
   end)%gpu.

(** A command that is not in the table reaches the call of [DoCommonCommand] to
    itself, with the same arguments: hence the fuel. *)
Fixpoint DoCommonCommand (fuel : nat) (command arg_count : Z) (cmd_data : list Z) d
    : outcome (Error * Decoder E) :=
  match fuel with
  | O => Fuel
  | S fuel =>
      match all_ids !! Z.to_nat command with
      | Some c =>
          let '(arg_flags, info_arg_count) := command_info c in
          if (bool_decide (arg_flags = kFixed) && (arg_count =? info_arg_count))
             || (bool_decide (arg_flags = kAtLeastN) && (arg_count >=? info_arg_count))
          then
            let immediate_data_size := u32 (u32 (arg_count - info_arg_count) * 4) in
            dispatch c immediate_data_size cmd_data d
          else Done (kInvalidArguments, d)
      | None => DoCommonCommand fuel command arg_count cmd_data d
      end
  end.

End decoder.

(** ** Invariant *)

Record bucket_ok (b : Bucket) : Prop := {
  bucket_size : is_u32 (size_ b);
  bucket_data :
    match data_ b with
    | Some bytes => zlen bytes = size_ b
    | None => size_ b = 0
    end;
}.

Record decoder_ok {E} `{CommandBufferEngine E} (engine_ok : E -> Prop)
    (engine_entries : E -> Z) (d : Decoder E) : Prop := {
  decoder_engine : engine_ok (engine d);
  decoder_buckets id b : buckets_ d !! id = Some b -> bucket_ok b;
  decoder_stack_depth : zlen (call_stack_ d) <= kMaxStackDepth;
  decoder_stack a : a ∈ call_stack_ d -> 0 <= a < engine_entries (engine d);
  (** every shared memory buffer is mapped, over its whole size *)
  decoder_memory id block :
    ptr (GetSharedMemoryBuffer (engine d) id) = Some block ->
    exists bytes, heap d !! block = Some bytes /\
      b_size (GetSharedMemoryBuffer (engine d) id) <= zlen bytes;
}.

(** The outcome of a handler: it is defined, and it keeps the invariant. *)
Definition good {E} `{CommandBufferEngine E} (engine_ok : E -> Prop)
    (engine_entries : E -> Z) (m : outcome (Error * Decoder E)) : Prop :=
  exists e d', m = Done (e, d') /\ decoder_ok engine_ok engine_entries d'.

(** How a command can move the engine. *)
Inductive engine_move {E} `{CommandBufferEngine E} (e : E) : E -> Prop :=
| move_none : engine_move e e
| move_token t : engine_move e (set_token t e)
| move_get o : engine_move e (snd (engine_SetGetOffset o e)).

(** ** Lemmas on buckets *)

Section bucket_lemmas.
Context `{Platform}.

Lemma OffsetSizeValid_spec offset size b :
  is_u32 offset -> is_u32 size -> is_u32 (size_ b) ->
  OffsetSizeValid offset size b = (offset + size <=? size_ b).
Proof.
  intros Ho Hs Hb. unfold OffsetSizeValid.
  pose proof (u32_is_usize _ Ho). pose proof (u32_is_usize _ Hs).
  pose proof (u32_is_usize _ Hb).
  unfold is_u32 in *. destruct (usize_add_cases offset size) as [[? ->]|[? ->]]; lia.
Qed.

Lemma new_Bucket_ok : bucket_ok new_Bucket.
Proof. by split. Qed.

Lemma SetSize_ok size b : is_u32 size -> bucket_ok b -> bucket_ok (SetSize size b).
Proof.
  intros Hs [? ?]. unfold SetSize. destruct (size =? size_ b); [done|].
  split; [done|]. simpl. destruct (Z.eqb_spec size 0); [done|].
  apply zlen_replicate. unfold is_u32 in Hs. lia.
Qed.

Lemma SetSize_size size b : size_ (SetSize size b) = size.
Proof. unfold SetSize. by destruct (Z.eqb_spec size (size_ b)). Qed.

(** [SetData] is the bounded copy its comment promises. *)
Lemma SetData_spec src offset size b :
  is_u32 offset -> is_u32 size -> bucket_ok b ->
  (exists bytes, src size = Some bytes /\ zlen bytes = size) ->
  (size_ b < offset + size /\ SetData src offset size b = Done (false, b)) \/
  (offset + size <= size_ b /\ exists b',
     SetData src offset size b = Done (true, b') /\ bucket_ok b' /\
     size_ b' = size_ b /\
     match data_ b, src size with
     | Some d, Some bytes => exists d', data_ b' = Some d' /\ zwrite d offset bytes = Some d'
     | _, _ => b' = b
     end).
Proof.
  intros Ho Hs [Hsz Hd] (bytes & Hsrc & Hlen). unfold SetData.
  rewrite OffsetSizeValid_spec by done.
  destruct (Z.leb_spec (offset + size) (size_ b)); [right|by left].
  split; [done|]. rewrite Hsrc. cbn [of_option obind].
  unfold is_u32 in Ho, Hs. destruct (data_ b) as [dat|] eqn:Edat.
  - destruct (zwrite_Some dat bytes offset) as (d' & Hw & Hl); [lia|lia|].
    rewrite Hw. cbn [of_option obind]. eexists. split; [done|].
    split; [|by eauto]. split; [done|]. simpl. lia.
  - btrue (size =? 0). eexists. split; [done|]. split; [|done]. split; [done|].
    by rewrite Edat.
Qed.

Lemma GetData_spec offset size b :
  is_u32 offset -> is_u32 size -> bucket_ok b ->
  GetData offset size b =
    match data_ b with
    | Some _ => if offset + size <=? size_ b then Some offset else None
    | None => None
    end.
Proof.
  intros Ho Hs [Hsz Hd]. unfold GetData. rewrite OffsetSizeValid_spec by done.
  by destruct (data_ b), (_ <=? _).
Qed.

End bucket_lemmas.

#[export] Hint Resolve new_Bucket_ok SetSize_ok : gpu.

(** ** Lemmas on the decoder *)

Section decoder_lemmas.
Context `{Platform} {E : Type} `{CommandBufferEngine E}.
Context {engine_ok : E -> Prop} {engine_entries : E -> Z}
  `{!EngineLaws E engine_ok engine_entries}.
Implicit Types d : Decoder E.
Notation ok := (decoder_ok engine_ok engine_entries).
Notation good := (good engine_ok engine_entries).

(** The address check is exactly the absence of overflow and of overrun. *)
Lemma GetAddressAndCheckSize_spec id offset size d a :
  is_u32 offset -> is_u32 size -> ok d ->
  GetAddressAndCheckSize id offset size d = Some a ->
  exists bytes, heap d !! a.1 = Some bytes /\ a.2 = offset /\
    offset + size <= zlen bytes.
Proof.
  intros Ho Hs Hd. unfold GetAddressAndCheckSize.
  destruct (ptr _) as [block|] eqn:Ep; [|done].
  destruct (decoder_memory _ _ _ Hd _ _ Ep) as (bytes & Hb & Hlen).
  destruct (_ || _) eqn:Ec; [done|]. intros [= <-]. zbool. simpl.
  exists bytes. split_and!; [done..|].
  destruct (u32_add_cases offset size Ho Hs) as [[? E1]|[? E1]];
    rewrite E1 in *; unfold is_u32 in *; lia.
Qed.

Lemma mem_read_in d a bytes n :
  heap d !! a.1 = Some bytes -> 0 <= a.2 -> 0 <= n -> a.2 + n <= zlen bytes ->
  exists r, mem_read d a n = Some r /\ zlen r = n.
Proof. intros Hb ???. unfold mem_read. rewrite Hb. simpl. by apply zread_Some. Qed.

Lemma mem_write_in d a bytes src :
  ok d -> heap d !! a.1 = Some bytes -> 0 <= a.2 -> a.2 + zlen src <= zlen bytes ->
  exists d', mem_write d a src = Some d' /\ ok d' /\ engine d' = engine d.
Proof.
  intros Hd Hb Ha Hlen. unfold mem_write. rewrite Hb. simpl.
  destruct (zwrite_Some bytes src a.2) as (new & Hw & Hl); [done..|].
  rewrite Hw. simpl. eexists. split; [done|]. split; [|done].
  destruct Hd as [? ? ? ? Hm]. split; try done. simpl.
  intros id block Hp. destruct (Hm _ _ Hp) as (old & Hold & Hsz).
  destruct (decide (block = a.1)) as [->|Hne].
  - rewrite lookup_insert_eq. exists new. split; [done|]. naive_solver lia.
  - rewrite lookup_insert_ne by done. eauto.
Qed.

Lemma ok_engine d e :
  ok d -> engine_ok e -> engine_entries e = engine_entries (engine d) ->
  (forall id, GetSharedMemoryBuffer e id = GetSharedMemoryBuffer (engine d) id) ->
  ok (with_engine d e).
Proof.
  intros [? ? ? ? Hm] He Hn Hb. split; simpl; try done.
  - intros a. rewrite Hn. eauto.
  - intros id block. rewrite Hb. eauto.
Qed.

Lemma ok_bucket d id b : ok d -> bucket_ok b -> ok (set_bucket id b d).
Proof.
  intros [? Hbs ? ? ?] Hb. split; simpl; try done.
  intros id' b'. rewrite lookup_insert_Some. naive_solver.
Qed.

Lemma ok_SetGetOffset d o :
  ok d -> ok (with_engine d (snd (engine_SetGetOffset o (engine d)))).
Proof.
  intros Hd. apply ok_engine; [done| | |].
  - apply SetGetOffset_ok, Hd.
  - apply SetGetOffset_entries.
  - intros id. apply SetGetOffset_memory.
Qed.

Lemma ok_PushAddress d o : ok d -> ok (snd (PushAddress o d)).
Proof.
  intros Hd. unfold PushAddress. destruct (Z.ltb_spec (zlen (call_stack_ d)) kMaxStackDepth);
    [|done].
  destruct (engine_SetGetOffset (i32 o) (engine d)) as [r e] eqn:Es.
  pose proof (ok_SetGetOffset d (i32 o) Hd) as Hd'. rewrite Es in Hd'. simpl in Hd'.
  destruct r; [|done]. simpl.
  pose proof (SetGetOffset_entries (i32 o) (engine d)) as Hn. rewrite Es in Hn. simpl in Hn.
  destruct Hd' as [? ? ? Hs ?]. split; simpl in *; try done.
  - rewrite zlen_cons. lia.
  - intros a [->|Ha]%elem_of_cons; [|eauto]. rewrite Hn.
    pose proof (GetGetOffset_range _ (decoder_engine _ _ _ Hd)).
    pose proof (engine_entries_bound _ (decoder_engine _ _ _ Hd)).
    rewrite u32_id by (unfold is_u32; lia). done.
Qed.

Lemma ok_call_stack d rest a :
  ok d -> call_stack_ d = a :: rest -> ok (with_call_stack d rest).
Proof.
  intros [? ? Hl Hs ?] E1. rewrite E1 in *. split; simpl; try done.
  - rewrite zlen_cons in Hl. lia.
  - intros a' Ha'. apply Hs. set_solver.
Qed.

Lemma good_Done e d : ok d -> good (Done (e, d)).
Proof. unfold good. eauto. Qed.

Lemma good_SetData_handler src offset size id bucket d :
  ok d -> buckets_ d !! id = Some bucket -> is_u32 offset -> is_u32 size ->
  (exists bytes, src size = Some bytes /\ zlen bytes = size) ->
  good (do (r, bucket) <- SetData src offset size bucket ;;
        if negb r then Done (kInvalidArguments, d)
        else Done (kNoError, set_bucket id bucket d))%gpu.
Proof.
  intros Hd Hb Ho Hs Hsrc.
  destruct (SetData_spec src offset size bucket Ho Hs) as [[_ ->]|(_ & b' & -> & Hb' & _)];
    [by eapply decoder_buckets|done|..]; simpl.
  - by apply good_Done.
  - by apply good_Done, ok_bucket.
Qed.

Lemma GetAddress_read id offset size d a :
  is_u32 offset -> is_u32 size -> ok d ->
  GetAddressAndCheckSize id offset size d = Some a ->
  exists bytes, mem_read d a size = Some bytes /\ zlen bytes = size.
Proof.
  intros Ho Hs Hd Ha.
  destruct (GetAddressAndCheckSize_spec _ _ _ _ _ Ho Hs Hd Ha) as (bytes & Hm & E1 & Hl).
  unfold is_u32 in *. apply (mem_read_in d a bytes); [done|lia..].
Qed.

Lemma GetAddress_write id offset size d a src :
  is_u32 offset -> is_u32 size -> ok d -> zlen src = size ->
  GetAddressAndCheckSize id offset size d = Some a ->
  exists d', mem_write d a src = Some d' /\ ok d' /\ engine d' = engine d.
Proof.
  intros Ho Hs Hd Hsrc Ha.
  destruct (GetAddressAndCheckSize_spec _ _ _ _ _ Ho Hs Hd Ha) as (bytes & Hm & E1 & Hl).
  unfold is_u32 in *. apply (mem_write_in d a bytes); [done|done|lia..].
Qed.

(** *** The handlers, one by one *)

Lemma HandleSetToken_good args d : ok d -> good (HandleSetToken args d).
Proof.
  intros Hd. apply good_Done, ok_engine; [done| | |].
  - apply set_token_ok, Hd.
  - apply set_token_entries.
  - intros id. apply set_token_memory.
Qed.

Lemma SetGetOffset_good o d :
  ok d ->
  good (let '(r, e) := engine_SetGetOffset o (engine d) in
        Done (if r then kNoError else kInvalidArguments, with_engine d e)).
Proof.
  intros Hd. pose proof (ok_SetGetOffset d o Hd).
  destruct (engine_SetGetOffset o (engine d)). by apply good_Done.
Qed.

Lemma PushAddress_good o d :
  ok d ->
  good (let '(r, d) := PushAddress o d in
        Done (if r then kNoError else kInvalidArguments, d)).
Proof.
  intros Hd. pose proof (ok_PushAddress d o Hd).
  destruct (PushAddress o d). by apply good_Done.
Qed.

Lemma HandleReturn_good args d : ok d -> good (HandleReturn args d).
Proof.
  intros Hd. unfold HandleReturn. destruct (call_stack_ d) as [|a rest] eqn:E1.
  - by apply good_Done.
  - apply (SetGetOffset_good _ (with_call_stack d rest)). by eapply ok_call_stack.
Qed.

Lemma HandleSetBucketSize_good args d :
  is_u32 (SetBucketSize_size args) -> ok d -> good (HandleSetBucketSize args d).
Proof.
  intros Hs Hd. unfold HandleSetBucketSize, CreateBucket, GetBucket.
  destruct (buckets_ d !! _) as [b|] eqn:Eb; apply good_Done.
  - apply ok_bucket, SetSize_ok; [done..|]. by eapply decoder_buckets.
  - auto using ok_bucket, SetSize_ok, new_Bucket_ok.
Qed.

Lemma HandleSetBucketData_good args d :
  is_u32 (SetBucketData_offset args) -> is_u32 (SetBucketData_size args) ->
  is_u32 (SetBucketData_shared_memory_offset args) -> ok d ->
  good (HandleSetBucketData args d).
Proof.
  intros Ho Hs Hm Hd. unfold HandleSetBucketData, GetBucket.
  destruct (GetAddressAndCheckSize _ _ _ d) as [a|] eqn:Ea; [|by apply good_Done].
  destruct (buckets_ d !! _) as [b|] eqn:Eb; [|by apply good_Done].
  apply good_SetData_handler; try done. by eapply GetAddress_read.
Qed.

Lemma HandleSetBucketDataImmediate_good imm args cmd_data d :
  is_u32 (SetBucketDataImmediate_offset args) ->
  is_u32 (SetBucketDataImmediate_size args) ->
  imm <= 4 * zlen (drop 4 cmd_data) -> ok d ->
  good (HandleSetBucketDataImmediate imm args cmd_data d).
Proof.
  intros Ho Hs Hi Hd. unfold HandleSetBucketDataImmediate, GetBucket.
  destruct (_ >? imm) eqn:Ei; [by apply good_Done|]. zbool.
  destruct (buckets_ d !! _) as [b|] eqn:Eb; [|by apply good_Done].
  apply good_SetData_handler; try done. unfold is_u32 in Hs.
  apply zread_Some; [lia..|]. rewrite zlen_words_to_bytes. lia.
Qed.

Lemma HandleGetBucketSize_good args d :
  is_u32 (GetBucketSize_shared_memory_offset args) -> ok d ->
  good (HandleGetBucketSize args d).
Proof.
  intros Hm Hd. unfold HandleGetBucketSize, GetBucket.
  assert (H4 : is_u32 4) by by unfold is_u32.
  destruct (GetAddressAndCheckSize _ _ _ d) as [a|] eqn:Ea; [|by apply good_Done].
  destruct (GetAddress_read _ _ _ _ _ Hm H4 Hd Ea) as (r & -> & _).
  cbn [of_option obind]. destruct (negb _); [by apply good_Done|].
  destruct (buckets_ d !! _) as [b|] eqn:Eb; [|by apply good_Done].
  destruct (GetAddress_write _ _ 4 d a (le_bytes 4 (u32 (size_ b))) Hm
    H4 Hd (zlen_le_bytes _ _) Ea) as (d' & -> & Hd' & _).
  by apply good_Done.
Qed.

Lemma HandleGetBucketData_good args d :
  is_u32 (GetBucketData_offset args) -> is_u32 (GetBucketData_size args) ->
  is_u32 (GetBucketData_shared_memory_offset args) -> ok d ->
  good (HandleGetBucketData args d).
Proof.
  intros Ho Hs Hm Hd. unfold HandleGetBucketData, GetBucket.
  destruct (GetAddressAndCheckSize _ _ _ d) as [a|] eqn:Ea; [|by apply good_Done].
  destruct (buckets_ d !! _) as [b|] eqn:Eb; [|by apply good_Done].
  pose proof (decoder_buckets _ _ _ Hd _ _ Eb) as Hb.
  rewrite GetData_spec by done. destruct Hb as [Hbs Hbd].
  destruct (data_ b) as [bytes|]; [|by apply good_Done].
  destruct (Z.leb_spec (GetBucketData_offset args + GetBucketData_size args) (size_ b));
    [|by apply good_Done].
  unfold is_u32 in Ho, Hs.
  destruct (zread_Some bytes (GetBucketData_offset args) (GetBucketData_size args))
    as (src & -> & Hl); [lia..|]. simpl.
  destruct (GetAddress_write _ _ _ d a src Hm Hs Hd Hl Ea) as (d' & -> & Hd' & _).
  by apply good_Done.
Qed.

Lemma command_info_words c : 0 <= snd (command_info c) <= 5.
Proof. by destruct c. Qed.

(** Take the [k] words of a command that [n] arguments guarantee. *)
Tactic Notation "words" constr(n) hyp(l) hyp(Hw) integer(k) :=
  match goal with
  | Hn : _ <= ?c, Hlen : 1 + ?c <= _ |- _ =>
      let H := fresh in assert (H : n <= c) by exact Hn;
      do k (destruct l as [|? l]; [exfalso; simpl in Hlen; lia|]);
      do k (apply Forall_cons_1 in Hw as [? Hw]);
      cbn -[HandleSetToken HandleJump HandleJumpRelative HandleCall
            HandleCallRelative HandleReturn HandleSetBucketSize
            HandleSetBucketData HandleSetBucketDataImmediate HandleGetBucketSize
            HandleGetBucketData good]
  end.

(** The [switch] is defined on entries that hold the whole command. *)
Lemma dispatch_good c arg_count cmd_data d :
  ok d -> Forall is_u32 cmd_data ->
  snd (command_info c) <= arg_count -> 1 + arg_count <= zlen cmd_data ->
  good (dispatch c (u32 (u32 (arg_count - snd (command_info c)) * 4)) cmd_data d).
Proof.
  intros Hd Hw Hn Hlen. unfold zlen in Hlen. set (imm := u32 _).
  assert (Himm : imm <= 4 * (arg_count - snd (command_info c))).
  { unfold imm, u32. pose proof (command_info_words c).
    pose proof (Z.mod_le (arg_count - snd (command_info c)) (2 ^ 32)).
    etrans; [apply Z.mod_le; [|lia]|lia].
    pose proof (Z.mod_pos_bound (arg_count - snd (command_info c)) (2 ^ 32)). lia. }
  clearbody imm. destruct c; cbn [dispatch].
  - words 0 cmd_data Hw 1. by apply good_Done.
  - words 1 cmd_data Hw 2. by apply HandleSetToken_good.
  - words 1 cmd_data Hw 2. by apply SetGetOffset_good.
  - words 1 cmd_data Hw 2. by apply SetGetOffset_good.
  - words 1 cmd_data Hw 2. by apply PushAddress_good.
  - words 1 cmd_data Hw 2. by apply PushAddress_good.
  - words 0 cmd_data Hw 1. by apply HandleReturn_good.
  - words 2 cmd_data Hw 3. by apply HandleSetBucketSize_good.
  - words 5 cmd_data Hw 6. by apply HandleSetBucketData_good.
  - change (snd (command_info kSetBucketDataImmediate)) with 3 in *.
    words 3 cmd_data Hw 4. apply HandleSetBucketDataImmediate_good; try done.
    unfold zlen. cbn [length] in Hlen. cbn [drop]. rewrite drop_0. lia.
  - words 3 cmd_data Hw 4. by apply HandleGetBucketSize_good.
  - words 5 cmd_data Hw 6. by apply HandleGetBucketData_good.
Qed.

(** *** What the handlers do to the engine *)

Lemma mem_write_engine d a src d' : mem_write d a src = Some d' -> engine d' = engine d.
Proof.
  unfold mem_write. destruct (heap d !! a.1); simpl; [|done].
  destruct (zwrite _ _ _); simpl; [|done]. by intros [= <-].
Qed.

Lemma of_option_mem_write d a src d' :
  of_option (mem_write d a src) = Done d' -> engine d' = engine d.
Proof.
  destruct (mem_write d a src) eqn:E1; simpl; [|done]. intros [= <-].
  by eapply mem_write_engine.
Qed.

Lemma PushAddress_move o d r d' :
  PushAddress o d = (r, d') -> engine_move (engine d) (engine d').
Proof.
  unfold PushAddress. ztest; [|intros [= <- <-]; constructor].
  pose proof (move_get (engine d) (i32 o)) as Hm.
  destruct (engine_SetGetOffset _ _) as [[] e]; by intros [= <- <-].
Qed.

Lemma set_get_move o d r d' :
  (let '(r, e) := engine_SetGetOffset o (engine d) in
   Done (if r then kNoError else kInvalidArguments, with_engine d e)) = Done (r, d') ->
  engine_move (engine d) (engine d').
Proof.
  pose proof (move_get (engine d) o) as Hm.
  destruct (engine_SetGetOffset _ _) as [q e]. by intros [= _ <-].
Qed.

(** The handlers that leave the engine alone move it nowhere. *)
Ltac same_engine Hr :=
  orun Hr; simplify_eq/=;
  try match goal with
  | Hw : of_option (mem_write _ _ _) = Done _ |- _ =>
      apply of_option_mem_write in Hw; rewrite Hw
  end; constructor.

Lemma dispatch_move c imm cmd_data d r d' :
  dispatch c imm cmd_data d = Done (r, d') -> engine_move (engine d) (engine d').
Proof.
  intros Hr. destruct c; cbn [dispatch] in Hr;
    destruct (cmd_read cmd_data) as [args|]; cbn [of_option obind] in Hr; try discriminate Hr.
  - same_engine Hr.
  - same_engine Hr.
  - by apply set_get_move in Hr.
  - by apply set_get_move in Hr.
  - unfold HandleCall in Hr. orun Hr. by eapply PushAddress_move.
  - unfold HandleCallRelative in Hr. orun Hr. by eapply PushAddress_move.
  - unfold HandleReturn in Hr. destruct (call_stack_ d); [same_engine Hr|].
    by apply (set_get_move _ (with_call_stack d _)) in Hr.
  - unfold HandleSetBucketSize, CreateBucket in Hr.
    destruct (GetBucket _ d); same_engine Hr.
  - unfold HandleSetBucketData in Hr. same_engine Hr.
  - unfold HandleSetBucketDataImmediate in Hr. same_engine Hr.
  - unfold HandleGetBucketSize in Hr. same_engine Hr.
  - unfold HandleGetBucketData in Hr. same_engine Hr.
Qed.

Lemma DoCommonCommand_move fuel command arg_count cmd_data d r d' :
  DoCommonCommand fuel command arg_count cmd_data d = Done (r, d') ->
  engine_move (engine d) (engine d').
Proof.
  induction fuel as [|fuel IH]; cbn [DoCommonCommand]; [done|].
  destruct (all_ids !! Z.to_nat command) as [c|]; [|done].
  destruct (command_info c). destruct (_ || _).
  - apply dispatch_move.
  - intros [= _ <-]. constructor.
Qed.

Lemma all_ids_lookup command c : all_ids !! Z.to_nat command = Some c ->
  0 <= command -> command = id_num c.
Proof.
  intros Hl Hc. assert (Hn : (Z.to_nat command < 12)%nat)
    by (apply lookup_lt_Some in Hl; done).
  destruct (Z.to_nat command) as [|[|[|[|[|[|[|[|[|[|[|[|n]]]]]]]]]]]] eqn:En;
    simplify_eq/=; lia.
Qed.

Lemma all_ids_id c : all_ids !! Z.to_nat (id_num c) = Some c.
Proof. by destruct c. Qed.

(** Every call either answers, keeping the invariant, or is in the unbounded
    recursion of an unknown command. *)
Lemma DoCommonCommand_good fuel command arg_count cmd_data d c :
  ok d -> Forall is_u32 cmd_data -> all_ids !! Z.to_nat command = Some c ->
  1 + arg_count <= zlen cmd_data ->
  good (DoCommonCommand (S fuel) command arg_count cmd_data d).
Proof.
  intros Hd Hw Hc Hlen. cbn [DoCommonCommand]. rewrite Hc.
  destruct (command_info c) as [flags n] eqn:Ei.
  assert (Hn : n = snd (command_info c)) by by rewrite Ei.
  destruct (_ || _) eqn:Et; [|by apply good_Done].
  subst n. apply dispatch_good; try done. lia.
Qed.

Lemma DoCommonCommand_unknown fuel command arg_count cmd_data d :
  all_ids !! Z.to_nat command = None ->
  DoCommonCommand fuel command arg_count cmd_data d = Fuel.
Proof. intros Hc. induction fuel as [|fuel IH]; [done|]. simpl. by rewrite Hc. Qed.

Lemma all_ids_known command :
  0 <= command < kNumCommands -> exists c, all_ids !! Z.to_nat command = Some c.
Proof.
  intros Hc. destruct (all_ids !! Z.to_nat command) as [c|] eqn:E1; [by eauto|].
  apply lookup_ge_None in E1. simpl in E1. unfold kNumCommands in Hc. lia.
Qed.

(** ** Properties *)

(** The decoder is safe against a malicious client.  For a command of the
    table, whatever the entries that follow its header, [DoCommonCommand] makes
    no access outside the shared memory buffers, the buckets or the command, it
    returns (the call to itself is not reached), and it keeps the decoder's
    invariant: bucket sizes match their memory, and the call stack stays within
    its depth and holds only offsets inside the ring buffer. *)
Theorem DoCommonCommand_safe fuel command arg_count cmd_data d :
  ok d -> Forall is_u32 cmd_data -> 0 <= command < kNumCommands ->
  0 <= arg_count -> 1 + arg_count <= zlen cmd_data ->
  exists e d', DoCommonCommand (S fuel) command arg_count cmd_data d = Done (e, d')
    /\ ok d'.
Proof.
  intros Hd Hw Hc Ha Hlen. destruct (all_ids_known command Hc) as [c E1].
  by eapply DoCommonCommand_good.
Qed.

(** A command that is not in the table is not answered with
    [kUnknownCommand]: the function calls itself with the same arguments and
    never returns, however long it runs. *)
Theorem DoCommonCommand_unknown_diverges fuel command arg_count cmd_data d :
  kNumCommands <= command ->
  DoCommonCommand fuel command arg_count cmd_data d = Fuel.
Proof.
  intros Hc. apply DoCommonCommand_unknown, lookup_ge_None. simpl.
  unfold kNumCommands in Hc. lia.
Qed.

(** [Return] does not come back to the command after the [Call]: after a
    successful [Call] to any subroutine, [Return] moves the get offset to the
    [Call] command itself, and pops exactly what the [Call] pushed. *)
Theorem Call_Return_goes_back_to_the_call offset d d' :
  ok d -> PushAddress offset d = (true, d') ->
  exists d'', HandleReturn mkReturn d' = Done (kNoError, d'') /\
    GetGetOffset (engine d'') = GetGetOffset (engine d) /\
    call_stack_ d'' = call_stack_ d.
Proof.
  intros Hd. unfold PushAddress.
  destruct (Z.ltb_spec (zlen (call_stack_ d)) kMaxStackDepth); [|done].
  destruct (engine_SetGetOffset (i32 offset) (engine d)) as [r e] eqn:Es.
  destruct r; [|done]. intros [= <-]. unfold HandleReturn. simpl.
  pose proof (GetGetOffset_range _ (decoder_engine _ _ _ Hd)) as Hg.
  pose proof (engine_entries_bound _ (decoder_engine _ _ _ Hd)) as Hb.
  rewrite u32_id, i32_id by (unfold is_u32, is_i32; lia).
  pose proof (SetGetOffset_entries (i32 offset) (engine d)) as Hn.
  rewrite Es in Hn. simpl in Hn.
  set (g := GetGetOffset (engine d)) in *.
  pose proof (SetGetOffset_result g e) as Hr.
  pose proof (SetGetOffset_get g e) as Hget.
  destruct (engine_SetGetOffset g e) as [r2 e2]. simpl in *.
  assert (r2 = true) as -> by (rewrite Hr, Hn; lia).
  eexists. split_and!; [done|by apply Hget|done].
Qed.

(** [JumpRelative] is relative to the start of its own command, whereas its
    comment says it is relative to the end of the command. *)
Theorem JumpRelative_from_own_start offset d :
  ok d -> is_i32 offset ->
  0 <= GetGetOffset (engine d) + offset < engine_entries (engine d) ->
  exists d', HandleJumpRelative (mkJumpRelative offset) d = Done (kNoError, d') /\
    GetGetOffset (engine d') = GetGetOffset (engine d) + offset.
Proof.
  intros Hd Ho Hr. unfold HandleJumpRelative. simpl.
  pose proof (engine_entries_bound _ (decoder_engine _ _ _ Hd)) as Hb.
  rewrite i32_id by (unfold is_i32; lia).
  pose proof (SetGetOffset_result (GetGetOffset (engine d) + offset) (engine d)) as Hs.
  pose proof (SetGetOffset_get (GetGetOffset (engine d) + offset) (engine d)) as Hget.
  destruct (engine_SetGetOffset _ _) as [r e]. simpl in *.
  assert (r = true) as -> by (rewrite Hs; lia). eexists. split; [done|by apply Hget].
Qed.

End decoder_lemmas.

(** *** Strings and uploads through a bucket *)

(** A client that sends its data a piece at a time, each piece where the one
    before it ended. *)
Fixpoint upload `{Platform} (offset : Z) (chunks : list (list Z)) (b : Bucket)
    : outcome Bucket :=
  match chunks with
  | [] => Done b
  | c :: chunks =>
      (do (ok, b) <- SetData (zread c 0) offset (zlen c) b ;;
       if ok then upload (offset + zlen c) chunks b else UB)%gpu
  end.

Section bucket_properties.
Context `{Platform}.

Lemma zread_all (l : list Z) : zread l 0 (zlen l) = Some l.
Proof.
  rewrite zread_in by (pose proof (zlen_nonneg l); lia).
  rewrite drop_0, firstn_all2; [done|unfold zlen; lia].
Qed.

Lemma zwrite_all (l src : list Z) : zlen src = zlen l -> zwrite l 0 src = Some src.
Proof.
  intros Hl. rewrite zwrite_in by lia. unfold zlen in Hl.
  rewrite take_0, skipn_all2 by lia. by rewrite app_nil_r.
Qed.

(** A string put in a bucket is the string got from it, on any previous
    contents of the bucket, and no string is told from the empty string. *)
Theorem SetFromString_GetAsString str b :
  bucket_ok b -> (forall s, str = Some s -> zlen s + 1 < 2 ^ 32) ->
  exists b', SetFromString str b = Done b' /\ bucket_ok b' /\
    GetAsString b' = Done str.
Proof.
  intros Hb Hlen. destruct str as [s|]; simpl.
  - specialize (Hlen s eq_refl). pose proof (zlen_nonneg s) as Hpos.
    set (size := zlen s + 1) in *.
    assert (Hu : is_u32 size) by (unfold is_u32; lia).
    assert (Hsrc : zread (s ++ [0]) 0 size = Some (s ++ [0])).
    { rewrite <- (zread_all (s ++ [0])). f_equal. by rewrite zlen_app. }
    assert (Hl : zlen (s ++ [0]) = size) by by rewrite zlen_app.
    destruct (SetData_spec (zread (s ++ [0]) 0) 0 size (SetSize size b))
      as [[Hf _]|(_ & b' & -> & Hb' & Hsz & Hd)]; [done|done|by apply SetSize_ok|eauto|..].
    { rewrite SetSize_size in Hf. lia. }
    simpl. exists b'. split_and!; [done..|].
    rewrite SetSize_size in Hsz. rewrite Hsrc in Hd.
    pose proof (SetSize_ok size b Hu Hb) as [_ Hdat]. rewrite SetSize_size in Hdat.
    destruct (data_ (SetSize size b)) as [d|]; [|lia].
    destruct Hd as (d' & Hd' & Hw). rewrite zwrite_all in Hw by lia.
    injection Hw as <-. unfold GetAsString.
    rewrite GetData_spec, Hd', Hsz by (done || (unfold is_u32; lia)).
    bfalse (size =? 0). btrue (0 + (size - 1) <=? size).
    rewrite zread_in, drop_0 by lia. cbn [of_option obind]. do 2 f_equal.
    replace (Z.to_nat (size - 1)) with (length s) by (unfold size, zlen; lia).
    by rewrite take_app_length.
  - exists (SetSize 0 b). split_and!; [done|by apply SetSize_ok|].
    unfold GetAsString. by rewrite SetSize_size.
Qed.

Lemma upload_spec chunks offset pre post b :
  bucket_ok b -> offset = zlen pre ->
  data_ b = Some (pre ++ post) -> zlen post = zlen (concat chunks) ->
  exists b', upload offset chunks b = Done b' /\ bucket_ok b' /\
    data_ b' = Some (pre ++ concat chunks).
Proof.
  revert offset pre post b. induction chunks as [|c chunks IH]; intros offset pre post b.
  - intros Hb -> Hd Hl. exists b. split_and!; [done..|].
    destruct post as [|z post]; [exact Hd|].
    rewrite zlen_cons in Hl. pose proof (zlen_nonneg post). change (zlen (concat [])) with 0 in Hl. lia.
  - intros Hb -> Hd Hl. simpl concat in Hl. rewrite zlen_app in Hl.
    pose proof Hb as [Hsz Hdat]. rewrite Hd, zlen_app in Hdat. unfold is_u32 in Hsz.
    pose proof (zlen_nonneg pre). pose proof (zlen_nonneg c).
    pose proof (zlen_nonneg (concat chunks)).
    destruct (SetData_spec (zread c 0) (zlen pre) (zlen c) b)
      as [[Hf _]|(_ & b' & Hset & Hb' & Hsz' & Hd')];
      [unfold is_u32; lia|unfold is_u32; lia|done|rewrite zread_all; eauto|lia|].
    cbn [upload]. rewrite Hset. cbn [obind].
    rewrite Hd, zread_all in Hd'. destruct Hd' as (d' & Hd' & Hw).
    destruct (IH (zlen pre + zlen c) (pre ++ c) (drop (length c) post) b')
      as (b2 & Hup & Hb2 & Hd2); [done|by rewrite zlen_app| | |].
    + rewrite Hd'. f_equal. apply zwrite_inv in Hw as (_ & _ & ->).
      unfold zlen. rewrite Nat2Z.id, take_app_length, <- app_assoc. do 2 f_equal.
      by rewrite drop_app_add.
    + unfold zlen in *. rewrite length_drop. lia.
    + exists b2. rewrite Hd2. simpl. by rewrite app_assoc.
Qed.

(** A bucket collects data: setting its size and sending the data in any
    pieces, in order, leaves in the bucket exactly the concatenation of the
    pieces, and no piece is refused. *)
Theorem bucket_collects_chunks chunks b :
  bucket_ok b -> 0 < zlen (concat chunks) < 2 ^ 32 ->
  exists b', upload 0 chunks (SetSize (zlen (concat chunks)) b) = Done b' /\
    bucket_ok b' /\ data_ b' = Some (concat chunks).
Proof.
  intros Hb Hl. set (n := zlen (concat chunks)) in *.
  assert (Hok : bucket_ok (SetSize n b)) by (apply SetSize_ok; [unfold is_u32; lia|done]).
  pose proof Hok as [_ Hd]. rewrite SetSize_size in Hd.
  destruct (data_ (SetSize n b)) as [d|] eqn:Ed; [|lia].
  by apply (upload_spec chunks 0 [] d).
Qed.

End bucket_properties.

Lemma SetFromString_GetAsString_witness :
  exists b', SetFromString (Some [104; 105]) new_Bucket = Done b' /\ bucket_ok b' /\
    GetAsString b' = Done (Some [104; 105]).
Proof.
  apply SetFromString_GetAsString; [apply new_Bucket_ok|].
  intros s [= <-]. by vm_compute.
Defined.

Lemma bucket_collects_chunks_witness :
  exists b', upload 0 [[1; 2]; []; [3]] (SetSize 3 new_Bucket) = Done b' /\
    bucket_ok b' /\ data_ b' = Some [1; 2; 3].
Proof.
  apply (bucket_collects_chunks [[1; 2]; []; [3]] new_Bucket);
    [apply new_Bucket_ok|by vm_compute].
Defined.
