(* ===== verification/GpuScheduler.v ===== *)
(** * The GPU process

    [gpu/command_buffer/service/gpu_scheduler.cc]: the scheduler is the engine of
    the decoder and the callback of the command buffer service.  With it come
    [GLES2DecoderImpl::DoCommand] and [GetContextLostReason] of
    [gles2_cmd_decoder.cc], which tie the parser to the decoder of the common
    commands.  The world of the GPU process is one decoder whose engine is the
    scheduler, which holds the service and the parser. *)

From S2P Require Import Prelude CmdFormat CommandBufferService CmdParser CommonDecoder.
From Stdlib Require Import ZArith Lia ZifyBool Bool.
From stdpp Require Import base list gmap numbers option.
Local Open Scope Z_scope.

(** ** State *)

Record GpuScheduler := mkGpuScheduler {
  command_buffer_ : Service;
  parser_ : Parser;
  unscheduled_count_ : Z;
  scheduled_callback_ : bool;          (* the callbacks are set *)
  command_processed_callback_ : bool;
}.

Definition with_command_buffer (s : GpuScheduler) (c : Service) : GpuScheduler :=
  mkGpuScheduler c (parser_ s) (unscheduled_count_ s) (scheduled_callback_ s)
    (command_processed_callback_ s).
Definition with_parser_ (s : GpuScheduler) (p : Parser) : GpuScheduler :=
  mkGpuScheduler (command_buffer_ s) p (unscheduled_count_ s)
    (scheduled_callback_ s) (command_processed_callback_ s).
Definition with_unscheduled (s : GpuScheduler) (n : Z) : GpuScheduler :=
  mkGpuScheduler (command_buffer_ s) (parser_ s) n (scheduled_callback_ s)
    (command_processed_callback_ s).

(** The constructor.  [memory block] are the words of a memory block. *)
Definition GpuScheduler_new (memory : Z -> list Z) (c : Service)
    (given : option Parser) : GpuScheduler :=
  let p :=
    match given with
    | Some p => p
    | None =>
        match ptr (GetRingBuffer c) with
        | Some block =>
            CommandParser_new (memory block) 0 (b_size (GetRingBuffer c)) 0
        | None => CommandParser_new [] 0 0 0
        end
    end in
  mkGpuScheduler c p 0 false false.

(** ** The engine *)

Definition Scheduler_GetSharedMemoryBuffer (s : GpuScheduler) (shm_id : Z) : Buffer :=
  GetTransferBuffer shm_id (command_buffer_ s).

Definition Scheduler_set_token (t : Z) (s : GpuScheduler) : GpuScheduler :=
  with_command_buffer s (Service_SetToken t (command_buffer_ s)).

Definition Scheduler_SetGetOffset (offset : Z) (s : GpuScheduler)
    : bool * GpuScheduler :=
  let '(ok, p) := set_get offset (parser_ s) in
  if ok then
    let s := with_parser_ s p in
    (true, with_command_buffer s (SetGetOffset (get_ (parser_ s)) (command_buffer_ s)))
  else (false, s).

Definition Scheduler_GetGetOffset (s : GpuScheduler) : Z := get_ (parser_ s).

#[export] Instance GpuScheduler_engine : CommandBufferEngine GpuScheduler := {
  GetSharedMemoryBuffer := Scheduler_GetSharedMemoryBuffer;
  set_token := Scheduler_set_token;
  engine_SetGetOffset := Scheduler_SetGetOffset;
  GetGetOffset := Scheduler_GetGetOffset;
}.

(** ** The process *)

Record GpuProcess (G : Type) := mkGpuProcess {
  decoder : Decoder GpuScheduler;
  current_decoder_error_ : Error;
  reset_status_ : Z;
  gles2 : G;   (* the rest of the GLES2 decoder and the driver *)
}.
Arguments mkGpuProcess {G} _ _ _ _.
Arguments decoder {G} _.
Arguments current_decoder_error_ {G} _.
Arguments reset_status_ {G} _.
Arguments gles2 {G} _.

Definition with_decoder {G} (w : GpuProcess G) (d : Decoder GpuScheduler) : GpuProcess G :=
  mkGpuProcess d (current_decoder_error_ w) (reset_status_ w) (gles2 w).
Definition with_current_decoder_error {G} (w : GpuProcess G) (e : Error) : GpuProcess G :=
  mkGpuProcess (decoder w) e (reset_status_ w) (gles2 w).

Definition scheduler {G} (w : GpuProcess G) : GpuScheduler := engine (decoder w).
Definition set_scheduler {G} (w : GpuProcess G) (s : GpuScheduler) : GpuProcess G :=
  with_decoder w (with_engine (decoder w) s).

#[export] Instance GpuProcess_parser G : HasParser (GpuProcess G) := {
  parser w := parser_ (scheduler w);
  set_parser w p := set_scheduler w (with_parser_ (scheduler w) p);
}.

#[export] Instance GpuProcess_parser_laws G : HasParserLaws (GpuProcess G).
Proof. by split. Qed.

#[export] Instance GpuProcess_service G : HasService (GpuProcess G) := {
  service w := command_buffer_ (scheduler w);
  set_service w c := set_scheduler w (with_command_buffer (scheduler w) c);
}.

(** The GLES2 commands: their table [g_command_info] and their handlers, which
    call the driver. *)
Class GLES2Handlers (G : Type) := {
  g_command_info : list (ArgFlags * Z);
  gles2_Handle : Z -> Z -> list Z -> GpuProcess G -> outcome (Error * GpuProcess G);
}.

Definition kStartPoint : Z := 255.

Definition GL_NO_ERROR : Z := 0.
Definition GL_GUILTY_CONTEXT_RESET_ARB : Z := 33363.
Definition GL_INNOCENT_CONTEXT_RESET_ARB : Z := 33364.
Definition GL_UNKNOWN_CONTEXT_RESET_ARB : Z := 33365.

Definition GetContextLostReason {G} (w : GpuProcess G) : ContextLostReason :=
  if reset_status_ w =? GL_NO_ERROR then kUnknown
  else if reset_status_ w =? GL_GUILTY_CONTEXT_RESET_ARB then kGuilty
  else if reset_status_ w =? GL_INNOCENT_CONTEXT_RESET_ARB then kInnocent
  else kUnknown.

Section process.
Context `{Platform} {G : Type} `{GLES2Handlers G}.
Implicit Types w : GpuProcess G.

(** [DoCommonCommand] on the decoder inside the process; [depth] bounds its calls
    to itself. *)
Definition Process_DoCommonCommand (depth : nat) (command arg_count : Z)
    (cmd_data : list Z) w : outcome (Error * GpuProcess G) :=
  (do (e, d) <- DoCommonCommand depth command arg_count cmd_data (decoder w) ;;
   Done (e, with_decoder w d))%gpu.

(** [GLES2DecoderImpl::DoCommand], the debugging output apart. *)
Definition GLES2_DoCommand (depth : nat) (command arg_count : Z) (cmd_data : list Z) w
    : outcome (Error * GpuProcess G) :=
  let command_index := u32 (command - kStartPoint - 1) in
  (do (result, w) <-
     match (if command_index <? zlen (g_command_info (G := G))
            then g_command_info !! Z.to_nat command_index else None) with
     | Some (arg_flags, info_arg_count) =>
         if (bool_decide (arg_flags = kFixed) && (arg_count =? info_arg_count))
            || (bool_decide (arg_flags = kAtLeastN) && (arg_count >=? info_arg_count))
         then
           let immediate_data_size := u32 (u32 (arg_count - info_arg_count) * 4) in
           gles2_Handle command immediate_data_size cmd_data w
         else Done (kInvalidArguments, w)
     | None => Process_DoCommonCommand depth command arg_count cmd_data w
     end ;;
   if bool_decide (result = kNoError)
      && negb (bool_decide (current_decoder_error_ w = kNoError))
   then Done (current_decoder_error_ w, with_current_decoder_error w kNoError)
   else Done (result, w))%gpu.

Section scheduler.
Variable depth : nat.
Variable run_scheduled : GpuProcess G -> outcome (GpuProcess G).
Variable run_command_processed : GpuProcess G -> outcome (GpuProcess G).
Variable run_parse_error : GpuProcess G -> outcome (GpuProcess G).

#[local] Instance GLES2_API : AsyncAPIInterface (GpuProcess G) := GLES2_DoCommand depth.

Definition IsScheduled w : bool := unscheduled_count_ (scheduler w) =? 0.

Definition SetScheduled (scheduled : bool) w : outcome (GpuProcess G) :=
  let s := scheduler w in
  if scheduled then
    let w := set_scheduler w (with_unscheduled s (unscheduled_count_ s - 1)) in
    if IsScheduled w && scheduled_callback_ s then run_scheduled w else Done w
  else Done (set_scheduler w (with_unscheduled s (unscheduled_count_ s + 1))).

(** The loop of [PutChanged]. *)
Fixpoint PutChanged_loop (fuel : nat) w : outcome (GpuProcess G) :=
  if IsEmpty (parser w) then Done w
  else
    match fuel with
    | O => Fuel
    | S fuel =>
        (do (error, w) <- ProcessCommand w ;;
         let w := set_service w (SetGetOffset (get_ (parser w)) (service w)) in
         if IsError error then
           let w := set_service w
             (SetContextLostReason (GetContextLostReason w) (service w)) in
           SetParseError run_parse_error error w
         else
           do w <- (if command_processed_callback_ (scheduler w)
                    then run_command_processed w else Done w) ;;
           if unscheduled_count_ (scheduler w) >? 0 then Done w
           else PutChanged_loop fuel w)%gpu
    end.

Definition PutChanged (fuel : nat) w : outcome (GpuProcess G) :=
  let '(state, s) := GetState (service w) in
  let w := set_service w s in
  let w := set_parser w (set_put (s_put_offset state) (parser w)) in
  if negb (bool_decide (s_error state = kNoError)) then Done w
  else PutChanged_loop fuel w.

End scheduler.
End process.

(** ** Invariant *)

(** The parser walks the ring buffer the service announces, and the service only
    accepts put offsets up to its entry count. *)
Record scheduler_ok (s : GpuScheduler) : Prop := {
  sched_parser : parser_ok (parser_ s);
  sched_entries : entry_count_ (parser_ s) = num_entries (command_buffer_ s);
  sched_put : 0 <= put_offset (command_buffer_ s) <= num_entries (command_buffer_ s);
  sched_small : num_entries (command_buffer_ s) < 2 ^ 31;
}.

Definition scheduler_entries (s : GpuScheduler) : Z := entry_count_ (parser_ s).

Definition process_ok {G} (w : GpuProcess G) : Prop :=
  decoder_ok scheduler_ok scheduler_entries (decoder w).

(** The same with what is so of the rest of the decoder. *)
Definition process_good {G} (gles2_good : G -> Prop) (w : GpuProcess G) : Prop :=
  process_ok w /\ gles2_good (gles2 w).

(** What the GLES2 handlers promise, of the states of the decoder that are good: on a command
    whose entries lie whole in the ring buffer and that has the arguments of its table they
    make no access out of bounds, leave the parser alone and the state good. *)
Class GLES2Laws (G : Type) `{GLES2Handlers G} (gles2_good : G -> Prop) : Prop := {
  gles2_safe command arg_count flags n cmd_data w :
    process_good gles2_good w -> Forall is_u32 cmd_data -> 1 + arg_count <= zlen cmd_data ->
    g_command_info !! Z.to_nat (u32 (command - kStartPoint - 1)) = Some (flags, n) -> n <= arg_count ->
    safe (gles2_Handle command (u32 (u32 (arg_count - n) * 4)) cmd_data w);
  gles2_ok command arg_count flags n cmd_data w e w' :
    process_good gles2_good w -> Forall is_u32 cmd_data -> 1 + arg_count <= zlen cmd_data ->
    g_command_info !! Z.to_nat (u32 (command - kStartPoint - 1)) = Some (flags, n) -> n <= arg_count ->
    gles2_Handle command (u32 (u32 (arg_count - n) * 4)) cmd_data w = Done (e, w') ->
    process_good gles2_good w' /\ parser w' = parser w;
}.

Definition with_buffer_ (p : Parser) (ws : list Z) : Parser :=
  mkParser (get_ p) (put_ p) ws (entry_count_ p).

(** A host callback may do anything but disturb the command stream. *)
Definition callback_ok {G} (gles2_good : G -> Prop) (f : GpuProcess G -> outcome (GpuProcess G)) : Prop :=
  forall w, process_good gles2_good w -> safe (f w) /\ forall w', f w = Done w' ->
    process_good gles2_good w' /\ parser w' = parser w /\
    error (service w') = error (service w) /\
    get_offset (service w') = get_offset (service w).

(** What can happen to the GPU process.  The client is not trusted: at any point
    between two commands it may write anything in the ring buffer and in the
    memory it shares, and ask for any flush or transfer buffer. *)
Inductive gpu_step `{Platform} {G} `{GLES2Handlers G} (depth : nat)
    (run_scheduled run_command_processed run_parse_error :
      GpuProcess G -> outcome (GpuProcess G)) (w : GpuProcess G) : GpuProcess G -> Prop :=
| client_writes_ring ws :
    zlen ws = zlen (buffer_ (parser w)) -> Forall is_u32 ws ->
    gpu_step depth run_scheduled run_command_processed run_parse_error w
      (set_parser w (with_buffer_ (parser w) ws))
| client_writes_memory block old new :
    heap (decoder w) !! block = Some old -> zlen new = zlen old ->
    gpu_step depth run_scheduled run_command_processed run_parse_error w
      (with_decoder w (with_heap (decoder w) (<[block := new]> (heap (decoder w)))))
| client_flushes put fuel w' :
    Flush (PutChanged depth run_command_processed run_parse_error fuel) put w = Done w' ->
    gpu_step depth run_scheduled run_command_processed run_parse_error w w'
| client_registers os size id_request h s bytes :
    RegisterTransferBuffer os size id_request (service w) = (h, s) ->
    heap (decoder w) !! map_memory os = Some bytes -> size <= zlen bytes ->
    gpu_step depth run_scheduled run_command_processed run_parse_error w (set_service w s)
| client_destroys h :
    gpu_step depth run_scheduled run_command_processed run_parse_error w
      (set_service w (DestroyTransferBuffer h (service w)))
| service_processes e w' :
    ProcessCommand (H0 := GLES2_API depth) w = Done (e, w') ->
    gpu_step depth run_scheduled run_command_processed run_parse_error w w'
| host_schedules scheduled w' :
    SetScheduled run_scheduled scheduled w = Done w' ->
    gpu_step depth run_scheduled run_command_processed run_parse_error w w'.

(** ** Lemmas *)

#[export] Instance GpuScheduler_laws :
  EngineLaws GpuScheduler scheduler_ok scheduler_entries.
Proof.
  split.
  - intros t e [? ? ? ?]. by split.
  - done.
  - done.
  - done.
  - intros o e. simpl. unfold Scheduler_SetGetOffset, set_get, scheduler_entries.
    rewrite Z.geb_leb. by destruct (_ && _).
  - intros o e. simpl. unfold Scheduler_SetGetOffset. by destruct (set_get _ _) as [[] ?].
  - intros o e. simpl. unfold Scheduler_SetGetOffset, set_get. by destruct (_ && _).
  - intros o e [Hp ? ? ?]. simpl. unfold Scheduler_SetGetOffset, set_get.
    destruct (_ && _) eqn:E; [|by split]. split; try done. simpl.
    apply with_get_ok; [done|lia].
  - intros o e. simpl. unfold Scheduler_SetGetOffset, set_get. by destruct (_ && _).
  - intros o e id. simpl. unfold Scheduler_SetGetOffset, set_get. by destruct (_ && _).
  - intros e [[? ? ? ?] ? ? ?]. done.
  - intros e [? E ? ?]. unfold scheduler_entries. by rewrite E.
Qed.

Lemma with_get_id p : with_get_ p (get_ p) = p.
Proof. by destruct p. Qed.

(** A move of the engine moves at most the get offset of the parser. *)
Lemma engine_move_parser s s' :
  engine_move s s' ->
  exists g, parser_ s' = with_get_ (parser_ s) g /\
    (g = get_ (parser_ s) \/ 0 <= g < entry_count_ (parser_ s)).
Proof.
  intros [|t|o]; simpl.
  - exists (get_ (parser_ s)). rewrite with_get_id. auto.
  - exists (get_ (parser_ s)). rewrite with_get_id. auto.
  - unfold Scheduler_SetGetOffset, set_get. destruct (_ && _) eqn:E; simpl.
    + exists o. split; [done|lia].
    + exists (get_ (parser_ s)). rewrite with_get_id. auto.
Qed.

Section process_lemmas.
Context `{Platform} {G : Type} `{!GLES2Handlers G} (gles2_good : G -> Prop) `{!GLES2Laws G gles2_good}.
Implicit Types w : GpuProcess G.
Notation process_good := (process_good gles2_good).

Lemma Process_DoCommonCommand_spec depth command arg_count cmd_data w :
  process_ok w -> Forall is_u32 cmd_data -> 1 + arg_count <= zlen cmd_data ->
  safe (Process_DoCommonCommand depth command arg_count cmd_data w) /\
  forall e w', Process_DoCommonCommand depth command arg_count cmd_data w = Done (e, w') ->
    process_ok w' /\ engine_move (scheduler w) (scheduler w').
Proof.
  intros Hw Hu Hlen. unfold Process_DoCommonCommand.
  destruct (DoCommonCommand depth _ _ _ _) as [[e d]| |] eqn:E; simpl; [|exfalso|done].
  - split; [done|]. intros e' w' [= <- <-].
    split; [|by eapply DoCommonCommand_move].
    destruct depth as [|depth]; [done|].
    destruct (all_ids !! Z.to_nat command) as [c|] eqn:Ec.
    + destruct (DoCommonCommand_good depth command arg_count cmd_data (decoder w) c)
        as (e2 & d2 & E2 & Hd); try done. unfold process_ok. simpl. congruence.
    + rewrite DoCommonCommand_unknown in E by done. done.
  - destruct depth as [|depth]; [done|].
    destruct (all_ids !! Z.to_nat command) as [c|] eqn:Ec.
    + destruct (DoCommonCommand_good depth command arg_count cmd_data (decoder w) c)
        as (e2 & d2 & E2 & Hd); try done. congruence.
    + rewrite DoCommonCommand_unknown in E by done. done.
Qed.

Lemma Process_DoCommonCommand_gles2 depth command arg_count cmd_data w e w' :
  gles2_good (gles2 w) -> Process_DoCommonCommand depth command arg_count cmd_data w = Done (e, w') ->
  gles2_good (gles2 w').
Proof.
  intros Hg. unfold Process_DoCommonCommand. destruct (DoCommonCommand _ _ _ _ _) as [[e' d]| |]; [|done..].
  by intros [= _ <-].
Qed.

Lemma GLES2_DoCommand_spec depth command arg_count cmd_data w :
  process_good w -> Forall is_u32 cmd_data -> 1 + arg_count <= zlen cmd_data ->
  safe (GLES2_DoCommand depth command arg_count cmd_data w) /\
  forall e w', GLES2_DoCommand depth command arg_count cmd_data w = Done (e, w') ->
    process_good w' /\ exists g, parser w' = with_get_ (parser w) g /\
      (g = get_ (parser w) \/ 0 <= g < entry_count_ (parser w)).
Proof.
  intros Hw Hu Hlen. unfold GLES2_DoCommand.
  match goal with |- safe (obind ?x _) /\ _ => set (m := x) end.
  assert (Hm : safe m /\ forall e w', m = Done (e, w') ->
    process_good w' /\ exists g, parser w' = with_get_ (parser w) g /\
      (g = get_ (parser w) \/ 0 <= g < entry_count_ (parser w))).
  { unfold m. destruct (if _ <? _ then _ else _) as [[fl n]|] eqn:Ei.
    - assert (Hi : g_command_info !! Z.to_nat (u32 (command - kStartPoint - 1)) = Some (fl, n))
        by (destruct (_ <? _); [exact Ei|done]).
      destruct (_ || _) eqn:Ea.
      + assert (n <= arg_count) by lia.
        split; [by eapply gles2_safe|]. intros e w' E.
        destruct (gles2_ok _ _ _ _ _ _ _ _ Hw Hu Hlen Hi ltac:(done) E) as [Hw' Hp]. split; [done|].
        exists (get_ (parser w)). rewrite with_get_id. auto.
      + split; [done|]. intros e w' [= <- <-]. split; [done|].
        exists (get_ (parser w)). rewrite with_get_id. auto.
    - destruct (Process_DoCommonCommand_spec depth command arg_count cmd_data w)
        as [Hs Hd]; [apply Hw|done..|]. split; [done|]. intros e w' E. destruct (Hd e w' E) as [Hw' Hv].
      split; [split; [done|]|by apply engine_move_parser]. exact (Process_DoCommonCommand_gles2 _ _ _ _ _ _ _ (proj2 Hw) E). }
  destruct Hm as [Hs Hd]. destruct m as [[e w']| |]; simpl; [|done..].
  destruct (Hd e w' eq_refl) as [Hw' Hg].
  destruct (_ && _); (split; [done|]); by intros ? ? [= <- <-].
Qed.

Lemma GLES2_API_laws depth :
  AsyncAPILaws (GpuProcess G) (H0 := GLES2_API depth) process_good.
Proof.
  split; intros; by eapply GLES2_DoCommand_spec.
Qed.

Lemma process_set_service w c :
  process_ok w -> num_entries c = num_entries (service w) ->
  registered_objects c = registered_objects (service w) ->
  0 <= put_offset c <= num_entries c ->
  process_ok (set_service w c).
Proof.
  intros Hw Hn Hr Hp. destruct (decoder_engine _ _ _ Hw) as [? ? ? ?].
  apply ok_engine; [done| |done|].
  - unfold scheduler in *. split; simpl in *; unfold scheduler in *; try done; lia.
  - intros id. simpl. unfold Scheduler_GetSharedMemoryBuffer, GetTransferBuffer.
    simpl. by rewrite Hr.
Qed.

Lemma process_set_parser w p :
  process_ok w -> parser_ok p -> entry_count_ p = entry_count_ (parser w) ->
  process_ok (set_parser w p).
Proof.
  intros Hw Hp Hn. destruct (decoder_engine _ _ _ Hw) as [? ? ? ?].
  apply ok_engine; [done| |done|done]. unfold scheduler in *.
  split; simpl in *; unfold scheduler in *; try done; lia.
Qed.

Lemma callback_ok_Done : callback_ok gles2_good Done.
Proof. intros w Hw. split; [done|]. by intros w' [= <-]. Qed.

Context (depth : nat) (run_command_processed run_parse_error :
  GpuProcess G -> outcome (GpuProcess G)).
Context (processed_ok : callback_ok gles2_good run_command_processed)
  (parse_error_ok : callback_ok gles2_good run_parse_error).
Notation PutChanged_loop := (PutChanged_loop depth run_command_processed run_parse_error).
Notation PutChanged := (PutChanged depth run_command_processed run_parse_error).

Lemma service_put_ok w :
  process_ok w -> 0 <= put_offset (service w) <= num_entries (service w).
Proof. intros Hw. apply (decoder_engine _ _ _ Hw). Qed.

Lemma good_put_ok w :
  process_good w -> 0 <= put_offset (service w) <= num_entries (service w).
Proof. intros [Hw _]. by apply service_put_ok. Qed.

Lemma good_set_service w c :
  process_good w -> num_entries c = num_entries (service w) ->
  registered_objects c = registered_objects (service w) ->
  0 <= put_offset c <= num_entries c ->
  process_good (set_service w c).
Proof. intros [Hw Hg] ???. split; [by apply process_set_service|exact Hg]. Qed.

Lemma good_set_parser w p :
  process_good w -> parser_ok p -> entry_count_ p = entry_count_ (parser w) ->
  process_good (set_parser w p).
Proof. intros [Hw Hg] ??. split; [by apply process_set_parser|exact Hg]. Qed.

Lemma Process_command_step w :
  process_good w ->
  safe (ProcessCommand (H0 := GLES2_API depth) w) /\
  forall e w', ProcessCommand (H0 := GLES2_API depth) w = Done (e, w') ->
    process_good w' /\ put_ (parser w') = put_ (parser w) /\
    buffer_ (parser w') = buffer_ (parser w).
Proof.
  intros Hw.
  destruct (ProcessCommand_step (AsyncAPILaws0 := GLES2_API_laws depth)) with (w := w) as [Hs Hd].
  - intros w1 g Hw1 Hg. apply good_set_parser; try done.
    apply with_get_ok; [apply (decoder_engine _ _ _ (proj1 Hw1))|done].
  - done.
  - apply (decoder_engine _ _ _ (proj1 Hw)).
  - split; [done|]. intros e w' E. by destruct (Hd e w' E) as (? & ? & ? & ?).
Qed.

Lemma SetParseError_step e w :
  process_good w -> e <> kNoError ->
  safe (SetParseError run_parse_error e w) /\
  forall w', SetParseError run_parse_error e w = Done w' ->
    process_good w' /\ parser w' = parser w /\ error (service w') <> kNoError /\
    get_offset (service w') = get_offset (service w).
Proof.
  intros Hw He. unfold SetParseError. case_decide as E0.
  - set (w1 := set_service w _).
    assert (Hw1 : process_good w1).
    { apply good_set_service; try done. by apply good_put_ok. }
    destruct (parse_error_callback _).
    + destruct (parse_error_ok w1 Hw1) as [Hs Hd]. split; [done|].
      intros w' (? & -> & -> & ->)%Hd. done.
    + split; [done|]. by intros w' [= <-].
  - split; [done|]. by intros w' [= <-].
Qed.

Lemma PutChanged_loop_spec fuel w :
  process_good w ->
  safe (PutChanged_loop fuel w) /\
  forall w', PutChanged_loop fuel w = Done w' ->
    process_good w' /\
    (get_offset (service w) = get_ (parser w) ->
     get_offset (service w') = get_ (parser w')) /\
    (IsEmpty (parser w') = true \/ error (service w') <> kNoError \/
     0 < unscheduled_count_ (scheduler w')).
Proof.
  revert w. induction fuel as [|fuel IH]; intros w Hw; cbn [GpuScheduler.PutChanged_loop];
    destruct (IsEmpty (parser w)) eqn:E0.
  1, 3: split; [done|]; intros w' [= <-]; auto.
  { done. }
  destruct (Process_command_step w Hw) as [Hs Hd].
  destruct (ProcessCommand (H0 := GLES2_API depth) w) as [[e w1]| |];
    cbn [obind]; [|done..].
  destruct (Hd e w1 eq_refl) as (Hw1 & _).
  set (w2 := set_service w1 _).
  assert (Hw2 : process_good w2).
  { apply good_set_service; try done. by apply good_put_ok. }
  assert (Hget : get_offset (service w2) = get_ (parser w2)) by done.
  clearbody w2. destruct (IsError e) eqn:Ee.
  - set (w3 := set_service w2 _).
    assert (Hw3 : process_good w3).
    { apply good_set_service; try done. by apply good_put_ok. }
    destruct (SetParseError_step e w3 Hw3) as [Hs3 Hd3]; [by destruct e|].
    split; [done|]. intros w' (? & -> & ? & ->)%Hd3. auto.
  - set (m := if command_processed_callback_ _ then _ else _).
    assert (Hm : safe m /\ forall w', m = Done w' ->
      process_good w' /\ get_offset (service w') = get_ (parser w')).
    { unfold m. destruct (command_processed_callback_ _).
      - destruct (processed_ok w2 Hw2) as [Hs3 Hd3]. split; [done|].
        intros w' (? & -> & _ & ->)%Hd3. done.
      - split; [done|]. by intros w' [= <-]. }
    destruct Hm as [Hsm Hdm]. destruct m as [w3| |]; cbn [obind]; [|done..].
    destruct (Hdm w3 eq_refl) as [Hw3 Hget3]. destruct (_ >? 0) eqn:Eu.
    + split; [done|]. intros w' [= <-]. zbool. auto.
    + destruct (IH w3 Hw3) as [Hs4 Hd4]. split; [done|].
      intros w' (? & ? & ?)%Hd4. auto.
Qed.

Lemma PutChanged_spec fuel w :
  process_good w ->
  safe (PutChanged fuel w) /\
  forall w', PutChanged fuel w = Done w' ->
    process_good w' /\
    (get_offset (service w) = get_ (parser w) ->
     get_offset (service w') = get_ (parser w')) /\
    (IsEmpty (parser w') = true \/ error (service w') <> kNoError \/
     0 < unscheduled_count_ (scheduler w')).
Proof.
  intros Hw. unfold GpuScheduler.PutChanged. destruct (GetState _) as [st s'] eqn:Es.
  injection Es as <- <-. set (w1 := set_service w _). set (w2 := set_parser w1 _).
  assert (Hw1 : process_good w1).
  { apply good_set_service; try done. by apply good_put_ok. }
  assert (Hw2 : process_good w2).
  { destruct (decoder_engine _ _ _ (proj1 Hw1)) as [[? ? ? ?] Hn Hp ?].
    apply good_set_parser; [done| |done]. split; try done.
    rewrite <- Hn in Hp. exact Hp. }
  cbn [s_error]. destruct (bool_decide _) eqn:Ee; cbn [negb].
  - by apply (PutChanged_loop_spec fuel w2).
  - split; [done|]. intros w' [= <-]. split_and!; try done.
    right. left. by apply bool_decide_eq_false in Ee.
Qed.

Lemma process_registry w c :
  process_ok w -> num_entries c = num_entries (service w) ->
  put_offset c = put_offset (service w) ->
  (forall b block, b ∈ registered_objects c -> ptr b = Some block ->
     b ∈ registered_objects (service w) \/
     exists bytes, heap (decoder w) !! block = Some bytes /\ b_size b <= zlen bytes) ->
  process_ok (set_service w c).
Proof.
  intros Hw Hn Hput Hobj. destruct Hw as [[? ? ? ?] Hbs Hd Hst Hmem].
  split; simpl in *; try done.
  - unfold scheduler. split; simpl; try done; simpl in *; rewrite ?Hn, ?Hput; done.
  - intros id block Hb. unfold Scheduler_GetSharedMemoryBuffer in *. simpl in *.
    destruct (GetTransferBuffer_elem id c _ eq_refl) as [E|Hin].
    { rewrite E in Hb. done. }
    destruct (Hobj _ block Hin Hb) as [Hold|Hnew]; [|done].
    destruct (elem_GetTransferBuffer _ _ Hold) as [id' E].
    rewrite <- E in Hb |- *. by apply Hmem.
Qed.

Lemma good_registry w c :
  process_good w -> num_entries c = num_entries (service w) ->
  put_offset c = put_offset (service w) ->
  (forall b block, b ∈ registered_objects c -> ptr b = Some block ->
     b ∈ registered_objects (service w) \/
     exists bytes, heap (decoder w) !! block = Some bytes /\ b_size b <= zlen bytes) ->
  process_good (set_service w c).
Proof. intros [Hw Hg] ???. split; [by apply process_registry|exact Hg]. Qed.

Lemma RegisterTransferBuffer_fields os size id s h s' :
  RegisterTransferBuffer os size id s = (h, s') ->
  num_entries s' = num_entries s /\ put_offset s' = put_offset s.
Proof.
  unfold RegisterTransferBuffer. repeat (ztest; [intros [= <- <-]; by auto|]).
  destruct (register_object _ _ _ _) as [[h' objs'] u']. by intros [= <- <-].
Qed.

Lemma DestroyTransferBuffer_fields h s :
  num_entries (DestroyTransferBuffer h s) = num_entries s /\
  put_offset (DestroyTransferBuffer h s) = put_offset s.
Proof.
  unfold DestroyTransferBuffer. repeat (ztest; [done|]).
  by destruct (shrink_rev _ _).
Qed.

Lemma Flush_spec fuel put w :
  process_good w ->
  safe (Flush (PutChanged fuel) put w) /\
  forall w', Flush (PutChanged fuel) put w = Done w' -> process_good w'.
Proof.
  intros Hw. unfold Flush. destruct (_ || _) eqn:E.
  - split; [done|]. intros w' [= <-]. apply good_set_service; try done.
    by apply good_put_ok.
  - set (w1 := set_service w _). assert (Hw1 : process_good w1).
    { apply good_set_service; try done. simpl in *. lia. }
    destruct (put_offset_change_callback _).
    + destruct (PutChanged_spec fuel w1 Hw1) as [Hs Hd]. split; [done|].
      by intros w' [? _]%Hd.
    + split; [done|]. by intros w' [= <-].
Qed.

Lemma SetScheduled_spec run_scheduled b w w' :
  callback_ok gles2_good run_scheduled -> process_good w ->
  SetScheduled run_scheduled b w = Done w' -> process_good w'.
Proof.
  intros Hrun Hw. unfold SetScheduled.
  assert (Hn : forall n, process_good (set_scheduler w (with_unscheduled (scheduler w) n))).
  { intros n. destruct Hw as [Hw Hg]. destruct (decoder_engine _ _ _ Hw) as [? ? ? ?].
    split; [by apply ok_engine|exact Hg]. }
  destruct b; [|by intros [= <-]]. destruct (_ && _).
  - intros E. by apply (proj2 (Hrun _ (Hn _))) in E as [? _].
  - by intros [= <-].
Qed.

Context (run_scheduled : GpuProcess G -> outcome (GpuProcess G)).
Context (scheduled_ok : callback_ok gles2_good run_scheduled).
Notation gpu_step := (gpu_step depth run_scheduled run_command_processed run_parse_error).

Lemma gpu_step_ok w w' : gpu_step w w' -> process_good w -> process_good w'.
Proof.
  intros Hstep Hw. destruct Hstep as
    [ws Hl Hu|block old new Ho Hl|put fuel w' E|os size id h c bytes E Hb Hl|h|e w' E|b w' E].
  - destruct (sched_parser _ (decoder_engine _ _ _ (proj1 Hw))) as [? ? ? ?].
    apply good_set_parser; [done| |done]. split; try done.
    simpl in *. unfold scheduler in *. lia.
  - destruct Hw as [[He Hbs Hd Hst Hmem] Hg]. split; [|exact Hg]. split; try done. simpl.
    intros id b (bytes & Hbytes & Hsz)%Hmem. destruct (decide (b = block)) as [->|Hne].
    + rewrite lookup_insert_eq. exists new. split; [done|]. rewrite Ho in Hbytes. simplify_eq. simpl in *. lia.
    + rewrite lookup_insert_ne by done. eauto.
  - by eapply Flush_spec.
  - destruct (RegisterTransferBuffer_fields _ _ _ _ _ _ E).
    apply good_registry; [done..|]. intros b block Hin Hptr.
    destruct (RegisterTransferBuffer_elem _ _ _ _ _ _ _ E Hin) as [?|[->| ->]];
      simplify_eq/=; eauto.
  - destruct (DestroyTransferBuffer_fields h (service w)).
    apply good_registry; [done..|]. intros b block Hin Hptr.
    destruct (DestroyTransferBuffer_elem _ _ _ Hin) as [?| ->]; by auto.
  - by eapply Process_command_step.
  - by eapply SetScheduled_spec.
Qed.

Lemma gpu_steps_ok w w' : steps gpu_step w w' -> process_good w -> process_good w'.
Proof. induction 1; eauto using gpu_step_ok. Qed.

End process_lemmas.

(** *** A process at its start *)

(** The words of a memory block of [bytes] bytes. *)
Definition fresh_block (bytes : Z) : list Z := replicate (Z.to_nat (bytes / 4)) 0.

(** The process around a service whose ring buffer has been set up. *)
Definition start_process {G} (memory : Z -> list Z) (c : Service) (g : G) : GpuProcess G :=
  mkGpuProcess
    (mkDecoder (GpuScheduler_new memory (SetPutOffsetChangeCallback true c) None) ∅ [] ∅)
    kNoError GL_NO_ERROR g.

Lemma start_process_ok {G} memory os size (g : G) c :
  Initialize true os size CommandBufferService_new = (true, c) -> 4 <= size ->
  size / 4 <= zlen (memory (map_memory os)) -> Forall is_u32 (memory (map_memory os)) ->
  process_ok (start_process memory c g).
Proof.
  unfold Initialize, Initialize_shared. simpl.
  destruct (_ || _) eqn:E1; [done|]. destruct (share_ok os); [|done].
  destruct (map_ok os); [|done]. simpl. intros [= <-] Hs Hm Hu.
  unfold kMaxCommandBufferSize in *. zbool.
  assert (1 <= size / 4) by (apply Z.div_le_lower_bound; lia).
  assert (size / 4 < 2 ^ 31) by (apply Z.div_lt_upper_bound; lia).
  split; simpl; try done.
  - split; simpl; try done; [|lia].
    split; simpl; rewrite ?drop_0; try done; lia.
  - set_solver.
  - intros id block. unfold Scheduler_GetSharedMemoryBuffer, GetTransferBuffer. simpl.
    repeat ztest; simpl; try done.
    destruct (_ !! _) as [b|] eqn:Eb; simpl; [|done].
    apply list_elem_of_lookup_2, list_elem_of_singleton in Eb. by subst.
Qed.

(** A process without GLES2 commands, for examples. *)
#[export] Instance no_gles2 : GLES2Handlers unit :=
  {| g_command_info := []; gles2_Handle _ _ _ w := Done (kNoError, w) |}.

#[export] Instance no_gles2_laws : GLES2Laws unit (fun _ => True).
Proof. split; [done|]. by intros. Qed.

(** A process whose ring buffer holds the words [ws]. *)
Definition example_service (size : Z) : Service :=
  snd (Initialize true (mkMapResult true true 1 2) size CommandBufferService_new).
Definition example_process (ws : list Z) : GpuProcess unit :=
  start_process (fun _ => ws) (example_service (4 * zlen ws)) tt.

Lemma example_process_ok ws :
  (1 <=? zlen ws) && (zlen ws <? 2 ^ 20) && all_u32 ws = true ->
  process_ok (example_process ws).
Proof.
  intros [Hl Hu%all_u32_ok]%andb_prop. apply start_process_ok with (mkMapResult true true 1 2) (4 * zlen ws).
  - unfold example_service, Initialize. simpl. unfold kMaxCommandBufferSize.
    by bfalse ((4 * zlen ws <=? 0) || (4 * zlen ws >? 4 * 1024 * 1024)).
  - lia.
  - rewrite Z.mul_comm, Z.div_mul by lia. simpl. lia.
  - done.
Qed.

Lemma PutChanged_loop_UB `{Platform} {G} `{!GLES2Handlers G} depth rc rp fuel
    (w : GpuProcess G) :
  IsEmpty (parser w) = false -> zget (buffer_ (parser w)) (get_ (parser w)) = None ->
  PutChanged_loop depth rc rp (S fuel) w = UB.
Proof.
  intros E Hz. cbn [PutChanged_loop]. rewrite E. unfold ProcessCommand, IsEmpty in *.
  rewrite (Z.eqb_sym (get_ _)), E. by rewrite Hz.
Qed.

(** *** A ring of [Noop]s *)

Definition noop_word : Z := header_word (CommandHeader_Init (id_num kNoop) 1).

Lemma noop_header : value_header noop_word = mkHeader 1 (id_num kNoop).
Proof. reflexivity. Qed.

Section noops.
Context `{Platform} {G : Type} `{!GLES2Handlers G}.
Implicit Types w : GpuProcess G.
Hypothesis small_table : zlen (g_command_info (G := G)) < 2 ^ 31.

Lemma DoCommand_noop depth data w :
  1 <= zlen data -> current_decoder_error_ w = kNoError ->
  GLES2_DoCommand (S depth) (id_num kNoop) 0 data w = Done (kNoError, w).
Proof.
  intros Hl He. unfold GLES2_DoCommand. simpl id_num.
  change (u32 (0 - kStartPoint - 1)) with 4294967040.
  bfalse (4294967040 <? zlen (g_command_info (G := G))).
  unfold Process_DoCommonCommand. cbn [DoCommonCommand].
  change (all_ids !! Z.to_nat 0) with (Some kNoop). cbn [command_info].
  change (_ || _) with true. cbn [dispatch].
  destruct data as [|x data]; [done|]. simpl. rewrite He. by destruct w as [[] ? ? ?].
Qed.

(** Nothing stops the loop on a ring that holds only [Noop]s when [put_] is past
    its last entry. *)
Lemma PutChanged_loop_noops depth rc rp fuel w :
  (forall i, 0 <= i < entry_count_ (parser w) -> zget (buffer_ (parser w)) i = Some noop_word) ->
  0 <= get_ (parser w) < entry_count_ (parser w) ->
  put_ (parser w) = entry_count_ (parser w) ->
  current_decoder_error_ w = kNoError ->
  command_processed_callback_ (scheduler w) = false ->
  unscheduled_count_ (scheduler w) = 0 ->
  PutChanged_loop (S depth) rc rp fuel w = Fuel.
Proof.
  revert w. induction fuel as [|fuel IH]; intros w Hn Hg Hp He Hc Hu;
    cbn [PutChanged_loop]; unfold IsEmpty; bfalse (put_ (parser w) =? get_ (parser w)).
  { done. }
  unfold ProcessCommand. bfalse (get_ (parser w) =? put_ (parser w)).
  pose proof (zget_range _ _ _ (Hn _ Hg)) as Hlen.
  rewrite Hn by done. cbn [of_option obind]. rewrite noop_header. cbn [h_size h_command].
  bfalse (1 + get_ (parser w) >? entry_count_ (parser w)). cbn [Z.eqb].
  unfold DoCommand, GLES2_API. change (1 - 1) with 0.
  rewrite DoCommand_noop; [|rewrite zlen_drop; lia|done].
  cbn [obind IsError]. rewrite Z.eqb_refl. simpl.
  rewrite Hc. simpl. rewrite Hu. simpl. apply IH; try done.
  apply Z.mod_pos_bound. simpl in *. lia.
Qed.

End noops.

(** ** Properties *)

(** Memory safety of the GPU process, given that of its GLES2 commands.  From a
    process started on a real ring buffer, after any sequence of writes of the
    client to the ring buffer and to shared memory, of flushes, transfer buffer
    registrations and destructions, processed commands and (un)schedulings,
    the next command and the next flush make no access outside the ring buffer,
    the shared memory buffers and the buckets. *)
Lemma reachable_safe `{Platform} {G} `{!GLES2Handlers G} (gles2_good : G -> Prop) `{!GLES2Laws G gles2_good}
    depth rs rc rp memory os size (g : G) c w :
  callback_ok gles2_good rs -> callback_ok gles2_good rc -> callback_ok gles2_good rp ->
  Initialize true os size CommandBufferService_new = (true, c) -> 4 <= size ->
  size / 4 <= zlen (memory (map_memory os)) -> Forall is_u32 (memory (map_memory os)) -> gles2_good g ->
  steps (gpu_step depth rs rc rp) (start_process memory c g) w ->
  process_good gles2_good w /\
  safe (ProcessCommand (H0 := GLES2_API depth) w) /\
  forall fuel put, safe (Flush (PutChanged depth rc rp fuel) put w).
Proof.
  intros Hrs Hrc Hrp Hi Hs Hm Hu Hg Hst.
  assert (Hw : process_good gles2_good w).
  { eapply gpu_steps_ok; [exact _|exact Hrc|exact Hrp|exact Hrs|exact Hst|].
    split; [by eapply start_process_ok|exact Hg]. }
  split; [done|]. split; [by eapply Process_command_step|].
  intros fuel put. by apply (Flush_spec gles2_good).
Qed.

(** What a put-offset change achieves, on any ring contents.  [PutChanged]
    keeps the invariant and publishes the parser's get offset, and it gives up
    the commands up to the put offset for two reasons only: an error, which the
    service then records, or a command that unscheduled the process. *)
Theorem PutChanged_outcome `{Platform} {G} `{!GLES2Handlers G} (gles2_good : G -> Prop) `{!GLES2Laws G gles2_good}
    depth rc rp fuel (w w' : GpuProcess G) :
  callback_ok gles2_good rc -> callback_ok gles2_good rp -> process_good gles2_good w ->
  PutChanged depth rc rp fuel w = Done w' ->
  process_good gles2_good w' /\
  (get_offset (service w) = get_ (parser w) ->
   get_offset (service w') = get_ (parser w')) /\
  (IsEmpty (parser w') = true \/ error (service w') <> kNoError \/
   0 < unscheduled_count_ (scheduler w')).
Proof. intros Hrc Hrp Hw. by apply PutChanged_spec. Qed.

Lemma PutChanged_outcome_witness :
  let w := set_service (example_process (SetToken_Init 5 ++ replicate 14 0))
             (with_put (example_service 64) 2) in
  exists w', PutChanged 1 Done Done 3 w = Done w' /\
    token (service w') = 5 /\
    process_good (fun _ => True) w' /\
    (get_offset (service w) = get_ (parser w) ->
     get_offset (service w') = get_ (parser w')) /\
    (IsEmpty (parser w') = true \/ error (service w') <> kNoError \/
     0 < unscheduled_count_ (scheduler w')).
Proof.
  intros w.
  assert (Ht : match PutChanged 1 Done Done 3 w with
               | Done w' => token (service w') | _ => 0 end = 5) by (vm_compute; done).
  destruct (PutChanged 1 Done Done 3 w) as [w'| |] eqn:E; [|done..].
  exists w'. split; [done|]. split; [exact Ht|].
  apply (PutChanged_outcome (fun _ => True) 1 Done Done 3 w);
    [apply callback_ok_Done|apply callback_ok_Done| |exact E].
  split; [|done]. apply (process_set_service (example_process (SetToken_Init 5 ++ replicate 14 0))
           (with_put (example_service 64) 2)); [|reflexivity|reflexivity|vm_compute; done].
  apply example_process_ok. vm_compute. reflexivity.
Defined.

(** The bound check of [Flush] lets one value too many through.  The put
    offset equal to the entry count is accepted although no get offset can reach
    it: over a ring of [Noop]s the flush then never returns. *)
Theorem put_at_end_never_returns `{Platform} {G} `{!GLES2Handlers G}
    depth rc rp fuel (w : GpuProcess G) :
  zlen (g_command_info (G := G)) < 2 ^ 31 ->
  process_ok w -> error (service w) = kNoError ->
  put_offset_change_callback (service w) = true ->
  current_decoder_error_ w = kNoError ->
  command_processed_callback_ (scheduler w) = false ->
  unscheduled_count_ (scheduler w) = 0 ->
  (forall i, 0 <= i < num_entries (service w) ->
     zget (buffer_ (parser w)) i = Some noop_word) ->
  Flush (PutChanged (S depth) rc rp fuel) (num_entries (service w)) w = Fuel.
Proof.
  intros Ht Hw Herr Hcb He Hc Hu Hn. unfold Flush.
  destruct (decoder_engine _ _ _ Hw) as [[? ? ? ?] Hcount ? ?].
  pose proof (service_put_ok w Hw).
  bfalse ((num_entries (service w) <? 0)
          || (num_entries (service w) >? num_entries (service w))).
  simpl. simpl in Hcb, Herr. rewrite Hcb. unfold PutChanged. simpl. rewrite Herr. simpl.
  apply PutChanged_loop_noops; try done.
  intros i Hi. apply Hn. change (num_entries (service w)) with
    (num_entries (command_buffer_ (engine (decoder w)))). rewrite <- Hcount. exact Hi.
Qed.

Lemma put_at_end_never_returns_witness :
  Flush (PutChanged 1 Done Done 1000) 4
    (example_process (replicate 4 noop_word)) = Fuel.
Proof.
  refine (put_at_end_never_returns 0 Done Done 1000 (example_process (replicate 4 noop_word))
    _ _ eq_refl eq_refl eq_refl eq_refl eq_refl _).
  - reflexivity.
  - apply example_process_ok. vm_compute. reflexivity.
  - intros i Hi. change (0 <= i < 4) in Hi. unfold zget. btrue (0 <=? i).
    change (replicate 4 noop_word !! Z.to_nat i = Some noop_word).
    apply lookup_replicate_2. lia.
Defined.

(** When the shared memory for the ring buffer could not be created,
    [Initialize] still answers [true], the scheduler is built over a null ring
    buffer, and the first flush the service accepts dereferences it. *)
Theorem Initialize_without_memory_crashes `{Platform} {G} `{!GLES2Handlers G}
    depth rc rp fuel memory os size put (g : G) :
  4 <= size <= kMaxCommandBufferSize -> 0 < put <= size / 4 ->
  exists c, Initialize false os size CommandBufferService_new = (true, c) /\
    Flush (PutChanged depth rc rp (S fuel)) put (start_process memory c g) = UB.
Proof.
  intros Hs Hp. unfold Initialize. simpl.
  bfalse ((size <=? 0) || (size >? kMaxCommandBufferSize)). eexists. split; [done|].
  unfold Flush. simpl. bfalse ((put <? 0) || (put >? size / 4)).
  unfold PutChanged. cbn [GetState bool_decide s_error negb]. simpl bool_decide.
  cbn [negb]. apply PutChanged_loop_UB; [|done]. unfold IsEmpty. simpl. lia.
Qed.

Lemma Initialize_without_memory_crashes_witness :
  exists c, Initialize false (mkMapResult true true 1 2) 1024 CommandBufferService_new
              = (true, c) /\
    Flush (PutChanged 1 Done Done 1) 2 (start_process (fun _ => []) c tt) = UB.
Proof.
  apply (Initialize_without_memory_crashes 1 Done Done 0 (fun _ => [])
           (mkMapResult true true 1 2) 1024 2 tt);
    [unfold kMaxCommandBufferSize; lia|split; [lia|discriminate]].
Defined.

(** *** The properties of the parser and of the decoder, in this process *)

Lemma ProcessCommand_in_bounds_witness :
  let w := example_process (Jump_Init 3 ++ [0; 0]) in
  safe (ProcessCommand (H0 := GLES2_API 1) w) /\
  forall e w', ProcessCommand (H0 := GLES2_API 1) w = Done (e, w') ->
    process_good (fun _ => True) w' /\ parser_ok (parser w') /\ put_ (parser w') = put_ (parser w) /\
    buffer_ (parser w') = buffer_ (parser w).
Proof.
  intros w.
  assert (Hw : process_ok w) by (apply example_process_ok; vm_compute; reflexivity).
  apply (ProcessCommand_in_bounds (AsyncAPILaws0 := GLES2_API_laws (fun _ => True) 1)).
  - intros w1 g Hw1 Hg. apply good_set_parser; [done| |done].
    apply with_get_ok; [apply (decoder_engine _ _ _ (proj1 Hw1))|done].
  - by split.
  - apply (decoder_engine _ _ _ Hw).
Defined.

Lemma ProcessAllCommands_in_bounds_witness :
  let w := example_process (Jump_Init 3 ++ [0; 0]) in
  safe (ProcessAllCommands (H0 := GLES2_API 1) 9 w) /\
  forall e w', ProcessAllCommands (H0 := GLES2_API 1) 9 w = Done (e, w') ->
    process_good (fun _ => True) w' /\ parser_ok (parser w') /\
    (e = kNoError -> get_ (parser w') = put_ (parser w)).
Proof.
  intros w.
  assert (Hw : process_ok w) by (apply example_process_ok; vm_compute; reflexivity).
  apply (ProcessAllCommands_in_bounds (AsyncAPILaws0 := GLES2_API_laws (fun _ => True) 1)).
  - intros w1 g Hw1 Hg. apply good_set_parser; [done| |done].
    apply with_get_ok; [apply (decoder_engine _ _ _ (proj1 Hw1))|done].
  - by split.
  - apply (decoder_engine _ _ _ Hw).
Defined.

Lemma DoCommonCommand_safe_witness :
  let d := decoder (example_process [0; 0; 0; 0]) in
  exists e d', DoCommonCommand 1 (id_num kSetBucketSize) 2 (SetBucketSize_Init 7 100) d
      = Done (e, d') /\ decoder_ok scheduler_ok scheduler_entries d'.
Proof.
  intros d. apply (DoCommonCommand_safe 0 (id_num kSetBucketSize) 2 _ d).
  - apply (example_process_ok [0; 0; 0; 0]). reflexivity.
  - apply all_u32_ok. reflexivity.
  - split; [discriminate|reflexivity].
  - lia.
  - vm_compute. discriminate.
Defined.

Lemma DoCommonCommand_unknown_diverges_witness :
  DoCommonCommand 1000 12 0 [0] (decoder (example_process [0])) = Fuel.
Proof.
  apply (DoCommonCommand_unknown_diverges 1000 12 0 [0]).
  unfold kNumCommands. lia.
Defined.

Lemma Call_Return_goes_back_to_the_call_witness :
  let d := decoder (example_process [0; 0; 0; 0]) in
  let d' := snd (PushAddress 2 d) in
  exists d'', HandleReturn mkReturn d' = Done (kNoError, d'') /\
    GetGetOffset (engine d'') = GetGetOffset (engine d) /\
    call_stack_ d'' = call_stack_ d.
Proof.
  intros d d'. apply (Call_Return_goes_back_to_the_call 2 d d').
  - apply (example_process_ok [0; 0; 0; 0]). reflexivity.
  - reflexivity.
Defined.

Lemma JumpRelative_from_own_start_witness :
  let d := decoder (example_process [0; 0; 0; 0]) in
  exists d', HandleJumpRelative (mkJumpRelative 3) d = Done (kNoError, d') /\
    GetGetOffset (engine d') = GetGetOffset (engine d) + 3.
Proof.
  intros d. apply (JumpRelative_from_own_start 3 d).
  - apply (example_process_ok [0; 0; 0; 0]). reflexivity.
  - unfold is_i32. lia.
  - split; [discriminate|reflexivity].
Defined.
