(* ===== verification/RingProtocol.v ===== *)
(** * What the two ends of the ring buffer agree on

    The queue of commands between the get and the put offset, as a layout of the
    ring buffer: commands one after the other, and at most one [Jump] back to
    entry zero.  The client's helper extends the layout, the service's parser
    consumes it. *)

From S2P Require Import Prelude CmdFormat.
From Stdlib Require Import ZArith Lia ZifyBool Bool.
From stdpp Require Import base list numbers option.
Local Open Scope Z_scope.

(** ** Commands in the ring buffer *)

Record Command := mkCommand { c_id : Z; c_args : list Z }.

Definition command_size (c : Command) : Z := 1 + zlen (c_args c).

Definition encode (c : Command) : list Z :=
  header_word (CommandHeader_Init (c_id c) (command_size c)) :: c_args c.

(** A command that fits its header and does not move the get offset itself. *)
Definition plain (c : Command) : Prop :=
  0 <= c_id c < 2 ^ 11 /\ command_size c < 2 ^ 21 /\ Forall is_u32 (c_args c) /\
  ~ (id_num kJump <= c_id c <= id_num kReturn).

(** The words of the [Jump] by which the helper wraps. *)
Definition jump_home : list Z := [header_word (CommandHeader_Init (id_num kJump) 2); 0].

Inductive slot := Cmd (c : Command) | Home.

Definition commands (l : list slot) : list Command :=
  omap (fun s => match s with Cmd c => Some c | Home => None end) l.

Definition slot_words (s : slot) : list Z :=
  match s with Cmd c => encode c | Home => jump_home end.

(** Where the slot after a slot at [g] is. *)
Definition slot_next (g : Z) (s : slot) : Z :=
  match s with Cmd c => g + command_size c | Home => 0 end.

(** The words [ws] are in the ring at [g]. *)
Definition holds (ring : list Z) (g : Z) (ws : list Z) : Prop :=
  zread ring g (zlen ws) = Some ws.

(** [l] lies in the ring from [g] to [p], no slot starts past [usable], and the
    commands are [allowed]. *)
Fixpoint layout (allowed : Command -> Prop) (usable : Z) (ring : list Z) (g : Z)
    (l : list slot) (p : Z) : Prop :=
  match l with
  | [] => g = p
  | s :: l =>
      g <= usable /\ holds ring g (slot_words s) /\
      match s with Cmd c => allowed c | Home => True end /\
      layout allowed usable ring (slot_next g s) l p
  end.

(** A queue that goes round at most once and never reaches its own start. *)
Fixpoint homes (l : list slot) : Z :=
  match l with
  | [] => 0
  | Cmd _ :: l => homes l
  | Home :: l => 1 + homes l
  end.

Definition queue (allowed : Command -> Prop) (usable : Z) (ring : list Z) (g : Z)
    (l : list slot) (p : Z) : Prop :=
  layout allowed usable ring g l p /\ 0 <= g <= usable /\ 0 <= p <= usable /\
  (homes l = 0 \/ homes l = 1 /\ p < g).

(** *** Tokens *)

(** The token that a command sets, and the one a list of commands leaves. *)
Definition as_token (c : Command) : option Z :=
  if c_id c =? id_num kSetToken then
    match c_args c with [t] => Some (i32 t) | _ => None end
  else None.

Definition token_after (t : Z) (cs : list Command) : Z :=
  fold_left (fun t c => default t (as_token c)) cs t.

Definition token_command (t : Z) : Command := mkCommand (id_num kSetToken) [u32 t].

(** Every token is greater than the ones before it. *)
Fixpoint tokens_increase (t : Z) (cs : list Command) : Prop :=
  match cs with
  | [] => True
  | c :: cs =>
      match as_token c with
      | Some t' => t < t' /\ tokens_increase t' cs
      | None => tokens_increase t cs
      end
  end.

(** ** Lemmas *)

Lemma token_after_app t cs1 cs2 :
  token_after t (cs1 ++ cs2) = token_after (token_after t cs1) cs2.
Proof. apply fold_left_app. Qed.

Lemma tokens_increase_app t cs1 cs2 :
  tokens_increase t (cs1 ++ cs2) <->
  tokens_increase t cs1 /\ tokens_increase (token_after t cs1) cs2.
Proof.
  revert t. induction cs1 as [|c cs1 IH]; intros t; simpl; [by intuition|].
  destruct (as_token c); simpl; rewrite IH; intuition.
Qed.

Lemma token_after_le t cs : tokens_increase t cs -> t <= token_after t cs.
Proof.
  revert t. induction cs as [|c cs IH]; intros t; simpl; [lia|].
  unfold token_after in *. simpl. destruct (as_token c) as [t'|]; simpl.
  - intros [? ?%IH]. lia.
  - apply IH.
Qed.

Lemma as_token_command t : is_i32 t -> as_token (token_command t) = Some t.
Proof.
  intros Ht. unfold as_token, token_command. cbn [c_id c_args].
  rewrite Z.eqb_refl, i32_u32. by rewrite i32_id.
Qed.

(** A prefix that leaves a token as high as [t] contains the command that set
    [t]. *)
Lemma token_reached t0 cs1 t cs2 d r :
  is_i32 t -> tokens_increase t0 (cs1 ++ token_command t :: cs2) ->
  cs1 ++ token_command t :: cs2 = d ++ r -> t <= token_after t0 d ->
  (cs1 ++ [token_command t]) `prefix_of` d.
Proof.
  intros Ht Hinc E Hd.
  assert (Hlen : (length cs1 < length d)%nat \/ exists k, cs1 = d ++ k).
  { destruct (Nat.lt_ge_cases (length cs1) (length d)) as [|Hl]; [by left|right].
    exists (drop (length d) cs1). rewrite <- (take_drop (length d) cs1) at 1. f_equal.
    rewrite <- (take_app_le cs1 (token_command t :: cs2)), E by done.
    by rewrite take_app_length. }
  destruct Hlen as [Hlen|[k ->]].
  - exists (drop (length cs1 + 1) d). rewrite <- (take_drop (length cs1 + 1) d) at 1. f_equal.
    rewrite <- (take_app_le d r), <- E by lia.
    rewrite take_app_add. by destruct cs2.
  - exfalso. rewrite <- app_assoc, tokens_increase_app in Hinc. destruct Hinc as [_ Hinc].
    apply tokens_increase_app in Hinc as [Hk Hinc]. cbn [tokens_increase] in Hinc.
    rewrite as_token_command in Hinc by done. destruct Hinc as [Hlt _].
    pose proof (token_after_le _ _ Hk). lia.
Qed.

Lemma zlen_encode c : zlen (encode c) = command_size c.
Proof. unfold encode, command_size. by rewrite zlen_cons. Qed.

Lemma command_size_pos c : 1 <= command_size c.
Proof. unfold command_size. pose proof (zlen_nonneg (c_args c)). lia. Qed.

Lemma encode_words c : plain c -> Forall is_u32 (encode c).
Proof. intros (_ & _ & ? & _). constructor; [apply header_word_u32|done]. Qed.

Lemma jump_home_words : Forall is_u32 jump_home.
Proof. by apply all_u32_ok. Qed.

Lemma Jump_Init_home `{Platform} : Jump_Init 0 = jump_home.
Proof.
  unfold Jump_Init, Fixed_Init, SetCmd, jump_home. simpl.
  change 8 with (4 * 2). by rewrite ComputeNumEntries_words by lia.
Qed.

Lemma homes_app l1 l2 : homes (l1 ++ l2) = homes l1 + homes l2.
Proof. induction l1 as [|[]]; simpl; lia. Qed.

Lemma homes_nonneg l : 0 <= homes l.
Proof. induction l as [|[]]; simpl; lia. Qed.

Lemma commands_app l1 l2 : commands (l1 ++ l2) = commands l1 ++ commands l2.
Proof. apply omap_app. Qed.

Section layout.
Context (allowed : Command -> Prop) (usable : Z).
Implicit Types (ring ws : list Z) (l : list slot).
Notation layout := (layout allowed usable).
Notation queue := (queue allowed usable).

Lemma layout_app ring g l1 m l2 p :
  layout ring g l1 m -> layout ring m l2 p -> layout ring g (l1 ++ l2) p.
Proof.
  revert g. induction l1 as [|s l1 IH]; intros g; simpl; [by intros ->|].
  intros (? & ? & ? & ?) ?. split_and!; auto.
Qed.

Lemma layout_split ring g l1 l2 p :
  layout ring g (l1 ++ l2) p -> exists m, layout ring g l1 m /\ layout ring m l2 p.
Proof.
  revert g. induction l1 as [|s l1 IH]; intros g; simpl; [by eauto|].
  intros (? & ? & ? & (m & ? & ?)%IH). exists m. by split_and!.
Qed.

Lemma layout_end ring ring' g l m m' :
  layout ring g l m -> layout ring' g l m' -> m = m'.
Proof.
  revert g. induction l as [|s l IH]; intros g; simpl; [congruence|].
  intros (_ & _ & _ & H1) (_ & _ & _ & H2). eauto.
Qed.

(** The rest of a layout lies where its first part ends. *)
Lemma layout_rest ring g l1 l2 m p :
  layout ring g (l1 ++ l2) p -> layout ring g l1 m -> layout ring m l2 p.
Proof.
  intros (m' & H1 & H2)%layout_split H. by rewrite (layout_end ring ring g l1 m m').
Qed.

Lemma holds_range ring g ws : holds ring g ws -> 0 <= g /\ g + zlen ws <= zlen ring.
Proof. intros (? & ? & ? & _)%zread_inv. done. Qed.

Lemma holds_drop ring g ws :
  holds ring g ws -> exists rest, drop (Z.to_nat g) ring = ws ++ rest.
Proof.
  intros (_ & _ & _ & E)%zread_inv. exists (drop (Z.to_nat (zlen ws)) (drop (Z.to_nat g) ring)).
  rewrite E at 1. by rewrite take_drop.
Qed.

Lemma holds_head ring g x ws : holds ring g (x :: ws) -> zget ring g = Some x.
Proof.
  unfold holds. intros Hr. pose proof (zlen_cons x ws). pose proof (zlen_nonneg ws).
  rewrite <- (Z.add_0_r g), <- (zread_lookup _ _ _ _ 0 Hr) by lia. done.
Qed.

(** Without a [Home] the offsets only grow. *)
Lemma layout_straight ring g l p :
  layout ring g l p -> homes l = 0 -> g <= p.
Proof.
  revert g. induction l as [|[c|] l IH]; intros g; simpl; [lia| |].
  - intros (_ & _ & _ & Hl) Hh. apply IH in Hl; [|done].
    pose proof (command_size_pos c). lia.
  - pose proof (homes_nonneg l). lia.
Qed.

(** A write of [ws] at [q] keeps what lies entirely before or after it. *)
Lemma holds_write ring ring' q ws g us :
  zwrite ring q ws = Some ring' -> holds ring g us ->
  g + zlen us <= q \/ q + zlen ws <= g -> holds ring' g us.
Proof.
  unfold holds. intros Hw Hr Hd. pose proof (zlen_zwrite _ _ _ _ Hw) as Hl.
  apply zread_inv in Hr as Hr'. destruct Hr' as (? & ? & ? & _).
  destruct (zread_Some ring' g (zlen us)) as (r & Hr' & Hlr); [lia..|].
  rewrite Hr'. f_equal. apply zlist_eq; [done|]. intros i Hi.
  rewrite (zread_lookup _ _ _ _ i Hr'), (zget_zwrite _ _ _ _ _ Hw) by lia.
  bfalse ((q <=? g + i) && (g + i <? q + zlen ws)).
  symmetry. apply (zread_lookup _ _ _ _ _ Hr). lia.
Qed.

Lemma holds_written ring ring' q ws :
  zwrite ring q ws = Some ring' -> holds ring' q ws.
Proof.
  unfold holds. intros Hw. pose proof (zlen_zwrite _ _ _ _ Hw) as Hl.
  destruct (zwrite_inv _ _ _ _ Hw) as (? & ? & _). pose proof (zlen_nonneg ws).
  destruct (zread_Some ring' q (zlen ws)) as (r & Hr & Hlr); [lia..|].
  rewrite Hr. f_equal. apply zlist_eq; [done|]. intros i Hi.
  rewrite (zread_lookup _ _ _ _ i Hr), (zget_zwrite _ _ _ _ _ Hw) by lia.
  btrue ((q <=? q + i) && (q + i <? q + zlen ws)). f_equal. lia.
Qed.

(** A write past the end of the queue, and before its start when it is wrapped,
    keeps the queue. *)
Lemma layout_write ring ring' g l p q ws :
  layout ring g l p -> zwrite ring q ws = Some ring' -> p <= q ->
  homes l = 0 \/ homes l = 1 /\ q + zlen ws <= g ->
  layout ring' g l p.
Proof.
  intros Hl Hw Hq. revert g Hl. induction l as [|s l IH]; intros g Hl Hh; [done|].
  destruct Hl as (Hu & Hs & Hp & Hl). pose proof (homes_nonneg l).
  split_and!; [done| |done|].
  - eapply holds_write; [done..|]. destruct s as [c|]; simpl in *; [|lia].
    destruct Hh as [Hh|[_ Hh]]; [left|by right].
    rewrite zlen_encode. pose proof (layout_straight _ _ _ _ Hl Hh). lia.
  - apply IH; [done|]. destruct s as [c|]; simpl in *; [|lia].
    pose proof (command_size_pos c). lia.
Qed.

Lemma layout_nonneg ring g l p : layout ring g l p -> 0 <= g -> 0 <= p.
Proof.
  revert g. induction l as [|[c|] l IH]; intros g; simpl; [lia| |].
  - intros (_ & _ & _ & Hl) Hg. apply (IH _ Hl). simpl.
    pose proof (command_size_pos c). lia.
  - intros (_ & _ & _ & Hl) _. apply (IH _ Hl). simpl. lia.
Qed.

(** The queue is wrapped exactly when its end lies before its start. *)
Lemma queue_homes ring g l p : queue ring g l p -> homes l = if p <? g then 1 else 0.
Proof.
  intros (Hl & Hg & Hp & Hh). destruct (Z.ltb_spec p g); [|lia].
  destruct Hh as [Hh|[]]; [|done]. apply layout_straight in Hl; [lia|done].
Qed.

Lemma queue_append ring ring' g l p c :
  queue ring g l p -> allowed c -> zwrite ring p (encode c) = Some ring' ->
  p + command_size c <= usable -> (p < g -> p + command_size c < g) ->
  queue ring' g (l ++ [Cmd c]) (p + command_size c).
Proof.
  intros Hq Hc Hw Hu Hg. pose proof (queue_homes _ _ _ _ Hq) as Hh.
  destruct Hq as (Hl & Hg' & Hp & _). pose proof (command_size_pos c).
  split_and!; try lia.
  - apply layout_app with p.
    + apply layout_write with ring p (encode c); [done..|]. rewrite zlen_encode.
      destruct (Z.ltb_spec p g); lia.
    + simpl. split_and!; [lia|by eapply holds_written|done|done].
  - rewrite homes_app. simpl. destruct (Z.ltb_spec p g); lia.
Qed.

Lemma queue_home ring g l p :
  queue ring g l p -> 0 < g <= p -> holds ring p jump_home ->
  queue ring g (l ++ [Home]) 0.
Proof.
  intros Hq Hg Hj. pose proof (queue_homes _ _ _ _ Hq) as Hh.
  destruct Hq as (Hl & Hg' & Hp & _). destruct (Z.ltb_spec p g); [lia|].
  split_and!; try lia.
  - apply layout_app with p; [done|]. simpl. split_and!; [lia|done..].
  - rewrite homes_app. simpl. lia.
Qed.

(** A write at or past the end of a queue that is not wrapped keeps it. *)
Lemma queue_write ring ring' g l p q ws :
  queue ring g l p -> zwrite ring q ws = Some ring' -> g <= p <= q ->
  queue ring' g l p.
Proof.
  intros Hq Hw Hg. pose proof (queue_homes _ _ _ _ Hq) as Hh.
  destruct Hq as (Hl & ? & ? & ?). split_and!; try lia.
  apply layout_write with ring q ws; try done; [lia|]. left.
  by destruct (Z.ltb_spec p g); [lia|].
Qed.

Lemma queue_wrap ring ring' g l p :
  queue ring g l p -> 0 < g <= p -> zwrite ring p jump_home = Some ring' ->
  queue ring' g (l ++ [Home]) 0.
Proof.
  intros Hq Hg Hw. apply queue_home with p; [|done|by eapply holds_written].
  eapply queue_write; [done..|lia].
Qed.

(** A command that ends exactly at [usable]: the [Jump] is written first. *)
Lemma queue_append_wrap ring ring1 ring2 g l p c :
  queue ring g l p -> allowed c -> 0 < g <= p -> p + command_size c = usable ->
  zwrite ring usable jump_home = Some ring1 ->
  zwrite ring1 p (encode c) = Some ring2 ->
  queue ring2 g (l ++ [Cmd c; Home]) 0.
Proof.
  intros Hq Hc Hg Hu Hw1 Hw2. pose proof (command_size_pos c).
  change [Cmd c; Home] with ([Cmd c] ++ [Home]). rewrite (assoc_L (++)).
  apply queue_home with (p + command_size c); [|lia|].
  - apply queue_append with ring1; [|done..|lia|lia].
    eapply queue_write; [done..|lia].
  - eapply holds_write; [done|rewrite Hu; by eapply holds_written|].
    rewrite zlen_encode. lia.
Qed.

(** What remains when the reader has taken the slots [d]. *)
Lemma queue_advance ring g d r p g' :
  queue ring g (d ++ r) p -> layout ring g d g' -> queue ring g' r p.
Proof.
  intros (Hl & Hg & Hp & Hh) Hd. pose proof (layout_rest _ _ _ _ _ _ Hl Hd) as Hr.
  rewrite homes_app in Hh. pose proof (homes_nonneg d). pose proof (homes_nonneg r).
  split_and!; [done| | |lia|lia|].
  - apply (layout_nonneg _ _ _ _ Hd). lia.
  - destruct r as [|s r]; simpl in Hr; [lia|]. by destruct Hr.
  - destruct (Z.eq_dec (homes r) 0); [by left|]. right. split; [lia|].
    pose proof (layout_straight _ _ _ _ Hd). lia.
Qed.

Lemma queue_nil ring p : 0 <= p <= usable -> queue ring p [] p.
Proof. intros. split_and!; simpl; auto; lia. Qed.

(** Room for [n] entries at [p]: they fit before [usable], they do not reach the
    reader, and they only reach [usable] when the queue can wrap. *)
Definition room (g p n : Z) : Prop :=
  p + n <= usable /\ (p < g -> p + n < g) /\ (p + n = usable -> 0 < g).

Lemma room_advance ring g d r p g' n :
  queue ring g (d ++ r) p -> layout ring g d g' -> room g p n -> room g' p n.
Proof.
  intros Hq Hd (Hu & Hg & Hw).
  pose proof (queue_homes _ _ _ _ Hq) as Hh.
  pose proof (queue_advance _ _ _ _ _ _ Hq Hd) as Hq'.
  pose proof (queue_homes _ _ _ _ Hq') as Hh'.
  rewrite homes_app in Hh. pose proof (homes_nonneg d).
  destruct Hq as (_ & ? & ? & _). destruct Hq' as (_ & ? & ? & _).
  assert (homes d = 0 -> g <= g') by (intros; by eapply layout_straight).
  unfold room. destruct (Z.ltb_spec p g), (Z.ltb_spec p g'); lia.
Qed.

(** A queue has at most as many slots as the ring has entries. *)
Lemma layout_length ring g l p :
  layout ring g l p -> homes l = 0 -> Z.of_nat (length l) <= p - g.
Proof.
  revert g. induction l as [|[c|] l IH]; intros g; simpl; [lia| |].
  - intros (_ & _ & _ & Hl) Hh. pose proof (IH _ Hl Hh). simpl in *.
    pose proof (command_size_pos c). lia.
  - pose proof (homes_nonneg l). lia.
Qed.

Lemma layout_length_wrapped ring g l p :
  layout ring g l p -> homes l = 1 -> Z.of_nat (length l) <= usable - g + 1 + p.
Proof.
  revert g. induction l as [|[c|] l IH]; intros g; simpl; [lia| |].
  - intros (_ & _ & _ & Hl) Hh. pose proof (IH _ Hl Hh). simpl in *.
    pose proof (command_size_pos c). lia.
  - intros (Hu & _ & _ & Hl) Hh. pose proof (layout_length _ _ _ _ Hl ltac:(lia)).
    simpl in *. lia.
Qed.

Lemma queue_length ring g l p :
  queue ring g l p -> Z.of_nat (length l) <= usable.
Proof.
  intros (Hl & Hg & Hp & [Hh|[Hh Hpg]]).
  - pose proof (layout_length _ _ _ _ Hl Hh). lia.
  - pose proof (layout_length_wrapped _ _ _ _ Hl Hh). lia.
Qed.

(** The end of a queue that is not empty is not its start. *)
Lemma queue_not_empty ring g s l p : queue ring g (s :: l) p -> g <> p.
Proof.
  intros (Hl & _ & _ & [Hh|[_ ?]]); [|lia].
  pose proof (layout_length _ _ _ _ Hl Hh) as Hn. simpl in Hn. lia.
Qed.

(** The next slot of a queue starts at or before [usable], and a [Home] is not at
    entry zero. *)
Lemma queue_next ring g s l p :
  queue ring g (s :: l) p -> 0 <= slot_next g s <= usable /\ (s = Home -> 0 < g).
Proof.
  intros Hq. pose proof (queue_advance ring g [s] l p (slot_next g s) Hq) as Hq'.
  destruct Hq as (Hl & Hg & Hp & Hh). simpl in Hl. destruct Hl as (? & ? & ? & ?).
  destruct Hq' as (_ & ? & _).
  - simpl. by split_and!.
  - split; [done|]. intros ->. simpl in Hh. pose proof (homes_nonneg l). lia.
Qed.

End layout.

#[export] Hint Resolve queue_nil : gpu.
