(* ===== verification/CmdBufferHelper.v ===== *)
(** * The client's command buffer helper

    [gpu/command_buffer/client/cmd_buffer_helper.{h,cc}]: reserves space in the
    ring buffer, wraps it with a [Jump], flushes, and tracks tokens, over the
    [CommandBuffer] interface of [common/command_buffer.h]. *)

From S2P Require Import Prelude CmdFormat CommandBufferService RingProtocol.
From Stdlib Require Import ZArith Lia ZifyBool Bool.
From stdpp Require Import base list numbers option.
Local Open Scope Z_scope.

(** ** The command buffer, as its client sees it *)

(** [CommandBuffer], with the ring buffer memory that the client writes to and
    the C library's clock. *)
Class CommandBuffer (B : Type) := {
  cb_GetRingBuffer : B -> Buffer;
  cb_GetState : B -> CommandBufferService.State * B;
  cb_GetLastState : B -> CommandBufferService.State * B;
  cb_Flush : Z -> B -> outcome B;
  cb_FlushSync : Z -> Z -> B -> outcome (CommandBufferService.State * B);
  cb_entries : B -> list Z;
  cb_set_entries : list Z -> B -> B;
  cb_clock : B -> Z;
}.

(** ** State *)

Record Helper := mkHelper {
  ring_buffer_ : Buffer;
  total_entry_count_ : Z;
  usable_entry_count_ : Z;
  token_ : Z;
  put_ : Z;
  last_put_sent_ : Z;
  commands_issued_ : Z;
  last_flush_time_ : Z;
}.

Record Client (B : Type) := mkClient { helper : Helper; command_buffer_ : B }.
Arguments mkClient {B} _ _.
Arguments helper {B} _.
Arguments command_buffer_ {B} _.

Definition with_ring_buffer_ (h : Helper) (b : Buffer) (total usable put : Z) : Helper :=
  mkHelper b total usable (token_ h) put (last_put_sent_ h) (commands_issued_ h)
    (last_flush_time_ h).
Definition with_token_ (h : Helper) (t : Z) : Helper :=
  mkHelper (ring_buffer_ h) (total_entry_count_ h) (usable_entry_count_ h) t (put_ h)
    (last_put_sent_ h) (commands_issued_ h) (last_flush_time_ h).
Definition with_put_ (h : Helper) (p : Z) : Helper :=
  mkHelper (ring_buffer_ h) (total_entry_count_ h) (usable_entry_count_ h) (token_ h) p
    (last_put_sent_ h) (commands_issued_ h) (last_flush_time_ h).
Definition with_commands_issued_ (h : Helper) (n : Z) : Helper :=
  mkHelper (ring_buffer_ h) (total_entry_count_ h) (usable_entry_count_ h) (token_ h)
    (put_ h) (last_put_sent_ h) n (last_flush_time_ h).
Definition with_sent (h : Helper) (sent time : Z) : Helper :=
  mkHelper (ring_buffer_ h) (total_entry_count_ h) (usable_entry_count_ h) (token_ h)
    (put_ h) sent (commands_issued_ h) time.

Definition with_helper {B} (c : Client B) (h : Helper) : Client B :=
  mkClient h (command_buffer_ c).
Definition with_cb {B} (c : Client B) (b : B) : Client B := mkClient (helper c) b.

Definition kCommandsPerFlushCheck : Z := 100.
Definition CLOCKS_PER_SEC : Z := 1000000.

(** [elapsed > kFlushDelay * CLOCKS_PER_SEC], where [kFlushDelay] is 1/300 s. *)
Definition flush_delay_passed (elapsed : Z) : bool := 300 * elapsed >? CLOCKS_PER_SEC.

Module CommandBufferHelper.
Section helper.
Context `{Platform} {B : Type} `{CommandBuffer B}.
Implicit Types c : Client B.

(** The constructor. *)
Definition new (b : B) : Client B := mkClient (mkHelper null_buffer 0 0 0 0 0 0 0) b.

Definition Initialize (ring_buffer_size : Z) c : bool * Client B :=
  let h := helper c in
  let rb := cb_GetRingBuffer (command_buffer_ c) in
  let c := with_helper c (with_ring_buffer_ h rb (total_entry_count_ h)
                            (usable_entry_count_ h) (put_ h)) in
  match ptr rb with
  | None => (false, c)
  | Some _ =>
      let '(state, b) := cb_GetState (command_buffer_ c) in
      let c := with_cb c b in
      let num_ring_buffer_entries := i32 (usize ring_buffer_size / 4) in
      if num_ring_buffer_entries >? s_num_entries state then (false, c)
      else
        let kJumpEntries := cmd_size (T := Jump) / 4 in
        (true, with_helper c
           (with_ring_buffer_ (helper c) rb num_ring_buffer_entries
              (num_ring_buffer_entries - kJumpEntries) (s_put_offset state)))
  end.

Definition last_token_read c : Z * Client B :=
  let '(st, b) := cb_GetLastState (command_buffer_ c) in (s_token st, with_cb c b).

Definition get_offset c : Z * Client B :=
  let '(st, b) := cb_GetLastState (command_buffer_ c) in (s_get_offset st, with_cb c b).

Definition GetError c : Error * Client B :=
  let '(st, b) := cb_GetState (command_buffer_ c) in (s_error st, with_cb c b).

(** Both flushes first record the time and the put offset they send. *)
Definition note_flush c : Client B :=
  with_helper c (with_sent (helper c) (put_ (helper c)) (cb_clock (command_buffer_ c))).

Definition FlushSync c : outcome (bool * Client B) :=
  let c := note_flush c in
  let '(get, c) := get_offset c in
  (do (state, b) <- cb_FlushSync (put_ (helper c)) get (command_buffer_ c) ;;
   Done (bool_decide (s_error state = kNoError), with_cb c b))%gpu.

Definition Flush c : outcome (Client B) :=
  let c := note_flush c in
  (do b <- cb_Flush (put_ (helper c)) (command_buffer_ c) ;; Done (with_cb c b))%gpu.

Fixpoint Finish (fuel : nat) c : outcome (bool * Client B) :=
  match fuel with
  | O => Fuel
  | S fuel =>
      (do (ok, c) <- FlushSync c ;;
       if negb ok then Done (false, c)
       else
         let '(get, c) := get_offset c in
         if negb (put_ (helper c) =? get) then Finish fuel c else Done (true, c))%gpu
  end.

Definition AvailableEntries c : Z * Client B :=
  let '(get, c) := get_offset c in
  (Z.rem (get - put_ (helper c) - 1 + usable_entry_count_ (helper c))
     (usable_entry_count_ (helper c)), c).

(** [while (cond) { if (!FlushSync()) return; }]: the answer tells whether the
    loop ended by its condition. *)
Fixpoint flush_while (fuel : nat) (cond : Client B -> bool * Client B) c
    : outcome (bool * Client B) :=
  let '(again, c) := cond c in
  if negb again then Done (true, c)
  else
    match fuel with
    | O => Fuel
    | S fuel =>
        (do (ok, c) <- FlushSync c ;;
         if negb ok then Done (false, c) else flush_while fuel cond c)%gpu
    end.

(** [if (cond) { while (cond) ... }] *)
Definition wait_while (fuel : nat) (cond : Client B -> bool * Client B) c
    : outcome (bool * Client B) :=
  let '(again, c) := cond c in
  if again then flush_while fuel cond c else Done (true, c).

(** [get_offset() > put_ || get_offset() == 0] *)
Definition must_wrap_later c : bool * Client B :=
  let '(get, c) := get_offset c in
  if get >? put_ (helper c) then (true, c)
  else let '(get, c) := get_offset c in (get =? 0, c).

(** [AvailableEntries() < count] *)
Definition must_wait (count : Z) c : bool * Client B :=
  let '(available, c) := AvailableEntries c in (available <? count, c).

(** [memcpy] of words into the ring buffer. *)
Definition write_entries (at_entry : Z) (ws : list Z) c : outcome (Client B) :=
  (do ring <- of_option (zwrite (cb_entries (command_buffer_ c)) at_entry ws) ;;
   Done (with_cb c (cb_set_entries ring (command_buffer_ c))))%gpu.

(** The flush that ends [WaitForAvailableEntries]. *)
Definition flush_if_due c : outcome (Client B) :=
  let h := helper c in
  let pending := Z.rem (put_ h + usable_entry_count_ h - last_put_sent_ h)
                   (usable_entry_count_ h) in
  let '(get, c) := get_offset c in
  let limit := Z.quot (usable_entry_count_ h)
                 (if get =? last_put_sent_ h then 16 else 2) in
  if pending >? limit then Flush c
  else if Z.rem (commands_issued_ h) kCommandsPerFlushCheck =? 0 then
    if flush_delay_passed (cb_clock (command_buffer_ c) - last_flush_time_ h)
    then Flush c else Done c
  else Done c.

Definition WaitForAvailableEntries (fuel : nat) (count : Z) c : outcome (Client B) :=
  (do (ok, c) <-
     (if put_ (helper c) + count >? usable_entry_count_ (helper c) then
        do (ok, c) <- wait_while fuel must_wrap_later c ;;
        if negb ok then Done (false, c)
        else
          do c <- write_entries (put_ (helper c)) (Jump_Init 0) c ;;
          Done (true, with_helper c (with_put_ (helper c) 0))
      else Done (true, c)) ;;
   if negb ok then Done c
   else
     do (ok, c) <- wait_while fuel (must_wait count) c ;;
     if negb ok then Done c else flush_if_due c)%gpu.

(** The space is named by its first entry. *)
Definition GetSpace (fuel : nat) (entries : Z) c : outcome (Z * Client B) :=
  let c := with_helper c (with_commands_issued_ (helper c) (i32 (commands_issued_ (helper c) + 1))) in
  (do c <- WaitForAvailableEntries fuel (i32 entries) c ;;
   let space := put_ (helper c) in
   let c := with_helper c (with_put_ (helper c) (i32 (space + entries))) in
   if put_ (helper c) =? usable_entry_count_ (helper c) then
     do c <- write_entries (put_ (helper c)) (Jump_Init 0) c ;;
     Done (space, with_helper c (with_put_ (helper c) 0))
   else Done (space, c))%gpu.

(** *** The commands *)

Definition GetCmdSpace (T : Type) `{CmdStruct T} (fuel : nat) c : outcome (Z * Client B) :=
  GetSpace fuel (ComputeNumEntries (cmd_size (T := T))) c.

Definition GetImmediateCmdSpace (T : Type) `{CmdStruct T} (fuel : nat) (data_space : Z) c
    : outcome (Z * Client B) :=
  GetSpace fuel (ComputeNumEntries (usize (cmd_size (T := T) + data_space))) c.

Definition GetImmediateCmdSpaceTotalSize (fuel : nat) (total_space : Z) c
    : outcome (Z * Client B) :=
  GetSpace fuel (ComputeNumEntries total_space) c.

(** A fixed-size command: its space, then [cmd.Init(...)]. *)
Definition put_fixed {T} `{CmdStruct T} (fuel : nat) (cmd : T) c : outcome (Client B) :=
  (do (space, c) <- GetCmdSpace T fuel c ;; write_entries space (Fixed_Init cmd) c)%gpu.

Definition Noop (fuel : nat) (skip_count : Z) c : outcome (Client B) :=
  (do (space, c) <- GetImmediateCmdSpace CmdFormat.Noop fuel (usize (skip_count * 4)) c ;;
   write_entries space (Noop_Init skip_count) c)%gpu.

Definition SetToken (fuel : nat) (token : Z) c : outcome (Client B) :=
  put_fixed fuel (mkSetToken token) c.

Definition Jump (fuel : nat) (offset : Z) c : outcome (Client B) :=
  put_fixed fuel (mkJump offset) c.

Definition JumpRelative (fuel : nat) (offset : Z) c : outcome (Client B) :=
  put_fixed fuel (mkJumpRelative offset) c.

Definition Call (fuel : nat) (offset : Z) c : outcome (Client B) :=
  put_fixed fuel (mkCall offset) c.

Definition CallRelative (fuel : nat) (offset : Z) c : outcome (Client B) :=
  put_fixed fuel (mkCallRelative offset) c.

Definition Return (fuel : nat) c : outcome (Client B) := put_fixed fuel mkReturn c.

Definition SetBucketSize (fuel : nat) (bucket_id size : Z) c : outcome (Client B) :=
  put_fixed fuel (mkSetBucketSize bucket_id size) c.

Definition SetBucketData (fuel : nat)
    (bucket_id offset size shared_memory_id shared_memory_offset : Z) c
    : outcome (Client B) :=
  put_fixed fuel (mkSetBucketData bucket_id offset size shared_memory_id
                    shared_memory_offset) c.

(** [data] is copied as bytes; a word the copy only fills in part keeps its
    other bytes. *)
Definition SetBucketDataImmediate (fuel : nat) (bucket_id offset : Z) (data : list Z)
    (size : Z) c : outcome (Client B) :=
  (do (space, c) <- GetImmediateCmdSpace CmdFormat.SetBucketDataImmediate fuel size c ;;
   do c <- write_entries space (SetBucketDataImmediate_Init bucket_id offset size) c ;;
   do src <- of_option (zread data 0 size) ;;
   do old <- of_option (zread (cb_entries (command_buffer_ c)) (space + 4)
                          ((size + 3) / 4)) ;;
   do bytes <- of_option (zwrite (words_to_bytes old) 0 src) ;;
   write_entries (space + 4) (bytes_to_words bytes) c)%gpu.

Definition GetBucketSize (fuel : nat) (bucket_id shared_memory_id shared_memory_offset : Z) c
    : outcome (Client B) :=
  put_fixed fuel (mkGetBucketSize bucket_id shared_memory_id shared_memory_offset) c.

Definition GetBucketData (fuel : nat)
    (bucket_id offset size shared_memory_id shared_memory_offset : Z) c
    : outcome (Client B) :=
  put_fixed fuel (mkGetBucketData bucket_id offset size shared_memory_id
                    shared_memory_offset) c.

(** *** Tokens *)

Definition InsertToken (fuel : nat) c : outcome (Z * Client B) :=
  let t := Z.land (token_ (helper c) + 1) 2147483647 in
  let c := with_helper c (with_token_ (helper c) t) in
  (do c <- put_fixed fuel (mkSetToken t) c ;;
   if t =? 0 then
     do (_, c) <- Finish fuel c ;; Done (token_ (helper c), c)
   else Done (token_ (helper c), c))%gpu.

(** The loop of [WaitForToken]. *)
Fixpoint WaitForToken_loop (fuel : nat) (token : Z) c : outcome (Client B) :=
  let '(read, c) := last_token_read c in
  if negb (read <? token) then Done c
  else
    match fuel with
    | O => Fuel
    | S fuel =>
        let '(get, c) := get_offset c in
        if get =? put_ (helper c) then Done c
        else
          (do (ok, c) <- FlushSync c ;;
           if negb ok then Done c else WaitForToken_loop fuel token c)%gpu
    end.

Definition WaitForToken (fuel : nat) (token : Z) c : outcome (Client B) :=
  if token <? 0 then Done c
  else if token >? token_ (helper c) then Done c
  else WaitForToken_loop fuel token c.

End helper.
End CommandBufferHelper.

(** ** What the client relies on *)

(** The reader goes from [b] to [b'] by taking a prefix of the queue [l] that ends
    at the put offset [p] it was sent. *)
Record reads {B} `{CommandBuffer B} (allowed : Command -> Prop) (usable : Z) (ok : B -> Prop) (reader sent : B -> Z)
    (did : B -> list Command -> B -> Prop) (p : Z) (l d r : list slot) (b b' : B) : Prop := {
  reads_split : l = d ++ r;
  reads_layout : layout allowed usable (cb_entries b) (reader b) d (reader b');
  reads_did : did b (commands d) b';
  reads_entries : cb_entries b' = cb_entries b;
  reads_sent : sent b' = p;
  reads_ok : ok b';
}.

(** A command buffer whose reader works: [ok] is its invariant, [reader] and
    [sent] the get offset it shows and the put offset it was last sent, [tok] its
    token, and [did b cs b'] that it went from [b] to [b'] executing the commands [cs].  It
    may read at any call, only ever takes what was sent, and a [FlushSync] with
    commands pending takes at least one. *)
Class CommandBufferLaws (B : Type) `{CommandBuffer B} (allowed : Command -> Prop)
    (usable : Z) (ok : B -> Prop) (reader sent tok : B -> Z)
    (did : B -> list Command -> B -> Prop) : Prop := {
  allowed_plain c : allowed c -> plain c;
  did_refl b : did b [] b;
  did_token b d b' : did b d b' -> tok b' = token_after (tok b) d;
  did_trans b1 b2 b3 d1 d2 : did b1 d1 b2 -> did b2 d2 b3 -> did b1 (d1 ++ d2) b3;
  GetState_reads b l :
    ok b -> layout allowed usable (cb_entries b) (reader b) l (sent b) ->
    exists st b' d r, cb_GetState b = (st, b') /\
      reads allowed usable ok reader sent did (sent b) l d r b b' /\
      s_put_offset st = sent b /\ usable + 2 <= s_num_entries st <= zlen (cb_entries b);
  GetLastState_reads b l :
    ok b -> layout allowed usable (cb_entries b) (reader b) l (sent b) ->
    exists st b' d r, cb_GetLastState b = (st, b') /\
      reads allowed usable ok reader sent did (sent b) l d r b b' /\
      s_get_offset st = reader b' /\ s_token st = tok b';
  Flush_reads b p l :
    ok b -> queue allowed usable (cb_entries b) (reader b) l p ->
    exists b' d r, cb_Flush p b = Done b' /\
      reads allowed usable ok reader sent did p l d r b b';
  FlushSync_reads b p known l :
    ok b -> queue allowed usable (cb_entries b) (reader b) l p ->
    exists st b' d r, cb_FlushSync p known b = Done (st, b') /\
      reads allowed usable ok reader sent did p l d r b b' /\
      s_error st = kNoError /\ (l <> [] -> d <> []);
  set_entries_ok b ws :
    ok b -> zlen ws = zlen (cb_entries b) -> Forall is_u32 ws ->
    ok (cb_set_entries ws b) /\ did b [] (cb_set_entries ws b) /\
    cb_entries (cb_set_entries ws b) = ws /\
    reader (cb_set_entries ws b) = reader b /\ sent (cb_set_entries ws b) = sent b;
  entries_words b : ok b -> Forall is_u32 (cb_entries b);
}.

(** ** Invariant *)

Section invariant.
Context `{Platform} {B : Type} `{CommandBuffer B}.
Context (allowed : Command -> Prop) (usable : Z) (ok : B -> Prop) (reader sent : B -> Z)
  (did : B -> list Command -> B -> Prop).

(** [l1] was sent to the reader and [l2] was not yet; what the reader did since
    [b0], and then the pending commands, are the commands issued, in order. *)
Record client_ok (b0 : B) (issued : list Command) (l1 l2 : list slot) (c : Client B)
    : Prop := {
  client_buffer : ok (command_buffer_ c);
  client_usable : usable_entry_count_ (helper c) = usable;
  client_ring : usable + 2 <= zlen (cb_entries (command_buffer_ c));
  client_small : 1 <= usable < 2 ^ 30;
  client_put : put_ (helper c) < usable;
  client_sent :
    layout allowed usable (cb_entries (command_buffer_ c)) (reader (command_buffer_ c)) l1
      (sent (command_buffer_ c));
  client_queue :
    queue allowed usable (cb_entries (command_buffer_ c)) (reader (command_buffer_ c))
      (l1 ++ l2) (put_ (helper c));
  client_done :
    exists done, did b0 done (command_buffer_ c) /\
      issued = done ++ commands (l1 ++ l2);
}.

(** The client, some queue pending. *)
Definition ready (b0 : B) (issued : list Command) (c : Client B) : Prop :=
  exists l1 l2, client_ok b0 issued l1 l2 c.

(** A command issued through the helper: its space is taken, then filled.  All the
    commands of the helper are issued this way. *)
Definition issue (fuel : nat) (cmd : Command) (c : Client B) : outcome (Client B) :=
  (do (space, c) <- CommandBufferHelper.GetSpace fuel (command_size cmd) c ;;
   CommandBufferHelper.write_entries space (encode cmd) c)%gpu.

(** Several commands, in order. *)
Fixpoint issue_all (fuel : nat) (cmds : list Command) (c : Client B) : outcome (Client B) :=
  match cmds with
  | [] => Done c
  | cmd :: cmds => (do c <- issue fuel cmd c ;; issue_all fuel cmds c)%gpu
  end.

End invariant.

(** ** Lemmas *)

(** *** No operation but [InsertToken] changes the token *)

Section token_frame.
Context `{Platform} {B : Type} `{!CommandBuffer B}.
Implicit Types c : Client B.

Lemma get_offset_token c :
  token_ (helper (snd (CommandBufferHelper.get_offset c))) = token_ (helper c).
Proof. unfold CommandBufferHelper.get_offset. by destruct (cb_GetLastState _). Qed.

Lemma FlushSync_token c r c' :
  CommandBufferHelper.FlushSync c = Done (r, c') -> token_ (helper c') = token_ (helper c).
Proof.
  unfold CommandBufferHelper.FlushSync.
  pose proof (get_offset_token (CommandBufferHelper.note_flush c)) as Hg.
  destruct (CommandBufferHelper.get_offset _) as [g c1]. intros E. by orun E.
Qed.

Lemma Flush_token c c' :
  CommandBufferHelper.Flush c = Done c' -> token_ (helper c') = token_ (helper c).
Proof. unfold CommandBufferHelper.Flush. intros E. by orun E. Qed.

Lemma write_entries_token q ws c c' :
  CommandBufferHelper.write_entries q ws c = Done c' -> token_ (helper c') = token_ (helper c).
Proof. unfold CommandBufferHelper.write_entries. intros E. by orun E. Qed.

Lemma must_wrap_later_token c :
  token_ (helper (snd (CommandBufferHelper.must_wrap_later c))) = token_ (helper c).
Proof.
  unfold CommandBufferHelper.must_wrap_later. pose proof (get_offset_token c) as Hg.
  destruct (CommandBufferHelper.get_offset c) as [g c1]. destruct (_ >? _); [done|].
  pose proof (get_offset_token c1) as Hg1.
  destruct (CommandBufferHelper.get_offset c1) as [g2 c2]. simpl in *. congruence.
Qed.

Lemma must_wait_token n c :
  token_ (helper (snd (CommandBufferHelper.must_wait n c))) = token_ (helper c).
Proof.
  unfold CommandBufferHelper.must_wait, CommandBufferHelper.AvailableEntries.
  pose proof (get_offset_token c) as Hg. by destruct (CommandBufferHelper.get_offset c).
Qed.

Lemma flush_while_token fuel cond c r c' :
  (forall c, token_ (helper (snd (cond c))) = token_ (helper c)) ->
  CommandBufferHelper.flush_while fuel cond c = Done (r, c') ->
  token_ (helper c') = token_ (helper c).
Proof.
  intros Hcond. revert c. induction fuel as [|fuel IH]; intros c;
    cbn [CommandBufferHelper.flush_while]; pose proof (Hcond c) as Hc;
    destruct (cond c) as [[] c1]; cbn [negb]; simpl in Hc; try (by intros [= _ <-]).
  destruct (CommandBufferHelper.FlushSync c1) as [[ok c2]| |] eqn:E; [|done..].
  apply FlushSync_token in E. cbn [obind]. destruct ok; cbn [negb].
  - intros E2. apply IH in E2. congruence.
  - intros [= _ <-]. congruence.
Qed.

Lemma wait_while_token fuel cond c r c' :
  (forall c, token_ (helper (snd (cond c))) = token_ (helper c)) ->
  CommandBufferHelper.wait_while fuel cond c = Done (r, c') ->
  token_ (helper c') = token_ (helper c).
Proof.
  intros Hcond. unfold CommandBufferHelper.wait_while. pose proof (Hcond c) as Hc.
  destruct (cond c) as [[] c1]; simpl in Hc.
  - intros E. apply flush_while_token in E; [congruence|done].
  - by intros [= _ <-].
Qed.

Lemma flush_if_due_token c c' :
  CommandBufferHelper.flush_if_due c = Done c' -> token_ (helper c') = token_ (helper c).
Proof.
  unfold CommandBufferHelper.flush_if_due. pose proof (get_offset_token c) as Hg.
  destruct (CommandBufferHelper.get_offset c) as [g c1]. simpl in Hg.
  intros E. repeat case_match; simplify_eq; try done;
    apply Flush_token in E; congruence.
Qed.

Lemma WaitForAvailableEntries_token fuel n c c' :
  CommandBufferHelper.WaitForAvailableEntries fuel n c = Done c' ->
  token_ (helper c') = token_ (helper c).
Proof.
  unfold CommandBufferHelper.WaitForAvailableEntries.
  match goal with |- obind ?x _ = _ -> _ => set (m := x) end.
  assert (Hm : forall r c1, m = Done (r, c1) -> token_ (helper c1) = token_ (helper c)).
  { unfold m. intros r c1. destruct (_ >? _); [|by intros [= _ <-]].
    destruct (CommandBufferHelper.wait_while _ _ _) as [[ok c2]| |] eqn:E; [|done..].
    apply wait_while_token in E; [|apply must_wrap_later_token]. cbn [obind].
    destruct ok; cbn [negb]; [|by intros [= _ <-]].
    destruct (CommandBufferHelper.write_entries _ _ c2) as [c3| |] eqn:E3; [|done..].
    apply write_entries_token in E3. intros [= _ <-]. simpl. congruence. }
  destruct m as [[ok c1]| |]; [|done..]. specialize (Hm _ _ eq_refl). cbn [obind].
  destruct ok; cbn [negb]; [|by intros [= <-]].
  destruct (CommandBufferHelper.wait_while _ _ c1) as [[ok c2]| |] eqn:E; [|done..].
  apply wait_while_token in E; [|apply must_wait_token]. cbn [obind].
  destruct ok; cbn [negb].
  - intros E2%flush_if_due_token. congruence.
  - intros [= <-]. congruence.
Qed.

Lemma issue_token fuel cmd c c' :
  issue fuel cmd c = Done c' -> token_ (helper c') = token_ (helper c).
Proof.
  unfold issue, CommandBufferHelper.GetSpace. set (c0 := with_helper c _).
  change (token_ (helper c)) with (token_ (helper c0)). clearbody c0.
  destruct (CommandBufferHelper.WaitForAvailableEntries _ _ c0) as [c1| |] eqn:E; [|done..].
  apply WaitForAvailableEntries_token in E. cbn [obind]. rewrite <- E.
  destruct (_ =? _).
  - destruct (CommandBufferHelper.write_entries _ (Jump_Init 0) _) as [c2| |] eqn:E2; [|done..].
    apply write_entries_token in E2. cbn [obind]. intros E3%write_entries_token.
    simpl in *. congruence.
  - cbn [obind]. by intros E3%write_entries_token.
Qed.

End token_frame.

Section client.
Context `{Platform} {B : Type} `{!CommandBuffer B}.
Context {allowed : Command -> Prop} {usable : Z} {ok : B -> Prop} {reader sent tok : B -> Z}
  {did : B -> list Command -> B -> Prop}
  `{!CommandBufferLaws B allowed usable ok reader sent tok did}.
Context (b0 : B).
Implicit Types c : Client B.
Notation client_ok := (client_ok allowed usable ok reader sent did b0).
Notation reads := (reads allowed usable ok reader sent did).
Notation room := (room usable).

(** What a read does to the client's invariant, when it leaves [r ++ l2]. *)
Lemma client_reads issued l1 l2 c p l d r l2' b' :
  client_ok issued l1 l2 c -> reads p l d r (command_buffer_ c) b' ->
  l1 ++ l2 = l ++ l2' ->
  layout allowed usable (cb_entries (command_buffer_ c)) (reader (command_buffer_ c)) l p ->
  client_ok issued r l2' (with_cb c b').
Proof.
  intros [Hok Hu Hr Hs Hp Hl Hq (done & Hd & Hi)] [-> Hlay Hdid He Hse Hok'] E Hl'.
  rewrite E in Hq, Hi. rewrite <- app_assoc in Hq, Hi.
  split; simpl; rewrite ?He; try done.
  - rewrite Hse. by eapply layout_rest.
  - by eapply queue_advance.
  - exists (done ++ commands d). split; [by eapply did_trans|].
    by rewrite Hi, commands_app, <- app_assoc.
Qed.

(** A read of the state: the reader may take more of what it was sent. *)
Lemma GetLastState_ok issued l1 l2 c :
  client_ok issued l1 l2 c ->
  exists d l1' st b', cb_GetLastState (command_buffer_ c) = (st, b') /\
    s_get_offset st = reader b' /\ s_token st = tok b' /\
    client_ok issued l1' l2 (with_cb c b') /\ l1 = d ++ l1' /\
    layout allowed usable (cb_entries (command_buffer_ c)) (reader (command_buffer_ c)) d (reader b').
Proof.
  intros Hc. pose proof Hc as [Hok _ _ _ _ Hl _ _].
  destruct (GetLastState_reads _ _ Hok Hl) as (st & b' & d & r & E & Hr & Hg & Ht).
  exists d, r, st, b'. split_and!; try done.
  - by eapply client_reads.
  - by destruct Hr.
  - by destruct Hr.
Qed.

Lemma get_offset_ok issued l1 l2 c :
  client_ok issued l1 l2 c ->
  exists d l1' b', CommandBufferHelper.get_offset c = (reader b', with_cb c b') /\
    client_ok issued l1' l2 (with_cb c b') /\ l1 = d ++ l1' /\
    layout allowed usable (cb_entries (command_buffer_ c)) (reader (command_buffer_ c)) d (reader b').
Proof.
  intros Hc. destruct (GetLastState_ok _ _ _ _ Hc) as (d & l1' & st & b' & E & Hg & _ & H1).
  unfold CommandBufferHelper.get_offset. rewrite E, Hg. by exists d, l1', b'.
Qed.

Lemma client_with_sent issued l1 l2 c s t :
  client_ok issued l1 l2 c ->
  client_ok issued l1 l2 (with_helper c (with_sent (helper c) s t)).
Proof. by intros []. Qed.

Lemma client_with_commands_issued issued l1 l2 c n :
  client_ok issued l1 l2 c ->
  client_ok issued l1 l2 (with_helper c (with_commands_issued_ (helper c) n)).
Proof. by intros []. Qed.

Lemma client_with_token issued l1 l2 c t :
  client_ok issued l1 l2 c ->
  client_ok issued l1 l2 (with_helper c (with_token_ (helper c) t)).
Proof. by intros []. Qed.

(** The reader's way to its new place, in a queue that it leaves as [l']. *)
Definition advanced (l l' : list slot) c c' : Prop :=
  put_ (helper c') = put_ (helper c) /\ exists d, l = d ++ l' /\
  layout allowed usable (cb_entries (command_buffer_ c)) (reader (command_buffer_ c)) d
    (reader (command_buffer_ c')).

Lemma FlushSync_ok issued l1 l2 c :
  client_ok issued l1 l2 c ->
  exists l c', CommandBufferHelper.FlushSync c = Done (true, c') /\
    client_ok issued l [] c' /\ put_ (helper c') = put_ (helper c) /\
    (length l <= pred (length (l1 ++ l2)))%nat.
Proof.
  intros Hc. unfold CommandBufferHelper.FlushSync.
  set (c1 := CommandBufferHelper.note_flush c).
  assert (Hc1 : client_ok issued l1 l2 c1) by by apply client_with_sent.
  destruct (get_offset_ok _ _ _ _ Hc1) as (d & l1' & b1 & -> & Hc2 & -> & _).
  set (c2 := with_cb c1 b1) in *. pose proof Hc2 as [Hok _ _ _ _ _ Hq _].
  destruct (FlushSync_reads _ _ (reader b1) _ Hok Hq)
    as (st & b2 & d2 & r & E & Hr & He & Hpr). simpl in E |- *.
  rewrite E. simpl. rewrite bool_decide_true by done.
  exists r, (with_cb c2 b2). split; [done|]. split; [|split; [done|]].
  - eapply client_reads; [done|exact Hr|by rewrite app_nil_r|by destruct Hq].
  - destruct Hr as [Hsp _ _ _ _ _]. rewrite <- app_assoc, length_app, Hsp.
    destruct d2 as [|x d2]; [|rewrite length_app; simpl; lia].
    destruct r as [|x r]; [simpl; lia|]. exfalso. apply Hpr; [|done].
    by rewrite Hsp.
Qed.

Lemma Flush_ok issued l1 l2 c n :
  client_ok issued l1 l2 c -> room (reader (command_buffer_ c)) (put_ (helper c)) n ->
  exists l c', CommandBufferHelper.Flush c = Done c' /\
    client_ok issued l [] c' /\ put_ (helper c') = put_ (helper c) /\
    room (reader (command_buffer_ c')) (put_ (helper c')) n.
Proof.
  intros Hc Hroom. unfold CommandBufferHelper.Flush.
  set (c1 := CommandBufferHelper.note_flush c).
  assert (Hc1 : client_ok issued l1 l2 c1) by by apply client_with_sent.
  pose proof Hc1 as [Hok _ _ _ _ _ Hq _].
  destruct (Flush_reads _ _ _ Hok Hq) as (b2 & d2 & r & E & Hr).
  rewrite E. simpl. exists r, (with_cb c1 b2). split; [done|].
  pose proof Hr as [Hsp Hlay _ _ _ _]. split; [|split; [done|]].
  - eapply client_reads; [done|exact Hr|by rewrite app_nil_r|by destruct Hq].
  - rewrite Hsp in Hq. simpl. by eapply room_advance.
Qed.

(** A loop condition that is only true while commands are pending, and tells
    [post] when it is false. *)
Definition cond_ok issued (put : Z) (cond : Client B -> bool * Client B)
    (post : Client B -> Prop) : Prop :=
  forall l1 l2 c, client_ok issued l1 l2 c -> put_ (helper c) = put ->
  exists again l1' c', cond c = (again, c') /\ client_ok issued l1' l2 c' /\
    put_ (helper c') = put /\ (length l1' <= length l1)%nat /\
    if again then l1' ++ l2 <> [] else post c'.

(** Such a loop ends within as many flushes as slots are pending. *)
Lemma flush_while_ok issued put cond post fuel l1 l2 c :
  cond_ok issued put cond post -> client_ok issued l1 l2 c -> put_ (helper c) = put ->
  (length (l1 ++ l2) <= fuel)%nat ->
  exists l1' l2' c', CommandBufferHelper.flush_while fuel cond c = Done (true, c') /\
    client_ok issued l1' l2' c' /\ put_ (helper c') = put /\ post c'.
Proof.
  intros Hcond. revert l1 l2 c. induction fuel as [|fuel IH]; intros l1 l2 c Hc Hp Hf;
    cbn [CommandBufferHelper.flush_while];
    destruct (Hcond l1 l2 c Hc Hp) as ([] & l1' & c' & -> & Hc' & Hp' & Hlen & Hpost);
    cbn [negb]; try (by exists l1', l2, c'); rewrite length_app in Hf.
  - exfalso. apply Hpost. apply length_zero_iff_nil. rewrite length_app. lia.
  - destruct (FlushSync_ok _ _ _ _ Hc') as (l & c2 & -> & Hc2 & Hp2 & Hl2).
    cbn [obind negb]. apply (IH l [] c2); [done|congruence|].
    rewrite app_nil_r. rewrite length_app in Hl2. lia.
Qed.

Lemma wait_while_ok issued put cond post fuel l1 l2 c :
  cond_ok issued put cond post -> client_ok issued l1 l2 c -> put_ (helper c) = put ->
  (length (l1 ++ l2) <= fuel)%nat ->
  exists l1' l2' c', CommandBufferHelper.wait_while fuel cond c = Done (true, c') /\
    client_ok issued l1' l2' c' /\ put_ (helper c') = put /\ post c'.
Proof.
  intros Hcond Hc Hp Hf. unfold CommandBufferHelper.wait_while.
  destruct (Hcond l1 l2 c Hc Hp) as ([] & l1' & c' & -> & Hc' & Hp' & Hlen & Hpost).
  - apply (flush_while_ok issued put cond post fuel l1' l2); try done.
    rewrite length_app in *. lia.
  - by exists l1', l2, c'.
Qed.

Lemma client_get issued l1 l2 c :
  client_ok issued l1 l2 c ->
  0 <= reader (command_buffer_ c) <= usable /\ 0 <= put_ (helper c) < usable.
Proof. intros [_ _ _ _ ? _ (_ & ? & ? & _) _]. lia. Qed.

Lemma client_empty issued c : client_ok issued [] [] c ->
  reader (command_buffer_ c) = put_ (helper c).
Proof. intros [_ _ _ _ _ _ (Hl & _) _]. exact Hl. Qed.

Lemma client_homes issued l1 l2 c : client_ok issued l1 l2 c ->
  homes (l1 ++ l2) = if put_ (helper c) <? reader (command_buffer_ c) then 1 else 0.
Proof. intros [_ _ _ _ _ _ Hq _]. by eapply queue_homes. Qed.

Lemma must_wrap_later_ok issued put :
  1 <= put ->
  cond_ok issued put CommandBufferHelper.must_wrap_later
    (fun c => 0 < reader (command_buffer_ c) <= put).
Proof.
  intros Hput l1 l2 c Hc Hp. unfold CommandBufferHelper.must_wrap_later.
  destruct (get_offset_ok _ _ _ _ Hc) as (d & l1' & b1 & -> & Hc1 & -> & _).
  pose proof (client_homes _ _ _ _ Hc1) as Hh1. simpl in *. rewrite Hp in *.
  destruct (Z.gtb_spec (reader b1) put).
  { exists true, l1', (with_cb c b1). split_and!; try done; [rewrite length_app; lia|].
    intros E. rewrite E in Hh1. simpl in Hh1.
    destruct (Z.ltb_spec put (reader b1)); lia. }
  destruct (get_offset_ok _ _ _ _ Hc1) as (d2 & l1'' & b2 & -> & Hc2 & -> & _).
  eexists _, l1'', _. split; [done|]. split_and!; try done; [rewrite !length_app; lia|].
  pose proof (client_homes _ _ _ _ Hc2) as Hh2. simpl in *. rewrite Hp in *.
  rewrite <- app_assoc, homes_app in Hh1. pose proof (homes_nonneg d2).
  pose proof (homes_nonneg (l1'' ++ l2)). pose proof (client_get _ _ _ _ Hc2) as Hg.
  simpl in Hg. destruct (Z.eqb_spec (reader b2) 0) as [E|].
  - intros Hn. apply app_nil in Hn as [-> ->]. apply client_empty in Hc2. simpl in *. lia.
  - destruct (Z.ltb_spec put (reader b1)), (Z.ltb_spec put (reader b2)); lia.
Qed.

Lemma AvailableEntries_value g p :
  1 <= usable -> 0 <= g <= usable -> 0 <= p < usable ->
  Z.rem (g - p - 1 + usable) usable = if p <? g then g - p - 1 else usable + g - p - 1.
Proof.
  intros Hu Hg Hp. rewrite Z.rem_mod_nonneg by lia.
  destruct (Z.ltb_spec p g).
  - rewrite <- (Z_mod_plus_full _ (-1)), Z.mod_small; lia.
  - rewrite Z.mod_small; lia.
Qed.

Lemma must_wait_ok issued put count :
  count < usable -> put + count <= usable ->
  cond_ok issued put (CommandBufferHelper.must_wait count)
    (fun c => room (reader (command_buffer_ c)) put count).
Proof.
  intros Hcount Hput l1 l2 c Hc Hp.
  unfold CommandBufferHelper.must_wait, CommandBufferHelper.AvailableEntries.
  destruct (get_offset_ok _ _ _ _ Hc) as (d & l1' & b1 & -> & Hc1 & -> & _).
  pose proof (client_get _ _ _ _ Hc1) as Hg. pose proof (client_usable _ _ _ _ _ _ _ _ _ _ _ Hc1) as Hu.
  pose proof (client_small _ _ _ _ _ _ _ _ _ _ _ Hc1). simpl in *.
  eexists _, l1', _. split; [done|]. split_and!; try done; [rewrite length_app; lia|].
  rewrite Hu, AvailableEntries_value, Hp by lia. rewrite Hp in Hg.
  unfold RingProtocol.room. simpl. destruct (Z.ltb_spec put (reader b1)).
  - destruct (Z.ltb_spec (reader b1 - put - 1) count); [|lia].
    intros E. pose proof (client_homes _ _ _ _ Hc1) as Hh. rewrite E in Hh. simpl in Hh.
    rewrite Hp in Hh. destruct (Z.ltb_spec put (reader b1)); lia.
  - destruct (Z.ltb_spec (usable + reader b1 - put - 1) count); [|lia].
    intros [-> ->]%app_nil. apply client_empty in Hc1. simpl in *. lia.
Qed.

Lemma client_length issued l1 l2 c :
  client_ok issued l1 l2 c -> Z.of_nat (length (l1 ++ l2)) <= usable.
Proof. intros [_ _ _ _ _ _ Hq _]. by eapply queue_length. Qed.

(** A write to the ring that adds the slots [new] to the queue. *)
Lemma client_write issued l1 l2 new c ring' put' :
  client_ok issued l1 l2 c -> zlen ring' = zlen (cb_entries (command_buffer_ c)) ->
  Forall is_u32 ring' ->
  queue allowed usable ring' (reader (command_buffer_ c)) ((l1 ++ l2) ++ new) put' ->
  put' < usable ->
  client_ok (issued ++ commands new) l1 (l2 ++ new)
    (mkClient (with_put_ (helper c) put') (cb_set_entries ring' (command_buffer_ c))).
Proof.
  intros [Hok Hu Hr Hs Hp Hl Hq (done & Hd & Hi)] Hz Hw Hq' Hp'.
  destruct (set_entries_ok _ _ Hok Hz Hw) as (Hok' & Hd' & He & Hre & Hse).
  rewrite <- app_assoc in Hq'.
  split; simpl; rewrite ?He, ?Hre, ?Hse; try done.
  - lia.
  - destruct Hq' as (Hlay & _). apply layout_split in Hlay as (m & Hm & _).
    by rewrite <- (layout_end _ _ _ _ _ _ _ _ Hm Hl).
  - exists done. split; [rewrite <- (app_nil_r done); by eapply did_trans|].
    by rewrite Hi, !commands_app, <- !app_assoc.
Qed.

(** The client's writes stay inside the ring. *)
Lemma client_zwrite issued l1 l2 c q ws :
  client_ok issued l1 l2 c -> 0 <= q -> q + zlen ws <= usable + 2 -> Forall is_u32 ws ->
  exists ring', zwrite (cb_entries (command_buffer_ c)) q ws = Some ring' /\
    zlen ring' = zlen (cb_entries (command_buffer_ c)) /\ Forall is_u32 ring'.
Proof.
  intros [Hok _ Hr _ _ _ _ _] Hq Hl Hw.
  destruct (zwrite_Some (cb_entries (command_buffer_ c)) ws q) as (r & Hr' & Hz); [lia..|].
  exists r. split_and!; [done..|].
  eapply zwrite_Forall; [by apply entries_words|done|done].
Qed.

(** The wrap of [WaitForAvailableEntries]. *)
Lemma client_wrap issued l1 l2 c :
  client_ok issued l1 l2 c ->
  0 < reader (command_buffer_ c) <= put_ (helper c) ->
  exists c', CommandBufferHelper.write_entries (put_ (helper c)) (Jump_Init 0) c = Done c' /\
    client_ok issued l1 (l2 ++ [Home]) (with_helper c' (with_put_ (helper c') 0)).
Proof.
  intros Hc Hg. rewrite Jump_Init_home. unfold CommandBufferHelper.write_entries.
  pose proof (client_get _ _ _ _ Hc). pose proof (client_small _ _ _ _ _ _ _ _ _ _ _ Hc).
  destruct (client_zwrite issued l1 l2 c (put_ (helper c)) jump_home)
    as (ring' & Hw & Hz & Hu); [done|lia|change (zlen jump_home) with 2; lia|
      apply jump_home_words|].
  rewrite Hw. simpl. eexists. split; [done|]. unfold with_helper, with_cb. simpl.
  rewrite <- (app_nil_r issued). change (@nil Command) with (commands [Home]).
  apply client_write; try done; [|lia]. eapply queue_wrap; [|done..].
  apply Hc.
Qed.

(** The flush that ends the wait keeps the room that was waited for. *)
Lemma flush_if_due_ok issued l1 l2 c n :
  client_ok issued l1 l2 c -> room (reader (command_buffer_ c)) (put_ (helper c)) n ->
  exists l1' l2' c', CommandBufferHelper.flush_if_due c = Done c' /\
    client_ok issued l1' l2' c' /\ room (reader (command_buffer_ c')) (put_ (helper c')) n.
Proof.
  intros Hc Hr. unfold CommandBufferHelper.flush_if_due.
  destruct (get_offset_ok _ _ _ _ Hc) as (d & l1' & b1 & -> & Hc1 & -> & Hd).
  assert (Hr1 : room (reader b1) (put_ (helper c)) n).
  { pose proof (client_queue _ _ _ _ _ _ _ _ _ _ _ Hc) as Hq. rewrite <- app_assoc in Hq.
    by eapply room_advance. }
  destruct (Flush_ok _ _ _ _ n Hc1 Hr1) as (l & c2 & Ef & Hc2 & Hp2 & Hr2).
  repeat case_match; first [by exists l, [], c2|by exists l1', l2, (with_cb c b1)].
Qed.

Lemma WaitForAvailableEntries_ok issued l1 l2 c fuel count :
  client_ok issued l1 l2 c -> 0 < count < usable -> usable <= Z.of_nat fuel ->
  exists l1' l2' c', CommandBufferHelper.WaitForAvailableEntries fuel count c = Done c' /\
    client_ok issued l1' l2' c' /\ room (reader (command_buffer_ c')) (put_ (helper c')) count.
Proof.
  intros Hc Hn Hf. unfold CommandBufferHelper.WaitForAvailableEntries.
  match goal with |- exists _ _ _, obind ?x _ = _ /\ _ => set (m := x) end.
  assert (Hm : exists l1' l2' c', m = Done (true, c') /\ client_ok issued l1' l2' c' /\
    put_ (helper c') + count <= usable).
  { unfold m. rewrite (client_usable _ _ _ _ _ _ _ _ _ _ _ Hc).
    destruct (Z.gtb_spec (put_ (helper c) + count) usable);
      [|by exists l1, l2, c; split_and!].
    destruct (wait_while_ok issued (put_ (helper c)) CommandBufferHelper.must_wrap_later
      (fun c' => 0 < reader (command_buffer_ c') <= put_ (helper c)) fuel l1 l2 c)
      as (l1' & l2' & c1 & -> & Hc1 & Hp1 & Hg1); [|done..| |].
    { apply must_wrap_later_ok. lia. }
    { pose proof (client_length _ _ _ _ Hc). lia. }
    cbn [obind negb]. destruct (client_wrap _ _ _ _ Hc1) as (c2 & -> & Hc2); [lia|].
    cbn [obind]. eexists _, _, _. split; [done|]. split; [done|]. simpl. lia. }
  destruct Hm as (l1' & l2' & c1 & -> & Hc1 & Hp1). cbn [obind negb].
  destruct (wait_while_ok issued (put_ (helper c1)) (CommandBufferHelper.must_wait count)
    (fun c' => room (reader (command_buffer_ c')) (put_ (helper c1)) count) fuel l1' l2' c1)
    as (l1'' & l2'' & c2 & -> & Hc2 & Hp2 & Hr2); [|done..| |].
  { apply must_wait_ok; lia. }
  { pose proof (client_length _ _ _ _ Hc1). lia. }
  cbn [obind negb]. rewrite <- Hp2 in Hr2. by eapply flush_if_due_ok.
Qed.

Lemma write_entries_eq c q ws ring' :
  zwrite (cb_entries (command_buffer_ c)) q ws = Some ring' ->
  CommandBufferHelper.write_entries q ws c
  = Done (with_cb c (cb_set_entries ring' (command_buffer_ c))).
Proof. intros E. unfold CommandBufferHelper.write_entries. by rewrite E. Qed.

(** A command that ends at the last usable entry: [GetSpace] writes the [Jump]
    first, then the command is written before it. *)
Lemma fill_at_end issued l1 l2 c cmd :
  client_ok issued l1 l2 c -> allowed cmd -> command_size cmd < usable ->
  room (reader (command_buffer_ c)) (put_ (helper c)) (command_size cmd) ->
  put_ (helper c) + command_size cmd = usable ->
  exists c1 c2,
    CommandBufferHelper.write_entries usable jump_home
      (with_helper c (with_put_ (helper c) usable)) = Done c1 /\
    CommandBufferHelper.write_entries (put_ (helper c)) (encode cmd)
      (with_helper c1 (with_put_ (helper c1) 0)) = Done c2 /\
    client_ok (issued ++ [cmd]) l1 (l2 ++ [Cmd cmd; Home]) c2.
Proof.
  intros Hc Hcmd Hn (Hu & Hg & Hw) E. pose proof (command_size_pos cmd).
  pose proof (client_small _ _ _ _ _ _ _ _ _ _ _ Hc). pose proof (client_get _ _ _ _ Hc).
  pose proof (client_queue _ _ _ _ _ _ _ _ _ _ _ Hc) as Hq.
  set (p := put_ (helper c)) in *. set (b := command_buffer_ c) in *.
  assert (Hgp : 0 < reader b <= p).
  { destruct (Z.ltb_spec p (reader b)); lia. }
  destruct (client_zwrite issued l1 l2 c usable jump_home) as (ring1 & Hw1 & Hz1 & Hu1);
    [done|lia|change (zlen jump_home) with 2; lia|apply jump_home_words|].
  destruct (set_entries_ok b ring1) as (_ & _ & He & Hre & _); [apply Hc|done|done|].
  assert (Hc1 : client_ok (issued ++ commands []) l1 (l2 ++ [])
                  (mkClient (with_put_ (helper c) p) (cb_set_entries ring1 b))).
  { apply (client_write issued l1 l2 []); try done; [|lia].
    rewrite app_nil_r. eapply queue_write; [done..|]. fold b. lia. }
  rewrite !app_nil_r in Hc1.
  destruct (client_zwrite _ _ _ _ p (encode cmd) Hc1) as (ring2 & Hw2 & Hz2 & Hu2);
    [lia|rewrite zlen_encode; lia|by apply encode_words, allowed_plain|].
  eexists _, _. split; [by apply write_entries_eq|].
  split; [by apply write_entries_eq|]. simpl in *. rewrite He in Hw2.
  change [cmd] with (commands [Cmd cmd; Home]).
  apply (client_write issued l1 l2 [Cmd cmd; Home] _ ring2 0 Hc1); try done; [|lia].
  simpl. rewrite Hre. by apply (queue_append_wrap allowed usable (cb_entries b) ring1 ring2 _ _ p).
Qed.

(** One command through [GetSpace]: no pending command is overwritten, nothing
    outside the ring is, and the command joins the queue. *)
Lemma issue_ok issued l1 l2 c fuel cmd :
  client_ok issued l1 l2 c -> allowed cmd -> command_size cmd < usable ->
  usable <= Z.of_nat fuel ->
  exists l1' l2' c', issue fuel cmd c = Done c' /\
    client_ok (issued ++ [cmd]) l1' l2' c'.
Proof.
  intros Hc Hcmd Hn Hf. unfold issue, CommandBufferHelper.GetSpace.
  pose proof (command_size_pos cmd). pose proof (client_small _ _ _ _ _ _ _ _ _ _ _ Hc).
  rewrite i32_id by (unfold is_i32; lia).
  set (c0 := with_helper c _). assert (Hc0 : client_ok issued l1 l2 c0).
  { by apply client_with_commands_issued. }
  destruct (WaitForAvailableEntries_ok issued l1 l2 c0 fuel (command_size cmd))
    as (l1' & l2' & c1 & -> & Hc1 & Hroom); [done|lia|done|].
  cbn [obind]. pose proof (client_get _ _ _ _ Hc1) as [Hg1 Hp1].
  rewrite i32_id by (unfold is_i32; lia). cbn [put_ with_put_ with_helper helper].
  change (usable_entry_count_ (with_put_ (helper c1) _)) with (usable_entry_count_ (helper c1)).
  rewrite (client_usable _ _ _ _ _ _ _ _ _ _ _ Hc1). exists l1'.
  destruct (Z.eqb_spec (put_ (helper c1) + command_size cmd) usable) as [E|E].
  - destruct (fill_at_end issued l1' l2' c1 cmd) as (c2 & c3 & E2 & E3 & Hc3); [done..|].
    rewrite E, Jump_Init_home, E2. cbn [obind]. rewrite E3. eauto.
  - destruct Hroom as (Hu & Hg & _).
    destruct (client_zwrite _ _ _ _ (put_ (helper c1)) (encode cmd) Hc1)
      as (ring2 & Hw2 & Hz2 & Hu2); [lia|rewrite zlen_encode; lia|by apply encode_words, allowed_plain|].
    cbn [obind]. rewrite (write_entries_eq _ _ _ ring2) by done.
    exists (l2' ++ [Cmd cmd]). eexists. split; [done|].
    unfold with_cb, with_helper. simpl.
    apply (client_write issued l1' l2' [Cmd cmd] c1 ring2); try done; [|lia].
    apply queue_append with (cb_entries (command_buffer_ c1)); try done. apply Hc1.
Qed.

Lemma issue_all_ok fuel cmds issued l1 l2 c :
  client_ok issued l1 l2 c -> Forall allowed cmds ->
  Forall (fun cmd => command_size cmd < usable) cmds -> usable <= Z.of_nat fuel ->
  exists l1' l2' c', issue_all fuel cmds c = Done c' /\
    client_ok (issued ++ cmds) l1' l2' c'.
Proof.
  intros Hc Ha Hs Hf. revert issued l1 l2 c Hc.
  induction cmds as [|cmd cmds IH]; intros issued l1 l2 c Hc; cbn [issue_all].
  - exists l1, l2, c. by rewrite app_nil_r.
  - apply Forall_cons_1 in Ha as [Ha1 Ha]. apply Forall_cons_1 in Hs as [Hs1 Hs].
    destruct (issue_ok _ _ _ _ fuel cmd Hc Ha1 Hs1 Hf) as (l1' & l2' & c1 & -> & Hc1).
    cbn [obind]. destruct (IH Ha Hs _ _ _ _ Hc1) as (l1'' & l2'' & c2 & E & Hc2).
    exists l1'', l2'', c2. by rewrite (cons_middle cmd issued cmds), (assoc_L (++)).
Qed.

(** When the get offset has reached the put offset, every command was executed. *)
Lemma client_drained issued l1 l2 c :
  client_ok issued l1 l2 c -> reader (command_buffer_ c) = put_ (helper c) ->
  l1 = [] /\ l2 = [] /\ did b0 issued (command_buffer_ c).
Proof.
  intros Hc E. pose proof (client_homes _ _ _ _ Hc) as Hh. rewrite E, Z.ltb_irrefl in Hh.
  pose proof Hc as [_ _ _ _ _ _ (Hl & _) (done & Hd & ->)].
  apply layout_length in Hl; [|done].
  assert (Hn : l1 ++ l2 = []) by (apply length_zero_iff_nil; lia).
  rewrite Hn. apply app_nil in Hn as [-> ->]. simpl. by rewrite app_nil_r.
Qed.

Lemma Finish_ok issued l1 l2 c fuel :
  client_ok issued l1 l2 c -> (length (l1 ++ l2) <= fuel)%nat ->
  exists c', CommandBufferHelper.Finish (S fuel) c = Done (true, c') /\
    client_ok issued [] [] c' /\ did b0 issued (command_buffer_ c').
Proof.
  revert l1 l2 c. induction fuel as [|fuel IH]; intros l1 l2 c Hc Hf.
  all: cbn [CommandBufferHelper.Finish].
  all: destruct (FlushSync_ok _ _ _ _ Hc) as (l & c1 & -> & Hc1 & Hp1 & Hl); cbn [obind negb].
  all: destruct (get_offset_ok _ _ _ _ Hc1) as (d & l' & b2 & -> & Hc2 & -> & _).
  all: destruct (Z.eqb_spec (put_ (helper (with_cb c1 b2))) (reader b2)) as [E|E]; cbn [negb].
  all: try (destruct (client_drained _ _ _ _ Hc2) as (-> & _ & Hd); [done|]; by eexists).
  - exfalso. apply E. rewrite length_app in Hl. destruct l' as [|x l']; [|simpl in Hl; lia].
    symmetry. exact (client_empty _ _ Hc2).
  - apply (IH l' []); [done|]. rewrite app_nil_r.
    rewrite length_app in Hl. lia.
Qed.

(** *** Tokens *)

Lemma last_token_read_ok issued l1 l2 c :
  client_ok issued l1 l2 c ->
  exists d l1' b', CommandBufferHelper.last_token_read c = (tok b', with_cb c b') /\
    client_ok issued l1' l2 (with_cb c b') /\ l1 = d ++ l1'.
Proof.
  intros Hc.
  destruct (GetLastState_ok _ _ _ _ Hc) as (d & l1' & st & b' & E & _ & Ht & H1 & H2 & _).
  unfold CommandBufferHelper.last_token_read. rewrite E, Ht. by exists d, l1', b'.
Qed.

(** The reader sets a token at least as high as [t], if one was issued. *)
Lemma WaitForToken_loop_reaches issued t l1 l2 c fuel :
  client_ok issued l1 l2 c -> t <= token_after (tok b0) issued ->
  (length (l1 ++ l2) <= fuel)%nat ->
  exists l1' l2' c', CommandBufferHelper.WaitForToken_loop fuel t c = Done c' /\
    client_ok issued l1' l2' c' /\ t <= tok (command_buffer_ c').
Proof.
  intros Hc Ht. revert l1 l2 c Hc. induction fuel as [|fuel IH]; intros l1 l2 c Hc Hf.
  all: cbn [CommandBufferHelper.WaitForToken_loop].
  all: destruct (last_token_read_ok _ _ _ _ Hc) as (d1 & l1' & b1 & -> & Hc1 & ->).
  all: destruct (Z.ltb_spec (tok b1) t) as [Hlt|Hge]; cbn [negb]; [|by exists l1', l2, (with_cb c b1)].
  - rewrite !length_app in Hf. destruct d1, l1', l2; simpl in Hf; try lia.
    destruct (client_drained _ _ _ _ Hc1 (client_empty _ _ Hc1)) as (_ & _ & Hd).
    simpl in Hd. rewrite (did_token _ _ _ Hd) in Hlt. lia.
  - destruct (get_offset_ok _ _ _ _ Hc1) as (d2 & l1'' & b2 & -> & Hc2 & -> & _).
    destruct (Z.eqb_spec (reader b2) (put_ (helper (with_cb (with_cb c b1) b2)))) as [E|E].
    + destruct (client_drained _ _ _ _ Hc2 E) as (-> & -> & Hd).
      eexists [], [], _. split; [done|]. split; [done|]. by rewrite (did_token _ _ _ Hd).
    + destruct (FlushSync_ok _ _ _ _ Hc2) as (l & c3 & -> & Hc3 & Hp3 & Hl).
      cbn [obind negb]. apply (IH l []); [done|]. rewrite app_nil_r.
      rewrite !length_app in *. lia.
Qed.

Lemma token_after_command t0 i1 t i2 :
  is_i32 t -> tokens_increase t0 (i1 ++ token_command t :: i2) ->
  t <= token_after t0 (i1 ++ token_command t :: i2).
Proof.
  intros Ht [_ Hinc]%tokens_increase_app. rewrite token_after_app.
  cbn [tokens_increase] in Hinc. rewrite as_token_command in Hinc by done.
  destruct Hinc as [_ Hinc%token_after_le].
  unfold token_after at 1. cbn [fold_left]. by rewrite as_token_command.
Qed.

Lemma WaitForToken_loop_ok i1 t i2 l1 l2 c fuel :
  client_ok (i1 ++ token_command t :: i2) l1 l2 c -> is_i32 t ->
  tokens_increase (tok b0) (i1 ++ token_command t :: i2) ->
  (length (l1 ++ l2) <= fuel)%nat ->
  exists l1' l2' c' d, CommandBufferHelper.WaitForToken_loop fuel t c = Done c' /\
    client_ok (i1 ++ token_command t :: i2) l1' l2' c' /\
    did b0 d (command_buffer_ c') /\ (i1 ++ [token_command t]) `prefix_of` d.
Proof.
  intros Hc Ht Hinc Hf.
  destruct (WaitForToken_loop_reaches _ t _ _ _ _ Hc (token_after_command _ _ _ _ Ht Hinc) Hf)
    as (l1' & l2' & c' & E & Hc' & Hge).
  pose proof (client_done _ _ _ _ _ _ _ _ _ _ _ Hc') as (d & Hd & Ed).
  exists l1', l2', c', d. split_and!; [done..|].
  eapply token_reached; [done..|]. by rewrite <- (did_token _ _ _ Hd).
Qed.

(** *** The commands of the helper *)

Definition command_of {T} `{CmdStruct T} (cmd : T) : Command :=
  mkCommand (id_num (kCmdId (T := T))) (cmd_fields cmd).

Lemma command_of_size {T} `{CmdStruct T} {wf} `{!CmdLaws T wf} (cmd : T) :
  4 * command_size (command_of cmd) = cmd_size (T := T).
Proof.
  pose proof (cmd_fields_length cmd). unfold command_size, command_of. cbn [c_args]. lia.
Qed.

(** A fixed-size command is issued as the words of its struct. *)
Lemma put_fixed_issue {T} `{CmdStruct T} {wf} `{!CmdLaws T wf} fuel (cmd : T) c :
  CommandBufferHelper.put_fixed fuel cmd c = issue fuel (command_of cmd) c.
Proof.
  unfold CommandBufferHelper.put_fixed, CommandBufferHelper.GetCmdSpace, issue.
  pose proof (command_of_size cmd) as E.
  destruct (cmd_size_words (T := T)) as (k & Ek & Hk).
  assert (Hn : ComputeNumEntries (cmd_size (T := T)) = command_size (command_of cmd)).
  { rewrite Ek, ComputeNumEntries_words by lia. lia. }
  rewrite Hn. unfold Fixed_Init, encode, SetCmd. by rewrite Hn.
Qed.

Lemma token_command_of t : command_of (mkSetToken t) = token_command t.
Proof. done. Qed.

Lemma token_command_plain t : plain (token_command t).
Proof.
  unfold plain, command_size, zlen. simpl. split_and!; try lia.
  constructor; [apply u32_range|constructor].
Qed.

Lemma InsertToken_issue issued l1 l2 c fuel :
  client_ok issued l1 l2 c -> (forall t, allowed (token_command t)) ->
  2 < usable <= Z.of_nat fuel ->
  0 <= token_ (helper c) < 2 ^ 31 - 1 ->
  let t := token_ (helper c) + 1 in
  exists l1' l2' c', CommandBufferHelper.InsertToken fuel c = Done (t, c') /\
    token_ (helper c') = t /\ client_ok (issued ++ [token_command t]) l1' l2' c'.
Proof.
  intros Hc Hall Hu Ht t. unfold CommandBufferHelper.InsertToken.
  assert (Et : Z.land (token_ (helper c) + 1) 2147483647 = t).
  { change 2147483647 with (Z.ones 31). rewrite Z.land_ones, Z.mod_small; lia. }
  rewrite Et, put_fixed_issue, token_command_of.
  set (c0 := with_helper c _).
  assert (Hc0 : client_ok issued l1 l2 c0) by by apply client_with_token.
  destruct (issue_ok issued l1 l2 c0 fuel (token_command t))
    as (l1' & l2' & c' & E & Hc'); [done|apply Hall|
      change (command_size (token_command t)) with 2; lia|lia|].
  pose proof (issue_token _ _ _ _ E) as Htok. change (token_ (helper c0)) with t in Htok.
  rewrite E. cbn [obind]. bfalse (t =? 0). rewrite Htok. by exists l1', l2', c'.
Qed.

Lemma Initialize_ok block :
  ok b0 -> 1 <= usable < 2 ^ 27 -> usable + 2 <= zlen (cb_entries b0) ->
  ptr (cb_GetRingBuffer b0) = Some block -> reader b0 = sent b0 -> 0 <= sent b0 < usable ->
  exists c, CommandBufferHelper.Initialize (4 * (usable + 2)) (CommandBufferHelper.new b0)
      = (true, c) /\ client_ok [] [] [] c /\ token_ (helper c) = 0.
Proof.
  intros Hok Hu Hz Hp Hr Hs. unfold CommandBufferHelper.Initialize. simpl. rewrite Hp.
  destruct (GetState_reads b0 [] Hok Hr) as (st & b' & d & r & E & Hrd & Hput & Hn).
  rewrite E. destruct Hrd as [Hsp Hlay Hd He Hse Hok'].
  symmetry in Hsp. apply app_nil in Hsp as [-> ->]. simpl in Hlay, Hd.
  assert (En : i32 (usize (4 * (usable + 2)) / 4) = usable + 2).
  { unfold usize. rewrite Z.mod_small by (destruct size_bits_ok as [-> | ->]; lia).
    rewrite Z.mul_comm, Z.div_mul, i32_id by (unfold is_i32; lia). done. }
  rewrite En. bfalse (usable + 2 >? s_num_entries st). eexists. split; [done|].
  split; [|done]. split; simpl; rewrite ?He, ?Hse, ?Hput, <- ?Hlay; try done; try lia.
  - change (8 / 4) with 2. lia.
  - rewrite Hr. apply queue_nil. lia.
  - exists []. by split.
Qed.

End client.

(** ** Properties *)

Section properties.
Context `{Platform} {B : Type} `{!CommandBuffer B}.
Context {allowed : Command -> Prop} {usable : Z} {ok : B -> Prop} {reader sent tok : B -> Z}
  {did : B -> list Command -> B -> Prop}
  `{!CommandBufferLaws B allowed usable ok reader sent tok did}.
Implicit Types c : Client B.
Notation ready := (ready allowed usable ok reader sent did).

(** C14: the helper is a lossless queue.  Issuing a command of fewer entries than
    the usable part of the ring, with a reader that may read at any moment,
    always ends (the waits need at most one flush per usable entry), writes
    nothing outside the ring and nothing over a command the reader has not
    taken, and adds the command at the end of the queue: what the reader has
    done, followed by what is pending, is exactly what was issued, in order. *)
Theorem issue_fifo b0 issued c fuel cmd :
  ready b0 issued c -> allowed cmd -> command_size cmd < usable ->
  usable <= Z.of_nat fuel ->
  exists c', issue fuel cmd c = Done c' /\ ready b0 (issued ++ [cmd]) c'.
Proof.
  intros (l1 & l2 & Hc) Hcmd Hn Hf.
  destruct (issue_ok b0 issued l1 l2 c fuel cmd Hc) as (l1' & l2' & c' & E & Hc'); [done..|].
  exists c'. split; [done|]. by exists l1', l2'.
Qed.

(** C16: [Finish] waits for everything.  It returns true after at most one flush
    per usable entry, and then the reader has executed every command issued. *)
Theorem Finish_executes_all b0 issued c fuel :
  ready b0 issued c -> usable < Z.of_nat fuel ->
  exists c', CommandBufferHelper.Finish fuel c = Done (true, c') /\
    ready b0 issued c' /\ did b0 issued (command_buffer_ c').
Proof.
  intros (l1 & l2 & Hc) Hf. destruct fuel as [|fuel]; [destruct Hc; lia|].
  pose proof (client_length _ _ _ _ _ Hc).
  destruct (Finish_ok b0 issued l1 l2 c fuel Hc) as (c' & E & Hc' & Hd); [lia|].
  exists c'. split; [done|]. split; [by exists [], []|done].
Qed.

(** A token is a fence.  [InsertToken] answers the next token and issues the
    command that sets it (while the 31-bit counter does not wrap). *)
Theorem InsertToken_issues_next b0 issued c fuel :
  ready b0 issued c -> (forall t, allowed (token_command t)) ->
  2 < usable <= Z.of_nat fuel ->
  0 <= token_ (helper c) < 2 ^ 31 - 1 ->
  let t := token_ (helper c) + 1 in
  exists c', CommandBufferHelper.InsertToken fuel c = Done (t, c') /\
    token_ (helper c') = t /\ ready b0 (issued ++ [token_command t]) c'.
Proof.
  intros (l1 & l2 & Hc) Hall Hu Ht t.
  destruct (InsertToken_issue b0 issued l1 l2 c fuel Hc Hall Hu Ht) as (l1' & l2' & c' & ? & ? & ?).
  exists c'. split_and!; [done..|]. by exists l1', l2'.
Qed.

(** C15: waiting for a token waits for every command issued before it.  When
    [WaitForToken] returns, which it does after at most one flush per usable
    entry, the reader has executed all the commands up to and with the one that
    sets the token, whatever was issued after it. *)
Theorem WaitForToken_waits b0 before t after c fuel :
  ready b0 (before ++ token_command t :: after) c ->
  0 <= t <= token_ (helper c) -> is_i32 t ->
  tokens_increase (tok b0) (before ++ token_command t :: after) ->
  usable <= Z.of_nat fuel ->
  exists c' d, CommandBufferHelper.WaitForToken fuel t c = Done c' /\
    ready b0 (before ++ token_command t :: after) c' /\
    did b0 d (command_buffer_ c') /\ (before ++ [token_command t]) `prefix_of` d.
Proof.
  intros (l1 & l2 & Hc) Ht Hi Hinc Hf. unfold CommandBufferHelper.WaitForToken.
  bfalse (t <? 0). bfalse (t >? token_ (helper c)).
  pose proof (client_length _ _ _ _ _ Hc).
  destruct (WaitForToken_loop_ok b0 before t after l1 l2 c fuel Hc Hi Hinc)
    as (l1' & l2' & c' & d & E & Hc' & Hd & Hp); [lia|].
  exists c', d. split_and!; try done. by exists l1', l2'.
Qed.

(** [Initialize] starts the queue empty: on a working command buffer whose
    reader has taken all it was sent, it succeeds for a ring of [usable + 2]
    entries and leaves the client ready with nothing issued. *)
Theorem Initialize_ready b block :
  ok b -> 1 <= usable < 2 ^ 27 -> usable + 2 <= zlen (cb_entries b) ->
  ptr (cb_GetRingBuffer b) = Some block -> reader b = sent b -> 0 <= sent b < usable ->
  exists c, CommandBufferHelper.Initialize (4 * (usable + 2)) (CommandBufferHelper.new b)
      = (true, c) /\ ready b [] c.
Proof.
  intros Hok Hu Hz Hp Hr Hs.
  destruct (Initialize_ok b block Hok Hu Hz Hp Hr Hs) as (c & E & Hc & _).
  exists c. split; [done|]. by exists [], [].
Qed.

End properties.

(** ** When the context is lost *)

(** A command buffer whose service is gone: the get offset it shows stays zero and
    every synchronous flush answers an error. *)
Class LostContext (B : Type) `{CommandBuffer B} (lost : B -> Prop) : Prop := {
  lost_GetLastState b : lost b -> exists st b', cb_GetLastState b = (st, b') /\
    s_get_offset st = 0 /\ lost b' /\ cb_entries b' = cb_entries b;
  lost_FlushSync b p known : lost b -> exists st b', cb_FlushSync p known b = Done (st, b') /\
    s_error st <> kNoError /\ lost b' /\ cb_entries b' = cb_entries b;
  lost_write b ws : lost b -> zlen ws = zlen (cb_entries b) ->
    lost (cb_set_entries ws b) /\ cb_entries (cb_set_entries ws b) = ws;
}.

Section lost.
Context `{Platform} {B : Type} `{!CommandBuffer B} {lost : B -> Prop} `{!LostContext B lost}.
Implicit Types c : Client B.

Lemma lost_get_offset c :
  lost (command_buffer_ c) -> exists c', CommandBufferHelper.get_offset c = (0, c') /\
    lost (command_buffer_ c') /\ helper c' = helper c /\
    cb_entries (command_buffer_ c') = cb_entries (command_buffer_ c).
Proof.
  intros Hl. unfold CommandBufferHelper.get_offset.
  destruct (lost_GetLastState _ Hl) as (st & b' & -> & -> & ? & ?). by eexists.
Qed.

Lemma lost_flush_fails c :
  lost (command_buffer_ c) -> exists c', CommandBufferHelper.FlushSync c = Done (false, c') /\
    lost (command_buffer_ c') /\ put_ (helper c') = put_ (helper c) /\
    usable_entry_count_ (helper c') = usable_entry_count_ (helper c) /\
    cb_entries (command_buffer_ c') = cb_entries (command_buffer_ c).
Proof.
  intros Hl. unfold CommandBufferHelper.FlushSync.
  set (c1 := CommandBufferHelper.note_flush c).
  destruct (lost_get_offset c1) as (c2 & -> & Hl2 & Hh & He); [done|].
  destruct (lost_FlushSync _ (put_ (helper c2)) 0 Hl2) as (st & b' & -> & Hst & ? & He').
  cbn [obind]. rewrite bool_decide_false by done. eexists. split; [done|].
  simpl. rewrite Hh, He', He. done.
Qed.

(** [GetSpace] past the end: the wait gives up, and the put offset grows anyway. *)
Lemma lost_GetSpace c fuel n :
  lost (command_buffer_ c) -> 1 <= put_ (helper c) -> 0 < n < 2 ^ 30 ->
  put_ (helper c) < 2 ^ 30 ->
  usable_entry_count_ (helper c) < put_ (helper c) + n ->
  exists c', CommandBufferHelper.GetSpace (S fuel) n c = Done (put_ (helper c), c') /\
    lost (command_buffer_ c') /\ put_ (helper c') = put_ (helper c) + n /\
    usable_entry_count_ (helper c') = usable_entry_count_ (helper c) /\
    cb_entries (command_buffer_ c') = cb_entries (command_buffer_ c).
Proof.
  intros Hl Hp Hn Hp2 Hu. unfold CommandBufferHelper.GetSpace.
  rewrite i32_id by (unfold is_i32; lia). set (c0 := with_helper c _).
  unfold CommandBufferHelper.WaitForAvailableEntries.
  change (put_ (helper c0)) with (put_ (helper c)).
  change (usable_entry_count_ (helper c0)) with (usable_entry_count_ (helper c)).
  btrue (put_ (helper c) + n >? usable_entry_count_ (helper c)).
  assert (Hc0 : lost (command_buffer_ c0)) by done.
  assert (Hcond : forall c1, lost (command_buffer_ c1) -> 1 <= put_ (helper c1) ->
    exists c2, CommandBufferHelper.must_wrap_later c1 = (true, c2) /\
      lost (command_buffer_ c2) /\ helper c2 = helper c1 /\
      cb_entries (command_buffer_ c2) = cb_entries (command_buffer_ c1)).
  { intros c1 Hl1 Hp1. unfold CommandBufferHelper.must_wrap_later.
    destruct (lost_get_offset c1 Hl1) as (c2 & -> & Hl2 & Hh2 & He2).
    assert (1 <= put_ (helper c2)) by (rewrite Hh2; lia). bfalse (0 >? put_ (helper c2)).
    destruct (lost_get_offset c2 Hl2) as (c3 & -> & Hl3 & Hh3 & He3).
    exists c3. split_and!; try done; congruence. }
  unfold CommandBufferHelper.wait_while at 1.
  destruct (Hcond c0 Hc0 Hp) as (c1 & -> & Hl1 & Hh1 & He1).
  cbn [CommandBufferHelper.flush_while].
  destruct (Hcond c1 Hl1) as (c2 & -> & Hl2 & Hh2 & He2); [by rewrite Hh1|]. cbn [negb].
  destruct (lost_flush_fails c2 Hl2) as (c3 & -> & Hl3 & Hp3 & Hu3 & He3).
  cbn [obind negb]. rewrite Hp3, Hh2, Hh1. change (put_ (helper c0)) with (put_ (helper c)).
  rewrite i32_id by (unfold is_i32; lia). cbn [helper with_helper with_put_ put_].
  change (usable_entry_count_ (with_put_ (helper c3) _)) with (usable_entry_count_ (helper c3)).
  rewrite Hu3, Hh2, Hh1.
  change (usable_entry_count_ (helper c0)) with (usable_entry_count_ (helper c)).
  bfalse (put_ (helper c) + n =? usable_entry_count_ (helper c)).
  eexists. split; [done|]. simpl. rewrite Hu3, Hh2, Hh1, He3, He2, He1. done.
Qed.

(** After the context is lost the helper writes outside the ring buffer.  With
    the get offset stuck at zero, a command that does not fit before the end is
    placed there all the same and the put offset grows past the ring: two
    commands of three entries, the first from the last usable entry, are enough
    for the second to be written past the end of the ring buffer memory. *)
Theorem lost_context_overruns_ring c fuel cmd1 cmd2 :
  lost (command_buffer_ c) -> 2 <= usable_entry_count_ (helper c) < 2 ^ 20 ->
  zlen (cb_entries (command_buffer_ c)) = usable_entry_count_ (helper c) + 2 ->
  put_ (helper c) = usable_entry_count_ (helper c) - 1 ->
  command_size cmd1 = 3 -> command_size cmd2 = 3 ->
  exists c1, issue (S fuel) cmd1 c = Done c1 /\ issue (S fuel) cmd2 c1 = UB.
Proof.
  intros Hl Hu Hz Hp H1 H2. unfold issue. rewrite H1, H2.
  destruct (lost_GetSpace c fuel 3 Hl) as (c1 & -> & Hl1 & Hp1 & Hu1 & He1); [lia..|].
  cbn [obind].
  destruct (zwrite_Some (cb_entries (command_buffer_ c1)) (encode cmd1) (put_ (helper c)))
    as (ring & Hw & Hz1); [lia|rewrite zlen_encode, He1; lia|].
  rewrite (write_entries_eq _ _ _ ring Hw). eexists. split; [done|].
  destruct (lost_write _ ring Hl1 Hz1) as [Hl2 He2].
  set (c2 := with_cb c1 _) in *.
  destruct (lost_GetSpace c2 fuel 3 Hl2) as (c3 & -> & Hl3 & Hp3 & Hu3 & He3);
    [simpl; lia..|].
  cbn [obind]. unfold CommandBufferHelper.write_entries, zwrite.
  rewrite zlen_encode, He3. simpl. rewrite He2, Hz1, He1.
  by bfalse ((0 <=? put_ (helper c1))
    && (put_ (helper c1) + command_size cmd2 <=? zlen (cb_entries (command_buffer_ c)))).
Qed.

End lost.

(** The [Noop] of the helper is one entry short: it takes [skip_count + 1]
    entries of the ring but its header only covers [skip_count], so the reader
    takes the last entry, which nobody wrote, for the header of a command. *)
Theorem Noop_header_one_short `{Platform} {B} `{!CommandBuffer B} fuel skip_count
    (c c' : Client B) space :
  0 < skip_count < 2 ^ 20 -> 0 <= put_ (helper c') ->
  usable_entry_count_ (helper c') < 2 ^ 21 -> 0 <= space < 2 ^ 21 ->
  CommandBufferHelper.GetImmediateCmdSpace CmdFormat.Noop fuel (usize (skip_count * 4)) c
    = Done (space, c') ->
  h_size (value_header (hd 0 (Noop_Init skip_count))) = skip_count /\
  (put_ (helper c') = space + (skip_count + 1) \/ put_ (helper c') = 0).
Proof.
  intros Hs Hp Hu Hsp E. split.
  - unfold Noop_Init. simpl hd. rewrite i32_id by (unfold is_i32; lia).
    rewrite value_header_Init; simpl; lia.
  - unfold CommandBufferHelper.GetImmediateCmdSpace, CommandBufferHelper.GetSpace in E.
    assert (En : ComputeNumEntries (usize (cmd_size (T := CmdFormat.Noop)
              + usize (skip_count * 4))) = skip_count + 1).
    { unfold usize. simpl cmd_size.
      assert (2 ^ 32 <= 2 ^ size_bits) by (destruct size_bits_ok as [-> | ->]; lia).
      rewrite (Z.mod_small (skip_count * 4)), Z.mod_small by lia.
      replace (4 + skip_count * 4) with (4 * (skip_count + 1)) by lia.
      apply ComputeNumEntries_words. lia. }
    rewrite En in E.
    destruct (CommandBufferHelper.WaitForAvailableEntries _ _ _) as [c1| |]; [|done..].
    cbn [obind] in E. destruct (_ =? _).
    + destruct (CommandBufferHelper.write_entries _ _ _) as [c2| |]; [|done..].
      injection E as _ <-. by right.
    + injection E as <- <-. left. simpl in *. rewrite i32_id; [done|unfold is_i32; lia].
Qed.
