(* ===== verification/GLES2CmdHelper.v ===== *)
(** * The helper of GLES2 commands

    [gpu/command_buffer/client/gles2_cmd_helper.h] and [gles2_cmd_helper_autogen.h]: a method
    per command, which takes space in the ring buffer and lets the struct's [Init] fill it. *)

From S2P Require Import Prelude CmdFormat GLES2Format GLES2Commands CommandBufferService RingProtocol CmdBufferHelper.
From Stdlib Require Import ZArith Lia ZifyBool Bool.
From stdpp Require Import base list numbers option strings.
Local Open Scope Z_scope.

Section helper.
Context `{Platform} {B : Type} `{CommandBuffer B}.
Implicit Types (c : Struct) (args data : list Z) (client : Client B).

(** What a method gives to [Init]: [BindAttribLocationImmediate] takes the length of the name
    itself. *)
Definition init_args c args data : outcome (list Z) :=
  match s_tail c with
  | BytesOf _ => (do n <- of_option (strlen data) ;; Done (args ++ [u32 n]))%gpu
  | _ => Done args
  end.

(** The entries a method asks for: [GetCmdSpace], [GetImmediateCmdSpace] and
    [GetImmediateCmdSpaceTotalSize].  Where data has no size that the method knows, it asks for
    0 bytes: "TODO(gman): compute correct size". *)
Definition entries_needed c args data : outcome Z :=
  match s_tail c with
  | NoTail => Done (ComputeNumEntries (sizeof c))
  | BytesOf _ =>
      (do n <- of_option (strlen data) ;; Done (ComputeNumEntries (usize (sizeof c + u32 n))))%gpu
  | RoomFor _ | NoSize => Done (ComputeNumEntries 0)
  | _ => (do size <- ComputeSize c args data ;; Done (ComputeNumEntries size))%gpu
  end.

(** [c.Init(...)] on the command at the entry [space]. *)
Definition Init_at (space : Z) c args data client : outcome (Client B) :=
  let ring := cb_entries (command_buffer_ client) in
  (do entries <- of_option (zread ring space (zlen ring - space)) ;;
   do entries <- Init c args data entries ;;
   Done (with_cb client (cb_set_entries (take (Z.to_nat space) ring ++ entries) (command_buffer_ client))))%gpu.

Definition put_command (fuel : nat) c args data client : outcome (Client B) :=
  (do n <- entries_needed c args data ;;
   do (space, client) <- CommandBufferHelper.GetSpace fuel n client ;;
   do args <- init_args c args data ;;
   Init_at space c args data client)%gpu.

End helper.

(** ** The methods *)

Module methods.
Section methods.
Context `{Platform} {B : Type} `{CommandBuffer B}.
Implicit Types client : Client B.

Definition ActiveTexture fuel (texture : Z) client :=
  put_command fuel cmds.ActiveTexture [texture] [] client.
Definition AttachShader fuel (program shader : Z) client :=
  put_command fuel cmds.AttachShader [program; shader] [] client.
Definition BindAttribLocation fuel (program index name_shm_id name_shm_offset data_size : Z)
    client :=
  put_command fuel cmds.BindAttribLocation [program; index; name_shm_id; name_shm_offset;
    data_size] [] client.
Definition BindAttribLocationImmediate fuel (program index : Z) (name : list Z) client :=
  put_command fuel cmds.BindAttribLocationImmediate [program; index] name client.
Definition BindAttribLocationBucket fuel (program index name_bucket_id : Z) client :=
  put_command fuel cmds.BindAttribLocationBucket [program; index; name_bucket_id] [] client.
Definition BindBuffer fuel (target buffer : Z) client :=
  put_command fuel cmds.BindBuffer [target; buffer] [] client.
Definition BindFramebuffer fuel (target framebuffer : Z) client :=
  put_command fuel cmds.BindFramebuffer [target; framebuffer] [] client.
Definition BindRenderbuffer fuel (target renderbuffer : Z) client :=
  put_command fuel cmds.BindRenderbuffer [target; renderbuffer] [] client.
Definition BindTexture fuel (target texture : Z) client :=
  put_command fuel cmds.BindTexture [target; texture] [] client.
Definition BlendColor fuel (red green blue alpha : Z) client :=
  put_command fuel cmds.BlendColor [red; green; blue; alpha] [] client.
Definition BlendEquation fuel (mode : Z) client :=
  put_command fuel cmds.BlendEquation [mode] [] client.
Definition BlendEquationSeparate fuel (modeRGB modeAlpha : Z) client :=
  put_command fuel cmds.BlendEquationSeparate [modeRGB; modeAlpha] [] client.
Definition BlendFunc fuel (sfactor dfactor : Z) client :=
  put_command fuel cmds.BlendFunc [sfactor; dfactor] [] client.
Definition BlendFuncSeparate fuel (srcRGB dstRGB srcAlpha dstAlpha : Z) client :=
  put_command fuel cmds.BlendFuncSeparate [srcRGB; dstRGB; srcAlpha; dstAlpha] [] client.
Definition BufferData fuel (target size data_shm_id data_shm_offset usage : Z) client :=
  put_command fuel cmds.BufferData [target; size; data_shm_id; data_shm_offset; usage] [] client.
Definition BufferDataImmediate fuel (target size usage : Z) client :=
  put_command fuel cmds.BufferDataImmediate [target; size; usage] [] client.
Definition BufferSubData fuel (target offset size data_shm_id data_shm_offset : Z) client :=
  put_command fuel cmds.BufferSubData [target; offset; size; data_shm_id; data_shm_offset] []
    client.
Definition BufferSubDataImmediate fuel (target offset size : Z) client :=
  put_command fuel cmds.BufferSubDataImmediate [target; offset; size] [] client.
Definition CheckFramebufferStatus fuel (target result_shm_id result_shm_offset : Z) client :=
  put_command fuel cmds.CheckFramebufferStatus [target; result_shm_id; result_shm_offset] []
    client.
Definition Clear fuel (mask : Z) client := put_command fuel cmds.Clear [mask] [] client.
Definition ClearColor fuel (red green blue alpha : Z) client :=
  put_command fuel cmds.ClearColor [red; green; blue; alpha] [] client.
Definition ClearDepthf fuel (depth : Z) client :=
  put_command fuel cmds.ClearDepthf [depth] [] client.
Definition ClearStencil fuel (s : Z) client := put_command fuel cmds.ClearStencil [s] [] client.
Definition ColorMask fuel (red green blue alpha : Z) client :=
  put_command fuel cmds.ColorMask [red; green; blue; alpha] [] client.
Definition CompileShader fuel (shader : Z) client :=
  put_command fuel cmds.CompileShader [shader] [] client.
Definition CompressedTexImage2D fuel (target level internalformat width height border imageSize
    data_shm_id data_shm_offset : Z) client :=
  put_command fuel cmds.CompressedTexImage2D [target; level; internalformat; width; height;
    border; imageSize; data_shm_id; data_shm_offset] [] client.
Definition CompressedTexImage2DImmediate fuel (target level internalformat width height border
    imageSize : Z) client :=
  put_command fuel cmds.CompressedTexImage2DImmediate [target; level; internalformat; width;
    height; border; imageSize] [] client.
Definition CompressedTexImage2DBucket fuel (target level internalformat width height border
    bucket_id : Z) client :=
  put_command fuel cmds.CompressedTexImage2DBucket [target; level; internalformat; width; height;
    border; bucket_id] [] client.
Definition CompressedTexSubImage2D fuel (target level xoffset yoffset width height format
    imageSize data_shm_id data_shm_offset : Z) client :=
  put_command fuel cmds.CompressedTexSubImage2D [target; level; xoffset; yoffset; width; height;
    format; imageSize; data_shm_id; data_shm_offset] [] client.
Definition CompressedTexSubImage2DImmediate fuel (target level xoffset yoffset width height
    format imageSize : Z) client :=
  put_command fuel cmds.CompressedTexSubImage2DImmediate [target; level; xoffset; yoffset; width;
    height; format; imageSize] [] client.
Definition CompressedTexSubImage2DBucket fuel (target level xoffset yoffset width height format
    bucket_id : Z) client :=
  put_command fuel cmds.CompressedTexSubImage2DBucket [target; level; xoffset; yoffset; width;
    height; format; bucket_id] [] client.
Definition CopyTexImage2D fuel (target level internalformat x y width height border : Z) client :=
  put_command fuel cmds.CopyTexImage2D [target; level; internalformat; x; y; width; height;
    border] [] client.
Definition CopyTexSubImage2D fuel (target level xoffset yoffset x y width height : Z) client :=
  put_command fuel cmds.CopyTexSubImage2D [target; level; xoffset; yoffset; x; y; width; height]
    [] client.
Definition CreateProgram fuel (client_id : Z) client :=
  put_command fuel cmds.CreateProgram [client_id] [] client.
Definition CreateShader fuel (type client_id : Z) client :=
  put_command fuel cmds.CreateShader [type; client_id] [] client.
Definition CullFace fuel (mode : Z) client := put_command fuel cmds.CullFace [mode] [] client.
Definition DeleteBuffers fuel (n buffers_shm_id buffers_shm_offset : Z) client :=
  put_command fuel cmds.DeleteBuffers [n; buffers_shm_id; buffers_shm_offset] [] client.
Definition DeleteBuffersImmediate fuel (n : Z) (buffers : list Z) client :=
  put_command fuel cmds.DeleteBuffersImmediate [n] buffers client.
Definition DeleteFramebuffers fuel (n framebuffers_shm_id framebuffers_shm_offset : Z) client :=
  put_command fuel cmds.DeleteFramebuffers [n; framebuffers_shm_id; framebuffers_shm_offset] []
    client.
Definition DeleteFramebuffersImmediate fuel (n : Z) (framebuffers : list Z) client :=
  put_command fuel cmds.DeleteFramebuffersImmediate [n] framebuffers client.
Definition DeleteProgram fuel (program : Z) client :=
  put_command fuel cmds.DeleteProgram [program] [] client.
Definition DeleteRenderbuffers fuel (n renderbuffers_shm_id renderbuffers_shm_offset : Z) client
    :=
  put_command fuel cmds.DeleteRenderbuffers [n; renderbuffers_shm_id; renderbuffers_shm_offset]
    [] client.
Definition DeleteRenderbuffersImmediate fuel (n : Z) (renderbuffers : list Z) client :=
  put_command fuel cmds.DeleteRenderbuffersImmediate [n] renderbuffers client.
Definition DeleteShader fuel (shader : Z) client :=
  put_command fuel cmds.DeleteShader [shader] [] client.
Definition DeleteTextures fuel (n textures_shm_id textures_shm_offset : Z) client :=
  put_command fuel cmds.DeleteTextures [n; textures_shm_id; textures_shm_offset] [] client.
Definition DeleteTexturesImmediate fuel (n : Z) (textures : list Z) client :=
  put_command fuel cmds.DeleteTexturesImmediate [n] textures client.
Definition DepthFunc fuel (func : Z) client := put_command fuel cmds.DepthFunc [func] [] client.
Definition DepthMask fuel (flag : Z) client := put_command fuel cmds.DepthMask [flag] [] client.
Definition DepthRangef fuel (zNear zFar : Z) client :=
  put_command fuel cmds.DepthRangef [zNear; zFar] [] client.
Definition DetachShader fuel (program shader : Z) client :=
  put_command fuel cmds.DetachShader [program; shader] [] client.
Definition Disable fuel (cap : Z) client := put_command fuel cmds.Disable [cap] [] client.
Definition DisableVertexAttribArray fuel (index : Z) client :=
  put_command fuel cmds.DisableVertexAttribArray [index] [] client.
Definition DrawArrays fuel (mode first count : Z) client :=
  put_command fuel cmds.DrawArrays [mode; first; count] [] client.
Definition DrawElements fuel (mode count type index_offset : Z) client :=
  put_command fuel cmds.DrawElements [mode; count; type; index_offset] [] client.
Definition Enable fuel (cap : Z) client := put_command fuel cmds.Enable [cap] [] client.
Definition EnableVertexAttribArray fuel (index : Z) client :=
  put_command fuel cmds.EnableVertexAttribArray [index] [] client.
Definition Finish fuel client := put_command fuel cmds.Finish [] [] client.
Definition Flush fuel client := put_command fuel cmds.Flush [] [] client.
Definition FramebufferRenderbuffer fuel (target attachment renderbuffertarget renderbuffer : Z)
    client :=
  put_command fuel cmds.FramebufferRenderbuffer [target; attachment; renderbuffertarget;
    renderbuffer] [] client.
Definition FramebufferTexture2D fuel (target attachment textarget texture level : Z) client :=
  put_command fuel cmds.FramebufferTexture2D [target; attachment; textarget; texture; level] []
    client.
Definition FrontFace fuel (mode : Z) client := put_command fuel cmds.FrontFace [mode] [] client.
Definition GenBuffers fuel (n buffers_shm_id buffers_shm_offset : Z) client :=
  put_command fuel cmds.GenBuffers [n; buffers_shm_id; buffers_shm_offset] [] client.
Definition GenBuffersImmediate fuel (n : Z) (buffers : list Z) client :=
  put_command fuel cmds.GenBuffersImmediate [n] buffers client.
Definition GenerateMipmap fuel (target : Z) client :=
  put_command fuel cmds.GenerateMipmap [target] [] client.
Definition GenFramebuffers fuel (n framebuffers_shm_id framebuffers_shm_offset : Z) client :=
  put_command fuel cmds.GenFramebuffers [n; framebuffers_shm_id; framebuffers_shm_offset] []
    client.
Definition GenFramebuffersImmediate fuel (n : Z) (framebuffers : list Z) client :=
  put_command fuel cmds.GenFramebuffersImmediate [n] framebuffers client.
Definition GenRenderbuffers fuel (n renderbuffers_shm_id renderbuffers_shm_offset : Z) client :=
  put_command fuel cmds.GenRenderbuffers [n; renderbuffers_shm_id; renderbuffers_shm_offset] []
    client.
Definition GenRenderbuffersImmediate fuel (n : Z) (renderbuffers : list Z) client :=
  put_command fuel cmds.GenRenderbuffersImmediate [n] renderbuffers client.
Definition GenTextures fuel (n textures_shm_id textures_shm_offset : Z) client :=
  put_command fuel cmds.GenTextures [n; textures_shm_id; textures_shm_offset] [] client.
Definition GenTexturesImmediate fuel (n : Z) (textures : list Z) client :=
  put_command fuel cmds.GenTexturesImmediate [n] textures client.
Definition GetActiveAttrib fuel (program index name_bucket_id result_shm_id result_shm_offset :
    Z) client :=
  put_command fuel cmds.GetActiveAttrib [program; index; name_bucket_id; result_shm_id;
    result_shm_offset] [] client.
Definition GetActiveUniform fuel (program index name_bucket_id result_shm_id result_shm_offset :
    Z) client :=
  put_command fuel cmds.GetActiveUniform [program; index; name_bucket_id; result_shm_id;
    result_shm_offset] [] client.
Definition GetAttachedShaders fuel (program result_shm_id result_shm_offset result_size : Z)
    client :=
  put_command fuel cmds.GetAttachedShaders [program; result_shm_id; result_shm_offset;
    result_size] [] client.
Definition GetBooleanv fuel (pname params_shm_id params_shm_offset : Z) client :=
  put_command fuel cmds.GetBooleanv [pname; params_shm_id; params_shm_offset] [] client.
Definition GetBufferParameteriv fuel (target pname params_shm_id params_shm_offset : Z) client :=
  put_command fuel cmds.GetBufferParameteriv [target; pname; params_shm_id; params_shm_offset] []
    client.
Definition GetError fuel (result_shm_id result_shm_offset : Z) client :=
  put_command fuel cmds.GetError [result_shm_id; result_shm_offset] [] client.
Definition GetFloatv fuel (pname params_shm_id params_shm_offset : Z) client :=
  put_command fuel cmds.GetFloatv [pname; params_shm_id; params_shm_offset] [] client.
Definition GetFramebufferAttachmentParameteriv fuel (target attachment pname params_shm_id
    params_shm_offset : Z) client :=
  put_command fuel cmds.GetFramebufferAttachmentParameteriv [target; attachment; pname;
    params_shm_id; params_shm_offset] [] client.
Definition GetIntegerv fuel (pname params_shm_id params_shm_offset : Z) client :=
  put_command fuel cmds.GetIntegerv [pname; params_shm_id; params_shm_offset] [] client.
Definition GetProgramiv fuel (program pname params_shm_id params_shm_offset : Z) client :=
  put_command fuel cmds.GetProgramiv [program; pname; params_shm_id; params_shm_offset] [] client.
Definition GetProgramInfoLog fuel (program bucket_id : Z) client :=
  put_command fuel cmds.GetProgramInfoLog [program; bucket_id] [] client.
Definition GetRenderbufferParameteriv fuel (target pname params_shm_id params_shm_offset : Z)
    client :=
  put_command fuel cmds.GetRenderbufferParameteriv [target; pname; params_shm_id;
    params_shm_offset] [] client.
Definition GetShaderiv fuel (shader pname params_shm_id params_shm_offset : Z) client :=
  put_command fuel cmds.GetShaderiv [shader; pname; params_shm_id; params_shm_offset] [] client.
Definition GetShaderInfoLog fuel (shader bucket_id : Z) client :=
  put_command fuel cmds.GetShaderInfoLog [shader; bucket_id] [] client.
Definition GetShaderPrecisionFormat fuel (shadertype precisiontype result_shm_id
    result_shm_offset : Z) client :=
  put_command fuel cmds.GetShaderPrecisionFormat [shadertype; precisiontype; result_shm_id;
    result_shm_offset] [] client.
Definition GetShaderSource fuel (shader bucket_id : Z) client :=
  put_command fuel cmds.GetShaderSource [shader; bucket_id] [] client.
Definition GetString fuel (name bucket_id : Z) client :=
  put_command fuel cmds.GetString [name; bucket_id] [] client.
Definition GetTexParameterfv fuel (target pname params_shm_id params_shm_offset : Z) client :=
  put_command fuel cmds.GetTexParameterfv [target; pname; params_shm_id; params_shm_offset] []
    client.
Definition GetTexParameteriv fuel (target pname params_shm_id params_shm_offset : Z) client :=
  put_command fuel cmds.GetTexParameteriv [target; pname; params_shm_id; params_shm_offset] []
    client.
Definition GetUniformfv fuel (program location params_shm_id params_shm_offset : Z) client :=
  put_command fuel cmds.GetUniformfv [program; location; params_shm_id; params_shm_offset] []
    client.
Definition GetUniformiv fuel (program location params_shm_id params_shm_offset : Z) client :=
  put_command fuel cmds.GetUniformiv [program; location; params_shm_id; params_shm_offset] []
    client.
Definition GetVertexAttribfv fuel (index pname params_shm_id params_shm_offset : Z) client :=
  put_command fuel cmds.GetVertexAttribfv [index; pname; params_shm_id; params_shm_offset] []
    client.
Definition GetVertexAttribiv fuel (index pname params_shm_id params_shm_offset : Z) client :=
  put_command fuel cmds.GetVertexAttribiv [index; pname; params_shm_id; params_shm_offset] []
    client.
Definition GetVertexAttribPointerv fuel (index pname pointer_shm_id pointer_shm_offset : Z)
    client :=
  put_command fuel cmds.GetVertexAttribPointerv [index; pname; pointer_shm_id;
    pointer_shm_offset] [] client.
Definition Hint fuel (target mode : Z) client :=
  put_command fuel cmds.Hint [target; mode] [] client.
Definition IsBuffer fuel (buffer result_shm_id result_shm_offset : Z) client :=
  put_command fuel cmds.IsBuffer [buffer; result_shm_id; result_shm_offset] [] client.
Definition IsEnabled fuel (cap result_shm_id result_shm_offset : Z) client :=
  put_command fuel cmds.IsEnabled [cap; result_shm_id; result_shm_offset] [] client.
Definition IsFramebuffer fuel (framebuffer result_shm_id result_shm_offset : Z) client :=
  put_command fuel cmds.IsFramebuffer [framebuffer; result_shm_id; result_shm_offset] [] client.
Definition IsProgram fuel (program result_shm_id result_shm_offset : Z) client :=
  put_command fuel cmds.IsProgram [program; result_shm_id; result_shm_offset] [] client.
Definition IsRenderbuffer fuel (renderbuffer result_shm_id result_shm_offset : Z) client :=
  put_command fuel cmds.IsRenderbuffer [renderbuffer; result_shm_id; result_shm_offset] [] client.
Definition IsShader fuel (shader result_shm_id result_shm_offset : Z) client :=
  put_command fuel cmds.IsShader [shader; result_shm_id; result_shm_offset] [] client.
Definition IsTexture fuel (texture result_shm_id result_shm_offset : Z) client :=
  put_command fuel cmds.IsTexture [texture; result_shm_id; result_shm_offset] [] client.
Definition LineWidth fuel (width : Z) client := put_command fuel cmds.LineWidth [width] [] client.
Definition LinkProgram fuel (program : Z) client :=
  put_command fuel cmds.LinkProgram [program] [] client.
Definition PixelStorei fuel (pname param : Z) client :=
  put_command fuel cmds.PixelStorei [pname; param] [] client.
Definition PolygonOffset fuel (factor units : Z) client :=
  put_command fuel cmds.PolygonOffset [factor; units] [] client.
Definition ReadPixels fuel (x y width height format type pixels_shm_id pixels_shm_offset
    result_shm_id result_shm_offset : Z) client :=
  put_command fuel cmds.ReadPixels [x; y; width; height; format; type; pixels_shm_id;
    pixels_shm_offset; result_shm_id; result_shm_offset] [] client.
Definition ReleaseShaderCompiler fuel client :=
  put_command fuel cmds.ReleaseShaderCompiler [] [] client.
Definition RenderbufferStorage fuel (target internalformat width height : Z) client :=
  put_command fuel cmds.RenderbufferStorage [target; internalformat; width; height] [] client.
Definition SampleCoverage fuel (value invert : Z) client :=
  put_command fuel cmds.SampleCoverage [value; invert] [] client.
Definition Scissor fuel (x y width height : Z) client :=
  put_command fuel cmds.Scissor [x; y; width; height] [] client.
Definition ShaderBinary fuel (n shaders_shm_id shaders_shm_offset binaryformat binary_shm_id
    binary_shm_offset length : Z) client :=
  put_command fuel cmds.ShaderBinary [n; shaders_shm_id; shaders_shm_offset; binaryformat;
    binary_shm_id; binary_shm_offset; length] [] client.
Definition ShaderSource fuel (shader data_shm_id data_shm_offset data_size : Z) client :=
  put_command fuel cmds.ShaderSource [shader; data_shm_id; data_shm_offset; data_size] [] client.
Definition ShaderSourceImmediate fuel (shader data_size : Z) client :=
  put_command fuel cmds.ShaderSourceImmediate [shader; data_size] [] client.
Definition ShaderSourceBucket fuel (shader data_bucket_id : Z) client :=
  put_command fuel cmds.ShaderSourceBucket [shader; data_bucket_id] [] client.
Definition StencilFunc fuel (func ref mask : Z) client :=
  put_command fuel cmds.StencilFunc [func; ref; mask] [] client.
Definition StencilFuncSeparate fuel (face func ref mask : Z) client :=
  put_command fuel cmds.StencilFuncSeparate [face; func; ref; mask] [] client.
Definition StencilMask fuel (mask : Z) client :=
  put_command fuel cmds.StencilMask [mask] [] client.
Definition StencilMaskSeparate fuel (face mask : Z) client :=
  put_command fuel cmds.StencilMaskSeparate [face; mask] [] client.
Definition StencilOp fuel (fail zfail zpass : Z) client :=
  put_command fuel cmds.StencilOp [fail; zfail; zpass] [] client.
Definition StencilOpSeparate fuel (face fail zfail zpass : Z) client :=
  put_command fuel cmds.StencilOpSeparate [face; fail; zfail; zpass] [] client.
Definition TexImage2D fuel (target level internalformat width height border format type
    pixels_shm_id pixels_shm_offset : Z) client :=
  put_command fuel cmds.TexImage2D [target; level; internalformat; width; height; border; format;
    type; pixels_shm_id; pixels_shm_offset] [] client.
Definition TexImage2DImmediate fuel (target level internalformat width height border format type
    : Z) client :=
  put_command fuel cmds.TexImage2DImmediate [target; level; internalformat; width; height;
    border; format; type] [] client.
Definition TexParameterf fuel (target pname param : Z) client :=
  put_command fuel cmds.TexParameterf [target; pname; param] [] client.
Definition TexParameterfv fuel (target pname params_shm_id params_shm_offset : Z) client :=
  put_command fuel cmds.TexParameterfv [target; pname; params_shm_id; params_shm_offset] []
    client.
Definition TexParameterfvImmediate fuel (target pname : Z) (params : list Z) client :=
  put_command fuel cmds.TexParameterfvImmediate [target; pname] params client.
Definition TexParameteri fuel (target pname param : Z) client :=
  put_command fuel cmds.TexParameteri [target; pname; param] [] client.
Definition TexParameteriv fuel (target pname params_shm_id params_shm_offset : Z) client :=
  put_command fuel cmds.TexParameteriv [target; pname; params_shm_id; params_shm_offset] []
    client.
Definition TexParameterivImmediate fuel (target pname : Z) (params : list Z) client :=
  put_command fuel cmds.TexParameterivImmediate [target; pname] params client.
Definition TexSubImage2D fuel (target level xoffset yoffset width height format type
    pixels_shm_id pixels_shm_offset internal : Z) client :=
  put_command fuel cmds.TexSubImage2D [target; level; xoffset; yoffset; width; height; format;
    type; pixels_shm_id; pixels_shm_offset; internal] [] client.
Definition TexSubImage2DImmediate fuel (target level xoffset yoffset width height format type
    internal : Z) client :=
  put_command fuel cmds.TexSubImage2DImmediate [target; level; xoffset; yoffset; width; height;
    format; type; internal] [] client.
Definition Uniform1f fuel (location x : Z) client :=
  put_command fuel cmds.Uniform1f [location; x] [] client.
Definition Uniform1fv fuel (location count v_shm_id v_shm_offset : Z) client :=
  put_command fuel cmds.Uniform1fv [location; count; v_shm_id; v_shm_offset] [] client.
Definition Uniform1fvImmediate fuel (location count : Z) (v : list Z) client :=
  put_command fuel cmds.Uniform1fvImmediate [location; count] v client.
Definition Uniform1i fuel (location x : Z) client :=
  put_command fuel cmds.Uniform1i [location; x] [] client.
Definition Uniform1iv fuel (location count v_shm_id v_shm_offset : Z) client :=
  put_command fuel cmds.Uniform1iv [location; count; v_shm_id; v_shm_offset] [] client.
Definition Uniform1ivImmediate fuel (location count : Z) (v : list Z) client :=
  put_command fuel cmds.Uniform1ivImmediate [location; count] v client.
Definition Uniform2f fuel (location x y : Z) client :=
  put_command fuel cmds.Uniform2f [location; x; y] [] client.
Definition Uniform2fv fuel (location count v_shm_id v_shm_offset : Z) client :=
  put_command fuel cmds.Uniform2fv [location; count; v_shm_id; v_shm_offset] [] client.
Definition Uniform2fvImmediate fuel (location count : Z) (v : list Z) client :=
  put_command fuel cmds.Uniform2fvImmediate [location; count] v client.
Definition Uniform2i fuel (location x y : Z) client :=
  put_command fuel cmds.Uniform2i [location; x; y] [] client.
Definition Uniform2iv fuel (location count v_shm_id v_shm_offset : Z) client :=
  put_command fuel cmds.Uniform2iv [location; count; v_shm_id; v_shm_offset] [] client.
Definition Uniform2ivImmediate fuel (location count : Z) (v : list Z) client :=
  put_command fuel cmds.Uniform2ivImmediate [location; count] v client.
Definition Uniform3f fuel (location x y z : Z) client :=
  put_command fuel cmds.Uniform3f [location; x; y; z] [] client.
Definition Uniform3fv fuel (location count v_shm_id v_shm_offset : Z) client :=
  put_command fuel cmds.Uniform3fv [location; count; v_shm_id; v_shm_offset] [] client.
Definition Uniform3fvImmediate fuel (location count : Z) (v : list Z) client :=
  put_command fuel cmds.Uniform3fvImmediate [location; count] v client.
Definition Uniform3i fuel (location x y z : Z) client :=
  put_command fuel cmds.Uniform3i [location; x; y; z] [] client.
Definition Uniform3iv fuel (location count v_shm_id v_shm_offset : Z) client :=
  put_command fuel cmds.Uniform3iv [location; count; v_shm_id; v_shm_offset] [] client.
Definition Uniform3ivImmediate fuel (location count : Z) (v : list Z) client :=
  put_command fuel cmds.Uniform3ivImmediate [location; count] v client.
Definition Uniform4f fuel (location x y z w : Z) client :=
  put_command fuel cmds.Uniform4f [location; x; y; z; w] [] client.
Definition Uniform4fv fuel (location count v_shm_id v_shm_offset : Z) client :=
  put_command fuel cmds.Uniform4fv [location; count; v_shm_id; v_shm_offset] [] client.
Definition Uniform4fvImmediate fuel (location count : Z) (v : list Z) client :=
  put_command fuel cmds.Uniform4fvImmediate [location; count] v client.
Definition Uniform4i fuel (location x y z w : Z) client :=
  put_command fuel cmds.Uniform4i [location; x; y; z; w] [] client.
Definition Uniform4iv fuel (location count v_shm_id v_shm_offset : Z) client :=
  put_command fuel cmds.Uniform4iv [location; count; v_shm_id; v_shm_offset] [] client.
Definition Uniform4ivImmediate fuel (location count : Z) (v : list Z) client :=
  put_command fuel cmds.Uniform4ivImmediate [location; count] v client.
Definition UniformMatrix2fv fuel (location count transpose value_shm_id value_shm_offset : Z)
    client :=
  put_command fuel cmds.UniformMatrix2fv [location; count; transpose; value_shm_id;
    value_shm_offset] [] client.
Definition UniformMatrix2fvImmediate fuel (location count transpose : Z) (value : list Z) client
    :=
  put_command fuel cmds.UniformMatrix2fvImmediate [location; count; transpose] value client.
Definition UniformMatrix3fv fuel (location count transpose value_shm_id value_shm_offset : Z)
    client :=
  put_command fuel cmds.UniformMatrix3fv [location; count; transpose; value_shm_id;
    value_shm_offset] [] client.
Definition UniformMatrix3fvImmediate fuel (location count transpose : Z) (value : list Z) client
    :=
  put_command fuel cmds.UniformMatrix3fvImmediate [location; count; transpose] value client.
Definition UniformMatrix4fv fuel (location count transpose value_shm_id value_shm_offset : Z)
    client :=
  put_command fuel cmds.UniformMatrix4fv [location; count; transpose; value_shm_id;
    value_shm_offset] [] client.
Definition UniformMatrix4fvImmediate fuel (location count transpose : Z) (value : list Z) client
    :=
  put_command fuel cmds.UniformMatrix4fvImmediate [location; count; transpose] value client.
Definition UseProgram fuel (program : Z) client :=
  put_command fuel cmds.UseProgram [program] [] client.
Definition ValidateProgram fuel (program : Z) client :=
  put_command fuel cmds.ValidateProgram [program] [] client.
Definition VertexAttrib1f fuel (indx x : Z) client :=
  put_command fuel cmds.VertexAttrib1f [indx; x] [] client.
Definition VertexAttrib1fv fuel (indx values_shm_id values_shm_offset : Z) client :=
  put_command fuel cmds.VertexAttrib1fv [indx; values_shm_id; values_shm_offset] [] client.
Definition VertexAttrib1fvImmediate fuel (indx : Z) (values : list Z) client :=
  put_command fuel cmds.VertexAttrib1fvImmediate [indx] values client.
Definition VertexAttrib2f fuel (indx x y : Z) client :=
  put_command fuel cmds.VertexAttrib2f [indx; x; y] [] client.
Definition VertexAttrib2fv fuel (indx values_shm_id values_shm_offset : Z) client :=
  put_command fuel cmds.VertexAttrib2fv [indx; values_shm_id; values_shm_offset] [] client.
Definition VertexAttrib2fvImmediate fuel (indx : Z) (values : list Z) client :=
  put_command fuel cmds.VertexAttrib2fvImmediate [indx] values client.
Definition VertexAttrib3f fuel (indx x y z : Z) client :=
  put_command fuel cmds.VertexAttrib3f [indx; x; y; z] [] client.
Definition VertexAttrib3fv fuel (indx values_shm_id values_shm_offset : Z) client :=
  put_command fuel cmds.VertexAttrib3fv [indx; values_shm_id; values_shm_offset] [] client.
Definition VertexAttrib3fvImmediate fuel (indx : Z) (values : list Z) client :=
  put_command fuel cmds.VertexAttrib3fvImmediate [indx] values client.
Definition VertexAttrib4f fuel (indx x y z w : Z) client :=
  put_command fuel cmds.VertexAttrib4f [indx; x; y; z; w] [] client.
Definition VertexAttrib4fv fuel (indx values_shm_id values_shm_offset : Z) client :=
  put_command fuel cmds.VertexAttrib4fv [indx; values_shm_id; values_shm_offset] [] client.
Definition VertexAttrib4fvImmediate fuel (indx : Z) (values : list Z) client :=
  put_command fuel cmds.VertexAttrib4fvImmediate [indx] values client.
Definition VertexAttribPointer fuel (indx size type normalized stride offset : Z) client :=
  put_command fuel cmds.VertexAttribPointer [indx; size; type; normalized; stride; offset] []
    client.
Definition Viewport fuel (x y width height : Z) client :=
  put_command fuel cmds.Viewport [x; y; width; height] [] client.
Definition BlitFramebufferEXT fuel (srcX0 srcY0 srcX1 srcY1 dstX0 dstY0 dstX1 dstY1 mask filter :
    Z) client :=
  put_command fuel cmds.BlitFramebufferEXT [srcX0; srcY0; srcX1; srcY1; dstX0; dstY0; dstX1;
    dstY1; mask; filter] [] client.
Definition RenderbufferStorageMultisampleEXT fuel (target samples internalformat width height :
    Z) client :=
  put_command fuel cmds.RenderbufferStorageMultisampleEXT [target; samples; internalformat;
    width; height] [] client.
Definition SwapBuffers fuel client := put_command fuel cmds.SwapBuffers [] [] client.
Definition GetMaxValueInBufferCHROMIUM fuel (buffer_id count type offset result_shm_id
    result_shm_offset : Z) client :=
  put_command fuel cmds.GetMaxValueInBufferCHROMIUM [buffer_id; count; type; offset;
    result_shm_id; result_shm_offset] [] client.
Definition GenSharedIdsCHROMIUM fuel (namespace_id id_offset n ids_shm_id ids_shm_offset : Z)
    client :=
  put_command fuel cmds.GenSharedIdsCHROMIUM [namespace_id; id_offset; n; ids_shm_id;
    ids_shm_offset] [] client.
Definition DeleteSharedIdsCHROMIUM fuel (namespace_id n ids_shm_id ids_shm_offset : Z) client :=
  put_command fuel cmds.DeleteSharedIdsCHROMIUM [namespace_id; n; ids_shm_id; ids_shm_offset] []
    client.
Definition RegisterSharedIdsCHROMIUM fuel (namespace_id n ids_shm_id ids_shm_offset : Z) client :=
  put_command fuel cmds.RegisterSharedIdsCHROMIUM [namespace_id; n; ids_shm_id; ids_shm_offset]
    [] client.
Definition EnableFeatureCHROMIUM fuel (bucket_id result_shm_id result_shm_offset : Z) client :=
  put_command fuel cmds.EnableFeatureCHROMIUM [bucket_id; result_shm_id; result_shm_offset] []
    client.
Definition ResizeCHROMIUM fuel (width height : Z) client :=
  put_command fuel cmds.ResizeCHROMIUM [width; height] [] client.
Definition GetRequestableExtensionsCHROMIUM fuel (bucket_id : Z) client :=
  put_command fuel cmds.GetRequestableExtensionsCHROMIUM [bucket_id] [] client.
Definition RequestExtensionCHROMIUM fuel (bucket_id : Z) client :=
  put_command fuel cmds.RequestExtensionCHROMIUM [bucket_id] [] client.
Definition GetMultipleIntegervCHROMIUM fuel (pnames_shm_id pnames_shm_offset count results_shm_id
    results_shm_offset size : Z) client :=
  put_command fuel cmds.GetMultipleIntegervCHROMIUM [pnames_shm_id; pnames_shm_offset; count;
    results_shm_id; results_shm_offset; size] [] client.
Definition GetProgramInfoCHROMIUM fuel (program bucket_id : Z) client :=
  put_command fuel cmds.GetProgramInfoCHROMIUM [program; bucket_id] [] client.
Definition CreateStreamTextureCHROMIUM fuel (client_id result_shm_id result_shm_offset : Z)
    client :=
  put_command fuel cmds.CreateStreamTextureCHROMIUM [client_id; result_shm_id; result_shm_offset]
    [] client.
Definition DestroyStreamTextureCHROMIUM fuel (texture : Z) client :=
  put_command fuel cmds.DestroyStreamTextureCHROMIUM [texture] [] client.
Definition GetTranslatedShaderSourceANGLE fuel (shader bucket_id : Z) client :=
  put_command fuel cmds.GetTranslatedShaderSourceANGLE [shader; bucket_id] [] client.
Definition GetAttribLocation fuel (program name_shm_id name_shm_offset location_shm_id
    location_shm_offset data_size : Z) client :=
  put_command fuel cmds.GetAttribLocation [program; name_shm_id; name_shm_offset;
    location_shm_id; location_shm_offset; data_size] [] client.
Definition GetAttribLocationImmediate fuel (program location_shm_id location_shm_offset : Z)
    (name : list Z) client :=
  put_command fuel cmds.GetAttribLocationImmediate [program; location_shm_id;
    location_shm_offset] name client.
Definition GetAttribLocationBucket fuel (program name_bucket_id location_shm_id
    location_shm_offset : Z) client :=
  put_command fuel cmds.GetAttribLocationBucket [program; name_bucket_id; location_shm_id;
    location_shm_offset] [] client.
Definition GetUniformLocation fuel (program name_shm_id name_shm_offset location_shm_id
    location_shm_offset data_size : Z) client :=
  put_command fuel cmds.GetUniformLocation [program; name_shm_id; name_shm_offset;
    location_shm_id; location_shm_offset; data_size] [] client.
Definition GetUniformLocationImmediate fuel (program location_shm_id location_shm_offset : Z)
    (name : list Z) client :=
  put_command fuel cmds.GetUniformLocationImmediate [program; location_shm_id;
    location_shm_offset] name client.
Definition GetUniformLocationBucket fuel (program name_bucket_id location_shm_id
    location_shm_offset : Z) client :=
  put_command fuel cmds.GetUniformLocationBucket [program; name_bucket_id; location_shm_id;
    location_shm_offset] [] client.

End methods.
End methods.

(** The command in the words that [Init] wrote. *)
Definition command_in (c : Struct) (words : list Z) : Command := mkCommand (kCmdId c) (tail words).

(** The size of the data is one that the method knows. *)
Definition sized (c : Struct) : bool := match s_tail c with RoomFor _ | NoSize => false | _ => true end.

(** ** Lemmas *)

Section lemmas.
Context `{Platform}.
Implicit Types (c : Struct) (args data : list Z).

Lemma written_encode c args data n words :
  written c args data n words -> encode (command_in c words) = words.
Proof.
  intros Hw. destruct (w_header _ _ _ _ _ Hw) as (rest & E). destruct words as [|h t]; [done|].
  injection E as Eh _. rewrite zlen_cons in Eh. unfold encode, command_size, command_in.
  cbn [c_id c_args tail]. by rewrite <- Eh.
Qed.

Lemma written_size c args data n words :
  written c args data n words -> command_size (command_in c words) = (sizeof c + n + 3) / 4.
Proof.
  intros Hw. rewrite <- (w_size _ _ _ _ _ Hw). destruct (w_header _ _ _ _ _ Hw) as (rest & E).
  destruct words as [|h t]; [done|]. unfold command_size, command_in. cbn [c_args tail]. by rewrite zlen_cons.
Qed.

(** The method asks for the entries that [Init] fills. *)
Lemma entries_needed_exact c args data args' n :
  struct_ok c = true -> sized c = true -> init_args c args data = Done args' ->
  args_ok c args' -> data_length c args' data = Some n -> (sizeof c + n + 3) / 4 < 2 ^ 21 ->
  entries_needed c args data = Done ((sizeof c + n + 3) / 4).
Proof.
  intros Hok Hsz Hi Hargs Hn Hlt.
  pose proof (data_length_nonneg c args' data n Hok Hargs Hn) as [H0 _].
  destruct (struct_ok_inv c Hok) as (_ & _ & Hf & _). destruct (sizeof_bounds c Hf) as [Hs Hm].
  pose proof (Z.div_mod (sizeof c + n + 3) 4). pose proof (Z.mod_pos_bound (sizeof c + n + 3) 4).
  assert (s_tail c <> NoSize) as Hns by (intros E; unfold sized in Hsz; by rewrite E in Hsz).
  destruct (total_size_exact c args' data n) as (t & Et & Hb & Ee); [done..|].
  unfold entries_needed, init_args, total_size, sized in *.
  destruct (s_tail c) eqn:Etl; try done; try (injection Hi as ->; rewrite Et; cbn [obind];
    by rewrite ComputeNumEntries_spec, Ee by lia).
  - injection (eq_trans (eq_sym Hn) ltac:(unfold data_length; by rewrite Etl)) as ->.
    rewrite ComputeNumEntries_spec by lia. do 2 f_equal. lia.
  - destruct (strlen data) as [k|]; [|done]. injection Hi as <-.
    destruct (struct_ok_inv c Hok) as (_ & _ & _ & Hnd & _ & _ & Hp). rewrite Etl in Hp.
    assert (Ha : arg c size (args ++ [u32 k]) = u32 k) by (apply (arg_last c size Uint32); try done;
      [unfold params; by rewrite Etl|apply Hp]).
    unfold data_length in Hn. rewrite Etl, Ha in Hn. cbn zeta in Hn.
    destruct (_ <=? _) in Hn; [|done]. injection Hn as <-. cbn [of_option obind].
    by rewrite usize_small, ComputeNumEntries_spec by lia.
Qed.
End lemmas.

Section client.
Context `{Platform} {B : Type} `{!CommandBuffer B}.
Context {allowed : Command -> Prop} {usable : Z} {ok : B -> Prop} {reader sent tok : B -> Z}
  {did : B -> list Command -> B -> Prop}
  `{!CommandBufferLaws B allowed usable ok reader sent tok did}.
Implicit Types (c : Struct) (args data : list Z) (client : Client B).
Notation client_ok := (client_ok allowed usable ok reader sent did).
Notation ready := (ready allowed usable ok reader sent did).

(** The space lies in the ring. *)
Lemma GetSpace_space b0 issued l1 l2 client fuel n :
  client_ok b0 issued l1 l2 client -> 1 <= n < usable -> usable <= Z.of_nat fuel ->
  exists space client', CommandBufferHelper.GetSpace fuel n client = Done (space, client') /\
    ok (command_buffer_ client') /\ 0 <= space /\ space + n <= zlen (cb_entries (command_buffer_ client')).
Proof.
  intros Hc Hn Hf. unfold CommandBufferHelper.GetSpace.
  pose proof (client_small _ _ _ _ _ _ _ _ _ _ _ Hc).
  rewrite i32_id by (unfold is_i32; lia).
  set (c0 := with_helper client _). assert (Hc0 : client_ok b0 issued l1 l2 c0).
  { by apply client_with_commands_issued. }
  destruct (WaitForAvailableEntries_ok b0 issued l1 l2 c0 fuel n) as (l1' & l2' & c1 & -> & Hc1 & Hroom);
    [done|lia|done|].
  cbn [obind]. pose proof (client_get _ _ _ _ _ Hc1) as [Hg1 Hp1].
  pose proof (client_ring _ _ _ _ _ _ _ _ _ _ _ Hc1). destruct Hroom as (Hu & _).
  rewrite i32_id by (unfold is_i32; lia). cbn [put_ with_put_ with_helper helper].
  change (usable_entry_count_ (with_put_ (helper c1) _)) with (usable_entry_count_ (helper c1)).
  rewrite (client_usable _ _ _ _ _ _ _ _ _ _ _ Hc1).
  destruct (Z.eqb_spec (put_ (helper c1) + n) usable) as [E|E].
  - destruct (client_zwrite b0 issued l1' l2' c1 usable jump_home Hc1) as (ring' & Hw & Hz & Hr);
      [lia|change (zlen jump_home) with 2; lia|apply jump_home_words|].
    rewrite E, Jump_Init_home. unfold CommandBufferHelper.write_entries.
    cbn [command_buffer_ with_helper]. rewrite Hw. cbn [of_option obind].
    eexists _, _. split; [done|]. cbn [command_buffer_ with_cb with_helper].
    destruct (set_entries_ok (command_buffer_ c1) ring' (client_buffer _ _ _ _ _ _ _ _ _ _ _ Hc1) Hz Hr) as (Hok & _ & He & _).
    split; [done|]. rewrite He. lia.
  - eexists _, _. split; [done|]. cbn [command_buffer_ with_helper].
    split; [apply Hc1|]. lia.
Qed.

(** [Init] in the space is the write of the words it makes. *)
Lemma Init_at_write space c args data n client :
  ok (command_buffer_ client) -> 0 <= space ->
  space + (sizeof c + n + 3) / 4 <= zlen (cb_entries (command_buffer_ client)) ->
  struct_ok c = true -> args_ok c args -> data_length c args data = Some n ->
  (sizeof c + n + 3) / 4 < 2 ^ 21 -> s_tail c <> NoSize -> Forall is_byte data ->
  exists words, written c args data n words /\
    Init_at space c args data client = CommandBufferHelper.write_entries space words client.
Proof.
  intros Hok Hs Hroom Hc Hargs Hn Hlt Ht Hb. unfold Init_at, CommandBufferHelper.write_entries.
  set (ring := cb_entries (command_buffer_ client)) in *.
  pose proof (data_length_nonneg c args data n Hc Hargs Hn) as [H0 _].
  destruct (struct_ok_inv c Hc) as (_ & _ & Hf & _). destruct (sizeof_bounds c Hf) as [Hsz _].
  assert (0 <= (sizeof c + n + 3) / 4) by (apply Z.div_pos; lia).
  rewrite zread_in by lia. cbn [of_option obind].
  rewrite take_ge by (unfold zlen in *; rewrite length_drop; lia).
  destruct (Init_written c args data n (drop (Z.to_nat space) ring)) as (words & -> & Hw); try done.
  { apply Forall_drop. by apply (entries_words (command_buffer_ client)). }
  { rewrite zlen_drop by lia. lia. }
  exists words. split; [done|]. cbn [obind]. rewrite zwrite_in.
  - cbn [of_option obind]. by rewrite drop_drop.
  - done.
  - rewrite (w_size _ _ _ _ _ Hw). lia.
Qed.

Lemma put_command_ok b0 issued l1 l2 client fuel c args data args' n :
  client_ok b0 issued l1 l2 client ->
  struct_ok c = true -> sized c = true -> init_args c args data = Done args' ->
  args_ok c args' -> data_length c args' data = Some n -> Forall is_byte data ->
  (sizeof c + n + 3) / 4 < usable -> (sizeof c + n + 3) / 4 < 2 ^ 21 -> usable <= Z.of_nat fuel ->
  (forall words, written c args' data n words -> allowed (command_in c words)) ->
  exists words l1' l2' client', put_command fuel c args data client = Done client' /\
    written c args' data n words /\ client_ok b0 (issued ++ [command_in c words]) l1' l2' client'.
Proof.
  intros Hc Hok Hsz Hi Hargs Hn Hb Hu Hlt Hf Hall.
  pose proof (data_length_nonneg c args' data n Hok Hargs Hn) as [H0 _].
  destruct (struct_ok_inv c Hok) as (_ & _ & Hfl & _). destruct (sizeof_bounds c Hfl) as [Hs _].
  pose proof (Z.div_mod (sizeof c + n + 3) 4). pose proof (Z.mod_pos_bound (sizeof c + n + 3) 4).
  unfold put_command. rewrite (entries_needed_exact c args data args' n) by done. cbn [obind].
  destruct (GetSpace_space b0 issued l1 l2 client fuel ((sizeof c + n + 3) / 4) Hc)
    as (space & c1 & E & Hok1 & Hsp & Hroom); [lia|done|].
  rewrite E, Hi. cbn [obind].
  destruct (Init_at_write space c args' data n c1) as (words & Hw & ->); try done.
  { intros Et. unfold sized in Hsz. by rewrite Et in Hsz. }
  destruct (issue_ok b0 issued l1 l2 client fuel (command_in c words) Hc) as (l1' & l2' & c' & Ei & Hc');
    [by apply Hall|by rewrite (written_size _ _ _ _ _ Hw)|done|].
  unfold issue in Ei. rewrite (written_size _ _ _ _ _ Hw), E in Ei. cbn [obind] in Ei.
  rewrite (written_encode _ _ _ _ _ Hw) in Ei. by exists words, l1', l2', c'.
Qed.

(** *** Commands that are too large *)

(** A loop whose condition stays true goes on flushing. *)
Lemma flush_forever b0 issued put cond fuel l1 l2 client :
  (forall l1 l2 client, client_ok b0 issued l1 l2 client -> put_ (helper client) = put ->
     exists l1' client', cond client = (true, client') /\ client_ok b0 issued l1' l2 client' /\
       put_ (helper client') = put) ->
  client_ok b0 issued l1 l2 client -> put_ (helper client) = put ->
  CommandBufferHelper.flush_while fuel cond client = Fuel.
Proof.
  intros Hcond. revert l1 l2 client. induction fuel as [|fuel IH]; intros l1 l2 client Hc Hp;
    cbn [CommandBufferHelper.flush_while];
    destruct (Hcond l1 l2 client Hc Hp) as (l1' & c1 & -> & Hc1 & Hp1); cbn [negb]; [done|].
  destruct (FlushSync_ok _ _ _ _ _ Hc1) as (l & c2 & -> & Hc2 & Hp2 & _). cbn [obind negb].
  apply (IH l [] c2); [done|congruence].
Qed.

(** The ring never has room for [count] entries. *)
Lemma must_wait_always b0 issued put count l1 l2 client :
  usable <= count -> client_ok b0 issued l1 l2 client -> put_ (helper client) = put ->
  exists l1' client', CommandBufferHelper.must_wait count client = (true, client') /\
    client_ok b0 issued l1' l2 client' /\ put_ (helper client') = put.
Proof.
  intros Hn Hc Hp. unfold CommandBufferHelper.must_wait, CommandBufferHelper.AvailableEntries.
  destruct (get_offset_ok _ _ _ _ _ Hc) as (d & l1' & b1 & -> & Hc1 & -> & _).
  pose proof (client_get _ _ _ _ _ Hc1) as Hg. pose proof (client_usable _ _ _ _ _ _ _ _ _ _ _ Hc1) as Hu.
  pose proof (client_small _ _ _ _ _ _ _ _ _ _ _ Hc1). simpl in *.
  eexists l1', _. split; [|by split; [exact Hc1|]]. f_equal.
  rewrite Hu, AvailableEntries_value by lia.
  destruct (Z.ltb_spec (put_ (helper client)) (reader b1)); apply Z.ltb_lt; lia.
Qed.

(** The start of the ring never becomes free for a client that is there. *)
Lemma must_wrap_always b0 issued l1 l2 client :
  client_ok b0 issued l1 l2 client -> put_ (helper client) = 0 ->
  exists l1' client', CommandBufferHelper.must_wrap_later client = (true, client') /\
    client_ok b0 issued l1' l2 client' /\ put_ (helper client') = 0.
Proof.
  intros Hc Hp. unfold CommandBufferHelper.must_wrap_later.
  destruct (get_offset_ok _ _ _ _ _ Hc) as (d & l1' & b1 & -> & Hc1 & -> & _).
  pose proof (client_get _ _ _ _ _ Hc1) as Hg1. cbn [command_buffer_ helper with_cb] in *. rewrite Hp in *.
  destruct (Z.gtb_spec (reader b1) 0); [by eexists l1', _|].
  destruct (get_offset_ok _ _ _ _ _ Hc1) as (d2 & l1'' & b2 & -> & Hc2 & -> & _).
  pose proof (client_homes _ _ _ _ _ Hc1) as Hh1. pose proof (client_homes _ _ _ _ _ Hc2) as Hh2.
  pose proof (client_get _ _ _ _ _ Hc2) as Hg2.
  cbn [command_buffer_ helper with_cb] in *. rewrite Hp in *.
  rewrite <- app_assoc, homes_app in Hh1. pose proof (homes_nonneg d2).
  eexists l1'', _. split; [|by split; [exact Hc2|]]. f_equal. apply Z.eqb_eq.
  destruct (Z.ltb_spec 0 (reader b1)); [lia|]. destruct (Z.ltb_spec 0 (reader b2)); lia.
Qed.

Lemma wait_forever b0 issued put count fuel l1 l2 client :
  usable <= count -> client_ok b0 issued l1 l2 client -> put_ (helper client) = put ->
  CommandBufferHelper.wait_while fuel (CommandBufferHelper.must_wait count) client = Fuel.
Proof.
  intros Hn Hc Hp. unfold CommandBufferHelper.wait_while.
  destruct (must_wait_always b0 issued put count l1 l2 client Hn Hc Hp) as (l1' & c1 & -> & Hc1 & Hp1).
  eapply flush_forever; [|exact Hc1|exact Hp1].
  intros l3 l4 c3 ? ?. by apply (must_wait_always b0 issued put count l3 l4 c3).
Qed.

(** [GetSpace] for as many entries as the ring has, or more, does not return. *)
Lemma GetSpace_hangs b0 issued l1 l2 client fuel n :
  client_ok b0 issued l1 l2 client -> usable <= n < 2 ^ 31 -> usable <= Z.of_nat fuel ->
  CommandBufferHelper.GetSpace fuel n client = Fuel.
Proof.
  intros Hc Hn Hf. unfold CommandBufferHelper.GetSpace.
  pose proof (client_small _ _ _ _ _ _ _ _ _ _ _ Hc). rewrite i32_id by (unfold is_i32; lia).
  set (c0 := with_helper client _). assert (Hc0 : client_ok b0 issued l1 l2 c0).
  { by apply client_with_commands_issued. }
  pose proof (client_get _ _ _ _ _ Hc0) as [_ Hp0].
  unfold CommandBufferHelper.WaitForAvailableEntries. rewrite (client_usable _ _ _ _ _ _ _ _ _ _ _ Hc0).
  destruct (Z.gtb_spec (put_ (helper c0) + n) usable) as [Hgt|Hle]; cbn [obind negb].
  2: { rewrite (wait_forever b0 issued (put_ (helper c0)) n fuel l1 l2 c0) by (done || lia). done. }
  destruct (decide (put_ (helper c0) = 0)) as [Hz|Hz].
  { unfold CommandBufferHelper.wait_while.
    destruct (must_wrap_always b0 issued l1 l2 c0 Hc0 Hz) as (l1' & c1 & -> & Hc1 & Hp1).
    rewrite (flush_forever b0 issued 0 _ fuel l1' l2 c1); [done| |done|done].
    intros l3 l4 c3 ? ?. by apply (must_wrap_always b0 issued l3 l4 c3). }
  pose proof (client_length _ _ _ _ _ Hc0).
  destruct (wait_while_ok b0 issued (put_ (helper c0)) CommandBufferHelper.must_wrap_later
      (fun c' : Client B => 0 < reader (command_buffer_ c') <= put_ (helper c0)) fuel l1 l2 c0)
    as (l1' & l2' & c1 & -> & Hc1 & Hp1 & Hg1); [apply must_wrap_later_ok; lia|done|done|lia|].
  cbn [obind negb]. rewrite <- Hp1 in Hg1.
  destruct (client_wrap b0 issued l1' l2' c1 Hc1 Hg1) as (c2 & -> & Hc2). cbn [obind negb].
  rewrite (wait_forever b0 issued 0 n fuel l1' (l2' ++ [Home]) _) by (done || lia). done.
Qed.

(** ** Properties *)

(** A method of the helper queues its command: it ends, with the struct that its arguments
    make at the end of the queue of commands, and the data behind it.  The data may be as long
    as the ring buffer has room for. *)
Theorem method_queues_command b0 issued client fuel c args data args' n :
  ready b0 issued client ->
  c ∈ structs -> sized c = true -> init_args c args data = Done args' ->
  args_ok c args' -> data_length c args' data = Some n -> Forall is_byte data ->
  (sizeof c + n + 3) / 4 < usable -> usable < 2 ^ 21 -> usable <= Z.of_nat fuel ->
  (forall words, written c args' data n words -> allowed (command_in c words)) ->
  exists words client', put_command fuel c args data client = Done client' /\
    written c args' data n words /\ ready b0 (issued ++ [command_in c words]) client'.
Proof.
  intros (l1 & l2 & Hc) Hin Hsz Hi Hargs Hn Hb Hu Hlt Hf Hall. apply struct_in in Hin.
  destruct (put_command_ok b0 issued l1 l2 client fuel c args data args' n)
    as (words & l1' & l2' & c' & E & Hw & Hc'); try done; [lia|].
  exists words, c'. split_and!; [done..|]. by exists l1', l2'.
Qed.

(** C29: A command that does not fit the ring buffer is not refused: the method does not return.
    The number of elements comes from the caller of the GL function, as in
    [glDeleteTextures]. *)
Theorem oversized_command_hangs b0 issued client fuel c args data args' n :
  ready b0 issued client ->
  c ∈ structs -> sized c = true -> init_args c args data = Done args' ->
  args_ok c args' -> data_length c args' data = Some n ->
  usable <= (sizeof c + n + 3) / 4 < 2 ^ 21 -> usable <= Z.of_nat fuel ->
  put_command fuel c args data client = Fuel.
Proof.
  intros (l1 & l2 & Hc) Hin%struct_in Hsz Hi Hargs Hn Hu Hf. unfold put_command.
  rewrite (entries_needed_exact c args data args' n) by (done || lia). cbn [obind].
  by rewrite (GetSpace_hangs b0 issued l1 l2 client) by (done || lia).
Qed.

End client.

(** The methods that do not know the size of their data, of which none is called by the client:
    they ask for no space, and [Init] fills in the struct where the next command goes; if that
    is closer to the end of the ring buffer than the struct is long, past its end. *)
Theorem unsized_methods `{Platform} {B} `{!CommandBuffer B} :
  s_name <$> filter (fun c => sized c = false) structs
    = (["BufferDataImmediate"; "BufferSubDataImmediate"; "CompressedTexImage2DImmediate";
        "CompressedTexSubImage2DImmediate"; "ShaderSourceImmediate"; "TexImage2DImmediate";
        "TexSubImage2DImmediate"])%string /\
  forall fuel c args data (client client' : Client B) space,
    c ∈ structs -> sized c = false -> args_ok c args ->
    CommandBufferHelper.GetSpace fuel 0 client = Done (space, client') ->
    zlen (cb_entries (command_buffer_ client')) < space + sizeof c / 4 ->
    put_command fuel c args data client = UB.
Proof.
  split; [reflexivity|]. intros fuel c args data client client' space Hin%struct_in Hsz Hargs Hg Hend.
  destruct (struct_ok_inv c Hin) as (_ & _ & Hf & _).
  unfold put_command, entries_needed, init_args, sized in *.
  assert (E0 : ComputeNumEntries 0 = 0).
  { change (ComputeNumEntries 0) with (u32 (usize (0 + 4 - 1) / 4)). rewrite usize_small by lia. done. }
  assert (Hp : params c = s_fields c) by (unfold params; by destruct (s_tail c)).
  assert (Hl : zlen args = zlen (s_fields c)).
  { unfold zlen. unfold args_ok in Hargs. rewrite Hp in Hargs. by rewrite (Forall2_length _ _ _ Hargs). }
  assert (Hs : sizeof c / 4 = 1 + zlen args).
  { unfold sizeof. rewrite Hl, (Z.mul_comm 4), Z.div_mul; lia. }
  unfold Init_at. destruct (s_tail c) eqn:Et; try done; rewrite E0; cbn [obind]; rewrite Hg; cbn [obind].
  all: destruct (zread _ space _) as [entries|] eqn:Er; [|done]; cbn [of_option obind].
  all: apply zlen_zread in Er as Hle.
  all: unfold Init, SetHeader, total_size, ComputeSize, ComputeDataSize, values; rewrite Et; cbn [obind].
  all: match goal with |- context [zwrite ?es 0 ?ws] => destruct (zwrite es 0 ws) eqn:Ew end; [|done].
  all: exfalso; apply zwrite_inv in Ew as (_ & Ew & _); rewrite zlen_cons in Ew.
  all: unfold zlen at 1 in Ew; rewrite length_fmap in Ew; fold (zlen args) in Ew; lia.
Qed.
