(* ===== verification/InProcess.v ===== *)
(** * The client and the service together

    [CommandBufferService] is itself a [CommandBuffer] that a client can use in
    the same process, as [cmd_buffer_helper_test.cc] and the in-process contexts
    do.  This file shows that the GPU process meets the interface the helper is
    verified against, so that a client and the service compose end to end. *)

From S2P Require Import Prelude CmdFormat CommandBufferService CmdParser CommonDecoder.
From S2P Require Import GpuScheduler RingProtocol CmdBufferHelper.
From Stdlib Require Import ZArith Lia ZifyBool Bool.
From stdpp Require Import base list gmap numbers option.
Local Open Scope Z_scope.

(** ** The command buffer of the process *)

Section in_process.
Context `{Platform} {G : Type} `{!GLES2Handlers G}.
Context (depth fuel : nat) (clock : GpuProcess G -> Z).
Implicit Types w : GpuProcess G.

Definition process_GetState w : State * GpuProcess G :=
  let '(st, s) := GetState (service w) in (st, set_service w s).

Definition process_GetLastState w : State * GpuProcess G :=
  let '(st, s) := GetLastState (service w) in (st, set_service w s).

(** Without host callbacks. *)
Definition run w : outcome (GpuProcess G) := PutChanged depth Done Done fuel w.

#[local] Instance InProcess : CommandBuffer (GpuProcess G) := {
  cb_GetRingBuffer w := GetRingBuffer (service w);
  cb_GetState := process_GetState;
  cb_GetLastState := process_GetLastState;
  cb_Flush p w := Flush run p w;
  cb_FlushSync p known w := FlushSync run p known w;
  cb_entries w := buffer_ (parser w);
  cb_set_entries ws w := set_parser w (with_buffer_ (parser w) ws);
  cb_clock := clock;
}.

End in_process.

(** ** GLES2 commands that always succeed

    Handlers promise of some commands that they change the state of the GLES2 decoder in a
    known way, and nothing else. *)

Class SimpleGLES2 (G : Type) := {
  gl_simple : Command -> Prop;
  gl_exec : Command -> G -> G;
  gl_ok : G -> Prop;
}.

Definition set_gles2 {G} (w : GpuProcess G) (g : G) : GpuProcess G :=
  mkGpuProcess (decoder w) (current_decoder_error_ w) (reset_status_ w) g.

Class SimpleLaws (G : Type) `{Platform} `{GLES2Handlers G} `{SimpleGLES2 G} : Prop := {
  gl_simple_plain c : gl_simple (G := G) c -> plain c /\ kStartPoint < c_id c;
  gl_simple_does depth c rest (w : GpuProcess G) :
    gl_simple (G := G) c -> process_ok w -> gl_ok (gles2 w) -> current_decoder_error_ w = kNoError ->
    GLES2_DoCommand depth (c_id c) (zlen (c_args c)) (RingProtocol.encode c ++ rest) w
    = Done (kNoError, set_gles2 w (gl_exec c (gles2 w)));
  gl_exec_ok c (g : G) : gl_simple (G := G) c -> gl_ok g -> gl_ok (gl_exec c g);
}.

(** A decoder without GLES2 commands. *)
#[export] Instance unit_simple : SimpleGLES2 unit := {
  gl_simple _ := False; gl_exec _ g := g; gl_ok _ := True;
}.

(** ** What the commands mean, without any ring buffer *)

(** The token, the buckets and the GLES2 state. *)
Definition Meaning (G : Type) : Type := Z * gmap Z Bucket * G.

Definition meaning {G} (w : GpuProcess G) : Meaning G :=
  (token (service w), buckets_ (decoder w), gles2 w).

Definition exec `{SimpleGLES2 G} (m : Meaning G) (c : Command) : Meaning G :=
  let '(t, bs, g) := m in
  if c_id c =? id_num kSetToken then
    match c_args c with [t'] => (i32 t', bs, g) | _ => m end
  else if c_id c =? id_num kSetBucketSize then
    match c_args c with
    | [id; size] => (t, <[id := SetSize size (default new_Bucket (bs !! id))]> bs, g)
    | _ => m
    end
  else if kStartPoint <? c_id c then (t, bs, gl_exec c g)
  else m.

(** The commands that always succeed: [Noop], [SetToken], [SetBucketSize] and those of the
    GLES2 decoder. *)
Definition simple `{SimpleGLES2 G} (c : Command) : Prop :=
  plain c /\
  (c_id c = id_num kNoop \/
   c_id c = id_num kSetToken /\ zlen (c_args c) = 1 \/
   c_id c = id_num kSetBucketSize /\ zlen (c_args c) = 2 \/
   gl_simple (G := G) c).

Definition executed `{SimpleGLES2 G} (w : GpuProcess G) (cs : list Command) (w' : GpuProcess G) : Prop :=
  meaning w' = fold_left exec cs (meaning w).

(** A process without errors or callbacks that has read all it was sent, over a
    ring of at least [usable + 2] entries. *)
Record idle `{SimpleGLES2 G} (usable : Z) (w : GpuProcess G) : Prop := {
  idle_ok : process_ok w;
  idle_error : error (service w) = kNoError;
  idle_deferred : current_decoder_error_ w = kNoError;
  idle_callback : put_offset_change_callback (service w) = true;
  idle_processed : command_processed_callback_ (scheduler w) = false;
  idle_scheduled : unscheduled_count_ (scheduler w) = 0;
  idle_entries : usable + 2 <= num_entries (service w);
  idle_drained : get_ (parser w) = put_offset (service w);
  idle_published : get_offset (service w) = get_ (parser w);
  idle_gl : gl_ok (gles2 w);
}.

(** ** Lemmas *)

Section lemmas.
Context `{Platform} {G : Type} `{!GLES2Handlers G, !SimpleGLES2 G, !SimpleLaws G}.
Context (depth : nat) (usable : Z).
Hypothesis small_table : zlen (g_command_info (G := G)) < 2 ^ 31.
Implicit Types w : GpuProcess G.

(** A process in the middle of its loop. *)
Record working w : Prop := {
  work_ok : process_ok w;
  work_error : error (service w) = kNoError;
  work_deferred : current_decoder_error_ w = kNoError;
  work_callback : put_offset_change_callback (service w) = true;
  work_processed : command_processed_callback_ (scheduler w) = false;
  work_scheduled : unscheduled_count_ (scheduler w) = 0;
  work_entries : usable + 2 <= num_entries (service w);
  work_gl : gl_ok (gles2 w);
}.

Notation queue := (queue (simple (G := G)) usable).
Notation step := (ProcessCommand (H0 := GLES2_API (S depth))).
Notation run_loop := (PutChanged_loop (S depth) Done Done).

Lemma working_bounds w :
  working w -> entry_count_ (parser w) = num_entries (service w) /\
    num_entries (service w) < 2 ^ 31.
Proof. intros [Hok _ _ _ _ _ _ _]. by destruct (decoder_engine _ _ _ Hok). Qed.

Lemma with_token_id s : with_token s (token s) = s.
Proof. by destruct s. Qed.

(** A command of the common decoder keeps the invariant. *)
Lemma common_ok command arg_count cmd_data w e w' :
  u32 (command - kStartPoint - 1) >= zlen (g_command_info (G := G)) -> process_ok w ->
  Forall is_u32 cmd_data -> 1 + arg_count <= zlen cmd_data ->
  GLES2_DoCommand (S depth) command arg_count cmd_data w = Done (e, w') -> process_ok w'.
Proof.
  intros Hc Hw Hu Hl. unfold GLES2_DoCommand.
  bfalse (u32 (command - kStartPoint - 1) <? zlen (g_command_info (G := G))).
  destruct (Process_DoCommonCommand_spec (S depth) command arg_count cmd_data w Hw Hu Hl) as [_ Hs].
  destruct (Process_DoCommonCommand (S depth) command arg_count cmd_data w) as [[r w1]| |]; [|done..].
  destruct (Hs r w1 eq_refl) as [Hok _]. cbn [obind]. by destruct (_ && _); intros [= <- <-].
Qed.

Lemma common_index id : 0 <= id < 256 -> u32 (id - kStartPoint - 1) >= zlen (g_command_info (G := G)).
Proof.
  intros Hid. unfold u32, kStartPoint. rewrite <- (Z_mod_plus_full _ 1 (2 ^ 32)), Z.mod_small; lia.
Qed.

(** What a simple command does to the decoder. *)
Lemma simple_command c rest w :
  simple (G := G) c -> process_ok w -> gl_ok (gles2 w) -> current_decoder_error_ w = kNoError ->
  Forall is_u32 (RingProtocol.encode c ++ rest) ->
  exists w', GLES2_DoCommand (S depth) (c_id c) (zlen (c_args c)) (RingProtocol.encode c ++ rest) w
      = Done (kNoError, w') /\ process_ok w' /\ gl_ok (gles2 w') /\
    parser w' = parser w /\ meaning w' = exec (meaning w) c /\
    current_decoder_error_ w' = kNoError /\
    exists t, service w' = with_token (service w) t /\
      unscheduled_count_ (scheduler w') = unscheduled_count_ (scheduler w) /\
      command_processed_callback_ (scheduler w') = command_processed_callback_ (scheduler w).
Proof.
  intros [(Hid & _ & Hu & _) Hc] Hok Hgl He Hw.
  destruct (decide (kStartPoint < c_id c)) as [Hgt|Hle].
  { assert (gl_simple (G := G) c) as Hg.
    { unfold id_num, kStartPoint in *. destruct Hc as [|[[? _]|[[? _]|]]]; [lia..|done]. }
    rewrite gl_simple_does by done. eexists. split; [done|].
    split_and!; try done; [by apply gl_exec_ok| |exists (token (service w)); by rewrite with_token_id].
    unfold exec, meaning, id_num. unfold kStartPoint in *.
    bfalse (c_id c =? 1). bfalse (c_id c =? 7). by btrue (255 <? c_id c). }
  assert (Hgl' : ~ gl_simple (G := G) c) by (intros Hg; by destruct (gl_simple_plain c Hg)).
  assert (Hx : u32 (c_id c - kStartPoint - 1) >= zlen (g_command_info (G := G))).
  { apply common_index. unfold kStartPoint in *. lia. }
  assert (Hl : 1 + zlen (c_args c) <= zlen (RingProtocol.encode c ++ rest)).
  { rewrite zlen_app, zlen_encode. unfold command_size. pose proof (zlen_nonneg rest). lia. }
  match goal with |- exists w', ?m = _ /\ _ => assert (Hm : exists w', m = Done (kNoError, w') /\
    gles2 w' = gles2 w /\ parser w' = parser w /\ meaning w' = exec (meaning w) c /\
    current_decoder_error_ w' = kNoError /\
    exists t, service w' = with_token (service w) t /\
      unscheduled_count_ (scheduler w') = unscheduled_count_ (scheduler w) /\
      command_processed_callback_ (scheduler w') = command_processed_callback_ (scheduler w)) end.
  2: { destruct Hm as (w' & E & Eg & Hm). exists w'. split; [done|].
       split; [by eapply common_ok|]. split; [by rewrite Eg|done]. }
  unfold GLES2_DoCommand. bfalse (u32 (c_id c - kStartPoint - 1) <? zlen (g_command_info (G := G))).
  unfold Process_DoCommonCommand. cbn [DoCommonCommand]. clear Hx Hw Hl.
  destruct c as [id args]. cbn [c_id c_args] in *. unfold RingProtocol.encode. cbn [c_id c_args].
  destruct Hc as [->|[[-> Hl]|[[-> Hl]|]]]; [| | |done].
  - change (all_ids !! Z.to_nat (id_num kNoop)) with (Some kNoop). cbn [command_info].
    change (cmd_size / 4 - 1) with 0. pose proof (zlen_nonneg args).
    change (bool_decide (kArgFlags = kFixed)) with false.
    change (bool_decide (kArgFlags = kAtLeastN)) with true. cbn [andb orb].
    btrue (zlen args >=? 0). simpl. rewrite He. eexists. split; [done|].
    split_and!; try done.
    exists (token (service w)). by rewrite with_token_id.
  - destruct args as [|t [|? ?]]; [done| |unfold zlen in Hl; simpl in Hl; lia].
    change (all_ids !! Z.to_nat (id_num kSetToken)) with (Some kSetToken).
    simpl. rewrite He. eexists. split; [done|]. split_and!; try done. by eexists.
  - destruct args as [|id [|size [|? ?]]]; try (unfold zlen in Hl; simpl in Hl; lia).
    change (all_ids !! Z.to_nat (id_num kSetBucketSize)) with (Some kSetBucketSize).
    simpl. unfold HandleSetBucketSize, CreateBucket, GetBucket. simpl.
    destruct (buckets_ (decoder w) !! id) as [b|] eqn:Eb; simpl; rewrite He.
    all: eexists; split; [done|]; split_and!; try done.
    all: try (exists (token (service w)); by rewrite with_token_id).
    all: unfold meaning, exec; simpl; rewrite ?Eb; simpl; by rewrite ?insert_insert_eq.
Qed.

(** The [Jump] home. *)
Lemma home_command rest w :
  0 < entry_count_ (parser w) -> process_ok w -> current_decoder_error_ w = kNoError ->
  Forall is_u32 (jump_home ++ rest) ->
  exists w', GLES2_DoCommand (S depth) (id_num kJump) 1 (jump_home ++ rest) w
      = Done (kNoError, w') /\ process_ok w' /\ gles2 w' = gles2 w /\
    parser w' = with_get_ (parser w) 0 /\ meaning w' = meaning w /\
    current_decoder_error_ w' = kNoError /\
    service w' = SetGetOffset 0 (service w) /\
    unscheduled_count_ (scheduler w') = unscheduled_count_ (scheduler w) /\
    command_processed_callback_ (scheduler w') = command_processed_callback_ (scheduler w).
Proof.
  intros Hn Hok He Hw.
  match goal with |- exists w', ?m = _ /\ _ => assert (Hm : exists w', m = Done (kNoError, w') /\
    gles2 w' = gles2 w /\ parser w' = with_get_ (parser w) 0 /\ meaning w' = meaning w /\
    current_decoder_error_ w' = kNoError /\ service w' = SetGetOffset 0 (service w) /\
    unscheduled_count_ (scheduler w') = unscheduled_count_ (scheduler w) /\
    command_processed_callback_ (scheduler w') = command_processed_callback_ (scheduler w)) end.
  2: { destruct Hm as (w' & E & Hm). exists w'. split; [done|]. split; [|done].
       eapply (common_ok (id_num kJump) 1); [|exact Hok|exact Hw| |exact E].
       - apply common_index. done.
       - rewrite zlen_app. change (zlen jump_home) with 2. pose proof (zlen_nonneg rest). lia. }
  unfold GLES2_DoCommand.
  change (u32 (id_num kJump - kStartPoint - 1)) with 4294967042.
  bfalse (4294967042 <? zlen (g_command_info (G := G))).
  unfold Process_DoCommonCommand. cbn [DoCommonCommand].
  change (all_ids !! Z.to_nat (id_num kJump)) with (Some kJump). simpl.
  unfold HandleJump. simpl. change (i32 0) with 0.
  unfold Scheduler_SetGetOffset, set_get. simpl in *. unfold scheduler in *.
  btrue (0 <? entry_count_ (parser_ (engine (decoder w)))). simpl. rewrite He.
  by eexists.
Qed.

(** What the world keeps through a command, and a move of the get offset. *)
Lemma working_move w w1 g t o :
  working w -> process_ok w1 -> gl_ok (gles2 w1) -> current_decoder_error_ w1 = kNoError ->
  service w1 = with_get (with_token (service w) t) o ->
  unscheduled_count_ (scheduler w1) = unscheduled_count_ (scheduler w) ->
  command_processed_callback_ (scheduler w1) = command_processed_callback_ (scheduler w) ->
  parser w1 = with_get_ (parser w) g ->
  working (set_service w1 (SetGetOffset (get_ (parser w1)) (service w1))).
Proof.
  intros [Hok He Hd Hc Hp Hu Hn Hgl] Hok1 Hgl1 Hd1 Hs Hu1 Hp1 Hpar.
  assert (Hput : put_offset (service w1) = put_offset (service w)) by by rewrite Hs.
  split; simpl in *.
  - apply process_set_service; try done. by apply service_put_ok.
  - by rewrite Hs.
  - done.
  - by rewrite Hs.
  - congruence.
  - congruence.
  - by rewrite Hs.
  - done.
Qed.

(** One turn of the loop on a slot: the words it reads, and the answer when the
    handler's is known. *)
Lemma step_eq w id n rest w1 :
  zget (buffer_ (parser w)) (get_ (parser w))
    = Some (header_word (CommandHeader_Init id n)) ->
  0 <= id < 2 ^ 11 -> 1 <= n < 2 ^ 21 -> get_ (parser w) <> CmdParser.put_ (parser w) ->
  get_ (parser w) + n <= entry_count_ (parser w) ->
  drop (Z.to_nat (get_ (parser w))) (buffer_ (parser w)) = rest ->
  GLES2_DoCommand (S depth) id (n - 1) rest w = Done (kNoError, w1) ->
  step w = Done (kNoError,
    if get_ (parser w) =? get_ (parser w1)
    then set_parser w1 (with_get_ (parser w1)
           ((get_ (parser w) + n) mod entry_count_ (parser w1)))
    else w1).
Proof.
  intros Hz Hid Hn Hne Hle Hd E. unfold ProcessCommand.
  bfalse (get_ (parser w) =? CmdParser.put_ (parser w)). rewrite Hz.
  cbn [of_option obind]. rewrite value_header_Init by lia. cbn [h_size h_command].
  bfalse (n =? 0). bfalse (n + get_ (parser w) >? entry_count_ (parser w)).
  unfold DoCommand, GLES2_API. rewrite Hd, E. done.
Qed.

(** One turn of the loop takes one slot of the queue. *)
Lemma step_slot w s l :
  working w -> queue (buffer_ (parser w)) (get_ (parser w)) (s :: l) (CmdParser.put_ (parser w)) ->
  exists w1, step w = Done (kNoError, w1) /\
    working (set_service w1 (SetGetOffset (get_ (parser w1)) (service w1))) /\
    parser w1 = with_get_ (parser w) (slot_next (get_ (parser w)) s) /\
    meaning w1 = fold_left exec (commands [s]) (meaning w) /\
    put_offset (service w1) = put_offset (service w).
Proof.
  intros Hw Hq. destruct (working_bounds w Hw) as [Hcount Hsmall].
  pose proof (work_entries _ Hw) as Hn.
  pose proof (queue_not_empty _ _ _ _ _ _ _ Hq) as Hne.
  destruct (queue_next _ _ _ _ _ _ _ Hq) as [Hnext Hhome].
  destruct Hq as ((Hu & Hh & Hs & Hl) & Hg & _ & _).
  destruct (holds_drop _ _ _ Hh) as [rest Hrest].
  pose proof (sched_parser _ (decoder_engine _ _ _ (work_ok _ Hw))) as Hp0.
  assert (Hwords : Forall is_u32 (slot_words s ++ rest)).
  { rewrite <- Hrest. apply Forall_drop. apply Hp0. }
  destruct s as [c|]; cbn [slot_words slot_next] in *.
  - pose proof (command_size_pos c). pose proof Hs as [(Hid & Hsz & _) _].
    destruct (simple_command c rest w Hs (work_ok _ Hw) (work_gl _ Hw) (work_deferred _ Hw) Hwords)
      as (w1 & E & Hok1 & Hgl1 & Hpar & Hm & Hd & t & Ht & Hu1 & Hc1).
    replace (zlen (c_args c)) with (command_size c - 1) in E by (unfold command_size; lia).
    apply (step_eq w (c_id c) (command_size c)) in E;
      [|by eapply holds_head|done|lia|done|lia|done].
    rewrite Hpar, Z.eqb_refl, Z.mod_small in E by lia. rewrite E. eexists. split; [done|].
    split_and!; try done.
    + eapply (working_move w _ _ t (get_offset (service w))); try done.
      apply process_set_parser; [done| |by rewrite Hpar].
      apply with_get_ok; [done|]. simpl in *. lia.
    + simpl in *. by rewrite Ht.
  - destruct (home_command rest w) as (w1 & E & Hok1 & Hgl1 & Hpar & Hm & Hd & Hse & Hu1 & Hc1);
      [lia|apply Hw|apply Hw|done|].
    apply (step_eq w (id_num kJump) 2) in E;
      [|by eapply holds_head|done|lia|done|lia|done].
    specialize (Hhome eq_refl). rewrite Hpar in E. cbn [get_ with_get_] in E.
    rewrite (proj2 (Z.eqb_neq _ _)) in E by lia. rewrite E. exists w1. split; [done|].
    split_and!; try done.
    + eapply (working_move w _ _ (token (service w)) 0); try done. rewrite Hgl1. apply Hw.
    + simpl in *. by rewrite Hse.
Qed.

(** The loop takes the whole queue. *)
Lemma run_loop_ok l w fuel :
  working w -> queue (buffer_ (parser w)) (get_ (parser w)) l (CmdParser.put_ (parser w)) ->
  (length l <= fuel)%nat ->
  exists w', run_loop fuel w = Done w' /\ working w' /\
    parser w' = with_get_ (parser w) (CmdParser.put_ (parser w)) /\
    executed w (commands l) w' /\ put_offset (service w') = put_offset (service w) /\
    (get_offset (service w) = get_ (parser w) ->
     get_offset (service w') = get_ (parser w')).
Proof.
  revert w fuel. induction l as [|s l IH]; intros w fuel Hw Hq Hf.
  - destruct Hq as (E & _). cbn [layout] in E. exists w.
    assert (Hl : run_loop fuel w = Done w).
    { destruct fuel; cbn [PutChanged_loop]; unfold IsEmpty;
        by btrue (CmdParser.put_ (parser w) =? get_ (parser w)). }
    split_and!; try done. rewrite <- E. by rewrite with_get_id.
  - pose proof (queue_not_empty _ _ _ _ _ _ _ Hq) as Hne.
    destruct (step_slot w s l Hw Hq) as (w1 & E & Hw1 & Hpar & Hm & Hput).
    destruct fuel as [|fuel]; [simpl in Hf; lia|].
    set (w2 := set_service w1 _) in *.
    assert (Hpar2 : parser w2 = with_get_ (parser w) (slot_next (get_ (parser w)) s)) by done.
    destruct (IH w2 fuel) as (w' & E' & Hw' & Hp' & Hx & Hpo & Hgo);
      [done| |simpl in Hf; lia|].
    { rewrite Hpar2. simpl get_. change (buffer_ (with_get_ _ _)) with (buffer_ (parser w)).
      apply (queue_advance (simple (G := G)) usable _ (get_ (parser w)) [s]); [exact Hq|].
      destruct Hq as ((? & ? & ? & _) & _). by split_and!. }
    exists w'. split; [|split; [done|]].
    + cbn [PutChanged_loop]. unfold IsEmpty.
      bfalse (CmdParser.put_ (parser w) =? get_ (parser w)). rewrite E. cbn [obind IsError].
      fold w2. rewrite (work_processed _ Hw1). cbn [obind].
      rewrite (work_scheduled _ Hw1). exact E'.
    + rewrite Hp', Hpar2. split_and!; [done| |by rewrite Hpo|].
      * unfold executed in *. rewrite Hx. change (meaning w2) with (meaning w1).
        rewrite Hm. change (s :: l) with ([s] ++ l).
        by rewrite commands_app, fold_left_app.
      * intros _. rewrite <- Hpar2, <- Hp'. by apply Hgo.
Qed.

Lemma idle_working w : idle usable w -> working w.
Proof. by intros []. Qed.

(** A flush of a queue runs it to its end. *)
Lemma run_ok w fuel l p :
  idle usable w -> queue (buffer_ (parser w)) (get_offset (service w)) l p ->
  (length l <= fuel)%nat ->
  let w0 := set_service w (with_put (service w) p) in
  exists w', run (S depth) fuel w0 = Done w' /\ idle usable w' /\
    executed w (commands l) w' /\ buffer_ (parser w') = buffer_ (parser w) /\
    put_offset (service w') = p.
Proof.
  intros Hw Hq Hf w0. pose proof Hw as [Hok He Hd Hc Hp Hu Hn Hdr Hpub Hgl].
  rewrite Hpub in Hq. pose proof (idle_working _ Hw) as Hwork.
  destruct (working_bounds w Hwork) as [Hcount _].
  assert (Hp0 : 0 <= p <= usable) by by destruct Hq as (_ & _ & ? & _).
  unfold run, PutChanged. cbn [GetState]. cbv zeta. cbn [s_put_offset s_error].
  set (w1 := set_service w0 _). set (w2 := set_parser w1 _).
  assert (Hok1 : process_ok w1).
  { apply process_set_service; try done; [|by simpl in *; lia].
    apply process_set_service; try done. simpl in *. lia. }
  assert (Hok2 : process_ok w2).
  { destruct (decoder_engine _ _ _ Hok1) as [[? ? ? ?] Hn1 Hp1 ?].
    apply process_set_parser; [done| |done]. split; try done.
    rewrite <- Hn1 in Hp1. exact Hp1. }
  assert (Hw2 : working w2) by by split.
  change (error (service w0)) with (error (service w)). rewrite He. cbn [bool_decide negb].
  destruct (run_loop_ok l w2 fuel Hw2 Hq Hf) as (w' & E & Hw' & Hpar & Hx & Hput & Hget).
  exists w'. split; [exact E|].
  assert (Hg' : get_ (parser w') = p) by by rewrite Hpar.
  split; [|split_and!; [done|by rewrite Hpar|done]].
  destruct Hw'. split; try done.
  - rewrite Hg', Hput. done.
  - apply Hget. exact Hpub.
Qed.

(** *** The process is a command buffer *)

Lemma exec_token (m : Meaning G) c : (exec m c).1.1 = default m.1.1 (as_token c).
Proof.
  destruct m as [[t bs] g], c as [id args]. unfold exec, as_token. cbn [c_id c_args].
  destruct (id =? id_num kSetToken).
  - by destruct args as [|? [|? ?]].
  - destruct (id =? id_num kSetBucketSize); [|by destruct (kStartPoint <? id)].
    by destruct args as [|? [|? [|? ?]]].
Qed.

Lemma exec_all_token cs (m : Meaning G) : (fold_left exec cs m).1.1 = token_after m.1.1 cs.
Proof.
  revert m. induction cs as [|c cs IH]; intros m; [done|].
  cbn [fold_left]. rewrite IH, exec_token. done.
Qed.

Lemma idle_set_service w t :
  idle usable w -> idle usable (set_service w (with_generation (service w) t)).
Proof.
  intros []. split; try done. apply process_set_service; try done.
  by apply service_put_ok.
Qed.

End lemmas.

Section laws.
Context `{Platform} {G : Type} `{!GLES2Handlers G, !SimpleGLES2 G, !SimpleLaws G}.
Context (depth : nat) (usable : Z) (fuel : nat) (clock : GpuProcess G -> Z).
Hypothesis small_table : zlen (g_command_info (G := G)) < 2 ^ 31.
Hypothesis enough_fuel : usable <= Z.of_nat fuel.

Notation InProcess := (InProcess (S depth) fuel clock).
Notation idle := (idle (G := G) usable).
Notation reads := (reads (H := InProcess) (simple (G := G)) usable idle
  (fun w => get_offset (service w)) (fun w => put_offset (service w)) executed).

Lemma idle_reads w l g :
  idle w ->
  reads (put_offset (service w)) l [] l w (set_service w (with_generation (service w) g)).
Proof. intros Hw. split; try done. by apply idle_set_service. Qed.

(** A flush of a well-formed queue is accepted, and takes all of it. *)
Lemma flush_reads w l p :
  idle w -> queue (simple (G := G)) usable (buffer_ (parser w)) (get_offset (service w)) l p ->
  exists w', run (S depth) fuel (set_service w (with_put (service w) p)) = Done w' /\
    reads p l l [] w w' /\ (p <? 0) || (p >? num_entries (service w)) = false.
Proof.
  intros Hw Hq. pose proof (queue_length _ _ _ _ _ _ Hq).
  destruct (run_ok depth usable small_table w fuel l p Hw Hq) as (w' & E & Hw' & Hx & Hb & Hp);
    [lia|].
  pose proof Hq as (_ & _ & Hp0 & _). pose proof (idle_entries _ _ Hw).
  exists w'. split; [exact E|]. split; [|lia]. split; try done.
  - by rewrite app_nil_r.
  - destruct Hq as (Hl & _).
    by rewrite (idle_published _ _ Hw'), (idle_drained _ _ Hw'), Hp.
Qed.

Lemma idle_set_entries w ws :
  idle w -> zlen ws = zlen (buffer_ (parser w)) -> Forall is_u32 ws ->
  idle (set_parser w (with_buffer_ (parser w) ws)).
Proof.
  intros Hw Hz Hu. destruct Hw as [Hok]. split; try done.
  destruct (sched_parser _ (decoder_engine _ _ _ Hok)) as [? ? ? ?].
  apply process_set_parser; [done| |done]. split; try done.
  simpl in *. unfold scheduler in *. lia.
Qed.

(** The process meets what the helper relies on. *)
Lemma InProcess_laws :
  CommandBufferLaws (GpuProcess G) (H := InProcess) (simple (G := G)) usable
    idle (fun w => get_offset (service w)) (fun w => put_offset (service w))
    (fun w => token (service w)) executed.
Proof.
  split.
  - by intros c [? _].
  - done.
  - intros w d w' Hx. unfold executed, meaning in Hx.
    change (token (service w')) with (token (service w'), buckets_ (decoder w'), gles2 w').1.1.
    rewrite Hx, exec_all_token. done.
  - intros w1 w2 w3 d1 d2. unfold executed. intros H1 H2. by rewrite fold_left_app, <- H1.
  - intros w l Hw Hl. pose proof (idle_ok _ _ Hw) as Hok.
    destruct (decoder_engine _ _ _ Hok) as [[? ? ? ?] Hn ? ?].
    do 2 eexists. exists [], l. split; [done|]. split; [by apply idle_reads|].
    split; [done|]. simpl. pose proof (idle_entries _ _ Hw). simpl in *.
    unfold scheduler in *. lia.
  - intros w l Hw Hl. do 2 eexists. exists [], l. split; [done|].
    by split; [apply idle_reads|].
  - intros w p l Hw Hq. destruct (flush_reads w l p Hw Hq) as (w' & E & Hr & Hb).
    exists w', l, []. split; [|done]. pose proof (idle_callback _ _ Hw) as Hcb.
    simpl. unfold Flush. simpl in *. by rewrite Hb, Hcb.
  - intros w p known l Hw Hq. destruct (flush_reads w l p Hw Hq) as (w' & E & Hr & Hb).
    pose proof (reads_ok _ _ _ _ _ _ _ _ _ _ _ _ Hr) as Hw'.
    do 2 eexists. exists l, []. split; [|split; [|split; [|done]]].
    + pose proof (idle_callback _ _ Hw) as Hcb. simpl. unfold FlushSync. simpl in *.
      by rewrite Hb, Hcb, E.
    + destruct Hr as [? ? ? ? ? ?]. split; try done. by apply idle_set_service.
    + apply Hw'.
  - intros w ws Hw Hz Hu. split_and!; try done. by apply idle_set_entries.
  - intros w Hw. apply (sched_parser _ (decoder_engine _ _ _ (idle_ok _ _ Hw))).
Qed.

End laws.

(** ** A process whose context is lost *)

Definition lost {G} (w : GpuProcess G) : Prop :=
  error (service w) <> kNoError /\ get_offset (service w) = 0.

Lemma InProcess_lost `{Platform} {G} `{!GLES2Handlers G} depth fuel clock :
  LostContext (GpuProcess G) (H := InProcess depth fuel clock) lost.
Proof.
  split.
  - intros w Hl. do 2 eexists. split; [done|]. by destruct Hl.
  - intros w p known [He Hg]. simpl. unfold FlushSync. destruct (_ || _).
    { do 2 eexists. by split. }
    assert (Hrun : exists w', run depth fuel (set_service w (with_put (service w) p)) = Done w' /\
      error (service w') = error (service w) /\ get_offset (service w') = get_offset (service w)
      /\ buffer_ (parser w') = buffer_ (parser w)).
    { unfold run, PutChanged. cbn [GetState]. cbv zeta. cbn [s_put_offset s_error].
      rewrite bool_decide_false by done. cbn [negb]. by eexists. }
    destruct Hrun as (w' & E & He' & Hg' & Hb'). simpl in *.
    destruct (put_offset_change_callback _).
    + rewrite E. do 2 eexists. split; [done|]. unfold lost. simpl. by rewrite He', Hg'.
    + do 2 eexists. by split.
  - intros w ws [He Hg] Hz. by split.
Qed.

(** ** Properties *)

(** A started process is idle. *)
Lemma start_process_idle `{SimpleGLES2 G} usable memory os (g : G) c :
  gl_ok g ->
  Initialize true os (4 * (usable + 2)) CommandBufferService_new = (true, c) ->
  1 <= usable -> usable + 2 <= zlen (memory (map_memory os)) ->
  Forall is_u32 (memory (map_memory os)) ->
  let w := start_process memory c g in
  idle usable w /\ meaning w = (0, ∅, g) /\ put_offset (service w) = 0 /\
  ptr (GetRingBuffer (service w)) = Some (map_memory os) /\
  buffer_ (parser w) = memory (map_memory os).
Proof.
  intros Hg E Hu Hm Hw w.
  assert (E4 : 4 * (usable + 2) / 4 = usable + 2) by (rewrite Z.mul_comm, Z.div_mul; lia).
  assert (Hok : process_ok w).
  { apply (start_process_ok memory os (4 * (usable + 2))); [done|lia|by rewrite E4|done]. }
  unfold w in *. clear w.
  revert E Hok. unfold Initialize, Initialize_shared. simpl.
  destruct (_ || _); [done|]. destruct (share_ok os); [|done].
  destruct (map_ok os); [|done]. simpl. intros [= <-] Hok.
  split_and!; try done. split; try done. simpl. rewrite E4. lia.
Qed.

(** C3: client and service, end to end, for commands that always succeed.  A client that
    initialises its helper on the ring buffer of a fresh process, issues any sequence of
    no-ops, tokens, sizes of buckets and simple GLES2 commands ([simple]: those that
    [SimpleGLES2] names, of which [SimpleLaws] says that they succeed) that are shorter than
    the ring (however often it wraps) and finishes, leaves the service in exactly the state
    of executing those commands one after the other, with no ring buffer at all.
    [GLES2EndToEnd.v] meets [SimpleLaws] with handlers of the decoder. *)
Theorem client_service_end_to_end `{Platform} {G} `{!GLES2Handlers G, !SimpleGLES2 G, !SimpleLaws G}
    depth fuel clock memory os usable (g : G) c cmds :
  zlen (g_command_info (G := G)) < 2 ^ 31 -> gl_ok g ->
  Initialize true os (4 * (usable + 2)) CommandBufferService_new = (true, c) ->
  1 <= usable -> usable + 2 <= zlen (memory (map_memory os)) ->
  Forall is_u32 (memory (map_memory os)) -> usable <= Z.of_nat fuel ->
  Forall (simple (G := G)) cmds -> Forall (fun cmd => command_size cmd < usable) cmds ->
  let B := InProcess (S depth) fuel clock in
  let w := start_process memory c g in
  exists c0 c1 c2,
    CommandBufferHelper.Initialize (H0 := B) (4 * (usable + 2)) (CommandBufferHelper.new w)
      = (true, c0) /\
    issue_all (H0 := B) fuel cmds c0 = Done c1 /\
    CommandBufferHelper.Finish (H0 := B) (S fuel) c1 = Done (true, c2) /\
    meaning (CmdBufferHelper.command_buffer_ c2) = fold_left exec cmds (0, ∅, g).
Proof.
  intros Ht Hg E Hu Hm Hw Hf Hs Hn B w.
  destruct (start_process_idle usable memory os g c Hg E Hu Hm Hw)
    as (Hidle & Hmean & Hput & Hptr & Hbuf). fold w in Hidle, Hmean, Hput, Hptr, Hbuf.
  pose proof (InProcess_laws depth usable fuel clock Ht Hf) as Hlaws. fold B in Hlaws.
  assert (Hbig : usable < 2 ^ 27).
  { revert E. unfold Initialize. simpl. unfold kMaxCommandBufferSize.
    destruct (_ || _) eqn:E0; [done|]. zbool. lia. }
  destruct (Initialize_ok w (map_memory os) Hidle) as (c0 & E0 & Hc0 & _);
    [lia|simpl in *; by rewrite Hbuf|done|
     by rewrite (idle_published _ _ Hidle), (idle_drained _ _ Hidle)|simpl in *; lia|].
  destruct (issue_all_ok w fuel cmds _ _ _ _ Hc0 Hs Hn Hf) as (l1 & l2 & c1 & E1 & Hc1).
  pose proof (client_length w _ _ _ _ Hc1).
  destruct (Finish_ok w _ _ _ _ fuel Hc1) as (c2 & E2 & _ & Hd); [lia|].
  exists c0, c1, c2. split_and!; [done..|]. unfold executed in Hd. simpl in Hd.
  by rewrite Hd, Hmean.
Qed.

Definition example_commands : list Command :=
  [token_command 1; mkCommand (id_num kNoop) [7; 8]; mkCommand (id_num kSetBucketSize) [3; 5];
   token_command 2; mkCommand (id_num kNoop) []; mkCommand (id_num kSetBucketSize) [4; 1];
   mkCommand (id_num kNoop) [1; 2; 3; 4; 5; 6]; token_command 3].

Definition simpleb (c : Command) : bool :=
  all_u32 (c_args c) && (command_size c <? 2 ^ 21) &&
  ((c_id c =? id_num kNoop) || (c_id c =? id_num kSetToken) && (zlen (c_args c) =? 1)
   || (c_id c =? id_num kSetBucketSize) && (zlen (c_args c) =? 2)).

Lemma simpleb_ok cs : forallb simpleb cs = true -> Forall (simple (G := unit)) cs.
Proof.
  induction cs as [|c cs IH]; simpl; [by constructor|]. intros [Hc Hcs]%andb_prop.
  constructor; [|by apply IH]. unfold simpleb in Hc. zbool.
  unfold simple, plain. simpl id_num in *. split; [|lia].
  split_and!; [lia..| |lia]. by apply all_u32_ok.
Qed.

#[export] Instance unit_simple_laws `{Platform} `{GLES2Handlers unit} : SimpleLaws unit.
Proof. by split. Qed.

(** The ring of twelve entries of [cmd_buffer_helper_test.cc]. *)
Definition example_ring : list Z := replicate 12 0.
Definition example_buffer : CommandBuffer (GpuProcess unit) := InProcess 1 12 (fun _ => 0).

Lemma client_service_end_to_end_witness :
  let B := InProcess 1 12 (fun _ => 0) in
  let w := start_process (fun _ => example_ring) (example_service 48) tt in
  exists c0 c1 c2,
    CommandBufferHelper.Initialize (H0 := B) (4 * (10 + 2)) (CommandBufferHelper.new w)
      = (true, c0) /\
    issue_all (H0 := B) 12 example_commands c0 = Done c1 /\
    CommandBufferHelper.Finish (H0 := B) (S 12) c1 = Done (true, c2) /\
    meaning (CmdBufferHelper.command_buffer_ c2) = fold_left exec example_commands (0, ∅, tt).
Proof.
  refine (client_service_end_to_end 0 12 (fun _ => 0) (fun _ => example_ring)
           (mkMapResult true true 1 2) 10 tt (example_service 48) example_commands
           _ _ _ _ _ _ _ _ _).
  - reflexivity.
  - exact I.
  - reflexivity.
  - lia.
  - discriminate.
  - apply all_u32_ok. reflexivity.
  - lia.
  - apply simpleb_ok. reflexivity.
  - repeat constructor.
Defined.

(** *** The properties of the helper, in this process *)

Definition example_client : Client (GpuProcess unit) :=
  snd (CommandBufferHelper.Initialize (H0 := example_buffer) (4 * (10 + 2))
         (CommandBufferHelper.new (example_process example_ring))).

Notation example_ready issued c :=
  (ready (H0 := example_buffer) (simple (G := unit)) 10 (idle 10) (fun w => get_offset (service w))
     (fun w => put_offset (service w)) executed (example_process example_ring) issued c).

Lemma example_laws :
  CommandBufferLaws (GpuProcess unit) (H := example_buffer) (simple (G := unit)) 10 (idle 10)
    (fun w => get_offset (service w)) (fun w => put_offset (service w))
    (fun w => token (service w)) executed.
Proof. by apply InProcess_laws. Qed.

Lemma example_idle :
  idle 10 (example_process example_ring) /\
  ptr (GetRingBuffer (service (example_process example_ring))) = Some 1.
Proof.
  destruct (start_process_idle 10 (fun _ => example_ring) (mkMapResult true true 1 2) tt
    (example_service 48)) as (? & _); [done|done|lia|done|by apply all_u32_ok|done].
Qed.

Lemma example_client_ready :
  example_ready [] example_client /\ token_ (helper example_client) = 0.
Proof.
  destruct example_idle as [Hi Hp]. pose proof example_laws as Hlaws.
  destruct (Initialize_ok (CommandBufferLaws0 := Hlaws) (example_process example_ring) 1 Hi)
    as (c & E & Hc & Ht); [lia|done|done|done|done|].
  assert (Ec : example_client = c) by (unfold example_client; by rewrite E).
  rewrite Ec. split; [by exists [], []|done].
Qed.

Lemma Initialize_ready_witness :
  exists c, CommandBufferHelper.Initialize (H0 := example_buffer) (4 * (10 + 2))
      (CommandBufferHelper.new (example_process example_ring)) = (true, c) /\
    example_ready [] c.
Proof.
  apply (Initialize_ready (CommandBufferLaws0 := example_laws)
           (example_process example_ring) 1);
    [apply example_idle|lia|discriminate|reflexivity|reflexivity|split; [discriminate|reflexivity]].
Defined.

Lemma issue_fifo_witness :
  exists c', issue (H0 := example_buffer) 10 (token_command 9) example_client = Done c' /\
    example_ready ([] ++ [token_command 9]) c'.
Proof.
  apply (issue_fifo (CommandBufferLaws0 := example_laws)
           (example_process example_ring) [] example_client 10 (token_command 9)).
  - apply example_client_ready.
  - apply (Forall_inv (P := simple (G := unit)) (l := [])). apply simpleb_ok. reflexivity.
  - reflexivity.
  - lia.
Defined.

Lemma Finish_executes_all_witness :
  exists c', CommandBufferHelper.Finish (H0 := example_buffer) 11 example_client
      = Done (true, c') /\
    example_ready [] c' /\
    executed (example_process example_ring) [] (CmdBufferHelper.command_buffer_ c').
Proof.
  apply (Finish_executes_all (CommandBufferLaws0 := example_laws)).
  - apply example_client_ready.
  - lia.
Defined.

Lemma token_simple `{SimpleGLES2 G} t : simple (G := G) (token_command t).
Proof. split; [apply token_command_plain|]. right. by left. Qed.

Lemma InsertToken_issues_next_witness :
  exists c', CommandBufferHelper.InsertToken (H0 := example_buffer) 10 example_client
      = Done (token_ (helper example_client) + 1, c') /\
    token_ (helper c') = token_ (helper example_client) + 1 /\
    example_ready ([] ++ [token_command (token_ (helper example_client) + 1)]) c'.
Proof.
  apply (InsertToken_issues_next (CommandBufferLaws0 := example_laws)).
  - apply example_client_ready.
  - apply token_simple.
  - lia.
  - rewrite (proj2 example_client_ready). lia.
Defined.

Lemma WaitForToken_waits_witness :
  exists c, CommandBufferHelper.InsertToken (H0 := example_buffer) 10 example_client
      = Done (1, c) /\
  exists c' d, CommandBufferHelper.WaitForToken (H0 := example_buffer) 10 1 c = Done c' /\
    example_ready ([] ++ token_command 1 :: []) c' /\
    executed (example_process example_ring) d (CmdBufferHelper.command_buffer_ c') /\
    ([] ++ [token_command 1]) `prefix_of` d.
Proof.
  destruct example_client_ready as [(l1 & l2 & Hc) Ht0].
  destruct (InsertToken_issue (CommandBufferLaws0 := example_laws) _ [] l1 l2 example_client
    10 Hc token_simple) as (l1' & l2' & c & E & Htok & Hc'); [lia|rewrite Ht0; lia|].
  rewrite Ht0 in E, Htok, Hc'. exists c. split; [exact E|].
  apply (WaitForToken_waits (CommandBufferLaws0 := example_laws) _ [] 1 [] c 10).
  - exists l1', l2'. exact Hc'.
  - rewrite Htok. lia.
  - unfold is_i32. lia.
  - split; [reflexivity|exact I].
  - lia.
Defined.

(** The service met a header of size zero: the get offset stays zero. *)
Definition example_lost_client : Client (GpuProcess unit) :=
  mkClient (mkHelper null_buffer 12 10 0 9 9 0 0)
    (set_service (example_process example_ring)
       (with_error (service (example_process example_ring)) kInvalidSize)).

Lemma lost_context_overruns_ring_witness :
  let cmd := mkCommand (id_num kNoop) [1; 2] in
  exists c1, issue (H0 := example_buffer) 1 cmd example_lost_client = Done c1 /\
    issue (H0 := example_buffer) 1 cmd c1 = UB.
Proof.
  intros cmd.
  refine (lost_context_overruns_ring (LostContext0 := InProcess_lost 1 12 (fun _ => 0))
    example_lost_client 0 cmd cmd _ _ _ _ _ _).
  - split; [discriminate|reflexivity].
  - simpl. lia.
  - reflexivity.
  - reflexivity.
  - reflexivity.
  - reflexivity.
Defined.

Lemma Noop_header_one_short_witness :
  exists c' space, CommandBufferHelper.GetImmediateCmdSpace (H0 := example_buffer)
      CmdFormat.Noop 10 (usize (2 * 4)) example_client = Done (space, c') /\
    h_size (value_header (hd 0 (Noop_Init 2))) = 2 /\
    (CmdBufferHelper.put_ (helper c') = space + (2 + 1)
     \/ CmdBufferHelper.put_ (helper c') = 0).
Proof.
  assert (E : match CommandBufferHelper.GetImmediateCmdSpace (H0 := example_buffer)
      CmdFormat.Noop 10 (usize (2 * 4)) example_client with
    | Done (space, c') => (space, CmdBufferHelper.put_ (helper c'),
        usable_entry_count_ (helper c')) = (0, 3, 10)
    | _ => False end) by (vm_compute; reflexivity).
  destruct (CommandBufferHelper.GetImmediateCmdSpace _ _ _ _) as [[space c']| |] eqn:E2;
    [|done..]. injection E as -> Ep Eu. exists c', 0. split; [done|].
  apply (Noop_header_one_short (CommandBuffer0 := example_buffer) 10 2 example_client c' 0);
    [lia|rewrite Ep; lia|rewrite Eu; lia|lia|exact E2].
Defined.
