(* ===== verification/Tokens.v ===== *)
(** * Tokens

    What the allocators of shared memory ask of the helper: a token that was put in
    the command stream can be waited for, and the last token that was read can be
    asked for.  [TokenHelper] is the interface, [TokenLaws] what it promises, and
    the helper of the command buffer keeps the promise. *)

From S2P Require Import Prelude RingProtocol CmdBufferHelper.
From Stdlib Require Import ZArith Lia ZifyBool Bool.
From stdpp Require Import base numbers option list.
Local Open Scope Z_scope.

Class TokenHelper (W : Type) := {
  WaitForToken : Z -> W -> outcome W;
  last_token_read : W -> Z * W;
}.

(** [valid K w]: the helper works, and every token of [K] was issued;
    [passed w t]: the reader has gone past token [t].  Nothing a client does with the
    helper makes the reader go back. *)
Class TokenLaws (W : Type) `{TokenHelper W} (valid : (Z -> Prop) -> W -> Prop)
    (passed : W -> Z -> Prop) : Prop := {
  WaitForToken_passes K t w : valid K w -> K t ->
    exists w', WaitForToken t w = Done w' /\ valid K w' /\ passed w' t /\
      forall u, passed w u -> passed w' u;
  last_token_read_passed K w : valid K w ->
    valid K (snd (last_token_read w)) /\
    (forall u, u <= fst (last_token_read w) -> passed (snd (last_token_read w)) u) /\
    (forall u, passed w u -> passed (snd (last_token_read w)) u);
}.

(** The helper of the command buffer, its loops being given [fuel]. *)
Definition helper_tokens {B} `{CommandBuffer B} (fuel : nat) : TokenHelper (Client B) := {|
  WaitForToken := CommandBufferHelper.WaitForToken fuel;
  last_token_read := CommandBufferHelper.last_token_read;
|}.

Section helper.
Context `{Platform} {B : Type} `{HB : CommandBuffer B}.
Context {allowed : Command -> Prop} {usable : Z} {ok : B -> Prop} {reader sent tok : B -> Z}
  {did : B -> list Command -> B -> Prop}.
Context `{L : !CommandBufferLaws B allowed usable ok reader sent tok did}.

Local Notation client_ok := (client_ok allowed usable ok reader sent did).

(** The tokens still to be read increase, and each token of [K] was issued. *)
Definition helper_valid (K : Z -> Prop) (c : Client B) : Prop :=
  exists l1 l2, client_ok (command_buffer_ c) (commands (l1 ++ l2)) l1 l2 c /\
    tokens_increase (tok (command_buffer_ c)) (commands (l1 ++ l2)) /\
    forall t, K t -> 0 <= t <= token_ (helper c) /\
      t <= token_after (tok (command_buffer_ c)) (commands (l1 ++ l2)).

Definition helper_passed (c : Client B) (t : Z) : Prop := t <= tok (command_buffer_ c).

Lemma client_rebase b0 issued l1 l2 c :
  client_ok b0 issued l1 l2 c ->
  client_ok (command_buffer_ c) (commands (l1 ++ l2)) l1 l2 c.
Proof.
  intros []. split; try done. exists []. split; [|done].
  eapply (did_refl (CommandBufferLaws := L)).
Qed.

(** The reader moved on, and the tokens of the client did not change. *)
Lemma helper_valid_moves K c c' l1 l2 l1' l2' :
  client_ok (command_buffer_ c) (commands (l1 ++ l2)) l1' l2' c' ->
  tokens_increase (tok (command_buffer_ c)) (commands (l1 ++ l2)) ->
  (forall t, K t -> 0 <= t <= token_ (helper c) /\
    t <= token_after (tok (command_buffer_ c)) (commands (l1 ++ l2))) ->
  token_ (helper c') = token_ (helper c) ->
  helper_valid K c' /\ tok (command_buffer_ c) <= tok (command_buffer_ c').
Proof.
  intros Hc Hinc HK Htok. pose proof Hc as [_ _ _ _ _ _ _ (d & Hd & E)].
  rewrite E in *. apply tokens_increase_app in Hinc as [Hinc1 Hinc2].
  pose proof (did_token (CommandBufferLaws := L) _ _ _ Hd) as Ht. rewrite <- Ht in Hinc2.
  split; [|rewrite Ht; by apply token_after_le].
  exists l1', l2'. split_and!; [by eapply client_rebase|done|].
  intros t Hk%HK. by rewrite Htok, Ht, <- token_after_app.
Qed.

Lemma WaitForToken_loop_token fuel t (c c' : Client B) :
  CommandBufferHelper.WaitForToken_loop fuel t c = Done c' ->
  token_ (helper c') = token_ (helper c).
Proof.
  revert c. induction fuel as [|fuel IH]; intros c E;
    cbn [CommandBufferHelper.WaitForToken_loop] in E;
    unfold CommandBufferHelper.last_token_read in E;
    destruct (cb_GetLastState _) as [st b]; destruct (negb _); simplify_eq/=; try done.
  pose proof (get_offset_token (with_cb c b)) as Hg.
  destruct (CommandBufferHelper.get_offset _) as [g c1]. simpl in Hg.
  destruct (g =? _); [by simplify_eq|].
  destruct (CommandBufferHelper.FlushSync c1) as [[[] c2]| |] eqn:Ef; simplify_eq/=;
    apply FlushSync_token in Ef; [apply IH in E|]; congruence.
Qed.

(** The helper keeps the promise, given fuel for one flush per usable entry. *)
Lemma helper_TokenLaws fuel :
  usable <= Z.of_nat fuel ->
  @TokenLaws _ (helper_tokens fuel) helper_valid helper_passed.
Proof.
  intros Hf. split; simpl; intros K.
  - intros t c (l1 & l2 & Hc & Hinc & HK) Ht.
    destruct (HK t Ht) as [Hr Hafter]. unfold CommandBufferHelper.WaitForToken.
    bfalse (t <? 0). bfalse (t >? token_ (helper c)).
    pose proof (client_length _ _ _ _ _ Hc).
    destruct (WaitForToken_loop_reaches _ _ _ _ _ _ fuel Hc Hafter)
      as (l1' & l2' & c' & E & Hc' & Hp); [lia|].
    destruct (helper_valid_moves K c c' l1 l2 l1' l2') as [Hv Hle]; try done.
    { by eapply WaitForToken_loop_token. }
    exists c'. split_and!; try done. unfold helper_passed. intros u ?. lia.
  - intros c (l1 & l2 & Hc & Hinc & HK).
    destruct (last_token_read_ok _ _ _ _ _ Hc) as (d & l1' & b' & -> & Hc' & ->). simpl.
    destruct (helper_valid_moves K c (with_cb c b') (d ++ l1') l2 l1' l2) as [Hv Hle]; try done.
    unfold helper_passed. split_and!; [done|done|]. simpl in *. intros u ?. lia.
Qed.

End helper.
