(* ===== verification/FencedAllocator.v ===== *)
(** * The fenced allocator

    [gpu/command_buffer/client/fenced_allocator.{h,cc}]: allocation inside a block
    of shared memory, where memory can be freed pending the passage of a token.
    The helper is seen through the interface [TokenHelper]. *)

From S2P Require Import Prelude Tokens.
From Stdlib Require Import ZArith Lia ZifyBool Bool.
From stdpp Require Import base numbers option sets list.
Local Open Scope Z_scope.

(** ** Data *)

Definition kInvalidOffset : Z := 4294967295.
Definition kUnusedToken : Z := 0.

Inductive State := IN_USE | FREE | FREE_PENDING_TOKEN.

#[export] Instance State_eq_dec : EqDecision State.
Proof. solve_decision. Defined.

Record Block := mkBlock { b_state : State; b_offset : Z; b_size : Z; b_token : Z }.

Definition with_state (b : Block) (s : State) : Block :=
  mkBlock s (b_offset b) (b_size b) (b_token b).
Definition with_size (b : Block) (n : Z) : Block :=
  mkBlock (b_state b) (b_offset b) n (b_token b).

(** The allocator is its vector [blocks_]. *)
Notation Blocks := (list Block).

(** ** Operations *)

(** The constructor. *)
Definition new (size : Z) : Blocks := [mkBlock FREE 0 size kUnusedToken].

(** [std::lower_bound] on the offsets: the first block that is not before. *)
Fixpoint GetBlockByOffset (offset : Z) (blocks : Blocks) : nat :=
  match blocks with
  | [] => O
  | b :: blocks => if b_offset b <? offset then S (GetBlockByOffset offset blocks) else O
  end.

Definition CollapseFreeBlock (index : nat) (blocks : Blocks) : outcome (nat * Blocks) :=
  (do blocks <-
     match blocks !! S index with
     | Some next =>
         if decide (b_state next = FREE) then
           do b <- of_option (blocks !! index) ;;
           Done (take (S index)
                   (<[index := with_size b (u32 (b_size b + b_size next))]> blocks)
                 ++ drop (S (S index)) blocks)
         else Done blocks
     | None => Done blocks
     end ;;
   match index with
   | S before =>
       do prev <- of_option (blocks !! before) ;;
       if decide (b_state prev = FREE) then
         do b <- of_option (blocks !! index) ;;
         Done (before,
               take index (<[before := with_size prev (u32 (b_size prev + b_size b))]> blocks)
               ++ drop (S index) blocks)
       else Done (index, blocks)
   | O => Done (index, blocks)
   end)%gpu.

Definition Free (offset : Z) (blocks : Blocks) : outcome Blocks :=
  let index := GetBlockByOffset offset blocks in
  (do b <- of_option (blocks !! index) ;;
   do (_, blocks) <- CollapseFreeBlock index (<[index := with_state b FREE]> blocks) ;;
   Done blocks)%gpu.

Definition FreePendingToken (offset token : Z) (blocks : Blocks) : outcome Blocks :=
  let index := GetBlockByOffset offset blocks in
  (do b <- of_option (blocks !! index) ;;
   Done (<[index := mkBlock FREE_PENDING_TOKEN (b_offset b) (b_size b) token]> blocks))%gpu.

Fixpoint GetLargestFreeSize_loop (max_size : Z) (blocks : Blocks) : Z :=
  match blocks with
  | [] => max_size
  | b :: blocks =>
      GetLargestFreeSize_loop
        (if decide (b_state b = FREE) then Z.max max_size (b_size b) else max_size) blocks
  end.

Definition GetLargestFreeSize (blocks : Blocks) : Z := GetLargestFreeSize_loop 0 blocks.

Fixpoint GetLargestFreeOrPendingSize_loop (max_size current_size : Z) (blocks : Blocks) : Z :=
  match blocks with
  | [] => Z.max max_size current_size
  | b :: blocks =>
      if decide (b_state b = IN_USE)
      then GetLargestFreeOrPendingSize_loop (Z.max max_size current_size) 0 blocks
      else GetLargestFreeOrPendingSize_loop max_size (u32 (current_size + b_size b)) blocks
  end.

Definition GetLargestFreeOrPendingSize (blocks : Blocks) : Z :=
  GetLargestFreeOrPendingSize_loop 0 0 blocks.

(** The loop of [CheckConsistency] on the blocks after [current]. *)
Fixpoint CheckConsistency_loop (current : Block) (blocks : Blocks) : bool :=
  match blocks with
  | [] => true
  | next :: blocks =>
      if b_offset next <=? b_offset current then false
      else if negb (b_offset next =? u32 (b_offset current + b_size current)) then false
      else if bool_decide (b_state current = FREE) && bool_decide (b_state next = FREE)
      then false
      else CheckConsistency_loop next blocks
  end.

Definition CheckConsistency (blocks : Blocks) : bool :=
  match blocks with
  | [] => false
  | b :: blocks => CheckConsistency_loop b blocks
  end.

Definition InUse (blocks : Blocks) : bool :=
  match blocks with
  | [b] => negb (bool_decide (b_state b = FREE))
  | _ => true
  end.

Definition AllocInBlock (index : nat) (size : Z) (blocks : Blocks) : outcome (Z * Blocks) :=
  (do b <- of_option (blocks !! index) ;;
   let offset := b_offset b in
   if b_size b =? size then Done (offset, <[index := with_state b IN_USE]> blocks)
   else
     let newblock := mkBlock FREE (u32 (offset + size)) (u32 (b_size b - size)) kUnusedToken in
     Done (offset,
           take (S index) (<[index := mkBlock IN_USE offset size (b_token b)]> blocks)
           ++ newblock :: drop (S index) blocks))%gpu.

(** The first loop of [Alloc]: the first free block that is big enough. *)
Fixpoint find_free (size : Z) (i : nat) (blocks : Blocks) : option nat :=
  match blocks with
  | [] => None
  | b :: blocks =>
      if bool_decide (b_state b = FREE) && (b_size b >=? size) then Some i
      else find_free size (S i) blocks
  end.

Section allocator.
Context {W : Type} `{TokenHelper W}.

Definition WaitForTokenAndFreeBlock (index : nat) (blocks : Blocks) (w : W)
    : outcome (nat * Blocks * W) :=
  (do b <- of_option (blocks !! index) ;;
   do w <- WaitForToken (b_token b) w ;;
   do (index, blocks) <- CollapseFreeBlock index (<[index := with_state b FREE]> blocks) ;;
   Done (index, blocks, w))%gpu.

(** The second loop of [Alloc]. *)
Fixpoint wait_loop (fuel : nat) (size : Z) (i : nat) (blocks : Blocks) (w : W)
    : outcome (Z * Blocks * W) :=
  match blocks !! i with
  | None => Done (kInvalidOffset, blocks, w)
  | Some b =>
      match fuel with
      | O => Fuel
      | S fuel =>
          if decide (b_state b <> FREE_PENDING_TOKEN)
          then wait_loop fuel size (S i) blocks w
          else
            (do (i, blocks, w) <- WaitForTokenAndFreeBlock i blocks w ;;
             do b <- of_option (blocks !! i) ;;
             if b_size b >=? size then
               do (offset, blocks) <- AllocInBlock i size blocks ;;
               Done (offset, blocks, w)
             else wait_loop fuel size (S i) blocks w)%gpu
      end
  end.

(** A turn of the loop shortens the blocks that remain, hence the fuel. *)
Definition Alloc (size : Z) (blocks : Blocks) (w : W) : outcome (Z * Blocks * W) :=
  let size := if size =? 0 then 1 else size in
  match find_free size 0 blocks with
  | Some i =>
      (do (offset, blocks) <- AllocInBlock i size blocks ;; Done (offset, blocks, w))%gpu
  | None => wait_loop (length blocks) size 0 blocks w
  end.

Fixpoint FreeUnused_loop (fuel : nat) (last_token_read : Z) (i : nat) (blocks : Blocks)
    : outcome Blocks :=
  match blocks !! i with
  | None => Done blocks
  | Some b =>
      match fuel with
      | O => Fuel
      | S fuel =>
          if bool_decide (b_state b = FREE_PENDING_TOKEN) && (b_token b <=? last_token_read)
          then
            (do (i, blocks) <- CollapseFreeBlock i (<[i := with_state b FREE]> blocks) ;;
             FreeUnused_loop fuel last_token_read i blocks)%gpu
          else FreeUnused_loop fuel last_token_read (S i) blocks
      end
  end.

(** A block that is freed is visited again, so a turn either frees a pending block
    or goes on to the next one. *)
Definition FreeUnused (blocks : Blocks) (w : W) : outcome (Blocks * W) :=
  let '(last_token_read, w) := last_token_read w in
  (do blocks <- FreeUnused_loop (2 * length blocks) last_token_read 0 blocks ;;
   Done (blocks, w))%gpu.

(** The loop of the destructor. *)
Fixpoint free_all (fuel : nat) (i : nat) (blocks : Blocks) (w : W) : outcome (Blocks * W) :=
  match blocks !! i with
  | None => Done (blocks, w)
  | Some b =>
      match fuel with
      | O => Fuel
      | S fuel =>
          if decide (b_state b = FREE_PENDING_TOKEN) then
            (do (i, blocks, w) <- WaitForTokenAndFreeBlock i blocks w ;;
             free_all fuel (S i) blocks w)%gpu
          else free_all fuel (S i) blocks w
      end
  end.

Definition destructor (blocks : Blocks) (w : W) : outcome (Blocks * W) :=
  free_all (length blocks) 0 blocks w.

End allocator.

(** ** The specification: who owns each byte

    The blocks tile the memory, and no two free neighbours are left apart. *)

Inductive cell := Used | Avail | Pending (token : Z).

Definition view (b : Block) : cell :=
  match b_state b with
  | IN_USE => Used
  | FREE => Avail
  | FREE_PENDING_TOKEN => Pending (b_token b)
  end.

Definition covers (b : Block) (x : Z) : bool :=
  (b_offset b <=? x) && (x <? b_offset b + b_size b).

(** The byte at offset [x]. *)
Fixpoint cell_at (bs : Blocks) (x : Z) : option cell :=
  match bs with
  | [] => None
  | b :: bs => if covers b x then Some (view b) else cell_at bs x
  end.

Fixpoint tiled (o : Z) (bs : Blocks) (e : Z) : Prop :=
  match bs with
  | [] => o = e
  | b :: bs => b_offset b = o /\ 0 < b_size b /\ tiled (o + b_size b) bs e
  end.

Definition free_pair (b c : option Block) : Prop :=
  b_state <$> b = Some FREE /\ b_state <$> c = Some FREE.

Fixpoint apart (bs : Blocks) : Prop :=
  match bs with
  | [] => True
  | b :: bs => ~ free_pair (Some b) (head bs) /\ apart bs
  end.

Record ok (n : Z) (bs : Blocks) : Prop := {
  ok_size : 0 < n < 2 ^ 32;
  ok_tiled : tiled 0 bs n;
  ok_apart : apart bs;
}.

(** The allocations that have not been freed: their offsets and sizes. *)
Definition allocations (bs : Blocks) : list (Z * Z) :=
  flat_map (fun b => if decide (b_state b = IN_USE) then [(b_offset b, b_size b)] else []) bs.

(** [advanced passed bs bs']: pending bytes whose token has passed may have
    become available, and nothing else has changed. *)
Definition advanced (passed : Z -> Prop) (bs bs' : Blocks) : Prop :=
  allocations bs' = allocations bs /\
  forall x, cell_at bs' x = cell_at bs x \/
    exists t, cell_at bs x = Some (Pending t) /\ passed t /\ cell_at bs' x = Some Avail.

(** [run bs x n]: [n] bytes from [x] on are free or will be. *)
Definition run (bs : Blocks) (x n : Z) : Prop :=
  forall y, x <= y < x + n -> exists c, cell_at bs y = Some c /\ c <> Used.

(** ** Lemmas on tilings *)

Lemma cell_at_app l r x :
  cell_at (l ++ r) x = match cell_at l x with Some c => Some c | None => cell_at r x end.
Proof. induction l as [|b l IH]; simpl; [done|]. by destruct (covers b x). Qed.

Lemma tiled_app o l r e :
  tiled o (l ++ r) e <-> exists m, tiled o l m /\ tiled m r e.
Proof.
  revert o. induction l as [|b l IH]; intros o; simpl.
  - split; [by eauto|]. by intros (m & -> & ?).
  - rewrite IH. naive_solver.
Qed.

Lemma tiled_le o bs e : tiled o bs e -> o <= e.
Proof.
  revert o. induction bs as [|b bs IH]; intros o; simpl; [lia|].
  intros (_ & ? & ?%IH). lia.
Qed.

Lemma tiled_cell_at o bs e x :
  tiled o bs e -> is_Some (cell_at bs x) <-> o <= x < e.
Proof.
  revert o. induction bs as [|b bs IH]; intros o; simpl.
  - intros ->. split; [by intros []|lia].
  - intros (Ho & Hs & Ht). pose proof (tiled_le _ _ _ Ht). unfold covers.
    destruct (_ && _) eqn:E; zbool.
    + split; [lia|eauto].
    + rewrite (IH _ Ht). lia.
Qed.

Lemma tiled_cell_None o bs e x : tiled o bs e -> ~ o <= x < e -> cell_at bs x = None.
Proof. intros Ht Hx. apply eq_None_not_Some. by rewrite tiled_cell_at. Qed.

Lemma tiled_block o bs e b : tiled o bs e -> b ∈ bs -> o <= b_offset b /\
  0 < b_size b /\ b_offset b + b_size b <= e.
Proof.
  intros Ht (l & r & ->)%list_elem_of_split. apply tiled_app in Ht as (m & Hl & Hm).
  apply tiled_le in Hl. cbn [tiled] in Hm. destruct Hm as (? & ? & Hr%tiled_le). lia.
Qed.

(** Two tilings of one interval can be told apart byte by byte. *)
Lemma cell_at_middle o l m r e x i :
  tiled o l i -> tiled i (m ++ r) e ->
  cell_at (l ++ m ++ r) x = if x <? i then cell_at l x else cell_at (m ++ r) x.
Proof.
  intros Hl Hr. rewrite cell_at_app. destruct (x <? i) eqn:E; zbool.
  - destruct (cell_at l x) eqn:El; [done|]. rewrite <- El, (tiled_cell_None _ _ _ _ Hr); [done|lia].
  - rewrite (tiled_cell_None _ _ _ _ Hl); [done|lia].
Qed.

Lemma apart_app l r :
  apart (l ++ r) <-> apart l /\ apart r /\ ~ free_pair (last l) (head r).
Proof.
  induction l as [|b l IH]; simpl.
  - split; [|naive_solver]. intros. split_and!; [done..|]. by intros [? _].
  - rewrite IH. destruct l as [|c l]; simpl; [|naive_solver].
    unfold free_pair. simpl. naive_solver.
Qed.

Lemma allocations_app l r : allocations (l ++ r) = allocations l ++ allocations r.
Proof. apply flat_map_app. Qed.

Lemma advanced_refl P bs : advanced P bs bs.
Proof. split; auto. Qed.

Lemma advanced_trans (P Q : Z -> Prop) bs1 bs2 bs3 :
  (forall t, P t -> Q t) -> advanced P bs1 bs2 -> advanced Q bs2 bs3 -> advanced Q bs1 bs3.
Proof.
  intros HPQ [A1 H1] [A2 H2]. split; [congruence|]. intros x.
  destruct (H1 x) as [E1|(t & E1 & HP & E1')], (H2 x) as [E2|(u & E2 & HQ & E2')].
  - left. congruence.
  - right. exists u. rewrite <- E1. auto.
  - right. exists t. rewrite E2. auto.
  - congruence.
Qed.

(** ** Merging free blocks *)

Section middle.
Context {A : Type}.
Implicit Types l r : list A.

Lemma middle_insert l b r c : <[length l := c]> (l ++ b :: r) = l ++ c :: r.
Proof. by rewrite <- (Nat.add_0_r (length l)), insert_app_r. Qed.

Lemma middle_take l b r : take (S (length l)) (l ++ b :: r) = l ++ [b].
Proof.
  replace (l ++ b :: r) with ((l ++ [b]) ++ r) by (by rewrite <- app_assoc).
  apply take_app_length'. rewrite length_app. simpl. lia.
Qed.

Lemma middle_drop l b r : drop (S (length l)) (l ++ b :: r) = r.
Proof.
  replace (l ++ b :: r) with ((l ++ [b]) ++ r) by (by rewrite <- app_assoc).
  apply drop_app_length'. rewrite length_app. simpl. lia.
Qed.

Lemma middle_drop2 l b c r : drop (S (S (length l))) (l ++ b :: c :: r) = r.
Proof.
  replace (l ++ b :: c :: r) with ((l ++ [b]) ++ c :: r) by (by rewrite <- app_assoc).
  replace (S (length l)) with (length (l ++ [b])) by (rewrite length_app; simpl; lia).
  apply middle_drop.
Qed.

Lemma middle_next l b r : (l ++ b :: r) !! S (length l) = head r.
Proof.
  replace (l ++ b :: r) with ((l ++ [b]) ++ r) by (by rewrite <- app_assoc).
  replace (S (length l)) with (length (l ++ [b])) by (rewrite length_app; simpl; lia).
  rewrite lookup_app_r, Nat.sub_diag by done. by destruct r.
Qed.

Lemma middle_exists l i b : l !! i = Some b ->
  exists l1 l2, l = l1 ++ b :: l2 /\ i = length l1.
Proof.
  intros H. exists (take i l), (drop (S i) l). split; [by rewrite take_drop_middle|].
  apply lookup_lt_Some in H. rewrite length_take. lia.
Qed.

End middle.

(** One block in the place of two. *)
Lemma merge_ok o l b c r e :
  e < 2 ^ 32 -> 0 <= o -> tiled o (l ++ b :: c :: r) e ->
  view b = Avail -> view c = Avail ->
  let d := with_size b (u32 (b_size b + b_size c)) in
  tiled o (l ++ d :: r) e /\ b_size d = b_size b + b_size c /\
  (forall x, cell_at (l ++ d :: r) x = cell_at (l ++ b :: c :: r) x).
Proof.
  intros He Ho Ht Hb Hc d. apply tiled_app in Ht as (m & Hl & Ht).
  cbn [tiled] in Ht. destruct Ht as (Hbo & Hbs & Hco & Hcs & Ht).
  assert (b_size d = b_size b + b_size c) as Hd.
  { subst d. simpl. apply tiled_le in Ht, Hl. apply u32_id. unfold is_u32. lia. }
  split_and!; [|done|].
  - apply tiled_app. exists m. split; [done|]. cbn [tiled]. rewrite Hd.
    split_and!; [done|lia|]. by rewrite Z.add_assoc.
  - intros x. rewrite !cell_at_app. f_equal. cbn [cell_at]. unfold covers. rewrite Hd.
    replace (b_offset d) with (b_offset b) by done.
    replace (view d) with (view b) by done. rewrite Hb, Hc.
    destruct (_ && _) eqn:E1, (_ && (x <? b_offset b + b_size b)) eqn:E2; zbool;
      try lia; try done; destruct (_ && _) eqn:E3; zbool; try lia; done.
Qed.

Lemma view_free b : view b = Avail <-> b_state b = FREE.
Proof. unfold view. destruct (b_state b); naive_solver. Qed.

Lemma allocations_skip b r : b_state b <> IN_USE -> allocations (b :: r) = allocations r.
Proof. intros H. unfold allocations. simpl. by rewrite decide_False. Qed.

(** [merged l b r l' b' r']: freeing [b] between [l] and [r] leaves [b'] between
    [l'] and [r'], the neighbours that were free having been absorbed. *)
Record merged (n : Z) (l : Blocks) (b : Block) (r : Blocks) l' b' r' : Prop := {
  merged_ok : ok n (l' ++ b' :: r');
  merged_free : b_state b' = FREE;
  merged_size : b_size b <= b_size b';
  merged_left : l' = l \/ exists p, l = l' ++ [p];
  merged_right : r' = r \/ exists c, r = c :: r';
  merged_cells x : cell_at (l' ++ b' :: r') x = cell_at (l ++ b :: r) x;
  merged_allocations : allocations (l' ++ b' :: r') = allocations (l ++ b :: r);
}.

(** The first half of [CollapseFreeBlock], on the block after. *)
Definition absorb_next (b : Block) (r : Blocks) : Block * Blocks :=
  match r with
  | c :: r' =>
      if decide (b_state c = FREE)
      then (with_size b (u32 (b_size b + b_size c)), r') else (b, r)
  | [] => (b, r)
  end.

Lemma CollapseFreeBlock_eq l b r :
  CollapseFreeBlock (length l) (l ++ b :: r) =
  let '(b, r) := absorb_next b r in
  match last l with
  | Some p =>
      if decide (b_state p = FREE)
      then Done (pred (length l),
                 removelast l ++ with_size p (u32 (b_size p + b_size b)) :: r)
      else Done (length l, l ++ b :: r)
  | None => Done (length l, l ++ b :: r)
  end.
Proof.
  unfold CollapseFreeBlock. rewrite middle_next, list_lookup_middle by done.
  assert (forall b' r', match length l with
    | S before =>
       (do prev <- of_option ((l ++ b' :: r') !! before) ;;
       if decide (b_state prev = FREE) then
         do b <- of_option ((l ++ b' :: r') !! length l) ;;
         Done (before,
               take (length l) (<[before := with_size prev (u32 (b_size prev + b_size b))]>
                 (l ++ b' :: r')) ++ drop (S (length l)) (l ++ b' :: r'))
       else Done (length l, l ++ b' :: r'))%gpu
    | O => Done (length l, l ++ b' :: r')
    end = match last l with
    | Some p =>
      if decide (b_state p = FREE)
      then Done (pred (length l),
                 removelast l ++ with_size p (u32 (b_size p + b_size b')) :: r')
      else Done (length l, l ++ b' :: r')
    | None => Done (length l, l ++ b' :: r')
    end) as Hprev.
  { intros b' r'. destruct l as [|p l _] using rev_ind; [done|].
    rewrite last_snoc, removelast_last, length_app, Nat.add_1_r. cbn [pred].
    rewrite <- app_assoc. cbn [app]. rewrite list_lookup_middle by done. cbn [obind of_option].
    case_decide; [|done]. rewrite middle_next. cbn [head obind of_option].
    by rewrite middle_insert, middle_take, middle_drop2, <- app_assoc. }
  destruct r as [|c r]; cbn [absorb_next head]; [apply Hprev|].
  case_decide; cbn [of_option obind]; [|apply Hprev].
  rewrite middle_insert, middle_take, middle_drop2.
  rewrite <- app_assoc. apply Hprev.
Qed.

Lemma absorb_next_ok n l b r b' r' :
  0 < n < 2 ^ 32 -> tiled 0 (l ++ b :: r) n -> apart r -> b_state b = FREE ->
  absorb_next b r = (b', r') ->
  tiled 0 (l ++ b' :: r') n /\ apart (b' :: r') /\ b_state b' = FREE /\
  b_size b <= b_size b' /\ (r' = r \/ exists c, r = c :: r') /\
  (forall x, cell_at (l ++ b' :: r') x = cell_at (l ++ b :: r) x) /\
  allocations (b' :: r') = allocations (b :: r).
Proof.
  intros Hn Ht Hr Hb Heq. destruct r as [|c r]; simpl in Heq; [simplify_eq|case_decide as Hc; simplify_eq].
  - split_and!; auto with lia. simpl. split; [|done]. by intros [_ ?].
  - destruct (merge_ok 0 l b c r' n) as (Ht' & Hs & Hcell); try done; [lia|by apply view_free..|].
    assert (0 < b_size c) by (apply tiled_app in Ht as (m & _ & Hm); cbn [tiled] in Hm; lia).
    split_and!; eauto with lia.
    + cbn [apart] in *. destruct Hr as [Hr1 Hr2]. split; [|done].
      intros [_ Hf]. apply Hr1. split; [by simpl; f_equal|done].
    + rewrite !allocations_skip by (simpl; congruence). done.
  - split_and!; auto with lia. cbn [apart] in *. split; [|done].
    intros [_ Hf]. simpl in Hf. congruence.
Qed.

Lemma CollapseFreeBlock_ok n l b r :
  0 < n < 2 ^ 32 -> tiled 0 (l ++ b :: r) n -> apart l -> apart r -> b_state b = FREE ->
  exists l' b' r',
    CollapseFreeBlock (length l) (l ++ b :: r) = Done (length l', l' ++ b' :: r') /\
    merged n l b r l' b' r'.
Proof.
  intros Hn Ht Hl Hr Hb. rewrite CollapseFreeBlock_eq.
  destruct (absorb_next b r) as [b1 r1] eqn:E1.
  destruct (absorb_next_ok _ _ _ _ _ _ Hn Ht Hr Hb E1)
    as (Ht1 & Ha1 & Hf1 & Hs1 & Hr1 & Hc1 & Hal1).
  destruct l as [|p l _] using rev_ind; simpl.
  - exists [], b1, r1. split; [done|]. split; auto. split; auto.
  - rewrite last_snoc, removelast_last. case_decide as Hp.
    + rewrite length_app, Nat.add_1_r. cbn [pred].
      rewrite <- app_assoc in Ht1. cbn [app] in Ht1.
      destruct (merge_ok 0 l p b1 r1 n) as (Ht' & Hs & Hcell);
        try done; [lia|by apply view_free..|].
      assert (0 < b_size p) by (apply tiled_app in Ht1 as (m & _ & Hm); cbn [tiled] in Hm; lia).
      eexists l, _, r1. split; [done|]. apply apart_app in Hl as (Hl & _ & Hlp).
      split; try done.
      * split; [done..|]. apply apart_app. split_and!; [done| |].
        -- cbn [apart] in *. destruct Ha1 as [Ha1 ?]. split; [|done]. intros [_ ?]. apply Ha1.
           by split; simpl; [f_equal|].
        -- intros [Hq _]. apply Hlp. split; [done|]. simpl. by f_equal.
      * lia.
      * eauto.
      * intros x. by rewrite Hcell, <- Hc1, <- app_assoc.
      * rewrite <- app_assoc, !allocations_app. f_equal. cbn [app].
        rewrite !(allocations_skip p), <- Hal1 by congruence.
        rewrite !allocations_skip by (simpl; congruence). done.
    + exists (l ++ [p]), b1, r1. split; [done|]. split; auto.
      * split; [done..|]. apply apart_app. split_and!; [done..|]. rewrite last_snoc.
        intros [? _]. simpl in *. congruence.
      * by rewrite !allocations_app, Hal1.
Qed.

(** ** Blocks found by their offset *)

Lemma GetBlockByOffset_middle o l b r e :
  tiled o (l ++ b :: r) e -> GetBlockByOffset (b_offset b) (l ++ b :: r) = length l.
Proof.
  revert o. induction l as [|c l IH]; intros o; simpl.
  - intros _. by bfalse (b_offset b <? b_offset b).
  - intros (Hc & Hs & Ht). rewrite (IH _ Ht).
    apply tiled_app in Ht as (m & Hl%tiled_le & Hm). cbn [tiled] in Hm.
    by btrue (b_offset c <? b_offset b).
Qed.

Lemma allocations_elem bs o n :
  (o, n) ∈ allocations bs ->
  exists l b r, bs = l ++ b :: r /\ b_state b = IN_USE /\ b_offset b = o /\ b_size b = n.
Proof.
  induction bs as [|b bs IH]; simpl; [by intros ?%not_elem_of_nil|].
  case_decide as Hb; simpl.
  - intros [?|H]%elem_of_cons; [simplify_eq; by exists [], b, bs|].
    destruct (IH H) as (l & c & r & -> & ?). by exists (b :: l), c, r.
  - intros (l & c & r & -> & ?)%IH. by exists (b :: l), c, r.
Qed.

(** A block that changes hands in place: same extent, another state. *)
Definition same_extent (b c : Block) : Prop :=
  b_offset c = b_offset b /\ b_size c = b_size b.

Lemma same_extent_tiled o l b c r e :
  same_extent b c -> tiled o (l ++ b :: r) e -> tiled o (l ++ c :: r) e.
Proof.
  intros [Ho Hs]. rewrite !tiled_app. intros (m & Hl & Hm). exists m.
  cbn [tiled] in *. rewrite Ho, Hs. auto.
Qed.

Lemma same_extent_cells o l b c r e x :
  same_extent b c -> tiled o (l ++ b :: r) e ->
  cell_at (l ++ c :: r) x = if covers b x then Some (view c) else cell_at (l ++ b :: r) x.
Proof.
  intros [Ho Hs] (m & Hl & Hm)%tiled_app. rewrite !cell_at_app. cbn [cell_at].
  replace (covers c x) with (covers b x) by (unfold covers; by rewrite Ho, Hs).
  destruct (covers b x) eqn:E; [|done].
  rewrite (tiled_cell_None _ _ _ _ Hl); [done|].
  cbn [tiled] in Hm. unfold covers in E. zbool. lia.
Qed.

Lemma apart_middle l b r :
  apart (l ++ b :: r) -> apart l /\ apart r.
Proof. intros (? & [_ ?] & _)%apart_app. auto. Qed.

(** [b] is neither free nor next to a change: any other state that is not free. *)
Lemma apart_replace l b c r :
  apart (l ++ b :: r) -> b_state c <> FREE -> apart (l ++ c :: r).
Proof.
  intros (Hl & [_ Hr] & _)%apart_app Hc. apply apart_app. split_and!; [done| |].
  - cbn [apart]. split; [|done]. intros [? _]. simpl in *. congruence.
  - intros [_ ?]. simpl in *. congruence.
Qed.

(** ** [Free] and [FreePendingToken] *)

(** What [Free] promises: exactly the bytes of the allocation become available. *)
Definition freed (c : cell) (o size : Z) (bs bs' : Blocks) : Prop :=
  (forall x, cell_at bs' x =
     if (o <=? x) && (x <? o + size) then Some c else cell_at bs x) /\
  allocations bs ≡ₚ (o, size) :: allocations bs'.

Lemma allocations_free l b c r :
  b_state b = IN_USE -> b_state c <> IN_USE ->
  allocations (l ++ b :: r) ≡ₚ (b_offset b, b_size b) :: allocations (l ++ c :: r).
Proof.
  intros Hb Hc. rewrite !allocations_app, (allocations_skip c) by done.
  unfold allocations at 2. simpl. rewrite decide_True by done. simpl.
  by rewrite <- Permutation_middle.
Qed.

Lemma Free_freed n bs o size :
  ok n bs -> (o, size) ∈ allocations bs ->
  exists bs', Free o bs = Done bs' /\ ok n bs' /\ freed Avail o size bs bs'.
Proof.
  intros [Hn Ht Ha] (l & b & r & -> & Hb & <- & <-)%allocations_elem.
  unfold Free. rewrite (GetBlockByOffset_middle _ _ _ _ _ Ht), list_lookup_middle by done.
  cbn [of_option obind]. rewrite middle_insert.
  assert (same_extent b (with_state b FREE)) as Hse by done.
  destruct (apart_middle _ _ _ Ha).
  destruct (CollapseFreeBlock_ok n l (with_state b FREE) r)
    as (l' & b' & r' & -> & Hm); [done|by eapply same_extent_tiled|done..|].
  cbn [obind]. eexists. split; [done|]. split; [apply Hm|]. split.
  - intros x. rewrite (merged_cells _ _ _ _ _ _ _ Hm). by eapply same_extent_cells.
  - rewrite (merged_allocations _ _ _ _ _ _ _ Hm). by apply allocations_free.
Qed.

Lemma FreePendingToken_freed n bs o size t :
  ok n bs -> (o, size) ∈ allocations bs ->
  exists bs', FreePendingToken o t bs = Done bs' /\ ok n bs' /\
    freed (Pending t) o size bs bs'.
Proof.
  intros [Hn Ht Ha] (l & b & r & -> & Hb & <- & <-)%allocations_elem.
  unfold FreePendingToken.
  rewrite (GetBlockByOffset_middle _ _ _ _ _ Ht), list_lookup_middle by done.
  cbn [of_option obind]. rewrite middle_insert.
  set (c := mkBlock _ _ _ _). assert (same_extent b c) as Hse by done.
  eexists. split; [done|]. split.
  - split; [done|by eapply same_extent_tiled|by eapply apart_replace].
  - split; [by intros; eapply same_extent_cells|by apply allocations_free].
Qed.

(** ** Allocation inside a free block *)

(** [taken o size bs bs']: the bytes were available and are now in use. *)
Definition taken (o size : Z) (bs bs' : Blocks) : Prop :=
  (forall x, o <= x < o + size -> cell_at bs x = Some Avail) /\
  (forall x, cell_at bs' x =
     if (o <=? x) && (x <? o + size) then Some Used else cell_at bs x) /\
  allocations bs' ≡ₚ (o, size) :: allocations bs.

Lemma covers_cell o l b r e x :
  tiled o (l ++ b :: r) e -> covers b x = true -> cell_at (l ++ b :: r) x = Some (view b).
Proof.
  intros Ht Hc. pose proof (same_extent_cells o l b b r e x ltac:(done) Ht) as H.
  by rewrite Hc in H.
Qed.

Lemma AllocInBlock_taken n l b r size :
  ok n (l ++ b :: r) -> b_state b = FREE -> 0 < size <= b_size b ->
  exists bs', AllocInBlock (length l) size (l ++ b :: r) = Done (b_offset b, bs') /\
    ok n bs' /\ taken (b_offset b) size (l ++ b :: r) bs'.
Proof.
  intros [Hn Ht Ha] Hb Hsize. unfold AllocInBlock.
  rewrite list_lookup_middle by done. cbn [of_option obind].
  pose proof (tiled_block _ _ _ b Ht ltac:(set_solver)) as Hbb.
  assert (forall x, b_offset b <= x < b_offset b + size ->
    cell_at (l ++ b :: r) x = Some Avail) as Havail.
  { intros x Hx. rewrite (covers_cell _ _ _ _ _ _ Ht) by (unfold covers; lia).
    by rewrite (proj2 (view_free b)). }
  destruct (b_size b =? size) eqn:E; zbool; rewrite middle_insert.
  - set (c := with_state b IN_USE). assert (same_extent b c) as Hse by done.
    eexists. split; [done|]. split.
    + split; [done|by eapply same_extent_tiled|by eapply apart_replace].
    + split; [done|]. rewrite <- E. split; [by intros; eapply same_extent_cells|].
      rewrite (allocations_free l c b r) by (simpl; congruence). done.
  - rewrite middle_take, middle_drop, <- app_assoc. cbn [app].
    rewrite !u32_id by (unfold is_u32; lia).
    set (c := mkBlock IN_USE _ _ _). set (d := mkBlock FREE _ _ _).
    eexists. split; [done|]. split; [split; [done|..]|split; [done|split]].
    + apply tiled_app in Ht as (m & Hl & Hm). apply tiled_app. exists m.
      split; [done|]. cbn [tiled] in *. simpl. destruct Hm as (? & ? & Hr).
      split_and!; try lia. by replace (m + size + (b_size b - size)) with (m + b_size b) by lia.
    + apply apart_app in Ha as (Hl & [Hbr Hr] & Hlb). apply apart_app.
      cbn [apart]. split_and!; [done| |  |done|].
      * by intros [? _].
      * intros [_ Hf]. apply Hbr. split; [simpl; by f_equal|done].
      * by intros [_ ?].
    + intros x. apply tiled_app in Ht as (m & Hl & Hm). rewrite !cell_at_app.
      cbn [tiled] in Hm. destruct Hm as (Hbo & Hbs & Hr).
      cbn [cell_at]. unfold covers. simpl.
      destruct (_ && (x <? b_offset b + size)) eqn:E1; zbool.
      * rewrite (tiled_cell_None _ _ _ _ Hl) by lia. done.
      * f_equal. rewrite (proj2 (view_free b)) by done.
        destruct (_ && _) eqn:E2, (_ && (x <? b_offset b + b_size b)) eqn:E3; zbool; try lia; done.
    + rewrite !allocations_app. unfold allocations at 2 4. simpl.
      rewrite Hb. simpl. by rewrite <- Permutation_middle.
Qed.

(** ** Waiting for tokens *)

(** A block that [Alloc] can do nothing with, now or later. *)
Definition too_small (size : Z) (b : Block) : Prop := b_state b = FREE -> b_size b < size.
Definition settled (size : Z) (b : Block) : Prop :=
  b_state b <> FREE_PENDING_TOKEN /\ too_small size b.

Lemma find_free_Some size i bs j :
  find_free size i bs = Some j ->
  exists l b r, bs = l ++ b :: r /\ j = (i + length l)%nat /\ b_state b = FREE /\
    size <= b_size b.
Proof.
  revert i. induction bs as [|b bs IH]; intros i; simpl; [done|].
  ztest; intros Hj.
  - simplify_eq. exists [], b, bs. rewrite Nat.add_0_r. split_and!; auto.
    by apply bool_decide_eq_true in H.
  - apply IH in Hj as (l & c & r & -> & -> & ?). exists (b :: l), c, r.
    split_and!; naive_solver lia.
Qed.

Lemma find_free_None size i bs : find_free size i bs = None -> Forall (too_small size) bs.
Proof.
  revert i. induction bs as [|b bs IH]; intros i; simpl; [by constructor|].
  ztest; [done|]. intros Hj. constructor; [|by eapply IH].
  intros Hb. destruct H as [H%bool_decide_eq_false|?]; [done|zbool; lia].
Qed.

(** Every pending token is one that can be waited for. *)
Definition awaits (K : Z -> Prop) (bs : Blocks) : Prop :=
  forall x t, cell_at bs x = Some (Pending t) -> K t.

Lemma awaits_advanced K P bs bs' : awaits K bs -> advanced P bs bs' -> awaits K bs'.
Proof.
  intros HK [_ H] x t Ht. destruct (H x) as [E|(u & _ & _ & E)]; [|congruence].
  apply (HK x). congruence.
Qed.

Lemma awaits_block K o l b r e :
  awaits K (l ++ b :: r) -> tiled o (l ++ b :: r) e -> b_state b = FREE_PENDING_TOKEN ->
  K (b_token b).
Proof.
  intros HK Ht Hb. apply (HK (b_offset b)).
  pose proof (tiled_block _ _ _ b Ht ltac:(set_solver)).
  rewrite (covers_cell _ _ _ _ _ _ Ht) by (unfold covers; lia). unfold view. by rewrite Hb.
Qed.

Section waiting.
Context {W : Type} `{TL : TokenLaws W valid passed} (K : Z -> Prop).

Lemma WaitForTokenAndFreeBlock_ok n l b r w :
  ok n (l ++ b :: r) -> valid K w -> awaits K (l ++ b :: r) ->
  b_state b = FREE_PENDING_TOKEN ->
  exists l' b' r' w',
    WaitForTokenAndFreeBlock (length l) (l ++ b :: r) w
      = Done (length l', l' ++ b' :: r', w') /\
    merged n l (with_state b FREE) r l' b' r' /\ valid K w' /\
    (forall t, passed w t -> passed w' t) /\
    advanced (passed w') (l ++ b :: r) (l' ++ b' :: r').
Proof.
  intros [Hn Ht Ha] Hv HK Hb. unfold WaitForTokenAndFreeBlock.
  rewrite list_lookup_middle by done. cbn [of_option obind].
  destruct (WaitForToken_passes K (b_token b) w Hv) as (w' & Hw & Hv' & Hp & Hmono);
    [by eapply awaits_block|]. rewrite Hw. cbn [obind].
  rewrite middle_insert. assert (same_extent b (with_state b FREE)) as Hse by done.
  destruct (apart_middle _ _ _ Ha).
  destruct (CollapseFreeBlock_ok n l (with_state b FREE) r)
    as (l' & b' & r' & -> & Hm); [done|by eapply same_extent_tiled|done..|].
  cbn [obind]. exists l', b', r', w'. split_and!; [done..|].
  split.
  - rewrite (merged_allocations _ _ _ _ _ _ _ Hm), !allocations_app.
    by rewrite !allocations_skip by (simpl; congruence).
  - intros x. rewrite (merged_cells _ _ _ _ _ _ _ Hm), (same_extent_cells _ _ _ _ _ _ x Hse Ht).
    destruct (covers b x) eqn:E; [|by left]. right. exists (b_token b).
    rewrite (covers_cell _ _ _ _ _ _ Ht E). unfold view. by rewrite Hb.
Qed.

(** What a call to [Alloc] promises, [bs] being the blocks before it. *)
Definition Alloc_result (n size : Z) (bs : Blocks) (w : W) (o : Z) (bs' : Blocks) (w' : W)
    : Prop :=
  ok n bs' /\ valid K w' /\ (forall t, passed w t -> passed w' t) /\
  ((o = kInvalidOffset /\ advanced (passed w') bs bs' /\ Forall (settled size) bs') \/
   (0 <= o /\ o + size <= n /\
    exists mid, advanced (passed w') bs mid /\ taken o size mid bs')).

Lemma Alloc_result_trans n size bs w bs1 w1 o bs' w' :
  advanced (passed w1) bs bs1 -> (forall t, passed w t -> passed w1 t) ->
  Alloc_result n size bs1 w1 o bs' w' -> Alloc_result n size bs w o bs' w'.
Proof.
  intros Hadv Hw (Hok & Hv & Hw' & Hr). split_and!; [done|done|by auto|].
  destruct Hr as [(Ho & Hr & ?)|(? & ? & mid & Hr & ?)]; [left|right].
  - split_and!; [done| |done]. by eapply advanced_trans.
  - split_and!; [done..|]. exists mid. split; [|done]. by eapply advanced_trans.
Qed.

Lemma AllocInBlock_result n l b r size w :
  ok n (l ++ b :: r) -> valid K w -> b_state b = FREE -> 0 < size <= b_size b ->
  exists o bs', AllocInBlock (length l) size (l ++ b :: r) = Done (o, bs') /\
    Alloc_result n size (l ++ b :: r) w o bs' w.
Proof.
  intros Hok Hv Hb Hsize.
  destruct (AllocInBlock_taken _ _ _ _ _ Hok Hb Hsize) as (bs' & E & Hok' & Htaken).
  pose proof (tiled_block _ _ _ b (ok_tiled _ _ Hok) ltac:(set_solver)) as Hbb.
  eexists _, bs'. split; [done|]. split_and!; [done..|]. right.
  split_and!; [lia|lia|]. exists (l ++ b :: r). split; [apply advanced_refl|done].
Qed.

Lemma wait_loop_result n size fuel l r w :
  0 < size -> ok n (l ++ r) -> valid K w -> awaits K (l ++ r) -> Forall (settled size) l -> Forall (too_small size) r ->
  (length r <= fuel)%nat ->
  exists o bs' w', wait_loop fuel size (length l) (l ++ r) w = Done (o, bs', w') /\
    Alloc_result n size (l ++ r) w o bs' w'.
Proof.
  intros Hsize. revert l r w. induction fuel as [|fuel IH]; intros l r w Hok Hv HK Hl Hr Hfuel.
  all: destruct r as [|b r];
    [rewrite app_nil_r in *; exists kInvalidOffset, l, w; simpl;
     rewrite (proj2 (lookup_ge_None l (length l))) by done; split; [done|];
     split_and!; [done..|left; by auto using advanced_refl]|].
  { simpl in Hfuel. lia. }
  cbn [wait_loop]. rewrite list_lookup_middle by done.
  apply Forall_cons in Hr as [Hb Hr]. simpl in Hfuel.
  case_decide as Hst.
  - replace (l ++ b :: r) with ((l ++ [b]) ++ r) in * by (by rewrite <- app_assoc).
    replace (S (length l)) with (length (l ++ [b])) by (rewrite length_app; simpl; lia).
    apply IH; [done..| |done|lia]. apply Forall_app. split; [done|]. by repeat constructor.
  - assert (b_state b = FREE_PENDING_TOKEN) as Hp by (destruct (b_state b); tauto).
    destruct (WaitForTokenAndFreeBlock_ok _ _ _ _ w Hok Hv HK Hp)
      as (l' & b' & r' & w' & -> & Hm & Hv' & Hw & Hadv).
    cbn [obind]. rewrite list_lookup_middle by done. cbn [of_option obind].
    destruct Hm as [Hok' Hfree _ Hleft Hright _ _].
    assert (Forall (settled size) l') as Hl'.
    { destruct Hleft as [->|[p ->]]; [done|]. by apply Forall_app in Hl as []. }
    assert (Forall (too_small size) r' /\ (length r' <= length r)%nat) as [Hr' Hlen].
    { destruct Hright as [->|[c ->]]; [done|]. apply Forall_cons in Hr as []. simpl; auto. }
    destruct (b_size b' >=? size) eqn:E; zbool.
    + destruct (AllocInBlock_result n l' b' r' size w') as (o & bs' & -> & Hres); [done..|].
      cbn [obind]. exists o, bs', w'. split; [done|]. by eapply Alloc_result_trans.
    + destruct (IH (l' ++ [b']) r' w') as (o & bs' & w'' & E' & Hres).
      * by rewrite <- app_assoc.
      * done.
      * rewrite <- app_assoc. by eapply awaits_advanced.
      * apply Forall_app. split; [done|]. constructor; [|done]. split; [congruence|].
        intros _. lia.
      * done.
      * lia.
      * rewrite length_app, Nat.add_1_r, <- app_assoc in E'. rewrite <- app_assoc in Hres.
        exists o, bs', w''. split; [done|]. by eapply Alloc_result_trans.
Qed.

(** The size that is asked for: nothing is rounded up to a byte. *)
Definition request (size : Z) : Z := if size =? 0 then 1 else size.

Lemma Alloc_ok n size bs w :
  ok n bs -> valid K w -> awaits K bs -> 0 <= size ->
  exists o bs' w', Alloc size bs w = Done (o, bs', w') /\
    Alloc_result n (request size) bs w o bs' w'.
Proof.
  intros Hok Hv HK Hs. unfold Alloc. fold (request size).
  assert (0 < request size) as Hr by (unfold request; ztest; lia).
  destruct (find_free _ _ _) as [i|] eqn:E.
  - apply find_free_Some in E as (l & b & r & -> & -> & Hb & Hle). cbn [Nat.add].
    destruct (AllocInBlock_result n l b r (request size) w) as (o & bs' & -> & ?); [done..|].
    cbn [obind]. eauto.
  - apply find_free_None in E.
    destruct (wait_loop_result n (request size) (length bs) [] bs w) as (o & bs' & w' & ?);
      try done. by exists o, bs', w'.
Qed.

(** ** [FreeUnused] and the destructor *)

Definition expired (last : Z) (b : Block) : Prop :=
  b_state b = FREE_PENDING_TOKEN /\ b_token b <= last.

Definition pendings (bs : Blocks) : nat :=
  length (filter (fun b => b_state b = FREE_PENDING_TOKEN) bs).

Lemma pendings_le bs : (pendings bs <= length bs)%nat.
Proof. apply length_filter. Qed.

Lemma FreeUnused_loop_ok n last fuel l r :
  ok n (l ++ r) -> Forall (fun b => ~ expired last b) l ->
  (length r + pendings r <= fuel)%nat ->
  exists bs', FreeUnused_loop fuel last (length l) (l ++ r) = Done bs' /\ ok n bs' /\
    advanced (fun t => t <= last) (l ++ r) bs' /\ Forall (fun b => ~ expired last b) bs'.
Proof.
  revert l r. induction fuel as [|fuel IH]; intros l r Hok Hl Hfuel.
  all: destruct r as [|b r];
    [rewrite app_nil_r in *; exists l; simpl;
     rewrite (proj2 (lookup_ge_None l (length l))) by done; auto using advanced_refl|].
  { simpl in Hfuel. lia. }
  cbn [FreeUnused_loop]. rewrite list_lookup_middle by done.
  unfold pendings in Hfuel. rewrite filter_cons in Hfuel.
  destruct (_ && _) eqn:E.
  - apply andb_prop in E as [Hst%bool_decide_eq_true Htk]. zbool.
    rewrite decide_True in Hfuel by done. simpl in Hfuel.
    rewrite middle_insert. destruct Hok as [Hn Ht Ha].
    assert (same_extent b (with_state b FREE)) as Hse by done.
    destruct (apart_middle _ _ _ Ha).
    destruct (CollapseFreeBlock_ok n l (with_state b FREE) r)
      as (l' & b' & r' & -> & Hm); [done|by eapply same_extent_tiled|done..|].
    destruct Hm as [Hok' Hfree _ Hleft Hright Hcells Hallocs]. cbn [obind].
    destruct (IH l' (b' :: r')) as (bs' & -> & Hok'' & Hadv & Hall); [done|..].
    + destruct Hleft as [->|[p ->]]; [done|]. by apply Forall_app in Hl as [].
    + unfold pendings. rewrite filter_cons, decide_False by congruence.
      destruct Hright as [->|[c ->]]; simpl in *; [lia|].
      rewrite filter_cons in Hfuel. case_decide; simpl in Hfuel; lia.
    + exists bs'. split_and!; [done..| |done].
      eapply advanced_trans; [|split|exact Hadv]; [by intros ? Hx; exact Hx|..].
      * rewrite Hallocs, !allocations_app, !allocations_skip by (simpl; congruence). done.
      * intros x. rewrite Hcells, (same_extent_cells _ _ _ _ _ _ x Hse Ht).
        destruct (covers b x) eqn:Ec; [|by left]. right. exists (b_token b).
        rewrite (covers_cell _ _ _ _ _ _ Ht Ec). unfold view. by rewrite Hst.
  - apply andb_false_iff in E.
    replace (l ++ b :: r) with ((l ++ [b]) ++ r) in * by (by rewrite <- app_assoc).
    replace (S (length l)) with (length (l ++ [b])) by (rewrite length_app; simpl; lia).
    apply IH; [done| |].
    + apply Forall_app. split; [done|]. constructor; [|done]. intros [Hs Htk].
      destruct E as [E%bool_decide_eq_false|E]; [done|zbool; lia].
    + unfold pendings. simpl in Hfuel. case_decide; simpl in Hfuel; lia.
Qed.

Lemma FreeUnused_ok n bs w :
  ok n bs -> valid K w ->
  exists bs' w', FreeUnused bs w = Done (bs', w') /\ ok n bs' /\ valid K w' /\
    (forall t, passed w t -> passed w' t) /\ advanced (passed w') bs bs' /\
    forall x t, cell_at bs' x = Some (Pending t) -> fst (last_token_read w) < t.
Proof.
  intros Hok Hv. unfold FreeUnused.
  destruct (last_token_read_passed K w Hv) as (Hv' & Hp & Hm).
  destruct (last_token_read w) as [last w'] eqn:El. cbn [fst snd] in *.
  destruct (FreeUnused_loop_ok n last (2 * length bs) [] bs) as (bs' & E & ? & [Ha Hadv] & Hall);
    [done..|pose proof (pendings_le bs); lia|].
  cbn [app length] in *. rewrite E. exists bs', w'. split_and!; [done..| |].
  - split; [done|]. intros x. destruct (Hadv x) as [?|(t & ? & Ht & ?)]; [by left|right].
    exists t. split_and!; auto.
  - intros x t Hx. clear -Hall Hx. induction Hall as [|b bs' Hb _ IH]; simpl in Hx; [done|].
    destruct (covers b x); [|auto]. simplify_eq. unfold view in Hx.
    destruct (b_state b) eqn:Es; simplify_eq. destruct (Z.lt_ge_cases last (b_token b)); [done|].
    destruct Hb. split; [done|lia].
Qed.

Lemma free_all_ok n fuel l r w :
  ok n (l ++ r) -> valid K w -> awaits K (l ++ r) ->
  Forall (fun b => b_state b <> FREE_PENDING_TOKEN) l -> (length r <= fuel)%nat ->
  exists bs' w', free_all fuel (length l) (l ++ r) w = Done (bs', w') /\ ok n bs' /\
    valid K w' /\
    (forall t, passed w t -> passed w' t) /\ advanced (passed w') (l ++ r) bs' /\
    Forall (fun b => b_state b <> FREE_PENDING_TOKEN) bs'.
Proof.
  revert l r w. induction fuel as [|fuel IH]; intros l r w Hok Hv HK Hl Hfuel.
  all: destruct r as [|b r];
    [rewrite app_nil_r in *; exists l, w; simpl;
     rewrite (proj2 (lookup_ge_None l (length l))) by done; split_and!; auto using advanced_refl|].
  { simpl in Hfuel. lia. }
  cbn [free_all]. rewrite list_lookup_middle by done. simpl in Hfuel.
  case_decide as Hst.
  - destruct (WaitForTokenAndFreeBlock_ok _ _ _ _ w Hok Hv HK Hst)
      as (l' & b' & r' & w' & -> & Hm & Hv' & Hw & Hadv).
    destruct Hm as [Hok' Hfree _ Hleft Hright _ _]. cbn [obind].
    destruct (IH (l' ++ [b']) r' w') as (bs' & w'' & E & Hok'' & Hv'' & Hw' & Hadv' & ?).
    + by rewrite <- app_assoc.
    + done.
    + rewrite <- app_assoc. by eapply awaits_advanced.
    + apply Forall_app. split; [|by repeat constructor; rewrite Hfree].
      destruct Hleft as [->|[p ->]]; [done|]. by apply Forall_app in Hl as [].
    + destruct Hright as [->|[c ->]]; simpl in *; lia.
    + rewrite length_app, Nat.add_1_r, <- app_assoc in E. rewrite <- app_assoc in Hadv'.
      exists bs', w''. split_and!; auto. by eapply advanced_trans.
  - replace (l ++ b :: r) with ((l ++ [b]) ++ r) in * by (by rewrite <- app_assoc).
    replace (S (length l)) with (length (l ++ [b])) by (rewrite length_app; simpl; lia).
    apply IH; [done..| |lia]. apply Forall_app. split; [done|]. by repeat constructor.
Qed.

End waiting.

(** ** The largest run of free and pending memory *)

(** A run that may begin with [c] bytes before the tiling at [o]. *)
Definition run_from (bs : Blocks) (o x n : Z) : Prop :=
  forall y, x <= y < x + n -> y < o \/ exists c, cell_at bs y = Some c /\ c <> Used.

Lemma run_from_cons b bs o e x n :
  tiled o (b :: bs) e -> b_state b <> IN_USE ->
  run_from (b :: bs) o x n <-> run_from bs (o + b_size b) x n.
Proof.
  intros Ht Hb. cbn [tiled] in Ht. destruct Ht as (Hbo & Hbs & Ht).
  unfold run_from. cbn [cell_at]. unfold covers.
  split; intros H y Hy; specialize (H y Hy); destruct (_ && _) eqn:E; zbool.
  - left. lia.
  - destruct H as [?|(c & Hc & ?)]; [left; lia|right; by exists c].
  - right. exists (view b). split; [done|]. unfold view. by destruct (b_state b).
  - destruct E, H as [?|(c & Hc & ?)]; try (left; lia); right; by exists c.
Qed.

Lemma GetLargestFreeOrPendingSize_upper bs o e m c x n :
  tiled o bs e -> 0 <= c <= o -> e < 2 ^ 32 -> o - c <= x -> x + n <= e ->
  run_from bs o x n -> Z.max m n <= GetLargestFreeOrPendingSize_loop m c bs.
Proof.
  revert o m c x n. induction bs as [|b bs IH]; intros o m c x n Ht Hc He Hx Hn Hrun.
  - cbn [tiled GetLargestFreeOrPendingSize_loop] in *. lia.
  - pose proof Ht as Ht0. cbn [tiled GetLargestFreeOrPendingSize_loop] in *.
    destruct Ht as (Hbo & Hbs & Ht). pose proof (tiled_le _ _ _ Ht).
    case_decide as Hst.
    + assert (n <= Z.max m c \/ (o + b_size b <= x)) as [Hcase|Hcase].
      { destruct (Z.le_gt_cases n c); [left; lia|].
        destruct (Z.le_gt_cases (o + b_size b) x); [by right|].
        destruct (Hrun (Z.max x o)) as [?|(c' & Hc' & Hu)]; [lia|lia|].
        revert Hc'. cbn [cell_at]. unfold covers, view. rewrite Hst.
        btrue ((b_offset b <=? Z.max x o) && (Z.max x o <? b_offset b + b_size b)).
        intros ?; by simplify_eq. }
      * etransitivity; [|eapply (IH (o + b_size b) (Z.max m c) 0 (o + b_size b) 0); try done; try lia];
          [lia|intros y ?; lia].
      * etransitivity; [|eapply (IH (o + b_size b) (Z.max m c) 0 x n); try done; try lia]; [lia|].
        intros y Hy. right. destruct (Hrun y Hy) as [?|(c' & Hc' & Hu)]; [lia|].
        exists c'. split; [|done]. revert Hc'. cbn [cell_at]. unfold covers.
        by bfalse ((b_offset b <=? y) && (y <? b_offset b + b_size b)).
    + rewrite u32_id by (unfold is_u32; lia).
      eapply (IH (o + b_size b) m (c + b_size b) x n); try done; try lia.
      by apply (run_from_cons b bs o e x n Ht0 Hst).
Qed.

Lemma GetLargestFreeOrPendingSize_lower bs o e m c :
  tiled o bs e -> 0 <= c <= o -> e < 2 ^ 32 ->
  let n := GetLargestFreeOrPendingSize_loop m c bs in
  n = m \/ exists x, o - c <= x /\ x + n <= e /\ run_from bs o x n.
Proof.
  revert o m c. induction bs as [|b bs IH]; intros o m c Ht Hc He n.
  - subst n. cbn [tiled GetLargestFreeOrPendingSize_loop] in *. subst.
    destruct (Z.le_gt_cases c m); [left; lia|right]. exists (e - c).
    split_and!; [lia..|]. intros y ?. lia.
  - pose proof Ht as Ht0. subst n. cbn [tiled GetLargestFreeOrPendingSize_loop] in *.
    destruct Ht as (Hbo & Hbs & Ht). pose proof (tiled_le _ _ _ Ht).
    case_decide as Hst.
    + destruct (IH (o + b_size b) (Z.max m c) 0) as [->|(x & Hx & Hn & Hrun)];
        [done|lia|lia| |].
      * destruct (Z.le_gt_cases c m); [left; lia|right]. exists (o - c).
        split_and!; [lia..|]. intros y ?. lia.
      * right. exists x. split_and!; [lia|done|]. intros y Hy. right.
        destruct (Hrun y Hy) as [?|(c' & Hc' & Hu)]; [lia|]. exists c'. split; [|done].
        cbn [cell_at]. unfold covers.
        by bfalse ((b_offset b <=? y) && (y <? b_offset b + b_size b)).
    + rewrite u32_id by (unfold is_u32; lia).
      destruct (IH (o + b_size b) m (c + b_size b)) as [->|(x & Hx & Hn & Hrun)];
        [done|lia|lia|by left|right].
      exists x. split_and!; [lia|done|]. by apply (run_from_cons b bs o e x _ Ht0 Hst).
Qed.

(** ** Runs and allocations *)

Lemma cell_at_split bs x c :
  cell_at bs x = Some c ->
  exists l b r, bs = l ++ b :: r /\ covers b x = true /\ view b = c.
Proof.
  induction bs as [|b bs IH]; simpl; [done|]. destruct (covers b x) eqn:E; intros H.
  - simplify_eq. by exists [], b, bs.
  - destruct (IH H) as (l & b' & r & -> & ?). by exists (b :: l), b', r.
Qed.

Lemma run_sub bs x n y k : run bs x n -> x <= y -> y + k <= x + n -> run bs y k.
Proof. intros H ? ? z Hz. apply H. lia. Qed.

(** When no block is pending, a run of free memory is inside one free block. *)
Lemma run_settled n size bs x k :
  ok n bs -> Forall (settled size) bs -> run bs x k -> k < size \/ k <= 0.
Proof.
  intros [Hn Ht Ha] Hall Hrun. destruct (Z.le_gt_cases k 0) as [|Hk]; [by right|left].
  destruct (Hrun x) as (c & Hc & Hu); [lia|].
  apply cell_at_split in Hc as (l & b & r & -> & Hcov & <-).
  assert (forall b', b' ∈ l ++ b :: r -> view b' <> Used -> b_state b' = FREE /\ b_size b' < size)
    as Hfree.
  { intros b' [Hp Hsm]%(proj1 (Forall_forall _ _) Hall) Hv.
    unfold view in Hv. destruct (b_state b') eqn:Es; try done. split; [done|by apply Hsm]. }
  destruct (Hfree b) as [Hbf Hbs]; [set_solver|done|].
  unfold covers in Hcov. zbool.
  destruct (Z.lt_ge_cases (b_offset b + b_size b) (x + k)) as [Hlt|]; [|lia]. exfalso.
  destruct (Hrun (b_offset b + b_size b)) as (c & Hc & Hcu); [lia|].
  pose proof Ht as (m & Hl & Hm)%tiled_app. cbn [tiled] in Hm. destruct Hm as (Hbo & _ & Hr).
  rewrite cell_at_app, (tiled_cell_None _ _ _ _ Hl) in Hc by lia. cbn [cell_at] in Hc.
  replace (covers b (b_offset b + b_size b)) with false in Hc by (unfold covers; lia).
  destruct r as [|d r]; [done|]. cbn [tiled cell_at] in *.
  replace (covers d (b_offset b + b_size b)) with true in Hc by (unfold covers; lia).
  simplify_eq. destruct (Hfree d) as [Hdf _]; [set_solver|done|].
  apply apart_app in Ha as (_ & [Ha _] & _). apply Ha.
  split; simpl; by f_equal.
Qed.

(** [GetLargestFreeOrPendingSize] is the length of the longest run. *)
Lemma GetLargestFreeOrPendingSize_spec n bs k :
  ok n bs -> 0 < k ->
  k <= GetLargestFreeOrPendingSize bs <-> exists x, 0 <= x /\ x + k <= n /\ run bs x k.
Proof.
  intros [Hn Ht Ha] Hk. unfold GetLargestFreeOrPendingSize. split.
  - intros Hle. destruct (GetLargestFreeOrPendingSize_lower bs 0 n 0 0 Ht) as [E|(x & Hx & Hxn & Hrun)];
      [lia..|].
    exists x. split_and!; [lia..|]. intros y Hy. destruct (Hrun y); [lia..|done].
  - intros (x & Hx & Hxn & Hrun).
    pose proof (GetLargestFreeOrPendingSize_upper bs 0 n 0 0 x k Ht) as Hu.
    assert (run_from bs 0 x k) as Hf by (intros y Hy; right; by apply Hrun).
    specialize (Hu ltac:(lia) ltac:(lia) ltac:(lia) Hxn Hf). lia.
Qed.

Lemma advanced_run P bs bs' x k : advanced P bs bs' -> run bs x k <-> run bs' x k.
Proof.
  intros [_ H]. unfold run. split; intros Hr y Hy; destruct (Hr y Hy) as (c & Hc & Hu).
  - destruct (H y) as [E|(t & E1 & _ & E2)]; [exists c; by rewrite E|by exists Avail].
  - destruct (H y) as [E|(t & E1 & _ & E2)]; [exists c; by rewrite <- E|by exists (Pending t)].
Qed.

(** Distinct allocations have no byte in common. *)
Definition apart_ranges (live : list (Z * Z)) : Prop :=
  NoDup live /\
  forall a b, a ∈ live -> b ∈ live -> a <> b ->
    a.1 + a.2 <= b.1 \/ b.1 + b.2 <= a.1.

Lemma allocations_bounds o bs e a :
  tiled o bs e -> a ∈ allocations bs -> o <= a.1 /\ 0 < a.2 /\ a.1 + a.2 <= e.
Proof.
  intros Ht Ha. destruct a as [x k]. apply allocations_elem in Ha as (l & b & r & -> & _ & <- & <-).
  simpl. apply (tiled_block _ _ _ b Ht). set_solver.
Qed.

Lemma allocations_apart o bs e : tiled o bs e -> apart_ranges (allocations bs).
Proof.
  revert o. induction bs as [|b bs IH]; intros o Ht.
  { split; [apply NoDup_nil_2|]. simpl. intros ?? ?%not_elem_of_nil. done. }
  cbn [tiled] in Ht. destruct Ht as (Hbo & Hbs & Ht). destruct (IH _ Ht) as [Hnd Hap].
  unfold allocations. cbn [flat_map]. fold (allocations bs). case_decide as Hb; [|done].
  assert (forall a, a ∈ allocations bs -> b_offset b + b_size b <= a.1) as Hlow.
  { intros a Ha. pose proof (allocations_bounds _ _ _ _ Ht Ha). lia. }
  cbn [app]. split.
  - constructor; [|done]. intros Hin%Hlow. simpl in Hin. lia.
  - intros a c [->|Ha]%elem_of_cons [->|Hc]%elem_of_cons Hne; simpl; [done|..].
    + left. by apply Hlow.
    + right. by apply Hlow.
    + by apply Hap.
Qed.

Lemma apart_ranges_perm l l' : l ≡ₚ l' -> apart_ranges l -> apart_ranges l'.
Proof.
  intros Hp [Hnd H]. split; [by rewrite <- Hp|]. intros a b. rewrite <- Hp. apply H.
Qed.

Lemma tiled_CheckConsistency_loop o b bs e :
  tiled o (b :: bs) e -> apart (b :: bs) -> 0 <= o -> e < 2 ^ 32 ->
  CheckConsistency_loop b bs = true.
Proof.
  revert o b. induction bs as [|c bs IH]; intros o b Ht Ha Ho He; [done|].
  pose proof Ht as (Hbo & Hbs & Ht'). pose proof Ht' as (Hco & Hcs & Hr%tiled_le).
  destruct Ha as [Hbc Ha].
  cbn [CheckConsistency_loop]. rewrite Hbo, Hco, u32_id by (unfold is_u32; lia).
  bfalse (o + b_size b <=? o). rewrite Z.eqb_refl. cbn [negb].
  rewrite <- bool_decide_and, bool_decide_false.
  - apply (IH (o + b_size b)); [done|done|lia|done].
  - intros [Hb Hc]. apply Hbc. by split; simpl; f_equal.
Qed.

Lemma ok_CheckConsistency n bs : ok n bs -> CheckConsistency bs = true.
Proof.
  intros [Hn Ht Ha]. destruct bs as [|b bs]; cbn [tiled] in *; [lia|].
  by eapply (tiled_CheckConsistency_loop 0 b bs n); [..|lia].
Qed.

Lemma new_ok n : 0 < n < 2 ^ 32 -> ok n (new n).
Proof.
  intros Hn. split; [done|simpl; lia|]. simpl. split; [|done]. by intros [_ ?].
Qed.

(** ** Clients of the allocator *)

Section client.
Context {W : Type} `{TL : TokenLaws W valid passed}.

(** [client_reach n K bs w live]: what a client of an allocator of [n] bytes can come
    to, [live] being the allocations it has been given and has not freed.  The
    helper [w] is used by others as well. *)
Inductive client_reach (n : Z) : (Z -> Prop) -> Blocks -> W -> list (Z * Z) -> Prop :=
| reach_new K w : valid K w -> client_reach n K (new n) w []
| reach_helper K K' bs w w' live :
    client_reach n K bs w live -> valid K' w' -> (forall t, K t -> K' t) ->
    client_reach n K' bs w' live
| reach_Alloc K bs w live size o bs' w' :
    client_reach n K bs w live -> 0 <= size -> Alloc size bs w = Done (o, bs', w') ->
    client_reach n K bs' w'
      (if o =? kInvalidOffset then live else (o, request size) :: live)
| reach_Free K bs w live live' o size bs' :
    client_reach n K bs w live -> live ≡ₚ (o, size) :: live' -> Free o bs = Done bs' ->
    client_reach n K bs' w live'
| reach_FreePendingToken K bs w live live' o size t bs' :
    client_reach n K bs w live -> live ≡ₚ (o, size) :: live' -> K t ->
    FreePendingToken o t bs = Done bs' -> client_reach n K bs' w live'
| reach_FreeUnused K bs w live bs' w' :
    client_reach n K bs w live -> FreeUnused bs w = Done (bs', w') ->
    client_reach n K bs' w' live.

Lemma awaits_freed K c o size bs bs' :
  awaits K bs -> (forall t, c = Pending t -> K t) -> freed c o size bs bs' -> awaits K bs'.
Proof.
  intros HK Hc [Hfc _] x t Ht. rewrite Hfc in Ht. destruct (_ && _); [|by eapply HK].
  apply Hc. congruence.
Qed.

Lemma awaits_taken K o size bs bs' : awaits K bs -> taken o size bs bs' -> awaits K bs'.
Proof.
  intros HK (_ & Htc & _) x t Ht. rewrite Htc in Ht. destruct (_ && _); [done|by eapply HK].
Qed.

Lemma client_reach_ok n K bs w live :
  0 < n < 2 ^ 32 -> client_reach n K bs w live ->
  ok n bs /\ valid K w /\ awaits K bs /\ allocations bs ≡ₚ live.
Proof.
  intros Hn. induction 1 as
    [K w Hv|K K' bs w w' live Hr (Hok & Hv & HK & Hl) Hv' HKK
    |K bs w live size o bs' w' Hr (Hok & Hv & HK & Hl) Hs E
    |K bs w live live' o size bs' Hr (Hok & Hv & HK & Hl) Hp E
    |K bs w live live' o size t bs' Hr (Hok & Hv & HK & Hl) Hp Ht E
    |K bs w live bs' w' Hr (Hok & Hv & HK & Hl) E].
  - split_and!; [by apply new_ok|done| |done]. intros x t. simpl. by destruct (covers _ _).
  - split_and!; [done..| |done]. intros x t Hx. eapply HKK, HK, Hx.
  - destruct (Alloc_ok K n size bs w Hok Hv HK Hs)
      as (o1 & bs1 & w1 & E1 & Hok' & Hv' & Hw & Hcase).
    rewrite E1 in E. simplify_eq. split; [done|]. split; [done|].
    destruct Hcase as [(-> & Hadv & _)|(Ho1 & Ho2 & mid & Hadv & Htk)].
    + rewrite Z.eqb_refl. split; [by eapply awaits_advanced|]. by destruct Hadv as [-> _].
    + assert (o <> kInvalidOffset) by (unfold kInvalidOffset, request in *; case_match; lia).
      bfalse (o =? kInvalidOffset).
      split; [eapply awaits_taken; [by eapply awaits_advanced|done]|].
      destruct Htk as (_ & _ & ->), Hadv as [-> _]. by rewrite Hl.
  - destruct (Free_freed n bs o size) as (bs1 & E1 & Hok' & Hf);
      [done|rewrite Hl, Hp; apply list_elem_of_here|].
    rewrite E1 in E. simplify_eq. split_and!; [done|done|eapply (awaits_freed K Avail); [done|by intros ? [=]|done]|].
    destruct Hf as [_ Hf]. rewrite Hl, Hp in Hf. symmetry. by eapply Permutation.Permutation_cons_inv.
  - destruct (FreePendingToken_freed n bs o size t) as (bs1 & E1 & Hok' & Hf);
      [done|rewrite Hl, Hp; apply list_elem_of_here|].
    rewrite E1 in E. simplify_eq. split_and!; [done|done| |].
    { eapply (awaits_freed K (Pending t)); [done|by intros ? [= <-]|done]. }
    destruct Hf as [_ Hf]. rewrite Hl, Hp in Hf. symmetry. by eapply Permutation.Permutation_cons_inv.
  - destruct (FreeUnused_ok K n bs w Hok Hv) as (bs1 & w1 & E1 & Hok' & Hv' & Hw & Hadv & _).
    rewrite E1 in E. simplify_eq. split_and!; [done|done|by eapply awaits_advanced|].
    by destruct Hadv as [-> _].
Qed.

(** C31: whatever its clients do, the allocator keeps the block list that
    [CheckConsistency] asks for, and the allocations not yet freed lie inside the
    memory and have no byte in common. *)
Theorem allocator_reachable_consistent n K bs w live :
  0 < n < 2 ^ 32 -> client_reach n K bs w live ->
  CheckConsistency bs = true /\ apart_ranges live /\
  forall a, a ∈ live -> 0 <= a.1 /\ 0 < a.2 /\ a.1 + a.2 <= n.
Proof.
  intros Hn Hr. destruct (client_reach_ok _ _ _ _ _ Hn Hr) as (Hok & _ & _ & Hl).
  pose proof (ok_tiled _ _ Hok) as Ht. split_and!.
  - by eapply ok_CheckConsistency.
  - eapply apart_ranges_perm; [done|]. by eapply allocations_apart.
  - intros a Ha. rewrite <- Hl in Ha. by apply (allocations_bounds _ _ _ _ Ht).
Qed.

(** C30: [Alloc] always returns, and hands out memory no one uses: each byte of the
    block was free, or freed pending a token that the reader has gone past when
    [Alloc] returns.  The other bytes change only from pending to free, once
    their token has passed. *)
Theorem Alloc_takes_passed_memory K n size bs w :
  ok n bs -> valid K w -> awaits K bs -> 0 <= size ->
  exists o bs' w', Alloc size bs w = Done (o, bs', w') /\ ok n bs' /\
    (o <> kInvalidOffset -> 0 <= o /\ o + request size <= n /\
       allocations bs' ≡ₚ (o, request size) :: allocations bs) /\
    forall x,
      if negb (o =? kInvalidOffset) && (o <=? x) && (x <? o + request size)
      then cell_at bs' x = Some Used /\
        (cell_at bs x = Some Avail \/
         exists t, cell_at bs x = Some (Pending t) /\ passed w' t)
      else cell_at bs' x = cell_at bs x \/
        exists t, cell_at bs x = Some (Pending t) /\ passed w' t /\ cell_at bs' x = Some Avail.
Proof.
  intros Hok Hv HK Hs.
  destruct (Alloc_ok K n size bs w Hok Hv HK Hs) as (o & bs' & w' & E & Hok' & _ & _ & Hcase).
  exists o, bs', w'. split; [done|]. split; [done|].
  destruct Hcase as [(-> & [Hal Hadv] & _)|(Ho1 & Ho2 & mid & [Hal Hadv] & Hfree & Hcells & Hal')].
  - split; [done|]. intros x. rewrite Z.eqb_refl. apply Hadv.
  - split; [intros _; by rewrite <- Hal|]. intros x.
    assert (o <> kInvalidOffset)
      by (unfold kInvalidOffset, request in *; destruct Hok; case_match; lia).
    bfalse (o =? kInvalidOffset).
    cbn [negb andb]. specialize (Hcells x). specialize (Hfree x). specialize (Hadv x).
    destruct (_ && _) eqn:Ex; zbool.
    + split; [done|]. destruct Hadv as [Ea|(t & Ea & ? & _)]; [left|right; by exists t].
      rewrite <- Ea. apply Hfree. lia.
    + by rewrite Hcells.
Qed.

(** [Alloc] finds a block exactly when [GetLargestFreeOrPendingSize] says that
    there is one, waiting for tokens where it must. *)
Theorem Alloc_succeeds_iff K n size bs w :
  ok n bs -> valid K w -> awaits K bs -> 0 <= size ->
  exists o bs' w', Alloc size bs w = Done (o, bs', w') /\
    (o <> kInvalidOffset <-> request size <= GetLargestFreeOrPendingSize bs).
Proof.
  intros Hok Hv HK Hs.
  destruct (Alloc_ok K n size bs w Hok Hv HK Hs) as (o & bs' & w' & E & Hok' & _ & _ & Hcase).
  assert (0 < request size) as Hq by (unfold request; case_match; lia).
  exists o, bs', w'. split; [done|].
  rewrite (GetLargestFreeOrPendingSize_spec n) by done.
  destruct Hcase as [(-> & Hadv & Hall)|(Ho1 & Ho2 & mid & Hadv & Hfree & _)].
  - split; [done|]. intros (x & _ & _ & Hrun) _. apply (advanced_run _ _ _ _ _ Hadv) in Hrun.
    destruct (run_settled _ _ _ _ _ Hok' Hall Hrun); lia.
  - destruct Hok. split; [|unfold kInvalidOffset; lia]. intros _. exists o.
    split_and!; [done..|]. apply (advanced_run _ _ _ _ _ Hadv).
    intros y Hy. exists Avail. split; [by apply Hfree|done].
Qed.

Lemma apart_no_two_free bs :
  apart bs -> Forall (fun b => b_state b = FREE) bs -> (length bs <= 1)%nat.
Proof.
  destruct bs as [|b [|c bs]]; simpl; [lia..|].
  intros [Ha _] [Hb [Hc _]%Forall_cons]%Forall_cons. destruct Ha. by split; simpl; f_equal.
Qed.

(** The destructor of an allocator with nothing in use waits for every
    pending block and is left, as it checks, with one free block, the whole
    memory. *)
Theorem destructor_leaves_one_free_block K n bs w :
  ok n bs -> valid K w -> awaits K bs -> allocations bs = [] ->
  exists b w', destructor bs w = Done ([b], w') /\
    b_state b = FREE /\ b_offset b = 0 /\ b_size b = n /\
    forall x t, cell_at bs x = Some (Pending t) -> passed w' t.
Proof.
  intros Hok Hv HK Hal. unfold destructor.
  destruct (free_all_ok K n (length bs) [] bs w) as (bs' & w' & E & [Hn Ht Ha] & _ & _ & Hadv & Hall);
    [done..|].
  cbn [app length] in E. rewrite E. destruct Hadv as [Hal' Hadv]. cbn [app] in Hal', Hadv. rewrite Hal in Hal'.
  assert (Forall (fun b => b_state b = FREE) bs') as Hfree.
  { apply Forall_forall. intros b Hb. destruct (b_state b) eqn:Es; [|done|].
    - apply list_elem_of_split in Hb as (l & r & ->). rewrite allocations_app in Hal'.
      apply app_nil in Hal' as [_ Hal']. unfold allocations in Hal'. cbn [flat_map] in Hal'.
      by rewrite decide_True in Hal'.
    - by apply (proj1 (Forall_forall _ _) Hall b Hb) in Es. }
  pose proof (apart_no_two_free _ Ha Hfree).
  destruct bs' as [|b [|]]; simpl in *; [lia| |lia].
  exists b, w'. apply Forall_cons in Hfree as [Hb _]. split_and!; [done|done|lia|lia|].
  intros x t Hx. destruct (Hadv x) as [Ex|(u & Ex & Hp & _)]; [|congruence].
  rewrite Hx in Ex. destruct (covers b x); [|done]. unfold view in Ex. by rewrite Hb in Ex.
Qed.

End client.

(** ** Witnesses

    A helper that has read all the tokens up to the one that was last waited for. *)

#[export] Instance reader_tokens : TokenHelper Z := {|
  WaitForToken t w := Done (Z.max t w);
  last_token_read w := (w, w);
|}.

#[export] Instance reader_TokenLaws : TokenLaws Z (fun _ _ => True) (fun w t => t <= w).
Proof.
  split; simpl.
  - intros K t w _ _. exists (Z.max t w). split_and!; [done|done|lia|lia].
  - auto with lia.
Qed.

(** 64 bytes: 16 in use, 16 pending token 3, 32 free. *)
Definition example_blocks : Blocks :=
  [mkBlock IN_USE 0 16 0; mkBlock FREE_PENDING_TOKEN 16 16 3; mkBlock FREE 32 32 0].

Lemma example_blocks_ok : ok 64 example_blocks.
Proof.
  split; [lia|simpl; lia|]. simpl. unfold free_pair. simpl. naive_solver.
Qed.

Lemma example_blocks_awaits : awaits (fun t => t = 3) example_blocks.
Proof.
  intros x t. simpl. unfold view. simpl. repeat destruct (covers _ _); congruence.
Qed.

Lemma allocator_reachable_consistent_witness :
  client_reach (W := Z) (valid := fun _ _ => True) 64 (fun t => t = 3)
    example_blocks 0 [(0, 16)] /\
  CheckConsistency example_blocks = true /\ apart_ranges [(0, 16)] /\
  forall a, a ∈ [(0, 16)] -> 0 <= a.1 /\ 0 < a.2 /\ a.1 + a.2 <= 64.
Proof.
  assert (client_reach (W := Z) (valid := fun _ _ => True) 64 (fun t => t = 3)
    example_blocks 0 [(0, 16)]) as Hr.
  { eapply (reach_FreePendingToken _ _
      [mkBlock IN_USE 0 16 0; mkBlock IN_USE 16 16 0; mkBlock FREE 32 32 0] _
      [(16, 16); (0, 16)] [(0, 16)] 16 16 3); [|done..].
    refine (reach_Alloc 64 _ [mkBlock IN_USE 0 16 0; mkBlock FREE 16 48 0] 0 [(0, 16)] 16 16
      _ 0 _ _ _); [|lia|by vm_compute].
    refine (reach_Alloc 64 _ (new 64) 0 [] 16 0 _ 0 _ _ _); [|lia|by vm_compute].
    by constructor. }
  split; [exact Hr|].
  exact (allocator_reachable_consistent 64 _ _ _ _ ltac:(lia) Hr).
Defined.

Lemma Alloc_takes_passed_memory_witness :
  exists o bs' w', Alloc 40 example_blocks 0 = Done (o, bs', w') /\ o = 16 /\ w' = 3.
Proof.
  destruct (Alloc_takes_passed_memory (fun t => t = 3) 64 40 example_blocks 0 example_blocks_ok
    I example_blocks_awaits ltac:(lia)) as (o & bs' & w' & E & _).
  exists o, bs', w'. split; [exact E|]. vm_compute in E. by injection E as <- <- <-.
Defined.

Lemma Alloc_succeeds_iff_witness :
  exists o bs' w', Alloc 48 example_blocks 0 = Done (o, bs', w') /\
    (o <> kInvalidOffset <-> request 48 <= GetLargestFreeOrPendingSize example_blocks).
Proof.
  exact (Alloc_succeeds_iff (fun t => t = 3) 64 48 example_blocks 0 example_blocks_ok
    I example_blocks_awaits ltac:(lia)).
Defined.

Lemma destructor_leaves_one_free_block_witness :
  exists b w', destructor [mkBlock FREE_PENDING_TOKEN 0 16 3; mkBlock FREE 16 48 0] 0
    = Done ([b], w') /\ b_state b = FREE /\ b_offset b = 0 /\ b_size b = 64.
Proof.
  destruct (destructor_leaves_one_free_block (fun t => t = 3) 64
    [mkBlock FREE_PENDING_TOKEN 0 16 3; mkBlock FREE 16 48 0] 0) as (b & w' & H).
  - split; [lia|simpl; lia|]. simpl. unfold free_pair. simpl. naive_solver.
  - exact I.
  - intros x t. simpl. unfold view. simpl. repeat destruct (covers _ _); congruence.
  - reflexivity.
  - exists b, w'. destruct H as (? & ? & ? & ? & _). done.
Defined.
