(* ===== verification/FencedAllocatorWrapper.v ===== *)
(** * The fenced allocator behind pointers

    [FencedAllocatorWrapper] of [gpu/command_buffer/client/fenced_allocator.h]. *)

From S2P Require Import Prelude Tokens FencedAllocator.
From Stdlib Require Import ZArith Lia ZifyBool Bool.
From stdpp Require Import base numbers option sets list.
Local Open Scope Z_scope.

(** ** Operations

    A pointer is a byte address; [NULL] is [None]. *)
Definition GetPointer (base offset : Z) : option Z :=
  if offset =? kInvalidOffset then None else Some (base + offset).

Definition GetOffset (base : Z) (pointer : option Z) : Z :=
  match pointer with
  | Some p => u32 (p - base)
  | None => kInvalidOffset
  end.

Section wrapper.
Context {W : Type} `{TokenHelper W} (base : Z).

Definition Alloc (size : Z) (blocks : Blocks) (w : W) : outcome (option Z * Blocks * W) :=
  (do (offset, blocks, w) <- FencedAllocator.Alloc size blocks w ;;
   Done (GetPointer base offset, blocks, w))%gpu.

Definition Free (pointer : option Z) (blocks : Blocks) : outcome Blocks :=
  FencedAllocator.Free (GetOffset base pointer) blocks.

Definition FreePendingToken (pointer : option Z) (token : Z) (blocks : Blocks)
    : outcome Blocks :=
  FencedAllocator.FreePendingToken (GetOffset base pointer) token blocks.

Definition AllocTyped (sizeof : Z) (count : Z) (blocks : Blocks) (w : W)
    : outcome (option Z * Blocks * W) :=
  Alloc (u32 (count * sizeof)) blocks w.

End wrapper.

(** ** Properties *)

Section client.
Context {W : Type} `{TL : TokenLaws W valid passed}.

(** A pointer that the wrapper's [Alloc] returns is turned back into its
    offset, so that [Free] makes exactly the bytes of the block available. *)
Theorem Free_of_Alloc K n size bs w base p bs' w' :
  ok n bs -> valid K w -> awaits K bs -> 0 <= size ->
  Alloc base size bs w = Done (Some p, bs', w') ->
  base <= p /\ p + request size <= base + n /\
  exists bs'', Free base (Some p) bs' = Done bs'' /\ ok n bs'' /\
    allocations bs'' ≡ₚ allocations bs /\
    forall x, cell_at bs'' x =
      if (p - base <=? x) && (x <? p - base + request size) then Some Avail
      else cell_at bs' x.
Proof.
  intros Hok Hv HK Hs. unfold Alloc.
  destruct (Alloc_ok K n size bs w Hok Hv HK Hs) as (o & bs1 & w1 & E & Hok' & _ & _ & Hcase).
  rewrite E. cbn [obind]. unfold GetPointer.
  intros Hret. destruct (o =? kInvalidOffset) eqn:Eo; simplify_eq. zbool.
  destruct Hcase as [(? & _)|(Ho1 & Ho2 & mid & [Hal _] & _ & _ & Hal')]; [done|].
  split_and!; [lia..|].
  unfold Free, GetOffset.
  replace (u32 (base + o - base)) with o.
  2: { rewrite Z.add_simpl_l. symmetry. apply u32_id. destruct Hok.
       unfold is_u32, request in *. case_match; lia. }
  destruct (Free_freed n bs' o (request size)) as (bs'' & E2 & Hok'' & Hcells & Hal'');
    [done|rewrite Hal'; apply list_elem_of_here|].
  exists bs''. split_and!; [done|done| |by rewrite Z.add_simpl_l].
  rewrite Hal' in Hal''. apply Permutation.Permutation_cons_inv in Hal''. by rewrite <- Hal'', Hal.
Qed.

End client.

Lemma Free_of_Alloc_witness :
  exists bs' bs'', Alloc 4096 40 example_blocks 0 = Done (Some 4112, bs', 3) /\
    Free 4096 (Some 4112) bs' = Done bs''.
Proof.
  destruct (Free_of_Alloc (fun t => t = 3) 64 40 example_blocks 0 4096 4112
    [mkBlock IN_USE 0 16 0; mkBlock IN_USE 16 40 3; mkBlock FREE 56 8 0] 3
    example_blocks_ok I example_blocks_awaits ltac:(lia)) as (_ & _ & bs'' & E & _).
  - by vm_compute.
  - eexists _, bs''. split; [|exact E]. by vm_compute.
Defined.
