(* ===== verification/RingBuffer.v ===== *)
(** * The ring buffer allocator

    [gpu/command_buffer/client/ring_buffer.{h,cc}]: memory handed out in order and
    taken back in order, once the token it was freed with has passed. *)

From S2P Require Import Prelude Tokens.
From Stdlib Require Import ZArith Lia ZifyBool Bool.
From stdpp Require Import base numbers option sets list.
Local Open Scope Z_scope.

(** ** Data *)

Inductive State := IN_USE | PADDING | FREE_PENDING_TOKEN.

#[export] Instance State_eq_dec : EqDecision State.
Proof. solve_decision. Defined.

Record Block := mkBlock { b_offset : Z; b_size : Z; b_token : Z; b_state : State }.

(** The constructor of [Block]. *)
Definition Block_new (offset size : Z) (state : State) : Block := mkBlock offset size 0 state.

(** [blocks_] is a deque: used blocks are added to the end, freed from the front. *)
Record RingBuffer := mkRingBuffer {
  blocks_ : list Block;
  base_offset_ : Z;
  size_ : Z;
  free_offset_ : Z;
  in_use_offset_ : Z;
}.

(** ** Operations *)

Definition new (base_offset size : Z) : RingBuffer := mkRingBuffer [] base_offset size 0 0.

(** The offsets after the oldest block, of [size] bytes, is gone. *)
Definition advance (size : Z) (blocks : list Block) (r : RingBuffer) : RingBuffer :=
  let in_use := u32 (in_use_offset_ r + size) in
  let in_use := if in_use =? size_ r then 0 else in_use in
  if in_use =? free_offset_ r
  then mkRingBuffer blocks (base_offset_ r) (size_ r) 0 0
  else mkRingBuffer blocks (base_offset_ r) (size_ r) (free_offset_ r) in_use.

Definition GetLargestFreeSizeNoWaiting (r : RingBuffer) : Z :=
  if free_offset_ r =? in_use_offset_ r then
    match blocks_ r with
    | [] => size_ r
    | _ => 0
    end
  else if free_offset_ r >? in_use_offset_ r
  then Z.max (u32 (size_ r - free_offset_ r)) (in_use_offset_ r)
  else u32 (in_use_offset_ r - free_offset_ r).

Definition GetLargestFreeOrPendingSize (r : RingBuffer) : Z := size_ r.

(** [Alloc] once there is enough room. *)
Definition place (size : Z) (r : RingBuffer) : Z * RingBuffer :=
  let r :=
    if u32 (size + free_offset_ r) >? size_ r
    then mkRingBuffer
           (blocks_ r ++ [Block_new (free_offset_ r) (u32 (size_ r - free_offset_ r)) PADDING])
           (base_offset_ r) (size_ r) 0 (in_use_offset_ r)
    else r in
  let offset := free_offset_ r in
  let free := u32 (free_offset_ r + size) in
  (u32 (offset + base_offset_ r),
   mkRingBuffer (blocks_ r ++ [Block_new offset size IN_USE]) (base_offset_ r) (size_ r)
     (if free =? size_ r then 0 else free) (in_use_offset_ r)).

(** [FreePendingToken] looks for the block from the end of the deque. *)
Fixpoint free_last (offset token : Z) (rev_blocks : list Block) : list Block :=
  match rev_blocks with
  | [] => []
  | b :: bs =>
      if b_offset b =? offset
      then mkBlock (b_offset b) (b_size b) token FREE_PENDING_TOKEN :: bs
      else b :: free_last offset token bs
  end.

Definition FreePendingToken (offset token : Z) (r : RingBuffer) : RingBuffer :=
  let offset := u32 (offset - base_offset_ r) in
  mkRingBuffer (rev (free_last offset token (rev (blocks_ r)))) (base_offset_ r) (size_ r)
    (free_offset_ r) (in_use_offset_ r).

Section ring_buffer.
Context {W : Type} `{TokenHelper W}.

(** [front()] of an empty deque is undefined.  The token, kept unsigned, is
    converted to the [int32] of [WaitForToken]. *)
Definition FreeOldestBlock (r : RingBuffer) (w : W) : outcome (RingBuffer * W) :=
  match blocks_ r with
  | [] => UB
  | b :: blocks =>
      (do w <- (if decide (b_state b = FREE_PENDING_TOKEN)
                then WaitForToken (i32 (b_token b)) w else Done w) ;;
       Done (advance (b_size b) blocks r, w))%gpu
  end.

(** The wait of [Alloc]: every turn frees a block. *)
Fixpoint make_room (fuel : nat) (size : Z) (r : RingBuffer) (w : W) : outcome (RingBuffer * W) :=
  if size >? GetLargestFreeSizeNoWaiting r then
    match fuel with
    | O => Fuel
    | S fuel => (do (r, w) <- FreeOldestBlock r w ;; make_room fuel size r w)%gpu
    end
  else Done (r, w).

Definition Alloc (size : Z) (r : RingBuffer) (w : W) : outcome (Z * RingBuffer * W) :=
  let size := if size =? 0 then 1 else size in
  (do (r, w) <- make_room (S (length (blocks_ r))) size r w ;;
   let '(offset, r) := place size r in
   Done (offset, r, w))%gpu.

(** The loop of the destructor. *)
Fixpoint free_all (fuel : nat) (r : RingBuffer) (w : W) : outcome (RingBuffer * W) :=
  match blocks_ r with
  | [] => Done (r, w)
  | _ =>
      match fuel with
      | O => Fuel
      | S fuel => (do (r, w) <- FreeOldestBlock r w ;; free_all fuel r w)%gpu
      end
  end.

Definition destructor (r : RingBuffer) (w : W) : outcome (RingBuffer * W) :=
  free_all (length (blocks_ r)) r w.

End ring_buffer.

(** *** The wrapper, whose interface is in pointers *)

Definition Wrapper_base (base base_offset : Z) : Z := base - base_offset.

Definition GetPointer (base_ offset : Z) : Z := base_ + offset.

Definition GetOffset (base_ pointer : Z) : Z := u32 (pointer - base_).

(** ** Invariant

    [laid n u bs e]: along a line on which the ring of [n] bytes is written again and
    again, the blocks [bs] lie one after the other from [u] to [e], none of them across
    the end of the ring. *)
Fixpoint laid (n u : Z) (bs : list Block) (e : Z) : Prop :=
  match bs with
  | [] => u = e
  | b :: bs =>
      b_offset b = (if u <? n then u else u - n) /\ 0 < b_size b /\
      (u + b_size b <= n \/ n <= u) /\ laid n (u + b_size b) bs e
  end.

Record wf (n : Z) (r : RingBuffer) : Prop := {
  wf_size : size_ r = n /\ 0 < n <= 2 ^ 31;
  wf_base : 0 <= base_offset_ r /\ base_offset_ r + n <= 2 ^ 32;
  wf_in_use : 0 <= in_use_offset_ r < n;
  wf_empty : blocks_ r = [] -> in_use_offset_ r = 0;
  wf_laid : exists e, laid n (in_use_offset_ r) (blocks_ r) e /\
    e <= in_use_offset_ r + n /\ free_offset_ r = if e <? n then e else e - n;
}.

Definition range_disjoint (b : Block) (o size : Z) : Prop :=
  b_offset b + b_size b <= o \/ o + size <= b_offset b.

(** The size that is asked for: an allocation of 0 takes one byte. *)
Definition request (size : Z) : Z := if size =? 0 then 1 else size.

(** ** Lemmas *)

Lemma laid_le n u bs e : laid n u bs e -> u <= e.
Proof.
  revert u. induction bs as [|b bs IH]; intros u; simpl; [lia|].
  intros (_ & ? & _ & ?%IH). lia.
Qed.

Lemma laid_app n u bs cs e : laid n u (bs ++ cs) e <-> exists m, laid n u bs m /\ laid n m cs e.
Proof.
  revert u. induction bs as [|b bs IH]; intros u; simpl.
  - split; [by eauto|]. by intros (m & -> & ?).
  - rewrite IH. naive_solver.
Qed.

(** One turn of the ring less. *)
Lemma laid_shift n u bs e : 0 < n -> n <= u -> e < n + n -> laid n u bs e -> laid n (u - n) bs (e - n).
Proof.
  intros Hn. revert u. induction bs as [|b bs IH]; intros u Hu He; simpl; [lia|].
  intros (Ho & Hs & Hc & Hl). pose proof (laid_le _ _ _ _ Hl).
  split_and!; [|lia|lia|].
  - rewrite Ho. bfalse (u <? n). by btrue (u - n <? n).
  - replace (u - n + b_size b) with (u + b_size b - n) by lia. by apply IH; [lia| |].
Qed.

Lemma laid_block n u bs e b :
  laid n u bs e -> b ∈ bs -> exists v, u <= v /\ v + b_size b <= e /\ 0 < b_size b /\
    b_offset b = (if v <? n then v else v - n) /\ (v + b_size b <= n \/ n <= v).
Proof.
  intros Hl (l & r & ->)%list_elem_of_split. apply laid_app in Hl as (m & Hl%laid_le & Hm).
  cbn [laid] in Hm. destruct Hm as (Ho & Hs & Hc & Hr%laid_le). exists m. auto.
Qed.

(** [advance] keeps the invariant: the front block is gone. *)
Lemma advance_wf n r b blocks :
  wf n r -> blocks_ r = b :: blocks -> wf n (advance (b_size b) blocks r) /\
  blocks_ (advance (b_size b) blocks r) = blocks /\
  base_offset_ (advance (b_size b) blocks r) = base_offset_ r.
Proof.
  intros [[Hs Hn] Hb Hu _ (e & Hl & He & Hf)] E. rewrite E in Hl. cbn [laid] in Hl.
  destruct Hl as (Ho & Hbs & Hc & Hl). pose proof (laid_le _ _ _ _ Hl) as Hle.
  unfold advance. rewrite Hs, u32_id by (unfold is_u32; lia).
  set (u := if _ =? n then 0 else _).
  assert (exists e', laid n u blocks e' /\ 0 <= u < n /\ e' <= u + n /\
    free_offset_ r = (if e' <? n then e' else e' - n) /\ (u = free_offset_ r -> u = e'))
    as (e' & Hl' & Hu' & He' & Hf' & Hue).
  { subst u. destruct (_ =? n) eqn:En; zbool.
    - exists (e - n). split; [|destruct (e <? n) eqn:E1; zbool; try lia;
        destruct (e - n <? n) eqn:E2; zbool; lia].
      replace 0 with (in_use_offset_ r + b_size b - n) by lia.
      apply laid_shift; [lia|lia|lia|done].
    - exists e. split; [done|]. split_and!; try lia.
      destruct (e <? n) eqn:E1; zbool; lia. }
  destruct (u =? free_offset_ r) eqn:Euf; zbool.
  - assert (blocks = []) as ->.
    { destruct blocks as [|c blocks]; [done|]. exfalso. cbn [laid] in Hl'.
      destruct Hl' as (_ & ? & _ & Hx%laid_le). specialize (Hue Euf). lia. }
    split; [|done]. split; simpl; try done; [lia|]. exists 0. split_and!; [done|lia|].
    by btrue (0 <? n).
  - split; [|done]. split; simpl; try done.
    + intros ->. simpl in Hl'. exfalso. apply Euf. subst e'. rewrite Hf'. by btrue (u <? n).
    + by exists e'.
Qed.

(** The room that is reported is there, once: either before the end of the ring, or
    at its beginning after padding. *)
Lemma GetLargestFreeSizeNoWaiting_room n r size :
  wf n r -> 0 < size -> size <= GetLargestFreeSizeNoWaiting r ->
  exists e, laid n (in_use_offset_ r) (blocks_ r) e /\
    free_offset_ r = (if e <? n then e else e - n) /\
    (free_offset_ r + size <= n /\ e + size <= in_use_offset_ r + n \/
     n < free_offset_ r + size /\ e < n /\ size <= in_use_offset_ r).
Proof.
  intros [[Hs Hn] Hb Hu Hem (e & Hl & He & Hf)] Hsz Hle. pose proof (laid_le _ _ _ _ Hl).
  exists e. split; [done|]. split; [done|]. revert Hle. unfold GetLargestFreeSizeNoWaiting.
  rewrite Hs. destruct (_ =? _) eqn:E1; zbool.
  - destruct (blocks_ r) eqn:Eb; [|lia]. simpl in Hl. rewrite Hem in * by done. intros. left.
    subst e. revert Hf. btrue (0 <? n). lia.
  - destruct (e <? n) eqn:E2; zbool; rewrite Hf in *.
    + btrue (e >? in_use_offset_ r). rewrite u32_id by (unfold is_u32; lia). lia.
    + bfalse (e - n >? in_use_offset_ r). rewrite u32_id by (unfold is_u32; lia). lia.
Qed.

(** A block placed where there is room keeps the invariant and meets no other. *)
Lemma place_wf n r size :
  wf n r -> 0 < size -> size <= GetLargestFreeSizeNoWaiting r ->
  let '(o, r') := place size r in
  wf n r' /\ base_offset_ r <= o /\ o + size <= base_offset_ r + n /\
  base_offset_ r' = base_offset_ r /\
  Forall (fun b => range_disjoint b (o - base_offset_ r) size) (blocks_ r) /\
  exists pad, blocks_ r' = blocks_ r ++ pad ++ [Block_new (o - base_offset_ r) size IN_USE] /\
    Forall (fun b => b_state b = PADDING) pad.
Proof.
  intros Hwf Hsz Hle.
  destruct (GetLargestFreeSizeNoWaiting_room _ _ _ Hwf Hsz Hle) as (e & Hl & Hf & Hroom).
  destruct Hwf as [[Hs Hn] Hb Hu Hem _]. pose proof (laid_le _ _ _ _ Hl) as Hue.
  assert (0 <= free_offset_ r < n) as Hfn
    by (destruct (e <? n) eqn:E; zbool; destruct Hroom as [?|?]; lia).
  assert (forall b, b ∈ blocks_ r -> exists v, in_use_offset_ r <= v /\ v + b_size b <= e /\
    0 < b_size b /\ b_offset b = (if v <? n then v else v - n) /\ (v + b_size b <= n \/ n <= v))
    as Hblk by (intros b Hin; by apply (laid_block _ _ _ _ _ Hl)).
  unfold place. rewrite Hs.
  destruct Hroom as [[Hend Hlap]|(Hend & He & Hbegin)].
  - rewrite (u32_id (size + free_offset_ r)) by (unfold is_u32; lia).
    bfalse (size + free_offset_ r >? n). cbn zeta.
    rewrite Hs, !u32_id by (unfold is_u32; lia). simpl.
    replace (free_offset_ r + base_offset_ r - base_offset_ r) with (free_offset_ r) by lia.
    split_and!; [|lia|lia|done| |by exists []].
    + split; simpl; try done.
      { intros Hnil. destruct (blocks_ r); discriminate. }
      exists (e + size). split_and!; [|lia|].
      * apply laid_app. exists e. split; [done|]. simpl. split_and!; [done|lia| |done].
        destruct (e <? n) eqn:E; zbool; lia.
      * destruct (_ =? n) eqn:E1, (e <? n) eqn:E2, (e + size <? n) eqn:E3; zbool; lia.
    + apply Forall_forall. intros b (v & Hv1 & Hv2 & Hbs & Ho & Hc)%Hblk. unfold range_disjoint.
      rewrite Ho, Hf. destruct (v <? n) eqn:E1, (e <? n) eqn:E2; zbool; lia.
  - revert Hf. btrue (e <? n). intros Hf.
    rewrite (u32_id (size + free_offset_ r)) by (unfold is_u32; lia).
    btrue (size + free_offset_ r >? n). cbn zeta. simpl.
    rewrite ?Hs, !u32_id by (unfold is_u32; lia). simpl. rewrite <- app_assoc. cbn [app].
    replace (base_offset_ r - base_offset_ r) with 0 by lia.
    split_and!; [|lia|lia|done| |].
    + split; simpl; try done.
      { intros Hnil. destruct (blocks_ r); discriminate. }
      exists (n + size). split_and!; [|lia|].
      * apply laid_app. exists e. split; [done|]. simpl. btrue (e <? n). bfalse (e + (n - free_offset_ r) <? n).
        split_and!; try done; lia.
      * bfalse (n + size <? n). destruct (_ =? n) eqn:E1; zbool; lia.
    + apply Forall_forall. intros b (v & Hv1 & Hv2 & Hbs & Ho & Hc)%Hblk. unfold range_disjoint.
      rewrite Ho. destruct (v <? n) eqn:E1; zbool; lia.
    + exists [Block_new (free_offset_ r) (n - free_offset_ r) PADDING].
      replace (0 + base_offset_ r - base_offset_ r) with 0 by lia. split; [done|].
      by repeat constructor.
Qed.

(** ** Waiting *)

(** Every block was freed, with a token of [K] or as padding. *)
Definition released (K : Z -> Prop) (bs : list Block) : Prop :=
  Forall (fun b => b_state b <> IN_USE /\
    (b_state b = FREE_PENDING_TOKEN -> K (i32 (b_token b)))) bs.

Section waiting.
Context {W : Type} `{TL : TokenLaws W valid passed} (K : Z -> Prop).

(** [taken_back w' bs]: the tokens of the blocks have passed. *)
Definition taken_back (w' : W) (bs : list Block) : Prop :=
  Forall (fun b => b_state b = FREE_PENDING_TOKEN -> passed w' (i32 (b_token b))) bs.

Lemma FreeOldestBlock_ok n r b blocks w :
  wf n r -> valid K w -> blocks_ r = b :: blocks -> released K (blocks_ r) ->
  exists w', FreeOldestBlock r w = Done (advance (b_size b) blocks r, w') /\ valid K w' /\
    (b_state b = FREE_PENDING_TOKEN -> passed w' (i32 (b_token b))) /\
    forall u, passed w u -> passed w' u.
Proof.
  intros Hwf Hv E Hr. unfold FreeOldestBlock. rewrite E in *.
  apply Forall_cons in Hr as [[_ Hk] _]. case_decide as Hst.
  - destruct (WaitForToken_passes K _ w Hv (Hk Hst)) as (w' & -> & Hv' & Hp & Hm).
    cbn [obind]. by exists w'.
  - cbn [obind]. by exists w.
Qed.

Lemma empty_room n r size :
  wf n r -> blocks_ r = [] -> size <= n -> size <= GetLargestFreeSizeNoWaiting r.
Proof.
  intros [[Hs Hn] _ Hu Hem (e & Hl & _ & Hf)] E Hle. rewrite E in Hl. simpl in Hl. subst e.
  unfold GetLargestFreeSizeNoWaiting. rewrite E, Hf, (Hem E). btrue (0 <? n). simpl. lia.
Qed.

Lemma make_room_ok n fuel size r w :
  wf n r -> valid K w -> released K (blocks_ r) -> size <= n ->
  (length (blocks_ r) < fuel)%nat ->
  exists popped r' w', make_room fuel size r w = Done (r', w') /\
    blocks_ r = popped ++ blocks_ r' /\ wf n r' /\ valid K w' /\
    base_offset_ r' = base_offset_ r /\
    size <= GetLargestFreeSizeNoWaiting r' /\ taken_back w' popped /\
    forall u, passed w u -> passed w' u.
Proof.
  intros Hwf Hv Hr Hs. revert r w Hwf Hv Hr.
  induction fuel as [|fuel IH]; intros r w Hwf Hv Hr Hf; [lia|]. cbn [make_room].
  destruct (size >? _) eqn:E; zbool; [|by exists [], r, w; split_and!; try done; constructor].
  destruct (blocks_ r) as [|b blocks] eqn:Eb.
  { pose proof (empty_room _ _ _ Hwf Eb Hs). lia. }
  destruct (FreeOldestBlock_ok n r b blocks w Hwf Hv Eb) as (w1 & -> & Hv1 & Hp & Hm);
    [by rewrite Eb|]. cbn [obind].
  destruct (advance_wf n r b blocks Hwf Eb) as (Hwf1 & Ebl & Ebo).
  apply Forall_cons in Hr as [Hb Hr]. simpl in Hf.
  destruct (IH (advance (b_size b) blocks r) w1) as (popped & r' & w' & E' & Hbl & Hwf' & Hv' & Hbo & Hle & Ht & Hm');
    [done|done|by rewrite Ebl|rewrite Ebl; lia|].
  exists (b :: popped), r', w'. rewrite Ebl in Hbl. split_and!; try done.
  - by rewrite Hbl.
  - congruence.
  - constructor; [|done]. auto.
  - auto.
Qed.

Lemma Alloc_room n size r w :
  wf n r -> valid K w -> released K (blocks_ r) -> 0 <= size <= n ->
  exists popped rest pad o r' w', Alloc size r w = Done (o, r', w') /\
    blocks_ r = popped ++ rest /\ taken_back w' popped /\
    blocks_ r' = rest ++ pad ++ [Block_new (o - base_offset_ r) (request size) IN_USE] /\
    Forall (fun b => b_state b = PADDING) pad /\
    base_offset_ r <= o /\ o + request size <= base_offset_ r + n /\
    Forall (fun b => range_disjoint b (o - base_offset_ r) (request size)) rest /\
    wf n r' /\ valid K w' /\ base_offset_ r' = base_offset_ r.
Proof.
  intros Hwf Hv Hr Hs. unfold Alloc. fold (request size).
  assert (0 < request size <= n) as Hq
    by (destruct Hwf as [[_ ?] _ _ _ _]; unfold request; case_match; zbool; lia).
  destruct (make_room_ok n (S (length (blocks_ r))) (request size) r w)
    as (popped & r1 & w' & -> & Hbl & Hwf1 & Hv1 & Hbo & Hle & Ht & _);
    [done|done|done|lia|lia|].
  cbn [obind]. pose proof (place_wf n r1 (request size) Hwf1 ltac:(lia) Hle) as Hp.
  destruct (place (request size) r1) as [o r']. rewrite Hbo in Hp.
  destruct Hp as (Hwf' & Ho1 & Ho2 & Hbo' & Hd & pad & Hbl' & Hpad).
  exists popped, (blocks_ r1), pad, o, r', w'. by split_and!.
Qed.

(** Freeing the block that was allocated last. *)
Lemma FreePendingToken_last n r bs o size t :
  wf n r -> blocks_ r = bs ++ [Block_new (o - base_offset_ r) size IN_USE] ->
  base_offset_ r <= o < base_offset_ r + n ->
  wf n (FreePendingToken o t r) /\ base_offset_ (FreePendingToken o t r) = base_offset_ r /\
  blocks_ (FreePendingToken o t r)
    = bs ++ [mkBlock (o - base_offset_ r) size t FREE_PENDING_TOKEN].
Proof.
  intros [[Hs Hn] Hb Hu _ (e & Hl & He & Hf)] E Ho.
  assert (blocks_ (FreePendingToken o t r)
    = bs ++ [mkBlock (o - base_offset_ r) size t FREE_PENDING_TOKEN]) as E'.
  { unfold FreePendingToken. simpl. rewrite E, rev_app_distr, u32_id by (unfold is_u32; lia).
    simpl. rewrite Z.eqb_refl. simpl. by rewrite rev_involutive. }
  split; [|done]. split; [done|done|done|rewrite E'; by destruct bs|].
  exists e. split_and!; [|done|done]. rewrite E', E in *.
  apply laid_app in Hl as (m & Hl & Hm). apply laid_app. by exists m.
Qed.

End waiting.

(** ** Clients *)

Section client.
Context {W : Type} `{TL : TokenLaws W valid passed}.

(** What a client that frees each block before it asks for the next one can come
    to; the helper is used by others as well. *)
Inductive ring_reach (base n : Z) : (Z -> Prop) -> RingBuffer -> W -> Prop :=
| ring_new K w : valid K w -> ring_reach base n K (new base n) w
| ring_helper K K' r w w' :
    ring_reach base n K r w -> valid K' w' -> (forall t, K t -> K' t) ->
    ring_reach base n K' r w'
| ring_use K K' r w size o r1 w1 w2 t :
    ring_reach base n K r w -> 0 <= size <= n -> Alloc size r w = Done (o, r1, w1) ->
    valid K' w2 -> (forall t, K t -> K' t) -> K' (i32 t) ->
    ring_reach base n K' (FreePendingToken o t r1) w2.

Lemma released_mono (K K' : Z -> Prop) bs :
  (forall t, K t -> K' t) -> released K bs -> released K' bs.
Proof. unfold released. rewrite !Forall_forall. naive_solver. Qed.

Lemma new_wf base n : 0 < n <= 2 ^ 31 -> 0 <= base -> base + n <= 2 ^ 32 -> wf n (new base n).
Proof.
  intros. split; simpl; try done; try lia. exists 0. split_and!; [done|lia|].
  by btrue (0 <? n).
Qed.

Lemma ring_reach_wf base n K r w :
  0 < n <= 2 ^ 31 -> 0 <= base -> base + n <= 2 ^ 32 -> ring_reach base n K r w ->
  wf n r /\ valid K w /\ released K (blocks_ r) /\ base_offset_ r = base.
Proof.
  intros Hn Hb Hbn. induction 1 as
    [K w Hv|K K' r w w' Hr (Hwf & Hv & Hrel & <-) Hv' HK
    |K K' r w size o r1 w1 w2 t Hr (Hwf & Hv & Hrel & <-) Hs E Hv' HK Ht].
  - split_and!; [by apply new_wf|done|by constructor|done].
  - split_and!; [done|done|by eapply released_mono|done].
  - destruct (Alloc_room K n size r w Hwf Hv Hrel Hs)
      as (popped & rest & pad & o1 & r1' & w1' & E1 & Hbl & _ & Hbl1 & Hpad & Ho1 & Ho2 & _ & Hwf1 & _ & Hbo).
    rewrite E1 in E. simplify_eq.
    rewrite (assoc_L (++)), <- Hbo in Hbl1.
    destruct (FreePendingToken_last n r1 (rest ++ pad) o (request size) t Hwf1 Hbl1)
      as (Hwf2 & Hbo2 & Hbl2).
    { rewrite Hbo. unfold request in *. case_match; zbool; lia. }
    split_and!; [done|done| |congruence]. rewrite Hbl2, Hbl in *.
    apply Forall_app in Hrel as [_ Hrest]. unfold released. rewrite !Forall_app. split_and!.
    + by eapply released_mono.
    + rewrite !Forall_forall in *. intros b Hin%Hpad. by rewrite Hin.
    + by repeat constructor.
Qed.

(** C32: [Alloc] waits only for blocks at the front, and always returns: the block
    it hands out lies inside the buffer and has no byte in common with a block
    whose token was not waited for; the blocks it took back had their tokens
    passed. *)
Theorem RingBuffer_Alloc_room base n K r w size :
  0 < n <= 2 ^ 31 -> 0 <= base -> base + n <= 2 ^ 32 ->
  ring_reach base n K r w -> 0 <= size <= n ->
  exists popped rest pad o r' w', Alloc size r w = Done (o, r', w') /\
    blocks_ r = popped ++ rest /\
    Forall (fun b => b_state b = FREE_PENDING_TOKEN -> passed w' (i32 (b_token b))) popped /\
    blocks_ r' = rest ++ pad ++ [Block_new (o - base) (request size) IN_USE] /\
    base <= o /\ o + request size <= base + n /\
    Forall (fun b => range_disjoint b (o - base) (request size)) rest.
Proof.
  intros Hn Hb Hbn Hr Hs. destruct (ring_reach_wf _ _ _ _ _ Hn Hb Hbn Hr) as (Hwf & Hv & Hrel & <-).
  destruct (Alloc_room K n size r w Hwf Hv Hrel Hs)
    as (popped & rest & pad & o & r' & w' & E & Hbl & Ht & Hbl' & _ & Ho1 & Ho2 & Hd & _).
  exists popped, rest, pad, o, r', w'. by split_and!.
Qed.

End client.

(** ** Witnesses *)

(** A helper that has read all the tokens up to the one that was last waited for. *)
#[local] Instance reader_tokens : TokenHelper Z := {|
  WaitForToken t w := Done (Z.max t w);
  last_token_read w := (w, w);
|}.

#[local] Instance reader_TokenLaws : TokenLaws Z (fun _ _ => True) (fun w t => t <= w).
Proof.
  split; simpl.
  - intros K t w _ _. exists (Z.max t w). split_and!; [done|done|lia|lia].
  - auto with lia.
Qed.

(** A ring of 64 bytes at offset 16 with two blocks, of 30 and 20 bytes. *)
Definition example_ring : RingBuffer :=
  mkRingBuffer [mkBlock 0 30 1 FREE_PENDING_TOKEN; mkBlock 30 20 2 FREE_PENDING_TOKEN] 16 64 50 0.

(** A third block of 24 bytes waits for the first one and starts over. *)
Lemma RingBuffer_Alloc_room_witness :
  exists r', Alloc 24 example_ring 0 = Done (16, r', 1) /\
    blocks_ r' = [mkBlock 30 20 2 FREE_PENDING_TOKEN; Block_new 50 14 PADDING;
                  Block_new 0 24 IN_USE].
Proof.
  assert (ring_reach (W := Z) (valid := fun _ _ => True) 16 64 (fun t => t = 1 \/ t = 2)
    example_ring 0) as Hr.
  { refine (ring_use (W := Z) 16 64 (fun t => t = 1) (fun t => t = 1 \/ t = 2)
      (mkRingBuffer [mkBlock 0 30 1 FREE_PENDING_TOKEN] 16 64 30 0) 0 20 46
      (mkRingBuffer [mkBlock 0 30 1 FREE_PENDING_TOKEN; Block_new 30 20 IN_USE] 16 64 50 0)
      0 0 2 _ _ _ _ _ _); [|lia|by vm_compute|exact I|intros t ->; by left|by right].
    refine (ring_use (W := Z) 16 64 (fun t => t = 1) (fun t => t = 1)
      (new 16 64) 0 30 16 (mkRingBuffer [Block_new 0 30 IN_USE] 16 64 30 0)
      0 0 1 _ _ _ _ _ _); [|lia|by vm_compute|exact I|done|done].
    by constructor. }
  destruct (RingBuffer_Alloc_room 16 64 _ example_ring 0 24 ltac:(lia) ltac:(lia) ltac:(lia) Hr
    ltac:(lia)) as (popped & rest & pad & o & r' & w' & E & _).
  exists r'. vm_compute in E. injection E as <- <- <-. by vm_compute.
Defined.
