(* ===== verification/MappedMemory.v ===== *)
(** * Mapped memory

    [gpu/command_buffer/client/mapped_memory.{h,cc}]: memory shared with the service,
    allocated in chunks, each a transfer buffer with a fenced allocator of its own. *)

From S2P Require Import Prelude Tokens FencedAllocator FencedAllocatorWrapper.
From Stdlib Require Import ZArith Lia ZifyBool Bool.
From stdpp Require Import base numbers option sets list.
Local Open Scope Z_scope.

(** ** The command buffer, as the manager sees it

    [GetTransferBuffer] answers the address and size the buffer is mapped at. *)
Class TransferBuffers (W : Type) := {
  CreateTransferBuffer : Z -> Z -> W -> Z * W;
  GetTransferBuffer : Z -> W -> Z * Z * W;
  DestroyTransferBuffer : Z -> W -> W;
}.

(** ** Data *)

Record MemoryChunk := mkChunk {
  shm_id : Z;
  shm_ptr : Z;
  shm_size : Z;
  allocator_ : list Block;
}.

Definition MemoryChunk_new (id ptr size : Z) : MemoryChunk :=
  mkChunk id ptr size (FencedAllocator.new size).

Definition with_blocks (c : MemoryChunk) (blocks : list Block) : MemoryChunk :=
  mkChunk (shm_id c) (shm_ptr c) (shm_size c) blocks.

Definition IsInChunk (pointer : option Z) (c : MemoryChunk) : bool :=
  let p := default 0 pointer in
  (p >=? shm_ptr c) && (p <? shm_ptr c + shm_size c).

(** ** Operations *)

(** The pointer, and the id and offset written to [shm_id] and [shm_offset]. *)
Definition Allocation : Type := option Z * option (Z * Z).

Section manager.
Context {W : Type} `{TokenHelper W, TransferBuffers W}.

(** [chunk->Alloc(size)], and what is told to the caller. *)
Definition chunk_Alloc (size : Z) (c : MemoryChunk) (w : W)
    : outcome (Allocation * MemoryChunk * W) :=
  (do (mem, blocks, w) <- FencedAllocatorWrapper.Alloc (shm_ptr c) size (allocator_ c) w ;;
   Done ((mem, Some (shm_id c, FencedAllocatorWrapper.GetOffset (shm_ptr c) mem)),
         with_blocks c blocks, w))%gpu.

(** The loop of [Alloc] over the chunks. *)
Fixpoint try_chunks (size : Z) (chunks : list MemoryChunk) (w : W)
    : outcome (option Allocation * list MemoryChunk * W) :=
  match chunks with
  | [] => Done (None, [], w)
  | chunk :: chunks =>
      (do (blocks, w) <- FreeUnused (allocator_ chunk) w ;;
       let chunk := with_blocks chunk blocks in
       if GetLargestFreeSize blocks >=? size then
         do (mem, chunk, w) <- chunk_Alloc size chunk w ;;
         Done (Some mem, chunk :: chunks, w)
       else
         do (mem, chunks, w) <- try_chunks size chunks w ;;
         Done (mem, chunk :: chunks, w))%gpu
  end.

Definition Alloc (size : Z) (chunks_ : list MemoryChunk) (w : W)
    : outcome (Allocation * list MemoryChunk * W) :=
  (do (mem, chunks_, w) <- try_chunks size chunks_ w ;;
   match mem with
   | Some mem => Done (mem, chunks_, w)
   | None =>
       let '(id, w) := CreateTransferBuffer size (-1) w in
       if id =? -1 then Done ((None, None), chunks_, w)
       else
         let '(ptr, shm_size, w) := GetTransferBuffer id w in
         do (mem, mc, w) <- chunk_Alloc size (MemoryChunk_new id ptr shm_size) w ;;
         Done (mem, chunks_ ++ [mc], w)
   end)%gpu.

Fixpoint Free (pointer : option Z) (chunks_ : list MemoryChunk) : outcome (list MemoryChunk) :=
  match chunks_ with
  | [] => Done []
  | chunk :: chunks =>
      if IsInChunk pointer chunk then
        (do blocks <- FencedAllocatorWrapper.Free (shm_ptr chunk) pointer (allocator_ chunk) ;;
         Done (with_blocks chunk blocks :: chunks))%gpu
      else (do chunks <- Free pointer chunks ;; Done (chunk :: chunks))%gpu
  end.

Fixpoint FreePendingToken (pointer : option Z) (token : Z) (chunks_ : list MemoryChunk)
    : outcome (list MemoryChunk) :=
  match chunks_ with
  | [] => Done []
  | chunk :: chunks =>
      if IsInChunk pointer chunk then
        (do blocks <- FencedAllocatorWrapper.FreePendingToken (shm_ptr chunk) pointer token
                        (allocator_ chunk) ;;
         Done (with_blocks chunk blocks :: chunks))%gpu
      else (do chunks <- FreePendingToken pointer token chunks ;; Done (chunk :: chunks))%gpu
  end.

Fixpoint FreeUnused (chunks_ : list MemoryChunk) (w : W) : outcome (list MemoryChunk * W) :=
  match chunks_ with
  | [] => Done ([], w)
  | chunk :: chunks =>
      (do (blocks, w) <- FencedAllocator.FreeUnused (allocator_ chunk) w ;;
       if negb (InUse blocks)
       then FreeUnused chunks (DestroyTransferBuffer (shm_id chunk) w)
       else
         do (chunks, w) <- FreeUnused chunks w ;;
         Done (with_blocks chunk blocks :: chunks, w))%gpu
  end.

(** The destructor of the manager deletes the chunks, in order. *)
Fixpoint destructor (chunks_ : list MemoryChunk) (w : W) : outcome W :=
  match chunks_ with
  | [] => Done w
  | chunk :: chunks =>
      (do (_, w) <- FencedAllocator.destructor (allocator_ chunk) w ;; destructor chunks w)%gpu
  end.

End manager.

(** ** What the manager relies on *)

(** [mapped w id ptr size]: the transfer buffer [id] is mapped at [ptr].  Distinct
    buffers are mapped apart, a new buffer gets an id of its own, and nothing but
    [DestroyTransferBuffer] unmaps a buffer. *)
Class MappingLaws (W : Type) `{TokenHelper W, TransferBuffers W}
    (valid : (Z -> Prop) -> W -> Prop) (mapped : W -> Z -> Z -> Z -> Prop) : Prop := {
  mapped_size w i p n : mapped w i p n -> 0 < p /\ 0 < n < 2 ^ 32;
  mapped_apart w i p n j q m : mapped w i p n -> mapped w j q m -> i <> j ->
    p + n <= q \/ q + m <= p;
  WaitForToken_mapped t w w' i p n : WaitForToken t w = Done w' ->
    mapped w i p n -> mapped w' i p n;
  last_token_read_mapped w i p n : mapped w i p n -> mapped (snd (last_token_read w)) i p n;
  CreateTransferBuffer_ok K w size : valid K w ->
    let '(id, w1) := CreateTransferBuffer size (-1) w in
    valid K w1 /\ (forall i p n, mapped w i p n -> mapped w1 i p n) /\
    (id <> -1 ->
       (forall p n, ~ mapped w id p n) /\
       let '(ptr, n, w2) := GetTransferBuffer id w1 in
       valid K w2 /\ (forall i p n, mapped w1 i p n -> mapped w2 i p n) /\ mapped w2 id ptr n);
  DestroyTransferBuffer_ok K w id : valid K w ->
    valid K (DestroyTransferBuffer id w) /\
    forall i p n, i <> id -> mapped w i p n -> mapped (DestroyTransferBuffer id w) i p n;
}.

(** ** Invariant *)

Section invariant.
Context {W : Type} `{ML : MappingLaws W valid mapped} `{TL : !TokenLaws W valid passed}.
Implicit Types c : MemoryChunk.

Definition chunk_ok (K : Z -> Prop) (w : W) c : Prop :=
  ok (shm_size c) (allocator_ c) /\ awaits K (allocator_ c) /\
  mapped w (shm_id c) (shm_ptr c) (shm_size c).

(** The live allocations of a chunk: their addresses and sizes. *)
Definition live_of c : list (Z * Z) :=
  map (fun a => (shm_ptr c + a.1, a.2)) (allocations (allocator_ c)).

Record inv (K : Z -> Prop) (chunks : list MemoryChunk) (w : W) (live : list (Z * Z)) : Prop := {
  inv_valid : valid K w;
  inv_chunks : Forall (chunk_ok K w) chunks;
  inv_ids : NoDup (map shm_id chunks);
  inv_live : flat_map live_of chunks ≡ₚ live;
}.

Definition keeps (w w' : W) : Prop := forall i p n, mapped w i p n -> mapped w' i p n.

(** The token laws also hold of the helpers that keep what [w0] maps. *)
Definition valid_from (w0 : W) (K : Z -> Prop) (w : W) : Prop := valid K w /\ keeps w0 w.

Lemma valid_from_laws w0 : TokenLaws W (valid_from w0) passed.
Proof.
  split.
  - intros K t w [Hv Hk] Ht. destruct (WaitForToken_passes K t w Hv Ht) as (w' & E & Hv' & Hp & Hm).
    exists w'. split_and!; [done| |done|done]. split; [done|].
    intros i p n Hi. eapply WaitForToken_mapped; [done|by apply Hk].
  - intros K w [Hv Hk]. destruct (last_token_read_passed K w Hv) as (Hv' & Hp & Hm).
    split_and!; [|done|done]. split; [done|].
    intros i p n Hi. by apply last_token_read_mapped, Hk.
Qed.

Lemma valid_from_refl w K : valid K w -> valid_from w K w.
Proof. intros Hv. split; [done|]. by intros i p n. Qed.

Lemma chunk_ok_keeps K w w' c : keeps w w' -> chunk_ok K w c -> chunk_ok K w' c.
Proof. intros Hk (? & ? & Hm). split_and!; [done|done|by apply Hk]. Qed.

Lemma chunk_ok_K (K K' : Z -> Prop) w c :
  (forall t, K t -> K' t) -> chunk_ok K w c -> chunk_ok K' w c.
Proof. intros HK (? & Ha & Hm). split_and!; [done| |done]. intros x t Hx. eapply HK, Ha, Hx. Qed.

Definition extra (size : Z) (mem : option Z) : list (Z * Z) :=
  match mem with Some p => [(p, request size)] | None => [] end.

Lemma live_of_perm c bs al :
  allocations bs ≡ₚ al ->
  live_of (with_blocks c bs) ≡ₚ map (fun a => (shm_ptr c + a.1, a.2)) al.
Proof. intros E. unfold live_of. simpl. by rewrite E. Qed.

Lemma chunk_Alloc_ok K w c size :
  valid K w -> chunk_ok K w c -> 0 <= size ->
  exists mem out c' w', chunk_Alloc size c w = Done ((mem, out), c', w') /\
    valid K w' /\ keeps w w' /\ chunk_ok K w' c' /\ shm_id c' = shm_id c /\
    live_of c' ≡ₚ extra size mem ++ live_of c.
Proof.
  intros Hv (Hok & Ha & Hm) Hs. unfold chunk_Alloc, FencedAllocatorWrapper.Alloc.
  destruct (Alloc_ok (TL := valid_from_laws w) K (shm_size c) size (allocator_ c) w)
    as (o & bs' & w' & -> & Hok' & [Hv' Hk] & _ & Hcase); [done|by apply valid_from_refl|done|done|].
  cbn [obind]. eexists _, _, _, w'. split; [done|].
  destruct Hcase as [(-> & Hadv & _)|(Ho1 & Ho2 & mid & Hadv & Htk)].
  - split_and!; [done..| |done|].
    + split_and!; [done|by eapply awaits_advanced|by apply Hk].
    + destruct Hadv as [Hal _]. unfold live_of. simpl. by rewrite Hal.
  - assert (o <> kInvalidOffset) by (destruct Hok, Hok';
      unfold kInvalidOffset, request in *; case_match; zbool; lia).
    unfold FencedAllocatorWrapper.GetPointer. bfalse (o =? kInvalidOffset).
    split_and!; [done..| |done|].
    + split_and!; [done| |by apply Hk]. eapply awaits_taken; [by eapply awaits_advanced|done].
    + destruct Htk as (_ & _ & Hal), Hadv as [Hal' _]. rewrite Hal' in Hal.
      by rewrite (live_of_perm _ _ _ Hal).
Qed.

Lemma chunk_FreeUnused_ok K w c :
  valid K w -> chunk_ok K w c ->
  exists bs w', FencedAllocator.FreeUnused (allocator_ c) w = Done (bs, w') /\
    valid K w' /\ keeps w w' /\ chunk_ok K w' (with_blocks c bs) /\
    live_of (with_blocks c bs) = live_of c.
Proof.
  intros Hv (Hok & Ha & Hm).
  destruct (FreeUnused_ok (TL := valid_from_laws w) K (shm_size c) (allocator_ c) w)
    as (bs & w' & -> & Hok' & [Hv' Hk] & _ & Hadv & _); [done|by apply valid_from_refl|].
  exists bs, w'. split_and!; [done..| |].
  - split_and!; [done|by eapply awaits_advanced|by apply Hk].
  - destruct Hadv as [Hal _]. unfold live_of. simpl. by rewrite Hal.
Qed.

Lemma keeps_trans w1 w2 w3 : keeps w1 w2 -> keeps w2 w3 -> keeps w1 w3.
Proof. intros H1 H2 i p n Hi. by apply H2, H1. Qed.

Lemma Forall_keeps K w w' chunks :
  keeps w w' -> Forall (chunk_ok K w) chunks -> Forall (chunk_ok K w') chunks.
Proof. rewrite !Forall_forall. intros Hk Hc c Hin. by eapply chunk_ok_keeps, Hc. Qed.

Lemma try_chunks_ok K size chunks w :
  valid K w -> Forall (chunk_ok K w) chunks -> 0 <= size ->
  exists mem chunks' w', try_chunks size chunks w = Done (mem, chunks', w') /\
    valid K w' /\ keeps w w' /\ Forall (chunk_ok K w') chunks' /\
    map shm_id chunks' = map shm_id chunks /\
    flat_map live_of chunks'
      ≡ₚ (match mem with Some (p, _) => extra size p | None => [] end) ++ flat_map live_of chunks.
Proof.
  intros Hv Hc Hs. revert w Hv Hc. induction chunks as [|c chunks IH]; intros w Hv Hc.
  { exists None, [], w. split_and!; try done. by intros i p n. }
  apply Forall_cons in Hc as [Hc1 Hc]. cbn [try_chunks].
  destruct (chunk_FreeUnused_ok K w c Hv Hc1) as (bs & w1 & -> & Hv1 & Hk1 & Hc1' & Hl1).
  cbn [obind]. pose proof (Forall_keeps _ _ _ _ Hk1 Hc) as Hcw1. destruct (_ >=? size).
  - destruct (chunk_Alloc_ok K w1 (with_blocks c bs) size Hv1 Hc1' Hs)
      as (mem & out & c' & w2 & -> & Hv2 & Hk2 & Hc2 & Hid & Hl2).
    cbn [obind]. eexists _, _, w2. split; [done|].
    split_and!; [done|by eapply keeps_trans| |simpl; by rewrite Hid|].
    + constructor; [done|]. by eapply Forall_keeps.
    + simpl. by rewrite Hl2, Hl1, (assoc_L (++)).
  - destruct (IH w1 Hv1 Hcw1) as (mem & chunks' & w2 & -> & Hv2 & Hk2 & Hc2 & Hid & Hl2).
    cbn [obind]. eexists _, _, w2. split; [done|].
    split_and!; [done|by eapply keeps_trans| |simpl; by rewrite Hid|].
    + constructor; [by eapply chunk_ok_keeps|done].
    + simpl. rewrite Hl1, Hl2, !(assoc_L (++)). f_equiv. apply Permutation.Permutation_app_comm.
Qed.

Lemma Alloc_inv K size chunks w live :
  inv K chunks w live -> 0 <= size ->
  exists mem out chunks' w', Alloc size chunks w = Done ((mem, out), chunks', w') /\
    keeps w w' /\ inv K chunks' w' (extra size mem ++ live).
Proof.
  intros [Hv Hc Hnd Hl] Hs. unfold Alloc.
  destruct (try_chunks_ok K size chunks w Hv Hc Hs)
    as (mem & chunks1 & w1 & -> & Hv1 & Hk1 & Hc1 & Hid1 & Hl1).
  cbn [obind]. rewrite <- Hid1 in Hnd. destruct mem as [[mem out]|].
  { eexists mem, out, _, w1. split; [done|]. split; [done|]. split; [done..|]. by rewrite Hl1, Hl. }
  simpl in Hl1. pose proof (CreateTransferBuffer_ok K w1 size Hv1) as Hcr.
  destruct (CreateTransferBuffer size (-1) w1) as [id w2]. destruct Hcr as (Hv2 & Hk2 & Hcr).
  destruct (id =? -1) eqn:Eid; zbool.
  { eexists None, None, _, w2. split; [done|]. split; [by eapply keeps_trans|].
    split; [done|by eapply Forall_keeps|done|]. simpl. by rewrite Hl1, Hl. }
  destruct (Hcr Eid) as [Hfresh Hget]. destruct (GetTransferBuffer id w2) as [[p n] w3].
  destruct Hget as (Hv3 & Hk3 & Hm3). destruct (mapped_size _ _ _ _ Hm3) as [_ Hn].
  assert (chunk_ok K w3 (MemoryChunk_new id p n)) as Hc3.
  { split_and!; [by apply new_ok| |done]. intros x t. simpl. by destruct (covers _ _). }
  destruct (chunk_Alloc_ok K w3 _ size Hv3 Hc3 Hs)
    as (mem & out & c' & w4 & -> & Hv4 & Hk4 & Hc4 & Hid4 & Hl4).
  assert (keeps w1 w4) as Hk14 by (eauto using keeps_trans).
  cbn [obind]. eexists mem, out, _, w4. split; [done|]. split; [by eapply keeps_trans|]. split.
  - done.
  - apply Forall_app. split; [by eapply Forall_keeps|constructor; [done|by apply Forall_nil_2]].
  - rewrite map_app. simpl. rewrite Hid4. simpl. apply NoDup_app. split_and!; [done| |by repeat constructor; set_solver].
    intros i Hi ->%list_elem_of_singleton.
    apply list_elem_of_fmap in Hi as (c & -> & Hin).
    rewrite Forall_forall in Hc1. destruct (Hc1 c Hin) as (_ & _ & Hmc). by eapply Hfresh.
  - rewrite flat_map_app. simpl. rewrite Hl4, app_nil_r, Hl1, Hl. simpl.
    unfold live_of. simpl. rewrite app_nil_r. apply Permutation.Permutation_app_comm.
Qed.

(** *** Finding the chunk of a pointer *)

Lemma IsInChunk_own K w c o k :
  chunk_ok K w c -> (o, k) ∈ allocations (allocator_ c) ->
  IsInChunk (Some (shm_ptr c + o)) c = true /\
  FencedAllocatorWrapper.GetOffset (shm_ptr c) (Some (shm_ptr c + o)) = o.
Proof.
  intros (Hok & _ & Hm) Ha. destruct (mapped_size _ _ _ _ Hm) as [_ Hn].
  pose proof (allocations_bounds _ _ _ _ (ok_tiled _ _ Hok) Ha) as Hb. simpl in Hb.
  unfold IsInChunk, FencedAllocatorWrapper.GetOffset. simpl. split; [lia|].
  rewrite Z.add_simpl_l. apply u32_id. unfold is_u32. lia.
Qed.

Lemma IsInChunk_other K w c d o k :
  chunk_ok K w c -> chunk_ok K w d -> shm_id d <> shm_id c ->
  (o, k) ∈ allocations (allocator_ c) -> IsInChunk (Some (shm_ptr c + o)) d = false.
Proof.
  intros (Hok & _ & Hm) (_ & _ & Hmd) Hne Ha.
  pose proof (allocations_bounds _ _ _ _ (ok_tiled _ _ Hok) Ha) as Hb. simpl in Hb.
  destruct (mapped_apart _ _ _ _ _ _ _ Hm Hmd) as [?|?]; [done|..];
    unfold IsInChunk; simpl; lia.
Qed.

Lemma live_chunk p k live' chunks :
  flat_map live_of chunks ≡ₚ (p, k) :: live' ->
  exists l c r o, chunks = l ++ c :: r /\ p = shm_ptr c + o /\
    (o, k) ∈ allocations (allocator_ c).
Proof.
  intros E. assert ((p, k) ∈ flat_map live_of chunks) as Hin by (rewrite E; apply list_elem_of_here).
  apply list_elem_of_In, in_flat_map in Hin as (c & Hc%list_elem_of_In & Hl%list_elem_of_In).
  apply list_elem_of_split in Hc as (l & r & ->).
  apply list_elem_of_fmap in Hl as ([o k'] & [= -> ->] & Ha). by exists l, c, r, o.
Qed.

(** A chunk from which an allocation is freed. *)
Lemma inv_freed K l c r w p k live' cell bs o :
  inv K (l ++ c :: r) w ((p, k) :: live') -> p = shm_ptr c + o ->
  (forall t, cell = Pending t -> K t) -> ok (shm_size c) bs -> freed cell o k (allocator_ c) bs ->
  inv K (l ++ with_blocks c bs :: r) w live'.
Proof.
  intros [Hv Hc Hnd Hl] -> Hcell Hok Hf. split; [done| | |].
  - apply Forall_app in Hc as [Hc1 [Hc2 Hc3]%Forall_cons]. apply Forall_app. split; [done|].
    constructor; [|done]. destruct Hc2 as (_ & Ha & Hm). split_and!; [done| |done].
    by eapply (awaits_freed K cell).
  - revert Hnd. by rewrite !map_app.
  - rewrite flat_map_app in *. simpl in *. destruct Hf as [_ Hal].
    apply (Permutation.Permutation_cons_inv (a := (shm_ptr c + o, k))). rewrite <- Hl.
    rewrite (Permutation.Permutation_middle _ _ (_, _)). f_equiv. rewrite app_comm_cons. f_equiv.
    unfold live_of. simpl. by rewrite Hal.
Qed.

Lemma Free_inv K chunks w p k live' :
  inv K chunks w ((p, k) :: live') ->
  exists chunks', Free (Some p) chunks = Done chunks' /\ inv K chunks' w live'.
Proof.
  intros Hinv. destruct (live_chunk _ _ _ _ (inv_live _ _ _ _ Hinv))
    as (l & c & r & o & -> & Hp & Ha).
  pose proof Hinv as [Hv Hc Hnd Hl]. rewrite Forall_app, Forall_cons in Hc.
  destruct Hc as (Hcl & Hcc & Hcr). destruct (IsInChunk_own _ _ _ _ _ Hcc Ha) as [Hin Hoff].
  destruct (Free_freed (shm_size c) (allocator_ c) o k) as (bs & E & Hok & Hf);
    [apply Hcc|done|].
  exists (l ++ with_blocks c bs :: r). split; [|by eapply (inv_freed _ _ _ _ _ _ _ _ Avail)].
  clear Hinv Hl. rewrite map_app in Hnd. subst p. induction l as [|d l IH]; simpl.
  - rewrite Hin. unfold FencedAllocatorWrapper.Free. by rewrite Hoff, E.
  - apply Forall_cons in Hcl as [Hcd Hcl]. simpl in Hnd. apply NoDup_cons in Hnd as [Hd Hnd].
    rewrite (IsInChunk_other _ _ c d o k) by (done || set_solver). by rewrite IH.
Qed.

Lemma FreePendingToken_inv K chunks w p k t live' :
  inv K chunks w ((p, k) :: live') -> K t ->
  exists chunks', FreePendingToken (Some p) t chunks = Done chunks' /\ inv K chunks' w live'.
Proof.
  intros Hinv Ht. destruct (live_chunk _ _ _ _ (inv_live _ _ _ _ Hinv))
    as (l & c & r & o & -> & Hp & Ha).
  pose proof Hinv as [Hv Hc Hnd Hl]. rewrite Forall_app, Forall_cons in Hc.
  destruct Hc as (Hcl & Hcc & Hcr). destruct (IsInChunk_own _ _ _ _ _ Hcc Ha) as [Hin Hoff].
  destruct (FreePendingToken_freed (shm_size c) (allocator_ c) o k t) as (bs & E & Hok & Hf);
    [apply Hcc|done|].
  exists (l ++ with_blocks c bs :: r).
  split; [|eapply (inv_freed _ _ _ _ _ _ _ _ (Pending t)); [done|done|by intros ? [= <-]|done..]].
  clear Hinv Hl. rewrite map_app in Hnd. subst p. induction l as [|d l IH]; simpl.
  - rewrite Hin. unfold FencedAllocatorWrapper.FreePendingToken. by rewrite Hoff, E.
  - apply Forall_cons in Hcl as [Hcd Hcl]. simpl in Hnd. apply NoDup_cons in Hnd as [Hd Hnd].
    rewrite (IsInChunk_other _ _ c d o k) by (done || set_solver). by rewrite IH.
Qed.

(** *** [FreeUnused] *)

Lemma not_InUse_allocations bs : InUse bs = false -> allocations bs = [].
Proof.
  destruct bs as [|b [|? ?]]; simpl; try done. intros Hb%negb_false_iff%bool_decide_eq_true.
  by rewrite Hb.
Qed.

Lemma manager_FreeUnused_ok K chunks w :
  valid K w -> Forall (chunk_ok K w) chunks -> NoDup (map shm_id chunks) ->
  exists chunks' w', FreeUnused chunks w = Done (chunks', w') /\ valid K w' /\
    Forall (chunk_ok K w') chunks' /\ NoDup (map shm_id chunks') /\
    (forall i, i ∈ map shm_id chunks' -> i ∈ map shm_id chunks) /\
    (forall i p n, i ∉ map shm_id chunks -> mapped w i p n -> mapped w' i p n) /\
    flat_map live_of chunks' ≡ₚ flat_map live_of chunks.
Proof.
  revert w. induction chunks as [|c chunks IH]; intros w Hv Hc Hnd.
  { exists [], w. split_and!; try done. }
  apply Forall_cons in Hc as [Hc1 Hc]. simpl in Hnd. apply NoDup_cons in Hnd as [Hi Hnd].
  cbn [FreeUnused]. destruct (chunk_FreeUnused_ok K w c Hv Hc1) as (bs & w1 & -> & Hv1 & Hk1 & Hc1' & Hl1).
  cbn [obind]. pose proof (Forall_keeps _ _ _ _ Hk1 Hc) as Hcw1.
  destruct (InUse bs) eqn:Eu; cbn [negb].
  - destruct (IH w1 Hv1 Hcw1 Hnd) as (chunks' & w2 & -> & Hv2 & Hc2 & Hnd2 & Hsub & Hkeep & Hl2).
    cbn [obind]. eexists _, w2. split; [done|]. split_and!; [done| | | | |].
    + constructor; [|done]. destruct Hc1' as (? & ? & Hm). split_and!; [done..|by apply Hkeep].
    + simpl. constructor; [|done]. by intros ?%Hsub.
    + simpl. set_solver.
    + simpl. intros i p n Hni Hm. apply Hkeep; [set_solver|by apply Hk1].
    + simpl. by rewrite Hl2, Hl1.
  - destruct (DestroyTransferBuffer_ok K w1 (shm_id c) Hv1) as [Hv2 Hk2].
    destruct (IH (DestroyTransferBuffer (shm_id c) w1) Hv2) as
      (chunks' & w2 & E & Hv3 & Hc2 & Hnd2 & Hsub & Hkeep & Hl2); [|done|].
    { rewrite Forall_forall in *. intros d Hd. destruct (Hcw1 d Hd) as (? & ? & Hm).
      split_and!; [done..|]. apply Hk2; [|done]. intros E. apply Hi. rewrite <- E.
      by apply list_elem_of_fmap_2. }
    exists chunks', w2. split_and!; [done..| | |].
    + simpl. set_solver.
    + simpl. intros i p n Hni Hm. apply Hkeep; [set_solver|].
      apply Hk2; [set_solver|by apply Hk1].
    + simpl. rewrite Hl2, <- Hl1. unfold live_of at 2. simpl.
      by rewrite (not_InUse_allocations _ Eu).
Qed.

(** *** Live allocations are apart *)

Lemma live_of_bounds K w c a :
  chunk_ok K w c -> a ∈ live_of c ->
  shm_ptr c <= a.1 /\ 0 < a.2 /\ a.1 + a.2 <= shm_ptr c + shm_size c.
Proof.
  intros (Hok & _ & _) Ha. apply list_elem_of_fmap in Ha as ([o k] & -> & Ha).
  pose proof (allocations_bounds _ _ _ _ (ok_tiled _ _ Hok) Ha). simpl in *. lia.
Qed.

Lemma live_of_apart K w c : chunk_ok K w c -> apart_ranges (live_of c).
Proof.
  intros (Hok & _ & _). destruct (allocations_apart _ _ _ (ok_tiled _ _ Hok)) as [Hnd Hap].
  split.
  - apply NoDup_fmap_2_strong; [|done]. intros [o k] [o' k'] _ _ [=]. f_equal; lia.
  - intros a b Ha Hb Hne. apply list_elem_of_fmap in Ha as ([o k] & -> & Ha), Hb as ([o' k'] & -> & Hb).
    simpl. destruct (Hap _ _ Ha Hb) as [?|?]; simpl in *; [congruence|lia|lia].
Qed.

Lemma chunks_apart K w chunks :
  Forall (chunk_ok K w) chunks -> NoDup (map shm_id chunks) ->
  apart_ranges (flat_map live_of chunks).
Proof.
  induction chunks as [|c chunks IH]; intros Hc Hnd; simpl.
  { split; [apply NoDup_nil_2|]. by intros ? ? ?%not_elem_of_nil. }
  apply Forall_cons in Hc as [Hc1 Hc]. simpl in Hnd. apply NoDup_cons in Hnd as [Hi Hnd].
  destruct (IH Hc Hnd) as [Hnd2 Hap2]. destruct (live_of_apart _ _ _ Hc1) as [Hnd1 Hap1].
  assert (forall a b, a ∈ live_of c -> b ∈ flat_map live_of chunks ->
    a.1 + a.2 <= b.1 \/ b.1 + b.2 <= a.1) as Hcross.
  { intros a b Ha Hb. apply list_elem_of_In, in_flat_map in Hb as (d & Hd%list_elem_of_In & Hb%list_elem_of_In).
    pose proof (proj1 (Forall_forall _ _) Hc d Hd) as Hcd.
    pose proof (live_of_bounds _ _ _ _ Hc1 Ha). pose proof (live_of_bounds _ _ _ _ Hcd Hb).
    destruct Hc1 as (_ & _ & Hm1), Hcd as (_ & _ & Hm2).
    destruct (mapped_apart _ _ _ _ _ _ _ Hm1 Hm2); [|lia|lia].
    intros E. apply Hi. rewrite E. by apply list_elem_of_fmap_2. }
  split.
  - apply NoDup_app. split_and!; [done| |done]. intros a Ha Hb.
    pose proof (Hcross _ _ Ha Hb). pose proof (live_of_bounds _ _ _ _ Hc1 Ha). lia.
  - intros a b [Ha|Ha]%elem_of_app [Hb|Hb]%elem_of_app Hne; auto.
    destruct (Hcross _ _ Hb Ha); auto.
Qed.

(** ** Clients *)

(** [mapped_reach K chunks w live]: what a client of the manager can come to, [live]
    being the memory it was given and has not freed.  The helper and the command
    buffer are used by others as well. *)
Inductive mapped_reach : (Z -> Prop) -> list MemoryChunk -> W -> list (Z * Z) -> Prop :=
| mapped_new K w : valid K w -> mapped_reach K [] w []
| mapped_world K K' chunks w w' live :
    mapped_reach K chunks w live -> valid K' w' -> (forall t, K t -> K' t) -> keeps w w' ->
    mapped_reach K' chunks w' live
| mapped_Alloc K chunks w live size mem out chunks' w' :
    mapped_reach K chunks w live -> 0 <= size ->
    Alloc size chunks w = Done ((mem, out), chunks', w') ->
    mapped_reach K chunks' w' (extra size mem ++ live)
| mapped_Free K chunks w live p k live' chunks' :
    mapped_reach K chunks w live -> live ≡ₚ (p, k) :: live' ->
    Free (Some p) chunks = Done chunks' -> mapped_reach K chunks' w live'
| mapped_FreePendingToken K chunks w live p k t live' chunks' :
    mapped_reach K chunks w live -> live ≡ₚ (p, k) :: live' -> K t ->
    FreePendingToken (Some p) t chunks = Done chunks' -> mapped_reach K chunks' w live'
| mapped_FreeUnused K chunks w live chunks' w' :
    mapped_reach K chunks w live -> FreeUnused chunks w = Done (chunks', w') ->
    mapped_reach K chunks' w' live.

Lemma inv_perm K chunks w live live' : live ≡ₚ live' -> inv K chunks w live -> inv K chunks w live'.
Proof. intros E [? ? ? Hl]. split; [done..|]. by rewrite Hl. Qed.

Lemma mapped_reach_inv K chunks w live : mapped_reach K chunks w live -> inv K chunks w live.
Proof.
  induction 1 as
    [K w Hv|K K' chunks w w' live Hr IH Hv' HK Hk|K chunks w live size mem out chunks' w' Hr IH Hs E
    |K chunks w live p k live' chunks' Hr IH Hp E|K chunks w live p k t live' chunks' Hr IH Hp Ht E
    |K chunks w live chunks' w' Hr IH E].
  - split; [done|by apply Forall_nil_2|apply NoDup_nil_2|done].
  - destruct IH as [Hv Hc Hnd Hl]. split; [done| |done|done].
    rewrite Forall_forall in *. intros c Hin. by eapply chunk_ok_K, chunk_ok_keeps, Hc.
  - destruct (Alloc_inv _ _ _ _ _ IH Hs) as (mem1 & out1 & chunks1 & w1 & E1 & _ & Hinv).
    rewrite E1 in E. by simplify_eq.
  - destruct (Free_inv _ _ _ _ _ _ (inv_perm _ _ _ _ _ Hp IH)) as (chunks1 & E1 & Hinv).
    rewrite E1 in E. by simplify_eq.
  - destruct (FreePendingToken_inv _ _ _ _ _ _ _ (inv_perm _ _ _ _ _ Hp IH) Ht)
      as (chunks1 & E1 & Hinv). rewrite E1 in E. by simplify_eq.
  - destruct IH as [Hv Hc Hnd Hl].
    destruct (manager_FreeUnused_ok K chunks w Hv Hc Hnd) as (chunks1 & w1 & E1 & Hv1 & Hc1 & Hnd1 & _ & _ & Hl1).
    rewrite E1 in E. simplify_eq. split; [done..|]. by rewrite Hl1.
Qed.

(** C33: whatever the clients of the manager do, the blocks they hold have no byte
    in common, each lies inside a chunk whose transfer buffer is still mapped, and
    the next [Alloc], the [Free] of any of them and [FreeUnused] return. *)
Theorem mapped_memory_reachable K chunks w live :
  mapped_reach K chunks w live ->
  apart_ranges live /\
  (forall a, a ∈ live -> exists c, c ∈ chunks /\ mapped w (shm_id c) (shm_ptr c) (shm_size c) /\
     shm_ptr c <= a.1 /\ a.1 + a.2 <= shm_ptr c + shm_size c) /\
  (forall size, 0 <= size -> exists r, Alloc size chunks w = Done r) /\
  (forall a, a ∈ live -> exists chunks', Free (Some a.1) chunks = Done chunks') /\
  exists r, FreeUnused chunks w = Done r.
Proof.
  intros Hr%mapped_reach_inv. pose proof Hr as [Hv Hc Hnd Hl]. split_and!.
  - eapply apart_ranges_perm; [done|]. by eapply chunks_apart.
  - intros [p k] Ha. apply list_elem_of_split in Ha as (l1 & l2 & ->).
    rewrite <- Permutation.Permutation_middle in Hl.
    destruct (live_chunk _ _ _ _ Hl) as (l & c & r & o & -> & -> & Ha).
    exists c. split; [set_solver|]. rewrite Forall_app, Forall_cons in Hc.
    destruct Hc as (_ & Hcc & _).
    pose proof (allocations_bounds _ _ _ _ (ok_tiled _ _ (proj1 Hcc)) Ha).
    destruct Hcc as (_ & _ & Hm). split; [done|]. simpl in *. lia.
  - intros size Hs. destruct (Alloc_inv _ _ _ _ _ Hr Hs) as (? & ? & ? & ? & -> & _). eauto.
  - intros [p k] Ha. apply list_elem_of_split in Ha as (l1 & l2 & ->).
    destruct (Free_inv K chunks w p k (l1 ++ l2)) as (chunks' & E & _); [|by eauto].
    eapply inv_perm; [|done]. by rewrite <- Permutation.Permutation_middle.
  - destruct (manager_FreeUnused_ok K chunks w Hv Hc Hnd) as (? & ? & -> & _). eauto.
Qed.

End invariant.

(** ** An allocation of no bytes

    [FencedAllocator] takes one byte for it, while the manager looks for a chunk with
    at least zero: with a full chunk first, [Alloc] answers [NULL] and a [shm_offset]
    that is no offset, without trying the next chunks or making a new one. *)
Lemma Alloc_zero_of_full_chunk {W} `{TokenHelper W, TransferBuffers W} id ptr n chunks w :
  0 < n ->
  exists w', Alloc 0 (mkChunk id ptr n [mkBlock IN_USE 0 n 0] :: chunks) w
    = Done ((None, Some (id, kInvalidOffset)),
            mkChunk id ptr n [mkBlock IN_USE 0 n 0] :: chunks, w').
Proof.
  intros Hn. unfold Alloc. cbn [try_chunks allocator_].
  unfold FencedAllocator.FreeUnused. destruct (last_token_read w) as [t w'].
  exists w'. done.
Qed.

(** ** Witness

    A service that maps the buffer [i] at [2 ^ 33 * i]; its state is the list of
    the sizes of the buffers, and the last token. *)

Definition example_service : Type := Z * list Z.

#[local] Instance example_tokens : TokenHelper example_service := {|
  WaitForToken t w := Done (Z.max t (fst w), snd w);
  last_token_read w := (fst w, w);
|}.

#[local] Instance example_buffers : TransferBuffers example_service := {|
  CreateTransferBuffer size _ w :=
    if (0 <? size) && (size <? 2 ^ 32)
    then (zlen (snd w) + 1, (fst w, snd w ++ [size])) else (-1, w);
  GetTransferBuffer id w := (2 ^ 33 * id, default 0 (zget (snd w) (id - 1)), w);
  DestroyTransferBuffer _ w := w;
|}.

Definition example_mapped (w : example_service) (i p n : Z) : Prop :=
  zget (snd w) (i - 1) = Some n /\ p = 2 ^ 33 * i /\ 0 < n < 2 ^ 32.

#[local] Instance example_TokenLaws :
  TokenLaws example_service (fun _ _ => True) (fun w t => t <= fst w).
Proof.
  split; simpl.
  - intros K t w _ _. eexists. split; [done|]. simpl. split_and!; [done|lia|lia].
  - auto with lia.
Qed.

Lemma zget_app_last {A} (l : list A) (x : A) : zget (l ++ [x]) (zlen l) = Some x.
Proof.
  unfold zget, zlen. btrue (0 <=? Z.of_nat (length l)).
  rewrite Nat2Z.id. by apply list_lookup_middle.
Qed.

Lemma zget_app_l {A} (l k : list A) i x : zget l i = Some x -> zget (l ++ k) i = Some x.
Proof. unfold zget. case_match; [|done]. by apply lookup_app_l_Some. Qed.

#[local] Instance example_MappingLaws :
  MappingLaws example_service (fun _ _ => True) example_mapped.
Proof.
  split; unfold example_mapped; simpl.
  - intros w i p n (Hi%zget_range & -> & Hn). lia.
  - intros w i p n j q m (_ & -> & Hn) (_ & -> & Hm) Hne. lia.
  - intros t w w' i p n [= <-] Hm. done.
  - done.
  - intros K w size _. destruct (_ && _) eqn:E; simpl; [|by split_and!]. zbool.
    split; [done|]. split.
    { intros i p n (Hi & Hr). split; [by apply zget_app_l|done]. }
    intros _. split.
    + intros p n (Hi%zget_range & _). lia.
    + rewrite Z.add_simpl_r, zget_app_last. by split_and!.
  - done.
Qed.

Lemma mapped_memory_reachable_witness :
  exists c, mapped_reach (mapped := example_mapped) (valid := fun _ _ => True)
      (fun _ => False) [c] (0, [64]) [(2 ^ 33, 40)] /\
    apart_ranges [(2 ^ 33, 40)] /\
    exists r, FreeUnused [c] (0, [64]) = Done r.
Proof.
  assert (mapped_reach (mapped := example_mapped) (valid := fun _ _ => True) (fun _ => False)
    [mkChunk 1 (2 ^ 33) 64 [mkBlock IN_USE 0 40 0; mkBlock FREE 40 24 0]] (0, [64])
    [(2 ^ 33, 40)]) as Hr.
  { refine (mapped_Alloc (mapped := example_mapped) (fun _ => False)
      [mkChunk 1 (2 ^ 33) 64 [mkBlock FREE 0 64 0]] (0, [64]) [] 40 (Some (2 ^ 33)) (Some (1, 0))
      _ _ _ _ _); [|lia|by vm_compute].
    refine (mapped_Free (mapped := example_mapped) (fun _ => False)
      [mkChunk 1 (2 ^ 33) 64 [mkBlock IN_USE 0 64 0]] (0, [64]) [(2 ^ 33, 64)] (2 ^ 33) 64 [] _
      _ _ _); [|done|by vm_compute].
    refine (mapped_Alloc (mapped := example_mapped) (fun _ => False)
      [] (0, []) [] 64 (Some (2 ^ 33)) (Some (1, 0)) _ _ _ _ _); [|lia|by vm_compute].
    by constructor. }
  eexists. split; [exact Hr|].
  destruct (mapped_memory_reachable _ _ _ _ Hr) as (Ha & _ & _ & _ & Hf).
  split; [exact Ha|exact Hf].
Defined.
