(* ===== verification/IdAllocator.v ===== *)
(** * Resource ids

    [gpu/command_buffer/common/id_allocator.{h,cc}], the two allocators of resource ids
    behind one interface. *)

From Stdlib Require Import ZArith Lia ZifyBool Bool.
From stdpp Require Import base numbers option gmap sets list sorting.
From S2P Require Import Prelude.
Local Open Scope Z_scope.

Definition kInvalidResource : Z := 0.

(** ** The interface

    [known s id]: the id may be in the hands of a client.  An allocator with
    [room] answers a valid id that no client has. *)
Class IdAllocatorInterface (A : Type) := {
  AllocateID : A -> Z * A;
  AllocateIDAtOrAbove : Z -> A -> Z * A;
  MarkAsUsed : Z -> A -> bool * A;
  FreeID : Z -> A -> A;
  InUse : Z -> A -> bool;
}.

Class IdAllocatorLaws (A : Type) `{IdAllocatorInterface A} (inv : A -> Prop)
    (known : A -> Z -> Prop) (room : Z -> A -> Prop) : Prop := {
  AllocateID_fresh s : inv s -> room 0 s ->
    let '(id, s') := AllocateID s in
    inv s' /\ 0 < id < 2 ^ 32 /\ ~ known s id /\
    forall j, j = id \/ known s j -> known s' j;
  AllocateIDAtOrAbove_fresh d s : is_u32 d -> inv s -> room d s ->
    let '(id, s') := AllocateIDAtOrAbove d s in
    inv s' /\ 0 < id < 2 ^ 32 /\ ~ known s id /\
    forall j, j = id \/ known s j -> known s' j;
}.

(** ** [IdAllocator] *)

Module Reused.

Record IdAllocator := mkIdAllocator { used_ids_ : gset Z; free_ids_ : gset Z }.

Definition new : IdAllocator := mkIdAllocator ∅ ∅.

Definition LastUsedId (s : IdAllocator) : Z := default 0 (set_rbegin (used_ids_ s)).

Fixpoint FindFirstUnusedId_loop (id : Z) (used : list Z) : Z :=
  match used with
  | [] => id
  | it :: used => if negb (it =? id) then id else FindFirstUnusedId_loop (u32 (id + 1)) used
  end.

Definition FindFirstUnusedId (s : IdAllocator) : Z :=
  FindFirstUnusedId_loop 1 (set_seq (used_ids_ s)).

Definition MarkAsUsed (id : Z) (s : IdAllocator) : bool * IdAllocator :=
  (bool_decide (id ∉ used_ids_ s),
   mkIdAllocator ({[id]} ∪ used_ids_ s) (free_ids_ s ∖ {[id]})).

(** The id after the last one, or the first unused id when that wraps around. *)
Definition next_id (s : IdAllocator) : Z :=
  let id := u32 (LastUsedId s + 1) in
  if id =? 0 then FindFirstUnusedId s else id.

Definition AllocateID (s : IdAllocator) : Z * IdAllocator :=
  let id := match set_begin (free_ids_ s) with
            | Some id => id
            | None => next_id s
            end in
  (id, snd (MarkAsUsed id s)).

Definition AllocateIDAtOrAbove (desired_id : Z) (s : IdAllocator) : Z * IdAllocator :=
  let id := match set_lower_bound desired_id (free_ids_ s) with
            | Some id => id
            | None => if LastUsedId s <? desired_id then desired_id else next_id s
            end in
  (id, snd (MarkAsUsed id s)).

Definition FreeID (id : Z) (s : IdAllocator) : IdAllocator :=
  if negb (id =? 0)
  then mkIdAllocator (used_ids_ s ∖ {[id]}) ({[id]} ∪ free_ids_ s) else s.

Definition InUse (id : Z) (s : IdAllocator) : bool :=
  (id =? kInvalidResource) || bool_decide (id ∈ used_ids_ s).

End Reused.

(** ** [NonReusedIdAllocator] *)

Module NonReused.

(** The allocator is [last_id_]. *)
Definition new : Z := 0.

Definition AllocateID (last_id : Z) : Z * Z :=
  let last_id := u32 (last_id + 1) in (last_id, last_id).

Definition AllocateIDAtOrAbove (desired_id last_id : Z) : Z * Z :=
  let last_id := if desired_id >? last_id then desired_id else last_id in
  let last_id := u32 (last_id + 1) in (last_id, last_id).

Definition MarkAsUsed (id last_id : Z) : bool * Z := (false, last_id).
Definition FreeID (id last_id : Z) : Z := last_id.
Definition InUse (id last_id : Z) : bool := false.

End NonReused.

#[export] Instance Reused_interface : IdAllocatorInterface Reused.IdAllocator := {|
  AllocateID := Reused.AllocateID;
  AllocateIDAtOrAbove := Reused.AllocateIDAtOrAbove;
  MarkAsUsed := Reused.MarkAsUsed;
  FreeID := Reused.FreeID;
  InUse := Reused.InUse;
|}.

#[local] Instance NonReused_interface : IdAllocatorInterface Z := {|
  AllocateID := NonReused.AllocateID;
  AllocateIDAtOrAbove := NonReused.AllocateIDAtOrAbove;
  MarkAsUsed := NonReused.MarkAsUsed;
  FreeID := NonReused.FreeID;
  InUse := NonReused.InUse;
|}.

(** ** Lemmas *)

Lemma FindFirstUnusedId_loop_spec id used :
  StronglySorted Z.le used -> NoDup used -> (forall y, y ∈ used -> id <= y) ->
  0 <= id -> id + zlen used < 2 ^ 32 ->
  id <= Reused.FindFirstUnusedId_loop id used <= id + zlen used /\
  Reused.FindFirstUnusedId_loop id used ∉ used.
Proof.
  revert id. induction used as [|x used IH]; intros id Hs Hnd Hle Hid Hlen; simpl.
  { unfold zlen. simpl. split; [lia|set_solver]. }
  rewrite zlen_cons in Hlen. pose proof (zlen_nonneg used).
  inversion Hs as [|? ? Hs' Hall]; subst. apply NoDup_cons in Hnd as [Hx Hnd].
  assert (id <= x) by (apply Hle; set_solver). rewrite zlen_cons.
  destruct (x =? id) eqn:E; zbool; simpl.
  - subst x. rewrite u32_id by (unfold is_u32; lia).
    destruct (IH (id + 1)) as [Hr Hn]; [done|done| |lia|lia|].
    + intros y Hy. pose proof (proj1 (Forall_forall _ _) Hall y Hy) as Hiy.
      assert (y <> id) by congruence. simpl in Hiy. lia.
    + split; [lia|]. intros [E|?]%elem_of_cons; [lia|done].
  - split; [lia|]. intros [E1|Hin]%elem_of_cons; [done|].
    pose proof (proj1 (Forall_forall _ _) Hall id Hin) as Hiy. simpl in Hiy. lia.
Qed.

Section reused.
Import Reused.
Implicit Types s : IdAllocator.

(** Ids are valid, and no id is both used and free. *)
Record inv s : Prop := {
  inv_used x : x ∈ used_ids_ s -> 0 < x < 2 ^ 32;
  inv_free x : x ∈ free_ids_ s -> 0 < x < 2 ^ 32;
  inv_disjoint : used_ids_ s ## free_ids_ s;
}.

(** Some id is not in use. *)
Definition room s : Prop := Z.of_nat (size (used_ids_ s)) < 2 ^ 32 - 1.

Lemma zlen_set_seq (X : gset Z) : zlen (set_seq X) = Z.of_nat (size X).
Proof.
  unfold zlen, set_seq, size, set_size. simpl. f_equal.
  apply Permutation_length. by rewrite merge_sort_Permutation.
Qed.

Lemma LastUsedId_spec s : inv s ->
  0 <= LastUsedId s < 2 ^ 32 /\ forall y, y ∈ used_ids_ s -> y <= LastUsedId s.
Proof.
  intros [Hu _ _]. unfold LastUsedId. destruct (set_rbegin _) as [x|] eqn:E; simpl.
  - apply set_rbegin_Some in E as [Hx Hy]. specialize (Hu x Hx). split; [lia|done].
  - apply set_rbegin_None in E. rewrite E. split; [lia|set_solver].
Qed.

Lemma next_id_unused s : inv s -> room s ->
  0 < next_id s < 2 ^ 32 /\ next_id s ∉ used_ids_ s /\
  (LastUsedId s < 2 ^ 32 - 1 -> next_id s = LastUsedId s + 1).
Proof.
  intros Hi Hr. destruct (LastUsedId_spec s Hi) as [HL Hmax]. unfold next_id.
  destruct (Z.eq_dec (LastUsedId s) (2 ^ 32 - 1)) as [E|E].
  - rewrite E. replace (u32 (2 ^ 32 - 1 + 1)) with 0 by done. simpl.
    destruct (FindFirstUnusedId_loop_spec 1 (set_seq (used_ids_ s))) as [Hr1 Hr2].
    + apply set_seq_sorted.
    + apply set_seq_NoDup.
    + intros y Hy%elem_of_set_seq. destruct Hi as [Hu _ _]. specialize (Hu y Hy). lia.
    + lia.
    + rewrite zlen_set_seq. unfold room in Hr. lia.
    + rewrite elem_of_set_seq in Hr2. rewrite zlen_set_seq in Hr1. unfold room in Hr.
      unfold FindFirstUnusedId. split_and!; [lia|lia|done|lia].
  - rewrite u32_id by (unfold is_u32; lia). bfalse (LastUsedId s + 1 =? 0).
    split_and!; [lia|lia| |done]. intros Hin%Hmax. lia.
Qed.

Lemma MarkAsUsed_inv id s :
  inv s -> 0 < id < 2 ^ 32 -> inv (snd (MarkAsUsed id s)).
Proof. intros [Hu Hf Hd] Hid. split; simpl; set_solver. Qed.

Lemma FreeID_inv id s : inv s -> is_u32 id -> inv (FreeID id s).
Proof.
  intros [Hu Hf Hd] Hid. unfold FreeID, is_u32 in *. destruct (id =? 0) eqn:E; zbool; simpl; [done|].
  split; simpl; [set_solver| |set_solver]. intros x [->%elem_of_singleton|Hx]%elem_of_union; [lia|auto].
Qed.

Lemma AllocateIDAtOrAbove_unused d s :
  inv s -> room s -> is_u32 d ->
  let id := fst (AllocateIDAtOrAbove d s) in
  0 < id < 2 ^ 32 /\ id ∉ used_ids_ s /\ (d <= id \/ LastUsedId s = 2 ^ 32 - 1).
Proof.
  intros Hi Hr Hd. pose proof Hi as [Hu Hf Hdis]. unfold is_u32 in Hd. simpl.
  destruct (set_lower_bound d (free_ids_ s)) as [x|] eqn:E.
  - apply set_lower_bound_Some in E as (Hx & Hle & _).
    split_and!; [by apply Hf..|set_solver|by left].
  - destruct (LastUsedId_spec s Hi) as [HL Hmax].
    destruct (next_id_unused s Hi Hr) as (Hn & Hnu & Hn1).
    destruct (LastUsedId s <? d) eqn:El; zbool.
    + split_and!; [lia|lia| |left; lia]. intros Hin%Hmax. lia.
    + split_and!; [lia|lia|done|].
      destruct (Z.eq_dec (LastUsedId s) (2 ^ 32 - 1)); [by right|left].
      rewrite Hn1; lia.
Qed.

Lemma AllocateID_unused s :
  inv s -> room s ->
  let id := fst (AllocateID s) in 0 < id < 2 ^ 32 /\ id ∉ used_ids_ s.
Proof.
  intros Hi Hr. pose proof Hi as [Hu Hf Hdis]. simpl.
  destruct (set_begin (free_ids_ s)) as [x|] eqn:E.
  - apply set_begin_Some in E as [Hx _]. split; [by apply Hf|set_solver].
  - destruct (next_id_unused s Hi Hr) as (Hn & Hnu & _). done.
Qed.

End reused.

#[export] Instance Reused_laws :
  IdAllocatorLaws Reused.IdAllocator inv (fun s id => id ∈ Reused.used_ids_ s)
    (fun _ => room).
Proof.
  split; simpl.
  - intros s Hi Hr. pose proof (AllocateID_unused s Hi Hr) as [Hid Hn]. simpl in *.
    split_and!; [by apply MarkAsUsed_inv|lia|lia|done|set_solver].
  - intros d s Hd Hi Hr. pose proof (AllocateIDAtOrAbove_unused d s Hi Hr Hd) as (Hid & Hn & _).
    simpl in *. split_and!; [by apply MarkAsUsed_inv|lia|lia|done|set_solver].
Qed.

#[local] Instance NonReused_laws :
  IdAllocatorLaws Z is_u32 (fun last id => 0 < id <= last)
    (fun d last => Z.max d last < 2 ^ 32 - 1).
Proof.
  split; simpl.
  - intros last Hl Hr. unfold is_u32 in *. rewrite u32_id by (unfold is_u32; lia).
    split_and!; lia || (intros j; lia).
  - intros d last Hd Hl Hr. unfold is_u32 in *.
    assert (is_u32 ((if d >? last then d else last) + 1)) as Hb
      by (unfold is_u32; case_match; zbool; lia).
    rewrite u32_id by done. unfold is_u32 in Hb. case_match; zbool; split_and!; lia || (intros j; lia).
Qed.

(** ** Clients *)

Section client.
Context {A : Type} `{IL : IdAllocatorLaws A valid known has_room}.

(** A run of allocations; [Some d] asks for an id at or above [d]. *)
Definition allocate (req : option Z) (s : A) : Z * A :=
  match req with
  | Some d => AllocateIDAtOrAbove d s
  | None => AllocateID s
  end.

Fixpoint allocate_all (reqs : list (option Z)) (s : A) : list Z * A :=
  match reqs with
  | [] => ([], s)
  | req :: reqs =>
      let '(id, s) := allocate req s in
      let '(ids, s) := allocate_all reqs s in (id :: ids, s)
  end.

(** There is room for each request when its turn comes. *)
Fixpoint room_all (reqs : list (option Z)) (s : A) : Prop :=
  match reqs with
  | [] => True
  | req :: reqs =>
      is_u32 (default 0 req) /\ has_room (default 0 req) s /\ room_all reqs (snd (allocate req s))
  end.

Lemma allocate_fresh req s :
  valid s -> is_u32 (default 0 req) -> has_room (default 0 req) s ->
  let '(id, s') := allocate req s in
  valid s' /\ 0 < id < 2 ^ 32 /\ ~ known s id /\ forall j, j = id \/ known s j -> known s' j.
Proof.
  intros Hi Hd Hr. destruct req as [d|]; simpl in *;
    [by apply AllocateIDAtOrAbove_fresh|by apply AllocateID_fresh].
Qed.

(** An allocator of ids never answers the same id twice while it is in use:
    the ids of any run of allocations are valid, distinct, and none is an id
    that was known before. *)
Theorem allocate_all_distinct reqs s :
  valid s -> room_all reqs s ->
  NoDup (fst (allocate_all reqs s)) /\
  forall id, id ∈ fst (allocate_all reqs s) -> 0 < id < 2 ^ 32 /\ ~ known s id.
Proof.
  revert s. induction reqs as [|req reqs IH]; intros s Hi Hr.
  { simpl. split; [apply NoDup_nil_2|]. by intros id ?%not_elem_of_nil. }
  cbn [allocate_all room_all] in *. destruct Hr as (Hd & Hr & Hrs).
  pose proof (allocate_fresh req s Hi Hd Hr) as Hf.
  destruct (allocate req s) as [id s1]. destruct Hf as (Hi1 & Hid & Hn & Hk). simpl in Hrs.
  destruct (IH s1 Hi1 Hrs) as [Hnd Hids]. destruct (allocate_all reqs s1) as [ids s2]. simpl in *.
  split.
  - constructor; [|done]. intros Hin. apply (Hids id Hin). apply Hk. by left.
  - intros j [->|Hj]%elem_of_cons; [done|]. destruct (Hids j Hj) as [Hr2 Hj2].
    split; [done|]. intros Hkj. apply Hj2, Hk. by right.
Qed.

End client.

(** [IdAllocator] refines a set of ids in use: [AllocateIDAtOrAbove] adds one id
    that was not in it, at or above the id desired unless the last id there is has
    been used, [FreeID] removes its id, and nothing else changes. *)
Theorem IdAllocator_refines_set s d :
  inv s -> room s -> is_u32 d ->
  let '(id, s') := Reused.AllocateIDAtOrAbove d s in
  Reused.InUse id s = false /\
  (forall j, Reused.InUse j s' = (j =? id) || Reused.InUse j s) /\
  (d <= id \/ Reused.LastUsedId s = 2 ^ 32 - 1) /\
  inv s' /\ inv (Reused.FreeID id s') /\
  forall j, Reused.InUse j (Reused.FreeID id s') = Reused.InUse j s.
Proof.
  intros Hi Hr Hd. pose proof (AllocateIDAtOrAbove_unused d s Hi Hr Hd) as (Hid & Hn & Hge).
  destruct (Reused.AllocateIDAtOrAbove d s) as [id s'] eqn:E. simpl in *.
  assert (s' = snd (Reused.MarkAsUsed id s)) as ->.
  { unfold Reused.AllocateIDAtOrAbove in E. by injection E as <- <-. }
  pose proof (MarkAsUsed_inv id s Hi Hid) as Hi'.
  assert (forall j, Reused.InUse j s = (j =? 0) || bool_decide (j ∈ Reused.used_ids_ s)) as HU by done.
  split_and!; [|..|done|done|by apply FreeID_inv; [|unfold is_u32; lia]|].
  - rewrite HU, bool_decide_false by done. lia.
  - intros j. unfold Reused.InUse, kInvalidResource. simpl.
    destruct (j =? id) eqn:Ej; zbool; simpl.
    + rewrite bool_decide_true by set_solver. lia.
    + f_equal. apply bool_decide_ext. set_solver.
  - intros j. unfold Reused.InUse, Reused.FreeID, kInvalidResource. bfalse (id =? 0). simpl.
    f_equal. apply bool_decide_ext. set_solver.
Qed.

Lemma new_inv : inv Reused.new.
Proof. split; set_solver. Qed.

Lemma allocate_all_distinct_witness :
  fst (allocate_all [None; Some 7; None; Some 7] Reused.new) = [1; 7; 8; 9] /\
  NoDup [1; 7; 8; 9] /\ fst (allocate_all (A := Z) [None; Some 7] NonReused.new) = [1; 8] /\
  NoDup [1; 8].
Proof.
  assert (room_all (has_room := fun _ => room) [None; Some 7; None; Some 7] Reused.new) as H1.
  { repeat split; by vm_compute. }
  assert (room_all (has_room := fun d last => Z.max d last < 2 ^ 32 - 1) [None; Some 7] 0) as H2.
  { repeat split; by vm_compute. }
  split; [by vm_compute|]. split; [|split; [by vm_compute|]].
  - exact (proj1 (allocate_all_distinct _ Reused.new new_inv H1)).
  - exact (proj1 (allocate_all_distinct (IL := NonReused_laws) _ 0 ltac:(unfold is_u32; lia) H2)).
Defined.

Lemma IdAllocator_refines_set_witness :
  Reused.AllocateIDAtOrAbove 7 Reused.new = (7, Reused.mkIdAllocator {[7]} ∅) /\
  Reused.InUse 7 Reused.new = false /\
  forall j, Reused.InUse j (Reused.mkIdAllocator {[7]} ∅) = (j =? 7) || Reused.InUse j Reused.new.
Proof.
  split; [by vm_compute|].
  pose proof (IdAllocator_refines_set Reused.new 7 new_inv ltac:(by vm_compute)
    ltac:(unfold is_u32; lia)) as H.
  destruct H as (H1 & H2 & _). split; [exact H1|exact H2].
Defined.
