(* ===== verification/GLConstants.v ===== *)
(** * The constants of OpenGL ES

    The enumerants of [gpu/GLES2/gl2.h] and [gpu/GLES2/gl2ext.h] that the modelled code
    uses, and a few of desktop OpenGL that ES does not have. *)

From Stdlib Require Import ZArith.
Local Open Scope Z_scope.

Definition GL_ACTIVE_TEXTURE : Z := 34016.
Definition GL_ALIASED_LINE_WIDTH_RANGE : Z := 33902.
Definition GL_ALIASED_POINT_SIZE_RANGE : Z := 33901.
Definition GL_ALPHA_BITS : Z := 3413.
Definition GL_ARRAY_BUFFER_BINDING : Z := 34964.
Definition GL_BLEND : Z := 3042.
Definition GL_BLEND_COLOR : Z := 32773.
Definition GL_BLEND_DST_ALPHA : Z := 32970.
Definition GL_BLEND_DST_RGB : Z := 32968.
Definition GL_BLEND_EQUATION_ALPHA : Z := 34877.
Definition GL_BLEND_EQUATION_RGB : Z := 32777.
Definition GL_BLEND_SRC_ALPHA : Z := 32971.
Definition GL_BLEND_SRC_RGB : Z := 32969.
Definition GL_BLUE_BITS : Z := 3412.
Definition GL_COLOR_CLEAR_VALUE : Z := 3106.
Definition GL_COLOR_WRITEMASK : Z := 3107.
Definition GL_COMPRESSED_TEXTURE_FORMATS : Z := 34467.
Definition GL_CULL_FACE : Z := 2884.
Definition GL_CULL_FACE_MODE : Z := 2885.
Definition GL_CURRENT_PROGRAM : Z := 35725.
Definition GL_DEPTH_BITS : Z := 3414.
Definition GL_DEPTH_CLEAR_VALUE : Z := 2931.
Definition GL_DEPTH_FUNC : Z := 2932.
Definition GL_DEPTH_RANGE : Z := 2928.
Definition GL_DEPTH_TEST : Z := 2929.
Definition GL_DEPTH_WRITEMASK : Z := 2930.
Definition GL_DITHER : Z := 3024.
Definition GL_ELEMENT_ARRAY_BUFFER_BINDING : Z := 34965.
Definition GL_FRAMEBUFFER_BINDING : Z := 36006.
Definition GL_FRONT_FACE : Z := 2886.
Definition GL_GENERATE_MIPMAP_HINT : Z := 33170.
Definition GL_GREEN_BITS : Z := 3411.
Definition GL_IMPLEMENTATION_COLOR_READ_FORMAT : Z := 35739.
Definition GL_IMPLEMENTATION_COLOR_READ_TYPE : Z := 35738.
Definition GL_LINE_WIDTH : Z := 2849.
Definition GL_MAX_COMBINED_TEXTURE_IMAGE_UNITS : Z := 35661.
Definition GL_MAX_CUBE_MAP_TEXTURE_SIZE : Z := 34076.
Definition GL_MAX_FRAGMENT_UNIFORM_VECTORS : Z := 36349.
Definition GL_MAX_RENDERBUFFER_SIZE : Z := 34024.
Definition GL_MAX_TEXTURE_IMAGE_UNITS : Z := 34930.
Definition GL_MAX_TEXTURE_SIZE : Z := 3379.
Definition GL_MAX_VARYING_VECTORS : Z := 36348.
Definition GL_MAX_VERTEX_ATTRIBS : Z := 34921.
Definition GL_MAX_VERTEX_TEXTURE_IMAGE_UNITS : Z := 35660.
Definition GL_MAX_VERTEX_UNIFORM_VECTORS : Z := 36347.
Definition GL_MAX_VIEWPORT_DIMS : Z := 3386.
Definition GL_NUM_COMPRESSED_TEXTURE_FORMATS : Z := 34466.
Definition GL_NUM_SHADER_BINARY_FORMATS : Z := 36345.
Definition GL_PACK_ALIGNMENT : Z := 3333.
Definition GL_POLYGON_OFFSET_FACTOR : Z := 32824.
Definition GL_POLYGON_OFFSET_FILL : Z := 32823.
Definition GL_POLYGON_OFFSET_UNITS : Z := 10752.
Definition GL_RED_BITS : Z := 3410.
Definition GL_RENDERBUFFER_BINDING : Z := 36007.
Definition GL_SAMPLE_BUFFERS : Z := 32936.
Definition GL_SAMPLE_COVERAGE_INVERT : Z := 32939.
Definition GL_SAMPLE_COVERAGE_VALUE : Z := 32938.
Definition GL_SAMPLES : Z := 32937.
Definition GL_SCISSOR_BOX : Z := 3088.
Definition GL_SCISSOR_TEST : Z := 3089.
Definition GL_SHADER_BINARY_FORMATS : Z := 36344.
Definition GL_SHADER_COMPILER : Z := 36346.
Definition GL_STENCIL_BACK_FAIL : Z := 34817.
Definition GL_STENCIL_BACK_FUNC : Z := 34816.
Definition GL_STENCIL_BACK_PASS_DEPTH_FAIL : Z := 34818.
Definition GL_STENCIL_BACK_PASS_DEPTH_PASS : Z := 34819.
Definition GL_STENCIL_BACK_REF : Z := 36003.
Definition GL_STENCIL_BACK_VALUE_MASK : Z := 36004.
Definition GL_STENCIL_BACK_WRITEMASK : Z := 36005.
Definition GL_STENCIL_BITS : Z := 3415.
Definition GL_STENCIL_CLEAR_VALUE : Z := 2961.
Definition GL_STENCIL_FAIL : Z := 2964.
Definition GL_STENCIL_FUNC : Z := 2962.
Definition GL_STENCIL_PASS_DEPTH_FAIL : Z := 2965.
Definition GL_STENCIL_PASS_DEPTH_PASS : Z := 2966.
Definition GL_STENCIL_REF : Z := 2967.
Definition GL_STENCIL_TEST : Z := 2960.
Definition GL_STENCIL_VALUE_MASK : Z := 2963.
Definition GL_STENCIL_WRITEMASK : Z := 2968.
Definition GL_SUBPIXEL_BITS : Z := 3408.
Definition GL_TEXTURE_BINDING_2D : Z := 32873.
Definition GL_TEXTURE_BINDING_CUBE_MAP : Z := 34068.
Definition GL_TEXTURE_BINDING_EXTERNAL_OES : Z := 36199.
Definition GL_UNPACK_ALIGNMENT : Z := 3317.
Definition GL_VIEWPORT : Z := 2978.
Definition GL_MAX_SAMPLES_EXT : Z := 36183.
Definition GL_BUFFER_SIZE : Z := 34660.
Definition GL_BUFFER_USAGE : Z := 34661.
Definition GL_FRAMEBUFFER_ATTACHMENT_OBJECT_TYPE : Z := 36048.
Definition GL_FRAMEBUFFER_ATTACHMENT_OBJECT_NAME : Z := 36049.
Definition GL_FRAMEBUFFER_ATTACHMENT_TEXTURE_LEVEL : Z := 36050.
Definition GL_FRAMEBUFFER_ATTACHMENT_TEXTURE_CUBE_MAP_FACE : Z := 36051.
Definition GL_DELETE_STATUS : Z := 35712.
Definition GL_LINK_STATUS : Z := 35714.
Definition GL_VALIDATE_STATUS : Z := 35715.
Definition GL_INFO_LOG_LENGTH : Z := 35716.
Definition GL_ATTACHED_SHADERS : Z := 35717.
Definition GL_ACTIVE_ATTRIBUTES : Z := 35721.
Definition GL_ACTIVE_ATTRIBUTE_MAX_LENGTH : Z := 35722.
Definition GL_ACTIVE_UNIFORMS : Z := 35718.
Definition GL_ACTIVE_UNIFORM_MAX_LENGTH : Z := 35719.
Definition GL_RENDERBUFFER_WIDTH : Z := 36162.
Definition GL_RENDERBUFFER_HEIGHT : Z := 36163.
Definition GL_RENDERBUFFER_INTERNAL_FORMAT : Z := 36164.
Definition GL_RENDERBUFFER_RED_SIZE : Z := 36176.
Definition GL_RENDERBUFFER_GREEN_SIZE : Z := 36177.
Definition GL_RENDERBUFFER_BLUE_SIZE : Z := 36178.
Definition GL_RENDERBUFFER_ALPHA_SIZE : Z := 36179.
Definition GL_RENDERBUFFER_DEPTH_SIZE : Z := 36180.
Definition GL_RENDERBUFFER_STENCIL_SIZE : Z := 36181.
Definition GL_SHADER_TYPE : Z := 35663.
Definition GL_COMPILE_STATUS : Z := 35713.
Definition GL_SHADER_SOURCE_LENGTH : Z := 35720.
Definition GL_TRANSLATED_SHADER_SOURCE_LENGTH_ANGLE : Z := 37792.
Definition GL_TEXTURE_MAG_FILTER : Z := 10240.
Definition GL_TEXTURE_MIN_FILTER : Z := 10241.
Definition GL_TEXTURE_WRAP_S : Z := 10242.
Definition GL_TEXTURE_WRAP_T : Z := 10243.
Definition GL_VERTEX_ATTRIB_ARRAY_BUFFER_BINDING : Z := 34975.
Definition GL_VERTEX_ATTRIB_ARRAY_ENABLED : Z := 34338.
Definition GL_VERTEX_ATTRIB_ARRAY_SIZE : Z := 34339.
Definition GL_VERTEX_ATTRIB_ARRAY_STRIDE : Z := 34340.
Definition GL_VERTEX_ATTRIB_ARRAY_TYPE : Z := 34341.
Definition GL_VERTEX_ATTRIB_ARRAY_NORMALIZED : Z := 34922.
Definition GL_CURRENT_VERTEX_ATTRIB : Z := 34342.
Definition GL_OES_standard_derivatives : Z := 1.
Definition GL_FRAGMENT_SHADER_DERIVATIVE_HINT_OES : Z := 35723.
Definition GL_UNSIGNED_SHORT_5_6_5 : Z := 33635.
Definition GL_UNSIGNED_SHORT_4_4_4_4 : Z := 32819.
Definition GL_UNSIGNED_SHORT_5_5_5_1 : Z := 32820.
Definition GL_UNSIGNED_INT_24_8_OES : Z := 34042.
Definition GL_RGB : Z := 6407.
Definition GL_LUMINANCE_ALPHA : Z := 6410.
Definition GL_RGBA : Z := 6408.
Definition GL_BGRA_EXT : Z := 32993.
Definition GL_ALPHA : Z := 6406.
Definition GL_LUMINANCE : Z := 6409.
Definition GL_DEPTH_COMPONENT : Z := 6402.
Definition GL_DEPTH_STENCIL_OES : Z := 34041.
Definition GL_FLOAT : Z := 5126.
Definition GL_UNSIGNED_INT : Z := 5125.
Definition GL_HALF_FLOAT_OES : Z := 36193.
Definition GL_UNSIGNED_SHORT : Z := 5123.
Definition GL_SHORT : Z := 5122.
Definition GL_UNSIGNED_BYTE : Z := 5121.
Definition GL_BYTE : Z := 5120.
Definition GL_FLOAT_VEC2 : Z := 35664.
Definition GL_FLOAT_VEC3 : Z := 35665.
Definition GL_FLOAT_VEC4 : Z := 35666.
Definition GL_INT : Z := 5124.
Definition GL_INT_VEC2 : Z := 35667.
Definition GL_INT_VEC3 : Z := 35668.
Definition GL_INT_VEC4 : Z := 35669.
Definition GL_BOOL : Z := 35670.
Definition GL_BOOL_VEC2 : Z := 35671.
Definition GL_BOOL_VEC3 : Z := 35672.
Definition GL_BOOL_VEC4 : Z := 35673.
Definition GL_FLOAT_MAT2 : Z := 35674.
Definition GL_FLOAT_MAT3 : Z := 35675.
Definition GL_FLOAT_MAT4 : Z := 35676.
Definition GL_SAMPLER_2D : Z := 35678.
Definition GL_SAMPLER_CUBE : Z := 35680.
Definition GL_SAMPLER_EXTERNAL_OES : Z := 36198.
Definition GL_FIXED : Z := 5132.
Definition GL_INVALID_ENUM : Z := 1280.
Definition GL_INVALID_VALUE : Z := 1281.
Definition GL_INVALID_OPERATION : Z := 1282.
Definition GL_OUT_OF_MEMORY : Z := 1285.
Definition GL_INVALID_FRAMEBUFFER_OPERATION : Z := 1286.
Definition GL_NO_ERROR : Z := 0.
Definition GL_TEXTURE_CUBE_MAP_POSITIVE_X : Z := 34069.
Definition GL_TEXTURE_CUBE_MAP_NEGATIVE_X : Z := 34070.
Definition GL_TEXTURE_CUBE_MAP_POSITIVE_Y : Z := 34071.
Definition GL_TEXTURE_CUBE_MAP_NEGATIVE_Y : Z := 34072.
Definition GL_TEXTURE_CUBE_MAP_POSITIVE_Z : Z := 34073.
Definition GL_TEXTURE_CUBE_MAP_NEGATIVE_Z : Z := 34074.
Definition GL_RGB8_OES : Z := 32849.
Definition GL_RGB565 : Z := 36194.
Definition GL_RGBA8_OES : Z := 32856.
Definition GL_RGBA4 : Z := 32854.
Definition GL_RGB5_A1 : Z := 32855.
Definition GL_NONE : Z := 0.
Definition GL_STATIC_DRAW : Z := 35044.
Definition GL_ELEMENT_ARRAY_BUFFER : Z := 34963.
Definition GL_FALSE : Z := 0.
Definition GL_TEXTURE_2D : Z := 3553.
Definition GL_TEXTURE_EXTERNAL_OES : Z := 36197.
Definition GL_CLAMP_TO_EDGE : Z := 33071.
Definition GL_TEXTURE_CUBE_MAP : Z := 34067.
Definition GL_LINEAR : Z := 9729.
Definition GL_NEAREST : Z := 9728.
Definition GL_TEXTURE_MAX_ANISOTROPY_EXT : Z := 34046.
Definition GL_NEAREST_MIPMAP_NEAREST : Z := 9984.
Definition GL_NEAREST_MIPMAP_LINEAR : Z := 9986.
Definition GL_REPEAT : Z := 10497.
Definition GL_ARRAY_BUFFER : Z := 34962.
Definition GL_DYNAMIC_DRAW : Z := 35048.
Definition GL_TEXTURE0 : Z := 33984.
Definition GL_UNPACK_FLIP_Y_CHROMIUM : Z := 37440.
Definition GL_FRAMEBUFFER : Z := 36160.
Definition GL_RENDERBUFFER : Z := 36161.
Definition GL_VERTEX_ATTRIB_ARRAY_POINTER : Z := 34373.
Definition GL_WRITE_ONLY : Z := 35001.
Definition GL_CHROMIUM_map_sub : Z := 1.
Definition GL_CHROMIUM_flipy : Z := 1.
Definition GL_EXTENSIONS : Z := 7939.
Definition GL_OES_EGL_image_external : Z := 1.
Definition GL_FRAMEBUFFER_COMPLETE : Z := 36053.
Definition GL_COLOR_ATTACHMENT0 : Z := 36064.
Definition GL_COLOR_BUFFER_BIT : Z := 16384.
Definition GL_FRONT : Z := 1028.
Definition GL_FRONT_AND_BACK : Z := 1032.
Definition GL_BACK : Z := 1029.
Definition GL_DRAW_FRAMEBUFFER : Z := 36009.
Definition GL_READ_FRAMEBUFFER : Z := 36008.
Definition GL_DEPTH24_STENCIL8 : Z := 35056.
Definition GL_POINTS : Z := 0.
Definition GL_TRIANGLES : Z := 4.
Definition GL_CHROMIUM_resize : Z := 1.
Definition GL_CHROMIUM_rate_limit_offscreen_context : Z := 1.
Definition GL_ANGLE_translated_shader_source : Z := 1.
Definition GL_EXT_texture_compression_dxt1 : Z := 1.
Definition GL_CHROMIUM_texture_compression_dxt3 : Z := 1.
Definition GL_CHROMIUM_texture_compression_dxt5 : Z := 1.
Definition GL_COMPRESSED_RGB_S3TC_DXT1_EXT : Z := 33776.
Definition GL_COMPRESSED_RGBA_S3TC_DXT1_EXT : Z := 33777.
Definition GL_COMPRESSED_RGBA_S3TC_DXT3_EXT : Z := 33778.
Definition GL_COMPRESSED_RGBA_S3TC_DXT5_EXT : Z := 33779.
Definition GL_EXT_texture_filter_anisotropic : Z := 1.
Definition GL_MAX_TEXTURE_MAX_ANISOTROPY_EXT : Z := 34047.
Definition GL_ARB_depth_texture : Z := 1.
Definition GL_OES_depth_texture : Z := 1.
Definition GL_OES_packed_depth_stencil : Z := 1.
Definition GL_EXT_packed_depth_stencil : Z := 1.
Definition GL_DEPTH24_STENCIL8_OES : Z := 35056.
Definition GL_EXT_texture_format_BGRA8888 : Z := 1.
Definition GL_EXT_bgra : Z := 1.
Definition GL_EXT_read_format_bgra : Z := 1.
Definition GL_OES_rgb8_rgba8 : Z := 1.
Definition GL_OES_texture_npot : Z := 1.
Definition GL_ARB_texture_non_power_of_two : Z := 1.
Definition GL_ARB_texture_float : Z := 1.
Definition GL_OES_texture_float : Z := 1.
Definition GL_OES_texture_float_linear : Z := 1.
Definition GL_OES_texture_half_float : Z := 1.
Definition GL_OES_texture_half_float_linear : Z := 1.
Definition GL_EXT_framebuffer_multisample : Z := 1.
Definition GL_READ_FRAMEBUFFER_EXT : Z := 36008.
Definition GL_DRAW_FRAMEBUFFER_EXT : Z := 36009.
Definition GL_READ_FRAMEBUFFER_BINDING_EXT : Z := 36010.
Definition GL_RENDERBUFFER_SAMPLES_EXT : Z := 36011.
Definition GL_OES_depth24 : Z := 1.
Definition GL_DEPTH_COMPONENT24_OES : Z := 33190.
Definition GL_REQUIRED_TEXTURE_IMAGE_UNITS_OES : Z := 36200.
Definition GL_STENCIL_ATTACHMENT : Z := 36128.
Definition GL_DEPTH_STENCIL_ATTACHMENT : Z := 33306.
Definition GL_DEPTH_ATTACHMENT : Z := 36096.
Definition GL_STENCIL_BUFFER_BIT : Z := 1024.
Definition GL_DEPTH_BUFFER_BIT : Z := 256.
Definition GL_DEPTH_COMPONENT16 : Z := 33189.
Definition GL_GUILTY_CONTEXT_RESET_ARB : Z := 33363.
Definition GL_INNOCENT_CONTEXT_RESET_ARB : Z := 33364.
Definition GL_UNKNOWN_CONTEXT_RESET_ARB : Z := 33365.
Definition GL_VERTEX_SHADER : Z := 35633.
Definition GL_FRAGMENT_SHADER : Z := 35632.
Definition GL_TRUE : Z := 1.
Definition GL_READ_FRAMEBUFFER_BINDING : Z := 36010.
Definition GL_TEXTURE : Z := 5890.
Definition GL_LOW_INT : Z := 36339.
Definition GL_MEDIUM_INT : Z := 36340.
Definition GL_HIGH_INT : Z := 36341.
Definition GL_LOW_FLOAT : Z := 36336.
Definition GL_MEDIUM_FLOAT : Z := 36337.
Definition GL_HIGH_FLOAT : Z := 36338.
Definition GL_VERSION : Z := 7938.
Definition GL_SHADING_LANGUAGE_VERSION : Z := 35724.
Definition GL_RGBA32F_ARB : Z := 34836.
Definition GL_RGB32F_ARB : Z := 34837.
Definition GL_RGBA16F_ARB : Z := 34842.
Definition GL_RGB16F_ARB : Z := 34843.
Definition GL_STREAM_DRAW : Z := 35040.
Definition GL_SAMPLE_ALPHA_TO_COVERAGE : Z := 32926.
Definition GL_SAMPLE_COVERAGE : Z := 32928.
Definition GL_NEVER : Z := 512.
Definition GL_LESS : Z := 513.
Definition GL_EQUAL : Z := 514.
Definition GL_LEQUAL : Z := 515.
Definition GL_GREATER : Z := 516.
Definition GL_NOTEQUAL : Z := 517.
Definition GL_GEQUAL : Z := 518.
Definition GL_ALWAYS : Z := 519.
Definition GL_LINE_STRIP : Z := 3.
Definition GL_LINE_LOOP : Z := 2.
Definition GL_LINES : Z := 1.
Definition GL_TRIANGLE_STRIP : Z := 5.
Definition GL_TRIANGLE_FAN : Z := 6.
Definition GL_ZERO : Z := 0.
Definition GL_ONE : Z := 1.
Definition GL_SRC_COLOR : Z := 768.
Definition GL_ONE_MINUS_SRC_COLOR : Z := 769.
Definition GL_DST_COLOR : Z := 774.
Definition GL_ONE_MINUS_DST_COLOR : Z := 775.
Definition GL_SRC_ALPHA : Z := 770.
Definition GL_ONE_MINUS_SRC_ALPHA : Z := 771.
Definition GL_DST_ALPHA : Z := 772.
Definition GL_ONE_MINUS_DST_ALPHA : Z := 773.
Definition GL_CONSTANT_COLOR : Z := 32769.
Definition GL_ONE_MINUS_CONSTANT_COLOR : Z := 32770.
Definition GL_CONSTANT_ALPHA : Z := 32771.
Definition GL_ONE_MINUS_CONSTANT_ALPHA : Z := 32772.
Definition GL_FUNC_ADD : Z := 32774.
Definition GL_FUNC_SUBTRACT : Z := 32778.
Definition GL_FUNC_REVERSE_SUBTRACT : Z := 32779.
Definition GL_CW : Z := 2304.
Definition GL_CCW : Z := 2305.
Definition GL_FASTEST : Z := 4353.
Definition GL_NICEST : Z := 4354.
Definition GL_DONT_CARE : Z := 4352.
Definition GL_STENCIL_INDEX8 : Z := 36168.
Definition GL_SRC_ALPHA_SATURATE : Z := 776.
Definition GL_KEEP : Z := 7680.
Definition GL_REPLACE : Z := 7681.
Definition GL_INCR : Z := 7682.
Definition GL_INCR_WRAP : Z := 34055.
Definition GL_DECR : Z := 7683.
Definition GL_DECR_WRAP : Z := 34056.
Definition GL_INVERT : Z := 5386.
Definition GL_VENDOR : Z := 7936.
Definition GL_RENDERER : Z := 7937.
Definition GL_LINEAR_MIPMAP_NEAREST : Z := 9985.
Definition GL_LINEAR_MIPMAP_LINEAR : Z := 9987.
Definition GL_MIRRORED_REPEAT : Z := 33648.
