(* ===== verification/Validators.v ===== *)
(** * The tables of valid values

    [gpu/command_buffer/service/gles2_cmd_validation.h] with the tables of
    [gles2_cmd_validation_implementation_autogen.h]: a list of values for each kind of
    argument, to which the features of the driver add others. *)

From Stdlib Require Import ZArith List Bool.
From stdpp Require Import base decidable list.
From S2P Require Import Prelude GLConstants.
Import ListNotations.
Local Open Scope Z_scope.

(** ** The tables *)

Definition valid_attachment_table : list Z :=
  [GL_COLOR_ATTACHMENT0; GL_DEPTH_ATTACHMENT; GL_STENCIL_ATTACHMENT].
Definition valid_blit_filter_table : list Z := [GL_NEAREST; GL_LINEAR].
Definition valid_buffer_parameter_table : list Z := [GL_BUFFER_SIZE; GL_BUFFER_USAGE].
Definition valid_buffer_target_table : list Z :=
  [GL_ARRAY_BUFFER; GL_ELEMENT_ARRAY_BUFFER].
Definition valid_buffer_usage_table : list Z :=
  [GL_STREAM_DRAW; GL_STATIC_DRAW; GL_DYNAMIC_DRAW].
Definition valid_capability_table : list Z :=
  [GL_BLEND; GL_CULL_FACE; GL_DEPTH_TEST; GL_DITHER; GL_POLYGON_OFFSET_FILL;
   GL_SAMPLE_ALPHA_TO_COVERAGE; GL_SAMPLE_COVERAGE; GL_SCISSOR_TEST; GL_STENCIL_TEST].
Definition valid_cmp_function_table : list Z :=
  [GL_NEVER; GL_LESS; GL_EQUAL; GL_LEQUAL; GL_GREATER; GL_NOTEQUAL; GL_GEQUAL; GL_ALWAYS].
Definition valid_draw_mode_table : list Z :=
  [GL_POINTS; GL_LINE_STRIP; GL_LINE_LOOP; GL_LINES; GL_TRIANGLE_STRIP; GL_TRIANGLE_FAN;
   GL_TRIANGLES].
Definition valid_dst_blend_factor_table : list Z :=
  [GL_ZERO; GL_ONE; GL_SRC_COLOR; GL_ONE_MINUS_SRC_COLOR; GL_DST_COLOR;
   GL_ONE_MINUS_DST_COLOR; GL_SRC_ALPHA; GL_ONE_MINUS_SRC_ALPHA; GL_DST_ALPHA;
   GL_ONE_MINUS_DST_ALPHA; GL_CONSTANT_COLOR; GL_ONE_MINUS_CONSTANT_COLOR;
   GL_CONSTANT_ALPHA; GL_ONE_MINUS_CONSTANT_ALPHA].
Definition valid_equation_table : list Z :=
  [GL_FUNC_ADD; GL_FUNC_SUBTRACT; GL_FUNC_REVERSE_SUBTRACT].
Definition valid_face_mode_table : list Z := [GL_CW; GL_CCW].
Definition valid_face_type_table : list Z := [GL_FRONT; GL_BACK; GL_FRONT_AND_BACK].
Definition valid_false_only_table : list Z := [0].
Definition valid_frame_buffer_parameter_table : list Z :=
  [GL_FRAMEBUFFER_ATTACHMENT_OBJECT_TYPE; GL_FRAMEBUFFER_ATTACHMENT_OBJECT_NAME;
   GL_FRAMEBUFFER_ATTACHMENT_TEXTURE_LEVEL;
   GL_FRAMEBUFFER_ATTACHMENT_TEXTURE_CUBE_MAP_FACE].
Definition valid_frame_buffer_target_table : list Z := [GL_FRAMEBUFFER].
Definition valid_g_l_state_table : list Z :=
  [GL_ACTIVE_TEXTURE; GL_ALIASED_LINE_WIDTH_RANGE; GL_ALIASED_POINT_SIZE_RANGE;
   GL_ALPHA_BITS; GL_ARRAY_BUFFER_BINDING; GL_BLEND; GL_BLEND_COLOR; GL_BLEND_DST_ALPHA;
   GL_BLEND_DST_RGB; GL_BLEND_EQUATION_ALPHA; GL_BLEND_EQUATION_RGB; GL_BLEND_SRC_ALPHA;
   GL_BLEND_SRC_RGB; GL_BLUE_BITS; GL_COLOR_CLEAR_VALUE; GL_COLOR_WRITEMASK;
   GL_COMPRESSED_TEXTURE_FORMATS; GL_CULL_FACE; GL_CULL_FACE_MODE; GL_CURRENT_PROGRAM;
   GL_DEPTH_BITS; GL_DEPTH_CLEAR_VALUE; GL_DEPTH_FUNC; GL_DEPTH_RANGE; GL_DEPTH_TEST;
   GL_DEPTH_WRITEMASK; GL_DITHER; GL_ELEMENT_ARRAY_BUFFER_BINDING;
   GL_FRAMEBUFFER_BINDING; GL_FRONT_FACE; GL_GENERATE_MIPMAP_HINT; GL_GREEN_BITS;
   GL_IMPLEMENTATION_COLOR_READ_FORMAT; GL_IMPLEMENTATION_COLOR_READ_TYPE;
   GL_LINE_WIDTH; GL_MAX_COMBINED_TEXTURE_IMAGE_UNITS; GL_MAX_CUBE_MAP_TEXTURE_SIZE;
   GL_MAX_FRAGMENT_UNIFORM_VECTORS; GL_MAX_RENDERBUFFER_SIZE;
   GL_MAX_TEXTURE_IMAGE_UNITS; GL_MAX_TEXTURE_SIZE; GL_MAX_VARYING_VECTORS;
   GL_MAX_VERTEX_ATTRIBS; GL_MAX_VERTEX_TEXTURE_IMAGE_UNITS;
   GL_MAX_VERTEX_UNIFORM_VECTORS; GL_MAX_VIEWPORT_DIMS;
   GL_NUM_COMPRESSED_TEXTURE_FORMATS; GL_NUM_SHADER_BINARY_FORMATS; GL_PACK_ALIGNMENT;
   GL_POLYGON_OFFSET_FACTOR; GL_POLYGON_OFFSET_FILL; GL_POLYGON_OFFSET_UNITS;
   GL_RED_BITS; GL_RENDERBUFFER_BINDING; GL_SAMPLE_BUFFERS; GL_SAMPLE_COVERAGE_INVERT;
   GL_SAMPLE_COVERAGE_VALUE; GL_SAMPLES; GL_SCISSOR_BOX; GL_SCISSOR_TEST;
   GL_SHADER_BINARY_FORMATS; GL_SHADER_COMPILER; GL_STENCIL_BACK_FAIL;
   GL_STENCIL_BACK_FUNC; GL_STENCIL_BACK_PASS_DEPTH_FAIL;
   GL_STENCIL_BACK_PASS_DEPTH_PASS; GL_STENCIL_BACK_REF; GL_STENCIL_BACK_VALUE_MASK;
   GL_STENCIL_BACK_WRITEMASK; GL_STENCIL_BITS; GL_STENCIL_CLEAR_VALUE; GL_STENCIL_FAIL;
   GL_STENCIL_FUNC; GL_STENCIL_PASS_DEPTH_FAIL; GL_STENCIL_PASS_DEPTH_PASS;
   GL_STENCIL_REF; GL_STENCIL_TEST; GL_STENCIL_VALUE_MASK; GL_STENCIL_WRITEMASK;
   GL_SUBPIXEL_BITS; GL_TEXTURE_BINDING_2D; GL_TEXTURE_BINDING_CUBE_MAP;
   GL_UNPACK_ALIGNMENT; GL_VIEWPORT].
Definition valid_get_max_index_type_table : list Z :=
  [GL_UNSIGNED_BYTE; GL_UNSIGNED_SHORT; GL_UNSIGNED_INT].
Definition valid_get_tex_param_target_table : list Z :=
  [GL_TEXTURE_2D; GL_TEXTURE_CUBE_MAP_POSITIVE_X; GL_TEXTURE_CUBE_MAP_NEGATIVE_X;
   GL_TEXTURE_CUBE_MAP_POSITIVE_Y; GL_TEXTURE_CUBE_MAP_NEGATIVE_Y;
   GL_TEXTURE_CUBE_MAP_POSITIVE_Z; GL_TEXTURE_CUBE_MAP_NEGATIVE_Z].
Definition valid_hint_mode_table : list Z := [GL_FASTEST; GL_NICEST; GL_DONT_CARE].
Definition valid_hint_target_table : list Z := [GL_GENERATE_MIPMAP_HINT].
Definition valid_index_type_table : list Z := [GL_UNSIGNED_BYTE; GL_UNSIGNED_SHORT].
Definition valid_pixel_store_table : list Z := [GL_PACK_ALIGNMENT; GL_UNPACK_ALIGNMENT].
Definition valid_pixel_store_alignment_table : list Z := [1; 2; 4; 8].
Definition valid_pixel_type_table : list Z :=
  [GL_UNSIGNED_BYTE; GL_UNSIGNED_SHORT_5_6_5; GL_UNSIGNED_SHORT_4_4_4_4;
   GL_UNSIGNED_SHORT_5_5_5_1].
Definition valid_program_parameter_table : list Z :=
  [GL_DELETE_STATUS; GL_LINK_STATUS; GL_VALIDATE_STATUS; GL_INFO_LOG_LENGTH;
   GL_ATTACHED_SHADERS; GL_ACTIVE_ATTRIBUTES; GL_ACTIVE_ATTRIBUTE_MAX_LENGTH;
   GL_ACTIVE_UNIFORMS; GL_ACTIVE_UNIFORM_MAX_LENGTH].
Definition valid_read_pixel_format_table : list Z := [GL_ALPHA; GL_RGB; GL_RGBA].
Definition valid_render_buffer_format_table : list Z :=
  [GL_RGBA4; GL_RGB565; GL_RGB5_A1; GL_DEPTH_COMPONENT16; GL_STENCIL_INDEX8].
Definition valid_render_buffer_parameter_table : list Z :=
  [GL_RENDERBUFFER_RED_SIZE; GL_RENDERBUFFER_GREEN_SIZE; GL_RENDERBUFFER_BLUE_SIZE;
   GL_RENDERBUFFER_ALPHA_SIZE; GL_RENDERBUFFER_DEPTH_SIZE; GL_RENDERBUFFER_STENCIL_SIZE;
   GL_RENDERBUFFER_WIDTH; GL_RENDERBUFFER_HEIGHT; GL_RENDERBUFFER_INTERNAL_FORMAT].
Definition valid_render_buffer_target_table : list Z := [GL_RENDERBUFFER].
Definition valid_shader_parameter_table : list Z :=
  [GL_SHADER_TYPE; GL_DELETE_STATUS; GL_COMPILE_STATUS; GL_INFO_LOG_LENGTH;
   GL_SHADER_SOURCE_LENGTH; GL_TRANSLATED_SHADER_SOURCE_LENGTH_ANGLE].
Definition valid_shader_precision_table : list Z :=
  [GL_LOW_FLOAT; GL_MEDIUM_FLOAT; GL_HIGH_FLOAT; GL_LOW_INT; GL_MEDIUM_INT; GL_HIGH_INT].
Definition valid_shader_type_table : list Z := [GL_VERTEX_SHADER; GL_FRAGMENT_SHADER].
Definition valid_src_blend_factor_table : list Z :=
  [GL_ZERO; GL_ONE; GL_SRC_COLOR; GL_ONE_MINUS_SRC_COLOR; GL_DST_COLOR;
   GL_ONE_MINUS_DST_COLOR; GL_SRC_ALPHA; GL_ONE_MINUS_SRC_ALPHA; GL_DST_ALPHA;
   GL_ONE_MINUS_DST_ALPHA; GL_CONSTANT_COLOR; GL_ONE_MINUS_CONSTANT_COLOR;
   GL_CONSTANT_ALPHA; GL_ONE_MINUS_CONSTANT_ALPHA; GL_SRC_ALPHA_SATURATE].
Definition valid_stencil_op_table : list Z :=
  [GL_KEEP; GL_ZERO; GL_REPLACE; GL_INCR; GL_INCR_WRAP; GL_DECR; GL_DECR_WRAP; GL_INVERT].
Definition valid_string_type_table : list Z :=
  [GL_VENDOR; GL_RENDERER; GL_VERSION; GL_SHADING_LANGUAGE_VERSION; GL_EXTENSIONS].
Definition valid_texture_bind_target_table : list Z :=
  [GL_TEXTURE_2D; GL_TEXTURE_CUBE_MAP].
Definition valid_texture_border_table : list Z := [0].
Definition valid_texture_format_table : list Z :=
  [GL_ALPHA; GL_LUMINANCE; GL_LUMINANCE_ALPHA; GL_RGB; GL_RGBA].
Definition valid_texture_internal_format_table : list Z :=
  [GL_ALPHA; GL_LUMINANCE; GL_LUMINANCE_ALPHA; GL_RGB; GL_RGBA].
Definition valid_texture_mag_filter_mode_table : list Z := [GL_NEAREST; GL_LINEAR].
Definition valid_texture_min_filter_mode_table : list Z :=
  [GL_NEAREST; GL_LINEAR; GL_NEAREST_MIPMAP_NEAREST; GL_LINEAR_MIPMAP_NEAREST;
   GL_NEAREST_MIPMAP_LINEAR; GL_LINEAR_MIPMAP_LINEAR].
Definition valid_texture_parameter_table : list Z :=
  [GL_TEXTURE_MAG_FILTER; GL_TEXTURE_MIN_FILTER; GL_TEXTURE_WRAP_S; GL_TEXTURE_WRAP_T].
Definition valid_texture_target_table : list Z :=
  [GL_TEXTURE_2D; GL_TEXTURE_CUBE_MAP_POSITIVE_X; GL_TEXTURE_CUBE_MAP_NEGATIVE_X;
   GL_TEXTURE_CUBE_MAP_POSITIVE_Y; GL_TEXTURE_CUBE_MAP_NEGATIVE_Y;
   GL_TEXTURE_CUBE_MAP_POSITIVE_Z; GL_TEXTURE_CUBE_MAP_NEGATIVE_Z].
Definition valid_texture_wrap_mode_table : list Z :=
  [GL_CLAMP_TO_EDGE; GL_MIRRORED_REPEAT; GL_REPEAT].
Definition valid_vertex_attrib_size_table : list Z := [1; 2; 3; 4].
Definition valid_vertex_attrib_type_table : list Z :=
  [GL_BYTE; GL_UNSIGNED_BYTE; GL_SHORT; GL_UNSIGNED_SHORT; GL_FLOAT].
Definition valid_vertex_attribute_table : list Z :=
  [GL_VERTEX_ATTRIB_ARRAY_NORMALIZED; GL_VERTEX_ATTRIB_ARRAY_BUFFER_BINDING;
   GL_VERTEX_ATTRIB_ARRAY_ENABLED; GL_VERTEX_ATTRIB_ARRAY_SIZE;
   GL_VERTEX_ATTRIB_ARRAY_STRIDE; GL_VERTEX_ATTRIB_ARRAY_TYPE; GL_CURRENT_VERTEX_ATTRIB].
Definition valid_vertex_pointer_table : list Z := [GL_VERTEX_ATTRIB_ARRAY_POINTER].
Definition valid_zero_only_table : list Z := [0].

(** ** The validators

    One for each member of the struct [Validators]; the state of all of them is the list
    of valid values of each. *)
Module Validator.

Inductive t :=
| attachment | blit_filter | buffer_parameter | buffer_target | buffer_usage
| capability | cmp_function | compressed_texture_format | draw_mode | dst_blend_factor
| equation | face_mode | face_type | false_only | frame_buffer_parameter
| frame_buffer_target | g_l_state | get_max_index_type | get_tex_param_target
| hint_mode | hint_target | index_type | pixel_store | pixel_store_alignment
| pixel_type | program_parameter | read_pixel_format | render_buffer_format
| render_buffer_parameter | render_buffer_target | shader_binary_format
| shader_parameter | shader_precision | shader_type | src_blend_factor | stencil_op
| string_type | texture_bind_target | texture_border | texture_format
| texture_internal_format | texture_mag_filter_mode | texture_min_filter_mode
| texture_parameter | texture_target | texture_wrap_mode | vertex_attrib_size
| vertex_attrib_type | vertex_attribute | vertex_pointer | zero_only.

#[global] Instance t_eq_dec : EqDecision t.
Proof. solve_decision. Defined.

End Validator.

Notation Validators := (Validator.t -> list Z).

Definition Validators_new : Validators := fun v =>
  match v with
  | Validator.attachment => valid_attachment_table
  | Validator.blit_filter => valid_blit_filter_table
  | Validator.buffer_parameter => valid_buffer_parameter_table
  | Validator.buffer_target => valid_buffer_target_table
  | Validator.buffer_usage => valid_buffer_usage_table
  | Validator.capability => valid_capability_table
  | Validator.cmp_function => valid_cmp_function_table
  | Validator.compressed_texture_format => []
  | Validator.draw_mode => valid_draw_mode_table
  | Validator.dst_blend_factor => valid_dst_blend_factor_table
  | Validator.equation => valid_equation_table
  | Validator.face_mode => valid_face_mode_table
  | Validator.face_type => valid_face_type_table
  | Validator.false_only => valid_false_only_table
  | Validator.frame_buffer_parameter => valid_frame_buffer_parameter_table
  | Validator.frame_buffer_target => valid_frame_buffer_target_table
  | Validator.g_l_state => valid_g_l_state_table
  | Validator.get_max_index_type => valid_get_max_index_type_table
  | Validator.get_tex_param_target => valid_get_tex_param_target_table
  | Validator.hint_mode => valid_hint_mode_table
  | Validator.hint_target => valid_hint_target_table
  | Validator.index_type => valid_index_type_table
  | Validator.pixel_store => valid_pixel_store_table
  | Validator.pixel_store_alignment => valid_pixel_store_alignment_table
  | Validator.pixel_type => valid_pixel_type_table
  | Validator.program_parameter => valid_program_parameter_table
  | Validator.read_pixel_format => valid_read_pixel_format_table
  | Validator.render_buffer_format => valid_render_buffer_format_table
  | Validator.render_buffer_parameter => valid_render_buffer_parameter_table
  | Validator.render_buffer_target => valid_render_buffer_target_table
  | Validator.shader_binary_format => []
  | Validator.shader_parameter => valid_shader_parameter_table
  | Validator.shader_precision => valid_shader_precision_table
  | Validator.shader_type => valid_shader_type_table
  | Validator.src_blend_factor => valid_src_blend_factor_table
  | Validator.stencil_op => valid_stencil_op_table
  | Validator.string_type => valid_string_type_table
  | Validator.texture_bind_target => valid_texture_bind_target_table
  | Validator.texture_border => valid_texture_border_table
  | Validator.texture_format => valid_texture_format_table
  | Validator.texture_internal_format => valid_texture_internal_format_table
  | Validator.texture_mag_filter_mode => valid_texture_mag_filter_mode_table
  | Validator.texture_min_filter_mode => valid_texture_min_filter_mode_table
  | Validator.texture_parameter => valid_texture_parameter_table
  | Validator.texture_target => valid_texture_target_table
  | Validator.texture_wrap_mode => valid_texture_wrap_mode_table
  | Validator.vertex_attrib_size => valid_vertex_attrib_size_table
  | Validator.vertex_attrib_type => valid_vertex_attrib_type_table
  | Validator.vertex_attribute => valid_vertex_attribute_table
  | Validator.vertex_pointer => valid_vertex_pointer_table
  | Validator.zero_only => valid_zero_only_table
  end.

(** [IsValid] and [AddValue] of one member. *)
Definition IsValid (value : Z) (values : list Z) : bool := bool_decide (value ∈ values).

Definition AddValue (v : Validator.t) (value : Z) (vs : Validators) : Validators := fun w =>
  if decide (w = v) then if IsValid value (vs v) then vs v else vs v ++ [value] else vs w.

(** ** Lemmas *)

Lemma IsValid_true value values : IsValid value values = true <-> value ∈ values.
Proof. apply bool_decide_eq_true. Qed.

Lemma AddValue_elem v value vs w x :
  x ∈ AddValue v value vs w <-> x ∈ vs w \/ (w = v /\ x = value).
Proof.
  unfold AddValue. destruct (decide (w = v)) as [->|Hne].
  - destruct (IsValid value (vs v)) eqn:E.
    + apply IsValid_true in E. naive_solver.
    + rewrite elem_of_app, list_elem_of_singleton. naive_solver.
  - naive_solver.
Qed.
