(* ===== verification/GLES2Util.v ===== *)
(** * GLES2 utilities

    [gpu/command_buffer/common/gles2_cmd_utils.{h,cc}]: arithmetic that reports overflow,
    the sizes of GL types and images, error bits, and how many values each [glGet]
    returns. *)

From Stdlib Require Import ZArith Lia ZifyBool Bool.
From stdpp Require Import base numbers option sets list.
From S2P Require Import Prelude GLConstants Validators.
Local Open Scope Z_scope.

(** The labels of a [case]. *)
Definition is_case (x : Z) (labels : list Z) : bool := existsb (Z.eqb x) labels.

(** ** Arithmetic that reports overflow

    The [bool] that is returned, and the value written to [dst]. *)

Definition SafeMultiplyUint32 (a b : Z) : bool * Z :=
  if b =? 0 then (true, 0)
  else
    let v := u32 (a * b) in
    if negb (v / b =? a) then (false, 0) else (true, v).

Definition SafeAddUint32 (a b : Z) : bool * Z :=
  if u32 (a + b) <? a then (false, 0) else (true, u32 (a + b)).

(** ** Sizes *)

(** Return the number of elements per group of a specified format. *)
Definition ElementsPerGroup (format type : Z) : Z :=
  if is_case type [GL_UNSIGNED_SHORT_5_6_5; GL_UNSIGNED_SHORT_4_4_4_4;
                   GL_UNSIGNED_SHORT_5_5_5_1; GL_UNSIGNED_INT_24_8_OES] then 1
  else if is_case format [GL_RGB] then 3
  else if is_case format [GL_LUMINANCE_ALPHA] then 2
  else if is_case format [GL_RGBA; GL_BGRA_EXT] then 4
  else if is_case format [GL_ALPHA; GL_LUMINANCE; GL_DEPTH_COMPONENT; GL_DEPTH_STENCIL_OES]
  then 1
  else 0.

(** Return the number of bytes per element, based on the element type. *)
Definition BytesPerElement (type : Z) : Z :=
  if is_case type [GL_FLOAT; GL_UNSIGNED_INT_24_8_OES; GL_UNSIGNED_INT] then 4
  else if is_case type [GL_HALF_FLOAT_OES; GL_UNSIGNED_SHORT; GL_SHORT;
                        GL_UNSIGNED_SHORT_5_6_5; GL_UNSIGNED_SHORT_4_4_4_4;
                        GL_UNSIGNED_SHORT_5_5_5_1] then 2
  else if is_case type [GL_UNSIGNED_BYTE; GL_BYTE] then 1
  else 0.

(** The amount of data [glTexImage2D] or [glTexSubImage2D] will access: [None] is the
    answer [false].  The [int] arguments are converted to [uint32]. *)
Definition ComputeImageDataSize (width height format type unpack_alignment : Z) : option Z :=
  let bytes_per_group := u32 (BytesPerElement type * ElementsPerGroup format type) in
  let '(ok, row_size) := SafeMultiplyUint32 (u32 width) bytes_per_group in
  if negb ok then None
  else if height >? 1 then
    let '(ok, temp) := SafeAddUint32 row_size (u32 (unpack_alignment - 1)) in
    if negb ok then None
    else
      let padded_row_size :=
        u32 (temp / u32 unpack_alignment * u32 unpack_alignment) in
      let '(ok, size_of_all_but_last_row) :=
        SafeMultiplyUint32 (u32 (height - 1)) padded_row_size in
      if negb ok then None
      else
        let '(ok, size) := SafeAddUint32 size_of_all_but_last_row row_size in
        if negb ok then None else Some size
  else
    let '(ok, size) := SafeMultiplyUint32 (u32 height) row_size in
    if negb ok then None else Some size.

Definition GetGLDataTypeSizeForUniforms (type : Z) : Z :=
  if type =? GL_FLOAT then 4
  else if type =? GL_FLOAT_VEC2 then 4 * 2
  else if type =? GL_FLOAT_VEC3 then 4 * 3
  else if type =? GL_FLOAT_VEC4 then 4 * 4
  else if type =? GL_INT then 4
  else if type =? GL_INT_VEC2 then 4 * 2
  else if type =? GL_INT_VEC3 then 4 * 3
  else if type =? GL_INT_VEC4 then 4 * 4
  else if type =? GL_BOOL then 4
  else if type =? GL_BOOL_VEC2 then 4 * 2
  else if type =? GL_BOOL_VEC3 then 4 * 3
  else if type =? GL_BOOL_VEC4 then 4 * 4
  else if type =? GL_FLOAT_MAT2 then 4 * 2 * 2
  else if type =? GL_FLOAT_MAT3 then 4 * 3 * 3
  else if type =? GL_FLOAT_MAT4 then 4 * 4 * 4
  else if type =? GL_SAMPLER_2D then 4
  else if type =? GL_SAMPLER_CUBE then 4
  else if type =? GL_SAMPLER_EXTERNAL_OES then 4
  else 0.

Definition GetGLTypeSizeForTexturesAndBuffers (type : Z) : Z :=
  if type =? GL_BYTE then 1
  else if type =? GL_UNSIGNED_BYTE then 1
  else if type =? GL_SHORT then 2
  else if type =? GL_UNSIGNED_SHORT then 2
  else if type =? GL_INT then 4
  else if type =? GL_UNSIGNED_INT then 4
  else if type =? GL_FLOAT then 4
  else if type =? GL_FIXED then 4
  else 0.

(** ** Error bits *)

Definition kNoErrorBit : Z := 0.
Definition kInvalidEnum : Z := Z.shiftl 1 0.
Definition kInvalidValue : Z := Z.shiftl 1 1.
Definition kInvalidOperation : Z := Z.shiftl 1 2.
Definition kOutOfMemory : Z := Z.shiftl 1 3.
Definition kInvalidFrameBufferOperation : Z := Z.shiftl 1 4.

Definition GLErrorToErrorBit (error : Z) : Z :=
  if error =? GL_INVALID_ENUM then kInvalidEnum
  else if error =? GL_INVALID_VALUE then kInvalidValue
  else if error =? GL_INVALID_OPERATION then kInvalidOperation
  else if error =? GL_OUT_OF_MEMORY then kOutOfMemory
  else if error =? GL_INVALID_FRAMEBUFFER_OPERATION then kInvalidFrameBufferOperation
  else kNoErrorBit.

Definition GLErrorBitToGLError (error_bit : Z) : Z :=
  if error_bit =? kInvalidEnum then GL_INVALID_ENUM
  else if error_bit =? kInvalidValue then GL_INVALID_VALUE
  else if error_bit =? kInvalidOperation then GL_INVALID_OPERATION
  else if error_bit =? kOutOfMemory then GL_OUT_OF_MEMORY
  else if error_bit =? kInvalidFrameBufferOperation then GL_INVALID_FRAMEBUFFER_OPERATION
  else GL_NO_ERROR.

(** ** Faces, formats and powers of two *)

Definition faces : list Z :=
  [GL_TEXTURE_CUBE_MAP_POSITIVE_X; GL_TEXTURE_CUBE_MAP_NEGATIVE_X;
   GL_TEXTURE_CUBE_MAP_POSITIVE_Y; GL_TEXTURE_CUBE_MAP_NEGATIVE_Y;
   GL_TEXTURE_CUBE_MAP_POSITIVE_Z; GL_TEXTURE_CUBE_MAP_NEGATIVE_Z].

(** [None]: an index outside the table. *)
Definition IndexToGLFaceTarget (index : Z) : option Z := zget faces index.

Definition GetChannelsForFormat (format : Z) : Z :=
  if format =? GL_ALPHA then 8
  else if format =? GL_LUMINANCE then 7
  else if format =? GL_LUMINANCE_ALPHA then 15
  else if is_case format [GL_RGB; GL_RGB8_OES; GL_RGB565] then 7
  else if is_case format [GL_BGRA_EXT; GL_RGBA; GL_RGBA8_OES; GL_RGBA4; GL_RGB5_A1] then 15
  else 0.

Definition IsNPOT (value : Z) : bool :=
  (value >? 0) && negb (Z.land value (u32 (value - 1)) =? 0).

(** ** How many values a [glGet] returns *)

Definition GLGetNumValuesReturned (num_compressed_texture_formats num_shader_binary_formats id : Z)
    : Z :=
  if id =? GL_ACTIVE_TEXTURE then 1 else
  if is_case id
       [GL_ALIASED_LINE_WIDTH_RANGE; GL_ALIASED_POINT_SIZE_RANGE]
  then 2 else
  if is_case id
       [GL_ALPHA_BITS; GL_ARRAY_BUFFER_BINDING; GL_BLEND]
  then 1 else
  if id =? GL_BLEND_COLOR then 4 else
  if is_case id
       [GL_BLEND_DST_ALPHA; GL_BLEND_DST_RGB; GL_BLEND_EQUATION_ALPHA;
        GL_BLEND_EQUATION_RGB; GL_BLEND_SRC_ALPHA; GL_BLEND_SRC_RGB; GL_BLUE_BITS]
  then 1 else
  if is_case id
       [GL_COLOR_CLEAR_VALUE; GL_COLOR_WRITEMASK]
  then 4 else
  if id =? GL_COMPRESSED_TEXTURE_FORMATS then num_compressed_texture_formats else
  if is_case id
       [GL_CULL_FACE; GL_CULL_FACE_MODE; GL_CURRENT_PROGRAM; GL_DEPTH_BITS;
        GL_DEPTH_CLEAR_VALUE; GL_DEPTH_FUNC]
  then 1 else
  if id =? GL_DEPTH_RANGE then 2 else
  if is_case id
       [GL_DEPTH_TEST; GL_DEPTH_WRITEMASK; GL_DITHER; GL_ELEMENT_ARRAY_BUFFER_BINDING;
        GL_FRAMEBUFFER_BINDING; GL_FRONT_FACE; GL_GENERATE_MIPMAP_HINT; GL_GREEN_BITS;
        GL_IMPLEMENTATION_COLOR_READ_FORMAT; GL_IMPLEMENTATION_COLOR_READ_TYPE;
        GL_LINE_WIDTH; GL_MAX_COMBINED_TEXTURE_IMAGE_UNITS;
        GL_MAX_CUBE_MAP_TEXTURE_SIZE; GL_MAX_FRAGMENT_UNIFORM_VECTORS;
        GL_MAX_RENDERBUFFER_SIZE; GL_MAX_TEXTURE_IMAGE_UNITS; GL_MAX_TEXTURE_SIZE;
        GL_MAX_VARYING_VECTORS; GL_MAX_VERTEX_ATTRIBS;
        GL_MAX_VERTEX_TEXTURE_IMAGE_UNITS; GL_MAX_VERTEX_UNIFORM_VECTORS]
  then 1 else
  if id =? GL_MAX_VIEWPORT_DIMS then 2 else
  if is_case id
       [GL_NUM_COMPRESSED_TEXTURE_FORMATS; GL_NUM_SHADER_BINARY_FORMATS;
        GL_PACK_ALIGNMENT; GL_POLYGON_OFFSET_FACTOR; GL_POLYGON_OFFSET_FILL;
        GL_POLYGON_OFFSET_UNITS; GL_RED_BITS; GL_RENDERBUFFER_BINDING;
        GL_SAMPLE_BUFFERS; GL_SAMPLE_COVERAGE_INVERT; GL_SAMPLE_COVERAGE_VALUE;
        GL_SAMPLES]
  then 1 else
  if id =? GL_SCISSOR_BOX then 4 else
  if id =? GL_SCISSOR_TEST then 1 else
  if id =? GL_SHADER_BINARY_FORMATS then num_shader_binary_formats else
  if is_case id
       [GL_SHADER_COMPILER; GL_STENCIL_BACK_FAIL; GL_STENCIL_BACK_FUNC;
        GL_STENCIL_BACK_PASS_DEPTH_FAIL; GL_STENCIL_BACK_PASS_DEPTH_PASS;
        GL_STENCIL_BACK_REF; GL_STENCIL_BACK_VALUE_MASK; GL_STENCIL_BACK_WRITEMASK;
        GL_STENCIL_BITS; GL_STENCIL_CLEAR_VALUE; GL_STENCIL_FAIL; GL_STENCIL_FUNC;
        GL_STENCIL_PASS_DEPTH_FAIL; GL_STENCIL_PASS_DEPTH_PASS; GL_STENCIL_REF;
        GL_STENCIL_TEST; GL_STENCIL_VALUE_MASK; GL_STENCIL_WRITEMASK; GL_SUBPIXEL_BITS;
        GL_TEXTURE_BINDING_2D; GL_TEXTURE_BINDING_CUBE_MAP;
        GL_TEXTURE_BINDING_EXTERNAL_OES; GL_UNPACK_ALIGNMENT]
  then 1 else
  if id =? GL_VIEWPORT then 4 else
  if is_case id
       [GL_MAX_SAMPLES_EXT; GL_BUFFER_SIZE; GL_BUFFER_USAGE;
        GL_FRAMEBUFFER_ATTACHMENT_OBJECT_TYPE; GL_FRAMEBUFFER_ATTACHMENT_OBJECT_NAME;
        GL_FRAMEBUFFER_ATTACHMENT_TEXTURE_LEVEL;
        GL_FRAMEBUFFER_ATTACHMENT_TEXTURE_CUBE_MAP_FACE; GL_DELETE_STATUS;
        GL_LINK_STATUS; GL_VALIDATE_STATUS; GL_INFO_LOG_LENGTH; GL_ATTACHED_SHADERS;
        GL_ACTIVE_ATTRIBUTES; GL_ACTIVE_ATTRIBUTE_MAX_LENGTH; GL_ACTIVE_UNIFORMS;
        GL_ACTIVE_UNIFORM_MAX_LENGTH; GL_RENDERBUFFER_WIDTH; GL_RENDERBUFFER_HEIGHT;
        GL_RENDERBUFFER_INTERNAL_FORMAT; GL_RENDERBUFFER_RED_SIZE;
        GL_RENDERBUFFER_GREEN_SIZE; GL_RENDERBUFFER_BLUE_SIZE;
        GL_RENDERBUFFER_ALPHA_SIZE; GL_RENDERBUFFER_DEPTH_SIZE;
        GL_RENDERBUFFER_STENCIL_SIZE; GL_SHADER_TYPE; GL_COMPILE_STATUS;
        GL_SHADER_SOURCE_LENGTH; GL_TRANSLATED_SHADER_SOURCE_LENGTH_ANGLE;
        GL_TEXTURE_MAG_FILTER; GL_TEXTURE_MIN_FILTER; GL_TEXTURE_WRAP_S;
        GL_TEXTURE_WRAP_T; GL_VERTEX_ATTRIB_ARRAY_BUFFER_BINDING;
        GL_VERTEX_ATTRIB_ARRAY_ENABLED; GL_VERTEX_ATTRIB_ARRAY_SIZE;
        GL_VERTEX_ATTRIB_ARRAY_STRIDE; GL_VERTEX_ATTRIB_ARRAY_TYPE;
        GL_VERTEX_ATTRIB_ARRAY_NORMALIZED]
  then 1 else
  if id =? GL_CURRENT_VERTEX_ATTRIB then 4 else
  if id =? GL_FRAGMENT_SHADER_DERIVATIVE_HINT_OES then 1 else
  0.

(** ** Lemmas *)

Lemma SafeMultiplyUint32_exact a b :
  is_u32 a -> is_u32 b ->
  SafeMultiplyUint32 a b = if a * b <? 2 ^ 32 then (true, a * b) else (false, 0).
Proof.
  unfold is_u32, SafeMultiplyUint32. intros Ha Hb. destruct (b =? 0) eqn:E; zbool.
  { subst b. by rewrite Z.mul_0_r. }
  destruct (a * b <? 2 ^ 32) eqn:Eo; zbool.
  - rewrite u32_id by (unfold is_u32; nia). rewrite Z.div_mul by done. by rewrite Z.eqb_refl.
  - assert (u32 (a * b) <= a * b - 2 ^ 32) as Hv.
    { unfold u32. rewrite <- (Z_mod_plus_full (a * b) (-1) (2 ^ 32)).
      etransitivity; [apply Z.mod_le; lia|lia]. }
    assert (u32 (a * b) / b < a) as Hd by (apply Z.div_lt_upper_bound; lia).
    by bfalse (u32 (a * b) / b =? a).
Qed.

Lemma SafeAddUint32_exact a b :
  is_u32 a -> is_u32 b ->
  SafeAddUint32 a b = if a + b <? 2 ^ 32 then (true, a + b) else (false, 0).
Proof.
  intros Ha Hb. unfold SafeAddUint32.
  destruct (u32_add_cases a b Ha Hb) as [[H ->]|[H ->]]; unfold is_u32 in *.
  - bfalse (a + b <? a). by btrue (a + b <? 2 ^ 32).
  - btrue (a + b - 2 ^ 32 <? a). by bfalse (a + b <? 2 ^ 32).
Qed.

Lemma is_case_true x labels : is_case x labels = true <-> x ∈ labels.
Proof.
  unfold is_case. rewrite existsb_exists. setoid_rewrite Z.eqb_eq. setoid_rewrite <- list_elem_of_In.
  naive_solver.
Qed.

Lemma BytesPerElement_range type : 0 <= BytesPerElement type <= 4.
Proof. unfold BytesPerElement. repeat case_match; lia. Qed.

Lemma ElementsPerGroup_range format type : 0 <= ElementsPerGroup format type <= 4.
Proof. unfold ElementsPerGroup. repeat case_match; lia. Qed.

(** ** Specification of image sizes

    Rows are [pitch] bytes apart, the least multiple of the alignment that holds one;
    nothing is read after the pixels of the last row. *)
Definition group_size (format type : Z) : Z := BytesPerElement type * ElementsPerGroup format type.
Definition pitch (row align : Z) : Z := (row + (align - 1)) / align * align.
Definition image_size (width height format type align : Z) : Z :=
  let row := width * group_size format type in
  if height >? 1 then (height - 1) * pitch row align + row else height * row.

Lemma pitch_bounds row align : 0 < align -> row <= pitch row align < row + align.
Proof.
  intros Ha. unfold pitch. pose proof (Z.div_mod (row + (align - 1)) align ltac:(lia)) as E.
  pose proof (Z.mod_pos_bound (row + (align - 1)) align Ha). lia.
Qed.

Lemma align_cases align : align ∈ [1; 2; 4; 8] -> 0 < align <= 8 /\ 2 ^ 32 mod align = 0.
Proof. intros H. rewrite !elem_of_cons in H. destruct H as [->|[->|[->|[->|[]%elem_of_nil]]]]; done. Qed.

Lemma ComputeImageDataSize_exact width height format type align :
  0 <= width < 2 ^ 31 -> 0 <= height < 2 ^ 31 -> align ∈ [1; 2; 4; 8] ->
  ComputeImageDataSize width height format type align =
  if (width * group_size format type <? 2 ^ 32) &&
     (image_size width height format type align <? 2 ^ 32)
  then Some (image_size width height format type align) else None.
Proof.
  intros Hw Hh Hal. destruct (align_cases align Hal) as [Ha Hdiv].
  unfold ComputeImageDataSize, image_size. fold (group_size format type).
  pose proof (BytesPerElement_range type). pose proof (ElementsPerGroup_range format type).
  assert (0 <= group_size format type <= 16) as Hg by (unfold group_size; nia).
  set (g := group_size format type) in *. rewrite !(u32_id width), (u32_id g), (u32_id height)
    by (unfold is_u32; lia).
  rewrite SafeMultiplyUint32_exact by (unfold is_u32; lia).
  destruct (width * g <? 2 ^ 32) eqn:Erow; zbool; cbn [andb negb]; [|done].
  set (row := width * g) in *. assert (0 <= row) by (subst row; nia).
  destruct (height >? 1) eqn:Eh; zbool.
  - pose proof (pitch_bounds row align ltac:(lia)) as Hp.
    rewrite (u32_id (align - 1)), (u32_id align), (u32_id (height - 1)) by (unfold is_u32; lia).
    rewrite SafeAddUint32_exact by (unfold is_u32; lia).
    destruct (row + (align - 1) <? 2 ^ 32) eqn:Et; zbool; cbn [negb].
    + fold (pitch row align). rewrite (u32_id (pitch row align)).
      2: { unfold is_u32. split; [lia|]. unfold pitch.
           pose proof (Z.mul_div_le (row + (align - 1)) align ltac:(lia)). lia. }
      assert (pitch row align < 2 ^ 32) as Hp32.
      { unfold pitch. pose proof (Z.mul_div_le (row + (align - 1)) align ltac:(lia)). lia. }
      rewrite SafeMultiplyUint32_exact by (unfold is_u32; lia).
      destruct ((height - 1) * pitch row align <? 2 ^ 32) eqn:Em; zbool; cbn [negb].
      * rewrite SafeAddUint32_exact by (unfold is_u32; nia).
        destruct (_ + row <? 2 ^ 32) eqn:Es; zbool; done.
      * by bfalse ((height - 1) * pitch row align + row <? 2 ^ 32).
    + assert (2 ^ 32 <= pitch row align) as Hbig.
      { unfold pitch. apply Z.mod_divide in Hdiv as [k Hk]; [|lia]. rewrite Hk in *.
        apply Z.mul_le_mono_nonneg_r; [lia|]. apply Z.div_le_lower_bound; lia. }
      assert (pitch row align <= (height - 1) * pitch row align) by nia.
      by bfalse ((height - 1) * pitch row align + row <? 2 ^ 32).
  - rewrite SafeMultiplyUint32_exact by (unfold is_u32; lia).
    destruct (height * row <? 2 ^ 32) eqn:Es; zbool; done.
Qed.

Lemma ComputeImageDataSize_u32 width height format type align size :
  ComputeImageDataSize width height format type align = Some size -> is_u32 size.
Proof.
  assert (forall a b, is_u32 (snd (SafeMultiplyUint32 a b)) /\ is_u32 (snd (SafeAddUint32 a b))) as Hs.
  { intros a b. unfold SafeMultiplyUint32, SafeAddUint32.
    split; repeat case_match; simpl; try apply u32_range; unfold is_u32; lia. }
  unfold ComputeImageDataSize. destruct (SafeMultiplyUint32 _ _) as [ok1 row]; destruct ok1; [|done]; simpl.
  destruct (height >? 1).
  - destruct (SafeAddUint32 _ _) as [ok2 temp]; destruct ok2; [|done]; simpl.
    destruct (SafeMultiplyUint32 _ _) as [ok3 rows]; destruct ok3; [|done]; simpl.
    destruct (SafeAddUint32 rows row) as [ok4 r] eqn:E; destruct ok4; [|done]; intros [= <-].
    change r with (snd (true, r)). rewrite <- E. apply Hs.
  - destruct (SafeMultiplyUint32 (u32 height) row) as [ok2 r] eqn:E; destruct ok2; [|done]; intros [= <-].
    change r with (snd (true, r)). rewrite <- E. apply Hs.
Qed.

(** ** Properties *)

(** C34: the size that [ComputeImageDataSize] answers covers exactly what a texture
    upload reads: every byte of every pixel, the rows being aligned, is below it,
    and it is refused only when the rows or the image take [2 ^ 32] bytes or
    more. *)
Theorem ComputeImageDataSize_covers width height format type align :
  0 <= width < 2 ^ 31 -> 0 <= height < 2 ^ 31 -> align ∈ [1; 2; 4; 8] ->
  match ComputeImageDataSize width height format type align with
  | Some size =>
      is_u32 size /\ size = image_size width height format type align /\
      (pitch (width * group_size format type) align) mod align = 0 /\
      forall x y k, 0 <= x < width -> 0 <= y < height -> 0 <= k < group_size format type ->
        0 <= y * pitch (width * group_size format type) align + x * group_size format type + k
          < size
  | None =>
      2 ^ 32 <= width * group_size format type \/
      2 ^ 32 <= image_size width height format type align
  end.
Proof.
  intros Hw Hh Hal. rewrite ComputeImageDataSize_exact by done.
  destruct (align_cases align Hal) as [Ha _]. unfold image_size.
  assert (0 <= group_size format type) as Hg by (unfold group_size;
    pose proof (BytesPerElement_range type); pose proof (ElementsPerGroup_range format type); nia).
  generalize dependent (group_size format type). intros g Hg.
  pose proof (pitch_bounds (width * g) align ltac:(lia)) as Hp.
  assert (0 <= width * g) by nia.
  destruct (_ && _) eqn:E; zbool; [|lia]. split_and!; [|done| |].
  - unfold is_u32. case_match; zbool; split; try lia; nia.
  - unfold pitch. by rewrite Z.mod_mul by lia.
  - intros x y k Hx Hy Hk. assert (x * g + k < width * g) by nia.
    assert (0 <= y * pitch (width * g) align) by nia. split; [nia|].
    destruct (height >? 1) eqn:Eh; zbool.
    + assert (y * pitch (width * g) align <= (height - 1) * pitch (width * g) align) by nia. lia.
    + assert (y = 0 /\ height = 1) as [-> ->] by lia. lia.
Qed.

Lemma ComputeImageDataSize_covers_witness :
  ComputeImageDataSize 5 3 GL_RGB GL_UNSIGNED_BYTE 4 = Some 47 /\
  ComputeImageDataSize 65536 65536 GL_RGBA GL_UNSIGNED_BYTE 4 = None /\
  forall x y k, 0 <= x < 5 -> 0 <= y < 3 -> 0 <= k < 3 -> 0 <= y * 16 + x * 3 + k < 47.
Proof.
  split; [by vm_compute|]. split; [by vm_compute|].
  pose proof (ComputeImageDataSize_covers 5 3 GL_RGB GL_UNSIGNED_BYTE 4
    ltac:(lia) ltac:(lia) ltac:(set_solver)) as H.
  exact (proj2 (proj2 (proj2 H))).
Defined.

Definition valid_get_parameters : list Z :=
  valid_g_l_state_table ++ valid_buffer_parameter_table ++ valid_frame_buffer_parameter_table ++
  valid_program_parameter_table ++ valid_render_buffer_parameter_table ++
  valid_shader_parameter_table ++ valid_texture_parameter_table ++ valid_vertex_attribute_table.

(** The validators and [GLGetNumValuesReturned] agree: every parameter that a
    [glGet] is let through with has a number of values, which is between one and
    four but for the two lists of formats, whose lengths the context knows. *)
Theorem valid_parameters_counted nc ns :
  Forall (fun id =>
    let n := GLGetNumValuesReturned nc ns id in
    if id =? GL_COMPRESSED_TEXTURE_FORMATS then n = nc
    else if id =? GL_SHADER_BINARY_FORMATS then n = ns
    else 1 <= n <= 4) valid_get_parameters.
Proof.
  unfold valid_get_parameters.
  repeat (apply Forall_app; split); repeat constructor; vm_compute; intuition discriminate.
Qed.
