(* ===== verification/FeatureInfo.v ===== *)
(** * The features of a context

    [gpu/command_buffer/service/feature_info.{h,cc}]: which extensions of the driver are
    turned on, what they add to the validators, and the string that is shown to the
    client. *)

From Stdlib Require Import ZArith Lia Bool Ascii String.
From stdpp Require Import base numbers option gmap sets strings list.
From S2P Require Import Prelude GLConstants Validators GLES2Util.
Local Open Scope Z_scope.
Local Open Scope string_scope.

(** ** Data *)

Record FeatureFlags := mkFeatureFlags {
  chromium_framebuffer_multisample : bool;
  oes_standard_derivatives : bool;
  oes_egl_image_external : bool;
  npot_ok : bool;
  enable_texture_float_linear : bool;
  enable_texture_half_float_linear : bool;
  chromium_webglsl : bool;
  chromium_stream_texture : bool;
}.

Definition FeatureFlags_new : FeatureFlags :=
  mkFeatureFlags false false false false false false false false.

(** [multisampling] is the member of [disallowed_features_] that is read. *)
Record FeatureInfo := mkFeatureInfo {
  validators_ : Validators;
  multisampling : bool;
  extensions_ : string;
  feature_flags_ : FeatureFlags;
}.

Definition FeatureInfo_new : FeatureInfo :=
  mkFeatureInfo Validators_new false EmptyString FeatureFlags_new.

(** What the driver tells: [glGetString(GL_EXTENSIONS)] and [HasDesktopGLFeatures()]. *)
Record Driver := mkDriver {
  gl_extensions : option string;
  HasDesktopGLFeatures : bool;
}.

(** ** The extension helper *)

Definition space : ascii := " "%char.

(** [InitStringSet]: the words between spaces; [word] is what was read since the last
    one.  The last word goes in even if it is empty. *)
Fixpoint InitStringSet_loop (word str : string) (string_set : gset string) : gset string :=
  match str with
  | EmptyString => {[word]} ∪ string_set
  | String c str =>
      if Ascii.eqb c space then
        InitStringSet_loop EmptyString str
          (if word =? EmptyString then string_set else {[word]} ∪ string_set)
      else InitStringSet_loop (word ++ String c EmptyString) str string_set
  end.

Definition InitStringSet (s : option string) : gset string :=
  InitStringSet_loop EmptyString (default EmptyString s) ∅.

Record ExtensionHelper := mkExtensionHelper {
  desire_all_features_ : bool;
  have_extensions_ : gset string;
  desired_extensions_ : gset string;
}.

Definition ExtensionHelper_new (extensions desired_features : option string) : ExtensionHelper :=
  let desired_features := if bool_decide (desired_features = Some "*") then None
                          else desired_features in
  mkExtensionHelper (bool_decide (desired_features = None)) (InitStringSet extensions)
    (InitStringSet desired_features).

Definition Have (ext : ExtensionHelper) (extension : string) : bool :=
  bool_decide (extension ∈ have_extensions_ ext).

Definition Desire (ext : ExtensionHelper) (extension : string) : bool :=
  desire_all_features_ ext || bool_decide (extension ∈ desired_extensions_ ext).

Definition HaveAndDesire (ext : ExtensionHelper) (extension : string) : bool :=
  Have ext extension && Desire ext extension.

(** ** Steps on the state *)

Definition with_flags (flags : FeatureFlags) (fi : FeatureInfo) : FeatureInfo :=
  mkFeatureInfo (validators_ fi) (multisampling fi) (extensions_ fi) flags.

Definition set_multisample (fi : FeatureInfo) : FeatureInfo :=
  let f := feature_flags_ fi in
  with_flags (mkFeatureFlags true (oes_standard_derivatives f) (oes_egl_image_external f)
    (npot_ok f) (enable_texture_float_linear f) (enable_texture_half_float_linear f)
    (chromium_webglsl f) (chromium_stream_texture f)) fi.
Definition set_derivatives (fi : FeatureInfo) : FeatureInfo :=
  let f := feature_flags_ fi in
  with_flags (mkFeatureFlags (chromium_framebuffer_multisample f) true (oes_egl_image_external f)
    (npot_ok f) (enable_texture_float_linear f) (enable_texture_half_float_linear f)
    (chromium_webglsl f) (chromium_stream_texture f)) fi.
Definition set_external (fi : FeatureInfo) : FeatureInfo :=
  let f := feature_flags_ fi in
  with_flags (mkFeatureFlags (chromium_framebuffer_multisample f) (oes_standard_derivatives f)
    true (npot_ok f) (enable_texture_float_linear f) (enable_texture_half_float_linear f)
    (chromium_webglsl f) (chromium_stream_texture f)) fi.
Definition set_webglsl (fi : FeatureInfo) : FeatureInfo :=
  let f := feature_flags_ fi in
  with_flags (mkFeatureFlags (chromium_framebuffer_multisample f) (oes_standard_derivatives f)
    (oes_egl_image_external f) (npot_ok f) (enable_texture_float_linear f)
    (enable_texture_half_float_linear f) true (chromium_stream_texture f)) fi.
Definition set_stream_texture (fi : FeatureInfo) : FeatureInfo :=
  let f := feature_flags_ fi in
  with_flags (mkFeatureFlags (chromium_framebuffer_multisample f) (oes_standard_derivatives f)
    (oes_egl_image_external f) (npot_ok f) (enable_texture_float_linear f)
    (enable_texture_half_float_linear f) (chromium_webglsl f) true) fi.
Definition set_texture_flags (npot float_linear half_float_linear : bool) (fi : FeatureInfo)
    : FeatureInfo :=
  let f := feature_flags_ fi in
  with_flags (mkFeatureFlags (chromium_framebuffer_multisample f) (oes_standard_derivatives f)
    (oes_egl_image_external f) npot float_linear half_float_linear
    (chromium_webglsl f) (chromium_stream_texture f)) fi.

Definition add_value (v : Validator.t) (value : Z) (fi : FeatureInfo) : FeatureInfo :=
  mkFeatureInfo (AddValue v value (validators_ fi)) (multisampling fi) (extensions_ fi)
    (feature_flags_ fi).

(** [std::string::find(s) != npos]. *)
Fixpoint contains (s str : string) : bool :=
  String.prefix s str || match str with
                  | EmptyString => false
                  | String _ str => contains s str
                  end.

Definition AddExtensionString (str : string) (fi : FeatureInfo) : FeatureInfo :=
  if negb (contains str (extensions_ fi)) then
    mkFeatureInfo (validators_ fi) (multisampling fi)
      (extensions_ fi ++ (if extensions_ fi =? EmptyString then EmptyString else " ") ++ str)
      (feature_flags_ fi)
  else fi.

(** Statements one after the other, and under an [if]. *)
Notation "fi |> f" := (f fi) (at level 50, left associativity, only parsing).
Definition when (b : bool) (f : FeatureInfo -> FeatureInfo) (fi : FeatureInfo) : FeatureInfo :=
  if b then f fi else fi.

(** ** [AddFeatures], a group of extensions at a time *)

Section features.
Variable driver : Driver.
Variable ext : ExtensionHelper.

Definition AddFeatures_chromium (desired : bool) (fi : FeatureInfo) : FeatureInfo :=
  fi |> AddExtensionString "GL_CHROMIUM_resource_safe"
     |> AddExtensionString "GL_CHROMIUM_resize"
     |> AddExtensionString "GL_CHROMIUM_strict_attribs"
     |> AddExtensionString "GL_CHROMIUM_swapbuffers_complete_callback"
     |> AddExtensionString "GL_CHROMIUM_rate_limit_offscreen_context"
     |> AddExtensionString "GL_CHROMIUM_set_visibility"
     |> AddExtensionString "GL_ANGLE_translated_shader_source"
     |> when (desired && Desire ext "GL_CHROMIUM_webglsl") (fun fi =>
          fi |> AddExtensionString "GL_CHROMIUM_webglsl" |> set_webglsl).

Definition AddFeatures_compression (fi : FeatureInfo) : FeatureInfo :=
  let have_s3tc := Have ext "GL_EXT_texture_compression_s3tc" in
  let have_dxt3 := have_s3tc || Have ext "GL_ANGLE_texture_compression_dxt3" in
  let have_dxt5 := have_s3tc || Have ext "GL_ANGLE_texture_compression_dxt5" in
  let enable_dxt1 := Desire ext "GL_EXT_texture_compression_dxt1" &&
    (Have ext "GL_EXT_texture_compression_dxt1" || have_s3tc) in
  let enable_dxt3 := have_dxt3 && Desire ext "GL_CHROMIUM_texture_compression_dxt3" in
  let enable_dxt5 := have_dxt5 && Desire ext "GL_CHROMIUM_texture_compression_dxt5" in
  fi |> when enable_dxt1 (fun fi =>
          fi |> AddExtensionString "GL_EXT_texture_compression_dxt1"
             |> add_value Validator.compressed_texture_format GL_COMPRESSED_RGB_S3TC_DXT1_EXT
             |> add_value Validator.compressed_texture_format GL_COMPRESSED_RGBA_S3TC_DXT1_EXT)
     |> when enable_dxt3 (fun fi =>
          fi |> AddExtensionString "GL_CHROMIUM_texture_compression_dxt3"
             |> add_value Validator.compressed_texture_format GL_COMPRESSED_RGBA_S3TC_DXT3_EXT)
     |> when enable_dxt5 (fun fi =>
          fi |> AddExtensionString "GL_CHROMIUM_texture_compression_dxt5"
             |> add_value Validator.compressed_texture_format GL_COMPRESSED_RGBA_S3TC_DXT5_EXT).

Definition AddFeatures_anisotropic (fi : FeatureInfo) : FeatureInfo :=
  fi |> when (HaveAndDesire ext "GL_EXT_texture_filter_anisotropic") (fun fi =>
          fi |> AddExtensionString "GL_EXT_texture_filter_anisotropic"
             |> add_value Validator.texture_parameter GL_TEXTURE_MAX_ANISOTROPY_EXT
             |> add_value Validator.g_l_state GL_MAX_TEXTURE_MAX_ANISOTROPY_EXT).

Definition AddFeatures_depth (fi : FeatureInfo) : FeatureInfo :=
  let enable_depth_texture := Desire ext "GL_GOOGLE_depth_texture" &&
    (Have ext "GL_ARB_depth_texture" || Have ext "GL_OES_depth_texture") in
  fi |> when enable_depth_texture (fun fi =>
          fi |> AddExtensionString "GL_GOOGLE_depth_texture"
             |> add_value Validator.texture_internal_format GL_DEPTH_COMPONENT
             |> add_value Validator.texture_format GL_DEPTH_COMPONENT
             |> add_value Validator.pixel_type GL_UNSIGNED_SHORT
             |> add_value Validator.pixel_type GL_UNSIGNED_INT)
     |> when (Desire ext "GL_OES_packed_depth_stencil" &&
              (Have ext "GL_EXT_packed_depth_stencil" || Have ext "GL_OES_packed_depth_stencil"))
          (fun fi =>
          fi |> AddExtensionString "GL_OES_packed_depth_stencil"
             |> when enable_depth_texture (fun fi =>
                  fi |> add_value Validator.texture_internal_format GL_DEPTH_STENCIL_OES
                     |> add_value Validator.texture_format GL_DEPTH_STENCIL_OES
                     |> add_value Validator.pixel_type GL_UNSIGNED_INT_24_8_OES)
             |> add_value Validator.render_buffer_format GL_DEPTH24_STENCIL8_OES).

Definition AddFeatures_bgra (fi : FeatureInfo) : FeatureInfo :=
  let enable_texture_format_bgra8888 :=
    (Desire ext "GL_EXT_texture_format_BGRA8888" &&
     (Have ext "GL_EXT_texture_format_BGRA8888" || Have ext "GL_APPLE_texture_format_BGRA8888"
      || Have ext "GL_EXT_bgra"))
    || HaveAndDesire ext "GL_EXT_bgra" in
  let enable_read_format_bgra :=
    HaveAndDesire ext "GL_EXT_bgra" ||
    (Desire ext "GL_EXT_read_format_bgra" &&
     (Have ext "GL_EXT_read_format_bgra" || Have ext "GL_EXT_bgra")) in
  fi |> when enable_texture_format_bgra8888 (fun fi =>
          fi |> AddExtensionString "GL_EXT_texture_format_BGRA8888"
             |> add_value Validator.texture_internal_format GL_BGRA_EXT
             |> add_value Validator.texture_format GL_BGRA_EXT)
     |> when enable_read_format_bgra (fun fi =>
          fi |> AddExtensionString "GL_EXT_read_format_bgra"
             |> add_value Validator.read_pixel_format GL_BGRA_EXT)
     |> when (Desire ext "GL_OES_rgb8_rgba8" &&
              (Have ext "GL_OES_rgb8_rgba8" || HasDesktopGLFeatures driver)) (fun fi =>
          fi |> AddExtensionString "GL_OES_rgb8_rgba8"
             |> add_value Validator.render_buffer_format GL_RGB8_OES
             |> add_value Validator.render_buffer_format GL_RGBA8_OES).

(** [npot_ok] of the local variable. *)
Definition enable_npot : bool :=
  Desire ext "GL_OES_texture_npot" &&
  (Have ext "GL_ARB_texture_non_power_of_two" || Have ext "GL_OES_texture_npot").

Definition AddFeatures_npot (fi : FeatureInfo) : FeatureInfo :=
  fi |> when enable_npot (AddExtensionString "GL_OES_texture_npot").

(** [enable_texture_float] and [enable_texture_float_linear], and the same of half
    floats. *)
Definition enable_float (extension linear : string) : bool * bool :=
  let have_arb_texture_float := Have ext "GL_ARB_texture_float" in
  if have_arb_texture_float && Desire ext "GL_ARB_texture_float" then (true, true)
  else if HaveAndDesire ext extension || (have_arb_texture_float && Desire ext extension) then
    (true, HaveAndDesire ext linear || (have_arb_texture_float && Desire ext linear))
  else (false, false).

Definition AddFeatures_float (fi : FeatureInfo) : FeatureInfo :=
  let '(enable_texture_float, enable_texture_float_linear) :=
    enable_float "GL_OES_texture_float" "GL_OES_texture_float_linear" in
  let '(enable_texture_half_float, enable_texture_half_float_linear) :=
    enable_float "GL_OES_texture_half_float" "GL_OES_texture_half_float_linear" in
  fi |> when enable_texture_float (fun fi =>
          fi |> add_value Validator.pixel_type GL_FLOAT
             |> AddExtensionString "GL_OES_texture_float"
             |> when enable_texture_float_linear
                  (AddExtensionString "GL_OES_texture_float_linear"))
     |> when enable_texture_half_float (fun fi =>
          fi |> add_value Validator.pixel_type GL_HALF_FLOAT_OES
             |> AddExtensionString "GL_OES_texture_half_float"
             |> when enable_texture_half_float_linear
                  (AddExtensionString "GL_OES_texture_half_float_linear")).

Definition AddFeatures_multisample (fi : FeatureInfo) : FeatureInfo :=
  fi |> when (negb (multisampling fi) && Desire ext "GL_CHROMIUM_framebuffer_multisample" &&
              (Have ext "GL_EXT_framebuffer_multisample" ||
               Have ext "GL_ANGLE_framebuffer_multisample")) (fun fi =>
          fi |> set_multisample
             |> add_value Validator.frame_buffer_target GL_READ_FRAMEBUFFER_EXT
             |> add_value Validator.frame_buffer_target GL_DRAW_FRAMEBUFFER_EXT
             |> add_value Validator.g_l_state GL_READ_FRAMEBUFFER_BINDING_EXT
             |> add_value Validator.g_l_state GL_MAX_SAMPLES_EXT
             |> add_value Validator.render_buffer_parameter GL_RENDERBUFFER_SAMPLES_EXT
             |> AddExtensionString "GL_CHROMIUM_framebuffer_multisample").

Definition AddFeatures_oes (fi : FeatureInfo) : FeatureInfo :=
  fi |> when (HaveAndDesire ext "GL_OES_depth24" ||
              (HasDesktopGLFeatures driver && Desire ext "GL_OES_depth24")) (fun fi =>
          fi |> AddExtensionString "GL_OES_depth24"
             |> add_value Validator.render_buffer_format GL_DEPTH_COMPONENT24_OES)
     |> when (HaveAndDesire ext "GL_OES_standard_derivatives" ||
              (HasDesktopGLFeatures driver && Desire ext "GL_OES_standard_derivatives"))
          (fun fi =>
          fi |> AddExtensionString "GL_OES_standard_derivatives"
             |> set_derivatives
             |> add_value Validator.hint_target GL_FRAGMENT_SHADER_DERIVATIVE_HINT_OES
             |> add_value Validator.g_l_state GL_FRAGMENT_SHADER_DERIVATIVE_HINT_OES)
     |> when (HaveAndDesire ext "GL_OES_EGL_image_external") (fun fi =>
          fi |> AddExtensionString "GL_OES_EGL_image_external"
             |> set_external
             |> add_value Validator.texture_bind_target GL_TEXTURE_EXTERNAL_OES
             |> add_value Validator.get_tex_param_target GL_TEXTURE_EXTERNAL_OES
             |> add_value Validator.texture_parameter GL_REQUIRED_TEXTURE_IMAGE_UNITS_OES
             |> add_value Validator.g_l_state GL_TEXTURE_BINDING_EXTERNAL_OES)
     |> when (Desire ext "GL_CHROMIUM_stream_texture") (fun fi =>
          fi |> AddExtensionString "GL_CHROMIUM_stream_texture" |> set_stream_texture).

End features.

Definition AddFeatures (driver : Driver) (desired_features : option string) (fi : FeatureInfo)
    : FeatureInfo :=
  let ext := ExtensionHelper_new (gl_extensions driver) desired_features in
  fi |> AddFeatures_chromium ext (bool_decide (desired_features <> None))
     |> AddFeatures_compression ext
     |> AddFeatures_anisotropic ext
     |> AddFeatures_depth ext
     |> AddFeatures_bgra driver ext
     |> AddFeatures_npot ext
     |> AddFeatures_float ext
     |> AddFeatures_multisample ext
     |> AddFeatures_oes driver ext
     |> set_texture_flags (enable_npot ext)
          (snd (enable_float ext "GL_OES_texture_float" "GL_OES_texture_float_linear"))
          (snd (enable_float ext "GL_OES_texture_half_float" "GL_OES_texture_half_float_linear")).

(** [disallowed] is [disallowed_features.multisampling], false in the first form. *)
Definition Initialize (driver : Driver) (disallowed : bool) (allowed_features : option string)
    (fi : FeatureInfo) : FeatureInfo :=
  AddFeatures driver allowed_features
    (mkFeatureInfo (validators_ fi) disallowed (extensions_ fi) (feature_flags_ fi)).

Definition example_driver : Driver :=
  mkDriver (Some "GL_OES_texture_npot GL_OES_texture_float") false.

Example initialize_npot :
  npot_ok (feature_flags_ (Initialize example_driver false None FeatureInfo_new)) = true.
Proof. vm_compute. reflexivity. Qed.

(** ** What each extension grants *)

(** The extensions that can be shown to the client. *)
Definition known_extensions : list string :=
  ["GL_CHROMIUM_resource_safe"; "GL_CHROMIUM_resize"; "GL_CHROMIUM_strict_attribs";
   "GL_CHROMIUM_swapbuffers_complete_callback"; "GL_CHROMIUM_rate_limit_offscreen_context";
   "GL_CHROMIUM_set_visibility"; "GL_ANGLE_translated_shader_source"; "GL_CHROMIUM_webglsl";
   "GL_EXT_texture_compression_dxt1"; "GL_CHROMIUM_texture_compression_dxt3";
   "GL_CHROMIUM_texture_compression_dxt5"; "GL_EXT_texture_filter_anisotropic";
   "GL_GOOGLE_depth_texture"; "GL_OES_packed_depth_stencil"; "GL_EXT_texture_format_BGRA8888";
   "GL_EXT_read_format_bgra"; "GL_OES_rgb8_rgba8"; "GL_OES_texture_npot"; "GL_OES_texture_float";
   "GL_OES_texture_float_linear"; "GL_OES_texture_half_float"; "GL_OES_texture_half_float_linear";
   "GL_CHROMIUM_framebuffer_multisample"; "GL_OES_depth24"; "GL_OES_standard_derivatives";
   "GL_OES_EGL_image_external"; "GL_CHROMIUM_stream_texture"].

Definition linear_of (extension : string) : string := extension ++ "_linear".

(** The values an extension makes valid. *)
Definition values_of (extension : string) : list (Validator.t * Z) :=
  if extension =? "GL_EXT_texture_compression_dxt1" then
    [(Validator.compressed_texture_format, GL_COMPRESSED_RGB_S3TC_DXT1_EXT);
     (Validator.compressed_texture_format, GL_COMPRESSED_RGBA_S3TC_DXT1_EXT)]
  else if extension =? "GL_CHROMIUM_texture_compression_dxt3" then
    [(Validator.compressed_texture_format, GL_COMPRESSED_RGBA_S3TC_DXT3_EXT)]
  else if extension =? "GL_CHROMIUM_texture_compression_dxt5" then
    [(Validator.compressed_texture_format, GL_COMPRESSED_RGBA_S3TC_DXT5_EXT)]
  else if extension =? "GL_EXT_texture_filter_anisotropic" then
    [(Validator.texture_parameter, GL_TEXTURE_MAX_ANISOTROPY_EXT);
     (Validator.g_l_state, GL_MAX_TEXTURE_MAX_ANISOTROPY_EXT)]
  else if extension =? "GL_GOOGLE_depth_texture" then
    [(Validator.texture_internal_format, GL_DEPTH_COMPONENT);
     (Validator.texture_format, GL_DEPTH_COMPONENT);
     (Validator.pixel_type, GL_UNSIGNED_SHORT); (Validator.pixel_type, GL_UNSIGNED_INT)]
  else if extension =? "GL_OES_packed_depth_stencil" then
    [(Validator.render_buffer_format, GL_DEPTH24_STENCIL8_OES)]
  else if extension =? "GL_EXT_texture_format_BGRA8888" then
    [(Validator.texture_internal_format, GL_BGRA_EXT); (Validator.texture_format, GL_BGRA_EXT)]
  else if extension =? "GL_EXT_read_format_bgra" then
    [(Validator.read_pixel_format, GL_BGRA_EXT)]
  else if extension =? "GL_OES_rgb8_rgba8" then
    [(Validator.render_buffer_format, GL_RGB8_OES); (Validator.render_buffer_format, GL_RGBA8_OES)]
  else if extension =? "GL_OES_texture_float" then [(Validator.pixel_type, GL_FLOAT)]
  else if extension =? "GL_OES_texture_half_float" then
    [(Validator.pixel_type, GL_HALF_FLOAT_OES)]
  else if extension =? "GL_CHROMIUM_framebuffer_multisample" then
    [(Validator.frame_buffer_target, GL_READ_FRAMEBUFFER_EXT);
     (Validator.frame_buffer_target, GL_DRAW_FRAMEBUFFER_EXT);
     (Validator.g_l_state, GL_READ_FRAMEBUFFER_BINDING_EXT);
     (Validator.g_l_state, GL_MAX_SAMPLES_EXT);
     (Validator.render_buffer_parameter, GL_RENDERBUFFER_SAMPLES_EXT)]
  else if extension =? "GL_OES_depth24" then
    [(Validator.render_buffer_format, GL_DEPTH_COMPONENT24_OES)]
  else if extension =? "GL_OES_standard_derivatives" then
    [(Validator.hint_target, GL_FRAGMENT_SHADER_DERIVATIVE_HINT_OES);
     (Validator.g_l_state, GL_FRAGMENT_SHADER_DERIVATIVE_HINT_OES)]
  else if extension =? "GL_OES_EGL_image_external" then
    [(Validator.texture_bind_target, GL_TEXTURE_EXTERNAL_OES);
     (Validator.get_tex_param_target, GL_TEXTURE_EXTERNAL_OES);
     (Validator.texture_parameter, GL_REQUIRED_TEXTURE_IMAGE_UNITS_OES);
     (Validator.g_l_state, GL_TEXTURE_BINDING_EXTERNAL_OES)]
  else [].

(** The values of depth and stencil textures, which need two extensions at once. *)
Definition depth_stencil_values : list (Validator.t * Z) :=
  [(Validator.texture_internal_format, GL_DEPTH_STENCIL_OES);
   (Validator.texture_format, GL_DEPTH_STENCIL_OES);
   (Validator.pixel_type, GL_UNSIGNED_INT_24_8_OES)].

(** The flag an extension sets. *)
Definition flags_of : list (string * (FeatureFlags -> bool)) :=
  [("GL_CHROMIUM_webglsl", chromium_webglsl);
   ("GL_CHROMIUM_framebuffer_multisample", chromium_framebuffer_multisample);
   ("GL_OES_standard_derivatives", oes_standard_derivatives);
   ("GL_OES_EGL_image_external", oes_egl_image_external);
   ("GL_CHROMIUM_stream_texture", chromium_stream_texture)].

(** What the client reads in the extension string. *)
Definition advertised (fi : FeatureInfo) : gset string :=
  InitStringSet (Some (extensions_ fi)) ∖ {[EmptyString]}.

#[local] Typeclasses Opaque known_extensions depth_stencil_values flags_of.

(** ** Lemmas on words *)

Fixpoint no_space (s : string) : bool :=
  match s with
  | EmptyString => true
  | String c s => negb (Ascii.eqb c space) && no_space s
  end.

Definition is_word (s : string) : Prop := no_space s = true /\ s <> EmptyString.

Lemma known_words : Forall is_word known_extensions.
Proof. repeat constructor; discriminate. Qed.

Lemma string_app_nil_r s : s ++ EmptyString = s.
Proof. induction s as [|c s IH]; [done|]. exact (f_equal (String c) IH). Qed.

Lemma string_app_assoc a b c : (a ++ b) ++ c = a ++ b ++ c.
Proof. induction a as [|d a IH]; [done|]. exact (f_equal (String d) IH). Qed.

Lemma prefix_space s a b :
  no_space s = true -> String.prefix s (a ++ String space b) = String.prefix s a.
Proof.
  revert a. induction s as [|c s IH]; intros a Hs; [by destruct a|].
  simpl in Hs. zbool. destruct a as [|d a]; simpl.
  - destruct (ascii_dec c space) as [->|]; [done|done].
  - destruct (ascii_dec c d); [by apply IH|done].
Qed.

Lemma contains_space s a b :
  is_word s -> contains s (a ++ String space b) = contains s a || contains s b.
Proof.
  intros [Hs Hne]. induction a as [|c a IH].
  - pose proof (prefix_space s EmptyString b Hs) as Hp.
    change (String.prefix s (EmptyString ++ String space b) || contains s b =
            contains s EmptyString || contains s b). rewrite Hp. by destruct s.
  - pose proof (prefix_space s (String c a) b Hs) as Hp.
    change (String.prefix s (String c a ++ String space b) || contains s (a ++ String space b) =
            (String.prefix s (String c a) || contains s a) || contains s b).
    rewrite Hp, IH. apply orb_assoc.
Qed.

Lemma contains_concat s l :
  is_word s -> contains s (String.concat " " l) = existsb (contains s) l.
Proof.
  intros Hs. induction l as [|t l IH]; [by destruct Hs as [_ Hs], s|].
  destruct l as [|u l]; cbn [String.concat existsb]; [by rewrite orb_false_r|].
  change (" " ++ ?x) with (String space x). rewrite contains_space by done.
  f_equal. exact IH.
Qed.

Lemma concat_snoc l s :
  Forall is_word l ->
  String.concat " " (l ++ [s])%list =
    String.concat " " l ++ (if String.concat " " l =? EmptyString then EmptyString else " ") ++ s.
Proof.
  destruct 1 as [|t l [_ Ht] Hl]; [done|].
  assert (forall u k, u <> EmptyString -> (String.concat " " (u :: k) =? EmptyString) = false) as Hne.
  { intros u k Hu. apply eqb_neq. destruct u; [done|]. by destruct k. }
  rewrite Hne by done. clear Ht. revert t. induction Hl as [|u l [_ Hu] Hl IH]; intros t; [done|].
  change (String.concat " " ((t :: u :: l) ++ [s])%list)
    with (t ++ " " ++ String.concat " " ((u :: l) ++ [s])%list).
  rewrite IH. change (String.concat " " (t :: u :: l)) with (t ++ " " ++ String.concat " " (u :: l)).
  by rewrite !string_app_assoc.
Qed.

Lemma InitStringSet_word w s X :
  no_space s = true -> InitStringSet_loop w s X = {[w ++ s]} ∪ X.
Proof.
  revert w. induction s as [|c s IH]; intros w Hs; simpl.
  - by rewrite string_app_nil_r.
  - simpl in Hs. zbool. rewrite H. rewrite IH by done. by rewrite string_app_assoc.
Qed.

Lemma InitStringSet_space w s rest X :
  no_space s = true -> w ++ s <> EmptyString ->
  InitStringSet_loop w (s ++ String space rest) X =
    InitStringSet_loop EmptyString rest ({[w ++ s]} ∪ X).
Proof.
  revert w. induction s as [|c s IH]; intros w Hs Hne; simpl.
  - rewrite string_app_nil_r in *. by destruct (String.eqb_spec w EmptyString).
  - simpl in Hs. zbool. rewrite H. rewrite IH; rewrite ?string_app_assoc; done.
Qed.

Lemma InitStringSet_concat l :
  Forall is_word l -> l <> [] -> InitStringSet (Some (String.concat " " l)) = list_to_set l.
Proof.
  unfold InitStringSet. cbn [default]. intros Hl Hne. rewrite <- (union_empty_r_L (list_to_set l)).
  generalize (∅ : gset string) as X.
  induction Hl as [|t l [Ht Hn] Hl IH]; [done|]. intros X. destruct l as [|u l].
  - cbn [String.concat]. rewrite InitStringSet_word by done. simpl. set_solver.
  - transitivity (InitStringSet_loop EmptyString (t ++ String space (String.concat " " (u :: l))) X);
      [done|].
    rewrite InitStringSet_space, IH by done. simpl. set_solver.
Qed.

(** ** Invariant *)

(** The extension string is a list of known extensions, a linear filter extension never
    without the one it extends; every value beyond those of the tables comes from an
    advertised extension, and an advertised extension brings its values and its flag. *)
Record features_ok (fi : FeatureInfo) : Prop := {
  ok_words : exists l, extensions_ fi = String.concat " " l /\ l ⊆ known_extensions /\
    forall t, linear_of t ∈ l -> t ∈ l;
  ok_values v x : x ∈ validators_ fi v -> x ∈ Validators_new v \/
    (exists t, t ∈ advertised fi /\ (v, x) ∈ values_of t) \/
    ((v, x) ∈ depth_stencil_values /\ "GL_OES_packed_depth_stencil" ∈ advertised fi /\
     "GL_GOOGLE_depth_texture" ∈ advertised fi);
  ok_base v x : x ∈ Validators_new v -> x ∈ validators_ fi v;
  ok_granted t v x : t ∈ advertised fi -> (v, x) ∈ values_of t -> x ∈ validators_ fi v;
  ok_flags : Forall (fun '(t, flag) => flag (feature_flags_ fi) = true <-> t ∈ advertised fi)
    flags_of;
}.

Definition grown (fi0 fi : FeatureInfo) : Prop :=
  features_ok fi /\ advertised fi0 ⊆ advertised fi.

(** ** Lemmas on the invariant *)

Lemma known_overlap t u :
  t ∈ known_extensions -> u ∈ known_extensions -> contains t u = true ->
  u = t \/ u = linear_of t.
Proof.
  assert (forallb (fun t => forallb (fun u => implb (contains t u)
    ((u =? t) || (u =? linear_of t))) known_extensions) known_extensions = true) as Hall
    by (vm_compute; reflexivity).
  rewrite forallb_forall in Hall. intros Ht Hu Hc.
  apply list_elem_of_In in Ht, Hu. specialize (Hall t Ht). rewrite forallb_forall in Hall.
  specialize (Hall u Hu). rewrite Hc in Hall. simpl in Hall.
  apply orb_prop in Hall as [->%String.eqb_eq| ->%String.eqb_eq]; auto.
Qed.

Lemma contains_self t : contains t t = true.
Proof.
  destruct t as [|c t]; [done|]. simpl.
  assert (forall s, String.prefix s s = true) as ->; [|by destruct (ascii_dec c c)].
  induction s as [|d s IH]; [done|]. simpl. by destruct (ascii_dec d d).
Qed.

Lemma known_is_word l : l ⊆ known_extensions -> Forall is_word l.
Proof.
  intros Hl. apply Forall_forall. intros t Ht%Hl. pose proof known_words as Hk.
  rewrite Forall_forall in Hk. by apply Hk.
Qed.

Lemma known_not_empty t : t ∈ known_extensions -> t <> EmptyString.
Proof.
  intros Ht. pose proof known_words as Hk. rewrite Forall_forall in Hk. by destruct (Hk t Ht).
Qed.

Lemma advertised_words fi l :
  extensions_ fi = String.concat " " l -> l ⊆ known_extensions -> advertised fi = list_to_set l.
Proof.
  intros He Hl. apply set_eq. intros t. unfold advertised. rewrite He.
  rewrite elem_of_difference, not_elem_of_singleton, elem_of_list_to_set.
  assert (t ∈ l -> t <> EmptyString) as Hne by (intros Ht%Hl; by apply known_not_empty).
  destruct l as [|u l].
  - unfold InitStringSet. simpl. set_solver.
  - rewrite InitStringSet_concat by (done || by apply known_is_word).
    rewrite elem_of_list_to_set. naive_solver.
Qed.

Lemma known_linear u : linear_of u ∈ known_extensions -> u <> EmptyString.
Proof.
  intros Hl ->. revert Hl. apply (bool_decide_eq_false _). vm_compute. reflexivity.
Qed.

Lemma AddExtensionString_words fi t :
  features_ok fi -> t ∈ known_extensions -> (forall u, t = linear_of u -> u ∈ advertised fi) ->
  exists l, extensions_ (AddExtensionString t fi) = String.concat " " l /\
    l ⊆ known_extensions /\ (forall u, linear_of u ∈ l -> u ∈ l) /\
    list_to_set l = advertised fi ∪ {[t]}.
Proof.
  intros [(l & He & Hl & Hlin) _ _ _ _] Ht Hu. unfold AddExtensionString.
  pose proof (known_is_word l Hl) as Hw.
  rewrite (advertised_words fi l He Hl) in *.
  assert (is_word t) as Htw by (pose proof known_words as Hk; rewrite Forall_forall in Hk; by apply Hk).
  rewrite He, contains_concat by done. destruct (existsb _ _) eqn:Ex; simpl.
  - apply existsb_exists in Ex as (u & Hul%list_elem_of_In & Hc).
    assert (t ∈ l) as Htl by (destruct (known_overlap t u Ht (Hl u Hul) Hc) as [->| ->]; auto).
    exists l. split_and!; [done..|]. set_solver.
  - exists (l ++ [t])%list. rewrite concat_snoc by done. split_and!; [done|set_solver| |].
    + intros u. rewrite !elem_of_app, !list_elem_of_singleton. intros [Hin|Heq]; [auto|].
      left. specialize (Hu u (eq_sym Heq)). by rewrite elem_of_list_to_set in Hu.
    + rewrite list_to_set_app_L. simpl. by rewrite (right_id_L ∅ (∪)).
Qed.

(** A group of [AddFeatures]: the extension [t] with its values and its flag. *)
Lemma grown_step fi0 fi t fi' :
  grown fi0 fi -> t ∈ known_extensions -> (forall u, t = linear_of u -> u ∈ advertised fi) ->
  extensions_ fi' = extensions_ (AddExtensionString t fi) ->
  (forall v x, x ∈ validators_ fi' v <-> x ∈ validators_ fi v \/ (v, x) ∈ values_of t) ->
  Forall (fun '(u, flag) => flag (feature_flags_ fi') = true <->
    flag (feature_flags_ fi) = true \/ u = t) flags_of ->
  grown fi0 fi' /\ advertised fi' = advertised fi ∪ {[t]}.
Proof.
  intros [Hok Hsub] Ht Hu Hext Hval Hflag.
  destruct (AddExtensionString_words fi t Hok Ht Hu) as (l & He & Hl & Hlin & Hla).
  rewrite <- Hext in He. assert (advertised fi' = advertised fi ∪ {[t]}) as Ha
    by (rewrite <- Hla; by apply advertised_words).
  destruct Hok as [_ Hv Hb Hg Hf]. split; [|done]. split; [|set_solver]. split.
  - eauto.
  - intros v x [Hx|Hx]%Hval; [|right; left; exists t; set_solver].
    destruct (Hv v x Hx) as [?|[(u & ? & ?)|(? & ? & ?)]]; rewrite Ha; [by left|right..].
    + left. exists u. split; [by apply elem_of_union_l|done].
    + right. split_and!; [done|by apply elem_of_union_l..].
  - intros v x Hx. apply Hval. left. by apply Hb.
  - intros u v x. rewrite Ha, elem_of_union, elem_of_singleton, Hval. intros [Hin| ->] Hx; [|by right].
    left. by eapply Hg.
  - rewrite Forall_forall in *. intros [u flag] Hin. specialize (Hf _ Hin). specialize (Hflag _ Hin).
    simpl in *. rewrite Hflag, Hf, Ha, elem_of_union, elem_of_singleton. done.
Qed.

Lemma grown_when fi0 fi b f :
  grown fi0 fi -> (b = true -> grown fi0 (f fi)) -> grown fi0 (when b f fi).
Proof. intros H Hf. destruct b; [by apply Hf|done]. Qed.

Lemma validators_AddExtensionString t fi :
  validators_ (AddExtensionString t fi) = validators_ fi.
Proof. unfold AddExtensionString. by case_match. Qed.

Lemma flags_AddExtensionString t fi :
  feature_flags_ (AddExtensionString t fi) = feature_flags_ fi.
Proof. unfold AddExtensionString. by case_match. Qed.

#[local] Ltac grown_values :=
  let v := fresh in let x := fresh in
  intros v x; cbn [validators_ add_value with_flags set_multisample set_derivatives set_external
    set_webglsl set_stream_texture];
  rewrite ?AddValue_elem, ?validators_AddExtensionString;
  cbn [validators_ add_value with_flags set_multisample];
  rewrite ?AddValue_elem, ?validators_AddExtensionString;
  match goal with |- context [values_of ?t] =>
    let r := eval vm_compute in (values_of t) in change (values_of t) with r end;
  rewrite ?elem_of_cons, ?elem_of_nil, ?pair_equal_spec; tauto.

#[local] Ltac grown_flags :=
  unfold flags_of; rewrite !Forall_cons, Forall_nil; split_and!; try done; cbn;
  rewrite ?flags_AddExtensionString; cbn; intuition congruence.

Fixpoint ends_linear (s : string) : bool :=
  (s =? "_linear") || match s with
                      | EmptyString => false
                      | String _ s => ends_linear s
                      end.

Lemma not_linear t (P : string -> Prop) : ends_linear t = false -> forall u, t = linear_of u -> P u.
Proof.
  intros Ht u ->. assert (ends_linear (linear_of u) = true); [|congruence]. clear.
  induction u as [|c u IH]; [done|]. change (linear_of (String c u)) with (String c (linear_of u)).
  cbn [ends_linear]. by rewrite IH, orb_true_r.
Qed.

(** The side conditions of [grown_step] for a group that is written out, on [fi]. *)
#[local] Ltac grown_sides :=
  [> done
  |apply (bool_decide_eq_true _); vm_compute; reflexivity
  |try by apply not_linear
  |first [reflexivity|unfold AddExtensionString; cbn; by case_match]
  |grown_values
  |grown_flags].

#[local] Ltac grown_tac t fi := refine (proj1 (grown_step _ fi t _ _ _ _ _ _ _)); grown_sides.
#[local] Ltac grown_both_tac t fi := refine (grown_step _ fi t _ _ _ _ _ _ _); grown_sides.

Lemma AddFeatures_anisotropic_grown ext fi0 fi :
  grown fi0 fi -> grown fi0 (AddFeatures_anisotropic ext fi).
Proof.
  intros H. apply grown_when; [done|]. intros _. grown_tac "GL_EXT_texture_filter_anisotropic" fi.
Qed.

(** An extension without values or flag. *)
Lemma grown_plain fi0 fi t :
  grown fi0 fi -> t ∈ known_extensions -> (forall u, t = linear_of u -> u ∈ advertised fi) ->
  values_of t = [] -> Forall (fun '(u, _) => u <> t) flags_of ->
  grown fi0 (AddExtensionString t fi) /\
  advertised (AddExtensionString t fi) = advertised fi ∪ {[t]}.
Proof.
  intros H Ht Hlin Hval Hflag. apply (grown_step _ fi t); try done.
  - intros v x. rewrite validators_AddExtensionString, Hval, elem_of_nil. tauto.
  - rewrite flags_AddExtensionString. rewrite Forall_forall in *. intros [u flag] Hin.
    specialize (Hflag _ Hin). simpl in Hflag. tauto.
Qed.

#[local] Ltac known_tac := apply (bool_decide_eq_true _); vm_compute; reflexivity.
#[local] Ltac no_flag_tac := unfold flags_of; rewrite !Forall_cons, Forall_nil; by split_and!.

#[local] Ltac grown_plain_tac :=
  refine (proj1 (grown_plain _ _ _ _ _ _ _ _));
  [|known_tac|by apply not_linear|done|no_flag_tac].

Lemma AddFeatures_chromium_grown ext desired fi0 fi :
  grown fi0 fi -> grown fi0 (AddFeatures_chromium ext desired fi).
Proof.
  intros H. unfold AddFeatures_chromium.
  assert (forall fi, grown fi0 fi ->
    grown fi0 (set_webglsl (AddExtensionString "GL_CHROMIUM_webglsl" fi))) as Hwebglsl
    by (intros fi' H'; grown_tac "GL_CHROMIUM_webglsl" fi').
  apply grown_when; [|intros _; apply Hwebglsl]; by repeat grown_plain_tac.
Qed.

Lemma AddFeatures_compression_grown ext fi0 fi :
  grown fi0 fi -> grown fi0 (AddFeatures_compression ext fi).
Proof.
  intros H. unfold AddFeatures_compression.
  set (fi1 := when _ _ fi). assert (grown fi0 fi1) as H1.
  { apply grown_when; [done|]. intros _. grown_tac "GL_EXT_texture_compression_dxt1" fi. }
  clearbody fi1. set (fi2 := when _ _ fi1). assert (grown fi0 fi2) as H2.
  { apply grown_when; [done|]. intros _. grown_tac "GL_CHROMIUM_texture_compression_dxt3" fi1. }
  clearbody fi2. apply grown_when; [done|]. intros _.
  grown_tac "GL_CHROMIUM_texture_compression_dxt5" fi2.
Qed.

Lemma AddFeatures_bgra_grown driver ext fi0 fi :
  grown fi0 fi -> grown fi0 (AddFeatures_bgra driver ext fi).
Proof.
  intros H. unfold AddFeatures_bgra.
  set (fi1 := when _ _ fi). assert (grown fi0 fi1) as H1.
  { apply grown_when; [done|]. intros _. grown_tac "GL_EXT_texture_format_BGRA8888" fi. }
  clearbody fi1. set (fi2 := when _ _ fi1). assert (grown fi0 fi2) as H2.
  { apply grown_when; [done|]. intros _. grown_tac "GL_EXT_read_format_bgra" fi1. }
  clearbody fi2. apply grown_when; [done|]. intros _. grown_tac "GL_OES_rgb8_rgba8" fi2.
Qed.

Lemma AddFeatures_oes_grown driver ext fi0 fi :
  grown fi0 fi -> grown fi0 (AddFeatures_oes driver ext fi).
Proof.
  intros H. unfold AddFeatures_oes.
  set (fi1 := when _ _ fi). assert (grown fi0 fi1) as H1.
  { apply grown_when; [done|]. intros _. grown_tac "GL_OES_depth24" fi. }
  clearbody fi1. set (fi2 := when _ _ fi1). assert (grown fi0 fi2) as H2.
  { apply grown_when; [done|]. intros _. grown_tac "GL_OES_standard_derivatives" fi1. }
  clearbody fi2. set (fi3 := when _ _ fi2). assert (grown fi0 fi3) as H3.
  { apply grown_when; [done|]. intros _. grown_tac "GL_OES_EGL_image_external" fi2. }
  clearbody fi3. apply grown_when; [done|]. intros _. grown_tac "GL_CHROMIUM_stream_texture" fi3.
Qed.

Lemma AddFeatures_multisample_grown ext fi0 fi :
  grown fi0 fi -> grown fi0 (AddFeatures_multisample ext fi).
Proof.
  intros H. apply grown_when; [done|]. intros _. grown_tac "GL_CHROMIUM_framebuffer_multisample" fi.
Qed.

Lemma AddFeatures_npot_grown ext fi0 fi :
  grown fi0 fi -> grown fi0 (AddFeatures_npot ext fi) /\
  (enable_npot ext = true -> "GL_OES_texture_npot" ∈ advertised (AddFeatures_npot ext fi)).
Proof.
  intros H. destruct (grown_plain fi0 fi "GL_OES_texture_npot" H) as [Hg Ha];
    [known_tac|by apply not_linear|done|no_flag_tac|].
  split; [by apply grown_when|]. intros Hb. unfold AddFeatures_npot. rewrite Hb. cbn [when].
  rewrite Ha. set_solver.
Qed.

(** The values of depth and stencil textures. *)
Lemma grown_depth_stencil fi0 fi fi' (e : bool) :
  grown fi0 fi -> extensions_ fi' = extensions_ fi -> feature_flags_ fi' = feature_flags_ fi ->
  (e = true -> "GL_OES_packed_depth_stencil" ∈ advertised fi /\
     "GL_GOOGLE_depth_texture" ∈ advertised fi) ->
  (forall v x, x ∈ validators_ fi' v <->
     x ∈ validators_ fi v \/ (e = true /\ (v, x) ∈ depth_stencil_values)) ->
  grown fi0 fi'.
Proof.
  intros [[Hw Hv Hb Hg Hf] Hsub] Hext Hflags He Hval.
  assert (advertised fi' = advertised fi) as Ha by (unfold advertised; by rewrite Hext).
  split; [|by rewrite Ha]. split; rewrite ?Hext, ?Hflags, ?Ha; [done| | | |done].
  - intros v x [Hx|(Ht & Hx)]%Hval; [by apply Hv|]. right; right. naive_solver.
  - intros v x Hx. apply Hval. left. by apply Hb.
  - intros t v x Ht Hx. apply Hval. left. by eapply Hg.
Qed.

Lemma AddFeatures_depth_grown ext fi0 fi :
  grown fi0 fi -> grown fi0 (AddFeatures_depth ext fi).
Proof.
  intros H. unfold AddFeatures_depth. set (e := Desire ext "GL_GOOGLE_depth_texture" && _).
  set (fi1 := when e _ fi).
  assert (grown fi0 fi1 /\ (e = true -> "GL_GOOGLE_depth_texture" ∈ advertised fi1)) as [H1 He].
  { subst fi1. destruct e; [|done]. cbn [when].
    match goal with |- grown _ ?f /\ _ => assert (grown fi0 f /\
      advertised f = advertised fi ∪ {["GL_GOOGLE_depth_texture"]}) as [? ->] end;
      [grown_both_tac "GL_GOOGLE_depth_texture" fi|set_solver]. }
  clearbody fi1. apply grown_when; [done|]. intros _.
  set (fiA := add_value Validator.render_buffer_format GL_DEPTH24_STENCIL8_OES
    (AddExtensionString "GL_OES_packed_depth_stencil" fi1)).
  assert (grown fi0 fiA /\ advertised fiA = advertised fi1 ∪ {["GL_OES_packed_depth_stencil"]})
    as [HA HAa] by (unfold fiA; grown_both_tac "GL_OES_packed_depth_stencil" fi1).
  eapply (grown_depth_stencil _ fiA _ e); [done|by destruct e..| |].
  - rewrite HAa. set_solver.
  - intros v x. subst fiA. cbn [validators_ add_value]. rewrite !AddValue_elem.
    destruct e; cbn [when validators_ add_value];
      rewrite ?AddValue_elem, ?validators_AddExtensionString; [|naive_solver].
    unfold depth_stencil_values. rewrite !elem_of_cons, elem_of_nil, !pair_equal_spec. tauto.
Qed.

Lemma linear_of_inj t u : linear_of t = linear_of u -> t = u.
Proof.
  assert (forall s, String.length (linear_of s) = (7 + String.length s)%nat) as Hlen.
  { induction s as [|c s IH]; [done|]. change (linear_of (String c s)) with (String c (linear_of s)).
    cbn [String.length]. lia. }
  revert u. induction t as [|c t IH]; intros [|d u] E.
  - done.
  - apply (f_equal String.length) in E. rewrite !Hlen in E. simpl in E. lia.
  - apply (f_equal String.length) in E. rewrite !Hlen in E. simpl in E. lia.
  - injection E as -> E. f_equal. by apply IH.
Qed.

(** A float extension, of values [type], with its linear filter. *)
Lemma grown_float fi0 fi fi' t type (float linear : bool) :
  t ∈ ["GL_OES_texture_float"; "GL_OES_texture_half_float"] ->
  values_of t = [(Validator.pixel_type, type)] -> grown fi0 fi ->
  fi' = (fi |> when float (fun fi =>
    fi |> add_value Validator.pixel_type type |> AddExtensionString t
       |> when linear (AddExtensionString (linear_of t)))) ->
  grown fi0 fi' /\ advertised fi ⊆ advertised fi' /\
  (float = true -> linear = true -> linear_of t ∈ advertised fi').
Proof.
  intros Ht Hval H ->. destruct float; [|by split_and!]. cbn [when].
  set (fi1 := AddExtensionString t (add_value Validator.pixel_type type fi)).
  assert (t ∈ known_extensions /\ ends_linear t = false /\
    linear_of t ∈ known_extensions /\ values_of (linear_of t) = [] /\
    Forall (fun '(u, _) => u <> t /\ u <> linear_of t) flags_of) as (Hk & He & Hkl & Hvl & Hf).
  { rewrite !elem_of_cons, elem_of_nil in Ht. destruct Ht as [->|[->|[]]]; (split_and!;
      [known_tac|done|known_tac|done|unfold flags_of; rewrite !Forall_cons, Forall_nil; by split_and!]). }
  assert (grown fi0 fi1 /\ advertised fi1 = advertised fi ∪ {[t]}) as [H1 Ha1].
  { apply (grown_step _ fi t); [done|done|by apply not_linear| | |].
    - unfold fi1, AddExtensionString. cbn. by case_match.
    - intros v x. unfold fi1. rewrite validators_AddExtensionString. cbn [validators_ add_value].
      rewrite AddValue_elem, Hval, list_elem_of_singleton, pair_equal_spec. tauto.
    - unfold fi1. rewrite flags_AddExtensionString. rewrite Forall_forall in *.
      intros [u flag] Hin. specialize (Hf _ Hin). simpl in Hf |- *. tauto. }
  destruct linear; cbn [when]; [|rewrite Ha1; split_and!; [done|set_solver|done]].
  destruct (grown_plain fi0 fi1 (linear_of t)) as [H2 Ha2]; [done|done| |done| |].
  - intros u Hu%linear_of_inj. subst u. rewrite Ha1. set_solver.
  - rewrite Forall_forall in *. intros [u flag] Hin. by destruct (Hf _ Hin).
  - rewrite Ha2, Ha1. split_and!; [done|set_solver..].
Qed.

Lemma AddFeatures_float_grown ext fi0 fi :
  grown fi0 fi -> grown fi0 (AddFeatures_float ext fi) /\
  advertised fi ⊆ advertised (AddFeatures_float ext fi) /\
  Forall (fun t => snd (enable_float ext t (linear_of t)) = true ->
    linear_of t ∈ advertised (AddFeatures_float ext fi))
    ["GL_OES_texture_float"; "GL_OES_texture_half_float"].
Proof.
  intros H. unfold AddFeatures_float.
  assert (forall t, snd (enable_float ext t (linear_of t)) = true ->
    fst (enable_float ext t (linear_of t)) = true) as Hfst
    by (intros t; unfold enable_float; by repeat case_match).
  change "GL_OES_texture_float_linear" with (linear_of "GL_OES_texture_float").
  change "GL_OES_texture_half_float_linear" with (linear_of "GL_OES_texture_half_float").
  rewrite !Forall_cons, Forall_nil.
  pose proof (Hfst "GL_OES_texture_float") as Hf. pose proof (Hfst "GL_OES_texture_half_float") as Hh.
  clear Hfst. destruct (enable_float ext "GL_OES_texture_float" _) as [f fl].
  destruct (enable_float ext "GL_OES_texture_half_float" _) as [h hl]. simpl in Hf, Hh.
  set (fi1 := when f _ fi). set (fi2 := when h _ fi1).
  destruct (grown_float fi0 fi fi1 "GL_OES_texture_float" GL_FLOAT f fl) as (H1 & Hs1 & Hl1);
    [set_solver|done|done|done|].
  destruct (grown_float fi0 fi1 fi2 "GL_OES_texture_half_float" GL_HALF_FLOAT_OES h hl)
    as (H2 & Hs2 & Hl2); [set_solver|done|done|done|].
  split_and!; [done|set_solver| | |done]; simpl; intros ?; [|by apply Hl2; auto].
  apply Hs2. apply Hl1; auto.
Qed.

Lemma grown_trans fi0 fi1 fi2 : grown fi0 fi1 -> grown fi1 fi2 -> grown fi0 fi2.
Proof. intros [_ H1] [H2 H3]. split; [done|]. by etransitivity. Qed.

Lemma grown_refl fi : features_ok fi -> grown fi fi.
Proof. by split. Qed.

Lemma set_texture_flags_ok a b c fi : features_ok fi -> features_ok (set_texture_flags a b c fi).
Proof.
  intros [Hw Hv Hb Hg Hf]. split; try done. unfold flags_of in *. rewrite !Forall_cons, Forall_nil in *.
  destruct Hf as (H1 & H2 & H3 & H4 & H5 & _).
  exact (conj H1 (conj H2 (conj H3 (conj H4 (conj H5 I))))).
Qed.

Lemma AddFeatures_ok driver desired_features fi :
  features_ok fi -> let fi' := AddFeatures driver desired_features fi in
  features_ok fi' /\ advertised fi ⊆ advertised fi' /\
  (npot_ok (feature_flags_ fi') = true -> "GL_OES_texture_npot" ∈ advertised fi') /\
  (enable_texture_float_linear (feature_flags_ fi') = true ->
     "GL_OES_texture_float_linear" ∈ advertised fi') /\
  (enable_texture_half_float_linear (feature_flags_ fi') = true ->
     "GL_OES_texture_half_float_linear" ∈ advertised fi').
Proof.
  intros Hok. unfold AddFeatures.
  set (ext := ExtensionHelper_new _ _).
  pose proof (AddFeatures_bgra_grown driver ext _ _ (AddFeatures_depth_grown ext _ _
    (AddFeatures_anisotropic_grown ext _ _ (AddFeatures_compression_grown ext _ _
    (AddFeatures_chromium_grown ext (bool_decide (desired_features <> None)) _ _
      (grown_refl fi Hok)))))) as H1.
  set (fi1 := AddFeatures_bgra _ _ _) in *. clearbody fi1.
  destruct (AddFeatures_npot_grown ext fi fi1 H1) as [H2 Hn].
  set (fi2 := AddFeatures_npot ext fi1) in *. clearbody fi2.
  destruct (AddFeatures_float_grown ext fi2 fi2) as (H3 & Hs3 & Hf); [apply grown_refl, H2|].
  set (fi3 := AddFeatures_float ext fi2) in *. clearbody fi3.
  rewrite !Forall_cons in Hf. destruct Hf as (Hf & Hh & _).
  pose proof (AddFeatures_oes_grown driver ext fi3 _ (AddFeatures_multisample_grown ext fi3 fi3
    (grown_refl fi3 (proj1 H3)))) as H4.
  set (fi4 := AddFeatures_oes _ _ _) in *. clearbody fi4.
  destruct H2 as [_ H2], H3 as [_ H3], H4 as [Hok4 H4].
  assert (forall x y z, advertised (set_texture_flags x y z fi4) = advertised fi4) as Ha by done.
  cbv zeta. rewrite Ha. split_and!; [by apply set_texture_flags_ok|set_solver|simpl..]; intros He.
  - apply H4, H3, Hn, He.
  - apply H4, Hf, He.
  - apply H4, Hh, He.
Qed.

Lemma FeatureInfo_new_ok multisampling :
  features_ok (mkFeatureInfo Validators_new multisampling EmptyString FeatureFlags_new).
Proof.
  split; simpl.
  - exists []. split_and!; [done|set_solver..].
  - auto.
  - auto.
  - intros t v x. unfold advertised, InitStringSet. simpl. set_solver.
  - unfold flags_of. rewrite !Forall_cons, Forall_nil.
    unfold advertised, InitStringSet. simpl. set_solver.
Qed.

(** The features of a context group: [Initialize], then what its clients request. *)
Inductive feature_reach (driver : Driver) : FeatureInfo -> Prop :=
| reach_Initialize disallowed allowed_features :
    feature_reach driver (Initialize driver disallowed allowed_features FeatureInfo_new)
| reach_AddFeatures desired_features fi :
    feature_reach driver fi -> feature_reach driver (AddFeatures driver desired_features fi).

Lemma feature_reach_ok driver fi : feature_reach driver fi -> features_ok fi.
Proof. induction 1; apply AddFeatures_ok; [apply FeatureInfo_new_ok|done]. Qed.

(** Every value a validator can have. *)
Definition possible_values (v : Validator.t) : list Z :=
  (Validators_new v ++ map snd (filter (fun '(w, _) => w = v)
     (depth_stencil_values ++ flat_map values_of known_extensions)))%list.

Lemma possible_values_all fi v x :
  features_ok fi -> x ∈ validators_ fi v -> x ∈ possible_values v.
Proof.
  intros [(l & He & Hl & _) Hv _ _ _] Hx. unfold possible_values. rewrite elem_of_app.
  destruct (Hv v x Hx) as [|Hg]; [by left|]. right. apply list_elem_of_fmap.
  exists (v, x). split; [done|]. apply list_elem_of_filter. split; [done|].
  rewrite elem_of_app. destruct Hg as [(t & Ht & Hin)|(Hin & _)]; [|by left]. right.
  rewrite (advertised_words fi l He Hl), elem_of_list_to_set in Ht.
  apply list_elem_of_In, in_flat_map. exists t. split; apply list_elem_of_In; auto.
Qed.

(** ** Properties *)



(** Whatever features a context has, every format and type of pixels that the
    validators accept has a size, so that [ComputeImageDataSize] is never zero for an
    image with pixels. *)
Theorem valid_pixels_have_size driver fi format type :
  feature_reach driver fi ->
  IsValid format (validators_ fi Validator.texture_format) = true ->
  IsValid type (validators_ fi Validator.pixel_type) = true ->
  1 <= BytesPerElement type * ElementsPerGroup format type <= 16.
Proof.
  intros Hok%feature_reach_ok Hf%IsValid_true Ht%IsValid_true.
  apply (possible_values_all _ _ _ Hok) in Hf, Ht.
  assert (forallb (fun f => forallb (fun t =>
    let n := BytesPerElement t * ElementsPerGroup f t in (1 <=? n) && (n <=? 16))%Z
      (possible_values Validator.pixel_type)) (possible_values Validator.texture_format) = true)
    as Hall by (vm_compute; reflexivity).
  rewrite forallb_forall in Hall. apply list_elem_of_In in Hf, Ht.
  specialize (Hall _ Hf). rewrite forallb_forall in Hall. specialize (Hall _ Ht). simpl in Hall. lia.
Qed.

Lemma valid_pixels_have_size_witness :
  1 <= BytesPerElement GL_FLOAT * ElementsPerGroup GL_RGBA GL_FLOAT <= 16.
Proof.
  apply (valid_pixels_have_size example_driver
    (Initialize example_driver false None FeatureInfo_new));
    [apply reach_Initialize|vm_compute; reflexivity..].
Defined.

(** A feature that was turned on is silently turned off by the next request.  When
    the client requests extensions that do not name [GL_OES_texture_npot],
    [AddFeatures] resets [npot_ok], although the extension is still advertised. *)
Theorem AddFeatures_forgets_npot driver fi request :
  feature_reach driver fi -> npot_ok (feature_flags_ fi) = true -> request <> "*" ->
  "GL_OES_texture_npot" ∉ InitStringSet (Some request) ->
  let fi' := AddFeatures driver (Some request) fi in
  npot_ok (feature_flags_ fi') = false /\ "GL_OES_texture_npot" ∈ advertised fi'.
Proof.
  intros Hr Hn Hne Hreq fi'. split.
  - unfold fi', AddFeatures. simpl. unfold enable_npot, Desire, ExtensionHelper_new.
    rewrite (bool_decide_eq_false_2 (Some request = Some "*")) by congruence. simpl.
    by rewrite (bool_decide_eq_false_2 _ Hreq).
  - destruct (AddFeatures_ok driver (Some request) fi (feature_reach_ok _ _ Hr)) as (_ & Hsub & _).
    apply Hsub. destruct Hr as [disallowed allowed|desired fi Hr];
      (apply AddFeatures_ok; [|done]); [apply FeatureInfo_new_ok|by eapply feature_reach_ok].
Qed.

Lemma AddFeatures_forgets_npot_witness :
  let fi := Initialize example_driver false None FeatureInfo_new in
  npot_ok (feature_flags_ (AddFeatures example_driver (Some "GL_OES_texture_float") fi)) = false.
Proof.
  apply (AddFeatures_forgets_npot example_driver _ "GL_OES_texture_float").
  - apply reach_Initialize.
  - vm_compute. reflexivity.
  - done.
  - apply (bool_decide_eq_false _). vm_compute. reflexivity.
Defined.
