(* ===== verification/BufferManager.v ===== *)
(** * The buffer manager

    [gpu/command_buffer/service/buffer_manager.{h,cc}]: the buffers of a context, with a
    copy of the data of index buffers and a cache of the highest index in each range that
    was drawn. *)

From Stdlib Require Import ZArith Lia ZifyBool Bool.
From stdpp Require Import base numbers option gmap sets list.
From S2P Require Import Prelude GLConstants GLES2Util.
Local Open Scope Z_scope.

(** ** Data *)

(** A range of a buffer: offset, count and type. *)
Definition Range : Type := Z * Z * Z.

(** [shadow_] is [None] when the [scoped_array] is empty. *)
Record BufferInfo := mkBufferInfo {
  service_id_ : Z;
  target_ : Z;
  size_ : Z;
  usage_ : Z;
  shadowed_ : bool;
  shadow_ : option (list Z);
  range_set_ : gmap Range Z;
}.

Definition BufferInfo_new (service_id : Z) : BufferInfo :=
  mkBufferInfo service_id 0 0 GL_STATIC_DRAW false None ∅.

Definition IsDeleted (b : BufferInfo) : bool := service_id_ b =? 0.
Definition IsValid (b : BufferInfo) : bool := negb (target_ b =? 0) && negb (IsDeleted b).

Definition set_target (target : Z) (b : BufferInfo) : BufferInfo :=
  mkBufferInfo (service_id_ b) target (size_ b) (usage_ b) (shadowed_ b) (shadow_ b)
    (range_set_ b).

Definition ClearCache (b : BufferInfo) : BufferInfo :=
  mkBufferInfo (service_id_ b) (target_ b) (size_ b) (usage_ b) (shadowed_ b) (shadow_ b) ∅.

Definition MarkAsDeleted (b : BufferInfo) : BufferInfo :=
  ClearCache (mkBufferInfo 0 (target_ b) (size_ b) (usage_ b) (shadowed_ b) None (range_set_ b)).

Definition with_usage (b : BufferInfo) (usage : Z) : BufferInfo :=
  mkBufferInfo (service_id_ b) (target_ b) (size_ b) usage (shadowed_ b) (shadow_ b)
    (range_set_ b).

(** ** Operations on a buffer *)

Section info.
Context `{Platform}.

(** [GLsizeiptr] and [GLintptr] are signed and as wide as a pointer; the sums of the
    source are meant to wrap around. *)
Definition isize (x : Z) : Z :=
  (x + 2 ^ (size_bits - 1)) mod 2 ^ size_bits - 2 ^ (size_bits - 1).

Definition BufferInfo_SetInfo (size usage : Z) (shadow : bool) (b : BufferInfo) : BufferInfo :=
  let b := with_usage b usage in
  if negb (size =? size_ b) || negb (eqb shadow (shadowed_ b))
  then ClearCache (mkBufferInfo (service_id_ b) (target_ b) size (usage_ b) shadow
         (if shadow then Some (replicate (Z.to_nat size) 0) else shadow_ b) (range_set_ b))
  else b.

(** The test that [SetRange] and [GetRange] share. *)
Definition out_of_range (offset size : Z) (b : BufferInfo) : bool :=
  (offset <? 0) || (isize (offset + size) <? offset) || (isize (offset + size) >? size_ b).

(** [data] is the memory that is copied, [size] bytes. *)
Definition SetRange (offset size : Z) (data : list Z) (b : BufferInfo)
    : outcome (bool * BufferInfo) :=
  if out_of_range offset size b then Done (false, b)
  else if shadowed_ b then
    (do shadow <- of_option (shadow_ b) ;;
     do shadow <- of_option (zwrite shadow offset data) ;;
     Done (true, ClearCache (mkBufferInfo (service_id_ b) (target_ b) (size_ b) (usage_ b)
                               (shadowed_ b) (Some shadow) (range_set_ b))))%gpu
  else Done (true, b).

(** The pointer is answered as an offset into the shadow. *)
Definition GetRange (offset size : Z) (b : BufferInfo) : option Z :=
  if negb (shadowed_ b) then None
  else if out_of_range offset size b then None
  else Some offset.

(** The elements are [width] bytes wide. *)
Fixpoint GetMaxValue_loop (n : nat) (width : Z) (data : list Z) (element max_value : Z)
    : outcome Z :=
  match n with
  | O => Done max_value
  | S n =>
      (do bytes <- of_option (zread data element width) ;;
       let value := le_word bytes in
       GetMaxValue_loop n width data (element + width)
         (if value >? max_value then value else max_value))%gpu
  end.

Definition GetMaxValue (width : Z) (data : option (list Z)) (offset count : Z) : outcome Z :=
  if 0 <? count
  then (do data <- of_option data ;; GetMaxValue_loop (Z.to_nat count) width data offset 0)%gpu
  else Done 0.

(** [GetMaxValueForRange] when the range is not in the cache: [None] is the answer
    [false]. *)
Definition scan_range (offset count type : Z) (b : BufferInfo) : outcome (option Z) :=
  let '(ok, size) :=
    SafeMultiplyUint32 (u32 count) (GetGLTypeSizeForTexturesAndBuffers type) in
  if negb ok then Done None
  else
    let '(ok, size) := SafeAddUint32 offset size in
    if negb ok then Done None
    else if size >? u32 (size_ b) then Done None
    else if negb (shadowed_ b) then Done None
    else if type =? GL_UNSIGNED_BYTE then
      (do v <- GetMaxValue 1 (shadow_ b) offset count ;; Done (Some v))%gpu
    else if type =? GL_UNSIGNED_SHORT then
      if negb (Z.land offset 1 =? 0) then Done None
      else (do v <- GetMaxValue 2 (shadow_ b) offset count ;; Done (Some v))%gpu
    else if type =? GL_UNSIGNED_INT then
      if negb (Z.land offset 3 =? 0) then Done None
      else (do v <- GetMaxValue 4 (shadow_ b) offset count ;; Done (Some v))%gpu
    else Done (Some 0).

Definition GetMaxValueForRange (offset count type : Z) (b : BufferInfo)
    : outcome (option Z * BufferInfo) :=
  match range_set_ b !! (offset, count, type) with
  | Some max_value => Done (Some max_value, b)
  | None =>
      (do r <- scan_range offset count type b ;;
       match r with
       | Some max_v =>
           Done (Some max_v,
                 mkBufferInfo (service_id_ b) (target_ b) (size_ b) (usage_ b) (shadowed_ b)
                   (shadow_ b) (<[(offset, count, type) := max_v]> (range_set_ b)))
       | None => Done (None, b)
       end)%gpu
  end.

(** ** The manager

    A buffer is shared between the manager and the decoders that have it bound:
    [objects] holds the buffers, by address, and [buffer_infos_] has addresses. *)
Record BufferManager := mkBufferManager {
  objects : gmap Z BufferInfo;
  buffer_infos_ : gmap Z Z;
  next_object : Z;
  allow_buffers_on_multiple_targets_ : bool;
}.

Definition BufferManager_new : BufferManager := mkBufferManager ∅ ∅ 0 false.

Definition with_object (m : BufferManager) (a : Z) (b : BufferInfo) : BufferManager :=
  mkBufferManager (<[a := b]> (objects m)) (buffer_infos_ m) (next_object m)
    (allow_buffers_on_multiple_targets_ m).

Definition CreateBufferInfo (client_id service_id : Z) (m : BufferManager) : BufferManager :=
  let a := next_object m in
  mkBufferManager (<[a := BufferInfo_new service_id]> (objects m))
    (match buffer_infos_ m !! client_id with
     | Some _ => buffer_infos_ m
     | None => <[client_id := a]> (buffer_infos_ m)
     end) (a + 1) (allow_buffers_on_multiple_targets_ m).

Definition GetBufferInfo (client_id : Z) (m : BufferManager) : option Z :=
  buffer_infos_ m !! client_id.

Definition RemoveBufferInfo (client_id : Z) (m : BufferManager) : BufferManager :=
  match buffer_infos_ m !! client_id with
  | Some a =>
      mkBufferManager (alter MarkAsDeleted a (objects m)) (base.delete client_id (buffer_infos_ m))
        (next_object m) (allow_buffers_on_multiple_targets_ m)
  | None => m
  end.

(** [order] is the order in which the hash map is visited. *)
Definition GetClientId (order : list (Z * Z)) (service_id : Z) (m : BufferManager) : option Z :=
  fst <$> find (fun '(_, a) =>
                  match objects m !! a with
                  | Some b => service_id_ b =? service_id
                  | None => false
                  end) order.

Definition SetInfo (a size usage : Z) (m : BufferManager) : outcome BufferManager :=
  (do b <- of_option (objects m !! a) ;;
   Done (with_object m a
     (BufferInfo_SetInfo size usage
        ((target_ b =? GL_ELEMENT_ARRAY_BUFFER) || allow_buffers_on_multiple_targets_ m) b)))%gpu.

Definition SetTarget (a target : Z) (m : BufferManager) : outcome (bool * BufferManager) :=
  (do b <- of_option (objects m !! a) ;;
   if negb (target_ b =? 0) && negb (target_ b =? target) &&
      negb (allow_buffers_on_multiple_targets_ m)
   then Done (false, m)
   else if target_ b =? 0 then Done (true, with_object m a (set_target target b))
   else Done (true, m))%gpu.

(** [Destroy]: the buffers, from the first of the map on, are deleted with their
    service ids when there is a context; the answer is the ids given to
    [glDeleteBuffersARB]. *)
Fixpoint Destroy_loop (have_context : bool) (order : list (Z * Z)) (objs : gmap Z BufferInfo)
    : list Z * gmap Z BufferInfo :=
  match order with
  | [] => ([], objs)
  | (_, a) :: order =>
      match objs !! a with
      | Some b =>
          if have_context && negb (IsDeleted b) then
            let '(ids, objs) := Destroy_loop have_context order (<[a := MarkAsDeleted b]> objs) in
            (service_id_ b :: ids, objs)
          else Destroy_loop have_context order objs
      | None => Destroy_loop have_context order objs
      end
  end.

Definition Destroy (have_context : bool) (order : list (Z * Z)) (m : BufferManager)
    : list Z * BufferManager :=
  let '(ids, objs) := Destroy_loop have_context order (objects m) in
  (ids, mkBufferManager objs ∅ (next_object m) (allow_buffers_on_multiple_targets_ m)).

End info.

(** ** Lemmas on the scan *)

Definition index_types : list Z := [GL_UNSIGNED_BYTE; GL_UNSIGNED_SHORT; GL_UNSIGNED_INT].

(** The element of [width] bytes at a position of the data. *)
Definition index_at (data : list Z) (width pos : Z) : option Z := le_word <$> zread data pos width.

Lemma le_word_nonneg bs : Forall is_byte bs -> 0 <= le_word bs.
Proof.
  induction 1 as [|b bs Hb _ IH]; simpl; [lia|]. unfold is_byte in Hb. lia.
Qed.

Lemma zread_Forall {A} (P : A -> Prop) l off n r :
  Forall P l -> zread l off n = Some r -> Forall P r.
Proof. intros Hl (_ & _ & _ & ->)%zread_inv. auto using Forall_take, Forall_drop. Qed.

Lemma GetMaxValue_loop_ok n width data e mx :
  0 < width -> 0 <= e -> e + Z.of_nat n * width <= zlen data -> Forall is_byte data ->
  exists m, GetMaxValue_loop n width data e mx = Done m /\ mx <= m /\
    (forall i, 0 <= i < Z.of_nat n -> exists v, index_at data width (e + i * width) = Some v /\
       0 <= v <= m) /\
    (m = mx \/ exists i, 0 <= i < Z.of_nat n /\ index_at data width (e + i * width) = Some m).
Proof.
  intros Hw He Hlen Hb. revert e mx He Hlen. induction n as [|n IH]; intros e mx He Hlen.
  { exists mx. split_and!; [done|lia|lia|by left]. }
  cbn [GetMaxValue_loop]. destruct (zread_Some data e width) as (bs & Ebs & _); [lia..|].
  rewrite Ebs. cbn [of_option obind].
  pose proof (le_word_nonneg bs (zread_Forall _ _ _ _ _ Hb Ebs)) as Hnn.
  assert (index_at data width (e + 0 * width) = Some (le_word bs)) as H0.
  { unfold index_at. by rewrite Z.mul_0_l, Z.add_0_r, Ebs. }
  set (mx' := if le_word bs >? mx then le_word bs else mx).
  assert (mx <= mx' /\ le_word bs <= mx' /\ (mx' = mx \/ mx' = le_word bs)) as (Hm1 & Hm2 & Hm3)
    by (subst mx'; case_match; zbool; lia).
  destruct (IH (e + width) mx') as (m & -> & Hm & Hall & Hat); [lia|lia|].
  exists m. split_and!; [done|lia| |].
  - intros i Hi. destruct (Z.eq_dec i 0) as [->|]; [exists (le_word bs); split; [done|lia]|].
    destruct (Hall (i - 1)) as (v & Hv & ?); [lia|]. exists v. split; [|done].
    rewrite <- Hv. f_equal. lia.
  - destruct Hat as [->|(i & Hi & Hv)].
    + destruct Hm3 as [->| ->]; [by left|right; exists 0; split; [lia|done]].
    + right. exists (i + 1). split; [lia|]. rewrite <- Hv. f_equal. lia.
Qed.

(** ** Invariant *)

Section invariant.
Context `{Platform}.

Record info_ok (b : BufferInfo) : Prop := {
  ok_size : 0 <= size_ b < 2 ^ (size_bits - 1);
  ok_shadow : shadowed_ b = true -> IsDeleted b = false ->
    exists s, shadow_ b = Some s /\ zlen s = size_ b /\ Forall is_byte s;
  ok_cache : forall o c t m, range_set_ b !! (o, c, t) = Some m ->
    scan_range o c t b = Done (Some m);
}.

(** What the operations can make of a buffer; the sizes are those [DoBufferData] lets
    through, and [data] is memory of [size] bytes. *)
Inductive info_reach : BufferInfo -> Prop :=
| reach_new id : info_reach (BufferInfo_new id)
| reach_set_target b t : info_reach b -> info_reach (set_target t b)
| reach_SetInfo b size usage shadow : info_reach b -> IsDeleted b = false ->
    0 <= size < 2 ^ (size_bits - 1) -> info_reach (BufferInfo_SetInfo size usage shadow b)
| reach_SetRange b offset size data r b' : info_reach b -> IsDeleted b = false ->
    zlen data = size -> Forall is_byte data ->
    SetRange offset size data b = Done (r, b') -> info_reach b'
| reach_GetMaxValueForRange b o c t r b' : info_reach b -> IsDeleted b = false ->
    GetMaxValueForRange o c t b = Done (r, b') -> info_reach b'
| reach_MarkAsDeleted b : info_reach b -> info_reach (MarkAsDeleted b).

Lemma info_reach_ok b : info_reach b -> info_ok b.
Proof.
  assert (0 < 2 ^ (size_bits - 1)) as Hpos by (destruct size_bits_ok as [-> | ->]; lia).
  induction 1 as
    [id|b t Hr [Hs Hsh Hc]|b size usage shadow Hr [Hs Hsh Hc] Hd Hsize
    |b offset size data r b' Hr [Hs Hsh Hc] Hd Hlen Hbytes E
    |b o c t r b' Hr [Hs Hsh Hc] Hd E|b Hr [Hs Hsh Hc]].
  - split; simpl; [lia|done|]. intros o c t m. by rewrite lookup_empty.
  - by split.
  - unfold BufferInfo_SetInfo. destruct (_ || _) eqn:Echg; [|by split].
    split; simpl; [done| |].
    + intros -> _. eexists. split; [done|]. split; [apply zlen_replicate; lia|].
      apply Forall_replicate. unfold is_byte. lia.
    + intros o c t m. by rewrite lookup_empty.
  - unfold SetRange in E. assert (info_ok b) as Hb by by split.
    destruct (out_of_range _ _ _); [by simplify_eq|].
    destruct (shadowed_ b) eqn:Esh; [|by simplify_eq].
    destruct (Hsh eq_refl Hd) as (s & Es & Hls & Hbs). rewrite Es in E. cbn [of_option obind] in E.
    destruct (zwrite s offset data) as [s'|] eqn:Ew; [|done]. cbn [of_option obind] in E.
    simplify_eq. split; simpl; [done| |].
    + intros _ _. exists s'. split_and!; [done| |].
      * by rewrite (zlen_zwrite _ _ _ _ Ew).
      * exact (zwrite_Forall is_byte _ _ _ _ Hbs Hbytes Ew).
    + intros o c t m. by rewrite lookup_empty.
  - assert (info_ok b) as Hb by by split.
    unfold GetMaxValueForRange in E. destruct (range_set_ b !! _) eqn:El; [by simplify_eq|].
    destruct (scan_range o c t b) as [[m|]| |] eqn:Escan; cbn [obind] in E; simplify_eq; [|by split].
    split; simpl; [done|done|]. intros o' c' t' m'. rewrite lookup_insert_Some.
    intros [[[= <- <- <-] <-]|[_ Hm]]; [exact Escan|by apply Hc].
  - split; simpl; [done|done|]. intros o c t m. by rewrite lookup_empty.
Qed.

(** The scan reads inside the shadow, whatever it is asked. *)
Lemma scan_range_ok b o c t :
  info_ok b -> IsDeleted b = false -> is_u32 o -> is_i32 c -> t ∈ index_types ->
  let w := GetGLTypeSizeForTexturesAndBuffers t in
  exists r, scan_range o c t b = Done r /\
    match r with
    | Some m =>
        exists s, shadow_ b = Some s /\ zlen s = size_ b /\ 0 <= m /\
        (forall i, 0 <= i < c -> o + (i + 1) * w <= size_ b /\
           exists v, index_at s w (o + i * w) = Some v /\ 0 <= v <= m) /\
        (m = 0 \/ exists i, 0 <= i < c /\ index_at s w (o + i * w) = Some m)
    | None => shadowed_ b = false \/ u32 (size_ b) < o + u32 c * w \/ o mod w <> 0
    end.
Proof.
  intros [Hs Hsh _] Hd Ho Hc Ht. unfold is_u32, is_i32 in *.
  pose proof (u32_range c) as Hcu. unfold is_u32 in Hcu.
  assert (0 <= u32 (size_ b) <= size_ b /\ u32 (size_ b) < 2 ^ 32) as Hsu.
  { unfold u32. pose proof (Z.mod_pos_bound (size_ b) (2 ^ 32)).
    pose proof (Z.mod_le (size_ b) (2 ^ 32)). lia. }
  assert (exists w, GetGLTypeSizeForTexturesAndBuffers t = w /\ 0 < w <= 4 /\
    forall (P : outcome (option Z) -> Prop),
      ((shadowed_ b = false \/ u32 (size_ b) < o + u32 c * w \/ o mod w <> 0) -> P (Done None)) ->
      (shadowed_ b = true -> o + u32 c * w <= u32 (size_ b) ->
       P (do v <- GetMaxValue w (shadow_ b) o c ;; Done (Some v))%gpu) ->
      P (scan_range o c t b)) as (w & -> & Hw & Hcases).
  { exists (GetGLTypeSizeForTexturesAndBuffers t). split; [done|].
    assert (0 < GetGLTypeSizeForTexturesAndBuffers t <= 4) as Hw.
    { unfold index_types in Ht. rewrite !elem_of_cons in Ht.
      destruct Ht as [->|[->|[->|[]%elem_of_nil]]]; vm_compute; split; congruence. }
    split; [done|]. intros P Hnone Hsome. unfold scan_range.
    rewrite SafeMultiplyUint32_exact by (unfold is_u32; lia).
    destruct (_ <? 2 ^ 32) eqn:E1; zbool; cbn [negb]; [|apply Hnone; lia].
    rewrite SafeAddUint32_exact by (unfold is_u32; lia).
    destruct (_ <? 2 ^ 32) eqn:E2; zbool; cbn [negb]; [|apply Hnone; lia].
    destruct (_ >? _) eqn:E3; zbool; [apply Hnone; lia|].
    destruct (shadowed_ b) eqn:Esh; cbn [negb]; [|apply Hnone; by left].
    specialize (Hsome eq_refl ltac:(lia)).
    unfold index_types in Ht. rewrite !elem_of_cons in Ht.
    destruct Ht as [->|[->|[->|[]%elem_of_nil]]].
    - exact Hsome.
    - change (GL_UNSIGNED_SHORT =? GL_UNSIGNED_BYTE) with false.
      change (GL_UNSIGNED_SHORT =? GL_UNSIGNED_SHORT) with true. cbn iota.
      destruct (Z.land o 1 =? 0) eqn:El; zbool; cbn [negb]; [exact Hsome|apply Hnone].
      right. right. change (GetGLTypeSizeForTexturesAndBuffers GL_UNSIGNED_SHORT) with (2 ^ 1).
      rewrite <- Z.land_ones by lia. done.
    - change (GL_UNSIGNED_INT =? GL_UNSIGNED_BYTE) with false.
      change (GL_UNSIGNED_INT =? GL_UNSIGNED_SHORT) with false.
      change (GL_UNSIGNED_INT =? GL_UNSIGNED_INT) with true. cbn iota.
      destruct (Z.land o 3 =? 0) eqn:El; zbool; cbn [negb]; [exact Hsome|apply Hnone].
      right. right. change (GetGLTypeSizeForTexturesAndBuffers GL_UNSIGNED_INT) with (2 ^ 2).
      rewrite <- Z.land_ones by lia. done. }
  apply Hcases; [intros Hn; by exists None|]. intros Esh Hfit.
  destruct (Hsh Esh Hd) as (s & Es & Hls & Hbs). unfold GetMaxValue. rewrite Es.
  destruct (0 <? c) eqn:Ec; zbool; cbn [of_option obind].
  - rewrite (u32_id c) in Hfit by (unfold is_u32; lia).
    destruct (GetMaxValue_loop_ok (Z.to_nat c) w s o 0) as (m & -> & Hm & Hall & Hat);
      [lia|lia|rewrite Z2Nat.id by lia; lia|done|].
    rewrite Z2Nat.id in * by lia. cbn [obind]. exists (Some m). split; [done|].
    exists s. split_and!; [done|done|done| |done].
    intros i Hi. split; [nia|]. by apply Hall.
  - exists (Some 0). split; [done|]. exists s. split_and!; [done|done|done|lia|by left].
Qed.

(** C35: [GetMaxValueForRange], its cache included, never reads outside the data of
    the buffer, whatever the range; when it answers a value, the whole range is
    inside the buffer, no index in it is greater than the value, and the value is
    one of them (or 0).  It refuses only ranges that are outside, misaligned, or
    of a buffer that is not shadowed. *)
Theorem GetMaxValueForRange_bounds b o c t :
  info_reach b -> IsDeleted b = false -> is_u32 o -> is_i32 c -> t ∈ index_types ->
  let w := GetGLTypeSizeForTexturesAndBuffers t in
  exists r b', GetMaxValueForRange o c t b = Done (r, b') /\
    match r with
    | Some m =>
        exists s, shadow_ b = Some s /\ zlen s = size_ b /\ 0 <= m /\
        (forall i, 0 <= i < c -> o + (i + 1) * w <= size_ b /\
           exists v, index_at s w (o + i * w) = Some v /\ 0 <= v <= m) /\
        (m = 0 \/ exists i, 0 <= i < c /\ index_at s w (o + i * w) = Some m)
    | None => shadowed_ b = false \/ u32 (size_ b) < o + u32 c * w \/ o mod w <> 0
    end.
Proof.
  intros Hr%info_reach_ok Hd Ho Hc Ht w.
  destruct (scan_range_ok b o c t Hr Hd Ho Hc Ht) as (r & E & Hres).
  unfold GetMaxValueForRange. destruct (range_set_ b !! (o, c, t)) as [m|] eqn:El.
  - exists (Some m), b. split; [done|]. apply Hr in El. rewrite E in El. simplify_eq. exact Hres.
  - rewrite E. cbn [obind]. destruct r as [m|]; eexists _, _; (split; [done|]); exact Hres.
Qed.

End invariant.

(** ** Witness *)

(** Four 16-bit indices: 3, 700, 2, 9. *)
Definition example_buffer : BufferInfo :=
  mkBufferInfo 5 GL_ELEMENT_ARRAY_BUFFER 8 GL_STATIC_DRAW true (Some [3; 0; 188; 2; 2; 0; 9; 0]) ∅.

Lemma example_buffer_reach : info_reach example_buffer.
Proof.
  refine (reach_SetRange (mkBufferInfo 5 GL_ELEMENT_ARRAY_BUFFER 8 GL_STATIC_DRAW true
    (Some [0; 0; 0; 0; 0; 0; 0; 0]) ∅) 0 8 [3; 0; 188; 2; 2; 0; 9; 0] true _ _ _ _ _ _).
  - refine (reach_SetInfo (set_target GL_ELEMENT_ARRAY_BUFFER (BufferInfo_new 5))
      8 GL_STATIC_DRAW true _ _ _); [|done|by vm_compute].
    apply reach_set_target, reach_new.
  - done.
  - done.
  - repeat constructor; vm_compute; congruence.
  - by vm_compute.
Qed.

Lemma GetMaxValueForRange_bounds_witness :
  exists b', GetMaxValueForRange 2 3 GL_UNSIGNED_SHORT example_buffer = Done (Some 700, b') /\
    forall i, 0 <= i < 3 -> 2 + (i + 1) * 2 <= 8.
Proof.
  destruct (GetMaxValueForRange_bounds example_buffer 2 3 GL_UNSIGNED_SHORT
    example_buffer_reach eq_refl ltac:(unfold is_u32; lia) ltac:(unfold is_i32; lia)
    ltac:(unfold index_types; set_solver)) as (r & b' & E & Hr).
  exists b'. assert (r = Some 700) as ->.
  { vm_compute in E. by injection E. }
  split; [exact E|]. destruct Hr as (s & _ & _ & _ & Hall & _).
  intros i Hi. exact (proj1 (Hall i Hi)).
Defined.
