(* ===== verification/VertexAttribManager.v ===== *)
(** * Vertex attributes

    [gpu/command_buffer/service/vertex_attrib_manager.{h,cc}]: where each vertex
    attribute is read from, and whether a vertex may be read. *)

From Stdlib Require Import ZArith Lia ZifyBool Bool.
From stdpp Require Import base numbers option gmap sets list.
From S2P Require Import Prelude Floats GLConstants GLES2Util BufferManager.
Local Open Scope Z_scope.

(** ** Data *)

(** Four floating point numbers, each its 32 bits. *)
Definition Vec4 : Type := Z * Z * Z * Z.

(** [buffer_] is the address of a buffer of the manager. *)
Record VertexAttribInfo := mkVertexAttribInfo {
  va_index_ : Z;
  enabled_ : bool;
  va_size_ : Z;
  type_ : Z;
  offset_ : Z;
  normalized_ : Z;
  gl_stride_ : Z;
  real_stride_ : Z;
  value_ : Vec4;
  buffer_ : option Z;
}.

Definition VertexAttribInfo_new : VertexAttribInfo :=
  mkVertexAttribInfo 0 false 4 GL_FLOAT 0 GL_FALSE 0 16 (0, 0, 0, one_f) None.

(** The lists are of indices of [vertex_attrib_infos_]. *)
Record VertexAttribManager := mkVertexAttribManager {
  max_vertex_attribs_ : Z;
  num_fixed_attribs_ : Z;
  vertex_attrib_infos_ : list VertexAttribInfo;
  enabled_vertex_attribs_ : list Z;
  disabled_vertex_attribs_ : list Z;
}.

Definition set_index (index : Z) (v : VertexAttribInfo) : VertexAttribInfo :=
  mkVertexAttribInfo index (enabled_ v) (va_size_ v) (type_ v) (offset_ v) (normalized_ v)
    (gl_stride_ v) (real_stride_ v) (value_ v) (buffer_ v).

Definition set_enabled (enabled : bool) (v : VertexAttribInfo) : VertexAttribInfo :=
  mkVertexAttribInfo (va_index_ v) enabled (va_size_ v) (type_ v) (offset_ v) (normalized_ v)
    (gl_stride_ v) (real_stride_ v) (value_ v) (buffer_ v).

Definition VertexAttribInfo_SetInfo (buffer : option Z)
    (size type normalized gl_stride real_stride offset : Z) (v : VertexAttribInfo)
    : VertexAttribInfo :=
  mkVertexAttribInfo (va_index_ v) (enabled_ v) size type offset normalized gl_stride
    real_stride (value_ v) buffer.

Definition set_value (value : Vec4) (v : VertexAttribInfo) : VertexAttribInfo :=
  mkVertexAttribInfo (va_index_ v) (enabled_ v) (va_size_ v) (type_ v) (offset_ v) (normalized_ v)
    (gl_stride_ v) (real_stride_ v) value (buffer_ v).

(** ** Operations *)

Section attribs.
Context `{Platform}.

(** The difference of sizes is converted to [uint32], as are the stride and the
    size in components where they meet unsigned operands. *)
Definition CanAccess (objs : gmap Z BufferInfo) (index : Z) (v : VertexAttribInfo) : bool :=
  if negb (enabled_ v) then true
  else
    match buffer_ v ≫= (objs !!.) with
    | None => false
    | Some buffer =>
        if IsDeleted buffer then false
        else
          let buffer_size := size_ buffer in
          if (offset_ v >? buffer_size) || (real_stride_ v =? 0) then false
          else
            let usable_size := u32 (buffer_size - offset_ v) in
            let num_elements :=
              u32 (usable_size / u32 (real_stride_ v) +
                   (if usable_size mod u32 (real_stride_ v) >=?
                       usize (GetGLTypeSizeForTexturesAndBuffers (type_ v) * va_size_ v)
                    then 1 else 0)) in
            index <? num_elements
    end.

Definition VertexAttribManager_new : VertexAttribManager := mkVertexAttribManager 0 0 [] [] [].

Definition Initialize (max_vertex_attribs : Z) (m : VertexAttribManager) : VertexAttribManager :=
  let indices := map Z.of_nat (seq 0 (Z.to_nat max_vertex_attribs)) in
  mkVertexAttribManager max_vertex_attribs (num_fixed_attribs_ m)
    (map (fun vv => set_index vv VertexAttribInfo_new) indices)
    (enabled_vertex_attribs_ m) (disabled_vertex_attribs_ m ++ indices).

(** [SetList]: off the list it is on, and to the end of the other. *)
Definition Enable (index : Z) (enable : bool) (m : VertexAttribManager)
    : outcome (bool * VertexAttribManager) :=
  if index >=? max_vertex_attribs_ m then Done (false, m)
  else
    (do info <- of_option (zget (vertex_attrib_infos_ m) index) ;;
     if negb (eqb (enabled_ info) enable) then
       do infos <- of_option (zset (vertex_attrib_infos_ m) index (set_enabled enable info)) ;;
       let take_off := filter (fun i => i <> va_index_ info) in
       let enabled :=
         if enable then enabled_vertex_attribs_ m ++ [va_index_ info]
         else take_off (enabled_vertex_attribs_ m) in
       let disabled :=
         if enable then take_off (disabled_vertex_attribs_ m)
         else disabled_vertex_attribs_ m ++ [va_index_ info] in
       Done (true, mkVertexAttribManager (max_vertex_attribs_ m) (num_fixed_attribs_ m) infos
                     enabled disabled)
     else Done (true, m))%gpu.

Definition HaveFixedAttribs (m : VertexAttribManager) : bool :=
  negb (num_fixed_attribs_ m =? 0).

Definition GetVertexAttribInfo (index : Z) (m : VertexAttribManager) : option VertexAttribInfo :=
  if index <? max_vertex_attribs_ m then zget (vertex_attrib_infos_ m) index else None.

Definition SetAttribInfo (index : Z) (buffer : option Z)
    (size type normalized gl_stride real_stride offset : Z) (m : VertexAttribManager)
    : VertexAttribManager :=
  match GetVertexAttribInfo index m with
  | Some info =>
      let n := if type_ info =? GL_FIXED then num_fixed_attribs_ m - 1 else num_fixed_attribs_ m in
      let n := if type =? GL_FIXED then n + 1 else n in
      mkVertexAttribManager (max_vertex_attribs_ m) n
        (<[Z.to_nat index := VertexAttribInfo_SetInfo buffer size type normalized gl_stride
                               real_stride offset info]> (vertex_attrib_infos_ m))
        (enabled_vertex_attribs_ m) (disabled_vertex_attribs_ m)
  | None => m
  end.

(** [set_value] on the attribute of an index, if there is one. *)
Definition SetValue (index : Z) (value : Vec4) (m : VertexAttribManager) : option VertexAttribManager :=
  info ← GetVertexAttribInfo index m;
  Some (mkVertexAttribManager (max_vertex_attribs_ m) (num_fixed_attribs_ m)
          (<[Z.to_nat index := set_value value info]> (vertex_attrib_infos_ m))
          (enabled_vertex_attribs_ m) (disabled_vertex_attribs_ m)).

End attribs.
