(* ===== verification/DrawValidation.v ===== *)
(** * Validating draw calls

    The part of [gpu/command_buffer/service/gles2_cmd_decoder.cc] that binds and fills
    buffers, points vertex attributes into them, and decides whether a draw call
    may reach the driver.  What a draw call then does is in [DrawCalls.v]. *)

From Stdlib Require Import ZArith Lia ZifyBool Bool.
From stdpp Require Import base numbers option gmap sets list.
From S2P Require Import Prelude Floats GLConstants Validators GLES2Util BufferManager VertexAttribManager IdAllocator.
Local Open Scope Z_scope.

(** ** The calls that reach the driver *)

(** Of [glVertexAttrib*f] and [glVertexAttrib*fv] the number of values is their length. *)
Inductive GLCall :=
| glGenBuffersARB (service_id : Z)
| glDeleteBuffersARB (service_id : Z)
| glBindBuffer (target service_id : Z)
| glBufferData (target size usage : Z) (data : list Z)
| glBufferDataNULL (target size usage : Z)
| glBufferSubData (target offset size : Z) (data : list Z)
| glVertexAttribPointer (index size type normalized stride offset : Z)
| glEnableVertexAttribArray (index : Z)
| glDisableVertexAttribArray (index : Z)
| glVertexAttribf (index : Z) (values : list Z)
| glVertexAttribfv (index : Z) (values : list Z)
| glDrawArrays (mode first count : Z)
| glDrawElements (mode count type offset : Z).

(** ** The decoder *)

Record Decoder := mkDecoder {
  buffer_manager : BufferManager;
  buffer_ids : Reused.IdAllocator;
  vertex_attrib_manager_ : VertexAttribManager;
  bound_array_buffer_ : option Z;
  bound_element_array_buffer_ : option Z;
  gl_errors : list Z;
}.

(** What the rest of the decoder and the driver answer during a call. *)
Record Answers := mkAnswers {
  bind_generates_resource : bool;
  bufferdata_faster_than_buffersubdata_ : bool;
  egl_gles2 : bool;
  generated_id : Z;
  peek_gl_error : Z;
}.

Definition SetGLError (error : Z) (d : Decoder) : Decoder :=
  mkDecoder (buffer_manager d) (buffer_ids d) (vertex_attrib_manager_ d) (bound_array_buffer_ d)
    (bound_element_array_buffer_ d) (gl_errors d ++ [error]).

Definition with_buffers (m : BufferManager) (d : Decoder) : Decoder :=
  mkDecoder m (buffer_ids d) (vertex_attrib_manager_ d) (bound_array_buffer_ d)
    (bound_element_array_buffer_ d) (gl_errors d).

Definition with_ids (ids : Reused.IdAllocator) (d : Decoder) : Decoder :=
  mkDecoder (buffer_manager d) ids (vertex_attrib_manager_ d) (bound_array_buffer_ d)
    (bound_element_array_buffer_ d) (gl_errors d).

Definition with_attribs (m : VertexAttribManager) (d : Decoder) : Decoder :=
  mkDecoder (buffer_manager d) (buffer_ids d) m (bound_array_buffer_ d)
    (bound_element_array_buffer_ d) (gl_errors d).

Definition with_bound (target : Z) (a : option Z) (d : Decoder) : Decoder :=
  mkDecoder (buffer_manager d) (buffer_ids d) (vertex_attrib_manager_ d)
    (if target =? GL_ARRAY_BUFFER then a else bound_array_buffer_ d)
    (if target =? GL_ARRAY_BUFFER then bound_element_array_buffer_ d
     else if target =? GL_ELEMENT_ARRAY_BUFFER then a else bound_element_array_buffer_ d)
    (gl_errors d).

(** ** Buffers *)

Section decoder.
Context `{Platform}.

(** A result: the calls made to the driver and the decoder. *)
Definition Result : Type := outcome (list GLCall * Decoder).

(** The object at an address that the decoder holds. *)
Definition object (a : Z) (d : Decoder) : outcome BufferInfo :=
  of_option (objects (buffer_manager d) !! a).

Definition GetBufferInfoForTarget (target : Z) (d : Decoder) : outcome (option Z) :=
  let info := if target =? GL_ARRAY_BUFFER then bound_array_buffer_ d
              else bound_element_array_buffer_ d in
  match info with
  | None => Done None
  | Some a => (do b <- object a d ;; Done (if IsDeleted b then None else Some a))%gpu
  end.

Definition DoBindBuffer (env : Answers) (target client_id : Z) (d : Decoder) : Result :=
  let bind '(calls, info, d) :=
    (match info with
     | Some a =>
         do (ok, m) <- SetTarget a target (buffer_manager d) ;;
         if negb ok then Done (calls, SetGLError GL_INVALID_OPERATION d)
         else
           let d := with_buffers m d in
           do b <- object a d ;;
           Done (calls ++ [glBindBuffer target (service_id_ b)], with_bound target info d)
     | None => Done (calls ++ [glBindBuffer target 0], with_bound target info d)
     end)%gpu in
  if negb (client_id =? 0) then
    match GetBufferInfo client_id (buffer_manager d) with
    | Some a => bind ([], Some a, d)
    | None =>
        if negb (bind_generates_resource env) then Done ([], SetGLError GL_INVALID_VALUE d)
        else
          let service_id := generated_id env in
          let d := with_buffers (CreateBufferInfo client_id service_id (buffer_manager d)) d in
          let info := GetBufferInfo client_id (buffer_manager d) in
          let d := with_ids (snd (Reused.MarkAsUsed client_id (buffer_ids d))) d in
          bind ([glGenBuffersARB service_id], info, d)
    end
  else bind ([], None, d).

Fixpoint DeleteBuffersHelper (client_ids : list Z) (d : Decoder) : Result :=
  match client_ids with
  | [] => Done ([], d)
  | id :: ids =>
      match GetBufferInfo id (buffer_manager d) with
      | Some a =>
          (do b <- object a d ;;
           let d := with_buffers (RemoveBufferInfo id (buffer_manager d)) d in
           do (calls, d) <- DeleteBuffersHelper ids d ;;
           Done (glDeleteBuffersARB (service_id_ b) :: calls, d))%gpu
      | None => DeleteBuffersHelper ids d
      end
  end.

(** [SetRange] on the buffer at an address. *)
Definition SetRange_at (a offset size : Z) (data : list Z) (d : Decoder)
    : outcome (bool * Decoder) :=
  (do b <- object a d ;;
   do (ok, b) <- SetRange offset size data b ;;
   Done (ok, with_buffers (with_object (buffer_manager d) a b) d))%gpu.

(** [data] is [None] for a null pointer, or else memory of [size] bytes. *)
Definition DoBufferData (env : Answers) (target size : Z) (data : option (list Z)) (usage : Z)
    (d : Decoder) : Result :=
  if negb (is_case target valid_buffer_target_table) then Done ([], SetGLError GL_INVALID_ENUM d)
  else if negb (is_case usage valid_buffer_usage_table) then Done ([], SetGLError GL_INVALID_ENUM d)
  else if size <? 0 then Done ([], SetGLError GL_INVALID_VALUE d)
  else
    (do info <- GetBufferInfoForTarget target d ;;
     match info with
     | None => Done ([], SetGLError GL_INVALID_VALUE d)
     | Some a =>
         do b <- object a d ;;
         let data := default (replicate (Z.to_nat size) 0) data in
         if negb (bufferdata_faster_than_buffersubdata_ env) &&
            (size =? size_ b) && (usage =? usage_ b)
         then
           do (_, d) <- SetRange_at a 0 size data d ;;
           Done ([glBufferSubData target 0 size data], d)
         else if peek_gl_error env =? GL_NO_ERROR then
           do m <- SetInfo a size usage (buffer_manager d) ;;
           do (_, d) <- SetRange_at a 0 size data (with_buffers m d) ;;
           Done ([glBufferData target size usage data], d)
         else Done ([glBufferData target size usage data], SetGLError (peek_gl_error env) d)
     end)%gpu.

Definition DoBufferSubData (env : Answers) (target offset size : Z) (data : list Z) (d : Decoder)
    : Result :=
  (do info <- GetBufferInfoForTarget target d ;;
   match info with
   | None => Done ([], SetGLError GL_INVALID_VALUE d)
   | Some a =>
       do (ok, d) <- SetRange_at a offset size data d ;;
       if negb ok then Done ([], SetGLError GL_INVALID_VALUE d)
       else
         do b <- object a d ;;
         if bufferdata_faster_than_buffersubdata_ env && (offset =? 0) && (size =? size_ b)
         then Done ([glBufferData target size (usage_ b) data], d)
         else Done ([glBufferSubData target offset size data], d)
   end)%gpu.

(** ** Vertex attributes *)

Definition DoEnableVertexAttribArray (index : Z) (d : Decoder) : Result :=
  (do (ok, m) <- Enable index true (vertex_attrib_manager_ d) ;;
   if ok then Done ([glEnableVertexAttribArray index], with_attribs m d)
   else Done ([], SetGLError GL_INVALID_VALUE d))%gpu.

Definition DoDisableVertexAttribArray (env : Answers) (index : Z) (d : Decoder) : Result :=
  (do (ok, m) <- Enable index false (vertex_attrib_manager_ d) ;;
   if ok then
     Done (if negb (index =? 0) || egl_gles2 env then [glDisableVertexAttribArray index] else [],
           with_attribs m d)
   else Done ([], SetGLError GL_INVALID_VALUE d))%gpu.

(** [types] are the values of the validator of vertex attribute types, [group_max] is the
    [max_vertex_attribs] of the context group. *)
Definition HandleVertexAttribPointer (types : list Z)
    (group_max indx size type normalized stride offset : Z) (d : Decoder) : Result :=
  let fail error := Done ([], SetGLError error d) in
  match bound_array_buffer_ d with
  | None => fail GL_INVALID_VALUE
  | Some a =>
      (do b <- object a d ;;
       if IsDeleted b then fail GL_INVALID_VALUE
       else if negb (Validators.IsValid type types) then fail GL_INVALID_ENUM
       else if negb (is_case size valid_vertex_attrib_size_table) then fail GL_INVALID_VALUE
       else if indx >=? group_max then fail GL_INVALID_VALUE
       else if stride <? 0 then fail GL_INVALID_VALUE
       else if stride >? 255 then fail GL_INVALID_VALUE
       else if offset <? 0 then fail GL_INVALID_VALUE
       else
         let component_size := i32 (GetGLTypeSizeForTexturesAndBuffers type) in
         if Z.rem offset component_size >? 0 then fail GL_INVALID_OPERATION
         else if Z.rem stride component_size >? 0 then fail GL_INVALID_OPERATION
         else
           let m := SetAttribInfo indx (Some a) size type normalized stride
                      (if negb (stride =? 0) then stride else component_size * size) offset
                      (vertex_attrib_manager_ d) in
           Done (if negb (type =? GL_FIXED)
                 then [glVertexAttribPointer indx size type normalized stride offset] else [],
                 with_attribs m d))%gpu
  end.

(** The value that every vertex has where there is no array: the components that are not
    given are those of (0, 0, 0, 1). *)
Definition Vec4_of (v : list Z) : Vec4 :=
  (default 0 (zget v 0), default 0 (zget v 1), default 0 (zget v 2), default one_f (zget v 3)).

Definition DoVertexAttrib (call : Z -> list Z -> GLCall) (index : Z) (v : list Z) (d : Decoder) : Result :=
  match SetValue index (Vec4_of v) (vertex_attrib_manager_ d) with
  | None => Done ([], SetGLError GL_INVALID_VALUE d)
  | Some m => Done ([call index v], with_attribs m d)
  end.

Definition DoVertexAttrib1f (index v0 : Z) : Decoder -> Result := DoVertexAttrib glVertexAttribf index [v0].
Definition DoVertexAttrib2f (index v0 v1 : Z) : Decoder -> Result := DoVertexAttrib glVertexAttribf index [v0; v1].
Definition DoVertexAttrib3f (index v0 v1 v2 : Z) : Decoder -> Result :=
  DoVertexAttrib glVertexAttribf index [v0; v1; v2].
Definition DoVertexAttrib4f (index v0 v1 v2 v3 : Z) : Decoder -> Result :=
  DoVertexAttrib glVertexAttribf index [v0; v1; v2; v3].

(** [DoVertexAttrib1fv] to [DoVertexAttrib4fv]: [v] has as many numbers. *)
Definition DoVertexAttribfv (index : Z) (v : list Z) : Decoder -> Result := DoVertexAttrib glVertexAttribfv index v.

(** ** Draw calls

    The program in use tells whether it has an attribute at a location. *)
Definition CurrentProgram : Type := option (Z -> outcome bool).

(** The loop of [IsDrawValid] over the enabled attributes. *)
Fixpoint attribs_valid (max_vertex_accessed : Z) (used : Z -> outcome bool) (infos : list Z) (d : Decoder)
    : outcome (bool * Decoder) :=
  match infos with
  | [] => Done (true, d)
  | it :: infos =>
      (do info <- of_option (zget (vertex_attrib_infos_ (vertex_attrib_manager_ d)) it) ;;
       do attrib_info <- used (va_index_ info) ;;
       if attrib_info : bool then
         if negb (CanAccess (objects (buffer_manager d)) max_vertex_accessed info)
         then Done (false, SetGLError GL_INVALID_OPERATION d)
         else attribs_valid max_vertex_accessed used infos d
       else
         match buffer_ info with
         | None => Done (false, SetGLError GL_INVALID_OPERATION d)
         | Some a =>
             do b <- object a d ;;
             if IsDeleted b then Done (false, SetGLError GL_INVALID_OPERATION d)
             else attribs_valid max_vertex_accessed used infos d
         end)%gpu
  end.

Definition IsDrawValid (program : CurrentProgram) (max_vertex_accessed : Z) (d : Decoder)
    : outcome (bool * Decoder) :=
  match program with
  | None => Done (false, d)
  | Some used =>
      attribs_valid max_vertex_accessed used
        (enabled_vertex_attribs_ (vertex_attrib_manager_ d)) d
  end.

(** The two handlers, up to the test of [IsDrawValid]: the highest vertex that is drawn, if
    the draw call may go on. *)
Definition drawn_if_valid (program : CurrentProgram) (max_vertex_accessed : Z) (d : Decoder)
    : outcome (option Z * Decoder) :=
  (do (valid, d) <- IsDrawValid program max_vertex_accessed d ;;
   Done (if valid then Some max_vertex_accessed else None, d))%gpu.

(** The tests that come after that of the framebuffer. *)
Definition arrays_in_range (program : CurrentProgram) (first count : Z) (d : Decoder) : outcome (option Z * Decoder) :=
  if first <? 0 then Done (None, SetGLError GL_INVALID_VALUE d)
  else if count =? 0 then Done (None, d)
  else drawn_if_valid program (u32 (first + count - 1)) d.

Definition arrays_checked (framebuffer_complete : bool) (program : CurrentProgram) (mode first count : Z)
    (d : Decoder) : outcome (option Z * Decoder) :=
  let fail error := Done (None, SetGLError error d) in
  if negb (is_case mode valid_draw_mode_table) then fail GL_INVALID_ENUM
  else if count <? 0 then fail GL_INVALID_VALUE
  else if negb framebuffer_complete then fail GL_INVALID_FRAMEBUFFER_OPERATION
  else arrays_in_range program first count d.

(** [a] is the buffer of the indices. *)
Definition elements_in_range (program : CurrentProgram) (a count type offset : Z) (d : Decoder)
    : outcome (option Z * Decoder) :=
  if count =? 0 then Done (None, d)
  else
    (do b <- object a d ;;
     do (max_vertex_accessed, b) <- GetMaxValueForRange offset count type b ;;
     let d := with_buffers (with_object (buffer_manager d) a b) d in
     match max_vertex_accessed with
     | None => Done (None, SetGLError GL_INVALID_OPERATION d)
     | Some max_vertex_accessed => drawn_if_valid program max_vertex_accessed d
     end)%gpu.

Definition elements_checked (framebuffer_complete : bool) (program : CurrentProgram)
    (mode count type offset : Z) (d : Decoder) : outcome (option Z * Decoder) :=
  let fail error := Done (None, SetGLError error d) in
  match bound_element_array_buffer_ d with
  | None => fail GL_INVALID_OPERATION
  | Some a =>
      (do b <- object a d ;;
       if IsDeleted b then fail GL_INVALID_OPERATION
       else if count <? 0 then fail GL_INVALID_VALUE
       else if offset <? 0 then fail GL_INVALID_VALUE
       else if negb (is_case mode valid_draw_mode_table) then fail GL_INVALID_ENUM
       else if negb (is_case type valid_index_type_table) then fail GL_INVALID_ENUM
       else if negb framebuffer_complete then fail GL_INVALID_FRAMEBUFFER_OPERATION
       else elements_in_range program a count type offset d)%gpu
  end.

End decoder.

(** ** Invariant *)

(** The bytes of one vertex of an attribute. *)
Definition element_size (v : VertexAttribInfo) : Z :=
  GetGLTypeSizeForTexturesAndBuffers (type_ v) * va_size_ v.

Section invariant.
Context `{Platform}.

(** The types that the validator can accept: [GL_FIXED] once the client asked for it. *)
Definition vertex_types : list Z := GL_FIXED :: valid_vertex_attrib_type_table.

(** An attribute as [HandleVertexAttribPointer] leaves it, or as it is at first. *)
Record attrib_ok (v : VertexAttribInfo) : Prop := {
  attrib_type : type_ v ∈ vertex_types;
  attrib_size : 1 <= va_size_ v <= 4;
  attrib_offset : 0 <= offset_ v < 2 ^ 31;
  attrib_stride : 0 <= gl_stride_ v <= 255;
  attrib_real_stride :
    real_stride_ v = if gl_stride_ v =? 0 then element_size v else gl_stride_ v;
}.

(** Every address that is held is that of a buffer. *)
Definition held (d : Decoder) (a : option Z) : Prop :=
  forall x, a = Some x -> is_Some (objects (buffer_manager d) !! x).

Record attribs_ok (d : Decoder) (m : VertexAttribManager) : Prop := {
  attribs_length : zlen (vertex_attrib_infos_ m) = max_vertex_attribs_ m;
  attribs_index i v : zget (vertex_attrib_infos_ m) i = Some v ->
    va_index_ v = i /\ attrib_ok v /\ held d (buffer_ v);
  attribs_enabled i : i ∈ enabled_vertex_attribs_ m <->
    exists v, zget (vertex_attrib_infos_ m) i = Some v /\ enabled_ v = true;
}.

Record dec_ok (d : Decoder) : Prop := {
  dec_objects a b : objects (buffer_manager d) !! a = Some b ->
    info_reach b /\ a < next_object (buffer_manager d);
  dec_infos id a : buffer_infos_ (buffer_manager d) !! id = Some a -> held d (Some a);
  dec_array : held d (bound_array_buffer_ d);
  dec_element : held d (bound_element_array_buffer_ d);
  dec_attribs : attribs_ok d (vertex_attrib_manager_ d);
}.

(** ** Lemmas on the invariant *)

Lemma held_grows d d' a :
  (forall x, is_Some (objects (buffer_manager d) !! x) ->
     is_Some (objects (buffer_manager d') !! x)) ->
  held d a -> held d' a.
Proof. intros Hg Ha x Hx. by apply Hg, Ha. Qed.

Lemma attribs_ok_grows d d' m :
  (forall x, is_Some (objects (buffer_manager d) !! x) ->
     is_Some (objects (buffer_manager d') !! x)) ->
  attribs_ok d m -> attribs_ok d' m.
Proof.
  intros Hg [Hl Hi He]. split; [done| |done].
  intros i v Hv. destruct (Hi i v Hv) as (? & ? & ?). split_and!; [done..|].
  by eapply held_grows.
Qed.

Lemma SetGLError_ok e d : dec_ok d -> dec_ok (SetGLError e d).
Proof. intros [? ? ? ? []]. split; try done. Qed.

Lemma with_object_ok d a b :
  dec_ok d -> is_Some (objects (buffer_manager d) !! a) -> info_reach b ->
  dec_ok (with_buffers (with_object (buffer_manager d) a b) d).
Proof.
  intros [Ho Hi Ha He Hat] [b0 Hb0] Hb.
  assert (forall x, is_Some (objects (buffer_manager d) !! x) ->
    is_Some (objects (with_object (buffer_manager d) a b) !! x)) as Hg.
  { simpl. intros x Hx. destruct (decide (a = x)) as [->|]; [by rewrite lookup_insert_eq|].
    by rewrite lookup_insert_ne. }
  split; simpl.
  - intros x y. rewrite lookup_insert_Some. intros [[<- <-]|[_ Hx]]; [|by apply Ho].
    split; [done|]. by eapply Ho.
  - intros id x Hx. by eapply held_grows, Hi.
  - by eapply held_grows.
  - by eapply held_grows.
  - by eapply attribs_ok_grows.
Qed.

Lemma object_Some d a : held d (Some a) -> exists b, object a d = Done b /\
  objects (buffer_manager d) !! a = Some b.
Proof. intros Hh. destruct (Hh a eq_refl) as [b Hb]. exists b. unfold object. by rewrite Hb. Qed.

Lemma bound_held target d a :
  dec_ok d -> GetBufferInfoForTarget target d = Done (Some a) ->
  exists b, objects (buffer_manager d) !! a = Some b /\ object a d = Done b /\ IsDeleted b = false.
Proof.
  intros Hok. unfold GetBufferInfoForTarget.
  destruct (if target =? GL_ARRAY_BUFFER then _ else _) as [x|] eqn:Ex; [|done].
  assert (held d (Some x)) as Hx.
  { rewrite <- Ex. destruct (target =? _); [by apply dec_array|by apply dec_element]. }
  destruct (object_Some _ _ Hx) as (b & -> & Hb). cbn [obind]. destruct (IsDeleted b) eqn:Ed; [done|].
  intros [= <-]. exists b. unfold object. by rewrite Hb.
Qed.

Lemma GetBufferInfoForTarget_done target d :
  dec_ok d -> exists r, GetBufferInfoForTarget target d = Done r.
Proof.
  intros Hok. unfold GetBufferInfoForTarget.
  destruct (if target =? GL_ARRAY_BUFFER then _ else _) as [x|] eqn:Ex; [|by eexists].
  assert (held d (Some x)) as Hx.
  { rewrite <- Ex. destruct (target =? _); [by apply dec_array|by apply dec_element]. }
  destruct (object_Some _ _ Hx) as (b & -> & Hb). by eexists.
Qed.

Lemma SetInfo_IsDeleted size usage shadow b :
  IsDeleted (BufferInfo_SetInfo size usage shadow b) = IsDeleted b.
Proof. unfold BufferInfo_SetInfo. by destruct (_ || _). Qed.

(** [SetRange] always returns. *)
Lemma SetRange_done offset size data b :
  info_reach b -> IsDeleted b = false -> zlen data = size -> Forall is_byte data ->
  size < 2 ^ (size_bits - 1) -> offset < 2 ^ (size_bits - 1) ->
  exists ok b', SetRange offset size data b = Done (ok, b') /\ info_reach b'.
Proof.
  intros Hr Hd Hlen Hbytes Hs Hoff.
  assert (exists ok b', SetRange offset size data b = Done (ok, b')) as (ok & b' & E).
  { unfold SetRange. destruct (out_of_range offset size b) eqn:Eo; [by eexists _, _|].
    destruct (shadowed_ b) eqn:Esh; [|by eexists _, _].
    destruct (info_reach_ok b Hr) as [Hsz Hshadow _].
    destruct (Hshadow Esh Hd) as (s & -> & Hls & _). cbn [of_option obind].
    unfold out_of_range in Eo. zbool.
    assert (isize (offset + size) = offset + size) as Ei.
    { unfold isize in *. pose proof (zlen_nonneg data).
      assert (2 ^ size_bits = 2 * 2 ^ (size_bits - 1)) as E2
        by (destruct size_bits_ok as [-> | ->]; done).
      destruct (Z.lt_ge_cases (offset + size) (2 ^ (size_bits - 1))) as [Hlt|Hge].
      - rewrite Z.mod_small; lia.
      - rewrite <- (Z_mod_plus_full _ (-1)) in *. rewrite Z.mod_small in * by lia. lia. }
    destruct (zwrite_Some s data offset) as (s' & -> & _); [lia|lia|].
    by eexists _, _. }
  exists ok, b'. split; [done|]. by eapply reach_SetRange.
Qed.

Lemma SetRange_at_ok a offset size data d b :
  dec_ok d -> objects (buffer_manager d) !! a = Some b -> IsDeleted b = false ->
  zlen data = size -> Forall is_byte data ->
  size < 2 ^ (size_bits - 1) -> offset < 2 ^ (size_bits - 1) ->
  exists ok d', SetRange_at a offset size data d = Done (ok, d') /\ dec_ok d' /\
    is_Some (objects (buffer_manager d') !! a).
Proof.
  intros Hok Hb Hd Hlen Hbytes Hs Ho. unfold SetRange_at, object. rewrite Hb. cbn [of_option obind].
  destruct (SetRange_done offset size data b) as (ok & b' & -> & Hr); try done.
  { by eapply dec_objects. }
  cbn [obind]. eexists _, _. split; [done|]. split.
  - apply with_object_ok; [done|by rewrite Hb|done].
  - simpl. by rewrite lookup_insert_eq.
Qed.

(** ** The operations keep it *)

Lemma DoBufferData_ok env target size data usage d :
  dec_ok d -> size < 2 ^ (size_bits - 1) ->
  (forall bytes, data = Some bytes -> zlen bytes = size /\ Forall is_byte bytes) ->
  exists calls d', DoBufferData env target size data usage d = Done (calls, d') /\ dec_ok d'.
Proof.
  intros Hok Hsize Hdata. unfold DoBufferData.
  destruct (negb _); [by eauto using SetGLError_ok|].
  destruct (negb _); [by eauto using SetGLError_ok|].
  destruct (size <? 0) eqn:Es; zbool; [by eauto using SetGLError_ok|].
  destruct (GetBufferInfoForTarget_done target d Hok) as [info Einfo].
  rewrite Einfo. cbn [obind]. destruct info as [a|]; [|by eauto using SetGLError_ok].
  destruct (bound_held _ _ _ Hok Einfo) as (b & Hb & -> & Hd). cbn [obind].
  assert (0 < 2 ^ (size_bits - 1)) by (destruct size_bits_ok as [-> | ->]; lia).
  assert (zlen (default (replicate (Z.to_nat size) 0) data) = size /\
    Forall is_byte (default (replicate (Z.to_nat size) 0) data)) as [Hl Hbytes].
  { destruct data as [bytes|]; simpl; [by apply Hdata|].
    split; [by apply zlen_replicate|]. apply Forall_replicate. unfold is_byte. lia. }
  destruct (_ && _).
  - destruct (SetRange_at_ok a 0 size (default (replicate (Z.to_nat size) 0) data) d b)
      as (ok & d' & -> & Hok' & _); try done. cbn [obind]. by eauto.
  - destruct (_ =? _); [|by eauto using SetGLError_ok]. unfold SetInfo. rewrite Hb. cbn [of_option obind].
    set (b1 := BufferInfo_SetInfo _ _ _ _).
    assert (info_reach b1) as Hr1 by (apply reach_SetInfo; [by eapply dec_objects|done|done]).
    assert (IsDeleted b1 = false) as Hd1 by (by rewrite <- Hd; apply SetInfo_IsDeleted).
    pose proof (with_object_ok d a b1 Hok ltac:(by rewrite Hb) Hr1) as Hok1.
    destruct (SetRange_at_ok a 0 size (default (replicate (Z.to_nat size) 0) data)
      (with_buffers (with_object (buffer_manager d) a b1) d) b1)
      as (ok & d' & -> & Hok' & _); try done.
    { simpl. by rewrite lookup_insert_eq. }
    cbn [obind]. by eauto.
Qed.

Lemma DoBufferSubData_ok env target offset size data d :
  dec_ok d -> zlen data = size -> Forall is_byte data ->
  size < 2 ^ (size_bits - 1) -> offset < 2 ^ (size_bits - 1) ->
  exists calls d', DoBufferSubData env target offset size data d = Done (calls, d') /\ dec_ok d'.
Proof.
  intros Hok Hlen Hbytes Hs Ho. unfold DoBufferSubData.
  destruct (GetBufferInfoForTarget_done target d Hok) as [info Einfo].
  rewrite Einfo. cbn [obind]. destruct info as [a|]; [|by eauto using SetGLError_ok].
  destruct (bound_held _ _ _ Hok Einfo) as (b & Hb & _ & Hd).
  destruct (SetRange_at_ok a offset size data d b) as (ok & d' & -> & Hok' & [b' Hb']); try done.
  cbn [obind]. destruct ok; cbn [negb]; [|by eauto using SetGLError_ok].
  unfold object. rewrite Hb'. cbn [of_option obind]. case_match; by eauto.
Qed.

(** *** Binding and deleting *)

Lemma with_ids_ok ids d : dec_ok d -> dec_ok (with_ids ids d).
Proof. intros [? ? ? ? []]. split; try done. Qed.

Lemma with_bound_ok target a d : dec_ok d -> held d a -> dec_ok (with_bound target a d).
Proof.
  intros [? ? ? ? []] Ha. split; try done; simpl.
  - by repeat case_match.
  - by repeat case_match.
Qed.

Lemma buffer_SetTarget_ok a target d :
  dec_ok d -> held d (Some a) ->
  exists ok m, SetTarget a target (buffer_manager d) = Done (ok, m) /\
    dec_ok (with_buffers m d) /\ held (with_buffers m d) (Some a).
Proof.
  intros Hok Ha. destruct (Ha a eq_refl) as [b Hb]. unfold SetTarget. rewrite Hb.
  cbn [of_option obind].
  assert (dec_ok (with_buffers (buffer_manager d) d) /\
    held (with_buffers (buffer_manager d) d) (Some a)) as [Hsame Hheld] by by destruct d.
  destruct (_ && _); [by eexists _, _|]. destruct (_ =? _); [|by eexists _, _].
  eexists _, _. split; [done|]. split.
  - apply with_object_ok; [done|by rewrite Hb|]. apply reach_set_target. by eapply dec_objects.
  - intros x [= <-]. simpl. by rewrite lookup_insert_eq.
Qed.

Lemma CreateBufferInfo_ok client_id service_id d :
  dec_ok d ->
  dec_ok (with_buffers (CreateBufferInfo client_id service_id (buffer_manager d)) d) /\
  held (with_buffers (CreateBufferInfo client_id service_id (buffer_manager d)) d)
    (GetBufferInfo client_id (CreateBufferInfo client_id service_id (buffer_manager d))).
Proof.
  intros [Ho Hi Ha He Hat]. unfold CreateBufferInfo. set (n := next_object (buffer_manager d)).
  assert (forall x, is_Some (objects (buffer_manager d) !! x) ->
    is_Some (<[n := BufferInfo_new service_id]> (objects (buffer_manager d)) !! x)) as Hg.
  { intros x Hx. destruct (decide (n = x)) as [->|]; [by rewrite lookup_insert_eq|].
    by rewrite lookup_insert_ne. }
  assert (forall id a, match buffer_infos_ (buffer_manager d) !! client_id with
     | Some _ => buffer_infos_ (buffer_manager d)
     | None => <[client_id := n]> (buffer_infos_ (buffer_manager d))
     end !! id = Some a ->
     is_Some (<[n := BufferInfo_new service_id]> (objects (buffer_manager d)) !! a)) as Hinfos.
  { intros id a. destruct (buffer_infos_ (buffer_manager d) !! client_id) as [x|] eqn:El.
    - intros Hx. by eapply Hg, Hi.
    - rewrite lookup_insert_Some. intros [[_ <-]|[_ Hx]]; [by rewrite lookup_insert_eq|].
      by eapply Hg, Hi. }
  split; [split; simpl|].
  - intros a b. rewrite lookup_insert_Some. intros [[<- <-]|[_ Hx]].
    + split; [apply reach_new|lia].
    + destruct (Ho a b Hx). split; [done|lia].
  - intros id a Hx y [= <-]. by eapply Hinfos.
  - by eapply held_grows.
  - by eapply held_grows.
  - by eapply attribs_ok_grows.
  - intros y Hy. simpl. by eapply Hinfos.
Qed.

Lemma DoBindBuffer_ok env target client_id d :
  dec_ok d -> exists calls d', DoBindBuffer env target client_id d = Done (calls, d') /\ dec_ok d'.
Proof.
  intros Hok. unfold DoBindBuffer. destruct (negb (client_id =? 0)).
  2: { eexists _, _. split; [done|]. by apply with_bound_ok. }
  assert (forall calls info d0, dec_ok d0 -> held d0 info ->
    exists calls' d', match info with
     | Some a =>
         (do (ok, m) <- SetTarget a target (buffer_manager d0) ;;
         if negb ok then Done (calls, SetGLError GL_INVALID_OPERATION d0)
         else
           let d := with_buffers m d0 in
           do b <- object a d ;;
           Done (calls ++ [glBindBuffer target (service_id_ b)], with_bound target info d))%gpu
     | None => Done (calls ++ [glBindBuffer target 0], with_bound target info d0)
     end = Done (calls', d') /\ dec_ok d') as Hbind.
  { intros calls [a|] d0 Hok0 Ha.
    - destruct (buffer_SetTarget_ok a target d0 Hok0 Ha) as (ok & m & -> & Hok1 & Ha1). cbn [obind].
      destruct ok; cbn [negb]; [|by eauto using SetGLError_ok]. cbn zeta.
      destruct (object_Some _ _ Ha1) as (b & -> & _). cbn [obind].
      eexists _, _. split; [done|]. by apply with_bound_ok.
    - eexists _, _. split; [done|]. by apply with_bound_ok. }
  destruct (GetBufferInfo _ _) as [a|] eqn:Eg.
  - apply (Hbind [] (Some a) d); [done|]. by eapply dec_infos.
  - destruct (negb _); [by eauto using SetGLError_ok|].
    destruct (CreateBufferInfo_ok client_id (generated_id env) d Hok) as [Hok1 Hh1].
    exact (Hbind [glGenBuffersARB (generated_id env)] _ _ (with_ids_ok
      (snd (Reused.MarkAsUsed client_id (buffer_ids d))) _ Hok1) Hh1).
Qed.

Lemma RemoveBufferInfo_ok id d :
  dec_ok d -> dec_ok (with_buffers (RemoveBufferInfo id (buffer_manager d)) d).
Proof.
  intros Hok. unfold RemoveBufferInfo.
  destruct (buffer_infos_ (buffer_manager d) !! id) as [a|] eqn:Ea; [|by destruct d].
  destruct Hok as [Ho Hi Ha He Hat].
  assert (forall x, is_Some (objects (buffer_manager d) !! x) ->
    is_Some (alter MarkAsDeleted a (objects (buffer_manager d)) !! x)) as Hg.
  { intros x Hx. by rewrite lookup_alter_is_Some. }
  split; simpl.
  - intros x b. rewrite lookup_alter_Some. intros [(<- & b0 & Hb0 & ->)|[_ Hx]]; [|by apply Ho].
    destruct (Ho _ _ Hb0). split; [by apply reach_MarkAsDeleted|done].
  - intros i x. rewrite lookup_delete_Some. intros [_ Hx]. by eapply held_grows, Hi.
  - by eapply held_grows.
  - by eapply held_grows.
  - by eapply attribs_ok_grows.
Qed.

Lemma DeleteBuffersHelper_ok ids d :
  dec_ok d -> exists calls d', DeleteBuffersHelper ids d = Done (calls, d') /\ dec_ok d'.
Proof.
  revert d. induction ids as [|id ids IH]; intros d Hok; simpl; [by eexists _, _|].
  destruct (GetBufferInfo _ _) as [a|] eqn:Eg; [|by apply IH].
  destruct (object_Some d a) as (b & -> & _); [by eapply dec_infos|]. cbn [obind].
  destruct (IH (with_buffers (RemoveBufferInfo id (buffer_manager d)) d)) as (calls & d' & -> & Hok').
  { by apply RemoveBufferInfo_ok. }
  cbn [obind]. by eexists _, _.
Qed.

(** *** Vertex attributes *)

Lemma with_attribs_ok m d : dec_ok d -> attribs_ok d m -> dec_ok (with_attribs m d).
Proof. intros [? ? ? ? _] Hm. split; try done. by destruct Hm. Qed.

Lemma attribs_update d m i v v' enabled disabled n :
  attribs_ok d m -> zget (vertex_attrib_infos_ m) i = Some v ->
  va_index_ v' = i -> attrib_ok v' -> held d (buffer_ v') ->
  (forall j, j ∈ enabled <->
     if j =? i then enabled_ v' = true else j ∈ enabled_vertex_attribs_ m) ->
  attribs_ok d (mkVertexAttribManager (max_vertex_attribs_ m) n
    (<[Z.to_nat i := v']> (vertex_attrib_infos_ m)) enabled disabled).
Proof.
  intros [Hl Hi He] Hv Hix Hok Hh Hen. pose proof (zget_range _ _ _ Hv) as Hr.
  assert (zset (vertex_attrib_infos_ m) i v' = Some (<[Z.to_nat i := v']> (vertex_attrib_infos_ m)))
    as Hset by by apply zset_in.
  split; simpl.
  - by rewrite (zlen_zset _ _ _ _ Hset).
  - intros j w. rewrite (zget_zset _ _ _ _ _ Hset). destruct (i =? j) eqn:Eij; zbool; [|by apply Hi].
    subst j. intros [= <-]. by split_and!.
  - intros j. rewrite Hen, (zget_zset _ _ _ _ _ Hset), (Z.eqb_sym j i).
    destruct (i =? j) eqn:Eij; zbool; [|by apply He]. naive_solver.
Qed.

Lemma Enable_ok index enable d :
  dec_ok d -> 0 <= index ->
  exists ok m, Enable index enable (vertex_attrib_manager_ d) = Done (ok, m) /\
    dec_ok (with_attribs m d).
Proof.
  intros Hok Hix. pose proof (dec_attribs _ Hok) as Hat. unfold Enable.
  assert (dec_ok (with_attribs (vertex_attrib_manager_ d) d)) as Hsame by by destruct d.
  destruct (index >=? _) eqn:Em; zbool; [by eexists _, _|].
  destruct (zget_in (vertex_attrib_infos_ (vertex_attrib_manager_ d)) index) as [v Hv].
  { rewrite (attribs_length _ _ Hat). lia. }
  rewrite Hv. cbn [of_option obind]. destruct (negb _); [|by eexists _, _].
  rewrite zset_in by (by eapply zget_range). cbn [of_option obind].
  eexists _, _. split; [done|]. apply with_attribs_ok; [done|].
  destruct (attribs_index _ _ Hat _ _ Hv) as (Hvi & [] & Hh).
  eapply attribs_update; [done|done|done|by split|done|].
  rewrite Hvi. intros j. destruct (j =? index) eqn:Ej; zbool; destruct enable; simpl.
  - rewrite elem_of_app, list_elem_of_singleton. naive_solver.
  - rewrite list_elem_of_filter. naive_solver.
  - rewrite elem_of_app, list_elem_of_singleton. naive_solver.
  - rewrite list_elem_of_filter. naive_solver.
Qed.

Lemma vertex_type_size type :
  type ∈ vertex_types -> 1 <= GetGLTypeSizeForTexturesAndBuffers type <= 4.
Proof.
  unfold vertex_types, valid_vertex_attrib_type_table. rewrite !elem_of_cons.
  intros [->|[->|[->|[->|[->|[->|[]%elem_of_nil]]]]]]; vm_compute; split; congruence.
Qed.

Lemma HandleVertexAttribPointer_ok types group_max indx size type normalized stride offset d :
  dec_ok d -> types ⊆ vertex_types -> 0 <= indx -> is_i32 offset ->
  exists calls d', HandleVertexAttribPointer types group_max indx size type normalized stride offset d
    = Done (calls, d') /\ dec_ok d'.
Proof.
  intros Hok Htypes Hix Hoff. unfold HandleVertexAttribPointer.
  destruct (bound_array_buffer_ d) as [a|] eqn:Ea; [|by eauto using SetGLError_ok].
  assert (held d (Some a)) as Ha by (rewrite <- Ea; by apply dec_array).
  destruct (object_Some _ _ Ha) as (b & -> & _). cbn [obind].
  do 7 (case_match; [by eauto using SetGLError_ok|]). cbn zeta.
  do 2 (case_match; [by eauto using SetGLError_ok|]).
  eexists _, _. split; [done|]. apply with_attribs_ok; [done|].
  pose proof (dec_attribs _ Hok) as Hat. unfold SetAttribInfo.
  destruct (GetVertexAttribInfo indx _) as [v|] eqn:Ev; [|done].
  unfold GetVertexAttribInfo in Ev. destruct (indx <? _); [|done].
  destruct (attribs_index _ _ Hat _ _ Ev) as (Hvi & _ & _).
  zbool. unfold is_case in *.
  assert (type ∈ vertex_types) as Htype.
  { apply Htypes. match goal with H : Validators.IsValid type types = true |- _ =>
      exact (bool_decide_eq_true_1 _ H) end. }
  assert (1 <= size <= 4) as Hsize.
  { apply existsb_exists in H2 as (x & Hx & ->%Z.eqb_eq). apply list_elem_of_In in Hx.
    unfold valid_vertex_attrib_size_table in Hx. set_unfold. lia. }
  eapply attribs_update; [done|done|done| |done|].
  2: { intros j. destruct (j =? indx) eqn:Ej; zbool; [|done]. subst j. simpl.
       rewrite (attribs_enabled _ _ Hat). split; [intros (v' & Hv' & He); congruence|by exists v]. }
  split; simpl; try done; [unfold is_i32 in *; lia|].
  unfold element_size. simpl. destruct (stride =? 0); simpl; [|done].
  rewrite i32_id; [done|]. apply vertex_type_size in Htype. unfold is_i32. lia.
Qed.

(** *** Draw calls *)

(** The bytes of vertex [index] of the attribute are inside its buffer. *)
Definition vertex_in_bounds (objs : gmap Z BufferInfo) (v : VertexAttribInfo) (index : Z) : Prop :=
  exists a b, buffer_ v = Some a /\ objs !! a = Some b /\ IsDeleted b = false /\
    0 <= offset_ v + index * real_stride_ v /\
    offset_ v + index * real_stride_ v + element_size v <= size_ b.

Lemma u32_le x : 0 <= x -> u32 x <= x.
Proof. intros. apply Z.mod_le; lia. Qed.

(** [CanAccess] is right for attributes whose elements do not overlap. *)
Lemma CanAccess_in_bounds d v index max :
  dec_ok d -> attrib_ok v -> enabled_ v = true -> element_size v <= real_stride_ v ->
  CanAccess (objects (buffer_manager d)) max v = true -> 0 <= index <= max ->
  vertex_in_bounds (objects (buffer_manager d)) v index.
Proof.
  intros Hok [Ht Hs Ho Hgs Hrs] He Hes. pose proof (vertex_type_size _ Ht) as Hts.
  unfold CanAccess. rewrite He. cbn [negb].
  destruct (buffer_ v) as [a|] eqn:Ea; [|done]. simpl.
  destruct (objects (buffer_manager d) !! a) as [b|] eqn:Eb; [|done].
  destruct (IsDeleted b) eqn:Ed; [done|]. destruct (_ || _) eqn:Eo; [done|]. zbool.
  assert (1 <= element_size v <= 16) as Hel by (unfold element_size; nia).
  assert (1 <= real_stride_ v <= 255) as Hr by (rewrite Hrs; case_match; zbool; lia).
  fold (element_size v). rewrite (u32_id (real_stride_ v)) by (unfold is_u32; lia).
  assert (usize (element_size v) = element_size v) as ->.
  { apply Z.mod_small. destruct size_bits_ok as [-> | ->]; lia. }
  set (usable := u32 (size_ b - offset_ v)).
  assert (0 <= usable <= size_ b - offset_ v) as Hu.
  { split; [apply u32_range|apply u32_le; lia]. }
  intros Hidx%Z.ltb_lt Hi. exists a, b. split_and!; [done..|nia|].
  pose proof (Z.div_mod usable (real_stride_ v) ltac:(lia)) as Hdm.
  pose proof (Z.mod_pos_bound usable (real_stride_ v) ltac:(lia)) as Hmod.
  pose proof (Z.div_pos usable (real_stride_ v) ltac:(lia) ltac:(lia)) as Hq.
  set (q := usable / real_stride_ v) in *. set (m := usable mod real_stride_ v) in *.
  assert (max < q \/ (max < q + 1 /\ element_size v <= m)) as Hmax.
  { destruct (m >=? element_size v) eqn:Em; zbool.
    - right. split; [|done]. pose proof (u32_le (q + 1)). lia.
    - left. pose proof (u32_le (q + 0)). lia. }
  destruct Hmax as [Hm|[Hm Hem]]; nia.
Qed.

(** The program answers for every location. *)
Definition program_total (program : CurrentProgram) : Prop := forall used, program = Some used ->
  forall location, 0 <= location -> exists b, used location = Done b.

Lemma attribs_valid_ok max used infos d :
  dec_ok d -> (forall location, 0 <= location -> exists b, used location = Done b) ->
  (forall j, j ∈ infos -> exists v,
    zget (vertex_attrib_infos_ (vertex_attrib_manager_ d)) j = Some v) ->
  exists ok d', attribs_valid max used infos d = Done (ok, d') /\ dec_ok d' /\
    (ok = true -> d' = d /\ forall j v, j ∈ infos ->
      zget (vertex_attrib_infos_ (vertex_attrib_manager_ d)) j = Some v -> used j = Done true ->
      CanAccess (objects (buffer_manager d)) max v = true).
Proof.
  intros Hok Hused. pose proof (dec_attribs _ Hok) as Hat. induction infos as [|i infos IH]; intros Hin.
  { exists true, d. split_and!; [done|done|]. intros _. split; [done|].
    by intros j v ?%not_elem_of_nil. }
  cbn [attribs_valid]. destruct (Hin i) as [v Hv]; [set_solver|]. rewrite Hv. cbn [of_option obind].
  destruct (attribs_index _ _ Hat _ _ Hv) as (Hvi & _ & Hh). rewrite Hvi.
  assert (forall P, (P -> forall ok d', attribs_valid max used infos d = Done (ok, d') -> ok = true ->
     d' = d -> used i = Done true -> CanAccess (objects (buffer_manager d)) max v = true) -> P ->
    exists ok d', attribs_valid max used infos d = Done (ok, d') /\ dec_ok d' /\
    (ok = true -> d' = d /\ forall j w, j ∈ i :: infos ->
      zget (vertex_attrib_infos_ (vertex_attrib_manager_ d)) j = Some w -> used j = Done true ->
      CanAccess (objects (buffer_manager d)) max w = true)) as Hnext.
  { intros P HP Hp. destruct IH as (ok & d' & E & Hok' & Hall); [intros j Hj; apply Hin; set_solver|].
    exists ok, d'. split; [done|]. split; [done|]. intros Ht. destruct (Hall Ht) as [-> Hall'].
    split; [done|]. intros j w [->|Hj]%elem_of_cons Hw Hu; [|by eapply Hall'].
    rewrite Hv in Hw. simplify_eq. by eapply HP. }
  destruct (Hused i) as [b Eu]; [by eapply zget_range|]. rewrite Eu. cbn [obind]. destruct b.
  - destruct (CanAccess _ max v) eqn:Ec; cbn [negb].
    + by apply (Hnext True).
    + eexists _, _. split; [done|]. split; [by apply SetGLError_ok|done].
  - destruct (buffer_ v) as [a|] eqn:Eb.
    2: { eexists _, _. split; [done|]. split; [by apply SetGLError_ok|done]. }
    destruct (object_Some _ _ Hh) as (b & -> & _). cbn [obind].
    destruct (IsDeleted b).
    + eexists _, _. split; [done|]. split; [by apply SetGLError_ok|done].
    + apply (Hnext True); [congruence|done].
Qed.

(** What is true when a draw call goes on. *)
Definition draw_ok (program : CurrentProgram) (d : Decoder) (max : Z) : Prop :=
  exists used, program = Some used /\
  forall j v, j ∈ enabled_vertex_attribs_ (vertex_attrib_manager_ d) ->
    zget (vertex_attrib_infos_ (vertex_attrib_manager_ d)) j = Some v -> used j = Done true ->
    CanAccess (objects (buffer_manager d)) max v = true.

Lemma drawn_if_valid_ok program max d :
  dec_ok d -> program_total program ->
  exists r d', drawn_if_valid program max d = Done (r, d') /\ dec_ok d' /\
    forall m, r = Some m -> d' = d /\ m = max /\ draw_ok program d max.
Proof.
  intros Hok Hp. unfold drawn_if_valid, IsDrawValid. destruct program as [used|].
  2: { cbn [obind]. by exists None, d. }
  destruct (attribs_valid_ok max used (enabled_vertex_attribs_ (vertex_attrib_manager_ d)) d Hok)
    as (ok & d1 & -> & Hok1 & Hall); [by apply Hp| |].
  { intros j Hj. apply (attribs_enabled _ _ (dec_attribs _ Hok)) in Hj as (v & Hv & _). by exists v. }
  cbn [obind]. eexists _, _. split; [done|]. split; [done|]. destruct ok; [|done]. intros m [= <-].
  destruct (Hall eq_refl) as [-> Hall']. split_and!; [done..|]. by exists used.
Qed.

(** A check that fails draws nothing. *)
Ltac stop := eexists _, _; split; [reflexivity|]; split; [by auto using SetGLError_ok|discriminate].

Lemma arrays_in_range_ok program first count d :
  dec_ok d -> program_total program -> is_i32 first -> is_i32 count -> 0 <= count ->
  exists r d', arrays_in_range program first count d = Done (r, d') /\ dec_ok d' /\
    forall max, r = Some max ->
      d' = d /\ 0 <= first /\ 0 < count /\ max = first + count - 1 /\ draw_ok program d max.
Proof.
  intros Hok Hp Hf Hc Hp'. unfold arrays_in_range, is_i32 in *.
  case_match; [stop|]. case_match; [stop|]. zbool. rewrite u32_id by (unfold is_u32; lia).
  destruct (drawn_if_valid_ok program (first + count - 1) d Hok Hp) as (r & d' & -> & Hd' & Hr).
  eexists _, _. split; [done|]. split; [done|]. intros m Hm. destruct (Hr m Hm) as (-> & -> & Hdraw).
  split_and!; try done; lia.
Qed.

Lemma arrays_checked_ok complete program mode first count d :
  dec_ok d -> program_total program -> is_i32 first -> is_i32 count ->
  exists r d', arrays_checked complete program mode first count d = Done (r, d') /\ dec_ok d' /\
    forall max, r = Some max ->
      d' = d /\ complete = true /\ 0 <= first /\ 0 < count /\ max = first + count - 1 /\ draw_ok program d max.
Proof.
  intros Hok Hp Hf Hc. unfold arrays_checked. do 2 (case_match; [stop|]). destruct complete; [|stop]. cbn [negb]. zbool.
  destruct (arrays_in_range_ok program first count d) as (r & d' & -> & Hd' & Hr); [done..|].
  eexists _, _. split; [done|]. split; [done|]. intros m Hm. destruct (Hr m Hm) as (? & ? & ? & ? & ?). by split_and!.
Qed.

Lemma index_type_valid type :
  is_case type valid_index_type_table = true -> type ∈ index_types.
Proof.
  intros (x & Hx & ->%Z.eqb_eq)%existsb_exists. apply list_elem_of_In in Hx.
  unfold valid_index_type_table, index_types in *. set_solver.
Qed.

(** What is true of the indices of a draw call that goes on: they are in the element array
    buffer, and none is higher than [max]. *)
Definition indices_ok (d : Decoder) (count type offset max : Z) : Prop :=
  let w := GetGLTypeSizeForTexturesAndBuffers type in
  exists a b s, bound_element_array_buffer_ d = Some a /\
    objects (buffer_manager d) !! a = Some b /\ shadow_ b = Some s /\
    forall i, 0 <= i < count -> exists index,
      index_at s w (offset + i * w) = Some index /\ 0 <= index <= max.

(** The maximum that was looked up is kept for the next time. *)
Definition same_but_cached (d d' : Decoder) : Prop :=
  vertex_attrib_manager_ d' = vertex_attrib_manager_ d /\
  bound_array_buffer_ d' = bound_array_buffer_ d /\
  bound_element_array_buffer_ d' = bound_element_array_buffer_ d /\
  forall x y, objects (buffer_manager d') !! x = Some y ->
    exists y', objects (buffer_manager d) !! x = Some y' /\
      size_ y' = size_ y /\ service_id_ y' = service_id_ y /\ shadow_ y' = shadow_ y.

Lemma GetMaxValueForRange_same offset count type b r b' :
  GetMaxValueForRange offset count type b = Done (r, b') ->
  size_ b' = size_ b /\ service_id_ b' = service_id_ b /\ shadow_ b' = shadow_ b.
Proof.
  unfold GetMaxValueForRange. destruct (range_set_ b !! _) as [m|]; [by intros [= _ <-]|].
  destruct (scan_range offset count type b) as [[m|]| |]; [..|done|done]; cbn [obind]; by intros [= _ <-].
Qed.

Lemma elements_in_range_ok program a b count type offset d :
  dec_ok d -> program_total program -> is_i32 count -> is_i32 offset -> 0 <= count -> 0 <= offset ->
  bound_element_array_buffer_ d = Some a -> objects (buffer_manager d) !! a = Some b -> IsDeleted b = false ->
  is_case type valid_index_type_table = true ->
  exists r d', elements_in_range program a count type offset d = Done (r, d') /\ dec_ok d' /\
    forall max, r = Some max ->
      0 < count /\ same_but_cached d d' /\ indices_ok d count type offset max /\ draw_ok program d' max.
Proof.
  intros Hok Hp Hc Ho Hc0 Ho0 Ea Hb Ed Et. unfold elements_in_range.
  destruct (count =? 0) eqn:E0; [stop|]. zbool.
  unfold object. rewrite Hb. cbn [of_option obind].
  destruct (dec_objects _ Hok _ _ Hb) as [Hr _].
  destruct (scan_range_ok b offset count type (info_reach_ok b Hr) Ed) as (r & Er & Hres);
    [unfold is_u32, is_i32 in *; lia|done|by apply index_type_valid|].
  assert (exists b', GetMaxValueForRange offset count type b = Done (r, b')) as [b' Eb'].
  { unfold GetMaxValueForRange. destruct (range_set_ b !! _) as [m|] eqn:El.
    - apply (ok_cache _ (info_reach_ok b Hr)) in El. rewrite Er in El. simplify_eq. by eexists.
    - rewrite Er. cbn [obind]. destruct r; by eexists. }
  destruct (GetMaxValueForRange_same _ _ _ _ _ _ Eb') as (Hsz & Hsv & Hsh).
  rewrite Eb'. cbn [obind].
  assert (info_reach b') as Hr' by by eapply reach_GetMaxValueForRange.
  pose proof (with_object_ok d a b' Hok ltac:(by rewrite Hb) Hr') as Hok1.
  destruct r as [max|]; [|stop].
  destruct (drawn_if_valid_ok program max (with_buffers (with_object (buffer_manager d) a b') d) Hok1 Hp)
    as (r & d' & E & Hok' & Hdraw).
  exists r, d'. split; [exact E|]. split; [done|]. intros m Hm. destruct (Hdraw m Hm) as (-> & -> & Hd).
  destruct Hres as (s & Hs & _ & _ & Hidx & _). split_and!; [lia| | |done].
  - split_and!; [done..|]. simpl. intros x y. rewrite lookup_insert_Some.
    intros [[<- <-]|[_ Hx]]; [by exists b|by exists y].
  - exists a, b, s. split_and!; try done. intros i Hi. destruct (Hidx i Hi) as (_ & v & Hv & Hvm). by exists v.
Qed.

Lemma elements_checked_ok complete program mode count type offset d :
  dec_ok d -> program_total program -> is_i32 count -> is_i32 offset ->
  exists r d', elements_checked complete program mode count type offset d = Done (r, d') /\ dec_ok d' /\
    forall max, r = Some max ->
      complete = true /\ 0 < count /\ same_but_cached d d' /\ indices_ok d count type offset max /\
      draw_ok program d' max.
Proof.
  intros Hok Hp Hc Ho. unfold elements_checked.
  destruct (bound_element_array_buffer_ d) as [a|] eqn:Ea; [|stop].
  assert (held d (Some a)) as Ha by (rewrite <- Ea; by apply dec_element).
  destruct (object_Some _ _ Ha) as (b & -> & Hb). cbn [obind].
  destruct (IsDeleted b) eqn:Ed; [stop|].
  do 2 (case_match; [stop|]). zbool.
  destruct (negb _); [stop|].
  destruct (is_case type _) eqn:Et; cbn [negb]; [|stop].
  destruct complete; cbn [negb]; [|stop].
  destruct (elements_in_range_ok program a b count type offset d) as (r & d' & -> & Hd' & Hr); [done..|].
  eexists _, _. split; [done|]. split; [done|]. intros m Hm. destruct (Hr m Hm) as (? & ? & ? & ?). by split_and!.
Qed.

(** ** Reachable decoders *)

Definition Decoder_new (max_vertex_attribs : Z) : Decoder :=
  mkDecoder BufferManager_new Reused.new (Initialize max_vertex_attribs VertexAttribManager_new)
    None None [].

(** Any sequence of the calls above, with any arguments that fit their types, and with any
    program in use when a draw is checked.  The client may have asked for [GL_FIXED], and for
    buffers of several targets. *)
Definition AllowMultipleTargets (d : Decoder) : Decoder :=
  let m := buffer_manager d in
  with_buffers (mkBufferManager (objects m) (buffer_infos_ m) (next_object m) true) d.

Inductive decoder_reach : Decoder -> Prop :=
| reach_Decoder_new n : 0 <= n < 2 ^ 32 -> decoder_reach (Decoder_new n)
| reach_AllowMultipleTargets d : decoder_reach d -> decoder_reach (AllowMultipleTargets d)
| reach_BindBuffer d env target id calls d' :
    decoder_reach d -> DoBindBuffer env target id d = Done (calls, d') -> decoder_reach d'
| reach_DeleteBuffers d ids calls d' :
    decoder_reach d -> DeleteBuffersHelper ids d = Done (calls, d') -> decoder_reach d'
| reach_BufferData d env target size data usage calls d' :
    decoder_reach d -> size < 2 ^ (size_bits - 1) ->
    (forall bytes, data = Some bytes -> zlen bytes = size /\ Forall is_byte bytes) ->
    DoBufferData env target size data usage d = Done (calls, d') -> decoder_reach d'
| reach_BufferSubData d env target offset size data calls d' :
    decoder_reach d -> zlen data = size -> Forall is_byte data ->
    size < 2 ^ (size_bits - 1) -> offset < 2 ^ (size_bits - 1) ->
    DoBufferSubData env target offset size data d = Done (calls, d') -> decoder_reach d'
| reach_EnableVertexAttribArray d index calls d' :
    decoder_reach d -> 0 <= index ->
    DoEnableVertexAttribArray index d = Done (calls, d') -> decoder_reach d'
| reach_DisableVertexAttribArray d env index calls d' :
    decoder_reach d -> 0 <= index ->
    DoDisableVertexAttribArray env index d = Done (calls, d') -> decoder_reach d'
| reach_VertexAttribPointer d types group_max indx size type normalized stride offset calls d' :
    decoder_reach d -> types ⊆ vertex_types -> 0 <= indx -> is_i32 offset ->
    HandleVertexAttribPointer types group_max indx size type normalized stride offset d
      = Done (calls, d') -> decoder_reach d'
| reach_VertexAttrib d call index v calls d' :
    decoder_reach d -> 0 <= index -> DoVertexAttrib call index v d = Done (calls, d') -> decoder_reach d'
| reach_DrawArrays d complete program mode first count r d' :
    decoder_reach d -> program_total program -> is_i32 first -> is_i32 count ->
    arrays_checked complete program mode first count d = Done (r, d') -> decoder_reach d'
| reach_DrawElements d complete program mode count type offset r d' :
    decoder_reach d -> program_total program -> is_i32 count -> is_i32 offset ->
    elements_checked complete program mode count type offset d = Done (r, d') -> decoder_reach d'.

Lemma Decoder_new_ok n : 0 <= n -> dec_ok (Decoder_new n).
Proof.
  intros Hn. split; simpl; try done.
  assert (forall i v, zget (map (fun vv => set_index vv VertexAttribInfo_new)
    (map Z.of_nat (seq 0 (Z.to_nat n)))) i = Some v -> v = set_index i VertexAttribInfo_new) as Hget.
  { intros i v. unfold zget. destruct (0 <=? i) eqn:Ei; [|done]. zbool.
    rewrite !list_lookup_fmap. destruct (seq 0 (Z.to_nat n) !! Z.to_nat i) as [k|] eqn:Ek; [|done].
    apply lookup_seq in Ek as [-> _]. simpl. intros [= <-]. f_equal. lia. }
  split; simpl.
  - unfold zlen. rewrite !length_map, length_seq. lia.
  - intros i v ->%Hget. split; [done|]. split; [|done]. split; simpl; try lia; [|done].
    unfold vertex_types, valid_vertex_attrib_type_table. set_solver.
  - intros i. split; [by intros ?%not_elem_of_nil|]. by intros (v & ->%Hget & ?).
Qed.

Lemma AllowMultipleTargets_ok d : dec_ok d -> dec_ok (AllowMultipleTargets d).
Proof. intros [? ? ? ? []]. split; try done. Qed.

Lemma DoVertexAttrib_ok call index v d :
  dec_ok d -> 0 <= index -> exists calls d', DoVertexAttrib call index v d = Done (calls, d') /\ dec_ok d'.
Proof.
  intros Hok Hix. unfold DoVertexAttrib, SetValue.
  destruct (GetVertexAttribInfo index _) as [info|] eqn:Ei; cbn [mbind option_bind]; [|by eauto using SetGLError_ok].
  eexists _, _. split; [done|]. apply with_attribs_ok; [done|]. pose proof (dec_attribs _ Hok) as Hat.
  unfold GetVertexAttribInfo in Ei. destruct (index <? _); [|done].
  destruct (attribs_index _ _ Hat _ _ Ei) as (Hvi & [] & Hh).
  eapply attribs_update; [done|done|done|by split|done|].
  intros j. destruct (j =? index) eqn:Ej; zbool; [|done]. subst j. simpl.
  rewrite (attribs_enabled _ _ Hat). split; [intros (v' & Hv' & He); congruence|by exists info].
Qed.

Lemma decoder_reach_ok d : decoder_reach d -> dec_ok d.
Proof.
  induction 1 as
    [n Hn|d Hr IH|d env target id calls d' Hr IH E|d ids calls d' Hr IH E
    |d env target size data usage calls d' Hr IH Hs Hd E
    |d env target offset size data calls d' Hr IH Hl Hb Hs Ho E
    |d index calls d' Hr IH Hi E|d env index calls d' Hr IH Hi E
    |d types group_max indx size type normalized stride offset calls d' Hr IH Ht Hi Ho E
    |d call index v calls d' Hr IH Hi E
    |d complete program mode first count r d' Hr IH Hp Hf Hc E
    |d complete program mode count type offset r d' Hr IH Hp Hc Ho E].
  - apply Decoder_new_ok. lia.
  - by apply AllowMultipleTargets_ok.
  - destruct (DoBindBuffer_ok env target id d IH) as (? & ? & E' & ?). rewrite E' in E. by simplify_eq.
  - destruct (DeleteBuffersHelper_ok ids d IH) as (? & ? & E' & ?). rewrite E' in E. by simplify_eq.
  - destruct (DoBufferData_ok env target size data usage d IH Hs Hd) as (? & ? & E' & ?).
    rewrite E' in E. by simplify_eq.
  - destruct (DoBufferSubData_ok env target offset size data d IH Hl Hb Hs Ho) as (? & ? & E' & ?).
    rewrite E' in E. by simplify_eq.
  - unfold DoEnableVertexAttribArray in E.
    destruct (Enable_ok index true d IH Hi) as (ok & m & E' & Hok). rewrite E' in E.
    cbn [obind] in E. destruct ok; simplify_eq; [done|by apply SetGLError_ok].
  - unfold DoDisableVertexAttribArray in E.
    destruct (Enable_ok index false d IH Hi) as (ok & m & E' & Hok). rewrite E' in E.
    cbn [obind] in E. destruct ok; simplify_eq; [done|by apply SetGLError_ok].
  - destruct (HandleVertexAttribPointer_ok types group_max indx size type normalized stride offset d IH Ht Hi Ho)
      as (? & ? & E' & ?). rewrite E' in E. by simplify_eq.
  - destruct (DoVertexAttrib_ok call index v d IH Hi) as (? & ? & E' & ?). rewrite E' in E. by simplify_eq.
  - destruct (arrays_checked_ok complete program mode first count d IH Hp Hf Hc) as (? & ? & E' & ? & _).
    rewrite E' in E. by simplify_eq.
  - destruct (elements_checked_ok complete program mode count type offset d IH Hp Hc Ho)
      as (? & ? & E' & ? & _). rewrite E' in E. by simplify_eq.
Qed.

(** The attributes that the program in use reads. *)
Definition read_by_program (program : CurrentProgram) (d : Decoder) (v : VertexAttribInfo) : Prop :=
  exists j used, zget (vertex_attrib_infos_ (vertex_attrib_manager_ d)) j = Some v /\
    enabled_ v = true /\ program = Some used /\ used j = Done true.

Lemma draw_ok_in_bounds program d max v index :
  dec_ok d -> draw_ok program d max -> read_by_program program d v -> element_size v <= real_stride_ v ->
  0 <= index <= max -> vertex_in_bounds (objects (buffer_manager d)) v index.
Proof.
  intros Hok (used & Hp & Hall) (j & used' & Hv & He & Hp' & Hu) Hes Hi.
  rewrite Hp in Hp'. simplify_eq. pose proof (dec_attribs _ Hok) as Hat.
  destruct (attribs_index _ _ Hat _ _ Hv) as (_ & Hvok & _).
  eapply CanAccess_in_bounds; [done..| |done].
  apply (Hall j v); [|done..]. apply (attribs_enabled _ _ Hat). by exists v.
Qed.

Lemma same_but_cached_in_bounds d d' v index :
  same_but_cached d d' -> vertex_in_bounds (objects (buffer_manager d')) v index ->
  vertex_in_bounds (objects (buffer_manager d)) v index.
Proof.
  intros (_ & _ & _ & Hobjs) (x & y & Hx & Hy & Hd & H1 & H2).
  destruct (Hobjs x y Hy) as (y' & Hy' & Hsz & Hsv & _). exists x, y'. split_and!; [done|done| |done|lia].
  unfold IsDeleted in *. by rewrite Hsv.
Qed.

(** ** Properties *)

(** In every state of the decoder, [glDrawElements] passes its checks, which always
    return, only when each index it reads is inside the element array buffer, and each vertex
    that such an index names is inside the buffer of every enabled attribute of the program,
    for attributes whose elements do not overlap. *)
Theorem draw_elements_in_bounds complete program mode count type offset d :
  decoder_reach d -> program_total program -> is_i32 count -> is_i32 offset ->
  exists r d', elements_checked complete program mode count type offset d = Done (r, d') /\
    forall max, r = Some max ->
     exists a b s, bound_element_array_buffer_ d = Some a /\
       objects (buffer_manager d) !! a = Some b /\ shadow_ b = Some s /\
       forall i, 0 <= i < count -> exists index,
         index_at s (GetGLTypeSizeForTexturesAndBuffers type)
           (offset + i * GetGLTypeSizeForTexturesAndBuffers type) = Some index /\ index <= max /\
         forall v, read_by_program program d v -> element_size v <= real_stride_ v ->
           vertex_in_bounds (objects (buffer_manager d)) v index.
Proof.
  intros Hr%decoder_reach_ok Hp Hc Ho.
  destruct (elements_checked_ok complete program mode count type offset d Hr Hp Hc Ho)
    as (r & d' & E & Hok' & Hdraw). exists r, d'. split; [done|]. intros max Hm.
  destruct (Hdraw max Hm) as (_ & _ & Hsame & (a & b & s & Ha & Hb & Hs & Hidx) & Hd).
  exists a, b, s. split_and!; [done..|]. intros i Hi. destruct (Hidx i Hi) as (index & Hix & Hmax).
  exists index. split_and!; [done|lia|]. intros v Hv Hes. eapply same_but_cached_in_bounds; [done|].
  eapply draw_ok_in_bounds; [done..| |done|done].
  destruct Hv as (j & used & Hv). exists j, used. by rewrite (proj1 Hsame).
Qed.

(** The same of [glDrawArrays] and the vertices from [first] on, [first + count - 1]
    being computed without a wrap-around that could hide a vertex. *)
Theorem draw_arrays_in_bounds complete program mode first count d :
  decoder_reach d -> program_total program -> is_i32 first -> is_i32 count ->
  exists r d', arrays_checked complete program mode first count d = Done (r, d') /\
    forall max, r = Some max ->
     forall i v, first <= i < first + count -> read_by_program program d v -> element_size v <= real_stride_ v ->
       0 <= i <= max /\ vertex_in_bounds (objects (buffer_manager d)) v i.
Proof.
  intros Hr%decoder_reach_ok Hp Hf Hc.
  destruct (arrays_checked_ok complete program mode first count d Hr Hp Hf Hc)
    as (r & d' & E & _ & Hdraw). exists r, d'. split; [done|]. intros max Hm.
  destruct (Hdraw max Hm) as (-> & _ & H0 & _ & -> & Hd). intros i v Hi Hv Hes. split; [lia|].
  eapply draw_ok_in_bounds; [done|done|done|done|]. lia.
Qed.

End invariant.

(** ** Witnesses *)

Definition example_env : Answers := mkAnswers true false false 11 GL_NO_ERROR.

(** A program with one attribute, at 0. *)
Definition example_program : CurrentProgram := Some (fun j => Done (j =? 0)).

Lemma example_program_total : program_total example_program.
Proof. intros used [= <-] location _. by eexists. Qed.

(** The decoder after a call. *)
Definition after (r : Result) : Decoder :=
  match r with
  | Done (_, d) => d
  | _ => Decoder_new 0
  end.

(** An array buffer of [size] zero bytes, read as four floats a vertex, [stride] bytes
    apart, by the program in use. *)
Definition example_array (size : Z) : Decoder :=
  after (DoBufferData example_env GL_ARRAY_BUFFER size None GL_STATIC_DRAW
    (after (DoBindBuffer example_env GL_ARRAY_BUFFER 1 (Decoder_new 2)))).

Definition example_decoder (size stride : Z) : Decoder :=
  after (DoEnableVertexAttribArray 0
    (after (HandleVertexAttribPointer valid_vertex_attrib_type_table 2 0 4 GL_FLOAT 0 stride 0
      (example_array size)))).

Definition example_vertices (stride : Z) : VertexAttribInfo :=
  mkVertexAttribInfo 0 true 4 GL_FLOAT 0 0 stride (if stride =? 0 then 16 else stride)
    (0, 0, 0, one_f) (Some 0).

(** Indices 0, 1, 1 as bytes. *)
Definition example_indexed : Decoder :=
  after (DoBufferSubData example_env GL_ELEMENT_ARRAY_BUFFER 0 3 [0; 1; 1]
    (after (DoBufferData example_env GL_ELEMENT_ARRAY_BUFFER 3 None GL_STATIC_DRAW
      (after (DoBindBuffer example_env GL_ELEMENT_ARRAY_BUFFER 2 (example_decoder 32 0)))))).

Lemma Decoder_new_bind target id n :
  0 <= n < 2 ^ 32 ->
  decoder_reach (after (DoBindBuffer example_env target id (Decoder_new n))).
Proof.
  intros Hn. pose proof (reach_Decoder_new n Hn) as Hr.
  destruct (DoBindBuffer_ok example_env target id _ (decoder_reach_ok _ Hr)) as (calls & d & E & _).
  rewrite E. by eapply reach_BindBuffer.
Qed.

Lemma example_array_reach size : 0 <= size < 2 ^ 31 -> decoder_reach (example_array size).
Proof.
  intros Hs. unfold example_array.
  pose proof (Decoder_new_bind GL_ARRAY_BUFFER 1 2 ltac:(lia)) as Hr.
  destruct (DoBufferData_ok example_env GL_ARRAY_BUFFER size None GL_STATIC_DRAW _
    (decoder_reach_ok _ Hr)) as (calls & d & E & _); [simpl; lia|done|].
  rewrite E. eapply reach_BufferData; [exact Hr| | |exact E]; [simpl; lia|done].
Qed.

Lemma example_decoder_reach size stride :
  0 <= size < 2 ^ 31 -> decoder_reach (example_decoder size stride).
Proof.
  intros Hs. pose proof (example_array_reach size Hs) as Hr. unfold example_decoder.
  assert (valid_vertex_attrib_type_table ⊆ vertex_types) as Ht by (by apply list_subseteq_cons).
  destruct (HandleVertexAttribPointer_ok valid_vertex_attrib_type_table 2 0 4 GL_FLOAT 0 stride 0 _
    (decoder_reach_ok _ Hr) Ht) as (calls & d & E & _); [lia|unfold is_i32; lia|].
  rewrite E. assert (decoder_reach d) as Hd.
  { eapply reach_VertexAttribPointer; [exact Hr|exact Ht| | |exact E]; [lia|unfold is_i32; lia]. }
  simpl. destruct (Enable_ok 0 true d (decoder_reach_ok _ Hd)) as (ok & m & Em & _); [lia|].
  assert (exists calls' d', DoEnableVertexAttribArray 0 d = Done (calls', d')) as (calls' & d' & E').
  { unfold DoEnableVertexAttribArray. rewrite Em. cbn [obind]. destruct ok; eauto. }
  rewrite E'. eapply reach_EnableVertexAttribArray; [exact Hd| |exact E']. lia.
Qed.

Lemma example_indexed_reach : decoder_reach example_indexed.
Proof.
  pose proof (example_decoder_reach 32 0 ltac:(lia)) as H0. unfold example_indexed.
  destruct (DoBindBuffer_ok example_env GL_ELEMENT_ARRAY_BUFFER 2 _ (decoder_reach_ok _ H0))
    as (c1 & d1 & E1 & _). rewrite E1. simpl.
  assert (decoder_reach d1) as H1 by by eapply reach_BindBuffer.
  destruct (DoBufferData_ok example_env GL_ELEMENT_ARRAY_BUFFER 3 None GL_STATIC_DRAW _
    (decoder_reach_ok _ H1)) as (c2 & d2 & E2 & _); [simpl; lia|done|].
  rewrite E2. simpl. assert (decoder_reach d2) as H2.
  { eapply reach_BufferData; [exact H1| | |exact E2]; [simpl; lia|done]. }
  assert (Forall is_byte [0; 1; 1]) as Hb by (repeat constructor; unfold is_byte; lia).
  destruct (DoBufferSubData_ok example_env GL_ELEMENT_ARRAY_BUFFER 0 3 [0; 1; 1] _
    (decoder_reach_ok _ H2)) as (c3 & d3 & E3 & _); [done|done|simpl; lia|simpl; lia|].
  rewrite E3. eapply reach_BufferSubData; [exact H2| |exact Hb| | |exact E3]; [done|simpl; lia|simpl; lia].
Qed.

(** For attributes whose elements do overlap the check falls short: with four
    floats a vertex, 4 bytes apart, in a buffer of 16 bytes, [glDrawArrays] lets four
    vertices through, and the last one is read up to 12 bytes after the end. *)
Theorem overlapping_vertices_overrun :
  exists d v, decoder_reach d /\ read_by_program example_program d v /\
    element_size v = 16 /\ real_stride_ v = 4 /\
    arrays_checked true example_program GL_POINTS 0 4 d = Done (Some 3, d) /\
    ~ vertex_in_bounds (objects (buffer_manager d)) v 3 /\
    exists b, buffer_ v = Some 0 /\ objects (buffer_manager d) !! 0 = Some b /\ size_ b = 16.
Proof.
  exists (example_decoder 16 4), (example_vertices 4). split_and!.
  - apply example_decoder_reach. lia.
  - exists 0, (fun j => Done (j =? 0)). by vm_compute.
  - done.
  - done.
  - by vm_compute.
  - intros (a & b & [= <-] & Hb & _ & _ & Hsz).
    assert (objects (buffer_manager (example_decoder 16 4)) !! 0
      = Some (mkBufferInfo 11 GL_ARRAY_BUFFER 16 GL_STATIC_DRAW false None ∅)) as E by by vm_compute.
    rewrite E in Hb. injection Hb as <-. vm_compute in Hsz. by apply Hsz.
  - eexists. split; [done|]. split; [by vm_compute|done].
Qed.

Lemma example_read : read_by_program example_program (example_decoder 32 0) (example_vertices 0).
Proof. exists 0, (fun j => Done (j =? 0)). split_and!; vm_compute; reflexivity. Qed.

Lemma draw_arrays_in_bounds_witness :
  arrays_checked true example_program GL_POINTS 0 2 (example_decoder 32 0) = Done (Some 1, example_decoder 32 0) /\
  vertex_in_bounds (objects (buffer_manager (example_decoder 32 0))) (example_vertices 0) 1.
Proof.
  destruct (draw_arrays_in_bounds true example_program GL_POINTS 0 2 (example_decoder 32 0)
    (example_decoder_reach 32 0 ltac:(lia)) example_program_total ltac:(unfold is_i32; lia)
    ltac:(unfold is_i32; lia)) as (r & d' & E & Hdraw).
  assert (arrays_checked true example_program GL_POINTS 0 2 (example_decoder 32 0)
    = Done (Some 1, example_decoder 32 0)) as E' by (vm_compute; reflexivity).
  rewrite E' in E. injection E as <- <-. split; [exact E'|].
  destruct (Hdraw 1 eq_refl 1 (example_vertices 0) ltac:(lia) example_read) as [_ Hv];
    [vm_compute; discriminate|exact Hv].
Defined.

Lemma example_indexed_draw :
  exists d', elements_checked true example_program GL_TRIANGLES 3 GL_UNSIGNED_BYTE 0 example_indexed
      = Done (Some 1, d').
Proof. eexists. vm_compute. reflexivity. Qed.

Lemma example_indexed_read : read_by_program example_program example_indexed (example_vertices 0).
Proof. exists 0, (fun j => Done (j =? 0)). split_and!; vm_compute; reflexivity. Qed.

Lemma bound_shadow (o : option Z) (m : gmap Z BufferInfo) a b s r :
  (o ≫= (m !!.)) ≫= shadow_ = Some r -> o = Some a -> m !! a = Some b -> shadow_ b = Some s ->
  s = r.
Proof. intros E -> Hb Hs. simpl in E. rewrite Hb in E. simpl in E. congruence. Qed.

Lemma example_indexed_shadow :
  (bound_element_array_buffer_ example_indexed
    ≫= (objects (buffer_manager example_indexed) !!.)) ≫= shadow_ = Some [0; 1; 1].
Proof. vm_compute. reflexivity. Qed.

Lemma draw_elements_in_bounds_witness :
  exists d', elements_checked true example_program GL_TRIANGLES 3 GL_UNSIGNED_BYTE 0 example_indexed
      = Done (Some 1, d') /\
    exists index, index_at [0; 1; 1] 1 2 = Some index /\
      vertex_in_bounds (objects (buffer_manager example_indexed)) (example_vertices 0) index.
Proof.
  destruct (draw_elements_in_bounds true example_program GL_TRIANGLES 3 GL_UNSIGNED_BYTE 0 example_indexed
    example_indexed_reach example_program_total ltac:(unfold is_i32; lia) ltac:(unfold is_i32; lia))
    as (r & d' & E & Hdraw).
  destruct example_indexed_draw as [d1 E1]. rewrite E1 in E. injection E as <- <-.
  exists d1. split; [exact E1|].
  destruct (Hdraw 1 eq_refl) as (a & b & s & Ha & Hb & Hs & Hall).
  rewrite (bound_shadow _ _ a b s _ example_indexed_shadow Ha Hb Hs) in Hall.
  destruct (Hall 2 ltac:(lia)) as (index & Hi & _ & Hv). exists index. split; [exact Hi|].
  refine (Hv (example_vertices 0) example_indexed_read _). vm_compute. discriminate.
Defined.
