(* ===== verification/VertexSafety.v ===== *)
(** * What the calls on buffers and vertex attributes keep

    The handlers of [DrawValidation.v] end in a good decoder with as many vertex attributes as
    before: the form in which [HandlerSafety.v] uses them. *)

From Stdlib Require Import ZArith Lia ZifyBool Bool.
From stdpp Require Import base numbers option gmap list.
From S2P Require Import Prelude GLConstants Validators GLES2Util BufferManager VertexAttribManager IdAllocator DrawValidation.
Local Open Scope Z_scope.

Definition max_attribs (d : Decoder) : Z := max_vertex_attribs_ (vertex_attrib_manager_ d).

Section kept.
Context `{Platform}.
Implicit Types d : Decoder.

Definition kept_with (f : Decoder -> Result) d : Prop :=
  exists calls d', f d = Done (calls, d') /\ dec_ok d' /\ max_attribs d' = max_attribs d.

(** The same of a check, which answers something. *)
Definition checked_with {A} (f : Decoder -> outcome (A * Decoder)) d : Prop :=
  exists x d', f d = Done (x, d') /\ dec_ok d' /\ max_attribs d' = max_attribs d.

(** Case analysis on everything that a computation that ended has tested. *)
Ltac ended := repeat match goal with
  | Hx : Done _ = Done _ |- _ => injection Hx as <- <-; try reflexivity
  | Hx : UB = Done _ |- _ => discriminate Hx
  | Hx : Fuel = Done _ |- _ => discriminate Hx
  | Hx : obind ?m _ = Done _ |- _ => destruct m as [?| |] eqn:?; cbn [obind] in Hx
  | Hx : (let '(_, _) := ?p in _) = Done _ |- _ => destruct p
  | Hx : (if ?b then _ else _) = Done _ |- _ => destruct b
  | Hx : match ?o with Some _ => _ | None => _ end = Done _ |- _ => destruct o
  end.

Lemma SetRange_at_max a offset size data d ok d' :
  SetRange_at a offset size data d = Done (ok, d') -> max_attribs d' = max_attribs d.
Proof. unfold SetRange_at. intros E1. ended. Qed.

Lemma DoBufferData_kept env target size data usage d :
  dec_ok d -> size < 2 ^ (size_bits - 1) ->
  (forall bytes, data = Some bytes -> zlen bytes = size /\ Forall is_byte bytes) ->
  kept_with (DoBufferData env target size data usage) d.
Proof.
  intros Hd Hs Hb. destruct (DoBufferData_ok env target size data usage d Hd Hs Hb) as (calls & d' & E1 & Hd').
  exists calls, d'. split; [done|]. split; [done|]. unfold DoBufferData in E1. cbv zeta in E1. ended;
    repeat match goal with Hx : SetRange_at _ _ _ _ _ = Done _ |- _ => apply SetRange_at_max in Hx end; done.
Qed.

Lemma DoBufferSubData_kept env target offset size data d :
  dec_ok d -> zlen data = size -> Forall is_byte data -> size < 2 ^ (size_bits - 1) -> offset < 2 ^ (size_bits - 1) ->
  kept_with (DoBufferSubData env target offset size data) d.
Proof.
  intros Hd Hl Hb Hs Ho.
  destruct (DoBufferSubData_ok env target offset size data d Hd Hl Hb Hs Ho) as (calls & d' & E1 & Hd').
  exists calls, d'. split; [done|]. split; [done|]. unfold DoBufferSubData in E1. ended;
    repeat match goal with Hx : SetRange_at _ _ _ _ _ = Done _ |- _ => apply SetRange_at_max in Hx end; done.
Qed.

Lemma DoBindBuffer_kept env target client_id d : dec_ok d -> kept_with (DoBindBuffer env target client_id) d.
Proof.
  intros Hd. destruct (DoBindBuffer_ok env target client_id d Hd) as (calls & d' & E1 & Hd').
  exists calls, d'. split; [done|]. split; [done|]. unfold DoBindBuffer in E1. cbv zeta in E1. ended.
Qed.

Lemma DeleteBuffersHelper_kept ids d : dec_ok d -> kept_with (DeleteBuffersHelper ids) d.
Proof.
  intros Hd. destruct (DeleteBuffersHelper_ok ids d Hd) as (calls & d' & E1 & Hd').
  exists calls, d'. split; [done|]. split; [done|]. clear Hd Hd'. revert d calls d' E1.
  induction ids as [|id ids IH]; intros d calls d' E1; cbn [DeleteBuffersHelper] in E1; [by ended|].
  destruct (GetBufferInfo id (buffer_manager d)) as [a|]; [|by eapply IH].
  cbv zeta in E1. ended.
  match goal with Hx : DeleteBuffersHelper ids _ = Done _ |- _ => apply IH in Hx end. done.
Qed.

Lemma Enable_kept index enable d :
  dec_ok d -> 0 <= index ->
  exists ok m, Enable index enable (vertex_attrib_manager_ d) = Done (ok, m) /\
    dec_ok (with_attribs m d) /\ max_vertex_attribs_ m = max_attribs d.
Proof.
  intros Hd Hi. destruct (Enable_ok index enable d Hd Hi) as (ok & m & E1 & Hm).
  exists ok, m. split; [done|]. split; [done|]. unfold Enable in E1. cbv zeta in E1. ended.
Qed.

Lemma DoEnableVertexAttribArray_kept index d :
  dec_ok d -> 0 <= index -> kept_with (DoEnableVertexAttribArray index) d.
Proof.
  intros Hd Hi. destruct (Enable_kept index true d Hd Hi) as (ok & m & E1 & Hm & Hx).
  unfold kept_with, DoEnableVertexAttribArray. rewrite E1. cbn [obind].
  destruct ok; eexists _, _; (split; [done|]); split; try done. by apply SetGLError_ok.
Qed.

Lemma DoDisableVertexAttribArray_kept env index d :
  dec_ok d -> 0 <= index -> kept_with (DoDisableVertexAttribArray env index) d.
Proof.
  intros Hd Hi. destruct (Enable_kept index false d Hd Hi) as (ok & m & E1 & Hm & Hx).
  unfold kept_with, DoDisableVertexAttribArray. rewrite E1. cbn [obind].
  destruct ok; eexists _, _; (split; [done|]); split; try done. by apply SetGLError_ok.
Qed.

Lemma SetAttribInfo_max index buffer size type normalized gl_stride real_stride offset m :
  max_vertex_attribs_ (SetAttribInfo index buffer size type normalized gl_stride real_stride offset m)
    = max_vertex_attribs_ m.
Proof. unfold SetAttribInfo. by destruct (GetVertexAttribInfo index m). Qed.

Lemma HandleVertexAttribPointer_kept types group_max indx size type normalized stride offset d :
  dec_ok d -> types ⊆ vertex_types -> 0 <= indx -> is_i32 offset ->
  kept_with (HandleVertexAttribPointer types group_max indx size type normalized stride offset) d.
Proof.
  intros Hd Ht Hi Ho.
  destruct (HandleVertexAttribPointer_ok types group_max indx size type normalized stride offset d Hd Ht Hi Ho)
    as (calls & d' & E1 & Hd').
  exists calls, d'. split; [done|]. split; [done|]. unfold HandleVertexAttribPointer in E1. cbv zeta in E1. ended;
    unfold max_attribs; cbn; by rewrite ?SetAttribInfo_max.
Qed.

Lemma DoVertexAttrib_kept call index v d : dec_ok d -> 0 <= index -> kept_with (DoVertexAttrib call index v) d.
Proof.
  intros Hd Hi. destruct (DoVertexAttrib_ok call index v d Hd Hi) as (calls & d' & E1 & Hd').
  exists calls, d'. split; [done|]. split; [done|]. unfold DoVertexAttrib, SetValue in E1.
  destruct (GetVertexAttribInfo index (vertex_attrib_manager_ d)); cbn in E1; by injection E1 as <- <-.
Qed.

(** *** Checks *)

Lemma attribs_valid_attribs max used infos d ok d' :
  attribs_valid max used infos d = Done (ok, d') -> vertex_attrib_manager_ d' = vertex_attrib_manager_ d.
Proof.
  revert d. induction infos as [|it infos IH]; intros d E1; cbn [attribs_valid] in E1; [by ended|].
  ended; by eapply IH.
Qed.

Lemma drawn_if_valid_attribs program max d r d' :
  drawn_if_valid program max d = Done (r, d') -> vertex_attrib_manager_ d' = vertex_attrib_manager_ d.
Proof.
  unfold drawn_if_valid, IsDrawValid. intros E1. destruct program as [used|]; ended. by eapply attribs_valid_attribs.
Qed.

Lemma arrays_in_range_attribs program first count d r d' :
  arrays_in_range program first count d = Done (r, d') -> vertex_attrib_manager_ d' = vertex_attrib_manager_ d.
Proof. unfold arrays_in_range. intros E1. ended. by eapply drawn_if_valid_attribs. Qed.

Lemma elements_in_range_attribs program a count type offset d r d' :
  elements_in_range program a count type offset d = Done (r, d') -> vertex_attrib_manager_ d' = vertex_attrib_manager_ d.
Proof.
  unfold elements_in_range. cbv zeta. intros E1. ended; try done.
  match goal with Hx : drawn_if_valid _ _ _ = Done _ |- _ => by apply drawn_if_valid_attribs in Hx end.
Qed.

End kept.
