(* ===== verification/TextureInfo.v ===== *)
(** * Textures

    [TextureManager::TextureInfo] of [gpu/command_buffer/service/texture_manager.{h,cc}]:
    the levels of a texture, its parameters, and the cached answers to "can it be
    rendered?". *)

From Stdlib Require Import ZArith Lia ZifyBool Bool.
From stdpp Require Import base numbers option gmap sets list.
From S2P Require Import Prelude GLConstants Validators GLES2Util FeatureInfo.
Local Open Scope Z_scope.

(** ** [base::bits::Log2Floor] *)

Fixpoint Log2Floor_loop (bits : list Z) (value log : Z) : Z :=
  match bits with
  | [] => log
  | i :: bits =>
      let shift := Z.shiftl 1 i in
      let x := Z.shiftr value shift in
      if negb (x =? 0) then Log2Floor_loop bits x (log + shift) else Log2Floor_loop bits value log
  end.

Definition Log2Floor (n : Z) : Z := if n =? 0 then -1 else Log2Floor_loop [4; 3; 2; 1; 0] n 0.

Definition ComputeMipMapCount (width height depth : Z) : Z :=
  1 + Log2Floor (u32 (Z.max (Z.max width height) depth)).

(** ** Faces *)

Definition cube_faces : list Z :=
  [GL_TEXTURE_CUBE_MAP_POSITIVE_X; GL_TEXTURE_CUBE_MAP_NEGATIVE_X;
   GL_TEXTURE_CUBE_MAP_POSITIVE_Y; GL_TEXTURE_CUBE_MAP_NEGATIVE_Y;
   GL_TEXTURE_CUBE_MAP_POSITIVE_Z; GL_TEXTURE_CUBE_MAP_NEGATIVE_Z].

Definition GLTargetToFaceIndex (target : Z) : Z :=
  if is_case target [GL_TEXTURE_2D; GL_TEXTURE_EXTERNAL_OES] then 0
  else if target =? GL_TEXTURE_CUBE_MAP_POSITIVE_X then 0
  else if target =? GL_TEXTURE_CUBE_MAP_NEGATIVE_X then 1
  else if target =? GL_TEXTURE_CUBE_MAP_POSITIVE_Y then 2
  else if target =? GL_TEXTURE_CUBE_MAP_NEGATIVE_Y then 3
  else if target =? GL_TEXTURE_CUBE_MAP_POSITIVE_Z then 4
  else if target =? GL_TEXTURE_CUBE_MAP_NEGATIVE_Z then 5
  else 0.

Definition FaceIndexToGLTarget (index : Z) : Z :=
  if index =? 0 then GL_TEXTURE_CUBE_MAP_POSITIVE_X
  else if index =? 1 then GL_TEXTURE_CUBE_MAP_NEGATIVE_X
  else if index =? 2 then GL_TEXTURE_CUBE_MAP_POSITIVE_Y
  else if index =? 3 then GL_TEXTURE_CUBE_MAP_NEGATIVE_Y
  else if index =? 4 then GL_TEXTURE_CUBE_MAP_POSITIVE_Z
  else if index =? 5 then GL_TEXTURE_CUBE_MAP_NEGATIVE_Z
  else 0.

(** ** Data *)

Record LevelInfo := mkLevelInfo {
  l_valid : bool;
  l_internal_format : Z;
  l_width : Z;
  l_height : Z;
  l_depth : Z;
  l_border : Z;
  l_format : Z;
  l_type : Z;
}.

Definition LevelInfo_new : LevelInfo := mkLevelInfo false 0 0 0 0 0 0 0.

Notation Face := (list LevelInfo) (only parsing).

(** The parameters of a texture. *)
Record Params := mkParams {
  min_filter_ : Z;
  mag_filter_ : Z;
  wrap_s_ : Z;
  wrap_t_ : Z;
}.

Record TextureInfo := mkTextureInfo {
  level_infos_ : list (list LevelInfo);
  t_service_id_ : Z;
  deleted_ : bool;
  t_target_ : Z;
  params : Params;
  max_level_set_ : Z;
  texture_complete_ : bool;
  cube_complete_ : bool;
  npot_ : bool;
  framebuffer_attachment_count_ : Z;
  owned_ : bool;
  stream_texture_ : bool;
}.

Definition TextureInfo_new (service_id : Z) : TextureInfo :=
  mkTextureInfo [] service_id false 0
    (mkParams GL_NEAREST_MIPMAP_LINEAR GL_LINEAR GL_REPEAT GL_REPEAT) (-1) false false false 0
    true false.

Definition with_levels (levels : list (list LevelInfo)) (max_level_set : Z) (t : TextureInfo)
    : TextureInfo :=
  mkTextureInfo levels (t_service_id_ t) (deleted_ t) (t_target_ t) (params t) max_level_set
    (texture_complete_ t) (cube_complete_ t) (npot_ t) (framebuffer_attachment_count_ t)
    (owned_ t) (stream_texture_ t).

Definition with_params (p : Params) (t : TextureInfo) : TextureInfo :=
  mkTextureInfo (level_infos_ t) (t_service_id_ t) (deleted_ t) (t_target_ t) p
    (max_level_set_ t) (texture_complete_ t) (cube_complete_ t) (npot_ t)
    (framebuffer_attachment_count_ t) (owned_ t) (stream_texture_ t).

Definition with_status (texture_complete cube_complete npot : bool) (t : TextureInfo)
    : TextureInfo :=
  mkTextureInfo (level_infos_ t) (t_service_id_ t) (deleted_ t) (t_target_ t) (params t)
    (max_level_set_ t) texture_complete cube_complete npot (framebuffer_attachment_count_ t)
    (owned_ t) (stream_texture_ t).

Definition with_attachments (count : Z) (t : TextureInfo) : TextureInfo :=
  mkTextureInfo (level_infos_ t) (t_service_id_ t) (deleted_ t) (t_target_ t) (params t)
    (max_level_set_ t) (texture_complete_ t) (cube_complete_ t) (npot_ t) count (owned_ t)
    (stream_texture_ t).

Definition SetNotOwned (t : TextureInfo) : TextureInfo :=
  mkTextureInfo (level_infos_ t) (t_service_id_ t) (deleted_ t) (t_target_ t) (params t)
    (max_level_set_ t) (texture_complete_ t) (cube_complete_ t) (npot_ t)
    (framebuffer_attachment_count_ t) false (stream_texture_ t).

Definition SetStreamTexture (stream_texture : bool) (t : TextureInfo) : TextureInfo :=
  mkTextureInfo (level_infos_ t) (t_service_id_ t) (deleted_ t) (t_target_ t) (params t)
    (max_level_set_ t) (texture_complete_ t) (cube_complete_ t) (npot_ t)
    (framebuffer_attachment_count_ t) (owned_ t) stream_texture.

Definition MarkTextureAsDeleted (t : TextureInfo) : TextureInfo :=
  mkTextureInfo (level_infos_ t) 0 true (t_target_ t) (params t) (max_level_set_ t)
    (texture_complete_ t) (cube_complete_ t) (npot_ t) (framebuffer_attachment_count_ t)
    (owned_ t) (stream_texture_ t).

Definition IsAttachedToFramebuffer (t : TextureInfo) : bool :=
  negb (framebuffer_attachment_count_ t =? 0).
Definition AttachToFramebuffer (t : TextureInfo) : TextureInfo :=
  with_attachments (framebuffer_attachment_count_ t + 1) t.
Definition DetachFromFramebuffer (t : TextureInfo) : TextureInfo :=
  with_attachments (framebuffer_attachment_count_ t - 1) t.

Definition CanRenderTo (t : TextureInfo) : bool :=
  negb (stream_texture_ t) && negb (t_target_ t =? GL_TEXTURE_EXTERNAL_OES).

Definition NeedsMips (t : TextureInfo) : bool :=
  negb (min_filter_ (params t) =? GL_NEAREST) && negb (min_filter_ (params t) =? GL_LINEAR).

(** A level, which the source reads without a check of the indices. *)
Definition level_at (t : TextureInfo) (face level : Z) : outcome LevelInfo :=
  (do face <- of_option (zget (level_infos_ t) face) ;; of_option (zget face level))%gpu.

(** ** Operations *)

Section operations.
Variable feature_info : FeatureInfo.
Let flags := feature_flags_ feature_info.

Definition CanRender (t : TextureInfo) : bool :=
  if (t_target_ t =? 0) || deleted_ t then false
  else
    let needs_mips := NeedsMips t in
    if npot_ t && negb (npot_ok flags) then
      negb needs_mips && (wrap_s_ (params t) =? GL_CLAMP_TO_EDGE) &&
      (wrap_t_ (params t) =? GL_CLAMP_TO_EDGE)
    else if needs_mips then
      if t_target_ t =? GL_TEXTURE_2D then texture_complete_ t
      else texture_complete_ t && cube_complete_ t
    else true.

(** The loop of [Update] for [npot_]. *)
Fixpoint npot_loop (faces : list (list LevelInfo)) : outcome bool :=
  match faces with
  | [] => Done false
  | face :: faces =>
      (do info <- of_option (zget face 0) ;;
       if IsNPOT (u32 (l_width info)) || IsNPOT (u32 (l_height info)) || IsNPOT (u32 (l_depth info))
       then Done true else npot_loop faces)%gpu
  end.

(** The levels [jj, jj + 1, ...] of a face, [n] of them, from the dimensions of the level
    before: is each one what it must be? *)
Fixpoint mips_loop (n : nat) (jj width height depth : Z) (level0 : LevelInfo)
    (face : list LevelInfo) : outcome bool :=
  match n with
  | O => Done true
  | S n =>
      let width := Z.max 1 (Z.shiftr width 1) in
      let height := Z.max 1 (Z.shiftr height 1) in
      let depth := Z.max 1 (Z.shiftr depth 1) in
      (do info <- of_option (zget face jj) ;;
       if negb (l_valid info) || negb (l_width info =? width) || negb (l_height info =? height) ||
          negb (l_depth info =? depth) ||
          negb (l_internal_format info =? l_internal_format level0) ||
          negb (l_format info =? l_format level0) || negb (l_type info =? l_type level0)
       then Done false
       else mips_loop n (jj + 1) width height depth level0 face)%gpu
  end.

(** The loop of [Update] over the faces: [texture_complete_] and [cube_complete_]. *)
Fixpoint faces_loop (faces : list (list LevelInfo)) (first_face : LevelInfo) (levels_needed : Z)
    (texture_complete cube_complete : bool) : outcome (bool * bool) :=
  match faces with
  | [] => Done (texture_complete, cube_complete)
  | face :: faces =>
      if cube_complete || texture_complete then
        (do level0 <- of_option (zget face 0) ;;
         let cube_complete :=
           if negb (l_valid level0) || negb (l_width level0 =? l_width first_face) ||
              negb (l_height level0 =? l_height first_face) || negb (l_depth level0 =? 1) ||
              negb (l_internal_format level0 =? l_internal_format first_face) ||
              negb (l_format level0 =? l_format first_face) ||
              negb (l_type level0 =? l_type first_face)
           then false else cube_complete in
         do ok <- mips_loop (Z.to_nat (levels_needed - 1)) 1 (l_width level0) (l_height level0)
                    (l_depth level0) level0 face ;;
         faces_loop faces first_face levels_needed (if ok then texture_complete else false)
           cube_complete)%gpu
      else Done (texture_complete, cube_complete)
  end.

(** Floats that are filtered without the extension for it. *)
Definition unfiltered (type : Z) (p : Params) : bool :=
  let linear := negb (min_filter_ p =? GL_NEAREST_MIPMAP_NEAREST) ||
                negb (mag_filter_ p =? GL_NEAREST) in
  if (type =? GL_FLOAT) && negb (enable_texture_float_linear flags) && linear then true
  else (type =? GL_HALF_FLOAT_OES) && negb (enable_texture_half_float_linear flags) && linear.

Definition Update (t : TextureInfo) : outcome TextureInfo :=
  match level_infos_ t with
  | [] => Done (with_status false false false t)
  | _ :: _ =>
      (do npot <- npot_loop (level_infos_ t) ;;
       do first_face <- level_at t 0 0 ;;
       let levels_needed :=
         ComputeMipMapCount (l_width first_face) (l_height first_face) (l_depth first_face) in
       let texture_complete :=
         (max_level_set_ t >=? levels_needed - 1) && (max_level_set_ t >=? 0) in
       let cube_complete :=
         (zlen (level_infos_ t) =? 6) && (l_width first_face =? l_height first_face) in
       let texture_complete :=
         if (l_width first_face =? 0) || (l_height first_face =? 0) then false
         else texture_complete in
       let texture_complete :=
         if unfiltered (l_type first_face) (params t) then false else texture_complete in
       do (texture_complete, cube_complete) <-
         faces_loop (level_infos_ t) first_face levels_needed texture_complete cube_complete ;;
       Done (with_status texture_complete cube_complete npot t))%gpu
  end.

Definition SetTarget (target max_levels : Z) (t : TextureInfo) : TextureInfo :=
  let num_faces := if target =? GL_TEXTURE_CUBE_MAP then 6%nat else 1%nat in
  let levels := map (resize (Z.to_nat max_levels) LevelInfo_new)
                  (resize num_faces [] (level_infos_ t)) in
  let p := params t in
  mkTextureInfo levels (t_service_id_ t) (deleted_ t) target
    (if target =? GL_TEXTURE_EXTERNAL_OES
     then mkParams GL_LINEAR (mag_filter_ p) GL_CLAMP_TO_EDGE GL_CLAMP_TO_EDGE else p)
    (max_level_set_ t) (texture_complete_ t) (cube_complete_ t) (npot_ t)
    (framebuffer_attachment_count_ t) (owned_ t) (stream_texture_ t).

(** The loop of [CanGenerateMipmaps]. *)
Fixpoint same_faces (faces : list (list LevelInfo)) (first : LevelInfo) : outcome bool :=
  match faces with
  | [] => Done true
  | face :: faces =>
      (do info <- of_option (zget face 0) ;;
       if negb (l_valid info) || negb (l_width info =? l_width first) ||
          negb (l_height info =? l_height first) || negb (l_depth info =? 1) ||
          negb (l_format info =? l_format first) ||
          negb (l_internal_format info =? l_internal_format first) ||
          negb (l_type info =? l_type first)
       then Done false else same_faces faces first)%gpu
  end.

Definition CanGenerateMipmaps (t : TextureInfo) : outcome bool :=
  if (npot_ t && negb (npot_ok flags)) || bool_decide (level_infos_ t = []) || deleted_ t ||
     (t_target_ t =? GL_TEXTURE_EXTERNAL_OES)
  then Done false
  else (do first <- level_at t 0 0 ;; same_faces (level_infos_ t) first)%gpu.

Definition SetLevelInfo (target level : Z) (info : LevelInfo) (t : TextureInfo)
    : outcome TextureInfo :=
  let face_index := GLTargetToFaceIndex target in
  (do face <- of_option (zget (level_infos_ t) face_index) ;;
   do face <- of_option (zset face level info) ;;
   do levels <- of_option (zset (level_infos_ t) face_index face) ;;
   Update (with_levels levels (Z.max (max_level_set_ t) level) t))%gpu.

(** The inner loop of [MarkMipmapsGenerated]: the levels [level, level + 1, ...] of a
    face, [n] of them. *)
Fixpoint generate_levels (n : nat) (target level width height depth : Z) (info1 : LevelInfo)
    (t : TextureInfo) : outcome TextureInfo :=
  match n with
  | O => Done t
  | S n =>
      let width := Z.max 1 (Z.shiftr width 1) in
      let height := Z.max 1 (Z.shiftr height 1) in
      let depth := Z.max 1 (Z.shiftr depth 1) in
      (do t <- SetLevelInfo target level
                 (mkLevelInfo true (l_internal_format info1) width height depth (l_border info1)
                    (l_format info1) (l_type info1)) t ;;
       generate_levels n target (level + 1) width height depth info1 t)%gpu
  end.

(** The outer loop, on [n] faces from [ii]. *)
Fixpoint generate_faces (n : nat) (ii : Z) (t : TextureInfo) : outcome TextureInfo :=
  match n with
  | O => Done t
  | S n =>
      (do info1 <- level_at t ii 0 ;;
       let num_mips := ComputeMipMapCount (l_width info1) (l_height info1) (l_depth info1) in
       do t <- generate_levels (Z.to_nat (num_mips - 1))
                 (if t_target_ t =? GL_TEXTURE_2D then GL_TEXTURE_2D else FaceIndexToGLTarget ii)
                 1 (l_width info1) (l_height info1) (l_depth info1) info1 t ;;
       generate_faces n (ii + 1) t)%gpu
  end.

Definition MarkMipmapsGenerated (t : TextureInfo) : outcome (bool * TextureInfo) :=
  (do ok <- CanGenerateMipmaps t ;;
   if negb ok then Done (false, t)
   else
     do t <- generate_faces (length (level_infos_ t)) 0 t ;;
     Done (true, t))%gpu.

(** [level_infos_[face][level]] behind the checks that [ValidForTexture], [GetLevelSize]
    and [GetLevelType] share. *)
Definition checked_level (face level : Z) (t : TextureInfo) : option LevelInfo :=
  let face_index := GLTargetToFaceIndex face in
  if negb (deleted_ t) && (level >=? 0) && (face_index <? zlen (level_infos_ t)) then
    levels ← zget (level_infos_ t) face_index;
    if level <? zlen levels then zget levels level else None
  else None.

(** [SafeAdd] of signed integers, which is meant to wrap around. *)
Definition SafeAddInt32 (a b : Z) : bool * Z :=
  if i32 (a + b) <? a then (false, 0) else (true, i32 (a + b)).

Definition ValidForTexture (face level xoffset yoffset width height format type : Z)
    (t : TextureInfo) : bool :=
  match checked_level face level t with
  | Some info =>
      let '(ok_x, end_x) := SafeAddInt32 xoffset width in
      let '(ok_y, end_y) := SafeAddInt32 yoffset height in
      ok_x && ok_y && (xoffset >=? 0) && (yoffset >=? 0) && (end_x <=? l_width info) &&
      (end_y <=? l_height info) && (format =? l_internal_format info) && (type =? l_type info)
  | None => false
  end.

Definition GetLevelSize (face level : Z) (t : TextureInfo) : option (Z * Z) :=
  info ← checked_level face level t;
  if l_valid info then Some (l_width info, l_height info) else None.

(** The type and the internal format. *)
Definition GetLevelType (face level : Z) (t : TextureInfo) : option (Z * Z) :=
  info ← checked_level face level t;
  if l_valid info then Some (l_type info, l_internal_format info) else None.

Definition SetParameter (pname param : Z) (t : TextureInfo) : outcome (bool * TextureInfo) :=
  let valid v := IsValid (u32 param) (validators_ feature_info v) in
  let p := params t in
  let set p := (do t <- Update (with_params p t) ;; Done (true, t))%gpu in
  if (t_target_ t =? GL_TEXTURE_EXTERNAL_OES) &&
     (((pname =? GL_TEXTURE_MIN_FILTER) && negb (param =? GL_NEAREST) && negb (param =? GL_LINEAR))
      || (((pname =? GL_TEXTURE_WRAP_S) || (pname =? GL_TEXTURE_WRAP_T)) &&
          negb (param =? GL_CLAMP_TO_EDGE)))
  then Done (false, t)
  else if pname =? GL_TEXTURE_MIN_FILTER then
    if valid Validator.texture_min_filter_mode
    then set (mkParams (u32 param) (mag_filter_ p) (wrap_s_ p) (wrap_t_ p)) else Done (false, t)
  else if pname =? GL_TEXTURE_MAG_FILTER then
    if valid Validator.texture_mag_filter_mode
    then set (mkParams (min_filter_ p) (u32 param) (wrap_s_ p) (wrap_t_ p)) else Done (false, t)
  else if pname =? GL_TEXTURE_WRAP_S then
    if valid Validator.texture_wrap_mode
    then set (mkParams (min_filter_ p) (mag_filter_ p) (u32 param) (wrap_t_ p)) else Done (false, t)
  else if pname =? GL_TEXTURE_WRAP_T then
    if valid Validator.texture_wrap_mode
    then set (mkParams (min_filter_ p) (mag_filter_ p) (wrap_s_ p) (u32 param)) else Done (false, t)
  else if pname =? GL_TEXTURE_MAX_ANISOTROPY_EXT then set p
  else Done (false, t).

End operations.

(** ** Lemmas on [Log2Floor] *)

Lemma Log2Floor_loop_log2 n value log :
  0 < value < 2 ^ 2 ^ Z.of_nat n ->
  Log2Floor_loop (map Z.of_nat (rev (seq 0 n))) value log = log + Z.log2 value.
Proof.
  revert value log. induction n as [|n IH]; intros value log Hv.
  { simpl in Hv. assert (value = 1) as -> by lia. simpl. lia. }
  rewrite seq_S, rev_app_distr. cbn [rev app map plus Log2Floor_loop].
  assert (2 ^ Z.of_nat (S n) = 2 ^ Z.of_nat n + 2 ^ Z.of_nat n) as Hs
    by (rewrite Nat2Z.inj_succ, Z.pow_succ_r by lia; lia).
  rewrite Hs, Z.pow_add_r in Hv by lia.
  rewrite Z.shiftl_mul_pow2, Z.mul_1_l by lia. set (k := 2 ^ Z.of_nat n) in *.
  assert (0 < k) as Hk by (apply Z.pow_pos_nonneg; lia). clearbody k.
  pose proof (Z.pow_pos_nonneg 2 k ltac:(lia) ltac:(lia)) as Hp.
  rewrite Z.shiftr_div_pow2 by lia. pose proof (Z.div_mod value (2 ^ k) ltac:(lia)) as Hdm.
  pose proof (Z.mod_pos_bound value (2 ^ k) Hp) as Hmod.
  destruct (value / 2 ^ k =? 0) eqn:E; zbool; simpl.
  - apply IH. rewrite E in Hdm. lia.
  - assert (0 < value / 2 ^ k < 2 ^ k) as Hx.
    { split; [|apply Z.div_lt_upper_bound; lia]. pose proof (Z.div_pos value (2 ^ k)). lia. }
    rewrite IH by done. rewrite <- Z.shiftr_div_pow2 by lia. rewrite Z.log2_shiftr by lia.
    assert (k <= Z.log2 value); [|lia]. apply Z.log2_le_pow2; [lia|]. nia.
Qed.

Lemma Log2Floor_log2 n : 0 < n < 2 ^ 32 -> Log2Floor n = Z.log2 n.
Proof. intros Hn. unfold Log2Floor. bfalse (n =? 0). by apply (Log2Floor_loop_log2 5). Qed.

(** The number of levels of an image, and so the bounds on a level's index. *)
Definition dims_ok (l : LevelInfo) : Prop :=
  0 <= l_width l < 2 ^ 31 /\ 0 <= l_height l < 2 ^ 31 /\ 0 <= l_depth l < 2 ^ 31.

Definition mip_count (l : LevelInfo) : Z :=
  ComputeMipMapCount (l_width l) (l_height l) (l_depth l).

Lemma ComputeMipMapCount_log2 w h d :
  0 <= w < 2 ^ 31 -> 0 <= h < 2 ^ 31 -> 0 <= d < 2 ^ 31 -> 0 < Z.max (Z.max w h) d ->
  ComputeMipMapCount w h d = 1 + Z.log2 (Z.max (Z.max w h) d).
Proof.
  intros. unfold ComputeMipMapCount. rewrite u32_id by (unfold is_u32; lia).
  rewrite Log2Floor_log2 by lia. done.
Qed.

Lemma ComputeMipMapCount_mono w h d w' h' d' :
  0 <= w <= w' -> 0 <= h <= h' -> 0 <= d <= d' -> w' < 2 ^ 31 -> h' < 2 ^ 31 -> d' < 2 ^ 31 ->
  0 <= ComputeMipMapCount w h d <= ComputeMipMapCount w' h' d'.
Proof.
  intros. assert (forall a, 0 <= a < 2 ^ 32 ->
    Log2Floor a = if a =? 0 then -1 else Z.log2 a) as Hl.
  { intros a Ha. destruct (a =? 0) eqn:E; zbool; [by subst|]. apply Log2Floor_log2. lia. }
  unfold ComputeMipMapCount. rewrite !u32_id by (unfold is_u32; lia). rewrite !Hl by lia.
  pose proof (Z.log2_nonneg (Z.max (Z.max w h) d)).
  pose proof (Z.log2_nonneg (Z.max (Z.max w' h') d')).
  pose proof (Z.log2_le_mono (Z.max (Z.max w h) d) (Z.max (Z.max w' h') d') ltac:(lia)).
  repeat case_match; zbool; lia.
Qed.

(** ** Completeness, as OpenGL ES defines it *)

Definition same_format (a b : LevelInfo) : Prop :=
  l_internal_format a = l_internal_format b /\ l_format a = l_format b /\ l_type a = l_type b.

(** A dimension of level [k] of an image. *)
Definition mip (size k : Z) : Z := if k =? 0 then size else Z.max 1 (size / 2 ^ k).

Definition mip_ok (level0 : LevelInfo) (k : Z) (l : LevelInfo) : Prop :=
  l_valid l = true /\ l_width l = mip (l_width level0) k /\ l_height l = mip (l_height level0) k /\
  l_depth l = mip (l_depth level0) k /\ same_format l level0.

(** All the levels after the first, down to one pixel of the first face, are there. *)
Definition mipmapped (n : Z) (face : list LevelInfo) : Prop :=
  exists level0, zget face 0 = Some level0 /\
    forall k, 1 <= k < n -> exists l, zget face k = Some l /\ mip_ok level0 k l.

Definition same_image (first : LevelInfo) (face : list LevelInfo) : Prop :=
  exists level0, zget face 0 = Some level0 /\ l_valid level0 = true /\
    l_width level0 = l_width first /\ l_height level0 = l_height first /\ l_depth level0 = 1 /\
    same_format level0 first.

Definition npot_face (face : list LevelInfo) : Prop :=
  exists level0, zget face 0 = Some level0 /\
    (IsNPOT (l_width level0) || IsNPOT (l_height level0) || IsNPOT (l_depth level0)) = true.

Definition complete_texture (feature_info : FeatureInfo) (t : TextureInfo) : Prop :=
  exists first, level_at t 0 0 = Done first /\ 0 < l_width first /\ 0 < l_height first /\
    unfiltered feature_info (l_type first) (params t) = false /\
    Forall (mipmapped (mip_count first)) (level_infos_ t).

Definition complete_cube (t : TextureInfo) : Prop :=
  exists first, level_at t 0 0 = Done first /\ length (level_infos_ t) = 6%nat /\
    l_width first = l_height first /\ Forall (same_image first) (level_infos_ t).

(** Section 3.8.2 of the specification of OpenGL ES 2.0: when a sampler does not read its texture
    as black.  The first images of a two-dimensional texture have positive sizes; those of a
    cube map make it cube complete; a filter that needs mipmaps finds all of them; and sizes
    that are no powers of two are clamped and have no mipmaps, unless an extension allows
    more.  External textures have no mipmaps. *)
Definition positive_image (t : TextureInfo) : Prop :=
  exists first, level_at t 0 0 = Done first /\ 0 < l_width first /\ 0 < l_height first.

Definition images_rule (t : TextureInfo) : Prop :=
  positive_image t /\ (t_target_ t = GL_TEXTURE_CUBE_MAP -> complete_cube t).

Definition mipmaps_rule (feature_info : FeatureInfo) (t : TextureInfo) : Prop :=
  NeedsMips t = true ->
  t_target_ t ∈ [GL_TEXTURE_2D; GL_TEXTURE_CUBE_MAP] /\ complete_texture feature_info t.

Definition npot_rule (feature_info : FeatureInfo) (t : TextureInfo) : Prop :=
  Exists npot_face (level_infos_ t) -> npot_ok (feature_flags_ feature_info) = false ->
  NeedsMips t = false /\ wrap_s_ (params t) = GL_CLAMP_TO_EDGE /\ wrap_t_ (params t) = GL_CLAMP_TO_EDGE.

Definition section_3_8_2 (feature_info : FeatureInfo) (t : TextureInfo) : Prop :=
  images_rule t /\ mipmaps_rule feature_info t /\ npot_rule feature_info t.

(** ** Lemmas on the loops *)

Lemma mip_next size k :
  0 <= size -> 0 <= k -> Z.max 1 (Z.shiftr (mip size k) 1) = mip size (k + 1).
Proof.
  intros Hs Hk. unfold mip. bfalse (k + 1 =? 0). rewrite Z.shiftr_div_pow2, Z.pow_1_r by lia.
  rewrite Z.pow_add_r, Z.pow_1_r by lia. pose proof (Z.pow_pos_nonneg 2 k ltac:(lia) Hk).
  rewrite <- Z.div_div by lia. destruct (k =? 0) eqn:E; zbool.
  - subst. by rewrite Z.pow_0_r, Z.div_1_r.
  - pose proof (Z.div_pos size (2 ^ k) Hs ltac:(lia)) as Hd.
    destruct (Z.eq_dec (size / 2 ^ k) 0) as [->|]; [done|]. by rewrite (Z.max_r 1 (size / 2 ^ k)) by lia.
Qed.

Lemma level_test level0 k info :
  (negb (l_valid info) || negb (l_width info =? mip (l_width level0) k) ||
   negb (l_height info =? mip (l_height level0) k) || negb (l_depth info =? mip (l_depth level0) k) ||
   negb (l_internal_format info =? l_internal_format level0) ||
   negb (l_format info =? l_format level0) || negb (l_type info =? l_type level0)) = false <->
  mip_ok level0 k info.
Proof.
  unfold mip_ok, same_format. rewrite !orb_false_iff, !negb_false_iff, !Z.eqb_eq. tauto.
Qed.

Lemma mips_loop_ok n jj level0 face :
  dims_ok level0 -> 1 <= jj -> jj + Z.of_nat n <= zlen face ->
  exists b, mips_loop n jj (mip (l_width level0) (jj - 1)) (mip (l_height level0) (jj - 1))
      (mip (l_depth level0) (jj - 1)) level0 face = Done b /\
    (b = true <-> forall k, jj <= k < jj + Z.of_nat n ->
       exists l, zget face k = Some l /\ mip_ok level0 k l).
Proof.
  intros (Hw & Hh & Hd). revert jj. induction n as [|n IH]; intros jj Hj Hlen.
  { exists true. split; [done|]. split; [|done]. intros _ k. lia. }
  cbn [mips_loop]. rewrite !mip_next, Z.sub_add by lia.
  destruct (zget_in face jj) as [info Hinfo]; [lia|]. rewrite Hinfo. cbn [of_option obind].
  destruct (negb (l_valid info) || _ || _ || _ || _ || _ || _) eqn:E.
  - exists false. split; [done|]. split; [done|]. intros Hk.
    destruct (Hk jj) as (l & Hl & Hok%level_test); [lia|]. simplify_eq. congruence.
  - apply level_test in E. destruct (IH (jj + 1)) as (b & Hb & Hiff); [lia..|].
    rewrite Z.add_simpl_r in Hb. exists b. split; [done|]. rewrite Hiff. split.
    + intros Hk k ?. destruct (Z.eq_dec k jj) as [->|]; [eauto|]. apply Hk. lia.
    + intros Hk k ?. apply Hk. lia.
Qed.

Definition face_ok (n : Z) (face : list LevelInfo) : Prop :=
  1 <= zlen face /\ n <= zlen face /\ forall l, zget face 0 = Some l -> dims_ok l.

Lemma face_level0 n face : face_ok n face -> exists l, zget face 0 = Some l /\ dims_ok l.
Proof. intros (H1 & _ & H3). destruct (zget_in face 0) as [l Hl]; [lia|]. eauto. Qed.

Lemma same_image_test first level0 :
  (negb (l_valid level0) || negb (l_width level0 =? l_width first) ||
   negb (l_height level0 =? l_height first) || negb (l_depth level0 =? 1) ||
   negb (l_internal_format level0 =? l_internal_format first) ||
   negb (l_format level0 =? l_format first) || negb (l_type level0 =? l_type first)) = false <->
  (l_valid level0 = true /\ l_width level0 = l_width first /\ l_height level0 = l_height first /\
   l_depth level0 = 1 /\ same_format level0 first).
Proof.
  unfold same_format. rewrite !orb_false_iff, !negb_false_iff, !Z.eqb_eq. tauto.
Qed.

Lemma face_mips_ok n face level0 :
  0 <= n -> face_ok n face -> zget face 0 = Some level0 ->
  exists b, mips_loop (Z.to_nat (n - 1)) 1 (l_width level0) (l_height level0) (l_depth level0)
      level0 face = Done b /\ (b = true <-> mipmapped n face).
Proof.
  intros Hn (H1 & Hlen & Hd) Hl.
  destruct (mips_loop_ok (Z.to_nat (n - 1)) 1 level0 face (Hd _ Hl)) as (b & Hb & Hiff); [lia..|].
  exists b. split; [exact Hb|]. rewrite Hiff. split.
  - intros Hk. exists level0. split; [done|]. intros k Hr. apply Hk. lia.
  - intros (l & Hl' & Hk) k Hr. simplify_eq. apply Hk. lia.
Qed.

Lemma faces_loop_ok faces first n tc cc :
  0 <= n -> Forall (face_ok n) faces ->
  exists tc' cc', faces_loop faces first n tc cc = Done (tc', cc') /\
    (tc' = true <-> tc = true /\ Forall (mipmapped n) faces) /\
    (cc' = true <-> cc = true /\ Forall (same_image first) faces).
Proof.
  intros Hn Hf. revert tc cc. induction Hf as [|face faces Hface Hf IH]; intros tc cc.
  { exists tc, cc. rewrite !Forall_nil. tauto. }
  cbn [faces_loop]. destruct (cc || tc) eqn:Ect; zbool.
  2:{ subst. exists false, false. naive_solver. }
  destruct (face_level0 _ _ Hface) as (level0 & Hl & _).
  destruct (face_mips_ok n face level0 Hn Hface Hl) as (b & Hb & Hmips).
  rewrite Hl. cbn [of_option obind]. rewrite Hb. cbn [obind].
  match goal with |- context [faces_loop _ _ _ ?tc1 ?cc1] =>
    destruct (IH tc1 cc1) as (tc' & cc' & -> & Htc & Hcc) end.
  exists tc', cc'. split; [done|]. rewrite !Forall_cons, Htc, Hcc. split.
  - rewrite <- Hmips. destruct b; naive_solver.
  - destruct (negb (l_valid level0) || _ || _ || _ || _ || _ || _) eqn:Es.
    + split; [naive_solver|]. intros (_ & (l & Hl' & Hs) & _). simplify_eq.
      apply same_image_test in Hs. congruence.
    + apply same_image_test in Es. split; [|naive_solver].
      intros [-> Hall]. split_and!; [done| |done]. by exists level0.
Qed.

Lemma npot_loop_ok n faces :
  Forall (face_ok n) faces ->
  exists b, npot_loop faces = Done b /\ (b = true <-> Exists npot_face faces).
Proof.
  induction 1 as [|face faces Hface Hf (b & Hb & IH)].
  { exists false. split; [done|]. by rewrite Exists_nil. }
  destruct (face_level0 _ _ Hface) as (level0 & Hl & (Hw & Hh & Hd)). cbn [npot_loop].
  rewrite Hl. cbn [of_option obind]. rewrite !u32_id by (unfold is_u32; lia).
  assert (npot_face face <-> (IsNPOT (l_width level0) || IsNPOT (l_height level0) ||
    IsNPOT (l_depth level0)) = true) as Hface0.
  { split; [intros (l & Hl' & Hn); by simplify_eq|by exists level0]. }
  destruct (_ || _ || _).
  - exists true. split; [done|]. rewrite Exists_cons. tauto.
  - exists b. split; [done|]. rewrite Exists_cons, Hface0, IH. intuition congruence.
Qed.

(** What [Update] computes, on the levels of a texture. *)
Lemma Update_ok feature_info t first :
  level_at t 0 0 = Done first -> dims_ok first ->
  Forall (face_ok (mip_count first)) (level_infos_ t) -> 0 <= mip_count first ->
  exists tc cc np, Update feature_info t = Done (with_status tc cc np t) /\
    (tc = true <-> mip_count first - 1 <= max_level_set_ t /\ 0 <= max_level_set_ t /\
       l_width first <> 0 /\ l_height first <> 0 /\
       unfiltered feature_info (l_type first) (params t) = false /\
       Forall (mipmapped (mip_count first)) (level_infos_ t)) /\
    (cc = true <-> length (level_infos_ t) = 6%nat /\ l_width first = l_height first /\
       Forall (same_image first) (level_infos_ t)) /\
    (np = true <-> Exists npot_face (level_infos_ t)).
Proof.
  intros Hfirst Hd Hf Hn. unfold Update.
  destruct (level_infos_ t) as [|face faces] eqn:Efaces;
    [by unfold level_at in Hfirst; rewrite Efaces in Hfirst|]. rewrite <- Efaces in *.
  destruct (npot_loop_ok _ _ Hf) as (np & -> & Hnp). cbn [obind]. rewrite Hfirst. cbn [obind].
  fold (mip_count first). match goal with |- context [faces_loop _ _ _ ?tc1 ?cc1] =>
    destruct (faces_loop_ok (level_infos_ t) first (mip_count first) tc1 cc1 Hn Hf)
      as (tc & cc & -> & Htc & Hcc) end.
  cbn [obind]. exists tc, cc, np. split; [done|]. rewrite Htc, Hcc, Hnp. split; [|split; [|done]].
  - destruct (unfiltered _ _ _); [naive_solver|].
    destruct (_ || _) eqn:Ez; zbool; [destruct Ez; zbool; intuition congruence|].
    rewrite andb_true_iff, !Z.geb_leb, !Z.leb_le. tauto.
  - unfold zlen. rewrite andb_true_iff, !Z.eqb_eq.
    assert (Z.of_nat (length (level_infos_ t)) = 6 <-> length (level_infos_ t) = 6%nat) as -> by lia.
    tauto.
Qed.

(** ** Invariant *)

(** Every level was never set, or is valid, counted by [max] and small enough for the [n]
    levels there are. *)
Record levels_ok (n max : Z) (levels : list (list LevelInfo)) : Prop := {
  ok_n : 1 <= n;
  ok_len face : face ∈ levels -> zlen face = n;
  ok_level face k l : face ∈ levels -> zget face k = Some l ->
    l = LevelInfo_new \/
    (l_valid l = true /\ k <= max /\ dims_ok l /\ (k = 0 -> mip_count l <= n));
  ok_max : -1 <= max;
}.

Section invariant.
Variable feature_info : FeatureInfo.

(** The cached answers are those that [Update] would compute again. *)
Record texture_ok (n : Z) (t : TextureInfo) : Prop := {
  ok_levels : levels_ok n (max_level_set_ t) (level_infos_ t);
  ok_faces : level_infos_ t = [] \/
    zlen (level_infos_ t) = if t_target_ t =? GL_TEXTURE_CUBE_MAP then 6 else 1;
  ok_status : Update feature_info t = Done t;
}.

(** The level fits in the texture: what [SetLevelInfo] relies on. *)
Definition level_fits (target level : Z) (info : LevelInfo) (t : TextureInfo) : Prop :=
  exists face, zget (level_infos_ t) (GLTargetToFaceIndex target) = Some face /\
    0 <= level < zlen face /\ l_valid info = true /\ dims_ok info /\
    (level = 0 -> mip_count info <= zlen face).

(** What the manager makes of a texture. *)
Inductive texture_reach : TextureInfo -> Prop :=
| reach_new_texture id : texture_reach (TextureInfo_new id)
| reach_SetTarget target max_levels t : texture_reach t -> max_level_set_ t = -1 ->
    1 <= max_levels -> texture_reach (SetTarget target max_levels t)
| reach_SetLevelInfo target level info t t' : texture_reach t -> level_fits target level info t ->
    SetLevelInfo feature_info target level info t = Done t' -> texture_reach t'
| reach_SetParameter pname param t r t' : texture_reach t ->
    SetParameter feature_info pname param t = Done (r, t') -> texture_reach t'
| reach_MarkMipmapsGenerated t r t' : texture_reach t ->
    MarkMipmapsGenerated feature_info t = Done (r, t') -> texture_reach t'
| reach_MarkTextureAsDeleted t : texture_reach t -> texture_reach (MarkTextureAsDeleted t)
| reach_SetStreamTexture b t : texture_reach t -> texture_reach (SetStreamTexture b t)
| reach_SetNotOwned t : texture_reach t -> texture_reach (SetNotOwned t)
| reach_attachments n t : texture_reach t -> texture_reach (with_attachments n t).

(** ** Lemmas on the invariant *)

Lemma mip_count_new : mip_count LevelInfo_new = 0.
Proof. done. Qed.

Lemma dims_ok_new : dims_ok LevelInfo_new.
Proof. unfold dims_ok. simpl. lia. Qed.

Lemma mip_count_nonneg l : dims_ok l -> 0 <= mip_count l.
Proof.
  intros (? & ? & ?). unfold mip_count.
  pose proof (ComputeMipMapCount_mono (l_width l) (l_height l) (l_depth l)
    (l_width l) (l_height l) (l_depth l)). lia.
Qed.

Lemma levels_level0 n max levels face :
  levels_ok n max levels -> face ∈ levels ->
  exists l, zget face 0 = Some l /\ dims_ok l /\ mip_count l <= n.
Proof.
  intros [Hn Hlen Hlev _] Hin. destruct (zget_in face 0) as [l Hl]; [rewrite (Hlen _ Hin); lia|].
  exists l. split; [done|]. destruct (Hlev face 0 l Hin Hl) as [->|(_ & _ & Hd & Hc)]; [|auto].
  split; [apply dims_ok_new|]. rewrite mip_count_new. lia.
Qed.

Lemma levels_first n t :
  levels_ok n (max_level_set_ t) (level_infos_ t) -> level_infos_ t <> [] ->
  exists first face, level_at t 0 0 = Done first /\ face ∈ level_infos_ t /\
    zget face 0 = Some first /\ dims_ok first /\ mip_count first <= n /\
    Forall (face_ok (mip_count first)) (level_infos_ t).
Proof.
  intros Hok Hne. unfold level_at. destruct (level_infos_ t) as [|face faces] eqn:E; [done|].
  destruct (levels_level0 _ _ _ face Hok) as (l & Hl & Hd & Hc); [set_solver|].
  exists l, face. simpl. rewrite Hl. split_and!; [done|set_solver|done..|].
  apply Forall_forall. intros f Hf. pose proof (ok_len _ _ _ Hok f Hf). pose proof (ok_n _ _ _ Hok).
  split; [lia|]. split; [lia|]. intros x Hx.
  destruct (levels_level0 _ _ _ f Hok Hf) as (y & Hy & ? & _). by simplify_eq.
Qed.

Lemma Update_with_status a b c t : Update feature_info (with_status a b c t) = Update feature_info t.
Proof. done. Qed.

Lemma Update_done n t :
  levels_ok n (max_level_set_ t) (level_infos_ t) ->
  exists a b c, Update feature_info t = Done (with_status a b c t).
Proof.
  intros Hok. destruct (decide (level_infos_ t = [])) as [E|Hne].
  { exists false, false, false. unfold Update. by rewrite E. }
  destruct (levels_first n t Hok Hne) as (first & face & Hf & _ & _ & Hd & _ & Hall).
  destruct (Update_ok feature_info t first Hf Hd Hall (mip_count_nonneg _ Hd)) as (a & b & c & -> & _).
  eauto.
Qed.

(** After [Update], whatever was changed. *)
Lemma texture_ok_Update n t :
  levels_ok n (max_level_set_ t) (level_infos_ t) ->
  (level_infos_ t = [] \/
    zlen (level_infos_ t) = if t_target_ t =? GL_TEXTURE_CUBE_MAP then 6 else 1) ->
  exists a b c, Update feature_info t = Done (with_status a b c t) /\
    texture_ok n (with_status a b c t).
Proof.
  intros Hok Hf. destruct (Update_done n t Hok) as (a & b & c & E). exists a, b, c.
  split; [done|]. by split.
Qed.

(** The textures that differ in their levels only. *)
Definition relevelled (t t' : TextureInfo) : Prop :=
  exists levels max a b c, t' = with_status a b c (with_levels levels max t).

Lemma relevelled_refl t : relevelled t t.
Proof.
  exists (level_infos_ t), (max_level_set_ t), (texture_complete_ t), (cube_complete_ t), (npot_ t).
  by destruct t.
Qed.

Lemma relevelled_trans t1 t2 t3 : relevelled t1 t2 -> relevelled t2 t3 -> relevelled t1 t3.
Proof. intros (? & ? & ? & ? & ? & ->) (? & ? & ? & ? & ? & ->). repeat eexists. Qed.

(** [levels'] is [levels] with one level replaced. *)
Definition level_set (levels : list (list LevelInfo)) (f level : Z) (info : LevelInfo)
    (levels' : list (list LevelInfo)) : Prop :=
  zlen levels' = zlen levels /\
  (forall f', f' <> f -> zget levels' f' = zget levels f') /\
  exists face face', zget levels f = Some face /\ zget levels' f = Some face' /\
    zlen face' = zlen face /\
    forall k, zget face' k = if k =? level then Some info else zget face k.

Lemma level_set_elem levels f level info levels' face' k l :
  level_set levels f level info levels' -> face' ∈ levels' -> zget face' k = Some l ->
  (k = level /\ l = info) \/ exists face, face ∈ levels /\ zget face k = Some l.
Proof.
  intros (Hlen & Hother & face & face1 & Hface & Hface1 & _ & Hk) [i Hi]%elem_of_zget Hl.
  destruct (Z.eq_dec i f) as [->|Hne].
  - rewrite Hface1 in Hi. injection Hi as <-. rewrite Hk in Hl. destruct (k =? level) eqn:E; zbool.
    + left. by simplify_eq.
    + right. exists face. split; [apply elem_of_zget; eauto|done].
  - right. exists face'. rewrite Hother in Hi by done. split; [apply elem_of_zget; eauto|done].
Qed.

Lemma level_set_len levels f level info levels' face' :
  level_set levels f level info levels' -> face' ∈ levels' ->
  exists face, face ∈ levels /\ zlen face' = zlen face.
Proof.
  intros (Hlen & Hother & face & face1 & Hface & Hface1 & Hl & _) [i Hi]%elem_of_zget.
  destruct (Z.eq_dec i f) as [->|Hne].
  - simplify_eq. exists face. split; [apply elem_of_zget; eauto|done].
  - rewrite Hother in Hi by done. exists face'. split; [apply elem_of_zget; eauto|done].
Qed.

Lemma level_set_ok n max max' levels f level info levels' :
  levels_ok n max levels -> level_set levels f level info levels' ->
  l_valid info = true -> dims_ok info -> level <= max' -> max <= max' ->
  (level = 0 -> mip_count info <= n) -> levels_ok n max' levels'.
Proof.
  intros [Hn Hlen Hlev Hmax] Hset Hv Hd Hm Hmm Hc. split; [done| | |lia].
  - intros face' Hin. destruct (level_set_len _ _ _ _ _ _ Hset Hin) as (face & Hf & ->). auto.
  - intros face' k l Hin Hl.
    destruct (level_set_elem _ _ _ _ _ _ _ _ Hset Hin Hl) as [[-> ->]|(face & Hf & Hk)].
    + right. auto.
    + destruct (Hlev _ _ _ Hf Hk) as [->|(? & ? & ? & ?)]; [by left|right]. auto with lia.
Qed.

Lemma SetLevelInfo_ok n t target level info :
  texture_ok n t -> level_fits target level info t ->
  exists a b c levels, let t' := with_status a b c (with_levels levels (Z.max (max_level_set_ t) level) t) in
    SetLevelInfo feature_info target level info t = Done t' /\ texture_ok n t' /\
    level_set (level_infos_ t) (GLTargetToFaceIndex target) level info levels.
Proof.
  intros [Hok Hf Hs] (face & Hface & Hlev & Hv & Hd & Hc). unfold SetLevelInfo.
  set (f := GLTargetToFaceIndex target) in *. rewrite Hface. cbn [of_option obind].
  destruct (zset face level info) as [face'|] eqn:Ez; [|by rewrite zset_in in Ez].
  cbn [of_option obind]. pose proof (zget_range _ _ _ Hface) as Hr.
  destruct (zset (level_infos_ t) f face') as [levels|] eqn:Ez'; [|by rewrite zset_in in Ez'].
  cbn [of_option obind].
  assert (level_set (level_infos_ t) f level info levels) as Hset.
  { split; [by eapply zlen_zset|]. split.
    - intros f' Hne. rewrite (zget_zset _ _ _ _ _ Ez'). by bfalse (f =? f').
    - exists face, face'. split; [done|]. split; [|split; [by eapply zlen_zset|]].
      + rewrite (zget_zset _ _ _ _ _ Ez'). by btrue (f =? f).
      + intros k. rewrite (zget_zset _ _ _ _ _ Ez), (Z.eqb_sym k). done. }
  assert (face ∈ level_infos_ t) as Hin by (apply elem_of_zget; eauto).
  destruct (texture_ok_Update n (with_levels levels (Z.max (max_level_set_ t) level) t))
    as (a & b & c & E & Hok').
  - simpl. eapply level_set_ok; [done|done|done|done|lia|lia|].
    intros ?. rewrite <- (ok_len _ _ _ Hok face Hin). auto.
  - simpl. destruct Hset as [-> _]. destruct Hf as [Hf|Hf]; [|by right].
    rewrite Hf in Hr. unfold zlen in Hr. simpl in Hr. lia.
  - exists a, b, c, levels. by rewrite E.
Qed.

(** A texture whose levels were never set. *)
Lemma blank_status n t :
  levels_ok n (max_level_set_ t) (level_infos_ t) -> max_level_set_ t = -1 ->
  Update feature_info t = Done (with_status false false false t).
Proof.
  intros Hok Hmax. destruct (decide (level_infos_ t = [])) as [E|Hne].
  { unfold Update. by rewrite E. }
  assert (forall face, face ∈ level_infos_ t -> zget face 0 = Some LevelInfo_new) as Hblank.
  { intros face Hin. destruct (levels_level0 _ _ _ face Hok Hin) as (l & Hl & _).
    destruct (ok_level _ _ _ Hok face 0 l Hin Hl) as [->|(_ & ? & _)]; [done|lia]. }
  destruct (levels_first n t Hok Hne) as (first & face & Hf & Hin & Hl & Hd & _ & Hall).
  destruct (Update_ok feature_info t first Hf Hd Hall (mip_count_nonneg _ Hd))
    as (a & b & c & -> & Ha & Hb & Hc). rewrite (Hblank _ Hin) in Hl. injection Hl as <-.
  assert (a = false) as ->.
  { destruct a; [|done]. destruct (proj1 Ha eq_refl) as (_ & ? & _). lia. }
  assert (b = false) as ->.
  { destruct b; [|done]. destruct (proj1 Hb eq_refl) as (_ & _ & Hs). rewrite Forall_forall in Hs.
    destruct (Hs _ Hin) as (l & Hl & Hv & _). rewrite (Hblank _ Hin) in Hl. injection Hl as <-. done. }
  assert (c = false) as ->; [|done].
  destruct c; [|done]. pose proof (proj1 Hc eq_refl) as Hx. apply Exists_exists in Hx.
  destruct Hx as (f & Hfin & l & Hl & Hnp). rewrite (Hblank _ Hfin) in Hl. injection Hl as <-. done.
Qed.

Lemma SetTarget_ok n t target max_levels :
  texture_ok n t -> max_level_set_ t = -1 -> 1 <= max_levels ->
  texture_ok max_levels (SetTarget target max_levels t).
Proof.
  intros [Hok _ Hs] Hmax Hm.
  assert (levels_ok max_levels (-1) (level_infos_ (SetTarget target max_levels t))) as Hok'.
  { split; [done| | |lia]; simpl; intros face.
    - intros (x & -> & _)%list_elem_of_fmap. unfold zlen. rewrite length_resize. lia.
    - intros k l (x & -> & Hx)%list_elem_of_fmap Hl. left. unfold zget in Hl.
      case_match; [|done].
      assert (Z.to_nat k < length (resize (Z.to_nat max_levels) LevelInfo_new x))%nat as Hlt
        by (by eapply lookup_lt_Some). rewrite length_resize in Hlt.
      destruct (decide (Z.to_nat k < length x)%nat).
      2:{ rewrite lookup_resize_new in Hl by lia. by injection Hl. }
      rewrite lookup_resize in Hl by lia.
      assert (x ∈ level_infos_ t) as Hin.
      { apply list_elem_of_lookup in Hx as [i Hi]. pose proof (lookup_lt_Some _ _ _ Hi) as Hi'.
        rewrite length_resize in Hi'.
        destruct (decide (i < length (level_infos_ t))%nat).
        - rewrite lookup_resize in Hi by lia. apply list_elem_of_lookup. eauto.
        - rewrite lookup_resize_new in Hi by lia. injection Hi as <-. simpl in *. lia. }
      assert (zget x k = Some l) as Hg by (unfold zget; by btrue (0 <=? k)).
      destruct (ok_level _ _ _ Hok x k l Hin Hg) as [->|(_ & ? & _)]; [done|lia]. }
  split; [by rewrite <- Hmax in Hok'| |].
  - right. simpl. unfold zlen. rewrite length_map, length_resize. by destruct (target =? _).
  - rewrite (blank_status max_levels); [|by rewrite <- Hmax in Hok'|done].
    rewrite (blank_status n t Hok Hmax) in Hs. injection Hs as Hs. unfold SetTarget, with_status. simpl.
    rewrite <- Hs. done.
Qed.

Lemma dims_ok_mip l k :
  dims_ok l -> 0 <= k -> 0 <= mip (l_width l) k < 2 ^ 31 /\ 0 <= mip (l_height l) k < 2 ^ 31 /\
    0 <= mip (l_depth l) k < 2 ^ 31.
Proof.
  assert (forall s, 0 <= s < 2 ^ 31 -> 0 <= k -> 0 <= mip s k < 2 ^ 31) as Hs.
  { intros s Hs Hk. unfold mip. case_match; [done|].
    pose proof (Z.pow_pos_nonneg 2 k ltac:(lia) Hk).
    assert (s / 2 ^ k <= s) by (apply Z.div_le_upper_bound; nia). lia. }
  intros (? & ? & ?) Hk. auto.
Qed.

(** Level [k] as [MarkMipmapsGenerated] makes it. *)
Definition generated (info1 : LevelInfo) (k : Z) : LevelInfo :=
  mkLevelInfo true (l_internal_format info1) (mip (l_width info1) k) (mip (l_height info1) k)
    (mip (l_depth info1) k) (l_border info1) (l_format info1) (l_type info1).

(** Face [f] of [levels'] is that of [levels] with the levels [lo <= k < hi] generated. *)
Definition face_generated (levels : list (list LevelInfo)) (f lo hi : Z) (info1 : LevelInfo)
    (levels' : list (list LevelInfo)) : Prop :=
  zlen levels' = zlen levels /\
  (forall f', f' <> f -> zget levels' f' = zget levels f') /\
  exists face face', zget levels f = Some face /\ zget levels' f = Some face' /\
    forall k, zget face' k =
      if (lo <=? k) && (k <? hi) then Some (generated info1 k) else zget face k.

Lemma generate_levels_ok n cnt target level info1 t face :
  texture_ok n t -> zget (level_infos_ t) (GLTargetToFaceIndex target) = Some face ->
  dims_ok info1 -> 1 <= level -> level + Z.of_nat cnt <= n ->
  exists t', generate_levels feature_info cnt target level (mip (l_width info1) (level - 1))
      (mip (l_height info1) (level - 1)) (mip (l_depth info1) (level - 1)) info1 t = Done t' /\
    texture_ok n t' /\ relevelled t t' /\
    face_generated (level_infos_ t) (GLTargetToFaceIndex target) level (level + Z.of_nat cnt)
      info1 (level_infos_ t').
Proof.
  set (f := GLTargetToFaceIndex target). intros Hok Hface Hd. revert t level face Hok Hface.
  induction cnt as [|cnt IH]; intros t level face Hok Hface Hlev Hn.
  { exists t. split; [done|]. split; [done|]. split; [apply relevelled_refl|].
    split; [done|]. split; [done|]. exists face, face. split_and!; [done..|].
    intros k. by bfalse ((level <=? k) && (k <? level + Z.of_nat 0)). }
  destruct Hd as (Hw & Hh & Hdp). assert (dims_ok info1) as Hd by done.
  cbn [generate_levels]. rewrite !mip_next, Z.sub_add by lia. fold (generated info1 level).
  assert (zlen face = n) as Hfl.
  { apply (ok_len _ _ _ (ok_levels _ _ Hok)). apply elem_of_zget. eauto. }
  destruct (SetLevelInfo_ok n t target level (generated info1 level) Hok)
    as (a & b & c & levels & -> & Hok1 & Hset).
  { exists face. split; [done|]. split; [lia|]. split; [done|]. split; [|lia].
    destruct (dims_ok_mip info1 level Hd) as (? & ? & ?); [lia|]. done. }
  cbn [obind]. fold f in Hset. destruct Hset as (Hlen & Hother & face0 & face1 & E0 & E1 & Hl1 & Hk1).
  rewrite Hface in E0. injection E0 as <-.
  destruct (IH _ (level + 1) face1 Hok1 E1) as (t' & Ht' & Hok' & Hrel & Hlen' & Hother' & f1 & f2 & G1 & G2 & Hk2);
    [lia..|].
  rewrite Z.add_simpl_r in Ht'. rewrite Ht'. exists t'. split; [done|]. split; [done|].
  split; [eapply relevelled_trans; [|done]; by repeat eexists|].
  simpl in *. split; [congruence|]. split.
  { intros f' Hne. rewrite Hother', Hother by done. done. }
  exists face, f2. split; [done|]. split; [done|]. intros k. rewrite Hk2.
  rewrite E1 in G1. injection G1 as <-. rewrite Hk1.
  destruct ((level + 1 <=? k) && _) eqn:E.
  - by btrue ((level <=? k) && (k <? level + Z.of_nat (S cnt))).
  - destruct (k =? level) eqn:Ek; zbool.
    + subst. by btrue ((level <=? level) && (level <? level + Z.of_nat (S cnt))).
    + by bfalse ((level <=? k) && (k <? level + Z.of_nat (S cnt))).
Qed.

(** What is left of the faces from [ii] on, and what the generated ones are. *)
Lemma generate_faces_ok n cnt ii t :
  texture_ok n t -> 0 <= ii -> ii + Z.of_nat cnt = zlen (level_infos_ t) ->
  (forall f, 0 <= f < zlen (level_infos_ t) ->
     GLTargetToFaceIndex (if t_target_ t =? GL_TEXTURE_2D then GL_TEXTURE_2D
                          else FaceIndexToGLTarget f) = f) ->
  (forall face l, face ∈ level_infos_ t -> zget face 0 = Some l -> l_valid l = true) ->
  exists t', generate_faces feature_info cnt ii t = Done t' /\ texture_ok n t' /\
    relevelled t t' /\ zlen (level_infos_ t') = zlen (level_infos_ t) /\
    (forall f, 0 <= f < ii -> zget (level_infos_ t') f = zget (level_infos_ t) f) /\
    forall f face l, ii <= f -> zget (level_infos_ t) f = Some face -> zget face 0 = Some l ->
      exists face', zget (level_infos_ t') f = Some face' /\ zget face' 0 = Some l /\
        forall k, 1 <= k < mip_count l -> zget face' k = Some (generated l k).
Proof.
  revert ii t. induction cnt as [|cnt IH]; intros ii t Hok Hii Hlen Hidx Hvalid.
  { exists t. split; [done|]. split; [done|]. split; [apply relevelled_refl|]. split_and!; [done..|].
    intros f face l Hf Hface%zget_range. lia. }
  cbn [generate_faces]. unfold level_at.
  destruct (zget_in (level_infos_ t) ii) as [face Hface]; [lia|]. rewrite Hface. cbn [of_option obind].
  assert (face ∈ level_infos_ t) as Hin by (apply elem_of_zget; eauto).
  destruct (levels_level0 _ _ _ face (ok_levels _ _ Hok) Hin) as (info1 & Hi & Hd & Hc).
  rewrite Hi. cbn [of_option obind]. fold (mip_count info1).
  set (target := if t_target_ t =? GL_TEXTURE_2D then _ else _).
  assert (GLTargetToFaceIndex target = ii) as Hti by (apply Hidx; lia).
  pose proof (mip_count_nonneg _ Hd).
  destruct (generate_levels_ok n (Z.to_nat (mip_count info1 - 1)) target 1 info1 t face)
    as (t1 & Ht1 & Hok1 & Hrel1 & Hl1 & Ho1 & fa & fb & E1 & E2 & Hk1);
    [done|by rewrite Hti|done|lia| |].
  { pose proof (ok_n _ _ _ (ok_levels _ _ Hok)). lia. }
  rewrite Hti in *. simplify_eq.
  change (mip (l_width info1) (1 - 1)) with (l_width info1) in Ht1.
  change (mip (l_height info1) (1 - 1)) with (l_height info1) in Ht1.
  change (mip (l_depth info1) (1 - 1)) with (l_depth info1) in Ht1.
  rewrite Ht1. cbn [obind].
  assert (t_target_ t1 = t_target_ t) as Htgt by (by destruct Hrel1 as (? & ? & ? & ? & ? & ->)).
  assert (zget fb 0 = Some info1) as Hfb by (rewrite Hk1; done).
  destruct (IH (ii + 1) t1) as (t' & Ht' & Hok' & Hrel' & Hl' & Hlo & Hhi);
    [done|lia|lia|by rewrite Htgt, Hl1| |].
  { intros f l [i Hf]%elem_of_zget Hl. destruct (Z.eq_dec i ii) as [->|Hne].
    - rewrite E2 in Hf. injection Hf as <-. rewrite Hfb in Hl. injection Hl as <-. by eapply Hvalid.
    - rewrite Ho1 in Hf by done. eapply Hvalid; [|done]. apply elem_of_zget. eauto. }
  exists t'. split; [done|]. split; [done|]. split; [by eapply relevelled_trans|].
  split; [congruence|]. split.
  { intros f Hf. rewrite Hlo, Ho1 by lia. done. }
  intros f face' l Hf Hface' Hl0. destruct (Z.eq_dec f ii) as [->|Hne].
  - assert (l = info1) as -> by congruence. exists fb. rewrite Hlo by lia. split_and!; [done..|].
    intros k Hk. rewrite Hk1.
    by btrue ((1 <=? k) && (k <? 1 + Z.of_nat (Z.to_nat (mip_count info1 - 1)))).
  - apply (Hhi f face'); [lia|by rewrite Ho1|done].
Qed.

Lemma same_faces_ok faces first :
  (forall face, face ∈ faces -> is_Some (zget face 0)) ->
  exists b, same_faces faces first = Done b /\ (b = true <-> Forall (same_image first) faces).
Proof.
  intros H. induction faces as [|face faces IH].
  { exists true. split; [done|]. by rewrite Forall_nil. }
  destruct IH as (b & Hb & IH); [intros; apply H; set_solver|].
  destruct (H face) as [l Hl]; [set_solver|]. cbn [same_faces]. rewrite Hl. cbn [of_option obind].
  assert ((negb (l_valid l) || negb (l_width l =? l_width first) ||
    negb (l_height l =? l_height first) || negb (l_depth l =? 1) ||
    negb (l_format l =? l_format first) || negb (l_internal_format l =? l_internal_format first) ||
    negb (l_type l =? l_type first)) = false <-> same_image first face) as Ht.
  { rewrite !orb_false_iff, !negb_false_iff, !Z.eqb_eq. unfold same_image, same_format.
    split; [intros; exists l; tauto|]. intros (l' & Hl' & ?). simplify_eq. tauto. }
  destruct (negb (l_valid l) || _ || _ || _ || _ || _ || _).
  - exists false. split; [done|]. rewrite Forall_cons. intuition congruence.
  - exists b. split; [done|]. rewrite Forall_cons, IH. tauto.
Qed.

Lemma CanGenerateMipmaps_ok n t :
  texture_ok n t ->
  exists b, CanGenerateMipmaps feature_info t = Done b /\
    (b = true -> deleted_ t = false /\ t_target_ t <> GL_TEXTURE_EXTERNAL_OES /\
       exists first, level_at t 0 0 = Done first /\ Forall (same_image first) (level_infos_ t)).
Proof.
  intros [Hok _ _]. unfold CanGenerateMipmaps. destruct (_ || _ || _ || _) eqn:E.
  { by exists false. }
  zbool. rewrite bool_decide_eq_false in *. destruct (levels_first n t Hok) as (first & _ & Hf & _); [done|].
  rewrite Hf. cbn [obind]. destruct (same_faces_ok (level_infos_ t) first) as (b & -> & Hb).
  { intros face Hin. destruct (levels_level0 _ _ _ _ Hok Hin) as (l & -> & _). eauto. }
  exists b. split; [done|]. intros Hb'. split_and!; [done..|]. exists first. split; [done|]. by apply Hb.
Qed.

Lemma face_index_ok n t f :
  texture_ok n t -> 0 <= f < zlen (level_infos_ t) ->
  GLTargetToFaceIndex (if t_target_ t =? GL_TEXTURE_2D then GL_TEXTURE_2D
                       else FaceIndexToGLTarget f) = f.
Proof.
  intros [_ [Hnil|Hlen] _] Hf; [rewrite Hnil in Hf; unfold zlen in Hf; simpl in Hf; lia|].
  rewrite Hlen in Hf. destruct (t_target_ t =? GL_TEXTURE_2D) eqn:E2; zbool.
  - rewrite E2 in Hf. change (GL_TEXTURE_2D =? GL_TEXTURE_CUBE_MAP) with false in Hf. simpl in Hf.
    by replace f with 0 by lia.
  - assert (f = 0 \/ f = 1 \/ f = 2 \/ f = 3 \/ f = 4 \/ f = 5) as Hcases by (case_match; lia).
    by destruct Hcases as [->|[->|[->|[->|[->| ->]]]]].
Qed.

(** The faces keep their first level. *)
Definition same_firsts (t t' : TextureInfo) : Prop :=
  zlen (level_infos_ t') = zlen (level_infos_ t) /\
  forall f face, zget (level_infos_ t) f = Some face ->
    exists face', zget (level_infos_ t') f = Some face' /\ zget face' 0 = zget face 0.

Lemma same_firsts_refl t : same_firsts t t.
Proof. split; [done|]. eauto. Qed.

Lemma MarkMipmapsGenerated_ok n t :
  texture_ok n t ->
  exists b t', MarkMipmapsGenerated feature_info t = Done (b, t') /\ texture_ok n t' /\
    relevelled t t' /\ same_firsts t t' /\ (b = false -> t' = t) /\
    (b = true -> exists first, level_at t 0 0 = Done first /\
       Forall (same_image first) (level_infos_ t) /\ level_at t' 0 0 = Done first /\
       Forall (mipmapped (mip_count first)) (level_infos_ t')).
Proof.
  intros Hok. unfold MarkMipmapsGenerated.
  destruct (CanGenerateMipmaps_ok n t Hok) as (b & -> & Hb). cbn [obind].
  destruct b; simpl; [|exists false, t; split_and!; auto using relevelled_refl, same_firsts_refl; done].
  destruct (Hb eq_refl) as (_ & _ & first & Hfirst & Hsame). rewrite Forall_forall in Hsame.
  destruct (generate_faces_ok n (length (level_infos_ t)) 0 t Hok)
    as (t' & -> & Hok' & Hrel & Hlen & _ & Hall); [done|done|intros; by eapply face_index_ok| |].
  { intros face l Hin Hl. destruct (Hsame _ Hin) as (l' & Hl' & Hv & _). by simplify_eq. }
  exists true, t'. split; [done|]. split; [done|]. split; [done|]. split.
  { split; [done|]. intros f face Hf. pose proof (zget_range _ _ _ Hf).
    destruct (levels_level0 n _ _ face (ok_levels _ _ Hok)) as (l & Hl & _);
      [apply elem_of_zget; eauto|].
    destruct (Hall f face l) as (face' & ? & ? & _); [lia|done..|]. exists face'. by rewrite Hl. }
  split; [done|]. intros _. exists first. split; [done|]. split; [by apply Forall_forall|].
  unfold level_at in Hfirst |- *. destruct (zget (level_infos_ t) 0) as [face|] eqn:Eface; [|done].
  cbn [of_option obind] in Hfirst.
  destruct (zget face 0) as [l0|] eqn:El0; [|done]. injection Hfirst as ->.
  destruct (Hall 0 face first) as (face' & E1 & E2 & _); [lia|done..|].
  rewrite E1. cbn [of_option obind]. rewrite E2. split; [done|].
  apply Forall_forall. intros fx [i Hi]%elem_of_zget.
  pose proof (zget_range _ _ _ Hi) as Hr. rewrite Hlen in Hr.
  destruct (zget_in _ _ Hr) as [fo Hfo]. assert (fo ∈ level_infos_ t) as Hin by (apply elem_of_zget; eauto).
  destruct (Hsame _ Hin) as (l & Hl & _ & Hw & Hh & Hdp & _).
  destruct (Hall i fo l) as (fx' & Hfx & Hl' & Hk); [lia|done..|]. simplify_eq.
  exists l. split; [done|]. intros k Hkr. rewrite Hk; [by eexists|].
  destruct (Hsame face) as (l1 & Hl1 & _ & _ & _ & Hd1 & _); [apply elem_of_zget; eauto|].
  simplify_eq. unfold mip_count in *. rewrite Hw, Hh, Hdp. by rewrite Hd1 in Hkr.
Qed.

Lemma SetParameter_ok n pname param t :
  texture_ok n t ->
  exists r t', SetParameter feature_info pname param t = Done (r, t') /\ texture_ok n t' /\
    exists p a b c, t' = with_status a b c (with_params p t).
Proof.
  intros Hok.
  assert (forall p, exists r t', (do t <- Update feature_info (with_params p t) ;;
    Done (true, t))%gpu = Done (r, t') /\ texture_ok n t' /\
    exists p a b c, t' = with_status a b c (with_params p t)) as Hset.
  { intros p. destruct (texture_ok_Update n (with_params p t)) as (a & b & c & -> & Hok');
      [apply Hok|apply Hok|]. cbn [obind]. eexists _, _. split; [done|]. split; [done|]. eauto. }
  assert (exists r t', Done (false, t) = Done (r, t') /\ texture_ok n t' /\
    exists p a b c, t' = with_status a b c (with_params p t)) as Hfail.
  { eexists _, _. split; [done|]. split; [done|].
    exists (params t), (texture_complete_ t), (cube_complete_ t), (npot_ t). by destruct t. }
  unfold SetParameter. repeat case_match; auto.
Qed.

(** What [Update] does not read. *)
Lemma Update_frame t t' :
  level_infos_ t' = level_infos_ t -> params t' = params t ->
  max_level_set_ t' = max_level_set_ t -> texture_complete_ t' = texture_complete_ t ->
  cube_complete_ t' = cube_complete_ t -> npot_ t' = npot_ t ->
  Update feature_info t = Done t -> Update feature_info t' = Done t'.
Proof.
  destruct t, t'. simpl. intros -> -> -> -> -> ->. unfold Update, level_at. simpl.
  destruct level_infos_0 as [|face faces]; [by intros [= <- <- <-]|].
  cbv beta iota. generalize (face :: faces). intros levels.
  destruct (npot_loop levels) as [np| |]; [|done..]. cbn [obind].
  destruct (of_option (zget levels 0)) as [face0| |]; [|done..]. cbn [obind].
  destruct (of_option (zget face0 0)) as [first| |]; [|done..]. cbn [obind].
  match goal with |- context [faces_loop ?a ?b ?c ?d ?e] =>
    destruct (faces_loop a b c d e) as [[? ?]| |]; [|done..] end.
  cbn [obind]. unfold with_status. simpl. by intros [= <- <- <-].
Qed.

Lemma texture_ok_frame n t t' :
  level_infos_ t' = level_infos_ t -> params t' = params t ->
  max_level_set_ t' = max_level_set_ t -> texture_complete_ t' = texture_complete_ t ->
  cube_complete_ t' = cube_complete_ t -> npot_ t' = npot_ t -> t_target_ t' = t_target_ t ->
  texture_ok n t -> texture_ok n t'.
Proof.
  intros E1 E2 E3 E4 E5 E6 E7 [H1 H2 H3]. split; rewrite ?E1, ?E3, ?E7; [done..|].
  by eapply Update_frame.
Qed.

Lemma TextureInfo_new_ok id : texture_ok 1 (TextureInfo_new id).
Proof.
  split; [|by left|done]. split; simpl; [lia| | |lia]; intros face; [|intros ? ?]; set_solver.
Qed.

Lemma texture_reach_ok t : texture_reach t -> exists n, texture_ok n t.
Proof.
  induction 1 as [id|target m t Hr [n IH] Hmax Hm|target level info t t' Hr [n IH] Hfit E
    |pname param t r t' Hr [n IH] E|t r t' Hr [n IH] E|t Hr [n IH]|b t Hr [n IH]|t Hr [n IH]
    |k t Hr [n IH]]; [| | | | |exists n; by apply (texture_ok_frame n t)..].
  - exists 1. apply TextureInfo_new_ok.
  - exists m. by eapply SetTarget_ok.
  - destruct (SetLevelInfo_ok n t target level info IH Hfit) as (a & b & c & ls & E' & Hok & _).
    rewrite E in E'. injection E' as ->. eauto.
  - destruct (SetParameter_ok n pname param t IH) as (r' & t1 & E' & Hok & _).
    rewrite E in E'. injection E' as <- <-. eauto.
  - destruct (MarkMipmapsGenerated_ok n t IH) as (r' & t1 & E' & Hok & _).
    rewrite E in E'. injection E' as <- <-. eauto.
Qed.

(** The cached answers, in terms of what OpenGL ES asks. *)
Lemma status_complete n t :
  texture_ok n t ->
  (texture_complete_ t = true <-> complete_texture feature_info t) /\
  (cube_complete_ t = true <-> complete_cube t) /\
  (npot_ t = true <-> Exists npot_face (level_infos_ t)).
Proof.
  intros [Hok _ Hs]. destruct (decide (level_infos_ t = [])) as [E|Hne].
  - unfold Update in Hs. rewrite E in Hs. injection Hs as Hs.
    assert (texture_complete_ t = false /\ cube_complete_ t = false /\ npot_ t = false)
      as (-> & -> & ->) by (rewrite <- Hs; done).
    unfold complete_texture, complete_cube, level_at. rewrite E, Exists_nil. simpl.
    naive_solver.
  - destruct (levels_first n t Hok Hne) as (first & face & Hf & Hin & Hl & Hd & _ & Hall).
    destruct (Update_ok feature_info t first Hf Hd Hall (mip_count_nonneg _ Hd))
      as (a & b & c & E & Ha & Hb & Hc).
    rewrite Hs in E. injection E as Et.
    assert (texture_complete_ t = a /\ cube_complete_ t = b /\ npot_ t = c) as (-> & -> & ->)
      by (rewrite Et; done). rewrite Ha, Hb. split; [|split; [|done]]; split.
    + intros (_ & _ & ? & ? & ? & ?). destruct Hd as (? & ? & _). exists first. split_and!; auto; lia.
    + intros (first' & Hf' & Hw & Hh & Hu & Hmips). rewrite Hf in Hf'. injection Hf' as <-.
      destruct (ok_level _ _ _ Hok face 0 first Hin Hl) as [->|(_ & Hmax & _)]; [simpl in Hw; lia|].
      split_and!; [|lia..|done|done]. rewrite Forall_forall in Hmips.
      destruct (Hmips _ Hin) as (l0 & Hl0 & Hk). rewrite Hl in Hl0. injection Hl0 as <-.
      destruct (Z.le_gt_cases (mip_count first) 1); [lia|].
      destruct (Hk (mip_count first - 1)) as (l & Hlk & Hv & _); [lia|].
      destruct (ok_level _ _ _ Hok face _ l Hin Hlk) as [->|(_ & ? & _)]; [done|lia].
    + intros (? & ? & ?). exists first. auto.
    + intros (first' & Hf' & ?). rewrite Hf in Hf'. by injection Hf' as <-.
Qed.

End invariant.

(** [Update] reads the features only for float textures. *)
Lemma Update_any_features fi fi' t first :
  level_at t 0 0 = Done first -> l_type first <> GL_FLOAT -> l_type first <> GL_HALF_FLOAT_OES ->
  Update fi t = Update fi' t.
Proof.
  intros Hf H1 H2. unfold Update. rewrite Hf. cbn [obind].
  assert (forall fi, unfiltered fi (l_type first) (params t) = false) as Hu.
  { intros x. unfold unfiltered. by bfalse (l_type first =? GL_FLOAT);
      bfalse (l_type first =? GL_HALF_FLOAT_OES). }
  by rewrite !Hu.
Qed.

(** ** Properties *)

Lemma CanRender_rules feature_info n t :
  texture_ok feature_info n t ->
  CanRender feature_info t = true <->
  t_target_ t <> 0 /\ deleted_ t = false /\ npot_rule feature_info t /\
  (NeedsMips t = true -> images_rule t /\ mipmaps_rule feature_info t).
Proof.
  intros Hok. destruct (status_complete feature_info n t Hok) as (Ht & Hc & Hn).
  assert (Hm : NeedsMips t = true -> images_rule t /\ mipmaps_rule feature_info t <->
    texture_complete_ t = true /\ (t_target_ t <> GL_TEXTURE_2D -> cube_complete_ t = true)).
  { intros E. unfold images_rule, mipmaps_rule. rewrite Ht, Hc. split.
    - intros [[_ Hcube] Hmips]. destruct (Hmips E) as [Hin Hct]. split; [done|]. intros Hne. apply Hcube.
      rewrite !elem_of_cons, elem_of_nil in Hin. tauto.
    - intros [Hct Hcube]. assert (t_target_ t = GL_TEXTURE_2D \/ t_target_ t = GL_TEXTURE_CUBE_MAP) as Htarget.
      { destruct (decide (t_target_ t = GL_TEXTURE_2D)) as [|Hne]; [by left|right].
        destruct (Hcube Hne) as (first & _ & Hl & _). destruct (ok_faces _ _ _ Hok) as [E0|E6]; [by rewrite E0 in Hl|].
        unfold zlen in E6. rewrite Hl in E6. destruct (t_target_ t =? GL_TEXTURE_CUBE_MAP) eqn:E7; [lia|done]. }
      split; [split|].
      + destruct Hct as (first & ? & ? & ? & _). by exists first.
      + intros E7. apply Hcube. rewrite E7. discriminate.
      + intros _. split; [|done]. rewrite !elem_of_cons. tauto. }
  unfold npot_rule. rewrite <- Hn. unfold CanRender.
  destruct (t_target_ t =? 0) eqn:E0; zbool; [by split; [|intros (? & _)]|].
  destruct (deleted_ t); [by split; [|intros (_ & ? & _)]|]. cbn [orb].
  destruct (NeedsMips t) eqn:Em.
  - assert (Hm' : (true = true -> images_rule t /\ mipmaps_rule feature_info t) <->
      texture_complete_ t = true /\ (t_target_ t <> GL_TEXTURE_2D -> cube_complete_ t = true))
      by (rewrite <- (Hm eq_refl); split; auto).
    rewrite Hm'. clear Hm Hm' Ht Hc Hn. revert E0. destruct (t_target_ t =? GL_TEXTURE_2D) eqn:E2; zbool; intros E0;
      destruct (npot_ t), (npot_ok _), (texture_complete_ t), (cube_complete_ t); cbn [negb andb];
      (split; [intros; try discriminate; split_and!; auto; intros; try discriminate; contradiction|];
       intros (_ & _ & H3 & H4 & H5); try discriminate; try reflexivity;
       first [by destruct (H3 eq_refl eq_refl) | by apply H5]).
  - clear Hm. destruct (npot_ t), (npot_ok _); cbn [negb andb]; rewrite ?andb_true_iff, ?Z.eqb_eq;
      (split; [intros; split_and!; auto; intros; discriminate|]); intros (_ & _ & H3 & _); try reflexivity;
      by destruct (H3 eq_refl eq_refl) as (_ & ? & ?).
Qed.

(** C25: the answers that a texture caches are right, and so is most of what is made of them.
    In every state the operations can bring a texture to, [texture_complete_] is true exactly
    when each face has every level down to one pixel, of the right size and of the format of
    its first level, [cube_complete_] exactly when the six faces are squares of one size
    and format, and [npot_] exactly when a first level has a size that is no power of
    two.  [CanRender] refuses no texture that section 3.8.2 of OpenGL ES lets a sampler read,
    and is that rule for textures whose filter needs mipmaps and for those whose first images are
    as the rule asks; of the first images it asks nothing where no mipmaps are needed
    ([empty_texture_renders], [incomplete_cube_renders]). *)
Theorem cached_completeness_correct feature_info t :
  texture_reach feature_info t ->
  (texture_complete_ t = true <-> complete_texture feature_info t) /\
  (cube_complete_ t = true <-> complete_cube t) /\
  (npot_ t = true <-> Exists npot_face (level_infos_ t)) /\
  (t_target_ t <> 0 -> deleted_ t = false ->
   (section_3_8_2 feature_info t <-> CanRender feature_info t = true /\ images_rule t) /\
   (NeedsMips t = true -> CanRender feature_info t = true -> images_rule t) /\
   (NeedsMips t = false -> CanRender feature_info t = true <-> npot_rule feature_info t)).
Proof.
  intros [n Hok]%texture_reach_ok. destruct (status_complete feature_info n t Hok) as (Ht & Hc & Hn).
  pose proof (CanRender_rules feature_info n t Hok) as Hr.
  split_and!; [done..|]. intros H0 Hd. split_and!.
  - rewrite Hr. unfold section_3_8_2. split; [tauto|]. intros [(_ & _ & ? & Hm) ?]. split_and!; [done| |done].
    intros E. by apply (proj2 (Hm E)).
  - intros E. rewrite Hr. tauto.
  - intros E. rewrite Hr, E. split; [tauto|]. intros ?. split_and!; [done..|]. discriminate.
Qed.

(** After [glGenerateMipmap] succeeds the texture is mipmap complete.  When
    [MarkMipmapsGenerated] answers true for a texture with pixels, whose format can be
    filtered, every level of every face is there and [texture_complete_] is true; the
    first levels are unchanged. *)
Theorem MarkMipmapsGenerated_completes feature_info t t' first :
  texture_reach feature_info t -> MarkMipmapsGenerated feature_info t = Done (true, t') ->
  level_at t 0 0 = Done first -> 0 < l_width first -> 0 < l_height first ->
  unfiltered feature_info (l_type first) (params t) = false ->
  complete_texture feature_info t' /\ texture_complete_ t' = true /\ level_at t' 0 0 = Done first.
Proof.
  intros Hr E Hfirst Hw Hh Hu. destruct (texture_reach_ok _ _ Hr) as [n Hok].
  destruct (MarkMipmapsGenerated_ok _ n t Hok) as (b & t1 & E' & Hok' & Hrel & _ & _ & Hgen).
  rewrite E in E'. injection E' as <- <-.
  destruct (Hgen eq_refl) as (first' & Hf & _ & Hf' & Hmips). rewrite Hfirst in Hf. injection Hf as <-.
  assert (complete_texture feature_info t') as Hc.
  { exists first. split_and!; [done..| |done]. by destruct Hrel as (? & ? & ? & ? & ? & ->). }
  split_and!; [done| |done]. by apply (status_complete feature_info n t' Hok').
Qed.

(** A 4 by 2 texture. *)
Definition example_level : LevelInfo := mkLevelInfo true GL_RGBA 4 2 1 0 GL_RGBA GL_UNSIGNED_BYTE.

Definition done_or {A} (d : A) (o : outcome A) : A := match o with Done a => a | _ => d end.

Definition example_texture : TextureInfo :=
  let t := SetTarget GL_TEXTURE_2D 10 (TextureInfo_new 7) in
  done_or t (SetLevelInfo FeatureInfo_new GL_TEXTURE_2D 0 example_level t).

Definition example_mipmapped : TextureInfo :=
  snd (done_or (false, example_texture) (MarkMipmapsGenerated FeatureInfo_new example_texture)).

Lemma example_texture_reach : texture_reach FeatureInfo_new example_texture.
Proof.
  eapply (reach_SetLevelInfo _ GL_TEXTURE_2D 0 example_level
    (SetTarget GL_TEXTURE_2D 10 (TextureInfo_new 7))); [|eexists|vm_compute; reflexivity].
  - apply reach_SetTarget; [apply reach_new_texture|done|done].
  - split; [vm_compute; reflexivity|]. split; [vm_compute; split; congruence|].
    split; [done|]. split; [vm_compute; intuition congruence|]. intros _. vm_compute. congruence.
Qed.

Lemma cached_completeness_correct_witness :
  texture_reach FeatureInfo_new example_texture /\ texture_complete_ example_texture = false /\
  (texture_complete_ example_texture = true <-> complete_texture FeatureInfo_new example_texture).
Proof.
  split; [apply example_texture_reach|]. split; [vm_compute; reflexivity|].
  apply (cached_completeness_correct _ _ example_texture_reach).
Defined.

(** A texture with no image, and a cube map with one of six faces: with a filter that needs no
    mipmaps they count as textures that can be rendered, which they are not. *)
Definition nearest (t : TextureInfo) : TextureInfo :=
  snd (done_or (false, t) (SetParameter FeatureInfo_new GL_TEXTURE_MIN_FILTER GL_NEAREST t)).

Theorem empty_texture_renders :
  let t := nearest (SetTarget GL_TEXTURE_2D 10 (TextureInfo_new 7)) in
  CanRender FeatureInfo_new t = true /\ ~ section_3_8_2 FeatureInfo_new t.
Proof.
  intros t. split; [vm_compute; reflexivity|]. intros [[(first & E & Hw & _) _] _].
  vm_compute in E. injection E as <-. discriminate Hw.
Qed.

Definition example_face : LevelInfo := mkLevelInfo true GL_RGBA 4 4 1 0 GL_RGBA GL_UNSIGNED_BYTE.

Theorem incomplete_cube_renders :
  let cube := SetTarget GL_TEXTURE_CUBE_MAP 10 (TextureInfo_new 7) in
  let t := nearest (done_or cube (SetLevelInfo FeatureInfo_new GL_TEXTURE_CUBE_MAP_POSITIVE_X 0 example_face cube)) in
  CanRender FeatureInfo_new t = true /\ positive_image t /\ ~ section_3_8_2 FeatureInfo_new t.
Proof.
  intros cube t. split; [vm_compute; reflexivity|]. split; [eexists; split; [vm_compute; reflexivity|by split]|].
  intros [[_ Hc] _]. destruct (Hc eq_refl) as (first & E & _ & _ & Hf). vm_compute in E. injection E as <-.
  rewrite Forall_forall in Hf. destruct (Hf (replicate 10 LevelInfo_new)) as (l & El & Hv & _).
  - apply (list_elem_of_lookup_2 _ 1). vm_compute. reflexivity.
  - vm_compute in El. injection El as <-. discriminate Hv.
Qed.

Lemma MarkMipmapsGenerated_completes_witness :
  texture_complete_ example_mipmapped = true /\
  complete_texture FeatureInfo_new example_mipmapped.
Proof.
  destruct (MarkMipmapsGenerated_completes FeatureInfo_new example_texture example_mipmapped
    example_level example_texture_reach) as (? & ? & _);
    [vm_compute; reflexivity|vm_compute; reflexivity|done|done|vm_compute; reflexivity|done].
Defined.
