(* ===== verification/TextureManager.v ===== *)
(** * The texture manager

    [TextureManager] of [gpu/command_buffer/service/texture_manager.{h,cc}]: the textures
    of a context group, shared between its decoders, and the count of those that cannot
    be rendered. *)

From Stdlib Require Import ZArith Lia ZifyBool Bool.
From stdpp Require Import base numbers option gmap sets list.
From S2P Require Import Prelude GLConstants Validators GLES2Util FeatureInfo TextureInfo.
Local Open Scope Z_scope.

(** ** Data *)

(** [max_texture_size_], [max_cube_map_texture_size_], [max_levels_] and
    [max_cube_map_levels_]. *)
Record Limits := mkLimits {
  max_texture_size_ : Z;
  max_cube_map_texture_size_ : Z;
  max_levels_ : Z;
  max_cube_map_levels_ : Z;
}.

(** The black and the default textures; the external ones are there only if the
    extension is. *)
Record Builtins := mkBuiltins {
  black_2d_texture_id_ : Z;
  black_cube_texture_id_ : Z;
  black_oes_external_texture_id_ : Z;
  default_texture_2d_ : option Z;
  default_texture_cube_map_ : option Z;
  default_texture_external_oes_ : option Z;
}.

(** [textures] holds the textures by address; [texture_infos_] and whoever has a texture
    bound or attached hold addresses. *)
Record TextureManager := mkTextureManager {
  textures : gmap Z TextureInfo;
  texture_infos_ : gmap Z Z;
  next_texture : Z;
  limits : Limits;
  num_unrenderable_textures_ : Z;
  builtins : Builtins;
}.

Definition TextureManager_new (max_texture_size max_cube_map_texture_size : Z) : TextureManager :=
  mkTextureManager ∅ ∅ 0
    (mkLimits max_texture_size max_cube_map_texture_size
       (ComputeMipMapCount max_texture_size max_texture_size max_texture_size)
       (ComputeMipMapCount max_cube_map_texture_size max_cube_map_texture_size
          max_cube_map_texture_size))
    0 (mkBuiltins 0 0 0 None None None).

Definition with_texture (a : Z) (t : TextureInfo) (m : TextureManager) : TextureManager :=
  mkTextureManager (<[a := t]> (textures m)) (texture_infos_ m) (next_texture m) (limits m)
    (num_unrenderable_textures_ m) (builtins m).

Definition with_count (n : Z) (m : TextureManager) : TextureManager :=
  mkTextureManager (textures m) (texture_infos_ m) (next_texture m) (limits m) n (builtins m).

Definition with_builtins (b : Builtins) (m : TextureManager) : TextureManager :=
  mkTextureManager (textures m) (texture_infos_ m) (next_texture m) (limits m)
    (num_unrenderable_textures_ m) b.

Definition texture (a : Z) (m : TextureManager) : outcome TextureInfo := of_option (textures m !! a).

Definition MaxLevelsForTarget (target : Z) (lim : Limits) : Z :=
  if target =? GL_TEXTURE_2D then max_levels_ lim
  else if target =? GL_TEXTURE_EXTERNAL_OES then 1
  else max_cube_map_levels_ lim.

Definition MaxSizeForTarget (target : Z) (lim : Limits) : Z :=
  if is_case target [GL_TEXTURE_2D; GL_TEXTURE_EXTERNAL_OES] then max_texture_size_ lim
  else max_cube_map_texture_size_ lim.

Definition HaveUnrenderableTextures (m : TextureManager) : bool :=
  num_unrenderable_textures_ m >? 0.

Definition GetDefaultTextureInfo (target : Z) (m : TextureManager) : option Z :=
  if target =? GL_TEXTURE_2D then default_texture_2d_ (builtins m)
  else if target =? GL_TEXTURE_CUBE_MAP then default_texture_cube_map_ (builtins m)
  else if target =? GL_TEXTURE_EXTERNAL_OES then default_texture_external_oes_ (builtins m)
  else None.

Definition black_texture_id (target : Z) (m : TextureManager) : Z :=
  if target =? GL_SAMPLER_2D then black_2d_texture_id_ (builtins m)
  else if target =? GL_SAMPLER_CUBE then black_cube_texture_id_ (builtins m)
  else if target =? GL_SAMPLER_EXTERNAL_OES then black_oes_external_texture_id_ (builtins m)
  else 0.

(** ** Operations *)

Section operations.
Variable feature_info : FeatureInfo.

Definition ValidForTarget (target level width height depth : Z) (m : TextureManager) : bool :=
  let max_size := MaxSizeForTarget target (limits m) in
  (level >=? 0) && (width >=? 0) && (height >=? 0) && (depth >=? 0) &&
  (level <? MaxLevelsForTarget target (limits m)) &&
  (width <=? max_size) && (height <=? max_size) && (depth <=? max_size) &&
  ((level =? 0) || npot_ok (feature_flags_ feature_info) ||
   (negb (IsNPOT (u32 width)) && negb (IsNPOT (u32 height)) && negb (IsNPOT (u32 depth)))) &&
  (negb (target =? GL_TEXTURE_CUBE_MAP) || ((width =? height) && (depth =? 1))) &&
  (negb (target =? GL_TEXTURE_2D) || (depth =? 1)).

(** A change of a texture, with [num_unrenderable_textures_] brought up to date around
    it, as each of the next four operations does. *)
Definition counted {R} (a : Z) (change : TextureInfo -> outcome (R * TextureInfo))
    (m : TextureManager) : outcome (R * TextureManager) :=
  (do t <- texture a m ;;
   let n := num_unrenderable_textures_ m in
   let n := if CanRender feature_info t then n else i32 (n - 1) in
   do (r, t) <- change t ;;
   let n := if CanRender feature_info t then n else i32 (n + 1) in
   Done (r, with_count n (with_texture a t m)))%gpu.

Definition SetInfoTarget (a target : Z) (m : TextureManager) : outcome TextureManager :=
  (do (_, m) <- counted a (fun t =>
     Done (tt, SetTarget target (MaxLevelsForTarget target (limits m)) t)) m ;;
   Done m)%gpu.

Definition SetLevelInfo (a target level : Z) (info : LevelInfo) (m : TextureManager)
    : outcome TextureManager :=
  (do (_, m) <- counted a (fun t =>
     do t <- TextureInfo.SetLevelInfo feature_info target level info t ;; Done (tt, t)) m ;;
   Done m)%gpu.

Definition SetParameter (a pname param : Z) (m : TextureManager) : outcome (bool * TextureManager) :=
  counted a (TextureInfo.SetParameter feature_info pname param) m.

Definition MarkMipmapsGenerated (a : Z) (m : TextureManager) : outcome (bool * TextureManager) :=
  counted a (TextureInfo.MarkMipmapsGenerated feature_info) m.

(** The insertion does nothing when the id is taken. *)
Definition CreateTextureInfo (client_id service_id : Z) (m : TextureManager) : TextureManager :=
  let a := next_texture m in
  let t := TextureInfo_new service_id in
  mkTextureManager (<[a := t]> (textures m))
    (match texture_infos_ m !! client_id with
     | Some _ => texture_infos_ m
     | None => <[client_id := a]> (texture_infos_ m)
     end) (a + 1) (limits m)
    (if CanRender feature_info t then num_unrenderable_textures_ m
     else i32 (num_unrenderable_textures_ m + 1)) (builtins m).

Definition GetTextureInfo (client_id : Z) (m : TextureManager) : option Z :=
  texture_infos_ m !! client_id.

Definition RemoveTextureInfo (client_id : Z) (m : TextureManager) : outcome TextureManager :=
  match texture_infos_ m !! client_id with
  | Some a =>
      (do t <- texture a m ;;
       let n := num_unrenderable_textures_ m in
       Done (mkTextureManager (<[a := MarkTextureAsDeleted t]> (textures m))
               (base.delete client_id (texture_infos_ m)) (next_texture m) (limits m)
               (if CanRender feature_info t then n else i32 (n - 1)) (builtins m)))%gpu
  | None => Done m
  end.

(** [order] is the order in which the hash map is visited. *)
Definition GetClientId (order : list (Z * Z)) (service_id : Z) (m : TextureManager) : option Z :=
  fst <$> find (fun '(_, a) =>
                  match textures m !! a with
                  | Some t => t_service_id_ t =? service_id
                  | None => false
                  end) order.

(** A default texture: [new TextureInfo], [SetInfoTarget], and the levels [level] of each
    of [faces], of one black pixel, which are not counted. *)
Definition black_level : LevelInfo := mkLevelInfo true GL_RGBA 1 1 1 0 GL_RGBA GL_UNSIGNED_BYTE.

Fixpoint set_black_faces (faces : list Z) (t : TextureInfo) : outcome TextureInfo :=
  match faces with
  | [] => Done t
  | face :: faces =>
      (do t <- TextureInfo.SetLevelInfo FeatureInfo_new face 0 black_level t ;;
       set_black_faces faces t)%gpu
  end.

Definition new_default (service_id target : Z) (faces : list Z) (m : TextureManager)
    : outcome (Z * TextureManager) :=
  let a := next_texture m in
  let m := mkTextureManager (<[a := TextureInfo_new service_id]> (textures m)) (texture_infos_ m)
             (a + 1) (limits m) (num_unrenderable_textures_ m) (builtins m) in
  (do m <- SetInfoTarget a target m ;;
   do t <- texture a m ;;
   do t <- set_black_faces faces t ;;
   Done (a, with_texture a t m))%gpu.

(** [ids] and [external_ids] are the answers of [glGenTextures]. *)
Definition Initialize (ids : Z * Z * Z * Z) (external_ids : Z * Z) (m : TextureManager)
    : outcome TextureManager :=
  let '(id0, id1, id2, id3) := ids in
  (do (a2d, m) <- new_default id1 GL_TEXTURE_2D [GL_TEXTURE_2D] m ;;
   do faces <- of_option (mapM IndexToGLFaceTarget [0; 1; 2; 3; 4; 5]) ;;
   do (acube, m) <- new_default id3 GL_TEXTURE_CUBE_MAP faces m ;;
   let m := with_builtins (mkBuiltins id0 id2 (black_oes_external_texture_id_ (builtins m))
              (Some a2d) (Some acube) (default_texture_external_oes_ (builtins m))) m in
   if oes_egl_image_external (feature_flags_ feature_info) then
     do (aext, m) <- new_default (fst external_ids) GL_TEXTURE_EXTERNAL_OES [GL_TEXTURE_EXTERNAL_OES] m ;;
     Done (with_builtins (mkBuiltins id0 id2 (snd external_ids) (Some a2d) (Some acube) (Some aext)) m)
   else Done m)%gpu.

(** [Destroy]: the answer is the ids given to [glDeleteTextures]. *)
Fixpoint Destroy_loop (have_context : bool) (order : list (Z * Z)) (ts : gmap Z TextureInfo)
    : list Z * gmap Z TextureInfo :=
  match order with
  | [] => ([], ts)
  | (_, a) :: order =>
      match ts !! a with
      | Some t =>
          if have_context && negb (deleted_ t) && owned_ t then
            let '(ids, ts) := Destroy_loop have_context order (<[a := MarkTextureAsDeleted t]> ts) in
            (t_service_id_ t :: ids, ts)
          else Destroy_loop have_context order ts
      | None => Destroy_loop have_context order ts
      end
  end.

Definition service_id_at (a : option Z) (ts : gmap Z TextureInfo) : outcome Z :=
  (do a <- of_option a ;; do t <- of_option (ts !! a) ;; Done (t_service_id_ t))%gpu.

Definition Destroy (have_context : bool) (order : list (Z * Z)) (m : TextureManager)
    : outcome (list Z * TextureManager) :=
  let '(ids, ts) := Destroy_loop have_context order (textures m) in
  let m := mkTextureManager ts ∅ (next_texture m) (limits m) (num_unrenderable_textures_ m)
             (builtins m) in
  (if have_context then
     do id2d <- service_id_at (default_texture_2d_ (builtins m)) ts ;;
     do idcube <- service_id_at (default_texture_cube_map_ (builtins m)) ts ;;
     Done ((ids ++ [black_2d_texture_id_ (builtins m); black_cube_texture_id_ (builtins m);
                    id2d; idcube])%list, m)
   else Done (ids, m))%gpu.

End operations.

(** ** The textures that are counted *)

Section counting.
Variable feature_info : FeatureInfo.

Definition counts (t : TextureInfo) : bool := negb (deleted_ t) && negb (CanRender feature_info t).

(** A recount of the textures that are not deleted and cannot be rendered. *)
Definition unrenderable (ts : gmap Z TextureInfo) : Z :=
  Z.of_nat (size (filter (fun '(_, t) => counts t = true) ts)).

Lemma unrenderable_insert_new ts a t :
  ts !! a = None -> unrenderable (<[a := t]> ts) = unrenderable ts + Z.b2z (counts t).
Proof.
  intros Ha. unfold unrenderable. destruct (counts t) eqn:E; simpl.
  - rewrite map_filter_insert_True by done. rewrite map_size_insert_None; [lia|].
    apply map_lookup_filter_None. by left.
  - rewrite map_filter_insert_False by (rewrite E; done). rewrite delete_id by done. lia.
Qed.

Lemma unrenderable_insert ts a t t' :
  ts !! a = Some t ->
  unrenderable (<[a := t']> ts) = unrenderable ts - Z.b2z (counts t) + Z.b2z (counts t').
Proof.
  intros Ha. rewrite <- (insert_delete_id ts a t Ha) at 2. rewrite <- insert_delete_eq.
  rewrite !unrenderable_insert_new by apply lookup_delete_eq. lia.
Qed.

Lemma unrenderable_zero ts a t :
  unrenderable ts = 0 -> ts !! a = Some t -> deleted_ t = false -> CanRender feature_info t = true.
Proof.
  unfold unrenderable. intros Hz Ha Hd. destruct (CanRender feature_info t) eqn:E; [done|].
  assert (filter (fun '(_, t) => counts t = true) ts !! a = Some t) as Hf.
  { apply map_lookup_filter_Some. split; [done|]. unfold counts. by rewrite Hd, E. }
  assert (filter (fun '(_, t) => counts t = true) ts = ∅) as He by (apply map_size_empty_inv; lia).
  rewrite He in Hf. by rewrite lookup_empty in Hf.
Qed.

(** The length of the levels that a texture has, once it has a target. *)
Definition texture_good (lim : Limits) (t : TextureInfo) : Prop :=
  exists n, texture_ok feature_info n t /\
    (level_infos_ t = [] \/ n = MaxLevelsForTarget (t_target_ t) lim).

Definition limits_ok (lim : Limits) : Prop :=
  1 <= max_texture_size_ lim < 2 ^ 31 /\ 1 <= max_cube_map_texture_size_ lim < 2 ^ 31 /\
  (let s := max_texture_size_ lim in max_levels_ lim = ComputeMipMapCount s s s) /\
  (let s := max_cube_map_texture_size_ lim in max_cube_map_levels_ lim = ComputeMipMapCount s s s).

(** The textures one too few are counted for: the default external one. *)
Definition uncounted : Z :=
  if oes_egl_image_external (feature_flags_ feature_info) then 1 else 0.

(** [default] is one of the default textures. *)
Definition is_default (m : TextureManager) (a : Z) : Prop :=
  exists target, GetDefaultTextureInfo target m = Some a.

Record textures_ok (missing : Z) (m : TextureManager) : Prop := {
  ok_limits : limits_ok (limits m);
  ok_texture a t : textures m !! a = Some t -> a < next_texture m /\ texture_good (limits m) t;
  ok_info id a : texture_infos_ m !! id = Some a ->
    exists t, textures m !! a = Some t /\ deleted_ t = false /\ ~ is_default m a;
  ok_info_inj id id' a : texture_infos_ m !! id = Some a -> texture_infos_ m !! id' = Some a -> id = id';
  ok_default a : is_default m a -> exists t, textures m !! a = Some t /\ deleted_ t = false;
  ok_count : num_unrenderable_textures_ m = i32 (unrenderable (textures m) - missing);
}.

Lemma i32_add x y : i32 (i32 x + y) = i32 (x + y).
Proof.
  unfold i32. replace ((x + 2 ^ 31) mod 2 ^ 32 - 2 ^ 31 + y + 2 ^ 31) with ((x + 2 ^ 31) mod 2 ^ 32 + y) by lia.
  rewrite Zplus_mod_idemp_l. do 2 f_equal. lia.
Qed.

Lemma i32_sub x y : i32 (i32 x - y) = i32 (x - y).
Proof. apply (i32_add x (- y)). Qed.

(** A change of one texture. *)
Lemma textures_ok_set missing0 missing m a t t' n :
  textures_ok missing0 m -> textures m !! a = Some t -> texture_good (limits m) t' ->
  deleted_ t' = deleted_ t ->
  n = i32 (unrenderable (textures m) - missing - Z.b2z (counts t) + Z.b2z (counts t')) ->
  textures_ok missing (with_count n (with_texture a t' m)).
Proof.
  intros [Hl Ht Hi Hinj Hd Hc] Ha Hg Hdel Hn. split; simpl; [done| | |done| |].
  - intros b u. rewrite lookup_insert_Some. intros [[<- <-]|[_ Hb]]; [|by apply Ht].
    split; [by eapply Ht|done].
  - intros id b Hb. destruct (Hi id b Hb) as (u & Hu & Hud & Hnd).
    destruct (decide (b = a)) as [->|Hne].
    + exists t'. rewrite lookup_insert_eq. simplify_eq. split_and!; [done|by rewrite Hdel|done].
    + exists u. by rewrite lookup_insert_ne.
  - intros b Hb. destruct (Hd b Hb) as (u & Hu & Hud). destruct (decide (b = a)) as [->|Hne].
    + exists t'. rewrite lookup_insert_eq. simplify_eq. by rewrite Hdel.
    + exists u. by rewrite lookup_insert_ne.
  - rewrite (unrenderable_insert _ _ _ _ Ha), Hn. f_equal. lia.
Qed.

Lemma counted_ok {R} missing m a t (change : TextureInfo -> outcome (R * TextureInfo)) r t' :
  textures_ok missing m -> textures m !! a = Some t -> change t = Done (r, t') ->
  texture_good (limits m) t' -> deleted_ t' = deleted_ t ->
  exists n, counted feature_info a change m = Done (r, with_count n (with_texture a t' m)) /\
    textures_ok missing (with_count n (with_texture a t' m)).
Proof.
  intros Hok Ha E Hg Hdel. unfold counted, texture. rewrite Ha. cbn [of_option obind].
  rewrite E. cbn [obind]. eexists. split; [done|]. eapply textures_ok_set; [done..|].
  rewrite (ok_count _ _ Hok). unfold counts. rewrite Hdel.
  destruct (deleted_ t) eqn:Ed; simpl.
  - assert (forall u, deleted_ u = true -> CanRender feature_info u = false) as Hcr.
    { intros u Hu. unfold CanRender. by rewrite Hu, orb_true_r. }
    rewrite !Hcr by congruence. rewrite i32_sub, i32_add. f_equal. lia.
  - destruct (CanRender feature_info t), (CanRender feature_info t'); simpl;
      rewrite ?i32_sub, ?i32_add; f_equal; lia.
Qed.

(** ** The operations keep the invariant *)

Lemma MaxLevelsForTarget_pos target lim : limits_ok lim -> 1 <= MaxLevelsForTarget target lim.
Proof.
  intros (Ha & Hb & Hc & Hd). cbv zeta in Hc, Hd. unfold MaxLevelsForTarget.
  rewrite ComputeMipMapCount_log2 in Hc, Hd by lia.
  pose proof (Z.log2_nonneg (Z.max (Z.max (max_texture_size_ lim) (max_texture_size_ lim))
    (max_texture_size_ lim))).
  pose proof (Z.log2_nonneg (Z.max (Z.max (max_cube_map_texture_size_ lim)
    (max_cube_map_texture_size_ lim)) (max_cube_map_texture_size_ lim))).
  repeat case_match; lia.
Qed.

Lemma texture_good_SetTarget lim target t :
  limits_ok lim -> texture_good lim t -> max_level_set_ t = -1 ->
  texture_good lim (SetTarget target (MaxLevelsForTarget target lim) t).
Proof.
  intros Hl (n & Hok & _) Hm. exists (MaxLevelsForTarget target lim). split; [|by right].
  eapply SetTarget_ok; [done..|by apply MaxLevelsForTarget_pos].
Qed.

Lemma SetInfoTarget_ok missing m a t target :
  textures_ok missing m -> textures m !! a = Some t -> max_level_set_ t = -1 ->
  exists n, let m' := with_count n (with_texture a
      (SetTarget target (MaxLevelsForTarget target (limits m)) t) m) in
    SetInfoTarget feature_info a target m = Done m' /\ textures_ok missing m'.
Proof.
  intros Hok Ha Hm. unfold SetInfoTarget.
  destruct (counted_ok missing m a t (fun t => Done (tt, SetTarget target
    (MaxLevelsForTarget target (limits m)) t)) tt (SetTarget target
    (MaxLevelsForTarget target (limits m)) t) Hok Ha) as (n & E & Hok'); [done| |done|].
  - apply texture_good_SetTarget; [apply Hok|by eapply ok_texture|done].
  - exists n. by rewrite E.
Qed.

(** The level is one of a texture that was bound to the target. *)
Definition level_target (target : Z) (t : TextureInfo) : Prop :=
  level_infos_ t <> [] /\
  ((target = GL_TEXTURE_2D /\ t_target_ t = GL_TEXTURE_2D) \/
   (target ∈ cube_faces /\ t_target_ t = GL_TEXTURE_CUBE_MAP)).

Lemma cube_face_cases target :
  target ∈ cube_faces -> 0 <= GLTargetToFaceIndex target < 6 /\ target <> GL_TEXTURE_2D /\
    target <> GL_TEXTURE_EXTERNAL_OES.
Proof.
  unfold cube_faces. rewrite !elem_of_cons, elem_of_nil.
  intros [->|[->|[->|[->|[->|[->|[]]]]]]]; done.
Qed.

Lemma level_target_limits target t lim :
  level_target target t ->
  MaxLevelsForTarget (t_target_ t) lim = MaxLevelsForTarget target lim /\
  0 <= GLTargetToFaceIndex target < (if t_target_ t =? GL_TEXTURE_CUBE_MAP then 6 else 1) /\
  (limits_ok lim -> let s := MaxSizeForTarget target lim in 1 <= s < 2 ^ 31 /\
     MaxLevelsForTarget target lim = ComputeMipMapCount s s s).
Proof.
  intros (_ & [[-> ->]|[(Hf & H2 & He)%cube_face_cases ->]]).
  - split; [done|]. split; [done|]. intros (? & _ & ? & _). done.
  - unfold MaxLevelsForTarget, MaxSizeForTarget, is_case. simpl.
    rewrite (proj2 (Z.eqb_neq target GL_TEXTURE_2D) H2), (proj2 (Z.eqb_neq target _) He). simpl.
    split; [done|]. split; [done|]. intros (_ & ? & _ & ?). done.
Qed.

Lemma ValidForTarget_fits m a t target level info missing :
  textures_ok missing m -> textures m !! a = Some t -> level_target target t ->
  l_valid info = true ->
  ValidForTarget feature_info target level (l_width info) (l_height info) (l_depth info) m = true ->
  level_fits target level info t.
Proof.
  intros Hok Ha Htgt Hv HV. destruct (ok_texture _ _ Hok a t Ha) as (_ & n & [Hlev Hfaces _] & Hn).
  destruct (level_target_limits target t (limits m) Htgt) as (Hmax & Hidx & Hsize).
  destruct (Hsize (ok_limits _ _ Hok)) as (Hs & Hcount). clear Hsize.
  destruct Htgt as [Hne _]. destruct Hn as [|Hn]; [done|]. destruct Hfaces as [|Hfaces]; [done|].
  unfold ValidForTarget in HV. set (s := MaxSizeForTarget target (limits m)) in *. zbool.
  destruct (zget_in (level_infos_ t) (GLTargetToFaceIndex target)) as [face Hface]; [lia|].
  assert (zlen face = n) as Hlen by (apply (ok_len _ _ _ Hlev); apply elem_of_zget; eauto).
  exists face. split; [done|]. split; [lia|]. split; [done|].
  assert (dims_ok info) as Hd by (unfold dims_ok; lia). split; [done|].
  intros _. rewrite Hlen, Hn, Hmax, Hcount. apply ComputeMipMapCount_mono; lia.
Qed.

Lemma SetLevelInfo_manager_ok missing m a t target level info :
  textures_ok missing m -> textures m !! a = Some t -> level_target target t ->
  l_valid info = true ->
  ValidForTarget feature_info target level (l_width info) (l_height info) (l_depth info) m = true ->
  exists n t', let m' := with_count n (with_texture a t' m) in
    SetLevelInfo feature_info a target level info m = Done m' /\ textures_ok missing m' /\
    relevelled t t' /\ zlen (level_infos_ t') = zlen (level_infos_ t).
Proof.
  intros Hok Ha Htgt Hv HV.
  pose proof (ValidForTarget_fits m a t target level info missing Hok Ha Htgt Hv HV) as Hfits.
  destruct (ok_texture _ _ Hok a t Ha) as (_ & n & Ht & Hn).
  destruct (SetLevelInfo_ok feature_info n t target level info Ht Hfits)
    as (x & y & z & levels & E & Ht' & Hset). set (t' := with_status _ _ _ _) in *.
  destruct (counted_ok missing m a t (fun t =>
    do t <- TextureInfo.SetLevelInfo feature_info target level info t ;; Done (tt, t))%gpu
    tt t' Hok Ha) as (c & E' & Hok').
  - by rewrite E.
  - exists n. split; [done|]. right. destruct Hn as [Hn|Hn]; [by destruct Htgt|done].
  - done.
  - exists c, t'. unfold SetLevelInfo. rewrite E'. split; [done|]. split; [done|].
    split; [by repeat eexists|apply Hset].
Qed.

Lemma SetParameter_manager_ok missing m a t pname param :
  textures_ok missing m -> textures m !! a = Some t ->
  exists r n t', let m' := with_count n (with_texture a t' m) in
    SetParameter feature_info a pname param m = Done (r, m') /\ textures_ok missing m' /\
    exists p x y z, t' = with_status x y z (with_params p t).
Proof.
  intros Hok Ha. destruct (ok_texture _ _ Hok a t Ha) as (_ & n & Ht & Hn).
  destruct (SetParameter_ok feature_info n pname param t Ht) as (r & t' & E & Ht' & Hp).
  destruct (counted_ok missing m a t (TextureInfo.SetParameter feature_info pname param) r t' Hok Ha E)
    as (c & E' & Hok').
  - exists n. split; [done|]. by destruct Hp as (? & ? & ? & ? & ->).
  - by destruct Hp as (? & ? & ? & ? & ->).
  - exists r, c, t'. done.
Qed.

Lemma MarkMipmapsGenerated_manager_ok missing m a t :
  textures_ok missing m -> textures m !! a = Some t ->
  exists r n t', let m' := with_count n (with_texture a t' m) in
    MarkMipmapsGenerated feature_info a m = Done (r, m') /\ textures_ok missing m' /\
    relevelled t t' /\ same_firsts t t'.
Proof.
  intros Hok Ha. destruct (ok_texture _ _ Hok a t Ha) as (_ & n & Ht & Hn).
  destruct (MarkMipmapsGenerated_ok feature_info n t Ht) as (r & t' & E & Ht' & Hrel & Hfirsts & Hf & Htr).
  assert (level_infos_ t = [] -> t' = t) as Hnil.
  { intros Hl. apply Hf. destruct r; [|done]. destruct (Htr eq_refl) as (first & Hfirst & _).
    unfold level_at in Hfirst. by rewrite Hl in Hfirst. }
  destruct (counted_ok missing m a t (TextureInfo.MarkMipmapsGenerated feature_info) r t' Hok Ha E)
    as (c & E' & Hok').
  - exists n. split; [done|]. destruct Hn as [Hn|Hn].
    + left. by rewrite (Hnil Hn).
    + right. by destruct Hrel as (? & ? & ? & ? & ? & ->).
  - by destruct Hrel as (? & ? & ? & ? & ? & ->).
  - exists r, c, t'. done.
Qed.

Lemma texture_good_new lim id : texture_good lim (TextureInfo_new id).
Proof. exists 1. split; [apply TextureInfo_new_ok|by left]. Qed.

Lemma textures_ok_fresh missing m a : textures_ok missing m -> next_texture m <= a -> textures m !! a = None.
Proof.
  intros Hok Ha. destruct (textures m !! a) as [t|] eqn:E; [|done].
  destruct (ok_texture _ _ Hok a t E). lia.
Qed.

Lemma CreateTextureInfo_ok missing m client_id service_id :
  textures_ok missing m -> textures_ok missing (CreateTextureInfo feature_info client_id service_id m).
Proof.
  intros Hok. pose proof (textures_ok_fresh missing m _ Hok (Z.le_refl _)) as Hnew.
  pose proof Hok as [Hl Ht Hi Hinj Hd Hc].
  assert (forall a t, textures m !! a = Some t -> a <> next_texture m) as Hne
    by (intros a t Ha ->; by rewrite Hnew in Ha).
  assert (forall id a, texture_infos_ m !! id = Some a -> a <> next_texture m) as Hni
    by (intros id a Ha; destruct (Hi id a Ha) as (t & Ht' & _); by eapply Hne).
  assert (forall a, is_default m a -> a <> next_texture m) as Hnd
    by (intros a Ha; destruct (Hd a Ha) as (t & Ht' & _); by eapply Hne).
  unfold CreateTextureInfo. split; simpl; [done| | | | |].
  - intros a t. rewrite lookup_insert_Some. intros [[<- <-]|[_ Ha]].
    + split; [lia|apply texture_good_new].
    + destruct (Ht a t Ha). split; [lia|done].
  - intros id a Ha. assert (texture_infos_ m !! id = Some a \/ a = next_texture m) as [Ha'| ->].
    { case_match; [by left|]. rewrite lookup_insert_Some in Ha. naive_solver. }
    + destruct (Hi id a Ha') as (t & Ht' & ? & ?). exists t.
      rewrite lookup_insert_ne by (apply not_eq_sym; eauto). done.
    + exists (TextureInfo_new service_id). rewrite lookup_insert_eq. split_and!; [done..|].
      intros Hdef. by apply (Hnd _ Hdef).
  - intros id id' a. case_match; [by apply Hinj|].
    rewrite !lookup_insert_Some. naive_solver.
  - intros a Ha. destruct (Hd a Ha) as (t & Ht' & ?). exists t.
    rewrite lookup_insert_ne by (apply not_eq_sym; eauto). done.
  - rewrite unrenderable_insert_new by done. rewrite Hc. simpl. rewrite i32_add. f_equal. lia.
Qed.

(** Attaching a texture to a framebuffer does not change whether it can be rendered. *)
Lemma with_attachments_ok missing m a t n :
  textures_ok missing m -> textures m !! a = Some t ->
  textures_ok missing (with_texture a (with_attachments n t) m).
Proof.
  intros Hok Ha. destruct (ok_texture _ _ Hok a t Ha) as (_ & k & Ht & Hk).
  assert (with_texture a (with_attachments n t) m =
    with_count (num_unrenderable_textures_ m) (with_texture a (with_attachments n t) m)) as -> by done.
  eapply textures_ok_set; [done|done| |done|].
  - exists k. split; [|done]. by apply (texture_ok_frame _ k t).
  - rewrite (ok_count _ _ Hok). f_equal. change (counts (with_attachments n t)) with (counts t). lia.
Qed.

Lemma RemoveTextureInfo_ok missing m client_id :
  textures_ok missing m ->
  exists m', RemoveTextureInfo feature_info client_id m = Done m' /\ textures_ok missing m' /\
    match texture_infos_ m !! client_id with
    | Some a => exists t, textures m !! a = Some t /\
        textures m' = <[a := MarkTextureAsDeleted t]> (textures m)
    | None => m' = m
    end.
Proof.
  intros Hok. pose proof Hok as [Hl Ht Hi Hinj Hd Hc]. unfold RemoveTextureInfo.
  destruct (texture_infos_ m !! client_id) as [a|] eqn:Eid; [|by exists m].
  destruct (Hi _ _ Eid) as (t & Ha & Hdel & Hnd). unfold texture. rewrite Ha. cbn [of_option obind].
  eexists. split; [done|]. split; [|by exists t]. split; simpl; [done| | | | |].
  - intros b u. rewrite lookup_insert_Some. intros [[<- <-]|[_ Hb]]; [|by apply Ht].
    destruct (Ht a t Ha) as (Hlt & n & Hn & Hx). split; [done|]. exists n. split; [|done].
    by apply (texture_ok_frame _ n t).
  - intros id b. rewrite lookup_delete_Some. intros [Hne Hb].
    destruct (Hi id b Hb) as (u & Hu & ? & ?). exists u. rewrite lookup_insert_ne; [done|].
    intros <-. apply Hne. by eapply Hinj.
  - intros id id' b. rewrite !lookup_delete_Some. intros [_ ?] [_ ?]. by eapply Hinj.
  - intros b Hb. destruct (Hd b Hb) as (u & Hu & ?). exists u. rewrite lookup_insert_ne; [done|].
    by intros <-.
  - rewrite (unrenderable_insert _ _ _ _ Ha), Hc. unfold counts. rewrite Hdel. simpl.
    destruct (CanRender feature_info t); simpl; rewrite ?i32_sub; f_equal; lia.
Qed.

(** ** The default textures *)

(** Each face begins with the black pixel. *)
Definition black_faces (t : TextureInfo) : Prop :=
  level_infos_ t <> [] /\ forall face, face ∈ level_infos_ t -> zget face 0 = Some black_level.

Lemma set_black_faces_ok fs n t :
  texture_ok FeatureInfo_new n t ->
  Forall (fun f => 0 <= GLTargetToFaceIndex f < zlen (level_infos_ t)) fs ->
  exists t', set_black_faces fs t = Done t' /\ texture_ok FeatureInfo_new n t' /\ relevelled t t' /\
    zlen (level_infos_ t') = zlen (level_infos_ t) /\
    forall i face', zget (level_infos_ t') i = Some face' ->
      (i ∈ map GLTargetToFaceIndex fs -> zget face' 0 = Some black_level) /\
      (i ∉ map GLTargetToFaceIndex fs -> zget (level_infos_ t) i = Some face').
Proof.
  revert t. induction fs as [|f fs IH]; intros t Hok Hf.
  { exists t. split; [done|]. split; [done|]. split; [apply relevelled_refl|]. split; [done|].
    intros i face' Hi. split; [|done]. simpl. set_solver. }
  apply Forall_cons in Hf as [Hf Hfs]. cbn [set_black_faces].
  destruct (zget_in (level_infos_ t) (GLTargetToFaceIndex f)) as [face Hface]; [lia|].
  assert (zlen face = n) as Hlen.
  { apply (ok_len _ _ _ (ok_levels _ _ _ Hok)). apply elem_of_zget. eauto. }
  pose proof (ok_n _ _ _ (ok_levels _ _ _ Hok)) as Hn.
  destruct (SetLevelInfo_ok FeatureInfo_new n t f 0 black_level Hok)
    as (x & y & z & levels & -> & Hok1 & Hset).
  { exists face. split; [done|]. split; [lia|]. split; [done|].
    split; [unfold dims_ok; simpl; lia|]. intros _. change (mip_count black_level) with 1. lia. }
  cbn [obind]. destruct Hset as (Hl1 & Ho1 & fo & fn & E1 & E2 & _ & Hk).
  match type of Hok1 with texture_ok _ _ ?t1 => destruct (IH t1 Hok1) as (t' & -> & Hok' & Hrel & Hl' & Hi) end.
  { simpl. by rewrite Hl1. }
  exists t'. split; [done|]. split; [done|].
  split; [eapply relevelled_trans; [|done]; by repeat eexists|].
  simpl in Hl', Hi. split; [congruence|]. intros i face' Hface'. destruct (Hi i face' Hface') as [Hin Hout].
  simpl. rewrite not_elem_of_cons, elem_of_cons. split.
  - intros [->|Hi']; [|by apply Hin].
    destruct (decide (GLTargetToFaceIndex f ∈ map GLTargetToFaceIndex fs)) as [Hd|Hd]; [by apply Hin|].
    specialize (Hout Hd). rewrite E2 in Hout. injection Hout as <-. by rewrite Hk.
  - intros [Hne Hni]. specialize (Hout Hni). by rewrite Ho1 in Hout.
Qed.

Lemma black_faces_first t : black_faces t -> level_at t 0 0 = Done black_level.
Proof.
  intros [Hne Hall]. unfold level_at. destruct (level_infos_ t) as [|face faces]; [done|].
  simpl. rewrite (Hall face) by set_solver. done.
Qed.

(** A texture of black pixels is good and can be rendered, whatever the features. *)
Lemma black_faces_render n t :
  texture_ok FeatureInfo_new n t -> black_faces t -> deleted_ t = false -> t_target_ t <> 0 ->
  (NeedsMips t = true -> t_target_ t = GL_TEXTURE_2D \/ t_target_ t = GL_TEXTURE_CUBE_MAP) ->
  texture_ok feature_info n t /\ CanRender feature_info t = true.
Proof.
  intros [Hlev Hfaces Hs] Hb Hdel Ht Hmips. pose proof (black_faces_first t Hb) as Hfirst.
  assert (texture_ok feature_info n t) as Hok.
  { split; [done..|]. etransitivity; [|exact Hs].
    by apply (Update_any_features _ _ t black_level Hfirst). }
  split; [done|]. destruct (status_complete _ n t Hok) as (Hc & Hcube & Hnp).
  destruct Hb as [Hne Hall].
  assert (npot_ t = false) as Hnpot.
  { destruct (npot_ t); [|done]. destruct (proj1 (Exists_exists _ _) (proj1 Hnp eq_refl))
      as (face & Hin & l & Hl & Hx). rewrite (Hall face Hin) in Hl. by injection Hl as <-. }
  assert (texture_complete_ t = true) as Htc.
  { apply Hc. exists black_level. split_and!; [done..|].
    apply Forall_forall. intros face Hin. exists black_level. split; [by apply Hall|].
    change (mip_count black_level) with 1. lia. }
  unfold CanRender. bfalse (t_target_ t =? 0). rewrite Hdel, Hnpot, Htc. simpl.
  destruct (NeedsMips t); [|done]. destruct (Hmips eq_refl) as [->|Hcm]; [done|].
  rewrite Hcm. simpl. apply Hcube. exists black_level. destruct Hfaces as [|Hlen]; [done|].
  rewrite Hcm in Hlen. simpl in Hlen. unfold zlen in Hlen. split_and!; [done|lia|done|].
  apply Forall_forall. intros face Hin. exists black_level. split_and!; [by apply Hall|done..].
Qed.

(** What [new_default] leaves: the address of a texture that is not deleted and has no id;
    [missing] grows for the external target, whose texture can be rendered at once. *)
(** A texture made by [Initialize]: it has a target and levels, and is not attached. *)
Definition default_texture (t : TextureInfo) : Prop :=
  t_target_ t ∈ [GL_TEXTURE_2D; GL_TEXTURE_CUBE_MAP; GL_TEXTURE_EXTERNAL_OES] /\
  level_infos_ t <> [] /\ framebuffer_attachment_count_ t = 0.

Lemma new_default_ok missing m service_id target fs :
  textures_ok missing m ->
  (target = GL_TEXTURE_2D /\ fs = [GL_TEXTURE_2D]) \/
  (target = GL_TEXTURE_CUBE_MAP /\ fs = cube_faces) \/
  (target = GL_TEXTURE_EXTERNAL_OES /\ fs = [GL_TEXTURE_EXTERNAL_OES]) ->
  exists a m' t, new_default feature_info service_id target fs m = Done (a, m') /\
    textures_ok (missing + (if target =? GL_TEXTURE_EXTERNAL_OES then 1 else 0)) m' /\
    builtins m' = builtins m /\ texture_infos_ m' = texture_infos_ m /\
    textures m !! a = None /\ textures m' !! a = Some t /\ deleted_ t = false /\
    t_target_ t = target /\ limits m' = limits m /\
    (forall b, is_Some (textures m !! b) -> textures m' !! b = textures m !! b) /\
    (forall b u, textures m' !! b = Some u -> textures m !! b = Some u \/ default_texture u).
Proof.
  intros Hok Hcase. pose proof (textures_ok_fresh missing m _ Hok (Z.le_refl _)) as Hnew.
  set (a := next_texture m) in *. set (t0 := TextureInfo_new service_id).
  set (m1 := mkTextureManager (<[a := t0]> (textures m)) (texture_infos_ m) (a + 1) (limits m)
    (num_unrenderable_textures_ m) (builtins m)).
  assert (textures_ok (missing + 1) m1) as Hok1.
  { pose proof Hok as [Hl Ht Hi Hinj Hd Hc]. split; simpl; [done| | |done| |].
    - intros b u. rewrite lookup_insert_Some. intros [[<- <-]|[_ Hb]].
      + split; [lia|apply texture_good_new].
      + destruct (Ht b u Hb). split; [lia|done].
    - intros id b Hb. destruct (Hi id b Hb) as (u & Hu & ?). exists u.
      rewrite lookup_insert_ne by (intros <-; by rewrite Hnew in Hu). done.
    - intros b Hb. destruct (Hd b Hb) as (u & Hu & ?). exists u.
      rewrite lookup_insert_ne by (intros <-; by rewrite Hnew in Hu). done.
    - rewrite unrenderable_insert_new, Hc by done. simpl. f_equal. lia. }
  set (max := MaxLevelsForTarget target (limits m)). set (t2 := SetTarget target max t0).
  destruct (SetInfoTarget_ok (missing + 1) m1 a t0 target Hok1) as (n2 & E2 & Hok2);
    [simpl; apply lookup_insert_eq|done|]. cbv zeta in E2, Hok2.
  change (MaxLevelsForTarget target (limits m1)) with max in E2, Hok2. fold t2 in E2, Hok2.
  assert (1 <= max) as Hmax by (apply MaxLevelsForTarget_pos, Hok).
  assert (texture_ok FeatureInfo_new max t2) as Ht2 by (eapply SetTarget_ok; [apply TextureInfo_new_ok|done..]).
  destruct (set_black_faces_ok fs max t2 Ht2) as (t3 & E3 & Ht3 & Hrel & Hlen & Hi).
  { destruct Hcase as [[-> ->]|[[-> ->]|[-> ->]]]; repeat constructor; done. }
  assert (zlen (level_infos_ t2) = if target =? GL_TEXTURE_CUBE_MAP then 6 else 1) as Hlen2
    by (unfold t2; destruct Hcase as [[-> _]|[[-> _]|[-> _]]]; done).
  assert (black_faces t3) as Hb0.
  { split; [intros Hnil; rewrite Hnil in Hlen; unfold zlen in *; simpl in *; by destruct (target =? _)|].
    intros face [i Hface]%elem_of_zget. apply (Hi i face Hface).
    pose proof (zget_range _ _ _ Hface) as Hr. rewrite Hlen, Hlen2 in Hr.
    destruct Hcase as [[-> ->]|[[-> ->]|[-> ->]]]; simpl in Hr |- *;
      rewrite ?elem_of_cons, elem_of_nil; vm_compute GLTargetToFaceIndex; lia. }
  assert (deleted_ t3 = false /\ t_target_ t3 = target /\ NeedsMips t3 = NeedsMips t2 /\
    framebuffer_attachment_count_ t3 = 0) as (Hdel & Htgt & Hmips & Hcount)
    by (by destruct Hrel as (? & ? & ? & ? & ? & ->)).
  destruct (black_faces_render max t3 Ht3 Hb0 Hdel) as [Hok3 Hcr].
  { rewrite Htgt. by destruct Hcase as [[-> _]|[[-> _]|[-> _]]]. }
  { rewrite Htgt, Hmips. destruct Hcase as [[-> _]|[[-> _]|[-> _]]]; intros H; [by left|by right|done]. }
  exists a, (with_texture a t3 (with_count n2 (with_texture a t2 m1))), t3.
  split.
  { unfold new_default. fold a. fold t0. fold m1. rewrite E2. cbn [obind]. unfold texture. simpl.
    rewrite lookup_insert_eq. cbn [of_option obind]. rewrite E3. done. }
  split_and!; try done; simpl.
  - set (m2 := with_count n2 (with_texture a t2 m1)) in *.
    assert (textures m2 !! a = Some t2) as Ha2 by (simpl; apply lookup_insert_eq).
    assert (with_texture a t3 m2 = with_count (num_unrenderable_textures_ m2) (with_texture a t3 m2))
      as -> by done.
    apply (textures_ok_set (missing + 1) _ m2 a t2 t3); [done|done| |by rewrite Hdel|].
    + exists max. split; [done|]. right. by rewrite Htgt.
    + rewrite (ok_count _ _ Hok2). f_equal. unfold counts. rewrite Hdel, Hcr. simpl.
      destruct Hcase as [[-> _]|[[-> _]|[-> _]]]; simpl; lia.
  - apply lookup_insert_eq.
  - intros b [u Hu]. rewrite !lookup_insert_ne; [done|intros <-; by rewrite Hnew in Hu..].
  - intros b u. rewrite !lookup_insert_Some.
    intros [[_ <-]|[Hb [[<- _]|[_ [[<- _]|[_ Hu]]]]]]; [right|done..|by left].
    split_and!; [|apply Hb0|done]. rewrite Htgt, !elem_of_cons. destruct Hcase as [[-> _]|[[-> _]|[-> _]]]; auto.
Qed.

Lemma textures_ok_new max_texture_size max_cube_map_texture_size :
  1 <= max_texture_size < 2 ^ 31 -> 1 <= max_cube_map_texture_size < 2 ^ 31 ->
  textures_ok 0 (TextureManager_new max_texture_size max_cube_map_texture_size).
Proof.
  intros. assert (forall a, ~ is_default (TextureManager_new max_texture_size
    max_cube_map_texture_size) a) as Hnd.
  { intros a [target Ha]. unfold GetDefaultTextureInfo in Ha. simpl in Ha. by repeat case_match. }
  split; [done| | | | |done].
  - intros a t. simpl. by rewrite lookup_empty.
  - intros id a. simpl. by rewrite lookup_empty.
  - intros id id' a. simpl. by rewrite lookup_empty.
  - intros a Ha. by destruct (Hnd a).
Qed.

(** Setting the default textures, while there is no other. *)
Lemma with_builtins_ok missing b m :
  textures_ok missing m -> texture_infos_ m = ∅ ->
  Forall (fun d => forall a, d = Some a -> exists t, textures m !! a = Some t /\ deleted_ t = false)
    [default_texture_2d_ b; default_texture_cube_map_ b; default_texture_external_oes_ b] ->
  textures_ok missing (with_builtins b m).
Proof.
  intros [Hl Ht Hi Hinj Hd Hc] He Hb. rewrite !Forall_cons in Hb. destruct Hb as (H2 & Hcube & Hext & _).
  split; simpl; [done|done| |done| |done].
  - intros id a. by rewrite He, lookup_empty.
  - intros a [target Ha]. unfold GetDefaultTextureInfo in Ha. simpl in Ha.
    repeat case_match; auto; done.
Qed.

Lemma textures_Initialize_ok max_texture_size max_cube_map_texture_size ids external_ids :
  1 <= max_texture_size < 2 ^ 31 -> 1 <= max_cube_map_texture_size < 2 ^ 31 ->
  exists m, Initialize feature_info ids external_ids
      (TextureManager_new max_texture_size max_cube_map_texture_size) = Done m /\
    textures_ok uncounted m /\ texture_infos_ m = ∅ /\
    (forall target, target ∈ [GL_TEXTURE_2D; GL_TEXTURE_CUBE_MAP] \/
        (target = GL_TEXTURE_EXTERNAL_OES /\
         oes_egl_image_external (feature_flags_ feature_info) = true) ->
       exists a t, GetDefaultTextureInfo target m = Some a /\ textures m !! a = Some t /\
         t_target_ t = target) /\
    (forall a t, textures m !! a = Some t -> default_texture t).
Proof.
  intros Hs Hc. pose proof (textures_ok_new _ _ Hs Hc) as Hok0.
  set (m0 := TextureManager_new _ _) in *. destruct ids as [[[id0 id1] id2] id3].
  unfold Initialize.
  destruct (new_default_ok 0 m0 id1 GL_TEXTURE_2D [GL_TEXTURE_2D] Hok0)
    as (a1 & m1 & t1 & -> & Hok1 & Hb1 & Hi1 & _ & Ha1 & Hd1 & Ht1 & Hl1 & _ & Hall1); [by left|].
  cbn [obind]. assert (mapM IndexToGLFaceTarget [0; 1; 2; 3; 4; 5] = Some cube_faces) as -> by done.
  cbn [of_option obind].
  destruct (new_default_ok _ m1 id3 GL_TEXTURE_CUBE_MAP cube_faces Hok1)
    as (a2 & m2 & t2 & -> & Hok2 & Hb2 & Hi2 & Hn2 & Ha2 & Hd2 & Ht2 & Hl2 & Hkeep2 & Hall2); [by right; left|].
  cbn [obind]. rewrite <- (Hkeep2 a1) in Ha1 by eauto.
  assert (texture_infos_ m2 = ∅) as He2 by (rewrite Hi2, Hi1; done).
  assert (default_texture_external_oes_ (builtins m2) = None) as Hn by (rewrite Hb2, Hb1; done).
  set (b := mkBuiltins id0 id2 _ _ _ _).
  assert (textures_ok 0 (with_builtins b m2)) as Hok.
  { apply with_builtins_ok; [done|done|]. unfold b. simpl. rewrite Hn, !Forall_cons, Forall_nil.
    split_and!; [intros ? [= <-]; eauto|intros ? [= <-]; eauto|done|done]. }
  assert (forall a t, textures m2 !! a = Some t -> default_texture t) as Hdef.
  { intros a t [[Ha|?]%Hall1|?]%Hall2; [|done..]. simpl in Ha. by rewrite lookup_empty in Ha. }
  unfold uncounted. destruct (oes_egl_image_external _).
  - destruct (new_default_ok 0 (with_builtins b m2) (fst external_ids) GL_TEXTURE_EXTERNAL_OES
      [GL_TEXTURE_EXTERNAL_OES] Hok)
      as (a3 & m3 & t3 & -> & Hok3 & Hb3 & Hi3 & Hn3 & Ha3 & Hd3 & Ht3 & Hl3 & Hkeep3 & Hall3); [by right; right|].
    cbn [obind]. simpl in Hkeep3, Hi3, Hall3. rewrite <- (Hkeep3 a1) in Ha1 by eauto.
    rewrite <- (Hkeep3 a2) in Ha2 by eauto. eexists. split; [done|]. split; [|split; [|split]].
    + apply with_builtins_ok; [done|by rewrite Hi3|]. simpl. rewrite !Forall_cons, Forall_nil.
      split_and!; [intros ? [= <-]; eauto..|done].
    + simpl. by rewrite Hi3.
    + intros target. rewrite !elem_of_cons, elem_of_nil. intros [[->|[->|[]]]|[-> _]]; simpl; eauto.
    + intros a t [Ha|?]%Hall3; eauto.
  - eexists. split; [done|]. split; [done|]. split; [done|]. split; [|done].
    intros target. rewrite !elem_of_cons, elem_of_nil. intros [[->|[->|[]]]|[_ ?]]; [..|done]; simpl; eauto.
Qed.

End counting.

(** ** What a context group makes of its textures *)

(** The conditions are those the decoder checks: an id that is new, a texture that had no
    target or was never given an image, a level that [ValidForTarget] lets through on a
    texture bound to the target. *)
Inductive manager_reach (feature_info : FeatureInfo) : TextureManager -> Prop :=
| reach_Initialize_textures max_texture_size max_cube_map_texture_size ids external_ids m :
    1 <= max_texture_size < 2 ^ 31 -> 1 <= max_cube_map_texture_size < 2 ^ 31 ->
    Initialize feature_info ids external_ids
      (TextureManager_new max_texture_size max_cube_map_texture_size) = Done m ->
    manager_reach feature_info m
| reach_CreateTextureInfo client_id service_id m :
    manager_reach feature_info m -> GetTextureInfo client_id m = None ->
    manager_reach feature_info (CreateTextureInfo feature_info client_id service_id m)
| reach_SetInfoTarget a target t m m' :
    manager_reach feature_info m -> textures m !! a = Some t -> max_level_set_ t = -1 ->
    SetInfoTarget feature_info a target m = Done m' -> manager_reach feature_info m'
| reach_SetLevelInfo_manager a target level info t m m' :
    manager_reach feature_info m -> textures m !! a = Some t -> level_target target t ->
    l_valid info = true ->
    ValidForTarget feature_info target level (l_width info) (l_height info) (l_depth info) m = true ->
    SetLevelInfo feature_info a target level info m = Done m' -> manager_reach feature_info m'
| reach_SetParameter_manager a pname param r m m' :
    manager_reach feature_info m -> is_Some (textures m !! a) ->
    SetParameter feature_info a pname param m = Done (r, m') -> manager_reach feature_info m'
| reach_MarkMipmapsGenerated_manager a r m m' :
    manager_reach feature_info m -> is_Some (textures m !! a) ->
    MarkMipmapsGenerated feature_info a m = Done (r, m') -> manager_reach feature_info m'
| reach_RemoveTextureInfo client_id m m' :
    manager_reach feature_info m -> RemoveTextureInfo feature_info client_id m = Done m' ->
    manager_reach feature_info m'.

Lemma manager_reach_ok feature_info m :
  manager_reach feature_info m -> textures_ok feature_info (uncounted feature_info) m.
Proof.
  induction 1 as [s c ids eids m Hs Hc E|id sid m Hr IH Hid|a target t m m' Hr IH Ha Hm E
    |a target level info t m m' Hr IH Ha Ht Hv HV E|a pname param r m m' Hr IH [t Ha] E
    |a r m m' Hr IH [t Ha] E|id m m' Hr IH E].
  - destruct (textures_Initialize_ok feature_info s c ids eids Hs Hc) as (m1 & E1 & Hok & _). congruence.
  - by apply CreateTextureInfo_ok.
  - destruct (SetInfoTarget_ok feature_info _ m a t target IH Ha Hm) as (n & E1 & Hok). congruence.
  - destruct (SetLevelInfo_manager_ok feature_info _ m a t target level info IH Ha Ht Hv HV)
      as (n & t' & E1 & Hok & _). congruence.
  - destruct (SetParameter_manager_ok feature_info _ m a t pname param IH Ha) as (r' & n & t' & E1 & Hok & _).
    congruence.
  - destruct (MarkMipmapsGenerated_manager_ok feature_info _ m a t IH Ha) as (r' & n & t' & E1 & Hok & _).
    congruence.
  - destruct (RemoveTextureInfo_ok feature_info _ m id IH) as (m1 & E1 & Hok & _). congruence.
Qed.

(** ** Properties *)

(** C26: the count of unrenderable textures is kept right while the features of the group stay
    as they were when the manager was initialised ([npot_lost_uncounted] shows what a change
    of them does).  In every state of the manager each operation is defined (no level is ever
    read or written out of its range), and [num_unrenderable_textures_] is a recount of the
    textures that are not deleted and cannot be rendered, less one when there is a default
    external texture. *)
Theorem unrenderable_count feature_info m :
  manager_reach feature_info m ->
  num_unrenderable_textures_ m =
    i32 (unrenderable feature_info (textures m) - uncounted feature_info) /\
  (forall a t, textures m !! a = Some t ->
     (max_level_set_ t = -1 -> forall target, exists m',
        SetInfoTarget feature_info a target m = Done m') /\
     (forall target level info, level_target target t -> l_valid info = true ->
        ValidForTarget feature_info target level (l_width info) (l_height info) (l_depth info) m = true ->
        exists m', SetLevelInfo feature_info a target level info m = Done m') /\
     (forall pname param, exists r m', SetParameter feature_info a pname param m = Done (r, m')) /\
     exists r m', MarkMipmapsGenerated feature_info a m = Done (r, m')) /\
  forall id, exists m', RemoveTextureInfo feature_info id m = Done m'.
Proof.
  intros Hok%manager_reach_ok. split; [apply Hok|]. split; [intros a t Ha; split_and!|].
  - intros Hm target. edestruct SetInfoTarget_ok as (n & E & _); eauto.
  - intros target level info Ht Hv HV. edestruct SetLevelInfo_manager_ok as (n & t' & E & _); eauto.
  - intros pname param. edestruct SetParameter_manager_ok as (r & n & t' & E & _); eauto.
  - edestruct MarkMipmapsGenerated_manager_ok as (r & n & t' & E & _); eauto.
  - intros id. edestruct RemoveTextureInfo_ok as (m' & E & _); eauto.
Qed.

(** The fast path of draw calls is sound without external textures. *)
Lemma textures_ok_renderable feature_info m a t :
  textures_ok feature_info (uncounted feature_info) m -> oes_egl_image_external (feature_flags_ feature_info) = false ->
  Z.of_nat (size (textures m)) < 2 ^ 31 -> HaveUnrenderableTextures m = false ->
  textures m !! a = Some t -> deleted_ t = false -> CanRender feature_info t = true.
Proof.
  intros Hok Hext Hsize Hhave Ha Hd. unfold HaveUnrenderableTextures in Hhave.
  rewrite (ok_count _ _ _ Hok) in Hhave. unfold uncounted in Hhave. rewrite Hext in Hhave.
  eapply unrenderable_zero; [|done|done].
  assert (0 <= unrenderable feature_info (textures m) <= Z.of_nat (size (textures m))) as Hr.
  { unfold unrenderable. split; [lia|]. apply Nat2Z.inj_le. apply map_subseteq_size.
    apply map_filter_subseteq. }
  rewrite i32_id in Hhave by (unfold is_i32; lia). zbool. lia.
Qed.

(** When [HaveUnrenderableTextures] answers false, every texture that is not deleted can be
    rendered. *)
Theorem no_unrenderable_textures feature_info m a t :
  manager_reach feature_info m -> oes_egl_image_external (feature_flags_ feature_info) = false ->
  Z.of_nat (size (textures m)) < 2 ^ 31 -> HaveUnrenderableTextures m = false ->
  textures m !! a = Some t -> deleted_ t = false -> CanRender feature_info t = true.
Proof. intros Hok%manager_reach_ok. by apply textures_ok_renderable. Qed.

(** With external textures, one unrenderable texture is not noticed: the default external
    texture was taken out of the count without having been put in. *)
Theorem external_texture_hides_one feature_info m :
  manager_reach feature_info m -> oes_egl_image_external (feature_flags_ feature_info) = true ->
  unrenderable feature_info (textures m) = 1 -> HaveUnrenderableTextures m = false.
Proof.
  intros Hok%manager_reach_ok Hext Hone. unfold HaveUnrenderableTextures.
  rewrite (ok_count _ _ _ Hok), Hone. unfold uncounted. by rewrite Hext.
Qed.

(** ** Examples *)

Definition example_features (external npot : bool) : FeatureInfo :=
  with_flags (mkFeatureFlags false false external npot false false false false) FeatureInfo_new.

(** A new manager, with one new texture bound to [GL_TEXTURE_2D]. *)
Definition example_initial (fi : FeatureInfo) : TextureManager :=
  done_or (TextureManager_new 64 64) (Initialize fi (1, 2, 3, 4) (5, 6) (TextureManager_new 64 64)).

Definition example_created (fi : FeatureInfo) : TextureManager :=
  CreateTextureInfo fi 10 20 (example_initial fi).

Definition example_bound (fi : FeatureInfo) (a : Z) : TextureManager :=
  done_or (example_created fi) (SetInfoTarget fi a GL_TEXTURE_2D (example_created fi)).

Definition example_filtered (fi : FeatureInfo) (a : Z) : TextureManager :=
  snd (done_or (false, example_bound fi a)
    (SetParameter fi a GL_TEXTURE_MIN_FILTER GL_LINEAR (example_bound fi a))).

(** With a level 0 of 4 by 3 texels and wrap modes that mipmaps do not ask for. *)
Definition npot_level : LevelInfo := mkLevelInfo true GL_RGBA 4 3 1 0 GL_RGBA GL_UNSIGNED_BYTE.

Definition example_imaged (fi : FeatureInfo) (a : Z) (info : LevelInfo) : TextureManager :=
  done_or (example_filtered fi a) (SetLevelInfo fi a GL_TEXTURE_2D 0 info (example_filtered fi a)).

Lemma example_created_reach fi : manager_reach fi (example_created fi).
Proof.
  assert (1 <= 64 < 2 ^ 31) as Hs by lia. unfold example_created.
  assert (manager_reach fi (example_initial fi) /\ GetTextureInfo 10 (example_initial fi) = None)
    as [Hr Hn].
  { unfold example_initial.
    destruct (textures_Initialize_ok fi 64 64 (1, 2, 3, 4) (5, 6) Hs Hs) as (m & E & _ & Hi & _).
    rewrite E. simpl. split; [by eapply reach_Initialize_textures|]. unfold GetTextureInfo. by rewrite Hi. }
  by apply reach_CreateTextureInfo.
Qed.

(** A step from a state where its conditions are decided by evaluation. *)
Lemma bind_reach fi a m :
  manager_reach fi m ->
  match textures m !! a with Some t => max_level_set_ t = -1 | None => False end ->
  manager_reach fi (done_or m (SetInfoTarget fi a GL_TEXTURE_2D m)).
Proof.
  intros Hm Ha. case_match; [|done]. destruct (SetInfoTarget _ _ _ _) eqn:E; [|done..].
  by eapply reach_SetInfoTarget.
Qed.

Lemma filter_reach fi a m pname param :
  manager_reach fi m -> manager_reach fi (snd (done_or (false, m) (SetParameter fi a pname param m))).
Proof.
  intros Hm. destruct (SetParameter _ _ _ _ _) as [[r m']| |] eqn:E; [|done..].
  eapply reach_SetParameter_manager; [done| |done]. unfold SetParameter, counted, texture in E.
  by destruct (textures m !! a).
Qed.

Lemma image_reach fi a info m :
  manager_reach fi m ->
  match textures m !! a with
  | Some t => level_infos_ t <> [] /\ t_target_ t = GL_TEXTURE_2D
  | None => False
  end ->
  l_valid info = true ->
  ValidForTarget fi GL_TEXTURE_2D 0 (l_width info) (l_height info) (l_depth info) m = true ->
  manager_reach fi (done_or m (SetLevelInfo fi a GL_TEXTURE_2D 0 info m)).
Proof.
  intros Hm Ha Hv HV. case_match; [|done]. destruct (SetLevelInfo _ _ _ _ _ _) eqn:E; [|done..].
  eapply reach_SetLevelInfo_manager; [done|done| |done..]. destruct Ha. split; [done|by left].
Qed.

Lemma example_npot_reach :
  manager_reach (example_features false true) (example_imaged (example_features false true) 2 npot_level).
Proof.
  apply image_reach; [|vm_compute; split; congruence|reflexivity|vm_compute; reflexivity].
  apply filter_reach, bind_reach; [apply example_created_reach|vm_compute; reflexivity].
Qed.

Lemma unrenderable_count_witness :
  let fi := example_features false false in
  num_unrenderable_textures_ (example_created fi) = 1 /\
  1 = i32 (unrenderable fi (textures (example_created fi)) - uncounted fi).
Proof.
  intros fi. destruct (unrenderable_count fi _ (example_created_reach fi)) as [E _].
  assert (num_unrenderable_textures_ (example_created fi) = 1) as E1 by (vm_compute; reflexivity).
  split; [exact E1|]. rewrite <- E1 at 1. exact E.
Defined.

Lemma no_unrenderable_textures_witness :
  let fi := example_features false true in
  match textures (example_imaged fi 2 npot_level) !! 2 with
  | Some t => CanRender fi t = true
  | None => False
  end.
Proof.
  intros fi. destruct (textures (example_imaged fi 2 npot_level) !! 2) as [t|] eqn:E;
    [|vm_compute in E; discriminate].
  apply (no_unrenderable_textures fi (example_imaged fi 2 npot_level) 2 t);
    [apply example_npot_reach|reflexivity|vm_compute; reflexivity|vm_compute; reflexivity|exact E|].
  assert (Some (deleted_ t) = Some false) as E1; [|congruence].
  change (Some (deleted_ t)) with (deleted_ <$> Some t). rewrite <- E. vm_compute. reflexivity.
Defined.

Lemma external_texture_hides_one_witness :
  let fi := example_features true false in
  HaveUnrenderableTextures (example_created fi) = false /\
  match textures (example_created fi) !! 3 with
  | Some t => deleted_ t = false /\ CanRender fi t = false
  | None => False
  end.
Proof.
  intros fi. split; [|vm_compute; split; reflexivity].
  apply (external_texture_hides_one fi _ (example_created_reach fi)); vm_compute; reflexivity.
Defined.

(** The flags of the features can change while the count stands: a texture that was counted
    as renderable is no longer once a call of [AddFeatures] has reset [npot_ok]. *)
Theorem npot_lost_uncounted :
  let m := example_imaged (example_features false true) 2 npot_level in
  manager_reach (example_features false true) m /\ HaveUnrenderableTextures m = false /\
  match textures m !! 2 with
  | Some t => CanRender (example_features false true) t = true /\
              CanRender (example_features false false) t = false
  | None => False
  end.
Proof.
  intros m. split; [apply example_npot_reach|]. split; [vm_compute; reflexivity|].
  vm_compute. split; reflexivity.
Qed.
