(* ===== verification/RenderbufferManager.v ===== *)
(** * Renderbuffers

    [gpu/command_buffer/service/renderbuffer_manager.{h,cc}]: the storage of each
    renderbuffer, and whether it has been cleared since it was given. *)

From Stdlib Require Import ZArith Lia ZifyBool Bool.
From stdpp Require Import base numbers option gmap list.
From S2P Require Import Prelude GLConstants.
Local Open Scope Z_scope.

Record RenderbufferInfo := mkRenderbufferInfo {
  rb_service_id_ : Z;
  cleared_ : bool;
  rb_has_been_bound_ : bool;
  samples_ : Z;
  internal_format_ : Z;
  width_ : Z;
  height_ : Z;
}.

Definition RenderbufferInfo_new (service_id : Z) : RenderbufferInfo :=
  mkRenderbufferInfo service_id false false 0 GL_RGBA4 0 0.

Definition set_cleared (r : RenderbufferInfo) : RenderbufferInfo :=
  mkRenderbufferInfo (rb_service_id_ r) true (rb_has_been_bound_ r) (samples_ r)
    (internal_format_ r) (width_ r) (height_ r).

Definition SetInfo (samples internalformat width height : Z) (r : RenderbufferInfo)
    : RenderbufferInfo :=
  mkRenderbufferInfo (rb_service_id_ r) false (rb_has_been_bound_ r) samples internalformat
    width height.

Definition IsDeleted (r : RenderbufferInfo) : bool := rb_service_id_ r =? 0.

Definition MarkAsValid (r : RenderbufferInfo) : RenderbufferInfo :=
  mkRenderbufferInfo (rb_service_id_ r) (cleared_ r) true (samples_ r) (internal_format_ r)
    (width_ r) (height_ r).

Definition IsValid (r : RenderbufferInfo) : bool := rb_has_been_bound_ r && negb (IsDeleted r).

Definition MarkAsDeleted (r : RenderbufferInfo) : RenderbufferInfo :=
  mkRenderbufferInfo 0 (cleared_ r) (rb_has_been_bound_ r) (samples_ r) (internal_format_ r)
    (width_ r) (height_ r).

(** [renderbuffers] holds the objects by address; the map and whoever has one bound or
    attached hold addresses. *)
Record RenderbufferManager := mkRenderbufferManager {
  max_renderbuffer_size_ : Z;
  renderbuffers : gmap Z RenderbufferInfo;
  renderbuffer_infos_ : gmap Z Z;
  next_renderbuffer : Z;
}.

Definition RenderbufferManager_new (max_renderbuffer_size : Z) : RenderbufferManager :=
  mkRenderbufferManager max_renderbuffer_size ∅ ∅ 0.

Definition with_renderbuffers (rs : gmap Z RenderbufferInfo) (m : RenderbufferManager)
    : RenderbufferManager :=
  mkRenderbufferManager (max_renderbuffer_size_ m) rs (renderbuffer_infos_ m) (next_renderbuffer m).

(** The insertion does nothing when the id is taken. *)
Definition CreateRenderbufferInfo (client_id service_id : Z) (m : RenderbufferManager)
    : RenderbufferManager :=
  let a := next_renderbuffer m in
  match renderbuffer_infos_ m !! client_id with
  | Some _ => m
  | None =>
      mkRenderbufferManager (max_renderbuffer_size_ m)
        (<[a := RenderbufferInfo_new service_id]> (renderbuffers m))
        (<[client_id := a]> (renderbuffer_infos_ m)) (a + 1)
  end.

Definition GetRenderbufferInfo (client_id : Z) (m : RenderbufferManager) : option Z :=
  renderbuffer_infos_ m !! client_id.

Definition RemoveRenderbufferInfo (client_id : Z) (m : RenderbufferManager) : RenderbufferManager :=
  match renderbuffer_infos_ m !! client_id with
  | Some a =>
      mkRenderbufferManager (max_renderbuffer_size_ m) (alter MarkAsDeleted a (renderbuffers m))
        (base.delete client_id (renderbuffer_infos_ m)) (next_renderbuffer m)
  | None => m
  end.

(** [order] is the order in which the hash map is visited. *)
Definition GetClientId (order : list (Z * Z)) (service_id : Z) (m : RenderbufferManager)
    : option Z :=
  fst <$> find (fun '(_, a) =>
                  match renderbuffers m !! a with
                  | Some r => rb_service_id_ r =? service_id
                  | None => false
                  end) order.

(** [Destroy]: the answer is the ids given to [glDeleteRenderbuffersEXT]. *)
Fixpoint Destroy_loop (have_context : bool) (order : list (Z * Z)) (rs : gmap Z RenderbufferInfo)
    : list Z * gmap Z RenderbufferInfo :=
  match order with
  | [] => ([], rs)
  | (_, a) :: order =>
      match rs !! a with
      | Some r =>
          if have_context && negb (IsDeleted r) then
            let '(ids, rs) := Destroy_loop have_context order (<[a := MarkAsDeleted r]> rs) in
            (rb_service_id_ r :: ids, rs)
          else Destroy_loop have_context order rs
      | None => Destroy_loop have_context order rs
      end
  end.

Definition Destroy (have_context : bool) (order : list (Z * Z)) (m : RenderbufferManager)
    : list Z * RenderbufferManager :=
  let '(ids, rs) := Destroy_loop have_context order (renderbuffers m) in
  (ids, mkRenderbufferManager (max_renderbuffer_size_ m) rs ∅ (next_renderbuffer m)).
