(* ===== verification/FramebufferManager.v ===== *)
(** * Framebuffers

    [gpu/command_buffer/service/framebuffer_manager.{h,cc}]: what is attached to each
    framebuffer, and what that says about it. *)

From Stdlib Require Import ZArith Lia ZifyBool Bool.
From stdpp Require Import base numbers option gmap list.
From S2P Require Import Prelude GLConstants TextureInfo RenderbufferManager.
Local Open Scope Z_scope.

(** ** Attachments

    The two subclasses of [Attachment]; the texture and the renderbuffer are shared
    objects, held by address. *)
Inductive Attachment :=
| RenderbufferAttachment (render_buffer_ : Z)
| TextureAttachment (texture_ target_ level_ : Z).

#[export] Instance Attachment_eq_dec : EqDecision Attachment.
Proof. solve_decision. Defined.

Section attachments.
Variables (ts : gmap Z TextureInfo) (rs : gmap Z RenderbufferInfo).

Definition width (a : Attachment) : outcome Z :=
  match a with
  | RenderbufferAttachment r => (do r <- of_option (rs !! r) ;; Done (width_ r))%gpu
  | TextureAttachment t target level =>
      (do t <- of_option (ts !! t) ;; Done (default 0 (fst <$> GetLevelSize target level t)))%gpu
  end.

Definition height (a : Attachment) : outcome Z :=
  match a with
  | RenderbufferAttachment r => (do r <- of_option (rs !! r) ;; Done (height_ r))%gpu
  | TextureAttachment t target level =>
      (do t <- of_option (ts !! t) ;; Done (default 0 (snd <$> GetLevelSize target level t)))%gpu
  end.

Definition internal_format (a : Attachment) : outcome Z :=
  match a with
  | RenderbufferAttachment r => (do r <- of_option (rs !! r) ;; Done (internal_format_ r))%gpu
  | TextureAttachment t target level =>
      (do t <- of_option (ts !! t) ;; Done (default 0 (snd <$> GetLevelType target level t)))%gpu
  end.

Definition samples (a : Attachment) : outcome Z :=
  match a with
  | RenderbufferAttachment r => (do r <- of_option (rs !! r) ;; Done (samples_ r))%gpu
  | TextureAttachment _ _ _ => Done 0
  end.

Definition cleared (a : Attachment) : outcome bool :=
  match a with
  | RenderbufferAttachment r => (do r <- of_option (rs !! r) ;; Done (cleared_ r))%gpu
  | TextureAttachment _ _ _ => Done true
  end.

Definition IsTexture (texture : option Z) (a : Attachment) : bool :=
  match a with
  | RenderbufferAttachment _ => false
  | TextureAttachment t _ _ => bool_decide (texture = Some t)
  end.

Definition Attachment_CanRenderTo (a : Attachment) : outcome bool :=
  match a with
  | RenderbufferAttachment _ => Done true
  | TextureAttachment t _ _ => (do t <- of_option (ts !! t) ;; Done (CanRenderTo t))%gpu
  end.

End attachments.

(** ** Framebuffers *)

Record FramebufferInfo := mkFramebufferInfo {
  fb_service_id_ : Z;
  fb_has_been_bound_ : bool;
  attachments_ : gmap Z Attachment;
}.

Definition FramebufferInfo_new (service_id : Z) : FramebufferInfo :=
  mkFramebufferInfo service_id false ∅.

Definition IsDeleted (f : FramebufferInfo) : bool := fb_service_id_ f =? 0.

Definition MarkAsValid (f : FramebufferInfo) : FramebufferInfo :=
  mkFramebufferInfo (fb_service_id_ f) true (attachments_ f).

Definition IsValid (f : FramebufferInfo) : bool := fb_has_been_bound_ f && negb (IsDeleted f).

Definition MarkAsDeleted (f : FramebufferInfo) : FramebufferInfo :=
  mkFramebufferInfo 0 (fb_has_been_bound_ f) ∅.

Definition with_attached (m : gmap Z Attachment) (f : FramebufferInfo) : FramebufferInfo :=
  mkFramebufferInfo (fb_service_id_ f) (fb_has_been_bound_ f) m.

Definition GetAttachment (attachment : Z) (f : FramebufferInfo) : option Attachment :=
  attachments_ f !! attachment.

Definition HasDepthAttachment (f : FramebufferInfo) : bool :=
  bool_decide (is_Some (attachments_ f !! GL_DEPTH_STENCIL_ATTACHMENT)) ||
  bool_decide (is_Some (attachments_ f !! GL_DEPTH_ATTACHMENT)).

Definition HasStencilAttachment (f : FramebufferInfo) : bool :=
  bool_decide (is_Some (attachments_ f !! GL_DEPTH_STENCIL_ATTACHMENT)) ||
  bool_decide (is_Some (attachments_ f !! GL_STENCIL_ATTACHMENT)).

Section framebuffer.
Variables (ts : gmap Z TextureInfo) (rs : gmap Z RenderbufferInfo).

Definition HasUnclearedAttachment (attachment : Z) (f : FramebufferInfo) : outcome bool :=
  match attachments_ f !! attachment with
  | Some a => (do c <- cleared rs a ;; Done (negb c))%gpu
  | None => Done false
  end.

Definition GetColorAttachmentFormat (f : FramebufferInfo) : outcome Z :=
  match attachments_ f !! GL_COLOR_ATTACHMENT0 with
  | Some a => internal_format ts rs a
  | None => Done 0
  end.

Fixpoint not_complete (l : list (Z * Attachment)) : outcome bool :=
  match l with
  | [] => Done false
  | (_, a) :: l =>
      (do w <- width ts rs a ;;
       do h <- height ts rs a ;;
       if (w =? 0) || (h =? 0) then Done true
       else
         do ok <- Attachment_CanRenderTo ts a ;;
         if negb ok then Done true else not_complete l)%gpu
  end.

(** The order of the hash map does not matter to the answer. *)
Definition IsNotComplete (f : FramebufferInfo) : outcome bool :=
  not_complete (map_to_list (attachments_ f)).

(** [set_cleared] is not reached on a texture, which is always cleared. *)
Fixpoint mark_cleared (l : list (Z * Attachment)) (rs : gmap Z RenderbufferInfo)
    : outcome (gmap Z RenderbufferInfo) :=
  match l with
  | [] => Done rs
  | (_, RenderbufferAttachment r) :: l =>
      (do info <- of_option (rs !! r) ;;
       mark_cleared l (if negb (cleared_ info) then <[r := set_cleared info]> rs else rs))%gpu
  | (_, TextureAttachment _ _ _) :: l => mark_cleared l rs
  end.

Definition MarkAttachedRenderbuffersAsCleared (f : FramebufferInfo)
    : outcome (gmap Z RenderbufferInfo) :=
  mark_cleared (map_to_list (attachments_ f)) rs.

End framebuffer.

Definition AttachRenderbuffer (attachment : Z) (renderbuffer : option Z) (f : FramebufferInfo)
    : FramebufferInfo :=
  with_attached (match renderbuffer with
                 | Some r => <[attachment := RenderbufferAttachment r]> (attachments_ f)
                 | None => base.delete attachment (attachments_ f)
                 end) f.

(** The texture store changes too: textures count the framebuffers they are attached to. *)
Definition AttachTexture (attachment : Z) (texture : option Z) (target level : Z)
    (ts : gmap Z TextureInfo) (f : FramebufferInfo) : gmap Z TextureInfo * FramebufferInfo :=
  let is_texture :=
    match GetAttachment attachment f with Some a => IsTexture texture a | None => false end in
  match texture with
  | Some t =>
      let ts := if is_texture then alter DetachFromFramebuffer t ts else ts in
      (alter AttachToFramebuffer t ts,
       with_attached (<[attachment := TextureAttachment t target level]> (attachments_ f)) f)
  | None => (ts, with_attached (base.delete attachment (attachments_ f)) f)
  end.

(** ** The manager *)

Record FramebufferManager := mkFramebufferManager {
  framebuffers : gmap Z FramebufferInfo;
  framebuffer_infos_ : gmap Z Z;
  next_framebuffer : Z;
}.

Definition FramebufferManager_new : FramebufferManager := mkFramebufferManager ∅ ∅ 0.

Definition with_framebuffer (a : Z) (f : FramebufferInfo) (m : FramebufferManager)
    : FramebufferManager :=
  mkFramebufferManager (<[a := f]> (framebuffers m)) (framebuffer_infos_ m) (next_framebuffer m).

(** The insertion does nothing when the id is taken. *)
Definition CreateFramebufferInfo (client_id service_id : Z) (m : FramebufferManager)
    : FramebufferManager :=
  let a := next_framebuffer m in
  match framebuffer_infos_ m !! client_id with
  | Some _ => m
  | None =>
      mkFramebufferManager (<[a := FramebufferInfo_new service_id]> (framebuffers m))
        (<[client_id := a]> (framebuffer_infos_ m)) (a + 1)
  end.

Definition GetFramebufferInfo (client_id : Z) (m : FramebufferManager) : option Z :=
  framebuffer_infos_ m !! client_id.

Definition RemoveFramebufferInfo (client_id : Z) (m : FramebufferManager) : FramebufferManager :=
  match framebuffer_infos_ m !! client_id with
  | Some a =>
      mkFramebufferManager (alter MarkAsDeleted a (framebuffers m))
        (base.delete client_id (framebuffer_infos_ m)) (next_framebuffer m)
  | None => m
  end.

(** [order] is the order in which the hash map is visited. *)
Definition GetClientId (order : list (Z * Z)) (service_id : Z) (m : FramebufferManager)
    : option Z :=
  fst <$> find (fun '(_, a) =>
                  match framebuffers m !! a with
                  | Some f => fb_service_id_ f =? service_id
                  | None => false
                  end) order.

(** [Destroy]: the answer is the ids given to [glDeleteFramebuffersEXT]. *)
Fixpoint Destroy_loop (have_context : bool) (order : list (Z * Z)) (fs : gmap Z FramebufferInfo)
    : list Z * gmap Z FramebufferInfo :=
  match order with
  | [] => ([], fs)
  | (_, a) :: order =>
      match fs !! a with
      | Some f =>
          if have_context && negb (IsDeleted f) then
            let '(ids, fs) := Destroy_loop have_context order (<[a := MarkAsDeleted f]> fs) in
            (fb_service_id_ f :: ids, fs)
          else Destroy_loop have_context order fs
      | None => Destroy_loop have_context order fs
      end
  end.

Definition Destroy (have_context : bool) (order : list (Z * Z)) (m : FramebufferManager)
    : list Z * FramebufferManager :=
  let '(ids, fs) := Destroy_loop have_context order (framebuffers m) in
  (ids, mkFramebufferManager fs ∅ (next_framebuffer m)).
