(* ===== verification/ContextState.v ===== *)
(** * The state of a GLES2 context

    The members of [GLES2DecoderImpl] of [gpu/command_buffer/service/gles2_cmd_decoder.cc]
    that textures, renderbuffers and framebuffers are about, the calls it makes to the
    driver, and the masks it brings up to date before it draws. *)

From Stdlib Require Import ZArith Lia ZifyBool Bool.
From stdpp Require Import base numbers option gmap sets list.
From S2P Require Import Prelude GLConstants Validators GLES2Util FeatureInfo TextureInfo IdAllocator.
From S2P Require Import TextureManager RenderbufferManager FramebufferManager.
Local Open Scope Z_scope.

(** ** The calls that reach the driver *)

(** Pixels are the bytes the pointer gives access to; a floating point number is its 32
    bits. *)
Inductive GLCall :=
| glGenTextures (service_id : Z)
| glDeleteTextures (service_id : Z)
| glActiveTexture (texture : Z)
| glBindTexture (target service_id : Z)
| glTexParameteri (target pname param : Z)
| glTexParameterf (target pname param : Z)
| glTexParameterfv (target pname param : Z)
| glTexParameteriv (target pname param : Z)
| glGenerateMipmapEXT (target : Z)
| glPixelStorei (pname param : Z)
| glTexImage2D (target level internal_format width height border format type : Z)
    (pixels : list Z)
| glTexSubImage2D (target level xoffset yoffset width height format type : Z) (pixels : list Z)
| glCompressedTexImage2D (target level internal_format width height border : Z) (data : list Z)
| glCompressedTexSubImage2D (target level xoffset yoffset width height format : Z)
    (data : list Z)
| glCopyTexImage2D (target level internal_format x y width height border : Z)
| glCopyTexSubImage2D (target level xoffset yoffset x y width height : Z)
| glGenRenderbuffersEXT (service_id : Z)
| glDeleteRenderbuffersEXT (service_id : Z)
| glBindRenderbufferEXT (target service_id : Z)
| glRenderbufferStorageEXT (target samples internalformat width height : Z)
| glGenFramebuffersEXT (service_id : Z)
| glDeleteFramebuffersEXT (service_id : Z)
| glBindFramebufferEXT (target service_id : Z)
| glFramebufferRenderbufferEXT (target attachment renderbuffertarget service_id : Z)
| glFramebufferTexture2DEXT (target attachment textarget service_id level : Z)
| glBlitFramebufferEXT (srcX0 srcY0 srcX1 srcY1 dstX0 dstY0 dstX1 dstY1 mask filter : Z)
| glColorMask (red green blue alpha : Z)
| glDepthMask (flag : Z)
| glStencilMask (mask : Z)
| glStencilMaskSeparate (face mask : Z)
| glEnable (cap : Z)
| glDisable (cap : Z)
| glClearColor (red green blue alpha : Z)
| glClearStencil (s : Z)
| glClearDepth (depth : Z)
| glClear (mask : Z)
| glReadPixels (x y width height format type : Z).

(** ** The state *)

(** What was last bound to each target of a texture unit. *)
Record TextureUnit := mkTextureUnit {
  bind_target : Z;
  bound_texture_2d : option Z;
  bound_texture_cube_map : option Z;
  bound_texture_external_oes : option Z;
}.

(** The objects of the context group. *)
Record Group := mkGroup {
  texture_manager : TextureManager;
  renderbuffer_manager : RenderbufferManager;
  framebuffer_manager : FramebufferManager;
  texture_ids : Reused.IdAllocator;
  renderbuffer_ids : Reused.IdAllocator;
  framebuffer_ids : Reused.IdAllocator;
}.

Record Bindings := mkBindings {
  texture_units_ : list TextureUnit;
  active_texture_unit_ : Z;
  bound_draw_framebuffer_ : option Z;
  bound_read_framebuffer_ : option Z;
  bound_renderbuffer_ : option Z;
}.

(** The state that is saved to be restored after a clear, and the masks. *)
Record Saved := mkSaved {
  clear_red_ : Z;
  clear_green_ : Z;
  clear_blue_ : Z;
  clear_alpha_ : Z;
  mask_red_ : Z;
  mask_green_ : Z;
  mask_blue_ : Z;
  mask_alpha_ : Z;
  clear_stencil_ : Z;
  mask_stencil_front_ : Z;
  mask_stencil_back_ : Z;
  clear_depth_ : Z;
  mask_depth_ : Z;
  enable_scissor_test_ : bool;
  enable_depth_test_ : bool;
  enable_stencil_test_ : bool;
}.

(** [1.0f] *)
Definition one_f : Z := 1065353216.

Definition Saved_new : Saved :=
  mkSaved 0 0 0 0 1 1 1 1 0 (u32 (-1)) (u32 (-1)) one_f 1 false false false.

Record Context := mkContext {
  group : Group;
  bindings : Bindings;
  saved : Saved;
  state_dirty_ : bool;
  tex_image_2d_failed_ : bool;
  pack_alignment_ : Z;
  unpack_alignment_ : Z;
  gl_errors : list Z;
  gl_calls : list GLCall;
}.

(** The offscreen target, when there is one. *)
Record Offscreen := mkOffscreen {
  offscreen_target_frame_buffer_ : Z;
  offscreen_target_color_format_ : Z;
  offscreen_target_depth_format_ : Z;
  offscreen_target_stencil_format_ : Z;
  offscreen_size_ : Z * Z;
}.

(** What does not change while the context is used: the group's features and limits, the
    surface and the offscreen target, and what is known of the driver. *)
Record Config := mkConfig {
  feature_info_ : FeatureInfo;
  bind_generates_resource : bool;
  max_texture_units : Z;
  egl_gles2 : bool;
  teximage2d_faster_than_texsubimage2d_ : bool;
  offscreen : option Offscreen;
  surface_size : Z * Z;
  surface_backing_frame_buffer : Z;
  back_buffer_color_format_ : Z;
  back_buffer_has_depth_ : bool;
  back_buffer_has_stencil_ : bool;
}.

(** What the driver answers during a call: the ids it generates, the error that
    [PeekGLError] finds, and [glCheckFramebufferStatusEXT]. *)
Record Answers := mkAnswers {
  generated_id : Z;
  peek_gl_error : Z;
  framebuffer_status : Z;
}.

(** ** Changes of the state

    [gl_errors] are the errors given to [SetGLError], in order: those the handlers raise
    and those [PeekGLError] finds; what [CopyRealGLErrorsToWrapper] collects from earlier
    calls of the driver is not among them. *)

Definition with_group (g : Group) (c : Context) : Context :=
  mkContext g (bindings c) (saved c) (state_dirty_ c) (tex_image_2d_failed_ c) (pack_alignment_ c)
    (unpack_alignment_ c) (gl_errors c) (gl_calls c).

Definition with_bindings (b : Bindings) (c : Context) : Context :=
  mkContext (group c) b (saved c) (state_dirty_ c) (tex_image_2d_failed_ c) (pack_alignment_ c)
    (unpack_alignment_ c) (gl_errors c) (gl_calls c).

Definition with_saved (s : Saved) (c : Context) : Context :=
  mkContext (group c) (bindings c) s (state_dirty_ c) (tex_image_2d_failed_ c) (pack_alignment_ c)
    (unpack_alignment_ c) (gl_errors c) (gl_calls c).

Definition with_dirty (b : bool) (c : Context) : Context :=
  mkContext (group c) (bindings c) (saved c) b (tex_image_2d_failed_ c) (pack_alignment_ c)
    (unpack_alignment_ c) (gl_errors c) (gl_calls c).

Definition with_failed (b : bool) (c : Context) : Context :=
  mkContext (group c) (bindings c) (saved c) (state_dirty_ c) b (pack_alignment_ c)
    (unpack_alignment_ c) (gl_errors c) (gl_calls c).

Definition with_alignment (pack unpack : Z) (c : Context) : Context :=
  mkContext (group c) (bindings c) (saved c) (state_dirty_ c) (tex_image_2d_failed_ c) pack unpack
    (gl_errors c) (gl_calls c).

Definition SetGLError (error : Z) (c : Context) : Context :=
  mkContext (group c) (bindings c) (saved c) (state_dirty_ c) (tex_image_2d_failed_ c)
    (pack_alignment_ c) (unpack_alignment_ c) (gl_errors c ++ [error]) (gl_calls c).

Definition fail (error : Z) (c : Context) : outcome Context := Done (SetGLError error c).

(** A call of the driver. *)
Definition gl (call : GLCall) (c : Context) : Context :=
  mkContext (group c) (bindings c) (saved c) (state_dirty_ c) (tex_image_2d_failed_ c)
    (pack_alignment_ c) (unpack_alignment_ c) (gl_errors c) (gl_calls c ++ [call]).

Definition with_textures (m : TextureManager) (c : Context) : Context :=
  let g := group c in
  with_group (mkGroup m (renderbuffer_manager g) (framebuffer_manager g) (texture_ids g)
    (renderbuffer_ids g) (framebuffer_ids g)) c.

Definition with_renderbuffer_manager (m : RenderbufferManager) (c : Context) : Context :=
  let g := group c in
  with_group (mkGroup (texture_manager g) m (framebuffer_manager g) (texture_ids g)
    (renderbuffer_ids g) (framebuffer_ids g)) c.

Definition with_framebuffer_manager (m : FramebufferManager) (c : Context) : Context :=
  let g := group c in
  with_group (mkGroup (texture_manager g) (renderbuffer_manager g) m (texture_ids g)
    (renderbuffer_ids g) (framebuffer_ids g)) c.

(** The objects of the group, by address. *)
Definition texs (c : Context) : gmap Z TextureInfo := textures (texture_manager (group c)).
Definition rbs (c : Context) : gmap Z RenderbufferInfo :=
  renderbuffers (renderbuffer_manager (group c)).
Definition fbs (c : Context) : gmap Z FramebufferInfo :=
  framebuffers (framebuffer_manager (group c)).

(** ** What is bound *)

Section context.
Variable cfg : Config.

Definition valid (v : Validator.t) (value : Z) : bool :=
  Validators.IsValid value (validators_ (feature_info_ cfg) v).

(** The texture that is bound to a target of the active unit, unless it is deleted. *)
Definition bound_texture (target : Z) (unit : TextureUnit) : option Z :=
  if target =? GL_TEXTURE_2D then bound_texture_2d unit
  else if is_case target (GL_TEXTURE_CUBE_MAP :: cube_faces) then bound_texture_cube_map unit
  else if target =? GL_TEXTURE_EXTERNAL_OES then bound_texture_external_oes unit
  else None.

Definition GetTextureInfoForTarget (target : Z) (c : Context)
    : outcome (option (Z * TextureInfo)) :=
  (do unit <- of_option (zget (texture_units_ (bindings c)) (active_texture_unit_ (bindings c))) ;;
   match bound_texture target unit with
   | None => Done None
   | Some a =>
       do t <- of_option (texs c !! a) ;;
       Done (if deleted_ t then None else Some (a, t))
   end)%gpu.

Definition GetFramebufferInfoForTarget (target : Z) (c : Context)
    : outcome (option (Z * FramebufferInfo)) :=
  let info :=
    if is_case target [GL_FRAMEBUFFER; GL_DRAW_FRAMEBUFFER] then bound_draw_framebuffer_ (bindings c)
    else if target =? GL_READ_FRAMEBUFFER then bound_read_framebuffer_ (bindings c)
    else None in
  match info with
  | None => Done None
  | Some a =>
      (do f <- of_option (fbs c !! a) ;;
       Done (if IsDeleted f then None else Some (a, f)))%gpu
  end.

(** The framebuffer at an address that is held. *)
Definition framebuffer (a : Z) (c : Context) : outcome FramebufferInfo := of_option (fbs c !! a).

Definition GetBoundReadFrameBufferSize (c : Context) : outcome (Z * Z) :=
  match bound_read_framebuffer_ (bindings c) with
  | Some a =>
      (do f <- framebuffer a c ;;
       match GetAttachment GL_COLOR_ATTACHMENT0 f with
       | Some attachment =>
           do w <- width (texs c) (rbs c) attachment ;;
           do h <- height (texs c) (rbs c) attachment ;;
           Done (w, h)
       | None => Done (0, 0)
       end)%gpu
  | None =>
      Done (match offscreen cfg with Some o => offscreen_size_ o | None => surface_size cfg end)
  end.

Definition default_color_format : Z :=
  match offscreen cfg with
  | Some o => offscreen_target_color_format_ o
  | None => back_buffer_color_format_ cfg
  end.

Definition GetBoundReadFrameBufferInternalFormat (c : Context) : outcome Z :=
  match bound_read_framebuffer_ (bindings c) with
  | Some a => (do f <- framebuffer a c ;; GetColorAttachmentFormat (texs c) (rbs c) f)%gpu
  | None => Done default_color_format
  end.

Definition GetBoundDrawFrameBufferInternalFormat (c : Context) : outcome Z :=
  match bound_draw_framebuffer_ (bindings c) with
  | Some a => (do f <- framebuffer a c ;; GetColorAttachmentFormat (texs c) (rbs c) f)%gpu
  | None => Done default_color_format
  end.

Definition BoundFramebufferHasColorAttachmentWithAlpha (c : Context) : outcome bool :=
  (do format <- GetBoundDrawFrameBufferInternalFormat c ;;
   Done (negb (Z.land (GetChannelsForFormat format) 8 =? 0)))%gpu.

Definition BoundFramebufferHasDepthAttachment (c : Context) : outcome bool :=
  match bound_draw_framebuffer_ (bindings c) with
  | Some a => (do f <- framebuffer a c ;; Done (HasDepthAttachment f))%gpu
  | None =>
      Done (match offscreen cfg with
            | Some o => negb (offscreen_target_depth_format_ o =? 0)
            | None => back_buffer_has_depth_ cfg
            end)
  end.

Definition BoundFramebufferHasStencilAttachment (c : Context) : outcome bool :=
  match bound_draw_framebuffer_ (bindings c) with
  | Some a => (do f <- framebuffer a c ;; Done (HasStencilAttachment f))%gpu
  | None =>
      Done (match offscreen cfg with
            | Some o => negb (offscreen_target_stencil_format_ o =? 0) ||
                        (offscreen_target_depth_format_ o =? GL_DEPTH24_STENCIL8)
            | None => back_buffer_has_stencil_ cfg
            end)
  end.

(** [GL_INVALID_FRAMEBUFFER_OPERATION] unless the framebuffer may be drawn to. *)
Definition CheckFramebufferComplete (c : Context) : outcome (bool * Context) :=
  match bound_draw_framebuffer_ (bindings c) with
  | Some a =>
      (do f <- framebuffer a c ;;
       do bad <- IsNotComplete (texs c) (rbs c) f ;;
       if bad then Done (false, SetGLError GL_INVALID_FRAMEBUFFER_OPERATION c) else Done (true, c))%gpu
  | None => Done (true, c)
  end.

(** ** The masks *)

Definition EnableDisable (pname : Z) (enable : bool) : GLCall :=
  if enable then glEnable pname else glDisable pname.

Definition ApplyDirtyState (c : Context) : outcome Context :=
  if state_dirty_ c then
    let s := saved c in
    (do alpha <- BoundFramebufferHasColorAttachmentWithAlpha c ;;
     let c := gl (glColorMask (mask_red_ s) (mask_green_ s) (mask_blue_ s)
                    (Z.b2z (negb (mask_alpha_ s =? 0) && alpha))) c in
     do have_depth <- BoundFramebufferHasDepthAttachment c ;;
     let c := gl (glDepthMask (Z.b2z (negb (mask_depth_ s =? 0) && have_depth))) c in
     let c := gl (EnableDisable GL_DEPTH_TEST (enable_depth_test_ s && have_depth)) c in
     do have_stencil <- BoundFramebufferHasStencilAttachment c ;;
     let c := gl (glStencilMaskSeparate GL_FRONT
                    (if have_stencil then mask_stencil_front_ s else 0)) c in
     let c := gl (glStencilMaskSeparate GL_BACK
                    (if have_stencil then mask_stencil_back_ s else 0)) c in
     let c := gl (EnableDisable GL_STENCIL_TEST (enable_stencil_test_ s && have_stencil)) c in
     Done (with_dirty false c))%gpu
  else Done c.

End context.
