(* ===== verification/ContextInvariant.v ===== *)
(** * What a GLES2 context keeps true

    The invariant of the state of [ContextState], and the two things the driver relies on:
    uploads come with as many bytes as it reads, and the masks it draws with are those of
    the state.  [good] is the promise every handler is proved to keep. *)

From Stdlib Require Import ZArith Lia ZifyBool Bool.
From stdpp Require Import base numbers option gmap sets list.
From S2P Require Import Prelude GLConstants Validators GLES2Util FeatureInfo TextureInfo IdAllocator.
From S2P Require Import TextureManager RenderbufferManager FramebufferManager ContextState.
Local Open Scope Z_scope.

(** ** What the driver reads *)

(** The unpack alignment after a call; the initial one is 4. *)
Definition unpack_after (align : Z) (call : GLCall) : Z :=
  match call with
  | glPixelStorei pname param => if pname =? GL_UNPACK_ALIGNMENT then param else align
  | _ => align
  end.

Definition pack_after (align : Z) (call : GLCall) : Z :=
  match call with
  | glPixelStorei pname param => if pname =? GL_PACK_ALIGNMENT then param else align
  | _ => align
  end.

(** An upload reads as many bytes as its image has, no more than it is given. *)
Definition upload_ok (align : Z) (call : GLCall) : Prop :=
  match call with
  | glTexImage2D _ _ _ width height _ format type pixels
  | glTexSubImage2D _ _ _ _ width height format type pixels =>
      0 <= width < 2 ^ 31 /\ 0 <= height < 2 ^ 31 /\
      zlen pixels = image_size width height format type align
  | _ => True
  end.

Fixpoint uploads_ok (align : Z) (calls : list GLCall) : Prop :=
  match calls with
  | [] => True
  | call :: calls => upload_ok align call /\ uploads_ok (unpack_after align call) calls
  end.

Definition driver_unpack (calls : list GLCall) : Z := fold_left unpack_after calls 4.
Definition driver_pack (calls : list GLCall) : Z := fold_left pack_after calls 4.

Lemma driver_unpack_snoc calls call :
  driver_unpack (calls ++ [call]) = unpack_after (driver_unpack calls) call.
Proof. apply fold_left_app. Qed.

Lemma driver_pack_snoc calls call : driver_pack (calls ++ [call]) = pack_after (driver_pack calls) call.
Proof. apply fold_left_app. Qed.

Lemma uploads_ok_snoc align calls call :
  uploads_ok align (calls ++ [call]) <->
  uploads_ok align calls /\ upload_ok (fold_left unpack_after calls align) call.
Proof.
  revert align. induction calls as [|c calls IH]; intros align; simpl; [tauto|].
  rewrite IH. tauto.
Qed.

(** ** What the driver draws with *)

Record DriverMasks := mkDriverMasks {
  color_mask : bool * bool * bool * bool;
  depth_mask : bool;
  depth_test : bool;
  stencil_front : Z;
  stencil_back : Z;
  stencil_test : bool;
}.

Definition nonzero (x : Z) : bool := negb (x =? 0).

Definition set_test (cap : Z) (on : bool) (m : DriverMasks) : DriverMasks :=
  mkDriverMasks (color_mask m) (depth_mask m)
    (if cap =? GL_DEPTH_TEST then on else depth_test m) (stencil_front m) (stencil_back m)
    (if cap =? GL_STENCIL_TEST then on else stencil_test m).

(** The effect of a call on the masks and tests of the driver. *)
Definition masks_after (m : DriverMasks) (call : GLCall) : DriverMasks :=
  match call with
  | glColorMask r g b a =>
      mkDriverMasks (nonzero r, nonzero g, nonzero b, nonzero a) (depth_mask m) (depth_test m)
        (stencil_front m) (stencil_back m) (stencil_test m)
  | glDepthMask flag =>
      mkDriverMasks (color_mask m) (nonzero flag) (depth_test m) (stencil_front m) (stencil_back m)
        (stencil_test m)
  | glStencilMask mask =>
      mkDriverMasks (color_mask m) (depth_mask m) (depth_test m) mask mask (stencil_test m)
  | glStencilMaskSeparate face mask =>
      mkDriverMasks (color_mask m) (depth_mask m) (depth_test m)
        (if is_case face [GL_FRONT; GL_FRONT_AND_BACK] then mask else stencil_front m)
        (if is_case face [GL_BACK; GL_FRONT_AND_BACK] then mask else stencil_back m) (stencil_test m)
  | glEnable cap => set_test cap true m
  | glDisable cap => set_test cap false m
  | _ => m
  end.

Definition masks_initial : DriverMasks :=
  mkDriverMasks (true, true, true, true) true false (u32 (-1)) (u32 (-1)) false.

Definition driver_masks (calls : list GLCall) : DriverMasks :=
  fold_left masks_after calls masks_initial.

(** ** What the driver clears with *)

Record ClearState := mkClearState {
  clear_color : Z * Z * Z * Z;
  clear_stencil : Z;
  clear_depth : Z;
  scissor_test : bool;
}.

Definition set_scissor (cap : Z) (on : bool) (s : ClearState) : ClearState :=
  if cap =? GL_SCISSOR_TEST
  then mkClearState (clear_color s) (clear_stencil s) (clear_depth s) on else s.

Definition clear_after (s : ClearState) (call : GLCall) : ClearState :=
  match call with
  | glClearColor r g b a => mkClearState (r, g, b, a) (clear_stencil s) (clear_depth s) (scissor_test s)
  | glClearStencil v => mkClearState (clear_color s) v (clear_depth s) (scissor_test s)
  | glClearDepth d => mkClearState (clear_color s) (clear_stencil s) d (scissor_test s)
  | glEnable cap => set_scissor cap true s
  | glDisable cap => set_scissor cap false s
  | _ => s
  end.

Definition clear_initial : ClearState := mkClearState (0, 0, 0, 0) 0 one_f false.

Definition driver_clear (calls : list GLCall) : ClearState := fold_left clear_after calls clear_initial.

(** What the client asked to clear with. *)
Definition wanted_clear (s : Saved) : ClearState :=
  mkClearState (clear_red_ s, clear_green_ s, clear_blue_ s, clear_alpha_ s) (clear_stencil_ s)
    (clear_depth_ s) (enable_scissor_test_ s).

Lemma driver_clear_app calls calls' :
  driver_clear (calls ++ calls') = fold_left clear_after calls' (driver_clear calls).
Proof. apply fold_left_app. Qed.

(** Several calls at once. *)
Definition emit (calls : list GLCall) (c : Context) : Context :=
  mkContext (group c) (bindings c) (saved c) (state_dirty_ c) (tex_image_2d_failed_ c)
    (pack_alignment_ c) (unpack_alignment_ c) (gl_errors c) (gl_calls c ++ calls).

Lemma gl_each_emit calls c : fold_left (fun c call => gl call c) calls c = emit calls c.
Proof.
  revert c. induction calls as [|call calls IH]; intros c; simpl.
  - destruct c. unfold emit. simpl. by rewrite app_nil_r.
  - rewrite IH. unfold emit, gl. simpl. by rewrite <- app_assoc.
Qed.

Lemma emit_app calls calls' c : emit calls' (emit calls c) = emit (calls ++ calls') c.
Proof. unfold emit. simpl. by rewrite <- app_assoc. Qed.

(** Calls that say nothing of uploads. *)
Definition no_upload (call : GLCall) : bool :=
  match call with
  | glPixelStorei _ _ | glTexImage2D _ _ _ _ _ _ _ _ _ | glTexSubImage2D _ _ _ _ _ _ _ _ _ => false
  | _ => true
  end.

Section invariant.
Variable cfg : Config.
Notation fi := (feature_info_ cfg).
Implicit Types c : Context.

(** The masks that the state asks for, given what is attached to the framebuffer. *)
Definition wanted_masks c : outcome DriverMasks :=
  let s := saved c in
  (do alpha <- BoundFramebufferHasColorAttachmentWithAlpha cfg c ;;
   do have_depth <- BoundFramebufferHasDepthAttachment cfg c ;;
   do have_stencil <- BoundFramebufferHasStencilAttachment cfg c ;;
   Done (mkDriverMasks
     (nonzero (mask_red_ s), nonzero (mask_green_ s), nonzero (mask_blue_ s),
      nonzero (mask_alpha_ s) && alpha)
     (nonzero (mask_depth_ s) && have_depth) (enable_depth_test_ s && have_depth)
     (if have_stencil then mask_stencil_front_ s else 0)
     (if have_stencil then mask_stencil_back_ s else 0) (enable_stencil_test_ s && have_stencil)))%gpu.

(** When the state is not dirty the driver has the masks it asks for. *)
Definition masks_current c : Prop :=
  state_dirty_ c = false -> wanted_masks c = Done (driver_masks (gl_calls c)).

(** ** The invariant *)

Definition bind_targets : list Z := [GL_TEXTURE_2D; GL_TEXTURE_CUBE_MAP; GL_TEXTURE_EXTERNAL_OES].

(** A texture has levels from when it has a target. *)
Definition texture_kind (t : TextureInfo) : Prop :=
  0 <= framebuffer_attachment_count_ t /\
  ((t_target_ t = 0 /\ level_infos_ t = [] /\ max_level_set_ t = -1) \/
   (t_target_ t ∈ bind_targets /\ level_infos_ t <> [])).

(** A texture that is bound to a target was bound to it first. *)
Definition bound_to (ts : gmap Z TextureInfo) (target a : Z) : Prop :=
  exists t, ts !! a = Some t /\ t_target_ t = target.

Definition unit_ok (ts : gmap Z TextureInfo) (unit : TextureUnit) : Prop :=
  (forall a, bound_texture_2d unit = Some a -> bound_to ts GL_TEXTURE_2D a) /\
  (forall a, bound_texture_cube_map unit = Some a -> bound_to ts GL_TEXTURE_CUBE_MAP a) /\
  (forall a, bound_texture_external_oes unit = Some a -> bound_to ts GL_TEXTURE_EXTERNAL_OES a).

(** An attached texture counts it. *)
Definition attachment_ok (ts : gmap Z TextureInfo) (rs : gmap Z RenderbufferInfo) (a : Attachment)
    : Prop :=
  match a with
  | RenderbufferAttachment r => is_Some (rs !! r)
  | TextureAttachment t _ level =>
      level = 0 /\ exists tex, ts !! t = Some tex /\ 1 <= framebuffer_attachment_count_ tex
  end.

Record context_ok c : Prop := {
  ctx_textures : textures_ok fi (uncounted fi) (texture_manager (group c));
  ctx_kind a t : texs c !! a = Some t -> texture_kind t;
  ctx_default target : valid cfg Validator.texture_bind_target target = true ->
    exists a, GetDefaultTextureInfo target (texture_manager (group c)) = Some a /\
      bound_to (texs c) target a;
  ctx_units : zlen (texture_units_ (bindings c)) = max_texture_units cfg;
  ctx_active : 0 <= active_texture_unit_ (bindings c) < max_texture_units cfg;
  ctx_unit unit : unit ∈ texture_units_ (bindings c) -> unit_ok (texs c) unit;
  ctx_framebuffer a f : fbs c !! a = Some f ->
    a < next_framebuffer (framebuffer_manager (group c)) /\
    forall k att, attachments_ f !! k = Some att -> attachment_ok (texs c) (rbs c) att;
  ctx_framebuffer_info id a :
    framebuffer_infos_ (framebuffer_manager (group c)) !! id = Some a -> is_Some (fbs c !! a);
  ctx_renderbuffer a r : rbs c !! a = Some r ->
    a < next_renderbuffer (renderbuffer_manager (group c));
  ctx_renderbuffer_info id a :
    renderbuffer_infos_ (renderbuffer_manager (group c)) !! id = Some a -> is_Some (rbs c !! a);
  ctx_bound_draw a : bound_draw_framebuffer_ (bindings c) = Some a -> is_Some (fbs c !! a);
  ctx_bound_read a : bound_read_framebuffer_ (bindings c) = Some a -> is_Some (fbs c !! a);
  ctx_bound_renderbuffer a : bound_renderbuffer_ (bindings c) = Some a -> is_Some (rbs c !! a);
  ctx_align : unpack_alignment_ c ∈ [1; 2; 4; 8];
  ctx_driver_align : driver_unpack (gl_calls c) = unpack_alignment_ c;
  ctx_uploads : uploads_ok 4 (gl_calls c);
  ctx_pack : pack_alignment_ c ∈ [1; 2; 4; 8];
  ctx_driver_pack : driver_pack (gl_calls c) = pack_alignment_ c;
  ctx_clear : driver_clear (gl_calls c) = wanted_clear (saved c);
}.

(** What a handler does to a state: it keeps the invariant, and the masks current. *)
Definition keeps c c' : Prop := context_ok c' /\ (masks_current c -> masks_current c').

Definition good (c : Context) (m : outcome Context) : Prop := exists c', m = Done c' /\ keeps c c'.

Lemma keeps_refl c : context_ok c -> keeps c c.
Proof. by split. Qed.

Lemma context_keeps_trans c1 c2 c3 : keeps c1 c2 -> keeps c2 c3 -> keeps c1 c3.
Proof. intros [? ?] [? ?]. split; auto. Qed.

Lemma good_done c c' : keeps c c' -> good c (Done c').
Proof. by exists c'. Qed.

Lemma good_after c c' m : keeps c c' -> good c' m -> good c m.
Proof. intros Hk (c'' & -> & Hk'). exists c''. split; [done|by eapply context_keeps_trans]. Qed.

(** The same of a handler that also answers an error. *)
Definition answers {A} (c : Context) (m : outcome (A * Context)) : Prop :=
  exists e c', m = Done (e, c') /\ keeps c c'.

Lemma answers_Done {A} c c' (e : A) : keeps c c' -> answers c (Done (e, c')).
Proof. by exists e, c'. Qed.

Lemma good_answers {A} c m (e : A) : good c m -> answers c (do c <- m ;; Done (e, c))%gpu.
Proof. intros (c' & -> & Hk). by exists e, c'. Qed.

Lemma answers_after {A} c c' (m : outcome (A * Context)) : keeps c c' -> answers c' m -> answers c m.
Proof. intros Hk (e & c'' & -> & Hk'). exists e, c''. split; [done|by eapply context_keeps_trans]. Qed.

(** A computation that ends in a state, and what is then done. *)
Lemma good_bind c m k : good c m -> (forall c', keeps c c' -> good c' (k c')) -> good c (obind m k).
Proof. intros (c' & -> & Hk) Hg. eapply good_after; [done|by apply Hg]. Qed.

(** *** Simple changes *)

Lemma keeps_SetGLError c e : context_ok c -> keeps c (SetGLError e c).
Proof. intros Hc. split; [|done]. destruct Hc. by split. Qed.

Lemma good_fail c e : context_ok c -> good c (fail e c).
Proof. intros. by apply good_done, keeps_SetGLError. Qed.

Lemma keeps_failed c b : context_ok c -> keeps c (with_failed b c).
Proof. intros Hc. split; [|done]. destruct Hc. by split. Qed.

Lemma keeps_dirty c : context_ok c -> keeps c (with_dirty true c).
Proof. intros Hc. split; [|done]. destruct Hc. by split. Qed.

Lemma keeps_dirty_if c (b : bool) : context_ok c -> keeps c (if b then with_dirty true c else c).
Proof. destruct b; [apply keeps_dirty|apply keeps_refl]. Qed.

Lemma keeps_ids c t r f :
  let g := group c in
  context_ok c -> keeps c (with_group (mkGroup (texture_manager g) (renderbuffer_manager g)
    (framebuffer_manager g) t r f) c).
Proof. intros g Hc. split; [|done]. destruct Hc. by split. Qed.

(** *** Calls of the driver *)

(** Calls that leave alone the driver's alignment, its clear values, and its masks. *)
Definition no_pixel_store (call : GLCall) : bool :=
  match call with glPixelStorei _ _ => false | _ => true end.

Definition no_clear_value (call : GLCall) : bool :=
  match call with
  | glClearColor _ _ _ _ | glClearStencil _ | glClearDepth _ => false
  | glEnable cap | glDisable cap => negb (cap =? GL_SCISSOR_TEST)
  | _ => true
  end.

Definition quiet (call : GLCall) : bool :=
  match call with
  | glPixelStorei _ _ | glColorMask _ _ _ _ | glDepthMask _ | glStencilMask _
  | glStencilMaskSeparate _ _ | glEnable _ | glDisable _
  | glClearColor _ _ _ _ | glClearStencil _ | glClearDepth _ => false
  | _ => true
  end.

Lemma context_ok_gl c call :
  context_ok c -> no_pixel_store call = true -> no_clear_value call = true ->
  upload_ok (unpack_alignment_ c) call -> context_ok (gl call c).
Proof.
  intros Hc Hn Hv Hu. destruct Hc as [? ? ? ? ? ? ? ? ? ? ? ? ? ? Hal Hup ? Hpk Hcl]. split; try done; simpl.
  - rewrite driver_unpack_snoc, Hal. by destruct call.
  - apply uploads_ok_snoc. split; [done|]. unfold driver_unpack in Hal. by rewrite Hal.
  - rewrite driver_pack_snoc, Hpk. by destruct call.
  - rewrite driver_clear_app, Hcl. destruct call; try done; simpl in Hv |- *; unfold set_scissor;
      by destruct (_ =? _).
Qed.

Lemma keeps_gl c call :
  context_ok c -> quiet call = true -> upload_ok (unpack_alignment_ c) call -> keeps c (gl call c).
Proof.
  intros Hc Hq Hu. split; [apply context_ok_gl; [done|by destruct call..|done]|].
  intros Hm Hd. change (wanted_masks (gl call c)) with (wanted_masks c). rewrite (Hm Hd).
  unfold driver_masks. simpl. rewrite fold_left_app. by destruct call.
Qed.

Lemma context_ok_emit c calls :
  context_ok c -> Forall (fun call => no_upload call = true) calls ->
  driver_clear (gl_calls c ++ calls) = wanted_clear (saved c) -> context_ok (emit calls c).
Proof.
  intros Hc Hn Hcl. assert (driver_unpack (gl_calls c ++ calls) = unpack_alignment_ c /\
    uploads_ok 4 (gl_calls c ++ calls) /\ driver_pack (gl_calls c ++ calls) = pack_alignment_ c)
    as (Hal & Hup & Hpk).
  { clear Hcl. induction calls as [|call calls IH] using rev_ind.
    - rewrite app_nil_r. split_and!; apply Hc.
    - apply Forall_app in Hn as [Hn Hcall]. apply Forall_cons in Hcall as [Hcall _]. destruct (IH Hn) as (Hal & Hup & Hpk).
      rewrite app_assoc. split_and!.
      + rewrite driver_unpack_snoc, Hal. by destruct call.
      + apply uploads_ok_snoc. split; [done|]. by destruct call.
      + rewrite driver_pack_snoc, Hpk. by destruct call. }
  destruct Hc. by split.
Qed.

(** *** Bindings of textures *)

Lemma keeps_units c units active :
  let b := bindings c in
  context_ok c -> zlen units = max_texture_units cfg ->
  (forall unit, unit ∈ units -> unit_ok (texs c) unit) -> 0 <= active < max_texture_units cfg ->
  keeps c (with_bindings (mkBindings units active (bound_draw_framebuffer_ b)
             (bound_read_framebuffer_ b) (bound_renderbuffer_ b)) c).
Proof. intros b Hc Hl Hu Ha. split; [|done]. destruct Hc. by split. Qed.

(** *** Changes of textures *)

(** How the textures may change under what is bound and attached; [dirty] tells whether
    the masks will be applied again anyway. *)
Record textures_step (dirty : bool) (m m' : TextureManager) : Prop := {
  step_default target : GetDefaultTextureInfo target m' = GetDefaultTextureInfo target m;
  step_old a t : textures m !! a = Some t -> exists t', textures m' !! a = Some t' /\
    framebuffer_attachment_count_ t <= framebuffer_attachment_count_ t' /\
    (t_target_ t <> 0 -> t_target_ t' = t_target_ t) /\
    (dirty = true \/ framebuffer_attachment_count_ t < 1 \/
     forall face, GetLevelType face 0 t' = GetLevelType face 0 t);
  step_kind a t' : textures m' !! a = Some t' -> texture_kind t';
}.

Lemma bound_to_step dirty m m' target a :
  textures_step dirty m m' -> target ∈ bind_targets ->
  bound_to (textures m) target a -> bound_to (textures m') target a.
Proof.
  intros [_ Ho _] Ht (t & Ha & Htt). destruct (Ho a t Ha) as (t' & Ha' & _ & Hk & _).
  exists t'. split; [done|]. rewrite Hk; [done|]. rewrite Htt. intros ->.
  unfold bind_targets in Ht. by rewrite !elem_of_cons, elem_of_nil in Ht; intuition.
Qed.

Lemma attachment_ok_step dirty m m' rs att :
  textures_step dirty m m' -> attachment_ok (textures m) rs att -> attachment_ok (textures m') rs att.
Proof.
  intros [_ Ho _]. destruct att as [r|t tg level]; [done|]. intros (Hl & tex & Ha & Hc).
  split; [done|]. destruct (Ho _ _ Ha) as (t' & Ha' & ? & _). exists t'. split; [done|lia].
Qed.

(** The format that a framebuffer is drawn in does not change unless the state is dirty. *)
Lemma internal_format_step m m' rs att :
  textures_step false m m' -> attachment_ok (textures m) rs att ->
  internal_format (textures m') rs att = internal_format (textures m) rs att.
Proof.
  intros [_ Ho _]. destruct att as [r|t tg level]; [done|]. intros (-> & tex & Ha & Hc). simpl.
  destruct (Ho _ _ Ha) as (t' & Ha' & _ & _ & [?|[?|Hf]]); [done|lia|].
  rewrite Ha, Ha'. cbn [of_option obind]. by rewrite Hf.
Qed.

Lemma context_ok_textures dirty c m' :
  context_ok c -> textures_ok fi (uncounted fi) m' ->
  textures_step dirty (texture_manager (group c)) m' -> context_ok (with_textures m' c).
Proof.
  intros Hc Hm Hs. destruct Hc as [? Hk Hd ? ? Hu Hf ? ? ? ? ? ? ? ? ? ? ? ?]. split; try done.
  - apply Hs.
  - intros target Ht. destruct (Hd target Ht) as (a & Ha & Hb). exists a.
    simpl. rewrite (step_default _ _ _ Hs). split; [done|]. eapply bound_to_step; [done| |done].
    unfold GetDefaultTextureInfo in Ha. unfold bind_targets. rewrite !elem_of_cons.
    repeat case_match; zbool; auto; done.
  - intros unit Hin. destruct (Hu unit Hin) as (H2 & Hcb & Hx). unfold texs in *.
    split_and!; intros a Ha; (eapply bound_to_step; [done| |by auto]);
      unfold bind_targets; rewrite !elem_of_cons; auto.
  - intros a f Ha. destruct (Hf a f Ha) as [? Hatt]. split; [done|]. intros k att Hka.
    eapply attachment_ok_step; [done|by eapply Hatt].
Qed.

Lemma keeps_textures c m' :
  context_ok c -> textures_ok fi (uncounted fi) m' ->
  textures_step (state_dirty_ c) (texture_manager (group c)) m' -> keeps c (with_textures m' c).
Proof.
  intros Hc Hm Hs. split; [by eapply context_ok_textures|].
  intros Hcur Hdirty. simpl in Hdirty. rewrite Hdirty in Hs. simpl. rewrite <- (Hcur Hdirty).
  unfold wanted_masks, BoundFramebufferHasColorAttachmentWithAlpha,
      GetBoundDrawFrameBufferInternalFormat. simpl.
    destruct (bound_draw_framebuffer_ (bindings c)) as [a|] eqn:Eb; [|done].
    destruct (ctx_bound_draw _ Hc a Eb) as [f Ha]. destruct (ctx_framebuffer _ Hc a f Ha) as [_ Hatt].
    unfold framebuffer. change (fbs (with_textures m' c)) with (fbs c). rewrite Ha.
    cbn [of_option obind]. unfold GetColorAttachmentFormat.
    destruct (attachments_ f !! GL_COLOR_ATTACHMENT0) as [att|] eqn:Ek; [|done].
    change (rbs (with_textures m' c)) with (rbs c). unfold texs. simpl.
    rewrite (internal_format_step _ _ _ _ Hs); [done|by eapply Hatt].
Qed.

(** *** One texture *)

Lemma textures_step_set dirty m a t t' n :
  (forall b u, textures m !! b = Some u -> texture_kind u) -> textures m !! a = Some t ->
  framebuffer_attachment_count_ t <= framebuffer_attachment_count_ t' ->
  (t_target_ t <> 0 -> t_target_ t' = t_target_ t) ->
  (dirty = true \/ framebuffer_attachment_count_ t < 1 \/
     forall face, GetLevelType face 0 t' = GetLevelType face 0 t) -> texture_kind t' ->
  textures_step dirty m (with_count n (with_texture a t' m)).
Proof.
  intros Hk Ha Hc Htg Hf Hk'. split; [done| |]; simpl.
  - intros b u Hb. destruct (decide (b = a)) as [->|Hne].
    + rewrite lookup_insert_eq. exists t'. simplify_eq. done.
    + rewrite lookup_insert_ne by done. exists u. split_and!; [done|lia|done|auto].
  - intros b u. rewrite lookup_insert_Some. intros [[<- <-]|[_ Hb]]; [done|by eapply Hk].
Qed.

(** A texture without a target has no level. *)
Lemma untargeted_format t max_levels target face :
  texture_kind t -> t_target_ t = 0 -> 
  GetLevelType face 0 (SetTarget target max_levels t) = GetLevelType face 0 t.
Proof.
  intros (_ & [(_ & Hl & _)|[Ht _]]) H0.
  2:{ rewrite H0 in Ht. unfold bind_targets in Ht. by rewrite !elem_of_cons, elem_of_nil in Ht; intuition. }
  assert (forall (A : Type) n (x y : A) i, zget (replicate n x) i = Some y -> y = x) as Hrep.
  { intros A n x y i. unfold zget. case_match; [|done]. by intros [? _]%lookup_replicate_1. }
  assert (GetLevelType face 0 t = None) as ->.
  { unfold GetLevelType, checked_level. rewrite Hl. unfold zget. simpl. by repeat case_match. }
  unfold GetLevelType, checked_level, SetTarget. cbn [deleted_ level_infos_]. rewrite Hl, resize_nil.
  change (map ?f ?l) with (f <$> l). rewrite fmap_replicate, resize_nil.
  destruct (_ && _); [|done]. destruct (zget _ _) as [levels|] eqn:E; [|done].
  apply Hrep in E as ->. simpl. destruct (_ <? _); [|done].
  destruct (zget _ 0) as [l|] eqn:E; [|done]. by apply Hrep in E as ->.
Qed.

(** *** Framebuffers and renderbuffers *)

Lemma attachment_format c att :
  attachment_ok (texs c) (rbs c) att -> exists f, internal_format (texs c) (rbs c) att = Done f.
Proof.
  destruct att as [r|t tg level]; simpl; [intros [? ->]; by eexists|].
  intros (_ & tex & -> & _). by eexists.
Qed.

Lemma attachment_size c att :
  attachment_ok (texs c) (rbs c) att ->
  exists w h, width (texs c) (rbs c) att = Done w /\ height (texs c) (rbs c) att = Done h.
Proof.
  destruct att as [r|t tg level]; simpl; [intros [? ->]; by eexists _, _|].
  intros (_ & tex & -> & _). by eexists _, _.
Qed.

(** The framebuffer that the masks are about; none while they are to be applied again. *)
Definition drawn c : option Z :=
  if state_dirty_ c then None else bound_draw_framebuffer_ (bindings c).

(** The renderbuffer is not the one that is drawn to. *)
Definition undrawn c (a : Z) : Prop := forall b f,
  drawn c = Some b -> fbs c !! b = Some f ->
  attachments_ f !! GL_COLOR_ATTACHMENT0 <> Some (RenderbufferAttachment a).

Record framebuffers_step c (m' : FramebufferManager) : Prop := {
  fstep_old a f : fbs c !! a = Some f -> exists f', framebuffers m' !! a = Some f' /\
    (drawn c = Some a -> attachments_ f' = attachments_ f);
  fstep_ok a f' : framebuffers m' !! a = Some f' -> a < next_framebuffer m' /\
    forall k att, attachments_ f' !! k = Some att -> attachment_ok (texs c) (rbs c) att;
  fstep_info id a : framebuffer_infos_ m' !! id = Some a -> is_Some (framebuffers m' !! a);
}.

Record renderbuffers_step c (m' : RenderbufferManager) : Prop := {
  rstep_old a r : rbs c !! a = Some r -> exists r', renderbuffers m' !! a = Some r' /\
    (internal_format_ r' = internal_format_ r \/ undrawn c a);
  rstep_ok a r' : renderbuffers m' !! a = Some r' -> a < next_renderbuffer m';
  rstep_info id a : renderbuffer_infos_ m' !! id = Some a -> is_Some (renderbuffers m' !! a);
}.

Lemma keeps_dirty_state c c' : context_ok c' -> state_dirty_ c' = true -> keeps c c'.
Proof. intros Hc Hd. split; [done|]. intros _ Hf. by rewrite Hd in Hf. Qed.

Lemma context_ok_dirty b c : context_ok c -> context_ok (with_dirty b c).
Proof. intros Hc. destruct Hc. by split. Qed.

Lemma keeps_framebuffers c m' :
  context_ok c -> framebuffers_step c m' -> keeps c (with_framebuffer_manager m' c).
Proof.
  intros Hc [Ho Hf Hi].
  assert (forall a, is_Some (fbs c !! a) -> is_Some (framebuffers m' !! a)) as Hs.
  { intros a [f Ha]. destruct (Ho a f Ha) as (f' & ? & _). by exists f'. }
  split.
  - destruct Hc. split; try done; simpl; auto.
  - intros Hm Hd. simpl in Hd. simpl. rewrite <- (Hm Hd). unfold wanted_masks,
      BoundFramebufferHasColorAttachmentWithAlpha, GetBoundDrawFrameBufferInternalFormat,
      BoundFramebufferHasDepthAttachment, BoundFramebufferHasStencilAttachment. simpl.
    destruct (bound_draw_framebuffer_ (bindings c)) as [a|] eqn:Eb; [|done].
    destruct (ctx_bound_draw _ Hc a Eb) as [f Ha]. destruct (Ho a f Ha) as (f' & Ha' & Hatt).
    unfold drawn in Hatt. rewrite Hd in Hatt. specialize (Hatt Eb). unfold framebuffer.
    change (fbs (with_framebuffer_manager m' c)) with (framebuffers m'). rewrite Ha, Ha'.
    cbn [of_option obind]. unfold GetColorAttachmentFormat, HasDepthAttachment, HasStencilAttachment.
    by rewrite Hatt.
Qed.

Lemma keeps_renderbuffers c m' :
  context_ok c -> renderbuffers_step c m' -> keeps c (with_renderbuffer_manager m' c).
Proof.
  intros Hc [Ho Hr Hi].
  assert (forall a, is_Some (rbs c !! a) -> is_Some (renderbuffers m' !! a)) as Hs.
  { intros a [r Ha]. destruct (Ho a r Ha) as (r' & ? & _). by exists r'. }
  split.
  - destruct Hc as [? ? ? ? ? ? Hf ? ? ? ? ? ? ? ? ? ? ? ?]. split; try done; simpl; auto.
    intros a f Ha. destruct (Hf a f Ha) as [? Hatt]. split; [done|]. intros k att Hk.
    specialize (Hatt k att Hk). destruct att; simpl in *; auto.
  - intros Hm Hd. simpl in Hd. simpl. rewrite <- (Hm Hd). unfold wanted_masks,
      BoundFramebufferHasColorAttachmentWithAlpha, GetBoundDrawFrameBufferInternalFormat. simpl.
    destruct (bound_draw_framebuffer_ (bindings c)) as [a|] eqn:Eb; [|done].
    destruct (ctx_bound_draw _ Hc a Eb) as [f Ha]. destruct (ctx_framebuffer _ Hc a f Ha) as [_ Hatt].
    unfold framebuffer. change (fbs (with_renderbuffer_manager m' c)) with (fbs c). rewrite Ha.
    cbn [of_option obind]. unfold GetColorAttachmentFormat.
    destruct (attachments_ f !! GL_COLOR_ATTACHMENT0) as [[r|]|] eqn:Ek; [|done..]. simpl.
    destruct (Hatt _ _ Ek) as [info Hr0]. destruct (Ho r info Hr0) as (r' & Hr' & Hfmt).
    change (rbs (with_renderbuffer_manager m' c)) with (renderbuffers m'). rewrite Hr0, Hr'.
    cbn [of_option obind]. destruct Hfmt as [->|Hu]; [done|].
    destruct (Hu a f); [unfold drawn; by rewrite Hd|done..].
Qed.

(** Only the renderbuffer that is drawn to matters to the masks. *)
Lemma renderbuffers_step_set c a r r' :
  context_ok c -> rbs c !! a = Some r -> internal_format_ r' = internal_format_ r \/ undrawn c a ->
  renderbuffers_step c (with_renderbuffers (<[a := r']> (rbs c)) (renderbuffer_manager (group c))).
Proof.
  intros Hc Ha Hf. split; simpl.
  - intros b u Hb. destruct (decide (b = a)) as [->|Hne].
    + rewrite lookup_insert_eq. exists r'. simplify_eq. done.
    + rewrite lookup_insert_ne by done. exists u. auto.
  - intros b u. rewrite lookup_insert_Some. intros [[<- <-]|[_ Hb]]; by eapply (ctx_renderbuffer _ Hc).
  - intros id b Hid. apply lookup_insert_is_Some'. right. by apply (ctx_renderbuffer_info _ Hc id b).
Qed.

Lemma framebuffers_step_set c a f f' :
  context_ok c -> fbs c !! a = Some f -> (drawn c = Some a -> attachments_ f' = attachments_ f) ->
  (forall k att, attachments_ f' !! k = Some att -> attachment_ok (texs c) (rbs c) att) ->
  framebuffers_step c (with_framebuffer a f' (framebuffer_manager (group c))).
Proof.
  intros Hc Ha Hd Hatt. split; simpl.
  - intros b u Hb. destruct (decide (b = a)) as [->|Hne].
    + rewrite lookup_insert_eq. exists f'. simplify_eq. done.
    + rewrite lookup_insert_ne by done. exists u. auto.
  - intros b u. rewrite lookup_insert_Some.
    intros [[<- <-]|[_ Hb]]; [|by apply (ctx_framebuffer _ Hc)].
    split; [|done]. by apply (ctx_framebuffer _ Hc a f).
  - intros id b Hid. apply lookup_insert_is_Some'. right. by apply (ctx_framebuffer_info _ Hc id b).
Qed.

(** Bindings of framebuffers and of the renderbuffer. *)
Lemma context_ok_bound c draw read r :
  let b := bindings c in
  context_ok c -> (forall a, draw = Some a -> is_Some (fbs c !! a)) ->
  (forall a, read = Some a -> is_Some (fbs c !! a)) -> (forall a, r = Some a -> is_Some (rbs c !! a)) ->
  context_ok (with_bindings (mkBindings (texture_units_ b) (active_texture_unit_ b) draw read r) c).
Proof. intros b Hc ? ? ?. destruct Hc. by split. Qed.

End invariant.

(** A value that a validator takes is one of those it may be given. *)
Lemma valid_possible cfg driver (features : feature_reach driver (feature_info_ cfg)) v x :
  valid cfg v x = true -> x ∈ possible_values v.
Proof.
  intros Hv%IsValid_true. by apply (possible_values_all _ _ _ (feature_reach_ok _ _ features)).
Qed.
