(* ===== verification/TextureDecoder.v ===== *)
(** * The handlers of textures

    The part of [gpu/command_buffer/service/gles2_cmd_decoder.cc] (and its generated
    half, [gles2_cmd_decoder_autogen.h]) that makes and deletes textures, binds them,
    gives them parameters and uploads their images out of memory shared with the client. *)

From Stdlib Require Import ZArith Lia ZifyBool Bool.
From stdpp Require Import base numbers option gmap sets list.
From S2P Require Import Prelude CmdFormat CommandBufferService CommonDecoder GLConstants Validators GLES2Util FeatureInfo.
From S2P Require Import TextureInfo IdAllocator TextureManager RenderbufferManager FramebufferManager ContextState ContextInvariant.
Local Open Scope Z_scope.

Section handlers.
Context `{Platform} {E : Type} `{CommandBufferEngine E}.
Variable cfg : Config.
Implicit Types (c : Context) (d : CommonDecoder.Decoder E).

Notation fi := (feature_info_ cfg).
Notation Result := (outcome Context).
Notation valid := (ContextState.valid cfg).

(** ** Names *)

Definition GenTexturesHelper (client_ids service_ids : list Z) (c : Context)
    : outcome (bool * Context) :=
  if existsb (fun id => bool_decide (is_Some (GetTextureInfo id (texture_manager (group c))))) client_ids
  then Done (false, c)
  else
    let c := fold_left (fun c id => gl (glGenTextures id) c) service_ids c in
    Done (true, with_textures
      (fold_left (fun m '(id, service_id) => CreateTextureInfo fi id service_id m)
         (zip client_ids service_ids) (texture_manager (group c))) c).

(** The stream texture manager is told of the ones that are stream textures. *)
Fixpoint DeleteTexturesHelper (client_ids : list Z) (c : Context) : Result :=
  match client_ids with
  | [] => Done c
  | id :: ids =>
      match GetTextureInfo id (texture_manager (group c)) with
      | Some a =>
          (do t <- of_option (texs c !! a) ;;
           let c := if IsAttachedToFramebuffer t then with_dirty true c else c in
           let c := gl (glDeleteTextures (t_service_id_ t)) c in
           do m <- RemoveTextureInfo fi id (texture_manager (group c)) ;;
           DeleteTexturesHelper ids (with_textures m c))%gpu
      | None => DeleteTexturesHelper ids c
      end
  end.

Definition DoActiveTexture (texture_unit : Z) (c : Context) : Result :=
  let texture_index := u32 (texture_unit - GL_TEXTURE0) in
  if texture_index >=? max_texture_units cfg then fail GL_INVALID_ENUM c
  else
    let b := bindings c in
    Done (gl (glActiveTexture texture_unit)
            (with_bindings (mkBindings (texture_units_ b) texture_index (bound_draw_framebuffer_ b)
               (bound_read_framebuffer_ b) (bound_renderbuffer_ b)) c)).

(** [unit.bind_target] and the binding of the target. *)
Definition bind (target a : Z) (unit : TextureUnit) : TextureUnit :=
  if target =? GL_TEXTURE_2D then
    mkTextureUnit target (Some a) (bound_texture_cube_map unit) (bound_texture_external_oes unit)
  else if target =? GL_TEXTURE_CUBE_MAP then
    mkTextureUnit target (bound_texture_2d unit) (Some a) (bound_texture_external_oes unit)
  else if target =? GL_TEXTURE_EXTERNAL_OES then
    mkTextureUnit target (bound_texture_2d unit) (bound_texture_cube_map unit) (Some a)
  else mkTextureUnit target (bound_texture_2d unit) (bound_texture_cube_map unit)
         (bound_texture_external_oes unit).

(** The end of [DoBindTexture], once there is a texture. *)
Definition bind_texture (target : Z) (info : option Z) (c : Context) : Result :=
  (do a <- of_option info ;;
   do t <- of_option (texs c !! a) ;;
   if negb (t_target_ t =? 0) && negb (t_target_ t =? target) then fail GL_INVALID_OPERATION c
   else if stream_texture_ t && negb (target =? GL_TEXTURE_EXTERNAL_OES)
   then fail GL_INVALID_OPERATION c
   else
     do c <- (if t_target_ t =? 0 then
                do m <- SetInfoTarget fi a target (texture_manager (group c)) ;;
                Done (with_textures m c)
              else Done c) ;;
     let c := gl (glBindTexture target (t_service_id_ t)) c in
     let b := bindings c in
     do unit <- of_option (zget (texture_units_ b) (active_texture_unit_ b)) ;;
     do units <- of_option (zset (texture_units_ b) (active_texture_unit_ b) (bind target a unit)) ;;
     Done (with_bindings (mkBindings units (active_texture_unit_ b) (bound_draw_framebuffer_ b)
             (bound_read_framebuffer_ b) (bound_renderbuffer_ b)) c))%gpu.

Definition with_texture_ids (ids : Reused.IdAllocator) (c : Context) : Context :=
  let g := group c in
  with_group (mkGroup (texture_manager g) (renderbuffer_manager g) (framebuffer_manager g) ids
    (renderbuffer_ids g) (framebuffer_ids g)) c.

Definition DoBindTexture (env : Answers) (target client_id : Z) (c : Context) : Result :=
  if negb (client_id =? 0) then
    match GetTextureInfo client_id (texture_manager (group c)) with
    | Some a => bind_texture target (Some a) c
    | None =>
        if negb (bind_generates_resource cfg) then fail GL_INVALID_VALUE c
        else
          let service_id := generated_id env in
          let c := gl (glGenTextures service_id) c in
          let m := CreateTextureInfo fi client_id service_id (texture_manager (group c)) in
          let c := with_textures m c in
          let c := with_texture_ids (snd (Reused.MarkAsUsed client_id (texture_ids (group c)))) c in
          bind_texture target (GetTextureInfo client_id m) c
    end
  else bind_texture target (GetDefaultTextureInfo target (texture_manager (group c))) c.

Definition HandleBindTexture (env : Answers) (target texture : Z) (c : Context) : Result :=
  if negb (valid Validator.texture_bind_target target) then fail GL_INVALID_ENUM c
  else DoBindTexture env target texture c.

(** ** Parameters *)

(** The four functions differ in the call of the driver, and in how the number is got that the
    texture keeps. *)
Definition DoTexParameter (call : GLCall) (target pname param : Z) (c : Context) : Result :=
  (do info <- GetTextureInfoForTarget target c ;;
   match info with
   | None => fail GL_INVALID_VALUE c
   | Some (a, _) =>
       do (ok, m) <- SetParameter fi a pname param (texture_manager (group c)) ;;
       let c := with_textures m c in
       if negb ok then fail GL_INVALID_ENUM c
       else Done (gl call c)
   end)%gpu.

Definition DoTexParameteri (target pname param : Z) : Context -> Result :=
  DoTexParameter (glTexParameteri target pname param) target pname param.

Definition HandleTexParameteri (target pname param : Z) (c : Context) : Result :=
  if negb (valid Validator.texture_bind_target target) then fail GL_INVALID_ENUM c
  else if negb (valid Validator.texture_parameter pname) then fail GL_INVALID_ENUM c
  else DoTexParameteri target pname param c.

Definition DoGenerateMipmap (target : Z) (c : Context) : Result :=
  (do info <- GetTextureInfoForTarget target c ;;
   match info with
   | None => fail GL_INVALID_OPERATION c
   | Some (a, _) =>
       do (ok, m) <- MarkMipmapsGenerated fi a (texture_manager (group c)) ;;
       let c := with_textures m c in
       if negb ok then fail GL_INVALID_OPERATION c
       else
         do t <- of_option (texs c !! a) ;;
         let c := gl (glTexParameteri target GL_TEXTURE_MIN_FILTER GL_NEAREST_MIPMAP_NEAREST) c in
         let c := gl (glGenerateMipmapEXT target) c in
         Done (gl (glTexParameteri target GL_TEXTURE_MIN_FILTER (min_filter_ (params t))) c)
   end)%gpu.

Definition HandleGenerateMipmap (target : Z) (c : Context) : Result :=
  if negb (valid Validator.texture_bind_target target) then fail GL_INVALID_ENUM c
  else DoGenerateMipmap target c.

Definition HandlePixelStorei (pname param : Z) (c : Context) : Result :=
  if negb (valid Validator.pixel_store pname) then fail GL_INVALID_ENUM c
  else if negb (valid Validator.pixel_store_alignment param) then fail GL_INVALID_VALUE c
  else
    let c := gl (glPixelStorei pname param) c in
    Done (if pname =? GL_PACK_ALIGNMENT then with_alignment param (unpack_alignment_ c) c
          else if pname =? GL_UNPACK_ALIGNMENT then with_alignment (pack_alignment_ c) param c
          else c).

(** ** Images *)

Definition WrappedTexImage2D
    (target level internal_format width height border format type : Z) (pixels : list Z) : GLCall :=
  let gl_internal_format :=
    if negb (egl_gles2 cfg) then
      if (format =? GL_BGRA_EXT) && (internal_format =? GL_BGRA_EXT) then GL_RGBA
      else if type =? GL_FLOAT then
        if format =? GL_RGBA then GL_RGBA32F_ARB
        else if format =? GL_RGB then GL_RGB32F_ARB else internal_format
      else if type =? GL_HALF_FLOAT_OES then
        if format =? GL_RGBA then GL_RGBA16F_ARB
        else if format =? GL_RGB then GL_RGB16F_ARB else internal_format
      else internal_format
    else internal_format in
  glTexImage2D target level gl_internal_format width height border format type pixels.

(** What [SetLevelInfo] of the texture manager is given. *)
Definition set_level (a target level : Z) (info : LevelInfo) (c : Context) : Result :=
  (do m <- SetLevelInfo fi a target level info (texture_manager (group c)) ;;
   Done (with_textures m c))%gpu.

Definition zeros (n : Z) : list Z := replicate (Z.to_nat n) 0.

(** [pixels] is [None] for a null pointer. *)
Definition DoTexImage2D (env : Answers)
    (target level internal_format width height border format type : Z) (pixels : option (list Z))
    (pixels_size : Z) (c : Context) : Result :=
  if negb (valid Validator.texture_target target) then fail GL_INVALID_ENUM c
  else if negb (valid Validator.texture_format internal_format) then fail GL_INVALID_ENUM c
  else if negb (valid Validator.texture_format format) then fail GL_INVALID_ENUM c
  else if negb (valid Validator.pixel_type type) then fail GL_INVALID_ENUM c
  else if negb (format =? internal_format) then fail GL_INVALID_OPERATION c
  else if negb (ValidForTarget fi target level width height 1 (texture_manager (group c))) ||
          negb (border =? 0)
  then fail GL_INVALID_VALUE c
  else
    (do info <- GetTextureInfoForTarget target c ;;
     match info with
     | None => fail GL_INVALID_OPERATION c
     | Some (a, t) =>
         let level_is_same :=
           match GetLevelSize target level t, GetLevelType target level t with
           | Some (tex_width, tex_height), Some (tex_type, tex_format) =>
               (width =? tex_width) && (height =? tex_height) && (type =? tex_type) &&
               (format =? tex_format)
           | _, _ => false
           end in
         match pixels, level_is_same with
         | None, true => Done (with_failed false c)
         | _, _ =>
             let pixels := default (zeros pixels_size) pixels in
             let c := if IsAttachedToFramebuffer t then with_dirty true c else c in
             if negb (teximage2d_faster_than_texsubimage2d_ cfg) && level_is_same then
               Done (with_failed false
                 (gl (glTexSubImage2D target level 0 0 width height format type pixels) c))
             else
               let c := gl (WrappedTexImage2D target level internal_format width height border
                              format type pixels) c in
               if peek_gl_error env =? GL_NO_ERROR then
                 do c <- set_level a target level
                           (mkLevelInfo true internal_format width height 1 border format type) c ;;
                 Done (with_failed false c)
               else fail (peek_gl_error env) c
         end
     end)%gpu.

(** The bytes at a pointer into shared memory: [None] is the null pointer. *)
Definition GetSharedMemoryAs (shm_id shm_offset size : Z) d : outcome (option (list Z)) :=
  match GetAddressAndCheckSize shm_id shm_offset size d with
  | None => Done None
  | Some a => (do bytes <- of_option (mem_read d a size) ;; Done (Some bytes))%gpu
  end.

(** [immediate] is what follows the command's struct. *)
Definition GetImmediateDataAs (size : Z) (immediate : list Z) : outcome (option (list Z)) :=
  if size <=? zlen immediate then
    (do bytes <- of_option (zread immediate 0 size) ;; Done (Some bytes))%gpu
  else Done None.

Definition HandleTexImage2D (env : Answers)
    (target level internal_format width height border format type pixels_shm_id pixels_shm_offset : Z)
    d c : outcome (Error * Context) :=
  let c := with_failed true c in
  match ComputeImageDataSize width height format type (unpack_alignment_ c) with
  | None => Done (kOutOfBounds, c)
  | Some pixels_size =>
      let upload pixels :=
        (do c <- DoTexImage2D env target level internal_format width height border format type
                   pixels pixels_size c ;;
         Done (kNoError, c))%gpu in
      if negb (pixels_shm_id =? 0) || negb (pixels_shm_offset =? 0) then
        (do pixels <- GetSharedMemoryAs pixels_shm_id pixels_shm_offset pixels_size d ;;
         match pixels with
         | None => Done (kOutOfBounds, c)
         | Some _ => upload pixels
         end)%gpu
      else upload None
  end.

Definition HandleTexImage2DImmediate (env : Answers)
    (target level internal_format width height border format type : Z) (immediate : list Z) c
    : outcome (Error * Context) :=
  match ComputeImageDataSize width height format type (unpack_alignment_ c) with
  | None => Done (kOutOfBounds, c)
  | Some size =>
      (do pixels <- GetImmediateDataAs size immediate ;;
       match pixels with
       | None => Done (kOutOfBounds, c)
       | Some _ =>
           do c <- DoTexImage2D env target level internal_format width height border format type
                     pixels size c ;;
           Done (kNoError, c)
       end)%gpu
  end.

Definition DoTexSubImage2D
    (target level xoffset yoffset width height format type : Z) (data : list Z) (c : Context) : Result :=
  (do info <- GetTextureInfoForTarget target c ;;
   match info with
   | None => fail GL_INVALID_OPERATION c
   | Some (_, t) =>
       match GetLevelType target level t with
       | None => fail GL_INVALID_OPERATION c
       | Some (current_type, internal_format) =>
           if negb (format =? internal_format) then fail GL_INVALID_OPERATION c
           else if negb (type =? current_type) then fail GL_INVALID_OPERATION c
           else if negb (ValidForTexture target level xoffset yoffset width height format type t)
           then fail GL_INVALID_VALUE c
           else
             let '(tex_width, tex_height) := default (0, 0) (GetLevelSize target level t) in
             if teximage2d_faster_than_texsubimage2d_ cfg && (xoffset =? 0) && (yoffset =? 0) &&
                (width =? tex_width) && (height =? tex_height)
             then Done (gl (WrappedTexImage2D target level format width height 0 format type data) c)
             else Done (gl (glTexSubImage2D target level xoffset yoffset width height format type
                              data) c)
       end
   end)%gpu.

(** The checks between the reading of the arguments and [DoTexSubImage2D]. *)
Definition checked_sub_image
    (target level xoffset yoffset width height format type : Z) (pixels : option (list Z)) c
    : outcome (Error * Context) :=
  let error e := Done (kNoError, SetGLError e c) in
  if negb (valid Validator.texture_target target) then error GL_INVALID_ENUM
  else if width <? 0 then error GL_INVALID_VALUE
  else if height <? 0 then error GL_INVALID_VALUE
  else if negb (valid Validator.texture_format format) then error GL_INVALID_ENUM
  else if negb (valid Validator.pixel_type type) then error GL_INVALID_ENUM
  else
    match pixels with
    | None => Done (kOutOfBounds, c)
    | Some data =>
        (do c <- DoTexSubImage2D target level xoffset yoffset width height format type data c ;;
         Done (kNoError, c))%gpu
    end.

Definition HandleTexSubImage2D
    (target level xoffset yoffset width height format type pixels_shm_id pixels_shm_offset : Z)
    (internal : Z) d c : outcome (Error * Context) :=
  if (internal =? GL_TRUE) && tex_image_2d_failed_ c then Done (kNoError, c)
  else
    match ComputeImageDataSize width height format type (unpack_alignment_ c) with
    | None => Done (kOutOfBounds, c)
    | Some data_size =>
        (do pixels <- GetSharedMemoryAs pixels_shm_id pixels_shm_offset data_size d ;;
         checked_sub_image target level xoffset yoffset width height format type pixels c)%gpu
    end.

Definition HandleTexSubImage2DImmediate
    (target level xoffset yoffset width height format type internal : Z) (immediate : list Z) c
    : outcome (Error * Context) :=
  if (internal =? GL_TRUE) && tex_image_2d_failed_ c then Done (kNoError, c)
  else
    match ComputeImageDataSize width height format type (unpack_alignment_ c) with
    | None => Done (kOutOfBounds, c)
    | Some data_size =>
        (do pixels <- GetImmediateDataAs data_size immediate ;;
         checked_sub_image target level xoffset yoffset width height format type pixels c)%gpu
    end.

(** ** Compressed images *)

(** Without data the image is made of [new int8[image_size]], which does not return when
    the size is negative. *)
Definition DoCompressedTexImage2D (env : Answers)
    (target level internal_format width height border image_size : Z) (data : option (list Z))
    (c : Context) : Result :=
  if negb (valid Validator.texture_target target) then fail GL_INVALID_ENUM c
  else if negb (valid Validator.compressed_texture_format internal_format)
  then fail GL_INVALID_ENUM c
  else if negb (ValidForTarget fi target level width height 1 (texture_manager (group c))) ||
          negb (border =? 0)
  then fail GL_INVALID_VALUE c
  else
    (do info <- GetTextureInfoForTarget target c ;;
     match info with
     | None => fail GL_INVALID_VALUE c
     | Some (a, _) =>
         do data <- match data with
                    | Some data => Done data
                    | None => if image_size <? 0 then UB else Done (zeros image_size)
                    end ;;
         let c := gl (glCompressedTexImage2D target level internal_format width height border
                        data) c in
         if peek_gl_error env =? GL_NO_ERROR then
           set_level a target level
             (mkLevelInfo true internal_format width height 1 border 0 0) c
         else fail (peek_gl_error env) c
     end)%gpu.

Definition HandleCompressedTexImage2D (env : Answers)
    (target level internal_format width height border image_size data_shm_id data_shm_offset : Z)
    d c : outcome (Error * Context) :=
  let upload data :=
    (do c <- DoCompressedTexImage2D env target level internal_format width height border
               image_size data c ;;
     Done (kNoError, c))%gpu in
  if negb (data_shm_id =? 0) || negb (data_shm_offset =? 0) then
    (do data <- GetSharedMemoryAs data_shm_id data_shm_offset (u32 image_size) d ;;
     match data with
     | None => Done (kOutOfBounds, c)
     | Some _ => upload data
     end)%gpu
  else upload None.

Definition HandleCompressedTexImage2DImmediate (env : Answers)
    (target level internal_format width height border image_size : Z) (immediate : list Z) c
    : outcome (Error * Context) :=
  (do data <- GetImmediateDataAs (u32 image_size) immediate ;;
   match data with
   | None => Done (kOutOfBounds, c)
   | Some _ =>
       do c <- DoCompressedTexImage2D env target level internal_format width height border
                 image_size data c ;;
       Done (kNoError, c)
   end)%gpu.

(** The whole of a bucket, when there is one and it is not empty. *)
Definition bucket_bytes (bucket_id : Z) d : outcome (option (list Z)) :=
  match GetBucket bucket_id d with
  | None => Done None
  | Some b =>
      match GetData 0 (CommonDecoder.size_ b) b, CommonDecoder.data_ b with
      | Some o, Some bytes =>
          (do bytes <- of_option (zread bytes o (CommonDecoder.size_ b)) ;; Done (Some bytes))%gpu
      | _, _ => Done None
      end
  end.

Definition HandleCompressedTexImage2DBucket (env : Answers)
    (target level internal_format width height border bucket_id : Z) d c
    : outcome (Error * Context) :=
  (do data <- bucket_bytes bucket_id d ;;
   match data with
   | None => Done (kInvalidArguments, c)
   | Some bytes =>
       do c <- DoCompressedTexImage2D env target level internal_format width height border
                 (i32 (zlen bytes)) data c ;;
       Done (kNoError, c)
   end)%gpu.

Definition DoCompressedTexSubImage2D
    (target level xoffset yoffset width height format : Z) (data : list Z) (c : Context) : Result :=
  (do info <- GetTextureInfoForTarget target c ;;
   match info with
   | None => fail GL_INVALID_OPERATION c
   | Some (_, t) =>
       match GetLevelType target level t with
       | None => fail GL_INVALID_OPERATION c
       | Some (type, internal_format) =>
           if negb (internal_format =? format) then fail GL_INVALID_OPERATION c
           else if negb (ValidForTexture target level xoffset yoffset width height format type t)
           then fail GL_INVALID_VALUE c
           else Done (gl (glCompressedTexSubImage2D target level xoffset yoffset width height format
                            data) c)
       end
   end)%gpu.

Definition HandleCompressedTexSubImage2D
    (target level xoffset yoffset width height format imageSize data_shm_id data_shm_offset : Z)
    d c : outcome (Error * Context) :=
  let error e := Done (kNoError, SetGLError e c) in
  (do data <- GetSharedMemoryAs data_shm_id data_shm_offset (u32 imageSize) d ;;
   if negb (valid Validator.texture_target target) then error GL_INVALID_ENUM
   else if width <? 0 then error GL_INVALID_VALUE
   else if height <? 0 then error GL_INVALID_VALUE
   else if negb (valid Validator.compressed_texture_format format) then error GL_INVALID_ENUM
   else if imageSize <? 0 then error GL_INVALID_VALUE
   else
     match data with
     | None => Done (kOutOfBounds, c)
     | Some data =>
         do c <- DoCompressedTexSubImage2D target level xoffset yoffset width height format data c ;;
         Done (kNoError, c)
     end)%gpu.

Definition HandleCompressedTexSubImage2DBucket
    (target level xoffset yoffset width height format bucket_id : Z) d c
    : outcome (Error * Context) :=
  let error e := Done (kNoError, SetGLError e c) in
  (do data <- bucket_bytes bucket_id d ;;
   match data with
   | None => Done (kInvalidArguments, c)
   | Some data =>
       if negb (valid Validator.texture_target target) then error GL_INVALID_ENUM
       else if negb (valid Validator.compressed_texture_format format) then error GL_INVALID_ENUM
       else if width <? 0 then error GL_INVALID_VALUE
       else if height <? 0 then error GL_INVALID_VALUE
       else if i32 (zlen data) <? 0 then error GL_INVALID_VALUE
       else
         do c <- DoCompressedTexSubImage2D target level xoffset yoffset width height format data c ;;
         Done (kNoError, c)
   end)%gpu.

(** ** Copies out of the framebuffer *)

(** The part of [start .. start + range) that is in [0 .. sourceRange). *)
Definition Clip (start range sourceRange : Z) : Z * Z :=
  let '(start, range) := if start <? 0 then (0, i32 (range + start)) else (start, range) in
  let stop := i32 (start + range) in
  (start, if stop >? sourceRange then i32 (range - (stop - sourceRange)) else range).

(** The channels that a format needs are among those of the framebuffer. *)
Definition channels_compatible (internal_format : Z) (c : Context) : outcome bool :=
  (do read_format <- GetBoundReadFrameBufferInternalFormat cfg c ;;
   let channels_exist := GetChannelsForFormat read_format in
   let channels_needed := GetChannelsForFormat internal_format in
   Done (Z.land channels_needed channels_exist =? channels_needed))%gpu.

(** The framebuffer that is bound while the copy is made is the one of the state; the
    resolving of a multisampled one leaves nothing behind. *)
Definition DoCopyTexImage2D (env : Answers)
    (target level internal_format x y width height border : Z) (c : Context) : Result :=
  (do info <- GetTextureInfoForTarget target c ;;
   match info with
   | None => fail GL_INVALID_OPERATION c
   | Some (a, t) =>
       if negb (ValidForTarget fi target level width height 1 (texture_manager (group c))) ||
          negb (border =? 0)
       then fail GL_INVALID_VALUE c
       else
         do compatible <- channels_compatible internal_format c ;;
         if negb compatible then fail GL_INVALID_OPERATION c
         else
           do (size_w, size_h) <- GetBoundReadFrameBufferSize cfg c ;;
           let c := if IsAttachedToFramebuffer t then with_dirty true c else c in
           let '(copyX, copyWidth) := Clip x width size_w in
           let '(copyY, copyHeight) := Clip y height size_h in
           let finish c :=
             (if peek_gl_error env =? GL_NO_ERROR then
                set_level a target level
                  (mkLevelInfo true internal_format width height 1 border internal_format
                     GL_UNSIGNED_BYTE) c
              else fail (peek_gl_error env) c) in
           if negb (copyX =? x) || negb (copyY =? y) || negb (copyWidth =? width) ||
              negb (copyHeight =? height)
           then
             match ComputeImageDataSize width height internal_format GL_UNSIGNED_BYTE
                     (unpack_alignment_ c) with
             | None => fail GL_INVALID_VALUE c
             | Some pixels_size =>
                 let c := gl (glTexImage2D target level internal_format width height 0
                                internal_format GL_UNSIGNED_BYTE (zeros pixels_size)) c in
                 finish (if (copyHeight >? 0) && (copyWidth >? 0)
                         then gl (glCopyTexSubImage2D target level (i32 (copyX - x)) (i32 (copyY - y))
                                    copyX copyY copyWidth copyHeight) c
                         else c)
             end
           else finish (gl (glCopyTexImage2D target level internal_format copyX copyY copyWidth
                              copyHeight border) c)
   end)%gpu.

Definition HandleCopyTexImage2D (env : Answers)
    (target level internalformat x y width height border : Z) (c : Context) : Result :=
  if negb (valid Validator.texture_target target) then fail GL_INVALID_ENUM c
  else if negb (valid Validator.texture_internal_format internalformat) then fail GL_INVALID_ENUM c
  else if width <? 0 then fail GL_INVALID_VALUE c
  else if height <? 0 then fail GL_INVALID_VALUE c
  else if negb (valid Validator.texture_border border) then fail GL_INVALID_VALUE c
  else DoCopyTexImage2D env target level internalformat x y width height border c.

Definition DoCopyTexSubImage2D
    (target level xoffset yoffset x y width height : Z) (c : Context) : Result :=
  (do info <- GetTextureInfoForTarget target c ;;
   match info with
   | None => fail GL_INVALID_OPERATION c
   | Some (_, t) =>
       match GetLevelType target level t with
       | None => fail GL_INVALID_VALUE c
       | Some (type, format) =>
           if negb (ValidForTexture target level xoffset yoffset width height format type t)
           then fail GL_INVALID_VALUE c
           else
             do compatible <- channels_compatible format c ;;
             if negb compatible then fail GL_INVALID_OPERATION c
             else
               do (size_w, size_h) <- GetBoundReadFrameBufferSize cfg c ;;
               let '(copyX, copyWidth) := Clip x width size_w in
               let '(copyY, copyHeight) := Clip y height size_h in
               let finish c :=
                 if (copyHeight >? 0) && (copyWidth >? 0)
                 then gl (glCopyTexSubImage2D target level (i32 (xoffset + i32 (copyX - x)))
                            (i32 (yoffset + i32 (copyY - y))) copyX copyY copyWidth copyHeight) c
                 else c in
               if negb (copyX =? x) || negb (copyY =? y) || negb (copyWidth =? width) ||
                  negb (copyHeight =? height)
               then
                 match ComputeImageDataSize width height format type (unpack_alignment_ c) with
                 | None => fail GL_INVALID_VALUE c
                 | Some pixels_size =>
                     Done (finish (gl (glTexSubImage2D target level xoffset yoffset width height
                                         format type (zeros pixels_size)) c))
                 end
               else Done (finish c)
       end
   end)%gpu.

Definition HandleCopyTexSubImage2D
    (target level xoffset yoffset x y width height : Z) (c : Context) : Result :=
  if negb (valid Validator.texture_target target) then fail GL_INVALID_ENUM c
  else if width <? 0 then fail GL_INVALID_VALUE c
  else if height <? 0 then fail GL_INVALID_VALUE c
  else DoCopyTexSubImage2D target level xoffset yoffset x y width height c.

End handlers.

(** ** What is valid *)

Section lemmas.
Context `{Platform} {E : Type} `{CommandBufferEngine E}.
Variables (cfg : Config) (driver : Driver).
Hypothesis features : feature_reach driver (feature_info_ cfg).
Implicit Types (c : Context) (d : CommonDecoder.Decoder E).

Notation fi := (feature_info_ cfg).
Notation ok := (context_ok cfg).
Notation keeps := (keeps cfg).
Notation good := (good cfg).
Notation answers := (answers cfg).

Lemma valid_texture_target target :
  valid cfg Validator.texture_target target = true -> target ∈ GL_TEXTURE_2D :: cube_faces.
Proof. intros H1%(valid_possible _ _ features). exact H1. Qed.

Lemma valid_alignment param :
  valid cfg Validator.pixel_store_alignment param = true -> param ∈ [1; 2; 4; 8].
Proof. intros H1%(valid_possible _ _ features). exact H1. Qed.

Lemma valid_bind_target c target :
  ok c -> valid cfg Validator.texture_bind_target target = true -> target ∈ bind_targets.
Proof.
  intros Hc Hv. destruct (ctx_default _ _ Hc target Hv) as (a & Ha & _).
  unfold GetDefaultTextureInfo in Ha. unfold bind_targets. rewrite !elem_of_cons.
  repeat case_match; zbool; auto; done.
Qed.

(** ** The texture that is bound *)

(** The target whose binding [GetTextureInfoForTarget] reads. *)
Definition bind_target_of (target : Z) : Z :=
  if target =? GL_TEXTURE_2D then GL_TEXTURE_2D
  else if is_case target (GL_TEXTURE_CUBE_MAP :: cube_faces) then GL_TEXTURE_CUBE_MAP
  else GL_TEXTURE_EXTERNAL_OES.

Lemma GetTextureInfoForTarget_ok c target :
  ok c -> exists r, GetTextureInfoForTarget target c = Done r /\
    match r with
    | Some (a, t) => texs c !! a = Some t /\ deleted_ t = false /\ texture_kind t /\
        t_target_ t = bind_target_of target /\ level_infos_ t <> []
    | None => True
    end.
Proof.
  intros Hc. unfold GetTextureInfoForTarget.
  destruct (zget_in (texture_units_ (bindings c)) (active_texture_unit_ (bindings c))) as [unit Hu].
  { rewrite (ctx_units _ _ Hc). apply Hc. }
  rewrite Hu. cbn [of_option obind].
  destruct (bound_texture target unit) as [a|] eqn:Eb; [|by exists None].
  assert (bound_to (texs c) (bind_target_of target) a) as (t & Ha & Ht).
  { destruct (ctx_unit _ _ Hc unit) as (H2 & Hcb & Hx); [apply elem_of_zget; eauto|].
    unfold bound_texture, bind_target_of in *. repeat case_match; auto; done. }
  rewrite Ha. cbn [of_option obind]. destruct (deleted_ t) eqn:Ed; [by exists None|].
  exists (Some (a, t)). pose proof (ctx_kind _ _ Hc a t Ha) as Hk. split_and!; [done..|].
  destruct Hk as (_ & [(Hz & _)|[_ ?]]); [|done]. rewrite Ht in Hz. unfold bind_target_of in Hz.
  by repeat case_match.
Qed.

Lemma level_target_bound target t :
  target ∈ GL_TEXTURE_2D :: cube_faces -> t_target_ t = bind_target_of target ->
  level_infos_ t <> [] -> level_target target t.
Proof.
  unfold level_target. intros Ht -> Hl. split; [done|]. apply elem_of_cons in Ht as [->|Ht]; [by left|]. right.
  split; [done|]. unfold bind_target_of. destruct (cube_face_cases target Ht) as (_ & H2 & _).
  rewrite (proj2 (Z.eqb_neq target GL_TEXTURE_2D) H2).
  by rewrite (proj2 (is_case_true target _)) by (apply elem_of_cons; by right).
Qed.

(** ** Changes of the bound texture *)

Lemma good_set_level c a t target level info :
  ok c -> texs c !! a = Some t -> texture_kind t -> level_target target t -> l_valid info = true ->
  ValidForTarget fi target level (l_width info) (l_height info) (l_depth info)
    (texture_manager (group c)) = true ->
  exists c', set_level cfg a target level info c = Done c' /\ ok c' /\ gl_calls c' = gl_calls c /\
    (state_dirty_ c = true \/ framebuffer_attachment_count_ t < 1 -> keeps c c').
Proof.
  intros Hc Ha Hk Ht Hv HV. unfold set_level.
  destruct (SetLevelInfo_manager_ok fi _ _ a t target level info (ctx_textures _ _ Hc) Ha Ht Hv HV)
    as (n & t' & -> & Hok & Hrel & Hlen). cbn [obind]. eexists. split; [done|].
  assert (framebuffer_attachment_count_ t' = framebuffer_attachment_count_ t /\
    t_target_ t' = t_target_ t) as [Hcount Htg] by (by destruct Hrel as (? & ? & ? & ? & ? & ->)).
  assert (forall dirty, dirty = true \/ framebuffer_attachment_count_ t < 1 ->
    textures_step dirty (texture_manager (group c)) (with_count n (with_texture a t' (texture_manager (group c)))))
    as Hstep.
  { intros dirty Hd. eapply textures_step_set; [apply Hc|done|lia|done|naive_solver|].
    destruct Hk as (Hk0 & Hk). split; [lia|]. right. rewrite Htg.
    destruct Hk as [(_ & Hl & _)|(? & Hl)]; [by destruct Ht|]. split; [done|].
    intros He. rewrite He in Hlen. destruct (level_infos_ t); [done|]. by rewrite zlen_cons in Hlen; unfold zlen in Hlen; simpl in Hlen; lia. }
  split; [|split; [done|]].
  - eapply (context_ok_textures _ true); [done|done|]. apply Hstep. by left.
  - intros Hd. apply keeps_textures; [done|done|]. by apply Hstep.
Qed.

(** A call that changes one texture and is then told to the driver. *)
Lemma keeps_set c a t t' n :
  ok c -> texs c !! a = Some t ->
  textures_ok fi (uncounted fi) (with_count n (with_texture a t' (texture_manager (group c)))) ->
  framebuffer_attachment_count_ t' = framebuffer_attachment_count_ t ->
  (t_target_ t <> 0 -> t_target_ t' = t_target_ t) ->
  (state_dirty_ c = true \/ framebuffer_attachment_count_ t < 1 \/
     forall face, GetLevelType face 0 t' = GetLevelType face 0 t) -> texture_kind t' ->
  keeps c (with_textures (with_count n (with_texture a t' (texture_manager (group c)))) c).
Proof.
  intros Hc Ha Hok Hn Ht Hf Hk. apply keeps_textures; [done|done|].
  eapply textures_step_set; [apply Hc|done|lia|done..].
Qed.

Lemma DoTexParameter_good c call target pname param :
  ok c -> quiet call = true -> (forall n, upload_ok n call) -> good c (DoTexParameter cfg call target pname param c).
Proof.
  intros Hc Hq Hu. unfold DoTexParameter.
  destruct (GetTextureInfoForTarget_ok c target Hc) as ([[a t]|] & -> & Hr); cbn [obind];
    [|by apply good_fail]. destruct Hr as (Ha & _ & Hk & Ht & Hl).
  destruct (SetParameter_manager_ok fi _ _ a t pname param (ctx_textures _ _ Hc) Ha)
    as (r & n & t' & -> & Hok & p & x & y & z & Hp). cbn [obind].
  assert (keeps c (with_textures (with_count n (with_texture a t' (texture_manager (group c)))) c)) as Hs.
  { eapply keeps_set; [done|done|done|by subst..| |by subst]. right. right. by subst. }
  destruct r; simpl; [|by eapply good_after; [done|apply good_fail, Hs]].
  apply good_done. eapply context_keeps_trans; [done|]. by apply keeps_gl; [apply Hs|..].
Qed.

Lemma DoTexParameteri_good c target pname param : ok c -> good c (DoTexParameteri cfg target pname param c).
Proof. intros Hc. by apply DoTexParameter_good. Qed.

Lemma HandleTexParameteri_good c target pname param :
  ok c -> good c (HandleTexParameteri cfg target pname param c).
Proof.
  intros Hc. unfold HandleTexParameteri. repeat case_match; auto using good_fail, DoTexParameteri_good.
Qed.

Lemma same_firsts_format t t' face :
  same_firsts t t' -> deleted_ t' = deleted_ t -> GetLevelType face 0 t' = GetLevelType face 0 t.
Proof.
  intros [Hlen Hf] Hd. unfold GetLevelType, checked_level. rewrite Hlen, Hd.
  destruct (_ && _) eqn:Ei; [|done]. set (i := GLTargetToFaceIndex face) in *.
  assert (forall l : list LevelInfo, (if 0 <? zlen l then zget l 0 else None) = zget l 0) as Hz.
  { intros l. destruct (0 <? zlen l) eqn:El; [done|]. zbool. destruct (zget l 0) eqn:Eg; [|done].
    apply zget_range in Eg. lia. }
  destruct (zget (level_infos_ t) i) as [l|] eqn:El; simpl.
  - destruct (Hf i l El) as (l' & -> & Hl'). simpl. by rewrite !Hz, Hl'.
  - destruct (zget (level_infos_ t') i) as [l'|] eqn:El'; [|done]. exfalso.
    apply zget_range in El'. destruct (zget_in (level_infos_ t) i) as [x Hx]; [lia|]. congruence.
Qed.

Lemma DoGenerateMipmap_good c target : ok c -> good c (DoGenerateMipmap cfg target c).
Proof.
  intros Hc. unfold DoGenerateMipmap.
  destruct (GetTextureInfoForTarget_ok c target Hc) as ([[a t]|] & -> & Hr); cbn [obind];
    [|by apply good_fail]. destruct Hr as (Ha & _ & Hk & Ht & Hl).
  destruct (MarkMipmapsGenerated_manager_ok fi _ _ a t (ctx_textures _ _ Hc) Ha)
    as (r & n & t' & -> & Hok & Hrel & Hfirst). cbn [obind].
  assert (framebuffer_attachment_count_ t' = framebuffer_attachment_count_ t /\
    t_target_ t' = t_target_ t /\ deleted_ t' = deleted_ t) as (Hn & Htg & Hd)
    by (by destruct Hrel as (? & ? & ? & ? & ? & ->)).
  assert (keeps c (with_textures (with_count n (with_texture a t' (texture_manager (group c)))) c)) as Hs.
  { eapply keeps_set; [done|done|done|done|done| |].
    - right. right. intros face. by apply same_firsts_format.
    - destruct Hk as (? & [(? & ? & _)|(? & _)]); [done|]. split; [lia|]. right. rewrite Htg.
      split; [done|]. destruct Hfirst as [Hlen _]. intros He. apply Hl, nil_length_inv.
      rewrite He in Hlen. unfold zlen in Hlen. simpl in Hlen. lia. }
  destruct r; simpl; [|by eapply good_after; [done|apply good_fail, Hs]].
  unfold texs. simpl. rewrite lookup_insert_eq. cbn [of_option obind].
  apply good_done. eapply context_keeps_trans; [done|]. destruct Hs as [Hs _].
  do 3 (eapply context_keeps_trans; [|apply keeps_gl; [|done|done]]; [|by repeat apply context_ok_gl]).
  by apply keeps_refl.
Qed.

Lemma HandleGenerateMipmap_good c target : ok c -> good c (HandleGenerateMipmap cfg target c).
Proof.
  intros Hc. unfold HandleGenerateMipmap. case_match; auto using good_fail, DoGenerateMipmap_good.
Qed.

Lemma HandlePixelStorei_good c pname param : ok c -> good c (HandlePixelStorei cfg pname param c).
Proof.
  intros Hc. unfold HandlePixelStorei. destruct (negb _) eqn:?; [by apply good_fail|].
  destruct (valid cfg Validator.pixel_store_alignment param) eqn:Ev; simpl; [|by apply good_fail].
  apply valid_alignment in Ev. apply good_done. set (call := glPixelStorei pname param).
  assert (forall pack unpack, pack ∈ [1; 2; 4; 8] -> unpack ∈ [1; 2; 4; 8] ->
    unpack_after (unpack_alignment_ c) call = unpack -> pack_after (pack_alignment_ c) call = pack ->
    keeps c (with_alignment pack unpack (gl call c))) as Hk.
  { intros pack unpack Hp Hu Eu Ep. split.
    - destruct Hc as [? ? ? ? ? ? ? ? ? ? ? ? ? ? Hal Hup ? Hpk Hcl]. split; try done; simpl.
      + by rewrite driver_unpack_snoc, Hal.
      + by apply uploads_ok_snoc.
      + by rewrite driver_pack_snoc, Hpk.
      + by rewrite driver_clear_app, Hcl.
    - intros Hm Hdirty. change (wanted_masks cfg (with_alignment pack unpack (gl call c))) with (wanted_masks cfg c).
      rewrite (Hm Hdirty). unfold driver_masks. simpl. by rewrite fold_left_app. }
  assert (c = with_alignment (pack_alignment_ c) (unpack_alignment_ c) c) as Hsame by by destruct c.
  simpl in Hk. destruct (pname =? GL_PACK_ALIGNMENT) eqn:Ep; zbool.
  - subst pname. by apply Hk; [|apply Hc|..].
  - destruct (pname =? GL_UNPACK_ALIGNMENT) eqn:Eu; zbool.
    + subst pname. by apply Hk; [apply Hc|..].
    + by apply (Hk (pack_alignment_ c) (unpack_alignment_ c)); [apply Hc..| |].
Qed.

Lemma DoActiveTexture_good c unit : ok c -> good c (DoActiveTexture cfg unit c).
Proof.
  intros Hc. unfold DoActiveTexture. destruct (_ >=? _) eqn:Et; [by apply good_fail|]. zbool.
  pose proof (u32_range (unit - GL_TEXTURE0)) as Hu. unfold is_u32 in Hu.
  apply good_done.
  assert (keeps c (with_bindings (mkBindings (texture_units_ (bindings c)) (u32 (unit - GL_TEXTURE0))
    (bound_draw_framebuffer_ (bindings c)) (bound_read_framebuffer_ (bindings c))
    (bound_renderbuffer_ (bindings c))) c)) as Hk
    by (apply keeps_units; [done|apply Hc|apply Hc|lia]).
  eapply context_keeps_trans; [done|]. by apply keeps_gl; [apply Hk|..].
Qed.

(** ** Names *)

Lemma step_new dirty m id service_id :
  textures_ok fi (uncounted fi) m -> (forall a t, textures m !! a = Some t -> texture_kind t) ->
  textures_step dirty m (CreateTextureInfo fi id service_id m).
Proof.
  intros Hok Hk. split; [done| |]; simpl.
  - intros a t Ha. exists t. destruct (ok_texture _ _ _ Hok a t Ha) as [Hlt _].
    rewrite lookup_insert_ne by lia. split_and!; [done|lia|done|auto].
  - intros a t. rewrite lookup_insert_Some. intros [[<- <-]|[_ Ha]]; [|by eapply Hk].
    split; [done|]. left. done.
Qed.

Lemma keeps_create c id service_id :
  ok c -> keeps c (with_textures (CreateTextureInfo fi id service_id (texture_manager (group c))) c).
Proof.
  intros Hc. apply keeps_textures; [done|apply CreateTextureInfo_ok, Hc|].
  apply step_new; [apply Hc|apply (ctx_kind _ _ Hc)].
Qed.

Lemma GenTexturesHelper_answers c client_ids service_ids :
  ok c -> answers c (GenTexturesHelper cfg client_ids service_ids c).
Proof.
  intros Hc. unfold GenTexturesHelper. destruct (existsb _ _).
  { exists false, c. split; [done|by apply keeps_refl]. }
  eexists true, _. split; [done|].
  assert (forall l c0, ok c0 -> keeps c0 (fold_left (fun c id => gl (glGenTextures id) c) l c0)) as Hg.
  { induction l as [|x l IH]; intros c0 H0'; simpl; [by apply keeps_refl|].
    eapply context_keeps_trans; [by apply (keeps_gl cfg c0 (glGenTextures x))|]. apply IH. by apply keeps_gl. }
  specialize (Hg service_ids c Hc). eapply context_keeps_trans; [done|]. destruct Hg as [Hc1 _].
  generalize dependent (fold_left (fun c id => gl (glGenTextures id) c) service_ids c).
  induction (zip client_ids service_ids) as [|[id sid] l IH]; intros c1 Hc1; simpl.
  - by destruct c1 as [[] ? ? ? ? ? ? ? ?]; apply keeps_refl.
  - pose proof (keeps_create c1 id sid Hc1) as Hk. eapply context_keeps_trans; [done|]. apply (IH _ (proj1 Hk)).
Qed.

Lemma DeleteTexturesHelper_good client_ids c : ok c -> good c (DeleteTexturesHelper cfg client_ids c).
Proof.
  revert c. induction client_ids as [|id ids IH]; intros c Hc; cbn [DeleteTexturesHelper].
  { by apply good_done, keeps_refl. }
  destruct (GetTextureInfo id (texture_manager (group c))) as [a|] eqn:Eid; [|by apply IH].
  destruct (ok_info _ _ _ (ctx_textures _ _ Hc) id a Eid) as (t & Ha & _ & _). unfold texs. rewrite Ha.
  cbn [of_option obind]. set (c1 := if IsAttachedToFramebuffer t then with_dirty true c else c).
  assert (keeps c (gl (glDeleteTextures (t_service_id_ t)) c1)) as Hk1.
  { assert (keeps c c1) as Hk by by apply keeps_dirty_if. eapply context_keeps_trans; [done|].
    by apply keeps_gl; [apply Hk|..]. }
  set (c2 := gl _ c1) in *.
  assert (texture_manager (group c2) = texture_manager (group c)) as Htm
    by (unfold c2, c1; simpl; by case_match).
  eapply good_after; [exact Hk1|]. destruct Hk1 as [Hc2 _].
  destruct (RemoveTextureInfo_ok fi _ _ id (ctx_textures _ _ Hc2)) as (m' & Em & Hok & Hm').
  rewrite Em. cbn [obind]. rewrite Htm in Hm'. unfold GetTextureInfo in Eid. rewrite Eid in Hm'.
  destruct Hm' as (t0 & Ha0 & Hts). rewrite Ha in Ha0. injection Ha0 as <-.
  assert (keeps c2 (with_textures m' c2)) as Hk2.
  { apply keeps_textures; [done|done|]. rewrite Htm. split.
    - intros target. unfold RemoveTextureInfo in Em. rewrite Htm, Eid in Em. unfold texture in Em.
      rewrite Ha in Em. cbn [of_option obind] in Em. by injection Em as <-.
    - intros b u Hb. rewrite Hts. destruct (decide (b = a)) as [->|Hne].
      + rewrite lookup_insert_eq. exists (MarkTextureAsDeleted t). simplify_eq.
        split_and!; [done|simpl; lia|done|]. unfold c2, c1, IsAttachedToFramebuffer. simpl.
        destruct (ctx_kind _ _ Hc a t Ha) as [Hn _].
        destruct (framebuffer_attachment_count_ t =? 0) eqn:En; zbool; simpl; [right; left; lia|by left].
      + rewrite lookup_insert_ne by done. exists u. split_and!; [done|lia|done|auto].
    - intros b u. rewrite Hts. rewrite lookup_insert_Some. intros [[<- <-]|[_ Hb]].
      + apply (ctx_kind _ _ Hc a t Ha).
      + by apply (ctx_kind _ _ Hc b). }
  eapply good_after; [exact Hk2|]. apply IH, Hk2.
Qed.

Lemma SetTarget_levels target max_levels t : level_infos_ (SetTarget target max_levels t) <> [].
Proof.
  intros He%(f_equal length). unfold SetTarget in He. cbn [level_infos_] in He.
  rewrite length_map, length_resize in He. by destruct (target =? _).
Qed.

Lemma bind_texture_good c target info :
  ok c -> target ∈ bind_targets -> (forall a, info = Some a -> is_Some (texs c !! a)) -> is_Some info ->
  good c (bind_texture cfg target info c).
Proof.
  intros Hc Ht Hin [a ->]. unfold bind_texture. cbn [of_option obind].
  destruct (Hin a eq_refl) as [t Ha]. rewrite Ha. cbn [of_option obind].
  destruct (negb (t_target_ t =? 0) && negb (t_target_ t =? target)) eqn:E1; [by apply good_fail|].
  destruct (stream_texture_ t && _); [by apply good_fail|].
  pose proof (ctx_kind _ _ Hc a t Ha) as Hk.
  assert (exists c1, (if t_target_ t =? 0
      then (do m <- SetInfoTarget fi a target (texture_manager (group c)) ;; Done (with_textures m c))%gpu
      else Done c) = Done c1 /\ keeps c c1 /\ bound_to (texs c1) target a /\ bindings c1 = bindings c)
    as (c1 & -> & Hk1 & Hb & Hbind).
  { destruct (t_target_ t =? 0) eqn:E0; zbool.
    - assert (max_level_set_ t = -1) as Hm.
      { destruct Hk as (_ & [(_ & _ & ?)|[Hx _]]); [done|]. rewrite E0 in Hx. unfold bind_targets in Hx.
        by rewrite !elem_of_cons, elem_of_nil in Hx; intuition. }
      destruct (SetInfoTarget_ok fi _ _ a t target (ctx_textures _ _ Hc) Ha Hm) as (n & -> & Hok).
      cbn [obind]. eexists. split; [done|]. split; [|split; [|done]].
      + eapply keeps_set; [done|done|done|done|done| |].
        * right. right. intros face. by apply untargeted_format.
        * split; [apply Hk|]. right. split; [done|apply SetTarget_levels].
      + eexists. unfold texs. simpl. by split; [apply lookup_insert_eq|].
    - exists c. split; [done|]. split; [by apply keeps_refl|]. split; [|done]. exists t. split; [done|].
      zbool. destruct E1; by zbool. }
  cbn [obind]. set (c2 := gl _ c1). assert (keeps c1 c2) as Hk2 by (by apply keeps_gl; [apply Hk1|..]).
  eapply good_after; [eapply context_keeps_trans; [exact Hk1|exact Hk2]|]. destruct Hk2 as [Hc2 _].
  destruct (zget_in (texture_units_ (bindings c2)) (active_texture_unit_ (bindings c2))) as [unit Hu].
  { rewrite (ctx_units _ _ Hc2). apply Hc2. }
  rewrite Hu. cbn [of_option obind]. pose proof (zget_range _ _ _ Hu) as Hr.
  rewrite (zset_in _ _ _ Hr). cbn [of_option obind]. apply good_done, keeps_units; [done| | |apply Hc2].
  - unfold zlen. rewrite length_insert. apply (ctx_units _ _ Hc2).
  - intros u [i Hi]%list_elem_of_lookup. rewrite list_lookup_insert_Some in Hi.
    destruct Hi as [(_ & <- & _)|[_ Hi]]; [|apply (ctx_unit _ _ Hc2); by eapply list_elem_of_lookup_2].
    destruct (ctx_unit _ _ Hc2 unit) as (H2 & Hcb & Hx); [apply elem_of_zget; eauto|].
    unfold bind, unit_ok. unfold bind_targets in Ht. rewrite !elem_of_cons, elem_of_nil in Ht.
    destruct Ht as [->|[->|[->|[]]]]; simpl; split_and!; try done; intros ? [= <-]; exact Hb.
Qed.

Lemma HandleBindTexture_good c env target texture : ok c -> good c (HandleBindTexture cfg env target texture c).
Proof.
  intros Hc. unfold HandleBindTexture. destruct (valid _ _ _) eqn:Hv; simpl; [|by apply good_fail].
  pose proof (valid_bind_target c target Hc Hv) as Ht. unfold DoBindTexture.
  destruct (negb (texture =? 0)).
  - destruct (GetTextureInfo texture (texture_manager (group c))) as [a|] eqn:Eid.
    + apply bind_texture_good; [done|done| |done]. intros ? [= <-].
      destruct (ok_info _ _ _ (ctx_textures _ _ Hc) _ _ Eid) as (t & ? & _). by exists t.
    + destruct (negb (bind_generates_resource cfg)); [by apply good_fail|].
      set (c1 := gl (glGenTextures _) c). assert (keeps c c1) as Hk1 by (by apply keeps_gl).
      set (m := CreateTextureInfo fi texture _ _).
      assert (keeps c1 (with_textures m c1)) as Hk2 by (apply keeps_create, Hk1).
      set (c2 := with_textures m c1) in *.
      assert (keeps c2 (with_texture_ids (snd (Reused.MarkAsUsed texture (texture_ids (group c2)))) c2))
        as Hk3 by (apply keeps_ids, Hk2).
      set (c3 := with_texture_ids _ c2) in *.
      eapply good_after; [eapply context_keeps_trans; [exact Hk1|eapply context_keeps_trans; [exact Hk2|exact Hk3]]|].
      assert (GetTextureInfo texture m = Some (next_texture (texture_manager (group c)))) as Hg.
      { unfold GetTextureInfo, m in *. simpl. rewrite Eid. by rewrite lookup_insert_eq. }
      apply bind_texture_good; [apply Hk3|done| |by rewrite Hg]. rewrite Hg. intros ? [= <-].
      unfold texs. simpl. rewrite lookup_insert_eq. by eexists.
  - destruct (ctx_default _ _ Hc target Hv) as (a & Ha & t & Hta & _). rewrite Ha.
    apply bind_texture_good; [done|done| |done]. intros ? [= <-]. by exists t.
Qed.

(** ** Images *)

Lemma ValidForTarget_range c target level width height depth :
  ok c -> ValidForTarget fi target level width height depth (texture_manager (group c)) = true ->
  0 <= width < 2 ^ 31 /\ 0 <= height < 2 ^ 31.
Proof.
  intros Hc HV. destruct (ok_limits _ _ _ (ctx_textures _ _ Hc)) as (H2 & Hcube & _).
  unfold ValidForTarget in HV. zbool.
  assert (MaxSizeForTarget target (limits (texture_manager (group c))) < 2 ^ 31) by
    (unfold MaxSizeForTarget; case_match; lia). lia.
Qed.

Lemma image_data_size c width height format type size :
  ok c -> 0 <= width < 2 ^ 31 -> 0 <= height < 2 ^ 31 ->
  ComputeImageDataSize width height format type (unpack_alignment_ c) = Some size ->
  size = image_size width height format type (unpack_alignment_ c) /\ 0 <= size.
Proof.
  intros Hc Hw Hh E1. pose proof (ctx_align _ _ Hc) as Hal.
  pose proof (ComputeImageDataSize_exact width height format type (unpack_alignment_ c) Hw Hh Hal) as E2.
  rewrite E2 in E1. destruct (_ && _); [|done]. injection E1 as <-. split; [done|].
  destruct (align_cases _ Hal) as [Ha _]. unfold image_size, group_size.
  pose proof (BytesPerElement_range type). pose proof (ElementsPerGroup_range format type).
  set (g := BytesPerElement type * ElementsPerGroup format type). assert (0 <= g) by (unfold g; nia).
  pose proof (pitch_bounds (width * g) (unpack_alignment_ c) ltac:(lia)). case_match; zbool; nia.
Qed.

(** Telling the driver of an image, then the texture. *)
Lemma good_upload c a t target level info call (e : bool) error (k : Context -> Context) :
  ok c -> texs c !! a = Some t -> texture_kind t -> level_target target t -> l_valid info = true ->
  ValidForTarget fi target level (l_width info) (l_height info) (l_depth info)
    (texture_manager (group c)) = true ->
  state_dirty_ c = true \/ framebuffer_attachment_count_ t < 1 ->
  quiet call = true -> upload_ok (unpack_alignment_ c) call -> (forall c, ok c -> keeps c (k c)) ->
  let c1 := gl call c in
  good c (if e then (do c <- set_level cfg a target level info c1 ;; Done (k c))%gpu else fail error c1).
Proof.
  intros Hc Ha Hk Ht Hv HV Hd Hq Hu Hkk c1.
  assert (keeps c c1) as Hk1 by (by apply keeps_gl). eapply good_after; [exact Hk1|].
  destruct e; [|apply good_fail, Hk1].
  destruct (good_set_level c1 a t target level info (proj1 Hk1) Ha Hk Ht Hv HV)
    as (c2 & -> & Hc2 & _ & Hk2). cbn [obind]. apply good_done.
  eapply context_keeps_trans; [by apply Hk2|by apply Hkk].
Qed.

Lemma dirty_if_attached c t :
  texture_kind t -> let c1 := if IsAttachedToFramebuffer t then with_dirty true c else c in
  state_dirty_ c1 = true \/ framebuffer_attachment_count_ t < 1.
Proof.
  intros [Hn _]. unfold IsAttachedToFramebuffer.
  destruct (framebuffer_attachment_count_ t =? 0) eqn:E1; zbool; simpl; [right; lia|by left].
Qed.

Lemma DoTexImage2D_good c env target level internal_format width height border format type pixels size :
  ok c -> ComputeImageDataSize width height format type (unpack_alignment_ c) = Some size ->
  (forall bytes, pixels = Some bytes -> zlen bytes = size) ->
  good c (DoTexImage2D cfg env target level internal_format width height border format type pixels size c).
Proof.
  intros Hc Hsize Hpx. unfold DoTexImage2D.
  destruct (valid _ Validator.texture_target target) eqn:Hv; simpl; [|by apply good_fail].
  do 4 (case_match; [by apply good_fail|]).
  destruct (ValidForTarget _ _ _ _ _ _ _) eqn:HV; simpl; [|by apply good_fail].
  destruct (border =? 0); simpl; [|by apply good_fail].
  destruct (ValidForTarget_range _ _ _ _ _ _ Hc HV) as [Hw Hh].
  destruct (image_data_size c _ _ _ _ _ Hc Hw Hh Hsize) as [Hs Hs0].
  destruct (GetTextureInfoForTarget_ok c target Hc) as ([[a t]|] & -> & Hr); cbn [obind];
    [|by apply good_fail]. destruct Hr as (Ha & _ & Hk & Ht & Hl).
  set (same := match GetLevelSize _ _ _ with Some _ => _ | None => _ end).
  assert (zlen (default (zeros size) pixels) = size) as Hlen.
  { destruct pixels as [px|]; simpl; [by apply Hpx|]. by apply zlen_replicate. }
  set (px := default (zeros size) pixels) in *.
  pose proof (dirty_if_attached c t Hk) as Hd. set (c1 := if IsAttachedToFramebuffer t then _ else _) in *.
  assert (keeps c c1) as Hk1 by by apply keeps_dirty_if.
  assert (texs c1 = texs c /\ group c1 = group c /\ unpack_alignment_ c1 = unpack_alignment_ c)
    as (Htx & Hgr & Hun) by (unfold c1; by case_match).
  assert (upload_ok (unpack_alignment_ c1)
    (WrappedTexImage2D cfg target level internal_format width height border format type px)) as Hup.
  { unfold WrappedTexImage2D. simpl. rewrite Hun. split_and!; [lia..|by rewrite Hlen]. }
  assert (good c (if negb (teximage2d_faster_than_texsubimage2d_ cfg) && same
    then Done (with_failed false (gl (glTexSubImage2D target level 0 0 width height format type px) c1))
    else let c := gl (WrappedTexImage2D cfg target level internal_format width height border format
           type px) c1 in
         if peek_gl_error env =? GL_NO_ERROR
         then (do c <- set_level cfg a target level
                 (mkLevelInfo true internal_format width height 1 border format type) c ;;
               Done (with_failed false c))%gpu
         else fail (peek_gl_error env) c)) as Hgood.
  { eapply good_after; [exact Hk1|]. destruct (_ && same).
    - assert (keeps c1 (gl (glTexSubImage2D target level 0 0 width height format type px) c1)) as Hk2.
      { apply keeps_gl; [apply Hk1|done|]. simpl. rewrite Hun. split_and!; [lia..|by rewrite Hlen]. }
      apply good_done. eapply context_keeps_trans; [exact Hk2|]. apply keeps_failed, Hk2.
    - cbv zeta. apply (good_upload c1 a t); [apply Hk1|by rewrite Htx|done| |done|by rewrite Hgr|done|done|done|].
      + by apply level_target_bound; [apply valid_texture_target|..].
      + intros c' Hc'. by apply keeps_failed. }
  destruct pixels as [bytes|]; [destruct same; exact Hgood|]. destruct same; [|exact Hgood].
  by apply good_done, keeps_failed.
Qed.

(** ** Memory of the client *)

Section memory.
Context (engine_ok : E -> Prop) (engine_entries : E -> Z).

Lemma GetSharedMemoryAs_ok shm_id shm_offset size d :
  is_u32 shm_offset -> is_u32 size -> decoder_ok engine_ok engine_entries d ->
  exists r, GetSharedMemoryAs shm_id shm_offset size d = Done r /\
    forall bytes, r = Some bytes -> zlen bytes = size.
Proof.
  intros Ho Hs Hd. unfold GetSharedMemoryAs.
  destruct (GetAddressAndCheckSize shm_id shm_offset size d) as [addr|] eqn:Ea; [|by exists None].
  destruct (GetAddress_read shm_id shm_offset size d addr Ho Hs Hd Ea) as (bytes & -> & Hl). cbn [of_option obind].
  exists (Some bytes). split; [done|]. by intros ? [= <-].
Qed.

End memory.

Lemma GetImmediateDataAs_ok size immediate :
  0 <= size -> exists r, GetImmediateDataAs size immediate = Done r /\
    forall bytes, r = Some bytes -> zlen bytes = size.
Proof.
  intros Hs. unfold GetImmediateDataAs. destruct (size <=? zlen immediate) eqn:E1; [|by exists None].
  zbool. destruct (zread_Some immediate 0 size) as (r & -> & Hl); [lia..|]. cbn [of_option obind].
  exists (Some r). split; [done|]. by intros ? [= <-].
Qed.

Section image_handlers.
Context (engine_ok : E -> Prop) (engine_entries : E -> Z).
Notation decoder_ok := (decoder_ok engine_ok engine_entries).

Lemma HandleTexImage2D_answers c d env target level internal_format width height border format type
    shm_id shm_offset :
  ok c -> decoder_ok d -> is_u32 shm_offset ->
  answers c (HandleTexImage2D cfg env target level internal_format width height border format type
    shm_id shm_offset d c).
Proof.
  intros Hc Hd Ho. unfold HandleTexImage2D. pose proof (keeps_failed cfg c true Hc) as Hk.
  eapply answers_after; [exact Hk|]. destruct Hk as [Hc1 _].
  destruct (ComputeImageDataSize _ _ _ _ _) as [size|] eqn:Es; [|by apply answers_Done, keeps_refl].
  destruct (_ || _).
  - destruct (GetSharedMemoryAs_ok engine_ok engine_entries shm_id shm_offset size d Ho
      (ComputeImageDataSize_u32 _ _ _ _ _ _ Es) Hd) as ([bytes|] & -> & Hl); cbn [obind];
      [|by apply answers_Done, keeps_refl].
    apply good_answers. by apply DoTexImage2D_good.
  - apply good_answers. by apply DoTexImage2D_good.
Qed.

Lemma HandleTexImage2DImmediate_answers c env target level internal_format width height border format
    type immediate :
  ok c -> answers c (HandleTexImage2DImmediate cfg env target level internal_format width height border
    format type immediate c).
Proof.
  intros Hc. unfold HandleTexImage2DImmediate.
  destruct (ComputeImageDataSize _ _ _ _ _) as [size|] eqn:Es; [|by apply answers_Done, keeps_refl].
  destruct (ComputeImageDataSize_u32 _ _ _ _ _ _ Es) as [Hs _].
  destruct (GetImmediateDataAs_ok size immediate Hs) as ([bytes|] & -> & Hl); cbn [obind];
    [|by apply answers_Done, keeps_refl].
  apply good_answers. by apply DoTexImage2D_good.
Qed.

Lemma DoTexSubImage2D_good c target level xoffset yoffset width height format type data :
  ok c -> 0 <= width < 2 ^ 31 -> 0 <= height < 2 ^ 31 ->
  zlen data = image_size width height format type (unpack_alignment_ c) ->
  good c (DoTexSubImage2D cfg target level xoffset yoffset width height format type data c).
Proof.
  intros Hc Hw Hh Hd. unfold DoTexSubImage2D.
  destruct (GetTextureInfoForTarget_ok c target Hc) as ([[a t]|] & -> & Hr); cbn [obind];
    [|by apply good_fail].
  destruct (GetLevelType target level t) as [[ty f]|]; [|by apply good_fail].
  do 3 (case_match; [by apply good_fail|]). destruct (default _ _) as [tw th].
  destruct (_ && _); apply good_done, keeps_gl; done.
Qed.

Lemma checked_sub_image_answers c target level xoffset yoffset width height format type size pixels :
  ok c -> width < 2 ^ 31 -> height < 2 ^ 31 ->
  ComputeImageDataSize width height format type (unpack_alignment_ c) = Some size ->
  (forall bytes, pixels = Some bytes -> zlen bytes = size) ->
  answers c (checked_sub_image cfg target level xoffset yoffset width height format type pixels c).
Proof.
  intros Hc Hw Hh Hs Hp. unfold checked_sub_image. pose proof (fun e => keeps_SetGLError cfg c e Hc) as He.
  case_match; [by apply answers_Done|].
  destruct (width <? 0) eqn:Ew; [by apply answers_Done|]. destruct (height <? 0) eqn:Eh; [by apply answers_Done|].
  do 2 (case_match; [by apply answers_Done|]).
  destruct pixels as [bytes|]; [|by apply answers_Done, keeps_refl]. zbool. apply good_answers.
  apply DoTexSubImage2D_good; [done|lia|lia|]. rewrite (Hp _ eq_refl).
  by apply image_data_size.
Qed.

Lemma HandleTexSubImage2D_answers c d target level xoffset yoffset width height format type shm_id
    shm_offset internal :
  ok c -> decoder_ok d -> is_u32 shm_offset -> is_i32 width -> is_i32 height ->
  answers c (HandleTexSubImage2D cfg target level xoffset yoffset width height format type shm_id
    shm_offset internal d c).
Proof.
  intros Hc Hd Ho [_ Hw] [_ Hh]. unfold HandleTexSubImage2D.
  destruct (_ && _); [by apply answers_Done, keeps_refl|].
  destruct (ComputeImageDataSize _ _ _ _ _) as [size|] eqn:Es; [|by apply answers_Done, keeps_refl].
  destruct (GetSharedMemoryAs_ok engine_ok engine_entries shm_id shm_offset size d Ho
    (ComputeImageDataSize_u32 _ _ _ _ _ _ Es) Hd) as (r & -> & Hl). cbn [obind].
  by eapply checked_sub_image_answers.
Qed.

Lemma HandleTexSubImage2DImmediate_answers c target level xoffset yoffset width height format type
    internal immediate :
  ok c -> is_i32 width -> is_i32 height ->
  answers c (HandleTexSubImage2DImmediate cfg target level xoffset yoffset width height format type
    internal immediate c).
Proof.
  intros Hc [_ Hw] [_ Hh]. unfold HandleTexSubImage2DImmediate.
  destruct (_ && _); [by apply answers_Done, keeps_refl|].
  destruct (ComputeImageDataSize _ _ _ _ _) as [size|] eqn:Es; [|by apply answers_Done, keeps_refl].
  destruct (ComputeImageDataSize_u32 _ _ _ _ _ _ Es) as [Hs _].
  destruct (GetImmediateDataAs_ok size immediate Hs) as (r & -> & Hl). cbn [obind].
  by eapply checked_sub_image_answers.
Qed.

End image_handlers.

(** ** Copies *)

Lemma read_format_ok c : ok c -> exists f, GetBoundReadFrameBufferInternalFormat cfg c = Done f.
Proof.
  intros Hc. unfold GetBoundReadFrameBufferInternalFormat.
  destruct (bound_read_framebuffer_ _) as [a|] eqn:Eb; [|by eexists].
  destruct (ctx_bound_read _ _ Hc a Eb) as [f Ha]. destruct (ctx_framebuffer _ _ Hc a f Ha) as [_ Hatt].
  unfold framebuffer. rewrite Ha. cbn [of_option obind]. unfold GetColorAttachmentFormat.
  destruct (attachments_ f !! GL_COLOR_ATTACHMENT0) as [att|] eqn:Ek; [|by eexists].
  by eapply attachment_format, Hatt.
Qed.

Lemma read_size_ok c : ok c -> exists w h, GetBoundReadFrameBufferSize cfg c = Done (w, h).
Proof.
  intros Hc. unfold GetBoundReadFrameBufferSize.
  destruct (bound_read_framebuffer_ _) as [a|] eqn:Eb.
  2:{ destruct (match offscreen cfg with Some o => _ | None => _ end) as [w h]. by exists w, h. }
  destruct (ctx_bound_read _ _ Hc a Eb) as [f Ha]. destruct (ctx_framebuffer _ _ Hc a f Ha) as [_ Hatt].
  unfold framebuffer. rewrite Ha. cbn [of_option obind]. unfold GetAttachment.
  destruct (attachments_ f !! GL_COLOR_ATTACHMENT0) as [att|] eqn:Ek; [|by eexists _, _].
  destruct (attachment_size c att) as (w & h & -> & ->); [by eapply Hatt|]. by exists w, h.
Qed.

Lemma channels_ok c f : ok c -> exists b, channels_compatible cfg f c = Done b.
Proof.
  intros Hc. unfold channels_compatible. destruct (read_format_ok c Hc) as [rf ->]. cbn [obind]. eauto.
Qed.

Lemma HandleCopyTexImage2D_good c env target level internalformat x y width height border :
  ok c -> good c (HandleCopyTexImage2D cfg env target level internalformat x y width height border c).
Proof.
  intros Hc. unfold HandleCopyTexImage2D.
  destruct (valid _ Validator.texture_target target) eqn:Hv; simpl; [|by apply good_fail].
  do 4 (case_match; [by apply good_fail|]). unfold DoCopyTexImage2D.
  destruct (GetTextureInfoForTarget_ok c target Hc) as ([[a t]|] & -> & Hr); cbn [obind];
    [|by apply good_fail]. destruct Hr as (Ha & _ & Hk & Ht & Hl).
  destruct (ValidForTarget _ _ _ _ _ _ _) eqn:HV; simpl; [|by apply good_fail].
  destruct (border =? 0); simpl; [|by apply good_fail].
  destruct (ValidForTarget_range _ _ _ _ _ _ Hc HV) as [Hw Hh].
  destruct (channels_ok c internalformat Hc) as [b ->]. cbn [obind].
  destruct b; simpl; [|by apply good_fail]. destruct (read_size_ok c Hc) as (sw & sh & ->). cbn [obind].
  pose proof (dirty_if_attached c t Hk) as Hd. set (c1 := if IsAttachedToFramebuffer t then _ else _) in *.
  assert (keeps c c1) as Hk1 by by apply keeps_dirty_if.
  assert (texs c1 = texs c /\ group c1 = group c) as (Htx & Hgr) by (unfold c1; by case_match).
  destruct (Clip x width sw) as [copyX copyWidth], (Clip y height sh) as [copyY copyHeight].
  eapply good_after; [exact Hk1|]. destruct Hk1 as [Hc1 _].
  assert (forall c2, ok c2 -> texs c2 = texs c1 -> group c2 = group c1 -> state_dirty_ c2 = state_dirty_ c1 ->
    good c2 (if peek_gl_error env =? GL_NO_ERROR then set_level cfg a target level
      (mkLevelInfo true internalformat width height 1 border internalformat GL_UNSIGNED_BYTE) c2
      else fail (peek_gl_error env) c2)) as Hfin.
  { intros c2 Hc2 Htx2 Hgr2 Hd2. case_match; [|by apply good_fail].
    destruct (good_set_level c2 a t target level
      (mkLevelInfo true internalformat width height 1 border internalformat GL_UNSIGNED_BYTE))
      as (c3 & -> & _ & _ & Hk3); [done|by rewrite Htx2, Htx|done| |done|by rewrite Hgr2, Hgr|].
    - by apply level_target_bound; [apply valid_texture_target|..].
    - apply good_done, Hk3. by rewrite Hd2. }
  assert (forall c2 call, ok c2 -> quiet call = true -> upload_ok (unpack_alignment_ c2) call ->
    keeps c2 (gl call c2)) as Hgl by (intros; by apply keeps_gl).
  destruct (_ || _ || _ || _).
  - destruct (ComputeImageDataSize _ _ _ _ _) as [size|] eqn:Es; [|by apply good_fail].
    destruct (image_data_size c1 _ _ _ _ _ Hc1 Hw Hh Es) as [Hs Hs0].
    set (call := glTexImage2D _ _ _ _ _ _ _ _ _).
    assert (keeps c1 (gl call c1)) as Hk2.
    { apply Hgl; [done|done|]. simpl. split_and!; [lia..|]. unfold zeros. rewrite zlen_replicate; [done|lia]. }
    eapply good_after; [exact Hk2|]. destruct Hk2 as [Hc2 _]. destruct (_ && _).
    + match goal with |- context [gl (glCopyTexSubImage2D ?a1 ?a2 ?a3 ?a4 ?a5 ?a6 ?a7 ?a8) _] =>
        eapply good_after; [by apply (Hgl _ (glCopyTexSubImage2D a1 a2 a3 a4 a5 a6 a7 a8) Hc2)|] end.
      apply Hfin; [|done..]. by apply context_ok_gl.
    + by apply Hfin.
  - eapply good_after; [by apply (Hgl _ (glCopyTexImage2D target level internalformat copyX copyY
      copyWidth copyHeight border) Hc1)|].
    apply Hfin; [|done..]. by apply context_ok_gl.
Qed.

Lemma HandleCopyTexSubImage2D_good c target level xoffset yoffset x y width height :
  ok c -> is_i32 width -> is_i32 height ->
  good c (HandleCopyTexSubImage2D cfg target level xoffset yoffset x y width height c).
Proof.
  intros Hc [_ Hw] [_ Hh]. unfold HandleCopyTexSubImage2D. case_match; [by apply good_fail|].
  destruct (width <? 0) eqn:Ew; [by apply good_fail|]. destruct (height <? 0) eqn:Eh; [by apply good_fail|].
  zbool. unfold DoCopyTexSubImage2D.
  destruct (GetTextureInfoForTarget_ok c target Hc) as ([[a t]|] & -> & Hr); cbn [obind];
    [|by apply good_fail].
  destruct (GetLevelType target level t) as [[ty f]|]; [|by apply good_fail].
  case_match; [by apply good_fail|]. destruct (channels_ok c f Hc) as [b ->]. cbn [obind].
  destruct b; simpl; [|by apply good_fail]. destruct (read_size_ok c Hc) as (sw & sh & ->). cbn [obind].
  destruct (Clip x width sw) as [copyX copyWidth], (Clip y height sh) as [copyY copyHeight].
  assert (forall c2, ok c2 -> keeps c2 (if (copyHeight >? 0) && (copyWidth >? 0)
    then gl (glCopyTexSubImage2D target level (i32 (xoffset + i32 (copyX - x)))
      (i32 (yoffset + i32 (copyY - y))) copyX copyY copyWidth copyHeight) c2 else c2)) as Hfin.
  { intros c2 Hc2. case_match; [by apply keeps_gl|by apply keeps_refl]. }
  destruct (_ || _ || _ || _); [|by apply good_done, Hfin].
  destruct (ComputeImageDataSize _ _ _ _ _) as [size|] eqn:Es; [|by apply good_fail].
  destruct (image_data_size c _ _ _ _ _ Hc (conj Ew Hw) (conj Eh Hh) Es) as [Hs Hs0].
  set (call := glTexSubImage2D _ _ _ _ _ _ _ _ _).
  assert (keeps c (gl call c)) as Hk.
  { apply keeps_gl; [done|done|]. simpl. split_and!; [lia..|]. unfold zeros. rewrite zlen_replicate; [done|lia]. }
  apply good_done. eapply context_keeps_trans; [exact Hk|]. apply Hfin, Hk.
Qed.

(** ** Compressed images

    [DoCompressedTexImage2D] does not mark the state dirty: the masks stay current only
    when the texture is not attached to a framebuffer, or the state was dirty. *)

Definition unattached (target : Z) (c : Context) : Prop :=
  state_dirty_ c = true \/ forall a t, GetTextureInfoForTarget target c = Done (Some (a, t)) ->
    IsAttachedToFramebuffer t = false.

(** What is answered, whether or not the masks are kept current. *)
Definition answers_if {A} (P : Prop) (c : Context) (m : outcome (A * Context)) : Prop :=
  exists e c', m = Done (e, c') /\ ok c' /\ (P -> masks_current cfg c -> masks_current cfg c').

Lemma answers_weaken {A} P c (m : outcome (A * Context)) : answers c m -> answers_if P c m.
Proof. intros (e & c' & -> & ? & ?). exists e, c'. auto. Qed.

Lemma DoCompressedTexImage2D_answers {A} (e : A) c env target level internal_format width height border
    image_size data :
  ok c -> (data = None -> 0 <= image_size) ->
  answers_if (unattached target c) c
    (do c <- DoCompressedTexImage2D cfg env target level internal_format width height border image_size
               data c ;; Done (e, c))%gpu.
Proof.
  intros Hc Hdata. unfold DoCompressedTexImage2D.
  destruct (valid _ Validator.texture_target target) eqn:Hv; simpl;
    [|by apply answers_weaken, answers_Done, keeps_SetGLError].
  case_match; [by apply answers_weaken, answers_Done, keeps_SetGLError|].
  destruct (ValidForTarget _ _ _ _ _ _ _) eqn:HV; simpl; [|by apply answers_weaken, answers_Done, keeps_SetGLError].
  destruct (border =? 0); simpl; [|by apply answers_weaken, answers_Done, keeps_SetGLError].
  destruct (GetTextureInfoForTarget_ok c target Hc) as ([[a t]|] & Eg & Hr); rewrite Eg; cbn [obind];
    [|by apply answers_weaken, answers_Done, keeps_SetGLError]. destruct Hr as (Ha & _ & Hk & Ht & Hl).
  assert (exists bytes, match data with Some data => Done data
    | None => if image_size <? 0 then UB else Done (zeros image_size) end = Done bytes) as [bytes ->].
  { destruct data as [bytes|]; [by exists bytes|]. rewrite (proj2 (Z.ltb_ge _ _)) by auto. by eexists. }
  cbn [obind]. set (call := glCompressedTexImage2D _ _ _ _ _ _ _).
  assert (keeps c (gl call c)) as Hk1 by (by apply keeps_gl).
  case_match; [|apply answers_weaken, answers_Done; eapply context_keeps_trans; [exact Hk1|];
    apply keeps_SetGLError, Hk1].
  destruct (good_set_level (gl call c) a t target level
    (mkLevelInfo true internal_format width height 1 border 0 0)) as (c2 & -> & Hc2 & _ & Hk2);
    [apply Hk1|done|done| |done|done|].
  { by apply level_target_bound; [apply valid_texture_target|..]. }
  cbn [obind]. exists e, c2. split; [done|]. split; [done|]. intros Hun Hm.
  apply Hk2; [|by apply Hk1]. destruct Hun as [?|Hun]; [by left|right].
  specialize (Hun a t Eg). unfold IsAttachedToFramebuffer in Hun. zbool. lia.
Qed.

Lemma DoCompressedTexSubImage2D_good c target level xoffset yoffset width height format data :
  ok c -> good c (DoCompressedTexSubImage2D target level xoffset yoffset width height format data c).
Proof.
  intros Hc. unfold DoCompressedTexSubImage2D.
  destruct (GetTextureInfoForTarget_ok c target Hc) as ([[a t]|] & -> & Hr); cbn [obind];
    [|by apply good_fail].
  destruct (GetLevelType target level t) as [[ty f]|]; [|by apply good_fail].
  do 2 (case_match; [by apply good_fail|]). by apply good_done, keeps_gl.
Qed.

Section compressed_handlers.
Context (engine_ok : E -> Prop) (engine_entries : E -> Z).
Notation decoder_ok := (decoder_ok engine_ok engine_entries).

Lemma bucket_bytes_ok id d :
  decoder_ok d -> exists r, bucket_bytes id d = Done r.
Proof.
  intros Hd. unfold bucket_bytes. destruct (GetBucket id d) as [b|] eqn:Eb; [|by eexists].
  destruct (decoder_buckets _ _ _ Hd id b Eb) as [Hsz Hdat].
  rewrite GetData_spec; [|unfold is_u32; lia|done|by split].
  destruct (CommonDecoder.data_ b) as [bytes|]; [|by eexists].
  rewrite Z.add_0_l, Z.leb_refl. destruct (zread_Some bytes 0 (CommonDecoder.size_ b)) as (r & -> & _);
    [lia|apply Hsz|lia|]. by eexists.
Qed.

Lemma HandleCompressedTexImage2D_answers c d env target level internal_format width height border
    image_size shm_id shm_offset :
  ok c -> decoder_ok d -> is_u32 shm_offset -> 0 <= image_size ->
  answers_if (unattached target c) c (HandleCompressedTexImage2D cfg env target level internal_format
    width height border image_size shm_id shm_offset d c).
Proof.
  intros Hc Hd Ho Hs. unfold HandleCompressedTexImage2D. destruct (_ || _).
  - destruct (GetSharedMemoryAs_ok engine_ok engine_entries shm_id shm_offset (u32 image_size) d Ho
      (u32_range _) Hd) as ([bytes|] & -> & Hl); cbn [obind];
      [by apply DoCompressedTexImage2D_answers|by apply answers_weaken, answers_Done, keeps_refl].
  - by apply DoCompressedTexImage2D_answers.
Qed.

Lemma HandleCompressedTexImage2DImmediate_answers c env target level internal_format width height border
    image_size immediate :
  ok c -> answers_if (unattached target c) c (HandleCompressedTexImage2DImmediate cfg env target level
    internal_format width height border image_size immediate c).
Proof.
  intros Hc. unfold HandleCompressedTexImage2DImmediate. destruct (u32_range image_size) as [Hs _].
  destruct (GetImmediateDataAs_ok (u32 image_size) immediate Hs) as ([bytes|] & -> & Hl); cbn [obind];
    [by apply DoCompressedTexImage2D_answers|by apply answers_weaken, answers_Done, keeps_refl].
Qed.

Lemma HandleCompressedTexImage2DBucket_answers c d env target level internal_format width height border
    bucket_id :
  ok c -> decoder_ok d ->
  answers_if (unattached target c) c (HandleCompressedTexImage2DBucket cfg env target level
    internal_format width height border bucket_id d c).
Proof.
  intros Hc Hd. unfold HandleCompressedTexImage2DBucket.
  destruct (bucket_bytes_ok bucket_id d Hd) as [[bytes|] ->]; cbn [obind];
    [by apply DoCompressedTexImage2D_answers|by apply answers_weaken, answers_Done, keeps_refl].
Qed.

Lemma HandleCompressedTexSubImage2D_answers c d target level xoffset yoffset width height format
    imageSize shm_id shm_offset :
  ok c -> decoder_ok d -> is_u32 shm_offset ->
  answers c (HandleCompressedTexSubImage2D cfg target level xoffset yoffset width height format
    imageSize shm_id shm_offset d c).
Proof.
  intros Hc Hd Ho. unfold HandleCompressedTexSubImage2D.
  destruct (GetSharedMemoryAs_ok engine_ok engine_entries shm_id shm_offset (u32 imageSize) d Ho
    (u32_range _) Hd) as (r & -> & _). cbn [obind].
  pose proof (fun e => keeps_SetGLError cfg c e Hc) as He. do 5 (case_match; [by apply answers_Done|]).
  destruct r; [|by apply answers_Done, keeps_refl].
  by apply good_answers, DoCompressedTexSubImage2D_good.
Qed.

Lemma HandleCompressedTexSubImage2DBucket_answers c d target level xoffset yoffset width height format
    bucket_id :
  ok c -> decoder_ok d ->
  answers c (HandleCompressedTexSubImage2DBucket cfg target level xoffset yoffset width height format
    bucket_id d c).
Proof.
  intros Hc Hd. unfold HandleCompressedTexSubImage2DBucket.
  destruct (bucket_bytes_ok bucket_id d Hd) as [[bytes|] ->]; cbn [obind];
    [|by apply answers_Done, keeps_refl].
  pose proof (fun e => keeps_SetGLError cfg c e Hc) as He. do 5 (case_match; [by apply answers_Done|]).
  by apply good_answers, DoCompressedTexSubImage2D_good.
Qed.

End compressed_handlers.

End lemmas.

(** ** Rectangles inside a level *)

Lemma SafeAddInt32_exact a b :
  is_i32 a -> 0 <= b < 2 ^ 31 ->
  SafeAddInt32 a b = if a + b <? 2 ^ 31 then (true, a + b) else (false, 0).
Proof.
  unfold is_i32. intros Ha Hb. unfold SafeAddInt32. destruct (a + b <? 2 ^ 31) eqn:E; zbool.
  - rewrite i32_id by (unfold is_i32; lia). by bfalse (a + b <? a).
  - rewrite i32_wrap by lia. by btrue (a + b - 2 ^ 32 <? a).
Qed.

(** The level of a texture that a rectangle is inside of. *)
Definition inside (t : TextureInfo) (target level xoffset yoffset width height : Z) : Prop :=
  exists info, checked_level target level t = Some info /\ l_valid info = true /\
    0 <= xoffset /\ xoffset + width <= l_width info /\
    0 <= yoffset /\ yoffset + height <= l_height info.

Lemma ValidForTexture_inside t target level xoffset yoffset width height format type :
  is_i32 xoffset -> is_i32 yoffset -> 0 <= width < 2 ^ 31 -> 0 <= height < 2 ^ 31 ->
  is_Some (GetLevelType target level t) ->
  ValidForTexture target level xoffset yoffset width height format type t = true ->
  inside t target level xoffset yoffset width height /\
  xoffset + width < 2 ^ 31 /\ yoffset + height < 2 ^ 31.
Proof.
  intros [_ Hx] [_ Hy] Hw Hh Hlev HV. unfold ValidForTexture, GetLevelType in *. unfold inside.
  destruct (checked_level target level t) as [info|]; [|done]. simpl in Hlev.
  destruct (l_valid info) eqn:Hv; [|by destruct Hlev].
  destruct (SafeAddInt32 xoffset width) as [okx ex] eqn:Ex, (SafeAddInt32 yoffset height) as [oky ey] eqn:Ey.
  zbool. subst. rewrite SafeAddInt32_exact in Ex, Ey by (unfold is_i32; lia).
  destruct (xoffset + width <? 2 ^ 31) eqn:?; [|done]. destruct (yoffset + height <? 2 ^ 31) eqn:?; [|done].
  simplify_eq. zbool. split; [|lia]. exists info. split_and!; done || lia.
Qed.

Lemma Clip_inside start range sourceRange :
  is_i32 start -> 0 <= range < 2 ^ 31 -> 0 <= sourceRange < 2 ^ 31 -> start + range < 2 ^ 31 ->
  let '(out_start, out_range) := Clip start range sourceRange in
  0 < out_range -> 0 <= out_start /\ start <= out_start /\ out_start + out_range <= sourceRange /\
    out_start + out_range <= start + range.
Proof.
  unfold is_i32. intros Hs Hr Hsrc Ho. unfold Clip. destruct (start <? 0) eqn:E; zbool.
  - rewrite (i32_id (range + start)) by (unfold is_i32; lia). rewrite Z.add_0_l.
    rewrite (i32_id (range + start)) by (unfold is_i32; lia).
    destruct (_ >? _) eqn:E1; zbool; rewrite ?i32_id by (unfold is_i32; lia); lia.
  - rewrite (i32_id (start + range)) by (unfold is_i32; lia).
    destruct (_ >? _) eqn:E1; zbool; rewrite ?i32_id by (unfold is_i32; lia); lia.
Qed.

(** ** Properties *)

(** C38: A sub-image stays inside its level.  [glTexSubImage2D] reaches the driver only for
    a rectangle inside a level that was given an image, with the format and type of that
    image; and it is replaced by [glTexImage2D] only when it covers the whole of the level. *)
Theorem sub_image_inside cfg c c' target level xoffset yoffset width height format type data :
  is_i32 xoffset -> is_i32 yoffset -> 0 <= width < 2 ^ 31 -> 0 <= height < 2 ^ 31 ->
  DoTexSubImage2D cfg target level xoffset yoffset width height format type data c = Done c' ->
  (gl_calls c' = gl_calls c /\ exists e, gl_errors c' = gl_errors c ++ [e]) \/
  exists a t, GetTextureInfoForTarget target c = Done (Some (a, t)) /\
    inside t target level xoffset yoffset width height /\
    GetLevelType target level t = Some (type, format) /\
    (gl_calls c' = gl_calls c ++ [glTexSubImage2D target level xoffset yoffset width height format
                                    type data] \/
     (xoffset = 0 /\ yoffset = 0 /\ GetLevelSize target level t = Some (width, height) /\
      gl_calls c' = gl_calls c ++ [WrappedTexImage2D cfg target level format width height 0 format
                                     type data])).
Proof.
  intros Hx Hy Hw Hh. unfold DoTexSubImage2D.
  destruct (GetTextureInfoForTarget target c) as [[[a t]|]| |]; [|intros [= <-]; left; by eauto|done..].
  cbn [obind]. destruct (GetLevelType target level t) as [[ty f]|] eqn:El; [|intros [= <-]; left; by eauto].
  destruct (format =? f) eqn:Ef; simpl; [|intros [= <-]; left; by eauto].
  destruct (type =? ty) eqn:Et; simpl; [|intros [= <-]; left; by eauto]. zbool. subst f ty.
  destruct (ValidForTexture _ _ _ _ _ _ _ _ _) eqn:HV; simpl; [|intros [= <-]; left; by eauto].
  intros E. right. exists a, t. split; [done|].
  split; [by eapply ValidForTexture_inside|]. split; [done|].
  assert (exists tw th, GetLevelSize target level t = Some (tw, th)) as (tw & th & Hsize).
  { unfold GetLevelSize, GetLevelType in *. destruct (checked_level target level t) as [info|]; [|done].
    simpl in *. destruct (l_valid info); [|done]. by eexists _, _. }
  rewrite Hsize in E. cbn in E.
  destruct (_ && _) eqn:Efast; simplify_eq; [right|by left]. zbool. by subst.
Qed.

(** A call of a copy: it reads inside the framebuffer, and writes inside a level of the bound
    texture; or it fills a rectangle inside the level with zeros, as many as the driver reads. *)
Definition copy_ok (c : Context) (target level sw sh : Z) (call : GLCall) : Prop :=
  exists a t, GetTextureInfoForTarget target c = Done (Some (a, t)) /\
  match call with
  | glCopyTexSubImage2D tg lv dx dy sx sy w h =>
      0 <= sx /\ sx + w <= sw /\ 0 <= sy /\ sy + h <= sh /\
      tg = target /\ lv = level /\ inside t target level dx dy w h
  | glTexSubImage2D tg lv dx dy w h format type pixels =>
      tg = target /\ lv = level /\ inside t target level dx dy w h /\ GetLevelType target level t = Some (type, format) /\
      exists size, ComputeImageDataSize w h format type (unpack_alignment_ c) = Some size /\ pixels = zeros size
  | _ => False
  end.

(** What a texel of the level holds: zero, or the pixel of the framebuffer at [x], [y]. *)
Inductive Texel := Zero | Pixel (x y : Z) | Uploaded.

Definition in_rect (u v x y w h : Z) : bool := (x <=? u) && (u <? x + w) && (y <=? v) && (v <? y + h).

Lemma in_rect_true u v x y w h : in_rect u v x y w h = true <-> x <= u < x + w /\ y <= v < y + h.
Proof. unfold in_rect. rewrite !andb_true_iff, !Z.leb_le, !Z.ltb_lt. tauto. Qed.

Definition texel_of (call : GLCall) (target level u v : Z) : option Texel :=
  match call with
  | glTexSubImage2D tg lv x y w h _ _ pixels =>
      if (tg =? target) && (lv =? level) && in_rect u v x y w h
      then Some (if forallb (Z.eqb 0) pixels then Zero else Uploaded) else None
  | glCopyTexSubImage2D tg lv x y sx sy w h =>
      if (tg =? target) && (lv =? level) && in_rect u v x y w h then Some (Pixel (sx + (u - x)) (sy + (v - y))) else None
  | _ => None
  end.

(** [None]: what it held before. *)
Definition texel_after (calls : list GLCall) (target level u v : Z) : option Texel :=
  foldl (fun old call => match texel_of call target level u v with Some t => Some t | None => old end) None calls.

Lemma zeros_zero n : forallb (Z.eqb 0) (zeros n) = true.
Proof. unfold zeros. by induction (Z.to_nat n). Qed.

(** [copyX] and [copyWidth] name the part of the source that exists. *)
Lemma Clip_exact start range sourceRange :
  is_i32 start -> 0 <= range < 2 ^ 31 -> 0 <= sourceRange < 2 ^ 31 -> start + range < 2 ^ 31 ->
  let '(out_start, out_range) := Clip start range sourceRange in
  forall p, start <= p < start + range -> 0 <= p < sourceRange <-> out_start <= p < out_start + out_range.
Proof.
  unfold is_i32. intros Hs Hr Hsrc Ho. unfold Clip. destruct (start <? 0) eqn:E; zbool.
  - rewrite (i32_id (range + start)) by (unfold is_i32; lia). rewrite !Z.add_0_l.
    rewrite (i32_id (range + start)) by (unfold is_i32; lia).
    destruct (_ >? _) eqn:E1; zbool; rewrite ?i32_id by (unfold is_i32; lia); lia.
  - rewrite (i32_id (start + range)) by (unfold is_i32; lia).
    destruct (_ >? _) eqn:E1; zbool; rewrite ?i32_id by (unfold is_i32; lia); lia.
Qed.

(** The copy that is left after clipping, with or without the zeros before it. *)
Lemma copy_texels target level xoffset yoffset x y width height sw sh cx cw cy ch format type n u v filled :
  (forall p, x <= p < x + width -> 0 <= p < sw <-> cx <= p < cx + cw) ->
  (forall p, y <= p < y + height -> 0 <= p < sh <-> cy <= p < cy + ch) ->
  (0 < cw -> x <= cx /\ cx + cw <= x + width) -> (0 < ch -> y <= cy /\ cy + ch <= y + height) ->
  (filled = false -> cx = x /\ cw = width /\ cy = y /\ ch = height) ->
  texel_after ((if filled : bool then [glTexSubImage2D target level xoffset yoffset width height format type (zeros n)] else []) ++
      (if (ch >? 0) && (cw >? 0)
       then [glCopyTexSubImage2D target level (xoffset + (cx - x)) (yoffset + (cy - y)) cx cy cw ch] else []))
    target level u v =
  if in_rect u v xoffset yoffset width height
  then Some (if in_rect (x + (u - xoffset)) (y + (v - yoffset)) 0 0 sw sh
             then Pixel (x + (u - xoffset)) (y + (v - yoffset)) else Zero)
  else None.
Proof.
  intros Hx Hy Hcx Hcy Hf.
  assert ((ch >? 0) && (cw >? 0) && in_rect u v (xoffset + (cx - x)) (yoffset + (cy - y)) cw ch =
    in_rect u v xoffset yoffset width height && in_rect (x + (u - xoffset)) (y + (v - yoffset)) 0 0 sw sh) as Hcopy.
  { specialize (Hx (x + (u - xoffset))). specialize (Hy (y + (v - yoffset))).
    assert (exists p, p = x + (u - xoffset)) as [p Ep] by eauto. assert (exists q, q = y + (v - yoffset)) as [q Eq] by eauto.
    rewrite <- Ep, <- Eq in *. apply eq_true_iff_eq. rewrite !andb_true_iff, !in_rect_true, !Z.gtb_lt.
    assert (u = xoffset + (p - x)) as -> by lia. assert (v = yoffset + (q - y)) as -> by lia. clear Ep Eq Hf.
    split; [intros [[Hh Hw] ?]; specialize (Hcx Hw); specialize (Hcy Hh)|intros [? ?]]; split_and!; lia. }
  assert (filled = false -> in_rect u v xoffset yoffset width height = true ->
    in_rect (x + (u - xoffset)) (y + (v - yoffset)) 0 0 sw sh = true) as Hin.
  { intros (-> & -> & -> & ->)%Hf. rewrite !in_rect_true. intros [? ?].
    specialize (Hx (x + (u - xoffset))). specialize (Hy (y + (v - yoffset))). lia. }
  unfold texel_after. rewrite foldl_app.
  assert (forall old, foldl (fun old call => match texel_of call target level u v with Some t => Some t | None => old end) old
    (if (ch >? 0) && (cw >? 0) then [glCopyTexSubImage2D target level (xoffset + (cx - x)) (yoffset + (cy - y)) cx cy cw ch] else []) =
    if in_rect u v xoffset yoffset width height && in_rect (x + (u - xoffset)) (y + (v - yoffset)) 0 0 sw sh
    then Some (Pixel (x + (u - xoffset)) (y + (v - yoffset))) else old) as ->.
  { intros old. rewrite <- Hcopy. destruct ((ch >? 0) && (cw >? 0)); [|done]. cbn [foldl andb texel_of]. rewrite !Z.eqb_refl. cbn [andb].
    destruct (in_rect u v _ _ cw ch); [|done]. do 2 f_equal; lia. }
  destruct filled; cbn [foldl].
  - cbn [texel_of]. rewrite !Z.eqb_refl, zeros_zero. cbn [andb].
    by destruct (in_rect u v _ _ width height), (in_rect _ _ 0 0 sw sh).
  - specialize (Hin eq_refl). destruct (in_rect u v _ _ width height); [by rewrite Hin|done].
Qed.

(** C39: A copy out of the framebuffer stays inside both.  As long as the far edges of the source
    do not overflow, [DoCopyTexSubImage2D] records an error and leaves the driver alone; or its
    calls read inside the framebuffer and write inside a level of the bound texture, and after
    them each texel of the rectangle holds the pixel of the framebuffer at its place, or zero
    where there is none; no other texel is written. *)
Theorem copy_inside cfg c c' target level xoffset yoffset x y width height sw sh :
  is_i32 xoffset -> is_i32 yoffset -> is_i32 x -> is_i32 y ->
  0 <= width < 2 ^ 31 -> 0 <= height < 2 ^ 31 -> x + width < 2 ^ 31 -> y + height < 2 ^ 31 ->
  GetBoundReadFrameBufferSize cfg c = Done (sw, sh) -> 0 <= sw < 2 ^ 31 -> 0 <= sh < 2 ^ 31 ->
  DoCopyTexSubImage2D cfg target level xoffset yoffset x y width height c = Done c' ->
  (gl_calls c' = gl_calls c /\ exists e, gl_errors c' = gl_errors c ++ [e]) \/
  exists calls, gl_calls c' = gl_calls c ++ calls /\ Forall (copy_ok c target level sw sh) calls /\
    forall u v, texel_after calls target level u v =
      if in_rect u v xoffset yoffset width height
      then Some (if in_rect (x + (u - xoffset)) (y + (v - yoffset)) 0 0 sw sh
                 then Pixel (x + (u - xoffset)) (y + (v - yoffset)) else Zero)
      else None.
Proof.
  intros Hx0 Hy0 Hx Hy Hw Hh Hxo Hyo Hsize Hsw Hsh. unfold DoCopyTexSubImage2D.
  destruct (GetTextureInfoForTarget target c) as [[[a t]|]| |] eqn:Eg; [|intros [= <-]; left; by eauto|done..].
  cbn [obind]. destruct (GetLevelType target level t) as [[ty f]|] eqn:El; [|intros [= <-]; left; by eauto].
  destruct (ValidForTexture _ _ _ _ _ _ _ _ _) eqn:HV; simpl; [|intros [= <-]; left; by eauto].
  apply ValidForTexture_inside in HV as ((info & Hinfo & Hvalid & ? & ? & ? & ?) & ? & ?); [|done..|by rewrite El].
  destruct (channels_compatible cfg f c) as [b| |]; [|done..]. cbn [obind].
  destruct b; simpl; [|intros [= <-]; left; by eauto]. rewrite Hsize. cbn [obind].
  pose proof (Clip_inside x width sw Hx Hw Hsw Hxo) as Hcx. pose proof (Clip_exact x width sw Hx Hw Hsw Hxo) as Hex.
  pose proof (Clip_inside y height sh Hy Hh Hsh Hyo) as Hcy. pose proof (Clip_exact y height sh Hy Hh Hsh Hyo) as Hey.
  destruct (Clip x width sw) as [copyX copyWidth], (Clip y height sh) as [copyY copyHeight].
  set (copy := if (copyHeight >? 0) && (copyWidth >? 0)
    then [glCopyTexSubImage2D target level (xoffset + (copyX - x)) (yoffset + (copyY - y)) copyX copyY copyWidth copyHeight] else []).
  assert (forall c0, gl_calls (if (copyHeight >? 0) && (copyWidth >? 0) then gl (glCopyTexSubImage2D target level
      (i32 (xoffset + i32 (copyX - x))) (i32 (yoffset + i32 (copyY - y))) copyX copyY copyWidth copyHeight) c0 else c0) =
      gl_calls c0 ++ copy) as Hfinish.
  { intros c0. unfold copy. destruct (_ && _) eqn:E; [|by rewrite app_nil_r]. zbool. unfold is_i32 in *.
    by rewrite (i32_id (copyX - x)), (i32_id (xoffset + _)), (i32_id (copyY - y)), (i32_id (yoffset + _)) by (unfold is_i32; lia). }
  assert (Forall (copy_ok c target level sw sh) copy) as Hcopy.
  { unfold copy. destruct (_ && _) eqn:E; [|constructor]. zbool. apply Forall_singleton. exists a, t.
    split_and!; try done; try lia. exists info. split_and!; done || lia. }
  destruct (_ || _ || _ || _) eqn:Eclip.
  - destruct (ComputeImageDataSize _ _ _ _ _) as [size|] eqn:Esize; [|intros [= <-]; left; by eauto]. intros [= <-]. right.
    rewrite Hfinish. exists (glTexSubImage2D target level xoffset yoffset width height f ty (zeros size) :: copy).
    split; [simpl; by rewrite <- app_assoc|]. split.
    + constructor; [|done]. exists a, t. split_and!; try done; [|by exists size].
      exists info. split_and!; done || lia.
    + intros u v. apply (copy_texels target level xoffset yoffset x y width height sw sh copyX copyWidth copyY copyHeight f ty size u v true);
        try done; lia.
  - intros [= <-]. right. rewrite Hfinish. exists copy. split; [done|]. split; [done|]. intros u v. zbool.
    apply (copy_texels target level xoffset yoffset x y width height sw sh copyX copyWidth copyY copyHeight f ty 0 u v false);
      try done; lia.
Qed.

(** The far edge of the source can overflow, and then nothing is clipped. *)
Theorem Clip_overflows sourceRange :
  0 <= sourceRange -> Clip (2 ^ 31 - 1) 16 sourceRange = (2 ^ 31 - 1, 16).
Proof.
  intros Hs. unfold Clip. change (2 ^ 31 - 1 <? 0) with false. cbv iota beta.
  change (i32 (2 ^ 31 - 1 + 16)) with (15 - 2 ^ 31). by bfalse (15 - 2 ^ 31 >? sourceRange).
Qed.
