(* ===== verification/FramebufferDecoder.v ===== *)
(** * The handlers of framebuffers

    The part of [gpu/command_buffer/service/gles2_cmd_decoder.cc] (and its generated
    half) that binds framebuffers and renderbuffers, attaches images to them, clears what
    was never cleared, and keeps the masks and tests that the client asks for. *)

From Stdlib Require Import ZArith Lia ZifyBool Bool.
From stdpp Require Import base numbers option gmap sets list.
From S2P Require Import Prelude GLConstants Validators GLES2Util FeatureInfo TextureInfo IdAllocator.
From S2P Require Import TextureManager RenderbufferManager FramebufferManager ContextState ContextInvariant.
Local Open Scope Z_scope.

Section handlers.
Variable cfg : Config.
Implicit Types c : Context.

Notation fi := (feature_info_ cfg).
Notation Result := (outcome Context).
Notation valid := (ContextState.valid cfg).

(** ** Names *)

Definition with_renderbuffer_ids (ids : Reused.IdAllocator) (c : Context) : Context :=
  let g := group c in
  with_group (mkGroup (texture_manager g) (renderbuffer_manager g) (framebuffer_manager g)
    (texture_ids g) ids (framebuffer_ids g)) c.

Definition with_framebuffer_ids (ids : Reused.IdAllocator) (c : Context) : Context :=
  let g := group c in
  with_group (mkGroup (texture_manager g) (renderbuffer_manager g) (framebuffer_manager g)
    (texture_ids g) (renderbuffer_ids g) ids) c.

Definition bind_framebuffers (draw read : option Z) (c : Context) : Context :=
  let b := bindings c in
  with_bindings (mkBindings (texture_units_ b) (active_texture_unit_ b) draw read
    (bound_renderbuffer_ b)) c.

Definition bind_renderbuffer (r : option Z) (c : Context) : Context :=
  let b := bindings c in
  with_bindings (mkBindings (texture_units_ b) (active_texture_unit_ b) (bound_draw_framebuffer_ b)
    (bound_read_framebuffer_ b) r) c.

Definition create_framebuffer (client_id service_id : Z) (c : Context) : Context :=
  with_framebuffer_manager
    (CreateFramebufferInfo client_id service_id (framebuffer_manager (group c))) c.

Definition create_renderbuffer (client_id service_id : Z) (c : Context) : Context :=
  with_renderbuffer_manager
    (CreateRenderbufferInfo client_id service_id (renderbuffer_manager (group c))) c.

Definition GenFramebuffersHelper (client_ids service_ids : list Z) (c : Context)
    : outcome (bool * Context) :=
  if existsb (fun id => bool_decide (is_Some (GetFramebufferInfo id (framebuffer_manager (group c)))))
       client_ids
  then Done (false, c)
  else
    let c := fold_left (fun c id => gl (glGenFramebuffersEXT id) c) service_ids c in
    Done (true, fold_left (fun c '(id, service_id) => create_framebuffer id service_id c)
                  (zip client_ids service_ids) c).

Definition GenRenderbuffersHelper (client_ids service_ids : list Z) (c : Context)
    : outcome (bool * Context) :=
  if existsb (fun id => bool_decide (is_Some (GetRenderbufferInfo id (renderbuffer_manager (group c)))))
       client_ids
  then Done (false, c)
  else
    let c := fold_left (fun c id => gl (glGenRenderbuffersEXT id) c) service_ids c in
    Done (true, fold_left (fun c '(id, service_id) => create_renderbuffer id service_id c)
                  (zip client_ids service_ids) c).

(** The framebuffer that is read from stays bound. *)
Fixpoint DeleteFramebuffersHelper (client_ids : list Z) (c : Context) : Result :=
  match client_ids with
  | [] => Done c
  | id :: ids =>
      match GetFramebufferInfo id (framebuffer_manager (group c)) with
      | Some a =>
          (do f <- framebuffer a c ;;
           let c := if bool_decide (bound_draw_framebuffer_ (bindings c) = Some a)
                    then with_dirty true
                           (bind_framebuffers None (bound_read_framebuffer_ (bindings c)) c)
                    else c in
           let c := gl (glDeleteFramebuffersEXT (fb_service_id_ f)) c in
           DeleteFramebuffersHelper ids (with_framebuffer_manager
             (RemoveFramebufferInfo id (framebuffer_manager (group c))) c))%gpu
      | None => DeleteFramebuffersHelper ids c
      end
  end.

Fixpoint DeleteRenderbuffersHelper (client_ids : list Z) (c : Context) : Result :=
  match client_ids with
  | [] => Done c
  | id :: ids =>
      match GetRenderbufferInfo id (renderbuffer_manager (group c)) with
      | Some a =>
          (do r <- of_option (rbs c !! a) ;;
           let c := gl (glDeleteRenderbuffersEXT (rb_service_id_ r)) (with_dirty true c) in
           DeleteRenderbuffersHelper ids (with_renderbuffer_manager
             (RemoveRenderbufferInfo id (renderbuffer_manager (group c))) c))%gpu
      | None => DeleteRenderbuffersHelper ids c
      end
  end.

(** The end of [DoBindFramebuffer]. *)
Definition bind_framebuffer (target service_id : Z) (info : option Z) (c : Context) : Context :=
  let draw := is_case target [GL_FRAMEBUFFER; GL_DRAW_FRAMEBUFFER_EXT] in
  let read := is_case target [GL_FRAMEBUFFER; GL_READ_FRAMEBUFFER_EXT] in
  let c := bind_framebuffers (if draw then info else bound_draw_framebuffer_ (bindings c))
             (if read then info else bound_read_framebuffer_ (bindings c)) c in
  let c := with_dirty true c in
  let service_id :=
    match info, offscreen cfg with
    | None, Some o => offscreen_target_frame_buffer_ o
    | _, _ => service_id
    end in
  gl (glBindFramebufferEXT target service_id) c.

Definition mark_framebuffer (a : Z) (c : Context) : Result :=
  (do f <- framebuffer a c ;;
   Done (with_framebuffer_manager
           (with_framebuffer a (MarkAsValid f) (framebuffer_manager (group c))) c))%gpu.

Definition DoBindFramebuffer (env : Answers) (target client_id : Z) (c : Context) : Result :=
  if negb (client_id =? 0) then
    match GetFramebufferInfo client_id (framebuffer_manager (group c)) with
    | Some a =>
        (do f <- framebuffer a c ;;
         do c <- mark_framebuffer a c ;;
         Done (bind_framebuffer target (fb_service_id_ f) (Some a) c))%gpu
    | None =>
        if negb (bind_generates_resource cfg) then fail GL_INVALID_VALUE c
        else
          let service_id := generated_id env in
          let c := create_framebuffer client_id service_id (gl (glGenFramebuffersEXT service_id) c) in
          let info := GetFramebufferInfo client_id (framebuffer_manager (group c)) in
          let c := with_framebuffer_ids
                     (snd (Reused.MarkAsUsed client_id (framebuffer_ids (group c)))) c in
          (do a <- of_option info ;;
           do c <- mark_framebuffer a c ;;
           Done (bind_framebuffer target service_id (Some a) c))%gpu
    end
  else Done (bind_framebuffer target (surface_backing_frame_buffer cfg) None c).

Definition HandleBindFramebuffer (env : Answers) (target framebuffer : Z) (c : Context) : Result :=
  if negb (valid Validator.frame_buffer_target target) then fail GL_INVALID_ENUM c
  else DoBindFramebuffer env target framebuffer c.

Definition mark_renderbuffer (a : Z) (c : Context) : Result :=
  (do r <- of_option (rbs c !! a) ;;
   Done (with_renderbuffer_manager
           (with_renderbuffers (<[a := RenderbufferManager.MarkAsValid r]> (rbs c))
              (renderbuffer_manager (group c))) c))%gpu.

Definition DoBindRenderbuffer (env : Answers) (target client_id : Z) (c : Context) : Result :=
  let finish service_id info c := gl (glBindRenderbufferEXT target service_id) (bind_renderbuffer info c) in
  if negb (client_id =? 0) then
    match GetRenderbufferInfo client_id (renderbuffer_manager (group c)) with
    | Some a =>
        (do r <- of_option (rbs c !! a) ;;
         do c <- mark_renderbuffer a c ;;
         Done (finish (rb_service_id_ r) (Some a) c))%gpu
    | None =>
        if negb (bind_generates_resource cfg) then fail GL_INVALID_VALUE c
        else
          let service_id := generated_id env in
          let c := create_renderbuffer client_id service_id (gl (glGenRenderbuffersEXT service_id) c) in
          let info := GetRenderbufferInfo client_id (renderbuffer_manager (group c)) in
          let c := with_renderbuffer_ids
                     (snd (Reused.MarkAsUsed client_id (renderbuffer_ids (group c)))) c in
          (do a <- of_option info ;;
           do c <- mark_renderbuffer a c ;;
           Done (finish service_id (Some a) c))%gpu
    end
  else Done (finish 0 None c).

Definition HandleBindRenderbuffer (env : Answers) (target renderbuffer : Z) (c : Context) : Result :=
  if negb (valid Validator.render_buffer_target target) then fail GL_INVALID_ENUM c
  else DoBindRenderbuffer env target renderbuffer c.

(** ** Clearing what was never cleared *)

Definition RestoreClearState (c : Context) : Context :=
  let s := saved c in
  let c := with_dirty true c in
  let c := gl (glClearColor (clear_red_ s) (clear_green_ s) (clear_blue_ s) (clear_alpha_ s)) c in
  let c := gl (glClearStencil (clear_stencil_ s)) c in
  let c := gl (glClearDepth (clear_depth_ s)) c in
  if enable_scissor_test_ s then gl (glEnable GL_SCISSOR_TEST) c else c.

(** The calls before the clear, and the bits to clear. *)
Definition clear_setup (f : FramebufferInfo) (c : Context) : outcome (list GLCall * Z) :=
  let uncleared attachment := HasUnclearedAttachment (rbs c) attachment f in
  (do color <- uncleared GL_COLOR_ATTACHMENT0 ;;
   do format <- GetColorAttachmentFormat (texs c) (rbs c) f ;;
   do stencil <- uncleared GL_STENCIL_ATTACHMENT ;;
   do depth_stencil <- uncleared GL_DEPTH_STENCIL_ATTACHMENT ;;
   do depth <- uncleared GL_DEPTH_ATTACHMENT ;;
   Done ((if color
          then [glClearColor 0 0 0
                  (if negb (Z.land (GetChannelsForFormat format) 8 =? 0) then 0 else one_f);
                glColorMask 1 1 1 1] else []) ++
         (if stencil || depth_stencil then [glClearStencil 0; glStencilMask (u32 (-1))] else []) ++
         (if depth || depth_stencil then [glClearDepth one_f; glDepthMask 1] else []),
         Z.lor (Z.lor (if color then GL_COLOR_BUFFER_BIT else 0)
                  (if stencil || depth_stencil then GL_STENCIL_BUFFER_BIT else 0))
           (if depth || depth_stencil then GL_DEPTH_BUFFER_BIT else 0))%list)%gpu.

(** The branches for [GL_READ_FRAMEBUFFER_EXT] are empty but for a comment: the clear goes to what is
    bound for drawing, whatever [target] is. *)
Definition ClearUnclearedRenderbuffers (target : Z) (f : FramebufferInfo) (c : Context) : Result :=
  (do (calls, clear_bits) <- clear_setup f c ;;
   let c := fold_left (fun c call => gl call c) calls c in
   let c := gl (glClear clear_bits) (gl (glDisable GL_SCISSOR_TEST) c) in
   do rs <- MarkAttachedRenderbuffersAsCleared (rbs c) f ;;
   let c := with_renderbuffer_manager (with_renderbuffers rs (renderbuffer_manager (group c))) c in
   Done (RestoreClearState c))%gpu.

(** ** Attachments *)

(** The end of both handlers: the new framebuffer, what to do when it is complete, and the
    dirty state of the framebuffer that is drawn to. *)
Definition dirty_if_drawn (a : Z) (c : Context) : Context :=
  if bool_decide (bound_draw_framebuffer_ (bindings c) = Some a) then with_dirty true c else c.

Definition set_framebuffer (a : Z) (f : FramebufferInfo) (c : Context) : Context :=
  with_framebuffer_manager (with_framebuffer a f (framebuffer_manager (group c))) c.

Definition DoFramebufferRenderbuffer (env : Answers)
    (target attachment renderbuffertarget client_renderbuffer_id : Z) (c : Context) : Result :=
  (do info <- GetFramebufferInfoForTarget target c ;;
   match info with
   | None => fail GL_INVALID_OPERATION c
   | Some (a, f) =>
       let attach (renderbuffer : option Z) service_id :=
         (let c := gl (glFramebufferRenderbufferEXT target attachment renderbuffertarget service_id) c in
          do c <- (if peek_gl_error env =? GL_NO_ERROR then
                     let f := AttachRenderbuffer attachment renderbuffer f in
                     let c := set_framebuffer a f c in
                     if ((service_id =? 0) || (framebuffer_status env =? GL_FRAMEBUFFER_COMPLETE)) &&
                        bool_decide (is_Some renderbuffer)
                     then ClearUnclearedRenderbuffers target f c else Done c
                   else fail (peek_gl_error env) c) ;;
          Done (dirty_if_drawn a c))%gpu in
       if negb (client_renderbuffer_id =? 0) then
         match GetRenderbufferInfo client_renderbuffer_id (renderbuffer_manager (group c)) with
         | None => fail GL_INVALID_OPERATION c
         | Some r => do info <- of_option (rbs c !! r) ;; attach (Some r) (rb_service_id_ info)
         end
       else attach None 0
   end)%gpu.

Definition HandleFramebufferRenderbuffer (env : Answers)
    (target attachment renderbuffertarget renderbuffer : Z) (c : Context) : Result :=
  if negb (valid Validator.frame_buffer_target target) then fail GL_INVALID_ENUM c
  else if negb (valid Validator.attachment attachment) then fail GL_INVALID_ENUM c
  else if negb (valid Validator.render_buffer_target renderbuffertarget) then fail GL_INVALID_ENUM c
  else DoFramebufferRenderbuffer env target attachment renderbuffertarget renderbuffer c.

(** The textures with a store of them replaced. *)
Definition set_textures (ts : gmap Z TextureInfo) (c : Context) : Context :=
  let m := texture_manager (group c) in
  with_textures (mkTextureManager ts (texture_infos_ m) (next_texture m) (limits m)
    (num_unrenderable_textures_ m) (builtins m)) c.

Definition DoFramebufferTexture2D (env : Answers)
    (target attachment textarget client_texture_id level : Z) (c : Context) : Result :=
  (do info <- GetFramebufferInfoForTarget target c ;;
   match info with
   | None => fail GL_INVALID_OPERATION c
   | Some (a, f) =>
       let attach (texture : option Z) service_id :=
         (let c := gl (glFramebufferTexture2DEXT target attachment textarget service_id level) c in
          do c <- (if peek_gl_error env =? GL_NO_ERROR then
                     let '(ts, f) := AttachTexture attachment texture textarget level (texs c) f in
                     let c := set_framebuffer a f (set_textures ts c) in
                     if negb (service_id =? 0) && (framebuffer_status env =? GL_FRAMEBUFFER_COMPLETE)
                     then ClearUnclearedRenderbuffers target f c else Done c
                   else fail (peek_gl_error env) c) ;;
          Done (dirty_if_drawn a c))%gpu in
       if negb (client_texture_id =? 0) then
         match GetTextureInfo client_texture_id (texture_manager (group c)) with
         | None => fail GL_INVALID_OPERATION c
         | Some t => do info <- of_option (texs c !! t) ;; attach (Some t) (t_service_id_ info)
         end
       else attach None 0
   end)%gpu.

Definition HandleFramebufferTexture2D (env : Answers)
    (target attachment textarget texture level : Z) (c : Context) : Result :=
  if negb (valid Validator.frame_buffer_target target) then fail GL_INVALID_ENUM c
  else if negb (valid Validator.attachment attachment) then fail GL_INVALID_ENUM c
  else if negb (valid Validator.texture_target textarget) then fail GL_INVALID_ENUM c
  else if negb (valid Validator.zero_only level) then fail GL_INVALID_VALUE c
  else DoFramebufferTexture2D env target attachment textarget texture level c.

(** ** Storage *)

Definition implementation_format (internalformat : Z) : Z :=
  if negb (egl_gles2 cfg) then
    if internalformat =? GL_DEPTH_COMPONENT16 then GL_DEPTH_COMPONENT
    else if is_case internalformat [GL_RGBA4; GL_RGB5_A1] then GL_RGBA
    else if internalformat =? GL_RGB565 then GL_RGB
    else internalformat
  else internalformat.

(** [SetInfo] of the bound renderbuffer. *)
Definition set_storage (samples internalformat width height : Z) (c : Context) : Result :=
  (do a <- of_option (bound_renderbuffer_ (bindings c)) ;;
   do r <- of_option (rbs c !! a) ;;
   Done (with_renderbuffer_manager
           (with_renderbuffers (<[a := SetInfo samples internalformat width height r]> (rbs c))
              (renderbuffer_manager (group c))) c))%gpu.

Definition DoRenderbufferStorage (env : Answers) (target internalformat width height : Z) (c : Context)
    : Result :=
  match bound_renderbuffer_ (bindings c) with
  | None => fail GL_INVALID_OPERATION c
  | Some _ =>
      let c := gl (glRenderbufferStorageEXT target 0 (implementation_format internalformat) width
                     height) c in
      if peek_gl_error env =? GL_NO_ERROR then set_storage 0 internalformat width height c
      else fail (peek_gl_error env) c
  end.

Definition HandleRenderbufferStorage (env : Answers) (target internalformat width height : Z) (c : Context)
    : Result :=
  if negb (valid Validator.render_buffer_target target) then fail GL_INVALID_ENUM c
  else if negb (valid Validator.render_buffer_format internalformat) then fail GL_INVALID_ENUM c
  else if width <? 0 then fail GL_INVALID_VALUE c
  else if height <? 0 then fail GL_INVALID_VALUE c
  else DoRenderbufferStorage env target internalformat width height c.

(** Without a renderbuffer the driver must answer an error. *)
Definition DoRenderbufferStorageMultisample (env : Answers)
    (target samples internalformat width height : Z) (c : Context) : Result :=
  if negb (chromium_framebuffer_multisample (feature_flags_ fi)) then fail GL_INVALID_OPERATION c
  else
    let c := gl (glRenderbufferStorageEXT target samples (implementation_format internalformat) width
                   height) c in
    if peek_gl_error env =? GL_NO_ERROR then set_storage samples internalformat width height c
    else fail (peek_gl_error env) c.

Definition HandleRenderbufferStorageMultisampleEXT (env : Answers)
    (target samples internalformat width height : Z) (c : Context) : Result :=
  if negb (valid Validator.render_buffer_target target) then fail GL_INVALID_ENUM c
  else if samples <? 0 then fail GL_INVALID_VALUE c
  else if negb (valid Validator.render_buffer_format internalformat) then fail GL_INVALID_ENUM c
  else if width <? 0 then fail GL_INVALID_VALUE c
  else if height <? 0 then fail GL_INVALID_VALUE c
  else DoRenderbufferStorageMultisample env target samples internalformat width height c.

(** The call is made even when the function is not available. *)
Definition DoBlitFramebufferEXT (srcX0 srcY0 srcX1 srcY1 dstX0 dstY0 dstX1 dstY1 mask filter : Z)
    (c : Context) : Result :=
  let c := if negb (chromium_framebuffer_multisample (feature_flags_ fi))
           then SetGLError GL_INVALID_OPERATION c else c in
  Done (gl (glBlitFramebufferEXT srcX0 srcY0 srcX1 srcY1 dstX0 dstY0 dstX1 dstY1 mask filter) c).

Definition HandleBlitFramebufferEXT (srcX0 srcY0 srcX1 srcY1 dstX0 dstY0 dstX1 dstY1 mask filter : Z)
    (c : Context) : Result :=
  if negb (valid Validator.blit_filter filter) then fail GL_INVALID_ENUM c
  else DoBlitFramebufferEXT srcX0 srcY0 srcX1 srcY1 dstX0 dstY0 dstX1 dstY1 mask filter c.

(** ** Masks and tests *)

Definition set_clear_color (red green blue alpha : Z) (s : Saved) : Saved :=
  mkSaved red green blue alpha (mask_red_ s) (mask_green_ s) (mask_blue_ s) (mask_alpha_ s)
    (clear_stencil_ s) (mask_stencil_front_ s) (mask_stencil_back_ s) (clear_depth_ s) (mask_depth_ s)
    (enable_scissor_test_ s) (enable_depth_test_ s) (enable_stencil_test_ s).

Definition set_clear (stencil depth : Z) (s : Saved) : Saved :=
  mkSaved (clear_red_ s) (clear_green_ s) (clear_blue_ s) (clear_alpha_ s) (mask_red_ s)
    (mask_green_ s) (mask_blue_ s) (mask_alpha_ s) stencil (mask_stencil_front_ s)
    (mask_stencil_back_ s) depth (mask_depth_ s) (enable_scissor_test_ s) (enable_depth_test_ s)
    (enable_stencil_test_ s).

Definition set_masks (red green blue alpha front back depth : Z) (s : Saved) : Saved :=
  mkSaved (clear_red_ s) (clear_green_ s) (clear_blue_ s) (clear_alpha_ s) red green blue alpha
    (clear_stencil_ s) front back (clear_depth_ s) depth (enable_scissor_test_ s)
    (enable_depth_test_ s) (enable_stencil_test_ s).

Definition set_tests (scissor depth stencil : bool) (s : Saved) : Saved :=
  mkSaved (clear_red_ s) (clear_green_ s) (clear_blue_ s) (clear_alpha_ s) (mask_red_ s)
    (mask_green_ s) (mask_blue_ s) (mask_alpha_ s) (clear_stencil_ s) (mask_stencil_front_ s)
    (mask_stencil_back_ s) (clear_depth_ s) (mask_depth_ s) scissor depth stencil.

(** The answer is whether the driver is to be told at once. *)
Definition SetCapabilityState (cap : Z) (enabled : bool) (c : Context) : bool * Context :=
  let s := saved c in
  if cap =? GL_SCISSOR_TEST then
    (true, with_saved (set_tests enabled (enable_depth_test_ s) (enable_stencil_test_ s) s) c)
  else if cap =? GL_DEPTH_TEST then
    (false, if negb (Bool.eqb (enable_depth_test_ s) enabled)
            then with_dirty true
                   (with_saved (set_tests (enable_scissor_test_ s) enabled (enable_stencil_test_ s) s) c)
            else c)
  else if cap =? GL_STENCIL_TEST then
    (false, if negb (Bool.eqb (enable_stencil_test_ s) enabled)
            then with_dirty true
                   (with_saved (set_tests (enable_scissor_test_ s) (enable_depth_test_ s) enabled s) c)
            else c)
  else (true, c).

Definition DoDisable (cap : Z) (c : Context) : Result :=
  let '(now, c) := SetCapabilityState cap false c in Done (if now then gl (glDisable cap) c else c).

Definition DoEnable (cap : Z) (c : Context) : Result :=
  let '(now, c) := SetCapabilityState cap true c in Done (if now then gl (glEnable cap) c else c).

Definition HandleEnable (cap : Z) (c : Context) : Result :=
  if negb (valid Validator.capability cap) then fail GL_INVALID_ENUM c else DoEnable cap c.

Definition HandleDisable (cap : Z) (c : Context) : Result :=
  if negb (valid Validator.capability cap) then fail GL_INVALID_ENUM c else DoDisable cap c.

Definition DoClearColor (red green blue alpha : Z) (c : Context) : Result :=
  Done (gl (glClearColor red green blue alpha)
          (with_saved (set_clear_color red green blue alpha (saved c)) c)).

Definition DoClearDepthf (depth : Z) (c : Context) : Result :=
  Done (gl (glClearDepth depth) (with_saved (set_clear (clear_stencil_ (saved c)) depth (saved c)) c)).

Definition DoClearStencil (s : Z) (c : Context) : Result :=
  Done (gl (glClearStencil s) (with_saved (set_clear s (clear_depth_ (saved c)) (saved c)) c)).

Definition DoColorMask (red green blue alpha : Z) (c : Context) : Result :=
  let s := saved c in
  Done (with_dirty true (with_saved (set_masks red green blue alpha (mask_stencil_front_ s)
          (mask_stencil_back_ s) (mask_depth_ s) s) c)).

Definition DoDepthMask (depth : Z) (c : Context) : Result :=
  let s := saved c in
  Done (with_dirty true (with_saved (set_masks (mask_red_ s) (mask_green_ s) (mask_blue_ s)
          (mask_alpha_ s) (mask_stencil_front_ s) (mask_stencil_back_ s) depth s) c)).

Definition DoStencilMaskSeparate (face mask : Z) (c : Context) : Result :=
  let s := saved c in
  let front := if is_case face [GL_FRONT; GL_FRONT_AND_BACK] then mask else mask_stencil_front_ s in
  let back := if is_case face [GL_BACK; GL_FRONT_AND_BACK] then mask else mask_stencil_back_ s in
  Done (with_dirty true (with_saved (set_masks (mask_red_ s) (mask_green_ s) (mask_blue_ s)
          (mask_alpha_ s) front back (mask_depth_ s) s) c)).

Definition DoStencilMask (mask : Z) (c : Context) : Result :=
  let s := saved c in
  Done (with_dirty true (with_saved (set_masks (mask_red_ s) (mask_green_ s) (mask_blue_ s)
          (mask_alpha_ s) mask mask (mask_depth_ s) s) c)).

Definition HandleStencilMaskSeparate (face mask : Z) (c : Context) : Result :=
  if negb (valid Validator.face_type face) then fail GL_INVALID_ENUM c
  else DoStencilMaskSeparate face mask c.

Definition DoClear (mask : Z) (c : Context) : Result :=
  (do (complete, c) <- CheckFramebufferComplete c ;;
   if complete then
     do c <- ApplyDirtyState cfg c ;;
     Done (gl (glClear mask) c)
   else Done c)%gpu.

End handlers.

(** ** The handlers keep the invariant *)

Section lemmas.
Variables (cfg : Config) (driver : Driver).
Hypothesis features : feature_reach driver (feature_info_ cfg).
Implicit Types c : Context.

Notation fi := (feature_info_ cfg).
Notation ok := (context_ok cfg).
Notation keeps := (keeps cfg).
Notation good := (good cfg).
Notation answers := (answers cfg).

(** *** Names *)

Lemma keeps_gl_each (F : Z -> GLCall) l c :
  ok c -> (forall x, quiet (F x) = true) -> (forall x, upload_ok (unpack_alignment_ c) (F x)) ->
  keeps c (fold_left (fun c x => gl (F x) c) l c).
Proof.
  revert c. induction l as [|x l IH]; intros c Hc Hq Hu; simpl; [by apply keeps_refl|].
  pose proof (keeps_gl cfg c (F x) Hc (Hq x) (Hu x)) as Hk. eapply context_keeps_trans; [exact Hk|].
  apply IH; [apply Hk|done..].
Qed.

Lemma keeps_each {X} (F : X -> Context -> Context) l c :
  ok c -> (forall x c, ok c -> keeps c (F x c)) -> keeps c (fold_left (fun c x => F x c) l c).
Proof.
  intros Hc HF. revert c Hc. induction l as [|x l IH]; intros c Hc; simpl; [by apply keeps_refl|].
  pose proof (HF x c Hc) as Hk. eapply context_keeps_trans; [exact Hk|]. apply IH, Hk.
Qed.

Lemma keeps_create_framebuffer c id service_id : ok c -> keeps c (create_framebuffer id service_id c).
Proof.
  intros Hc. apply keeps_framebuffers; [done|]. unfold CreateFramebufferInfo.
  destruct (framebuffer_infos_ _ !! id) eqn:Eid; split; simpl.
  - intros a f Ha. by exists f.
  - intros a f Ha. by apply (ctx_framebuffer _ _ Hc).
  - intros id' a. apply (ctx_framebuffer_info _ _ Hc).
  - intros a f Ha. exists f. destruct (ctx_framebuffer _ _ Hc a f Ha) as [Hlt _].
    by rewrite lookup_insert_ne by lia.
  - intros a f. rewrite lookup_insert_Some. intros [[<- <-]|[_ Ha]]; [split; [lia|done]|].
    destruct (ctx_framebuffer _ _ Hc a f Ha). split; [lia|done].
  - intros id' a. rewrite lookup_insert_Some, lookup_insert_is_Some'.
    intros [[_ <-]|[_ Hid]]; [by left|right; by apply (ctx_framebuffer_info _ _ Hc id')].
Qed.

Lemma keeps_create_renderbuffer c id service_id : ok c -> keeps c (create_renderbuffer id service_id c).
Proof.
  intros Hc. apply keeps_renderbuffers; [done|]. unfold CreateRenderbufferInfo.
  destruct (renderbuffer_infos_ _ !! id) eqn:Eid; split; simpl.
  - intros a f Ha. exists f. auto.
  - intros a f Ha. by apply (ctx_renderbuffer _ _ Hc a f).
  - intros id' a. apply (ctx_renderbuffer_info _ _ Hc).
  - intros a f Ha. exists f. pose proof (ctx_renderbuffer _ _ Hc a f Ha) as Hlt.
    rewrite lookup_insert_ne by lia. auto.
  - intros a f. rewrite lookup_insert_Some. intros [[<- <-]|[_ Ha]]; [lia|].
    pose proof (ctx_renderbuffer _ _ Hc a f Ha). lia.
  - intros id' a. rewrite lookup_insert_Some, lookup_insert_is_Some'.
    intros [[_ <-]|[_ Hid]]; [by left|right; by apply (ctx_renderbuffer_info _ _ Hc id')].
Qed.

Lemma GenFramebuffersHelper_answers c client_ids service_ids :
  ok c -> answers c (GenFramebuffersHelper client_ids service_ids c).
Proof.
  intros Hc. unfold GenFramebuffersHelper. destruct (existsb _ _).
  { exists false, c. split; [done|by apply keeps_refl]. }
  eexists true, _. split; [done|]. pose proof (keeps_gl_each glGenFramebuffersEXT service_ids c Hc) as Hk.
  eapply context_keeps_trans; [by apply Hk|]. apply keeps_each; [by apply Hk|].
  intros [id sid] c'. apply keeps_create_framebuffer.
Qed.

Lemma GenRenderbuffersHelper_answers c client_ids service_ids :
  ok c -> answers c (GenRenderbuffersHelper client_ids service_ids c).
Proof.
  intros Hc. unfold GenRenderbuffersHelper. destruct (existsb _ _).
  { exists false, c. split; [done|by apply keeps_refl]. }
  eexists true, _. split; [done|]. pose proof (keeps_gl_each glGenRenderbuffersEXT service_ids c Hc) as Hk.
  eapply context_keeps_trans; [by apply Hk|]. apply keeps_each; [by apply Hk|].
  intros [id sid] c'. apply keeps_create_renderbuffer.
Qed.

Lemma keeps_bind_framebuffers c draw read :
  ok c -> (forall a, draw = Some a -> is_Some (fbs c !! a)) ->
  (forall a, read = Some a -> is_Some (fbs c !! a)) ->
  keeps c (with_dirty true (bind_framebuffers draw read c)).
Proof.
  intros Hc Hd Hr. apply keeps_dirty_state; [|done]. apply context_ok_dirty, context_ok_bound; try done.
  apply (ctx_bound_renderbuffer _ _ Hc).
Qed.

Lemma keeps_delete_framebuffer c id a :
  ok c -> framebuffer_infos_ (framebuffer_manager (group c)) !! id = Some a -> drawn c <> Some a ->
  keeps c (with_framebuffer_manager (RemoveFramebufferInfo id (framebuffer_manager (group c))) c).
Proof.
  intros Hc Hid Hd. apply keeps_framebuffers; [done|]. unfold RemoveFramebufferInfo. rewrite Hid.
  split; simpl.
  - intros b f Hb. destruct (decide (a = b)) as [<-|Hne].
    + exists (MarkAsDeleted f). split; [|done]. unfold fbs in Hb. by rewrite lookup_alter_eq, Hb.
    + exists f. by rewrite lookup_alter_ne by done.
  - intros b f. rewrite lookup_alter_Some.
    intros [(<- & g & Hg & ->)|[_ Hb]]; [|by apply (ctx_framebuffer _ _ Hc)].
    split; [by apply (ctx_framebuffer _ _ Hc a g)|]. intros k att. simpl. by rewrite lookup_empty.
  - intros i b [_ Hi]%lookup_delete_Some. apply lookup_alter_is_Some.
    by apply (ctx_framebuffer_info _ _ Hc i).
Qed.

Lemma DeleteFramebuffersHelper_good client_ids c : ok c -> good c (DeleteFramebuffersHelper client_ids c).
Proof.
  revert c. induction client_ids as [|id ids IH]; intros c Hc; cbn [DeleteFramebuffersHelper].
  { by apply good_done, keeps_refl. }
  destruct (GetFramebufferInfo id _) as [a|] eqn:Eid; [|by apply IH].
  destruct (ctx_framebuffer_info _ _ Hc id a Eid) as [f Ha]. unfold framebuffer.
  change (framebuffers _ !! a) with (fbs c !! a) in Ha. rewrite Ha. cbn [of_option obind].
  set (c1 := if bool_decide _ then _ else c).
  assert (keeps c c1) as Hk1.
  { unfold c1. case_bool_decide; [|by apply keeps_refl].
    apply keeps_bind_framebuffers; [done|done|apply Hc]. }
  assert (framebuffer_manager (group c1) = framebuffer_manager (group c) /\ drawn c1 <> Some a) as [Hfm Hd].
  { unfold c1, drawn. case_bool_decide; simpl; [done|]. split; [done|]. by destruct (state_dirty_ c). }
  assert (keeps c1 (gl (glDeleteFramebuffersEXT (fb_service_id_ f)) c1)) as Hk2
    by (by apply keeps_gl; [apply Hk1|..]).
  eapply good_after; [exact Hk1|]. eapply good_after; [exact Hk2|].
  pose proof (keeps_delete_framebuffer _ id a (proj1 Hk2)) as Hk3. simpl in Hk3. rewrite Hfm in Hk3.
  specialize (Hk3 Eid Hd). simpl. rewrite Hfm. eapply good_after; [exact Hk3|]. apply IH, Hk3.
Qed.

Lemma DeleteRenderbuffersHelper_good client_ids c : ok c -> good c (DeleteRenderbuffersHelper client_ids c).
Proof.
  revert c. induction client_ids as [|id ids IH]; intros c Hc; cbn [DeleteRenderbuffersHelper].
  { by apply good_done, keeps_refl. }
  destruct (GetRenderbufferInfo id _) as [a|] eqn:Eid; [|by apply IH].
  destruct (ctx_renderbuffer_info _ _ Hc id a Eid) as [r Ha].
  change (renderbuffers _ !! a) with (rbs c !! a) in Ha. rewrite Ha. cbn [of_option obind].
  set (c1 := gl _ _).
  assert (keeps c c1) as Hk1.
  { eapply context_keeps_trans; [by apply keeps_dirty|]. apply keeps_gl; [by apply context_ok_dirty|done..]. }
  eapply good_after; [exact Hk1|].
  assert (keeps c1 (with_renderbuffer_manager
    (RemoveRenderbufferInfo id (renderbuffer_manager (group c1))) c1)) as Hk2.
  { apply keeps_renderbuffers; [apply Hk1|]. unfold RemoveRenderbufferInfo. simpl.
    unfold GetRenderbufferInfo in Eid. rewrite Eid. split; simpl.
    - intros b u Hb. destruct (decide (a = b)) as [<-|Hne].
      + exists (RenderbufferManager.MarkAsDeleted u).
        change (rbs c1) with (rbs c) in Hb. split; [|by left]. rewrite lookup_alter_eq.
        unfold rbs in Hb. by rewrite Hb.
      + exists u. rewrite lookup_alter_ne by done. auto.
    - intros b u. rewrite lookup_alter_Some.
      intros [(<- & g & Hg & ->)|[_ Hb]]; by eapply (ctx_renderbuffer _ _ Hc).
    - intros i b [_ Hi]%lookup_delete_Some. apply lookup_alter_is_Some.
      by apply (ctx_renderbuffer_info _ _ Hc i). }
  eapply good_after; [exact Hk2|]. apply IH, Hk2.
Qed.

(** *** Bindings *)

Lemma bind_framebuffer_good c target service_id info :
  ok c -> (forall a, info = Some a -> is_Some (fbs c !! a)) ->
  keeps c (bind_framebuffer cfg target service_id info c).
Proof.
  intros Hc Hi. unfold bind_framebuffer.
  set (draw := if is_case target [GL_FRAMEBUFFER; GL_DRAW_FRAMEBUFFER_EXT] then info else _).
  set (read := if is_case target [GL_FRAMEBUFFER; GL_READ_FRAMEBUFFER_EXT] then info else _).
  assert (keeps c (with_dirty true (bind_framebuffers draw read c))) as Hk.
  { apply keeps_bind_framebuffers; [done|unfold draw|unfold read]; case_match; try done; apply Hc. }
  eapply context_keeps_trans; [exact Hk|]. by apply keeps_gl; [apply Hk|..].
Qed.

Lemma mark_framebuffer_good c a :
  ok c -> is_Some (fbs c !! a) -> exists c', mark_framebuffer a c = Done c' /\ keeps c c' /\
    forall b, is_Some (fbs c !! b) -> is_Some (fbs c' !! b).
Proof.
  intros Hc [f Ha]. unfold mark_framebuffer, framebuffer. rewrite Ha. cbn [of_option obind].
  eexists. split; [done|]. split.
  - apply keeps_framebuffers; [done|]. apply (framebuffers_step_set cfg c a f); [done..|].
    by apply (ctx_framebuffer _ _ Hc a f).
  - intros b Hb. unfold fbs. simpl. apply lookup_insert_is_Some'. by right.
Qed.

Lemma HandleBindFramebuffer_good c env target id :
  ok c -> good c (HandleBindFramebuffer cfg env target id c).
Proof.
  intros Hc. unfold HandleBindFramebuffer, DoBindFramebuffer.
  destruct (negb (valid _ _ _)); [by apply good_fail|].
  destruct (negb (id =? 0)); [|by apply good_done, bind_framebuffer_good].
  destruct (GetFramebufferInfo id _) as [a|] eqn:Eid.
  - pose proof (ctx_framebuffer_info _ _ Hc id a Eid) as Ha. unfold framebuffer.
    destruct (mark_framebuffer_good c a Hc Ha) as (c1 & -> & Hk & Hs). destruct (Ha) as [f Hf].
    rewrite Hf. cbn [of_option obind]. eapply good_after; [exact Hk|].
    apply good_done, bind_framebuffer_good; [apply Hk|]. intros ? [= <-]. by apply Hs.
  - destruct (negb (bind_generates_resource cfg)); [by apply good_fail|]. cbv zeta.
    set (c1 := gl _ c). assert (keeps c c1) as Hk1 by by apply keeps_gl.
    pose proof (keeps_create_framebuffer c1 id (generated_id env) (proj1 Hk1)) as Hk2.
    set (c2 := create_framebuffer _ _ c1) in *.
    assert (GetFramebufferInfo id (framebuffer_manager (group c2)) =
      Some (next_framebuffer (framebuffer_manager (group c)))) as Eid2.
    { unfold GetFramebufferInfo in *. simpl. unfold CreateFramebufferInfo. rewrite Eid. simpl.
      by rewrite lookup_insert_eq. }
    rewrite Eid2. cbn [of_option obind].
    pose proof (keeps_ids cfg c2 (texture_ids (group c2)) (renderbuffer_ids (group c2))
      (snd (Reused.MarkAsUsed id (framebuffer_ids (group c2)))) (proj1 Hk2)) as Hk3. cbv zeta in Hk3.
    change (with_group _ c2) with
      (with_framebuffer_ids (snd (Reused.MarkAsUsed id (framebuffer_ids (group c2)))) c2) in Hk3.
    set (c3 := with_framebuffer_ids _ c2) in *.
    assert (is_Some (fbs c3 !! next_framebuffer (framebuffer_manager (group c)))) as Ha
      by apply (ctx_framebuffer_info _ _ (proj1 Hk3) id _ Eid2).
    destruct (mark_framebuffer_good c3 _ (proj1 Hk3) Ha) as (c4 & -> & Hk4 & Hs). cbn [obind].
    eapply good_after; [eapply context_keeps_trans; [exact Hk1|eapply context_keeps_trans; [exact Hk2|
      eapply context_keeps_trans; [exact Hk3|exact Hk4]]]|].
    apply good_done, bind_framebuffer_good; [apply Hk4|]. intros ? [= <-]. by apply Hs.
Qed.

Lemma keeps_bind_renderbuffer c r :
  ok c -> (forall a, r = Some a -> is_Some (rbs c !! a)) -> keeps c (bind_renderbuffer r c).
Proof. intros Hc Hr. split; [|done]. apply context_ok_bound; [done| | |done]; apply Hc. Qed.

Lemma mark_renderbuffer_good c a :
  ok c -> is_Some (rbs c !! a) -> exists c', mark_renderbuffer a c = Done c' /\ keeps c c' /\
    forall b, is_Some (rbs c !! b) -> is_Some (rbs c' !! b).
Proof.
  intros Hc [r Ha]. unfold mark_renderbuffer. rewrite Ha. cbn [of_option obind].
  eexists. split; [done|]. split.
  - apply keeps_renderbuffers; [done|]. apply (renderbuffers_step_set cfg c a r); [done..|by left].
  - intros b Hb. unfold rbs. simpl. apply lookup_insert_is_Some'. by right.
Qed.

Lemma HandleBindRenderbuffer_good c env target id :
  ok c -> good c (HandleBindRenderbuffer cfg env target id c).
Proof.
  intros Hc. unfold HandleBindRenderbuffer, DoBindRenderbuffer.
  destruct (negb (valid _ _ _)); [by apply good_fail|]. cbv zeta.
  assert (forall c service_id r, ok c -> (forall a, r = Some a -> is_Some (rbs c !! a)) ->
    keeps c (gl (glBindRenderbufferEXT target service_id) (bind_renderbuffer r c))) as Hfin.
  { intros c0 sid r Hc0 Hr. pose proof (keeps_bind_renderbuffer c0 r Hc0 Hr) as Hk.
    eapply context_keeps_trans; [exact Hk|]. by apply keeps_gl; [apply Hk|..]. }
  destruct (negb (id =? 0)); [|by apply good_done, Hfin].
  destruct (GetRenderbufferInfo id _) as [a|] eqn:Eid.
  - pose proof (ctx_renderbuffer_info _ _ Hc id a Eid) as Ha.
    destruct (mark_renderbuffer_good c a Hc Ha) as (c1 & -> & Hk & Hs). destruct (Ha) as [r Hr].
    change (rbs c !! a = Some r) in Hr. rewrite Hr. cbn [of_option obind]. eapply good_after; [exact Hk|].
    apply good_done, Hfin; [apply Hk|]. intros ? [= <-]. by apply Hs.
  - destruct (negb (bind_generates_resource cfg)); [by apply good_fail|].
    set (c1 := gl _ c). assert (keeps c c1) as Hk1 by by apply keeps_gl.
    pose proof (keeps_create_renderbuffer c1 id (generated_id env) (proj1 Hk1)) as Hk2.
    set (c2 := create_renderbuffer _ _ c1) in *.
    assert (GetRenderbufferInfo id (renderbuffer_manager (group c2)) =
      Some (next_renderbuffer (renderbuffer_manager (group c)))) as Eid2.
    { unfold GetRenderbufferInfo in *. simpl. unfold CreateRenderbufferInfo. rewrite Eid. simpl.
      by rewrite lookup_insert_eq. }
    rewrite Eid2. cbn [of_option obind].
    pose proof (keeps_ids cfg c2 (texture_ids (group c2))
      (snd (Reused.MarkAsUsed id (renderbuffer_ids (group c2)))) (framebuffer_ids (group c2))
      (proj1 Hk2)) as Hk3. cbv zeta in Hk3.
    change (with_group _ c2) with
      (with_renderbuffer_ids (snd (Reused.MarkAsUsed id (renderbuffer_ids (group c2)))) c2) in Hk3.
    set (c3 := with_renderbuffer_ids _ c2) in *.
    assert (is_Some (rbs c3 !! next_renderbuffer (renderbuffer_manager (group c)))) as Ha
      by apply (ctx_renderbuffer_info _ _ (proj1 Hk3) id _ Eid2).
    destruct (mark_renderbuffer_good c3 _ (proj1 Hk3) Ha) as (c4 & -> & Hk4 & Hs). cbn [obind].
    eapply good_after; [eapply context_keeps_trans; [exact Hk1|eapply context_keeps_trans; [exact Hk2|
      eapply context_keeps_trans; [exact Hk3|exact Hk4]]]|].
    apply good_done, Hfin; [apply Hk4|]. intros ? [= <-]. by apply Hs.
Qed.

(** *** Clearing *)

Definition attached (rs : gmap Z RenderbufferInfo) (l : list (Z * Attachment)) : Prop :=
  forall k a, (k, RenderbufferAttachment a) ∈ l -> is_Some (rs !! a).

(** A renderbuffer that may have been marked as cleared. *)
Definition maybe_cleared (r r' : RenderbufferInfo) : Prop := r' = r \/ r' = set_cleared r.

Lemma mark_cleared_ok l rs :
  attached rs l -> exists rs', mark_cleared l rs = Done rs' /\
    (forall a r, rs !! a = Some r -> exists r', rs' !! a = Some r' /\ maybe_cleared r r') /\
    (forall a, is_Some (rs' !! a) -> is_Some (rs !! a)) /\
    (forall k a, (k, RenderbufferAttachment a) ∈ l -> exists r, rs' !! a = Some r /\ cleared_ r = true).
Proof.
  revert rs. induction l as [|[k att] l IH]; intros rs Hl; cbn [mark_cleared].
  { exists rs. split_and!; [done|unfold maybe_cleared; eauto|done|]. by intros k a ?%elem_of_nil. }
  assert (forall rs', (forall a, is_Some (rs !! a) -> is_Some (rs' !! a)) -> attached rs' l) as Htail.
  { intros rs' Hs k' a Hin. eapply Hs, Hl. by right. }
  destruct att as [a|t tg lv].
  - destruct (Hl k a) as [r Ha]; [by left|]. rewrite Ha. cbn [of_option obind].
    set (rs1 := if negb (cleared_ r) then _ else rs).
    assert (exists r1, rs1 !! a = Some r1 /\ maybe_cleared r r1 /\ cleared_ r1 = true) as (r1 & Hr1 & Hm1 & Hc1).
    { unfold rs1. destruct (cleared_ r) eqn:Ec; simpl; [exists r|exists (set_cleared r)].
      - unfold maybe_cleared. auto.
      - rewrite lookup_insert_eq. unfold maybe_cleared. auto. }
    assert (forall b, b <> a -> rs1 !! b = rs !! b) as Hne.
    { intros b Hb. unfold rs1. destruct (negb _); [|done]. by rewrite lookup_insert_ne. }
    destruct (IH rs1) as (rs' & -> & Ho & Hi & Hcl).
    { apply Htail. intros b Hb. destruct (decide (b = a)) as [->|]; [by eexists|by rewrite Hne]. }
    exists rs'. split_and!; [done| | |].
    + intros b u Hb. destruct (decide (b = a)) as [->|Hn].
      * destruct (Ho a r1 Hr1) as (r' & Hr' & Hm'). exists r'. split; [done|]. simplify_eq.
        unfold maybe_cleared in *. destruct Hm1 as [->| ->], Hm' as [->| ->]; auto.
      * apply Ho. by rewrite Hne.
    + intros b Hb. destruct (decide (b = a)) as [->|Hn]; [by eexists|]. rewrite <- Hne by done. auto.
    + intros k' b [[= -> ->]|Hin]%elem_of_cons; [|by eapply Hcl].
      destruct (Ho a r1 Hr1) as (r' & Hr' & [->| ->]); eauto.
  - destruct (IH rs) as (rs' & -> & Ho & Hi & Hcl); [by apply Htail|]. exists rs'.
    split_and!; [done..|]. intros k' b [[=]|Hin]%elem_of_cons. by eapply Hcl.
Qed.

(** Everything that is attached is there. *)
Definition attachments_ok c (f : FramebufferInfo) : Prop :=
  forall k att, attachments_ f !! k = Some att -> attachment_ok (texs c) (rbs c) att.

Lemma attached_renderbuffers c f : attachments_ok c f -> attached (rbs c) (map_to_list (attachments_ f)).
Proof. intros Hf k a Hin%elem_of_map_to_list. by apply (Hf k _ Hin). Qed.

(** A renderbuffer whose storage nothing was written to. *)
Definition uncleared c (f : FramebufferInfo) (k : Z) : Prop :=
  exists a r, attachments_ f !! k = Some (RenderbufferAttachment a) /\ rbs c !! a = Some r /\
    cleared_ r = false.

Lemma uncleared_ok c f k :
  attachments_ok c f ->
  exists b, HasUnclearedAttachment (rbs c) k f = Done b /\ (b = true <-> uncleared c f k).
Proof.
  intros Hf. unfold HasUnclearedAttachment, uncleared. destruct (attachments_ f !! k) as [[a|t tg lv]|] eqn:Ek.
  - destruct (Hf _ _ Ek) as [r Ha]. exists (negb (cleared_ r)). simpl. rewrite Ha. split; [done|].
    rewrite negb_true_iff. split; [by exists a, r|]. intros (a' & r' & [= <-] & Ha' & ?). congruence.
  - exists false. split; [done|]. split; [done|]. by intros (? & ? & [=] & _).
  - exists false. split; [done|]. split; [done|]. by intros (? & ? & [=] & _).
Qed.

Lemma color_format_ok c f : attachments_ok c f -> exists b, GetColorAttachmentFormat (texs c) (rbs c) f = Done b.
Proof.
  intros Hf. unfold GetColorAttachmentFormat. destruct (attachments_ f !! _) as [att|] eqn:Ek; [|by eexists].
  by apply attachment_format, (Hf GL_COLOR_ATTACHMENT0).
Qed.

Lemma orb_iff a b (P Q : Prop) : (a = true <-> P) -> (b = true <-> Q) -> (a || b = true <-> P \/ Q).
Proof. rewrite orb_true_iff. tauto. Qed.

(** Opaque, where the color attachment has no alpha. *)
Definition alpha_of_format (format : Z) : Z := if negb (Z.land (GetChannelsForFormat format) 8 =? 0) then 0 else one_f.

(** The calls before the clear. *)
Definition setup_calls (color stencil depth : bool) (alpha : Z) : list GLCall :=
  (if color then [glClearColor 0 0 0 alpha; glColorMask 1 1 1 1] else []) ++
  (if stencil then [glClearStencil 0; glStencilMask (u32 (-1))] else []) ++
  (if depth then [glClearDepth one_f; glDepthMask 1] else []).

Definition clear_bits (color stencil depth : bool) : Z :=
  Z.lor (Z.lor (if color then GL_COLOR_BUFFER_BIT else 0) (if stencil then GL_STENCIL_BUFFER_BIT else 0))
    (if depth then GL_DEPTH_BUFFER_BIT else 0).

Lemma clear_setup_ok c f :
  attachments_ok c f -> exists color stencil depth format,
    clear_setup f c =
      Done (setup_calls color stencil depth (alpha_of_format format), clear_bits color stencil depth) /\
    GetColorAttachmentFormat (texs c) (rbs c) f = Done format /\
    (color = true <-> uncleared c f GL_COLOR_ATTACHMENT0) /\
    (stencil = true <-> uncleared c f GL_STENCIL_ATTACHMENT \/ uncleared c f GL_DEPTH_STENCIL_ATTACHMENT) /\
    (depth = true <-> uncleared c f GL_DEPTH_ATTACHMENT \/ uncleared c f GL_DEPTH_STENCIL_ATTACHMENT).
Proof.
  intros Hf. unfold clear_setup. destruct (color_format_ok c f Hf) as [fmt Ef].
  destruct (uncleared_ok c f GL_COLOR_ATTACHMENT0 Hf) as (color & -> & Hcol). rewrite Ef.
  destruct (uncleared_ok c f GL_STENCIL_ATTACHMENT Hf) as (stencil & -> & Hst).
  destruct (uncleared_ok c f GL_DEPTH_STENCIL_ATTACHMENT Hf) as (both & -> & Hds).
  destruct (uncleared_ok c f GL_DEPTH_ATTACHMENT Hf) as (depth & -> & Hdp). cbn [obind].
  exists color, (stencil || both), (depth || both), fmt. split; [done|]. split; [done|]. split; [done|].
  split; by apply orb_iff.
Qed.

(** The framebuffer that the driver draws to, and clears, after some calls; 0 when none was bound. *)
Definition drawn_after (drawn : Z) (call : GLCall) : Z :=
  match call with
  | glBindFramebufferEXT target service_id =>
      if is_case target [GL_FRAMEBUFFER; GL_DRAW_FRAMEBUFFER_EXT] then service_id else drawn
  | glDeleteFramebuffersEXT service_id => if service_id =? drawn then 0 else drawn
  | _ => drawn
  end.

Definition drawn_framebuffer (calls : list GLCall) : Z := fold_left drawn_after calls 0.

(** A clear writes every pixel of what is attached at [k] of the framebuffer [service_id]: a color with
    no red, green and blue and the given alpha, no stencil, the farthest depth. *)
Definition clears (calls : list GLCall) (bits service_id alpha k : Z) : Prop :=
  let masks := driver_masks calls in
  let values := driver_clear calls in
  drawn_framebuffer calls = service_id /\ scissor_test values = false /\
  (k = GL_COLOR_ATTACHMENT0 -> Z.land bits GL_COLOR_BUFFER_BIT <> 0 /\
     color_mask masks = (true, true, true, true) /\ clear_color values = (0, 0, 0, alpha)) /\
  (k = GL_STENCIL_ATTACHMENT \/ k = GL_DEPTH_STENCIL_ATTACHMENT ->
     Z.land bits GL_STENCIL_BUFFER_BIT <> 0 /\ stencil_front masks = u32 (-1) /\
     clear_stencil values = 0) /\
  (k = GL_DEPTH_ATTACHMENT \/ k = GL_DEPTH_STENCIL_ATTACHMENT ->
     Z.land bits GL_DEPTH_BUFFER_BIT <> 0 /\ depth_mask masks = true /\ clear_depth values = one_f).

Lemma setup_clears c f color stencil depth alpha k :
  (color = true <-> uncleared c f GL_COLOR_ATTACHMENT0) ->
  (stencil = true <-> uncleared c f GL_STENCIL_ATTACHMENT \/ uncleared c f GL_DEPTH_STENCIL_ATTACHMENT) ->
  (depth = true <-> uncleared c f GL_DEPTH_ATTACHMENT \/ uncleared c f GL_DEPTH_STENCIL_ATTACHMENT) ->
  uncleared c f k ->
  clears (gl_calls c ++ setup_calls color stencil depth alpha ++ [glDisable GL_SCISSOR_TEST])
    (clear_bits color stencil depth) (drawn_framebuffer (gl_calls c)) alpha k.
Proof.
  intros Hcol Hst Hdp Hk. unfold clears, drawn_framebuffer, driver_masks, driver_clear. rewrite !fold_left_app.
  split; [by destruct color, stencil, depth|].
  generalize (fold_left masks_after (gl_calls c) masks_initial).
  generalize (fold_left clear_after (gl_calls c) clear_initial). intros v m. split_and!.
  - by destruct color, stencil, depth.
  - intros ->. destruct Hcol as [_ Hcol]. rewrite (Hcol Hk).
    by destruct stencil, depth.
  - intros Hor. assert (stencil = true) as -> by (apply Hst; destruct Hor as [->| ->]; auto).
    by destruct color, depth.
  - intros Hor. assert (depth = true) as -> by (apply Hdp; destruct Hor as [->| ->]; auto).
    by destruct color, stencil.
Qed.

(** The calls after it. *)
Definition restore_calls (s : Saved) : list GLCall :=
  [glClearColor (clear_red_ s) (clear_green_ s) (clear_blue_ s) (clear_alpha_ s);
   glClearStencil (clear_stencil_ s); glClearDepth (clear_depth_ s)] ++
  (if enable_scissor_test_ s then [glEnable GL_SCISSOR_TEST] else []).

Lemma emit_managed m calls calls' c :
  emit calls' (with_dirty true (with_renderbuffer_manager m (emit calls c))) =
  with_renderbuffer_manager m (with_dirty true (emit (calls ++ calls') c)).
Proof.
  unfold emit, with_dirty, with_renderbuffer_manager, with_group. simpl. by rewrite <- app_assoc.
Qed.

Lemma RestoreClearState_emit c :
  RestoreClearState c = emit (restore_calls (saved c)) (with_dirty true c).
Proof.
  rewrite <- gl_each_emit. unfold RestoreClearState, restore_calls.
  change (saved (with_dirty true c)) with (saved c). by destruct (enable_scissor_test_ (saved c)).
Qed.

Lemma restored s calls :
  scissor_test (driver_clear calls) = false ->
  driver_clear (calls ++ restore_calls s) = wanted_clear s.
Proof.
  intros Hd. rewrite driver_clear_app. unfold restore_calls, wanted_clear. rewrite fold_left_app.
  destruct (driver_clear calls). simpl in *. by destruct (enable_scissor_test_ s); subst.
Qed.

Lemma ClearUnclearedRenderbuffers_ok c target f :
  ok c -> attachments_ok c f -> exists c' color stencil depth alpha,
    clear_setup f c = Done (setup_calls color stencil depth alpha, clear_bits color stencil depth) /\
    ClearUnclearedRenderbuffers target f c = Done c' /\
    gl_calls c' = gl_calls c ++ (setup_calls color stencil depth alpha ++ [glDisable GL_SCISSOR_TEST]) ++
      [glClear (clear_bits color stencil depth)] ++ restore_calls (saved c) /\
    (forall k a, attachments_ f !! k = Some (RenderbufferAttachment a) ->
       exists r, rbs c' !! a = Some r /\ cleared_ r = true) /\
    ok c' /\ state_dirty_ c' = true.
Proof.
  intros Hc Hf. destruct (clear_setup_ok c f Hf) as (color & stencil & depth & format & Es & _).
  set (alpha := alpha_of_format format) in *.
  pose proof (mark_cleared_ok _ _ (attached_renderbuffers c f Hf)) as (rs' & Em & Ho & Hi & Hcl).
  set (setup := setup_calls color stencil depth alpha) in *.
  set (bits := clear_bits color stencil depth) in *.
  set (calls := (setup ++ [glDisable GL_SCISSOR_TEST]) ++ [glClear bits] ++ restore_calls (saved c)).
  set (m' := with_renderbuffers rs' (renderbuffer_manager (group c))).
  exists (with_renderbuffer_manager m' (with_dirty true (emit calls c))), color, stencil, depth, alpha.
  split; [done|]. split; [|split; [done|]].
  - unfold ClearUnclearedRenderbuffers. rewrite Es. cbn [obind]. rewrite gl_each_emit.
    change (rbs (gl _ _)) with (rbs c). unfold MarkAttachedRenderbuffersAsCleared. rewrite Em. cbn [obind].
    rewrite RestoreClearState_emit. change (gl (glClear ?b) ?c) with (emit [glClear b] c).
    change (gl (glDisable ?b) ?c) with (emit [glDisable b] c). rewrite !emit_app, emit_managed.
    unfold calls. by rewrite <- !app_assoc.
  - split; [intros k a Hk; by apply (Hcl k), elem_of_map_to_list|]. split; [|done].
    assert (ok (with_dirty true (emit calls c))) as He.
    { apply context_ok_dirty, context_ok_emit; [done| |].
      - subst calls setup. unfold setup_calls, restore_calls.
        by destruct color, stencil, depth, (enable_scissor_test_ (saved c)); repeat constructor.
      - unfold calls. rewrite !app_assoc. apply restored. rewrite !driver_clear_app.
        by destruct (fold_left clear_after setup _). }
    apply keeps_renderbuffers; [done|]. split; simpl.
    + intros a r Ha. destruct (Ho a r Ha) as (r' & Ha' & [->| ->]); eauto.
    + intros a r' Ha. destruct (Hi a) as [r Hr]; [by eexists|]. by apply (ctx_renderbuffer _ _ Hc a r).
    + intros id a Hid. destruct (ctx_renderbuffer_info _ _ Hc id a Hid) as [r Hr].
      destruct (Ho a r Hr) as (r' & ? & _). by eexists.
Qed.

(** C19: [ClearUnclearedRenderbuffers] never fails on a framebuffer of a context: it makes
    one clear, of the framebuffer that the driver draws to, with bits and values that clear every
    renderbuffer of [f] that was never cleared (no red, green, blue, no stencil, the farthest
    depth, and no alpha, or an opaque one where the format has none), whatever masks, clear
    values and scissor test the client had set.  So they are cleared when [f] is the framebuffer
    drawn to; the function binds none, not even for a [target] that is only read.  It
    records that everything attached is cleared, and it leaves the driver with the client's
    clear values and scissor test, and the masks to be applied again. *)
Theorem ClearUnclearedRenderbuffers_clears c target f :
  ok c -> attachments_ok c f -> exists c' format before bits after,
    ClearUnclearedRenderbuffers target f c = Done c' /\
    GetColorAttachmentFormat (texs c) (rbs c) f = Done format /\
    gl_calls c' = gl_calls c ++ before ++ [glClear bits] ++ after /\
    (forall k, uncleared c f k ->
       clears (gl_calls c ++ before) bits (drawn_framebuffer (gl_calls c)) (alpha_of_format format) k) /\
    (forall k a, attachments_ f !! k = Some (RenderbufferAttachment a) ->
       exists r, rbs c' !! a = Some r /\ cleared_ r = true) /\
    driver_clear (gl_calls c') = wanted_clear (saved c) /\
    drawn_framebuffer (gl_calls c') = drawn_framebuffer (gl_calls c) /\ state_dirty_ c' = true.
Proof.
  intros Hc Hf. destruct (ClearUnclearedRenderbuffers_ok c target f Hc Hf)
    as (c' & color & stencil & depth & alpha & Es & Ec & Hg & Hcl & Hok & Hd).
  destruct (clear_setup_ok c f Hf) as (color' & stencil' & depth' & format & Es' & Ef & Hcol & Hst & Hdp).
  eexists c', format, _, _, _. split; [done|]. split; [done|]. split; [exact Hg|]. split; [|split; [done|split; [|split; [|done]]]].
  - intros k Hk. rewrite Es in Es'. injection Es' as Ea Eb. rewrite Ea, Eb. by apply (setup_clears c f).
  - rewrite Hg, !app_assoc. apply restored. rewrite !driver_clear_app.
    by destruct (fold_left clear_after (setup_calls _ _ _ _) _).
  - rewrite Hg. unfold drawn_framebuffer. rewrite !fold_left_app.
    unfold setup_calls, restore_calls. by destruct color, stencil, depth, (enable_scissor_test_ (saved c)).
Qed.

(** *** Attachments *)

Lemma GetFramebufferInfoForTarget_ok c target :
  ok c -> exists info, GetFramebufferInfoForTarget target c = Done info /\
    forall a f, info = Some (a, f) -> fbs c !! a = Some f.
Proof.
  intros Hc. unfold GetFramebufferInfoForTarget.
  set (info := if is_case _ _ then _ else _).
  assert (forall a, info = Some a -> is_Some (fbs c !! a)) as Hi.
  { intros a. unfold info. repeat case_match; try done; apply Hc. }
  destruct info as [a|]; [|by exists None]. destruct (Hi a eq_refl) as [f Ha]. rewrite Ha.
  cbn [of_option obind]. eexists. split; [done|]. intros a' f'. case_match; [done|]. by intros [= <- <-].
Qed.

Lemma set_framebuffer_ok c a f f' :
  ok c -> fbs c !! a = Some f -> attachments_ok c f' -> ok (set_framebuffer a f' c).
Proof.
  intros Hc Ha Hf. pose proof (context_ok_dirty cfg true c Hc) as Hd.
  assert (keeps (with_dirty true c) (set_framebuffer a f' (with_dirty true c))) as [Hk _].
  { apply keeps_framebuffers; [done|]. by apply (framebuffers_step_set cfg (with_dirty true c) a f). }
  apply (context_ok_dirty _ (state_dirty_ c)) in Hk. by destruct c.
Qed.

Lemma keeps_set_framebuffer c a f f' :
  ok c -> fbs c !! a = Some f -> attachments_ok c f' ->
  keeps c (dirty_if_drawn a (set_framebuffer a f' c)).
Proof.
  intros Hc Ha Hf. pose proof (set_framebuffer_ok c a f f' Hc Ha Hf) as Hok. unfold dirty_if_drawn.
  change (bindings (set_framebuffer a f' c)) with (bindings c). case_bool_decide as Hb.
  - apply keeps_dirty_state; [by apply context_ok_dirty|done].
  - apply keeps_framebuffers; [done|]. apply (framebuffers_step_set cfg c a f); [done..| |done].
    intros Hd. destruct Hb. unfold drawn in Hd. by destruct (state_dirty_ c).
Qed.

Lemma keeps_drawn c c' a : keeps c c' -> keeps c (dirty_if_drawn a c').
Proof.
  intros Hk. eapply context_keeps_trans; [exact Hk|]. unfold dirty_if_drawn. case_bool_decide.
  - apply keeps_dirty, Hk.
  - apply keeps_refl, Hk.
Qed.

(** What the two handlers do once the driver has attached the image. *)
Lemma good_attach c a target f f' (clear : bool) :
  ok c -> fbs c !! a = Some f -> attachments_ok c f' ->
  good c (do c <- (if clear then ClearUnclearedRenderbuffers target f' (set_framebuffer a f' c)
                   else Done (set_framebuffer a f' c)) ;; Done (dirty_if_drawn a c))%gpu.
Proof.
  intros Hc Ha Hf. pose proof (set_framebuffer_ok c a f f' Hc Ha Hf) as Hok. destruct clear.
  - destruct (ClearUnclearedRenderbuffers_ok (set_framebuffer a f' c) target f' Hok Hf)
      as (c' & ? & ? & ? & ? & _ & -> & _ & _ & Hc' & Hd). cbn [obind].
    by apply good_done, keeps_drawn, keeps_dirty_state.
  - apply good_done. by apply (keeps_set_framebuffer c a f).
Qed.

Lemma AttachRenderbuffer_attachments c f attachment r :
  attachments_ok c f -> (forall a, r = Some a -> is_Some (rbs c !! a)) ->
  attachments_ok c (AttachRenderbuffer attachment r f).
Proof.
  intros Hf Hr k att. unfold AttachRenderbuffer. destruct r as [a|]; simpl.
  - rewrite lookup_insert_Some. intros [[_ <-]|[_ Hk]]; [by apply Hr|by eapply Hf].
  - intros [_ Hk]%lookup_delete_Some. by eapply Hf.
Qed.

Lemma HandleFramebufferRenderbuffer_good c env target attachment renderbuffertarget renderbuffer :
  ok c -> good c (HandleFramebufferRenderbuffer cfg env target attachment renderbuffertarget renderbuffer c).
Proof.
  intros Hc. unfold HandleFramebufferRenderbuffer, DoFramebufferRenderbuffer.
  do 3 (destruct (negb (valid _ _ _)); [by apply good_fail|]).
  destruct (GetFramebufferInfoForTarget_ok c target Hc) as (info & -> & Hi). cbn [obind].
  destruct info as [[a f]|]; [|by apply good_fail]. specialize (Hi a f eq_refl).
  pose proof (proj2 (ctx_framebuffer _ _ Hc a f Hi)) as Hf.
  assert (forall r sid, (forall b, r = Some b -> is_Some (rbs c !! b)) ->
    let c1 := gl (glFramebufferRenderbufferEXT target attachment renderbuffertarget sid) c in
    good c (do c <- (if peek_gl_error env =? GL_NO_ERROR then
                       let f := AttachRenderbuffer attachment r f in
                       let c := set_framebuffer a f c1 in
                       if ((sid =? 0) || (framebuffer_status env =? GL_FRAMEBUFFER_COMPLETE)) &&
                          bool_decide (is_Some r)
                       then ClearUnclearedRenderbuffers target f c else Done c
                     else fail (peek_gl_error env) c1) ;; Done (dirty_if_drawn a c))%gpu) as Hattach.
  { intros r sid Hr c1. assert (keeps c c1) as Hk by by apply keeps_gl. eapply good_after; [exact Hk|].
    destruct (peek_gl_error env =? GL_NO_ERROR).
    - apply (good_attach c1 a target f); [apply Hk|done|]. by apply AttachRenderbuffer_attachments.
    - apply good_done, keeps_drawn, keeps_SetGLError, Hk. }
  destruct (negb _); [|by apply (Hattach None 0)].
  destruct (GetRenderbufferInfo renderbuffer _) as [r|] eqn:Eid; [|by apply good_fail].
  destruct (ctx_renderbuffer_info _ _ Hc _ _ Eid) as [info Hr].
  change (rbs c !! r = Some info) in Hr. rewrite Hr. cbn [of_option obind].
  apply (Hattach (Some r)). intros b [= <-]. by exists info.
Qed.

Lemma set_textures_same c : set_textures (texs c) c = c.
Proof. by destruct c as [[[] ? ? ? ? ?] ? ? ? ? ? ? ? ?]. Qed.

Lemma keeps_attachment_count c t tex n :
  ok c -> texs c !! t = Some tex -> framebuffer_attachment_count_ tex <= n ->
  keeps c (set_textures (<[t := with_attachments n tex]> (texs c)) c).
Proof.
  intros Hc Ht Hn. set (m := texture_manager (group c)). destruct (ctx_kind _ _ Hc t tex Ht) as [Hp Hk].
  apply (keeps_textures cfg c (with_texture t (with_attachments n tex) m)); [done| |].
  - by apply with_attachments_ok; [apply Hc|].
  - apply (textures_step_set _ m t tex (with_attachments n tex) (num_unrenderable_textures_ m));
      [apply (ctx_kind _ _ Hc)|done..|by right; right|split; [simpl; lia|done]].
Qed.

(** A texture that is attached again where it was is first detached. *)
Lemma AttachTexture_good c f attachment texture target :
  ok c -> attachments_ok c f -> (forall t, texture = Some t -> is_Some (texs c !! t)) ->
  exists ts' f', AttachTexture attachment texture target 0 (texs c) f = (ts', f') /\
    keeps c (set_textures ts' c) /\ attachments_ok (set_textures ts' c) f'.
Proof.
  intros Hc Hf Ht. unfold AttachTexture.
  set (old := match GetAttachment attachment f with Some a => IsTexture texture a | None => false end).
  destruct texture as [t|]; cycle 1.
  { eexists _, _. split; [done|]. rewrite set_textures_same. split; [by apply keeps_refl|].
    intros k att. simpl. intros [_ Hk]%lookup_delete_Some. by eapply Hf. }
  destruct (Ht t eq_refl) as [tex Htex]. pose proof (ctx_kind _ _ Hc t tex Htex) as [Hpos _].
  assert (exists n, alter AttachToFramebuffer t (if old then alter DetachFromFramebuffer t (texs c) else texs c) =
    <[t := with_attachments n tex]> (texs c) /\ framebuffer_attachment_count_ tex <= n /\ 1 <= n)
    as (n & Hts & Hn & Hn1).
  { destruct old eqn:Eold.
    - exists (framebuffer_attachment_count_ tex). split_and!; [|lia|].
      + apply map_eq. intros b. destruct (decide (t = b)) as [<-|Hne].
        * rewrite !lookup_alter_eq, Htex, lookup_insert_eq. simpl. unfold AttachToFramebuffer,
            DetachFromFramebuffer, with_attachments. simpl. repeat f_equal. lia.
        * by rewrite !lookup_alter_ne, lookup_insert_ne.
      + unfold old, GetAttachment in Eold. destruct (attachments_ f !! attachment) as [[|u tg lv]|] eqn:Ek;
          [done| |done]. simpl in Eold. apply bool_decide_eq_true in Eold. injection Eold as <-.
        destruct (Hf _ _ Ek) as (_ & tex' & Htex' & Hcount). by rewrite Htex in Htex'; simplify_eq.
    - exists (framebuffer_attachment_count_ tex + 1). split_and!; [|lia|lia].
      apply map_eq. intros b. destruct (decide (t = b)) as [<-|Hne].
      + by rewrite lookup_alter_eq, Htex, lookup_insert_eq.
      + by rewrite lookup_alter_ne, lookup_insert_ne. }
  eexists _, _. split; [done|]. rewrite Hts.
  assert (keeps c (set_textures (<[t := with_attachments n tex]> (texs c)) c)) as Hk
    by by apply keeps_attachment_count.
  split; [done|]. intros k att. simpl. unfold set_textures, texs at 1. simpl. rewrite lookup_insert_Some.
  intros [[_ <-]|[_ Hka]].
  - split; [done|]. exists (with_attachments n tex). by rewrite lookup_insert_eq.
  - specialize (Hf k att Hka). destruct att as [r|u tg lv]; [done|]. destruct Hf as (Hl & tex' & Hu & Hcount).
    split; [done|]. destruct (decide (t = u)) as [<-|Hne].
    + exists (with_attachments n tex). by rewrite lookup_insert_eq.
    + exists tex'. by rewrite lookup_insert_ne.
Qed.

Lemma HandleFramebufferTexture2D_good c env target attachment textarget texture level :
  ok c -> good c (HandleFramebufferTexture2D cfg env target attachment textarget texture level c).
Proof.
  intros Hc. unfold HandleFramebufferTexture2D, DoFramebufferTexture2D.
  do 3 (destruct (negb (valid _ _ _)); [by apply good_fail|]).
  destruct (valid cfg Validator.zero_only level) eqn:Hl; [|by apply good_fail]. simpl negb.
  apply (valid_possible _ _ features), list_elem_of_singleton in Hl as ->.
  destruct (GetFramebufferInfoForTarget_ok c target Hc) as (info & -> & Hi). cbn [obind].
  destruct info as [[a f]|]; [|by apply good_fail]. specialize (Hi a f eq_refl).
  pose proof (proj2 (ctx_framebuffer _ _ Hc a f Hi)) as Hf.
  assert (forall t sid, (forall b, t = Some b -> is_Some (texs c !! b)) ->
    let c1 := gl (glFramebufferTexture2DEXT target attachment textarget sid 0) c in
    good c (do c <- (if peek_gl_error env =? GL_NO_ERROR then
                       let '(ts, f) := AttachTexture attachment t textarget 0 (texs c1) f in
                       let c := set_framebuffer a f (set_textures ts c1) in
                       if negb (sid =? 0) && (framebuffer_status env =? GL_FRAMEBUFFER_COMPLETE)
                       then ClearUnclearedRenderbuffers target f c else Done c
                     else fail (peek_gl_error env) c1) ;; Done (dirty_if_drawn a c))%gpu) as Hattach.
  { intros t sid Ht c1. assert (keeps c c1) as Hk by by apply keeps_gl. eapply good_after; [exact Hk|].
    destruct (peek_gl_error env =? GL_NO_ERROR); [|apply good_done, keeps_drawn, keeps_SetGLError, Hk].
    destruct (AttachTexture_good c1 f attachment t textarget (proj1 Hk) Hf Ht) as (ts & f' & -> & Hk2 & Hf').
    eapply good_after; [exact Hk2|]. by apply (good_attach _ a target f); [apply Hk2|..]. }
  destruct (negb _); [|by apply (Hattach None 0)].
  destruct (GetTextureInfo texture _) as [t|] eqn:Eid; [|by apply good_fail].
  destruct (ok_info _ _ _ (ctx_textures _ _ Hc) _ _ Eid) as (tex & Ht & _).
  change (texs c !! t = Some tex) in Ht. rewrite Ht. cbn [of_option obind].
  apply (Hattach (Some t)). intros b [= <-]. by exists tex.
Qed.

(** *** Storage *)

(** The state that a handler ends in, whether or not the masks are kept current. *)
Definition good_if (P : Prop) (c : Context) (m : outcome Context) : Prop :=
  exists c', m = Done c' /\ ok c' /\ (P -> masks_current cfg c -> masks_current cfg c').

Lemma good_weaken P c m : good c m -> good_if P c m.
Proof. intros (c' & -> & ? & ?). exists c'. auto. Qed.

Lemma good_if_after P c c' m : keeps c c' -> good_if P c' m -> good_if P c m.
Proof. intros [_ Hm] (c'' & -> & ? & ?). exists c''. auto. Qed.

(** The bound renderbuffer is not the one that is drawn to. *)
Definition storage_undrawn (c : Context) : Prop := forall a,
  bound_renderbuffer_ (bindings c) = Some a -> undrawn c a.

Lemma set_storage_good samples internalformat width height c :
  ok c -> is_Some (bound_renderbuffer_ (bindings c)) ->
  good_if (storage_undrawn c) c (set_storage samples internalformat width height c).
Proof.
  intros Hc [a Hb]. destruct (ctx_bound_renderbuffer _ _ Hc a Hb) as [r Ha]. unfold set_storage.
  rewrite Hb. cbn [of_option obind]. rewrite Ha. cbn [of_option obind]. set (r' := SetInfo _ _ _ _ r).
  eexists. split; [done|]. split.
  - assert (ok (with_dirty true c)) as Hd by by apply context_ok_dirty.
    destruct (keeps_renderbuffers cfg (with_dirty true c) (with_renderbuffers (<[a := r']> (rbs c))
      (renderbuffer_manager (group c)))) as [Hk _]; [done|..].
    + by apply (renderbuffers_step_set cfg (with_dirty true c) a r); [..|right].
    + apply (context_ok_dirty _ (state_dirty_ c)) in Hk. by destruct c.
  - intros Hun. apply keeps_renderbuffers; [done|].
    apply (renderbuffers_step_set cfg c a r); [done..|right]. by apply Hun.
Qed.

Lemma HandleRenderbufferStorage_good c env target internalformat width height :
  ok c -> good_if (storage_undrawn c) c
    (HandleRenderbufferStorage cfg env target internalformat width height c).
Proof.
  intros Hc. unfold HandleRenderbufferStorage, DoRenderbufferStorage.
  do 4 (case_match; [by apply good_weaken, good_fail|]).
  destruct (bound_renderbuffer_ (bindings c)) as [a|] eqn:Eb; [|by apply good_weaken, good_fail].
  cbv zeta. set (c1 := gl _ c). assert (keeps c c1) as Hk by by apply keeps_gl. case_match.
  - apply (good_if_after _ c c1); [done|]. change (storage_undrawn c) with (storage_undrawn c1).
    by apply set_storage_good; [apply Hk|exists a].
  - apply good_weaken. eapply good_after; [exact Hk|]. apply good_fail, Hk.
Qed.

(** The driver reports an error when no renderbuffer is bound. *)
Definition answers_storage (env : Answers) (c : Context) : Prop :=
  bound_renderbuffer_ (bindings c) = None -> peek_gl_error env <> GL_NO_ERROR.

Lemma HandleRenderbufferStorageMultisampleEXT_good c env target samples internalformat width height :
  ok c -> answers_storage env c -> good_if (storage_undrawn c) c
    (HandleRenderbufferStorageMultisampleEXT cfg env target samples internalformat width height c).
Proof.
  intros Hc He. unfold HandleRenderbufferStorageMultisampleEXT, DoRenderbufferStorageMultisample.
  do 6 (case_match; [by apply good_weaken, good_fail|]). cbv zeta.
  set (c1 := gl _ c). assert (keeps c c1) as Hk by by apply keeps_gl.
  destruct (peek_gl_error env =? GL_NO_ERROR) eqn:Ee;
    [|apply good_weaken; eapply good_after; [exact Hk|]; apply good_fail, Hk].
  apply (good_if_after _ c c1); [done|]. change (storage_undrawn c) with (storage_undrawn c1).
  apply set_storage_good; [apply Hk|]. change (bindings c1) with (bindings c).
  destruct (bound_renderbuffer_ (bindings c)) as [a|] eqn:Eb; [by exists a|]. zbool.
  by destruct (He Eb).
Qed.

Lemma HandleBlitFramebufferEXT_good c srcX0 srcY0 srcX1 srcY1 dstX0 dstY0 dstX1 dstY1 mask filter :
  ok c -> good c (HandleBlitFramebufferEXT cfg srcX0 srcY0 srcX1 srcY1 dstX0 dstY0 dstX1 dstY1 mask filter c).
Proof.
  intros Hc. unfold HandleBlitFramebufferEXT, DoBlitFramebufferEXT.
  destruct (negb (valid _ _ _)); [by apply good_fail|]. apply good_done. set (c1 := if negb _ then _ else c).
  assert (keeps c c1) as Hk by (unfold c1; case_match; [by apply keeps_SetGLError|by apply keeps_refl]).
  eapply context_keeps_trans; [exact Hk|]. by apply keeps_gl; [apply Hk|..].
Qed.

(** *** Masks, tests and clear values *)

(** The saved state, when it says of clear values what the driver has. *)
Lemma context_ok_saved c s : ok c -> wanted_clear s = wanted_clear (saved c) -> ok (with_saved s c).
Proof. intros Hc Hs. destruct Hc as [? ? ? ? ? ? ? ? ? ? ? ? ? ? ? ? ? ? Hcl]. split; try done. simpl. by rewrite Hs. Qed.

Lemma keeps_saved c s : ok c -> wanted_clear s = wanted_clear (saved c) -> keeps c (with_dirty true (with_saved s c)).
Proof. intros Hc Hs. apply keeps_dirty_state; [|done]. by apply context_ok_dirty, context_ok_saved. Qed.

(** A value that is saved and given to the driver at once. *)
Lemma good_now c s call :
  ok c -> no_upload call = true -> (forall m, masks_after m call = m) ->
  clear_after (wanted_clear (saved c)) call = wanted_clear s ->
  wanted_masks cfg (gl call (with_saved s c)) = wanted_masks cfg c ->
  good c (Done (gl call (with_saved s c))).
Proof.
  intros Hc Hn Hm Hcl Hw. apply good_done. split.
  - destruct Hc as [? ? ? ? ? ? ? ? ? ? ? ? ? ? Hal Hup ? Hpk Hclear]. split; try done; simpl.
    + rewrite driver_unpack_snoc, Hal. by destruct call.
    + apply uploads_ok_snoc. split; [done|]. by destruct call.
    + rewrite driver_pack_snoc, Hpk. by destruct call.
    + by rewrite driver_clear_app, Hclear.
  - intros Hcur Hd. rewrite Hw, (Hcur Hd). unfold driver_masks. simpl. by rewrite fold_left_app; simpl; rewrite Hm.
Qed.

Lemma DoClearColor_good c red green blue alpha : ok c -> good c (DoClearColor red green blue alpha c).
Proof. intros Hc. by apply good_now. Qed.

Lemma DoClearDepthf_good c depth : ok c -> good c (DoClearDepthf depth c).
Proof. intros Hc. by apply good_now. Qed.

Lemma DoClearStencil_good c s : ok c -> good c (DoClearStencil s c).
Proof. intros Hc. by apply good_now. Qed.

Lemma DoColorMask_good c red green blue alpha : ok c -> good c (DoColorMask red green blue alpha c).
Proof. intros Hc. by apply good_done, keeps_saved. Qed.

Lemma DoDepthMask_good c depth : ok c -> good c (DoDepthMask depth c).
Proof. intros Hc. by apply good_done, keeps_saved. Qed.

Lemma DoStencilMask_good c mask : ok c -> good c (DoStencilMask mask c).
Proof. intros Hc. by apply good_done, keeps_saved. Qed.

Lemma HandleStencilMaskSeparate_good c face mask : ok c -> good c (HandleStencilMaskSeparate cfg face mask c).
Proof.
  intros Hc. unfold HandleStencilMaskSeparate. case_match; [by apply good_fail|].
  by apply good_done, keeps_saved.
Qed.

(** Tests of the driver that are not saved, and the one that is passed on at once. *)
Lemma keeps_scissor c (enabled : bool) :
  ok c -> let s := saved c in
  keeps c (gl (EnableDisable GL_SCISSOR_TEST enabled)
             (with_saved (set_tests enabled (enable_depth_test_ s) (enable_stencil_test_ s) s) c)).
Proof.
  intros Hc s. destruct (good_now c (set_tests enabled (enable_depth_test_ s) (enable_stencil_test_ s) s)
    (EnableDisable GL_SCISSOR_TEST enabled)) as (c' & [= <-] & Hk); [done|by destruct enabled| | |done|done].
  - intros []. by destruct enabled.
  - by destruct enabled.
Qed.

Lemma keeps_other_test c cap (enabled : bool) :
  ok c -> cap <> GL_SCISSOR_TEST -> cap <> GL_DEPTH_TEST -> cap <> GL_STENCIL_TEST ->
  keeps c (gl (EnableDisable cap enabled) c).
Proof.
  intros Hc H1 H2 H3. destruct (good_now c (saved c) (EnableDisable cap enabled)) as (c' & Hd & Hk).
  - done.
  - by destruct enabled.
  - intros []. unfold EnableDisable. destruct enabled; simpl; unfold set_test; simpl;
      by rewrite (proj2 (Z.eqb_neq _ _) H2), (proj2 (Z.eqb_neq _ _) H3).
  - destruct enabled; simpl; unfold set_scissor; by rewrite (proj2 (Z.eqb_neq _ _) H1).
  - done.
  - injection Hd as <-. by destruct c.
Qed.

Lemma SetCapabilityState_good c cap enabled :
  ok c -> good c (let '(now, c') := SetCapabilityState cap enabled c in
                  Done (if now then gl (EnableDisable cap enabled) c' else c')).
Proof.
  intros Hc. unfold SetCapabilityState. destruct (cap =? GL_SCISSOR_TEST) eqn:E1; zbool.
  { subst. by apply good_done, keeps_scissor. }
  destruct (cap =? GL_DEPTH_TEST) eqn:E2; [|destruct (cap =? GL_STENCIL_TEST) eqn:E3]; zbool.
  - apply good_done. case_match; [by apply keeps_saved|by apply keeps_refl].
  - apply good_done. case_match; [by apply keeps_saved|by apply keeps_refl].
  - by apply good_done, keeps_other_test.
Qed.

Lemma HandleEnable_good c cap : ok c -> good c (HandleEnable cfg cap c).
Proof. intros Hc. unfold HandleEnable. case_match; [by apply good_fail|]. by apply (SetCapabilityState_good c cap true). Qed.

Lemma HandleDisable_good c cap : ok c -> good c (HandleDisable cfg cap c).
Proof. intros Hc. unfold HandleDisable. case_match; [by apply good_fail|]. by apply (SetCapabilityState_good c cap false). Qed.

(** *** Drawing *)

Lemma drawn_ok c :
  ok c -> exists alpha depth stencil, BoundFramebufferHasColorAttachmentWithAlpha cfg c = Done alpha /\
    BoundFramebufferHasDepthAttachment cfg c = Done depth /\
    BoundFramebufferHasStencilAttachment cfg c = Done stencil.
Proof.
  intros Hc. unfold BoundFramebufferHasColorAttachmentWithAlpha, GetBoundDrawFrameBufferInternalFormat,
    BoundFramebufferHasDepthAttachment, BoundFramebufferHasStencilAttachment, framebuffer.
  destruct (bound_draw_framebuffer_ _) as [a|] eqn:Eb; [|by eexists _, _, _].
  destruct (ctx_bound_draw _ _ Hc a Eb) as [f Ha]. rewrite Ha. cbn [of_option obind].
  destruct (color_format_ok c f) as [fmt ->]; [by destruct (ctx_framebuffer _ _ Hc a f Ha)|].
  by eexists _, _, _.
Qed.

Definition mask_calls (s : Saved) (alpha depth stencil : bool) : list GLCall :=
  [glColorMask (mask_red_ s) (mask_green_ s) (mask_blue_ s) (Z.b2z (negb (mask_alpha_ s =? 0) && alpha));
   glDepthMask (Z.b2z (negb (mask_depth_ s =? 0) && depth));
   EnableDisable GL_DEPTH_TEST (enable_depth_test_ s && depth);
   glStencilMaskSeparate GL_FRONT (if stencil then mask_stencil_front_ s else 0);
   glStencilMaskSeparate GL_BACK (if stencil then mask_stencil_back_ s else 0);
   EnableDisable GL_STENCIL_TEST (enable_stencil_test_ s && stencil)].

Lemma mask_calls_masks s alpha depth stencil calls :
  driver_masks (calls ++ mask_calls s alpha depth stencil) =
  mkDriverMasks (nonzero (mask_red_ s), nonzero (mask_green_ s), nonzero (mask_blue_ s),
      nonzero (mask_alpha_ s) && alpha)
     (nonzero (mask_depth_ s) && depth) (enable_depth_test_ s && depth)
     (if stencil then mask_stencil_front_ s else 0)
     (if stencil then mask_stencil_back_ s else 0) (enable_stencil_test_ s && stencil).
Proof.
  unfold driver_masks. rewrite fold_left_app. destruct (fold_left masks_after calls masks_initial).
  unfold mask_calls, EnableDisable. simpl. unfold nonzero.
  by destruct (mask_alpha_ s =? 0), alpha, (mask_depth_ s =? 0), depth, (enable_depth_test_ s),
    (enable_stencil_test_ s), stencil.
Qed.

Lemma mask_calls_clear s alpha depth stencil calls :
  driver_clear (calls ++ mask_calls s alpha depth stencil) = driver_clear calls.
Proof.
  rewrite driver_clear_app. unfold mask_calls, EnableDisable.
  by destruct (enable_depth_test_ s && depth), (enable_stencil_test_ s && stencil).
Qed.

(** The masks are brought up to date, or were already. *)
Lemma ApplyDirtyState_ok c :
  ok c -> exists calls, ApplyDirtyState cfg c = Done (with_dirty false (emit calls c)) /\
    ok (emit calls c) /\
    (masks_current cfg c -> wanted_masks cfg c = Done (driver_masks (gl_calls c ++ calls))).
Proof.
  intros Hc. destruct (drawn_ok c Hc) as (alpha & depth & stencil & Ea & Ed & Es).
  unfold ApplyDirtyState. destruct (state_dirty_ c) eqn:Edirty.
  - exists (mask_calls (saved c) alpha depth stencil). rewrite Ea. cbn [obind].
    change (BoundFramebufferHasDepthAttachment cfg (gl ?x c)) with (BoundFramebufferHasDepthAttachment cfg c).
    rewrite Ed. cbn [obind].
    change (BoundFramebufferHasStencilAttachment cfg _) with (BoundFramebufferHasStencilAttachment cfg c).
    rewrite Es. cbn [obind]. split; [|split].
    + by rewrite <- gl_each_emit.
    + apply context_ok_emit; [done| |by rewrite mask_calls_clear; apply Hc].
      unfold mask_calls, EnableDisable.
      by destruct (enable_depth_test_ _ && _), (enable_stencil_test_ _ && _); repeat constructor.
    + intros _. unfold wanted_masks. rewrite Ea, Ed, Es. cbn [obind]. by rewrite mask_calls_masks.
  - exists []. rewrite app_nil_r. assert (emit [] c = c) as Ec.
    { destruct c. unfold emit. simpl. by rewrite app_nil_r. }
    rewrite Ec. split; [|split; [done|intros Hm; by apply Hm]].
    destruct c. unfold with_dirty. simpl in *. by subst.
Qed.

Lemma not_complete_ok c l :
  (forall k att, (k, att) ∈ l -> attachment_ok (texs c) (rbs c) att) ->
  exists b, not_complete (texs c) (rbs c) l = Done b.
Proof.
  induction l as [|[k att] l IH]; intros Hl; cbn [not_complete]; [by eexists|].
  assert (attachment_ok (texs c) (rbs c) att) as Hatt by (apply (Hl k); by left).
  destruct (attachment_size c att Hatt) as (w & h & -> & ->). cbn [obind].
  destruct (_ || _); [by eexists|].
  assert (exists b, Attachment_CanRenderTo (texs c) att = Done b) as [b ->].
  { destruct att; simpl; [by eexists|]. destruct Hatt as (_ & tex & -> & _). by eexists. }
  cbn [obind]. destruct (negb b); [by eexists|]. apply IH. intros k' att' Hin. eapply Hl. by right.
Qed.

Lemma CheckFramebufferComplete_ok c :
  ok c -> exists b : bool, CheckFramebufferComplete c = Done (b, if b then c else
    SetGLError GL_INVALID_FRAMEBUFFER_OPERATION c).
Proof.
  intros Hc. unfold CheckFramebufferComplete. destruct (bound_draw_framebuffer_ _) as [a|] eqn:Eb.
  - destruct (ctx_bound_draw _ _ Hc a Eb) as [f Ha]. unfold framebuffer. rewrite Ha. cbn [of_option obind].
    unfold IsNotComplete. destruct (not_complete_ok c (map_to_list (attachments_ f))) as [b ->].
    { intros k att Hin%elem_of_map_to_list. by apply (proj2 (ctx_framebuffer _ _ Hc a f Ha) k). }
    cbn [obind]. exists (negb b). by destruct b.
  - by exists true.
Qed.

Lemma DoClear_good c mask : ok c -> good c (DoClear cfg mask c).
Proof.
  intros Hc. unfold DoClear. destruct (CheckFramebufferComplete_ok c Hc) as [[] ->]; cbn [obind];
    [|by apply good_fail].
  destruct (ApplyDirtyState_ok c Hc) as (calls & -> & Hok & Hw). cbn [obind].
  assert (keeps c (with_dirty false (emit calls c))) as Hk.
  { split; [by apply context_ok_dirty|]. intros Hm _. by apply Hw. }
  apply good_done. eapply context_keeps_trans; [exact Hk|]. by apply keeps_gl; [apply Hk|..].
Qed.

(** A clear of the client either reports that the framebuffer is not complete and reaches
    the driver with nothing, or it reaches the driver with exactly the masks and tests that
    the context asks for, given what is attached to the framebuffer, and with the clear
    values and the scissor test the client set. *)
Lemma DoClear_masks c mask :
  ok c -> masks_current cfg c -> exists c', DoClear cfg mask c = Done c' /\ ok c' /\ masks_current cfg c' /\
    ((gl_calls c' = gl_calls c /\ gl_errors c' = gl_errors c ++ [GL_INVALID_FRAMEBUFFER_OPERATION]) \/
     exists calls, gl_calls c' = (gl_calls c ++ calls) ++ [glClear mask] /\
       wanted_masks cfg c = Done (driver_masks (gl_calls c ++ calls)) /\
       driver_clear (gl_calls c ++ calls) = wanted_clear (saved c)).
Proof.
  intros Hc Hm. unfold DoClear. destruct (CheckFramebufferComplete_ok c Hc) as [[] ->]; cbn [obind].
  - destruct (ApplyDirtyState_ok c Hc) as (calls & -> & Hok & Hw). specialize (Hw Hm). cbn [obind].
    eexists. split; [done|].
    assert (ok (with_dirty false (emit calls c))) as Hc1 by by apply context_ok_dirty.
    destruct (keeps_gl cfg (with_dirty false (emit calls c)) (glClear mask)) as [Hc2 Hm2]; [done..|].
    split; [done|]. split; [by apply Hm2; intros _|]. right. exists calls. split; [done|]. split; [done|apply Hok].
  - eexists. split; [done|]. destruct (keeps_SetGLError cfg c GL_INVALID_FRAMEBUFFER_OPERATION Hc) as [? Hk].
    split; [done|]. split; [by apply Hk|]. by left.
Qed.

End lemmas.
