(* ===== verification/ObjectNames.v ===== *)
(** * The commands that name objects

    The generated handlers of [gpu/command_buffer/service/gles2_cmd_decoder_autogen.h] that
    make and delete the names of textures, renderbuffers and framebuffers, and those that
    ask about an object and write the answer to the client's memory. *)

From S2P Require Import Prelude CmdFormat CommandBufferService CommonDecoder.
From Stdlib Require Import ZArith Lia ZifyBool Bool.
From stdpp Require Import base numbers option gmap sets list.
From S2P Require Import Prelude GLConstants Validators GLES2Util FeatureInfo TextureInfo IdAllocator.
From S2P Require Import TextureManager RenderbufferManager FramebufferManager ContextState ContextInvariant.
From S2P Require Import TextureDecoder FramebufferDecoder.
Local Open Scope Z_scope.

Section handlers.
Context {E : Type} `{CommandBufferEngine E}.
Variable cfg : Config.
Implicit Types (c : Context) (d : Decoder E).

Notation Result := (outcome (Error * Context)).

(** ** Names *)

(** The ids that a command gives, in shared memory and after the command's struct. *)
Definition ids_in_memory (n shm_id shm_offset : Z) d : outcome (option (list Z)) :=
  let '(ok, data_size) := SafeMultiplyUint32 (u32 n) 4 in
  if ok then
    (do bytes <- GetSharedMemoryAs shm_id shm_offset data_size d ;;
     Done (bytes_to_words <$> bytes))%gpu
  else Done None.

Definition ids_in_command (n : Z) (immediate : list Z) : outcome (option (list Z)) :=
  let '(ok, data_size) := SafeMultiplyUint32 (u32 n) 4 in
  if ok then
    (do bytes <- GetImmediateDataAs data_size immediate ;; Done (bytes_to_words <$> bytes))%gpu
  else Done None.

Definition gen_names (helper : list Z -> Context -> outcome (bool * Context))
    (ids : outcome (option (list Z))) c : Result :=
  (do ids <- ids ;;
   match ids with
   | None => Done (kOutOfBounds, c)
   | Some ids =>
       do (ok, c) <- helper ids c ;;
       Done (if ok then kNoError else kInvalidArguments, c)
   end)%gpu.

Definition delete_names (helper : list Z -> Context -> outcome Context)
    (ids : outcome (option (list Z))) c : Result :=
  (do ids <- ids ;;
   match ids with
   | None => Done (kOutOfBounds, c)
   | Some ids => do c <- helper ids c ;; Done (kNoError, c)
   end)%gpu.

(** [service_ids] are the driver's. *)
Definition HandleGenTextures (service_ids : list Z) (n shm_id shm_offset : Z) d c : Result :=
  gen_names (fun ids => GenTexturesHelper cfg ids service_ids) (ids_in_memory n shm_id shm_offset d) c.

Definition HandleGenTexturesImmediate (service_ids : list Z) (n : Z) (immediate : list Z) c : Result :=
  gen_names (fun ids => GenTexturesHelper cfg ids service_ids) (ids_in_command n immediate) c.

Definition HandleGenRenderbuffers (service_ids : list Z) (n shm_id shm_offset : Z) d c : Result :=
  gen_names (fun ids => GenRenderbuffersHelper ids service_ids) (ids_in_memory n shm_id shm_offset d) c.

Definition HandleGenRenderbuffersImmediate (service_ids : list Z) (n : Z) (immediate : list Z) c
    : Result :=
  gen_names (fun ids => GenRenderbuffersHelper ids service_ids) (ids_in_command n immediate) c.

Definition HandleGenFramebuffers (service_ids : list Z) (n shm_id shm_offset : Z) d c : Result :=
  gen_names (fun ids => GenFramebuffersHelper ids service_ids) (ids_in_memory n shm_id shm_offset d) c.

Definition HandleGenFramebuffersImmediate (service_ids : list Z) (n : Z) (immediate : list Z) c
    : Result :=
  gen_names (fun ids => GenFramebuffersHelper ids service_ids) (ids_in_command n immediate) c.

Definition HandleDeleteTextures (n shm_id shm_offset : Z) d c : Result :=
  delete_names (DeleteTexturesHelper cfg) (ids_in_memory n shm_id shm_offset d) c.

Definition HandleDeleteTexturesImmediate (n : Z) (immediate : list Z) c : Result :=
  delete_names (DeleteTexturesHelper cfg) (ids_in_command n immediate) c.

Definition HandleDeleteRenderbuffers (n shm_id shm_offset : Z) d c : Result :=
  delete_names DeleteRenderbuffersHelper (ids_in_memory n shm_id shm_offset d) c.

Definition HandleDeleteRenderbuffersImmediate (n : Z) (immediate : list Z) c : Result :=
  delete_names DeleteRenderbuffersHelper (ids_in_command n immediate) c.

Definition HandleDeleteFramebuffers (n shm_id shm_offset : Z) d c : Result :=
  delete_names DeleteFramebuffersHelper (ids_in_memory n shm_id shm_offset d) c.

Definition HandleDeleteFramebuffersImmediate (n : Z) (immediate : list Z) c : Result :=
  delete_names DeleteFramebuffersHelper (ids_in_command n immediate) c.

(** ** Questions *)

Definition DoIsTexture (client_id : Z) c : outcome bool :=
  match GetTextureInfo client_id (texture_manager (group c)) with
  | None => Done false
  | Some a =>
      (do t <- of_option (texs c !! a) ;; Done (negb (t_target_ t =? 0) && negb (deleted_ t)))%gpu
  end.

Definition DoIsRenderbuffer (client_id : Z) c : outcome bool :=
  match GetRenderbufferInfo client_id (renderbuffer_manager (group c)) with
  | None => Done false
  | Some a => (do r <- of_option (rbs c !! a) ;; Done (RenderbufferManager.IsValid r))%gpu
  end.

Definition DoIsFramebuffer (client_id : Z) c : outcome bool :=
  match GetFramebufferInfo client_id (framebuffer_manager (group c)) with
  | None => Done false
  | Some a => (do f <- framebuffer a c ;; Done (FramebufferManager.IsValid f))%gpu
  end.

Definition DoCheckFramebufferStatus (env : Answers) (target : Z) c : outcome Z :=
  (do info <- GetFramebufferInfoForTarget target c ;;
   match info with
   | None => Done GL_FRAMEBUFFER_COMPLETE
   | Some _ => Done (framebuffer_status env)
   end)%gpu.

(** The answer, a 32-bit word in the client's memory. *)
Definition write_result (a : Z * Z) (answer : Z) d : outcome (Decoder E) :=
  of_option (mem_write d a (le_bytes 4 answer)).

Definition ask (question : outcome bool) (shm_id shm_offset : Z) d c
    : outcome (Error * (Decoder E * Context)) :=
  match GetAddressAndCheckSize shm_id shm_offset 4 d with
  | None => Done (kOutOfBounds, (d, c))
  | Some a =>
      (do b <- question ;; do d <- write_result a (Z.b2z b) d ;; Done (kNoError, (d, c)))%gpu
  end.

Definition HandleIsTexture (texture shm_id shm_offset : Z) d c :=
  ask (DoIsTexture texture c) shm_id shm_offset d c.

Definition HandleIsRenderbuffer (renderbuffer shm_id shm_offset : Z) d c :=
  ask (DoIsRenderbuffer renderbuffer c) shm_id shm_offset d c.

Definition HandleIsFramebuffer (framebuffer shm_id shm_offset : Z) d c :=
  ask (DoIsFramebuffer framebuffer c) shm_id shm_offset d c.

Definition HandleCheckFramebufferStatus (env : Answers) (target shm_id shm_offset : Z) d c
    : outcome (Error * (Decoder E * Context)) :=
  match GetAddressAndCheckSize shm_id shm_offset 4 d with
  | None => Done (kOutOfBounds, (d, c))
  | Some a =>
      if negb (valid cfg Validator.frame_buffer_target target)
      then Done (kNoError, (d, SetGLError GL_INVALID_ENUM c))
      else
        (do status <- DoCheckFramebufferStatus env target c ;;
         do d <- write_result a status d ;; Done (kNoError, (d, c)))%gpu
  end.

End handlers.

(** ** Lemmas *)

Section lemmas.
Context {E : Type} `{CommandBufferEngine E} (engine_ok : E -> Prop) (engine_entries : E -> Z).
Variables (cfg : Config) (driver : Driver).
Implicit Types (c : Context) (d : Decoder E).

Notation ok := (context_ok cfg).
Notation decoder_ok := (decoder_ok engine_ok engine_entries).
Notation good := (good cfg).
Notation answers := (answers cfg).

Lemma ids_size n : exists ok size, SafeMultiplyUint32 (u32 n) 4 = (ok, size) /\ is_u32 size.
Proof.
  assert (is_u32 4) as H4 by (unfold is_u32; lia).
  rewrite SafeMultiplyUint32_exact by (by auto using u32_range). pose proof (u32_range n) as Hn.
  unfold is_u32 in *. destruct (u32 n * 4 <? 2 ^ 32) eqn:El; zbool; eexists _, _; (split; [done|lia]).
Qed.

Lemma ids_in_memory_ok n shm_id shm_offset d :
  decoder_ok d -> is_u32 shm_offset -> exists r, ids_in_memory n shm_id shm_offset d = Done r.
Proof.
  intros Hd Ho. unfold ids_in_memory. destruct (ids_size n) as (b & size & -> & Hs).
  destruct b; [|by eexists].
  destruct (GetSharedMemoryAs_ok engine_ok engine_entries shm_id shm_offset size d Ho Hs Hd) as (r & -> & _).
  by eexists.
Qed.

Lemma ids_in_command_ok n immediate : exists r, ids_in_command n immediate = Done r.
Proof.
  unfold ids_in_command. destruct (ids_size n) as (b & size & -> & [Hs _]). destruct b; [|by eexists].
  destruct (GetImmediateDataAs_ok size immediate Hs) as (r & -> & _). by eexists.
Qed.

Lemma gen_names_answers helper ids c :
  ok c -> (exists r, ids = Done r) -> (forall ids, answers c (helper ids c)) ->
  answers c (gen_names helper ids c).
Proof.
  intros Hc [[r|] ->] Hh; unfold gen_names; cbn [obind]; [|by apply answers_Done, keeps_refl].
  destruct (Hh r) as (b & c' & -> & Hk). cbn [obind]. by apply answers_Done.
Qed.

Lemma delete_names_answers helper ids c :
  ok c -> (exists r, ids = Done r) -> (forall ids, good c (helper ids c)) ->
  answers c (delete_names helper ids c).
Proof.
  intros Hc [[r|] ->] Hh; unfold delete_names; cbn [obind]; [|by apply answers_Done, keeps_refl].
  destruct (Hh r) as (c' & -> & Hk). cbn [obind]. by apply answers_Done.
Qed.

(** What a question answers: the memory is still the client's, and the context the same but
    for an error. *)
Definition asked d c (m : outcome (Error * (Decoder E * Context))) : Prop :=
  exists e d' c', m = Done (e, (d', c')) /\ decoder_ok d' /\ keeps cfg c c'.

Lemma ask_ok question shm_id shm_offset d c :
  ok c -> decoder_ok d -> is_u32 shm_offset -> (exists b, question = Done b) ->
  asked d c (ask question shm_id shm_offset d c).
Proof.
  intros Hc Hd Ho [b ->]. unfold ask, write_result. cbn [obind]. destruct (GetAddressAndCheckSize _ _ _ _) as [a|] eqn:Ea.
  - assert (is_u32 4) as H4 by (unfold is_u32; lia).
    destruct (GetAddress_write shm_id shm_offset 4 d a (le_bytes 4 (Z.b2z b)) Ho H4 Hd) as (d' & -> & Hd' & _);
      [done|done|]. cbn [of_option obind]. eexists _, _, _. split; [done|]. split; [done|by apply keeps_refl].
  - eexists _, _, _. split; [done|]. split; [done|by apply keeps_refl].
Qed.

Lemma HandleIsTexture_ok texture shm_id shm_offset d c :
  ok c -> decoder_ok d -> is_u32 shm_offset -> asked d c (HandleIsTexture texture shm_id shm_offset d c).
Proof.
  intros Hc Hd Ho. apply ask_ok; [done..|]. unfold DoIsTexture.
  destruct (GetTextureInfo _ _) as [a|] eqn:Eid; [|by eexists].
  destruct (ok_info _ _ _ (ctx_textures _ _ Hc) _ _ Eid) as (t & Ha & _). unfold texs. rewrite Ha. by eexists.
Qed.

Lemma HandleIsRenderbuffer_ok renderbuffer shm_id shm_offset d c :
  ok c -> decoder_ok d -> is_u32 shm_offset ->
  asked d c (HandleIsRenderbuffer renderbuffer shm_id shm_offset d c).
Proof.
  intros Hc Hd Ho. apply ask_ok; [done..|]. unfold DoIsRenderbuffer.
  destruct (GetRenderbufferInfo _ _) as [a|] eqn:Eid; [|by eexists].
  destruct (ctx_renderbuffer_info _ _ Hc _ _ Eid) as [r Ha]. change (rbs c !! a = Some r) in Ha. rewrite Ha. by eexists.
Qed.

Lemma HandleIsFramebuffer_ok id shm_id shm_offset d c :
  ok c -> decoder_ok d -> is_u32 shm_offset -> asked d c (HandleIsFramebuffer id shm_id shm_offset d c).
Proof.
  intros Hc Hd Ho. apply ask_ok; [done..|]. unfold DoIsFramebuffer, framebuffer.
  destruct (GetFramebufferInfo _ _) as [a|] eqn:Eid; [|by eexists].
  destruct (ctx_framebuffer_info _ _ Hc _ _ Eid) as [f Ha]. rewrite Ha. by eexists.
Qed.

Lemma HandleCheckFramebufferStatus_ok env target shm_id shm_offset d c :
  ok c -> decoder_ok d -> is_u32 shm_offset ->
  asked d c (HandleCheckFramebufferStatus cfg env target shm_id shm_offset d c).
Proof.
  intros Hc Hd Ho. unfold HandleCheckFramebufferStatus, write_result.
  destruct (GetAddressAndCheckSize _ _ _ _) as [a|] eqn:Ea; [case_match|].
  - eexists _, _, _. split; [done|]. split; [done|by apply keeps_SetGLError].
  - assert (exists status, DoCheckFramebufferStatus env target c = Done status) as [status ->].
    { unfold DoCheckFramebufferStatus.
      destruct (GetFramebufferInfoForTarget_ok cfg c target Hc) as (info & -> & _). by destruct info; eexists. }
    cbn [obind]. assert (is_u32 4) as H4 by (unfold is_u32; lia).
    destruct (GetAddress_write shm_id shm_offset 4 d a (le_bytes 4 status) Ho H4 Hd) as (d' & -> & Hd' & _);
      [done|done|]. cbn [of_option obind]. eexists _, _, _. split; [done|]. split; [done|by apply keeps_refl].
  - eexists _, _, _. split; [done|]. split; [done|by apply keeps_refl].
Qed.

End lemmas.
