(* ===== verification/ReadPixels.v ===== *)
(** * Reading pixels

    [HandleReadPixels] of [gpu/command_buffer/service/gles2_cmd_decoder.cc]: the pixels of
    the framebuffer that is read from are written to the client's memory, zeros where the
    rectangle leaves the framebuffer, and an opaque alpha where it has none. *)

From S2P Require Import Prelude CmdFormat CommandBufferService CommonDecoder.
From Stdlib Require Import ZArith Lia ZifyBool Bool.
From stdpp Require Import base numbers option gmap sets list.
From S2P Require Import Prelude GLConstants Validators GLES2Util FeatureInfo TextureInfo.
From S2P Require Import TextureManager RenderbufferManager FramebufferManager ContextState ContextInvariant.
From S2P Require Import TextureDecoder.
Local Open Scope Z_scope.

Section handler.
Context {E : Type} `{CommandBufferEngine E}.
Variable cfg : Config.
Implicit Types (c : Context) (d : Decoder E).

(** The bytes that the driver writes for a rectangle, given its pack alignment, the
    rectangle, the format and the type. *)
Variable read : Z -> Z -> Z -> Z -> Z -> Z -> Z -> list Z.

Definition read_pixels (x y width height format type : Z) (dst : Z * Z) d c
    : outcome (Decoder E * Context) :=
  (do d <- of_option (mem_write d dst (read (driver_pack (gl_calls c)) x y width height format type)) ;;
   Done (d, gl (glReadPixels x y width height format type) c))%gpu.

(** [unpadded_row_size] and [padded_row_size]. *)
Definition row_sizes (width format type align : Z) : option (Z * Z) :=
  match ComputeImageDataSize width 1 format type align with
  | None => None
  | Some temp_size =>
      let unpadded_row_size := i32 temp_size in
      match ComputeImageDataSize width 2 format type align with
      | None => None
      | Some temp_size =>
          let padded_row_size := i32 (u32 (temp_size - unpadded_row_size)) in
          if (padded_row_size <? 0) || (unpadded_row_size <? 0) then None
          else Some (unpadded_row_size, padded_row_size)
      end
  end.

(** The loop over the rows, from the [yy]th to the last of [n] more. *)
Fixpoint read_rows (n : nat) (yy y max_height read_x read_width dest_row_offset unpadded padded
    format type block dst : Z) d c : outcome (Decoder E * Context) :=
  match n with
  | O => Done (d, c)
  | S n =>
      let ry := i32 (y + yy) in
      (do d <- of_option (mem_write d (block, dst) (zeros unpadded)) ;;
       do (d, c) <- (if (ry >=? 0) && (ry <? max_height) && (read_width >? 0)
                     then read_pixels read_x ry read_width 1 format type (block, dst + dest_row_offset) d c
                     else Done (d, c)) ;;
       read_rows n (yy + 1) y max_height read_x read_width dest_row_offset unpadded padded format type
         block (dst + padded) d c)%gpu
  end.

(** The rectangle leaves the framebuffer: [None] when the sizes are out of range. *)
Definition read_clipped (x y width height format type max_x max_width max_height : Z) (pixels : Z * Z)
    d c : outcome (option (Decoder E * Context)) :=
  match row_sizes width format type (pack_alignment_ c) with
  | None => Done None
  | Some (unpadded, padded) =>
      let dest_x_offset := Z.max (i32 (- x)) 0 in
      match ComputeImageDataSize dest_x_offset 1 format type (pack_alignment_ c) with
      | None => Done None
      | Some dest_row_offset =>
          let read_x := Z.max 0 x in
          let read_end_x := Z.max 0 (Z.min max_width max_x) in
          let read_width := read_end_x - read_x in
          (do r <- read_rows (Z.to_nat height) 0 y max_height read_x read_width dest_row_offset unpadded
                     padded format type pixels.1 pixels.2 d c ;;
           Done (Some r))%gpu
      end
  end.

(** The loop over the pixels of a row: [fuel] bounds its iterations. *)
Fixpoint alpha_row (fuel : nat) (block at_ stop step : Z) d : outcome (Decoder E) :=
  if at_ <? stop then
    match fuel with
    | O => Fuel
    | S fuel =>
        (do d <- of_option (mem_write d (block, at_) [255]) ;;
         alpha_row fuel block (at_ + step) stop step d)%gpu
    end
  else Done d.

Fixpoint alpha_rows (n : nat) (block dst unpadded padded step : Z) d : outcome (Decoder E) :=
  match n with
  | O => Done d
  | S n =>
      (do d <- alpha_row (Z.to_nat unpadded) block dst (dst + unpadded) step d ;;
       alpha_rows n block (dst + padded) unpadded padded step d)%gpu
  end.

(** What follows a read without error. *)
Definition set_opaque (width height format type : Z) (pixels : Z * Z) d c
    : outcome (Error * (Decoder E * Context)) :=
  (do read_format <- GetBoundReadFrameBufferInternalFormat cfg c ;;
   if Z.land (GetChannelsForFormat read_format) 8 =? 0 then
     match row_sizes width format type (pack_alignment_ c) with
     | None => Done (kNoError, (d, SetGLError GL_INVALID_VALUE c))
     | Some (unpadded, padded) =>
         if negb (type =? GL_UNSIGNED_BYTE)
         then Done (kNoError, (d, SetGLError GL_INVALID_OPERATION c))
         else if is_case format [GL_RGBA; GL_BGRA_EXT; GL_ALPHA] then
           let offset := if format =? GL_ALPHA then 0 else 3 in
           let step := if format =? GL_ALPHA then 1 else 4 in
           do d <- alpha_rows (Z.to_nat height) pixels.1 (pixels.2 + offset) unpadded padded step d ;;
           Done (kNoError, (d, c))
         else Done (kNoError, (d, c))
     end
   else Done (kNoError, (d, c)))%gpu.

Definition HandleReadPixels (env : Answers)
    (x y width height format type pixels_shm_id pixels_shm_offset result_shm_id result_shm_offset : Z)
    d c : outcome (Error * (Decoder E * Context)) :=
  if (width <? 0) || (height <? 0) then Done (kNoError, (d, SetGLError GL_INVALID_VALUE c))
  else
    match ComputeImageDataSize width height format type (pack_alignment_ c) with
    | None => Done (kOutOfBounds, (d, c))
    | Some pixels_size =>
        match GetAddressAndCheckSize pixels_shm_id pixels_shm_offset pixels_size d,
              GetAddressAndCheckSize result_shm_id result_shm_offset 4 d with
        | Some pixels, Some result =>
            if negb (valid cfg Validator.read_pixel_format format)
            then Done (kNoError, (d, SetGLError GL_INVALID_ENUM c))
            else if negb (valid cfg Validator.pixel_type type)
            then Done (kNoError, (d, SetGLError GL_INVALID_ENUM c))
            else if (width =? 0) || (height =? 0) then Done (kNoError, (d, c))
            else
              (do (max_width, max_height) <- GetBoundReadFrameBufferSize cfg c ;;
               let '(ok_x, max_x) := SafeAddInt32 x width in
               let '(ok_y, max_y) := SafeAddInt32 y height in
               if negb ok_x || negb ok_y then Done (kNoError, (d, SetGLError GL_INVALID_VALUE c))
               else
                 do r <- (if (x <? 0) || (y <? 0) || (max_x >? max_width) || (max_y >? max_height)
                          then read_clipped x y width height format type max_x max_width max_height
                                 pixels d c
                          else
                            do r <- read_pixels x y width height format type pixels d c ;; Done (Some r)) ;;
                 match r with
                 | None => Done (kNoError, (d, SetGLError GL_INVALID_VALUE c))
                 | Some (d, c) =>
                     if peek_gl_error env =? GL_NO_ERROR then
                       do d <- of_option (mem_write d result (le_bytes 4 1)) ;;
                       set_opaque width height format type pixels d c
                     else Done (kNoError, (d, SetGLError (peek_gl_error env) c))
                 end)%gpu
        | _, _ => Done (kOutOfBounds, (d, c))
        end
    end.

End handler.

(** ** Writing to the memory of the client *)

Section memory.
Context {E : Type} `{CommandBufferEngine E} (engine_ok : E -> Prop) (engine_entries : E -> Z).
Implicit Types d : Decoder E.
Notation decoder_ok := (decoder_ok engine_ok engine_entries).

Definition byte_at d (block i : Z) : option Z := l ← heap d !! block; zget l i.

(** The second state is the first with some bytes of its memory changed, all in [P]. *)
Record wrote (P : Z -> Z -> Prop) d d' : Prop := {
  wrote_engine : engine d' = engine d;
  wrote_buckets : buckets_ d' = buckets_ d;
  wrote_stack : call_stack_ d' = call_stack_ d;
  wrote_length b : zlen <$> heap d' !! b = zlen <$> heap d !! b;
  wrote_frame b i : ~ P b i -> byte_at d' b i = byte_at d b i;
}.

(** Some bytes of a block. *)
Definition span (block lo hi : Z) (b i : Z) : Prop := b = block /\ lo <= i < hi.

Lemma wrote_refl P d : wrote P d d.
Proof. by split. Qed.

Lemma wrote_trans P d1 d2 d3 : wrote P d1 d2 -> wrote P d2 d3 -> wrote P d1 d3.
Proof.
  intros [E1 B1 S1 L1 F1] [E2 B2 S2 L2 F2]. split; [congruence..| |].
  - intros b. by rewrite L2, L1.
  - intros b i Hi. by rewrite F2, F1.
Qed.

Lemma wrote_weaken (P Q : Z -> Z -> Prop) d d' : (forall b i, P b i -> Q b i) -> wrote P d d' -> wrote Q d d'.
Proof. intros HPQ [? ? ? ? F]. split; [done..|]. intros b i Hi. apply F. auto. Qed.

Lemma wrote_ok P d d' : decoder_ok d -> wrote P d d' -> decoder_ok d'.
Proof.
  intros [He Hb Hs Hst Hm] [We Wb Ws Wl _]. split; rewrite ?We, ?Wb, ?Ws; try done.
  intros id block Hp. destruct (Hm id block Hp) as (bytes & Hby & Hl). specialize (Wl block).
  rewrite Hby in Wl. destruct (heap d' !! block) as [bytes'|]; [|done]. exists bytes'. split; [done|].
  simpl in Wl. injection Wl as Wl. lia.
Qed.

(** There are at least so many bytes in a block. *)
Definition holds d (block n : Z) : Prop := exists bytes, heap d !! block = Some bytes /\ n <= zlen bytes.

Lemma wrote_holds P d d' block n : wrote P d d' -> holds d block n -> holds d' block n.
Proof.
  intros [_ _ _ Wl _] (bytes & Hb & Hl). specialize (Wl block). rewrite Hb in Wl.
  destruct (heap d' !! block) as [bytes'|] eqn:Eb; [|done]. exists bytes'. split; [done|].
  simpl in Wl. injection Wl as Wl. lia.
Qed.

Lemma mem_write_wrote d block o src n :
  holds d block n -> 0 <= o -> o + zlen src <= n ->
  exists d', mem_write d (block, o) src = Some d' /\ wrote (span block o (o + zlen src)) d d' /\
    forall i, o <= i < o + zlen src -> byte_at d' block i = zget src (i - o).
Proof.
  intros (bytes & Hb & Hl) Ho Hn. unfold mem_write. simpl. rewrite Hb. simpl.
  destruct (zwrite_Some bytes src o) as (new & Hw & Hnew); [done|lia|]. rewrite Hw. simpl.
  eexists. split; [done|]. split.
  - split; try done; simpl.
    + intros b. destruct (decide (b = block)) as [->|Hne].
      * rewrite lookup_insert_eq, Hb. simpl. by rewrite Hnew.
      * by rewrite lookup_insert_ne.
    + intros b i Hi. unfold byte_at. simpl. destruct (decide (b = block)) as [->|Hne].
      * rewrite lookup_insert_eq, Hb. simpl. rewrite (zget_zwrite _ _ _ _ _ Hw).
        case_match; [|done]. zbool. destruct Hi. unfold span. auto.
      * by rewrite lookup_insert_ne.
  - intros i Hi. unfold byte_at. simpl. rewrite lookup_insert_eq. simpl.
    rewrite (zget_zwrite _ _ _ _ _ Hw). by btrue ((o <=? i) && (i <? o + zlen src)).
Qed.

Lemma holds_address id offset size d a :
  is_u32 offset -> is_u32 size -> decoder_ok d -> GetAddressAndCheckSize id offset size d = Some a ->
  a.2 = offset /\ holds d a.1 (offset + size).
Proof.
  intros Ho Hs Hd Ha. destruct (GetAddressAndCheckSize_spec _ _ _ _ _ Ho Hs Hd Ha) as (bytes & Hb & E1 & Hl).
  split; [done|]. by exists bytes.
Qed.

End memory.

(** ** Sizes of rows *)

Lemma group_size_range format type : 0 <= group_size format type <= 16.
Proof.
  unfold group_size. pose proof (BytesPerElement_range type). pose proof (ElementsPerGroup_range format type). nia.
Qed.

Lemma row_sizes_exact width format type align unpadded padded :
  0 <= width < 2 ^ 31 -> align ∈ [1; 2; 4; 8] -> row_sizes width format type align = Some (unpadded, padded) ->
  unpadded = width * group_size format type /\ padded = pitch unpadded align.
Proof.
  intros Hw Hal. destruct (align_cases align Hal) as [Ha _]. pose proof (group_size_range format type) as Hg.
  unfold row_sizes. rewrite !ComputeImageDataSize_exact by (done || lia). unfold image_size. simpl.
  set (row := width * group_size format type). assert (0 <= row) by (unfold row; nia).
  pose proof (pitch_bounds row align ltac:(lia)) as Hp. rewrite !Z.mul_1_l.
  rewrite andb_diag. destruct (row <? 2 ^ 32) eqn:E1; [|done]. simpl.
  destruct (pitch row align + row <? 2 ^ 32) eqn:E2; [|done].
  destruct (_ || _) eqn:E3; [done|]. intros [= <- <-]. zbool.
  assert (forall z, 0 <= z < 2 ^ 32 -> 0 <= i32 z -> i32 z = z) as Hsmall.
  { intros z Hz Hi. destruct (Z.lt_ge_cases z (2 ^ 31)); [apply i32_id; unfold is_i32; lia|].
    rewrite i32_wrap in Hi by lia. lia. }
  assert (i32 row = row) as Er by (apply Hsmall; lia). rewrite Er in *. split; [done|].
  replace (pitch row align + row - row) with (pitch row align) in * by lia.
  assert (u32 (pitch row align) = pitch row align) as Eu by (apply u32_id; unfold is_u32; lia).
  rewrite Eu in *. apply Hsmall; lia.
Qed.

(** ** What the driver promises

    [glReadPixels] writes as many bytes as the image has, those of each pixel of the
    rectangle where its row and column say.  [pixel] are the bytes of a pixel of the
    framebuffer in a format and a type. *)
Record reads_pixels (read : Z -> Z -> Z -> Z -> Z -> Z -> Z -> list Z)
    (pixel : Z -> Z -> Z -> Z -> list Z) : Prop := {
  read_size align x y width height format type :
    0 < align -> 0 <= width -> 0 <= height ->
    zlen (read align x y width height format type) = image_size width height format type align;
  read_pixel align x y width height format type xx yy k :
    0 < align -> 0 <= xx < width -> 0 <= yy < height -> 0 <= k < group_size format type ->
    let row := width * group_size format type in
    zget (read align x y width height format type)
      (yy * pitch row align + xx * group_size format type + k) =
    zget (pixel format type (x + xx) (y + yy)) k;
}.

Section correctness.
Context {E : Type} `{CommandBufferEngine E} (engine_ok : E -> Prop) (engine_entries : E -> Z).
Variables (cfg : Config) (driver : Driver).
Implicit Types (c : Context) (d : Decoder E).

Notation ok := (context_ok cfg).
Notation decoder_ok := (decoder_ok engine_ok engine_entries).

Variable read : Z -> Z -> Z -> Z -> Z -> Z -> Z -> list Z.
Variable pixel : Z -> Z -> Z -> Z -> list Z.

Hypothesis laws : reads_pixels read pixel.

(** A read stays inside the framebuffer. *)
Definition inside_frame (max_width max_height : Z) (call : GLCall) : Prop :=
  match call with
  | glReadPixels x y width height _ _ =>
      0 <= x /\ 0 <= width /\ x + width <= max_width /\ 0 <= y /\ 0 <= height /\ y + height <= max_height
  | _ => False
  end.

Lemma inside_no_upload w h calls :
  Forall (inside_frame w h) calls -> Forall (fun call => no_upload call = true) calls.
Proof. intros Hf. eapply Forall_impl; [done|]. by intros []. Qed.

Lemma keeps_reads c w h calls :
  ok c -> Forall (inside_frame w h) calls -> keeps cfg c (emit calls c).
Proof.
  intros Hc Hf. revert c Hc. induction Hf as [|call calls Hcall _ IH]; intros c Hc.
  - assert (emit [] c = c) as ->; [|by apply keeps_refl]. destruct c. unfold emit. simpl. by rewrite app_nil_r.
  - assert (emit (call :: calls) c = emit calls (gl call c)) as ->.
    { unfold emit. simpl. by rewrite <- app_assoc. }
    assert (keeps cfg c (gl call c)) as Hk by (by destruct call; try done; apply keeps_gl).
    eapply context_keeps_trans; [exact Hk|]. apply IH, Hk.
Qed.

Section loops.
Variables (w h format type unpadded padded read_x read_width dest_row_offset : Z).
Notation g := (group_size format type).
Hypothesis Hunpadded : 0 <= unpadded.
Hypothesis Hpadded : unpadded <= padded.
Hypothesis Hoffset : 0 <= dest_row_offset.
Hypothesis Hread : 0 < read_width ->
  0 <= read_x /\ read_x + read_width <= w /\ dest_row_offset + read_width * g <= unpadded.

(** A byte of a row of the framebuffer, once it is in memory. *)
Definition row_byte (align ry i : Z) : option Z :=
  if (ry >=? 0) && (ry <? h) && (read_width >? 0) && (dest_row_offset <=? i) &&
     (i <? dest_row_offset + read_width * g)
  then zget (read align read_x ry read_width 1 format type) (i - dest_row_offset) else Some 0.

Lemma image_size_row width align : image_size width 1 format type align = width * g.
Proof. unfold image_size. simpl. by rewrite Z.mul_1_l. Qed.

(** One row: it is cleared, then what is inside the framebuffer is read. *)
Lemma read_row_ok ry block dst hi d c :
  ok c -> holds d block hi -> 0 <= dst -> dst + unpadded <= hi ->
  exists d' calls,
    (do d <- of_option (mem_write d (block, dst) (zeros unpadded)) ;;
     if (ry >=? 0) && (ry <? h) && (read_width >? 0)
     then read_pixels read read_x ry read_width 1 format type (block, dst + dest_row_offset) d c
     else Done (d, c))%gpu = Done (d', emit calls c) /\
    Forall (inside_frame w h) calls /\ wrote (span block dst (dst + unpadded)) d d' /\
    forall i, 0 <= i < unpadded -> byte_at d' block (dst + i) = row_byte (pack_alignment_ c) ry i.
Proof.
  intros Hc Hh Hd Hhi. assert (zlen (zeros unpadded) = unpadded) as Hz by (by apply zlen_replicate).
  destruct (mem_write_wrote d block dst (zeros unpadded) hi Hh Hd) as (d1 & -> & Hw1 & Hb1); [lia|].
  rewrite Hz in *. cbn [of_option obind].
  assert (forall i, 0 <= i < unpadded -> byte_at d1 block (dst + i) = Some 0) as Hzero.
  { intros i Hi. rewrite Hb1 by lia. replace (dst + i - dst) with i by lia. unfold zget, zeros.
    btrue (0 <=? i). apply lookup_replicate. split; [done|lia]. }
  unfold row_byte. destruct ((ry >=? 0) && (ry <? h) && (read_width >? 0)) eqn:Er; simpl.
  - zbool. destruct (Hread ltac:(lia)) as (Hx & Hxw & Hoff). unfold read_pixels.
    destruct (align_cases _ (ctx_pack _ _ Hc)) as [Hal _].
    rewrite (ctx_driver_pack _ _ Hc). set (bytes := read _ _ _ _ _ _ _).
    assert (zlen bytes = read_width * g) as Hl by (unfold bytes; rewrite (read_size _ _ laws) by lia; apply image_size_row).
    pose proof (group_size_range format type).
    destruct (mem_write_wrote d1 block (dst + dest_row_offset) bytes hi) as (d2 & -> & Hw2 & Hb2);
      [by eapply wrote_holds|lia|lia|]. cbn [of_option obind].
    exists d2, [glReadPixels read_x ry read_width 1 format type]. split; [done|].
    split; [repeat constructor; lia|]. split.
    + eapply wrote_trans; [exact Hw1|]. eapply wrote_weaken; [|exact Hw2]. unfold span. lia.
    + intros i Hi. destruct ((dest_row_offset <=? i) && _) eqn:Ei; zbool.
      * rewrite Hb2 by lia. f_equal. lia.
      * rewrite (wrote_frame _ _ _ Hw2); [by apply Hzero|]. unfold span. lia.
  - exists d1, []. split; [by destruct c; unfold emit; simpl; rewrite app_nil_r|]. auto.
Qed.

Lemma read_rows_ok n yy y block dst hi d c :
  ok c -> holds d block hi -> 0 <= dst ->
  ((0 < n)%nat -> dst + (Z.of_nat n - 1) * padded + unpadded <= hi) ->
  - 2 ^ 31 <= y + yy -> y + yy + Z.of_nat n <= 2 ^ 31 ->
  exists d' calls,
    read_rows read n yy y h read_x read_width dest_row_offset unpadded padded format type block dst d c =
      Done (d', emit calls c) /\
    Forall (inside_frame w h) calls /\ wrote (span block dst hi) d d' /\
    forall j i, 0 <= j < Z.of_nat n -> 0 <= i < unpadded ->
      byte_at d' block (dst + j * padded + i) = row_byte (pack_alignment_ c) (y + yy + j) i.
Proof.
  revert yy dst d c. induction n as [|n IH]; intros yy dst d c Hc Hh Hd Hhi Hlo Hy; cbn [read_rows].
  { exists d, []. split; [by destruct c; unfold emit; simpl; rewrite app_nil_r|].
    split; [done|]. split; [apply wrote_refl|]. lia. }
  rewrite i32_id by (unfold is_i32; lia). specialize (Hhi ltac:(lia)).
  destruct (read_row_ok (y + yy) block dst hi d c Hc Hh Hd) as (d1 & calls1 & E1 & Hf1 & Hw1 & Hb1); [nia|].
  destruct (of_option (mem_write d (block, dst) (zeros unpadded))) as [d0| |]; try done. cbn [obind] in E1 |- *.
  rewrite E1. cbn [obind].
  destruct (IH (yy + 1) (dst + padded) d1 (emit calls1 c)) as (d2 & calls2 & -> & Hf2 & Hw2 & Hb2);
    [by eapply keeps_reads|by eapply wrote_holds|lia|nia|lia|lia|].
  exists d2, (calls1 ++ calls2). rewrite emit_app. split; [done|]. split; [by apply Forall_app|]. split.
  - eapply wrote_trans.
    + eapply wrote_weaken; [|exact Hw1]. unfold span. intros b i [-> ?]. nia.
    + eapply wrote_weaken; [|exact Hw2]. unfold span. lia.
  - intros j i Hj Hi. destruct (Z.eq_dec j 0) as [->|Hne].
    + rewrite (wrote_frame _ _ _ Hw2) by (unfold span; lia).
      replace (dst + 0 * padded + i) with (dst + i) by lia. rewrite Hb1 by lia. f_equal. lia.
    + replace (dst + j * padded + i) with (dst + padded + (j - 1) * padded + i) by lia.
      rewrite Hb2 by lia. change (pack_alignment_ (emit calls1 c)) with (pack_alignment_ c). f_equal. lia.
Qed.

End loops.

(** Every [step]th byte of a span. *)
Definition every (block lo step count : Z) (b i : Z) : Prop :=
  b = block /\ exists j, 0 <= j < count /\ i = lo + j * step.

Lemma alpha_row_ok fuel block lo step count hi d :
  0 < step -> 0 <= lo -> 0 <= count <= Z.of_nat fuel -> holds d block hi ->
  (0 < count -> lo + (count - 1) * step < hi) ->
  exists d', alpha_row fuel block lo (lo + count * step) step d = Done d' /\
    wrote (every block lo step count) d d' /\
    forall j, 0 <= j < count -> byte_at d' block (lo + j * step) = Some 255.
Proof.
  intros Hs. revert lo count d. induction fuel as [|fuel IH]; intros lo count d Hlo Hcount Hh Hhi.
  - assert (count = 0) as -> by lia. cbn [alpha_row]. bfalse (lo <? lo + 0 * step). exists d.
    split; [done|]. split; [apply wrote_refl|lia].
  - destruct (Z.eq_dec count 0) as [->|Hne]; cbn [alpha_row].
    { bfalse (lo <? lo + 0 * step). exists d. split; [done|]. split; [apply wrote_refl|lia]. }
    assert (lo < lo + count * step) as Hlt by nia. btrue (lo <? lo + count * step).
    assert (zlen [255] = 1) as Hone by done. assert (lo + 1 <= hi) as Hfit by (specialize (Hhi ltac:(lia)); nia).
    destruct (mem_write_wrote d block lo [255] hi Hh Hlo) as (d1 & -> & Hw1 & Hb1); [lia|].
    cbn [of_option obind]. rewrite Hone in *.
    replace (lo + count * step) with (lo + step + (count - 1) * step) by lia.
    destruct (IH (lo + step) (count - 1) d1) as (d2 & -> & Hw2 & Hb2);
      [lia|lia|by eapply wrote_holds|intros; nia|].
    exists d2. split; [done|]. split.
    + eapply wrote_trans; (eapply wrote_weaken; [|done]).
      * intros b i [-> Hi]. split; [done|]. exists 0. lia.
      * intros b i [-> (j & Hj & ->)]. split; [done|]. exists (j + 1). lia.
    + intros j Hj. destruct (Z.eq_dec j 0) as [->|Hj0].
      * rewrite (wrote_frame _ _ _ Hw2). { rewrite Hb1 by lia. by replace (lo + 0 * step - lo) with 0 by lia. }
        intros [_ (j & Hj' & Eq)]. nia.
      * replace (lo + j * step) with (lo + step + (j - 1) * step) by lia. apply Hb2. lia.
Qed.

Definition alphas (block lo padded step rows count : Z) (b i : Z) : Prop :=
  b = block /\ exists r j, 0 <= r < rows /\ 0 <= j < count /\ i = lo + r * padded + j * step.

Lemma alpha_rows_ok n block lo padded step count hi d :
  0 < step -> 0 <= lo -> 0 <= count -> 0 <= padded -> count * step <= padded -> holds d block hi ->
  ((0 < n)%nat -> 0 < count -> lo + (Z.of_nat n - 1) * padded + (count - 1) * step < hi) ->
  exists d', alpha_rows n block lo (count * step) padded step d = Done d' /\
    wrote (alphas block lo padded step (Z.of_nat n) count) d d' /\
    forall r j, 0 <= r < Z.of_nat n -> 0 <= j < count ->
      byte_at d' block (lo + r * padded + j * step) = Some 255.
Proof.
  intros Hs Hlo Hcount Hp Hfit. revert lo d Hlo. induction n as [|n IH]; intros lo d Hlo Hh Hhi; cbn [alpha_rows].
  { exists d. split; [done|]. split; [apply wrote_refl|lia]. }
  destruct (alpha_row_ok (Z.to_nat (count * step)) block lo step count hi d) as (d1 & -> & Hw1 & Hb1);
    [done|done|nia|done|intros; specialize (Hhi ltac:(lia) ltac:(lia)); nia|]. cbn [obind].
  destruct (IH (lo + padded) d1) as (d2 & -> & Hw2 & Hb2);
    [lia|by eapply wrote_holds|intros; specialize (Hhi ltac:(lia) ltac:(lia)); nia|].
  exists d2. split; [done|]. split.
  - eapply wrote_trans; (eapply wrote_weaken; [|done]).
    + intros b i [-> (j & Hj & ->)]. split; [done|]. exists 0, j. lia.
    + intros b i [-> (r & j & Hr & Hj & ->)]. split; [done|]. exists (r + 1), j. lia.
  - intros r j Hr Hj. destruct (Z.eq_dec r 0) as [->|Hne].
    + rewrite (wrote_frame _ _ _ Hw2). { by replace (lo + 0 * padded + j * step) with (lo + j * step) by lia; apply Hb1. }
      intros [_ (r & j' & Hr' & Hj' & Eq)]. nia.
    + replace (lo + r * padded + j * step) with (lo + padded + (r - 1) * padded + j * step) by lia.
      apply Hb2; lia.
Qed.

(** ** One read *)

(** A byte of a pixel of the framebuffer, zero outside. *)
Definition frame_byte (max_width max_height format type x y k : Z) : option Z :=
  if (0 <=? x) && (x <? max_width) && (0 <=? y) && (y <? max_height)
  then zget (pixel format type x y) k else Some 0.

Section one_read.
Variables (x y width height format type max_width max_height size : Z) (pixels : Z * Z).
Variables (c : Context) (d : Decoder E).
Notation g := (group_size format type).
Notation row := (width * group_size format type).
Notation padded := (pitch row (pack_alignment_ c)).
Hypothesis Hc : ok c.
Hypothesis Hx : is_i32 x.
Hypothesis Hy : is_i32 y.
Hypothesis Hw : 0 < width < 2 ^ 31.
Hypothesis Hh : 0 < height < 2 ^ 31.
Hypothesis Hxw : x + width < 2 ^ 31.
Hypothesis Hyh : y + height < 2 ^ 31.
Hypothesis Hsize : size = image_size width height format type (pack_alignment_ c).
Hypothesis Hpix : 0 <= pixels.2.
Hypothesis Hheld : holds d pixels.1 (pixels.2 + size).

Lemma rows_fit : size = (height - 1) * padded + row /\ row <= padded /\ 0 <= row /\ 0 <= g.
Proof.
  clear Hx Hy Hxw Hyh.
  destruct (align_cases _ (ctx_pack _ _ Hc)) as [Ha _]. pose proof (group_size_range format type).
  pose proof (pitch_bounds row (pack_alignment_ c) ltac:(lia)). rewrite Hsize. unfold image_size.
  split_and!; [|lia|nia|lia]. destruct (height >? 1) eqn:E1; zbool; [done|]. assert (height = 1) as -> by lia. lia.
Qed.

(** What is in memory after a read. *)
Definition read_content d' : Prop := forall xx yy k, 0 <= xx < width -> 0 <= yy < height -> 0 <= k < g ->
  byte_at d' pixels.1 (pixels.2 + yy * padded + xx * g + k) =
  frame_byte max_width max_height format type (x + xx) (y + yy) k.

Definition read_result (r : option (Decoder E * Context)) : Prop :=
  match r with
  | None => True
  | Some (d', c') => exists calls, c' = emit calls c /\ Forall (inside_frame max_width max_height) calls /\
      wrote (span pixels.1 pixels.2 (pixels.2 + size)) d d' /\ read_content d'
  end.

Lemma read_pixels_ok :
  0 <= x -> 0 <= y -> x + width <= max_width -> y + height <= max_height ->
  exists r, read_pixels read x y width height format type pixels d c = Done r /\ read_result (Some r).
Proof.
  intros. unfold read_pixels. destruct (align_cases _ (ctx_pack _ _ Hc)) as [Hal _].
  rewrite (ctx_driver_pack _ _ Hc). set (bytes := read _ _ _ _ _ _ _).
  assert (zlen bytes = size) as Hl by (rewrite Hsize; apply (read_size _ _ laws); lia).
  replace (mem_write d pixels bytes) with (mem_write d (pixels.1, pixels.2) bytes) by by destruct pixels.
  destruct (mem_write_wrote d pixels.1 pixels.2 bytes (pixels.2 + size)) as (d' & -> & Hwr & Hb); [done|done|lia|].
  cbn [of_option obind]. eexists. split; [done|]. exists [glReadPixels x y width height format type].
  split; [done|]. split; [by repeat constructor; lia|]. rewrite Hl in Hwr, Hb. split; [exact Hwr|].
  intros xx yy k Hxx Hyy Hk. simpl. destruct rows_fit as (Hs & Hrow & Hrow0 & Hg).
  rewrite Hb by nia. unfold frame_byte.
  btrue ((0 <=? x + xx) && (x + xx <? max_width) && (0 <=? y + yy) && (y + yy <? max_height)).
  rewrite <- (read_pixel _ _ laws (pack_alignment_ c) x y width height format type xx yy k) by (done || lia). f_equal. lia.
Qed.

(** The part of a row that is inside the framebuffer. *)
Lemma row_frame_byte dest_row_offset ry xx k :
  let read_x := Z.max 0 x in
  let read_width := Z.max 0 (Z.min max_width (x + width)) - read_x in
  (x <> - 2 ^ 31 -> dest_row_offset = Z.max (- x) 0 * g) -> 0 <= xx < width -> 0 <= k < g ->
  row_byte max_height format type read_x read_width dest_row_offset (pack_alignment_ c) ry (xx * g + k) =
  frame_byte max_width max_height format type (x + xx) ry k.
Proof.
  intros read_x read_width Hoff Hxx Hk. unfold row_byte, frame_byte, is_i32 in *.
  destruct ((0 <=? x + xx) && (x + xx <? max_width) && (0 <=? ry) && (ry <? max_height)) eqn:Ein; zbool.
  - assert (0 < read_width /\ x <> - 2 ^ 31) as [Hrw Hmin] by lia. specialize (Hoff Hmin).
    assert (Z.max (- x) 0 <= xx < Z.max (- x) 0 + read_width) as Hr by lia.
    btrue (ry >=? 0). btrue (ry <? max_height). btrue (read_width >? 0). rewrite Hoff.
    set (skipped := Z.max (- x) 0) in *.
    assert (skipped * g <= xx * g) by nia. assert (xx * g + g <= skipped * g + read_width * g) by nia.
    btrue (skipped * g <=? xx * g + k). btrue (xx * g + k <? skipped * g + read_width * g).
    cbn [andb].
    destruct (align_cases _ (ctx_pack _ _ Hc)) as [Hal _].
    pose proof (read_pixel _ _ laws (pack_alignment_ c) read_x ry read_width 1 format type (xx - skipped) 0 k
      ltac:(lia) ltac:(lia) ltac:(lia) Hk) as Hp. cbv zeta in Hp.
    replace (read_x + (xx - skipped)) with (x + xx) in Hp by lia.
    replace (ry + 0) with ry in Hp by lia. rewrite <- Hp. f_equal. lia.
  - case_match; [|done]. zbool. exfalso.
    destruct (Z.eq_dec x (- 2 ^ 31)) as [Emin|Hmin]; [lia|]. rewrite (Hoff Hmin) in *.
    assert (Z.max (- x) 0 <= xx) by nia. assert (xx < Z.max (- x) 0 + read_width) by nia. lia.
Qed.

Lemma read_clipped_ok :
  exists r, read_clipped read x y width height format type (x + width) max_width max_height pixels d c =
    Done r /\ read_result r.
Proof.
  unfold read_clipped. destruct (row_sizes _ _ _ _) as [[unpadded pd]|] eqn:Ers; [|by exists None].
  destruct (row_sizes_exact width format type (pack_alignment_ c) unpadded pd) as [-> ->];
    [lia|apply Hc|done|].
  destruct rows_fit as (Hs & Hrow & Hrow0 & Hg). unfold is_i32 in *.
  destruct (ComputeImageDataSize (Z.max (i32 (- x)) 0) 1 format type _) as [off|] eqn:Eo; [|by exists None].
  assert (0 <= off /\ (x <> - 2 ^ 31 -> off = Z.max (- x) 0 * g)) as [Hoff0 Hoff].
  { pose proof (i32_range (- x)) as Hr. unfold is_i32 in Hr.
    rewrite ComputeImageDataSize_exact in Eo by (done || lia || apply Hc).
    rewrite image_size_row in Eo. destruct (_ && _); [|done]. injection Eo as <-. split; [nia|].
    intros Hne. rewrite i32_id by (unfold is_i32; lia). done. }
  set (read_x := Z.max 0 x). set (read_width := Z.max 0 (Z.min max_width (x + width)) - read_x).
  destruct (read_rows_ok max_width max_height format type row padded read_x read_width off Hrow0 Hrow Hoff0)
    with (n := Z.to_nat height) (yy := 0) (y := y) (block := pixels.1) (dst := pixels.2)
      (hi := pixels.2 + size) (d := d) (c := c) as (d' & calls & E1 & Hf & Hwr & Hb);
    [|done|done|done|intros; lia|lia|lia|].
  { intros Hrw. destruct (Z.eq_dec x (- 2 ^ 31)) as [Emin|Hmin]; [lia|]. rewrite (Hoff Hmin).
    split_and!; [lia|lia|]. assert (Z.max (- x) 0 + read_width <= width) by lia. nia. }
  rewrite E1. cbn [obind]. eexists. split; [done|]. exists calls. split; [done|]. split; [done|].
  split; [done|]. intros xx yy k Hxx Hyy Hk.
  replace (pixels.2 + yy * padded + xx * g + k) with (pixels.2 + yy * padded + (xx * g + k)) by lia.
  rewrite Hb by nia. replace (y + 0 + yy) with (y + yy) by lia. by apply row_frame_byte.
Qed.

(** A byte that is made opaque: the alpha of a framebuffer that has none. *)
Definition opaque (read_format k : Z) : bool :=
  (Z.land (GetChannelsForFormat read_format) 8 =? 0) &&
  (is_case format [GL_RGBA; GL_BGRA_EXT] && (k =? 3) || (format =? GL_ALPHA) && (k =? 0)).

Definition opaque_content read_format d1 d2 : Prop := forall xx yy k,
  0 <= xx < width -> 0 <= yy < height -> 0 <= k < g ->
  let i := pixels.2 + yy * padded + xx * g + k in
  byte_at d2 pixels.1 i = if opaque read_format k then Some 255 else byte_at d1 pixels.1 i.

Lemma alpha_step :
  type = GL_UNSIGNED_BYTE -> format ∈ [GL_RGBA; GL_BGRA_EXT; GL_ALPHA] ->
  let offset := if format =? GL_ALPHA then 0 else 3 in
  g = (if format =? GL_ALPHA then 1 else 4) /\ 0 <= offset < g /\
  forall k, is_case format [GL_RGBA; GL_BGRA_EXT] && (k =? 3) || (format =? GL_ALPHA) && (k =? 0) =
    (k =? offset).
Proof.
  intros -> Hf. rewrite !elem_of_cons, elem_of_nil in Hf.
  destruct Hf as [->|[->|[->|[]]]]; vm_compute group_size; (split; [done|split; [done|]]); intros k; simpl;
    by rewrite ?orb_false_r.
Qed.

Lemma opaque_rows offset d1 :
  holds d1 pixels.1 (pixels.2 + size) -> 0 <= offset < g ->
  exists d2, alpha_rows (Z.to_nat height) pixels.1 (pixels.2 + offset) row padded g d1 = Done d2 /\
    wrote (span pixels.1 pixels.2 (pixels.2 + size)) d1 d2 /\
    forall xx yy k, 0 <= xx < width -> 0 <= yy < height -> 0 <= k < g ->
      let i := pixels.2 + yy * padded + xx * g + k in
      byte_at d2 pixels.1 i = if k =? offset then Some 255 else byte_at d1 pixels.1 i.
Proof.
  clear Hx Hy Hxw Hyh.
  intros Hd1 Hoff. destruct rows_fit as (Hs & Hrow & Hrow0 & Hg).
  destruct (alpha_rows_ok (Z.to_nat height) pixels.1 (pixels.2 + offset) padded g width (pixels.2 + size) d1)
    as (d2 & E2 & Hw2 & Hb2); [lia|lia|lia|lia|lia|done|intros; nia|].
  exists d2. split; [done|]. split.
  - eapply wrote_weaken; [|exact Hw2]. intros b i [-> (r & j & Hr & Hj & ->)]. split; [done|].
    assert (j * g + g <= row) by nia. assert (0 <= r * padded <= (height - 1) * padded) by nia. nia.
  - intros xx yy k Hxx Hyy Hk i. destruct (k =? offset) eqn:Ek; zbool.
    + unfold i. subst k. rewrite <- (Hb2 yy xx) by lia. f_equal. lia.
    + apply (wrote_frame _ _ _ Hw2). intros [_ (r & j & Hr & Hj & Ei)]. unfold i in Ei.
      assert (xx * g + g <= row) by nia. assert (j * g + g <= row) by nia.
      destruct (Z.lt_trichotomy r yy) as [Hlt|[->|Hlt]].
      * assert (r * padded + padded <= yy * padded) by nia. nia.
      * assert (xx * g + k = j * g + offset) by lia.
        destruct (Z.lt_trichotomy xx j) as [?|[->|?]]; nia.
      * assert (yy * padded + padded <= r * padded) by nia. nia.
Qed.

Lemma set_opaque_ok d1 :
  holds d1 pixels.1 (pixels.2 + size) ->
  exists d2 c2, set_opaque cfg width height format type pixels d1 c = Done (kNoError, (d2, c2)) /\
    wrote (span pixels.1 pixels.2 (pixels.2 + size)) d1 d2 /\
    ((exists err, c2 = SetGLError err c) \/
     (c2 = c /\ forall read_format, GetBoundReadFrameBufferInternalFormat cfg c = Done read_format ->
        opaque_content read_format d1 d2)).
Proof.
  clear Hx Hy Hxw Hyh.
  intros Hd1. unfold set_opaque. destruct (read_format_ok cfg c Hc) as [fmt Ef]. rewrite Ef. cbn [obind].
  assert (forall d2 c2, d2 = d1 -> c2 = c -> (forall k, opaque fmt k = false) ->
    wrote (span pixels.1 pixels.2 (pixels.2 + size)) d1 d2 /\
    ((exists err, c2 = SetGLError err c) \/ (c2 = c /\ forall read_format,
      Done fmt = Done read_format -> opaque_content read_format d1 d2))) as Hsame.
  { intros d2 c2 -> -> Hop. split; [apply wrote_refl|]. right. split; [done|]. intros ? [= <-] xx yy k Hxx Hyy Hk.
    cbv zeta. by rewrite Hop. }
  destruct (Z.land _ 8 =? 0) eqn:Ealpha.
  2: { exists d1, c. split; [done|]. apply Hsame; [done..|]. intros k. unfold opaque. by rewrite Ealpha. }
  destruct (row_sizes _ _ _ _) as [[unpadded pd]|] eqn:Ers.
  2: { exists d1, (SetGLError GL_INVALID_VALUE c). split; [done|]. split; [apply wrote_refl|]. left. by eexists. }
  destruct (row_sizes_exact width format type (pack_alignment_ c) unpadded pd) as [-> ->]; [lia|apply Hc|done|].
  destruct (type =? GL_UNSIGNED_BYTE) eqn:Et; cbn [negb].
  2: { exists d1, (SetGLError GL_INVALID_OPERATION c). split; [done|]. split; [apply wrote_refl|]. left. by eexists. }
  destruct (is_case format [GL_RGBA; GL_BGRA_EXT; GL_ALPHA]) eqn:Ecase.
  - zbool. apply is_case_true in Ecase. destruct (alpha_step Et Ecase) as (Hstep & Hoff & Hk).
    destruct (opaque_rows (if format =? GL_ALPHA then 0 else 3) d1 Hd1 Hoff) as (d2 & E2 & Hw2 & Hb2).
    rewrite <- Hstep, E2. cbn [obind]. exists d2, c. split; [done|]. split; [done|]. right. split; [done|].
    intros ? [= <-] xx yy k Hxx Hyy Hkk. cbv zeta. unfold opaque. rewrite Ealpha, Hk. by apply Hb2.
  - exists d1, c. split; [done|]. apply Hsame; [done..|]. intros k. unfold opaque, is_case in *. simpl in *.
    repeat (apply orb_false_iff in Ecase as [? Ecase]). by rewrite H0, H1, H2, !andb_false_r.
Qed.

End one_read.

(** ** The handler *)

Section command.
Variables (env : Answers) (x y width height format type : Z).
Variables (pixels_shm_id pixels_shm_offset result_shm_id result_shm_offset : Z) (d : Decoder E) (c : Context).
Hypothesis Hc : ok c.
Hypothesis Hd : decoder_ok d.
Hypothesis Hpo : is_u32 pixels_shm_offset.
Hypothesis Hro : is_u32 result_shm_offset.
Hypothesis Hx : is_i32 x.
Hypothesis Hy : is_i32 y.
Hypothesis Hw : is_i32 width.
Hypothesis Hh : is_i32 height.

Notation handled := (HandleReadPixels cfg read env x y width height format type pixels_shm_id
  pixels_shm_offset result_shm_id result_shm_offset d c).

(** The two regions of the client's memory that the command names. *)
Definition regions (pixels result : Z * Z) (size : Z) : Prop :=
  ComputeImageDataSize width height format type (pack_alignment_ c) = Some size /\
  GetAddressAndCheckSize pixels_shm_id pixels_shm_offset size d = Some pixels /\
  GetAddressAndCheckSize result_shm_id result_shm_offset 4 d = Some result.

Definition within (pixels result : Z * Z) (size : Z) (b i : Z) : Prop :=
  span pixels.1 pixels.2 (pixels.2 + size) b i \/ span result.1 result.2 (result.2 + 4) b i.

(** Nothing is read: an error, or an empty rectangle. *)
Definition nothing_read (m : outcome (Error * (Decoder E * Context))) : Prop :=
  exists e c', m = Done (e, (d, c')) /\
    ((c' = c /\ (e <> kNoError \/ width = 0 \/ height = 0)) \/ exists err, c' = SetGLError err c).

(** Pixels are read, and then made opaque unless the driver reports an error. *)
Definition pixels_read (m : outcome (Error * (Decoder E * Context))) : Prop :=
  exists pixels result size max_width max_height calls d1 d' c',
    regions pixels result size /\ GetBoundReadFrameBufferSize cfg c = Done (max_width, max_height) /\
    0 < width < 2 ^ 31 /\ 0 < height < 2 ^ 31 /\
    size = image_size width height format type (pack_alignment_ c) /\
    Forall (inside_frame max_width max_height) calls /\
    wrote (span pixels.1 pixels.2 (pixels.2 + size)) d d1 /\
    read_content x y width height format type max_width max_height pixels c d1 /\
    m = Done (kNoError, (d', c')) /\
    ((peek_gl_error env <> GL_NO_ERROR /\ d' = d1 /\ c' = SetGLError (peek_gl_error env) (emit calls c)) \/
     (peek_gl_error env = GL_NO_ERROR /\ exists d2, mem_write d1 result (le_bytes 4 1) = Some d2 /\
        set_opaque cfg width height format type pixels d2 (emit calls c) = Done (kNoError, (d', c')))).

Lemma HandleReadPixels_cases : nothing_read handled \/ pixels_read handled.
Proof.
  unfold HandleReadPixels, is_i32 in *.
  assert (forall err, nothing_read (Done (kNoError, (d, SetGLError err c)))) as Herr.
  { intros err. exists kNoError, (SetGLError err c). split; [done|]. right. by exists err. }
  assert (forall e, e <> kNoError -> nothing_read (Done (e, (d, c)))) as Hfail.
  { intros e He. exists e, c. auto. }
  destruct ((width <? 0) || (height <? 0)) eqn:Ewh; [by left|]. zbool.
  destruct (ComputeImageDataSize _ _ _ _ _) as [size|] eqn:Es; [|left; by apply Hfail].
  pose proof (ComputeImageDataSize_u32 _ _ _ _ _ _ Es) as Hs32.
  destruct (GetAddressAndCheckSize pixels_shm_id _ _ _) as [pixels|] eqn:Ep; [|left; by apply Hfail].
  destruct (GetAddressAndCheckSize result_shm_id _ _ _) as [result|] eqn:Er; [|left; by apply Hfail].
  destruct (negb _); [by left|]. destruct (negb _); [by left|].
  destruct ((width =? 0) || (height =? 0)) eqn:Ez.
  { left. exists kNoError, c. split; [done|]. left. split; [done|]. zbool. destruct Ez; zbool; auto. }
  zbool. destruct (read_size_ok cfg c Hc) as (mw & mh & Ef). rewrite Ef. cbn [obind].
  rewrite !SafeAddInt32_exact by (unfold is_i32; lia).
  destruct (x + width <? 2 ^ 31) eqn:Exw, (y + height <? 2 ^ 31) eqn:Eyh; cbn [negb orb]; [|by left..].
  zbool.
  assert (size = image_size width height format type (pack_alignment_ c)) as Hsize.
  { rewrite ComputeImageDataSize_exact in Es by (lia || apply Hc). destruct (_ && _); [|done]. by injection Es. }
  destruct (holds_address _ _ _ _ _ _ _ Hpo Hs32 Hd Ep) as [Epo Hheld]. rewrite <- Epo in Hheld.
  assert (0 <= pixels.2) as Hpix by (rewrite Epo; apply Hpo).
  match goal with |- context [obind (if ?b then ?m1 else ?m2) _] => set (m := if b then m1 else m2) end.
  assert (exists r, m = Done r /\
    read_result x y width height format type mw mh size pixels c d r) as (r & -> & Hr).
  { unfold m. destruct (_ || _ || _ || _) eqn:Eout.
    - apply read_clipped_ok; (done || unfold is_i32; lia).
    - zbool. destruct (read_pixels_ok x y width height format type mw mh size pixels c d)
        as (r & -> & Hr); try (done || unfold is_i32; lia). cbn [obind]. by exists (Some r). }
  cbn [obind]. destruct r as [[d1 c1]|]; [|by left]. right.
  destruct Hr as (calls & -> & Hin & Hw1 & Hcontent).
  destruct (peek_gl_error env =? GL_NO_ERROR) eqn:Ee; zbool.
  - assert (is_u32 4) as H4 by (unfold is_u32; lia).
    destruct (holds_address _ _ _ _ _ _ _ Hro H4 Hd Er) as [Ero Hrheld]. rewrite <- Ero in Hrheld.
    destruct (mem_write_wrote d1 result.1 result.2 (le_bytes 4 1) (result.2 + 4)) as (d2 & E2 & Hw2 & _);
      [by eapply wrote_holds|rewrite Ero; apply Hro|done|].
    rewrite <- surjective_pairing in E2. rewrite E2. cbn [of_option obind].
    assert (ok (emit calls c)) as Hc1 by by eapply keeps_reads.
    destruct (set_opaque_ok width height format type size pixels (emit calls c))
      with (d1 := d2) as (d3 & c3 & E3 & _); try (done || unfold is_i32; lia).
    { eapply wrote_holds; [exact Hw2|]. by eapply wrote_holds. }
    exists pixels, result, size, mw, mh, calls, d1, d3, c3. rewrite E3.
    split_and!; try done; try lia. right. split; [done|]. by exists d2.
  - exists pixels, result, size, mw, mh, calls, d1, d1, (SetGLError (peek_gl_error env) (emit calls c)).
    split_and!; try done; try lia. by left.
Qed.

Lemma pixels_read_ok :
  pixels_read handled -> exists pixels result size max_width max_height calls d' c',
    regions pixels result size /\ GetBoundReadFrameBufferSize cfg c = Done (max_width, max_height) /\
    Forall (inside_frame max_width max_height) calls /\ handled = Done (kNoError, (d', c')) /\
    wrote (within pixels result size) d d' /\ keeps cfg c c' /\ gl_calls c' = gl_calls c ++ calls.
Proof.
  intros (pixels & result & size & mw & mh & calls & d1 & d' & c' & Hreg & Ef & Hw0 & Hh0 & Hs &
    Hin & Hw1 & _ & E1 & Hend).
  pose proof Hreg as (Es & Ep & Er). pose proof (ComputeImageDataSize_u32 _ _ _ _ _ _ Es) as Hs32.
  destruct (holds_address _ _ _ _ _ _ _ Hpo Hs32 Hd Ep) as [Epo Hheld]. rewrite <- Epo in Hheld.
  pose proof (keeps_reads _ _ _ calls Hc Hin) as Hk.
  exists pixels, result, size, mw, mh, calls, d', c'. split; [done|]. split; [done|]. split; [done|].
  split; [done|].
  assert (wrote (within pixels result size) d d1) as Hwr1.
  { eapply wrote_weaken; [|exact Hw1]. intros b i Hi. by left. }
  destruct Hend as [(_ & -> & ->)|(_ & d2 & E2 & E3)].
  { split; [done|]. split; [|done]. eapply context_keeps_trans; [exact Hk|]. apply keeps_SetGLError, Hk. }
  assert (is_u32 4) as H4 by (unfold is_u32; lia).
  destruct (holds_address _ _ _ _ _ _ _ Hro H4 Hd Er) as [Ero Hrheld]. rewrite <- Ero in Hrheld.
  destruct (mem_write_wrote d1 result.1 result.2 (le_bytes 4 1) (result.2 + 4)) as (d2' & E2' & Hw2 & _);
    [by eapply wrote_holds|rewrite Ero; apply Hro|done|].
  rewrite <- surjective_pairing, E2 in E2'. injection E2' as <-.
  assert (0 <= pixels.2) as Hpix by (rewrite Epo; apply Hpo).
  destruct (set_opaque_ok width height format type size pixels (emit calls c))
    with (d1 := d2) as (d3 & c3 & E3' & Hw3 & Hc3); try (done || apply Hk || unfold is_i32 in *; lia).
  { eapply wrote_holds; [exact Hw2|]. by eapply wrote_holds. }
  rewrite E3 in E3'. injection E3' as <- <-. split; [|split].
  - eapply wrote_trans; [exact Hwr1|]. eapply wrote_trans; (eapply wrote_weaken; [|done]).
    + intros b i Hi. by right.
    + intros b i Hi. by left.
  - eapply context_keeps_trans; [exact Hk|]. destruct Hc3 as [[err ->]|[-> _]];
      [apply keeps_SetGLError, Hk|apply keeps_refl, Hk].
  - by destruct Hc3 as [[err ->]|[-> _]].
Qed.

Lemma nothing_read_ok :
  nothing_read handled ->
  exists e c', handled = Done (e, (d, c')) /\ keeps cfg c c' /\ gl_calls c' = gl_calls c.
Proof.
  intros (e & c' & -> & Hc'). exists e, c'. split; [done|].
  destruct Hc' as [[-> _]|[err ->]]; (split; [|done]); [by apply keeps_refl|by apply keeps_SetGLError].
Qed.

Lemma HandleReadPixels_good :
  exists e d' c', handled = Done (e, (d', c')) /\ decoder_ok d' /\ keeps cfg c c'.
Proof.
  destruct HandleReadPixels_cases as [Hr|Hr].
  - destruct (nothing_read_ok Hr) as (e & c' & -> & Hk & _). by exists e, d, c'.
  - destruct (pixels_read_ok Hr) as (? & ? & ? & ? & ? & ? & d' & c' & _ & _ & _ & -> & Hwr & Hk & _).
    exists kNoError, d', c'. split; [done|]. split; [by eapply wrote_ok|done].
Qed.

(** C17: Reading pixels is safe.  Whatever the command says, the handler comes to an end in
    a good state; it changes no byte of the client's memory outside the two regions whose
    addresses it has checked; and every rectangle it asks the driver for is inside the
    framebuffer that is read from. *)
Theorem ReadPixels_safe :
  exists e d' c', handled = Done (e, (d', c')) /\ decoder_ok d' /\ keeps cfg c c' /\
    (d' = d \/ exists pixels result size, regions pixels result size /\
       wrote (within pixels result size) d d') /\
    exists calls, gl_calls c' = gl_calls c ++ calls /\
      forall max_width max_height, GetBoundReadFrameBufferSize cfg c = Done (max_width, max_height) ->
        Forall (inside_frame max_width max_height) calls.
Proof.
  destruct HandleReadPixels_cases as [Hr|Hr].
  - destruct (nothing_read_ok Hr) as (e & c' & -> & Hk & Hg). exists e, d, c'. split_and!; [done..|by left|].
    exists []. by rewrite app_nil_r.
  - destruct (pixels_read_ok Hr)
      as (pixels & result & size & mw & mh & calls & d' & c' & Hreg & Ef & Hin & -> & Hwr & Hk & Hg).
    exists kNoError, d', c'. split; [done|]. split; [by eapply wrote_ok|]. split; [done|].
    split; [right; by exists pixels, result, size|]. exists calls. split; [done|].
    intros w h Ef'. rewrite Ef in Ef'. by injection Ef' as <- <-.
Qed.

(** C18: What reading pixels leaves in memory.  When the handler raises no error and the
    rectangle is not empty, the result is one and each byte of each pixel is where its row
    and column say: the framebuffer's inside the framebuffer, zero outside, and 255 where
    the format has an alpha that the framebuffer lacks. *)
Theorem ReadPixels_content pixels result size d' c' max_width max_height read_format :
  0 < width -> 0 < height -> peek_gl_error env = GL_NO_ERROR ->
  handled = Done (kNoError, (d', c')) -> gl_errors c' = gl_errors c -> regions pixels result size ->
  (forall b i, span result.1 result.2 (result.2 + 4) b i ->
     ~ span pixels.1 pixels.2 (pixels.2 + size) b i) ->
  GetBoundReadFrameBufferSize cfg c = Done (max_width, max_height) ->
  GetBoundReadFrameBufferInternalFormat cfg c = Done read_format ->
  (forall j, 0 <= j < 4 -> byte_at d' result.1 (result.2 + j) = zget [1; 0; 0; 0] j) /\
  forall xx yy k, 0 <= xx < width -> 0 <= yy < height -> 0 <= k < group_size format type ->
    let row := width * group_size format type in
    byte_at d' pixels.1 (pixels.2 + yy * pitch row (pack_alignment_ c) + xx * group_size format type + k) =
    if opaque format read_format k then Some 255
    else frame_byte max_width max_height format type (x + xx) (y + yy) k.
Proof.
  intros Hw0 Hh0 He Ehandled Hge Hreg Hdis Ef Efmt.
  destruct HandleReadPixels_cases as [(e & c0 & E0 & Hc0)|Hread].
  { rewrite Ehandled in E0. injection E0 as <- <- <-. exfalso. destruct Hc0 as [[_ Hc0]|[err ->]]; [by intuition lia|].
    simpl in Hge. apply (f_equal length) in Hge. rewrite length_app in Hge. simpl in Hge. lia. }
  destruct Hread as (pixels0 & result0 & size0 & mw & mh & calls & d1 & d0 & c0 & Hreg0 & Ef0 & Hw1 & Hh1 & Hs &
    Hin & Hwr1 & Hcontent & E0 & Hend).
  destruct Hreg as (Es & Ep & Er). destruct Hreg0 as (Es0 & Ep0 & Er0).
  rewrite Es in Es0. injection Es0 as <-. rewrite Ep in Ep0. injection Ep0 as <-.
  rewrite Er in Er0. injection Er0 as <-. rewrite Ef in Ef0. injection Ef0 as <- <-.
  rewrite Ehandled in E0. injection E0 as <- <-. destruct Hend as [(? & _)|(_ & d2 & E2 & E3)]; [done|].
  pose proof (ComputeImageDataSize_u32 _ _ _ _ _ _ Es) as Hs32. assert (is_u32 4) as H4 by (unfold is_u32; lia).
  destruct (holds_address _ _ _ _ _ _ _ Hpo Hs32 Hd Ep) as [Epo Hheld]. rewrite <- Epo in Hheld.
  destruct (holds_address _ _ _ _ _ _ _ Hro H4 Hd Er) as [Ero Hrheld]. rewrite <- Ero in Hrheld.
  pose proof (keeps_reads _ _ _ calls Hc Hin) as Hk. unfold is_u32 in *.
  destruct (mem_write_wrote d1 result.1 result.2 (le_bytes 4 1) (result.2 + 4)) as (d2' & E2' & Hw2 & Hb2);
    [by eapply wrote_holds|lia|done|].
  rewrite <- surjective_pairing, E2 in E2'. injection E2' as <-. change (zlen (le_bytes 4 1)) with 4 in *.
  destruct (set_opaque_ok width height format type size pixels (emit calls c))
    with (d1 := d2) as (d3 & c3 & E3' & Hw3 & Hc3); try (done || apply Hk || unfold is_i32 in *; lia).
  { eapply wrote_holds; [exact Hw2|]. by eapply wrote_holds. }
  rewrite E3 in E3'. injection E3' as <- <-. destruct Hc3 as [[err ->]|[_ Hop]].
  { simpl in Hge. apply (f_equal length) in Hge. rewrite length_app in Hge. simpl in Hge. lia. }
  specialize (Hop read_format Efmt). split.
  - intros j Hj. rewrite (wrote_frame _ _ _ Hw3) by (apply Hdis; unfold span; lia).
    rewrite Hb2 by lia. by replace (result.2 + j - result.2) with j by lia.
  - intros xx yy k Hxx Hyy Hkk. cbv zeta. pose proof (Hop xx yy k Hxx Hyy Hkk) as Ho. cbv zeta in Ho.
    change (pack_alignment_ (emit calls c)) with (pack_alignment_ c) in Ho. rewrite Ho.
    destruct (opaque format read_format k); [done|]. rewrite <- (Hcontent xx yy k Hxx Hyy Hkk).
    apply (wrote_frame _ _ _ Hw2). intros Hi. eapply Hdis; [exact Hi|].
    destruct (rows_fit width height format type size c) as (Hfit & Hrow & Hrow0 & Hg); try done; try lia.
    split; [done|]. nia.
Qed.

End command.

End correctness.
