(* ===== verification/ContextCommands.v ===== *)
(** * The commands of a context, together

    [GLES2DecoderImpl] of [gpu/command_buffer/service/gles2_cmd_decoder.cc] as far as
    textures, renderbuffers and framebuffers go: a context as [Initialize] leaves it, its
    commands, and what every sequence of them keeps true. *)

From S2P Require Import Prelude CmdFormat CommandBufferService CommonDecoder.
From Stdlib Require Import ZArith Lia ZifyBool Bool.
From stdpp Require Import base numbers option gmap sets list strings.
From S2P Require Import Prelude GLConstants Validators GLES2Util FeatureInfo TextureInfo IdAllocator.
From S2P Require Import TextureManager RenderbufferManager FramebufferManager ContextState ContextInvariant.
From S2P Require Import TextureDecoder FramebufferDecoder ObjectNames ReadPixels.
Local Open Scope Z_scope.

(** ** A new context *)

Section initial.
Variable cfg : Config.
Notation fi := (feature_info_ cfg).

(** The bindings of one unit; the default textures are live. *)
Definition bind_defaults (tt : Z) (m : TextureManager) (c : Context) : outcome (TextureUnit * Context) :=
  let bind target c :=
    (do a <- of_option (GetDefaultTextureInfo target m) ;;
     do t <- of_option (textures m !! a) ;;
     Done (a, gl (glBindTexture target (t_service_id_ t)) c))%gpu in
  let c := gl (glActiveTexture (GL_TEXTURE0 + tt)) c in
  (do (external, c) <- (if oes_egl_image_external (feature_flags_ fi) then
                          do (a, c) <- bind GL_TEXTURE_EXTERNAL_OES c ;; Done (Some a, c)
                        else Done (None, c)) ;;
   do (cube, c) <- bind GL_TEXTURE_CUBE_MAP c ;;
   do (tex, c) <- bind GL_TEXTURE_2D c ;;
   Done (mkTextureUnit GL_TEXTURE_2D (Some tex) (Some cube) external, c))%gpu.

(** The loop over [n] units from the [tt]th. *)
Fixpoint bind_units (n : nat) (tt : Z) (m : TextureManager) (c : Context)
    : outcome (list TextureUnit * Context) :=
  match n with
  | O => Done ([], c)
  | S n =>
      (do (unit, c) <- bind_defaults tt m c ;;
       do (units, c) <- bind_units n (tt + 1) m c ;;
       Done (unit :: units, c))%gpu
  end.

(** The members before [Initialize], with the managers of a new group. *)
Definition Context_new (g : Group) : Context :=
  mkContext g (mkBindings [] 0 None None None) Saved_new true false 4 4 [] [].

Definition Initialize_units (g : Group) : outcome Context :=
  (do (units, c) <- bind_units (Z.to_nat (max_texture_units cfg)) 0 (texture_manager g) (Context_new g) ;;
   Done (gl (glActiveTexture GL_TEXTURE0) (with_bindings (mkBindings units 0 None None None) c)))%gpu.

(** The managers of a new context group, given the names of the default textures. *)
Definition Group_new (max_renderbuffer_size : Z) (m : TextureManager) (ids : Reused.IdAllocator) : Group :=
  mkGroup m (RenderbufferManager_new max_renderbuffer_size) FramebufferManager_new ids ids ids.

End initial.

(** ** The commands *)

(** The arguments of a command.  Service ids are those the driver generates. *)
Inductive Command :=
| GenTextures (service_ids : list Z) (n shm_id shm_offset : Z)
| GenTexturesImmediate (service_ids : list Z) (n : Z) (immediate : list Z)
| GenRenderbuffers (service_ids : list Z) (n shm_id shm_offset : Z)
| GenRenderbuffersImmediate (service_ids : list Z) (n : Z) (immediate : list Z)
| GenFramebuffers (service_ids : list Z) (n shm_id shm_offset : Z)
| GenFramebuffersImmediate (service_ids : list Z) (n : Z) (immediate : list Z)
| DeleteTextures (n shm_id shm_offset : Z)
| DeleteTexturesImmediate (n : Z) (immediate : list Z)
| DeleteRenderbuffers (n shm_id shm_offset : Z)
| DeleteRenderbuffersImmediate (n : Z) (immediate : list Z)
| DeleteFramebuffers (n shm_id shm_offset : Z)
| DeleteFramebuffersImmediate (n : Z) (immediate : list Z)
| IsTexture (texture shm_id shm_offset : Z)
| IsRenderbuffer (renderbuffer shm_id shm_offset : Z)
| IsFramebuffer (framebuffer shm_id shm_offset : Z)
| CheckFramebufferStatus (target shm_id shm_offset : Z)
| ActiveTexture (texture : Z)
| BindTexture (target texture : Z)
| BindRenderbuffer (target renderbuffer : Z)
| BindFramebuffer (target framebuffer : Z)
| TexParameteri (target pname param : Z)
| GenerateMipmap (target : Z)
| PixelStorei (pname param : Z)
| TexImage2D (target level internalformat width height border format type shm_id shm_offset : Z)
| TexImage2DImmediate (target level internalformat width height border format type : Z)
    (immediate : list Z)
| TexSubImage2D (target level xoffset yoffset width height format type shm_id shm_offset internal : Z)
| TexSubImage2DImmediate (target level xoffset yoffset width height format type internal : Z)
    (immediate : list Z)
| CompressedTexImage2D (target level internalformat width height border image_size shm_id shm_offset : Z)
| CompressedTexImage2DImmediate (target level internalformat width height border image_size : Z)
    (immediate : list Z)
| CompressedTexImage2DBucket (target level internalformat width height border bucket_id : Z)
| CompressedTexSubImage2D (target level xoffset yoffset width height format image_size shm_id
    shm_offset : Z)
| CompressedTexSubImage2DBucket (target level xoffset yoffset width height format bucket_id : Z)
| CopyTexImage2D (target level internalformat x y width height border : Z)
| CopyTexSubImage2D (target level xoffset yoffset x y width height : Z)
| FramebufferRenderbuffer (target attachment renderbuffertarget renderbuffer : Z)
| FramebufferTexture2D (target attachment textarget texture level : Z)
| RenderbufferStorage (target internalformat width height : Z)
| RenderbufferStorageMultisampleEXT (target samples internalformat width height : Z)
| BlitFramebufferEXT (srcX0 srcY0 srcX1 srcY1 dstX0 dstY0 dstX1 dstY1 mask filter : Z)
| Enable (cap : Z)
| Disable (cap : Z)
| ClearColor (red green blue alpha : Z)
| ClearDepthf (depth : Z)
| ClearStencil (s : Z)
| ColorMask (red green blue alpha : Z)
| DepthMask (flag : Z)
| StencilMask (mask : Z)
| StencilMaskSeparate (face mask : Z)
| Clear (mask : Z)
| ReadPixels (x y width height format type pixels_shm_id pixels_shm_offset result_shm_id
    result_shm_offset : Z).

Section execute.
Context `{Platform} {E : Type} `{CommandBufferEngine E}.
Variable cfg : Config.
Variable read : Z -> Z -> Z -> Z -> Z -> Z -> Z -> list Z.
Implicit Types (c : Context) (d : Decoder E).

(** A handler that only changes the context. *)
Definition in_context d (m : outcome (Error * Context)) : outcome (Error * (Decoder E * Context)) :=
  (do (e, c) <- m ;; Done (e, (d, c)))%gpu.

(** One that always answers [kNoError]. *)
Definition no_error d (m : outcome Context) : outcome (Error * (Decoder E * Context)) :=
  (do c <- m ;; Done (kNoError, (d, c)))%gpu.

Definition execute (env : Answers) (command : Command) d c : outcome (Error * (Decoder E * Context)) :=
  match command with
  | GenTextures ids n shm_id shm_offset => in_context d (HandleGenTextures cfg ids n shm_id shm_offset d c)
  | GenTexturesImmediate ids n immediate => in_context d (HandleGenTexturesImmediate cfg ids n immediate c)
  | GenRenderbuffers ids n shm_id shm_offset =>
      in_context d (HandleGenRenderbuffers ids n shm_id shm_offset d c)
  | GenRenderbuffersImmediate ids n immediate =>
      in_context d (HandleGenRenderbuffersImmediate ids n immediate c)
  | GenFramebuffers ids n shm_id shm_offset =>
      in_context d (HandleGenFramebuffers ids n shm_id shm_offset d c)
  | GenFramebuffersImmediate ids n immediate =>
      in_context d (HandleGenFramebuffersImmediate ids n immediate c)
  | DeleteTextures n shm_id shm_offset => in_context d (HandleDeleteTextures cfg n shm_id shm_offset d c)
  | DeleteTexturesImmediate n immediate => in_context d (HandleDeleteTexturesImmediate cfg n immediate c)
  | DeleteRenderbuffers n shm_id shm_offset =>
      in_context d (HandleDeleteRenderbuffers n shm_id shm_offset d c)
  | DeleteRenderbuffersImmediate n immediate =>
      in_context d (HandleDeleteRenderbuffersImmediate n immediate c)
  | DeleteFramebuffers n shm_id shm_offset =>
      in_context d (HandleDeleteFramebuffers n shm_id shm_offset d c)
  | DeleteFramebuffersImmediate n immediate =>
      in_context d (HandleDeleteFramebuffersImmediate n immediate c)
  | IsTexture texture shm_id shm_offset => HandleIsTexture texture shm_id shm_offset d c
  | IsRenderbuffer renderbuffer shm_id shm_offset => HandleIsRenderbuffer renderbuffer shm_id shm_offset d c
  | IsFramebuffer framebuffer shm_id shm_offset => HandleIsFramebuffer framebuffer shm_id shm_offset d c
  | CheckFramebufferStatus target shm_id shm_offset =>
      HandleCheckFramebufferStatus cfg env target shm_id shm_offset d c
  | ActiveTexture texture => no_error d (DoActiveTexture cfg texture c)
  | BindTexture target texture => no_error d (HandleBindTexture cfg env target texture c)
  | BindRenderbuffer target renderbuffer =>
      no_error d (HandleBindRenderbuffer cfg env target renderbuffer c)
  | BindFramebuffer target framebuffer => no_error d (HandleBindFramebuffer cfg env target framebuffer c)
  | TexParameteri target pname param => no_error d (HandleTexParameteri cfg target pname param c)
  | GenerateMipmap target => no_error d (HandleGenerateMipmap cfg target c)
  | PixelStorei pname param => no_error d (HandlePixelStorei cfg pname param c)
  | TexImage2D target level internalformat width height border format type shm_id shm_offset =>
      in_context d (HandleTexImage2D cfg env target level internalformat width height border format type
                      shm_id shm_offset d c)
  | TexImage2DImmediate target level internalformat width height border format type immediate =>
      in_context d (HandleTexImage2DImmediate cfg env target level internalformat width height border
                      format type immediate c)
  | TexSubImage2D target level xoffset yoffset width height format type shm_id shm_offset internal =>
      in_context d (HandleTexSubImage2D cfg target level xoffset yoffset width height format type shm_id
                      shm_offset internal d c)
  | TexSubImage2DImmediate target level xoffset yoffset width height format type internal immediate =>
      in_context d (HandleTexSubImage2DImmediate cfg target level xoffset yoffset width height format type
                      internal immediate c)
  | CompressedTexImage2D target level internalformat width height border image_size shm_id shm_offset =>
      in_context d (HandleCompressedTexImage2D cfg env target level internalformat width height border
                      image_size shm_id shm_offset d c)
  | CompressedTexImage2DImmediate target level internalformat width height border image_size immediate =>
      in_context d (HandleCompressedTexImage2DImmediate cfg env target level internalformat width height
                      border image_size immediate c)
  | CompressedTexImage2DBucket target level internalformat width height border bucket_id =>
      in_context d (HandleCompressedTexImage2DBucket cfg env target level internalformat width height
                      border bucket_id d c)
  | CompressedTexSubImage2D target level xoffset yoffset width height format image_size shm_id shm_offset =>
      in_context d (HandleCompressedTexSubImage2D cfg target level xoffset yoffset width height format
                      image_size shm_id shm_offset d c)
  | CompressedTexSubImage2DBucket target level xoffset yoffset width height format bucket_id =>
      in_context d (HandleCompressedTexSubImage2DBucket cfg target level xoffset yoffset width height format
                      bucket_id d c)
  | CopyTexImage2D target level internalformat x y width height border =>
      no_error d (HandleCopyTexImage2D cfg env target level internalformat x y width height border c)
  | CopyTexSubImage2D target level xoffset yoffset x y width height =>
      no_error d (HandleCopyTexSubImage2D cfg target level xoffset yoffset x y width height c)
  | FramebufferRenderbuffer target attachment renderbuffertarget renderbuffer =>
      no_error d (HandleFramebufferRenderbuffer cfg env target attachment renderbuffertarget renderbuffer c)
  | FramebufferTexture2D target attachment textarget texture level =>
      no_error d (HandleFramebufferTexture2D cfg env target attachment textarget texture level c)
  | RenderbufferStorage target internalformat width height =>
      no_error d (HandleRenderbufferStorage cfg env target internalformat width height c)
  | RenderbufferStorageMultisampleEXT target samples internalformat width height =>
      no_error d (HandleRenderbufferStorageMultisampleEXT cfg env target samples internalformat width
                    height c)
  | BlitFramebufferEXT srcX0 srcY0 srcX1 srcY1 dstX0 dstY0 dstX1 dstY1 mask filter =>
      no_error d (HandleBlitFramebufferEXT cfg srcX0 srcY0 srcX1 srcY1 dstX0 dstY0 dstX1 dstY1 mask filter c)
  | Enable cap => no_error d (HandleEnable cfg cap c)
  | Disable cap => no_error d (HandleDisable cfg cap c)
  | ClearColor red green blue alpha => no_error d (DoClearColor red green blue alpha c)
  | ClearDepthf depth => no_error d (DoClearDepthf depth c)
  | ClearStencil s => no_error d (DoClearStencil s c)
  | ColorMask red green blue alpha => no_error d (DoColorMask red green blue alpha c)
  | DepthMask flag => no_error d (DoDepthMask flag c)
  | StencilMask mask => no_error d (DoStencilMask mask c)
  | StencilMaskSeparate face mask => no_error d (HandleStencilMaskSeparate cfg face mask c)
  | Clear mask => no_error d (DoClear cfg mask c)
  | ReadPixels x y width height format type pixels_shm_id pixels_shm_offset result_shm_id
      result_shm_offset =>
      HandleReadPixels cfg read env x y width height format type pixels_shm_id pixels_shm_offset
        result_shm_id result_shm_offset d c
  end.

End execute.

(** ** The widths of arguments *)

(** What the fields of a command's struct can hold, where a proof needs it, and one thing
    that the code takes for granted: the size of a compressed image is not negative (without
    data, [DoCompressedTexImage2D] would ask for an array of that size). *)
Definition args_ok (command : Command) : Prop :=
  match command with
  | GenTextures _ _ _ shm_offset | GenRenderbuffers _ _ _ shm_offset | GenFramebuffers _ _ _ shm_offset
  | DeleteTextures _ _ shm_offset | DeleteRenderbuffers _ _ shm_offset
  | DeleteFramebuffers _ _ shm_offset | IsTexture _ _ shm_offset | IsRenderbuffer _ _ shm_offset
  | IsFramebuffer _ _ shm_offset | CheckFramebufferStatus _ _ shm_offset
  | TexImage2D _ _ _ _ _ _ _ _ _ shm_offset
  | CompressedTexSubImage2D _ _ _ _ _ _ _ _ _ shm_offset => is_u32 shm_offset
  | TexSubImage2D _ _ _ _ width height _ _ _ shm_offset _ =>
      is_u32 shm_offset /\ is_i32 width /\ is_i32 height
  | TexSubImage2DImmediate _ _ _ _ width height _ _ _ _ | CopyTexSubImage2D _ _ _ _ _ _ width height =>
      is_i32 width /\ is_i32 height
  | CompressedTexImage2D _ _ _ _ _ _ image_size _ shm_offset => is_u32 shm_offset /\ 0 <= image_size
  | ReadPixels x y width height _ _ _ pixels_shm_offset _ result_shm_offset =>
      is_u32 pixels_shm_offset /\ is_u32 result_shm_offset /\ is_i32 x /\ is_i32 y /\ is_i32 width /\
      is_i32 height
  | _ => True
  end.

(** What the driver answers: storage for no renderbuffer is an error. *)
Definition driver_answers (env : Answers) (command : Command) (c : Context) : Prop :=
  match command with
  | RenderbufferStorageMultisampleEXT _ _ _ _ _ => answers_storage env c
  | _ => True
  end.

(** The commands after which the masks may be out of date: the image of the framebuffer that
    is drawn to changes its format, and the state is not marked dirty. *)
Definition keeps_masks (command : Command) (c : Context) : Prop :=
  match command with
  | CompressedTexImage2D target _ _ _ _ _ _ _ _ | CompressedTexImage2DImmediate target _ _ _ _ _ _ _
  | CompressedTexImage2DBucket target _ _ _ _ _ _ => unattached target c
  | RenderbufferStorage _ _ _ _ | RenderbufferStorageMultisampleEXT _ _ _ _ _ => storage_undrawn c
  | _ => True
  end.

(** ** A new context is good *)

Section new_context.
Variables (cfg : Config) (driver : Driver).
Hypothesis features : feature_reach driver (feature_info_ cfg).
Implicit Types c : Context.

Notation ok := (context_ok cfg).

Lemma bind_target_extension t target :
  (Validator.texture_bind_target, target) ∈ values_of t ->
  t = "GL_OES_EGL_image_external"%string /\ target = GL_TEXTURE_EXTERNAL_OES.
Proof.
  unfold values_of. repeat (case_match; [rewrite ?elem_of_cons, ?elem_of_nil; intros Ht;
    try (by intuition discriminate)|]); [|by intros ?%elem_of_nil].
  split; [by apply String.eqb_eq|]. by intuition congruence.
Qed.

Lemma valid_bind_external target :
  valid cfg Validator.texture_bind_target target = true ->
  target ∈ [GL_TEXTURE_2D; GL_TEXTURE_CUBE_MAP] \/
  (target = GL_TEXTURE_EXTERNAL_OES /\ oes_egl_image_external (feature_flags_ (feature_info_ cfg)) = true).
Proof.
  intros Hv%IsValid_true. pose proof (feature_reach_ok _ _ features) as Hok.
  destruct (ok_values _ Hok _ _ Hv) as [Hb|[(t & Hadv & Ht)|[Hd _]]]; [left; exact Hb|right|].
  - apply bind_target_extension in Ht as [-> ->]. split; [done|]. pose proof (ok_flags _ Hok) as Hf.
    unfold flags_of in Hf. rewrite !Forall_cons in Hf. by apply Hf.
  - unfold depth_stencil_values in Hd. rewrite !elem_of_cons, elem_of_nil in Hd. by intuition discriminate.
Qed.

(** The calls that bind textures change nothing that the invariant is about. *)
Definition binding (call : GLCall) : bool :=
  match call with glActiveTexture _ | glBindTexture _ _ => true | _ => false end.

Lemma context_ok_binding c calls : ok c -> Forall (fun call => binding call = true) calls -> ok (emit calls c).
Proof.
  intros Hc Hb. apply context_ok_emit; [done|eapply Forall_impl; [done|]; by intros []|].
  rewrite <- (ctx_clear _ _ Hc), driver_clear_app. generalize (driver_clear (gl_calls c)).
  induction Hb as [|call calls Hcall _ IH]; intros s; [done|]. simpl. by destruct call.
Qed.

(** A texture manager with its default textures. *)
Definition has_defaults (m : TextureManager) : Prop := forall target,
  target ∈ [GL_TEXTURE_2D; GL_TEXTURE_CUBE_MAP] \/
  (target = GL_TEXTURE_EXTERNAL_OES /\ oes_egl_image_external (feature_flags_ (feature_info_ cfg)) = true) ->
  exists a, GetDefaultTextureInfo target m = Some a /\ bound_to (textures m) target a.

Lemma bind_defaults_ok tt m c :
  has_defaults m -> exists unit calls, bind_defaults cfg tt m c = Done (unit, emit calls c) /\
    unit_ok (textures m) unit /\ Forall (fun call => binding call = true) calls.
Proof.
  intros Hm. unfold bind_defaults. destruct (Hm GL_TEXTURE_CUBE_MAP) as (cube & Ec & tc & Hc & Htc); [set_solver|].
  destruct (Hm GL_TEXTURE_2D) as (tex & Et & t & Ht & Htt); [set_solver|]. rewrite Ec, Et.
  cbn [of_option obind]. rewrite Hc, Ht. cbn [of_option obind].
  destruct (oes_egl_image_external _) eqn:Eext.
  - destruct (Hm GL_TEXTURE_EXTERNAL_OES) as (ext & Ee & te & He & Hte); [by right|]. rewrite Ee.
    cbn [of_option obind]. rewrite He. cbn [of_option obind].
    eexists _, [_; _; _; _]. split; [rewrite <- gl_each_emit; reflexivity|]. split; [|by repeat constructor].
    split_and!; intros ? [= <-]; by eexists.
  - cbn [of_option obind]. eexists _, [_; _; _]. split; [rewrite <- gl_each_emit; reflexivity|].
    split; [|by repeat constructor]. split_and!; [intros ? [= <-]; by eexists..|done].
Qed.

Lemma bind_units_ok n tt m c :
  has_defaults m -> exists units calls, bind_units cfg n tt m c = Done (units, emit calls c) /\
    zlen units = Z.of_nat n /\ (forall unit, unit ∈ units -> unit_ok (textures m) unit) /\
    Forall (fun call => binding call = true) calls.
Proof.
  intros Hm. revert tt c. induction n as [|n IH]; intros tt c; cbn [bind_units].
  { exists [], []. split; [by destruct c; unfold emit; simpl; rewrite app_nil_r|].
    split; [done|]. split; [by intros ? ?%elem_of_nil|done]. }
  destruct (bind_defaults_ok tt m c Hm) as (unit & calls & -> & Hu & Hb). cbn [obind].
  destruct (IH (tt + 1) (emit calls c)) as (units & calls' & -> & Hl & Hus & Hb'). cbn [obind].
  exists (unit :: units), (calls ++ calls'). rewrite emit_app. split; [done|]. split; [unfold zlen in *; simpl; lia|].
  split; [intros u [->|Hin]%elem_of_cons; auto|by apply Forall_app].
Qed.

(** The groups that [ContextGroup::Initialize] makes. *)
Definition new_group (g : Group) : Prop :=
  exists max_texture_size max_cube_map_texture_size max_renderbuffer_size names external_names m ids,
    1 <= max_texture_size < 2 ^ 31 /\ 1 <= max_cube_map_texture_size < 2 ^ 31 /\
    TextureManager.Initialize (feature_info_ cfg) names external_names
      (TextureManager_new max_texture_size max_cube_map_texture_size) = Done m /\
    g = Group_new max_renderbuffer_size m ids.

Lemma Initialize_units_ok g :
  new_group g -> 0 < max_texture_units cfg ->
  exists c, Initialize_units cfg g = Done c /\ ok c /\ masks_current cfg c.
Proof.
  intros (mts & mcs & mrs & names & ext & m & ids & Hs & Hcs & Em & ->) Hn.
  destruct (textures_Initialize_ok (feature_info_ cfg) mts mcs names ext Hs Hcs) as (m' & Em' & Htex & Hinfos & Hdef & Hall).
  rewrite Em in Em'. injection Em' as <-.
  assert (has_defaults m) as Hd.
  { intros target Ht. destruct (Hdef target Ht) as (a & t & Ea & Hat & Htt). exists a. split; [done|]. by exists t. }
  unfold Initialize_units.
  destruct (bind_units_ok (Z.to_nat (max_texture_units cfg)) 0 m (Context_new (Group_new mrs m ids)) Hd)
    as (units & calls & Eu & Hl & Hunits & Hb).
  change (texture_manager (Group_new mrs m ids)) with m. rewrite Eu. cbn [obind]. eexists. split; [done|].
  set (c0 := with_bindings (mkBindings units 0 None None None) (Context_new (Group_new mrs m ids))).
  assert (ok c0) as Hc0.
  { split; simpl; try done; try (by intros *; rewrite lookup_empty).
    - intros a t Ha. destruct (Hall a t Ha) as (Ht & Hlv & Hcount). split; [lia|]. by right.
    - intros target Ht%valid_bind_external. by apply Hd.
    - lia.
    - set_solver.
    - set_solver. }
  split; [|done].
  apply (context_ok_binding c0 (calls ++ [glActiveTexture GL_TEXTURE0]) Hc0).
  apply Forall_app. split; [done|by repeat constructor].
Qed.

End new_context.

(** ** Every command keeps the invariant *)

Section safety.
Context `{Platform} {E : Type} `{CommandBufferEngine E} (engine_ok : E -> Prop) (engine_entries : E -> Z).
Variables (cfg : Config) (driver : Driver).
Hypothesis features : feature_reach driver (feature_info_ cfg).
Variable read : Z -> Z -> Z -> Z -> Z -> Z -> Z -> list Z.
Variable pixel : Z -> Z -> Z -> Z -> list Z.
Hypothesis laws : reads_pixels read pixel.
Implicit Types (c : Context) (d : Decoder E).

Notation ok := (context_ok cfg).
Notation decoder_ok := (decoder_ok engine_ok engine_entries).
Notation execute := (execute cfg read).

Definition executed (P : Prop) d c (m : outcome (Error * (Decoder E * Context))) : Prop :=
  exists e d' c', m = Done (e, (d', c')) /\ decoder_ok d' /\ ok c' /\
    (P -> masks_current cfg c -> masks_current cfg c').

Lemma executed_context P d c m :
  decoder_ok d -> answers_if cfg P c m -> executed P d c (in_context d m).
Proof. intros Hd (e & c' & -> & Hc' & Hm). by exists e, d, c'. Qed.

Lemma executed_answers d c m : decoder_ok d -> answers cfg c m -> executed True d c (in_context d m).
Proof. intros Hd Hm. apply executed_context; [done|]. by apply answers_weaken. Qed.

Lemma executed_if P d c m : decoder_ok d -> good_if cfg P c m -> executed P d c (no_error d m).
Proof. intros Hd (c' & -> & Hc' & Hm). by exists kNoError, d, c'. Qed.

Lemma executed_good d c m : decoder_ok d -> good cfg c m -> executed True d c (no_error d m).
Proof. intros Hd Hm. apply executed_if; [done|]. by apply good_weaken. Qed.

Lemma executed_asked d c m :
  asked engine_ok engine_entries cfg d c m -> executed True d c m.
Proof. intros (e & d' & c' & -> & Hd & Hc & Hm). exists e, d', c'. auto. Qed.

Lemma execute_gen helper ids d c :
  ok c -> decoder_ok d -> (exists r, ids = Done r) -> (forall ids, answers cfg c (helper ids c)) ->
  executed True d c (in_context d (gen_names helper ids c)).
Proof. intros. by apply executed_answers, gen_names_answers. Qed.

Lemma execute_delete helper ids d c :
  ok c -> decoder_ok d -> (exists r, ids = Done r) -> (forall ids, good cfg c (helper ids c)) ->
  executed True d c (in_context d (delete_names helper ids c)).
Proof. intros. by apply executed_answers, delete_names_answers. Qed.

Lemma execute_read env x y width height format type pixels_shm_id pixels_shm_offset result_shm_id
    result_shm_offset d c :
  ok c -> decoder_ok d -> is_u32 pixels_shm_offset -> is_u32 result_shm_offset ->
  is_i32 x -> is_i32 y -> is_i32 width -> is_i32 height ->
  executed True d c (HandleReadPixels cfg read env x y width height format type pixels_shm_id
    pixels_shm_offset result_shm_id result_shm_offset d c).
Proof.
  intros Hc Hd Hpo Hro Hx Hy Hw Hh.
  destruct (HandleReadPixels_good engine_ok engine_entries cfg read pixel laws env x y width height format type
    pixels_shm_id pixels_shm_offset result_shm_id result_shm_offset d c)
    as (e & d' & c' & -> & Hd' & [Hc' Hm]); [done..|]. exists e, d', c'. auto.
Qed.

Lemma executed_True P d c m : executed True d c m -> executed P d c m.
Proof. intros (e & d' & c' & -> & ? & ? & Hm). exists e, d', c'. auto. Qed.

Create HintDb handlers.
#[local] Hint Resolve ids_in_command_ok ids_in_memory_ok executed_True executed_answers executed_good
  executed_asked executed_context executed_if execute_read execute_gen execute_delete : handlers.
#[local] Hint Resolve GenTexturesHelper_answers GenRenderbuffersHelper_answers
  GenFramebuffersHelper_answers DeleteTexturesHelper_good DeleteRenderbuffersHelper_good
  DeleteFramebuffersHelper_good HandleIsTexture_ok HandleIsRenderbuffer_ok HandleIsFramebuffer_ok
  HandleCheckFramebufferStatus_ok DoActiveTexture_good HandleBindTexture_good
  HandleBindRenderbuffer_good HandleBindFramebuffer_good HandleTexParameteri_good
  HandleGenerateMipmap_good HandlePixelStorei_good HandleTexImage2D_answers
  HandleTexImage2DImmediate_answers HandleTexSubImage2D_answers HandleTexSubImage2DImmediate_answers
  HandleCompressedTexImage2D_answers HandleCompressedTexImage2DImmediate_answers
  HandleCompressedTexImage2DBucket_answers HandleCompressedTexSubImage2D_answers
  HandleCompressedTexSubImage2DBucket_answers HandleCopyTexImage2D_good HandleCopyTexSubImage2D_good
  HandleFramebufferRenderbuffer_good HandleFramebufferTexture2D_good HandleRenderbufferStorage_good
  HandleRenderbufferStorageMultisampleEXT_good HandleBlitFramebufferEXT_good HandleEnable_good
  HandleDisable_good DoClearColor_good DoClearDepthf_good DoClearStencil_good DoColorMask_good
  DoDepthMask_good DoStencilMask_good HandleStencilMaskSeparate_good DoClear_good : handlers.

Lemma execute_ok env command d c :
  ok c -> decoder_ok d -> args_ok command -> driver_answers env command c ->
  executed (keeps_masks command c) d c (execute env command d c).
Proof.
  intros Hc Hd Ha Hdr. destruct command; cbn [args_ok driver_answers ContextCommands.execute keeps_masks] in Ha, Hdr |- *;
    repeat match goal with Hand : _ /\ _ |- _ => destruct Hand end; eauto 8 with handlers.
Qed.

(** ** Every sequence of commands *)

(** The states of a context whose commands all satisfy [P]. *)
Inductive reach (P : Command -> Context -> Prop) : Context -> Prop :=
| reach_new g c : new_group cfg g -> Initialize_units cfg g = Done c -> reach P c
| reach_execute env command d e d' c c' :
    reach P c -> decoder_ok d -> args_ok command -> driver_answers env command c -> P command c ->
    execute env command d c = Done (e, (d', c')) -> reach P c'.

Lemma reach_ok P c : 0 < max_texture_units cfg -> reach P c -> ok c.
Proof.
  intros Hn Hr. induction Hr as [g c Hg E0|env command d e d' c c' Hr IH Hd Ha Hdr _ E1].
  - destruct (Initialize_units_ok cfg driver features g Hg Hn) as (c' & E1 & Hc & _). rewrite E0 in E1. by injection E1 as ->.
  - destruct (execute_ok env command d c IH Hd Ha Hdr) as (e1 & d1 & c1 & E2 & _ & Hc1 & _).
    rewrite E1 in E2. by injection E2 as _ _ <-.
Qed.

Lemma reach_masks c : 0 < max_texture_units cfg -> reach keeps_masks c -> masks_current cfg c.
Proof.
  intros Hn Hr. induction Hr as [g c Hg E0|env command d e d' c c' Hr IH Hd Ha Hdr Hp E1].
  - destruct (Initialize_units_ok cfg driver features g Hg Hn) as (c' & E1 & _ & Hm). rewrite E0 in E1. by injection E1 as ->.
  - destruct (execute_ok env command d c (reach_ok _ _ Hn Hr) Hd Ha Hdr) as (e1 & d1 & c1 & E2 & _ & _ & Hm1).
    rewrite E1 in E2. injection E2 as _ _ <-. auto.
Qed.

(** Every sequence of commands is safe.  Whatever commands a context has executed, with
    any arguments of their widths (save a negative size of a compressed image) and any
    answers of the driver, the next one ends without an access out of bounds; every upload that reached the driver came with as many bytes as the driver
    reads under the alignment it was told of, and the driver has the clear values and the
    scissor test that the client set. *)
Theorem context_safe P c env command d :
  0 < max_texture_units cfg -> reach P c -> decoder_ok d -> args_ok command ->
  driver_answers env command c ->
  exists e d' c', execute env command d c = Done (e, (d', c')) /\ decoder_ok d' /\
    uploads_ok 4 (gl_calls c') /\ driver_unpack (gl_calls c') = unpack_alignment_ c' /\
    driver_pack (gl_calls c') = pack_alignment_ c' /\
    driver_clear (gl_calls c') = wanted_clear (saved c').
Proof.
  intros Hn Hr%reach_ok Hd Ha Hdr; [|done].
  destruct (execute_ok env command d c Hr Hd Ha Hdr) as (e & d' & c' & -> & Hd' & Hc' & _).
  exists e, d', c'. split; [done|]. split; [done|]. split_and!; apply Hc'.
Qed.

(** C11: The driver always draws with the right masks.  As long as no command changed the
    format of the image that is drawn to behind the context's back, a clear reaches the
    driver with exactly the masks and tests that the context asks for given what is
    attached, and with the client's clear values and scissor test, or it is refused
    because the framebuffer is not complete. *)
Theorem clears_with_current_masks c mask :
  0 < max_texture_units cfg -> reach keeps_masks c ->
  exists c', DoClear cfg mask c = Done c' /\
    ((gl_calls c' = gl_calls c /\ gl_errors c' = gl_errors c ++ [GL_INVALID_FRAMEBUFFER_OPERATION]) \/
     exists calls, gl_calls c' = (gl_calls c ++ calls) ++ [glClear mask] /\
       wanted_masks cfg c = Done (driver_masks (gl_calls c ++ calls)) /\
       driver_clear (gl_calls c ++ calls) = wanted_clear (saved c)).
Proof.
  intros Hn Hr. pose proof (reach_ok _ _ Hn Hr) as Hc. pose proof (reach_masks _ Hn Hr) as Hm.
  destruct (DoClear_masks cfg c mask Hc Hm) as (c' & -> & _ & _ & Hd). by exists c'.
Qed.

End safety.
