(* ===== verification/Names.v ===== *)
(** * Names

    The operations of [std::string] that the code uses on the names of shader variables: a
    string is its bytes.  [IntToString] is [base/string_number_conversions.cc]. *)

From Stdlib Require Import ZArith Lia ZifyBool Bool Ascii String.
From stdpp Require Import base numbers option list.
From S2P Require Import Prelude.
Local Open Scope Z_scope.

Definition i8 (x : Z) : Z := (x + 2 ^ 7) mod 2 ^ 8 - 2 ^ 7.

(** The bytes of a literal. *)
Fixpoint chars (s : string) : list Z :=
  match s with
  | EmptyString => []
  | String c s => Z.of_nat (nat_of_ascii c) :: chars s
  end.

(** A string made from [c_str()]: it ends at the first zero. *)
Fixpoint c_str (s : list Z) : list Z :=
  match s with
  | [] => []
  | c :: s => if c =? 0 then [] else c :: c_str s
  end.

(** [s.compare(0, n, t, 0, n) == 0] for a prefix [t] of [n] bytes. *)
Fixpoint is_prefix (t s : list Z) : bool :=
  match t, s with
  | [], _ => true
  | c :: t, c' :: s => (c =? c') && is_prefix t s
  | _ :: _, [] => false
  end.

(** [s.rfind(t)]: the last place where [t] begins; [None] is [npos]. *)
Fixpoint rfind (t s : list Z) : option Z :=
  match s with
  | [] => if is_prefix t [] then Some 0 else None
  | _ :: r =>
      match rfind t r with
      | Some i => Some (i + 1)
      | None => if is_prefix t s then Some 0 else None
      end
  end.

(** [s.find_last_of(c)] *)
Fixpoint find_last_of (c : Z) (s : list Z) : option Z :=
  match s with
  | [] => None
  | c' :: r =>
      match find_last_of c r with
      | Some i => Some (i + 1)
      | None => if c' =? c then Some 0 else None
      end
  end.

(** ['['], [']'] and [kArraySpec] *)
Definition open_bracket : Z := 91.
Definition close_bracket : Z := 93.
Definition kArraySpec : list Z := chars "[0]".

(** The loop of [IntToString], from the last digit to the first. *)
Fixpoint to_digits (fuel : nat) (res : Z) (acc : list Z) : list Z :=
  let acc := (res mod 10 + 48) :: acc in
  let res := res / 10 in
  if res =? 0 then acc
  else match fuel with
       | O => acc
       | S fuel => to_digits fuel res acc
       end.

(** The buffer has 13 places. *)
Definition IntToString (value : Z) : list Z :=
  let digits := to_digits 12 (u32 (if value <? 0 then - value else value)) [] in
  if value <? 0 then 45 :: digits else digits.

(** The digits between the brackets of an element's name; [None] when one is no digit. *)
Fixpoint parse_index (digits : list Z) (index : Z) : option Z :=
  match digits with
  | [] => Some index
  | c :: digits =>
      let digit := i8 (c - 48) in
      if (digit <? 0) || (digit >? 9) then None
      else parse_index digits (i32 (index * 10 + digit))
  end.

(** The name of an element of an array. *)
Definition element_name (base_name : list Z) (ii : Z) : list Z :=
  base_name ++ [open_bracket] ++ IntToString ii ++ [close_bracket].

(** ** Lemmas *)

Lemma c_str_clean s : Forall (fun c => c <> 0) s -> c_str s = s.
Proof.
  induction 1 as [|c s Hc _ IH]; simpl; [done|]. bfalse (c =? 0). by rewrite IH.
Qed.

Lemma c_str_no_zero s : Forall (fun c => c <> 0) (c_str s).
Proof.
  induction s as [|c s IH]; simpl; [constructor|]. destruct (c =? 0) eqn:E1; [constructor|]. zbool. by constructor.
Qed.

Lemma is_prefix_spec t s : is_prefix t s = true <-> exists r, s = t ++ r.
Proof.
  revert s. induction t as [|c t IH]; intros s; simpl; [split; [by exists s|done]|].
  destruct s as [|c' s]; [split; [done|by intros [r ?]]|]. rewrite andb_true_iff, Z.eqb_eq, IH. split.
  - intros [-> [r ->]]. by exists r.
  - intros [r [= -> ->]]. split; [done|]. by exists r.
Qed.

Lemma is_prefix_app t s : is_prefix t (t ++ s) = true.
Proof. apply is_prefix_spec. by exists s. Qed.

Lemma rfind_range t s i : rfind t s = Some i -> 0 <= i /\ i + zlen t <= zlen s.
Proof.
  revert i. induction s as [|c s IH]; intros i.
  - simpl. destruct t; [|done]. intros [= <-]. done.
  - cbn [rfind]. destruct (rfind t s) as [j|] eqn:E1.
    + intros [= <-]. specialize (IH j eq_refl). rewrite zlen_cons. lia.
    + destruct (is_prefix t (c :: s)) eqn:E2; [|done]. intros [= <-].
      apply is_prefix_spec in E2 as [r E2]. rewrite E2, zlen_app. pose proof (zlen_nonneg r). lia.
Qed.

Lemma rfind_app t s : t <> [] -> rfind t (s ++ t) = Some (zlen s).
Proof.
  intros Ht. induction s as [|c s IH].
  - simpl. destruct t as [|c t]; [done|]. cbn [rfind]. destruct (rfind (c :: t) t) as [i|] eqn:E1.
    + apply rfind_range in E1. rewrite zlen_cons in E1. lia.
    + assert (is_prefix (c :: t) (c :: t) = true) as -> by (apply is_prefix_spec; exists []; by rewrite app_nil_r). done.
  - simpl. rewrite IH, zlen_cons. f_equal. lia.
Qed.

(** The test by which the code sees that a name ends with [kArraySpec]. *)
Lemma rfind_suffix t s : t <> [] -> rfind t s = Some (zlen s - zlen t) <-> exists b, s = b ++ t.
Proof.
  intros Ht. split.
  - revert t Ht. induction s as [|c s IH]; intros t Ht.
    + intros H. apply rfind_range in H. destruct t; [done|]. rewrite zlen_cons in H. pose proof (zlen_nonneg t).
      change (zlen (@nil Z)) with 0 in H. lia.
    + cbn [rfind]. destruct (rfind t s) as [i|] eqn:E1.
      * intros [= E2]. rewrite zlen_cons in E2. destruct (IH t Ht) as [b ->]; [rewrite E1; f_equal; lia|].
        by exists (c :: b).
      * destruct (is_prefix t (c :: s)) eqn:E2; [|done]. intros [= E3]. apply is_prefix_spec in E2 as [r E2].
        rewrite E2, zlen_app in E3. assert (r = []) as -> by (destruct r; [done|rewrite zlen_cons in E3; pose proof (zlen_nonneg r); lia]).
        exists []. by rewrite E2, app_nil_r.
  - intros [b ->]. rewrite rfind_app by done. f_equal. rewrite zlen_app. lia.
Qed.

Lemma find_last_of_None c s : c ∉ s -> find_last_of c s = None.
Proof.
  induction s as [|c' s IH]; [done|]. intros [Hc Hs]%not_elem_of_cons. simpl. rewrite IH by done. by bfalse (c' =? c).
Qed.

Lemma find_last_of_app c s1 s2 : c ∉ s2 -> find_last_of c (s1 ++ c :: s2) = Some (zlen s1).
Proof.
  intros Hs. induction s1 as [|c' s1 IH]; simpl.
  - by rewrite find_last_of_None, Z.eqb_refl by done.
  - rewrite IH, zlen_cons. f_equal. lia.
Qed.

Lemma to_digits_acc fuel res acc : to_digits fuel res acc = to_digits fuel res [] ++ acc.
Proof.
  revert res acc. induction fuel as [|fuel IH]; intros res acc; cbn [to_digits].
  - by case_match.
  - case_match; [done|]. rewrite IH, (IH _ [_]), <- app_assoc. done.
Qed.

Lemma parse_index_app l1 l2 i : parse_index (l1 ++ l2) i = j ← parse_index l1 i; parse_index l2 j.
Proof. revert i. induction l1 as [|c l1 IH]; intros i; cbn [app parse_index]; [done|]. case_match; [done|]. apply IH. Qed.

Lemma parse_digit d i : 0 <= d < 10 -> parse_index [d + 48] i = Some (i32 (i * 10 + d)).
Proof.
  intros Hd. cbn [parse_index]. replace (d + 48 - 48) with d by lia. unfold i8. rewrite Z.mod_small by lia.
  bfalse (d + 2 ^ 7 - 2 ^ 7 <? 0). bfalse (d + 2 ^ 7 - 2 ^ 7 >? 9). cbn [orb]. do 3 f_equal. lia.
Qed.

Lemma parse_to_digits fuel res :
  0 <= res < 2 ^ 31 -> res < 10 ^ (Z.of_nat fuel + 1) -> parse_index (to_digits fuel res []) 0 = Some res.
Proof.
  revert res. induction fuel as [|fuel IH]; intros res Hr Hf; cbn [to_digits].
  - replace (res / 10) with 0 by (symmetry; apply Z.div_small; lia). rewrite Z.eqb_refl.
    rewrite Z.mod_small by lia. rewrite parse_digit by lia. f_equal. rewrite i32_id; unfold is_i32; lia.
  - pose proof (Z.div_mod res 10 ltac:(lia)) as Hdm. pose proof (Z.mod_pos_bound res 10 ltac:(lia)) as Hm.
    destruct (res / 10 =? 0) eqn:E1; zbool.
    + rewrite parse_digit by lia. f_equal. rewrite i32_id; unfold is_i32; lia.
    + rewrite to_digits_acc, parse_index_app, IH.
      * cbn [mbind option_bind]. rewrite parse_digit by lia. f_equal. rewrite i32_id; unfold is_i32; lia.
      * lia.
      * replace (Z.of_nat (S fuel) + 1) with (Z.succ (Z.of_nat fuel + 1)) in Hf by lia.
        rewrite Z.pow_succ_r in Hf by lia. lia.
Qed.

(** Numbers are read back. *)
Lemma parse_IntToString n : 0 <= n < 2 ^ 31 -> parse_index (IntToString n) 0 = Some n.
Proof.
  intros Hn. unfold IntToString. bfalse (n <? 0). rewrite u32_id by (unfold is_u32; lia).
  apply parse_to_digits; [done|]. change (10 ^ (Z.of_nat 12 + 1)) with 10000000000000. lia.
Qed.

Definition is_digit (c : Z) : Prop := 48 <= c < 58.

Lemma to_digits_digits fuel res acc : Forall is_digit acc -> Forall is_digit (to_digits fuel res acc).
Proof.
  revert res acc. induction fuel as [|fuel IH]; intros res acc Hacc; cbn [to_digits];
    pose proof (Z.mod_pos_bound res 10 ltac:(lia)); assert (is_digit (res mod 10 + 48)) by (unfold is_digit; lia).
  - by case_match; constructor.
  - case_match; [by constructor|]. apply IH. by constructor.
Qed.

Lemma IntToString_digits n : 0 <= n -> Forall is_digit (IntToString n).
Proof. intros Hn. unfold IntToString. bfalse (n <? 0). apply to_digits_digits. constructor. Qed.

Lemma to_digits_cons fuel res acc : exists c l, to_digits fuel res acc = c :: l.
Proof.
  revert res acc. induction fuel as [|fuel IH]; intros res acc; cbn [to_digits]; case_match; eauto.
Qed.

Lemma IntToString_length n : 0 <= n -> 1 <= zlen (IntToString n).
Proof.
  intros Hn. unfold IntToString. bfalse (n <? 0). destruct (to_digits_cons 12 (u32 n) []) as (c & l & ->).
  rewrite zlen_cons. pose proof (zlen_nonneg l). lia.
Qed.
