(* ===== verification/Uniforms.v ===== *)
(** * Attributes and uniforms of a program

    What [ProgramManager::ProgramInfo] of the service and
    [CachedProgramInfoManager::ProgramInfo] of the client both know of the inputs of a
    program, and their lookup by name, which the source has twice
    ([service/program_manager.cc], [client/program_info_manager.cc]). *)

From Stdlib Require Import ZArith Lia ZifyBool Bool String.
From stdpp Require Import base numbers option list.
From S2P Require Import Prelude Names.
Local Open Scope Z_scope.

Record VertexAttribInfo := mkVertexAttribInfo {
  a_size : Z;
  a_type : Z;
  a_location : Z;
  a_name : list Z;
}.

Record UniformInfo := mkUniformInfo {
  u_size : Z;
  u_type : Z;
  u_is_array : bool;
  u_name : list Z;
  element_locations : list Z;
}.

Fixpoint GetAttribLocation (name : list Z) (attrib_infos : list VertexAttribInfo) : Z :=
  match attrib_infos with
  | [] => -1
  | info :: infos =>
      if bool_decide (a_name info = name) then a_location info else GetAttribLocation name infos
  end.

(** The name without its last three bytes ([size() - 3] is past the end of a shorter name,
    which [compare] then takes whole). *)
Definition base_of (name : list Z) : list Z :=
  if zlen name <? 3 then name else take (Z.to_nat (zlen name - 3)) name.

(** The element of an array that a name with an index means. *)
Definition indexed_element (name : list Z) (info : UniformInfo) : option Z :=
  if u_is_array info && (zlen name >=? 3) && bool_decide (last name = Some close_bracket) then
    match find_last_of open_bracket name with
    | Some open_pos =>
        if (open_pos <? zlen name - 2) && (zlen (u_name info) >? open_pos) &&
           is_prefix (take (Z.to_nat open_pos) name) (u_name info)
        then
          match parse_index (take (Z.to_nat (zlen name - 1 - (open_pos + 1)))
                               (drop (Z.to_nat (open_pos + 1)) name)) 0 with
          | Some index => if (index >=? 0) && (index <? u_size info) then Some index else None
          | None => None
          end
        else None
    | None => None
    end
  else None.

(** The element that a name means in one uniform. *)
Definition element_of (name : list Z) (info : UniformInfo) : option Z :=
  if bool_decide (u_name info = name) || (u_is_array info && bool_decide (base_of (u_name info) = name))
  then Some 0 else indexed_element name info.

Fixpoint GetUniformLocation (name : list Z) (uniform_infos : list UniformInfo) : outcome Z :=
  match uniform_infos with
  | [] => Done (-1)
  | info :: infos =>
      match element_of name info with
      | Some index => of_option (zget (element_locations info) index)
      | None => GetUniformLocation name infos
      end
  end.

(** ** What a lookup finds *)

(** Every element of a uniform has a location, and there is at least one. *)
Definition uniform_ok (info : UniformInfo) : Prop :=
  1 <= u_size info /\ zlen (element_locations info) = u_size info.

Lemma indexed_element_range name info k : indexed_element name info = Some k -> 0 <= k < u_size info.
Proof. unfold indexed_element. repeat case_match; try done. intros [= <-]. zbool. lia. Qed.

Lemma element_of_range name info k : uniform_ok info -> element_of name info = Some k -> 0 <= k < u_size info.
Proof.
  intros [Hs _]. unfold element_of. case_match; [|apply indexed_element_range]. intros [= <-]. lia.
Qed.

(** The lookup never leaves the arrays. *)
Lemma GetUniformLocation_done name infos :
  Forall uniform_ok infos -> exists l, GetUniformLocation name infos = Done l.
Proof.
  induction 1 as [|info infos Hi _ IH]; cbn [GetUniformLocation]; [by eexists|].
  destruct (element_of name info) as [k|] eqn:E1; [|done].
  destruct (zget_in (element_locations info) k) as [l ->]; [|by exists l].
  destruct Hi as [? Hl]. rewrite Hl. eapply element_of_range; [by split|done].
Qed.

Lemma GetUniformLocation_skip name infos1 infos2 :
  Forall (fun info => element_of name info = None) infos1 ->
  GetUniformLocation name (infos1 ++ infos2) = GetUniformLocation name infos2.
Proof. induction 1 as [|info infos Hi _ IH]; [done|]. cbn [app GetUniformLocation]. by rewrite Hi. Qed.

(** An array with the name [b ++ kArraySpec]. *)
Definition array_named (b : list Z) (info : UniformInfo) : Prop :=
  u_is_array info = true /\ u_name info = b ++ kArraySpec.

Lemma base_of_array b : base_of (b ++ kArraySpec) = b.
Proof.
  unfold base_of. rewrite zlen_app. change (zlen kArraySpec) with 3. pose proof (zlen_nonneg b).
  bfalse (zlen b + 3 <? 3). replace (Z.to_nat (zlen b + 3 - 3)) with (length b) by (unfold zlen; lia).
  by rewrite take_app_length.
Qed.

Lemma not_elem_of_digits (c : Z) l : Forall is_digit l -> ~ is_digit c -> c ∉ l.
Proof. intros Hl Hc Hin. rewrite Forall_forall in Hl. by apply Hc, Hl. Qed.

Lemma find_open_element b k : 0 <= k -> find_last_of open_bracket (element_name b k) = Some (zlen b).
Proof.
  intros Hk. unfold element_name. cbn [app]. apply find_last_of_app. rewrite elem_of_app. intros [Hin|Hin].
  - revert Hin. apply not_elem_of_digits; [by apply IntToString_digits|]. unfold is_digit, open_bracket. lia.
  - by apply list_elem_of_singleton in Hin.
Qed.

(** The test on an element's name, with the part of the name that is compared. *)
Lemma indexed_element_name b k info :
  0 <= k < 2 ^ 31 -> u_is_array info = true ->
  indexed_element (element_name b k) info =
  if (zlen (u_name info) >? zlen b) && is_prefix b (u_name info) && (k <? u_size info) then Some k else None.
Proof.
  intros Hk Ha. unfold indexed_element. rewrite Ha, find_open_element by lia.
  pose proof (IntToString_length k ltac:(lia)) as Hd. pose proof (zlen_nonneg b) as Hb.
  assert (zlen (element_name b k) = zlen b + zlen (IntToString k) + 2) as Hl.
  { unfold element_name. rewrite !zlen_app. change (zlen [open_bracket]) with 1. change (zlen [close_bracket]) with 1. lia. }
  rewrite Hl. btrue (zlen b + zlen (IntToString k) + 2 >=? 3).
  assert (last (element_name b k) = Some close_bracket) as ->.
  { unfold element_name. rewrite !app_assoc. apply last_snoc. }
  btrue (zlen b <? zlen b + zlen (IntToString k) + 2 - 2).
  rewrite bool_decide_true by done. cbn [andb].
  assert (take (Z.to_nat (zlen b)) (element_name b k) = b) as ->.
  { unfold element_name, zlen. rewrite Nat2Z.id. by rewrite take_app_length. }
  assert (take (Z.to_nat (zlen b + zlen (IntToString k) + 2 - 1 - (zlen b + 1)))
            (drop (Z.to_nat (zlen b + 1)) (element_name b k)) = IntToString k) as ->.
  { unfold element_name. rewrite (app_assoc b).
    replace (Z.to_nat (zlen b + 1)) with (length (b ++ [open_bracket])) by (rewrite length_app; unfold zlen; simpl; lia).
    rewrite drop_app_length.
    replace (Z.to_nat (zlen b + zlen (IntToString k) + 2 - 1 - (zlen b + 1))) with (length (IntToString k))
      by (unfold zlen; lia).
    by rewrite take_app_length. }
  rewrite parse_IntToString by done. btrue (k >=? 0). cbn [andb].
  destruct ((zlen (u_name info) >? zlen b) && is_prefix b (u_name info)); by destruct (k <? u_size info).
Qed.

Lemma element_of_array b k info :
  array_named b info -> 0 <= k < 2 ^ 31 -> k < u_size info -> element_of (element_name b k) info = Some k.
Proof.
  intros [Ha Hn] Hk Hs. unfold element_of. rewrite Hn, Ha, base_of_array, indexed_element_name by done.
  rewrite Hn, is_prefix_app, zlen_app. change (zlen kArraySpec) with 3.
  btrue (zlen b + 3 >? zlen b). btrue (k <? u_size info). cbn [andb]. case_match eqn:E1; [|done].
  apply orb_prop in E1 as [E1%bool_decide_eq_true|E1%bool_decide_eq_true].
  - change kArraySpec with ([open_bracket] ++ [48] ++ [close_bracket]) in E1. unfold element_name in E1.
    apply app_inv_head, app_inv_head, app_inv_tail in E1.
    pose proof (parse_IntToString k Hk) as Hp. rewrite <- E1 in Hp. vm_compute in Hp. congruence.
  - apply (f_equal zlen) in E1. unfold element_name in E1. rewrite !zlen_app in E1.
    change (zlen [open_bracket]) with 1 in E1. pose proof (zlen_nonneg (IntToString k)).
    pose proof (zlen_nonneg [close_bracket]). lia.
Qed.

Lemma base_of_prefix name : is_prefix (base_of name) name = true.
Proof.
  unfold base_of. case_match; [apply is_prefix_spec; exists []; by rewrite app_nil_r|].
  apply is_prefix_spec. exists (drop (Z.to_nat (zlen name - 3)) name). by rewrite take_drop.
Qed.

Lemma is_prefix_trans a b c : is_prefix a b = true -> is_prefix b c = true -> is_prefix a c = true.
Proof. rewrite !is_prefix_spec. intros [r ->] [r' ->]. exists (r ++ r'). by rewrite app_assoc. Qed.

(** A uniform whose name does not begin with [b] is not found by the elements of [b]. *)
Lemma element_of_apart b k info :
  is_prefix b (u_name info) = false -> 0 <= k < 2 ^ 31 -> element_of (element_name b k) info = None.
Proof.
  intros Hp Hk. assert (is_prefix b (element_name b k) = true) as Hb by apply is_prefix_app.
  unfold element_of. rewrite (bool_decide_false (u_name info = _)) by (intros E1; rewrite E1 in Hp; congruence).
  destruct (u_is_array info) eqn:Ha; cbn [orb andb].
  - rewrite bool_decide_false.
    + rewrite indexed_element_name by done. by rewrite Hp, andb_false_r.
    + intros E1. rewrite <- E1 in Hb. rewrite (is_prefix_trans _ _ _ Hb (base_of_prefix _)) in Hp. done.
  - unfold indexed_element. by rewrite Ha.
Qed.

(** An element of an array is found by its name when no uniform before it has a name that
    begins like the array's. *)
Theorem uniform_element_found infos1 info infos2 b k :
  Forall (fun i => is_prefix b (u_name i) = false) infos1 -> array_named b info -> uniform_ok info ->
  0 <= k < u_size info -> u_size info <= 2 ^ 31 ->
  exists l, zget (element_locations info) k = Some l /\
    GetUniformLocation (element_name b k) (infos1 ++ info :: infos2) = Done l.
Proof.
  intros Hpre Harr [Hs Hl] Hk Hmax. rewrite GetUniformLocation_skip.
  - cbn [GetUniformLocation]. rewrite element_of_array by (done || lia).
    destruct (zget_in (element_locations info) k) as [l El]; [lia|]. exists l. by rewrite El.
  - eapply Forall_impl; [exact Hpre|]. intros i Hi. cbv beta in Hi. apply element_of_apart; [done|lia].
Qed.

(** With such a uniform before it, the wrong one is found: only the bytes before the bracket
    are compared. *)
Theorem uniform_prefix_confused :
  let foobar := mkUniformInfo 3 0 true (chars "foobar[0]") [10; 11; 12] in
  let foo := mkUniformInfo 3 0 true (chars "foo[0]") [20; 21; 22] in
  GetUniformLocation (chars "foo[1]") [foobar; foo] = Done 11 /\
  GetUniformLocation (chars "foo[1]") [foo; foobar] = Done 21.
Proof. split; vm_compute; reflexivity. Qed.
