(* ===== verification/ShaderManager.v ===== *)
(** * Shaders

    [gpu/command_buffer/service/shader_manager.{h,cc}]: the source of each shader, the
    outcome of its compilation, and how many programs it is attached to. *)

From Stdlib Require Import ZArith Lia ZifyBool Bool.
From stdpp Require Import base numbers option gmap list.
From S2P Require Import Prelude GLConstants Names.
Local Open Scope Z_scope.

(** [ShaderTranslatorInterface::VariableInfo] and [VariableMap], by the name in the
    translated source. *)
Record VariableInfo := mkVariableInfo {
  v_type : Z;
  v_size : Z;
  v_name : list Z;
}.

Definition VariableMap : Type := gmap (list Z) VariableInfo.

(** What the translator answers for a source that it accepts. *)
Record Translation := mkTranslation {
  translated_shader : list Z;
  translator_attrib_map : VariableMap;
  translator_uniform_map : VariableMap;
}.

Record ShaderInfo := mkShaderInfo {
  sh_use_count_ : Z;
  sh_service_id_ : Z;
  shader_type_ : Z;
  sh_valid_ : bool;
  source_ : option (list Z);
  translated_source_ : option (list Z);
  sh_log_info_ : option (list Z);
  attrib_map_ : VariableMap;
  uniform_map_ : VariableMap;
}.

Definition ShaderInfo_new (service_id shader_type : Z) : ShaderInfo :=
  mkShaderInfo 0 service_id shader_type false None None None ∅ ∅.

Definition with_shader_use (n : Z) (s : ShaderInfo) : ShaderInfo :=
  mkShaderInfo n (sh_service_id_ s) (shader_type_ s) (sh_valid_ s) (source_ s) (translated_source_ s)
    (sh_log_info_ s) (attrib_map_ s) (uniform_map_ s).

Definition IncUseCount (s : ShaderInfo) : ShaderInfo := with_shader_use (sh_use_count_ s + 1) s.
Definition DecUseCount (s : ShaderInfo) : ShaderInfo := with_shader_use (sh_use_count_ s - 1) s.

Definition MarkAsDeleted_shader (s : ShaderInfo) : ShaderInfo :=
  mkShaderInfo (sh_use_count_ s) 0 (shader_type_ s) (sh_valid_ s) (source_ s) (translated_source_ s)
    (sh_log_info_ s) (attrib_map_ s) (uniform_map_ s).

Definition UpdateSource (source : list Z) (s : ShaderInfo) : ShaderInfo :=
  mkShaderInfo (sh_use_count_ s) (sh_service_id_ s) (shader_type_ s) (sh_valid_ s) (Some source) None
    (sh_log_info_ s) (attrib_map_ s) (uniform_map_ s).

Definition UpdateTranslatedSource (translated_source : list Z) (s : ShaderInfo) : ShaderInfo :=
  mkShaderInfo (sh_use_count_ s) (sh_service_id_ s) (shader_type_ s) (sh_valid_ s) (source_ s)
    (Some translated_source) (sh_log_info_ s) (attrib_map_ s) (uniform_map_ s).

Definition SetStatus (valid : bool) (log : list Z) (translator : option Translation) (s : ShaderInfo)
    : ShaderInfo :=
  let '(attribs, uniforms) :=
    match translator with
    | Some t => if valid then (translator_attrib_map t, translator_uniform_map t) else (∅, ∅)
    | None => (∅, ∅)
    end in
  mkShaderInfo (sh_use_count_ s) (sh_service_id_ s) (shader_type_ s) valid (source_ s) (translated_source_ s)
    (Some log) attribs uniforms.

Definition IsDeleted_shader (s : ShaderInfo) : bool := sh_service_id_ s =? 0.
Definition InUse_shader (s : ShaderInfo) : bool := negb (sh_use_count_ s =? 0).

(** [shaders] holds the objects by address; the map and the programs hold addresses. *)
Record ShaderManager := mkShaderManager {
  shaders : gmap Z ShaderInfo;
  shader_infos_ : gmap Z Z;
  next_shader : Z;
}.

Definition ShaderManager_new : ShaderManager := mkShaderManager ∅ ∅ 0.

Definition with_shader (a : Z) (s : ShaderInfo) (m : ShaderManager) : ShaderManager :=
  mkShaderManager (<[a := s]> (shaders m)) (shader_infos_ m) (next_shader m).

Definition shader (a : Z) (m : ShaderManager) : outcome ShaderInfo := of_option (shaders m !! a).

(** The insertion does nothing when the id is taken. *)
Definition CreateShaderInfo (client_id service_id shader_type : Z) (m : ShaderManager) : ShaderManager :=
  let a := next_shader m in
  match shader_infos_ m !! client_id with
  | Some _ => m
  | None =>
      mkShaderManager (<[a := ShaderInfo_new service_id shader_type]> (shaders m))
        (<[client_id := a]> (shader_infos_ m)) (a + 1)
  end.

Definition GetShaderInfo (client_id : Z) (m : ShaderManager) : option Z := shader_infos_ m !! client_id.

(** The loops over a map visit it in the order of [map_to_list]. *)
Definition find_owner (a : Z) (infos : gmap Z Z) : option Z :=
  fst <$> find (fun '(_, a') => a' =? a) (map_to_list infos).

Definition IsOwned_shader (a : Z) (m : ShaderManager) : bool :=
  bool_decide (is_Some (find_owner a (shader_infos_ m))).

Definition GetClientId_shader (service_id : Z) (m : ShaderManager) : option Z :=
  fst <$> find (fun '(_, a) =>
                  match shaders m !! a with
                  | Some s => sh_service_id_ s =? service_id
                  | None => false
                  end) (map_to_list (shader_infos_ m)).

Definition erase_owner (a : Z) (infos : gmap Z Z) : gmap Z Z :=
  match find_owner a infos with
  | Some client_id => base.delete client_id infos
  | None => infos
  end.

Definition RemoveShaderInfoIfUnused (a : Z) (m : ShaderManager) : outcome ShaderManager :=
  (do s <- shader a m ;;
   Done (if IsDeleted_shader s && negb (InUse_shader s)
         then mkShaderManager (shaders m) (erase_owner a (shader_infos_ m)) (next_shader m)
         else m))%gpu.

Definition MarkAsDeleted (a : Z) (m : ShaderManager) : outcome ShaderManager :=
  (do s <- shader a m ;; RemoveShaderInfoIfUnused a (with_shader a (MarkAsDeleted_shader s) m))%gpu.

Definition UseShader (a : Z) (m : ShaderManager) : outcome ShaderManager :=
  (do s <- shader a m ;; Done (with_shader a (IncUseCount s) m))%gpu.

Definition UnuseShader (a : Z) (m : ShaderManager) : outcome ShaderManager :=
  (do s <- shader a m ;; RemoveShaderInfoIfUnused a (with_shader a (DecUseCount s) m))%gpu.

(** [Destroy]: the answer is the ids given to [glDeleteShader]. *)
Fixpoint Destroy_loop (have_context : bool) (order : list (Z * Z)) (ss : gmap Z ShaderInfo)
    : list Z * gmap Z ShaderInfo :=
  match order with
  | [] => ([], ss)
  | (_, a) :: order =>
      match ss !! a with
      | Some s =>
          if have_context && negb (IsDeleted_shader s) then
            let '(ids, ss) := Destroy_loop have_context order (<[a := MarkAsDeleted_shader s]> ss) in
            (sh_service_id_ s :: ids, ss)
          else Destroy_loop have_context order ss
      | None => Destroy_loop have_context order ss
      end
  end.

Definition Destroy (have_context : bool) (m : ShaderManager) : list Z * ShaderManager :=
  let '(ids, ss) := Destroy_loop have_context (map_to_list (shader_infos_ m)) (shaders m) in
  (ids, mkShaderManager ss ∅ (next_shader m)).

(** ** The map of names *)

(** A map from names to objects: an object has one name. *)
Definition owned (infos : gmap Z Z) (a : Z) : Prop := exists client_id, infos !! client_id = Some a.

Definition one_name (infos : gmap Z Z) : Prop := forall i j a,
  infos !! i = Some a -> infos !! j = Some a -> i = j.

Lemma find_owner_Some a infos client_id : find_owner a infos = Some client_id -> infos !! client_id = Some a.
Proof.
  unfold find_owner. intros ([i a'] & Ef & ->)%fmap_Some. apply find_some in Ef as [Hin Ha]. zbool. subst.
  by apply list_elem_of_In, elem_of_map_to_list in Hin.
Qed.

Lemma find_owner_None a infos : find_owner a infos = None -> ~ owned infos a.
Proof.
  unfold find_owner. intros Ef%fmap_None [i Hi]. pose proof (find_none _ _ Ef (i, a)) as Hn. cbn beta iota in Hn.
  rewrite Z.eqb_refl in Hn. discriminate Hn. by apply list_elem_of_In, elem_of_map_to_list.
Qed.

Lemma erase_owner_lookup a infos i b :
  one_name infos -> erase_owner a infos !! i = Some b <-> infos !! i = Some b /\ b <> a.
Proof.
  intros Hone. unfold erase_owner. destruct (find_owner a infos) as [j|] eqn:Ef.
  - apply find_owner_Some in Ef. rewrite lookup_delete_Some. split.
    + intros [Hj Hi]. split; [done|]. intros ->. by apply Hj, (Hone j i a).
    + intros [Hi Hb]. split; [|done]. intros ->. congruence.
  - apply find_owner_None in Ef. split; [|by intros [? _]]. intros Hi. split; [done|]. intros ->. apply Ef. by exists i.
Qed.

Lemma erase_owner_one a infos : one_name infos -> one_name (erase_owner a infos).
Proof.
  intros Hone i j b Hi Hj. apply erase_owner_lookup in Hi as [Hi _]; [|done].
  apply erase_owner_lookup in Hj as [Hj _]; [|done]. by eapply Hone.
Qed.

Lemma erase_owner_owned a b infos : one_name infos -> owned (erase_owner a infos) b <-> owned infos b /\ b <> a.
Proof.
  intros Hone. split.
  - intros [i Hi]. apply erase_owner_lookup in Hi as [Hi Hb]; [|done]. split; [by exists i|done].
  - intros [[i Hi] Hb]. exists i. by apply erase_owner_lookup.
Qed.

Lemma insert_one_name infos i a : one_name infos -> ~ owned infos a -> one_name (<[i := a]> infos).
Proof.
  intros Hone Ha j k b Hj Hk. rewrite lookup_insert_Some in Hj, Hk.
  destruct Hj as [[? ?]|[? Hj]], Hk as [[? ?]|[? Hk]]; subst; [done| | |by eapply Hone].
  - destruct Ha. by exists k.
  - destruct Ha. by exists j.
Qed.

(** ** The invariant *)

(** The shaders of the manager, given how many programs each is attached to: a shader has a
    name as long as it is not deleted or is still attached. *)
Record shaders_ok (uses : Z -> Z) (m : ShaderManager) : Prop := {
  shaders_one_name : one_name (shader_infos_ m);
  shaders_fresh : forall a s, shaders m !! a = Some s -> a < next_shader m;
  shaders_live : forall i a, shader_infos_ m !! i = Some a -> is_Some (shaders m !! a);
  shaders_counted : forall a s, shaders m !! a = Some s -> sh_use_count_ s = uses a;
  shaders_unused : forall a, shaders m !! a = None -> uses a = 0;
  shaders_named : forall a s, shaders m !! a = Some s ->
    (owned (shader_infos_ m) a <-> IsDeleted_shader s = false \/ uses a <> 0);
}.

Lemma ShaderManager_new_ok : shaders_ok (fun _ => 0) ShaderManager_new.
Proof. split; try done. Qed.

Lemma shaders_ok_fresh uses m : shaders_ok uses m -> shaders m !! next_shader m = None.
Proof.
  intros Hm. destruct (shaders m !! next_shader m) as [s|] eqn:E1; [|done]. apply (shaders_fresh _ _ Hm) in E1. lia.
Qed.

Lemma CreateShaderInfo_ok uses client_id service_id shader_type m :
  shaders_ok uses m -> service_id <> 0 -> shaders_ok uses (CreateShaderInfo client_id service_id shader_type m).
Proof.
  intros Hm Hs. unfold CreateShaderInfo. destruct (shader_infos_ m !! client_id) eqn:E1; [done|].
  pose proof (shaders_ok_fresh _ _ Hm) as Hf.
  assert (forall i, shader_infos_ m !! i <> Some (next_shader m)) as Hno.
  { intros i Hi. apply (shaders_live _ _ Hm) in Hi. rewrite Hf in Hi. by destruct Hi. }
  split; cbn [shaders shader_infos_ next_shader].
  - apply insert_one_name; [apply Hm|]. intros [i Hi]. by apply (Hno i).
  - intros a s [[<- _]|[_ Ha]]%lookup_insert_Some; [lia|]. apply (shaders_fresh _ _ Hm) in Ha. lia.
  - intros i a [[<- <-]|[_ Hi]]%lookup_insert_Some; [by rewrite lookup_insert_eq|].
    rewrite lookup_insert_is_Some'. right. by eapply shaders_live.
  - intros a s [[<- <-]|[_ Ha]]%lookup_insert_Some; [|by apply Hm]. symmetry. by apply Hm.
  - intros a [Ha _]%lookup_insert_None. by apply Hm.
  - intros a s [[<- <-]|[Hne Ha]]%lookup_insert_Some.
    + split; [|intros _; exists client_id; by rewrite lookup_insert_eq]. intros _. left.
      unfold IsDeleted_shader. cbn. lia.
    + rewrite <- (shaders_named _ _ Hm a s Ha). split.
      * intros [i [[_ <-]|[_ Hi]]%lookup_insert_Some]; [done|]. by exists i.
      * intros [i Hi]. exists i. rewrite lookup_insert_ne; [done|]. intros <-. congruence.
Qed.

(** A change of a shader that keeps its count and whether it is deleted. *)
Lemma with_shader_ok uses a s s' m :
  shaders_ok uses m -> shaders m !! a = Some s -> sh_use_count_ s' = sh_use_count_ s ->
  sh_service_id_ s' = sh_service_id_ s -> shaders_ok uses (with_shader a s' m).
Proof.
  intros Hm Ha Hu Hi. split; cbn [with_shader shaders shader_infos_ next_shader].
  - apply Hm.
  - intros b t [[<- _]|[_ Hb]]%lookup_insert_Some; by eapply shaders_fresh.
  - intros i b Hb. rewrite lookup_insert_is_Some'. right. by eapply shaders_live.
  - intros b t [[<- <-]|[_ Hb]]%lookup_insert_Some; [rewrite Hu|]; by apply Hm.
  - intros b [Hb _]%lookup_insert_None. by apply Hm.
  - intros b t [[<- <-]|[_ Hb]]%lookup_insert_Some; [|by apply Hm].
    unfold IsDeleted_shader. rewrite Hi. by apply Hm.
Qed.

(** The count after one more or one less attachment. *)
Definition add_use (a n : Z) (uses : Z -> Z) (b : Z) : Z := if b =? a then uses b + n else uses b.

Lemma shader_of_use uses m a :
  shaders_ok uses m -> uses a <> 0 -> exists s, shaders m !! a = Some s /\ owned (shader_infos_ m) a.
Proof.
  intros Hm Hu. destruct (shaders m !! a) as [s|] eqn:Ha; [|by destruct Hu; apply Hm].
  exists s. split; [done|]. apply (shaders_named _ _ Hm a s Ha). by right.
Qed.

Lemma UseShader_ok uses a m :
  shaders_ok uses m -> owned (shader_infos_ m) a -> 0 <= uses a ->
  exists m', UseShader a m = Done m' /\ shaders_ok (add_use a 1 uses) m' /\ shader_infos_ m' = shader_infos_ m.
Proof.
  intros Hm Ho Hu. destruct Ho as [i Hi]. destruct (shaders_live _ _ Hm i a Hi) as [s Ha].
  unfold UseShader, shader. rewrite Ha. cbn [of_option obind]. eexists. split; [done|]. split; [|done].
  unfold add_use. split; cbn [with_shader shaders shader_infos_ next_shader IncUseCount with_shader_use sh_use_count_].
  - apply Hm.
  - intros b t [[<- _]|[_ Hb]]%lookup_insert_Some; by eapply shaders_fresh.
  - intros j b Hb. rewrite lookup_insert_is_Some'. right. by eapply shaders_live.
  - intros b t [[<- <-]|[Hne Hb]]%lookup_insert_Some.
    + rewrite Z.eqb_refl. cbn. f_equal. by apply Hm.
    + bfalse (b =? a). by apply Hm.
  - intros b [Hb Hne]%lookup_insert_None. bfalse (b =? a). by apply Hm.
  - intros b t [[<- <-]|[Hne Hb]]%lookup_insert_Some.
    + rewrite Z.eqb_refl. split; [intros _; right; lia|]. intros _. by exists i.
    + bfalse (b =? a). by apply Hm.
Qed.

(** What removal makes of a manager in which only the shader [a] may be a name too many. *)
Lemma RemoveShaderInfoIfUnused_ok uses a s m :
  one_name (shader_infos_ m) -> (forall b t, shaders m !! b = Some t -> b < next_shader m) ->
  (forall i b, shader_infos_ m !! i = Some b -> is_Some (shaders m !! b)) ->
  (forall b t, shaders m !! b = Some t -> sh_use_count_ t = uses b) ->
  (forall b, shaders m !! b = None -> uses b = 0) ->
  (forall b t, shaders m !! b = Some t -> b <> a ->
     (owned (shader_infos_ m) b <-> IsDeleted_shader t = false \/ uses b <> 0)) ->
  shaders m !! a = Some s -> owned (shader_infos_ m) a \/ (IsDeleted_shader s = true /\ uses a = 0) ->
  exists m', RemoveShaderInfoIfUnused a m = Done m' /\ shaders_ok uses m' /\ shaders m' = shaders m /\
    (forall b, b <> a -> owned (shader_infos_ m) b -> owned (shader_infos_ m') b).
Proof.
  intros H1 H2 H3 H4 H5 H6 Ha Ho. unfold RemoveShaderInfoIfUnused, shader. rewrite Ha. cbn [of_option obind].
  eexists. split; [done|]. unfold InUse_shader. rewrite (H4 a s Ha), negb_involutive. case_match eqn:E1; zbool.
  - split; [|split; [done|]].
    + split; cbn [shaders shader_infos_ next_shader]; try done.
      * by apply erase_owner_one.
      * intros i b Hi. apply erase_owner_lookup in Hi as [Hi _]; [|done]. by eapply H3.
      * intros b t Hb. rewrite erase_owner_owned by done. destruct (decide (b = a)) as [->|Hne].
        -- assert (t = s) as -> by congruence. split; [by intros [_ []]|]. intros [?|?]; congruence.
        -- rewrite <- (H6 b t Hb Hne). tauto.
    + intros b Hne Hb. cbn [shader_infos_]. by apply erase_owner_owned.
  - split; [|done]. split; try done. intros b t Hb. destruct (decide (b = a)) as [->|Hne]; [|by apply H6].
    assert (t = s) as -> by congruence. split.
    + intros _. destruct E1 as [E1|E1]; zbool; [by left|by right].
    + intros Hc. destruct Ho as [?|[Hd Hz]]; [done|]. destruct Hc; congruence.
Qed.

Lemma MarkAsDeleted_ok uses a m :
  shaders_ok uses m -> owned (shader_infos_ m) a ->
  exists m', MarkAsDeleted a m = Done m' /\ shaders_ok uses m' /\
    (forall b, uses b <> 0 -> owned (shader_infos_ m') b).
Proof.
  intros Hm Ho. destruct Ho as [i Hi]. destruct (shaders_live _ _ Hm i a Hi) as [s Ha].
  unfold MarkAsDeleted, shader. rewrite Ha. cbn [of_option obind].
  destruct (RemoveShaderInfoIfUnused_ok uses a (MarkAsDeleted_shader s) (with_shader a (MarkAsDeleted_shader s) m))
    as (m' & -> & Hm' & _ & _); cbn [with_shader shaders shader_infos_ next_shader].
  - apply Hm.
  - intros b t [[<- _]|[_ Hb]]%lookup_insert_Some; by eapply shaders_fresh.
  - intros j b Hb. rewrite lookup_insert_is_Some'. right. by eapply shaders_live.
  - intros b t [[<- <-]|[_ Hb]]%lookup_insert_Some; [exact (shaders_counted _ _ Hm a s Ha)|by apply Hm].
  - intros b [Hb _]%lookup_insert_None. by apply Hm.
  - intros b t [[<- <-]|[_ Hb]]%lookup_insert_Some Hne; [done|]. by apply Hm.
  - by rewrite lookup_insert_eq.
  - left. by exists i.
  - exists m'. split; [done|]. split; [done|]. intros b Hb. by destruct (shader_of_use _ _ _ Hm' Hb) as (? & _ & ?).
Qed.

Lemma UnuseShader_ok uses a m :
  shaders_ok uses m -> 0 < uses a ->
  exists m', UnuseShader a m = Done m' /\ shaders_ok (add_use a (-1) uses) m'.
Proof.
  intros Hm Hu. destruct (shader_of_use _ _ a Hm) as (s & Ha & i & Hi); [lia|].
  unfold UnuseShader, shader. rewrite Ha. cbn [of_option obind].
  destruct (RemoveShaderInfoIfUnused_ok (add_use a (-1) uses) a (DecUseCount s) (with_shader a (DecUseCount s) m))
    as (m' & -> & Hm' & _); cbn [with_shader shaders shader_infos_ next_shader]; unfold add_use.
  - apply Hm.
  - intros b t [[<- _]|[_ Hb]]%lookup_insert_Some; by eapply shaders_fresh.
  - intros j b Hb. rewrite lookup_insert_is_Some'. right. by eapply shaders_live.
  - intros b t [[<- <-]|[Hne Hb]]%lookup_insert_Some.
    + rewrite Z.eqb_refl. cbn. rewrite (shaders_counted _ _ Hm a s Ha). lia.
    + bfalse (b =? a). by apply Hm.
  - intros b [Hb Hne]%lookup_insert_None. bfalse (b =? a). by apply Hm.
  - intros b t [[<- <-]|[Hne Hb]]%lookup_insert_Some; [done|]. intros _. bfalse (b =? a). by apply Hm.
  - by rewrite lookup_insert_eq.
  - left. by exists i.
  - by exists m'.
Qed.
