(* ===== verification/ProgramManager.v ===== *)
(** * Programs

    [gpu/command_buffer/service/program_manager.{h,cc}]: what a program was linked from, the
    attributes and uniforms that the driver and the translator tell of it, and who uses it. *)

From S2P Require Import Prelude CmdFormat CommandBufferService CommonDecoder.
From Stdlib Require Import ZArith Lia ZifyBool Bool String.
From stdpp Require Import base numbers option gmap list.
From S2P Require Import Prelude GLConstants Names Uniforms ShaderManager.
Local Open Scope Z_scope.

(** ** The answers of the driver *)

(** What [glGetActiveAttrib] and [glGetActiveUniform] write. *)
Record Active := mkActive {
  act_name : list Z;
  act_size : Z;
  act_type : Z;
}.

(** A linked program, as the driver describes it. *)
Record Reflection := mkReflection {
  active_attribs : list Active;
  active_uniforms : list Active;
  glGetAttribLocation : list Z -> Z;
  glGetUniformLocation : list Z -> Z;
}.

(** [gl_info_log] is [None] when [GL_INFO_LOG_LENGTH] is zero. *)
Record LinkAnswer := mkLinkAnswer {
  gl_link_status : bool;
  gl_reflection : Reflection;
  gl_info_log : option (list Z);
}.

(** ** A program *)

(** [UniformInfo] of the service. *)
Record ServiceUniform := mkServiceUniform {
  uniform : UniformInfo;
  texture_units : list Z;
}.

Record LocationInfo := mkLocationInfo {
  uniform_index : Z;
  array_index : Z;
}.

(** What [Reset] clears. *)
Record Inputs := mkInputs {
  max_attrib_name_length_ : Z;
  attrib_infos_ : list VertexAttribInfo;
  attrib_location_to_index_map_ : list Z;
  max_uniform_name_length_ : Z;
  uniform_infos_ : list ServiceUniform;
  location_infos_ : list LocationInfo;
  sampler_indices_ : list Z;
}.

(** [attached_shaders_] holds the addresses of shaders. *)
Record ProgramInfo := mkProgramInfo {
  p_use_count_ : Z;
  inputs : Inputs;
  p_service_id_ : Z;
  attached_shaders_ : list (option Z);
  p_valid_ : bool;
  link_status_ : bool;
  p_log_info_ : option (list Z);
}.

Definition kMaxAttachedShaders : Z := 2.

Definition no_inputs : Inputs := mkInputs 0 [] [] 0 [] [] [].

Definition ProgramInfo_new (service_id : Z) : ProgramInfo :=
  mkProgramInfo 0 no_inputs service_id (replicate (Z.to_nat kMaxAttachedShaders) None) false false None.

Definition with_program_use (n : Z) (p : ProgramInfo) : ProgramInfo :=
  mkProgramInfo n (inputs p) (p_service_id_ p) (attached_shaders_ p) (p_valid_ p) (link_status_ p)
    (p_log_info_ p).

Definition IncUseCount (p : ProgramInfo) : ProgramInfo := with_program_use (p_use_count_ p + 1) p.
Definition DecUseCount (p : ProgramInfo) : ProgramInfo := with_program_use (p_use_count_ p - 1) p.

Definition MarkAsDeleted_program (p : ProgramInfo) : ProgramInfo :=
  mkProgramInfo (p_use_count_ p) (inputs p) 0 (attached_shaders_ p) (p_valid_ p) (link_status_ p)
    (p_log_info_ p).

Definition IsDeleted_program (p : ProgramInfo) : bool := p_service_id_ p =? 0.
Definition InUse (p : ProgramInfo) : bool := negb (p_use_count_ p =? 0).

Definition with_inputs (i : Inputs) (p : ProgramInfo) : ProgramInfo :=
  mkProgramInfo (p_use_count_ p) i (p_service_id_ p) (attached_shaders_ p) (p_valid_ p) (link_status_ p)
    (p_log_info_ p).

Definition with_attached (l : list (option Z)) (p : ProgramInfo) : ProgramInfo :=
  mkProgramInfo (p_use_count_ p) (inputs p) (p_service_id_ p) l (p_valid_ p) (link_status_ p) (p_log_info_ p).

Definition with_status (valid link_status : bool) (p : ProgramInfo) : ProgramInfo :=
  mkProgramInfo (p_use_count_ p) (inputs p) (p_service_id_ p) (attached_shaders_ p) valid link_status
    (p_log_info_ p).

Definition set_log_info (str : option (list Z)) (p : ProgramInfo) : ProgramInfo :=
  mkProgramInfo (p_use_count_ p) (inputs p) (p_service_id_ p) (attached_shaders_ p) (p_valid_ p)
    (link_status_ p) (c_str <$> str).

Definition IsSampler (info : UniformInfo) : bool :=
  (u_type info =? GL_SAMPLER_2D) || (u_type info =? GL_SAMPLER_CUBE) ||
  (u_type info =? GL_SAMPLER_EXTERNAL_OES).

(** The bytes of [gl_] *)
Definition IsInvalidPrefix (name : list Z) : bool := is_prefix [103; 108; 95] name.

Definition ShaderTypeToIndex (shader_type : Z) : Z :=
  if shader_type =? GL_VERTEX_SHADER then 0
  else if shader_type =? GL_FRAGMENT_SHADER then 1
  else 0.

Definition Reset (p : ProgramInfo) : ProgramInfo := with_inputs no_inputs (with_status false false p).

Definition UpdateLogInfo (log : option (list Z)) (p : ProgramInfo) : ProgramInfo := set_log_info log p.

Definition GetAttribInfo (index : Z) (p : ProgramInfo) : option VertexAttribInfo :=
  zget (attrib_infos_ (inputs p)) index.

Definition GetUniformInfo (index : Z) (p : ProgramInfo) : option ServiceUniform :=
  zget (uniform_infos_ (inputs p)) index.

Definition GetAttribInfoByLocation (location : Z) (p : ProgramInfo) : outcome (option VertexAttribInfo) :=
  if location <? zlen (attrib_location_to_index_map_ (inputs p)) then
    (do index <- of_option (zget (attrib_location_to_index_map_ (inputs p)) location) ;;
     if index >=? 0 then do info <- of_option (zget (attrib_infos_ (inputs p)) index) ;; Done (Some info)
     else Done None)%gpu
  else Done None.

(** The uniform at a location, with the index of its element. *)
Definition GetUniformInfoByLocation (location : Z) (p : ProgramInfo) : outcome (option (ServiceUniform * Z)) :=
  if (location >=? 0) && (location <? zlen (location_infos_ (inputs p))) then
    (do info <- of_option (zget (location_infos_ (inputs p)) location) ;;
     if uniform_index info >=? 0 then
       do u <- of_option (zget (uniform_infos_ (inputs p)) (uniform_index info)) ;;
       Done (Some (u, array_index info))
     else Done None)%gpu
  else Done None.

(** ** What is read after a link *)

Section update.
Variable ss : gmap Z ShaderInfo.

(** The loop over the shaders that are attached. *)
Fixpoint find_variable (use_uniforms : bool) (test_name : list Z) (attached : list (option Z))
    : outcome (option VariableInfo) :=
  match attached with
  | [] => Done None
  | None :: attached => find_variable use_uniforms test_name attached
  | Some a :: attached =>
      (do shader_info <- of_option (ss !! a) ;;
       match (if use_uniforms then uniform_map_ shader_info else attrib_map_ shader_info) !! test_name with
       | Some v => Done (Some v)
       | None => find_variable use_uniforms test_name attached
       end)%gpu
  end.

(** The answer: the corrected name, the original one, the size and the type. *)
Definition GetCorrectedVariableInfo (use_uniforms : bool) (attached : list (option Z)) (v : Active)
    : outcome (list Z * list Z * Z * Z) :=
  let name := act_name v in
  (do found <- find_variable use_uniforms name attached ;;
   match found with
   | Some i => Done (name, v_name i, v_size i, v_type i)
   | None =>
       let test_name := name ++ kArraySpec in
       do found <- find_variable use_uniforms test_name attached ;;
       match found with
       | Some i => Done (test_name, v_name i, v_size i, v_type i)
       | None => Done (name, name, act_size v, act_type v)
       end
   end)%gpu.

Variable attached : list (option Z).
Variable r : Reflection.

(** The loop over the attributes: their list, the highest location and the longest name. *)
Fixpoint read_attribs (actives : list Active) (infos : list VertexAttribInfo) (max_location max_length : Z)
    : outcome (list VertexAttribInfo * Z * Z) :=
  match actives with
  | [] => Done (infos, max_location, max_length)
  | v :: actives =>
      if IsInvalidPrefix (act_name v) then read_attribs actives infos max_location max_length
      else
        (do (_, original_name, size, type) <- GetCorrectedVariableInfo false attached v ;;
         let location := glGetAttribLocation r (act_name v) in
         read_attribs actives (infos ++ [mkVertexAttribInfo size type location original_name])
           (if location >? max_location then location else max_location)
           (Z.max max_length (zlen original_name)))%gpu
  end.

(** The loop that fills [attrib_location_to_index_map_]. *)
Fixpoint index_attribs (infos : list VertexAttribInfo) (ii : Z) (index : list Z) : outcome (list Z) :=
  match infos with
  | [] => Done index
  | info :: infos =>
      (do index <- of_option (zset index (a_location info) ii) ;; index_attribs infos (ii + 1) index)%gpu
  end.

(** The name without [kArraySpec], and the name that the uniform gets. *)
Definition array_names (size : Z) (name original_name : list Z) : list Z * list Z :=
  if (size >? 1) && (zlen name >? 3) then
    if negb (bool_decide (rfind kArraySpec name = Some (zlen name - 3)))
    then (name, name ++ kArraySpec)
    else (take (Z.to_nat (zlen name - 3)) name, original_name)
  else (name, original_name).

(** A vector of no elements has no first one, and one of a negative number cannot be made. *)
Definition AddUniformInfo (size type location : Z) (name original_name : list Z) : outcome ServiceUniform :=
  if size <=? 0 then UB
  else
    let '(base_name, info_name) := array_names size name original_name in
    let others := (fun ii => glGetUniformLocation r (element_name base_name ii)) <$> seqZ 1 (size - 1) in
    let is_array := (size >? 1) ||
      ((zlen info_name >? 3) && bool_decide (rfind kArraySpec info_name = Some (zlen info_name - 3))) in
    let info := mkUniformInfo size type is_array info_name (location :: others) in
    Done (mkServiceUniform info (if IsSampler info then replicate (Z.to_nat size) 0 else [])).

(** The loop over the uniforms: their list, which are samplers, the highest location and the
    longest name. *)
Fixpoint read_uniforms (actives : list Active) (infos : list ServiceUniform) (samplers : list Z)
    (max_location max_length : Z) : outcome (list ServiceUniform * list Z * Z * Z) :=
  match actives with
  | [] => Done (infos, samplers, max_location, max_length)
  | v :: actives =>
      if IsInvalidPrefix (act_name v) then read_uniforms actives infos samplers max_location max_length
      else
        (do (name, original_name, size, type) <- GetCorrectedVariableInfo true attached v ;;
         do u <- AddUniformInfo size type (glGetUniformLocation r (act_name v)) name original_name ;;
         read_uniforms actives (infos ++ [u])
           (if IsSampler (uniform u) then samplers ++ [zlen infos] else samplers)
           (foldl Z.max max_location (element_locations (uniform u)))
           (Z.max max_length (zlen (u_name (uniform u)))))%gpu
  end.

(** The loops that fill [location_infos_]. *)
Fixpoint index_elements (locations : list Z) (ii jj : Z) (index : list LocationInfo)
    : outcome (list LocationInfo) :=
  match locations with
  | [] => Done index
  | location :: locations =>
      (do index <- of_option (zset index location (mkLocationInfo ii jj)) ;;
       index_elements locations ii (jj + 1) index)%gpu
  end.

Fixpoint index_uniforms (infos : list ServiceUniform) (ii : Z) (index : list LocationInfo)
    : outcome (list LocationInfo) :=
  match infos with
  | [] => Done index
  | u :: infos =>
      (do index <- index_elements (element_locations (uniform u)) ii 0 index ;;
       index_uniforms infos (ii + 1) index)%gpu
  end.

Definition read_inputs : outcome Inputs :=
  (do (attribs, max_location, attrib_length) <- read_attribs (active_attribs r) [] (-1) 0 ;;
   do attrib_index <- index_attribs attribs 0 (replicate (Z.to_nat (max_location + 1)) (-1)) ;;
   do (uniforms, samplers, max_location, uniform_length) <- read_uniforms (active_uniforms r) [] [] (-1) 0 ;;
   do uniform_index <- index_uniforms uniforms 0
                         (replicate (Z.to_nat (max_location + 1)) (mkLocationInfo (-1) (-1))) ;;
   Done (mkInputs attrib_length attribs attrib_index uniform_length uniforms uniform_index samplers))%gpu.

End update.

Definition Update (ss : gmap Z ShaderInfo) (answer : LinkAnswer) (p : ProgramInfo) : outcome ProgramInfo :=
  let p := UpdateLogInfo (gl_info_log answer) (Reset p) in
  (do i <- read_inputs ss (attached_shaders_ p) (gl_reflection answer) ;;
   Done (with_status true true (with_inputs i p)))%gpu.

(** ** Operations *)

Definition CanLink (ss : gmap Z ShaderInfo) (p : ProgramInfo) : bool :=
  forallb (fun a => match a with
                    | Some a => match ss !! a with Some s => sh_valid_ s | None => false end
                    | None => false
                    end) (attached_shaders_ p).

(** The answer is whether [glLinkProgram] was called. *)
Definition Link (ss : gmap Z ShaderInfo) (answer : LinkAnswer) (p : ProgramInfo) : outcome (bool * ProgramInfo) :=
  let p := with_status (p_valid_ p) false p in
  if negb (CanLink ss p) then Done (false, set_log_info (Some (chars "missing shaders")) p)
  else if gl_link_status answer then (do p <- Update ss answer p ;; Done (true, p))%gpu
  else Done (true, UpdateLogInfo (gl_info_log answer) p).

(** The answer is whether [glValidateProgram] was called. *)
Definition Validate (log : option (list Z)) (p : ProgramInfo) : bool * ProgramInfo :=
  if negb (p_valid_ p) then (false, set_log_info (Some (chars "program not linked")) p)
  else (true, UpdateLogInfo log p).

Definition set_uniform (i : Z) (u : ServiceUniform) (p : ProgramInfo) : outcome ProgramInfo :=
  (do us <- of_option (zset (uniform_infos_ (inputs p)) i u) ;;
   Done (with_inputs (mkInputs (max_attrib_name_length_ (inputs p)) (attrib_infos_ (inputs p))
           (attrib_location_to_index_map_ (inputs p)) (max_uniform_name_length_ (inputs p)) us
           (location_infos_ (inputs p)) (sampler_indices_ (inputs p))) p))%gpu.

Definition SetSamplers (location count : Z) (value : list Z) (p : ProgramInfo) : outcome (bool * ProgramInfo) :=
  if (location >=? 0) && (location <? zlen (location_infos_ (inputs p))) then
    (do location_info <- of_option (zget (location_infos_ (inputs p)) location) ;;
     if uniform_index location_info >=? 0 then
       do u <- of_option (zget (uniform_infos_ (inputs p)) (uniform_index location_info)) ;;
       let count := Z.min (u_size (uniform u) - array_index location_info) count in
       if IsSampler (uniform u) && (count >? 0) then
         do units <- of_option (zread value 0 count) ;;
         do texture_units <- of_option (zwrite (texture_units u) (array_index location_info) (u32 <$> units)) ;;
         do p <- set_uniform (uniform_index location_info) (mkServiceUniform (uniform u) texture_units) p ;;
         Done (true, p)
       else Done (false, p)
     else Done (false, p))%gpu
  else Done (false, p).

(** [answer] is what [glGetProgramiv] writes. *)
Definition GetProgramiv (pname answer : Z) (p : ProgramInfo) : Z :=
  if pname =? GL_ACTIVE_ATTRIBUTES then zlen (attrib_infos_ (inputs p))
  else if pname =? GL_ACTIVE_ATTRIBUTE_MAX_LENGTH then max_attrib_name_length_ (inputs p) + 1
  else if pname =? GL_ACTIVE_UNIFORMS then zlen (uniform_infos_ (inputs p))
  else if pname =? GL_ACTIVE_UNIFORM_MAX_LENGTH then max_uniform_name_length_ (inputs p) + 1
  else if pname =? GL_LINK_STATUS then Z.b2z (link_status_ p)
  else if pname =? GL_INFO_LOG_LENGTH then
    match p_log_info_ p with Some log => zlen log + 1 | None => 0 end
  else if pname =? GL_VALIDATE_STATUS then if negb (p_valid_ p) then GL_FALSE else answer
  else answer.

Definition AttachShader (a : Z) (sm : ShaderManager) (p : ProgramInfo)
    : outcome (bool * ProgramInfo * ShaderManager) :=
  (do s <- shader a sm ;;
   let index := ShaderTypeToIndex (shader_type_ s) in
   do slot <- of_option (zget (attached_shaders_ p) index) ;;
   match slot with
   | Some _ => Done (false, p, sm)
   | None =>
       do l <- of_option (zset (attached_shaders_ p) index (Some a)) ;;
       do sm <- UseShader a sm ;;
       Done (true, with_attached l p, sm)
   end)%gpu.

Definition DetachShader (a : Z) (sm : ShaderManager) (p : ProgramInfo)
    : outcome (bool * ProgramInfo * ShaderManager) :=
  (do s <- shader a sm ;;
   let index := ShaderTypeToIndex (shader_type_ s) in
   do slot <- of_option (zget (attached_shaders_ p) index) ;;
   if negb (bool_decide (slot = Some a)) then Done (false, p, sm)
   else
     do l <- of_option (zset (attached_shaders_ p) index None) ;;
     do sm <- UnuseShader a sm ;;
     Done (true, with_attached l p, sm))%gpu.

(** The loop of [DetachShaders], from the [ii]th place. *)
Fixpoint DetachShaders (n : nat) (ii : Z) (sm : ShaderManager) (p : ProgramInfo)
    : outcome (ProgramInfo * ShaderManager) :=
  match n with
  | O => Done (p, sm)
  | S n =>
      (do slot <- of_option (zget (attached_shaders_ p) ii) ;;
       do (p, sm) <- match slot with
                     | Some a => do (_, p, sm) <- DetachShader a sm p ;; Done (p, sm)
                     | None => Done (p, sm)
                     end ;;
       DetachShaders n (ii + 1) sm p)%gpu
  end.

(** ** The bucket of [GetProgramInfo] *)

(** [sizeof(ProgramInfoHeader)] and [sizeof(ProgramInput)] *)
Definition header_size : Z := 12.
Definition input_size_of : Z := 20.

(** The fields of a [ProgramInput], in order. *)
Definition ProgramInput (size type location_offset name_offset name_length : Z) : list Z :=
  [type; size; location_offset; name_offset; name_length].

(** The two loops that write: [locations] and [strings] are the offsets from the header of
    the places where the next location and the next name go. *)
Fixpoint attrib_inputs (infos : list VertexAttribInfo) (locations strings : Z) : list Z :=
  match infos with
  | [] => []
  | i :: infos =>
      ProgramInput (a_size i) (a_type i) (u32 locations) (u32 strings) (u32 (zlen (a_name i))) ++
      attrib_inputs infos (locations + 4) (strings + zlen (a_name i))
  end.

Fixpoint uniform_inputs (infos : list ServiceUniform) (locations strings : Z) : list Z :=
  match infos with
  | [] => []
  | u :: infos =>
      let i := uniform u in
      ProgramInput (u_size i) (u_type i) (u32 locations) (u32 strings) (u32 (zlen (u_name i))) ++
      uniform_inputs infos (locations + 4 * zlen (element_locations i)) (strings + zlen (u_name i))
  end.

Definition attrib_locations (infos : list VertexAttribInfo) : list Z := a_location <$> infos.
Definition attrib_names (infos : list VertexAttribInfo) : list Z := flat_map a_name infos.
Definition uniform_locations (infos : list ServiceUniform) : list Z :=
  flat_map (fun u => element_locations (uniform u)) infos.
Definition uniform_names (infos : list ServiceUniform) : list Z := flat_map (fun u => u_name (uniform u)) infos.

(** What is written through a pointer into the bucket. *)
Definition write_through (offset : option Z) (bytes : list Z) (data : list Z) : outcome (list Z) :=
  match bytes with
  | [] => Done data
  | _ => (do o <- of_option offset ;; of_option (zwrite data o bytes))%gpu
  end.

Definition GetProgramInfo `{Platform} (p : ProgramInfo) (b : Bucket) : outcome Bucket :=
  let attribs := attrib_infos_ (inputs p) in
  let uniforms := uniform_infos_ (inputs p) in
  let num_locations := u32 (zlen attribs + zlen (uniform_locations uniforms)) in
  let total_string_size := u32 (zlen (attrib_names attribs) + zlen (uniform_names uniforms)) in
  let num_inputs := u32 (zlen attribs + zlen uniforms) in
  let input_size := u32 (num_inputs * input_size_of) in
  let location_size := u32 (num_locations * 4) in
  let size := u32 (header_size + input_size + location_size + total_string_size) in
  let b := SetSize size b in
  let locations_at := header_size + input_size in
  let strings_at := locations_at + location_size in
  let header := [Z.b2z (link_status_ p); zlen attribs; zlen uniforms] in
  let input_words := attrib_inputs attribs locations_at strings_at ++
    uniform_inputs uniforms (locations_at + 4 * zlen attribs) (strings_at + zlen (attrib_names attribs)) in
  (do header_at <- of_option (GetData 0 size b) ;;
   do data <- of_option (data_ b) ;;
   do data <- write_through (Some header_at) (words_to_bytes header) data ;;
   do data <- write_through (GetData header_size input_size b) (words_to_bytes input_words) data ;;
   do data <- write_through (GetData (u32 locations_at) location_size b)
                (words_to_bytes (attrib_locations attribs ++ uniform_locations uniforms)) data ;;
   do data <- write_through (GetData (u32 strings_at) total_string_size b)
                (attrib_names attribs ++ uniform_names uniforms) data ;;
   Done (mkBucket (size_ b) (Some data)))%gpu.

(** ** The manager *)

(** [programs] holds the objects by address. *)
Record ProgramManager := mkProgramManager {
  programs : gmap Z ProgramInfo;
  program_infos_ : gmap Z Z;
  next_program : Z;
}.

Definition ProgramManager_new : ProgramManager := mkProgramManager ∅ ∅ 0.

Definition with_program (a : Z) (p : ProgramInfo) (m : ProgramManager) : ProgramManager :=
  mkProgramManager (<[a := p]> (programs m)) (program_infos_ m) (next_program m).

Definition program (a : Z) (m : ProgramManager) : outcome ProgramInfo := of_option (programs m !! a).

(** The insertion does nothing when the id is taken. *)
Definition CreateProgramInfo (client_id service_id : Z) (m : ProgramManager) : ProgramManager :=
  let a := next_program m in
  match program_infos_ m !! client_id with
  | Some _ => m
  | None =>
      mkProgramManager (<[a := ProgramInfo_new service_id]> (programs m))
        (<[client_id := a]> (program_infos_ m)) (a + 1)
  end.

(** [GetProgramInfo] of the manager *)
Definition LookupProgram (client_id : Z) (m : ProgramManager) : option Z := program_infos_ m !! client_id.

Definition GetClientId (service_id : Z) (m : ProgramManager) : option Z :=
  fst <$> find (fun '(_, a) =>
                  match programs m !! a with
                  | Some p => p_service_id_ p =? service_id
                  | None => false
                  end) (map_to_list (program_infos_ m)).

Definition IsOwned (a : Z) (m : ProgramManager) : bool := bool_decide (is_Some (find_owner a (program_infos_ m))).

Definition RemoveProgramInfoIfUnused (a : Z) (sm : ShaderManager) (m : ProgramManager)
    : outcome (ShaderManager * ProgramManager) :=
  (do p <- program a m ;;
   if IsDeleted_program p && negb (InUse p) then
     do (p, sm) <- DetachShaders (Z.to_nat kMaxAttachedShaders) 0 sm p ;;
     Done (sm, mkProgramManager (<[a := p]> (programs m)) (erase_owner a (program_infos_ m)) (next_program m))
   else Done (sm, m))%gpu.

Definition MarkAsDeleted (a : Z) (sm : ShaderManager) (m : ProgramManager) : outcome (ShaderManager * ProgramManager) :=
  (do p <- program a m ;; RemoveProgramInfoIfUnused a sm (with_program a (MarkAsDeleted_program p) m))%gpu.

Definition UseProgram (a : Z) (m : ProgramManager) : outcome ProgramManager :=
  (do p <- program a m ;; Done (with_program a (IncUseCount p) m))%gpu.

Definition UnuseProgram (a : Z) (sm : ShaderManager) (m : ProgramManager) : outcome (ShaderManager * ProgramManager) :=
  (do p <- program a m ;; RemoveProgramInfoIfUnused a sm (with_program a (DecUseCount p) m))%gpu.

(** [Destroy]: the answer is the ids given to [glDeleteProgram]. *)
Fixpoint Destroy_loop (have_context : bool) (order : list (Z * Z)) (ps : gmap Z ProgramInfo)
    : list Z * gmap Z ProgramInfo :=
  match order with
  | [] => ([], ps)
  | (_, a) :: order =>
      match ps !! a with
      | Some p =>
          if have_context && negb (IsDeleted_program p) then
            let '(ids, ps) := Destroy_loop have_context order (<[a := MarkAsDeleted_program p]> ps) in
            (p_service_id_ p :: ids, ps)
          else Destroy_loop have_context order ps
      | None => Destroy_loop have_context order ps
      end
  end.

Definition Destroy (have_context : bool) (m : ProgramManager) : list Z * ProgramManager :=
  let '(ids, ps) := Destroy_loop have_context (map_to_list (program_infos_ m)) (programs m) in
  (ids, mkProgramManager ps ∅ (next_program m)).
