(* ===== verification/ProgramInvariant.v ===== *)
(** * What is true of programs

    The tables that a link makes are consistent, and the locations of uniforms lead back to
    them; shaders and programs are counted by those who use them. *)

From S2P Require Import Prelude CmdFormat CommandBufferService CommonDecoder.
From Stdlib Require Import ZArith Lia ZifyBool Bool String.
From stdpp Require Import base numbers option gmap list.
From S2P Require Import Prelude GLConstants Names Uniforms ShaderManager ProgramManager.
Local Open Scope Z_scope.

(** ** The tables of a linked program *)

Definition service_uniform_ok (u : ServiceUniform) : Prop :=
  uniform_ok (uniform u) /\
  zlen (texture_units u) = (if IsSampler (uniform u) then u_size (uniform u) else 0) /\
  Forall is_u32 (texture_units u).

(** The samplers are the indices of the uniforms that are samplers. *)
Definition samplers_ok (us : list ServiceUniform) (samplers : list Z) : Prop := forall k,
  k ∈ samplers <-> exists u, zget us k = Some u /\ IsSampler (uniform u) = true.

Record inputs_ok (i : Inputs) : Prop := {
  inputs_uniforms : Forall service_uniform_ok (uniform_infos_ i);
  inputs_samplers : samplers_ok (uniform_infos_ i) (sampler_indices_ i);
  inputs_locations : forall l info, zget (location_infos_ i) l = Some info ->
    uniform_index info = -1 \/
    exists u, zget (uniform_infos_ i) (uniform_index info) = Some u /\
      0 <= array_index info < u_size (uniform u);
  inputs_attribs : forall l k, zget (attrib_location_to_index_map_ i) l = Some k ->
    k = -1 \/ 0 <= k < zlen (attrib_infos_ i);
}.

Lemma zget_nil {A} k : zget (@nil A) k = None.
Proof. unfold zget. by case_match. Qed.

Lemma no_inputs_ok : inputs_ok no_inputs.
Proof.
  split; cbn; [constructor| |intros l info; by rewrite zget_nil|intros l k; by rewrite zget_nil].
  intros k. split; [by intros ?%elem_of_nil|]. intros (u & Hu & _). by rewrite zget_nil in Hu.
Qed.

(** *** Reading *)

Section reading.
Variables (ss : gmap Z ShaderInfo) (attached : list (option Z)) (r : Reflection).

Definition attached_in (l : list (option Z)) : Prop := forall a, Some a ∈ l -> is_Some (ss !! a).

Lemma find_variable_done use name l : attached_in l -> exists v, find_variable ss use name l = Done v.
Proof.
  induction l as [|[a|] l IH]; intros Hl; cbn [find_variable]; [by eexists| |].
  - destruct (Hl a) as [s ->]; [by left|]. cbn [of_option obind]. case_match; [by eexists|].
    apply IH. intros b Hb. apply Hl. by right.
  - apply IH. intros b Hb. apply Hl. by right.
Qed.

Lemma GetCorrectedVariableInfo_done use v :
  attached_in attached -> exists x, GetCorrectedVariableInfo ss use attached v = Done x.
Proof.
  intros Ha. unfold GetCorrectedVariableInfo.
  destruct (find_variable_done use (act_name v) attached Ha) as [[i|] ->]; cbn [obind]; [by eexists|].
  destruct (find_variable_done use (act_name v ++ kArraySpec) attached Ha) as [[i|] ->]; cbn [obind]; by eexists.
Qed.

(** Attributes *)

(** The driver gives a location to every attribute that the program may name. *)
Definition attribs_located : Prop := forall v,
  v ∈ active_attribs r -> IsInvalidPrefix (act_name v) = false -> 0 <= glGetAttribLocation r (act_name v).

Definition attribs_below (infos : list VertexAttribInfo) (max_location : Z) : Prop :=
  Forall (fun i => 0 <= a_location i <= max_location) infos.

Lemma read_attribs_ok actives infos max_location max_length :
  attached_in attached ->
  (forall v, v ∈ actives -> IsInvalidPrefix (act_name v) = false -> 0 <= glGetAttribLocation r (act_name v)) ->
  attribs_below infos max_location ->
  exists infos' max_location' max_length',
    read_attribs ss attached r actives infos max_location max_length = Done (infos', max_location', max_length') /\
    attribs_below infos' max_location'.
Proof.
  intros Ha. revert infos max_location max_length.
  induction actives as [|v actives IH]; intros infos ml mx Hl Hb; cbn [read_attribs]; [by eexists _, _, _|].
  assert (forall w, w ∈ actives -> IsInvalidPrefix (act_name w) = false ->
            0 <= glGetAttribLocation r (act_name w)) as Hl' by (intros w Hw; apply Hl; by right).
  destruct (IsInvalidPrefix (act_name v)) eqn:Ep; [by apply IH|].
  destruct (GetCorrectedVariableInfo_done false v Ha) as [[[[n o] s] t] ->]. cbn [obind].
  apply IH; [done|]. unfold attribs_below in *. pose proof (Hl v ltac:(by left) Ep) as H0.
  apply Forall_app. split.
  - eapply Forall_impl; [exact Hb|]. intros i Hi. cbv beta in Hi. case_match; zbool; lia.
  - constructor; [|constructor]. cbn [a_location]. case_match; zbool; lia.
Qed.

Lemma index_attribs_ok infos ii index n :
  Forall (fun i => 0 <= a_location i < zlen index) infos -> 0 <= ii -> ii + zlen infos <= n ->
  (forall l k, zget index l = Some k -> k = -1 \/ 0 <= k < n) ->
  exists index', index_attribs infos ii index = Done index' /\
    forall l k, zget index' l = Some k -> k = -1 \/ 0 <= k < n.
Proof.
  revert ii index. induction infos as [|i infos IH]; intros ii index Hf Hii Hn Hi; cbn [index_attribs]; [by eexists|].
  inversion_clear Hf as [|? ? Hl Hf']. rewrite zlen_cons in Hn. pose proof (zlen_nonneg infos).
  pose proof (zset_in index (a_location i) ii Hl) as Es. rewrite Es. cbn [of_option obind]. apply IH; [|lia..|].
  - by rewrite (zlen_zset _ _ _ _ Es).
  - intros l k Hk. rewrite (zget_zset _ _ _ _ _ Es) in Hk. case_match; [|by eapply Hi].
    injection Hk as <-. right. lia.
Qed.

(** Uniforms *)

(** The driver gives a location to every element of a uniform that the program may name,
    with the size that the translator or the driver tells. *)
Definition uniform_located (v : Active) : Prop :=
  IsInvalidPrefix (act_name v) = false -> 0 <= glGetUniformLocation r (act_name v) /\
  forall name original_name size type,
    GetCorrectedVariableInfo ss true attached v = Done (name, original_name, size, type) ->
    1 <= size /\ forall k, 1 <= k < size ->
      0 <= glGetUniformLocation r (element_name (array_names size name original_name).1 k).

Lemma AddUniformInfo_cases size type location name original_name :
  AddUniformInfo r size type location name original_name =
  if size <=? 0 then UB else Done (mkServiceUniform
    (mkUniformInfo size type
       ((size >? 1) || ((zlen (array_names size name original_name).2 >? 3) &&
          bool_decide (rfind kArraySpec (array_names size name original_name).2 =
                       Some (zlen (array_names size name original_name).2 - 3))))
       (array_names size name original_name).2
       (location :: ((fun ii => glGetUniformLocation r (element_name (array_names size name original_name).1 ii))
                       <$> seqZ 1 (size - 1))))
    (if (type =? GL_SAMPLER_2D) || (type =? GL_SAMPLER_CUBE) || (type =? GL_SAMPLER_EXTERNAL_OES)
     then replicate (Z.to_nat size) 0 else [])).
Proof. unfold AddUniformInfo. case_match; [done|]. by destruct (array_names size name original_name). Qed.

Lemma AddUniformInfo_ok size type location name original_name u :
  AddUniformInfo r size type location name original_name = Done u -> service_uniform_ok u.
Proof.
  rewrite AddUniformInfo_cases. case_match; [done|]. intros [= <-]. zbool. split.
  - split; cbn [uniform u_size element_locations]; [lia|].
    rewrite zlen_cons. unfold zlen. rewrite length_fmap, length_seqZ. lia.
  - unfold IsSampler. cbn [uniform u_type u_size texture_units]. case_match; [|done].
    split; [apply zlen_replicate; lia|]. apply Forall_replicate. unfold is_u32. lia.
Qed.

Lemma AddUniformInfo_located size type location name original_name :
  1 <= size -> 0 <= location ->
  (forall k, 1 <= k < size -> 0 <= glGetUniformLocation r (element_name (array_names size name original_name).1 k)) ->
  exists u, AddUniformInfo r size type location name original_name = Done u /\
    Forall (fun l => 0 <= l) (element_locations (uniform u)).
Proof.
  intros Hs Hl Hk. rewrite AddUniformInfo_cases. bfalse (size <=? 0). eexists. split; [done|].
  cbn [uniform element_locations]. constructor; [done|]. apply Forall_fmap, Forall_forall. intros k Hin.
  apply elem_of_seqZ in Hin. unfold compose. apply Hk. lia.
Qed.

Lemma foldl_max l m : m <= foldl Z.max m l /\ Forall (fun x => x <= foldl Z.max m l) l.
Proof.
  revert m. induction l as [|x l IH]; intros m; cbn [foldl]; [split; [lia|constructor]|].
  destruct (IH (Z.max m x)) as [H1 H2]. split; [lia|]. constructor; [lia|done].
Qed.

(** What holds of the uniforms read so far. *)
Record read_so_far (us : list ServiceUniform) (samplers : list Z) (max_location : Z) : Prop := {
  so_far_ok : Forall service_uniform_ok us;
  so_far_samplers : samplers_ok us samplers;
  so_far_max : Forall (fun u => Forall (fun l => l <= max_location) (element_locations (uniform u))) us;
}.

Lemma samplers_snoc us samplers u :
  samplers_ok us samplers ->
  samplers_ok (us ++ [u]) (if IsSampler (uniform u) then samplers ++ [zlen us] else samplers).
Proof.
  intros Hs k. transitivity (k ∈ samplers \/ (k = zlen us /\ IsSampler (uniform u) = true)).
  - destruct (IsSampler (uniform u)); [rewrite elem_of_app, list_elem_of_singleton|]; intuition done.
  - rewrite (Hs k). split.
    + intros [(v & Hv & Hv')|[-> Hu]]; [exists v|exists u]; rewrite zget_snoc.
      * apply zget_range in Hv as Hr. by bfalse (k =? zlen us).
      * by rewrite Z.eqb_refl.
    + intros (v & Hv & Hv'). rewrite zget_snoc in Hv. case_match eqn:Ek; zbool.
      * injection Hv as <-. by right.
      * left. by exists v.
Qed.

Lemma read_so_far_snoc us samplers max_location u :
  read_so_far us samplers max_location -> service_uniform_ok u ->
  read_so_far (us ++ [u]) (if IsSampler (uniform u) then samplers ++ [zlen us] else samplers)
    (foldl Z.max max_location (element_locations (uniform u))).
Proof.
  intros [H1 H2 H3] Hu. destruct (foldl_max (element_locations (uniform u)) max_location) as [Hm Hf].
  split; [by apply Forall_app; split; [|constructor]|by apply samplers_snoc|].
  apply Forall_app. split; [|by constructor]. eapply Forall_impl; [exact H3|]. intros v Hv. cbv beta in Hv.
  eapply Forall_impl; [exact Hv|]. intros l Hl. cbv beta in Hl. lia.
Qed.

Lemma read_uniforms_so_far actives us samplers max_location max_length us' samplers' max_location' max_length' :
  read_so_far us samplers max_location ->
  read_uniforms ss attached r actives us samplers max_location max_length =
    Done (us', samplers', max_location', max_length') ->
  read_so_far us' samplers' max_location'.
Proof.
  revert us samplers max_location max_length.
  induction actives as [|v actives IH]; intros us samplers ml mx Hr; cbn [read_uniforms].
  { by intros [= <- <- <- <-]. }
  case_match; [by apply IH|]. intros Hrun.
  destruct (GetCorrectedVariableInfo ss true attached v) as [[[[n o] s] t]| |]; cbn [obind] in Hrun; try done.
  destruct (AddUniformInfo r s t (glGetUniformLocation r (act_name v)) n o) as [u| |] eqn:Eu; cbn [obind] in Hrun; try done.
  apply AddUniformInfo_ok in Eu. eapply IH, Hrun. by apply read_so_far_snoc.
Qed.

Definition all_located (us : list ServiceUniform) : Prop :=
  Forall (fun u => Forall (fun l => 0 <= l) (element_locations (uniform u))) us.

Lemma read_uniforms_done actives us samplers max_location max_length :
  attached_in attached -> (forall v, v ∈ actives -> uniform_located v) -> all_located us ->
  exists us' samplers' max_location' max_length',
    read_uniforms ss attached r actives us samplers max_location max_length =
      Done (us', samplers', max_location', max_length') /\ all_located us'.
Proof.
  intros Ha. revert us samplers max_location max_length.
  induction actives as [|v actives IH]; intros us samplers ml mx Hl Hu; cbn [read_uniforms].
  { by eexists _, _, _, _. }
  assert (forall w, w ∈ actives -> uniform_located w) as Hl' by (intros w Hw; apply Hl; by right).
  destruct (IsInvalidPrefix (act_name v)) eqn:Ep; [by apply IH|].
  destruct (GetCorrectedVariableInfo_done true v Ha) as [[[[n o] s] t] Ec]. rewrite Ec. cbn [obind].
  destruct (Hl v ltac:(by left) Ep) as [H0 Hk]. destruct (Hk _ _ _ _ Ec) as [Hs Hk'].
  destruct (AddUniformInfo_located s t _ n o Hs H0 Hk') as (u & -> & Hu'). cbn [obind].
  apply IH; [done|]. apply Forall_app. split; [done|by constructor].
Qed.

End reading.

(** *** The table of locations *)

Lemma index_elements_done locations ii jj index :
  Forall (fun l => 0 <= l < zlen index) locations ->
  exists index', index_elements locations ii jj index = Done index' /\ zlen index' = zlen index.
Proof.
  revert jj index. induction locations as [|l locations IH]; intros jj index Hf; cbn [index_elements]; [by eexists|].
  inversion_clear Hf as [|? ? Hl Hf']. pose proof (zset_in index l (mkLocationInfo ii jj) Hl) as Es. rewrite Es.
  cbn [of_option obind]. rewrite <- (zlen_zset _ _ _ _ Es). apply IH. by rewrite (zlen_zset _ _ _ _ Es).
Qed.

(** Entries come from the locations. *)
Lemma index_elements_from locations ii jj index index' l info :
  index_elements locations ii jj index = Done index' -> zget index' l = Some info ->
  zget index l = Some info \/ (uniform_index info = ii /\ jj <= array_index info < jj + zlen locations).
Proof.
  revert jj index. induction locations as [|k locations IH]; intros jj index; cbn [index_elements].
  { intros [= <-]. by left. }
  destruct (zset index k _) as [i|] eqn:Es; [|done]. cbn [of_option obind]. intros Hrun Hl.
  rewrite zlen_cons. pose proof (zlen_nonneg locations).
  destruct (IH _ _ Hrun Hl) as [H1|[H1 H2]]; [|right; split; [done|lia]].
  rewrite (zget_zset _ _ _ _ _ Es) in H1. case_match; [|by left]. injection H1 as <-. right. cbn. lia.
Qed.

(** A location that is not written keeps its entry; one that is written once has it. *)
Lemma index_elements_at locations ii jj index index' :
  index_elements locations ii jj index = Done index' ->
  (forall l, l ∉ locations -> zget index' l = zget index l) /\
  (NoDup locations -> forall k l, zget locations k = Some l -> zget index' l = Some (mkLocationInfo ii (jj + k))).
Proof.
  revert jj index. induction locations as [|l locations IH]; intros jj index; cbn [index_elements].
  { intros [= <-]. split; [done|]. intros _ k l Hk. by rewrite zget_nil in Hk. }
  destruct (zset index l _) as [i|] eqn:Es; [|done]. cbn [of_option obind]. intros Hrun.
  destruct (IH _ _ Hrun) as [H1 H2]. split.
  - intros m [Hm Hm']%not_elem_of_cons. rewrite H1 by done. rewrite (zget_zset _ _ _ _ _ Es). by bfalse (l =? m).
  - intros [Hnl Hnd]%NoDup_cons k m Hk. destruct (decide (k = 0)) as [->|Hne].
    + injection Hk as ->. rewrite H1 by done. rewrite (zget_zset _ _ _ _ _ Es), Z.eqb_refl. do 2 f_equal. lia.
    + assert (zget locations (k - 1) = Some m) as Hk'.
      { revert Hk. unfold zget. destruct (0 <=? k) eqn:E1; [|done]. zbool. btrue (0 <=? k - 1).
        replace (Z.to_nat k) with (S (Z.to_nat (k - 1))) by lia. done. }
      rewrite (H2 Hnd _ _ Hk'). do 2 f_equal. lia.
Qed.

Lemma index_uniforms_done us ii index :
  Forall (fun u => Forall (fun l => 0 <= l < zlen index) (element_locations (uniform u))) us ->
  exists index', index_uniforms us ii index = Done index'.
Proof.
  revert ii index. induction us as [|u us IH]; intros ii index Hf; cbn [index_uniforms]; [by eexists|].
  inversion_clear Hf as [|? ? Hl Hf'].
  destruct (index_elements_done _ ii 0 index Hl) as (index1 & -> & Hlen). cbn [obind]. apply IH. by rewrite Hlen.
Qed.

Lemma index_uniforms_from us ii index index' l info :
  index_uniforms us ii index = Done index' -> zget index' l = Some info ->
  zget index l = Some info \/
  exists u, zget us (uniform_index info - ii) = Some u /\
    0 <= array_index info < zlen (element_locations (uniform u)).
Proof.
  revert ii index. induction us as [|u us IH]; intros ii index; cbn [index_uniforms]; [intros [= <-]; by left|].
  destruct (index_elements _ ii 0 index) as [i| |] eqn:Ee; cbn [obind]; try done. intros Hrun Hl.
  destruct (IH _ _ Hrun Hl) as [H1|(v & Hv & Ha)].
  - destruct (index_elements_from _ _ _ _ _ _ _ Ee H1) as [?|[-> Ha]]; [by left|]. right. exists u.
    replace (ii - ii) with 0 by lia. split; [done|]. lia.
  - right. exists v. split; [|done]. apply zget_range in Hv as Hr. unfold zget in *.
    btrue (0 <=? uniform_index info - ii). replace (0 <=? uniform_index info - (ii + 1)) with true in Hv by lia.
    replace (Z.to_nat (uniform_index info - ii)) with (S (Z.to_nat (uniform_index info - (ii + 1)))) by lia. done.
Qed.

Lemma elem_of_uniform_locations us l :
  l ∈ uniform_locations us <-> exists u, u ∈ us /\ l ∈ element_locations (uniform u).
Proof.
  unfold uniform_locations. rewrite list_elem_of_In, in_flat_map. split; intros (u & Hu & Hl); exists u;
    by rewrite ?list_elem_of_In in *.
Qed.

Lemma index_uniforms_at us ii index index' :
  index_uniforms us ii index = Done index' ->
  (forall l, l ∉ uniform_locations us -> zget index' l = zget index l) /\
  (NoDup (uniform_locations us) -> forall i u k l, zget us i = Some u ->
     zget (element_locations (uniform u)) k = Some l -> zget index' l = Some (mkLocationInfo (ii + i) k)).
Proof.
  revert ii index. induction us as [|u us IH]; intros ii index; cbn [index_uniforms].
  { intros [= <-]. split; [done|]. intros _ i u k l Hi. by rewrite zget_nil in Hi. }
  destruct (index_elements _ ii 0 index) as [i1| |] eqn:Ee; cbn [obind]; try done. intros Hrun.
  destruct (IH _ _ Hrun) as [H1 H2]. destruct (index_elements_at _ _ _ _ _ Ee) as [H3 H4].
  change (uniform_locations (u :: us)) with (element_locations (uniform u) ++ uniform_locations us). split.
  - intros l Hl. rewrite elem_of_app in Hl. rewrite H1, H3 by tauto. done.
  - intros Hnd i v k l Hi Hk. apply NoDup_app in Hnd as (Hnd1 & Hdis & Hnd2).
    destruct (decide (i = 0)) as [->|Hne].
    + injection Hi as ->. assert (l ∈ element_locations (uniform v)) as Hin by (apply elem_of_zget; by exists k).
      rewrite H1 by (by apply Hdis). rewrite (H4 Hnd1 _ _ Hk). do 2 f_equal; lia.
    + apply zget_range in Hi as Hr. rewrite zlen_cons in Hr.
      assert (zget us (i - 1) = Some v) as Hi'.
      { unfold zget in *. replace (0 <=? i) with true in Hi by lia. btrue (0 <=? i - 1).
        by replace (Z.to_nat i) with (S (Z.to_nat (i - 1))) in Hi by lia. }
      rewrite (H2 Hnd2 _ _ _ _ Hi' Hk). do 2 f_equal; lia.
Qed.

(** *** The result of a link *)

Lemma zget_replicate_inv {A} n (x y : A) k : zget (replicate n x) k = Some y -> y = x.
Proof. unfold zget. case_match; [|done]. intros [-> _]%lookup_replicate. done. Qed.

Lemma max_nonneg_length {A} (x : A) n : -1 <= n -> zlen (replicate (Z.to_nat (n + 1)) x) = n + 1.
Proof. intros Hn. apply zlen_replicate. lia. Qed.

Lemma foldl_max_ge l m : m <= foldl Z.max m l.
Proof. apply foldl_max. Qed.

Lemma read_attribs_max ss attached r actives infos ml mx infos' ml' mx' :
  read_attribs ss attached r actives infos ml mx = Done (infos', ml', mx') -> ml <= ml'.
Proof.
  revert infos ml mx. induction actives as [|v actives IH]; intros infos ml mx; cbn [read_attribs];
    [intros [= <- <- <-]; lia|].
  case_match; [by apply IH|]. destruct (GetCorrectedVariableInfo ss false attached v) as [[[[n o] s] t]| |];
    cbn [obind]; try done. intros Hrun%IH. revert Hrun. case_match; zbool; lia.
Qed.

Lemma read_uniforms_max ss attached r actives us samplers ml mx us' samplers' ml' mx' :
  read_uniforms ss attached r actives us samplers ml mx = Done (us', samplers', ml', mx') -> ml <= ml'.
Proof.
  revert us samplers ml mx. induction actives as [|v actives IH]; intros us samplers ml mx; cbn [read_uniforms];
    [intros [= <- <- <- <-]; lia|].
  case_match; [by apply IH|]. destruct (GetCorrectedVariableInfo ss true attached v) as [[[[n o] s] t]| |];
    cbn [obind]; try done.
  destruct (AddUniformInfo _ _ _ _ _ _) as [u| |]; cbn [obind]; try done. intros Hrun%IH.
  pose proof (foldl_max_ge (element_locations (uniform u)) ml). lia.
Qed.

(** What the driver promises of a program it linked. *)
Record reflection_ok (ss : gmap Z ShaderInfo) (attached : list (option Z)) (r : Reflection) : Prop := {
  reflection_attribs : attribs_located r;
  reflection_uniforms : forall v, v ∈ active_uniforms r -> uniform_located ss attached r v;
}.

Lemma read_inputs_ok ss attached r :
  attached_in ss attached -> reflection_ok ss attached r ->
  exists i, read_inputs ss attached r = Done i /\ inputs_ok i.
Proof.
  intros Ha [Hra Hru]. unfold read_inputs.
  destruct (read_attribs_ok ss attached r (active_attribs r) [] (-1) 0 Ha Hra) as (attribs & ml & mx & Ea & Hb); [constructor|].
  rewrite Ea. cbn [obind]. pose proof (read_attribs_max _ _ _ _ _ _ _ _ _ _ Ea) as Hml.
  destruct (index_attribs_ok attribs 0 (replicate (Z.to_nat (ml + 1)) (-1)) (zlen attribs)) as (index & -> & Hindex);
    [|lia|lia|intros l k Hk; left; by eapply zget_replicate_inv|].
  { rewrite max_nonneg_length by done. eapply Forall_impl; [exact Hb|]. intros i Hi. cbv beta in Hi. lia. }
  cbn [obind].
  destruct (read_uniforms_done ss attached r (active_uniforms r) [] [] (-1) 0 Ha Hru) as (us & samplers & ul & ux & Eu & Hl);
    [constructor|].
  rewrite Eu. cbn [obind]. pose proof (read_uniforms_max _ _ _ _ _ _ _ _ _ _ _ _ Eu) as Hul.
  destruct (read_uniforms_so_far ss attached r _ _ _ _ _ _ _ _ _ ltac:(split; [constructor| |constructor]; intros k; split;
    [by intros ?%elem_of_nil|intros (u & Hu & _); by rewrite zget_nil in Hu]) Eu) as [H1 H2 H3].
  destruct (index_uniforms_done us 0 (replicate (Z.to_nat (ul + 1)) (mkLocationInfo (-1) (-1)))) as (uindex & Ei).
  { rewrite max_nonneg_length by done. apply Forall_forall. intros u Hu. apply Forall_forall. intros l Hin.
    unfold all_located in Hl. rewrite Forall_forall in Hl, H3. specialize (Hl u Hu). specialize (H3 u Hu).
    rewrite Forall_forall in Hl, H3. specialize (Hl l Hin). specialize (H3 l Hin). cbv beta in *. lia. }
  rewrite Ei. cbn [obind]. eexists. split; [done|]. split; cbn [uniform_infos_ sampler_indices_ location_infos_
    attrib_location_to_index_map_ attrib_infos_]; [done|done| |done].
  intros l info Hi. destruct (index_uniforms_from _ _ _ _ _ _ Ei Hi) as [H0|(u & Hu & Hr)].
  - left. by rewrite (zget_replicate_inv _ _ _ _ H0).
  - right. exists u. rewrite Z.sub_0_r in Hu. split; [done|].
    rewrite Forall_forall in H1. destruct (H1 u) as [[_ Hlen] _]; [apply elem_of_zget; by eexists|].
    by rewrite <- Hlen.
Qed.

(** ** Locations lead back *)

Lemma zget_replicate_all {A} n (x : A) k : 0 <= k < Z.of_nat n -> zget (replicate n x) k = Some x.
Proof. intros Hk. unfold zget. btrue (0 <=? k). apply lookup_replicate. split; [done|lia]. Qed.

Lemma read_inputs_uniforms ss attached r i :
  read_inputs ss attached r = Done i ->
  exists n, index_uniforms (uniform_infos_ i) 0 (replicate n (mkLocationInfo (-1) (-1))) = Done (location_infos_ i).
Proof.
  unfold read_inputs. destruct (read_attribs _ _ _ _ _ _ _) as [[[? ?] ?]| |]; try done. cbn [obind].
  destruct (index_attribs _ _ _) as [?| |]; try done. cbn [obind].
  destruct (read_uniforms _ _ _ _ _ _ _ _) as [[[[us ?] ml] ?]| |]; try done. cbn [obind].
  destruct (index_uniforms _ _ _) as [index| |] eqn:Ei; try done. cbn [obind]. intros [= <-]. by eexists.
Qed.

Lemma Update_inputs ss answer p p' :
  Update ss answer p = Done p' ->
  read_inputs ss (attached_shaders_ p) (gl_reflection answer) = Done (inputs p') /\ p_valid_ p' = true /\ link_status_ p' = true.
Proof.
  unfold Update. cbn [UpdateLogInfo Reset with_inputs with_status set_log_info attached_shaders_].
  destruct (read_inputs _ _ _) as [i| |]; try done. cbn [obind]. by intros [= <-].
Qed.

(** C21: The table of locations is the inverse of the uniforms.  After a link in which no two
    elements have one location, every location leads to its uniform and to the index of the
    element, and a location that no element has leads nowhere. *)
Theorem Update_locations ss answer p p' :
  Update ss answer p = Done p' -> NoDup (uniform_locations (uniform_infos_ (inputs p'))) ->
  (forall ii u jj l, zget (uniform_infos_ (inputs p')) ii = Some u -> zget (element_locations (uniform u)) jj = Some l ->
     GetUniformInfoByLocation l p' = Done (Some (u, jj))) /\
  (forall l, l ∉ uniform_locations (uniform_infos_ (inputs p')) -> GetUniformInfoByLocation l p' = Done None).
Proof.
  intros (Hr & _ & _)%Update_inputs Hnd. destruct (read_inputs_uniforms _ _ _ _ Hr) as (n & Hi).
  destruct (index_uniforms_at _ _ _ _ Hi) as [H1 H2]. split.
  - intros ii u jj l Hu Hl. specialize (H2 Hnd ii u jj l Hu Hl). unfold GetUniformInfoByLocation.
    pose proof (zget_range _ _ _ H2) as R. pose proof (zget_range _ _ _ Hu) as Ru.
    btrue ((l >=? 0) && (l <? zlen (location_infos_ (inputs p')))). rewrite H2. cbn [of_option obind uniform_index array_index].
    btrue (0 + ii >=? 0). replace (0 + ii) with ii by lia. by rewrite Hu.
  - intros l Hl. specialize (H1 l Hl). unfold GetUniformInfoByLocation. case_match eqn:E1; [|done]. zbool.
    destruct (zget_in (location_infos_ (inputs p')) l) as [info Hinfo]; [lia|]. rewrite Hinfo. cbn [of_option obind].
    rewrite Hinfo in H1. symmetry in H1. apply zget_replicate_inv in H1 as ->. done.
Qed.

(** A link that the driver reports for a shader whose translation names an array of two
    elements, of which one is unused and has no location. *)
Definition example_reflection : Reflection :=
  mkReflection [] [mkActive (chars "a[0]") 1 GL_FLOAT] (fun _ => -1)
    (fun name => if bool_decide (name = chars "a[0]") then 3 else -1).

Definition example_shaders : gmap Z ShaderInfo :=
  {[ 0 := mkShaderInfo 1 5 GL_VERTEX_SHADER true None None None ∅
            {[ chars "a[0]" := mkVariableInfo GL_FLOAT 2 (chars "a[0]") ]} ]}.

(** The location [-1] of the unused element is then an index. *)
Theorem unlocated_element_written_out_of_bounds :
  Update example_shaders (mkLinkAnswer true example_reflection None)
    (with_attached [Some 0; None] (ProgramInfo_new 1)) = UB.
Proof. vm_compute. reflexivity. Qed.

Definition located_reflection : Reflection :=
  mkReflection [mkActive (chars "pos") 1 GL_FLOAT_VEC4]
    [mkActive (chars "a[0]") 2 GL_FLOAT; mkActive (chars "tex") 1 GL_SAMPLER_2D]
    (fun _ => 0)
    (fun name => if bool_decide (name = chars "a[0]") then 3 else
                 if bool_decide (name = chars "a[1]") then 4 else 1).

Definition located_program : ProgramInfo :=
  match Update example_shaders (mkLinkAnswer true located_reflection None)
          (with_attached [Some 0; None] (ProgramInfo_new 1)) with
  | Done p => p
  | _ => ProgramInfo_new 0
  end.

Theorem Update_locations_witness :
  (forall ii u jj l, zget (uniform_infos_ (inputs located_program)) ii = Some u ->
     zget (element_locations (uniform u)) jj = Some l ->
     GetUniformInfoByLocation l located_program = Done (Some (u, jj))) /\
  (forall l, l ∉ uniform_locations (uniform_infos_ (inputs located_program)) ->
     GetUniformInfoByLocation l located_program = Done None).
Proof.
  apply (Update_locations example_shaders (mkLinkAnswer true located_reflection None)
           (with_attached [Some 0; None] (ProgramInfo_new 1)));
    [vm_compute; reflexivity|].
  change (NoDup [3; 4; 1]). apply (bool_decide_unpack _). vm_compute. exact I.
Defined.

(** ** The bucket of program information

    What [ProgramInfo::GetProgramInfo] writes: a header, the inputs, the locations and the names,
    one after the other. *)

Section format.
Variable p : ProgramInfo.

Notation attribs := (attrib_infos_ (inputs p)).
Notation uniforms := (uniform_infos_ (inputs p)).

Definition info_locations : list Z := attrib_locations attribs ++ uniform_locations uniforms.
Definition info_names : list Z := attrib_names attribs ++ uniform_names uniforms.

(** The offsets of the locations and of the names. *)
Definition locations_offset : Z := header_size + (zlen attribs + zlen uniforms) * input_size_of.
Definition names_offset : Z := locations_offset + 4 * zlen info_locations.
Definition info_size : Z := names_offset + zlen info_names.

Definition info_inputs : list Z :=
  attrib_inputs attribs locations_offset names_offset ++
  uniform_inputs uniforms (locations_offset + 4 * zlen attribs) (names_offset + zlen (attrib_names attribs)).

Definition info_header : list Z := [Z.b2z (link_status_ p); zlen attribs; zlen uniforms].

Definition info_bytes : list Z :=
  words_to_bytes info_header ++ words_to_bytes info_inputs ++ words_to_bytes info_locations ++ info_names.

End format.

(** ** Lengths *)

Lemma zlen_attrib_inputs infos l n : zlen (attrib_inputs infos l n) = 5 * zlen infos.
Proof.
  revert l n. induction infos as [|i infos IH]; intros l n; cbn [attrib_inputs]; [done|].
  rewrite zlen_app, IH, zlen_cons. change (zlen (ProgramInput _ _ _ _ _)) with 5. lia.
Qed.

Lemma zlen_uniform_inputs infos l n : zlen (uniform_inputs infos l n) = 5 * zlen infos.
Proof.
  revert l n. induction infos as [|i infos IH]; intros l n; cbn [uniform_inputs]; [done|].
  rewrite zlen_app, IH, zlen_cons. change (zlen (ProgramInput _ _ _ _ _)) with 5. lia.
Qed.

Lemma zlen_fmap {A B} (f : A -> B) l : zlen (f <$> l) = zlen l.
Proof. unfold zlen. by rewrite length_fmap. Qed.

Lemma zlen_info_inputs p : zlen (info_inputs p) = 5 * (zlen (attrib_infos_ (inputs p)) + zlen (uniform_infos_ (inputs p))).
Proof. unfold info_inputs. rewrite zlen_app, zlen_attrib_inputs, zlen_uniform_inputs. lia. Qed.

Lemma zlen_info_locations p :
  zlen (info_locations p) = zlen (attrib_infos_ (inputs p)) + zlen (uniform_locations (uniform_infos_ (inputs p))).
Proof. unfold info_locations, attrib_locations. rewrite zlen_app, zlen_fmap. lia. Qed.

Lemma zlen_info_bytes p : zlen (info_bytes p) = info_size p.
Proof.
  unfold info_bytes, info_size, names_offset, locations_offset, header_size, input_size_of.
  rewrite !zlen_app, !zlen_words_to_bytes, zlen_info_inputs. change (zlen (info_header p)) with 3. lia.
Qed.

(** ** Writing one part after the other *)

Lemma zwrite_part {A} (pre mid rest src : list A) :
  zlen src = zlen mid -> zwrite (pre ++ mid ++ rest) (zlen pre) src = Some (pre ++ src ++ rest).
Proof.
  intros Hl. rewrite zwrite_in; [|apply zlen_nonneg|rewrite !zlen_app; pose proof (zlen_nonneg rest); lia].
  unfold zlen in *. rewrite Nat2Z.id. rewrite take_app_length, drop_app_add.
  replace (length src) with (length mid) by lia. by rewrite drop_app_length.
Qed.

Lemma split_at {A} (l : list A) n m : 0 <= n -> 0 <= m -> zlen l = n + m -> exists l1 l2, l = l1 ++ l2 /\ zlen l1 = n /\ zlen l2 = m.
Proof.
  intros Hn Hm Hl. exists (take (Z.to_nat n) l), (drop (Z.to_nat n) l). rewrite take_drop. split; [done|].
  unfold zlen in *. rewrite length_take, length_drop. lia.
Qed.

Section writing.
Context `{Platform}.

Lemma GetData_in offset n b :
  bucket_ok b -> 0 <= offset -> 0 <= n -> offset + n <= size_ b -> size_ b <> 0 -> GetData offset n b = Some offset.
Proof.
  intros Hb Ho Hn Hs Hz. pose proof (bucket_size _ Hb) as Hu. pose proof (bucket_data _ Hb) as Hd.
  unfold GetData, OffsetSizeValid. pose proof (u32_is_usize (offset + n) ltac:(unfold is_u32 in *; lia)) as Hr.
  unfold usize. rewrite Z.mod_small by lia. btrue ((offset + n <=? size_ b) && (offset + n >=? offset)).
  by destruct (data_ b).
Qed.

(** A part of the bucket's data is written. *)
Lemma write_part b pre mid rest bytes o n :
  bucket_ok b -> size_ b <> 0 -> zlen (pre ++ mid ++ rest) = size_ b -> zlen mid = n -> zlen bytes = n -> zlen pre = o ->
  write_through (GetData o n b) bytes (pre ++ mid ++ rest) = Done (pre ++ bytes ++ rest).
Proof.
  intros Hb Hz Hl <- Hn <-. rewrite !zlen_app in Hl. pose proof (zlen_nonneg pre). pose proof (zlen_nonneg mid).
  pose proof (zlen_nonneg rest). rewrite GetData_in by (done || lia). unfold write_through. destruct bytes as [|x bytes].
  - destruct mid as [|y mid]; [done|]. rewrite zlen_cons in Hn. pose proof (zlen_nonneg mid). change (zlen []) with 0 in Hn. lia.
  - cbn [of_option obind]. by rewrite zwrite_part.
Qed.

(** The sizes are computed without wrapping when the whole fits. *)
Theorem GetProgramInfo_spec p b :
  bucket_ok b -> info_size p < 2 ^ 32 ->
  GetProgramInfo p b = Done (mkBucket (info_size p) (Some (info_bytes p))).
Proof.
  intros Hb Hsmall.
  set (attribs := attrib_infos_ (inputs p)). set (uniforms := uniform_infos_ (inputs p)).
  pose proof (zlen_nonneg attribs) as Ha. pose proof (zlen_nonneg uniforms) as Hu.
  pose proof (zlen_nonneg (uniform_locations uniforms)) as Hul. pose proof (zlen_nonneg (attrib_names attribs)) as Han.
  pose proof (zlen_nonneg (uniform_names uniforms)) as Hun.
  assert (names_offset p = 12 + (zlen attribs + zlen uniforms) * 20 + 4 * (zlen attribs + zlen (uniform_locations uniforms))) as En.
  { unfold names_offset, locations_offset, header_size, input_size_of. by rewrite zlen_info_locations. }
  assert (locations_offset p = 12 + (zlen attribs + zlen uniforms) * 20) as El by done.
  assert (info_size p = names_offset p + (zlen (attrib_names attribs) + zlen (uniform_names uniforms))) as Es.
  { unfold info_size, info_names. by rewrite zlen_app. }
  unfold GetProgramInfo. cbv zeta. fold attribs uniforms.
  rewrite (u32_id (zlen attribs + zlen uniforms)) by (unfold is_u32; lia).
  rewrite (u32_id ((zlen attribs + zlen uniforms) * input_size_of)) by (unfold is_u32, input_size_of; lia).
  rewrite (u32_id (zlen attribs + zlen (uniform_locations uniforms))) by (unfold is_u32; lia).
  rewrite (u32_id ((zlen attribs + zlen (uniform_locations uniforms)) * 4)) by (unfold is_u32; lia).
  rewrite (u32_id (zlen (attrib_names attribs) + zlen (uniform_names uniforms))) by (unfold is_u32; lia).
  change (header_size + (zlen attribs + zlen uniforms) * input_size_of) with (locations_offset p).
  replace (locations_offset p + (zlen attribs + zlen (uniform_locations uniforms)) * 4) with (names_offset p) by lia.
  replace (names_offset p + (zlen (attrib_names attribs) + zlen (uniform_names uniforms))) with (info_size p) by lia.
  rewrite (u32_id (locations_offset p)), (u32_id (names_offset p)), (u32_id (info_size p)) by (unfold is_u32; lia).
  pose proof (SetSize_ok (info_size p) b ltac:(unfold is_u32; lia) Hb) as Hb'. pose proof (SetSize_size (info_size p) b) as Hsize.
  set (b' := SetSize (info_size p) b) in *. assert (size_ b' <> 0) as Hz by lia.
  rewrite (GetData_in 0 (info_size p) b') by (done || lia). cbn [of_option obind].
  pose proof (bucket_data _ Hb') as Hdata. destruct (data_ b') as [data|] eqn:Ed; [|lia]. cbn [of_option obind].
  rewrite Hsize in Hdata.
  destruct (split_at data 12 (info_size p - 12)) as (d1 & r1 & -> & H1 & Hr1); [lia..|].
  destruct (split_at r1 ((zlen attribs + zlen uniforms) * 20) (info_size p - locations_offset p)) as (d2 & r2 & -> & H2 & Hr2); [lia..|].
  destruct (split_at r2 (4 * zlen (info_locations p)) (zlen (info_names p))) as (d3 & d4 & -> & H3 & H4);
    [pose proof (zlen_nonneg (info_locations p)); lia|apply zlen_nonneg|unfold info_size, names_offset in *; lia|].
  rewrite zlen_info_locations in H3. fold attribs uniforms in H3.
  assert (zlen (d1 ++ d2 ++ d3 ++ d4) = size_ b') as Hlen by (rewrite Hdata; lia).
  set (w1 := words_to_bytes (info_header p)). set (w2 := words_to_bytes (info_inputs p)).
  set (w3 := words_to_bytes (info_locations p)). set (w4 := info_names p).
  assert (zlen w1 = 12) as L1 by done.
  assert (zlen w2 = (zlen attribs + zlen uniforms) * input_size_of) as L2.
  { unfold w2, input_size_of. rewrite zlen_words_to_bytes, zlen_info_inputs. fold attribs uniforms. lia. }
  assert (zlen w3 = (zlen attribs + zlen (uniform_locations uniforms)) * 4) as L3.
  { unfold w3. rewrite zlen_words_to_bytes, zlen_info_locations. fold attribs uniforms. lia. }
  assert (zlen w4 = zlen (attrib_names attribs) + zlen (uniform_names uniforms)) as L4.
  { unfold w4, info_names. by rewrite zlen_app. }
  unfold input_size_of in L2. rewrite !zlen_app in Hlen. clear Hdata.
  assert (write_through (Some 0) w1 (d1 ++ d2 ++ d3 ++ d4) = Done (w1 ++ d2 ++ d3 ++ d4)) as W1.
  { rewrite <- (GetData_in 0 12 b' Hb') by lia. apply (write_part b' [] d1); rewrite ?zlen_app; done || lia. }
  assert (write_through (GetData header_size ((zlen attribs + zlen uniforms) * 20) b') w2 (w1 ++ d2 ++ d3 ++ d4) =
          Done (w1 ++ w2 ++ d3 ++ d4)) as W2.
  { apply write_part; rewrite ?zlen_app; done || lia. }
  assert (write_through (GetData (locations_offset p) ((zlen attribs + zlen (uniform_locations uniforms)) * 4) b') w3
            (w1 ++ w2 ++ d3 ++ d4) = Done (w1 ++ w2 ++ w3 ++ d4)) as W3.
  { rewrite !(app_assoc w1 w2). apply write_part; rewrite ?zlen_app; done || lia. }
  assert (write_through (GetData (names_offset p) (zlen (attrib_names attribs) + zlen (uniform_names uniforms)) b') w4
            (w1 ++ w2 ++ w3 ++ d4) = Done (w1 ++ w2 ++ w3 ++ w4)) as W4.
  { pose proof (write_part b' (w1 ++ w2 ++ w3) d4 [] w4 (names_offset p) (zlen (attrib_names attribs) + zlen (uniform_names uniforms))
      Hb' Hz) as W. rewrite !app_nil_r, <- !app_assoc in W. apply W; rewrite ?zlen_app; done || lia. }
  change [Z.b2z (link_status_ p); zlen attribs; zlen uniforms] with (info_header p). fold w1. rewrite W1. cbn [obind].
  change (attrib_inputs attribs (locations_offset p) (names_offset p) ++ _) with (info_inputs p).
  change (words_to_bytes (info_inputs p)) with w2. change input_size_of with 20. rewrite W2. cbn [obind].
  change (words_to_bytes (attrib_locations attribs ++ uniform_locations uniforms)) with w3. rewrite W3. cbn [obind].
  change (attrib_names attribs ++ uniform_names uniforms) with w4. rewrite W4. cbn [obind]. by rewrite Hsize.
Qed.

End writing.
