(* ===== verification/DrawTextures.v ===== *)
(** * Textures during a draw

    [SetBlackTextureForNonRenderableTextures] and [RestoreStateForNonRenderableTextures] of
    [gpu/command_buffer/service/gles2_cmd_decoder.cc]: for the time of a draw, a texture that
    the driver could not sample as OpenGL ES says is replaced by a black one. *)

From S2P Require Import Prelude CmdFormat CommandBufferService CommonDecoder.
From Stdlib Require Import ZArith Lia ZifyBool Bool.
From stdpp Require Import base numbers option gmap sets list.
From S2P Require Import Prelude GLConstants Validators GLES2Util FeatureInfo Uniforms ShaderManager ProgramManager ProgramInvariant.
From S2P Require Import TextureInfo TextureManager RenderbufferManager FramebufferManager ContextState ContextInvariant ContextCommands.
Local Open Scope Z_scope.

Section draw.
Variable cfg : Config.
Implicit Types (c : Context) (p : ProgramInfo).

Notation fi := (feature_info_ cfg).

(** ** The code *)

Definition GetInfoForSamplerType (type : Z) (unit : TextureUnit) : option Z :=
  if type =? GL_SAMPLER_2D then bound_texture_2d unit
  else if type =? GL_SAMPLER_EXTERNAL_OES then bound_texture_external_oes unit
  else bound_texture_cube_map unit.

Definition GetBindTargetForSamplerType (type : Z) : Z :=
  if type =? GL_SAMPLER_2D then GL_TEXTURE_2D
  else if type =? GL_SAMPLER_EXTERNAL_OES then GL_TEXTURE_EXTERNAL_OES
  else GL_TEXTURE_CUBE_MAP.

(** Whether there is a texture that can be rendered. *)
Definition renderable (info : option Z) c : outcome bool :=
  match info with
  | None => Done false
  | Some a => (do t <- of_option (texs c !! a) ;; Done (CanRender fi t))%gpu
  end.

(** The body of both loops runs for each unit of each sampler of the program. *)
Fixpoint each_unit (body : Z -> TextureUnit -> Context -> outcome (bool * Context)) (units : list Z) c
    : outcome (bool * Context) :=
  match units with
  | [] => Done (false, c)
  | index :: units =>
      (do (set, c) <- (if index <? max_texture_units cfg then
                         do unit <- of_option (zget (texture_units_ (bindings c)) index) ;; body index unit c
                       else Done (false, c)) ;;
       do (rest, c) <- each_unit body units c ;;
       Done (set || rest, c))%gpu
  end.

Fixpoint each_sampler (body : Z -> Z -> TextureUnit -> Context -> outcome (bool * Context)) p (samplers : list Z) c
    : outcome (bool * Context) :=
  match samplers with
  | [] => Done (false, c)
  | k :: samplers =>
      (do u <- of_option (GetUniformInfo k p) ;;
       do (set, c) <- each_unit (body (u_type (uniform u))) (texture_units u) c ;;
       do (rest, c) <- each_sampler body p samplers c ;;
       Done (set || rest, c))%gpu
  end.

Definition set_black (type index : Z) (unit : TextureUnit) c : outcome (bool * Context) :=
  (do ok <- renderable (GetInfoForSamplerType type unit) c ;;
   if negb ok then
     let c := gl (glActiveTexture (GL_TEXTURE0 + index)) c in
     Done (true, gl (glBindTexture (GetBindTargetForSamplerType type)
                       (black_texture_id type (texture_manager (group c)))) c)
   else Done (false, c))%gpu.

(** The answer is whether a texture was replaced. *)
Definition SetBlackTextureForNonRenderableTextures p c : outcome (bool * Context) :=
  if negb (HaveUnrenderableTextures (texture_manager (group c))) then Done (false, c)
  else each_sampler set_black p (sampler_indices_ (inputs p)) c.

Definition restore_info (type : Z) (unit : TextureUnit) : option Z :=
  if type =? GL_SAMPLER_2D then bound_texture_2d unit else bound_texture_cube_map unit.

(** The texture that was previously bound. *)
Definition previous_info (unit : TextureUnit) : option Z :=
  if bind_target unit =? GL_TEXTURE_2D then bound_texture_2d unit else bound_texture_cube_map unit.

Definition restore (type index : Z) (unit : TextureUnit) c : outcome (bool * Context) :=
  (do ok <- renderable (restore_info type unit) c ;;
   if negb ok then
     let c := gl (glActiveTexture (GL_TEXTURE0 + index)) c in
     do id <- match previous_info unit with
              | Some a => do t <- of_option (texs c !! a) ;; Done (t_service_id_ t)
              | None => Done 0
              end ;;
     Done (false, gl (glBindTexture (bind_target unit) id) c)
   else Done (false, c))%gpu.

Definition RestoreStateForNonRenderableTextures p c : outcome Context :=
  (do (_, c) <- each_sampler restore p (sampler_indices_ (inputs p)) c ;;
   Done (gl (glActiveTexture (GL_TEXTURE0 + active_texture_unit_ (bindings c))) c))%gpu.

(** ** The driver's side *)

(** What is bound to the targets of each unit, as the calls say; deleting a texture unbinds
    it. *)
Record DriverTextures := mkDriverTextures {
  driver_active : Z;
  driver_bound : gmap (Z * Z) Z;
}.

Definition drive (d : DriverTextures) (call : GLCall) : DriverTextures :=
  match call with
  | glActiveTexture texture => mkDriverTextures (texture - GL_TEXTURE0) (driver_bound d)
  | glBindTexture target service_id =>
      mkDriverTextures (driver_active d) (<[(driver_active d, target) := service_id]> (driver_bound d))
  | glDeleteTextures service_id =>
      mkDriverTextures (driver_active d)
        ((fun id => if id =? service_id then 0 else id) <$> driver_bound d)
  | _ => d
  end.

Definition driver (calls : list GLCall) : DriverTextures := fold_left drive calls (mkDriverTextures 0 ∅).

(** The texture that a target of a unit has for the driver; zero is none. *)
Definition sampled c (index target : Z) : Z :=
  default 0 (driver_bound (driver (gl_calls c)) !! (index, target)).

Lemma driver_app calls calls' : driver (calls ++ calls') = fold_left drive calls' (driver calls).
Proof. unfold driver. by rewrite fold_left_app. Qed.

(** Binding in a unit. *)
Lemma sampled_bind c index target id i t :
  sampled (gl (glBindTexture target id) (gl (glActiveTexture (GL_TEXTURE0 + index)) c)) i t =
  if bool_decide (i = index /\ t = target) then id else sampled c i t.
Proof.
  unfold sampled. cbn [gl gl_calls]. rewrite <- app_assoc, driver_app. cbn [app fold_left drive driver_active driver_bound].
  replace (GL_TEXTURE0 + index - GL_TEXTURE0) with index by lia. case_bool_decide as Hd.
  - destruct Hd as [-> ->]. by rewrite lookup_insert_eq.
  - rewrite lookup_insert_ne; [done|]. intros [= <- <-]. by apply Hd.
Qed.

Lemma sampled_active c texture i t : sampled (gl (glActiveTexture texture) c) i t = sampled c i t.
Proof. unfold sampled. cbn [gl gl_calls]. rewrite driver_app. done. Qed.

(** ** Replacing *)

Definition sampler_types : list Z := [GL_SAMPLER_2D; GL_SAMPLER_CUBE; GL_SAMPLER_EXTERNAL_OES].

Lemma IsSampler_types info : IsSampler info = true <-> u_type info ∈ sampler_types.
Proof.
  unfold IsSampler, sampler_types. rewrite !elem_of_cons, elem_of_nil, !orb_true_iff, !Z.eqb_eq. tauto.
Qed.

Lemma bind_target_inj type type' :
  type ∈ sampler_types -> type' ∈ sampler_types ->
  GetBindTargetForSamplerType type = GetBindTargetForSamplerType type' -> type = type'.
Proof.
  unfold sampler_types. rewrite !elem_of_cons, !elem_of_nil. intros [->|[->|[->|[]]]] [->|[->|[->|[]]]]; done.
Qed.

(** The unit has no texture at a target that can be rendered. *)
Definition lacks (texture_info : TextureUnit -> option Z) c (index : Z) : bool :=
  (index <? max_texture_units cfg) &&
  match zget (texture_units_ (bindings c)) index with
  | Some unit =>
      match texture_info unit with
      | Some a => match texs c !! a with Some t => negb (CanRender fi t) | None => true end
      | None => true
      end
  | None => false
  end.

Definition unrenderable_at c (type : Z) : Z -> bool := lacks (GetInfoForSamplerType type) c.

(** The test is not quite that of a sampler when the textures are given back. *)
Definition restored_at c (type : Z) : Z -> bool := lacks (restore_info type) c.

(** The units that the samplers of a program name. *)
Definition sampler_places p : list (Z * Z) :=
  sampler_indices_ (inputs p) ≫= fun k =>
    match GetUniformInfo k p with
    | Some u => (fun index => (u_type (uniform u), index)) <$> texture_units u
    | None => []
    end.

(** The calls only bind textures. *)
Definition only_binds c c' : Prop :=
  exists calls, c' = emit calls c /\ Forall (fun call => binding call = true) calls.

Lemma only_binds_refl c : only_binds c c.
Proof. exists []. split; [unfold emit; rewrite app_nil_r; by destruct c|constructor]. Qed.

Lemma only_binds_trans c1 c2 c3 : only_binds c1 c2 -> only_binds c2 c3 -> only_binds c1 c3.
Proof.
  intros (calls & -> & H1) (calls' & -> & H2). exists (calls ++ calls'). split; [apply emit_app|by apply Forall_app].
Qed.

Lemma only_binds_one c index target id :
  only_binds c (gl (glBindTexture target id) (gl (glActiveTexture (GL_TEXTURE0 + index)) c)).
Proof.
  exists [glActiveTexture (GL_TEXTURE0 + index); glBindTexture target id].
  split; [unfold emit, gl; cbn; by rewrite <- app_assoc|by repeat constructor].
Qed.

Lemma only_binds_ok c c' : context_ok cfg c -> only_binds c c' -> context_ok cfg c'.
Proof. intros Hc (calls & -> & Hb). by apply context_ok_binding. Qed.

Lemma only_binds_keeps c c' : context_ok cfg c -> only_binds c c' -> keeps cfg c c'.
Proof.
  intros Hc (calls & -> & Hb). revert c Hc. induction Hb as [|call calls Hcall _ IH]; intros c Hc.
  { unfold emit. rewrite app_nil_r. destruct c. by apply keeps_refl. }
  assert (keeps cfg c (gl call c)) as Hk by (apply keeps_gl; by destruct call).
  replace (emit (call :: calls) c) with (emit calls (gl call c)) by (unfold emit, gl; cbn; by rewrite <- app_assoc).
  eapply context_keeps_trans; [exact Hk|]. apply IH, Hk.
Qed.

Lemma only_binds_same c c' : only_binds c c' -> bindings c' = bindings c /\ group c' = group c.
Proof. by intros (calls & -> & _). Qed.

(** A loop does for all places what its body does for each. *)
Section loops.
Variable body : Z -> Z -> TextureUnit -> Context -> outcome (bool * Context).
Variable does : list (Z * Z) -> bool -> Context -> Context -> Prop.
Hypothesis does_nil : forall c, does [] false c c.
Hypothesis does_app : forall places places' b b' c c1 c2,
  only_binds c c1 -> does places b c c1 -> does places' b' c1 c2 -> does (places ++ places') (b || b') c c2.
Hypothesis does_skip : forall type index c, max_texture_units cfg <= index -> does [(type, index)] false c c.
Hypothesis body_does : forall type index unit c,
  context_ok cfg c -> type ∈ sampler_types -> 0 <= index < max_texture_units cfg ->
  zget (texture_units_ (bindings c)) index = Some unit ->
  exists set c', body type index unit c = Done (set, c') /\ only_binds c c' /\ does [(type, index)] set c c'.

Lemma each_unit_does type units c :
  context_ok cfg c -> type ∈ sampler_types -> Forall is_u32 units ->
  exists set c', each_unit (body type) units c = Done (set, c') /\ only_binds c c' /\
    does ((fun index => (type, index)) <$> units) set c c'.
Proof.
  intros Hc Ht Hu. revert c Hc. induction Hu as [|index units Hi _ IH]; intros c Hc; cbn [each_unit fmap list_fmap].
  { exists false, c. split_and!; [done|apply only_binds_refl|apply does_nil]. }
  assert (exists set c', (if index <? max_texture_units cfg then
      do unit <- of_option (zget (texture_units_ (bindings c)) index) ;; body type index unit c
    else Done (false, c))%gpu = Done (set, c') /\ only_binds c c' /\ does [(type, index)] set c c')
    as (set & c1 & -> & Hb & Hd).
  { destruct (index <? max_texture_units cfg) eqn:Ei; zbool.
    - destruct (zget_in (texture_units_ (bindings c)) index) as [unit Eu];
        [rewrite (ctx_units _ _ Hc); unfold is_u32 in Hi; lia|].
      rewrite Eu. cbn [of_option obind]. apply body_does; [done..|unfold is_u32 in Hi; lia|done].
    - exists false, c. split_and!; [done|apply only_binds_refl|by apply does_skip]. }
  cbn [obind]. destruct (IH c1) as (rest & c2 & -> & Hb2 & Hd2); [by eapply only_binds_ok|]. cbn [obind].
  eexists _, _. split_and!; [done|by eapply only_binds_trans|].
  by apply (does_app [(type, index)] _ _ _ _ c1).
Qed.

Lemma each_sampler_does p c :
  context_ok cfg c -> inputs_ok (inputs p) ->
  exists set c', each_sampler body p (sampler_indices_ (inputs p)) c = Done (set, c') /\ only_binds c c' /\
    does (sampler_places p) set c c'.
Proof.
  intros Hc [Hus Hss _ _]. unfold sampler_places.
  assert (forall k, k ∈ sampler_indices_ (inputs p) ->
    exists u, zget (uniform_infos_ (inputs p)) k = Some u /\ IsSampler (uniform u) = true) as Hk by (intros k; by apply Hss).
  clear Hss. revert c Hc Hk. generalize (sampler_indices_ (inputs p)) as samplers.
  induction samplers as [|k samplers IH]; intros c Hc Hk; cbn [each_sampler].
  { exists false, c. split_and!; [done|apply only_binds_refl|apply does_nil]. }
  destruct (Hk k) as (u & Eu & Hs%IsSampler_types); [by left|]. rewrite bind_cons. change (GetUniformInfo k p) with (zget (uniform_infos_ (inputs p)) k). rewrite Eu.
  cbn [of_option obind].
  assert (service_uniform_ok u) as (_ & _ & Hu) by (eapply Forall_forall; [exact Hus|apply elem_of_zget; by eexists]).
  destruct (each_unit_does (u_type (uniform u)) (texture_units u) c) as (set & c1 & -> & Hb & Hd); [done..|].
  cbn [obind]. destruct (IH c1) as (rest & c2 & -> & Hb2 & Hd2); [by eapply only_binds_ok|intros j Hj; apply Hk; by right|].
  cbn [obind]. eexists _, _. split_and!; [done|by eapply only_binds_trans|by eapply does_app].
Qed.
End loops.

Lemma unit_texture c index unit a :
  context_ok cfg c -> zget (texture_units_ (bindings c)) index = Some unit ->
  a ∈ [bound_texture_2d unit; bound_texture_cube_map unit; bound_texture_external_oes unit] ->
  forall b, a = Some b -> exists t, texs c !! b = Some t.
Proof.
  intros Hc Hu Ha b ->. destruct (ctx_unit _ _ Hc unit) as (H1 & H2 & H3); [apply elem_of_zget; by eexists|].
  rewrite !elem_of_cons, elem_of_nil in Ha.
  destruct Ha as [Ha|[Ha|[Ha|[]]]]; [destruct (H1 b) as (t & Et & _)|destruct (H2 b) as (t & Et & _)|destruct (H3 b) as (t & Et & _)];
    by try exists t.
Qed.

Lemma sampler_texture type unit :
  GetInfoForSamplerType type unit ∈ [bound_texture_2d unit; bound_texture_cube_map unit; bound_texture_external_oes unit].
Proof. unfold GetInfoForSamplerType. rewrite !elem_of_cons. repeat case_match; tauto. Qed.

Lemma restore_texture type unit :
  restore_info type unit ∈ [bound_texture_2d unit; bound_texture_cube_map unit; bound_texture_external_oes unit].
Proof. unfold restore_info. rewrite !elem_of_cons. case_match; tauto. Qed.

Lemma previous_texture unit :
  previous_info unit ∈ [bound_texture_2d unit; bound_texture_cube_map unit; bound_texture_external_oes unit].
Proof. unfold previous_info. rewrite !elem_of_cons. case_match; tauto. Qed.

(** What the tests of the code find. *)
Lemma renderable_ok texture_info c index unit :
  context_ok cfg c -> index < max_texture_units cfg -> zget (texture_units_ (bindings c)) index = Some unit ->
  texture_info unit ∈ [bound_texture_2d unit; bound_texture_cube_map unit; bound_texture_external_oes unit] ->
  renderable (texture_info unit) c = Done (negb (lacks texture_info c index)).
Proof.
  intros Hc Hi Hu Hin. unfold lacks, renderable. btrue (index <? max_texture_units cfg). rewrite Hu.
  destruct (texture_info unit) as [a|] eqn:Ea; [|done].
  destruct (unit_texture _ _ _ _ Hc Hu Hin a eq_refl) as (t & ->). cbn [of_option obind andb]. by rewrite negb_involutive.
Qed.

Lemma lacks_beyond texture_info c index : max_texture_units cfg <= index -> lacks texture_info c index = false.
Proof. intros Hi. unfold lacks. by bfalse (index <? max_texture_units cfg). Qed.

(** The places of a list have the black texture of their type when theirs cannot be rendered,
    and the others are as before. *)
Record blacked (places : list (Z * Z)) (set : bool) c c' : Prop := {
  blacked_unset : set = false -> c' = c;
  blacked_set : set = existsb (fun '(type, index) => unrenderable_at c type index) places;
  blacked_at index type : type ∈ sampler_types ->
    sampled c' index (GetBindTargetForSamplerType type) =
    if bool_decide ((type, index) ∈ places) && unrenderable_at c type index
    then black_texture_id type (texture_manager (group c))
    else sampled c index (GetBindTargetForSamplerType type);
}.

Lemma blacked_nil c : blacked [] false c c.
Proof.
  split; [done..|]. intros index type _. rewrite bool_decide_false; [done|]. by intros ?%elem_of_nil.
Qed.

Lemma unrenderable_same c c' : only_binds c c' -> unrenderable_at c' = unrenderable_at c.
Proof. by intros (calls & -> & _). Qed.

Lemma blacked_app places places' b b' c c1 c2 :
  only_binds c c1 -> blacked places b c c1 -> blacked places' b' c1 c2 -> blacked (places ++ places') (b || b') c c2.
Proof.
  intros Hb [H1u -> H1] [H2u -> H2]. pose proof (unrenderable_same _ _ Hb) as Hun.
  destruct (only_binds_same _ _ Hb) as [_ Hg].
  split; [intros [E1 E2]%orb_false_iff; by rewrite H2u, H1u|by rewrite existsb_app, Hun|].
  intros index type Ht. rewrite (H2 index type Ht), (H1 index type Ht), Hun, Hg.
  destruct (unrenderable_at c type index); [|by rewrite !andb_false_r]. rewrite !andb_true_r.
  destruct (decide ((type, index) ∈ places)), (decide ((type, index) ∈ places'));
    repeat ((rewrite bool_decide_true by (rewrite ?elem_of_app; tauto)) ||
            (rewrite bool_decide_false by (rewrite ?elem_of_app; tauto))); done.
Qed.

Lemma blacked_skip type index c : max_texture_units cfg <= index -> blacked [(type, index)] false c c.
Proof.
  intros Hi. split; [done|cbn [existsb]; unfold unrenderable_at; by rewrite lacks_beyond|]. intros i ty _.
  destruct (decide ((ty, i) ∈ [(type, index)])) as [[= -> ->]%list_elem_of_singleton|Hin].
  - unfold unrenderable_at. by rewrite (lacks_beyond _ c index), andb_false_r.
  - by rewrite bool_decide_false.
Qed.

Lemma set_black_does type index unit c :
  context_ok cfg c -> type ∈ sampler_types -> 0 <= index < max_texture_units cfg ->
  zget (texture_units_ (bindings c)) index = Some unit ->
  exists set c', set_black type index unit c = Done (set, c') /\ only_binds c c' /\ blacked [(type, index)] set c c'.
Proof.
  intros Hc Htype Hi Hu. unfold set_black.
  rewrite (renderable_ok (GetInfoForSamplerType type) _ index) by (done || lia || apply sampler_texture).
  change (lacks (GetInfoForSamplerType type) c index) with (unrenderable_at c type index). cbn [obind].
  rewrite negb_involutive. destruct (unrenderable_at c type index) eqn:Hun.
  - eexists true, _. split_and!; [done|apply only_binds_one|]. split; [done|cbn [existsb]; by rewrite Hun|].
    intros i ty Hty. rewrite sampled_bind. destruct (decide ((ty, i) ∈ [(type, index)])) as [Hin|Hin].
    + rewrite (bool_decide_true ((ty, i) ∈ _)) by done. apply list_elem_of_singleton in Hin as [= -> ->].
      rewrite bool_decide_true by done. by rewrite Hun.
    + rewrite (bool_decide_false ((ty, i) ∈ _)) by done. rewrite bool_decide_false; [done|].
      intros [-> Heq%bind_target_inj]; [|done..]. subst. by apply Hin, list_elem_of_singleton.
  - exists false, c. split_and!; [done|apply only_binds_refl|]. split; [done|cbn [existsb]; by rewrite Hun|].
    intros i ty Hty. destruct (decide ((ty, i) ∈ [(type, index)])) as [[= -> ->]%list_elem_of_singleton|Hin];
      [by rewrite Hun, andb_false_r|by rewrite bool_decide_false].
Qed.

Lemma set_black_each p c :
  context_ok cfg c -> inputs_ok (inputs p) ->
  exists set c', each_sampler set_black p (sampler_indices_ (inputs p)) c = Done (set, c') /\ only_binds c c' /\
    blacked (sampler_places p) set c c'.
Proof.
  intros Hc Hp. apply each_sampler_does; [apply blacked_nil|apply blacked_app|apply blacked_skip|apply set_black_does|done..].
Qed.
(** A draw samples no texture that the driver could not.  After
    [SetBlackTextureForNonRenderableTextures], a sampler of the program finds the black texture
    of its type where the unit has no texture that can be rendered, and what was there before
    everywhere else, unless the manager counts no such texture and nothing is done at all; it
    tells whether anything was replaced, and it changes bindings of the driver only. *)
Theorem SetBlackTextures_exact p c :
  context_ok cfg c -> inputs_ok (inputs p) ->
  exists set c', SetBlackTextureForNonRenderableTextures p c = Done (set, c') /\ only_binds c c' /\
    set = HaveUnrenderableTextures (texture_manager (group c)) &&
          existsb (fun '(type, index) => unrenderable_at c type index) (sampler_places p) /\
    (set = false -> c' = c) /\
    forall index type, type ∈ sampler_types ->
    sampled c' index (GetBindTargetForSamplerType type) =
    if HaveUnrenderableTextures (texture_manager (group c)) &&
       (bool_decide ((type, index) ∈ sampler_places p) && unrenderable_at c type index)
    then black_texture_id type (texture_manager (group c))
    else sampled c index (GetBindTargetForSamplerType type).
Proof.
  intros Hc Hp. unfold SetBlackTextureForNonRenderableTextures. destruct (HaveUnrenderableTextures _) eqn:Eh; cbn [negb andb].
  - destruct (set_black_each p c Hc Hp) as (set & c' & E & Hb & [Hunset Hset Hat]).
    exists set, c'. by split_and!.
  - exists false, c. split_and!; [done|apply only_binds_refl|done..].
Qed.

(** ** Giving the textures back *)

(** The name that the code takes for what the unit had. *)
Definition previous c (index : Z) : option (Z * Z) :=
  unit ← zget (texture_units_ (bindings c)) index;
  Some (bind_target unit, default 0 (a ← previous_info unit; t_service_id_ <$> texs c !! a)).

Record given_back (places : list (Z * Z)) (set : bool) c c' : Prop := {
  given_back_unset : set = false;
  given_back_at index target :
    sampled c' index target =
    match previous c index with
    | Some (bind_target, id) =>
        if (bind_target =? target) && existsb (fun '(type, i) => (i =? index) && restored_at c type i) places
        then id else sampled c index target
    | None => sampled c index target
    end;
}.

Lemma given_back_nil c : given_back [] false c c.
Proof. split; [done|]. intros index target. cbn [existsb]. destruct (previous c index) as [[]|]; [|done]. by rewrite andb_false_r. Qed.

Lemma previous_same c c' : only_binds c c' -> previous c' = previous c /\ restored_at c' = restored_at c.
Proof. by intros (calls & -> & _). Qed.

Lemma given_back_app places places' b b' c c1 c2 :
  only_binds c c1 -> given_back places b c c1 -> given_back places' b' c1 c2 -> given_back (places ++ places') (b || b') c c2.
Proof.
  intros Hb [-> H1] [-> H2]. destruct (previous_same _ _ Hb) as [Hp Hr]. split; [done|].
  intros index target. rewrite (H2 index target), (H1 index target), Hp, Hr, existsb_app.
  destruct (previous c index) as [[bt id]|]; [|done]. destruct (bt =? target); [|done]. cbn [andb].
  destruct (existsb _ places'); [by rewrite orb_true_r|by rewrite orb_false_r].
Qed.

Lemma given_back_skip type index c : max_texture_units cfg <= index -> given_back [(type, index)] false c c.
Proof.
  intros Hi. split; [done|]. intros i target. cbn [existsb]. unfold restored_at. rewrite lacks_beyond by done.
  rewrite andb_false_r. destruct (previous c i) as [[]|]; [|done]. by rewrite andb_false_r.
Qed.

Lemma restore_does type index unit c :
  context_ok cfg c -> type ∈ sampler_types -> 0 <= index < max_texture_units cfg ->
  zget (texture_units_ (bindings c)) index = Some unit ->
  exists set c', restore type index unit c = Done (set, c') /\ only_binds c c' /\ given_back [(type, index)] set c c'.
Proof.
  intros Hc _ Hi Hu. unfold restore.
  rewrite (renderable_ok (restore_info type) _ index) by (done || lia || apply restore_texture).
  change (lacks (restore_info type) c index) with (restored_at c type index). cbn [obind]. rewrite negb_involutive.
  assert (exists id, (match previous_info unit with
                      | Some a => do t <- of_option (texs c !! a) ;; Done (t_service_id_ t)
                      | None => Done 0 end)%gpu = Done id /\ previous c index = Some (bind_target unit, id)) as (id & Eid & Ep).
  { unfold previous. rewrite Hu. cbn [mbind option_bind]. destruct (previous_info unit) as [a|] eqn:Ea; [|by eexists].
    destruct (unit_texture _ _ _ _ Hc Hu (previous_texture unit) a Ea) as (t & Et). cbn [mbind option_bind]. rewrite Et.
    by eexists. }
  destruct (restored_at c type index) eqn:Er.
  - change (texs (gl (glActiveTexture (GL_TEXTURE0 + index)) c)) with (texs c). rewrite Eid. cbn [obind].
    eexists false, _. split_and!; [done|apply only_binds_one|]. split; [done|]. intros i target. rewrite sampled_bind.
    cbn [existsb]. rewrite Er, orb_false_r, andb_true_r. case_bool_decide as Hd.
    + destruct Hd as [-> ->]. rewrite Ep, !Z.eqb_refl. done.
    + destruct (previous c i) as [[bt id']|] eqn:Ei; [|done]. destruct (bt =? target) eqn:E1, (index =? i) eqn:E2; try done.
      zbool. subst. rewrite Ep in Ei. injection Ei as <- <-. by destruct Hd.
  - exists false, c. split_and!; [done|apply only_binds_refl|]. split; [done|]. intros i target. cbn [existsb].
    rewrite Er, andb_false_r. destruct (previous c i) as [[]|]; [|done]. by rewrite andb_false_r.
Qed.

Lemma restore_all p c :
  context_ok cfg c -> inputs_ok (inputs p) ->
  exists c', RestoreStateForNonRenderableTextures p c = Done c' /\ only_binds c c' /\
    driver_active (driver (gl_calls c')) = active_texture_unit_ (bindings c) /\
    forall index target, sampled c' index target =
    match previous c index with
    | Some (bind_target, id) =>
        if (bind_target =? target) && existsb (fun '(type, i) => (i =? index) && restored_at c type i) (sampler_places p)
        then id else sampled c index target
    | None => sampled c index target
    end.
Proof.
  intros Hc Hp. unfold RestoreStateForNonRenderableTextures.
  edestruct (each_sampler_does restore given_back given_back_nil given_back_app given_back_skip restore_does p c Hc Hp)
    as (set & c' & -> & Hb & [_ Hat]). cbn [obind]. eexists. split; [done|]. split; [|split].
  - eapply only_binds_trans; [exact Hb|]. eexists [_]. split; [done|by repeat constructor].
  - cbn [gl gl_calls]. rewrite driver_app. cbn [fold_left drive driver_active]. destruct (only_binds_same _ _ Hb) as [-> _]. lia.
  - intros index target. rewrite sampled_active. apply Hat.
Qed.


(** What a draw does around the call that draws. *)
Definition textures_replaced p c : outcome Context :=
  (do (textures_set, c) <- SetBlackTextureForNonRenderableTextures p c ;;
   if textures_set then RestoreStateForNonRenderableTextures p c else Done c)%gpu.


Lemma sampler_places_types p type index : inputs_ok (inputs p) -> (type, index) ∈ sampler_places p -> type ∈ sampler_types.
Proof.
  intros [_ Hs _ _]. unfold sampler_places. rewrite list_elem_of_bind. intros (k & Hin & (u & Eu & Ht)%Hs).
  unfold GetUniformInfo in Hin. rewrite Eu in Hin. apply list_elem_of_fmap in Hin as (i & [= -> ->] & _).
  by apply IsSampler_types.
Qed.

(** The states between and after. *)
Lemma textures_replaced_at p c :
  context_ok cfg c -> inputs_ok (inputs p) ->
  exists set c1 c2, SetBlackTextureForNonRenderableTextures p c = Done (set, c1) /\ only_binds c c1 /\
    textures_replaced p c = Done c2 /\
    (set = true -> driver_active (driver (gl_calls c2)) = active_texture_unit_ (bindings c)) /\
    (set = false -> HaveUnrenderableTextures (texture_manager (group c)) = true ->
       existsb (fun '(type, index) => unrenderable_at c type index) (sampler_places p) = false) /\
    forall index type, type ∈ sampler_types ->
    let target := GetBindTargetForSamplerType type in
    sampled c2 index target =
    if set then
      match previous c index with
      | Some (bind_target, id) =>
          if (bind_target =? target) && existsb (fun '(type, i) => (i =? index) && restored_at c type i) (sampler_places p)
          then id else sampled c1 index target
      | None => sampled c1 index target
      end
    else sampled c index target.
Proof.
  intros Hc Hp. destruct (SetBlackTextures_exact p c Hc Hp) as (set & c1 & E1 & Hb & Hset & Hfalse & Hat).
  destruct set.
  - destruct (restore_all p c1) as (c2 & E2 & _ & Hact & Hat2); [by eapply only_binds_ok|done|].
    destruct (previous_same _ _ Hb) as [Hprev Hr]. destruct (only_binds_same _ _ Hb) as [Hbind _].
    exists true, c1, c2. unfold textures_replaced. rewrite E1. cbn [obind].
    split_and!; [done..|by rewrite <- Hbind|done|]. intros index type Ht. rewrite Hat2, Hprev, Hr. done.
  - exists false, c1, c1. unfold textures_replaced. rewrite E1. cbn [obind]. split_and!; [done..| |].
    + intros _ Hh. rewrite Hh in Hset. done.
    + intros index type Ht. by rewrite Hfalse.
Qed.

(** What the driver samples for each sampler of the program in [c'], after the textures were
    replaced in [c]. *)
Definition samplers_prepared p c c' : Prop :=
  forall index type, type ∈ sampler_types ->
  sampled c' index (GetBindTargetForSamplerType type) =
  if HaveUnrenderableTextures (texture_manager (group c)) &&
     (bool_decide ((type, index) ∈ sampler_places p) && unrenderable_at c type index)
  then black_texture_id type (texture_manager (group c))
  else sampled c index (GetBindTargetForSamplerType type).

(** Where a sampler reads there is the black texture, or what was there before, which can be
    rendered if the service knows it. *)
Definition samplers_renderable p c c' : Prop :=
  forall type index unit, (type, index) ∈ sampler_places p -> index < max_texture_units cfg ->
  zget (texture_units_ (bindings c)) index = Some unit ->
  let target := GetBindTargetForSamplerType type in
  sampled c' index target = black_texture_id type (texture_manager (group c)) \/
  (sampled c' index target = sampled c index target /\
   forall a t, GetInfoForSamplerType type unit = Some a -> texs c !! a = Some t -> deleted_ t = false ->
     CanRender fi t = true).

(** Without external textures. *)
Lemma prepared_renderable p c c' :
  context_ok cfg c -> inputs_ok (inputs p) ->
  oes_egl_image_external (feature_flags_ fi) = false -> Z.of_nat (size (texs c)) < 2 ^ 31 ->
  samplers_prepared p c c' -> samplers_renderable p c c'.
Proof.
  intros Hc Hp Hext Hsize Hat type index unit Hin Hi Hu target.
  pose proof (sampler_places_types _ _ _ Hp Hin) as Ht. unfold target. rewrite (Hat index type Ht).
  rewrite (bool_decide_true _ Hin). cbn [andb]. destruct (HaveUnrenderableTextures _) eqn:Eh; cbn [andb] in *.
  - destruct (unrenderable_at c type index) eqn:Eu; [by left|].
    right. split; [done|]. intros a t Ha Et _. unfold unrenderable_at, lacks in Eu. rewrite Hu, Ha, Et in Eu.
    replace (index <? max_texture_units cfg) with true in Eu by lia. by apply negb_false_iff.
  - right. split; [done|]. intros a t _ Et Hd. eapply textures_ok_renderable; [apply Hc|done..].
Qed.

(** C22: A draw samples no texture that the driver could not.  Where external textures are not
    enabled ([external_texture_hides_one]) and there are fewer than 2^31 textures, after
    [SetBlackTextureForNonRenderableTextures] each unit that a sampler of the program names has
    for the driver the black texture of the sampler's type, or what it had before; and then
    the texture that the service knows there, if one that is not deleted, can be rendered. *)
Theorem draw_samples_renderable p c :
  context_ok cfg c -> inputs_ok (inputs p) ->
  oes_egl_image_external (feature_flags_ fi) = false -> Z.of_nat (size (texs c)) < 2 ^ 31 ->
  exists set c', SetBlackTextureForNonRenderableTextures p c = Done (set, c') /\
    samplers_renderable p c c' /\ (set = false -> c' = c).
Proof.
  intros Hc Hp Hext Hsize. destruct (SetBlackTextures_exact p c Hc Hp) as (set & c' & E & _ & _ & Hset & Hat).
  exists set, c'. split; [done|]. split; [|done]. by apply prepared_renderable.
Qed.







(** A texture that is replaced at another target than the one last bound in its unit is not
    given back: the black texture stays for the driver. *)
Theorem black_texture_left p c type index bind_target id :
  context_ok cfg c -> inputs_ok (inputs p) ->
  (type, index) ∈ sampler_places p -> unrenderable_at c type index = true ->
  HaveUnrenderableTextures (texture_manager (group c)) = true ->
  previous c index = Some (bind_target, id) -> bind_target <> GetBindTargetForSamplerType type ->
  exists c', textures_replaced p c = Done c' /\
    sampled c' index (GetBindTargetForSamplerType type) = black_texture_id type (texture_manager (group c)).
Proof.
  intros Hc Hp Hin Hun Hh Hprev Hne. pose proof (sampler_places_types _ _ _ Hp Hin) as Ht.
  destruct (textures_replaced_at p c Hc Hp) as (set & c1 & c2 & E1 & Hb & E2 & _ & Hnone & Hat).
  destruct (SetBlackTextures_exact p c Hc Hp) as (set' & c1' & E1' & _ & _ & _ & Hat1).
  rewrite E1' in E1. injection E1 as <- <-. exists c2. split; [done|]. rewrite (Hat index type Ht). cbv zeta.
  destruct set'.
  - rewrite Hprev. bfalse (bind_target =? GetBindTargetForSamplerType type). cbn [andb].
    rewrite (Hat1 index type Ht), Hh, Hun. by rewrite bool_decide_true.
  - specialize (Hnone eq_refl Hh). apply not_true_iff_false in Hnone. destruct Hnone. apply existsb_exists.
    exists (type, index). by rewrite <- list_elem_of_In.
Qed.
End draw.
