(* ===== verification/ProgramCounting.v ===== *)
(** * Who uses programs and shaders

    The counts of [program_manager.cc] and [shader_manager.cc]: a shader is counted once for
    each place of a program it is attached to, a program once while it is the current one;
    a name lasts until its object is deleted and no longer counted. *)

From S2P Require Import Prelude CmdFormat CommandBufferService CommonDecoder.
From Stdlib Require Import ZArith Lia ZifyBool Bool String.
From stdpp Require Import base numbers option gmap list.
From S2P Require Import Prelude GLConstants Names Uniforms ShaderManager ProgramManager ProgramInvariant.
Local Open Scope Z_scope.

(** ** Counting attachments *)

Definition count_of (a : Z) (l : list (option Z)) : Z := zlen (filter (fun s => s = Some a) l).

Definition attached_count (a : Z) (p : ProgramInfo) : Z := count_of a (attached_shaders_ p).

Definition uses (ps : gmap Z ProgramInfo) (a : Z) : Z := map_fold (fun _ p n => attached_count a p + n) 0 ps.

Lemma count_of_nonneg a l : 0 <= count_of a l.
Proof. apply zlen_nonneg. Qed.

Lemma count_of_cons a s l : count_of a (s :: l) = (if decide (s = Some a) then 1 else 0) + count_of a l.
Proof. unfold count_of. rewrite filter_cons. case_decide; [rewrite zlen_cons|]; lia. Qed.

Lemma uses_fresh ps b p a : ps !! b = None -> uses (<[b := p]> ps) a = attached_count a p + uses ps a.
Proof. intros Hb. unfold uses. apply (map_fold_insert_L (fun _ p n => attached_count a p + n)); [|done]. intros. lia. Qed.

(** The uses by the other programs. *)
Definition other_uses (b : Z) (ps : gmap Z ProgramInfo) : Z -> Z := uses (base.delete b ps).

Lemma uses_insert ps b p a : uses (<[b := p]> ps) a = other_uses b ps a + attached_count a p.
Proof.
  unfold other_uses. rewrite <- insert_delete_eq, uses_fresh; [lia|]. apply lookup_delete_eq.
Qed.

Lemma uses_split ps b p a : ps !! b = Some p -> uses ps a = other_uses b ps a + attached_count a p.
Proof. intros Hb. rewrite <- uses_insert. by rewrite insert_id. Qed.

Lemma uses_nonneg ps a : 0 <= uses ps a.
Proof.
  unfold uses. apply (map_fold_weak_ind (fun n _ => 0 <= n)); [lia|]. intros b p ps' n _ Hn.
  pose proof (count_of_nonneg a (attached_shaders_ p)). unfold attached_count. lia.
Qed.

Lemma other_uses_insert ps b p a : other_uses b (<[b := p]> ps) a = other_uses b ps a.
Proof. unfold other_uses. by rewrite delete_insert_eq. Qed.

Lemma uses_same_attached ps b p p' a :
  ps !! b = Some p -> attached_shaders_ p' = attached_shaders_ p -> uses (<[b := p']> ps) a = uses ps a.
Proof.
  intros Hb He. rewrite uses_insert, (uses_split _ _ _ _ Hb). unfold attached_count. by rewrite He.
Qed.

Lemma shaders_ok_ext u u' m : (forall a, u a = u' a) -> shaders_ok u m -> shaders_ok u' m.
Proof.
  intros Hu [H1 H2 H3 H4 H5 H6]. split; try done; intros a; rewrite <- Hu; [apply H4|apply H5|apply H6].
Qed.

(** ** Shaders keep their types *)

Definition same_types (ss ss' : gmap Z ShaderInfo) : Prop := forall a s,
  ss !! a = Some s -> exists s', ss' !! a = Some s' /\ shader_type_ s' = shader_type_ s.

Lemma same_types_refl ss : same_types ss ss.
Proof. intros a s Ha. by exists s. Qed.

Lemma same_types_trans ss1 ss2 ss3 : same_types ss1 ss2 -> same_types ss2 ss3 -> same_types ss1 ss3.
Proof.
  intros H1 H2 a s Ha. destruct (H1 a s Ha) as (s' & Ha' & Es). destruct (H2 a s' Ha') as (s'' & Ha'' & Es').
  exists s''. split; [done|congruence].
Qed.

Lemma same_types_insert ss a s s' :
  ss !! a = Some s -> shader_type_ s' = shader_type_ s -> same_types ss (<[a := s']> ss).
Proof.
  intros Ha Ht b t Hb. destruct (decide (a = b)) as [->|Hne].
  - exists s'. rewrite lookup_insert_eq. split; [done|congruence].
  - exists t. by rewrite lookup_insert_ne.
Qed.

Lemma same_types_fresh ss a s : ss !! a = None -> same_types ss (<[a := s]> ss).
Proof. intros Ha b t Hb. exists t. rewrite lookup_insert_ne by congruence. done. Qed.

Lemma RemoveShaderInfoIfUnused_shaders a m m' : RemoveShaderInfoIfUnused a m = Done m' -> shaders m' = shaders m.
Proof.
  unfold RemoveShaderInfoIfUnused, shader. destruct (shaders m !! a) as [s|]; [|done]. cbn [of_option obind].
  case_match; by intros [= <-].
Qed.

(** The operations on a shader change that shader. *)
Lemma shader_op_types (f : ShaderInfo -> ShaderInfo) a m m' :
  (forall s, shader_type_ (f s) = shader_type_ s) ->
  (do s <- shader a m ;; RemoveShaderInfoIfUnused a (with_shader a (f s) m))%gpu = Done m' ->
  same_types (shaders m) (shaders m').
Proof.
  intros Hf. unfold shader. destruct (shaders m !! a) as [s|] eqn:Ha; [|done]. cbn [of_option obind].
  intros Hm%RemoveShaderInfoIfUnused_shaders. rewrite Hm. by eapply same_types_insert.
Qed.

Lemma UseShader_types a m m' : UseShader a m = Done m' -> same_types (shaders m) (shaders m').
Proof.
  unfold UseShader, shader. destruct (shaders m !! a) as [s|] eqn:Ha; [|done]. cbn [of_option obind].
  intros [= <-]. by eapply same_types_insert.
Qed.

Lemma UnuseShader_types a m m' : UnuseShader a m = Done m' -> same_types (shaders m) (shaders m').
Proof. by apply (shader_op_types ShaderManager.DecUseCount). Qed.

Lemma MarkAsDeleted_types a m m' : ShaderManager.MarkAsDeleted a m = Done m' -> same_types (shaders m) (shaders m').
Proof. by apply (shader_op_types MarkAsDeleted_shader). Qed.

(** ** Attaching *)

(** The places for attached shaders; a shader is in the place of its type. *)
Definition attached_ok (ss : gmap Z ShaderInfo) (l : list (option Z)) : Prop :=
  zlen l = kMaxAttachedShaders /\
  forall i a, zget l i = Some (Some a) -> exists s, ss !! a = Some s /\ ShaderTypeToIndex (shader_type_ s) = i.

Lemma ShaderTypeToIndex_range t : 0 <= ShaderTypeToIndex t < kMaxAttachedShaders.
Proof. unfold ShaderTypeToIndex, kMaxAttachedShaders. repeat case_match; lia. Qed.

Lemma attached_ok_types ss ss' l : same_types ss ss' -> attached_ok ss l -> attached_ok ss' l.
Proof.
  intros Ht [Hl Ha]. split; [done|]. intros i a Hi. destruct (Ha i a Hi) as (s & Hs & <-).
  destruct (Ht a s Hs) as (s' & Hs' & <-). by exists s'.
Qed.

Lemma attached_ok_in ss l : attached_ok ss l -> attached_in ss l.
Proof. intros [_ Ha] a [i Hi]%elem_of_zget. destruct (Ha i a Hi) as (s & Hs & _). by exists s. Qed.

(** The number of times a shader is in the places. *)
Lemma count_of_zset l l' i s s' a :
  zget l i = Some s -> zset l i s' = Some l' ->
  count_of a l' = count_of a l - (if decide (s = Some a) then 1 else 0) + (if decide (s' = Some a) then 1 else 0).
Proof.
  intros Hi. pose proof (zget_range _ _ _ Hi) as Hr. rewrite zset_in by done. intros [= <-].
  assert (l !! Z.to_nat i = Some s) as Hi' by (revert Hi; unfold zget; by case_match).
  rewrite <- (take_drop_middle l _ _ Hi') at 2. rewrite insert_take_drop by (by eapply lookup_lt_Some).
  unfold count_of. rewrite !filter_app, !zlen_app, !filter_cons. repeat case_decide; rewrite ?zlen_cons; lia.
Qed.

Lemma attached_ok_zset ss l l' i o :
  attached_ok ss l -> zset l i o = Some l' ->
  (forall a, o = Some a -> exists s, ss !! a = Some s /\ ShaderTypeToIndex (shader_type_ s) = i) ->
  attached_ok ss l'.
Proof.
  intros [Hl Ha] Es Ho. split; [by rewrite (zlen_zset _ _ _ _ Es)|]. intros j a Hj.
  rewrite (zget_zset _ _ _ _ _ Es) in Hj. case_match eqn:E1; [|by apply Ha]. zbool. subst. injection Hj as Hj. by apply Ho.
Qed.

Lemma same_attached p : with_attached (attached_shaders_ p) p = p.
Proof. by destruct p. Qed.

Section attach.
Variables (U : Z -> Z) (sm : ShaderManager) (p : ProgramInfo) (a : Z).
Hypothesis HU : forall x, 0 <= U x.
Hypothesis Hsm : shaders_ok (fun x => U x + attached_count x p) sm.
Hypothesis Hp : attached_ok (shaders sm) (attached_shaders_ p).

(** What a change of the attachments leaves. *)
Definition attached_done (o : outcome (bool * ProgramInfo * ShaderManager)) (changed : bool) (l : list (option Z)) : Prop :=
  exists sm', o = Done (changed, with_attached l p, sm') /\
    shaders_ok (fun x => U x + count_of x l) sm' /\ attached_ok (shaders sm') l /\
    same_types (shaders sm) (shaders sm').

Lemma slot_of s : exists slot, zget (attached_shaders_ p) (ShaderTypeToIndex (shader_type_ s)) = Some slot.
Proof. apply zget_in. destruct Hp as [-> _]. apply ShaderTypeToIndex_range. Qed.

Lemma unchanged : attached_done (Done (false, p, sm)) false (attached_shaders_ p).
Proof. exists sm. rewrite same_attached. split; [done|]. split; [done|]. split; [done|apply same_types_refl]. Qed.

(** A shader is attached when the place of its type is free. *)
Lemma AttachShader_ok s :
  shaders sm !! a = Some s -> owned (shader_infos_ sm) a ->
  let i := ShaderTypeToIndex (shader_type_ s) in
  exists changed l, attached_done (AttachShader a sm p) changed l /\
    (if changed then zget (attached_shaders_ p) i = Some None /\ zset (attached_shaders_ p) i (Some a) = Some l
     else l = attached_shaders_ p).
Proof.
  intros Hs Ho i. unfold AttachShader, shader. rewrite Hs. cbn [of_option obind]. fold i.
  destruct (slot_of s) as [slot Hslot]. fold i in Hslot. rewrite Hslot. cbn [of_option obind].
  destruct slot as [b|]; [by exists false, (attached_shaders_ p); split; [apply unchanged|]|].
  pose proof (zset_in (attached_shaders_ p) i (Some a) (zget_range _ _ _ Hslot)) as Es. rewrite Es. cbn [of_option obind].
  pose proof (HU a) as Hua. pose proof (count_of_nonneg a (attached_shaders_ p)) as Hca.
  destruct (UseShader_ok _ a sm Hsm Ho ltac:(unfold attached_count; lia)) as (sm' & Eu & Hsm' & _). rewrite Eu. cbn [obind].
  pose proof (UseShader_types _ _ _ Eu) as Ht.
  exists true. eexists. split; [|done]. exists sm'. split; [done|]. split; [|split; [|done]].
  - eapply shaders_ok_ext; [|exact Hsm']. intros x. unfold add_use, attached_count.
    rewrite (count_of_zset _ _ _ _ _ x Hslot Es). repeat case_decide; try congruence; case_match; zbool; subst; try congruence; lia.
  - eapply attached_ok_zset; [by eapply attached_ok_types|exact Es|]. intros b [= <-].
    destruct (Ht a s Hs) as (s' & Hs' & Et). exists s'. by rewrite Et.
Qed.

(** A shader is detached when it is in the place of its type. *)
Lemma DetachShader_ok s :
  shaders sm !! a = Some s ->
  let i := ShaderTypeToIndex (shader_type_ s) in
  let changed := bool_decide (zget (attached_shaders_ p) i = Some (Some a)) in
  exists l, attached_done (DetachShader a sm p) changed l /\
    (if changed then zset (attached_shaders_ p) i None = Some l else l = attached_shaders_ p).
Proof.
  intros Hs i. cbv zeta. unfold DetachShader, shader. rewrite Hs. cbn [of_option obind]. fold i.
  destruct (slot_of s) as [slot Hslot]. fold i in Hslot. rewrite Hslot. cbn [of_option obind].
  destruct (decide (slot = Some a)) as [->|Hne]; cycle 1.
  { rewrite (bool_decide_false (slot = _)), bool_decide_false by congruence. cbn [negb].
    exists (attached_shaders_ p). split; [apply unchanged|done]. }
  rewrite !bool_decide_true by done. cbn [negb].
  pose proof (zset_in (attached_shaders_ p) i None (zget_range _ _ _ Hslot)) as Es. rewrite Es. cbn [of_option obind].
  pose proof (count_of_zset _ _ _ _ _ a Hslot Es) as Hc. rewrite !decide_True in Hc by done.
  rewrite decide_False in Hc by done. pose proof (HU a). pose proof (count_of_nonneg a (<[Z.to_nat i:=None]> (attached_shaders_ p))).
  destruct (UnuseShader_ok _ a sm Hsm ltac:(unfold attached_count; lia)) as (sm' & Eu & Hsm'). rewrite Eu. cbn [obind].
  pose proof (UnuseShader_types _ _ _ Eu) as Ht.
  eexists. split; [|done]. exists sm'. split; [done|]. split; [|split; [|done]].
  - eapply shaders_ok_ext; [|exact Hsm']. intros x. unfold add_use, attached_count.
    rewrite (count_of_zset _ _ _ _ _ x Hslot Es). repeat case_decide; try congruence; case_match; zbool; subst; try congruence; lia.
  - eapply attached_ok_zset; [by eapply attached_ok_types|exact Es|done].
Qed.

End attach.

(** *** Detaching everything *)

Definition detached (l : list (option Z)) : Prop := forall a, Some a ∉ l.

Lemma detached_count a l : detached l -> count_of a l = 0.
Proof.
  induction l as [|s l IH]; intros Hl; [done|]. rewrite count_of_cons, IH by (intros b Hb; apply (Hl b); by right).
  case_decide as Hs; [|done]. destruct (Hl a). rewrite Hs. by left.
Qed.

Lemma ProgramInfo_new_detached id : detached (attached_shaders_ (ProgramInfo_new id)).
Proof. intros a Ha. apply elem_of_replicate in Ha as [? _]. done. Qed.

Lemma DetachShaders_loop n ii U sm p :
  (forall x, 0 <= U x) -> shaders_ok (fun x => U x + attached_count x p) sm ->
  attached_ok (shaders sm) (attached_shaders_ p) -> 0 <= ii -> ii + Z.of_nat n = kMaxAttachedShaders ->
  (forall j, 0 <= j < ii -> zget (attached_shaders_ p) j = Some None) ->
  exists l sm', DetachShaders n ii sm p = Done (with_attached l p, sm') /\
    shaders_ok (fun x => U x + count_of x l) sm' /\ attached_ok (shaders sm') l /\
    same_types (shaders sm) (shaders sm') /\ forall j, 0 <= j < kMaxAttachedShaders -> zget l j = Some None.
Proof.
  intros HU. revert ii sm p. induction n as [|n IH]; intros ii sm p Hsm Hp Hii Hn Hj; cbn [DetachShaders].
  { exists (attached_shaders_ p), sm. rewrite same_attached. split; [done|]. split; [done|]. split; [done|].
    split; [apply same_types_refl|]. intros j Hjr. apply Hj. lia. }
  destruct (zget_in (attached_shaders_ p) ii) as [slot Hslot]; [rewrite (proj1 Hp); lia|].
  rewrite Hslot. cbn [of_option obind]. destruct slot as [a|]; cbn [obind].
  - destruct (proj2 Hp ii a Hslot) as (s & Hs & Hi).
    destruct (DetachShader_ok U sm p a HU Hsm Hp s Hs) as (l & (sm1 & Ed & Hsm1 & Hp1 & Ht1) & Hl).
    cbv zeta in Hl, Ed. rewrite Hi, Hslot in Hl, Ed. rewrite bool_decide_true in Hl, Ed by done. rewrite Ed. cbn [obind].
    destruct (IH (ii + 1) sm1 (with_attached l p) Hsm1 Hp1) as (l' & sm' & -> & Hsm' & Hp' & Ht' & Hl'); [lia..| |].
    + intros j Hjr. cbn [with_attached attached_shaders_]. rewrite (zget_zset _ _ _ _ _ Hl). case_match; [done|]. zbool. apply Hj. lia.
    + exists l', sm'. split; [done|]. split; [done|]. split; [done|]. split; [|done]. by eapply same_types_trans.
  - destruct (IH (ii + 1) sm p Hsm Hp) as (l' & sm' & -> & Hx); [lia..| |].
    + intros j Hjr. destruct (decide (j = ii)) as [->|]; [done|]. apply Hj. lia.
    + exists l', sm'. by split.
Qed.

Lemma DetachShaders_ok U sm p :
  (forall x, 0 <= U x) -> shaders_ok (fun x => U x + attached_count x p) sm ->
  attached_ok (shaders sm) (attached_shaders_ p) ->
  exists l sm', DetachShaders (Z.to_nat kMaxAttachedShaders) 0 sm p = Done (with_attached l p, sm') /\
    shaders_ok (fun x => U x + count_of x l) sm' /\ attached_ok (shaders sm') l /\ detached l /\
    same_types (shaders sm) (shaders sm').
Proof.
  intros HU Hsm Hp. destruct (DetachShaders_loop (Z.to_nat kMaxAttachedShaders) 0 U sm p HU Hsm Hp)
    as (l & sm' & -> & Hsm' & Hp' & Ht & Hl); [done..|lia|].
  exists l, sm'. split; [done|]. split; [done|]. split; [done|]. split; [|done].
  intros a [j Hj]%elem_of_zget. pose proof (zget_range _ _ _ Hj) as Hr. rewrite (proj1 Hp') in Hr. rewrite (Hl j Hr) in Hj. done.
Qed.

(** ** The invariant *)

(** A program may have a name too many while it is being removed. *)
Record programs_but (except current : option Z) (sm : ShaderManager) (m : ProgramManager) : Prop := {
  programs_shaders : shaders_ok (uses (programs m)) sm;
  programs_one_name : one_name (program_infos_ m);
  programs_fresh : forall a p, programs m !! a = Some p -> a < next_program m;
  programs_live : forall i a, program_infos_ m !! i = Some a -> is_Some (programs m !! a);
  programs_attached : forall a p, programs m !! a = Some p -> attached_ok (shaders sm) (attached_shaders_ p);
  programs_inputs : forall a p, programs m !! a = Some p -> inputs_ok (inputs p);
  programs_counted : forall a p, programs m !! a = Some p -> p_use_count_ p = if decide (current = Some a) then 1 else 0;
  programs_current : forall a, current = Some a -> exists p, programs m !! a = Some p /\ p_valid_ p = true;
  programs_named : forall a p, programs m !! a = Some p -> except <> Some a -> owned (program_infos_ m) a ->
    IsDeleted_program p = false \/ current = Some a;
  programs_unnamed : forall a p, programs m !! a = Some p -> ~ owned (program_infos_ m) a ->
    IsDeleted_program p = true /\ detached (attached_shaders_ p);
}.

Definition programs_ok : option Z -> ShaderManager -> ProgramManager -> Prop := programs_but None.

Lemma programs_new_ok : programs_ok None ShaderManager_new ProgramManager_new.
Proof. by split. Qed.

(** The shaders may change as long as they are counted and keep their types. *)
Lemma programs_but_shaders except current sm sm' m :
  programs_but except current sm m -> shaders_ok (uses (programs m)) sm' -> same_types (shaders sm) (shaders sm') ->
  programs_but except current sm' m.
Proof.
  intros Hm Hsm Ht. split; try apply Hm; try done. intros a p Ha. eapply attached_ok_types; [done|].
  by eapply programs_attached.
Qed.

(** A change of a program that keeps its attachments. *)
Record same_use (p p' : ProgramInfo) : Prop := {
  same_attached_shaders : attached_shaders_ p' = attached_shaders_ p;
  same_use_count : p_use_count_ p' = p_use_count_ p;
  same_service_id : p_service_id_ p' = p_service_id_ p;
}.

Lemma with_program_but except current sm m a p p' :
  programs_but except current sm m -> programs m !! a = Some p -> attached_shaders_ p' = attached_shaders_ p ->
  inputs_ok (inputs p') -> (current = Some a -> p_valid_ p = true -> p_valid_ p' = true) ->
  p_use_count_ p' = p_use_count_ p ->
  (IsDeleted_program p' = IsDeleted_program p \/
    (IsDeleted_program p' = true /\ except = Some a)) ->
  programs_but except current sm (with_program a p' m).
Proof.
  intros Hm Ha Hat Hi Hv Hu Hd. split; cbn [with_program programs program_infos_ next_program].
  - eapply shaders_ok_ext; [|apply Hm]. intros x. symmetry. by eapply uses_same_attached.
  - apply Hm.
  - intros b q [[<- _]|[_ Hb]]%lookup_insert_Some; by eapply programs_fresh.
  - intros i b Hb. rewrite lookup_insert_is_Some'. right. by eapply programs_live.
  - intros b q [[<- <-]|[_ Hb]]%lookup_insert_Some; [rewrite Hat|]; by eapply programs_attached.
  - intros b q [[<- <-]|[_ Hb]]%lookup_insert_Some; [done|by eapply programs_inputs].
  - intros b q [[<- <-]|[_ Hb]]%lookup_insert_Some; [rewrite Hu|]; by apply (programs_counted _ _ _ _ Hm).
  - intros b Hb. destruct (programs_current _ _ _ _ Hm b Hb) as (q & Hq & Hqv). destruct (decide (a = b)) as [->|Hne].
    + exists p'. rewrite lookup_insert_eq. split; [done|]. apply Hv; [done|congruence].
    + exists q. by rewrite lookup_insert_ne.
  - intros b q [[<- <-]|[_ Hb]]%lookup_insert_Some He Ho; [|by eapply programs_named].
    destruct Hd as [->|[_ ?]]; [by eapply programs_named|congruence].
  - intros b q [[<- <-]|[_ Hb]]%lookup_insert_Some Ho; [|by eapply programs_unnamed].
    destruct (programs_unnamed _ _ _ _ Hm a p Ha Ho) as [Hdel Hdet]. rewrite Hat. split; [|done].
    destruct Hd as [->|[? _]]; done.
Qed.

(** ** The operations *)

Lemma CreateProgramInfo_ok current sm m client_id service_id :
  programs_ok current sm m -> service_id <> 0 -> programs_ok current sm (CreateProgramInfo client_id service_id m).
Proof.
  intros Hm Hs. unfold CreateProgramInfo. destruct (program_infos_ m !! client_id) eqn:Ei; [done|].
  assert (programs m !! next_program m = None) as Hf.
  { destruct (programs m !! next_program m) as [p|] eqn:E1; [|done]. apply (programs_fresh _ _ _ _ Hm) in E1. lia. }
  assert (~ owned (program_infos_ m) (next_program m)) as Hno.
  { intros [i Hi]. apply (programs_live _ _ _ _ Hm) in Hi. rewrite Hf in Hi. by destruct Hi. }
  split; cbn [programs program_infos_ next_program].
  - eapply shaders_ok_ext; [|apply Hm]. intros x. rewrite uses_fresh by done. unfold attached_count.
    by rewrite (detached_count x _ (ProgramInfo_new_detached service_id)).
  - apply insert_one_name; [apply Hm|done].
  - intros a p [[<- _]|[_ Ha]]%lookup_insert_Some; [lia|]. apply (programs_fresh _ _ _ _ Hm) in Ha. lia.
  - intros i a [[<- <-]|[_ Hi]]%lookup_insert_Some; [by rewrite lookup_insert_eq|].
    rewrite lookup_insert_is_Some'. right. by eapply programs_live.
  - intros a p [[<- <-]|[_ Ha]]%lookup_insert_Some; [|by eapply programs_attached]. split; [done|].
    intros i b Hb. apply zget_replicate_inv in Hb. done.
  - intros a p [[<- <-]|[_ Ha]]%lookup_insert_Some; [apply no_inputs_ok|by eapply programs_inputs].
  - intros a p [[<- <-]|[_ Ha]]%lookup_insert_Some; [|by apply (programs_counted _ _ _ _ Hm)].
    case_decide as Hc; [|done]. destruct (programs_current _ _ _ _ Hm _ Hc) as (q & Hq & _). congruence.
  - intros a Ha. destruct (programs_current _ _ _ _ Hm a Ha) as (q & Hq & Hqv). exists q.
    rewrite lookup_insert_ne by congruence. done.
  - intros a p [[<- <-]|[Hne Ha]]%lookup_insert_Some _ Ho; [left; unfold IsDeleted_program; cbn; lia|].
    eapply programs_named; [done..|]. destruct Ho as [i [[_ ?]|[_ Hi]]%lookup_insert_Some]; [done|by exists i].
  - intros a p [[<- <-]|[Hne Ha]]%lookup_insert_Some Ho.
    + destruct Ho. exists client_id. by rewrite lookup_insert_eq.
    + eapply programs_unnamed; [done..|]. intros [i Hi]. apply Ho. exists i.
      rewrite lookup_insert_ne; [done|]. intros <-. congruence.
Qed.

(** What every operation keeps of the programs: they stay, with whether they are valid. *)
Definition same_valid (ps ps' : gmap Z ProgramInfo) : Prop := forall a p,
  ps !! a = Some p -> exists p', ps' !! a = Some p' /\ p_valid_ p' = p_valid_ p.

Lemma same_valid_refl ps : same_valid ps ps.
Proof. intros a p Ha. by exists p. Qed.

Lemma same_valid_insert ps a p p' : ps !! a = Some p -> p_valid_ p' = p_valid_ p -> same_valid ps (<[a := p']> ps).
Proof.
  intros Ha Hv b q Hb. destruct (decide (a = b)) as [->|Hne].
  - exists p'. rewrite lookup_insert_eq. split; [done|congruence].
  - exists q. by rewrite lookup_insert_ne.
Qed.

Lemma same_valid_trans ps1 ps2 ps3 : same_valid ps1 ps2 -> same_valid ps2 ps3 -> same_valid ps1 ps3.
Proof.
  intros H1 H2 a p Ha. destruct (H1 a p Ha) as (p' & Ha' & Ep). destruct (H2 a p' Ha') as (p'' & Ha'' & Ep').
  exists p''. split; [done|congruence].
Qed.

Lemma RemoveProgramInfoIfUnused_ok current sm m a p :
  programs_but (Some a) current sm m -> programs m !! a = Some p ->
  exists sm' m', RemoveProgramInfoIfUnused a sm m = Done (sm', m') /\ programs_ok current sm' m' /\
    same_valid (programs m) (programs m') /\ same_types (shaders sm) (shaders sm').
Proof.
  intros Hm Ha. unfold RemoveProgramInfoIfUnused, program. rewrite Ha. cbn [of_option obind].
  pose proof (programs_counted _ _ _ _ Hm a p Ha) as Hc.
  destruct (IsDeleted_program p && negb (InUse p)) eqn:Ed; cycle 1.
  { exists sm, m. split; [done|]. split; [|split; [apply same_valid_refl|apply same_types_refl]].
    split; try apply Hm. intros b q Hb _ Ho. destruct (decide (b = a)) as [->|Hne].
    - assert (q = p) as -> by congruence. destruct (decide (current = Some a)) as [?|Hn]; [by right|].
      left. unfold InUse in Ed. rewrite Hc, andb_true_r in Ed. done.
    - eapply programs_named; [done..| |done]. congruence. }
  assert (shaders_ok (fun x => other_uses a (programs m) x + attached_count x p) sm) as Hsm.
  { eapply shaders_ok_ext; [|apply Hm]. intros x. by apply uses_split. }
  destruct (DetachShaders_ok (other_uses a (programs m)) sm p) as (l & sm' & -> & Hsm' & Hl & Hdet & Ht);
    [intros x; apply uses_nonneg|done|by eapply programs_attached|]. cbn [obind].
  exists sm'. eexists. split; [done|]. split; [|split; [by eapply same_valid_insert|done]].
  pose proof (programs_one_name _ _ _ _ Hm) as Hone. apply andb_prop in Ed as [Hdel Huse].
  assert (current <> Some a) as Hcur by (intros ->; rewrite decide_True in Hc by done; unfold InUse in Huse; zbool; lia).
  split; cbn [programs program_infos_ next_program].
  - eapply shaders_ok_ext; [|exact Hsm']. intros x. cbv beta. by rewrite uses_insert.
  - by apply erase_owner_one.
  - intros b q [[<- _]|[_ Hb]]%lookup_insert_Some; by eapply programs_fresh.
  - intros i b [Hi _]%erase_owner_lookup; [|done]. rewrite lookup_insert_is_Some'. right. by eapply programs_live.
  - intros b q [[<- <-]|[_ Hb]]%lookup_insert_Some; [done|]. eapply attached_ok_types; [done|]. by eapply programs_attached.
  - intros b q [[<- <-]|[_ Hb]]%lookup_insert_Some; [|by eapply programs_inputs]. exact (programs_inputs _ _ _ _ Hm a p Ha).
  - intros b q [[<- <-]|[_ Hb]]%lookup_insert_Some; [done|by apply (programs_counted _ _ _ _ Hm)].
  - intros b Hb. destruct (programs_current _ _ _ _ Hm b Hb) as (q & Hq & Hqv). exists q.
    rewrite lookup_insert_ne by congruence. done.
  - intros b q Hb _ [Ho Hne]%erase_owner_owned; [|done]. rewrite lookup_insert_ne in Hb by done.
    eapply programs_named; [done..| |done]. congruence.
  - intros b q [[<- <-]|[Hne Hb]]%lookup_insert_Some Ho; [done|]. eapply programs_unnamed; [done..|].
    intros Ho'. apply Ho, erase_owner_owned; done.
Qed.

(** What an operation of the manager promises. *)
Definition managed (current : option Z) (sm : ShaderManager) (m : ProgramManager)
    (o : outcome (ShaderManager * ProgramManager)) : Prop :=
  exists sm' m', o = Done (sm', m') /\ programs_ok current sm' m' /\ same_valid (programs m) (programs m') /\
    same_types (shaders sm) (shaders sm').

Lemma programs_weaken except current sm m : programs_ok current sm m -> programs_but except current sm m.
Proof. intros Hm. split; try apply Hm. intros a p Ha _. by eapply programs_named. Qed.

Lemma MarkProgramAsDeleted_ok current sm m a :
  programs_ok current sm m -> is_Some (programs m !! a) -> managed current sm m (MarkAsDeleted a sm m).
Proof.
  intros Hm [p Ha]. unfold MarkAsDeleted, program. rewrite Ha. cbn [of_option obind].
  assert (programs_but (Some a) current sm (with_program a (MarkAsDeleted_program p) m)) as Hm'.
  { eapply with_program_but; [by apply programs_weaken|exact Ha|done| |done|done|by right].
    exact (programs_inputs _ _ _ _ Hm a p Ha). }
  destruct (RemoveProgramInfoIfUnused_ok _ _ _ a (MarkAsDeleted_program p) Hm') as (sm' & m' & -> & Hok & Hv & Ht);
    [by cbn; rewrite lookup_insert_eq|].
  exists sm', m'. split; [done|]. split; [done|]. split; [|done].
  eapply same_valid_trans; [|exact Hv]. by eapply same_valid_insert.
Qed.

(** The current program is given up. *)
Lemma UnuseProgram_ok sm m a :
  programs_ok (Some a) sm m -> managed None sm m (UnuseProgram a sm m).
Proof.
  intros Hm. destruct (programs_current _ _ _ _ Hm a eq_refl) as (p & Ha & Hpv).
  unfold UnuseProgram, program. rewrite Ha. cbn [of_option obind].
  pose proof (programs_counted _ _ _ _ Hm a p Ha) as Hc. rewrite decide_True in Hc by done.
  assert (programs_but (Some a) None sm (with_program a (DecUseCount p) m)) as Hm'.
  { split; cbn [with_program programs program_infos_ next_program].
    - eapply shaders_ok_ext; [|apply Hm]. intros x. symmetry. by eapply uses_same_attached.
    - apply Hm.
    - intros b q [[<- _]|[_ Hb]]%lookup_insert_Some; by eapply programs_fresh.
    - intros i b Hb. rewrite lookup_insert_is_Some'. right. by eapply programs_live.
    - intros b q [[<- <-]|[_ Hb]]%lookup_insert_Some; [|by eapply programs_attached]. exact (programs_attached _ _ _ _ Hm a p Ha).
    - intros b q [[<- <-]|[_ Hb]]%lookup_insert_Some; [|by eapply programs_inputs]. exact (programs_inputs _ _ _ _ Hm a p Ha).
    - intros b q [[<- <-]|[Hne Hb]]%lookup_insert_Some; rewrite decide_False by done; [cbn; lia|].
      rewrite (programs_counted _ _ _ _ Hm b q Hb), decide_False by congruence. done.
    - done.
    - intros b q [[<- <-]|[Hne Hb]]%lookup_insert_Some He Ho; [done|].
      destruct (programs_named _ _ _ _ Hm b q Hb ltac:(done) Ho) as [?|?]; [by left|congruence].
    - intros b q [[<- <-]|[_ Hb]]%lookup_insert_Some Ho; [|by eapply programs_unnamed].
      exact (programs_unnamed _ _ _ _ Hm a p Ha Ho). }
  destruct (RemoveProgramInfoIfUnused_ok _ _ _ a (DecUseCount p) Hm') as (sm' & m' & -> & Hok & Hv & Ht);
    [by cbn; rewrite lookup_insert_eq|].
  exists sm', m'. split; [done|]. split; [done|]. split; [|done].
  eapply same_valid_trans; [|exact Hv]. by eapply same_valid_insert.
Qed.

(** A program becomes the current one. *)
Lemma UseProgram_ok sm m a p :
  programs_ok None sm m -> programs m !! a = Some p -> p_valid_ p = true ->
  exists m', UseProgram a m = Done m' /\ programs_ok (Some a) sm m' /\ same_valid (programs m) (programs m').
Proof.
  intros Hm Ha Hpv. unfold UseProgram, program. rewrite Ha. cbn [of_option obind]. eexists. split; [done|].
  split; [|by eapply same_valid_insert].
  pose proof (programs_counted _ _ _ _ Hm a p Ha) as Hc. rewrite decide_False in Hc by done.
  split; cbn [with_program programs program_infos_ next_program].
  - eapply shaders_ok_ext; [|apply Hm]. intros x. symmetry. by eapply uses_same_attached.
  - apply Hm.
  - intros b q [[<- _]|[_ Hb]]%lookup_insert_Some; by eapply programs_fresh.
  - intros i b Hb. rewrite lookup_insert_is_Some'. right. by eapply programs_live.
  - intros b q [[<- <-]|[_ Hb]]%lookup_insert_Some; [|by eapply programs_attached]. exact (programs_attached _ _ _ _ Hm a p Ha).
  - intros b q [[<- <-]|[_ Hb]]%lookup_insert_Some; [|by eapply programs_inputs]. exact (programs_inputs _ _ _ _ Hm a p Ha).
  - intros b q [[<- <-]|[Hne Hb]]%lookup_insert_Some; [rewrite decide_True by done; cbn; lia|].
    rewrite (programs_counted _ _ _ _ Hm b q Hb), !decide_False by congruence. done.
  - intros b [= <-]. exists (IncUseCount p). rewrite lookup_insert_eq. done.
  - intros b q [[<- <-]|[Hne Hb]]%lookup_insert_Some He Ho; [by right|].
    destruct (programs_named _ _ _ _ Hm b q Hb ltac:(done) Ho) as [?|?]; [by left|done].
  - intros b q [[<- <-]|[_ Hb]]%lookup_insert_Some Ho; [|by eapply programs_unnamed].
    exact (programs_unnamed _ _ _ _ Hm a p Ha Ho).
Qed.

(** A program that has a name takes new attachments. *)
Lemma with_attached_ok current sm m b p sm' l :
  programs_ok current sm m -> programs m !! b = Some p -> owned (program_infos_ m) b ->
  shaders_ok (fun x => other_uses b (programs m) x + count_of x l) sm' -> attached_ok (shaders sm') l ->
  same_types (shaders sm) (shaders sm') ->
  programs_ok current sm' (with_program b (with_attached l p) m).
Proof.
  intros Hm Hb Ho Hsm Hl Ht. split; cbn [with_program programs program_infos_ next_program].
  - eapply shaders_ok_ext; [|exact Hsm]. intros x. cbv beta. by rewrite uses_insert.
  - apply Hm.
  - intros a q [[<- _]|[_ Ha]]%lookup_insert_Some; by eapply programs_fresh.
  - intros i a Hi. rewrite lookup_insert_is_Some'. right. by eapply programs_live.
  - intros a q [[<- <-]|[_ Ha]]%lookup_insert_Some; [done|]. eapply attached_ok_types; [done|]. by eapply programs_attached.
  - intros a q [[<- <-]|[_ Ha]]%lookup_insert_Some; [|by eapply programs_inputs]. exact (programs_inputs _ _ _ _ Hm b p Hb).
  - intros a q [[<- <-]|[_ Ha]]%lookup_insert_Some; [|by apply (programs_counted _ _ _ _ Hm)].
    exact (programs_counted _ _ _ _ Hm b p Hb).
  - intros a Ha. destruct (programs_current _ _ _ _ Hm a Ha) as (q & Hq & Hqv). destruct (decide (b = a)) as [->|Hne].
    + exists (with_attached l p). rewrite lookup_insert_eq. split; [done|]. cbn. congruence.
    + exists q. by rewrite lookup_insert_ne.
  - intros a q [[<- <-]|[_ Ha]]%lookup_insert_Some He Ho'; [|by eapply programs_named].
    exact (programs_named _ _ _ _ Hm b p Hb He Ho').
  - intros a q [[<- <-]|[_ Ha]]%lookup_insert_Some Ho'; [done|by eapply programs_unnamed].
Qed.

Lemma attached_done_ok current sm m b p o changed l :
  programs_ok current sm m -> programs m !! b = Some p -> owned (program_infos_ m) b ->
  attached_done (other_uses b (programs m)) sm p o changed l ->
  exists sm', o = Done (changed, with_attached l p, sm') /\
    programs_ok current sm' (with_program b (with_attached l p) m) /\ same_types (shaders sm) (shaders sm').
Proof.
  intros Hm Hb Ho (sm' & -> & Hsm & Hl & Ht). exists sm'. split; [done|]. split; [|done]. by eapply with_attached_ok.
Qed.

(** The hypotheses of attaching hold of a program of the manager. *)
Lemma attach_hypotheses current sm m b p :
  programs_ok current sm m -> programs m !! b = Some p ->
  (forall x, 0 <= other_uses b (programs m) x) /\
  shaders_ok (fun x => other_uses b (programs m) x + attached_count x p) sm /\
  attached_ok (shaders sm) (attached_shaders_ p).
Proof.
  intros Hm Hb. split; [intros x; apply uses_nonneg|]. split; [|by eapply programs_attached].
  eapply shaders_ok_ext; [|apply Hm]. intros x. by apply uses_split.
Qed.

(** A program that keeps its attachments, its count and its id. *)
Lemma with_program_ok current sm m a p p' :
  programs_ok current sm m -> programs m !! a = Some p -> same_use p p' -> inputs_ok (inputs p') ->
  (current = Some a -> p_valid_ p = true -> p_valid_ p' = true) ->
  programs_ok current sm (with_program a p' m).
Proof.
  intros Hm Ha [H1 H2 H3] Hi Hv. eapply with_program_but; [done..|]. left. unfold IsDeleted_program. by rewrite H3.
Qed.
