(* ===== verification/ProgramInfoManager.v ===== *)
(** * The client's copy of program information

    [gpu/command_buffer/client/program_info_manager.{h,cc}]: the client asks once after a
    link for all attributes and uniforms of a program, and then answers from its copy. *)

From S2P Require Import Prelude CmdFormat CommandBufferService CommonDecoder.
From Stdlib Require Import ZArith Lia ZifyBool Bool String.
From stdpp Require Import base numbers option gmap list.
From S2P Require Import Prelude GLConstants Names Uniforms.
Local Open Scope Z_scope.

(** [CachedProgramInfoManager::ProgramInfo]; its [VertexAttribInfo] and [UniformInfo] are
    those of [Uniforms.v]. *)
Record ProgramInfo := mkProgramInfo {
  cached_ : bool;
  max_attrib_name_length_ : Z;
  attrib_infos_ : list VertexAttribInfo;
  max_uniform_name_length_ : Z;
  uniform_infos_ : list UniformInfo;
  link_status_ : bool;
}.

Definition ProgramInfo_new : ProgramInfo := mkProgramInfo false 0 [] 0 [] false.

(** An array is known by its name. *)
Definition UniformInfo_new (size type : Z) (name : list Z) (locations : list Z) : UniformInfo :=
  mkUniformInfo size type (bool_decide (last name = Some close_bracket)) name locations.

Definition GetAttribInfo (index : Z) (p : ProgramInfo) : option VertexAttribInfo := zget (attrib_infos_ p) index.
Definition GetUniformInfo (index : Z) (p : ProgramInfo) : option UniformInfo := zget (uniform_infos_ p) index.

(** [None] is the answer [false]. *)
Definition GetProgramiv (pname : Z) (p : ProgramInfo) : option Z :=
  if pname =? GL_LINK_STATUS then Some (Z.b2z (link_status_ p))
  else if pname =? GL_ACTIVE_ATTRIBUTES then Some (zlen (attrib_infos_ p))
  else if pname =? GL_ACTIVE_ATTRIBUTE_MAX_LENGTH then Some (max_attrib_name_length_ p)
  else if pname =? GL_ACTIVE_UNIFORMS then Some (zlen (uniform_infos_ p))
  else if pname =? GL_ACTIVE_UNIFORM_MAX_LENGTH then Some (max_uniform_name_length_ p)
  else None.

(** ** Reading the bucket *)

Section update.
Context `{Platform}.
Variable data : list Z.

(** The offset of a place in the data; [None] is the null pointer. *)
Definition LocalGetAs (offset size : Z) : option Z :=
  if usize (offset + size) >? zlen data then None else Some offset.

(** Reads through such a pointer. *)
Definition word_at (offset : Z) : outcome Z :=
  (do bytes <- of_option (zread data offset 4) ;; Done (le_word bytes))%gpu.

Fixpoint words_at (offset : Z) (n : nat) : outcome (list Z) :=
  match n with
  | O => Done []
  | S n => (do w <- word_at offset ;; do ws <- words_at (offset + 4) n ;; Done (i32 w :: ws))%gpu
  end.

(** A string of no bytes is not read. *)
Definition string_at (offset : option Z) (n : Z) : outcome (list Z) :=
  if n =? 0 then Done [] else (do o <- of_option offset ;; of_option (zread data o n))%gpu.

(** The fields of a [ProgramInput]. *)
Record Input := mkInput {
  i_type : Z;
  i_size : Z;
  location_offset : Z;
  name_offset : Z;
  name_length : Z;
}.

Definition input_at (offset : Z) : outcome Input :=
  (do type <- word_at offset ;;
   do size <- word_at (offset + 4) ;;
   do location_offset <- word_at (offset + 8) ;;
   do name_offset <- word_at (offset + 12) ;;
   do name_length <- word_at (offset + 16) ;;
   Done (mkInput type (i32 size) location_offset name_offset name_length))%gpu.

Definition attrib_at (input : Input) : outcome VertexAttribInfo :=
  (do name <- string_at (LocalGetAs (name_offset input) (name_length input)) (name_length input) ;;
   do location <- of_option (LocalGetAs (location_offset input) 4) ;;
   do w <- word_at location ;;
   Done (mkVertexAttribInfo (i_size input) (i_type input) (i32 w) name))%gpu.

Definition uniform_at (input : Input) : outcome UniformInfo :=
  let locations := LocalGetAs (location_offset input) (usize (4 * usize (i_size input))) in
  (do name <- string_at (LocalGetAs (name_offset input) (name_length input)) (name_length input) ;;
   do element_locations <- (if i_size input >? 0 then
                              do l <- of_option locations ;; words_at l (Z.to_nat (i_size input))
                            else Done []) ;;
   Done (UniformInfo_new (i_size input) (i_type input) name element_locations))%gpu.

(** The loops over [n] inputs, from the one at [offset]. *)
Fixpoint read_attribs (n : nat) (offset : Z) (max_length : Z) (infos : list VertexAttribInfo)
    : outcome (Z * list VertexAttribInfo) :=
  match n with
  | O => Done (max_length, infos)
  | S n =>
      (do input <- input_at offset ;;
       do info <- attrib_at input ;;
       read_attribs n (offset + 20) (Z.max (zlen (a_name info) + 1) max_length) (infos ++ [info]))%gpu
  end.

Fixpoint read_uniforms (n : nat) (offset : Z) (max_length : Z) (infos : list UniformInfo)
    : outcome (Z * list UniformInfo) :=
  match n with
  | O => Done (max_length, infos)
  | S n =>
      (do input <- input_at offset ;;
       do info <- uniform_at input ;;
       read_uniforms n (offset + 20) (Z.max (zlen (u_name info) + 1) max_length) (infos ++ [info]))%gpu
  end.

(** [data] is the bucket, empty when the context is lost.  The first check is for the size of
    a pointer, not of the header. *)
Definition Update (p : ProgramInfo) : outcome ProgramInfo :=
  if cached_ p then Done p
  else if zlen data =? 0 then Done p
  else
    (do header <- of_option (LocalGetAs 0 (size_bits / 8)) ;;
     do link_status <- word_at header ;;
     if link_status =? 0 then
       Done (mkProgramInfo false (max_attrib_name_length_ p) (attrib_infos_ p) (max_uniform_name_length_ p)
               (uniform_infos_ p) false)
     else
       do num_attribs <- word_at (header + 4) ;;
       do num_uniforms <- word_at (header + 8) ;;
       let inputs := LocalGetAs 12 (usize (20 * u32 (num_attribs + num_uniforms))) in
       if (num_attribs =? 0) && (num_uniforms =? 0) then Done (mkProgramInfo true 0 [] 0 [] true)
       else
         do input <- of_option inputs ;;
         do (max_attrib, attribs) <- read_attribs (Z.to_nat num_attribs) input 0 [] ;;
         do (max_uniform, uniforms) <- read_uniforms (Z.to_nat num_uniforms) (input + 20 * num_attribs) 0 [] ;;
         Done (mkProgramInfo true max_attrib attribs max_uniform uniforms true))%gpu.

End update.

(** ** The manager *)

Definition CachedProgramInfoManager : Type := gmap Z ProgramInfo.

Section manager.
Context `{Platform}.

(** [fetch] is what [GetProgramInfoCHROMIUMHelper] answers. *)
Variable fetch : Z -> list Z.
Implicit Types m : CachedProgramInfoManager.

Definition GetProgramInfo (program : Z) m : outcome (option ProgramInfo * CachedProgramInfoManager) :=
  match m !! program with
  | None => Done (None, m)
  | Some p => (do p <- Update (fetch program) p ;; Done (Some p, <[program := p]> m))%gpu
  end.

Definition DeleteInfo (program : Z) m : CachedProgramInfoManager := base.delete program m.
Definition CreateInfo (program : Z) m : CachedProgramInfoManager := <[program := ProgramInfo_new]> (DeleteInfo program m).

(** In the answers that follow, [None] stands for a call of the helper of
    [GLES2Implementation] that asks the service (for [Manager_GetProgramiv], for [false]). *)
Definition Manager_GetProgramiv (program pname : Z) m : outcome (option Z * CachedProgramInfoManager) :=
  (do (info, m) <- GetProgramInfo program m ;; Done (p ← info; GetProgramiv pname p, m))%gpu.

Definition Manager_GetAttribLocation (program : Z) (name : list Z) m : outcome (option Z * CachedProgramInfoManager) :=
  (do (info, m) <- GetProgramInfo program m ;;
   Done ((fun p => GetAttribLocation name (attrib_infos_ p)) <$> info, m))%gpu.

Definition Manager_GetUniformLocation (program : Z) (name : list Z) m : outcome (option Z * CachedProgramInfoManager) :=
  (do (info, m) <- GetProgramInfo program m ;;
   match info with
   | Some p => do l <- GetUniformLocation name (uniform_infos_ p) ;; Done (Some l, m)
   | None => Done (None, m)
   end)%gpu.

(** What is written to the caller's variables: a size, a type, a length, and the bytes at
    [name]. *)
Record ActiveAnswer := mkActiveAnswer {
  ans_size : Z;
  ans_type : Z;
  ans_length : Z;
  ans_name : list Z;
}.

Definition active_answer (size type : Z) (name : list Z) (bufsize : Z) : outcome ActiveAnswer :=
  let max_size := i32 (Z.min (usize (usize bufsize - 1)) (Z.max 0 (zlen name))) in
  (do written <- (if bufsize >? 0 then do b <- of_option (zread (name ++ [0]) 0 max_size) ;; Done (b ++ [0])
                  else Done []) ;;
   Done (mkActiveAnswer size type max_size written))%gpu.

Definition GetActiveAttrib (program index bufsize : Z) m : outcome (option ActiveAnswer * CachedProgramInfoManager) :=
  (do (info, m) <- GetProgramInfo program m ;;
   match (p ← info; GetAttribInfo (i32 index) p) with
   | Some i => do a <- active_answer (a_size i) (a_type i) (a_name i) bufsize ;; Done (Some a, m)
   | None => Done (None, m)
   end)%gpu.

Definition GetActiveUniform (program index bufsize : Z) m : outcome (option ActiveAnswer * CachedProgramInfoManager) :=
  (do (info, m) <- GetProgramInfo program m ;;
   match (p ← info; GetUniformInfo (i32 index) p) with
   | Some i => do a <- active_answer (u_size i) (u_type i) (u_name i) bufsize ;; Done (Some a, m)
   | None => Done (None, m)
   end)%gpu.

End manager.
