(* ===== verification/ProgramRoundTrip.v ===== *)
(** * The client knows what the service knows

    The client's [Update] reads back what the service's [GetProgramInfo] wrote, so that the
    client answers as the service would. *)

From S2P Require Import Prelude CmdFormat CommandBufferService CommonDecoder.
From Stdlib Require Import ZArith Lia ZifyBool Bool String.
From stdpp Require Import base numbers option gmap list.
From S2P Require Import Prelude GLConstants Names Uniforms ShaderManager ProgramInfoManager ProgramManager.
From S2P Require Import ProgramInvariant.
Local Open Scope Z_scope.

(** ** Parts of the data *)

Definition holds_at (data : list Z) (offset : Z) (bytes : list Z) : Prop :=
  exists pre post, data = pre ++ bytes ++ post /\ zlen pre = offset.

Lemma holds_at_app data o b1 b2 : holds_at data o (b1 ++ b2) -> holds_at data o b1 /\ holds_at data (o + zlen b1) b2.
Proof.
  intros (pre & post & -> & <-). split.
  - exists pre, (b2 ++ post). by rewrite <- app_assoc.
  - exists (pre ++ b1), post. rewrite zlen_app. by rewrite <- !app_assoc.
Qed.

Lemma holds_at_eq data o o' bytes : holds_at data o bytes -> o = o' -> holds_at data o' bytes.
Proof. by intros Hh <-. Qed.

Lemma to_nat_zlen {A} (l : list A) : Z.to_nat (zlen l) = List.length l.
Proof. unfold zlen. lia. Qed.

Lemma holds_at_range data o bytes : holds_at data o bytes -> 0 <= o /\ o + zlen bytes <= zlen data.
Proof.
  intros (pre & post & -> & <-). rewrite !zlen_app. pose proof (zlen_nonneg pre). pose proof (zlen_nonneg post). lia.
Qed.

Lemma holds_at_read data o bytes : holds_at data o bytes -> zread data o (zlen bytes) = Some bytes.
Proof.
  intros Hh. pose proof (holds_at_range _ _ _ Hh) as [Ho Hr]. pose proof (zlen_nonneg bytes) as Hb.
  rewrite zread_in by done. destruct Hh as (pre & post & -> & <-). unfold zlen. rewrite !Nat2Z.id.
  by rewrite drop_app_length, take_app_length.
Qed.

Lemma holds_at_word data o w : holds_at data o (le_bytes 4 w) -> word_at data o = Done (u32 w).
Proof.
  intros Hh%holds_at_read. rewrite zlen_le_bytes in Hh. change (Z.of_nat 4) with 4 in Hh. unfold word_at. rewrite Hh.
  cbn [of_option obind]. by rewrite le_word_bytes.
Qed.

Lemma holds_at_words_cons data o w ws :
  holds_at data o (words_to_bytes (w :: ws)) -> word_at data o = Done (u32 w) /\ holds_at data (o + 4) (words_to_bytes ws).
Proof.
  rewrite words_to_bytes_cons. intros [H1 H2]%holds_at_app. split; [by apply holds_at_word|].
  by rewrite zlen_le_bytes in H2.
Qed.

Lemma words_at_ok data o ws :
  Forall is_i32 ws -> holds_at data o (words_to_bytes ws) -> words_at data o (List.length ws) = Done ws.
Proof.
  intros Hf. revert o. induction Hf as [|w ws Hw Hf IH]; intros o Hh; [done|]. cbn [List.length words_at].
  apply holds_at_words_cons in Hh as [-> Hh]. cbn [obind]. rewrite IH by done. cbn [obind]. by rewrite i32_u32, i32_id.
Qed.

Section reading.
Context `{Platform}.
Variable data : list Z.
Hypothesis small : zlen data < 2 ^ 32.

Lemma LocalGetAs_ok o bytes : holds_at data o bytes -> LocalGetAs data o (zlen bytes) = Some o.
Proof.
  intros Hh. pose proof (holds_at_range _ _ _ Hh) as [Ho Hr]. pose proof (zlen_nonneg bytes).
  unfold LocalGetAs. pose proof (u32_is_usize (o + zlen bytes) ltac:(unfold is_u32; lia)).
  unfold usize. rewrite Z.mod_small by lia. by bfalse (o + zlen bytes >? zlen data).
Qed.

Lemma string_at_ok o bytes : holds_at data o bytes -> string_at data (LocalGetAs data o (zlen bytes)) (zlen bytes) = Done bytes.
Proof.
  intros Hh. rewrite LocalGetAs_ok by done. unfold string_at. destruct (zlen bytes =? 0) eqn:Ez.
  - destruct bytes as [|x bytes]; [done|]. rewrite zlen_cons in Ez. pose proof (zlen_nonneg bytes). lia.
  - cbn [of_option obind]. by rewrite holds_at_read.
Qed.

(** An input, given where its locations and its name are. *)
Lemma input_at_ok o size type l n len :
  is_i32 size -> is_u32 type -> is_u32 l -> is_u32 n -> is_u32 len ->
  holds_at data o (words_to_bytes (ProgramInput size type l n len)) ->
  input_at data o = Done (mkInput type size l n len).
Proof.
  intros H1 H2 H3 H4 H5 Hh. unfold ProgramInput in Hh. unfold input_at.
  apply holds_at_words_cons in Hh as [-> Hh]. cbn [obind].
  apply holds_at_words_cons in Hh as [-> Hh]. cbn [obind]. replace (o + 4 + 4) with (o + 8) in Hh by lia.
  apply holds_at_words_cons in Hh as [-> Hh]. cbn [obind]. replace (o + 8 + 4) with (o + 12) in Hh by lia.
  apply holds_at_words_cons in Hh as [-> Hh]. cbn [obind]. replace (o + 12 + 4) with (o + 16) in Hh by lia.
  apply holds_at_words_cons in Hh as [-> Hh]. cbn [obind]. by rewrite i32_u32, i32_id, !u32_id.
Qed.

(** What fits in the words of the format. *)
Definition attrib_fits (i : VertexAttribInfo) : Prop := is_i32 (a_size i) /\ is_u32 (a_type i) /\ is_i32 (a_location i).

Definition uniform_fits (u : ServiceUniform) : Prop :=
  uniform_ok (uniform u) /\ is_i32 (u_size (uniform u)) /\ is_u32 (u_type (uniform u)) /\
  Forall is_i32 (element_locations (uniform u)) /\
  u_is_array (uniform u) = bool_decide (last (u_name (uniform u)) = Some close_bracket).

Lemma attrib_at_ok i l n :
  attrib_fits i -> holds_at data l (le_bytes 4 (a_location i)) -> holds_at data n (a_name i) ->
  attrib_at data (mkInput (a_type i) (a_size i) l n (zlen (a_name i))) = Done i.
Proof.
  intros (H1 & H2 & H3) Hl Hn. unfold attrib_at. cbn [name_offset name_length location_offset i_size i_type].
  rewrite string_at_ok by done. cbn [obind]. pose proof (LocalGetAs_ok _ _ Hl) as El. rewrite zlen_le_bytes in El.
  change (Z.of_nat 4) with 4 in El. rewrite El. cbn [of_option obind]. rewrite (holds_at_word _ _ _ Hl). cbn [obind].
  rewrite i32_u32, i32_id by done. by destruct i.
Qed.

Lemma uniform_at_ok u l n :
  uniform_fits u -> holds_at data l (words_to_bytes (element_locations (uniform u))) -> holds_at data n (u_name (uniform u)) ->
  uniform_at data (mkInput (u_type (uniform u)) (u_size (uniform u)) l n (zlen (u_name (uniform u)))) = Done (uniform u).
Proof.
  intros ([Hs1 Hs2] & H1 & H2 & H3 & H4) Hl Hn. unfold uniform_at. cbn [name_offset name_length location_offset i_size i_type].
  rewrite string_at_ok by done. cbn [obind]. btrue (u_size (uniform u) >? 0).
  pose proof (LocalGetAs_ok _ _ Hl) as El. rewrite zlen_words_to_bytes in El.
  pose proof (holds_at_range _ _ _ Hl) as [Ho Hr]. rewrite zlen_words_to_bytes in Hr.
  assert (forall x, 0 <= x < 2 ^ 32 -> usize x = x) as Hus.
  { intros x Hx. pose proof (u32_is_usize x Hx). unfold usize. by rewrite Z.mod_small. }
  rewrite (Hus (u_size (uniform u))) by lia. rewrite Hus by lia. rewrite <- Hs2, El. cbn [of_option obind].
  replace (Z.to_nat (zlen (element_locations (uniform u)))) with (List.length (element_locations (uniform u))) by (unfold zlen; lia).
  rewrite words_at_ok by done. cbn [obind]. unfold UniformInfo_new. rewrite <- H4, Hs2. by destruct (uniform u).
Qed.

Lemma read_attribs_back infos o l n max_length acc :
  Forall attrib_fits infos -> zlen (attrib_names infos) < 2 ^ 32 ->
  holds_at data o (words_to_bytes (attrib_inputs infos l n)) ->
  holds_at data l (words_to_bytes (attrib_locations infos)) -> holds_at data n (attrib_names infos) ->
  ProgramInfoManager.read_attribs data (List.length infos) o max_length acc =
    Done (foldl (fun m i => Z.max (zlen (a_name i) + 1) m) max_length infos, acc ++ infos).
Proof.
  intros Hf. revert o l n max_length acc. induction Hf as [|i infos Hi Hf IH]; intros o l n ml acc Hs Ho Hl Hn.
  { cbn. by rewrite app_nil_r. }
  cbn [List.length ProgramInfoManager.read_attribs foldl]. cbn [attrib_inputs] in Ho.
  rewrite words_to_bytes_app in Ho. apply holds_at_app in Ho as [Hi1 Ho]. rewrite zlen_words_to_bytes in Ho.
  cbn [attrib_locations fmap list_fmap] in Hl. rewrite words_to_bytes_cons in Hl. apply holds_at_app in Hl as [Hl1 Hl].
  rewrite zlen_le_bytes in Hl. unfold attrib_names in Hn, Hs. cbn [flat_map] in Hn, Hs. rewrite zlen_app in Hs.
  apply holds_at_app in Hn as [Hn1 Hn]. pose proof (zlen_nonneg (a_name i)). pose proof (zlen_nonneg (flat_map a_name infos)).
  pose proof (holds_at_range _ _ _ Hl1) as Rl. pose proof (holds_at_range _ _ _ Hn1) as Rn. rewrite zlen_le_bytes in Rl.
  rewrite (u32_id l), (u32_id n), (u32_id (zlen (a_name i))) in Hi1 by (unfold is_u32; lia).
  assert (input_at data o = Done (mkInput (a_type i) (a_size i) l n (zlen (a_name i)))) as ->.
  { apply input_at_ok; [apply Hi|apply Hi|unfold is_u32; lia..|exact Hi1]. }
  cbn [obind].
  rewrite attrib_at_ok by done. cbn [obind]. rewrite (IH _ (l + 4) (n + zlen (a_name i))); [|unfold attrib_names; lia|exact Ho|done..].
  by rewrite <- app_assoc.
Qed.

Lemma read_uniforms_back infos o l n max_length acc :
  Forall uniform_fits infos -> zlen (uniform_names infos) < 2 ^ 32 ->
  holds_at data o (words_to_bytes (uniform_inputs infos l n)) ->
  holds_at data l (words_to_bytes (uniform_locations infos)) -> holds_at data n (uniform_names infos) ->
  ProgramInfoManager.read_uniforms data (List.length infos) o max_length acc =
    Done (foldl (fun m u => Z.max (zlen (u_name (uniform u)) + 1) m) max_length infos, acc ++ (uniform <$> infos)).
Proof.
  intros Hf. revert o l n max_length acc. induction Hf as [|i infos Hi Hf IH]; intros o l n ml acc Hs Ho Hl Hn.
  { cbn. by rewrite app_nil_r. }
  cbn [List.length ProgramInfoManager.read_uniforms foldl fmap list_fmap]. cbn [uniform_inputs] in Ho. cbv zeta in Ho.
  rewrite words_to_bytes_app in Ho. apply holds_at_app in Ho as [Hi1 Ho]. rewrite zlen_words_to_bytes in Ho.
  unfold uniform_locations in Hl. cbn [flat_map] in Hl. rewrite words_to_bytes_app in Hl. apply holds_at_app in Hl as [Hl1 Hl].
  rewrite zlen_words_to_bytes in Hl. unfold uniform_names in Hn, Hs. cbn [flat_map] in Hn, Hs. rewrite zlen_app in Hs.
  apply holds_at_app in Hn as [Hn1 Hn]. pose proof (zlen_nonneg (u_name (uniform i))).
  pose proof (zlen_nonneg (flat_map (fun u => u_name (uniform u)) infos)).
  pose proof (holds_at_range _ _ _ Hl1) as Rl. pose proof (holds_at_range _ _ _ Hn1) as Rn. rewrite zlen_words_to_bytes in Rl.
  destruct Hi as (Hok & Hi1' & Hi2 & Hi3). pose proof (proj1 Hok). pose proof (proj2 Hok).
  rewrite (u32_id l), (u32_id n), (u32_id (zlen (u_name (uniform i)))) in Hi1 by (unfold is_u32; lia).
  assert (input_at data o = Done (mkInput (u_type (uniform i)) (u_size (uniform i)) l n (zlen (u_name (uniform i))))) as ->.
  { apply input_at_ok; [done|done|unfold is_u32; lia..|exact Hi1]. }
  cbn [obind].
  rewrite uniform_at_ok by done. cbn [obind].
  rewrite (IH _ (l + 4 * zlen (element_locations (uniform i))) (n + zlen (u_name (uniform i)))); [|unfold uniform_names; lia|exact Ho|done..].
  by rewrite <- app_assoc.
Qed.

End reading.

(** ** The round trip *)

(** The values of a program fit in the words of the bucket, and an array's name ends with a
    bracket. *)
Record program_fits (p : ProgramInfo) : Prop := {
  fits_attribs : Forall attrib_fits (ProgramManager.attrib_infos_ (inputs p));
  fits_uniforms : Forall uniform_fits (ProgramManager.uniform_infos_ (inputs p));
  fits_size : info_size p < 2 ^ 32;
}.

(** What the client knows of a program that is linked. *)
Definition client_of (p : ProgramInfo) : ProgramInfoManager.ProgramInfo :=
  ProgramInfoManager.mkProgramInfo true
    (foldl (fun m i => Z.max (zlen (a_name i) + 1) m) 0 (ProgramManager.attrib_infos_ (inputs p)))
    (ProgramManager.attrib_infos_ (inputs p))
    (foldl (fun m u => Z.max (zlen (u_name (uniform u)) + 1) m) 0 (ProgramManager.uniform_infos_ (inputs p)))
    (uniform <$> ProgramManager.uniform_infos_ (inputs p)) true.

Section round_trip.
Context `{Platform}.

Lemma info_bytes_parts p :
  holds_at (info_bytes p) 0 (words_to_bytes (info_header p)) /\
  holds_at (info_bytes p) 12 (words_to_bytes (info_inputs p)) /\
  holds_at (info_bytes p) (locations_offset p) (words_to_bytes (info_locations p)) /\
  holds_at (info_bytes p) (names_offset p) (info_names p).
Proof.
  assert (holds_at (info_bytes p) 0 (info_bytes p)) as Hall by (exists [], []; by rewrite app_nil_r).
  unfold info_bytes in Hall at 2. apply holds_at_app in Hall as [H1 Hall]. split; [done|].
  apply holds_at_app in Hall as [H2 Hall]. split; [exact H2|]. apply holds_at_app in Hall as [H3 H4].
  rewrite !zlen_words_to_bytes, zlen_info_inputs in H3. rewrite !zlen_words_to_bytes, zlen_info_inputs in H4.
  change (zlen (info_header p)) with 3 in *. unfold names_offset, locations_offset, header_size, input_size_of. split.
  - eapply holds_at_eq; [exact H3|lia].
  - eapply holds_at_eq; [exact H4|lia].
Qed.

(** The client reads what the service wrote. *)
Lemma Update_info_bytes p client :
  program_fits p -> link_status_ p = true -> cached_ client = false ->
  ProgramInfoManager.Update (info_bytes p) client = Done (client_of p).
Proof.
  intros [Ha Hu Hs] Hl Hc. destruct (info_bytes_parts p) as (P1 & P2 & P3 & P4). pose proof (zlen_info_bytes p) as Hlen.
  assert (zlen (info_bytes p) < 2 ^ 32) as Hsmall by (by rewrite Hlen).
  unfold ProgramInfoManager.Update. rewrite Hc.
  pose proof (holds_at_range _ _ _ P1) as R1. change (zlen (words_to_bytes (info_header p))) with 12 in R1.
  bfalse (zlen (info_bytes p) =? 0).
  assert (LocalGetAs (info_bytes p) 0 (size_bits / 8) = Some 0) as ->.
  { unfold LocalGetAs. assert (0 <= size_bits / 8 <= 8) by (destruct size_bits_ok as [-> | ->]; done).
    pose proof (u32_is_usize (0 + size_bits / 8) ltac:(unfold is_u32; lia)). unfold usize.
    rewrite Z.mod_small by lia. by bfalse (0 + size_bits / 8 >? zlen (info_bytes p)). }
  cbn [of_option obind]. unfold info_header in P1. rewrite Hl in P1.
  apply holds_at_words_cons in P1 as [-> P1]. cbn [obind]. change (u32 (Z.b2z true) =? 0) with false. cbn iota.
  apply holds_at_words_cons in P1 as [-> P1]. cbn [obind]. change (0 + 4 + 4) with (0 + 8) in P1.
  apply holds_at_words_cons in P1 as [-> _]. cbn [obind].
  unfold client_of. set (attribs := ProgramManager.attrib_infos_ (inputs p)) in *.
  set (uniforms := ProgramManager.uniform_infos_ (inputs p)) in *.
  pose proof (zlen_nonneg attribs) as Na. pose proof (zlen_nonneg uniforms) as Nu.
  pose proof (holds_at_range _ _ _ P2) as R2. pose proof (zlen_info_inputs p) as Li. fold attribs uniforms in Li.
  rewrite zlen_words_to_bytes in R2.
  rewrite (u32_id (zlen attribs)), (u32_id (zlen uniforms)), (u32_id (zlen attribs + zlen uniforms)) by (unfold is_u32; lia).
  destruct ((zlen attribs =? 0) && (zlen uniforms =? 0)) eqn:Ez.
  { apply andb_prop in Ez as [E1 E2]. zbool. destruct attribs; [|rewrite zlen_cons in *; pose proof (zlen_nonneg attribs); lia].
    destruct uniforms; [done|rewrite zlen_cons in *; pose proof (zlen_nonneg uniforms); lia]. }
  pose proof (LocalGetAs_ok _ Hsmall _ _ P2) as Eg. rewrite zlen_words_to_bytes, Li in Eg.
  assert (usize (20 * (zlen attribs + zlen uniforms)) = 4 * (5 * (zlen attribs + zlen uniforms))) as ->.
  { pose proof (u32_is_usize (20 * (zlen attribs + zlen uniforms)) ltac:(unfold is_u32; lia)). unfold usize.
    rewrite Z.mod_small; lia. }
  rewrite Eg. cbn [of_option obind].
  unfold info_inputs in P2. fold attribs uniforms in P2. rewrite words_to_bytes_app in P2. apply holds_at_app in P2 as [Pa Pu].
  rewrite zlen_words_to_bytes, zlen_attrib_inputs in Pu.
  unfold info_locations in P3. fold attribs uniforms in P3. rewrite words_to_bytes_app in P3. apply holds_at_app in P3 as [Pal Pul].
  rewrite zlen_words_to_bytes in Pul. unfold attrib_locations in Pul at 1. rewrite zlen_fmap in Pul.
  unfold info_names in P4. fold attribs uniforms in P4. apply holds_at_app in P4 as [Pan Pun].
  pose proof (holds_at_range _ _ _ Pan) as Ran. pose proof (holds_at_range _ _ _ Pun) as Run.
  rewrite !to_nat_zlen.
  rewrite (read_attribs_back _ Hsmall attribs 12 _ _ 0 [] Ha ltac:(lia) Pa Pal Pan). cbn [obind app].
  rewrite (read_uniforms_back _ Hsmall uniforms (12 + 20 * zlen attribs) _ _ 0 [] Hu ltac:(lia)
    ltac:(eapply holds_at_eq; [exact Pu|lia]) Pul Pun). done.
Qed.

(** C20: The client's copy is the service's.  What the service writes into the bucket for a
    linked program is what the client reads back: the same attributes and uniforms in the same
    order, so that every name has the location in the client's cache that the service has. *)
Theorem program_info_round_trip p b client :
  bucket_ok b -> program_fits p -> link_status_ p = true -> cached_ client = false ->
  exists b' bytes client', GetProgramInfo p b = Done b' /\ data_ b' = Some bytes /\
    ProgramInfoManager.Update bytes client = Done client' /\ cached_ client' = true /\
    ProgramInfoManager.attrib_infos_ client' = ProgramManager.attrib_infos_ (inputs p) /\
    ProgramInfoManager.uniform_infos_ client' = uniform <$> ProgramManager.uniform_infos_ (inputs p) /\
    forall fetch program m name, fetch program = bytes -> m !! program = Some client ->
      Manager_GetAttribLocation fetch program name m =
        Done (Some (GetAttribLocation name (ProgramManager.attrib_infos_ (inputs p))), <[program := client']> m) /\
      Manager_GetUniformLocation fetch program name m =
        (do l <- GetUniformLocation name (uniform <$> ProgramManager.uniform_infos_ (inputs p)) ;;
         Done (Some l, <[program := client']> m))%gpu.
Proof.
  intros Hb Hp Hl Hc. exists (mkBucket (info_size p) (Some (info_bytes p))), (info_bytes p), (client_of p).
  pose proof (Update_info_bytes p client Hp Hl Hc) as Hu.
  rewrite GetProgramInfo_spec by (done || apply Hp). do 6 (split; [done|]).
  intros fetch program m name Hf Hm. unfold Manager_GetAttribLocation, Manager_GetUniformLocation, ProgramInfoManager.GetProgramInfo.
  rewrite Hm, Hf, Hu. done.
Qed.

(** A program that did not link has no copy. *)
Lemma Update_unlinked p client :
  info_size p < 2 ^ 32 -> link_status_ p = false -> cached_ client = false ->
  exists client', ProgramInfoManager.Update (info_bytes p) client = Done client' /\
    cached_ client' = false /\ ProgramInfoManager.link_status_ client' = false.
Proof.
  intros Hs Hl Hc. destruct (info_bytes_parts p) as (P1 & _). pose proof (zlen_info_bytes p) as Hlen.
  unfold ProgramInfoManager.Update. rewrite Hc.
  pose proof (holds_at_range _ _ _ P1) as R1. change (zlen (words_to_bytes (info_header p))) with 12 in R1.
  bfalse (zlen (info_bytes p) =? 0).
  assert (LocalGetAs (info_bytes p) 0 (size_bits / 8) = Some 0) as ->.
  { unfold LocalGetAs. assert (0 <= size_bits / 8 <= 8) by (destruct size_bits_ok as [-> | ->]; done).
    pose proof (u32_is_usize (0 + size_bits / 8) ltac:(unfold is_u32; lia)). unfold usize.
    rewrite Z.mod_small by lia. by bfalse (0 + size_bits / 8 >? zlen (info_bytes p)). }
  cbn [of_option obind]. unfold info_header in P1. rewrite Hl in P1.
  apply holds_at_words_cons in P1 as [-> _]. cbn [obind]. by eexists.
Qed.

(** The caller's buffer.  The client writes the name's first bytes and a zero, never more
    than the buffer takes, and tells how many bytes there are before the zero. *)
Theorem active_answer_bounded size type name bufsize :
  0 < bufsize < 2 ^ 31 -> zlen name < 2 ^ 31 ->
  exists n, active_answer size type name bufsize =
      Done (mkActiveAnswer size type n (take (Z.to_nat n) name ++ [0])) /\
    n = Z.min (bufsize - 1) (zlen name) /\ zlen (take (Z.to_nat n) name ++ [0]) <= bufsize.
Proof.
  intros Hb Hn. pose proof (zlen_nonneg name) as H0. unfold active_answer.
  pose proof (u32_is_usize bufsize ltac:(unfold is_u32; lia)) as Hu.
  assert (usize (usize bufsize - 1) = bufsize - 1) as ->.
  { unfold usize. rewrite (Z.mod_small bufsize), Z.mod_small by lia. done. }
  set (n := Z.min (bufsize - 1) (zlen name)).
  assert (i32 (Z.min (bufsize - 1) (Z.max 0 (zlen name))) = n) as ->.
  { rewrite Z.max_r by lia. apply i32_id. unfold is_i32. lia. }
  btrue (bufsize >? 0). rewrite zread_in by (rewrite ?zlen_app; change (zlen [0]) with 1; lia).
  cbn [of_option obind]. exists n. change (Z.to_nat 0) with 0%nat. rewrite drop_0.
  assert (take (Z.to_nat n) (name ++ [0]) = take (Z.to_nat n) name) as ->.
  { rewrite take_app_le; [done|]. unfold zlen in *. lia. }
  split; [done|]. split; [done|]. rewrite zlen_app. change (zlen [0]) with 1. unfold zlen in *. rewrite length_take. lia.
Qed.

(** For a buffer of no bytes it tells the whole length, though it writes nothing. *)
Lemma active_answer_empty size type name :
  zlen name < 2 ^ 31 -> active_answer size type name 0 = Done (mkActiveAnswer size type (zlen name) []).
Proof.
  intros Hn. unfold active_answer. assert (zlen name <= usize (usize 0 - 1)) as Hu.
  { unfold usize. destruct size_bits_ok as [-> | ->]; change (0 mod _) with 0.
    - change ((0 - 1) mod 2 ^ 32) with (2 ^ 32 - 1). lia.
    - change ((0 - 1) mod 2 ^ 64) with (2 ^ 64 - 1). lia. }
  pose proof (zlen_nonneg name). rewrite Z.min_r, Z.max_r, i32_id by (unfold is_i32; lia). done.
Qed.

End round_trip.

(** ** The names of arrays *)

(** Names as a compiler gives them: an array's name has its specification or is long enough
    for the code to see that it does not, and no other name ends with a bracket. *)
Definition regular_name (size : Z) (name original_name : list Z) : Prop :=
  if size >? 1 then 3 < zlen name /\ ((exists b, name = b ++ kArraySpec) -> last original_name = Some close_bracket)
  else (exists b, original_name = b ++ kArraySpec /\ b <> []) \/ last original_name <> Some close_bracket.

(** The client sees from the name what the service knows of the uniform. *)
Lemma AddUniformInfo_spelled r size type location name original_name u :
  AddUniformInfo r size type location name original_name = Done u -> regular_name size name original_name ->
  u_is_array (uniform u) = bool_decide (last (u_name (uniform u)) = Some close_bracket).
Proof.
  rewrite AddUniformInfo_cases. case_match; [done|]. intros [= <-] Hr. cbn [uniform u_is_array u_name].
  unfold regular_name, array_names in *. change 3 with (zlen kArraySpec) in *.
  destruct (size >? 1) eqn:Es; cbn [orb andb].
  - symmetry. apply bool_decide_eq_true. destruct Hr as [Hl Hb]. btrue (zlen name >? zlen kArraySpec).
    destruct (decide (rfind kArraySpec name = Some (zlen name - zlen kArraySpec))) as [Hf|Hf].
    + rewrite bool_decide_true by done. cbn [negb snd]. apply Hb. by apply rfind_suffix.
    + rewrite bool_decide_false by done. cbn [negb snd]. by rewrite last_app.
  - cbn [snd]. destruct Hr as [(b & -> & Hb)|Hl].
    + assert (zlen b > 0) by (destruct b; [done|rewrite zlen_cons; pose proof (zlen_nonneg b); lia]).
      rewrite zlen_app. btrue (zlen b + zlen kArraySpec >? zlen kArraySpec).
      rewrite !bool_decide_true; [done|by rewrite last_app|]. rewrite rfind_app by done. f_equal. lia.
    + rewrite (bool_decide_false (last _ = _)) by done. apply andb_false_iff. right. apply bool_decide_eq_false.
      intros Hf. apply rfind_suffix in Hf as [b Hb]; [|done]. apply Hl. rewrite Hb. by rewrite last_app.
Qed.

(** An array that the driver and the translator name without its specification, in at most
    three bytes, keeps that name, and its elements are not found though they have locations. *)
Theorem short_array_elements_lost :
  let r := mkReflection [] [] (fun _ => 0) (fun name => if bool_decide (name = chars "abc[1]") then 8 else 7) in
  exists u, AddUniformInfo r 2 GL_FLOAT 7 (chars "abc") (chars "abc") = Done u /\
    element_locations (uniform u) = [7; 8] /\ u_is_array (uniform u) = true /\
    GetUniformLocation (chars "abc[1]") [uniform u] = Done (-1).
Proof. eexists. split; [vm_compute; reflexivity|]. do 2 (split; [reflexivity|]). vm_compute; reflexivity. Qed.

(** The longest name of a program without attributes: the service counts the zero that ends
    it, the client does not. *)
Theorem max_length_differs :
  let p := ProgramManager.with_status true true (ProgramManager.ProgramInfo_new 1) in
  exists client, ProgramInfoManager.Update (info_bytes p) ProgramInfoManager.ProgramInfo_new = Done client /\
    ProgramManager.GetProgramiv GL_ACTIVE_ATTRIBUTE_MAX_LENGTH 0 p = 1 /\
    ProgramInfoManager.GetProgramiv GL_ACTIVE_ATTRIBUTE_MAX_LENGTH client = Some 0.
Proof. eexists. split; [vm_compute; reflexivity|]. split; vm_compute; reflexivity. Qed.
