(* ===== verification/ProgramDecoder.v ===== *)
(** * The commands of shaders and programs

    The handlers of [gpu/command_buffer/service/gles2_cmd_decoder.cc] that make, compile,
    attach, link, use and delete shaders and programs, and the generated ones that call
    them. *)

From S2P Require Import Prelude CmdFormat CommandBufferService CommonDecoder.
From Stdlib Require Import ZArith Lia ZifyBool Bool String.
From stdpp Require Import base numbers option gmap list.
From S2P Require Import Prelude GLConstants Validators Names Uniforms ShaderManager ProgramManager.
From S2P Require Import ProgramInvariant ProgramCounting TextureDecoder.
Local Open Scope Z_scope.

(** ** The state *)

(** The calls that reach the driver; a floating point number is its 32 bits. *)
Inductive ProgramCall :=
| glCreateProgram (service_id : Z)
| glCreateShader (type service_id : Z)
| glDeleteProgram (service_id : Z)
| glDeleteShader (service_id : Z)
| glAttachShader (program shader : Z)
| glDetachShader (program shader : Z)
| glBindAttribLocation (program index : Z) (name : list Z)
| glLinkProgram (program : Z)
| glValidateProgram (program : Z)
| glUseProgram (program : Z)
| glShaderSource (shader : Z) (source : list Z)
| glCompileShader (shader : Z)
| glUniformfv (components location count : Z) (value : list Z)
| glUniformiv (components location count : Z) (value : list Z)
| glUniformi (location : Z) (value : list Z)
| glUniformMatrixfv (columns location count transpose : Z) (value : list Z).

(** The members of [GLES2DecoderImpl] and of its group that programs are about, with the
    errors given to [SetGLError] and the calls of the driver, in order. *)
Record Programs := mkPrograms {
  program_manager : ProgramManager;
  shader_manager : ShaderManager;
  current_program_ : option Z;
  gl_errors : list Z;
  gl_calls : list ProgramCall;
}.

Definition Programs_new : Programs := mkPrograms ProgramManager_new ShaderManager_new None [] [].

Definition SetGLError (error : Z) (s : Programs) : Programs :=
  mkPrograms (program_manager s) (shader_manager s) (current_program_ s) (gl_errors s ++ [error]) (gl_calls s).

Definition gl (call : ProgramCall) (s : Programs) : Programs :=
  mkPrograms (program_manager s) (shader_manager s) (current_program_ s) (gl_errors s) (gl_calls s ++ [call]).

Definition with_managers (sm : ShaderManager) (m : ProgramManager) (s : Programs) : Programs :=
  mkPrograms m sm (current_program_ s) (gl_errors s) (gl_calls s).

Definition with_shaders (sm : ShaderManager) (s : Programs) : Programs := with_managers sm (program_manager s) s.

Definition with_programs (m : ProgramManager) (s : Programs) : Programs := with_managers (shader_manager s) m s.

Definition with_current (a : option Z) (s : Programs) : Programs :=
  mkPrograms (program_manager s) (shader_manager s) a (gl_errors s) (gl_calls s).

(** What is known of the platform: the compiler is ANGLE's ([IsAngle]), and
    [use_shader_translator_]. *)
Record Compiler := mkCompiler {
  IsAngle : bool;
  use_shader_translator_ : bool;
}.

(** What the driver answers to a compilation: the translated source, which only ANGLE has,
    the status and the log. *)
Record CompileAnswer := mkCompileAnswer {
  gl_translated : list Z;
  gl_compile_status : bool;
  gl_shader_log : list Z;
}.

(** ** Looking up *)

(** An object of the other kind is another error than none. *)
Definition GetProgramInfoNotShader (client_id : Z) (s : Programs) : option Z * Programs :=
  match LookupProgram client_id (program_manager s) with
  | Some a => (Some a, s)
  | None =>
      (None, SetGLError (match GetShaderInfo client_id (shader_manager s) with
                         | Some _ => GL_INVALID_OPERATION
                         | None => GL_INVALID_VALUE
                         end) s)
  end.

Definition GetShaderInfoNotProgram (client_id : Z) (s : Programs) : option Z * Programs :=
  match GetShaderInfo client_id (shader_manager s) with
  | Some a => (Some a, s)
  | None =>
      (None, SetGLError (match LookupProgram client_id (program_manager s) with
                         | Some _ => GL_INVALID_OPERATION
                         | None => GL_INVALID_VALUE
                         end) s)
  end.

(** The rest of a handler, which needs a program or a shader. *)
Definition with_program_info {A} (client_id : Z) (s : Programs) (absent : Programs -> outcome A)
    (f : Z -> ProgramInfo -> Programs -> outcome A) : outcome A :=
  match GetProgramInfoNotShader client_id s with
  | (None, s) => absent s
  | (Some a, s) => (do p <- program a (program_manager s) ;; f a p s)%gpu
  end.

Definition with_shader_info {A} (client_id : Z) (s : Programs) (absent : Programs -> outcome A)
    (f : Z -> ShaderInfo -> Programs -> outcome A) : outcome A :=
  match GetShaderInfoNotProgram client_id s with
  | (None, s) => absent s
  | (Some a, s) => (do i <- shader a (shader_manager s) ;; f a i s)%gpu
  end.

Definition set_program (a : Z) (p : ProgramInfo) (s : Programs) : Programs :=
  with_programs (with_program a p (program_manager s)) s.

Definition set_shader (a : Z) (i : ShaderInfo) (s : Programs) : Programs :=
  with_shaders (with_shader a i (shader_manager s)) s.

(** A shader is freed when neither the manager nor a program refers to it; its address
    keeps the values it had. *)
Definition shader_freed (a : Z) (s : Programs) : bool :=
  negb (IsOwned_shader a (shader_manager s)) && (uses (programs (program_manager s)) a =? 0).

(** ** Making and deleting *)

(** [service_id] is the driver's; zero is its failure. *)
Definition CreateProgramHelper (client_id service_id : Z) (s : Programs) : bool * Programs :=
  match LookupProgram client_id (program_manager s) with
  | Some _ => (false, s)
  | None =>
      let s := gl (glCreateProgram service_id) s in
      (true, if negb (service_id =? 0)
             then with_programs (CreateProgramInfo client_id service_id (program_manager s)) s
             else s)
  end.

Definition CreateShaderHelper (type client_id service_id : Z) (s : Programs) : bool * Programs :=
  match GetShaderInfo client_id (shader_manager s) with
  | Some _ => (false, s)
  | None =>
      let s := gl (glCreateShader type service_id) s in
      (true, if negb (service_id =? 0)
             then with_shaders (CreateShaderInfo client_id service_id type (shader_manager s)) s
             else s)
  end.

Definition HandleCreateProgram (client_id service_id : Z) (s : Programs) : outcome (Error * Programs) :=
  let '(ok, s) := CreateProgramHelper client_id service_id s in
  Done (if ok then kNoError else kInvalidArguments, s).

Definition HandleCreateShader (type client_id service_id : Z) (s : Programs) : outcome (Error * Programs) :=
  if negb (Validators.IsValid type valid_shader_type_table) then Done (kNoError, SetGLError GL_INVALID_ENUM s)
  else
    let '(ok, s) := CreateShaderHelper type client_id service_id s in
    Done (if ok then kNoError else kInvalidArguments, s).

Definition HandleDeleteShader (client_id : Z) (s : Programs) : outcome (Error * Programs) :=
  if client_id =? 0 then Done (kNoError, s)
  else match GetShaderInfo client_id (shader_manager s) with
       | None => Done (kNoError, SetGLError GL_INVALID_VALUE s)
       | Some a =>
           (do i <- shader a (shader_manager s) ;;
            if IsDeleted_shader i then Done (kNoError, s)
            else
              let s := gl (glDeleteShader (sh_service_id_ i)) s in
              do sm <- ShaderManager.MarkAsDeleted a (shader_manager s) ;;
              Done (kNoError, with_shaders sm s))%gpu
       end.

Definition HandleDeleteProgram (client_id : Z) (s : Programs) : outcome (Error * Programs) :=
  if client_id =? 0 then Done (kNoError, s)
  else match LookupProgram client_id (program_manager s) with
       | None => Done (kNoError, SetGLError GL_INVALID_VALUE s)
       | Some a =>
           (do p <- program a (program_manager s) ;;
            if IsDeleted_program p then Done (kNoError, s)
            else
              let s := gl (glDeleteProgram (p_service_id_ p)) s in
              do (sm, m) <- ProgramManager.MarkAsDeleted a (shader_manager s) (program_manager s) ;;
              Done (kNoError, with_managers sm m s))%gpu
       end.

(** ** Attaching *)

Definition DoAttachShader (program_client_id shader_client_id : Z) (s : Programs) : outcome Programs :=
  with_program_info program_client_id s Done (fun b p s =>
    with_shader_info shader_client_id s Done (fun a i s =>
      (do (ok, p, sm) <- AttachShader a (shader_manager s) p ;;
       let s := with_managers sm (with_program b p (program_manager s)) s in
       if negb ok then Done (SetGLError GL_INVALID_OPERATION s)
       else Done (gl (glAttachShader (p_service_id_ p) (sh_service_id_ i)) s))%gpu)).

(** The shader is asked for its id after it was detached. *)
Definition DoDetachShader (program_client_id shader_client_id : Z) (s : Programs) : outcome Programs :=
  with_program_info program_client_id s Done (fun b p s =>
    with_shader_info shader_client_id s Done (fun a i s =>
      (do (ok, p, sm) <- DetachShader a (shader_manager s) p ;;
       let s := with_managers sm (with_program b p (program_manager s)) s in
       if negb ok then Done (SetGLError GL_INVALID_OPERATION s)
       else if shader_freed a s then UB
       else Done (gl (glDetachShader (p_service_id_ p) (sh_service_id_ i)) s))%gpu)).

(** ** Linking and using *)

Definition DoLinkProgram (answer : LinkAnswer) (client_id : Z) (s : Programs) : outcome Programs :=
  with_program_info client_id s Done (fun a p s =>
    (do (called, p') <- Link (shaders (shader_manager s)) answer p ;;
     let s := if (called : bool) then gl (glLinkProgram (p_service_id_ p)) s else s in
     Done (set_program a p' s))%gpu).

Definition DoValidateProgram (log : option (list Z)) (client_id : Z) (s : Programs) : outcome Programs :=
  with_program_info client_id s Done (fun a p s =>
    let '(called, p') := Validate log p in
    let s := if (called : bool) then gl (glValidateProgram (p_service_id_ p)) s else s in
    Done (set_program a p' s)).

(** The program that is used is a reference: it lives though it is removed in between. *)
Definition use_program (info : option Z) (service_id : Z) (s : Programs) : outcome Programs :=
  (do s <- match current_program_ s with
           | Some c =>
               do (sm, m) <- UnuseProgram c (shader_manager s) (program_manager s) ;; Done (with_managers sm m s)
           | None => Done s
           end ;;
   let s := with_current info s in
   do s <- match info with
           | Some a => do m <- UseProgram a (program_manager s) ;; Done (with_programs m s)
           | None => Done s
           end ;;
   Done (gl (glUseProgram service_id) s))%gpu.

Definition DoUseProgram (client_id : Z) (s : Programs) : outcome Programs :=
  if client_id =? 0 then use_program None 0 s
  else with_program_info client_id s Done (fun a p s =>
    if negb (p_valid_ p) then Done (SetGLError GL_INVALID_OPERATION s)
    else use_program (Some a) (p_service_id_ p) s).

(** ** Sources *)

Definition ShaderSourceHelper (client_id : Z) (data : list Z) (s : Programs) : outcome (Error * Programs) :=
  with_shader_info client_id s (fun s => Done (kNoError, s)) (fun a i s =>
    Done (kNoError, set_shader a (UpdateSource (c_str data) i) s)).

Section compile.
Variable compiler : Compiler.

(** The translator of a type of shader: what it makes of a source that it accepts, and its
    log. *)
Variable Translate : Z -> list Z -> option Translation * list Z.

(** The driver compiles [shader_src], which is what the shader [i] was translated to. *)
Definition compile (answer : CompileAnswer) (a : Z) (i : ShaderInfo) (translator : option Translation)
    (shader_src : list Z) (s : Programs) : Programs :=
  let s := gl (glCompileShader (sh_service_id_ i)) (gl (glShaderSource (sh_service_id_ i) shader_src) s) in
  let i := if IsAngle compiler then UpdateTranslatedSource (c_str (gl_translated answer)) i else i in
  let i := if gl_compile_status answer then SetStatus true [] translator i
           else SetStatus false (c_str (gl_shader_log answer)) None i in
  set_shader a i s.

Definition DoCompileShader (answer : CompileAnswer) (client_id : Z) (s : Programs) : outcome Programs :=
  with_shader_info client_id s Done (fun a i s =>
    let shader_src := default [] (source_ i) in
    if use_shader_translator_ compiler then
      match Translate (shader_type_ i) shader_src with
      | (None, log) => Done (set_shader a (SetStatus false (c_str log) None i) s)
      | (Some t, _) =>
          let shader_src := c_str (translated_shader t) in
          let i := if negb (IsAngle compiler) then UpdateTranslatedSource shader_src i else i in
          Done (compile answer a i (Some t) shader_src s)
      end
    else Done (compile answer a i None shader_src s)).

End compile.

(** ** The commands *)

Definition no_error (m : outcome Programs) : outcome (Error * Programs) := (do s <- m ;; Done (kNoError, s))%gpu.

Definition HandleAttachShader (program shader : Z) (s : Programs) := no_error (DoAttachShader program shader s).
Definition HandleDetachShader (program shader : Z) (s : Programs) := no_error (DoDetachShader program shader s).
Definition HandleLinkProgram (answer : LinkAnswer) (program : Z) (s : Programs) :=
  no_error (DoLinkProgram answer program s).
Definition HandleValidateProgram (log : option (list Z)) (program : Z) (s : Programs) :=
  no_error (DoValidateProgram log program s).
Definition HandleUseProgram (program : Z) (s : Programs) := no_error (DoUseProgram program s).
Definition HandleCompileShader compiler Translate (answer : CompileAnswer) (shader : Z) (s : Programs) :=
  no_error (DoCompileShader compiler Translate answer shader s).

(** Commands that carry a string: in shared memory, after the struct, in a bucket. *)
Section strings.
Context `{Platform} {E : Type} `{CommandBufferEngine E}.
Implicit Types (d : Decoder E) (s : Programs).

Definition string_in_memory (shm_id shm_offset size : Z) d s
    (f : list Z -> Programs -> outcome (Error * Programs)) : outcome (Error * Programs) :=
  (do bytes <- GetSharedMemoryAs shm_id shm_offset size d ;;
   match bytes with None => Done (kOutOfBounds, s) | Some bytes => f bytes s end)%gpu.

Definition string_in_command (size : Z) (immediate : list Z) s
    (f : list Z -> Programs -> outcome (Error * Programs)) : outcome (Error * Programs) :=
  (do bytes <- GetImmediateDataAs size immediate ;;
   match bytes with None => Done (kOutOfBounds, s) | Some bytes => f bytes s end)%gpu.

Definition HandleShaderSource (shader shm_id shm_offset data_size : Z) d s : outcome (Error * Programs) :=
  string_in_memory shm_id shm_offset data_size d s (ShaderSourceHelper shader).

Definition HandleShaderSourceImmediate (shader data_size : Z) (immediate : list Z) s
    : outcome (Error * Programs) :=
  string_in_command data_size immediate s (ShaderSourceHelper shader).

(** The last byte of the bucket is left out. *)
Definition HandleShaderSourceBucket (shader data_bucket_id : Z) d s : outcome (Error * Programs) :=
  match GetBucket data_bucket_id d with
  | None => Done (kInvalidArguments, s)
  | Some bucket =>
      if size_ bucket =? 0 then Done (kInvalidArguments, s)
      else
        (do str <- GetAsString bucket ;;
         match str with Some str => ShaderSourceHelper shader str s | None => UB end)%gpu
  end.

Definition HandleBindAttribLocation (client_id index shm_id shm_offset data_size : Z) d s
    : outcome (Error * Programs) :=
  with_program_info client_id s (fun s => Done (kNoError, s)) (fun a p s =>
    string_in_memory shm_id shm_offset data_size d s (fun name s =>
      Done (kNoError, gl (glBindAttribLocation (p_service_id_ p) index (c_str name)) s))).

Definition HandleBindAttribLocationImmediate (client_id index data_size : Z) (immediate : list Z) s
    : outcome (Error * Programs) :=
  with_program_info client_id s (fun s => Done (kNoError, s)) (fun a p s =>
    string_in_command data_size immediate s (fun name s =>
      Done (kNoError, gl (glBindAttribLocation (p_service_id_ p) index (c_str name)) s))).

Definition HandleBindAttribLocationBucket (client_id index name_bucket_id : Z) d s : outcome (Error * Programs) :=
  with_program_info client_id s (fun s => Done (kNoError, s)) (fun a p s =>
    match GetBucket name_bucket_id d with
    | None => Done (kInvalidArguments, s)
    | Some bucket =>
        (do str <- GetAsString bucket ;;
         match str with
         | None => Done (kInvalidArguments, s)
         | Some name => Done (kNoError, gl (glBindAttribLocation (p_service_id_ p) index (c_str name)) s)
         end)%gpu
    end).

End strings.
