(* ===== verification/UniformDecoder.v ===== *)
(** * The commands of uniforms

    The handlers of [gpu/command_buffer/service/gles2_cmd_decoder.cc] and
    [gles2_cmd_decoder_autogen.h] that set the uniforms of the current program. *)

From S2P Require Import Prelude CmdFormat CommandBufferService CommonDecoder.
From Stdlib Require Import ZArith Lia ZifyBool Bool String.
From stdpp Require Import base numbers option gmap list.
From S2P Require Import Prelude GLConstants Validators GLES2Util Names Uniforms ShaderManager ProgramManager.
From S2P Require Import ProgramInvariant ProgramCounting TextureDecoder ProgramDecoder.
Local Open Scope Z_scope.

Implicit Types s : Programs.

(** ** The current program *)

(** [current_program_], when it is not null. *)
Definition current s : outcome (Z * ProgramInfo) :=
  (do a <- of_option (current_program_ s) ;; do p <- program a (program_manager s) ;; Done (a, p))%gpu.

Definition CheckCurrentProgram s : outcome (bool * Programs) :=
  match current_program_ s with
  | None => Done (false, SetGLError GL_INVALID_OPERATION s)
  | Some a =>
      (do p <- program a (program_manager s) ;;
       if negb (InUse p) then Done (false, SetGLError GL_INVALID_OPERATION s) else Done (true, s))%gpu
  end.

Definition CheckCurrentProgramForUniform (location : Z) s : outcome (bool * Programs) :=
  (do (ok, s) <- CheckCurrentProgram s ;; Done (ok && negb (location =? -1), s))%gpu.

(** The type of the uniform at a location, and how many of [count] elements it has there. *)
Definition PrepForSetUniformByLocation (location count : Z) s : outcome (option (Z * Z) * Programs) :=
  (do (ok, s) <- CheckCurrentProgramForUniform location s ;;
   if negb ok then Done (None, s)
   else
     do (_, p) <- current s ;;
     do found <- GetUniformInfoByLocation location p ;;
     match found with
     | None => Done (None, SetGLError GL_INVALID_OPERATION s)
     | Some (u, array_index) =>
         if (count >? 1) && negb (u_is_array (uniform u)) then Done (None, SetGLError GL_INVALID_OPERATION s)
         else
           let count := Z.min (u_size (uniform u) - array_index) count in
           if count <=? 0 then Done (None, s) else Done (Some (u_type (uniform u), count), s)
     end)%gpu.

(** [SetSamplers] of the current program. *)
Definition set_samplers (location count : Z) (value : list Z) s : outcome Programs :=
  (do (a, p) <- current s ;;
   do (_, p) <- SetSamplers location count value p ;;
   Done (set_program a p s))%gpu.

(** ** Setting a uniform *)

Definition DoUniform1i (location v0 : Z) s : outcome Programs :=
  (do (ok, s) <- CheckCurrentProgramForUniform location s ;;
   if negb ok then Done s
   else do s <- set_samplers location 1 [v0] s ;; Done (gl (glUniformi location [v0]) s))%gpu.

Definition DoUniform1iv (location count : Z) (value : list Z) s : outcome Programs :=
  (do (ok, s) <- CheckCurrentProgramForUniform location s ;;
   if negb ok then Done s
   else
     do (prep, s) <- PrepForSetUniformByLocation location count s ;;
     match prep with
     | None => Done s
     | Some (type, count) =>
         do s <- (if (type =? GL_SAMPLER_2D) || (type =? GL_SAMPLER_CUBE) || (type =? GL_SAMPLER_EXTERNAL_OES)
                  then set_samplers location count value s else Done s) ;;
         do v <- of_option (zread value 0 count) ;;
         Done (gl (glUniformiv 1 location count v) s)
     end)%gpu.

(** Whether a floating point number is not zero. *)
Definition float_nonzero (bits : Z) : bool := negb (bits =? 0) && negb (bits =? 2 ^ 31).

Definition bools (value : list Z) : list Z := (fun x => Z.b2z (float_nonzero x)) <$> value.

Definition DoUniform1fv (location count : Z) (value : list Z) s : outcome Programs :=
  (do (prep, s) <- PrepForSetUniformByLocation location count s ;;
   match prep with
   | None => Done s
   | Some (type, count) =>
       do v <- of_option (zread value 0 count) ;;
       if type =? GL_BOOL then DoUniform1iv location count (bools v) s
       else Done (gl (glUniformfv 1 location count v) s)
   end)%gpu.

(** The same for vectors of [n]; a vector of booleans is converted. *)
Definition uniform_fv (n bool_type location count : Z) (value : list Z) s : outcome Programs :=
  (do (prep, s) <- PrepForSetUniformByLocation location count s ;;
   match prep with
   | None => Done s
   | Some (type, count) =>
       do v <- of_option (zread value 0 (count * n)) ;;
       Done (if type =? bool_type then gl (glUniformiv n location count (bools v)) s
             else gl (glUniformfv n location count v) s)
   end)%gpu.

Definition uniform_iv (n location count : Z) (value : list Z) s : outcome Programs :=
  (do (prep, s) <- PrepForSetUniformByLocation location count s ;;
   match prep with
   | None => Done s
   | Some (_, count) =>
       do v <- of_option (zread value 0 (count * n)) ;; Done (gl (glUniformiv n location count v) s)
   end)%gpu.

Definition uniform_matrix_fv (n location count transpose : Z) (value : list Z) s : outcome Programs :=
  (do (prep, s) <- PrepForSetUniformByLocation location count s ;;
   match prep with
   | None => Done s
   | Some (_, count) =>
       do v <- of_option (zread value 0 (count * (n * n))) ;;
       Done (gl (glUniformMatrixfv n location count transpose v) s)
   end)%gpu.

Definition DoUniform2fv := uniform_fv 2 GL_BOOL_VEC2.
Definition DoUniform3fv := uniform_fv 3 GL_BOOL_VEC3.
Definition DoUniform4fv := uniform_fv 4 GL_BOOL_VEC4.
Definition DoUniform2iv := uniform_iv 2.
Definition DoUniform3iv := uniform_iv 3.
Definition DoUniform4iv := uniform_iv 4.
Definition DoUniformMatrix2fv := uniform_matrix_fv 2.
Definition DoUniformMatrix3fv := uniform_matrix_fv 3.
Definition DoUniformMatrix4fv := uniform_matrix_fv 4.

(** ** The handlers *)

Section handlers.
Context {E : Type} `{CommandBufferEngine E}.
Implicit Types d : Decoder E.

Definition ComputeDataSize (count size elements_per_unit : Z) : option Z :=
  let '(ok, value) := SafeMultiplyUint32 (u32 count) size in
  if negb ok then None
  else
    let '(ok, value) := SafeMultiplyUint32 value elements_per_unit in
    if negb ok then None else Some value.

(** The words of [count] units, in shared memory and after the command's struct. *)
Definition values_in_memory (elements count shm_id shm_offset : Z) d : outcome (option (list Z)) :=
  match ComputeDataSize count 4 elements with
  | None => Done None
  | Some data_size =>
      (do bytes <- GetSharedMemoryAs shm_id shm_offset data_size d ;; Done (bytes_to_words <$> bytes))%gpu
  end.

Definition values_in_command (elements count : Z) (immediate : list Z) : outcome (option (list Z)) :=
  match ComputeDataSize count 4 elements with
  | None => Done None
  | Some data_size =>
      (do bytes <- GetImmediateDataAs data_size immediate ;; Done (bytes_to_words <$> bytes))%gpu
  end.

Definition set_uniform_to (values : outcome (option (list Z))) (f : list Z -> Programs -> outcome Programs) s
    : outcome (Error * Programs) :=
  (do values <- values ;;
   match values with
   | None => Done (kOutOfBounds, s)
   | Some v => no_error (f v s)
   end)%gpu.

(** A matrix may not be transposed; in shared memory that is found before a bad address. *)
Definition set_matrix_in_memory (elements location count transpose shm_id shm_offset : Z)
    (f : Z -> Z -> Z -> list Z -> Programs -> outcome Programs) d s : outcome (Error * Programs) :=
  match ComputeDataSize count 4 elements with
  | None => Done (kOutOfBounds, s)
  | Some _ =>
      (do values <- values_in_memory elements count shm_id shm_offset d ;;
       if negb (Validators.IsValid transpose valid_false_only_table) then Done (kNoError, SetGLError GL_INVALID_VALUE s)
       else set_uniform_to (Done values) (f location count transpose) s)%gpu
  end.

Definition set_matrix_in_command (elements location count transpose : Z) (immediate : list Z)
    (f : Z -> Z -> Z -> list Z -> Programs -> outcome Programs) s : outcome (Error * Programs) :=
  (do values <- values_in_command elements count immediate ;;
   match values with
   | None => Done (kOutOfBounds, s)
   | Some v =>
       if negb (Validators.IsValid transpose valid_false_only_table) then Done (kNoError, SetGLError GL_INVALID_VALUE s)
       else no_error (f location count transpose v s)
   end)%gpu.

Definition HandleUniform1f (location x : Z) s := no_error (DoUniform1fv location 1 [x] s).
Definition HandleUniform1i (location x : Z) s := no_error (DoUniform1i location x s).
Definition HandleUniform2f (location x y : Z) s := no_error (DoUniform2fv location 1 [x; y] s).
Definition HandleUniform3f (location x y z : Z) s := no_error (DoUniform3fv location 1 [x; y; z] s).
Definition HandleUniform4f (location x y z w : Z) s := no_error (DoUniform4fv location 1 [x; y; z; w] s).

(** These are passed on without a look at the program. *)
Definition HandleUniform2i (location x y : Z) s : outcome (Error * Programs) :=
  Done (kNoError, gl (glUniformi location [x; y]) s).
Definition HandleUniform3i (location x y z : Z) s : outcome (Error * Programs) :=
  Done (kNoError, gl (glUniformi location [x; y; z]) s).
Definition HandleUniform4i (location x y z w : Z) s : outcome (Error * Programs) :=
  Done (kNoError, gl (glUniformi location [x; y; z; w]) s).

Definition HandleUniform1fv (location count shm_id shm_offset : Z) d s :=
  set_uniform_to (values_in_memory 1 count shm_id shm_offset d) (DoUniform1fv location count) s.
Definition HandleUniform1fvImmediate (location count : Z) (immediate : list Z) s :=
  set_uniform_to (values_in_command 1 count immediate) (DoUniform1fv location count) s.
Definition HandleUniform2fv (location count shm_id shm_offset : Z) d s :=
  set_uniform_to (values_in_memory 2 count shm_id shm_offset d) (DoUniform2fv location count) s.
Definition HandleUniform2fvImmediate (location count : Z) (immediate : list Z) s :=
  set_uniform_to (values_in_command 2 count immediate) (DoUniform2fv location count) s.
Definition HandleUniform3fv (location count shm_id shm_offset : Z) d s :=
  set_uniform_to (values_in_memory 3 count shm_id shm_offset d) (DoUniform3fv location count) s.
Definition HandleUniform3fvImmediate (location count : Z) (immediate : list Z) s :=
  set_uniform_to (values_in_command 3 count immediate) (DoUniform3fv location count) s.
Definition HandleUniform4fv (location count shm_id shm_offset : Z) d s :=
  set_uniform_to (values_in_memory 4 count shm_id shm_offset d) (DoUniform4fv location count) s.
Definition HandleUniform4fvImmediate (location count : Z) (immediate : list Z) s :=
  set_uniform_to (values_in_command 4 count immediate) (DoUniform4fv location count) s.
Definition HandleUniform1iv (location count shm_id shm_offset : Z) d s :=
  set_uniform_to (values_in_memory 1 count shm_id shm_offset d) (DoUniform1iv location count) s.
Definition HandleUniform1ivImmediate (location count : Z) (immediate : list Z) s :=
  set_uniform_to (values_in_command 1 count immediate) (DoUniform1iv location count) s.
Definition HandleUniform2iv (location count shm_id shm_offset : Z) d s :=
  set_uniform_to (values_in_memory 2 count shm_id shm_offset d) (DoUniform2iv location count) s.
Definition HandleUniform2ivImmediate (location count : Z) (immediate : list Z) s :=
  set_uniform_to (values_in_command 2 count immediate) (DoUniform2iv location count) s.
Definition HandleUniform3iv (location count shm_id shm_offset : Z) d s :=
  set_uniform_to (values_in_memory 3 count shm_id shm_offset d) (DoUniform3iv location count) s.
Definition HandleUniform3ivImmediate (location count : Z) (immediate : list Z) s :=
  set_uniform_to (values_in_command 3 count immediate) (DoUniform3iv location count) s.
Definition HandleUniform4iv (location count shm_id shm_offset : Z) d s :=
  set_uniform_to (values_in_memory 4 count shm_id shm_offset d) (DoUniform4iv location count) s.
Definition HandleUniform4ivImmediate (location count : Z) (immediate : list Z) s :=
  set_uniform_to (values_in_command 4 count immediate) (DoUniform4iv location count) s.

Definition HandleUniformMatrix2fv (location count transpose shm_id shm_offset : Z) d s :=
  set_matrix_in_memory 4 location count transpose shm_id shm_offset DoUniformMatrix2fv d s.
Definition HandleUniformMatrix2fvImmediate (location count transpose : Z) (immediate : list Z) s :=
  set_matrix_in_command 4 location count transpose immediate DoUniformMatrix2fv s.
Definition HandleUniformMatrix3fv (location count transpose shm_id shm_offset : Z) d s :=
  set_matrix_in_memory 9 location count transpose shm_id shm_offset DoUniformMatrix3fv d s.
Definition HandleUniformMatrix3fvImmediate (location count transpose : Z) (immediate : list Z) s :=
  set_matrix_in_command 9 location count transpose immediate DoUniformMatrix3fv s.
Definition HandleUniformMatrix4fv (location count transpose shm_id shm_offset : Z) d s :=
  set_matrix_in_memory 16 location count transpose shm_id shm_offset DoUniformMatrix4fv d s.
Definition HandleUniformMatrix4fvImmediate (location count transpose : Z) (immediate : list Z) s :=
  set_matrix_in_command 16 location count transpose immediate DoUniformMatrix4fv s.

End handlers.
