(* ===== verification/ProgramQueries.v ===== *)
(** * The questions about shaders and programs

    The handlers of [gpu/command_buffer/service/gles2_cmd_decoder.cc] and
    [gles2_cmd_decoder_autogen.h] that answer in the client's memory or in a bucket. *)

From S2P Require Import Prelude CmdFormat CommandBufferService CommonDecoder.
From Stdlib Require Import ZArith Lia ZifyBool Bool String.
From stdpp Require Import base numbers option gmap list.
From S2P Require Import Prelude GLConstants Validators GLES2Util Names Uniforms ShaderManager ProgramManager.
From S2P Require Import ProgramInvariant ProgramCounting TextureDecoder ObjectNames ProgramDecoder.
Local Open Scope Z_scope.

Section queries.
Context `{Platform} {E : Type} `{CommandBufferEngine E}.
Implicit Types (d : Decoder E) (s : Programs).

Notation Answered := (outcome (Error * (Decoder E * Programs))).

(** Nothing was written. *)
Definition answered (e : Error) d s : Answered := Done (e, (d, s)).

(** A place some bytes after an address. *)
Definition address_at (a : Z * Z) (offset : Z) : Z * Z := (a.1, a.2 + offset).

Definition read_word (a : Z * Z) d : outcome Z := (do bytes <- of_option (mem_read d a 4) ;; Done (le_word bytes))%gpu.

Definition write_words (a : Z * Z) (words : list Z) d : outcome (Decoder E) :=
  of_option (mem_write d a (words_to_bytes (u32 <$> words))).

(** [SizedResult<GLint>]: the size in bytes, and the data. *)
Definition ComputeSize (num_results : Z) : Z := usize (4 * num_results + 4).

Definition SetNumResults (a : Z * Z) (num_results : Z) d : outcome (Decoder E) := write_words a [4 * num_results] d.

(** ** Locations *)

(** [find] looks the name up; the client's memory holds [-1] until the answer. *)
Definition location_helper (find : ProgramInfo -> outcome Z) (client_id shm_id shm_offset : Z) d s : Answered :=
  with_program_info client_id s (answered kNoError d) (fun a p s =>
    if negb (p_valid_ p) then answered kNoError d (SetGLError GL_INVALID_OPERATION s)
    else match GetAddressAndCheckSize shm_id shm_offset 4 d with
         | None => answered kOutOfBounds d s
         | Some at_ =>
             (do w <- read_word at_ d ;;
              if negb (w =? u32 (-1)) then answered kGenericError d s
              else
                do location <- find p ;;
                do d <- write_words at_ [location] d ;; answered kNoError d s)%gpu
         end).

Definition GetAttribLocationHelper (client_id shm_id shm_offset : Z) (name_str : list Z) d s : Answered :=
  location_helper (fun p => Done (GetAttribLocation name_str (attrib_infos_ (inputs p)))) client_id shm_id shm_offset d s.

Definition GetUniformLocationHelper (client_id shm_id shm_offset : Z) (name_str : list Z) d s : Answered :=
  location_helper (fun p => GetUniformLocation name_str (uniform <$> uniform_infos_ (inputs p)))
    client_id shm_id shm_offset d s.

(** The name is in shared memory, after the struct, or in a bucket. *)
Definition name_in_memory (shm_id shm_offset size : Z) d s (f : list Z -> Decoder E -> Programs -> Answered) : Answered :=
  (do name <- GetSharedMemoryAs shm_id shm_offset size d ;;
   match name with None => answered kOutOfBounds d s | Some name => f name d s end)%gpu.

Definition name_in_command (size : Z) (immediate : list Z) d s (f : list Z -> Decoder E -> Programs -> Answered)
    : Answered :=
  (do name <- GetImmediateDataAs size immediate ;;
   match name with None => answered kOutOfBounds d s | Some name => f name d s end)%gpu.

Definition name_in_bucket (bucket_id : Z) d s (f : list Z -> Decoder E -> Programs -> Answered) : Answered :=
  match GetBucket bucket_id d with
  | None => answered kInvalidArguments d s
  | Some bucket =>
      (do name <- GetAsString bucket ;;
       match name with None => answered kInvalidArguments d s | Some name => f name d s end)%gpu
  end.

Definition HandleGetAttribLocation (program name_shm_id name_shm_offset data_size shm_id shm_offset : Z) d s :=
  name_in_memory name_shm_id name_shm_offset data_size d s (GetAttribLocationHelper program shm_id shm_offset).

Definition HandleGetAttribLocationImmediate (program data_size : Z) (immediate : list Z) (shm_id shm_offset : Z) d s :=
  name_in_command data_size immediate d s (GetAttribLocationHelper program shm_id shm_offset).

Definition HandleGetAttribLocationBucket (program name_bucket_id shm_id shm_offset : Z) d s :=
  name_in_bucket name_bucket_id d s (GetAttribLocationHelper program shm_id shm_offset).

Definition HandleGetUniformLocation (program name_shm_id name_shm_offset data_size shm_id shm_offset : Z) d s :=
  name_in_memory name_shm_id name_shm_offset data_size d s (GetUniformLocationHelper program shm_id shm_offset).

Definition HandleGetUniformLocationImmediate (program data_size : Z) (immediate : list Z) (shm_id shm_offset : Z) d s :=
  name_in_command data_size immediate d s (GetUniformLocationHelper program shm_id shm_offset).

Definition HandleGetUniformLocationBucket (program name_bucket_id shm_id shm_offset : Z) d s :=
  name_in_bucket name_bucket_id d s (GetUniformLocationHelper program shm_id shm_offset).

(** ** Parameters *)

(** The members of [util_]. *)
Variables (num_compressed_texture_formats num_shader_binary_formats : Z).

Definition num_values_of (pname : Z) : Z :=
  GLGetNumValuesReturned num_compressed_texture_formats num_shader_binary_formats pname.

(** [answer] is what the driver writes. *)
Definition DoGetProgramiv (answer client_id pname : Z) (params : Z * Z) d s : outcome (Decoder E * Programs) :=
  with_program_info client_id s (fun s => Done (d, s)) (fun a p s =>
    (do d <- write_words params [GetProgramiv pname answer p] d ;; Done (d, s))%gpu).

Definition length_of (str : option (list Z)) : Z := match str with Some str => zlen str + 1 | None => 0 end.

Definition GetShaderiv (pname answer : Z) (i : ShaderInfo) : Z :=
  if pname =? GL_SHADER_SOURCE_LENGTH then length_of (source_ i)
  else if pname =? GL_COMPILE_STATUS then Z.b2z (sh_valid_ i)
  else if pname =? GL_INFO_LOG_LENGTH then length_of (sh_log_info_ i)
  else if pname =? GL_TRANSLATED_SHADER_SOURCE_LENGTH_ANGLE then length_of (translated_source_ i)
  else answer.

Definition DoGetShaderiv (answer client_id pname : Z) (params : Z * Z) d s : outcome (Decoder E * Programs) :=
  with_shader_info client_id s (fun s => Done (d, s)) (fun a i s =>
    (do d <- write_words params [GetShaderiv pname answer i] d ;; Done (d, s))%gpu).

(** The generated code around both; [gl_error] is the driver's afterwards. *)
Definition get_parameter (valid : list Z) (gl_error pname shm_id shm_offset : Z)
    (DoGet : Z * Z -> Decoder E -> Programs -> outcome (Decoder E * Programs)) d s : Answered :=
  let num_values := num_values_of pname in
  let result := GetAddressAndCheckSize shm_id shm_offset (ComputeSize num_values) d in
  if negb (Validators.IsValid pname valid) then answered kNoError d (SetGLError GL_INVALID_ENUM s)
  else match result with
       | None => answered kOutOfBounds d s
       | Some a =>
           (do size <- read_word a d ;;
            if negb (size =? 0) then answered kInvalidArguments d s
            else
              do (d, s) <- DoGet (address_at a 4) d s ;;
              if gl_error =? GL_NO_ERROR then do d <- SetNumResults a num_values d ;; answered kNoError d s
              else answered kNoError d (SetGLError gl_error s))%gpu
       end.

Definition HandleGetProgramiv (answer gl_error program pname shm_id shm_offset : Z) d s : Answered :=
  get_parameter valid_program_parameter_table gl_error pname shm_id shm_offset (DoGetProgramiv answer program pname) d s.

Definition HandleGetShaderiv (answer gl_error shader pname shm_id shm_offset : Z) d s : Answered :=
  get_parameter valid_shader_parameter_table gl_error pname shm_id shm_offset (DoGetShaderiv answer shader pname) d s.

Definition DoIsProgram (client_id : Z) s : bool := bool_decide (is_Some (LookupProgram client_id (program_manager s))).
Definition DoIsShader (client_id : Z) s : bool := bool_decide (is_Some (GetShaderInfo client_id (shader_manager s))).

Definition ask_programs (question : bool) (shm_id shm_offset : Z) d s : Answered :=
  match GetAddressAndCheckSize shm_id shm_offset 4 d with
  | None => answered kOutOfBounds d s
  | Some a => (do d <- write_result a (Z.b2z question) d ;; answered kNoError d s)%gpu
  end.

Definition HandleIsProgram (program shm_id shm_offset : Z) d s : Answered :=
  ask_programs (DoIsProgram program s) shm_id shm_offset d s.
Definition HandleIsShader (shader shm_id shm_offset : Z) d s : Answered :=
  ask_programs (DoIsShader shader s) shm_id shm_offset d s.

(** ** Strings in buckets *)

(** The bucket is made before the object is looked up; [str] is what is put into it. *)
Definition string_to_bucket (bucket_id : Z) (str : option (list Z)) d s : Answered :=
  let '(bucket, d) := CreateBucket bucket_id d in
  (do bucket <- SetFromString str bucket ;; answered kNoError (set_bucket bucket_id bucket d) s)%gpu.

Definition string_of_shader (client_id bucket_id : Z) (absent : option (list Z)) (f : ShaderInfo -> option (list Z)) d s
    : Answered :=
  with_shader_info client_id s (string_to_bucket bucket_id absent d) (fun a i s =>
    string_to_bucket bucket_id (f i) d s).

Definition HandleGetShaderSource (shader bucket_id : Z) d s : Answered :=
  string_of_shader shader bucket_id None source_ d s.

Definition HandleGetTranslatedShaderSourceANGLE (shader bucket_id : Z) d s : Answered :=
  string_of_shader shader bucket_id None translated_source_ d s.

Definition HandleGetShaderInfoLog (shader bucket_id : Z) d s : Answered :=
  string_of_shader shader bucket_id (Some []) (fun i => Some (default [] (sh_log_info_ i))) d s.

Definition HandleGetProgramInfoLog (client_id bucket_id : Z) d s : Answered :=
  with_program_info client_id s (string_to_bucket bucket_id (Some []) d) (fun a p s =>
    string_to_bucket bucket_id (Some (default [] (p_log_info_ p))) d s).

(** ** Attributes and uniforms *)

(** [Result] of both: whether it succeeded, a size and a type. *)
Definition get_active (find : ProgramInfo -> option (Z * Z * list Z))
    (client_id name_bucket_id shm_id shm_offset : Z) d s : Answered :=
  match GetAddressAndCheckSize shm_id shm_offset 12 d with
  | None => answered kOutOfBounds d s
  | Some a =>
      (do success <- read_word a d ;;
       if negb (success =? 0) then answered kInvalidArguments d s
       else
         with_program_info client_id s (answered kNoError d) (fun _ p s =>
           match find p with
           | None => answered kNoError d (SetGLError GL_INVALID_VALUE s)
           | Some (size, type, name) =>
               do d <- write_words a [1; size; type] d ;; string_to_bucket name_bucket_id (Some (c_str name)) d s
           end))%gpu
  end.

Definition HandleGetActiveUniform (program index name_bucket_id shm_id shm_offset : Z) d s : Answered :=
  get_active (fun p => u ← GetUniformInfo (i32 index) p;
                       Some (u_size (uniform u), u_type (uniform u), u_name (uniform u)))
    program name_bucket_id shm_id shm_offset d s.

Definition HandleGetActiveAttrib (program index name_bucket_id shm_id shm_offset : Z) d s : Answered :=
  get_active (fun p => i ← GetAttribInfo (i32 index) p; Some (a_size i, a_type i, a_name i))
    program name_bucket_id shm_id shm_offset d s.

(** The size that is set first does not clear a bucket that has it. *)
Definition HandleGetProgramInfoCHROMIUM (client_id bucket_id : Z) d s : Answered :=
  let '(bucket, d) := CreateBucket bucket_id d in
  let bucket := SetSize header_size bucket in
  match LookupProgram client_id (program_manager s) with
  | None => answered kNoError (set_bucket bucket_id bucket d) s
  | Some a =>
      (do p <- program a (program_manager s) ;;
       if negb (p_valid_ p) then answered kNoError (set_bucket bucket_id bucket d) s
       else
         do bucket <- GetProgramInfo p bucket ;; answered kNoError (set_bucket bucket_id bucket d) s)%gpu
  end.

(** ** The values of a uniform *)

(** The answer is the result's place, the program's service id and the type, when the values
    are to be asked for. *)
Definition GetUniformSetup (client_id location shm_id shm_offset : Z) d s
    : outcome (Error * option (Z * Z * Z * Z) * (Decoder E * Programs)) :=
  match GetAddressAndCheckSize shm_id shm_offset (ComputeSize 0) d with
  | None => Done (kOutOfBounds, None, (d, s))
  | Some a =>
      (do d <- SetNumResults a 0 d ;;
       with_program_info client_id s (fun s => Done (kNoError, None, (d, s))) (fun _ p s =>
         if negb (p_valid_ p) then Done (kNoError, None, (d, SetGLError GL_INVALID_OPERATION s))
         else
           do found <- GetUniformInfoByLocation location p ;;
           match found with
           | None => Done (kNoError, None, (d, SetGLError GL_INVALID_OPERATION s))
           | Some (u, _) =>
               let type := u_type (uniform u) in
               let size := GetGLDataTypeSizeForUniforms type in
               if size =? 0 then Done (kNoError, None, (d, SetGLError GL_INVALID_OPERATION s))
               else match GetAddressAndCheckSize shm_id shm_offset (usize (size + 4)) d with
                    | None => Done (kOutOfBounds, None, (d, s))
                    | Some a =>
                        do d <- write_words a [size] d ;;
                        Done (kNoError, Some (a, p_service_id_ p, type), (d, s))
                    end
           end))%gpu
  end.

(** [values] are what the driver writes. *)
Definition HandleGetUniformiv (values : list Z) (program location shm_id shm_offset : Z) d s : Answered :=
  (do (error, setup, (d, s)) <- GetUniformSetup program location shm_id shm_offset d s ;;
   match setup with
   | None => answered error d s
   | Some (a, _, _) => do d <- write_words (address_at a 4) values d ;; answered error d s
   end)%gpu.

(** [1.0f] *)
Definition one_f : Z := 1065353216.

(** The integers are first written to an array of as many as the result says. *)
Definition HandleGetUniformfv (values : list Z) (program location shm_id shm_offset : Z) d s : Answered :=
  (do (error, setup, (d, s)) <- GetUniformSetup program location shm_id shm_offset d s ;;
   match setup with
   | None => answered error d s
   | Some (a, _, type) =>
       if (type =? GL_BOOL) || (type =? GL_BOOL_VEC2) || (type =? GL_BOOL_VEC3) || (type =? GL_BOOL_VEC4) then
         do size <- read_word a d ;;
         if negb (zlen values =? i32 (size / 4)) then UB
         else
           do d <- write_words (address_at a 4) ((fun x => if negb (x =? 0) then one_f else 0) <$> values) d ;;
           answered error d s
       else do d <- write_words (address_at a 4) values d ;; answered error d s
   end)%gpu.

(** ** The shaders of a program *)

(** The loop that makes the driver's ids, which are in the result, the client's. *)
Fixpoint replace_ids (n : nat) (at_ : Z * Z) (sm : ShaderManager) d : outcome (bool * Decoder E) :=
  match n with
  | O => Done (true, d)
  | S n =>
      (do id <- read_word at_ d ;;
       match GetClientId_shader id sm with
       | None => Done (false, d)
       | Some client_id => do d <- write_words at_ [client_id] d ;; replace_ids n (address_at at_ 4) sm d
       end)%gpu
  end.

(** [attached] are the ids that the driver writes. *)
Definition HandleGetAttachedShaders (attached : list Z) (client_id shm_id shm_offset result_size : Z) d s : Answered :=
  with_program_info client_id s (answered kNoError d) (fun _ p s =>
    let max_count := u32 (usize (result_size - 4) / 4) in
    match GetAddressAndCheckSize shm_id shm_offset (u32 (ComputeSize max_count)) d with
    | None => answered kOutOfBounds d s
    | Some a =>
        (do size <- read_word a d ;;
         if negb (size =? 0) then answered kInvalidArguments d s
         else
           do d <- write_words (address_at a 4) attached d ;;
           do (ok, d) <- replace_ids (List.length attached) (address_at a 4) (shader_manager s) d ;;
           if negb (ok : bool) then answered kGenericError d s
           else do d <- SetNumResults a (zlen attached) d ;; answered kNoError d s)%gpu
    end).

End queries.
