(* ===== verification/ProgramSafety.v ===== *)
(** * Commands keep programs consistent

    Every command of shaders, programs and uniforms runs inside the objects it finds and
    leaves the managers consistent. *)

From S2P Require Import Prelude CmdFormat CommandBufferService CommonDecoder.
From Stdlib Require Import ZArith Lia ZifyBool Bool String.
From stdpp Require Import base numbers option gmap list.
From S2P Require Import Prelude GLConstants Validators GLES2Util Names Uniforms ShaderManager ProgramManager.
From S2P Require Import ProgramInvariant ProgramCounting TextureDecoder ProgramDecoder UniformDecoder.
Local Open Scope Z_scope.

Implicit Types s : Programs.

(** ** The state *)

Definition programs_good s : Prop := programs_ok (current_program_ s) (shader_manager s) (program_manager s).

Lemma Programs_new_good : programs_good Programs_new.
Proof. apply programs_new_ok. Qed.

(** An outcome that is a result with a property. *)
Definition yields {A} (P : A -> Prop) (m : outcome A) : Prop := exists a, m = Done a /\ P a.

Lemma yields_Done {A} (P : A -> Prop) a : P a -> yields P (Done a).
Proof. by exists a. Qed.

Lemma yields_bind {A B} (P : A -> Prop) (Q : B -> Prop) m f :
  yields P m -> (forall a, P a -> yields Q (f a)) -> yields Q (obind m f).
Proof. intros (a & -> & Ha) Hf. by apply Hf. Qed.

Lemma yields_weaken {A} (P Q : A -> Prop) m : yields P m -> (forall a, P a -> Q a) -> yields Q m.
Proof. intros (a & -> & Ha) HPQ. exists a. auto. Qed.

Lemma yields_option {A} (P : A -> Prop) o : (exists a, o = Some a /\ P a) -> yields P (of_option o).
Proof. intros (a & -> & Ha). by exists a. Qed.

(** A state that is good, and the same with an error code. *)
Definition fine : outcome Programs -> Prop := yields programs_good.
Definition fine_code : outcome (Error * Programs) -> Prop := yields (fun r => programs_good r.2).

Lemma no_error_fine m : fine m -> fine_code (no_error m).
Proof. intros Hm. eapply yields_bind; [exact Hm|]. intros s Hs. by apply yields_Done. Qed.

Lemma SetGLError_good error s : programs_good s -> programs_good (SetGLError error s).
Proof. done. Qed.

Lemma gl_good call s : programs_good s -> programs_good (gl call s).
Proof. done. Qed.

#[local] Hint Resolve SetGLError_good gl_good Programs_new_good : gpu.

Section state.
Variable s : Programs.
Hypothesis Hs : programs_good s.

Lemma live_program client_id a :
  LookupProgram client_id (program_manager s) = Some a ->
  exists p, programs (program_manager s) !! a = Some p /\ owned (program_infos_ (program_manager s)) a.
Proof.
  intros Ha. destruct (programs_live _ _ _ _ Hs client_id a Ha) as [p Hp]. exists p. split; [done|]. by exists client_id.
Qed.

Lemma live_shader client_id a :
  GetShaderInfo client_id (shader_manager s) = Some a ->
  exists i, shaders (shader_manager s) !! a = Some i /\ owned (shader_infos_ (shader_manager s)) a.
Proof.
  intros Ha. destruct (shaders_live _ _ (programs_shaders _ _ _ _ Hs) client_id a Ha) as [i Hi].
  exists i. split; [done|]. by exists client_id.
Qed.

(** What a handler does with a program or a shader that it looks up. *)
Lemma with_program_info_yields {A} (P : A -> Prop) client_id absent f :
  (forall error, yields P (absent (SetGLError error s))) ->
  (forall a p, LookupProgram client_id (program_manager s) = Some a ->
     programs (program_manager s) !! a = Some p -> owned (program_infos_ (program_manager s)) a ->
     yields P (f a p s)) ->
  yields P (with_program_info client_id s absent f).
Proof.
  intros Ha Hf. unfold with_program_info, GetProgramInfoNotShader.
  destruct (LookupProgram client_id (program_manager s)) as [a|] eqn:E1; [|by apply Ha].
  destruct (live_program _ _ E1) as (p & Hp & Ho). unfold program. rewrite Hp. cbn [of_option obind]. by apply Hf.
Qed.

Lemma with_shader_info_yields {A} (P : A -> Prop) client_id absent f :
  (forall error, yields P (absent (SetGLError error s))) ->
  (forall a i, GetShaderInfo client_id (shader_manager s) = Some a ->
     shaders (shader_manager s) !! a = Some i -> owned (shader_infos_ (shader_manager s)) a ->
     yields P (f a i s)) ->
  yields P (with_shader_info client_id s absent f).
Proof.
  intros Ha Hf. unfold with_shader_info, GetShaderInfoNotProgram.
  destruct (GetShaderInfo client_id (shader_manager s)) as [a|] eqn:E1; [|by apply Ha].
  destruct (live_shader _ _ E1) as (i & Hi & Ho). unfold shader. rewrite Hi. cbn [of_option obind]. by apply Hf.
Qed.

(** A shader that keeps its type, its count and its id. *)
Record same_shader (i i' : ShaderInfo) : Prop := {
  same_shader_type : shader_type_ i' = shader_type_ i;
  same_shader_use : sh_use_count_ i' = sh_use_count_ i;
  same_shader_id : sh_service_id_ i' = sh_service_id_ i;
}.

Lemma set_shader_good a i i' :
  shaders (shader_manager s) !! a = Some i -> same_shader i i' -> programs_good (set_shader a i' s).
Proof.
  intros Ha [Ht Hu Hi]. unfold programs_good. cbn. eapply programs_but_shaders; [exact Hs| |].
  - by eapply with_shader_ok; [apply Hs|..].
  - by eapply same_types_insert.
Qed.

Lemma set_program_good a p p' :
  programs (program_manager s) !! a = Some p -> same_use p p' -> inputs_ok (inputs p') ->
  (p_valid_ p = true -> p_valid_ p' = true) -> programs_good (set_program a p' s).
Proof. intros Ha Hp Hi Hv. unfold programs_good. cbn. eapply with_program_ok; eauto. Qed.

End state.

(** ** Objects *)

Section objects.
Variable s : Programs.
Hypothesis Hs : programs_good s.

Lemma HandleCreateProgram_fine client_id service_id : fine_code (HandleCreateProgram client_id service_id s).
Proof.
  unfold HandleCreateProgram, CreateProgramHelper. destruct (LookupProgram _ _); [by apply yields_Done|].
  apply yields_Done. cbn [snd]. case_match eqn:E1; zbool; [|done]. unfold programs_good. cbn. by apply CreateProgramInfo_ok.
Qed.

Lemma HandleCreateShader_fine type client_id service_id : fine_code (HandleCreateShader type client_id service_id s).
Proof.
  unfold HandleCreateShader, CreateShaderHelper. destruct (negb _); [by apply yields_Done|].
  destruct (GetShaderInfo _ _) eqn:Eg; [by apply yields_Done|]. apply yields_Done. cbn [snd]. case_match eqn:E1; zbool; [|done].
  unfold programs_good. cbn. eapply programs_but_shaders; [exact Hs|by apply CreateShaderInfo_ok; [apply Hs|]|].
  unfold CreateShaderInfo. unfold GetShaderInfo in Eg. rewrite Eg. apply same_types_fresh, (shaders_ok_fresh _ _ (programs_shaders _ _ _ _ Hs)).
Qed.

Lemma HandleDeleteShader_fine client_id : fine_code (HandleDeleteShader client_id s).
Proof.
  unfold HandleDeleteShader. destruct (client_id =? 0); [by apply yields_Done|].
  destruct (GetShaderInfo client_id (shader_manager s)) as [a|] eqn:Ea; [|by apply yields_Done].
  destruct (live_shader s Hs _ _ Ea) as (i & Hi & Ho). unfold shader. rewrite Hi. cbn [of_option obind].
  destruct (IsDeleted_shader i); [by apply yields_Done|]. cbn [gl shader_manager].
  destruct (ShaderManager.MarkAsDeleted_ok _ a _ (programs_shaders _ _ _ _ Hs) Ho) as (sm & Em & Hsm & _).
  rewrite Em. cbn [obind]. apply yields_Done. unfold programs_good. cbn.
  eapply programs_but_shaders; [exact Hs|done|by eapply MarkAsDeleted_types].
Qed.

Lemma HandleDeleteProgram_fine client_id : fine_code (HandleDeleteProgram client_id s).
Proof.
  unfold HandleDeleteProgram. destruct (client_id =? 0); [by apply yields_Done|].
  destruct (LookupProgram client_id (program_manager s)) as [a|] eqn:Ea; [|by apply yields_Done].
  destruct (live_program s Hs _ _ Ea) as (p & Hp & Ho). unfold program. rewrite Hp. cbn [of_option obind].
  destruct (IsDeleted_program p); [by apply yields_Done|]. cbn [gl shader_manager program_manager].
  destruct (MarkProgramAsDeleted_ok _ _ _ a Hs ltac:(by eexists)) as (sm & m & -> & Hm & _). cbn [obind]. by apply yields_Done.
Qed.

Lemma DoAttachShader_fine program shader : fine (DoAttachShader program shader s).
Proof.
  apply with_program_info_yields; [done|intros; by apply yields_Done|]. intros b p _ Hb Hob.
  apply with_shader_info_yields; [done|intros; by apply yields_Done|]. intros a i _ Ha Hoa.
  destruct (attach_hypotheses _ _ _ _ _ Hs Hb) as (H1 & H2 & H3).
  destruct (AttachShader_ok _ _ _ a H1 H2 H3 i Ha Hoa) as (changed & l & Hd & _).
  destruct (attached_done_ok _ _ _ b p _ _ _ Hs Hb Hob Hd) as (sm & -> & Hok & _). cbn [obind].
  destruct changed; by apply yields_Done.
Qed.

(** The shader is not deleted, or another program still has it. *)
Definition detachable (client_id : Z) : Prop := forall a i,
  GetShaderInfo client_id (shader_manager s) = Some a -> shaders (shader_manager s) !! a = Some i ->
  IsDeleted_shader i = false \/ 2 <= uses (programs (program_manager s)) a.

Lemma owned_IsOwned a m : owned (shader_infos_ m) a -> IsOwned_shader a m = true.
Proof.
  intros Ho. unfold IsOwned_shader. apply bool_decide_eq_true. destruct (find_owner a (shader_infos_ m)) eqn:Ef; [by eexists|].
  by apply find_owner_None in Ef.
Qed.

Lemma UnuseShader_at a m m' i :
  UnuseShader a m = Done m' -> shaders m !! a = Some i -> shaders m' !! a = Some (ShaderManager.DecUseCount i).
Proof.
  unfold UnuseShader, shader. intros Hm Ha. rewrite Ha in Hm. cbn [of_option obind] in Hm.
  apply RemoveShaderInfoIfUnused_shaders in Hm. rewrite Hm. cbn. by rewrite lookup_insert_eq.
Qed.

Lemma DetachShader_at a sm p p' sm' i :
  DetachShader a sm p = Done (true, p', sm') -> shaders sm !! a = Some i ->
  shaders sm' !! a = Some (ShaderManager.DecUseCount i).
Proof.
  intros Hd Ha. unfold DetachShader, shader in Hd. rewrite Ha in Hd. cbn [of_option obind] in Hd.
  destruct (zget _ _) as [slot|]; [|done]. cbn [of_option obind] in Hd. destruct (negb _); [done|].
  destruct (zset _ _ _) as [l|]; [|done]. cbn [of_option obind] in Hd.
  destruct (UnuseShader a sm) as [sm1| |] eqn:Eu; [|done..]. cbn [obind] in Hd. injection Hd as <- <-. by eapply UnuseShader_at.
Qed.

Lemma DoDetachShader_fine program shader : detachable shader -> fine (DoDetachShader program shader s).
Proof.
  intros Hdet. apply with_program_info_yields; [done|intros; by apply yields_Done|]. intros b p _ Hb Hob.
  apply with_shader_info_yields; [done|intros; by apply yields_Done|]. intros a i Hca Ha Hoa.
  destruct (attach_hypotheses _ _ _ _ _ Hs Hb) as (H1 & H2 & H3).
  destruct (DetachShader_ok _ _ _ a H1 H2 H3 i Ha) as (l & Hd & Hl).
  destruct (attached_done_ok _ _ _ b p _ _ _ Hs Hb Hob Hd) as (sm & Ed & Hok & _). rewrite Ed. cbn [obind].
  destruct (bool_decide _) eqn:Ec; cbn [negb]; [|by apply yields_Done].
  pose proof (DetachShader_at _ _ _ _ _ _ Ed Ha) as Ha'. apply bool_decide_eq_true in Ec.
  assert (shader_freed a (with_managers sm (with_program b (with_attached l p) (program_manager s)) s) = false) as Hf.
  { unfold shader_freed. cbn [with_managers shader_manager program_manager].
    rewrite owned_IsOwned; [done|]. apply (shaders_named _ _ (programs_shaders _ _ _ _ Hok) a _ Ha').
    destruct (Hdet a i Hca Ha) as [?|Hu]; [by left|right]. cbn [with_program programs].
    rewrite uses_insert. rewrite (uses_split _ _ _ a Hb) in Hu. unfold attached_count in *. cbn [with_attached attached_shaders_].
    rewrite (count_of_zset _ _ _ _ _ a Ec Hl), decide_True, decide_False by done. lia. }
  rewrite Hf. by apply yields_Done.
Qed.

(** The driver locates what is active in a program that it linked. *)
Definition link_answer_ok (answer : LinkAnswer) (client_id : Z) : Prop := forall a p,
  LookupProgram client_id (program_manager s) = Some a -> programs (program_manager s) !! a = Some p ->
  gl_link_status answer = true ->
  reflection_ok (shaders (shader_manager s)) (attached_shaders_ p) (gl_reflection answer).

Lemma DoLinkProgram_fine answer program : link_answer_ok answer program -> fine (DoLinkProgram answer program s).
Proof.
  intros Hans. apply with_program_info_yields; [done|intros; by apply yields_Done|]. intros a p Hca Hp Ho. unfold Link.
  pose proof (programs_inputs _ _ _ _ Hs a p Hp) as Hi.
  destruct (negb _); [cbn [obind]; apply yields_Done; by eapply set_program_good|].
  destruct (gl_link_status answer) eqn:Es; [|cbn [obind]; apply yields_Done; by eapply (set_program_good (gl _ s))].
  pose proof (programs_attached _ _ _ _ Hs a p Hp) as Hat. apply attached_ok_in in Hat.
  destruct (read_inputs_ok _ _ _ Hat (Hans a p Hca Hp Es)) as (i & Er & Hiok).
  unfold Update. cbn [UpdateLogInfo Reset with_inputs with_status set_log_info attached_shaders_]. rewrite Er. cbn [obind].
  apply yields_Done. by eapply (set_program_good (gl _ s)).
Qed.

Lemma DoValidateProgram_fine log program : fine (DoValidateProgram log program s).
Proof.
  apply with_program_info_yields; [done|intros; by apply yields_Done|]. intros a p Hca Hp Ho.
  pose proof (programs_inputs _ _ _ _ Hs a p Hp) as Hi. unfold Validate.
  destruct (negb _); apply yields_Done; [by eapply set_program_good|by eapply (set_program_good (gl _ s))].
Qed.

Lemma use_program_fine info service_id :
  (forall a, info = Some a -> exists p, programs (program_manager s) !! a = Some p /\ p_valid_ p = true) ->
  fine (use_program info service_id s).
Proof.
  intros Hinfo. unfold use_program.
  eapply (yields_bind (fun s' => programs_ok None (shader_manager s') (program_manager s') /\
                         same_valid (programs (program_manager s)) (programs (program_manager s')))).
  { unfold programs_good in Hs. destruct (current_program_ s) as [c|].
    - destruct (UnuseProgram_ok _ _ _ Hs) as (sm & m & -> & Hm & Hv & _). cbn [obind]. by apply yields_Done.
    - apply yields_Done. split; [done|apply same_valid_refl]. }
  intros s1 [H1 Hv1]. eapply (yields_bind programs_good).
  - destruct info as [a|]; [|by apply yields_Done]. destruct (Hinfo a eq_refl) as (p & Hp & Hpv).
    destruct (Hv1 a p Hp) as (p' & Hp' & Ev). cbn [with_current program_manager].
    destruct (UseProgram_ok _ _ a p' H1 Hp' ltac:(congruence)) as (m & -> & Hm & _). cbn [obind]. by apply yields_Done.
  - intros s2 Hs2. by apply yields_Done.
Qed.

Lemma DoUseProgram_fine program : fine (DoUseProgram program s).
Proof.
  unfold DoUseProgram. destruct (program =? 0); [by apply use_program_fine|].
  apply with_program_info_yields; [done|intros; by apply yields_Done|]. intros a p Hca Hp Ho.
  destruct (p_valid_ p) eqn:Ev; cbn [negb]; [|by apply yields_Done]. apply use_program_fine. intros ? [= <-]. by exists p.
Qed.

Lemma ShaderSourceHelper_fine client_id data : fine_code (ShaderSourceHelper client_id data s).
Proof.
  apply with_shader_info_yields; [done|intros; by apply yields_Done|]. intros a i Hca Hi Ho.
  apply yields_Done. by eapply set_shader_good.
Qed.

Lemma SetStatus_same valid log t i : same_shader i (SetStatus valid log t i).
Proof. unfold SetStatus. destruct t as [t|]; [destruct valid|]; done. Qed.

Lemma same_shader_trans i1 i2 i3 : same_shader i1 i2 -> same_shader i2 i3 -> same_shader i1 i3.
Proof. intros [? ? ?] [? ? ?]. split; congruence. Qed.

Lemma compile_good compiler answer a i i0 t src :
  shaders (shader_manager s) !! a = Some i0 -> same_shader i0 i -> programs_good (compile compiler answer a i t src s).
Proof.
  intros Ha Hi. unfold compile. eapply (set_shader_good (gl _ (gl _ s)) Hs); [exact Ha|].
  eapply same_shader_trans; [exact Hi|]. eapply same_shader_trans; [|case_match; apply SetStatus_same].
  by case_match.
Qed.

Lemma DoCompileShader_fine compiler Translate answer shader : fine (DoCompileShader compiler Translate answer shader s).
Proof.
  apply with_shader_info_yields; [done|intros; by apply yields_Done|]. intros a i Hca Hi Ho. cbv zeta.
  destruct (use_shader_translator_ compiler); [|apply yields_Done; by eapply compile_good].
  destruct (Translate (shader_type_ i) (default [] (source_ i))) as [[t|] log].
  - apply yields_Done. eapply compile_good; [exact Hi|]. by case_match.
  - apply yields_Done. eapply set_shader_good; [exact Hs|exact Hi|apply SetStatus_same].
Qed.

End objects.

(** ** Uniforms *)

(** What a lookup by location finds. *)
Lemma GetUniformInfoByLocation_ok location p :
  inputs_ok (inputs p) ->
  yields (fun r => forall u k, r = Some (u, k) -> service_uniform_ok u /\ 0 <= k < u_size (uniform u) /\
            exists i, zget (location_infos_ (inputs p)) location = Some (mkLocationInfo i k) /\ 0 <= i /\
              zget (uniform_infos_ (inputs p)) i = Some u)
    (GetUniformInfoByLocation location p).
Proof.
  intros [H1 _ H3 _]. unfold GetUniformInfoByLocation. case_match eqn:Er; [|by apply yields_Done]. zbool.
  destruct (zget_in (location_infos_ (inputs p)) location) as [[i k] Hi]; [lia|]. rewrite Hi. cbn [of_option obind uniform_index array_index].
  destruct (i >=? 0) eqn:Ei; [|by apply yields_Done].
  destruct (H3 _ _ Hi) as [?|(u & Hu & Hk)]; cbn [uniform_index array_index] in *; [lia|]. rewrite Hu. cbn [of_option obind].
  apply yields_Done. intros u' k' [= <- <-]. rewrite Forall_forall in H1. split; [apply H1, elem_of_zget; by eexists|].
  split; [done|]. exists i. split; [done|]. split; [lia|done].
Qed.

(** Changing the units of a sampler. *)
Lemma set_uniform_ok i u u' p :
  inputs_ok (inputs p) -> zget (uniform_infos_ (inputs p)) i = Some u -> uniform u' = uniform u ->
  zlen (texture_units u') = zlen (texture_units u) -> Forall is_u32 (texture_units u') ->
  yields (fun p' => same_use p p' /\ inputs_ok (inputs p') /\ p_valid_ p' = p_valid_ p) (set_uniform i u' p).
Proof.
  intros [H1 H2 H3 H4] Hu Hu1 Hu2 Hu3. unfold set_uniform.
  pose proof (zset_in (uniform_infos_ (inputs p)) i u' (zget_range _ _ _ Hu)) as Es. rewrite Es. cbn [of_option obind].
  apply yields_Done. split; [done|]. split; [|done].
  assert (forall k v, zget (<[Z.to_nat i := u']> (uniform_infos_ (inputs p))) k = Some v ->
    exists v0, zget (uniform_infos_ (inputs p)) k = Some v0 /\ uniform v = uniform v0 /\
      zlen (texture_units v) = zlen (texture_units v0)) as Hback.
  { intros k v. rewrite (zget_zset _ _ _ _ _ Es). case_match eqn:Ek; zbool; [|by exists v]. subst. intros [= <-]. by exists u. }
  assert (forall k v0, zget (uniform_infos_ (inputs p)) k = Some v0 ->
    exists v, zget (<[Z.to_nat i := u']> (uniform_infos_ (inputs p))) k = Some v /\ uniform v = uniform v0) as Hforth.
  { intros k v0. rewrite (zget_zset _ _ _ _ _ Es). case_match eqn:Ek; zbool; [|by exists v0]. subst. intros Hv0. exists u'.
    split; [done|]. congruence. }
  split; cbn [with_inputs inputs uniform_infos_ sampler_indices_ location_infos_ attrib_location_to_index_map_ attrib_infos_];
    [| | |done].
  - assert (forall v, v ∈ uniform_infos_ (inputs p) -> service_uniform_ok v) as H1' by (by apply Forall_forall).
    apply Forall_forall. intros v [k Hk]%elem_of_zget. destruct (Hback k v Hk) as (v0 & Hv0 & E1 & E2).
    rewrite Forall_forall in H1. specialize (H1 v0 ltac:(apply elem_of_zget; by eexists)) as (A1 & A2 & A3).
    rewrite (zget_zset _ _ _ _ _ Es) in Hk. destruct (i =? k) eqn:Ek.
    + injection Hk as <-. split; [by rewrite E1|]. split; [by rewrite E1, E2|done].
    + specialize (H1' v ltac:(apply elem_of_zget; by eexists)). done.
  - intros k. rewrite (H2 k). split; intros (v & Hv & Hs).
    + destruct (Hforth k v Hv) as (v' & Hv' & E1). exists v'. by rewrite E1.
    + destruct (Hback k v Hv) as (v' & Hv' & E1 & _). exists v'. by rewrite <- E1.
  - intros l info Hl. destruct (H3 l info Hl) as [?|(v & Hv & Hk)]; [by left|]. right.
    destruct (Hforth _ v Hv) as (v' & Hv' & E1). exists v'. by rewrite E1.
Qed.

Lemma SetSamplers_ok location count value p :
  inputs_ok (inputs p) -> count <= zlen value ->
  yields (fun r => same_use p r.2 /\ inputs_ok (inputs r.2) /\ p_valid_ r.2 = p_valid_ p) (SetSamplers location count value p).
Proof.
  intros Hi Hc. assert (same_use p p) as Hsame by done. unfold SetSamplers. case_match eqn:Er; [|by apply yields_Done]. zbool.
  destruct (zget_in (location_infos_ (inputs p)) location) as [[i k] Hl]; [lia|]. rewrite Hl. cbn [of_option obind uniform_index array_index].
  destruct (i >=? 0) eqn:Ei; [|by apply yields_Done].
  destruct (inputs_locations _ Hi _ _ Hl) as [?|(u & Hu & Hk)]; cbn [uniform_index array_index] in *; [lia|].
  rewrite Hu. cbn [of_option obind]. cbv zeta. set (n := Z.min (u_size (uniform u) - k) count).
  destruct (IsSampler (uniform u) && (n >? 0)) eqn:Es; [|by apply yields_Done]. apply andb_prop in Es as [Es En]. zbool.
  destruct (zread_Some value 0 n) as (units & -> & Hlen); [lia..|]. cbn [of_option obind].
  pose proof (inputs_uniforms _ Hi) as Hf. rewrite Forall_forall in Hf.
  destruct (Hf u ltac:(apply elem_of_zget; by eexists)) as (_ & Htu & Hu32). rewrite Es in Htu.
  assert (zlen (u32 <$> units) = n) as Hn by (rewrite <- Hlen; unfold zlen; by rewrite length_fmap).
  destruct (zwrite_Some (texture_units u) (u32 <$> units) k) as (tu & Ew & Htul); [lia..|]. rewrite Ew. cbn [of_option obind].
  assert (Forall is_u32 tu) as Htu32.
  { eapply zwrite_Forall; [exact Hu32| |exact Ew]. apply Forall_fmap, Forall_forall. intros x _. apply u32_range. }
  eapply yields_bind; [eapply (set_uniform_ok i u); [exact Hi|exact Hu|done|exact Htul|exact Htu32]|].
  intros p' Hp'. by apply yields_Done.
Qed.

Section uniforms.
Variable s : Programs.
Hypothesis Hs : programs_good s.

(** The current program is there, linked and counted. *)
Lemma current_program a :
  current_program_ s = Some a ->
  exists p, programs (program_manager s) !! a = Some p /\ p_valid_ p = true /\ InUse p = true /\ inputs_ok (inputs p).
Proof.
  intros Ha. destruct (programs_current _ _ _ _ Hs a Ha) as (p & Hp & Hv). exists p. split; [done|]. split; [done|].
  split; [|exact (programs_inputs _ _ _ _ Hs a p Hp)].
  unfold InUse. rewrite (programs_counted _ _ _ _ Hs a p Hp), Ha, decide_True by done. done.
Qed.

(** The check fails when no program is in use, and for no other reason. *)
Lemma CheckCurrentProgram_cases :
  CheckCurrentProgram s = match current_program_ s with
                          | Some _ => Done (true, s)
                          | None => Done (false, SetGLError GL_INVALID_OPERATION s)
                          end.
Proof.
  unfold CheckCurrentProgram. destruct (current_program_ s) as [a|] eqn:Ea; [|done].
  destruct (current_program a Ea) as (p & Hp & _ & Hu & _). unfold program. rewrite Hp. cbn [of_option obind]. by rewrite Hu.
Qed.

Lemma CheckCurrentProgramForUniform_cases location :
  CheckCurrentProgramForUniform location s =
    match current_program_ s with
    | Some _ => Done (negb (location =? -1), s)
    | None => Done (false, SetGLError GL_INVALID_OPERATION s)
    end.
Proof. unfold CheckCurrentProgramForUniform. rewrite CheckCurrentProgram_cases. by case_match. Qed.

(** Preparing leaves the state but for an error; the count is what the array has room for. *)
Lemma PrepForSetUniformByLocation_ok location count :
  yields (fun r => programs_good r.2 /\ forall type n, r.1 = Some (type, n) ->
            r.2 = s /\ is_Some (current_program_ s) /\ 0 < n <= count)
    (PrepForSetUniformByLocation location count s).
Proof.
  unfold PrepForSetUniformByLocation. rewrite CheckCurrentProgramForUniform_cases.
  destruct (current_program_ s) as [a|] eqn:Ea; cbn [obind negb]; [|by apply yields_Done].
  destruct (location =? -1); cbn [negb]; [by apply yields_Done|].
  destruct (current_program a Ea) as (p & Hp & _ & _ & Hi). unfold current, program. rewrite Ea. cbn [of_option obind].
  rewrite Hp. cbn [of_option obind]. eapply yields_bind; [by apply GetUniformInfoByLocation_ok|].
  intros [[u k]|] Hr; [|by apply yields_Done].
  destruct (Hr u k eq_refl) as (_ & Hk & _). case_match; [by apply yields_Done|]. cbv zeta.
  destruct (Z.min _ _ <=? 0) eqn:En; apply yields_Done; [done|]. cbn [fst snd]. split; [done|].
  intros type n [= <- <-]. zbool. split; [done|]. split; [by eexists|]. lia.
Qed.

Lemma set_samplers_fine location count value :
  is_Some (current_program_ s) -> count <= zlen value ->
  yields (fun s' => programs_good s' /\ current_program_ s' = current_program_ s) (set_samplers location count value s).
Proof.
  intros [a Ha] Hc. destruct (current_program a Ha) as (p & Hp & Hv & _ & Hi).
  unfold set_samplers, current, program. rewrite Ha. cbn [of_option obind]. rewrite Hp. cbn [of_option obind].
  eapply yields_bind; [by apply SetSamplers_ok|]. intros [b p'] (H1 & H2 & H3). cbn [snd] in *. apply yields_Done.
  split; [|done]. eapply set_program_good; [done..|]. congruence.
Qed.

Lemma DoUniform1i_fine location v0 : fine (DoUniform1i location v0 s).
Proof.
  unfold DoUniform1i. rewrite CheckCurrentProgramForUniform_cases.
  destruct (current_program_ s) as [a|] eqn:Ea; cbn [obind negb]; [|by apply yields_Done].
  destruct (location =? -1); cbn [negb]; [by apply yields_Done|].
  eapply yields_bind; [apply set_samplers_fine; [by eexists|done]|]. intros s' [Hs' _]. by apply yields_Done.
Qed.

Lemma DoUniform1iv_fine location count value : count <= zlen value -> fine (DoUniform1iv location count value s).
Proof.
  intros Hc. unfold DoUniform1iv. rewrite CheckCurrentProgramForUniform_cases.
  destruct (current_program_ s) as [a|] eqn:Ea; cbn [obind negb]; [|by apply yields_Done].
  destruct (location =? -1); cbn [negb]; [by apply yields_Done|].
  eapply yields_bind; [apply PrepForSetUniformByLocation_ok|]. intros [[[type n]|] s1] [H1 H2]; cbn [fst snd] in *; [|by apply yields_Done].
  destruct (H2 type n eq_refl) as (-> & Hcur & Hn).
  eapply (yields_bind programs_good).
  - case_match; [|by apply yields_Done]. eapply yields_weaken; [apply set_samplers_fine; [done|lia]|]. by intros s' [? _].
  - intros s2 Hs2. destruct (zread_Some value 0 n) as (v & -> & _); [lia..|]. cbn [of_option obind]. by apply yields_Done.
Qed.

(** The upload of values that a handler has read. *)
Lemma prep_upload {A} (value : list A) (elements location count : Z) (f : Z -> Z -> list A -> Programs -> outcome Programs) :
  0 <= elements -> count * elements <= zlen value ->
  (forall type n v, zlen v = n * elements -> fine (f type n v s)) ->
  fine (do (prep, s) <- PrepForSetUniformByLocation location count s ;;
        match prep with
        | None => Done s
        | Some (type, n) => do v <- of_option (zread value 0 (n * elements)) ;; f type n v s
        end)%gpu.
Proof.
  intros He Hc Hf. eapply yields_bind; [apply PrepForSetUniformByLocation_ok|].
  intros [[[type n]|] s1] [H1 H2]; cbn [fst snd] in *; [|by apply yields_Done].
  destruct (H2 type n eq_refl) as (-> & _ & Hn).
  destruct (zread_Some value 0 (n * elements)) as (v & -> & Hv); [lia|nia..|]. cbn [of_option obind]. by apply Hf.
Qed.

Lemma zlen_bools v : zlen (bools v) = zlen v.
Proof. unfold bools, zlen. by rewrite length_fmap. Qed.

Lemma DoUniform1fv_fine location count value : count <= zlen value -> fine (DoUniform1fv location count value s).
Proof.
  intros Hc. eapply yields_bind; [apply PrepForSetUniformByLocation_ok|].
  intros [[[type n]|] s1] [H1 H2]; cbn [fst snd] in *; [|by apply yields_Done].
  destruct (H2 type n eq_refl) as (-> & _ & Hn).
  destruct (zread_Some value 0 n) as (v & -> & Hv); [lia..|]. cbn [of_option obind].
  case_match; [|by apply yields_Done]. apply DoUniform1iv_fine. rewrite zlen_bools. lia.
Qed.

Lemma uniform_fv_fine n bool_type location count value :
  0 <= n -> count * n <= zlen value -> fine (uniform_fv n bool_type location count value s).
Proof. intros Hn Hc. apply prep_upload; [done..|]. intros type m v _. case_match; by apply yields_Done. Qed.

Lemma uniform_iv_fine n location count value :
  0 <= n -> count * n <= zlen value -> fine (uniform_iv n location count value s).
Proof. intros Hn Hc. apply (prep_upload _ _ _ _ (fun type m v s => Done (gl (glUniformiv n location m v) s))); [done..|]. intros. by apply yields_Done. Qed.

Lemma uniform_matrix_fv_fine n location count transpose value :
  0 <= n -> count * (n * n) <= zlen value -> fine (uniform_matrix_fv n location count transpose value s).
Proof.
  intros Hn Hc. apply (prep_upload _ _ _ _ (fun type m v s => Done (gl (glUniformMatrixfv n location m transpose v) s)));
    [nia|done|]. intros. by apply yields_Done.
Qed.

End uniforms.

(** *** The values that a handler reads *)

Lemma ComputeDataSize_ok count elements :
  is_i32 count -> 0 <= elements <= 16 ->
  forall size, ComputeDataSize count 4 elements = Some size ->
    is_u32 size /\ (0 <= count -> size = 4 * (count * elements)).
Proof.
  intros Hc He size. unfold ComputeDataSize. pose proof (u32_range count) as Hu.
  rewrite SafeMultiplyUint32_exact by (done || (unfold is_u32; lia)).
  destruct (u32 count * 4 <? 2 ^ 32) eqn:E1; cbn [negb]; [|done]. zbool.
  rewrite SafeMultiplyUint32_exact by (unfold is_u32 in *; lia).
  destruct (u32 count * 4 * elements <? 2 ^ 32) eqn:E2; cbn [negb]; [|done]. zbool. intros [= <-].
  unfold is_u32 in *. split; [nia|]. intros H0. rewrite u32_id in * by (unfold is_u32, is_i32 in *; lia). lia.
Qed.

(** The words of the bytes are as many as the command says. *)
Lemma words_enough count elements size bytes :
  is_i32 count -> 0 <= elements <= 16 -> ComputeDataSize count 4 elements = Some size -> zlen bytes = size ->
  count * elements <= zlen (bytes_to_words bytes).
Proof.
  intros Hc He Hsize Hl. destruct (ComputeDataSize_ok _ _ Hc He _ Hsize) as [_ Hs].
  destruct (Z.le_gt_cases 0 count) as [H0|H0].
  - rewrite (zlen_bytes_to_words (Z.to_nat (count * elements))); [nia|]. rewrite Hl, (Hs H0). nia.
  - pose proof (zlen_nonneg (bytes_to_words bytes)). nia.
Qed.

Section values.
Context {E : Type} `{CommandBufferEngine E} (engine_ok : E -> Prop) (engine_entries : E -> Z).
Implicit Types d : Decoder E.

Definition enough_values (count elements : Z) (r : option (list Z)) : Prop := forall v,
  r = Some v -> count * elements <= zlen v.

Lemma values_in_memory_ok elements count shm_id shm_offset d :
  is_i32 count -> 0 <= elements <= 16 -> is_u32 shm_offset -> decoder_ok engine_ok engine_entries d ->
  yields (enough_values count elements) (values_in_memory elements count shm_id shm_offset d).
Proof.
  intros Hc He Ho Hd. unfold values_in_memory. destruct (ComputeDataSize count 4 elements) as [size|] eqn:Es; [|by apply yields_Done].
  destruct (ComputeDataSize_ok _ _ Hc He _ Es) as [Hsize _].
  destruct (GetSharedMemoryAs_ok engine_ok engine_entries shm_id shm_offset size d Ho Hsize Hd) as (r & -> & Hr).
  cbn [obind]. apply yields_Done. intros v (bytes & -> & ->)%fmap_Some. by eapply words_enough; [..|apply Hr].
Qed.

Lemma values_in_command_ok elements count immediate :
  is_i32 count -> 0 <= elements <= 16 ->
  yields (enough_values count elements) (values_in_command elements count immediate).
Proof.
  intros Hc He. unfold values_in_command. destruct (ComputeDataSize count 4 elements) as [size|] eqn:Es; [|by apply yields_Done].
  destruct (ComputeDataSize_ok _ _ Hc He _ Es) as [[Hsize _] _].
  destruct (GetImmediateDataAs_ok size immediate Hsize) as (r & -> & Hr).
  cbn [obind]. apply yields_Done. intros v (bytes & -> & ->)%fmap_Some. by eapply words_enough; [..|apply Hr].
Qed.

Lemma set_uniform_to_fine count elements values f s :
  programs_good s -> yields (enough_values count elements) values ->
  (forall v, count * elements <= zlen v -> fine (f v s)) -> fine_code (set_uniform_to values f s).
Proof.
  intros Hs Hv Hf. eapply yields_bind; [exact Hv|]. intros [v|] Hr; [|by apply yields_Done].
  by apply no_error_fine, Hf, Hr.
Qed.

Lemma set_matrix_in_memory_fine elements location count transpose shm_id shm_offset f d s :
  programs_good s -> is_i32 count -> 0 <= elements <= 16 -> is_u32 shm_offset -> decoder_ok engine_ok engine_entries d ->
  (forall v, count * elements <= zlen v -> fine (f location count transpose v s)) ->
  fine_code (set_matrix_in_memory elements location count transpose shm_id shm_offset f d s).
Proof.
  intros Hs Hc He Ho Hd Hf. unfold set_matrix_in_memory. destruct (ComputeDataSize _ _ _); [|by apply yields_Done].
  eapply yields_bind; [by apply values_in_memory_ok|]. intros r Hr. destruct (negb _); [by apply yields_Done|].
  eapply set_uniform_to_fine; [done|by apply yields_Done|done].
Qed.

Lemma set_matrix_in_command_fine elements location count transpose immediate f s :
  programs_good s -> is_i32 count -> 0 <= elements <= 16 ->
  (forall v, count * elements <= zlen v -> fine (f location count transpose v s)) ->
  fine_code (set_matrix_in_command elements location count transpose immediate f s).
Proof.
  intros Hs Hc He Hf. unfold set_matrix_in_command. eapply yields_bind; [by apply values_in_command_ok|].
  intros [v|] Hr; [|by apply yields_Done]. destruct (negb _); [by apply yields_Done|]. by apply no_error_fine, Hf, Hr.
Qed.

(** *** Strings *)

Lemma GetAsString_ok `{Platform} b : bucket_ok b -> yields (fun r => size_ b <> 0 -> is_Some r) (GetAsString b).
Proof.
  intros Hb. destruct Hb as [[Hz0 Hz1] Hz2]. unfold GetAsString. destruct (size_ b =? 0) eqn:Ez; zbool; [by apply yields_Done|].
  unfold GetData. assert (OffsetSizeValid 0 (size_ b - 1) b = true) as ->.
  { unfold OffsetSizeValid. pose proof (u32_is_usize (size_ b - 1) ltac:(unfold is_u32; lia)) as Hu.
    unfold usize. rewrite Z.mod_small by lia. lia. }
  destruct (data_ b) as [bytes|]; [|lia]. destruct (zread_Some bytes 0 (size_ b - 1)) as (r & -> & _); [lia..|].
  cbn [of_option obind]. apply yields_Done. by eexists.
Qed.

Lemma string_in_memory_fine shm_id shm_offset size d s f :
  programs_good s -> is_u32 shm_offset -> is_u32 size -> decoder_ok engine_ok engine_entries d ->
  (forall v, fine_code (f v s)) -> fine_code (string_in_memory shm_id shm_offset size d s f).
Proof.
  intros Hs Ho Hsize Hd Hf. unfold string_in_memory.
  destruct (GetSharedMemoryAs_ok engine_ok engine_entries shm_id shm_offset size d Ho Hsize Hd) as (r & -> & _).
  cbn [obind]. destruct r; [apply Hf|by apply yields_Done].
Qed.

Lemma string_in_command_fine size immediate s f :
  programs_good s -> 0 <= size -> (forall v, fine_code (f v s)) -> fine_code (string_in_command size immediate s f).
Proof.
  intros Hs Hsize Hf. unfold string_in_command. destruct (GetImmediateDataAs_ok size immediate Hsize) as (r & -> & _).
  cbn [obind]. destruct r; [apply Hf|by apply yields_Done].
Qed.

End values.
