(* ===== verification/ProgramCommands.v ===== *)
(** * The commands of programs, together

    The commands of [ProgramDecoder.v], [UniformDecoder.v] and [ProgramQueries.v], and what
    every sequence of them keeps true. *)

From S2P Require Import Prelude CmdFormat CommandBufferService CommonDecoder.
From Stdlib Require Import ZArith Lia ZifyBool Bool String.
From stdpp Require Import base numbers option gmap list.
From S2P Require Import Prelude GLConstants Validators GLES2Util Names Uniforms ShaderManager ProgramManager.
From S2P Require Import ProgramInvariant ProgramCounting TextureDecoder ObjectNames ReadPixels.
From S2P Require Import ProgramDecoder UniformDecoder ProgramQueries ProgramSafety.
Local Open Scope Z_scope.

(** ** The commands *)

(** The fields of the structs, as the handlers take them; [immediate] is what follows a
    struct. *)
Inductive ProgramCommand :=
| CreateProgram (client_id : Z)
| CreateShader (type client_id : Z)
| DeleteProgram (program : Z)
| DeleteShader (shader : Z)
| AttachShader (program shader : Z)
| DetachShader (program shader : Z)
| LinkProgram (program : Z)
| ValidateProgram (program : Z)
| UseProgram (program : Z)
| CompileShader (shader : Z)
| ShaderSource (shader shm_id shm_offset data_size : Z)
| ShaderSourceImmediate (shader data_size : Z) (immediate : list Z)
| ShaderSourceBucket (shader bucket_id : Z)
| BindAttribLocation (program index shm_id shm_offset data_size : Z)
| BindAttribLocationImmediate (program index data_size : Z) (immediate : list Z)
| BindAttribLocationBucket (program index bucket_id : Z)
| Uniform1f (location x : Z)
| Uniform1i (location x : Z)
| Uniform2f (location x y : Z)
| Uniform2i (location x y : Z)
| Uniform3f (location x y z : Z)
| Uniform3i (location x y z : Z)
| Uniform4f (location x y z w : Z)
| Uniform4i (location x y z w : Z)
| Uniform1fv (location count shm_id shm_offset : Z)
| Uniform1fvImmediate (location count : Z) (immediate : list Z)
| Uniform1iv (location count shm_id shm_offset : Z)
| Uniform1ivImmediate (location count : Z) (immediate : list Z)
| Uniform2fv (location count shm_id shm_offset : Z)
| Uniform2fvImmediate (location count : Z) (immediate : list Z)
| Uniform2iv (location count shm_id shm_offset : Z)
| Uniform2ivImmediate (location count : Z) (immediate : list Z)
| Uniform3fv (location count shm_id shm_offset : Z)
| Uniform3fvImmediate (location count : Z) (immediate : list Z)
| Uniform3iv (location count shm_id shm_offset : Z)
| Uniform3ivImmediate (location count : Z) (immediate : list Z)
| Uniform4fv (location count shm_id shm_offset : Z)
| Uniform4fvImmediate (location count : Z) (immediate : list Z)
| Uniform4iv (location count shm_id shm_offset : Z)
| Uniform4ivImmediate (location count : Z) (immediate : list Z)
| UniformMatrix2fv (location count transpose shm_id shm_offset : Z)
| UniformMatrix2fvImmediate (location count transpose : Z) (immediate : list Z)
| UniformMatrix3fv (location count transpose shm_id shm_offset : Z)
| UniformMatrix3fvImmediate (location count transpose : Z) (immediate : list Z)
| UniformMatrix4fv (location count transpose shm_id shm_offset : Z)
| UniformMatrix4fvImmediate (location count transpose : Z) (immediate : list Z)
| GetAttribLocation (program name_shm_id name_shm_offset data_size shm_id shm_offset : Z)
| GetAttribLocationImmediate (program data_size : Z) (immediate : list Z) (shm_id shm_offset : Z)
| GetAttribLocationBucket (program bucket_id shm_id shm_offset : Z)
| GetUniformLocation (program name_shm_id name_shm_offset data_size shm_id shm_offset : Z)
| GetUniformLocationImmediate (program data_size : Z) (immediate : list Z) (shm_id shm_offset : Z)
| GetUniformLocationBucket (program bucket_id shm_id shm_offset : Z)
| GetProgramiv (program pname shm_id shm_offset : Z)
| GetShaderiv (shader pname shm_id shm_offset : Z)
| IsProgram (program shm_id shm_offset : Z)
| IsShader (shader shm_id shm_offset : Z)
| GetShaderSource (shader bucket_id : Z)
| GetTranslatedShaderSourceANGLE (shader bucket_id : Z)
| GetShaderInfoLog (shader bucket_id : Z)
| GetProgramInfoLog (program bucket_id : Z)
| GetActiveUniform (program index bucket_id shm_id shm_offset : Z)
| GetActiveAttrib (program index bucket_id shm_id shm_offset : Z)
| GetProgramInfoCHROMIUM (program bucket_id : Z)
| GetUniformiv (program location shm_id shm_offset : Z)
| GetUniformfv (program location shm_id shm_offset : Z)
| GetAttachedShaders (program shm_id shm_offset result_size : Z).

(** What the driver answers to one command. *)
Record ProgramAnswers := mkProgramAnswers {
  new_service_id : Z;
  link_answer : LinkAnswer;
  validate_log : option (list Z);
  compile_answer : CompileAnswer;
  parameter : Z;
  get_error : Z;
  uniform_values : list Z;
  attached_ids : list Z;
}.

Section execute.
Context `{Platform} {E : Type} `{CommandBufferEngine E}.
Variables (compiler : Compiler) (Translate : Z -> list Z -> option Translation * list Z).
Variables (num_compressed_texture_formats num_shader_binary_formats : Z).
Implicit Types (d : Decoder E) (s : Programs).

(** Commands that leave the client's memory as it is. *)
Definition in_programs d (m : outcome (Error * Programs)) : outcome (Error * (Decoder E * Programs)) :=
  (do (e, s) <- m ;; Done (e, (d, s)))%gpu.

Notation nc := num_compressed_texture_formats.
Notation ns := num_shader_binary_formats.

Definition execute (env : ProgramAnswers) (command : ProgramCommand) d s : outcome (Error * (Decoder E * Programs)) :=
  match command with
  | CreateProgram client_id => in_programs d (HandleCreateProgram client_id (new_service_id env) s)
  | CreateShader type client_id => in_programs d (HandleCreateShader type client_id (new_service_id env) s)
  | DeleteProgram program => in_programs d (HandleDeleteProgram program s)
  | DeleteShader shader => in_programs d (HandleDeleteShader shader s)
  | AttachShader program shader => in_programs d (HandleAttachShader program shader s)
  | DetachShader program shader => in_programs d (HandleDetachShader program shader s)
  | LinkProgram program => in_programs d (HandleLinkProgram (link_answer env) program s)
  | ValidateProgram program => in_programs d (HandleValidateProgram (validate_log env) program s)
  | UseProgram program => in_programs d (HandleUseProgram program s)
  | CompileShader shader => in_programs d (HandleCompileShader compiler Translate (compile_answer env) shader s)
  | ShaderSource shader shm_id shm_offset data_size => in_programs d (HandleShaderSource shader shm_id shm_offset data_size d s)
  | ShaderSourceImmediate shader data_size immediate => in_programs d (HandleShaderSourceImmediate shader data_size immediate s)
  | ShaderSourceBucket shader bucket_id => in_programs d (HandleShaderSourceBucket shader bucket_id d s)
  | BindAttribLocation program index shm_id shm_offset data_size => in_programs d (HandleBindAttribLocation program index shm_id shm_offset data_size d s)
  | BindAttribLocationImmediate program index data_size immediate => in_programs d (HandleBindAttribLocationImmediate program index data_size immediate s)
  | BindAttribLocationBucket program index bucket_id => in_programs d (HandleBindAttribLocationBucket program index bucket_id d s)
  | Uniform1f location x => in_programs d (HandleUniform1f location x s)
  | Uniform1i location x => in_programs d (HandleUniform1i location x s)
  | Uniform2f location x y => in_programs d (HandleUniform2f location x y s)
  | Uniform2i location x y => in_programs d (HandleUniform2i location x y s)
  | Uniform3f location x y z => in_programs d (HandleUniform3f location x y z s)
  | Uniform3i location x y z => in_programs d (HandleUniform3i location x y z s)
  | Uniform4f location x y z w => in_programs d (HandleUniform4f location x y z w s)
  | Uniform4i location x y z w => in_programs d (HandleUniform4i location x y z w s)
  | Uniform1fv location count shm_id shm_offset => in_programs d (HandleUniform1fv location count shm_id shm_offset d s)
  | Uniform1fvImmediate location count immediate => in_programs d (HandleUniform1fvImmediate location count immediate s)
  | Uniform1iv location count shm_id shm_offset => in_programs d (HandleUniform1iv location count shm_id shm_offset d s)
  | Uniform1ivImmediate location count immediate => in_programs d (HandleUniform1ivImmediate location count immediate s)
  | Uniform2fv location count shm_id shm_offset => in_programs d (HandleUniform2fv location count shm_id shm_offset d s)
  | Uniform2fvImmediate location count immediate => in_programs d (HandleUniform2fvImmediate location count immediate s)
  | Uniform2iv location count shm_id shm_offset => in_programs d (HandleUniform2iv location count shm_id shm_offset d s)
  | Uniform2ivImmediate location count immediate => in_programs d (HandleUniform2ivImmediate location count immediate s)
  | Uniform3fv location count shm_id shm_offset => in_programs d (HandleUniform3fv location count shm_id shm_offset d s)
  | Uniform3fvImmediate location count immediate => in_programs d (HandleUniform3fvImmediate location count immediate s)
  | Uniform3iv location count shm_id shm_offset => in_programs d (HandleUniform3iv location count shm_id shm_offset d s)
  | Uniform3ivImmediate location count immediate => in_programs d (HandleUniform3ivImmediate location count immediate s)
  | Uniform4fv location count shm_id shm_offset => in_programs d (HandleUniform4fv location count shm_id shm_offset d s)
  | Uniform4fvImmediate location count immediate => in_programs d (HandleUniform4fvImmediate location count immediate s)
  | Uniform4iv location count shm_id shm_offset => in_programs d (HandleUniform4iv location count shm_id shm_offset d s)
  | Uniform4ivImmediate location count immediate => in_programs d (HandleUniform4ivImmediate location count immediate s)
  | UniformMatrix2fv location count transpose shm_id shm_offset => in_programs d (HandleUniformMatrix2fv location count transpose shm_id shm_offset d s)
  | UniformMatrix2fvImmediate location count transpose immediate => in_programs d (HandleUniformMatrix2fvImmediate location count transpose immediate s)
  | UniformMatrix3fv location count transpose shm_id shm_offset => in_programs d (HandleUniformMatrix3fv location count transpose shm_id shm_offset d s)
  | UniformMatrix3fvImmediate location count transpose immediate => in_programs d (HandleUniformMatrix3fvImmediate location count transpose immediate s)
  | UniformMatrix4fv location count transpose shm_id shm_offset => in_programs d (HandleUniformMatrix4fv location count transpose shm_id shm_offset d s)
  | UniformMatrix4fvImmediate location count transpose immediate => in_programs d (HandleUniformMatrix4fvImmediate location count transpose immediate s)
  | GetAttribLocation program name_shm_id name_shm_offset data_size shm_id shm_offset => HandleGetAttribLocation program name_shm_id name_shm_offset data_size shm_id shm_offset d s
  | GetAttribLocationImmediate program data_size immediate shm_id shm_offset => HandleGetAttribLocationImmediate program data_size immediate shm_id shm_offset d s
  | GetAttribLocationBucket program bucket_id shm_id shm_offset => HandleGetAttribLocationBucket program bucket_id shm_id shm_offset d s
  | GetUniformLocation program name_shm_id name_shm_offset data_size shm_id shm_offset => HandleGetUniformLocation program name_shm_id name_shm_offset data_size shm_id shm_offset d s
  | GetUniformLocationImmediate program data_size immediate shm_id shm_offset => HandleGetUniformLocationImmediate program data_size immediate shm_id shm_offset d s
  | GetUniformLocationBucket program bucket_id shm_id shm_offset => HandleGetUniformLocationBucket program bucket_id shm_id shm_offset d s
  | GetProgramiv program pname shm_id shm_offset => HandleGetProgramiv nc ns (parameter env) (get_error env) program pname shm_id shm_offset d s
  | GetShaderiv shader pname shm_id shm_offset => HandleGetShaderiv nc ns (parameter env) (get_error env) shader pname shm_id shm_offset d s
  | IsProgram program shm_id shm_offset => HandleIsProgram program shm_id shm_offset d s
  | IsShader shader shm_id shm_offset => HandleIsShader shader shm_id shm_offset d s
  | GetShaderSource shader bucket_id => HandleGetShaderSource shader bucket_id d s
  | GetTranslatedShaderSourceANGLE shader bucket_id => HandleGetTranslatedShaderSourceANGLE shader bucket_id d s
  | GetShaderInfoLog shader bucket_id => HandleGetShaderInfoLog shader bucket_id d s
  | GetProgramInfoLog program bucket_id => HandleGetProgramInfoLog program bucket_id d s
  | GetActiveUniform program index bucket_id shm_id shm_offset => HandleGetActiveUniform program index bucket_id shm_id shm_offset d s
  | GetActiveAttrib program index bucket_id shm_id shm_offset => HandleGetActiveAttrib program index bucket_id shm_id shm_offset d s
  | GetProgramInfoCHROMIUM program bucket_id => HandleGetProgramInfoCHROMIUM program bucket_id d s
  | GetUniformiv program location shm_id shm_offset => HandleGetUniformiv (uniform_values env) program location shm_id shm_offset d s
  | GetUniformfv program location shm_id shm_offset => HandleGetUniformfv (uniform_values env) program location shm_id shm_offset d s
  | GetAttachedShaders program shm_id shm_offset result_size => HandleGetAttachedShaders (attached_ids env) program shm_id shm_offset result_size d s
  end.

End execute.

(** ** What a command takes for granted *)

(** The widths of the fields, where a proof needs them. *)
Definition args_ok (command : ProgramCommand) : Prop :=
  match command with
  | ShaderSource _ _ shm_offset data_size | BindAttribLocation _ _ _ shm_offset data_size =>
      is_u32 shm_offset /\ is_u32 data_size
  | ShaderSourceImmediate _ data_size _ | BindAttribLocationImmediate _ _ data_size _ => 0 <= data_size
  | Uniform1fv _ count _ shm_offset | Uniform1iv _ count _ shm_offset | Uniform2fv _ count _ shm_offset
  | Uniform2iv _ count _ shm_offset | Uniform3fv _ count _ shm_offset | Uniform3iv _ count _ shm_offset
  | Uniform4fv _ count _ shm_offset | Uniform4iv _ count _ shm_offset
  | UniformMatrix2fv _ count _ _ shm_offset | UniformMatrix3fv _ count _ _ shm_offset
  | UniformMatrix4fv _ count _ _ shm_offset => is_i32 count /\ is_u32 shm_offset
  | Uniform1fvImmediate _ count _ | Uniform1ivImmediate _ count _ | Uniform2fvImmediate _ count _
  | Uniform2ivImmediate _ count _ | Uniform3fvImmediate _ count _ | Uniform3ivImmediate _ count _
  | Uniform4fvImmediate _ count _ | Uniform4ivImmediate _ count _
  | UniformMatrix2fvImmediate _ count _ _ | UniformMatrix3fvImmediate _ count _ _
  | UniformMatrix4fvImmediate _ count _ _ => is_i32 count
  | GetAttribLocation _ _ name_shm_offset data_size _ shm_offset
  | GetUniformLocation _ _ name_shm_offset data_size _ shm_offset =>
      is_u32 name_shm_offset /\ is_u32 data_size /\ is_u32 shm_offset
  | GetAttribLocationImmediate _ data_size _ _ shm_offset
  | GetUniformLocationImmediate _ data_size _ _ shm_offset => 0 <= data_size /\ is_u32 shm_offset
  | GetAttribLocationBucket _ _ _ shm_offset | GetUniformLocationBucket _ _ _ shm_offset
  | GetProgramiv _ _ _ shm_offset | GetShaderiv _ _ _ shm_offset | IsProgram _ _ shm_offset
  | IsShader _ _ shm_offset | GetActiveUniform _ _ _ _ shm_offset | GetActiveAttrib _ _ _ _ shm_offset
  | GetUniformiv _ _ _ shm_offset | GetUniformfv _ _ _ shm_offset => is_u32 shm_offset
  | GetAttachedShaders _ _ shm_offset result_size => is_u32 shm_offset /\ is_u32 result_size
  | _ => True
  end.

(** The driver writes as many values as the uniform's type has. *)
Definition values_fit (values : list Z) (client_id location : Z) (s : Programs) : Prop := forall a p u k,
  LookupProgram client_id (program_manager s) = Some a -> programs (program_manager s) !! a = Some p ->
  GetUniformInfoByLocation location p = Done (Some (u, k)) ->
  4 * zlen values = GetGLDataTypeSizeForUniforms (u_type (uniform u)).

(** The strings that a bucket is made from are shorter than it can be. *)
Definition string_short (str : option (list Z)) : Prop := zlen (default [] str) + 1 < 2 ^ 32.

Definition shader_strings_short (f : ShaderInfo -> option (list Z)) (client_id : Z) (s : Programs) : Prop := forall a i,
  GetShaderInfo client_id (shader_manager s) = Some a -> shaders (shader_manager s) !! a = Some i -> string_short (f i).

Definition of_program (P : ProgramInfo -> Prop) (client_id : Z) (s : Programs) : Prop := forall a p,
  LookupProgram client_id (program_manager s) = Some a -> programs (program_manager s) !! a = Some p -> P p.

(** What the code takes for granted of the driver: it locates what is active in a program,
    writes no more values and ids than there is room for, and gives no strings or programs
    that are too large for a bucket.  And what it takes for granted of the client, though it
    does not check it: no shader is detached that only this attachment keeps, and the result
    of [GetAttachedShaders] has room for its size. *)
Definition command_ok (env : ProgramAnswers) (command : ProgramCommand) (s : Programs) : Prop :=
  match command with
  | DetachShader _ shader => detachable s shader
  | LinkProgram program => link_answer_ok s (link_answer env) program
  | GetUniformiv program location _ _ | GetUniformfv program location _ _ =>
      values_fit (uniform_values env) program location s
  | GetAttachedShaders _ _ _ result_size => 4 * zlen (attached_ids env) + 4 <= result_size
  | GetProgramInfoCHROMIUM program _ => of_program (fun p => info_size p < 2 ^ 32) program s
  | GetShaderSource shader _ => shader_strings_short source_ shader s
  | GetTranslatedShaderSourceANGLE shader _ => shader_strings_short translated_source_ shader s
  | GetShaderInfoLog shader _ => shader_strings_short sh_log_info_ shader s
  | GetProgramInfoLog program _ => of_program (fun p => string_short (p_log_info_ p)) program s
  | GetActiveUniform program _ _ _ _ =>
      of_program (fun p => Forall (fun u => string_short (Some (u_name (uniform u)))) (uniform_infos_ (inputs p))) program s
  | GetActiveAttrib program _ _ _ _ =>
      of_program (fun p => Forall (fun i => string_short (Some (a_name i))) (attrib_infos_ (inputs p))) program s
  | _ => True
  end.

(** ** The client's memory *)

Section safety.
Context `{Platform} {E : Type} `{CommandBufferEngine E} (engine_ok : E -> Prop) (engine_entries : E -> Z).
Implicit Types (d : Decoder E) (s : Programs).

Notation decoder_ok := (decoder_ok engine_ok engine_entries).

Definition fine_answer : outcome (Error * (Decoder E * Programs)) -> Prop :=
  yields (fun r => decoder_ok r.2.1 /\ programs_good r.2.2).

Lemma answered_fine e d s : decoder_ok d -> programs_good s -> fine_answer (answered e d s).
Proof. intros Hd Hs. by apply yields_Done. Qed.

Lemma in_programs_fine d m : decoder_ok d -> fine_code m -> fine_answer (in_programs d m).
Proof. intros Hd Hm. eapply yields_bind; [exact Hm|]. intros [e s] Hs. by apply yields_Done. Qed.

(** There are [n] bytes at an address. *)
Definition room d (a : Z * Z) (n : Z) : Prop := 0 <= a.2 /\ holds d a.1 (a.2 + n).

Lemma room_less d a n m : room d a n -> m <= n -> room d a m.
Proof. intros [H1 (bytes & H2 & H3)] Hm. split; [done|]. exists bytes. split; [done|]. lia. Qed.

Lemma room_at d a o n m : room d a n -> 0 <= o -> o + m <= n -> room d (address_at a o) m.
Proof.
  intros [H1 (bytes & H2 & H3)] Ho Hm. split; cbn [address_at fst snd]; [lia|]. exists bytes. split; [done|]. lia.
Qed.

Lemma room_address id offset size d a :
  decoder_ok d -> GetAddressAndCheckSize id offset size d = Some a -> is_u32 offset -> is_u32 size -> room d a size.
Proof.
  intros Hd Ha Ho Hs. destruct (holds_address engine_ok engine_entries _ _ _ _ _ Ho Hs Hd Ha) as [E1 Hh].
  unfold is_u32 in *. split; [lia|]. by rewrite E1.
Qed.

Lemma read_word_fine d a : room d a 4 -> yields (fun _ => True) (read_word a d).
Proof.
  intros [H1 (bytes & H2 & H3)]. unfold read_word. destruct (mem_read_in d a bytes 4) as (r & -> & _); [done|lia..|].
  by apply yields_Done.
Qed.

Lemma write_words_fine d a words :
  decoder_ok d -> room d a (4 * zlen words) ->
  yields (fun d' => decoder_ok d' /\ forall b n, room d b n -> room d' b n) (write_words a words d).
Proof.
  intros Hd [H1 H2]. unfold write_words. destruct a as [block o]. cbn [fst snd] in *.
  assert (zlen (words_to_bytes (u32 <$> words)) = 4 * zlen words) as Hl by (by rewrite zlen_words_to_bytes, zlen_fmap).
  destruct (mem_write_wrote d block o (words_to_bytes (u32 <$> words)) (o + 4 * zlen words) H2 H1) as (d' & -> & Hw & _); [lia|].
  cbn [of_option]. apply yields_Done. split; [by eapply wrote_ok|].
  intros b n [Hb Hn]. split; [done|]. by eapply wrote_holds.
Qed.

Lemma write_result_fine d a answer :
  decoder_ok d -> room d a 4 -> yields decoder_ok (write_result a answer d).
Proof.
  intros Hd [H1 H2]. unfold write_result. destruct a as [block o]. cbn [fst snd] in *.
  destruct (mem_write_wrote d block o (le_bytes 4 answer) (o + 4) H2 H1) as (d' & -> & Hw & _); [by rewrite zlen_le_bytes|].
  cbn [of_option]. apply yields_Done. by eapply wrote_ok.
Qed.

Lemma ComputeSize_small n : 0 <= n -> 4 * n + 4 < 2 ^ 32 -> ComputeSize n = 4 * n + 4.
Proof.
  intros Hn Hs. unfold ComputeSize. pose proof (u32_is_usize (4 * n + 4) ltac:(unfold is_u32; lia)). unfold usize.
  rewrite Z.mod_small; lia.
Qed.

(** ** Questions about locations *)

Section state.
Variables (d : Decoder E) (s : Programs).
Hypothesis Hd : decoder_ok d.
Hypothesis Hs : programs_good s.

Lemma location_helper_fine find client_id shm_id shm_offset :
  is_u32 shm_offset -> (forall p, inputs_ok (inputs p) -> yields (fun _ => True) (find p)) ->
  fine_answer (location_helper find client_id shm_id shm_offset d s).
Proof.
  intros Ho Hf. apply with_program_info_yields; [done|intros; by apply answered_fine|]. intros a p _ Hp _.
  destruct (negb _); [by apply answered_fine|].
  destruct (GetAddressAndCheckSize shm_id shm_offset 4 d) as [at_|] eqn:Ea; [|by apply answered_fine].
  pose proof (room_address _ _ _ _ _ Hd Ea Ho ltac:(unfold is_u32; lia)) as Hr.
  eapply yields_bind; [by apply read_word_fine|]. intros w _. destruct (negb _); [by apply answered_fine|].
  eapply yields_bind; [apply Hf; exact (programs_inputs _ _ _ _ Hs a p Hp)|]. intros l _.
  eapply yields_bind; [by apply write_words_fine|]. intros d' [Hd' _]. by apply answered_fine.
Qed.

Lemma GetAttribLocationHelper_fine client_id shm_id shm_offset name :
  is_u32 shm_offset -> fine_answer (GetAttribLocationHelper client_id shm_id shm_offset name d s).
Proof. intros Ho. apply location_helper_fine; [done|]. intros p _. by apply yields_Done. Qed.

Lemma GetUniformLocationHelper_fine client_id shm_id shm_offset name :
  is_u32 shm_offset -> fine_answer (GetUniformLocationHelper client_id shm_id shm_offset name d s).
Proof.
  intros Ho. apply location_helper_fine; [done|]. intros p Hi.
  destruct (GetUniformLocation_done name (uniform <$> uniform_infos_ (inputs p))) as (l & ->); [|by apply yields_Done].
  apply Forall_fmap. eapply Forall_impl; [apply Hi|]. by intros u [Hu _].
Qed.

Lemma name_in_memory_fine shm_id shm_offset size f :
  is_u32 shm_offset -> is_u32 size -> (forall name, fine_answer (f name d s)) ->
  fine_answer (name_in_memory shm_id shm_offset size d s f).
Proof.
  intros Ho Hsize Hf. unfold name_in_memory.
  destruct (GetSharedMemoryAs_ok engine_ok engine_entries shm_id shm_offset size d Ho Hsize Hd) as (r & -> & _).
  cbn [obind]. destruct r; [apply Hf|by apply answered_fine].
Qed.

Lemma name_in_command_fine size immediate f :
  0 <= size -> (forall name, fine_answer (f name d s)) -> fine_answer (name_in_command size immediate d s f).
Proof.
  intros Hsize Hf. unfold name_in_command. destruct (GetImmediateDataAs_ok size immediate Hsize) as (r & -> & _).
  cbn [obind]. destruct r; [apply Hf|by apply answered_fine].
Qed.

Lemma bucket_found id b : GetBucket id d = Some b -> bucket_ok b.
Proof. intros Hb. by eapply decoder_buckets. Qed.

Lemma name_in_bucket_fine id f : (forall name, fine_answer (f name d s)) -> fine_answer (name_in_bucket id d s f).
Proof.
  intros Hf. unfold name_in_bucket. destruct (GetBucket id d) as [b|] eqn:Eb; [|by apply answered_fine].
  eapply yields_bind; [by apply GetAsString_ok, (bucket_found id)|].
  intros [name|] _; [apply Hf|by apply answered_fine].
Qed.

(** ** Questions about parameters *)

Variables (nc ns : Z).

Lemma num_values_one pname :
  Validators.IsValid pname (valid_program_parameter_table ++ valid_shader_parameter_table) = true -> num_values_of nc ns pname = 1.
Proof.
  intros Hv%IsValid_true. revert pname Hv. apply Forall_forall.
  unfold valid_program_parameter_table, valid_shader_parameter_table. cbn [app].
  repeat (apply Forall_cons; split; [reflexivity|]). constructor.
Qed.

Lemma get_parameter_fine valid gl_error pname shm_id shm_offset DoGet :
  is_u32 shm_offset -> (forall x, Validators.IsValid x valid = true -> num_values_of nc ns x = 1) ->
  (forall params, room d params 4 ->
     yields (fun r => decoder_ok r.1 /\ programs_good r.2 /\ forall b n, room d b n -> room r.1 b n) (DoGet params d s)) ->
  fine_answer (get_parameter nc ns valid gl_error pname shm_id shm_offset DoGet d s).
Proof.
  intros Ho Hv Hg. unfold get_parameter. destruct (Validators.IsValid pname valid) eqn:Ev; cbn [negb]; [|by apply answered_fine].
  rewrite (Hv pname Ev), ComputeSize_small by lia.
  destruct (GetAddressAndCheckSize shm_id shm_offset (4 * 1 + 4) d) as [a|] eqn:Ea; [|by apply answered_fine].
  pose proof (room_address _ _ _ _ _ Hd Ea Ho ltac:(unfold is_u32; lia)) as Hr.
  eapply yields_bind; [apply read_word_fine; by eapply room_less|]. intros size _. destruct (negb _); [by apply answered_fine|].
  eapply yields_bind; [apply Hg; by eapply room_at|]. intros [d' s'] (Hd' & Hs' & Hrr). cbn [fst snd] in *.
  destruct (gl_error =? GL_NO_ERROR); [|by apply answered_fine].
  eapply yields_bind; [apply write_words_fine; [done|]; apply Hrr; by eapply room_less|]. intros d2 [Hd2 _]. by apply answered_fine.
Qed.

Lemma HandleGetProgramiv_fine answer gl_error program pname shm_id shm_offset :
  is_u32 shm_offset -> fine_answer (HandleGetProgramiv nc ns answer gl_error program pname shm_id shm_offset d s).
Proof.
  intros Ho. apply get_parameter_fine; [done| |].
  { intros x Hx%IsValid_true. apply num_values_one, IsValid_true, elem_of_app. by left. }
  intros params Hr. apply with_program_info_yields; [done|intros; by apply yields_Done|]. intros a p _ Hp _.
  eapply yields_bind; [by apply write_words_fine|]. intros d' [Hd' Hrr]. by apply yields_Done.
Qed.

Lemma HandleGetShaderiv_fine answer gl_error shader pname shm_id shm_offset :
  is_u32 shm_offset -> fine_answer (HandleGetShaderiv nc ns answer gl_error shader pname shm_id shm_offset d s).
Proof.
  intros Ho. apply get_parameter_fine; [done| |].
  { intros x Hx%IsValid_true. apply num_values_one, IsValid_true, elem_of_app. by right. }
  intros params Hr. apply with_shader_info_yields; [done|intros; by apply yields_Done|]. intros a p _ Hp _.
  eapply yields_bind; [by apply write_words_fine|]. intros d' [Hd' Hrr]. by apply yields_Done.
Qed.

Lemma ask_programs_fine question shm_id shm_offset :
  is_u32 shm_offset -> fine_answer (ask_programs question shm_id shm_offset d s).
Proof.
  intros Ho. unfold ask_programs.
  destruct (GetAddressAndCheckSize shm_id shm_offset 4 d) as [a|] eqn:Ea; [|by apply answered_fine].
  pose proof (room_address _ _ _ _ _ Hd Ea Ho ltac:(unfold is_u32; lia)) as Hr.
  eapply yields_bind; [by apply write_result_fine|]. intros d' Hd'. by apply answered_fine.
Qed.

(** ** Strings in buckets *)

Lemma CreateBucket_ok id : bucket_ok (CreateBucket id d).1 /\ decoder_ok (CreateBucket id d).2.
Proof.
  unfold CreateBucket. destruct (GetBucket id d) as [b|] eqn:Eb; cbn [fst snd].
  - split; [by eapply bucket_found|done].
  - split; [apply new_Bucket_ok|]. apply ok_bucket; [done|apply new_Bucket_ok].
Qed.

Lemma string_to_bucket_fine id str s' :
  programs_good s' -> string_short str -> fine_answer (string_to_bucket id str d s').
Proof.
  intros Hs' Hstr. unfold string_to_bucket. destruct (CreateBucket_ok id) as [Hb Hd'].
  destruct (CreateBucket id d) as [b d']. cbn [fst snd] in *.
  destruct (SetFromString_GetAsString str b Hb) as (b' & -> & Hb' & _).
  { intros x ->. exact Hstr. }
  cbn [obind]. apply answered_fine; [by apply ok_bucket|done].
Qed.

Lemma string_of_shader_fine client_id id absent f :
  string_short absent -> shader_strings_short f client_id s ->
  fine_answer (string_of_shader client_id id absent f d s).
Proof.
  intros Ha Hf. apply with_shader_info_yields; [done|intros; by apply string_to_bucket_fine|].
  intros a i Hca Hi _. apply string_to_bucket_fine; [done|]. by eapply Hf.
Qed.

Lemma HandleGetProgramInfoLog_fine client_id id :
  of_program (fun p => string_short (p_log_info_ p)) client_id s -> fine_answer (HandleGetProgramInfoLog client_id id d s).
Proof.
  intros Hf. apply with_program_info_yields; [done|intros; by apply string_to_bucket_fine|].
  intros a p Hca Hp _. apply string_to_bucket_fine; [done|]. exact (Hf a p Hca Hp).
Qed.

Lemma HandleGetProgramInfoCHROMIUM_fine client_id id :
  of_program (fun p => info_size p < 2 ^ 32) client_id s -> fine_answer (HandleGetProgramInfoCHROMIUM client_id id d s).
Proof.
  intros Hf. unfold HandleGetProgramInfoCHROMIUM. destruct (CreateBucket_ok id) as [Hb Hd'].
  destruct (CreateBucket id d) as [b d']. cbn [fst snd] in *. cbv zeta.
  pose proof (SetSize_ok header_size b ltac:(unfold is_u32, header_size; lia) Hb) as Hb1.
  destruct (LookupProgram client_id (program_manager s)) as [a|] eqn:Ea; [|by apply answered_fine; [apply ok_bucket|]].
  destruct (live_program s Hs _ _ Ea) as (p & Hp & _). unfold program. rewrite Hp. cbn [of_option obind].
  destruct (negb _); [by apply answered_fine; [apply ok_bucket|]|].
  pose proof (Hf a p Ea Hp) as Hsmall. cbv beta in Hsmall. rewrite GetProgramInfo_spec by done. cbn [obind].
  apply answered_fine; [|done]. apply ok_bucket; [done|]. pose proof (zlen_info_bytes p) as Hl. split; cbn [size_ data_]; [|done].
  pose proof (zlen_nonneg (info_bytes p)). unfold is_u32. lia.
Qed.

(** ** Attributes and uniforms *)

Lemma zlen_c_str str : zlen (c_str str) <= zlen str.
Proof.
  induction str as [|c str IH]; [done|]. cbn [c_str]. case_match; rewrite !zlen_cons; [|lia].
  pose proof (zlen_nonneg str). change (zlen (@nil Z)) with 0. lia.
Qed.

End state.

Section more.
Variables (d : Decoder E) (s : Programs).
Hypothesis Hd : decoder_ok d.
Hypothesis Hs : programs_good s.

Lemma get_active_fine find client_id name_bucket_id shm_id shm_offset :
  is_u32 shm_offset ->
  of_program (fun p => forall size type name, find p = Some (size, type, name) -> string_short (Some name)) client_id s ->
  fine_answer (get_active find client_id name_bucket_id shm_id shm_offset d s).
Proof.
  intros Ho Hf. unfold get_active.
  destruct (GetAddressAndCheckSize shm_id shm_offset 12 d) as [a|] eqn:Ea; [|by apply answered_fine].
  pose proof (room_address _ _ _ _ _ Hd Ea Ho ltac:(unfold is_u32; lia)) as Hr.
  eapply yields_bind; [apply read_word_fine; by eapply room_less|]. intros success _. destruct (negb _); [by apply answered_fine|].
  apply with_program_info_yields; [done|intros; by apply answered_fine|]. intros b p Hca Hp _.
  destruct (find p) as [[[size type] name]|] eqn:Ef; [|by apply answered_fine].
  eapply yields_bind; [by apply write_words_fine|]. intros d' [Hd' _]. apply string_to_bucket_fine; [done..|].
  pose proof (Hf b p Hca Hp size type name Ef) as Hn. cbv beta in Hn. unfold string_short, default in *. cbn [from_option id] in *.
  pose proof (zlen_c_str name). lia.
Qed.

Lemma HandleGetActiveUniform_fine program index name_bucket_id shm_id shm_offset :
  is_u32 shm_offset ->
  of_program (fun p => Forall (fun u => string_short (Some (u_name (uniform u)))) (uniform_infos_ (inputs p))) program s ->
  fine_answer (HandleGetActiveUniform program index name_bucket_id shm_id shm_offset d s).
Proof.
  intros Ho Hf. apply get_active_fine; [done|]. intros a p Hca Hp size type name.
  pose proof (Hf a p Hca Hp) as Hu. rewrite Forall_forall in Hu. unfold GetUniformInfo.
  destruct (zget _ _) as [u|] eqn:Eu; [|done]. intros [= <- <- <-]. apply Hu, elem_of_zget. by eexists.
Qed.

Lemma HandleGetActiveAttrib_fine program index name_bucket_id shm_id shm_offset :
  is_u32 shm_offset ->
  of_program (fun p => Forall (fun i => string_short (Some (a_name i))) (attrib_infos_ (inputs p))) program s ->
  fine_answer (HandleGetActiveAttrib program index name_bucket_id shm_id shm_offset d s).
Proof.
  intros Ho Hf. apply get_active_fine; [done|]. intros a p Hca Hp size type name.
  pose proof (Hf a p Hca Hp) as Hu. rewrite Forall_forall in Hu. unfold GetAttribInfo.
  destruct (zget _ _) as [u|] eqn:Eu; [|done]. intros [= <- <- <-]. apply Hu, elem_of_zget. by eexists.
Qed.

(** ** Values *)

Lemma uniform_size_range type : 0 <= GetGLDataTypeSizeForUniforms type <= 64.
Proof. unfold GetGLDataTypeSizeForUniforms. repeat case_match; lia. Qed.

(** When values are to be asked for there is room for them, and the size says how many. *)
Definition setup_ok (values : list Z) (r : Error * option (Z * Z * Z * Z) * (Decoder E * Programs)) : Prop :=
  let '(_, setup, (d', s')) := r in
  decoder_ok d' /\ programs_good s' /\
  match setup with
  | Some (a, _, _) => room d' a (4 * zlen values + 4) /\ read_word a d' = Done (4 * zlen values) /\ 4 * zlen values <= 64
  | None => True
  end.

Lemma write_read_word a w d1 d2 : is_u32 w -> write_words a [w] d1 = Done d2 -> read_word a d2 = Done w.
Proof.
  intros Hw. unfold write_words, read_word, mem_write, mem_read.
  destruct (heap d1 !! a.1) as [bytes|] eqn:Eb; [|done]. cbn [mbind option_bind].
  destruct (zwrite bytes a.2 _) as [new|] eqn:Ew; [|done]. cbn [of_option]. intros [= <-]. cbn [with_heap heap].
  rewrite lookup_insert_eq. cbn [mbind option_bind].
  apply zwrite_inv in Ew as (Ha & Hl & ->). cbn [fmap list_fmap] in *.
  assert (zlen (words_to_bytes [u32 w]) = 4) as H4 by done.
  assert (zread (take (Z.to_nat a.2) bytes ++ words_to_bytes [u32 w] ++ drop (Z.to_nat a.2 + length (words_to_bytes [u32 w])) bytes)
            a.2 4 = Some (words_to_bytes [u32 w])) as ->.
  { rewrite H4 in Hl. pose proof (zlen_nonneg bytes).
    assert (zlen (take (Z.to_nat a.2) bytes) = a.2) as Ht by (unfold zlen in *; rewrite length_take; lia).
    rewrite zread_in.
    - f_equal. rewrite <- Ht at 1. unfold zlen at 1. rewrite Nat2Z.id, drop_app_length. done.
    - done.
    - lia.
    - rewrite !zlen_app, H4, Ht. pose proof (zlen_nonneg (drop (Z.to_nat a.2 + length (words_to_bytes [u32 w])) bytes)). lia. }
  cbn [of_option obind]. unfold words_to_bytes. cbn [flat_map]. rewrite app_nil_r, le_word_bytes.
  change (2 ^ (8 * Z.of_nat 4)) with (2 ^ 32). f_equal. rewrite u32_id by done. apply Z.mod_small, Hw.
Qed.

Lemma GetUniformSetup_fine values client_id location shm_id shm_offset :
  is_u32 shm_offset -> values_fit values client_id location s ->
  yields (setup_ok values) (GetUniformSetup client_id location shm_id shm_offset d s).
Proof.
  intros Ho Hf. unfold GetUniformSetup. rewrite ComputeSize_small by lia.
  destruct (GetAddressAndCheckSize shm_id shm_offset (4 * 0 + 4) d) as [a|] eqn:Ea; [|by apply yields_Done].
  pose proof (room_address _ _ _ _ _ Hd Ea Ho ltac:(unfold is_u32; lia)) as Hr.
  eapply yields_bind; [apply write_words_fine; [done|]; by eapply room_less|]. intros d1 [Hd1 _].
  apply with_program_info_yields; [done|intros; by apply yields_Done|]. intros b p Hca Hp _.
  destruct (negb _); [by apply yields_Done|].
  destruct (GetUniformInfoByLocation_ok location p (programs_inputs _ _ _ _ Hs b p Hp)) as (r & Er & _). rewrite Er. cbn [obind].
  destruct r as [[u k]|]; [|by apply yields_Done]. pose proof (Hf b p u k Hca Hp Er) as Hv.
  pose proof (uniform_size_range (u_type (uniform u))) as Hsz. cbv zeta. destruct (_ =? 0); [by apply yields_Done|].
  assert (usize (GetGLDataTypeSizeForUniforms (u_type (uniform u)) + 4) = 4 * zlen values + 4) as ->.
  { pose proof (u32_is_usize (4 * zlen values + 4) ltac:(unfold is_u32; lia)). unfold usize. rewrite <- Hv. rewrite Z.mod_small; lia. }
  destruct (GetAddressAndCheckSize shm_id shm_offset (4 * zlen values + 4) d1) as [a'|] eqn:Ea'; [|by apply yields_Done].
  pose proof (room_address _ _ _ _ _ Hd1 Ea' Ho ltac:(unfold is_u32; lia)) as Hr'.
  destruct (write_words_fine d1 a' [GetGLDataTypeSizeForUniforms (u_type (uniform u))] Hd1) as (d2 & Ew & Hd2 & Hrr).
  { eapply room_less; [exact Hr'|]. change (zlen [_]) with 1. pose proof (zlen_nonneg values). lia. }
  rewrite Ew. cbn [obind]. apply yields_Done. cbn. split; [done|]. split; [done|]. split; [by apply Hrr|].
  rewrite <- Hv in *. split; [|lia]. eapply write_read_word; [|exact Ew]. unfold is_u32. lia.
Qed.

Lemma HandleGetUniformiv_fine values program location shm_id shm_offset :
  is_u32 shm_offset -> values_fit values program location s ->
  fine_answer (HandleGetUniformiv values program location shm_id shm_offset d s).
Proof.
  intros Ho Hf. eapply yields_bind; [by apply GetUniformSetup_fine|].
  intros [[e [[[a id] type]|]] [d' s']] (Hd' & Hs' & Hset); [|by apply answered_fine]. destruct Hset as [Hr _].
  eapply yields_bind; [apply write_words_fine; [done|]; eapply room_at; [exact Hr|lia..]|]. intros d2 [Hd2 _]. by apply answered_fine.
Qed.

Lemma HandleGetUniformfv_fine values program location shm_id shm_offset :
  is_u32 shm_offset -> values_fit values program location s ->
  fine_answer (HandleGetUniformfv values program location shm_id shm_offset d s).
Proof.
  intros Ho Hf. eapply yields_bind; [by apply GetUniformSetup_fine|]. pose proof (zlen_nonneg values).
  intros [[e [[[a id] type]|]] [d' s']] (Hd' & Hs' & Hset); [|by apply answered_fine]. destruct Hset as (Hr & Hw & Hlen).
  destruct (_ || _).
  - rewrite Hw. cbn [obind]. replace (4 * zlen values / 4) with (zlen values) by (rewrite Z.mul_comm, Z.div_mul; lia).
    rewrite i32_id by (unfold is_i32; lia). rewrite Z.eqb_refl. cbn [negb].
    eapply yields_bind; [apply write_words_fine; [done|]; rewrite zlen_fmap; eapply room_at; [exact Hr|lia..]|].
    intros d2 [Hd2 _]. by apply answered_fine.
  - eapply yields_bind; [apply write_words_fine; [done|]; eapply room_at; [exact Hr|lia..]|]. intros d2 [Hd2 _]. by apply answered_fine.
Qed.

(** ** The shaders of a program *)

Lemma replace_ids_fine n at_ sm d0 :
  decoder_ok d0 -> room d0 at_ (4 * Z.of_nat n) ->
  yields (fun r => decoder_ok r.2 /\ forall b m, room d0 b m -> room r.2 b m) (replace_ids n at_ sm d0).
Proof.
  revert at_ d0. induction n as [|n IH]; intros at_ d0 Hd0 Hr; cbn [replace_ids]; [by apply yields_Done|].
  eapply yields_bind; [apply read_word_fine; eapply room_less; [exact Hr|lia]|]. intros id _.
  destruct (GetClientId_shader id sm) as [client_id|]; [|by apply yields_Done].
  eapply yields_bind; [apply write_words_fine; [done|]; eapply room_less; [exact Hr|change (zlen [client_id]) with 1; lia]|].
  intros d1 [Hd1 Hrr]. eapply yields_weaken; [apply IH; [done|]|].
  - eapply room_at; [by apply Hrr|lia..].
  - intros r [Hr1 Hr2]. split; [done|]. auto.
Qed.

Lemma HandleGetAttachedShaders_fine attached client_id shm_id shm_offset result_size :
  is_u32 shm_offset -> is_u32 result_size -> 4 * zlen attached + 4 <= result_size ->
  fine_answer (HandleGetAttachedShaders attached client_id shm_id shm_offset result_size d s).
Proof.
  intros Ho [Hr0 Hr1] Hlen. apply with_program_info_yields; [done|intros; by apply answered_fine|]. intros b p Hca Hp _. cbv zeta.
  pose proof (zlen_nonneg attached) as Hna.
  assert (usize (result_size - 4) = result_size - 4) as ->.
  { pose proof (u32_is_usize (result_size - 4) ltac:(unfold is_u32; lia)). unfold usize. rewrite Z.mod_small; lia. }
  pose proof (Z.div_mod (result_size - 4) 4 ltac:(lia)) as Hdm. pose proof (Z.mod_pos_bound (result_size - 4) 4 ltac:(lia)) as Hmb.
  set (m := (result_size - 4) / 4) in *. rewrite (u32_id m) by (unfold is_u32; lia). rewrite ComputeSize_small by lia.
  rewrite (u32_id (4 * m + 4)) by (unfold is_u32; lia).
  destruct (GetAddressAndCheckSize shm_id shm_offset (4 * m + 4) d) as [a|] eqn:Ea; [|by apply answered_fine].
  pose proof (room_address _ _ _ _ _ Hd Ea Ho ltac:(unfold is_u32; lia)) as Hr.
  eapply yields_bind; [apply read_word_fine; eapply room_less; [exact Hr|lia]|]. intros size _. destruct (negb _); [by apply answered_fine|].
  eapply yields_bind; [apply write_words_fine; [done|]; eapply room_at; [exact Hr|lia..]|]. intros d1 [Hd1 Hrr1].
  eapply yields_bind; [apply replace_ids_fine; [done|]; eapply room_at; [apply Hrr1, Hr|lia|unfold zlen in *; lia]|].
  intros [ok d2] [Hd2 Hrr2]. cbn [snd] in *. destruct ok; cbn [negb]; [|by apply answered_fine].
  eapply yields_bind; [apply write_words_fine; [done|]; apply Hrr2, Hrr1; eapply room_less; [exact Hr|change (zlen [_]) with 1; lia]|].
  intros d3 [Hd3 _]. by apply answered_fine.
Qed.

(** ** Strings *)

Lemma bind_name_fine client_id (f : Z -> ProgramInfo -> Programs -> outcome (Error * Programs)) :
  (forall a p, fine_code (f a p s)) -> fine_code (with_program_info client_id s (fun s => Done (kNoError, s)) f).
Proof. intros Hf. apply with_program_info_yields; [done|intros; by apply yields_Done|]. intros a p _ _ _. apply Hf. Qed.

Lemma string_in_bucket_fine id (f : list Z -> outcome (Error * Programs)) b :
  GetBucket id d = Some b -> size_ b <> 0 -> (forall name, fine_code (f name)) ->
  fine_code (do str <- GetAsString b ;; match str with Some str => f str | None => UB end)%gpu.
Proof.
  intros Hb Hz Hf. eapply yields_bind; [by eapply GetAsString_ok, bucket_found|].
  intros [name|] Hn; [apply Hf|]. by destruct (Hn Hz).
Qed.

Lemma HandleShaderSourceBucket_fine shader id : fine_code (HandleShaderSourceBucket shader id d s).
Proof.
  unfold HandleShaderSourceBucket. destruct (GetBucket id d) as [b|] eqn:Eb; [|by apply yields_Done].
  destruct (size_ b =? 0) eqn:Ez; [by apply yields_Done|]. zbool.
  apply (string_in_bucket_fine id _ b); [done..|]. intros name. by apply ShaderSourceHelper_fine.
Qed.

Lemma HandleBindAttribLocationBucket_fine program index id :
  fine_code (HandleBindAttribLocationBucket program index id d s).
Proof.
  apply bind_name_fine. intros a p. destruct (GetBucket id d) as [b|] eqn:Eb; [|by apply yields_Done].
  eapply yields_bind; [by eapply GetAsString_ok, bucket_found|]. intros [name|] _; by apply yields_Done.
Qed.

(** ** All commands *)

Variables (compiler : Compiler) (Translate : Z -> list Z -> option Translation * list Z) (nc ns : Z).

Lemma upload_fine count elements values f :
  yields (enough_values count elements) values -> (forall v, count * elements <= zlen v -> fine (f v s)) ->
  fine_answer (in_programs d (set_uniform_to values f s)).
Proof. intros Hv Hf. apply in_programs_fine; [done|]. by eapply set_uniform_to_fine. Qed.

Lemma execute_fine env command :
  args_ok command -> command_ok env command s -> fine_answer (execute compiler Translate nc ns env command d s).
Proof.
  destruct command; cbn [args_ok command_ok execute]; intros Hargs Hc.
  1-10: apply in_programs_fine; [done|].
  { by apply HandleCreateProgram_fine. }
  { by apply HandleCreateShader_fine. }
  { by apply HandleDeleteProgram_fine. }
  { by apply HandleDeleteShader_fine. }
  { by apply no_error_fine, DoAttachShader_fine. }
  { by apply no_error_fine, DoDetachShader_fine. }
  { by apply no_error_fine, DoLinkProgram_fine. }
  { by apply no_error_fine, DoValidateProgram_fine. }
  { by apply no_error_fine, DoUseProgram_fine. }
  { by apply no_error_fine, DoCompileShader_fine. }
  { apply in_programs_fine; [done|]. eapply string_in_memory_fine; [done|apply Hargs..|done|]. intros v. by apply ShaderSourceHelper_fine. }
  { apply in_programs_fine; [done|]. apply string_in_command_fine; [done..|]. intros v. by apply ShaderSourceHelper_fine. }
  { apply in_programs_fine; [done|]. apply HandleShaderSourceBucket_fine. }
  { apply in_programs_fine; [done|]. apply bind_name_fine. intros a p.
    eapply string_in_memory_fine; [done|apply Hargs..|done|]. intros v. by apply yields_Done. }
  { apply in_programs_fine; [done|]. apply bind_name_fine. intros a p. apply string_in_command_fine; [done..|]. intros v. by apply yields_Done. }
  { apply in_programs_fine; [done|]. apply HandleBindAttribLocationBucket_fine. }
  (* one uniform from the command's words *)
  1, 3, 5, 7: apply in_programs_fine; [done|]; apply no_error_fine; first [by apply DoUniform1fv_fine|by apply uniform_fv_fine].
  1: by apply in_programs_fine, no_error_fine, DoUniform1i_fine.
  1-3: apply in_programs_fine; [done|]; by apply yields_Done.
  (* several, from memory or after the command *)
  1, 3, 5, 7, 9, 11, 13, 15: destruct Hargs as [Hcount Ho]; eapply upload_fine; [by eapply values_in_memory_ok|]; intros v Hv;
    first [apply DoUniform1fv_fine; [done|lia]|apply DoUniform1iv_fine; [done|lia]|by apply uniform_fv_fine|by apply uniform_iv_fine].
  1-8: eapply upload_fine; [by eapply values_in_command_ok|]; intros v Hv;
    first [apply DoUniform1fv_fine; [done|lia]|apply DoUniform1iv_fine; [done|lia]|by apply uniform_fv_fine|by apply uniform_iv_fine].
  1, 3, 5: destruct Hargs as [Hcount Ho]; apply in_programs_fine; [done|]; eapply set_matrix_in_memory_fine; [done..|];
    intros v Hv; by apply uniform_matrix_fv_fine.
  1-3: apply in_programs_fine; [done|]; eapply set_matrix_in_command_fine; [done..|];
    intros v Hv; by apply uniform_matrix_fv_fine.
  { apply name_in_memory_fine; [done|done|apply Hargs..|]. intros name. apply GetAttribLocationHelper_fine; [done|done|apply Hargs]. }
  { apply name_in_command_fine; [done|done|apply Hargs|]. intros name. apply GetAttribLocationHelper_fine; [done|done|apply Hargs]. }
  { apply name_in_bucket_fine; [done|done|]. intros name. by apply GetAttribLocationHelper_fine. }
  { apply name_in_memory_fine; [done|done|apply Hargs..|]. intros name. apply GetUniformLocationHelper_fine; [done|done|apply Hargs]. }
  { apply name_in_command_fine; [done|done|apply Hargs|]. intros name. apply GetUniformLocationHelper_fine; [done|done|apply Hargs]. }
  { apply name_in_bucket_fine; [done|done|]. intros name. by apply GetUniformLocationHelper_fine. }
  { by apply HandleGetProgramiv_fine. }
  { by apply HandleGetShaderiv_fine. }
  { by apply ask_programs_fine. }
  { by apply ask_programs_fine. }
  { by apply string_of_shader_fine. }
  { by apply string_of_shader_fine. }
  { apply string_of_shader_fine; [done..|]. intros a i Ha Hi. specialize (Hc a i Ha Hi). unfold string_short in *. by destruct (sh_log_info_ i). }
  { apply HandleGetProgramInfoLog_fine; done. }
  { by apply HandleGetActiveUniform_fine. }
  { by apply HandleGetActiveAttrib_fine. }
  { by apply HandleGetProgramInfoCHROMIUM_fine. }
  { by apply HandleGetUniformiv_fine. }
  { by apply HandleGetUniformfv_fine. }
  { apply HandleGetAttachedShaders_fine; [apply Hargs..|done]. }
Qed.

End more.
End safety.

(** ** Every sequence of commands *)

Section reach.
Context `{Platform} {E : Type} `{CommandBufferEngine E} (engine_ok : E -> Prop) (engine_entries : E -> Z).
Variables (compiler : Compiler) (Translate : Z -> list Z -> option Translation * list Z) (nc ns : Z).
Implicit Types (d : Decoder E) (s : Programs).

Notation decoder_ok := (decoder_ok engine_ok engine_entries).
Notation execute := (execute compiler Translate nc ns).

(** The states of a decoder: a new one, then commands, between which the client and the other
    commands change its memory and its buckets. *)
Inductive program_reach : Decoder E -> Programs -> Prop :=
| program_reach_new d : decoder_ok d -> program_reach d Programs_new
| program_reach_other d d' s : program_reach d s -> decoder_ok d' -> program_reach d' s
| program_reach_command d s env command e d' s' :
    program_reach d s -> args_ok command -> command_ok env command s ->
    execute env command d s = Done (e, (d', s')) -> program_reach d' s'.

Lemma program_reach_good d s : program_reach d s -> decoder_ok d /\ programs_good s.
Proof.
  induction 1 as [d Hd|d d' s _ [_ Hs] Hd'|d s env command e d' s' _ [Hd Hs] Ha Hc He].
  - split; [done|apply Programs_new_good].
  - done.
  - destruct (execute_fine engine_ok engine_entries d s Hd Hs compiler Translate nc ns env command Ha Hc)
      as ([e' [d2 s2]] & Eq & Hd2 & Hs2).
    rewrite He in Eq. injection Eq as -> -> ->. done.
Qed.

(** The commands of programs are safe.  Whatever commands came before, a command of
    shaders, programs or uniforms returns an error code without leaving the memory of the
    client, of the uniforms or of an object that was freed, and the state it leaves is
    consistent, given that the driver locates what is active in the programs that it links
    and does not write more than it is asked to. *)
Theorem program_commands_safe d s env command :
  program_reach d s -> args_ok command -> command_ok env command s ->
  exists e d' s', execute env command d s = Done (e, (d', s')) /\ decoder_ok d' /\ program_reach d' s'.
Proof.
  intros Hr Ha Hc. destruct (program_reach_good _ _ Hr) as [Hd Hs].
  destruct (execute_fine engine_ok engine_entries d s Hd Hs compiler Translate nc ns env command Ha Hc)
    as ([e [d' s']] & Eq & Hd' & Hs').
  exists e, d', s'. split; [done|]. split; [done|]. by eapply program_reach_command.
Qed.

(** C13: Who is counted lives.  A shader's use count is the number of places of programs that
    it is attached to, and it has a name as long as it is not deleted or is attached; the
    program in use is the one that is counted, and it was linked; what a program has attached
    has a name. *)
Theorem program_counts d s :
  program_reach d s ->
  (forall a i, shaders (shader_manager s) !! a = Some i ->
     sh_use_count_ i = uses (programs (program_manager s)) a /\
     (owned (shader_infos_ (shader_manager s)) a <->
        IsDeleted_shader i = false \/ uses (programs (program_manager s)) a <> 0)) /\
  (forall b p, programs (program_manager s) !! b = Some p ->
     p_use_count_ p = (if decide (current_program_ s = Some b) then 1 else 0) /\
     (current_program_ s = Some b -> p_valid_ p = true) /\
     forall i a, zget (attached_shaders_ p) i = Some (Some a) -> owned (shader_infos_ (shader_manager s)) a).
Proof.
  intros Hr. destruct (program_reach_good _ _ Hr) as [_ Hs]. pose proof (programs_shaders _ _ _ _ Hs) as Hsm. split.
  - intros a i Ha. split; [by apply Hsm|by apply Hsm].
  - intros b p Hp. split; [by apply (programs_counted _ _ _ _ Hs)|]. split.
    + intros Hc. destruct (programs_current _ _ _ _ Hs b Hc) as (q & Hq & Hv). congruence.
    + intros i a Hi. destruct (proj2 (programs_attached _ _ _ _ Hs b p Hp) i a Hi) as (sh & Hsh & _).
      apply (shaders_named _ _ Hsm a sh Hsh). right. rewrite (uses_split _ _ _ a Hp).
      pose proof (uses_nonneg (base.delete b (programs (program_manager s))) a) as H0'. unfold other_uses.
      assert (attached_count a p > 0) as Hc.
      { unfold attached_count, count_of. destruct (filter _ _) as [|x l] eqn:Ef;
          [|rewrite zlen_cons; pose proof (zlen_nonneg l); lia].
        assert (Some a ∈ filter (fun slot => slot = Some a) (attached_shaders_ p)) as Hin.
        { apply list_elem_of_filter. split; [done|]. apply elem_of_zget. by exists i. }
        rewrite Ef in Hin. by apply elem_of_nil in Hin. }
      lia.
Qed.

(** The check of the current program.  It never finds a program that is not linked: a
    command of uniforms is refused when no program is in use, and then only. *)
Theorem CheckCurrentProgram_exact d s :
  program_reach d s ->
  CheckCurrentProgram s = match current_program_ s with
                          | Some _ => Done (true, s)
                          | None => Done (false, SetGLError GL_INVALID_OPERATION s)
                          end.
Proof. intros Hr. destruct (program_reach_good _ _ Hr) as [_ Hs]. by apply CheckCurrentProgram_cases. Qed.

End reach.
