(* ===== verification/DecoderState.v ===== *)
(** * The state of the whole decoder

    [GLES2DecoderImpl] of [gpu/command_buffer/service/gles2_cmd_decoder.cc] with all the
    parts that the other files model: textures and framebuffers, programs, buffers and vertex
    attributes, the error bits and the calls of the driver in one order.  Its handlers are
    computations of a monad over the decoder of the common commands, which has the client's
    memory, and this state. *)

From S2P Require Import Prelude CmdFormat CommandBufferService CommonDecoder.
From Stdlib Require Import ZArith Lia ZifyBool Bool String.
From stdpp Require Import base numbers option gmap list.
From S2P Require Import Floats GLConstants Validators GLES2Util FeatureInfo IdAllocator BufferManager VertexAttribManager.
From S2P Require Import DrawValidation ShaderManager ProgramManager ProgramDecoder ContextState.
From S2P Require Import TextureDecoder ObjectNames ProgramQueries.
Local Open Scope Z_scope.

(** ** The calls that reach the driver *)

(** The calls of the handlers that keep no state of their own. *)
Inductive StateCall :=
| glBlendColor (red green blue alpha : Z)
| glBlendEquation (mode : Z)
| glBlendEquationSeparate (modeRGB modeAlpha : Z)
| glBlendFunc (sfactor dfactor : Z)
| glBlendFuncSeparate (srcRGB dstRGB srcAlpha dstAlpha : Z)
| glCullFace (mode : Z)
| glDepthFunc (func : Z)
| glDepthRange (zNear zFar : Z)
| glFinish
| glFlush
| glFrontFace (mode : Z)
| glHint (target mode : Z)
| glLineWidth (width : Z)
| glPolygonOffset (factor units : Z)
| glSampleCoverage (value invert : Z)
| glScissor (x y width height : Z)
| glStencilFunc (func ref mask : Z)
| glStencilFuncSeparate (face func ref mask : Z)
| glStencilOp (fail zfail zpass : Z)
| glStencilOpSeparate (face fail zfail zpass : Z)
| glViewport (x y width height : Z).

Inductive DriverCall :=
| OfContext (call : ContextState.GLCall)
| OfPrograms (call : ProgramCall)
| OfVertices (call : DrawValidation.GLCall)
| OfState (call : StateCall).

(** ** The state *)

(** The buffers that stand in for attribute 0 and for attributes of type [GL_FIXED]. *)
Record Simulation := mkSimulation {
  attrib_0_buffer_id_ : Z;
  attrib_0_buffer_matches_value_ : bool;
  attrib_0_value_ : Vec4;
  attrib_0_size_ : Z;
  fixed_attrib_buffer_id_ : Z;
  fixed_attrib_buffer_size_ : Z;
}.

Definition Simulation_new (attrib_0_buffer_id fixed_attrib_buffer_id : Z) : Simulation :=
  mkSimulation attrib_0_buffer_id true (0, 0, 0, one_f) 0 fixed_attrib_buffer_id 0.

(** What [EnableFeatureCHROMIUM] changes: the validator of vertex attribute types, and which
    shaders are let through. *)
Record Enabled := mkEnabled {
  vertex_attrib_types : list Z;
  force_webgl_glsl_validation_ : bool;
  derivatives_explicitly_enabled_ : bool;
  use_shader_translator_ : bool;
}.

Record GLES2State := mkGLES2State {
  context : Context;
  program_state : Programs;
  vertices : DrawValidation.Decoder;
  (* [last_id_] of the allocator of shaders and programs *)
  program_ids : Z;
  simulation : Simulation;
  enabled : Enabled;
  error_bits_ : Z;
  driver_calls : list DriverCall;
}.

(** What does not change while the decoder is used, besides [Config]: the limits of the
    context group, the members of [util_], and what is known of the platform. *)
Record GroupLimits := mkGroupLimits {
  max_vertex_attribs : Z;
  max_fragment_uniform_vectors : Z;
  max_varying_vectors : Z;
  max_vertex_uniform_vectors : Z;
  num_compressed_texture_formats : Z;
  num_shader_binary_formats : Z;
  bufferdata_faster_than_buffersubdata_ : bool;
  is_angle : bool;
  has_arb_robustness : bool;
}.

(** A decoder that is [Initialize]d, as far as what is not in the context is concerned: the
    driver has made the two buffers of [Simulation]. *)
Definition Enabled_new (cfg : Config) : Enabled :=
  mkEnabled (validators_ (feature_info_ cfg) Validator.vertex_attrib_type) false false
    (negb (ContextState.egl_gles2 cfg && negb (chromium_webglsl (feature_flags_ (feature_info_ cfg))))).

Definition GLES2State_new (cfg : Config) (lim : GroupLimits) (c : Context) (attrib_0_buffer_id fixed_attrib_buffer_id : Z)
    : GLES2State :=
  mkGLES2State c Programs_new (Decoder_new (max_vertex_attribs lim)) NonReused.new
    (Simulation_new attrib_0_buffer_id fixed_attrib_buffer_id) (Enabled_new cfg) 0 [].

(** What the driver and the platform answer while one command runs. *)
Record DecoderAnswers := mkDecoderAnswers {
  (* what [CopyRealGLErrorsToWrapper] collects *)
  real_errors : list Z;
  (* [PeekGLError], and [glGetError] after the driver was asked for values *)
  peek_gl_error : Z;
  (* [glGetError] after the buffers of [Simulation] are filled *)
  attrib_0_error : Z;
  fixed_attrib_error : Z;
  generated_ids : list Z;
  (* what the driver writes: [glGetIntegerv] of each parameter, and the other questions *)
  gl_integers : Z -> list Z;
  gl_values : list Z;
  gl_enabled : bool;
  gl_string : option (list Z);
  attached_object_type : Z;
  (* the order in which a hash map is visited *)
  hash_order : gmap Z Z -> list (Z * Z);
  (* [static_cast<int>] of a floating point number that does not fit *)
  overflowed_int : Z -> Z;
  (* what a variable that was never set holds *)
  uninitialized : Z;
  translators_ready : bool;
  graphics_reset_status : Z;
}.

(** ** Changes of the state *)

Definition note_error (bits error : Z) : Z := Z.lor bits (GLErrorToErrorBit error).

(** What a part of the state got at the end of a list. *)
Definition since {A} (old new : list A) : list A := drop (List.length old) new.

(** The error bits and the calls, after a part of the state has changed. *)
Definition noted (errors : list Z) (calls : list DriverCall) (g : GLES2State) : GLES2State :=
  mkGLES2State (context g) (program_state g) (vertices g) (program_ids g) (simulation g) (enabled g)
    (fold_left note_error errors (error_bits_ g)) (driver_calls g ++ calls).

Definition with_context (c : Context) (g : GLES2State) : GLES2State :=
  noted (since (ContextState.gl_errors (context g)) (ContextState.gl_errors c))
    (OfContext <$> since (ContextState.gl_calls (context g)) (ContextState.gl_calls c))
    (mkGLES2State c (program_state g) (vertices g) (program_ids g) (simulation g) (enabled g)
       (error_bits_ g) (driver_calls g)).

Definition with_program_state (s : Programs) (g : GLES2State) : GLES2State :=
  noted (since (ProgramDecoder.gl_errors (program_state g)) (ProgramDecoder.gl_errors s))
    (OfPrograms <$> since (ProgramDecoder.gl_calls (program_state g)) (ProgramDecoder.gl_calls s))
    (mkGLES2State (context g) s (vertices g) (program_ids g) (simulation g) (enabled g)
       (error_bits_ g) (driver_calls g)).

(** The calls of this part are not in its state. *)
Definition with_vertices (calls : list DrawValidation.GLCall) (d : DrawValidation.Decoder) (g : GLES2State)
    : GLES2State :=
  noted (since (DrawValidation.gl_errors (vertices g)) (DrawValidation.gl_errors d)) (OfVertices <$> calls)
    (mkGLES2State (context g) (program_state g) d (program_ids g) (simulation g) (enabled g)
       (error_bits_ g) (driver_calls g)).

Definition with_program_ids (ids : Z) (g : GLES2State) : GLES2State :=
  mkGLES2State (context g) (program_state g) (vertices g) ids (simulation g) (enabled g)
    (error_bits_ g) (driver_calls g).

Definition with_simulation (s : Simulation) (g : GLES2State) : GLES2State :=
  mkGLES2State (context g) (program_state g) (vertices g) (program_ids g) s (enabled g)
    (error_bits_ g) (driver_calls g).

Definition with_enabled (e : Enabled) (g : GLES2State) : GLES2State :=
  mkGLES2State (context g) (program_state g) (vertices g) (program_ids g) (simulation g) e
    (error_bits_ g) (driver_calls g).

Definition with_error_bits (bits : Z) (g : GLES2State) : GLES2State :=
  mkGLES2State (context g) (program_state g) (vertices g) (program_ids g) (simulation g) (enabled g)
    bits (driver_calls g).

Definition SetGLError (error : Z) (g : GLES2State) : GLES2State := noted [error] [] g.
Definition emit_call (call : DriverCall) (g : GLES2State) : GLES2State := noted [] [call] g.
Definition CopyRealGLErrorsToWrapper (env : DecoderAnswers) (g : GLES2State) : GLES2State :=
  noted (real_errors env) [] g.

(** ** The monad of handlers *)

Definition World (E : Type) : Type := CommonDecoder.Decoder E * GLES2State.
Definition Handler (E A : Type) : Type := World E -> outcome (A * World E).

#[export] Instance handler_ret {E} : MRet (Handler E) := fun A x w => Done (x, w).
#[export] Instance handler_bind {E} : MBind (Handler E) := fun A B k m w => (do (x, w) <- m w ;; k x w)%gpu.

Section handlers.
Context `{Platform} {E : Type} `{CommandBufferEngine E}.
Notation Handler := (Handler E).
Notation World := (World E).

(** Parts of the world. *)
Definition gets {A} (f : GLES2State -> A) : Handler A := fun w => Done (f w.2, w).

Definition modify (f : GLES2State -> GLES2State) : Handler () := fun w => Done ((), (w.1, f w.2)).

(** A computation on the state. *)
Definition in_state {A} (f : GLES2State -> outcome (A * GLES2State)) : Handler A := fun w =>
  (do (x, g) <- f w.2 ;; Done (x, (w.1, g)))%gpu.

Definition in_context {A} (f : Context -> outcome (A * Context)) : GLES2State -> outcome (A * GLES2State) := fun g =>
  (do (x, c) <- f (context g) ;; Done (x, with_context c g))%gpu.

Definition change_context (f : Context -> outcome Context) : GLES2State -> outcome (() * GLES2State) := fun g =>
  (do c <- f (context g) ;; Done ((), with_context c g))%gpu.

Definition in_vertices (f : DrawValidation.Decoder -> Result) : GLES2State -> outcome (() * GLES2State) := fun g =>
  (do (calls, d) <- f (vertices g) ;; Done ((), with_vertices calls d g))%gpu.

Definition check_vertices {A} (f : DrawValidation.Decoder -> outcome (A * DrawValidation.Decoder))
    : GLES2State -> outcome (A * GLES2State) := fun g =>
  (do (x, d) <- f (vertices g) ;; Done (x, with_vertices [] d g))%gpu.

(** What the decoder of the common commands finds out, and what it changes. *)
Definition ask_memory {A} (f : CommonDecoder.Decoder E -> outcome A) : Handler A := fun w =>
  (do x <- f w.1 ;; Done (x, w))%gpu.

Definition change_memory (f : CommonDecoder.Decoder E -> outcome (CommonDecoder.Decoder E)) : Handler () := fun w =>
  (do d <- f w.1 ;; Done ((), (d, w.2)))%gpu.

(** A value that the code takes for granted. *)
Definition the {A} (o : option A) : Handler A := fun w => (do x <- of_option o ;; Done (x, w))%gpu.

(** A handler that records an error of OpenGL has done its work. *)
Definition failing (error : Z) : Handler Error := modify (SetGLError error) ;; mret kNoError.

Definition done (m : Handler ()) : Handler Error := m ;; mret kNoError.

Definition call (c : StateCall) : Handler Error := done (modify (emit_call (OfState c))).

(** *** The client's memory *)

Definition address (shm_id shm_offset size : Z) : Handler (option (Z * Z)) :=
  ask_memory (fun d => Done (GetAddressAndCheckSize shm_id shm_offset size d)).

(** The bytes at a place that the client names, and those after the command's struct; a byte
    has eight bits. *)
Definition shared_bytes (shm_id shm_offset size : Z) : Handler (option (list Z)) :=
  ask_memory (fun d => do bytes <- GetSharedMemoryAs shm_id shm_offset size d ;; Done (map u8 <$> bytes))%gpu.

Definition immediate_bytes (size : Z) (immediate : list Z) : Handler (option (list Z)) :=
  ask_memory (fun _ => do bytes <- GetImmediateDataAs size immediate ;; Done (map u8 <$> bytes))%gpu.

Definition load (a : Z * Z) : Handler Z := ask_memory (read_word a).

Definition store (a : Z * Z) (words : list Z) : Handler () := change_memory (write_words a words).

Definition store_bytes (a : Z * Z) (bytes : list Z) : Handler () :=
  change_memory (fun d => of_option (mem_write d a (map u8 bytes))).

End handlers.
