(* ===== verification/HandlerSafety.v ===== *)
(** * Reasoning about handlers

    The invariant of the state of [DecoderState.v], and a small program logic for its monad:
    [fine rooms m] says that the handler [m] ends in a good state from every good one in which
    there is the room of [rooms] in the client's memory.  A handler's proof follows its code, a
    rule for each step. *)

From S2P Require Import Prelude CmdFormat CommandBufferService CommonDecoder.
From Stdlib Require Import ZArith Lia ZifyBool Bool String.
From stdpp Require Import base numbers option gmap list.
From S2P Require Import Floats GLConstants Validators GLES2Util FeatureInfo IdAllocator BufferManager VertexAttribManager.
From S2P Require Import DrawValidation VertexSafety ShaderManager ProgramManager ProgramInvariant ProgramDecoder ContextState ContextInvariant.
From S2P Require Import TextureDecoder ObjectNames ReadPixels ProgramQueries ProgramSafety ProgramCommands DecoderState.
Local Open Scope Z_scope.

Section logic.
Context `{Platform} {E : Type} `{CommandBufferEngine E} (engine_ok : E -> Prop) (engine_entries : E -> Z).
Variables (cfg : Config) (lim : GroupLimits).
Implicit Types (g : GLES2State) (w : World E).
Notation Handler := (Handler E).
Notation decoder_ok := (decoder_ok engine_ok engine_entries).

Record state_good g : Prop := {
  good_context : context_ok cfg (context g);
  good_programs : programs_good (program_state g);
  good_vertices : dec_ok (vertices g);
  good_types : vertex_attrib_types (enabled g) ⊆ vertex_types;
  good_attribs : max_attribs (vertices g) = max_vertex_attribs lim;
}.

Definition world_good w : Prop := decoder_ok w.1 /\ state_good w.2.

(** Room in the client's memory: an address, and how many bytes there are. *)
Definition Rooms : Type := list ((Z * Z) * Z).

Definition has_rooms (rooms : Rooms) (d : CommonDecoder.Decoder E) : Prop := Forall (fun '(a, n) => room d a n) rooms.

Definition keeps_rooms (d d' : CommonDecoder.Decoder E) : Prop := forall a n, room d a n -> room d' a n.

Definition fine {A} (rooms : Rooms) (m : Handler A) : Prop := forall w, world_good w -> has_rooms rooms w.1 ->
  yields (fun r => world_good r.2 /\ keeps_rooms w.1 r.2.1) (m w).

Lemma has_rooms_keeps rooms d d' : has_rooms rooms d -> keeps_rooms d d' -> has_rooms rooms d'.
Proof. intros Hr Hk. eapply Forall_impl; [exact Hr|]. intros [a n]. apply Hk. Qed.

(** ** Rules *)

Lemma fine_ret {A} rooms (x : A) : fine rooms (mret x).
Proof. intros w Hw _. apply yields_Done. split; [done|by intros a n]. Qed.

Lemma fine_bind {A B} rooms (m : Handler A) (k : A -> Handler B) :
  fine rooms m -> (forall x, fine rooms (k x)) -> fine rooms (m ≫= k).
Proof.
  intros Hm Hk w Hw Hr. destruct (Hm w Hw Hr) as ([x w1] & E1 & Hw1 & Hk1). cbn in *.
  unfold mbind, handler_bind. rewrite E1. cbn [obind].
  destruct (Hk x w1 Hw1 (has_rooms_keeps _ _ _ Hr Hk1)) as (r & -> & Hw2 & Hk2).
  apply yields_Done. split; [done|]. intros a n Ha. auto.
Qed.

Lemma fine_done rooms (m : Handler ()) : fine rooms m -> fine rooms (done m).
Proof. intros Hm. apply fine_bind; [done|]. intros []. apply fine_ret. Qed.

Lemma fine_gets {A B} rooms (f : GLES2State -> A) (k : A -> Handler B) :
  (forall g, state_good g -> fine rooms (k (f g))) -> fine rooms (gets f ≫= k).
Proof. intros Hk w Hw Hr. by apply (Hk w.2 (proj2 Hw)). Qed.

Lemma fine_modify rooms f : (forall g, state_good g -> state_good (f g)) -> fine rooms (modify f).
Proof. intros Hf w [Hd Hg] Hr. apply yields_Done. split; [split; [done|by apply Hf]|by intros a n]. Qed.

Lemma fine_in_state {A} rooms (f : GLES2State -> outcome (A * GLES2State)) :
  (forall g, state_good g -> yields (fun r => state_good r.2) (f g)) -> fine rooms (in_state f).
Proof.
  intros Hf w [Hd Hg] Hr. destruct (Hf w.2 Hg) as ([x g] & Ef & Hg'). unfold in_state. rewrite Ef.
  apply yields_Done. split; [by split|by intros a n].
Qed.

Lemma fine_ask {A} rooms (f : CommonDecoder.Decoder E -> outcome A) :
  (forall d, decoder_ok d -> has_rooms rooms d -> yields (fun _ => True) (f d)) -> fine rooms (ask_memory f).
Proof.
  intros Hf w [Hd Hg] Hr. destruct (Hf w.1 Hd Hr) as (x & Ef & _). unfold ask_memory. rewrite Ef.
  apply yields_Done. split; [by split|by intros a n].
Qed.

(** The answer can be used, as far as nothing that comes later changes it. *)
Lemma fine_ask_bind {A B} rooms (f : CommonDecoder.Decoder E -> outcome A) (Q : A -> Prop) (k : A -> Handler B) :
  (forall d, decoder_ok d -> has_rooms rooms d -> yields Q (f d)) -> (forall x, Q x -> fine rooms (k x)) ->
  fine rooms (ask_memory f ≫= k).
Proof.
  intros Hf Hk w Hw Hr. destruct (Hf w.1 (proj1 Hw) Hr) as (x & Ef & HQ).
  unfold mbind, handler_bind, ask_memory. rewrite Ef. cbn [obind]. by apply Hk.
Qed.

Lemma fine_change rooms (f : CommonDecoder.Decoder E -> outcome (CommonDecoder.Decoder E)) :
  (forall d, decoder_ok d -> has_rooms rooms d -> yields (fun d' => decoder_ok d' /\ keeps_rooms d d') (f d)) ->
  fine rooms (change_memory f).
Proof.
  intros Hf w [Hd Hg] Hr. destruct (Hf w.1 Hd Hr) as (d' & Ef & Hd' & Hk). unfold change_memory. rewrite Ef.
  apply yields_Done. by split.
Qed.

Lemma fine_the {A B} rooms (o : option A) (k : A -> Handler B) :
  (exists x, o = Some x /\ fine rooms (k x)) -> fine rooms (the o ≫= k).
Proof. intros (x & -> & Hx) w Hw Hr. by apply Hx. Qed.

(** ** Conditions

    The same with a condition on the state before, and one on the state after and the answer. *)

Definition fine_if {A} (P : GLES2State -> Prop) (rooms : Rooms) (m : Handler A) (Q : A -> GLES2State -> Prop) : Prop :=
  forall w, P w.2 -> world_good w -> has_rooms rooms w.1 ->
  yields (fun r => (world_good r.2 /\ keeps_rooms w.1 r.2.1) /\ Q r.1 r.2.2) (m w).

Lemma fine_if_fine {A} P rooms (m : Handler A) : fine rooms m -> fine_if P rooms m (fun _ _ => True).
Proof. intros Hm w _ Hw Hr. destruct (Hm w Hw Hr) as (r & -> & Hx). by apply yields_Done. Qed.

Lemma fine_if_weaken {A} (P P' : GLES2State -> Prop) rooms (m : Handler A) (Q : A -> GLES2State -> Prop) :
  (forall g, P g -> P' g) -> fine_if P' rooms m Q -> fine_if P rooms m Q.
Proof. intros Hp Hm w Hw. by apply Hm, Hp. Qed.

Lemma fine_if_post {A} P rooms (m : Handler A) (Q Q' : A -> GLES2State -> Prop) :
  (forall x g, Q x g -> Q' x g) -> fine_if P rooms m Q -> fine_if P rooms m Q'.
Proof. intros Hq Hm w Hp Hw Hr. destruct (Hm w Hp Hw Hr) as (r & -> & Hx & Hy). apply yields_Done. auto. Qed.

Lemma fine_if_at {A} g0 (P : GLES2State -> Prop) rooms (m : Handler A) Q :
  (P g0 -> fine_if (fun g => g = g0) rooms m Q) -> fine_if (fun g => g = g0 /\ P g) rooms m Q.
Proof. intros Hm w [Hw0 Hp]. rewrite Hw0 in Hp. by apply Hm. Qed.

Lemma fine_if_ret {A} P rooms (x : A) : fine_if P rooms (mret x) (fun y g => y = x /\ P g).
Proof. intros w Hp Hw _. apply yields_Done. split; [split; [done|by intros a n]|done]. Qed.

Lemma fine_if_bind {A B} P (Q : A -> GLES2State -> Prop) (R : B -> GLES2State -> Prop) rooms (m : Handler A) (k : A -> Handler B) :
  fine_if P rooms m Q -> (forall x, fine_if (Q x) rooms (k x) R) -> fine_if P rooms (m ≫= k) R.
Proof.
  intros Hm Hk w Hp Hw Hr. destruct (Hm w Hp Hw Hr) as ([x w1] & E1 & (Hw1 & Hk1) & Hq). cbn [fst snd] in *.
  unfold mbind, handler_bind. rewrite E1. cbn [obind].
  destruct (Hk x w1 Hq Hw1 (has_rooms_keeps _ _ _ Hr Hk1)) as (r & -> & (Hw2 & Hk2) & Hq2).
  apply yields_Done. split; [|done]. split; [done|]. intros a n Ha. auto.
Qed.

Lemma fine_if_state {A} P (Q : A -> GLES2State -> Prop) rooms (f : GLES2State -> outcome (A * GLES2State)) :
  (forall g, P g -> state_good g -> yields (fun r => state_good r.2 /\ Q r.1 r.2) (f g)) -> fine_if P rooms (in_state f) Q.
Proof.
  intros Hf w Hp [Hd Hg] Hr. destruct (Hf w.2 Hp Hg) as ([x g] & Ef & Hg' & Hq). unfold in_state. rewrite Ef.
  apply yields_Done. split; [split; [by split|by intros a n]|done].
Qed.

Lemma fine_if_modify P (Q : GLES2State -> Prop) rooms f :
  (forall g, P g -> state_good g -> state_good (f g) /\ Q (f g)) -> fine_if P rooms (modify f) (fun _ => Q).
Proof.
  intros Hf w Hp [Hd Hg] Hr. apply yields_Done. destruct (Hf w.2 Hp Hg). split; [split; [by split|by intros a n]|done].
Qed.

Lemma fine_if_gets {A B} P rooms (f : GLES2State -> A) (k : A -> Handler B) R :
  (forall g, P g -> fine_if (fun g' => g' = g) rooms (k (f g)) R) -> fine_if P rooms (gets f ≫= k) R.
Proof. intros Hk w Hp Hw Hr. exact (Hk w.2 Hp w eq_refl Hw Hr). Qed.

(** ** Room *)

Lemma fine_address {B} rooms shm_id shm_offset size (k : option (Z * Z) -> Handler B) :
  is_u32 shm_offset -> is_u32 size ->
  (forall a, fine ((a, size) :: rooms) (k (Some a))) -> fine rooms (k None) ->
  fine rooms (address shm_id shm_offset size ≫= k).
Proof.
  intros Ho Hs Hk Hn w Hw Hr. unfold address, mbind, handler_bind, ask_memory. cbn [obind].
  destruct (GetAddressAndCheckSize shm_id shm_offset size w.1) as [a|] eqn:Ea; [|by apply Hn].
  apply Hk; [done|]. constructor; [|done]. by eapply room_address, Hs; [apply Hw|..].
Qed.

Lemma has_room rooms d a o n m :
  has_rooms rooms d -> (a, n) ∈ rooms -> 0 <= o -> o + m <= n -> room d (address_at a o) m.
Proof. intros Hr Hin Ho Hm. eapply room_at; [|done..]. exact (proj1 (Forall_forall _ _) Hr _ Hin). Qed.

Lemma address_at_0 a : address_at a 0 = a.
Proof. destruct a as [b o]. unfold address_at. cbn. by rewrite Z.add_0_r. Qed.

Lemma has_room_0 rooms d a n m : has_rooms rooms d -> (a, n) ∈ rooms -> m <= n -> room d a m.
Proof. intros Hr Hin Hm. rewrite <- (address_at_0 a). by eapply has_room. Qed.

Lemma fine_load rooms a n : (a, n) ∈ rooms -> 4 <= n -> fine rooms (load a).
Proof. intros Hin Hn. apply fine_ask. intros d Hd Hr. apply read_word_fine. by eapply has_room_0. Qed.

Lemma fine_load_at rooms a o n : (a, n) ∈ rooms -> 0 <= o -> o + 4 <= n -> fine rooms (load (address_at a o)).
Proof. intros Hin Ho Hn. apply fine_ask. intros d Hd Hr. apply read_word_fine. by eapply has_room. Qed.

Lemma fine_store_at rooms a o n words :
  (a, n) ∈ rooms -> 0 <= o -> o + 4 * zlen words <= n -> fine rooms (store (address_at a o) words).
Proof.
  intros Hin Ho Hn. apply fine_change. intros d Hd Hr.
  apply (write_words_fine engine_ok engine_entries); [done|]. by eapply has_room.
Qed.

Lemma fine_store rooms a n words : (a, n) ∈ rooms -> 4 * zlen words <= n -> fine rooms (store a words).
Proof. intros Hin Hn. rewrite <- (address_at_0 a). by eapply fine_store_at. Qed.

Lemma fine_store_bytes_at rooms a o n bytes :
  (a, n) ∈ rooms -> 0 <= o -> o + zlen bytes <= n -> fine rooms (store_bytes (address_at a o) bytes).
Proof.
  intros Hin Ho Hn. apply fine_change. intros d Hd Hr. destruct (has_room _ _ _ _ _ _ Hr Hin Ho Hn) as [H1 H2].
  destruct (address_at a o) as [block i]. cbn [fst snd] in *.
  destruct (mem_write_wrote d block i (map u8 bytes) (i + zlen bytes) H2 H1) as (d' & -> & Hw & _).
  { change (zlen (map u8 bytes)) with (zlen (u8 <$> bytes)). rewrite zlen_fmap. lia. }
  apply yields_Done. split; [by eapply wrote_ok|]. intros b n' [Hb Hn']. split; [done|]. by eapply wrote_holds.
Qed.

(** ** Bytes *)

Lemma u8_is_byte bytes : Forall is_byte (map u8 bytes).
Proof. induction bytes as [|b bytes IH]; cbn; constructor; try done. unfold u8, is_byte. apply Z.mod_pos_bound. lia. Qed.

(** What the handlers know of the bytes they are given. *)
Definition some_bytes (size : Z) (r : option (list Z)) : Prop := forall bytes, r = Some bytes ->
  zlen bytes = size /\ Forall is_byte bytes.

Lemma some_bytes_u8 size (r : option (list Z)) :
  (forall bytes, r = Some bytes -> zlen bytes = size) -> some_bytes size (map u8 <$> r).
Proof.
  intros Hr bytes. destruct r as [bs|]; [|done]. intros [= <-]. split; [|apply u8_is_byte].
  change (map u8 bs) with (u8 <$> bs). rewrite zlen_fmap. by apply Hr.
Qed.

Lemma fine_shared {B} rooms shm_id shm_offset size (k : option (list Z) -> Handler B) :
  is_u32 shm_offset -> is_u32 size -> (forall r, some_bytes size r -> fine rooms (k r)) ->
  fine rooms (shared_bytes shm_id shm_offset size ≫= k).
Proof.
  intros Ho Hs Hk. eapply fine_ask_bind; [|exact Hk]. intros d Hd _.
  destruct (GetSharedMemoryAs_ok engine_ok engine_entries shm_id shm_offset size d Ho Hs Hd) as (r & -> & Hr).
  apply yields_Done. by apply some_bytes_u8.
Qed.

Lemma fine_immediate {B} rooms size immediate (k : option (list Z) -> Handler B) :
  0 <= size -> (forall r, some_bytes size r -> fine rooms (k r)) ->
  fine rooms (immediate_bytes size immediate ≫= k).
Proof.
  intros Hs Hk. eapply fine_ask_bind; [|exact Hk]. intros d Hd _.
  destruct (GetImmediateDataAs_ok size immediate Hs) as (r & -> & Hr).
  apply yields_Done. by apply some_bytes_u8.
Qed.

(** ** The parts of the state *)

Lemma good_noted errors calls g : state_good g -> state_good (noted errors calls g).
Proof. by intros []. Qed.

Lemma good_with_context c g : state_good g -> context_ok cfg c -> state_good (with_context c g).
Proof. intros [] Hc. by split. Qed.

Lemma good_with_programs s g : state_good g -> programs_good s -> state_good (with_program_state s g).
Proof. intros [] Hs. by split. Qed.

Lemma good_with_vertices calls d g :
  state_good g -> dec_ok d -> max_attribs d = max_attribs (vertices g) -> state_good (with_vertices calls d g).
Proof. intros [] Hd Hm. split; try done. cbn. congruence. Qed.

Lemma good_with_simulation s g : state_good g -> state_good (with_simulation s g).
Proof. by intros []. Qed.

Lemma good_with_program_ids s g : state_good g -> state_good (with_program_ids s g).
Proof. by intros []. Qed.

Lemma good_with_error_bits bits g : state_good g -> state_good (with_error_bits bits g).
Proof. by intros []. Qed.

Lemma good_with_enabled e g :
  state_good g -> vertex_attrib_types e ⊆ vertex_types -> state_good (with_enabled e g).
Proof. intros [] He. by split. Qed.

Lemma fine_in_context {A} rooms (f : Context -> outcome (A * Context)) :
  (forall c, context_ok cfg c -> answers cfg c (f c)) -> fine rooms (in_state (in_context f)).
Proof.
  intros Hf. apply fine_in_state. intros g Hg. unfold in_context.
  destruct (Hf (context g) (good_context _ Hg)) as (x & c & -> & Hc & _). by apply yields_Done, good_with_context.
Qed.

Lemma fine_change_context rooms (f : Context -> outcome Context) :
  (forall c, context_ok cfg c -> good cfg c (f c)) -> fine rooms (in_state (change_context f)).
Proof.
  intros Hf. apply fine_in_state. intros g Hg. unfold change_context.
  destruct (Hf (context g) (good_context _ Hg)) as (c & -> & Hc & _). by apply yields_Done, good_with_context.
Qed.

Lemma in_vertices_good (f : DrawValidation.Decoder -> Result) g :
  state_good g -> kept_with f (vertices g) -> yields (fun r => state_good r.2) (in_vertices f g).
Proof.
  intros Hg (calls & d & E1 & Hd & Hm). unfold in_vertices. rewrite E1. by apply yields_Done, good_with_vertices.
Qed.

Lemma fine_in_vertices rooms (f : DrawValidation.Decoder -> Result) :
  (forall d, dec_ok d -> kept_with f d) -> fine rooms (in_state (in_vertices f)).
Proof. intros Hf. apply fine_in_state. intros g Hg. apply in_vertices_good; [done|]. apply Hf, Hg. Qed.

Lemma fine_failing rooms error : fine rooms (failing error).
Proof. apply fine_done, fine_modify. intros g. apply good_noted. Qed.

Lemma fine_call rooms c : fine rooms (call c).
Proof. apply fine_done, fine_modify. intros g. apply good_noted. Qed.

End logic.

Create HintDb fine.
#[export] Hint Resolve fine_ret fine_failing fine_call fine_done good_noted : fine.

(** The steps of a handler that only tests its arguments. *)
Ltac fine_tests := repeat (case_match; [by auto with fine|]).
