(* ===== verification/BufferDecoder.v ===== *)
(** * The commands on buffers and vertex attributes

    The handlers of [gpu/command_buffer/service/gles2_cmd_decoder.cc] and
    [gles2_cmd_decoder_autogen.h] around the operations of [DrawValidation.v]: they take their
    data from the client's memory and write their answers there. *)

From S2P Require Import Prelude CmdFormat CommandBufferService CommonDecoder.
From Stdlib Require Import ZArith Lia ZifyBool Bool String.
From stdpp Require Import base numbers option gmap list.
From S2P Require Import Floats GLConstants Validators GLES2Util FeatureInfo IdAllocator BufferManager VertexAttribManager.
From S2P Require Import DrawValidation VertexSafety ShaderManager ProgramManager ProgramInvariant ProgramDecoder ContextState.
From S2P Require Import ContextInvariant TextureDecoder ObjectNames UniformDecoder ProgramQueries ProgramSafety ProgramCommands.
From S2P Require Import DecoderState HandlerSafety.
Local Open Scope Z_scope.

Section handlers.
Context `{Platform} {E : Type} `{CommandBufferEngine E}.
Variables (cfg : Config) (lim : GroupLimits) (env : DecoderAnswers).
Implicit Types (d : DrawValidation.Decoder).
Notation Handler := (Handler E).
Notation valid := (ContextState.valid cfg).

(** The answers, as the operations on buffers take them. *)
Definition vertex_answers : DrawValidation.Answers :=
  DrawValidation.mkAnswers (bind_generates_resource cfg) (bufferdata_faster_than_buffersubdata_ lim) (egl_gles2 cfg)
    (default 0 (head (generated_ids env))) (peek_gl_error env).

(** ** Names *)

Definition GenBuffersHelper (client_ids : list Z) d : outcome (option (list DrawValidation.GLCall) * DrawValidation.Decoder) :=
  if existsb (fun id => bool_decide (is_Some (GetBufferInfo id (buffer_manager d)))) client_ids then Done (None, d)
  else
    let create m '(id, service_id) := CreateBufferInfo id service_id m in
    Done (Some (glGenBuffersARB <$> generated_ids env),
          with_buffers (fold_left create (zip client_ids (generated_ids env)) (buffer_manager d)) d).

(** The helper's calls of the driver, when it succeeds. *)
Definition gen_buffers (client_ids : list Z) (g : GLES2State) : outcome (bool * GLES2State) :=
  (do (calls, d) <- GenBuffersHelper client_ids (vertices g) ;;
   Done (match calls with Some _ => true | None => false end, with_vertices (default [] calls) d g))%gpu.

Definition HandleGenBuffers_ids (ids : CommonDecoder.Decoder E -> outcome (option (list Z))) : Handler Error :=
  ids ← ask_memory ids;
  match ids with
  | None => mret kOutOfBounds
  | Some ids => ok ← in_state (gen_buffers ids); mret (if ok : bool then kNoError else kInvalidArguments)
  end.

Definition HandleGenBuffers (n shm_id shm_offset : Z) : Handler Error :=
  HandleGenBuffers_ids (ids_in_memory n shm_id shm_offset).
Definition HandleGenBuffersImmediate (n : Z) (immediate : list Z) : Handler Error :=
  HandleGenBuffers_ids (fun _ => ids_in_command n immediate).

Definition HandleDeleteBuffers_ids (ids : CommonDecoder.Decoder E -> outcome (option (list Z))) : Handler Error :=
  ids ← ask_memory ids;
  match ids with
  | None => mret kOutOfBounds
  | Some ids => done (in_state (in_vertices (DeleteBuffersHelper ids)))
  end.

Definition HandleDeleteBuffers (n shm_id shm_offset : Z) : Handler Error :=
  HandleDeleteBuffers_ids (ids_in_memory n shm_id shm_offset).
Definition HandleDeleteBuffersImmediate (n : Z) (immediate : list Z) : Handler Error :=
  HandleDeleteBuffers_ids (fun _ => ids_in_command n immediate).

Definition HandleBindBuffer (target buffer : Z) : Handler Error :=
  if negb (valid Validator.buffer_target target) then failing GL_INVALID_ENUM
  else done (in_state (in_vertices (DoBindBuffer vertex_answers target buffer))).

(** ** Data *)

(** The pointer is null when both its parts are zero; the size is 32 bits of a signed
    number. *)
Definition HandleBufferData (target size data_shm_id data_shm_offset usage : Z) : Handler Error :=
  let upload data := done (in_state (in_vertices (DoBufferData vertex_answers target size data usage))) in
  if negb (data_shm_id =? 0) || negb (data_shm_offset =? 0) then
    data ← shared_bytes data_shm_id data_shm_offset (u32 size);
    match data with
    | None => mret kOutOfBounds
    | Some data => upload (Some data)
    end
  else upload None.

Definition HandleBufferDataImmediate (target size usage : Z) (immediate : list Z) : Handler Error :=
  data ← immediate_bytes (u32 size) immediate;
  match data with
  | None => mret kOutOfBounds
  | Some data => done (in_state (in_vertices (DoBufferData vertex_answers target size (Some data) usage)))
  end.

(** The rest of both handlers, once the data is looked up. *)
Definition sub_data (target offset size : Z) (data : option (list Z)) : Handler Error :=
  if negb (valid Validator.buffer_target target) then failing GL_INVALID_ENUM
  else if size <? 0 then failing GL_INVALID_VALUE
  else match data with
       | None => mret kOutOfBounds
       | Some data => done (in_state (in_vertices (DoBufferSubData vertex_answers target offset size data)))
       end.

Definition HandleBufferSubData (target offset size data_shm_id data_shm_offset : Z) : Handler Error :=
  data ← shared_bytes data_shm_id data_shm_offset (u32 size); sub_data target offset size data.

Definition HandleBufferSubDataImmediate (target offset size : Z) (immediate : list Z) : Handler Error :=
  data ← immediate_bytes (u32 size) immediate; sub_data target offset size data.

(** ** Questions *)

(** The answer is a word in the client's memory. *)
Definition ask_word (shm_id shm_offset : Z) (question : Handler (option Z)) : Handler Error :=
  result_dst ← address shm_id shm_offset 4;
  match result_dst with
  | None => mret kOutOfBounds
  | Some a =>
      answer ← question;
      match answer with
      | None => mret kNoError
      | Some x => done (store a [x])
      end
  end.

(** The decoder's [GetBufferInfo]. *)
Definition live_buffer (client_id : Z) d : outcome (option (Z * BufferInfo)) :=
  match GetBufferInfo client_id (buffer_manager d) with
  | None => Done None
  | Some a => (do b <- object a d ;; Done (if IsDeleted b then None else Some (a, b)))%gpu
  end.

Definition DoIsBuffer (client_id : Z) (g : GLES2State) : outcome (option Z * GLES2State) :=
  (do info <- live_buffer client_id (vertices g) ;;
   Done (Some (match info with Some (_, b) => Z.b2z (BufferManager.IsValid b) | None => 0 end), g))%gpu.

Definition HandleIsBuffer (buffer shm_id shm_offset : Z) : Handler Error :=
  ask_word shm_id shm_offset (in_state (DoIsBuffer buffer)).

Definition DoGetMaxValueInBufferCHROMIUM (buffer_id count type offset : Z) d : outcome (Z * DrawValidation.Decoder) :=
  (do info <- live_buffer buffer_id d ;;
   match info with
   | None => Done (0, DrawValidation.SetGLError GL_INVALID_VALUE d)
   | Some (a, b) =>
       do (r, b) <- GetMaxValueForRange offset count type b ;;
       let d := with_buffers (with_object (buffer_manager d) a b) d in
       Done (match r with
             | Some max => (max, d)
             | None => (0, DrawValidation.SetGLError GL_INVALID_OPERATION d)
             end)
   end)%gpu.

Definition HandleGetMaxValueInBufferCHROMIUM (buffer_id count type offset shm_id shm_offset : Z) : Handler Error :=
  result_dst ← address shm_id shm_offset 4;
  match result_dst with
  | None => mret kOutOfBounds
  | Some a =>
      if count <? 0 then failing GL_INVALID_VALUE
      else if negb (valid Validator.get_max_index_type type) then failing GL_INVALID_ENUM
      else
        answer ← in_state (check_vertices (DoGetMaxValueInBufferCHROMIUM buffer_id count type offset));
        done (store a [answer])
  end.

(** ** Vertex attributes *)

Definition HandleEnableVertexAttribArray (index : Z) : Handler Error :=
  done (in_state (in_vertices (DoEnableVertexAttribArray index))).

Definition HandleDisableVertexAttribArray (index : Z) : Handler Error :=
  done (in_state (in_vertices (DoDisableVertexAttribArray vertex_answers index))).

Definition HandleVertexAttribPointer (indx size type normalized stride offset : Z) : Handler Error :=
  types ← gets (fun g => vertex_attrib_types (enabled g));
  done (in_state (in_vertices (DrawValidation.HandleVertexAttribPointer types (max_vertex_attribs lim)
          indx size type normalized stride offset))).

Definition HandleVertexAttrib1f (indx x : Z) : Handler Error := done (in_state (in_vertices (DoVertexAttrib1f indx x))).
Definition HandleVertexAttrib2f (indx x y : Z) : Handler Error :=
  done (in_state (in_vertices (DoVertexAttrib2f indx x y))).
Definition HandleVertexAttrib3f (indx x y z : Z) : Handler Error :=
  done (in_state (in_vertices (DoVertexAttrib3f indx x y z))).
Definition HandleVertexAttrib4f (indx x y z w : Z) : Handler Error :=
  done (in_state (in_vertices (DoVertexAttrib4f indx x y z w))).

(** [values] reads as many numbers as the command has. *)
Definition vertex_attribs (indx : Z) (values : CommonDecoder.Decoder E -> outcome (option (list Z))) : Handler Error :=
  values ← ask_memory values;
  match values with
  | None => mret kOutOfBounds
  | Some v => done (in_state (in_vertices (DoVertexAttribfv indx v)))
  end.

Definition HandleVertexAttrib1fv (indx shm_id shm_offset : Z) := vertex_attribs indx (values_in_memory 1 1 shm_id shm_offset).
Definition HandleVertexAttrib2fv (indx shm_id shm_offset : Z) := vertex_attribs indx (values_in_memory 2 1 shm_id shm_offset).
Definition HandleVertexAttrib3fv (indx shm_id shm_offset : Z) := vertex_attribs indx (values_in_memory 3 1 shm_id shm_offset).
Definition HandleVertexAttrib4fv (indx shm_id shm_offset : Z) := vertex_attribs indx (values_in_memory 4 1 shm_id shm_offset).

Definition HandleVertexAttrib1fvImmediate (indx : Z) (immediate : list Z) :=
  vertex_attribs indx (fun _ => values_in_command 1 1 immediate).
Definition HandleVertexAttrib2fvImmediate (indx : Z) (immediate : list Z) :=
  vertex_attribs indx (fun _ => values_in_command 2 1 immediate).
Definition HandleVertexAttrib3fvImmediate (indx : Z) (immediate : list Z) :=
  vertex_attribs indx (fun _ => values_in_command 3 1 immediate).
Definition HandleVertexAttrib4fvImmediate (indx : Z) (immediate : list Z) :=
  vertex_attribs indx (fun _ => values_in_command 4 1 immediate).

(** The result is one number after its size. *)
Definition HandleGetVertexAttribPointerv (index pname shm_id shm_offset : Z) : Handler Error :=
  result ← address shm_id shm_offset (ComputeSize 1);
  match result with
  | None => mret kOutOfBounds
  | Some a =>
      size ← load a;
      if negb (size =? 0) then mret kInvalidArguments
      else if negb (valid Validator.vertex_pointer pname) then failing GL_INVALID_ENUM
      else if index >=? max_vertex_attribs lim then failing GL_INVALID_VALUE
      else
        store a [4] ;;
        g ← gets id;
        info ← the (GetVertexAttribInfo index (vertex_attrib_manager_ (vertices g)));
        done (store (address_at a 4) [offset_ info])
  end.

End handlers.

(** ** Every handler keeps the state good *)

Section safety.
Context `{Platform} {E : Type} `{CommandBufferEngine E} (engine_ok : E -> Prop) (engine_entries : E -> Z).
Variables (cfg : Config) (lim : GroupLimits) (env : DecoderAnswers).
Notation fine := (fine engine_ok engine_entries cfg lim).
Notation state_good := (state_good cfg lim).
Notation decoder_ok := (decoder_ok engine_ok engine_entries).

Lemma word_u32 : is_u32 4.
Proof. unfold is_u32. lia. Qed.

(** *** Names *)

Lemma with_ids_fold_ok ids d :
  dec_ok d -> dec_ok (with_buffers (fold_left (fun m '(id, service_id) => CreateBufferInfo id service_id m) ids
    (buffer_manager d)) d).
Proof.
  revert d. induction ids as [|[id service_id] ids IH]; intros d Hd; cbn [fold_left]; [by destruct d|].
  exact (IH _ (proj1 (CreateBufferInfo_ok id service_id d Hd))).
Qed.

Lemma gen_buffers_good ids g : state_good g -> yields (fun r => state_good r.2) (gen_buffers env ids g).
Proof.
  intros Hg. unfold gen_buffers, GenBuffersHelper. destruct (existsb _ _); cbn [obind]; apply yields_Done;
    apply good_with_vertices; try done; try apply Hg. by apply with_ids_fold_ok, Hg.
Qed.

Lemma HandleGenBuffers_ids_fine rooms ids :
  (forall d, decoder_ok d -> exists r, ids d = Done r) -> fine rooms (HandleGenBuffers_ids env ids).
Proof.
  intros Hids. apply fine_bind.
  { apply fine_ask. intros d Hd _. destruct (Hids d Hd) as [r ->]. by apply yields_Done. }
  intros [r|]; [|apply fine_ret]. apply fine_bind; [|intros b; apply fine_ret].
  apply fine_in_state. intros g Hg. by apply gen_buffers_good.
Qed.

Lemma HandleDeleteBuffers_ids_fine rooms ids :
  (forall d, decoder_ok d -> exists r, ids d = Done r) -> fine rooms (HandleDeleteBuffers_ids ids).
Proof.
  intros Hids. apply fine_bind.
  { apply fine_ask. intros d Hd _. destruct (Hids d Hd) as [r ->]. by apply yields_Done. }
  intros [r|]; [|apply fine_ret]. apply fine_done, fine_in_vertices. intros d Hd. by apply DeleteBuffersHelper_kept.
Qed.

Lemma HandleGenBuffers_fine rooms n shm_id shm_offset :
  is_u32 shm_offset -> fine rooms (HandleGenBuffers env n shm_id shm_offset).
Proof. intros Ho. apply HandleGenBuffers_ids_fine. intros d Hd. by eapply ids_in_memory_ok. Qed.

Lemma HandleGenBuffersImmediate_fine rooms n immediate : fine rooms (HandleGenBuffersImmediate env n immediate).
Proof. apply HandleGenBuffers_ids_fine. intros d _. apply ids_in_command_ok. Qed.

Lemma HandleDeleteBuffers_fine rooms n shm_id shm_offset :
  is_u32 shm_offset -> fine rooms (HandleDeleteBuffers n shm_id shm_offset).
Proof. intros Ho. apply HandleDeleteBuffers_ids_fine. intros d Hd. by eapply ids_in_memory_ok. Qed.

Lemma HandleDeleteBuffersImmediate_fine rooms n immediate : fine rooms (HandleDeleteBuffersImmediate n immediate).
Proof. apply HandleDeleteBuffers_ids_fine. intros d _. apply ids_in_command_ok. Qed.

Lemma HandleBindBuffer_fine rooms target buffer : fine rooms (HandleBindBuffer cfg lim env target buffer).
Proof.
  unfold HandleBindBuffer. case_match; [apply fine_failing|]. apply fine_done, fine_in_vertices.
  intros d Hd. by apply DoBindBuffer_kept.
Qed.

(** *** Data *)

Lemma i32_small n : is_i32 n -> n < 2 ^ (size_bits - 1).
Proof. unfold is_i32. destruct size_bits_ok as [-> | ->]; lia. Qed.

(** A negative size is found before the data is looked at. *)
Lemma upload_kept target size data usage d :
  dec_ok d -> is_i32 size -> (forall bytes, data = Some bytes -> zlen bytes = u32 size /\ Forall is_byte bytes) ->
  kept_with (DoBufferData (vertex_answers cfg lim env) target size data usage) d.
Proof.
  intros Hd Hs Hb. destruct (Z.lt_ge_cases size 0) as [Hn|Hp].
  - destruct (DoBufferData_kept (vertex_answers cfg lim env) target size None usage d Hd (i32_small _ Hs))
      as (calls & d' & E1 & Hk); [done|]. exists calls, d'. split; [|done].
    unfold DoBufferData in *. replace (size <? 0) with true in * by lia. exact E1.
  - apply DoBufferData_kept; [done|by apply i32_small|]. intros bytes ->. destruct (Hb bytes eq_refl) as [Hl Hf].
    split; [|done]. rewrite Hl. apply u32_id. unfold is_u32, is_i32 in *. lia.
Qed.

Lemma HandleBufferData_fine rooms target size shm_id shm_offset usage :
  is_i32 size -> is_u32 shm_offset -> fine rooms (HandleBufferData cfg lim env target size shm_id shm_offset usage).
Proof.
  intros Hs Ho. unfold HandleBufferData. case_match.
  - apply fine_shared; [done|apply u32_range|]. intros [bytes|] Hb; [|apply fine_ret].
    apply fine_done, fine_in_vertices. intros d Hd. apply upload_kept; [done..|]. by intros ? [= <-]; apply Hb.
  - apply fine_done, fine_in_vertices. intros d Hd. by apply upload_kept.
Qed.

Lemma HandleBufferDataImmediate_fine rooms target size usage immediate :
  is_i32 size -> fine rooms (HandleBufferDataImmediate cfg lim env target size usage immediate).
Proof.
  intros Hs. apply fine_immediate; [apply u32_range|]. intros [bytes|] Hb; [|apply fine_ret].
  apply fine_done, fine_in_vertices. intros d Hd. apply upload_kept; [done..|]. by intros ? [= <-]; apply Hb.
Qed.

Lemma sub_data_fine rooms target offset size data :
  is_i32 size -> is_i32 offset -> some_bytes (u32 size) data -> fine rooms (sub_data cfg lim env target offset size data).
Proof.
  intros Hs Ho Hb. unfold sub_data. case_match; [apply fine_failing|]. case_match; [apply fine_failing|].
  destruct data as [bytes|]; [|apply fine_ret]. destruct (Hb bytes eq_refl) as [Hl Hf]. zbool.
  rewrite u32_id in Hl by (unfold is_u32, is_i32 in *; lia).
  apply fine_done, fine_in_vertices. intros d Hd. apply DoBufferSubData_kept; try done; by apply i32_small.
Qed.

Lemma HandleBufferSubData_fine rooms target offset size shm_id shm_offset :
  is_i32 size -> is_i32 offset -> is_u32 shm_offset ->
  fine rooms (HandleBufferSubData cfg lim env target offset size shm_id shm_offset).
Proof.
  intros Hs Ho Hso. apply fine_shared; [done|apply u32_range|]. intros r Hr. by apply sub_data_fine.
Qed.

Lemma HandleBufferSubDataImmediate_fine rooms target offset size immediate :
  is_i32 size -> is_i32 offset -> fine rooms (HandleBufferSubDataImmediate cfg lim env target offset size immediate).
Proof. intros Hs Ho. apply fine_immediate; [apply u32_range|]. intros r Hr. by apply sub_data_fine. Qed.

(** *** Questions *)

Lemma ask_word_fine rooms shm_id shm_offset question :
  is_u32 shm_offset -> (forall rooms, fine rooms question) -> fine rooms (ask_word shm_id shm_offset question).
Proof.
  intros Ho Hq. apply fine_address; [done|apply word_u32| |apply fine_ret]. intros a.
  apply fine_bind; [apply Hq|]. intros [x|]; [|apply fine_ret].
  apply fine_done. eapply fine_store; [by left|]. unfold zlen. simpl. lia.
Qed.

Lemma live_buffer_ok client_id d :
  dec_ok d -> exists r, live_buffer client_id d = Done r /\
    forall a b, r = Some (a, b) -> objects (buffer_manager d) !! a = Some b /\ IsDeleted b = false.
Proof.
  intros Hd. unfold live_buffer. destruct (GetBufferInfo _ _) as [a|] eqn:Ea; [|by exists None].
  destruct (object_Some d a) as (b & -> & Hb); [by eapply dec_infos|]. cbn [obind].
  destruct (IsDeleted b) eqn:Ed; eexists; (split; [done|]); [done|]. by intros ? ? [= <- <-].
Qed.

Lemma HandleIsBuffer_fine rooms buffer shm_id shm_offset :
  is_u32 shm_offset -> fine rooms (HandleIsBuffer buffer shm_id shm_offset).
Proof.
  intros Ho. apply ask_word_fine; [done|]. intros rooms'. apply fine_in_state. intros g Hg. unfold DoIsBuffer.
  destruct (live_buffer_ok buffer _ (good_vertices _ _ _ Hg)) as (r & -> & _). by apply yields_Done.
Qed.

(** The highest index is always found, or is out of range. *)
Lemma GetMaxValueForRange_done d a b count type offset :
  dec_ok d -> objects (buffer_manager d) !! a = Some b -> IsDeleted b = false ->
  is_u32 offset -> is_i32 count -> type ∈ index_types ->
  exists r b', GetMaxValueForRange offset count type b = Done (r, b') /\ info_reach b'.
Proof.
  intros Hd Hb Hn Ho Hc Ht. destruct (dec_objects _ Hd _ _ Hb) as [Hr _].
  destruct (scan_range_ok b offset count type (info_reach_ok b Hr) Hn) as (r & Er & _); [done..|].
  assert (exists r b', GetMaxValueForRange offset count type b = Done (r, b')) as (r' & b' & E1).
  { unfold GetMaxValueForRange. destruct (range_set_ b !! _) as [m|]; [by eexists _, _|].
    rewrite Er. cbn [obind]. destruct r; by eexists _, _. }
  exists r', b'. split; [done|]. by eapply reach_GetMaxValueForRange.
Qed.

Lemma DoGetMaxValueInBuffer_checked buffer_id count type offset d :
  dec_ok d -> is_u32 offset -> is_i32 count -> type ∈ index_types ->
  checked_with (DoGetMaxValueInBufferCHROMIUM buffer_id count type offset) d.
Proof.
  intros Hd Ho Hc Ht. unfold checked_with, DoGetMaxValueInBufferCHROMIUM.
  destruct (live_buffer_ok buffer_id d Hd) as (r & -> & Hr). cbn [obind].
  destruct r as [[a b]|]; [|eexists _, _; split; [done|]; split; [by apply SetGLError_ok|done]].
  destruct (Hr a b eq_refl) as [Hb Hn].
  destruct (GetMaxValueForRange_done d a b count type offset) as (m & b' & -> & Hb'); [done..|]. cbn [obind].
  pose proof (with_object_ok d a b' Hd ltac:(by rewrite Hb) Hb') as Hd'.
  destruct m; eexists _, _; (split; [done|]); split; try done. by apply SetGLError_ok.
Qed.

Lemma fine_check_vertices {A} rooms (f : DrawValidation.Decoder -> outcome (A * DrawValidation.Decoder)) :
  (forall d, dec_ok d -> checked_with f d) -> fine rooms (in_state (check_vertices f)).
Proof.
  intros Hf. apply fine_in_state. intros g Hg. unfold check_vertices.
  destruct (Hf _ (good_vertices _ _ _ Hg)) as (x & d & -> & Hd & Hm). by apply yields_Done, good_with_vertices.
Qed.

(** The features of a driver add no type of indices. *)
Hypothesis index_types_valid : forall type, ContextState.valid cfg Validator.get_max_index_type type = true -> type ∈ index_types.

Lemma HandleGetMaxValueInBuffer_fine rooms buffer_id count type offset shm_id shm_offset :
  is_u32 offset -> is_i32 count -> is_u32 shm_offset ->
  fine rooms (HandleGetMaxValueInBufferCHROMIUM cfg buffer_id count type offset shm_id shm_offset).
Proof.
  intros Ho Hc Hso. apply fine_address; [done|apply word_u32| |apply fine_ret]. intros a.
  case_match; [apply fine_failing|]. destruct (ContextState.valid cfg _ type) eqn:Et; cbn [negb]; [|apply fine_failing].
  apply fine_bind.
  - apply fine_check_vertices. intros d Hd. apply DoGetMaxValueInBuffer_checked; auto.
  - intros x. apply fine_done. eapply fine_store; [by left|]. unfold zlen. simpl. lia.
Qed.

(** *** Vertex attributes *)

Lemma HandleEnableVertexAttribArray_fine rooms index : 0 <= index -> fine rooms (HandleEnableVertexAttribArray index).
Proof. intros Hi. apply fine_done, fine_in_vertices. intros d Hd. by apply DoEnableVertexAttribArray_kept. Qed.

Lemma HandleDisableVertexAttribArray_fine rooms index :
  0 <= index -> fine rooms (HandleDisableVertexAttribArray cfg lim env index).
Proof. intros Hi. apply fine_done, fine_in_vertices. intros d Hd. by apply DoDisableVertexAttribArray_kept. Qed.

Lemma HandleVertexAttribPointer_fine rooms indx size type normalized stride offset :
  0 <= indx -> is_i32 offset -> fine rooms (HandleVertexAttribPointer lim indx size type normalized stride offset).
Proof.
  intros Hi Ho. apply fine_gets. intros g Hg. apply fine_done, fine_in_vertices. intros d Hd.
  apply HandleVertexAttribPointer_kept; try done. apply Hg.
Qed.

Lemma vertex_attrib_fine rooms call index v :
  0 <= index -> fine rooms (done (in_state (in_vertices (DoVertexAttrib call index v)))).
Proof. intros Hi. apply fine_done, fine_in_vertices. intros d Hd. by apply DoVertexAttrib_kept. Qed.

Lemma vertex_attribs_fine rooms indx values :
  0 <= indx -> (forall d, decoder_ok d -> yields (fun _ => True) (values d)) -> fine rooms (vertex_attribs indx values).
Proof.
  intros Hi Hv. apply fine_bind; [by apply fine_ask; intros; apply Hv|].
  intros [v|]; [by apply vertex_attrib_fine|apply fine_ret].
Qed.

Lemma values_shared elements shm_id shm_offset d :
  0 <= elements <= 16 -> is_u32 shm_offset -> decoder_ok d ->
  yields (fun _ => True) (values_in_memory elements 1 shm_id shm_offset d).
Proof.
  intros He Ho Hd. eapply yields_weaken; [|done].
  eapply (values_in_memory_ok engine_ok engine_entries); [unfold is_i32; lia|done..].
Qed.

Lemma values_immediate elements immediate :
  0 <= elements <= 16 -> yields (fun _ => True) (values_in_command elements 1 immediate).
Proof. intros He. eapply yields_weaken; [apply values_in_command_ok; [unfold is_i32; lia|done]|done]. Qed.

Lemma HandleGetVertexAttribPointerv_fine rooms index pname shm_id shm_offset :
  0 <= index -> is_u32 shm_offset -> fine rooms (HandleGetVertexAttribPointerv cfg lim index pname shm_id shm_offset).
Proof.
  intros Hi Ho. unfold HandleGetVertexAttribPointerv. rewrite ComputeSize_small by lia.
  apply fine_address; [done|unfold is_u32; lia| |apply fine_ret]. intros a.
  apply fine_bind; [eapply fine_load; [by left|lia]|]. intros size.
  do 3 (case_match; [by auto with fine|]). zbool.
  apply fine_bind; [eapply fine_store; [by left|unfold zlen; simpl; lia]|]. intros [].
  apply fine_gets. intros g Hg. apply fine_the. cbn [id].
  pose proof (dec_attribs _ (good_vertices _ _ _ Hg)) as Hat. pose proof (good_attribs _ _ _ Hg) as Hm.
  unfold max_attribs in Hm. unfold GetVertexAttribInfo. rewrite Hm. btrue (index <? max_vertex_attribs lim).
  destruct (zget_in (vertex_attrib_infos_ (vertex_attrib_manager_ (vertices g))) index) as [v Hv].
  { rewrite (attribs_length _ _ Hat). lia. }
  exists v. split; [done|]. apply fine_done. eapply fine_store_at; [by left|lia|unfold zlen; simpl; lia].
Qed.

End safety.
