(* ===== verification/QueryDecoder.v ===== *)
(** * The questions about the state

    The [glGet] commands of [gpu/command_buffer/service/gles2_cmd_decoder.cc] and
    [gles2_cmd_decoder_autogen.h]: what the decoder answers itself, what it asks the driver,
    and how the answer gets into the client's memory. *)

From S2P Require Import Prelude CmdFormat CommandBufferService CommonDecoder.
From Stdlib Require Import ZArith Lia ZifyBool Bool String Ascii.
From stdpp Require Import base numbers option gmap list.
From S2P Require Import Floats GLConstants Validators GLES2Util FeatureInfo IdAllocator BufferManager VertexAttribManager.
From S2P Require Import TextureInfo TextureManager RenderbufferManager FramebufferManager.
From S2P Require Import DrawValidation VertexSafety ShaderManager ProgramManager ProgramInvariant ProgramDecoder ContextState.
From S2P Require Import ContextInvariant TextureDecoder ObjectNames ProgramQueries ProgramSafety ProgramCommands.
From S2P Require Import DecoderState HandlerSafety BufferDecoder.
Local Open Scope Z_scope.

Section handlers.
Context `{Platform} {E : Type} `{CommandBufferEngine E}.
Variables (cfg : Config) (lim : GroupLimits) (env : DecoderAnswers).
Implicit Types (g : GLES2State).
Notation Handler := (Handler E).
Notation valid := (ContextState.valid cfg).

(** ** What the decoder answers itself *)

(** Whether it answers, how many values there are (when the answer says so), and the values,
    each a [GLint]. *)
Definition Helped : Type := bool * option Z * list Z.

Definition helped (values : list Z) : outcome Helped := Done (true, Some (zlen values), i32 <$> values).

Definition values_returned (pname : Z) : Z :=
  GLGetNumValuesReturned (num_compressed_texture_formats lim) (num_shader_binary_formats lim) pname.

(** What [glGetIntegerv] writes for one number. *)
Definition driver_integer (pname : Z) : Z := default 0 (head (gl_integers env pname)).

(** The client's name for what is bound; zero when there is none. *)
Definition name_of (client_id : option Z) : list Z := [default 0 client_id].

Definition buffer_name (bound : option Z) g : outcome Helped :=
  match bound with
  | None => helped [0]
  | Some a =>
      (do b <- object a (vertices g) ;;
       let m := buffer_manager (vertices g) in
       helped (name_of (BufferManager.GetClientId (hash_order env (buffer_infos_ m)) (BufferManager.service_id_ b) m)))%gpu
  end.

Definition framebuffer_name (bound : option Z) (c : Context) : outcome Helped :=
  match bound with
  | None => helped [0]
  | Some a =>
      (do f <- framebuffer a c ;;
       let m := framebuffer_manager (group c) in
       helped (name_of (FramebufferManager.GetClientId (hash_order env (framebuffer_infos_ m)) (fb_service_id_ f) m)))%gpu
  end.

Definition renderbuffer_name (c : Context) : outcome Helped :=
  match bound_renderbuffer_ (bindings c) with
  | None => helped [0]
  | Some a =>
      (do r <- of_option (rbs c !! a) ;;
       let m := renderbuffer_manager (group c) in
       helped (name_of (RenderbufferManager.GetClientId (hash_order env (renderbuffer_infos_ m)) (rb_service_id_ r) m)))%gpu
  end.

Definition program_name g : outcome Helped :=
  match current_program_ (program_state g) with
  | None => helped [0]
  | Some a =>
      let m := program_manager (program_state g) in
      (do p <- program a m ;; helped (name_of (ProgramManager.GetClientId (p_service_id_ p) m)))%gpu
  end.

Definition texture_name (bound : TextureUnit -> option Z) (c : Context) : outcome Helped :=
  (do unit <- of_option (zget (texture_units_ (bindings c)) (active_texture_unit_ (bindings c))) ;;
   match bound unit with
   | None => helped [0]
   | Some a =>
       do t <- of_option (texs c !! a) ;;
       let m := texture_manager (group c) in
       helped (name_of (TextureManager.GetClientId (hash_order env (texture_infos_ m)) (t_service_id_ t) m))
   end)%gpu.

(** The bits of a part of the framebuffer, if it is attached. *)
Definition attached_bits (pname : Z) (attached : outcome bool) : outcome Helped :=
  (do b <- attached ;; helped [if b : bool then driver_integer pname else 0])%gpu.

(** [GetHelper]; with a null pointer it only answers how many values there are. *)
Definition GetHelper (pname : Z) g : outcome Helped :=
  let c := context g in
  let s := saved c in
  let sizes := limits (texture_manager (group c)) in
  let max_renderbuffer_size := max_renderbuffer_size_ (renderbuffer_manager (group c)) in
  let formats v := validators_ (feature_info_ cfg) v in
  let own := negb (egl_gles2 cfg) in
  if own && (pname =? GL_IMPLEMENTATION_COLOR_READ_FORMAT) then helped [GL_RGBA]
  else if own && (pname =? GL_IMPLEMENTATION_COLOR_READ_TYPE) then helped [GL_UNSIGNED_BYTE]
  else if own && (pname =? GL_MAX_FRAGMENT_UNIFORM_VECTORS) then helped [max_fragment_uniform_vectors lim]
  else if own && (pname =? GL_MAX_VARYING_VECTORS) then helped [max_varying_vectors lim]
  else if own && (pname =? GL_MAX_VERTEX_UNIFORM_VECTORS) then helped [max_vertex_uniform_vectors lim]
  else if pname =? GL_MAX_VIEWPORT_DIMS then
    match offscreen cfg with
    | Some _ => helped [max_renderbuffer_size; max_renderbuffer_size]
    | None => Done (false, None, [])
    end
  else if pname =? GL_MAX_TEXTURE_SIZE then helped [MaxSizeForTarget GL_TEXTURE_2D sizes]
  else if pname =? GL_MAX_CUBE_MAP_TEXTURE_SIZE then helped [MaxSizeForTarget GL_TEXTURE_CUBE_MAP sizes]
  else if pname =? GL_COLOR_WRITEMASK then helped [mask_red_ s; mask_green_ s; mask_blue_ s; mask_alpha_ s]
  else if pname =? GL_DEPTH_WRITEMASK then helped [mask_depth_ s]
  else if pname =? GL_STENCIL_BACK_WRITEMASK then helped [mask_stencil_back_ s]
  else if pname =? GL_STENCIL_WRITEMASK then helped [mask_stencil_front_ s]
  else if pname =? GL_DEPTH_TEST then helped [Z.b2z (enable_depth_test_ s)]
  else if pname =? GL_STENCIL_TEST then helped [Z.b2z (enable_stencil_test_ s)]
  else if pname =? GL_ALPHA_BITS then attached_bits pname (BoundFramebufferHasColorAttachmentWithAlpha cfg c)
  else if pname =? GL_DEPTH_BITS then attached_bits pname (BoundFramebufferHasDepthAttachment cfg c)
  else if pname =? GL_STENCIL_BITS then attached_bits pname (BoundFramebufferHasStencilAttachment cfg c)
  else if pname =? GL_COMPRESSED_TEXTURE_FORMATS then helped (formats Validator.compressed_texture_format)
  else if pname =? GL_NUM_COMPRESSED_TEXTURE_FORMATS then helped [zlen (formats Validator.compressed_texture_format)]
  else if pname =? GL_NUM_SHADER_BINARY_FORMATS then helped [zlen (formats Validator.shader_binary_format)]
  else if pname =? GL_SHADER_BINARY_FORMATS then helped (formats Validator.shader_binary_format)
  else if pname =? GL_SHADER_COMPILER then helped [GL_TRUE]
  else if pname =? GL_ARRAY_BUFFER_BINDING then buffer_name (bound_array_buffer_ (vertices g)) g
  else if pname =? GL_ELEMENT_ARRAY_BUFFER_BINDING then buffer_name (bound_element_array_buffer_ (vertices g)) g
  else if pname =? GL_FRAMEBUFFER_BINDING then framebuffer_name (bound_draw_framebuffer_ (bindings c)) c
  else if pname =? GL_READ_FRAMEBUFFER_BINDING then framebuffer_name (bound_read_framebuffer_ (bindings c)) c
  else if pname =? GL_RENDERBUFFER_BINDING then renderbuffer_name c
  else if pname =? GL_CURRENT_PROGRAM then program_name g
  else if pname =? GL_TEXTURE_BINDING_2D then texture_name bound_texture_2d c
  else if pname =? GL_TEXTURE_BINDING_CUBE_MAP then texture_name bound_texture_cube_map c
  else if pname =? GL_TEXTURE_BINDING_EXTERNAL_OES then texture_name bound_texture_external_oes c
  else Done (false, Some (values_returned pname), []).

(** The helper in a handler: it changes nothing. *)
Definition ask_helper (pname : Z) : Handler Helped := in_state (fun g => do r <- GetHelper pname g ;; Done (r, g))%gpu.

(** The variable is zero before. *)
Definition GetNumValuesReturnedForGLGet (pname : Z) : Handler Z :=
  r ← ask_helper pname; mret (default 0 r.1.2).

(** ** Values *)

Definition DoGetBooleanv (pname : Z) (params : Z * Z) : Handler () :=
  r ← ask_helper pname;
  if r.1.1 : bool then store_bytes params r.2 else store_bytes params (gl_values env).

Definition DoGetFloatv (pname : Z) (params : Z * Z) : Handler () :=
  r ← ask_helper pname;
  if r.1.1 : bool then store params (float_of_int <$> r.2) else store params (gl_values env).

Definition DoGetIntegerv (pname : Z) (params : Z * Z) : Handler () :=
  r ← ask_helper pname;
  if r.1.1 : bool then store params r.2 else store params (gl_integers env pname).

(** The generated code around the questions: [invalid] is the error when a validator
    refuses an argument, [width] the bytes of a value. *)
Definition get_parameter (width pname : Z) (invalid : option Z) (shm_id shm_offset : Z) (DoGet : Z * Z -> Handler ())
    : Handler Error :=
  num_values ← GetNumValuesReturnedForGLGet pname;
  result ← address shm_id shm_offset (u32 (usize (width * num_values + 4)));
  match invalid with
  | Some error => failing error
  | None =>
      match result with
      | None => mret kOutOfBounds
      | Some a =>
          size ← load a;
          if negb (size =? 0) then mret kInvalidArguments
          else
            modify (CopyRealGLErrorsToWrapper env) ;;
            DoGet (address_at a 4) ;;
            if peek_gl_error env =? GL_NO_ERROR then done (store a [width * num_values])
            else failing (peek_gl_error env)
      end
  end.

(** The first validator that refuses its value. *)
Fixpoint refused (tests : list (Validator.t * Z)) : option Z :=
  match tests with
  | [] => None
  | (v, value) :: tests => if valid v value then refused tests else Some GL_INVALID_ENUM
  end.

Definition HandleGetBooleanv (pname shm_id shm_offset : Z) : Handler Error :=
  get_parameter 1 pname (refused [(Validator.g_l_state, pname)]) shm_id shm_offset (DoGetBooleanv pname).
Definition HandleGetFloatv (pname shm_id shm_offset : Z) : Handler Error :=
  get_parameter 4 pname (refused [(Validator.g_l_state, pname)]) shm_id shm_offset (DoGetFloatv pname).
Definition HandleGetIntegerv (pname shm_id shm_offset : Z) : Handler Error :=
  get_parameter 4 pname (refused [(Validator.g_l_state, pname)]) shm_id shm_offset (DoGetIntegerv pname).

(** The driver answers these alone. *)
Definition driver_writes (params : Z * Z) : Handler () := store params (gl_values env).

Definition HandleGetBufferParameteriv (target pname shm_id shm_offset : Z) : Handler Error :=
  get_parameter 4 pname (refused [(Validator.buffer_target, target); (Validator.buffer_parameter, pname)])
    shm_id shm_offset driver_writes.
Definition HandleGetTexParameterfv (target pname shm_id shm_offset : Z) : Handler Error :=
  get_parameter 4 pname (refused [(Validator.get_tex_param_target, target); (Validator.texture_parameter, pname)])
    shm_id shm_offset driver_writes.
Definition HandleGetTexParameteriv (target pname shm_id shm_offset : Z) : Handler Error :=
  get_parameter 4 pname (refused [(Validator.get_tex_param_target, target); (Validator.texture_parameter, pname)])
    shm_id shm_offset driver_writes.

(** *** Attachments *)

Definition attached_name (service_id : Z) (c : Context) : Z :=
  let rm := renderbuffer_manager (group c) in
  let tm := texture_manager (group c) in
  default 0 (if attached_object_type env =? GL_RENDERBUFFER
             then RenderbufferManager.GetClientId (hash_order env (renderbuffer_infos_ rm)) service_id rm
             else if attached_object_type env =? GL_TEXTURE
             then TextureManager.GetClientId (hash_order env (texture_infos_ tm)) service_id tm
             else None).

Definition DoGetFramebufferAttachmentParameteriv (target pname : Z) (params : Z * Z) : Handler () :=
  info ← in_state (fun g => do r <- GetFramebufferInfoForTarget target (context g) ;; Done (r, g))%gpu;
  match info with
  | None => modify (SetGLError GL_INVALID_OPERATION)
  | Some _ =>
      driver_writes params ;;
      if pname =? GL_FRAMEBUFFER_ATTACHMENT_OBJECT_NAME then
        service_id ← load params; g ← gets id; store params [attached_name service_id (context g)]
      else mret ()
  end.

Definition HandleGetFramebufferAttachmentParameteriv (target attachment pname shm_id shm_offset : Z) : Handler Error :=
  get_parameter 4 pname
    (refused [(Validator.frame_buffer_target, target); (Validator.attachment, attachment);
              (Validator.frame_buffer_parameter, pname)])
    shm_id shm_offset (DoGetFramebufferAttachmentParameteriv target pname).

Definition DoGetRenderbufferParameteriv (pname : Z) (params : Z * Z) : Handler () :=
  g ← gets id;
  match bound_renderbuffer_ (bindings (context g)) with
  | None => modify (SetGLError GL_INVALID_OPERATION)
  | Some a =>
      r ← the (rbs (context g) !! a);
      if pname =? GL_RENDERBUFFER_INTERNAL_FORMAT then store params [internal_format_ r]
      else if pname =? GL_RENDERBUFFER_WIDTH then store params [RenderbufferManager.width_ r]
      else if pname =? GL_RENDERBUFFER_HEIGHT then store params [RenderbufferManager.height_ r]
      else driver_writes params
  end.

Definition HandleGetRenderbufferParameteriv (target pname shm_id shm_offset : Z) : Handler Error :=
  get_parameter 4 pname (refused [(Validator.render_buffer_target, target); (Validator.render_buffer_parameter, pname)])
    shm_id shm_offset (DoGetRenderbufferParameteriv pname).

(** *** Vertex attributes *)

(** [static_cast<GLint>] of a floating point number. *)
Definition to_int (x : Z) : Z := default (overflowed_int env x) (int_of_float x).

(** The client's name of the buffer of an attribute, when there is one; the variable it is put
    into is not set before. *)
Definition attrib_buffer (info : VertexAttribInfo) g : outcome (option Z * GLES2State) :=
  match VertexAttribManager.buffer_ info with
  | None => Done (None, g)
  | Some a =>
      (do b <- object a (vertices g) ;;
       let m := buffer_manager (vertices g) in
       Done (if BufferManager.IsDeleted b then None
             else Some (default (uninitialized env)
                          (BufferManager.GetClientId (hash_order env (buffer_infos_ m)) (BufferManager.service_id_ b) m)), g))%gpu
  end.

(** Both functions: [int] and [float] make the answer of the number that is kept. *)
Definition get_vertex_attrib (int float : Z -> Z) (index pname : Z) (params : Z * Z) : Handler () :=
  g ← gets id;
  match GetVertexAttribInfo index (vertex_attrib_manager_ (vertices g)) with
  | None => modify (SetGLError GL_INVALID_VALUE)
  | Some info =>
      if pname =? GL_VERTEX_ATTRIB_ARRAY_BUFFER_BINDING then
        name ← in_state (attrib_buffer info);
        match name with Some client_id => store params [int client_id] | None => mret () end
      else if pname =? GL_VERTEX_ATTRIB_ARRAY_ENABLED then store params [int (Z.b2z (enabled_ info))]
      else if pname =? GL_VERTEX_ATTRIB_ARRAY_SIZE then store params [int (va_size_ info)]
      else if pname =? GL_VERTEX_ATTRIB_ARRAY_STRIDE then store params [int (gl_stride_ info)]
      else if pname =? GL_VERTEX_ATTRIB_ARRAY_TYPE then store params [int (VertexAttribManager.type_ info)]
      else if pname =? GL_VERTEX_ATTRIB_ARRAY_NORMALIZED then store params [int (normalized_ info)]
      else if pname =? GL_CURRENT_VERTEX_ATTRIB then
        let '(x, y, z, w) := value_ info in store params [float x; float y; float z; float w]
      else mret ()
  end.

Definition DoGetVertexAttribfv : Z -> Z -> Z * Z -> Handler () := get_vertex_attrib float_of_int id.
Definition DoGetVertexAttribiv : Z -> Z -> Z * Z -> Handler () := get_vertex_attrib id to_int.

Definition HandleGetVertexAttribfv (index pname shm_id shm_offset : Z) : Handler Error :=
  get_parameter 4 pname (refused [(Validator.vertex_attribute, pname)]) shm_id shm_offset (DoGetVertexAttribfv index pname).
Definition HandleGetVertexAttribiv (index pname shm_id shm_offset : Z) : Handler Error :=
  get_parameter 4 pname (refused [(Validator.vertex_attribute, pname)]) shm_id shm_offset (DoGetVertexAttribiv index pname).

(** ** Many values at once *)

Fixpoint count_results (enums : list Z) (num_results : Z) : option (option Z) :=
  match enums with
  | [] => Some (Some num_results)
  | e :: enums =>
      let num := values_returned e in
      if num =? 0 then None
      else let '(ok, sum) := SafeAddUint32 num_results num in
           if ok then count_results enums sum else Some None
  end.

(** Whether all of [n] words are zero. *)
Fixpoint all_zero (n : nat) (a : Z * Z) : Handler bool :=
  match n with
  | O => mret true
  | S n => x ← load a; if negb (x =? 0) then mret false else all_zero n (address_at a 4)
  end.

(** Each result goes after those that were written; the answer is how many they were. *)
Fixpoint get_each (enums : list Z) (results : Z * Z) (written : Z) : Handler Z :=
  match enums with
  | [] => mret written
  | e :: enums =>
      r ← ask_helper e;
      (if r.1.1 : bool then store results r.2 else store results (gl_integers env e)) ;;
      let num_written := default 0 r.1.2 in
      get_each enums (address_at results (4 * num_written)) (written + num_written)
  end.

Definition HandleGetMultipleIntegervCHROMIUM (pnames_shm_id pnames_shm_offset count results_shm_id results_shm_offset size : Z)
    : Handler Error :=
  let '(ok, pnames_size) := SafeMultiplyUint32 count 4 in
  if negb ok then mret kOutOfBounds
  else
    pnames ← shared_bytes pnames_shm_id pnames_shm_offset pnames_size;
    match pnames with
    | None => mret kOutOfBounds
    | Some pnames =>
        let enums := bytes_to_words pnames in
        match count_results enums 0 with
        | None => failing GL_INVALID_ENUM
        | Some None => mret kOutOfBounds
        | Some (Some num_results) =>
            let '(ok, result_size) := SafeMultiplyUint32 num_results 4 in
            if negb ok then mret kOutOfBounds
            else if negb (result_size =? u32 size) then failing GL_INVALID_VALUE
            else
              results ← address results_shm_id results_shm_offset result_size;
              match results with
              | None => mret kOutOfBounds
              | Some a =>
                  zero ← all_zero (Z.to_nat num_results) a;
                  if negb zero then mret kInvalidArguments
                  else
                    written ← get_each enums a 0;
                    mret (if u32 written =? num_results then kNoError else kOutOfBounds)
              end
        end
    end.

(** ** Errors, capabilities, precisions *)

(** The masks from the lowest bit up. *)
Definition first_bit (bits : Z) : option Z := find (fun mask => negb (Z.land bits mask =? 0)) (Z.shiftl 1 <$> seqZ 0 32).

Definition GetGLError g : outcome (option Z * GLES2State) :=
  let error := peek_gl_error env in
  let error := if error =? GL_NO_ERROR
               then match first_bit (error_bits_ g) with
                    | Some mask => GLErrorBitToGLError mask
                    | None => error
                    end
               else error in
  Done (Some error,
        if negb (error =? GL_NO_ERROR)
        then with_error_bits (Z.ldiff (error_bits_ g) (GLErrorToErrorBit error)) g else g).

Definition HandleGetError (shm_id shm_offset : Z) : Handler Error := ask_word shm_id shm_offset (in_state GetGLError).

Definition HandleIsEnabled (cap shm_id shm_offset : Z) : Handler Error :=
  ask_word shm_id shm_offset
    (if negb (valid Validator.capability cap) then modify (SetGLError GL_INVALID_ENUM) ;; mret None
     else mret (Some (Z.b2z (gl_enabled env)))).

(** The result: whether it succeeded, the two ends of the range, the precision. *)
Definition HandleGetShaderPrecisionFormat (shadertype precisiontype shm_id shm_offset : Z) : Handler Error :=
  result ← address shm_id shm_offset 16;
  match result with
  | None => mret kOutOfBounds
  | Some a =>
      success ← load a;
      if negb (success =? 0) then mret kInvalidArguments
      else if negb (valid Validator.shader_type shadertype) then failing GL_INVALID_ENUM
      else if negb (valid Validator.shader_precision precisiontype) then failing GL_INVALID_ENUM
      else
        store a [1] ;;
        if is_case precisiontype [GL_LOW_INT; GL_MEDIUM_INT; GL_HIGH_INT] then
          done (store (address_at a 4) [-31; 31; 0])
        else if is_case precisiontype [GL_LOW_FLOAT; GL_MEDIUM_FLOAT; GL_HIGH_FLOAT] then
          done (store (address_at a 4) [-62; 62; -16])
        else mret kNoError
  end.

(** ** Strings *)

Fixpoint chars (s : string) : list Z :=
  match s with
  | EmptyString => []
  | String c s => Z.of_nat (nat_of_ascii c) :: chars s
  end.

Definition kOESDerivativeExtension : string := "GL_OES_standard_derivatives".

(** As many characters are erased as the place of the name and its length, with the zero at
    its end, are together. *)
Definition strip_derivatives (extensions : string) : string :=
  match String.index 0 kOESDerivativeExtension extensions with
  | Some offset =>
      let n := (offset + (String.length kOESDerivativeExtension + 1))%nat in
      String.append (String.substring 0 offset extensions)
        (String.substring (offset + n) (String.length extensions) extensions)
  | None => extensions
  end.

Definition get_string (name : Z) g : option (list Z) :=
  if name =? GL_VERSION then Some (chars "OpenGL ES 2.0 Chromium")
  else if name =? GL_SHADING_LANGUAGE_VERSION then Some (chars "OpenGL ES GLSL ES 1.0 Chromium")
  else if name =? GL_EXTENSIONS then
    Some (chars (if force_webgl_glsl_validation_ (enabled g) && negb (derivatives_explicitly_enabled_ (enabled g))
                 then strip_derivatives (extensions_ (feature_info_ cfg)) else extensions_ (feature_info_ cfg)))
  else gl_string env.

(** A string becomes a bucket, which is made if it is not there. *)
Definition put_string (bucket_id : Z) (str : option (list Z)) (d : CommonDecoder.Decoder E)
    : outcome (CommonDecoder.Decoder E) :=
  let '(bucket, d) := CreateBucket bucket_id d in
  (do bucket <- SetFromString str bucket ;; Done (set_bucket bucket_id bucket d))%gpu.

Definition HandleGetString (name bucket_id : Z) : Handler Error :=
  if negb (valid Validator.string_type name) then failing GL_INVALID_ENUM
  else g ← gets id; done (change_memory (put_string bucket_id (get_string name g))).

End handlers.
