(* ===== verification/QuerySafety.v ===== *)
(** * Safety of the questions about the state

    The handlers of [QueryDecoder.v] stop on no good state and keep every invariant, and write
    within what was checked, whatever the driver answers; the driver itself must write no more
    values than the decoder counts. *)

From S2P Require Import Prelude CmdFormat CommandBufferService CommonDecoder.
From Stdlib Require Import ZArith Lia ZifyBool Bool String.
From stdpp Require Import base numbers option gmap list.
From S2P Require Import Floats GLConstants Validators GLES2Util FeatureInfo IdAllocator BufferManager VertexAttribManager.
From S2P Require Import TextureInfo TextureManager RenderbufferManager FramebufferManager.
From S2P Require Import DrawValidation VertexSafety ShaderManager ProgramManager ProgramInvariant ProgramDecoder ContextState.
From S2P Require Import ContextInvariant TextureDecoder FramebufferDecoder ObjectNames ProgramQueries ProgramSafety ProgramCommands.
From S2P Require Import DecoderState HandlerSafety BufferDecoder QueryDecoder.
Local Open Scope Z_scope.

Section safety.
Context `{Platform} {E : Type} `{CommandBufferEngine E} (engine_ok : E -> Prop) (engine_entries : E -> Z).
Variables (cfg : Config) (lim : GroupLimits) (env : DecoderAnswers).
Implicit Types (g : GLES2State).
Notation Handler := (Handler E).
Notation decoder_ok := (decoder_ok engine_ok engine_entries).
Notation state_good := (state_good cfg lim).
Notation fine := (fine engine_ok engine_entries cfg lim).
Notation GetHelper := (GetHelper cfg lim env).
Notation ask_helper := (ask_helper cfg lim env).
Notation get_parameter := (get_parameter cfg lim env).
Notation values_returned := (values_returned lim).
Notation formats v := (validators_ (feature_info_ cfg) v).

(** The lists of formats are short, and [util_] knows their lengths. *)
Hypothesis compressed_formats : num_compressed_texture_formats lim = zlen (formats Validator.compressed_texture_format).
Hypothesis binary_formats : num_shader_binary_formats lim = zlen (formats Validator.shader_binary_format).
Hypothesis compressed_short : zlen (formats Validator.compressed_texture_format) < 2 ^ 28.
Hypothesis binary_short : zlen (formats Validator.shader_binary_format) < 2 ^ 28.

(** ** What the helper answers *)

(** The helper does not count the dimensions of the viewport of a window. *)
Definition uncounted_dims (pname : Z) : bool :=
  match offscreen cfg with Some _ => false | None => pname =? GL_MAX_VIEWPORT_DIMS end.

(** How many values the helper counts; [util_] does not know one of the parameters. *)
Definition counted (pname : Z) : Z :=
  if uncounted_dims pname then 0
  else if pname =? GL_READ_FRAMEBUFFER_BINDING then 1 else values_returned pname.

Definition helped_as (pname : Z) (r : Helped) : Prop :=
  r.1.2 = (if uncounted_dims pname then None else Some (counted pname)) /\
  (r.1.1 = true -> uncounted_dims pname = false /\ zlen r.2 = counted pname).

Lemma values_returned_bounds pname : 0 <= values_returned pname < 2 ^ 28.
Proof.
  unfold QueryDecoder.values_returned. rewrite compressed_formats, binary_formats.
  pose proof (zlen_nonneg (formats Validator.compressed_texture_format)).
  pose proof (zlen_nonneg (formats Validator.shader_binary_format)).
  unfold GLGetNumValuesReturned. repeat case_match; lia.
Qed.

Lemma counted_bounds pname : 0 <= counted pname < 2 ^ 28.
Proof. unfold counted. repeat case_match; [lia|lia|apply values_returned_bounds]. Qed.

Lemma helped_ok pname values :
  uncounted_dims pname = false -> zlen values = counted pname -> yields (helped_as pname) (helped values).
Proof. intros Hu Hv. apply yields_Done. unfold helped_as. cbn [fst snd]. by rewrite Hu, zlen_fmap, Hv. Qed.

(** One value. *)
Definition single (pname : Z) : Prop := uncounted_dims pname = false /\ counted pname = 1.

Lemma single_ok pname x : single pname -> yields (helped_as pname) (helped [x]).
Proof. intros [Hu Hv]. by apply helped_ok. Qed.

Lemma attached_bits_ok pname m :
  single pname -> yields (fun _ => True) m -> yields (helped_as pname) (attached_bits env pname m).
Proof. intros Hs (b & -> & _). by apply single_ok. Qed.

Lemma buffer_name_ok pname bound g :
  single pname -> held (vertices g) bound -> yields (helped_as pname) (buffer_name env bound g).
Proof.
  intros Hs Hb. unfold buffer_name. destruct bound as [a|]; [|by apply single_ok].
  destruct (object_Some _ _ Hb) as (b & -> & _). by apply single_ok.
Qed.

Lemma framebuffer_name_ok pname bound c :
  single pname -> (forall a, bound = Some a -> is_Some (fbs c !! a)) -> yields (helped_as pname) (framebuffer_name env bound c).
Proof.
  intros Hs Hb. unfold framebuffer_name. destruct bound as [a|]; [|by apply single_ok].
  destruct (Hb a eq_refl) as [f Hf]. unfold framebuffer. rewrite Hf. by apply single_ok.
Qed.

Lemma renderbuffer_name_ok pname c :
  single pname -> context_ok cfg c -> yields (helped_as pname) (renderbuffer_name env c).
Proof.
  intros Hs Hc. unfold renderbuffer_name. destruct (bound_renderbuffer_ _) as [a|] eqn:Ea; [|by apply single_ok].
  destruct (ctx_bound_renderbuffer _ _ Hc a Ea) as [r ->]. by apply single_ok.
Qed.

Lemma program_name_ok pname g :
  single pname -> state_good g -> yields (helped_as pname) (program_name g).
Proof.
  intros Hs Hg. unfold program_name. destruct (current_program_ _) as [a|] eqn:Ea; [|by apply single_ok].
  destruct (current_program _ (good_programs _ _ _ Hg) a Ea) as (p & Hp & _).
  unfold program. rewrite Hp. by apply single_ok.
Qed.

Lemma texture_name_ok pname bound target c :
  single pname -> context_ok cfg c ->
  (forall unit a, unit_ok (texs c) unit -> bound unit = Some a -> bound_to (texs c) target a) ->
  yields (helped_as pname) (texture_name env bound c).
Proof.
  intros Hs Hc Hb. unfold texture_name. pose proof (ctx_active _ _ Hc) as Ha.
  destruct (zget_in (texture_units_ (bindings c)) (active_texture_unit_ (bindings c))) as [unit Hu].
  { rewrite (ctx_units _ _ Hc). lia. }
  rewrite Hu. cbn [of_option obind]. destruct (bound unit) as [a|] eqn:Ea; [|by apply single_ok].
  destruct (Hb unit a) as (t & -> & _); [|done|by apply single_ok].
  apply (ctx_unit _ _ Hc). unfold zget in Hu. case_match; [|done]. by eapply list_elem_of_lookup_2.
Qed.

Lemma counted_other pname : pname =? GL_MAX_VIEWPORT_DIMS = false -> uncounted_dims pname = false.
Proof. intros Hn. unfold uncounted_dims. by destruct (offscreen cfg). Qed.

Lemma single_of pname : pname =? GL_MAX_VIEWPORT_DIMS = false ->
  (if pname =? GL_READ_FRAMEBUFFER_BINDING then 1
   else GLGetNumValuesReturned (num_compressed_texture_formats lim) (num_shader_binary_formats lim) pname) = 1 ->
  single pname.
Proof.
  intros Hn Hv. pose proof (counted_other _ Hn) as Hu. split; [done|]. unfold counted. rewrite Hu. exact Hv.
Qed.

Lemma counted_plain pname : pname =? GL_MAX_VIEWPORT_DIMS = false -> pname =? GL_READ_FRAMEBUFFER_BINDING = false ->
  counted pname = values_returned pname.
Proof. intros Hn Hr. unfold counted. by rewrite counted_other, Hr. Qed.

(** One test of the helper: what it answers for a parameter that is no other. *)
Ltac helper_case pname X :=
  let e := fresh in
  destruct (Z.eqb_spec pname X) as [e|]; [subst; try (assert (single X) by (apply single_of; vm_compute; reflexivity))|].

(** The helper stops on no good state, and counts what it answers. *)
Lemma GetHelper_ok pname g : state_good g -> yields (helped_as pname) (GetHelper pname g).
Proof.
  intros Hg. pose proof (good_context _ _ _ Hg) as Hc.
  destruct (drawn_ok cfg (context g) Hc) as (alpha & depth & stencil & Ea & Ed & Es).
  assert (forall b X, b && (pname =? X) = true -> pname = X) as Hown by (intros; zbool; lia).
  unfold QueryDecoder.GetHelper. cbv zeta.
  do 5 (destruct (_ && _) eqn:E1; [apply Hown in E1; subst; apply single_ok, single_of; vm_compute; reflexivity|clear E1]).
  helper_case pname GL_MAX_VIEWPORT_DIMS.
  { destruct (offscreen cfg) as [o|] eqn:Eo.
    - apply helped_ok; [unfold uncounted_dims; by rewrite Eo|unfold counted, uncounted_dims; by rewrite Eo].
    - apply yields_Done. unfold helped_as, uncounted_dims. rewrite Eo. by split. }
  assert (uncounted_dims pname = false) as Hu.
  { unfold uncounted_dims. case_match; [done|]. by apply Z.eqb_neq. }
  helper_case pname GL_MAX_TEXTURE_SIZE; [by apply single_ok|].
  helper_case pname GL_MAX_CUBE_MAP_TEXTURE_SIZE; [by apply single_ok|].
  helper_case pname GL_COLOR_WRITEMASK; [by apply helped_ok; [|rewrite counted_plain]|].
  helper_case pname GL_DEPTH_WRITEMASK; [by apply single_ok|].
  helper_case pname GL_STENCIL_BACK_WRITEMASK; [by apply single_ok|].
  helper_case pname GL_STENCIL_WRITEMASK; [by apply single_ok|].
  helper_case pname GL_DEPTH_TEST; [by apply single_ok|].
  helper_case pname GL_STENCIL_TEST; [by apply single_ok|].
  helper_case pname GL_ALPHA_BITS; [apply attached_bits_ok; [done|rewrite Ea; by apply yields_Done]|].
  helper_case pname GL_DEPTH_BITS; [apply attached_bits_ok; [done|rewrite Ed; by apply yields_Done]|].
  helper_case pname GL_STENCIL_BITS; [apply attached_bits_ok; [done|rewrite Es; by apply yields_Done]|].
  helper_case pname GL_COMPRESSED_TEXTURE_FORMATS; [by apply helped_ok; [|rewrite counted_plain]|].
  helper_case pname GL_NUM_COMPRESSED_TEXTURE_FORMATS; [by apply single_ok|].
  helper_case pname GL_NUM_SHADER_BINARY_FORMATS; [by apply single_ok|].
  helper_case pname GL_SHADER_BINARY_FORMATS; [by apply helped_ok; [|rewrite counted_plain]|].
  helper_case pname GL_SHADER_COMPILER; [by apply single_ok|].
  helper_case pname GL_ARRAY_BUFFER_BINDING; [by apply buffer_name_ok, dec_array, (good_vertices _ _ _ Hg)|].
  helper_case pname GL_ELEMENT_ARRAY_BUFFER_BINDING; [by apply buffer_name_ok, dec_element, (good_vertices _ _ _ Hg)|].
  helper_case pname GL_FRAMEBUFFER_BINDING; [by eapply framebuffer_name_ok, ctx_bound_draw|].
  helper_case pname GL_READ_FRAMEBUFFER_BINDING; [by eapply framebuffer_name_ok, ctx_bound_read|].
  helper_case pname GL_RENDERBUFFER_BINDING; [by apply renderbuffer_name_ok|].
  helper_case pname GL_CURRENT_PROGRAM; [by apply program_name_ok|].
  helper_case pname GL_TEXTURE_BINDING_2D; [eapply texture_name_ok; [done..|]; intros u a (Ht & _); apply Ht|].
  helper_case pname GL_TEXTURE_BINDING_CUBE_MAP; [eapply texture_name_ok; [done..|]; intros u a (_ & Ht & _); apply Ht|].
  helper_case pname GL_TEXTURE_BINDING_EXTERNAL_OES; [eapply texture_name_ok; [done..|]; intros u a (_ & _ & Ht); apply Ht|].
  apply yields_Done. unfold helped_as, counted. cbn [fst snd]. rewrite Hu. split; [|done]. by rewrite (proj2 (Z.eqb_neq _ _)).
Qed.

(** ** Handlers *)

Lemma fine_ask_helper {A} rooms pname (k : Helped -> Handler A) :
  (forall r, helped_as pname r -> fine rooms (k r)) -> fine rooms (ask_helper pname ≫= k).
Proof.
  intros Hk w Hw Hr. unfold QueryDecoder.ask_helper, mbind, handler_bind, in_state.
  destruct (GetHelper_ok pname w.2 (proj2 Hw)) as (r & -> & Hh). cbn [obind].
  destruct w as [d g]. by apply Hk.
Qed.

Lemma fine_num_values {A} rooms pname (k : Z -> Handler A) :
  fine rooms (k (counted pname)) -> fine rooms (GetNumValuesReturnedForGLGet cfg lim env pname ≫= k).
Proof.
  intros Hk w Hw Hr. unfold GetNumValuesReturnedForGLGet, QueryDecoder.ask_helper, mbind, handler_bind, in_state.
  destruct (GetHelper_ok pname w.2 (proj2 Hw)) as (r & -> & Hc & _). cbn [obind mret handler_ret].
  assert (default 0 r.1.2 = counted pname) as ->.
  { rewrite Hc. unfold counted. by destruct (uncounted_dims pname). }
  destruct w as [d g]. by apply Hk.
Qed.

(** The place of the values, after their size. *)
Definition fits (params : Z * Z) (n : Z) (rooms : Rooms) : Prop :=
  exists a, params = address_at a 4 /\ (a, n + 4) ∈ rooms.

Lemma fits_store rooms params n words : fits params n rooms -> 4 * zlen words <= n -> fine rooms (store params words).
Proof. intros (a & -> & Ha) Hn. eapply fine_store_at; [done|lia..]. Qed.

Lemma fits_bytes rooms params n bytes : fits params n rooms -> zlen bytes <= n -> fine rooms (store_bytes params bytes).
Proof. intros (a & -> & Ha) Hn. eapply fine_store_bytes_at; [done|lia..]. Qed.

Lemma fits_load rooms params n : fits params n rooms -> 4 <= n -> fine rooms (load params).
Proof. intros (a & -> & Ha) Hn. eapply fine_load_at; [done|lia..]. Qed.

(** The size that is checked is not wrapped around. *)
Lemma asked_parameter_fine rooms width pname invalid shm_id shm_offset DoGet :
  is_u32 shm_offset -> width ∈ [1; 4] ->
  (forall rooms params, invalid = None -> fits params (width * counted pname) rooms -> fine rooms (DoGet params)) ->
  fine rooms (get_parameter width pname invalid shm_id shm_offset DoGet).
Proof.
  intros Ho Hw Hg. unfold QueryDecoder.get_parameter. apply fine_num_values.
  pose proof (counted_bounds pname) as Hc. set (n := width * counted pname).
  assert (0 <= n < 2 ^ 30) as Hn by (unfold n; set_unfold; lia).
  pose proof (u32_is_usize (n + 4) ltac:(unfold is_u32; lia)). unfold usize. rewrite Z.mod_small, u32_id by (unfold is_u32; lia).
  apply fine_address; [done|unfold is_u32; lia| |case_match; auto with fine]. intros a.
  destruct invalid as [error|]; [apply fine_failing|].
  apply fine_bind; [eapply fine_load; [by left|lia]|]. intros size. case_match; [apply fine_ret|].
  apply fine_bind; [apply fine_modify; intros g; apply good_noted|]. intros [].
  apply fine_bind; [apply Hg; [done|]; exists a; split; [done|by left]|]. intros [].
  case_match; [|apply fine_failing]. apply fine_done. eapply fine_store; [by left|]. unfold zlen. simpl. lia.
Qed.

(** The driver writes no more than is counted. *)
Lemma driver_writes_fine rooms params n :
  fits params n rooms -> 4 * zlen (gl_values env) <= n -> fine rooms (driver_writes env params).
Proof. intros Hp Hv. by eapply fits_store. Qed.

Lemma DoGetBooleanv_fine rooms params pname :
  fits params (counted pname) rooms -> zlen (gl_values env) <= counted pname ->
  fine rooms (DoGetBooleanv cfg lim env pname params).
Proof.
  intros Hp Hv. apply fine_ask_helper. intros r [_ Hr]. case_match; eapply fits_bytes; try done.
  destruct Hr as [_ ->]; [done|lia].
Qed.

Lemma DoGetFloatv_fine rooms params pname :
  fits params (4 * counted pname) rooms -> zlen (gl_values env) <= counted pname ->
  fine rooms (DoGetFloatv cfg lim env pname params).
Proof.
  intros Hp Hv. apply fine_ask_helper. intros r [_ Hr]. case_match; eapply fits_store; try done; [|lia].
  rewrite zlen_fmap. destruct Hr as [_ ->]; [done|lia].
Qed.

Lemma DoGetIntegerv_fine rooms params pname :
  fits params (4 * counted pname) rooms -> zlen (gl_integers env pname) <= counted pname ->
  fine rooms (DoGetIntegerv cfg lim env pname params).
Proof.
  intros Hp Hv. apply fine_ask_helper. intros r [_ Hr]. case_match; eapply fits_store; try done; [|lia].
  destruct Hr as [_ ->]; [done|lia].
Qed.

Lemma HandleGetBooleanv_fine rooms pname shm_id shm_offset :
  is_u32 shm_offset -> zlen (gl_values env) <= counted pname ->
  fine rooms (HandleGetBooleanv cfg lim env pname shm_id shm_offset).
Proof.
  intros Ho Hv. apply asked_parameter_fine; [done|set_solver|]. intros rooms' params _ Hp.
  rewrite Z.mul_1_l in Hp. by apply DoGetBooleanv_fine.
Qed.

Lemma HandleGetFloatv_fine rooms pname shm_id shm_offset :
  is_u32 shm_offset -> zlen (gl_values env) <= counted pname ->
  fine rooms (HandleGetFloatv cfg lim env pname shm_id shm_offset).
Proof.
  intros Ho Hv. apply asked_parameter_fine; [done|set_solver|]. intros rooms' params _ Hp. by apply DoGetFloatv_fine.
Qed.

Lemma HandleGetIntegerv_fine rooms pname shm_id shm_offset :
  is_u32 shm_offset -> zlen (gl_integers env pname) <= counted pname ->
  fine rooms (HandleGetIntegerv cfg lim env pname shm_id shm_offset).
Proof.
  intros Ho Hv. apply asked_parameter_fine; [done|set_solver|]. intros rooms' params _ Hp. by apply DoGetIntegerv_fine.
Qed.

(** The questions that only the driver answers. *)
Lemma driver_parameter_fine rooms pname invalid shm_id shm_offset :
  is_u32 shm_offset -> zlen (gl_values env) <= counted pname ->
  fine rooms (get_parameter 4 pname invalid shm_id shm_offset (driver_writes env)).
Proof.
  intros Ho Hv. apply asked_parameter_fine; [done|set_solver|]. intros rooms' params _ Hp.
  eapply driver_writes_fine; [done|lia].
Qed.

(** A constant of the header is counted by [util_]. *)
Ltac count_one := rewrite counted_plain by (vm_compute; reflexivity); vm_compute; reflexivity.

Lemma HandleGetFramebufferAttachmentParameteriv_fine rooms target attachment pname shm_id shm_offset :
  is_u32 shm_offset -> zlen (gl_values env) <= counted pname ->
  fine rooms (HandleGetFramebufferAttachmentParameteriv cfg lim env target attachment pname shm_id shm_offset).
Proof.
  intros Ho Hv. apply asked_parameter_fine; [done|set_solver|]. intros rooms' params _ Hp.
  apply fine_bind.
  { apply fine_in_state. intros g Hg.
    destruct (GetFramebufferInfoForTarget_ok cfg _ target (good_context _ _ _ Hg)) as (info & -> & _). by apply yields_Done. }
  intros [x|]; [|apply fine_modify; intros g; apply good_noted].
  apply fine_bind; [eapply driver_writes_fine; [done|lia]|]. intros [].
  destruct (Z.eqb_spec pname GL_FRAMEBUFFER_ATTACHMENT_OBJECT_NAME) as [->|]; [|apply fine_ret].
  assert (counted GL_FRAMEBUFFER_ATTACHMENT_OBJECT_NAME = 1) as H1 by count_one. rewrite H1 in Hp.
  apply fine_bind; [eapply fits_load; [done|lia]|]. intros service_id.
  apply fine_gets. intros g _. eapply fits_store; [done|]. unfold zlen. simpl. lia.
Qed.

Lemma fits_one rooms params pname x :
  fits params (4 * counted pname) rooms -> counted pname = 1 -> fine rooms (store params [x]).
Proof. intros Hp H1. eapply fits_store; [done|]. rewrite H1. unfold zlen. simpl. lia. Qed.

Lemma HandleGetRenderbufferParameteriv_fine rooms target pname shm_id shm_offset :
  is_u32 shm_offset -> zlen (gl_values env) <= counted pname ->
  fine rooms (HandleGetRenderbufferParameteriv cfg lim env target pname shm_id shm_offset).
Proof.
  intros Ho Hv. apply asked_parameter_fine; [done|set_solver|]. intros rooms' params _ Hp.
  apply fine_gets. intros g Hg. cbn [id].
  destruct (bound_renderbuffer_ _) as [a|] eqn:Ea; [|apply fine_modify; intros; by apply good_noted].
  apply fine_the. destruct (ctx_bound_renderbuffer _ _ (good_context _ _ _ Hg) a Ea) as [r Hr]. exists r. split; [done|].
  destruct (Z.eqb_spec pname GL_RENDERBUFFER_INTERNAL_FORMAT) as [->|]; [eapply fits_one; [done|count_one]|].
  destruct (Z.eqb_spec pname GL_RENDERBUFFER_WIDTH) as [->|]; [eapply fits_one; [done|count_one]|].
  destruct (Z.eqb_spec pname GL_RENDERBUFFER_HEIGHT) as [->|]; [eapply fits_one; [done|count_one]|].
  eapply driver_writes_fine; [done|lia].
Qed.

Lemma attrib_buffer_ok index info g :
  state_good g -> GetVertexAttribInfo index (vertex_attrib_manager_ (vertices g)) = Some info ->
  exists name, attrib_buffer env info g = Done (name, g).
Proof.
  intros Hg Hi. unfold attrib_buffer. destruct (VertexAttribManager.buffer_ info) as [a|] eqn:Ea; [|by eexists].
  unfold GetVertexAttribInfo in Hi. case_match; [|done].
  destruct (attribs_index _ _ (dec_attribs _ (good_vertices _ _ _ Hg)) _ _ Hi) as (_ & _ & Hh).
  destruct (Hh a Ea) as [b Hb]. unfold object. rewrite Hb. by eexists.
Qed.

Lemma get_vertex_attrib_fine rooms params int float index pname :
  fits params (4 * counted pname) rooms -> fine rooms (get_vertex_attrib env int float index pname params).
Proof.
  intros Hp w Hw Hr. unfold get_vertex_attrib. unfold mbind at 1, handler_bind at 1, gets. cbn [obind id].
  destruct (GetVertexAttribInfo _ _) as [info|] eqn:Ei;
    [|refine ((_ : fine rooms (modify _)) w Hw Hr); apply fine_modify; intros; by apply good_noted].
  destruct (Z.eqb_spec pname GL_VERTEX_ATTRIB_ARRAY_BUFFER_BINDING) as [->|].
  { destruct (attrib_buffer_ok index info w.2 (proj2 Hw) Ei) as [name Hn].
    unfold mbind, handler_bind, in_state. rewrite Hn. cbn [obind]. destruct w as [d g].
    destruct name as [x|]; [refine ((_ : fine rooms (store params [int x])) _ Hw Hr); eapply fits_one; [done|count_one]|].
    exact (fine_ret _ _ _ _ rooms () _ Hw Hr). }
  refine ((_ : fine rooms _) w Hw Hr). clear Ei Hw Hr.
  destruct (Z.eqb_spec pname GL_VERTEX_ATTRIB_ARRAY_ENABLED) as [->|]; [eapply fits_one; [done|count_one]|].
  destruct (Z.eqb_spec pname GL_VERTEX_ATTRIB_ARRAY_SIZE) as [->|]; [eapply fits_one; [done|count_one]|].
  destruct (Z.eqb_spec pname GL_VERTEX_ATTRIB_ARRAY_STRIDE) as [->|]; [eapply fits_one; [done|count_one]|].
  destruct (Z.eqb_spec pname GL_VERTEX_ATTRIB_ARRAY_TYPE) as [->|]; [eapply fits_one; [done|count_one]|].
  destruct (Z.eqb_spec pname GL_VERTEX_ATTRIB_ARRAY_NORMALIZED) as [->|]; [eapply fits_one; [done|count_one]|].
  destruct (Z.eqb_spec pname GL_CURRENT_VERTEX_ATTRIB) as [->|]; [|apply fine_ret].
  destruct (value_ info) as [[[x y] z] t]. eapply fits_store; [done|].
  replace (counted GL_CURRENT_VERTEX_ATTRIB) with 4 by (symmetry; count_one). done.
Qed.

Lemma HandleGetVertexAttribfv_fine rooms index pname shm_id shm_offset :
  is_u32 shm_offset -> fine rooms (HandleGetVertexAttribfv cfg lim env index pname shm_id shm_offset).
Proof.
  intros Ho. apply asked_parameter_fine; [done|set_solver|]. intros rooms' params _ Hp. by apply get_vertex_attrib_fine.
Qed.

Lemma HandleGetVertexAttribiv_fine rooms index pname shm_id shm_offset :
  is_u32 shm_offset -> fine rooms (HandleGetVertexAttribiv cfg lim env index pname shm_id shm_offset).
Proof.
  intros Ho. apply asked_parameter_fine; [done|set_solver|]. intros rooms' params _ Hp. by apply get_vertex_attrib_fine.
Qed.

(** *** Many values *)

(** What the parameters of one command need together. *)
Fixpoint total (enums : list Z) : Z := match enums with [] => 0 | e :: enums => values_returned e + total enums end.

Lemma total_nonneg enums : 0 <= total enums.
Proof. induction enums as [|e enums IH]; cbn; [done|]. pose proof (values_returned_bounds e). lia. Qed.

Lemma count_results_ok enums n :
  is_u32 n ->
  match count_results lim enums n with
  | Some (Some num) => num = n + total enums /\ is_u32 num /\ Forall (fun e => values_returned e <> 0) enums
  | _ => True
  end.
Proof.
  revert n. induction enums as [|e enums IH]; intros n Hn; cbn [count_results total]; [split_and!; [lia|done|by constructor]|].
  destruct (values_returned e =? 0) eqn:Ez; [done|]. pose proof (values_returned_bounds e) as Hv.
  rewrite SafeAddUint32_exact by (done || (unfold is_u32; lia)).
  destruct (n + values_returned e <? 2 ^ 32) eqn:El; [|done]. zbool.
  specialize (IH (n + values_returned e) ltac:(unfold is_u32 in *; lia)).
  destruct (count_results lim enums _) as [[num|]|]; [|done..]. destruct IH as (-> & Hu & Hf).
  split_and!; [lia|done|by constructor].
Qed.

Lemma all_zero_fine rooms a o size n :
  (a, size) ∈ rooms -> 0 <= o -> o + 4 * Z.of_nat n <= size -> fine rooms (all_zero n (address_at a o)).
Proof.
  intros Ha. revert o. induction n as [|n IH]; intros o Ho Hn; cbn [all_zero]; [apply fine_ret|].
  apply fine_bind; [eapply fine_load_at; [done|lia..]|]. intros x. case_match; [apply fine_ret|].
  replace (address_at (address_at a o) 4) with (address_at a (o + 4)) by (destruct a; unfold address_at; cbn; f_equal; lia).
  apply IH; lia.
Qed.

(** The driver writes no more values than a parameter has. *)
Definition integers_fit : Prop := forall e, values_returned e <> 0 -> zlen (gl_integers env e) <= values_returned e.

Lemma counted_le pname : values_returned pname <> 0 -> 0 <= counted pname <= values_returned pname.
Proof.
  intros Hn. pose proof (values_returned_bounds pname). unfold counted. case_match; [lia|].
  destruct (Z.eqb_spec pname GL_READ_FRAMEBUFFER_BINDING) as [->|]; [|lia]. exfalso. by apply Hn.
Qed.

Lemma get_each_fine rooms a o size enums written :
  integers_fit -> (a, size) ∈ rooms -> Forall (fun e => values_returned e <> 0) enums ->
  0 <= o -> o + 4 * total enums <= size -> fine rooms (get_each cfg lim env enums (address_at a o) written).
Proof.
  intros Hi Ha Hf. revert o written. induction Hf as [|e enums He Hf IH]; intros o written Ho Hs; cbn [get_each]; [apply fine_ret|].
  cbn [total] in Hs. pose proof (counted_le e He) as Hc. pose proof (total_nonneg enums) as Ht.
  apply fine_ask_helper. intros r (Hr1 & Hr2).
  assert (default 0 r.1.2 = counted e) as ->.
  { rewrite Hr1. unfold counted. by destruct (uncounted_dims e). }
  apply fine_bind.
  { destruct (r.1.1); eapply fine_store_at; try done.
    - destruct Hr2 as [_ ->]; [done|lia].
    - specialize (Hi e He). lia. }
  intros [].
  replace (address_at (address_at a o) (4 * counted e)) with (address_at a (o + 4 * counted e))
    by (destruct a; unfold address_at; cbn; f_equal; lia).
  apply IH; lia.
Qed.

Lemma HandleGetMultipleIntegervCHROMIUM_fine rooms pnames_shm_id pnames_shm_offset count results_shm_id results_shm_offset size :
  integers_fit -> is_u32 pnames_shm_offset -> is_u32 count -> is_u32 results_shm_offset ->
  fine rooms (HandleGetMultipleIntegervCHROMIUM cfg lim env pnames_shm_id pnames_shm_offset count results_shm_id results_shm_offset size).
Proof.
  intros Hi Hp Hc Hr. unfold HandleGetMultipleIntegervCHROMIUM.
  rewrite SafeMultiplyUint32_exact by (done || (unfold is_u32; lia)).
  destruct (count * 4 <? 2 ^ 32) eqn:El; cbn [negb]; [|apply fine_ret]. zbool.
  apply fine_shared; [done|unfold is_u32 in *; lia|]. intros [bytes|] Hb; [|apply fine_ret].
  pose proof (count_results_ok (bytes_to_words bytes) 0 ltac:(unfold is_u32; lia)) as Hn.
  destruct (count_results lim _ 0) as [[num|]|]; [|apply fine_ret|apply fine_failing].
  destruct Hn as (-> & Hu & Hf). pose proof (total_nonneg (bytes_to_words bytes)) as Ht. rewrite !Z.add_0_l in *.
  set (n := total (bytes_to_words bytes)) in *.
  rewrite SafeMultiplyUint32_exact by (done || (unfold is_u32; lia)).
  destruct (n * 4 <? 2 ^ 32) eqn:En; cbn [negb]; [|apply fine_ret]. zbool. case_match; [apply fine_failing|].
  apply fine_address; [done|unfold is_u32; lia| |apply fine_ret]. intros a.
  apply fine_bind; [rewrite <- (address_at_0 a) at 2; eapply all_zero_fine; [by left|lia..]|]. intros zero.
  case_match; [apply fine_ret|].
  apply fine_bind; [|intros written; apply fine_ret].
  rewrite <- (address_at_0 a) at 2. eapply get_each_fine; [done|by left|done|lia..].
Qed.

(** *** Errors, capabilities, precisions *)

Lemma HandleGetError_fine rooms shm_id shm_offset : is_u32 shm_offset -> fine rooms (HandleGetError env shm_id shm_offset).
Proof.
  intros Ho. apply ask_word_fine; [done|]. intros rooms'. apply fine_in_state. intros g Hg.
  apply yields_Done. cbn [snd]. case_match; [by apply good_with_error_bits|done].
Qed.

Lemma HandleIsEnabled_fine rooms cap shm_id shm_offset :
  is_u32 shm_offset -> fine rooms (HandleIsEnabled cfg env cap shm_id shm_offset).
Proof.
  intros Ho. apply ask_word_fine; [done|]. intros rooms'. case_match; [|apply fine_ret].
  apply fine_bind; [apply fine_modify; intros g; apply good_noted|]. intros []. apply fine_ret.
Qed.

Lemma HandleGetShaderPrecisionFormat_fine rooms shadertype precisiontype shm_id shm_offset :
  is_u32 shm_offset -> fine rooms (HandleGetShaderPrecisionFormat cfg shadertype precisiontype shm_id shm_offset).
Proof.
  intros Ho. apply fine_address; [done|unfold is_u32; lia| |apply fine_ret]. intros a.
  apply fine_bind; [eapply fine_load; [by left|lia]|]. intros success. do 3 (case_match; [auto with fine|]).
  apply fine_bind; [eapply fine_store; [by left|unfold zlen; simpl; lia]|]. intros [].
  repeat case_match; [apply fine_done; eapply fine_store_at; [by left|lia|unfold zlen; simpl; lia]..|apply fine_ret].
Qed.

(** *** Strings *)

Lemma zlen_chars str : zlen (chars str) = Z.of_nat (String.length str).
Proof. induction str as [|c str IH]; [done|]. cbn [chars String.length]. rewrite zlen_cons, IH. lia. Qed.

Lemma length_substring n m str :
  (String.length (String.substring n m str) <= m /\ String.length (String.substring n m str) <= String.length str - n)%nat.
Proof.
  revert n m. induction str as [|c str IH]; intros [|n] [|m]; cbn [String.substring String.length]; try lia.
  - destruct (IH 0%nat m). lia.
  - destruct (IH n 0%nat). lia.
  - destruct (IH n (S m)). lia.
Qed.

Lemma length_append s t : String.length (String.append s t) = (String.length s + String.length t)%nat.
Proof. induction s as [|c s IH]; [done|]. change (S (String.length (String.append s t)) = S (String.length s + String.length t)). by f_equal. Qed.

Lemma strip_derivatives_length str : (String.length (strip_derivatives str) <= String.length str)%nat.
Proof.
  unfold strip_derivatives. destruct (String.index 0 _ str) as [o|]; [|done]. cbv zeta. rewrite length_append.
  destruct (length_substring 0 o str). destruct (length_substring (o + (o + (String.length kOESDerivativeExtension + 1))) (String.length str) str). lia.
Qed.

(** The strings of the driver are short. *)
Definition strings_short : Prop :=
  string_short (Some (chars (extensions_ (feature_info_ cfg)))) /\ string_short (gl_string env).

Lemma chars_short str : string_short (Some (chars str)) <-> Z.of_nat (String.length str) + 1 < 2 ^ 32.
Proof. unfold string_short. change (default [] (Some (chars str))) with (chars str). by rewrite zlen_chars. Qed.

Lemma get_string_short name g : strings_short -> string_short (get_string cfg env name g).
Proof.
  intros [He Hs]. apply chars_short in He. unfold get_string.
  case_match; [apply chars_short; vm_compute; reflexivity|]. case_match; [apply chars_short; vm_compute; reflexivity|].
  case_match; [|done]. apply chars_short. pose proof (strip_derivatives_length (extensions_ (feature_info_ cfg))).
  case_match; lia.
Qed.

Lemma put_string_fine rooms bucket_id str :
  string_short str -> fine rooms (change_memory (put_string bucket_id str)).
Proof.
  intros Hs. apply fine_change. intros d Hd _. unfold put_string.
  destruct (CreateBucket_ok engine_ok engine_entries d Hd bucket_id) as [Hb Hd'].
  assert (keeps_rooms d (CreateBucket bucket_id d).2) as Hk.
  { unfold CreateBucket. destruct (GetBucket bucket_id d); cbn [snd]; intros a n Ha; exact Ha. }
  destruct (CreateBucket bucket_id d) as [b d']. cbn [fst snd] in *.
  destruct (SetFromString_GetAsString str b Hb) as (b' & -> & Hb' & _); [by intros x ->|].
  apply yields_Done. split; [by apply ok_bucket|done].
Qed.

Lemma HandleGetString_fine rooms name bucket_id : strings_short -> fine rooms (HandleGetString cfg env name bucket_id).
Proof.
  intros Hs. unfold HandleGetString. case_match; [apply fine_failing|]. apply fine_gets. intros g _.
  apply fine_done, put_string_fine. by apply get_string_short.
Qed.

End safety.
