(* ===== verification/AttribRoundTrip.v ===== *)
(** * Values given and asked for

    A client that sets the current value of a vertex attribute and then asks for it, with the
    handlers of [BufferDecoder.v] and [QueryDecoder.v], finds it in its memory; and the errors
    of OpenGL that the decoder records are answered one by one. *)

From S2P Require Import Prelude CmdFormat CommandBufferService CommonDecoder.
From Stdlib Require Import ZArith Lia ZifyBool Bool.
From stdpp Require Import base numbers option gmap list.
From S2P Require Import Floats GLConstants Validators GLES2Util FeatureInfo BufferManager VertexAttribManager.
From S2P Require Import DrawValidation ContextState ReadPixels ProgramQueries ProgramSafety ProgramCommands.
From S2P Require Import DecoderState HandlerSafety BufferDecoder QueryDecoder QuerySafety.
Local Open Scope Z_scope.

Section values.
Context `{Platform} {E : Type} `{CommandBufferEngine E} (engine_ok : E -> Prop) (engine_entries : E -> Z).
Variables (cfg : Config) (lim : GroupLimits) (env : DecoderAnswers).
Implicit Types (g : GLES2State) (d : CommonDecoder.Decoder E).
Notation decoder_ok := (decoder_ok engine_ok engine_entries).

(** ** Memory *)

Lemma zlen_u32_words (ws : list Z) : zlen (words_to_bytes (u32 <$> ws)) = 4 * zlen ws.
Proof. rewrite zlen_words_to_bytes. unfold zlen. by rewrite length_fmap. Qed.

(** The values and then their size in front of them: what a client reads. *)
Lemma result_written d a n ws :
  room d a (4 + 4 * zlen ws) ->
  exists d1 d2, write_words (address_at a 4) ws d = Done d1 /\ write_words a [n] d1 = Done d2 /\
    mem_read d2 a (4 + 4 * zlen ws) = Some (words_to_bytes (u32 <$> n :: ws)).
Proof.
  destruct a as [block o]. intros [Ho (bytes & Hb & Hl)]. cbn [fst snd] in *. pose proof (zlen_nonneg ws).
  destruct (zwrite_Some bytes (words_to_bytes (u32 <$> ws)) (o + 4)) as (b1 & Hw1 & Hl1);
    [lia|rewrite zlen_u32_words; lia|].
  destruct (zwrite_Some b1 (words_to_bytes (u32 <$> [n])) o) as (b2 & Hw2 & Hl2);
    [lia|rewrite zlen_u32_words; change (zlen [n]) with 1; lia|].
  unfold write_words, mem_write, address_at, mem_read. cbn [fst snd]. rewrite Hb. cbn [mbind option_bind].
  rewrite Hw1. cbn [of_option]. eexists _, _. split; [done|]. cbn [heap with_heap]. rewrite lookup_insert_eq.
  cbn [mbind option_bind]. rewrite Hw2. cbn [of_option]. split; [done|]. cbn [heap with_heap].
  rewrite lookup_insert_eq. cbn [mbind option_bind].
  change (u32 <$> n :: ws) with ((u32 <$> [n]) ++ (u32 <$> ws)). rewrite words_to_bytes_app. apply zread_append.
  - by rewrite <- (zread_written _ _ _ _ Hw2).
  - rewrite (zread_unwritten _ _ _ _ _ _ Hw2) by (right; rewrite zlen_u32_words; change (zlen [n]) with 1; lia).
    rewrite <- (zread_written _ _ _ _ Hw1). f_equal. by rewrite zlen_u32_words.
Qed.

(** ** Attributes *)

Lemma GetVertexAttribInfo_SetValue index value (m m' : VertexAttribManager) :
  0 <= index -> SetValue index value m = Some m' ->
  exists info, GetVertexAttribInfo index m' = Some (set_value value info).
Proof.
  unfold SetValue, GetVertexAttribInfo. intros Hi Hs.
  destruct (index <? max_vertex_attribs_ m) eqn:Ei; [|done].
  destruct (zget _ index) as [info|] eqn:Eg; [|done]. cbn in Hs. injection Hs as <-. cbn. rewrite Ei. exists info.
  unfold zget in *. destruct (0 <=? index) eqn:E1; [|done]. apply list_lookup_insert_eq. by eapply lookup_lt_Some.
Qed.

(** A value that is set is found, in the words a client reads. *)
Definition set_and_get (index x y z v shm_id shm_offset : Z) : Handler E Error :=
  HandleVertexAttrib4f index x y z v ;;
  HandleGetVertexAttribfv cfg lim env index GL_CURRENT_VERTEX_ATTRIB shm_id shm_offset.

Lemma num_current (w : World E) : GetNumValuesReturnedForGLGet cfg lim env GL_CURRENT_VERTEX_ATTRIB w = Done (4, w).
Proof.
  unfold GetNumValuesReturnedForGLGet, ask_helper, GetHelper, mbind, handler_bind, in_state.
  rewrite !andb_false_r. by destruct w.
Qed.

Lemma get_current index params (w : World E) info :
  GetVertexAttribInfo index (vertex_attrib_manager_ (vertices w.2)) = Some info ->
  DoGetVertexAttribfv env index GL_CURRENT_VERTEX_ATTRIB params w =
    (let '(x, y, z, v) := value_ info in store params [x; y; z; v]) w.
Proof.
  intros Hi. unfold DoGetVertexAttribfv, get_vertex_attrib, mbind, handler_bind, gets. cbn [obind id].
  by rewrite Hi.
Qed.

Lemma set_and_get_runs d g index x y z v m shm_id shm_offset a :
  SetValue index (x, y, z, v) (vertex_attrib_manager_ (vertices g)) = Some m -> 0 <= index ->
  peek_gl_error env = GL_NO_ERROR ->
  ContextState.valid cfg Validator.vertex_attribute GL_CURRENT_VERTEX_ATTRIB = true ->
  GetAddressAndCheckSize shm_id shm_offset 20 d = Some a -> read_word a d = Done 0 ->
  exists g', set_and_get index x y z v shm_id shm_offset (d, g) =
    (do d1 <- write_words (address_at a 4) [x; y; z; v] d ;;
     do d2 <- write_words a [16] d1 ;; Done (kNoError, (d2, g')))%gpu.
Proof.
  intros Hs Hi Hp Hv Ha Hz. destruct (GetVertexAttribInfo_SetValue _ _ _ _ Hi Hs) as (info & Hm).
  set (g1 := with_vertices [glVertexAttribf index [x; y; z; v]] (with_attribs m (vertices g)) g).
  exists (CopyRealGLErrorsToWrapper env g1).
  assert (HandleVertexAttrib4f index x y z v (d, g) = Done (kNoError, (d, g1))) as E1.
  { unfold HandleVertexAttrib4f, done, in_state, in_vertices, DoVertexAttrib4f, DoVertexAttrib, mbind, handler_bind.
    cbn [fst snd]. change (Vec4_of [x; y; z; v]) with (x, y, z, v). by rewrite Hs. }
  unfold set_and_get, HandleGetVertexAttribfv, get_parameter, refused. rewrite Hv.
  unfold mbind, handler_bind at 1. rewrite E1. cbn [obind]. unfold handler_bind at 1. rewrite num_current. cbn [obind].
  unfold handler_bind at 1, address, ask_memory. cbn [obind fst]. unfold usize. rewrite Z.mod_small by (by apply u32_is_usize). change (u32 (4 * 4 + 4)) with 20.
  rewrite Ha. unfold load, ask_memory, handler_bind at 1. cbn [obind fst]. rewrite Hz. cbn [obind Z.eqb negb].
  unfold handler_bind at 1, modify. cbn [obind fst snd].
  unfold handler_bind at 1. rewrite (get_current _ _ (d, CopyRealGLErrorsToWrapper env g1) _ Hm). cbn [value_ set_value].
  rewrite Hp. unfold store, change_memory, done, mbind, handler_bind. cbn [fst].
  destruct (write_words (address_at a 4) [x; y; z; v] d) as [d1| |] eqn:Ew; [|done..]. cbn [obind fst Z.eqb].
  change (4 * 4) with 16. rewrite Z.eqb_refl. cbn [fst snd]. by destruct (write_words a [16] d1).
Qed.

(** C10: What a client sets for every vertex it finds when it asks for it, bit for bit, with the
    size of the answer in front: unless the driver has an error to tell, or there is no such
    attribute. *)
Theorem vertex_attrib_round_trip w index x y z v info shm_id shm_offset a :
  world_good engine_ok engine_entries cfg lim w -> 0 <= index ->
  GetVertexAttribInfo index (vertex_attrib_manager_ (vertices w.2)) = Some info ->
  peek_gl_error env = GL_NO_ERROR ->
  ContextState.valid cfg Validator.vertex_attribute GL_CURRENT_VERTEX_ATTRIB = true ->
  is_u32 shm_offset -> GetAddressAndCheckSize shm_id shm_offset 20 w.1 = Some a -> read_word a w.1 = Done 0 ->
  exists w', set_and_get index x y z v shm_id shm_offset w = Done (kNoError, w') /\
    mem_read w'.1 a 20 = Some (words_to_bytes (u32 <$> [16; x; y; z; v])).
Proof.
  intros Hw Hi Hinfo Hp Hv Ho Ha Hz. destruct w as [d g]. cbn [fst snd] in *.
  assert (room d a 20) as Hr by (eapply room_address; [apply Hw|exact Ha|done|unfold is_u32; lia]).
  destruct (result_written d a 16 [x; y; z; v] Hr) as (d1 & d2 & E1 & E2 & Er).
  assert (exists m, SetValue index (x, y, z, v) (vertex_attrib_manager_ (vertices g)) = Some m) as [m Hm].
  { unfold SetValue. rewrite Hinfo. by eexists. }
  destruct (set_and_get_runs d g _ _ _ _ _ _ _ _ _ Hm Hi Hp Hv Ha Hz) as [g' ->]. rewrite E1. cbn [obind]. rewrite E2.
  by eexists.
Qed.

(** ** Errors

    What the decoder has recorded and not yet told, in the order it tells it. *)
Definition recordable : list Z :=
  [GL_INVALID_ENUM; GL_INVALID_VALUE; GL_INVALID_OPERATION; GL_OUT_OF_MEMORY; GL_INVALID_FRAMEBUFFER_OPERATION].

Definition has_error (bits error : Z) : bool := negb (Z.land bits (GLErrorToErrorBit error) =? 0).

Definition pending (bits : Z) : list Z := filter (fun e => has_error bits e) recordable.

(** The questions of a client, one after the other. *)
Fixpoint asked (n : nat) g : outcome (list Z) :=
  match n with
  | O => Done []
  | S n => (do (error, g) <- GetGLError env g ;; do errors <- asked n g ;; Done (default 0 error :: errors))%gpu
  end.

(** One answer takes the first of them away: in all the states the bits can have. *)
Definition told (bits : Z) : bool :=
  match first_bit bits with
  | Some mask =>
      let error := GLErrorBitToGLError mask in
      let rest := Z.ldiff bits (GLErrorToErrorBit error) in
      bool_decide (pending bits = error :: pending rest) && negb (error =? GL_NO_ERROR) && (0 <=? rest) && (rest <? 32)
  | None => bool_decide (pending bits = [])
  end.

Lemma all_told bits : 0 <= bits < 32 -> told bits = true.
Proof.
  intros Hb. assert (forallb told (seqZ 0 32) = true) as Ha by (vm_compute; reflexivity).
  rewrite forallb_forall in Ha. apply Ha, list_elem_of_In, elem_of_seqZ. lia.
Qed.

Lemma take_padded {A} n (l : list A) x : take n (l ++ repeat x (S n)) = take n (l ++ repeat x n).
Proof.
  assert (repeat x (S n) = repeat x n ++ [x]) as -> by apply repeat_cons.
  rewrite app_assoc, take_app_le; [done|]. rewrite length_app, repeat_length. lia.
Qed.

Lemma told_spec bits : 0 <= bits < 32 ->
  match first_bit bits with
  | Some mask =>
      let error := GLErrorBitToGLError mask in
      let rest := Z.ldiff bits (GLErrorToErrorBit error) in
      pending bits = error :: pending rest /\ error <> GL_NO_ERROR /\ 0 <= rest < 32
  | None => pending bits = []
  end.
Proof.
  intros Hb%all_told. unfold told in Hb. destruct (first_bit bits).
  - rewrite !andb_true_iff, bool_decide_eq_true in Hb. cbv zeta. rewrite negb_true_iff, Z.eqb_neq in Hb. split; [tauto|]. lia.
  - by rewrite bool_decide_eq_true in Hb.
Qed.

Lemma asked_pending n g : peek_gl_error env = GL_NO_ERROR -> 0 <= error_bits_ g < 32 ->
  asked n g = Done (take n (pending (error_bits_ g) ++ repeat GL_NO_ERROR n)).
Proof.
  intros Hp. revert g. induction n as [|n IH]; intros g Hb; [done|].
  pose proof (told_spec _ Hb) as Ht. cbn [asked]. unfold GetGLError. rewrite Hp, Z.eqb_refl.
  destruct (first_bit (error_bits_ g)) as [mask|]; cbn [obind default].
  - destruct Ht as (Hs & Hn & Hr). rewrite (proj2 (Z.eqb_neq _ _) Hn). cbn [negb]. rewrite IH by done.
    cbn [error_bits_ with_error_bits]. rewrite Hs, <- app_comm_cons, firstn_cons, take_padded. done.
  - rewrite Z.eqb_refl. cbn [negb]. rewrite IH, Ht by done. done.
Qed.

(** What is recorded. *)
Lemma bit_bounds error : 0 <= GLErrorToErrorBit error < 32.
Proof. unfold GLErrorToErrorBit. repeat case_match; vm_compute; intuition discriminate. Qed.

Lemma lor_bounds a b : 0 <= a < 32 -> 0 <= b < 32 -> 0 <= Z.lor a b < 32.
Proof.
  intros Ha Hb. assert (Z.lor a b = Z.lor a b mod 2 ^ 5) as ->; [|apply Z.mod_pos_bound; lia].
  rewrite <- Z.land_ones, Z.land_lor_distr_l, !Z.land_ones by lia. by rewrite !Z.mod_small.
Qed.

Lemma has_error_noted bits error e : e ∈ recordable ->
  has_error (note_error bits error) e = has_error bits e || (e =? error).
Proof.
  intros He. unfold has_error, note_error. rewrite Z.land_lor_distr_l.
  assert ((Z.land (GLErrorToErrorBit error) (GLErrorToErrorBit e) =? 0) = negb (e =? error)) as Hd.
  { unfold recordable in He. rewrite !elem_of_cons, elem_of_nil in He. destruct (Z.eqb_spec e error) as [<-|Hn].
    - by destruct_or! He; subst.
    - unfold GLErrorToErrorBit at 1. repeat case_match; zbool; subst; destruct_or! He; subst; done. }
  destruct (Z.eqb_spec (Z.land bits (GLErrorToErrorBit e)) 0) as [->|Hn]; cbn [negb orb].
  - rewrite Z.lor_0_l, Hd. apply negb_involutive.
  - apply negb_true_iff, Z.eqb_neq. intros Hz%Z.lor_eq_0_iff. tauto.
Qed.

Lemma has_error_all errors bits e : e ∈ recordable ->
  has_error (fold_left note_error errors bits) e = has_error bits e || bool_decide (e ∈ errors).
Proof.
  intros He. revert bits. induction errors as [|x errors IH]; intros bits; cbn [fold_left].
  - by rewrite bool_decide_eq_false_2, orb_false_r by set_solver.
  - rewrite IH, has_error_noted, <- orb_assoc by done. f_equal.
    destruct (Z.eqb_spec e x); [subst; symmetry; apply bool_decide_eq_true_2; set_solver|].
    cbn. apply bool_decide_ext. set_solver.
Qed.

Lemma noted_bounds errors bits : 0 <= bits < 32 -> 0 <= fold_left note_error errors bits < 32.
Proof. revert bits. induction errors as [|e errors IH]; intros bits Hb; [done|]. apply IH, lor_bounds, bit_bounds; done. Qed.

Lemma filter_same {A} (P Q : A -> Prop) `{!forall x, Decision (P x), !forall x, Decision (Q x)} (l : list A) :
  (forall x, x ∈ l -> P x <-> Q x) -> filter P l = filter Q l.
Proof.
  induction l as [|x l IH]; intros Hl; [done|]. rewrite !filter_cons, IH by set_solver.
  apply decide_ext. set_solver.
Qed.

(** C12: The errors that the decoder records, however often, are told one by one when the driver has
    none itself, each once and in one order, and then there is no error. *)
Theorem errors_told_once n g errors :
  peek_gl_error env = GL_NO_ERROR -> error_bits_ g = 0 ->
  asked n (fold_left (flip SetGLError) errors g) =
    Done (take n (filter (.∈ errors) recordable ++ repeat GL_NO_ERROR n)).
Proof.
  intros Hp Hb.
  assert (forall l g, error_bits_ (fold_left (flip SetGLError) l g) = fold_left note_error l (error_bits_ g)) as Hf.
  { induction l as [|e l IH]; intros g'; [done|]. cbn [fold_left]. by rewrite IH. }
  rewrite asked_pending, Hf, Hb by (try rewrite Hf, Hb; try apply noted_bounds; done).
  do 3 f_equal. apply filter_same. intros e He. rewrite has_error_all by done. unfold has_error. rewrite Z.land_0_l. apply bool_decide_spec.
Qed.

End values.
