(* ===== verification/StateDecoder.v ===== *)
(** * The commands on the state of the driver

    The handlers of [gpu/command_buffer/service/gles2_cmd_decoder_autogen.h] that pass their
    arguments on to the driver once the validators have let them through, and those of
    [gles2_cmd_decoder.cc] that set texture parameters, hand out the ids that contexts share,
    and switch features on. *)

From S2P Require Import Prelude CmdFormat CommandBufferService CommonDecoder.
From Stdlib Require Import ZArith Lia ZifyBool Bool String.
From stdpp Require Import base numbers option gmap list.
From S2P Require Import Floats GLConstants Validators GLES2Util FeatureInfo IdAllocator BufferManager VertexAttribManager.
From S2P Require Import TextureInfo TextureManager RenderbufferManager FramebufferManager.
From S2P Require Import DrawValidation VertexSafety ShaderManager ProgramManager ProgramInvariant ProgramDecoder ContextState.
From S2P Require Import ContextInvariant TextureDecoder FramebufferDecoder ObjectNames UniformDecoder ProgramQueries ProgramSafety ProgramCommands.
From S2P Require Import DecoderState HandlerSafety BufferDecoder QueryDecoder.
Local Open Scope Z_scope.

Section handlers.
Context `{Platform} {E : Type} `{CommandBufferEngine E}.
Variables (cfg : Config) (env : DecoderAnswers).
Implicit Types (g : GLES2State).
Notation Handler := (Handler E).
Notation refused := (refused cfg).

(** ** State of the driver *)

(** The tests of the validators, in the order of the arguments. *)
Definition tested (tests : list (Validator.t * Z)) (m : Handler Error) : Handler Error :=
  match refused tests with Some error => failing error | None => m end.

Definition HandleBlendColor (red green blue alpha : Z) : Handler Error := call (glBlendColor red green blue alpha).
Definition HandleBlendEquation (mode : Z) : Handler Error :=
  tested [(Validator.equation, mode)] (call (glBlendEquation mode)).
Definition HandleBlendEquationSeparate (modeRGB modeAlpha : Z) : Handler Error :=
  tested [(Validator.equation, modeRGB); (Validator.equation, modeAlpha)]
    (call (glBlendEquationSeparate modeRGB modeAlpha)).
Definition HandleBlendFunc (sfactor dfactor : Z) : Handler Error :=
  tested [(Validator.src_blend_factor, sfactor); (Validator.dst_blend_factor, dfactor)] (call (glBlendFunc sfactor dfactor)).
Definition HandleBlendFuncSeparate (srcRGB dstRGB srcAlpha dstAlpha : Z) : Handler Error :=
  tested [(Validator.src_blend_factor, srcRGB); (Validator.dst_blend_factor, dstRGB);
          (Validator.src_blend_factor, srcAlpha); (Validator.dst_blend_factor, dstAlpha)]
    (call (glBlendFuncSeparate srcRGB dstRGB srcAlpha dstAlpha)).
Definition HandleCullFace (mode : Z) : Handler Error := tested [(Validator.face_type, mode)] (call (glCullFace mode)).
Definition HandleDepthFunc (func : Z) : Handler Error := tested [(Validator.cmp_function, func)] (call (glDepthFunc func)).
Definition HandleDepthRangef (zNear zFar : Z) : Handler Error := call (glDepthRange zNear zFar).
Definition HandleFinish : Handler Error := call glFinish.
Definition HandleFlush : Handler Error := call glFlush.
Definition HandleFrontFace (mode : Z) : Handler Error := tested [(Validator.face_mode, mode)] (call (glFrontFace mode)).
Definition HandleHint (target mode : Z) : Handler Error :=
  tested [(Validator.hint_target, target); (Validator.hint_mode, mode)] (call (glHint target mode)).
Definition HandleLineWidth (width : Z) : Handler Error := call (glLineWidth width).
Definition HandlePolygonOffset (factor units : Z) : Handler Error := call (glPolygonOffset factor units).
Definition HandleReleaseShaderCompiler : Handler Error := mret kNoError.
Definition HandleSampleCoverage (value invert : Z) : Handler Error := call (glSampleCoverage value invert).

Definition HandleScissor (x y width height : Z) : Handler Error :=
  if width <? 0 then failing GL_INVALID_VALUE
  else if height <? 0 then failing GL_INVALID_VALUE
  else call (glScissor x y width height).

(** There are no binary shaders. *)
Definition HandleShaderBinary : Handler Error := failing GL_INVALID_OPERATION.

Definition HandleStencilFunc (func ref mask : Z) : Handler Error :=
  tested [(Validator.cmp_function, func)] (call (glStencilFunc func ref mask)).
Definition HandleStencilFuncSeparate (face func ref mask : Z) : Handler Error :=
  tested [(Validator.face_type, face); (Validator.cmp_function, func)] (call (glStencilFuncSeparate face func ref mask)).
Definition HandleStencilOp (fail zfail zpass : Z) : Handler Error :=
  tested [(Validator.stencil_op, fail); (Validator.stencil_op, zfail); (Validator.stencil_op, zpass)]
    (call (glStencilOp fail zfail zpass)).
Definition HandleStencilOpSeparate (face fail zfail zpass : Z) : Handler Error :=
  tested [(Validator.face_type, face); (Validator.stencil_op, fail); (Validator.stencil_op, zfail);
          (Validator.stencil_op, zpass)]
    (call (glStencilOpSeparate face fail zfail zpass)).

Definition HandleViewport (x y width height : Z) : Handler Error :=
  if width <? 0 then failing GL_INVALID_VALUE
  else if height <? 0 then failing GL_INVALID_VALUE
  else call (glViewport x y width height).

Definition HandlePlaceholder447CHROMIUM : Handler Error := mret kUnknownCommand.
Definition HandlePlaceholder453CHROMIUM : Handler Error := mret kUnknownCommand.

(** ** Textures *)

Definition tex_parameter_tests (target pname : Z) : list (Validator.t * Z) :=
  [(Validator.texture_bind_target, target); (Validator.texture_parameter, pname)].

Definition DoTexParameterf (target pname param : Z) : Handler Error :=
  done (in_state (change_context
    (DoTexParameter cfg (glTexParameterf target pname param) target pname (to_int env param)))).
Definition DoTexParameterfv (target pname param : Z) : Handler Error :=
  done (in_state (change_context
    (DoTexParameter cfg (glTexParameterfv target pname param) target pname (to_int env param)))).
Definition DoTexParameteriv (target pname param : Z) : Handler Error :=
  done (in_state (change_context
    (DoTexParameter cfg (glTexParameteriv target pname (i32 param)) target pname (i32 param)))).

Definition HandleTexParameterf (target pname param : Z) : Handler Error :=
  tested (tex_parameter_tests target pname) (DoTexParameterf target pname param).

(** The validators are asked before the pointer is. *)
Definition first_param (target pname : Z) (params : option (list Z)) (Do : Z -> Z -> Z -> Handler Error) : Handler Error :=
  tested (tex_parameter_tests target pname)
    (match params with
     | None => mret kOutOfBounds
     | Some params => param ← the (head params); Do target pname param
     end).

Definition tex_parameter_in_memory (target pname shm_id shm_offset : Z) (Do : Z -> Z -> Z -> Handler Error) : Handler Error :=
  params ← ask_memory (values_in_memory 1 1 shm_id shm_offset); first_param target pname params Do.

Definition tex_parameter_in_command (target pname : Z) (immediate : list Z) (Do : Z -> Z -> Z -> Handler Error)
    : Handler Error :=
  if zlen immediate <? 4 then mret kOutOfBounds
  else params ← ask_memory (fun _ => values_in_command 1 1 immediate); first_param target pname params Do.

Definition HandleTexParameterfv (target pname shm_id shm_offset : Z) : Handler Error :=
  tex_parameter_in_memory target pname shm_id shm_offset DoTexParameterfv.
Definition HandleTexParameterfvImmediate (target pname : Z) (immediate : list Z) : Handler Error :=
  tex_parameter_in_command target pname immediate DoTexParameterfv.
Definition HandleTexParameteriv (target pname shm_id shm_offset : Z) : Handler Error :=
  tex_parameter_in_memory target pname shm_id shm_offset DoTexParameteriv.
Definition HandleTexParameterivImmediate (target pname : Z) (immediate : list Z) : Handler Error :=
  tex_parameter_in_command target pname immediate DoTexParameteriv.

Definition HandleCompressedTexSubImage2DImmediate
    (target level xoffset yoffset width height format imageSize : Z) (immediate : list Z) : Handler Error :=
  data ← immediate_bytes (u32 imageSize) immediate;
  tested [(Validator.texture_target, target)]
    (if width <? 0 then failing GL_INVALID_VALUE
     else if height <? 0 then failing GL_INVALID_VALUE
     else tested [(Validator.compressed_texture_format, format)]
       (if imageSize <? 0 then failing GL_INVALID_VALUE
        else
          match data with
          | None => mret kOutOfBounds
          | Some data =>
              done (in_state (change_context
                (DoCompressedTexSubImage2D target level xoffset yoffset width height format data)))
          end)).

(** ** Shared ids *)

(** [id_namespaces::IdNamespaces]. *)
Inductive Namespace := kBuffers | kFramebuffers | kProgramsAndShaders | kRenderbuffers | kTextures.

(** [ContextGroup::GetIdAllocator]; a namespace that does not exist has none. *)
Definition GetIdAllocator (namespace_id : Z) : option Namespace :=
  zget [kBuffers; kFramebuffers; kProgramsAndShaders; kRenderbuffers; kTextures] namespace_id.

#[local] Instance NonReused_allocator : IdAllocatorInterface Z := {|
  AllocateID := NonReused.AllocateID;
  AllocateIDAtOrAbove := NonReused.AllocateIDAtOrAbove;
  MarkAsUsed := NonReused.MarkAsUsed;
  FreeID := NonReused.FreeID;
  IdAllocator.InUse := NonReused.InUse;
|}.

(** What can be done with any allocator, done with that of a namespace. *)
Definition with_allocator {B} (namespace : Namespace) (f : forall A, IdAllocatorInterface A -> A -> B * A) g
    : outcome (B * GLES2State) :=
  let c := context g in
  let d := vertices g in
  Done
    match namespace with
    | kBuffers => let '(x, ids) := f _ _ (buffer_ids d) in (x, with_vertices [] (with_ids ids d) g)
    | kFramebuffers =>
        let '(x, ids) := f _ _ (framebuffer_ids (group c)) in (x, with_context (with_framebuffer_ids ids c) g)
    | kProgramsAndShaders => let '(x, ids) := f _ _ (program_ids g) in (x, with_program_ids ids g)
    | kRenderbuffers =>
        let '(x, ids) := f _ _ (renderbuffer_ids (group c)) in (x, with_context (with_renderbuffer_ids ids c) g)
    | kTextures => let '(x, ids) := f _ _ (texture_ids (group c)) in (x, with_context (with_texture_ids ids c) g)
    end.

Fixpoint allocate (n : nat) {A} (i : IdAllocatorInterface A) (s : A) : list Z * A :=
  match n with
  | O => ([], s)
  | S n => let '(id, s) := AllocateID s in let '(ids, s) := allocate n i s in (id :: ids, s)
  end.

Fixpoint allocate_above (n : nat) (id_offset : Z) {A} (i : IdAllocatorInterface A) (s : A) : list Z * A :=
  match n with
  | O => ([], s)
  | S n =>
      let '(id, s) := AllocateIDAtOrAbove id_offset s in
      let '(ids, s) := allocate_above n (u32 (id + 1)) i s in (id :: ids, s)
  end.

Definition free_ids (ids : list Z) {A} (i : IdAllocatorInterface A) (s : A) : () * A :=
  ((), fold_left (fun s id => FreeID id s) ids s).

(** When an id is in use those before it are freed. *)
Fixpoint register (ids registered : list Z) {A} (i : IdAllocatorInterface A) (s : A) : bool * A :=
  match ids with
  | [] => (true, s)
  | id :: ids =>
      let '(ok, s) := MarkAsUsed id s in
      if negb ok then (false, fold_left (fun s id => FreeID id s) registered s)
      else register ids (registered ++ [id]) i s
  end.

(** The allocator is not used when there are no ids; [n] of them are at the address. *)
Definition in_namespace (namespace_id n shm_id shm_offset : Z)
    (Do : Namespace -> nat -> Z * Z -> Handler ()) : Handler Error :=
  let '(ok, data_size) := SafeMultiplyUint32 (u32 n) 4 in
  if negb ok then mret kOutOfBounds
  else
    ids ← address shm_id shm_offset data_size;
    if n <? 0 then failing GL_INVALID_VALUE
    else
      match ids with
      | None => mret kOutOfBounds
      | Some a =>
          if n =? 0 then mret kNoError
          else namespace ← the (GetIdAllocator namespace_id); done (Do namespace (Z.to_nat n) a)
      end.

Fixpoint load_each (n : nat) (a : Z * Z) : Handler (list Z) :=
  match n with
  | O => mret []
  | S n => x ← load a; rest ← load_each n (address_at a 4); mret (x :: rest)
  end.

Definition DoGenSharedIdsCHROMIUM (id_offset : Z) (namespace : Namespace) (n : nat) (a : Z * Z) : Handler () :=
  ids ← in_state (with_allocator namespace
    (fun A i => if id_offset =? 0 then allocate n i else allocate_above n id_offset i));
  store a ids.

Definition DoDeleteSharedIdsCHROMIUM (namespace : Namespace) (n : nat) (a : Z * Z) : Handler () :=
  ids ← load_each n a; in_state (with_allocator namespace (fun A i => free_ids ids i)).

Definition DoRegisterSharedIdsCHROMIUM (namespace : Namespace) (n : nat) (a : Z * Z) : Handler () :=
  ids ← load_each n a;
  ok ← in_state (with_allocator namespace (fun A i => register ids [] i));
  if ok : bool then mret () else modify (SetGLError GL_INVALID_VALUE).

Definition HandleGenSharedIdsCHROMIUM (namespace_id id_offset n shm_id shm_offset : Z) : Handler Error :=
  in_namespace namespace_id n shm_id shm_offset (DoGenSharedIdsCHROMIUM id_offset).
Definition HandleDeleteSharedIdsCHROMIUM (namespace_id n shm_id shm_offset : Z) : Handler Error :=
  in_namespace namespace_id n shm_id shm_offset DoDeleteSharedIdsCHROMIUM.
Definition HandleRegisterSharedIdsCHROMIUM (namespace_id n shm_id shm_offset : Z) : Handler Error :=
  in_namespace namespace_id n shm_id shm_offset DoRegisterSharedIdsCHROMIUM.

(** ** Features that a client asks for *)

Definition with_webgl (e : Enabled) : Enabled :=
  mkEnabled (vertex_attrib_types e) true (derivatives_explicitly_enabled_ e) (use_shader_translator_ e).

Definition with_fixed (e : Enabled) : Enabled :=
  mkEnabled (vertex_attrib_types e ++ [GL_FIXED]) (force_webgl_glsl_validation_ e)
    (derivatives_explicitly_enabled_ e) (use_shader_translator_ e).

(** A decoder whose translators cannot be made destroys itself, and has no group for the
    commands that come after. *)
Definition InitializeShaderTranslator g : outcome GLES2State :=
  let e := enabled g in
  let use := use_shader_translator_ e
             || (egl_gles2 cfg
                 && (chromium_webglsl (feature_flags_ (feature_info_ cfg)) || force_webgl_glsl_validation_ e)) in
  let g := with_enabled (mkEnabled (vertex_attrib_types e) (force_webgl_glsl_validation_ e)
                           (derivatives_explicitly_enabled_ e) use) g in
  if negb use then Done g else if translators_ready env then Done g else UB.

(** Whether the feature is known, and what it changes. *)
Definition enable_feature (feature : list Z) g : outcome (bool * GLES2State) :=
  let named name := bool_decide (feature = chars name) in
  let multiple_targets g := with_vertices [] (AllowMultipleTargets (vertices g)) g in
  if named "pepper3d_allow_buffers_on_multiple_targets"%string then Done (true, multiple_targets g)
  else if named "pepper3d_support_fixed_attribs"%string then
    let g := multiple_targets g in Done (true, with_enabled (with_fixed (enabled g)) g)
  else if named "webgl_enable_glsl_webgl_validation"%string then
    (do g <- InitializeShaderTranslator (with_enabled (with_webgl (enabled g)) g) ;; Done (true, g))%gpu
  else Done (false, g).

Definition HandleEnableFeatureCHROMIUM (bucket_id shm_id shm_offset : Z) : Handler Error :=
  bucket ← ask_memory (fun d => Done (GetBucket bucket_id d));
  match bucket with
  | None => mret kInvalidArguments
  | Some bucket =>
      if CommonDecoder.size_ bucket =? 0 then mret kInvalidArguments
      else
        result ← address shm_id shm_offset 4;
        match result with
        | None => mret kOutOfBounds
        | Some a =>
            word ← load a;
            if negb (word =? 0) then mret kInvalidArguments
            else
              feature ← ask_memory (fun _ => GetAsString bucket);
              match feature with
              | None => mret kInvalidArguments
              | Some feature =>
                  known ← in_state (enable_feature feature);
                  if known : bool then done (store a [1]) else mret kNoError
              end
        end
  end.

End handlers.

(** ** Safety *)

Section safety.
Context `{Platform} {E : Type} `{CommandBufferEngine E} (engine_ok : E -> Prop) (engine_entries : E -> Z).
Variables (cfg : Config) (lim : GroupLimits) (env : DecoderAnswers).
Implicit Types (g : GLES2State).
Notation Handler := (Handler E).
Notation decoder_ok := (decoder_ok engine_ok engine_entries).
Notation state_good := (state_good cfg lim).
Notation fine := (fine engine_ok engine_entries cfg lim).

Lemma tested_fine rooms tests m : fine rooms m -> fine rooms (tested cfg tests m).
Proof. intros Hm. unfold tested. case_match; [apply fine_failing|done]. Qed.

Lemma tested_call_fine rooms tests c : fine rooms (tested cfg tests (call c)).
Proof. apply tested_fine, fine_call. Qed.

Lemma HandleScissor_fine rooms x y width height : fine rooms (HandleScissor x y width height).
Proof. unfold HandleScissor. repeat case_match; auto with fine. Qed.

Lemma HandleViewport_fine rooms x y width height : fine rooms (HandleViewport x y width height).
Proof. unfold HandleViewport. repeat case_match; auto with fine. Qed.

(** *** Textures *)

Lemma tex_parameter_fine rooms c target pname param :
  quiet c = true -> (forall n, upload_ok n c) ->
  fine rooms (done (in_state (change_context (DoTexParameter cfg c target pname param)))).
Proof. intros Hq Hu. apply fine_done, fine_change_context. intros ctx Hc. by apply DoTexParameter_good. Qed.

Lemma HandleTexParameterf_fine rooms target pname param : fine rooms (HandleTexParameterf cfg env target pname param).
Proof. by apply tested_fine, tex_parameter_fine. Qed.

Lemma first_param_fine rooms target pname params Do :
  (forall v, params = Some v -> 0 < zlen v) -> (forall param, fine rooms (Do target pname param)) ->
  fine rooms (first_param cfg target pname params Do).
Proof.
  intros Hp Hd. apply tested_fine. destruct params as [v|]; [|apply fine_ret]. specialize (Hp v eq_refl).
  apply fine_the. destruct v as [|x v]; [done|]. by exists x.
Qed.

Lemma tex_parameter_in_memory_fine rooms target pname shm_id shm_offset Do :
  is_u32 shm_offset -> (forall param, fine rooms (Do target pname param)) ->
  fine rooms (tex_parameter_in_memory cfg target pname shm_id shm_offset Do).
Proof.
  intros Ho Hd. eapply fine_ask_bind.
  - intros d Hdec _. apply (values_in_memory_ok engine_ok engine_entries); [unfold is_i32; lia|lia|done|done].
  - intros params Hp. apply first_param_fine; [|done]. intros v ->. specialize (Hp v eq_refl). lia.
Qed.

Lemma tex_parameter_in_command_fine rooms target pname immediate Do :
  (forall param, fine rooms (Do target pname param)) ->
  fine rooms (tex_parameter_in_command cfg target pname immediate Do).
Proof.
  intros Hd. unfold tex_parameter_in_command. case_match; [apply fine_ret|]. eapply fine_ask_bind.
  - intros d Hdec _. apply values_in_command_ok; [unfold is_i32; lia|lia].
  - intros params Hp. apply first_param_fine; [|done]. intros v ->. specialize (Hp v eq_refl). lia.
Qed.

Lemma HandleCompressedTexSubImage2DImmediate_fine rooms target level xoffset yoffset width height format imageSize immediate :
  fine rooms (HandleCompressedTexSubImage2DImmediate cfg target level xoffset yoffset width height format imageSize immediate).
Proof.
  apply fine_immediate; [apply u32_range|]. intros data _. apply tested_fine.
  do 2 (case_match; [apply fine_failing|]). apply tested_fine. case_match; [apply fine_failing|].
  destruct data as [data|]; [|apply fine_ret]. apply fine_done, fine_change_context. intros c Hc.
  by apply DoCompressedTexSubImage2D_good.
Qed.

(** *** Shared ids *)

Lemma fine_with_allocator {B} rooms namespace (f : forall A, IdAllocatorInterface A -> A -> B * A) :
  fine rooms (in_state (with_allocator namespace f)).
Proof.
  apply fine_in_state. intros g Hg. apply yields_Done. pose proof (good_context _ _ _ Hg) as Hc. destruct namespace.
  - destruct (f _ _ _) as [x ids]. cbn [snd]. apply good_with_vertices; [done| |done]. by apply with_ids_ok, Hg.
  - destruct (f _ _ _) as [x ids]. cbn [snd]. apply good_with_context; [done|]. exact (proj1 (keeps_ids cfg _ _ _ _ Hc)).
  - destruct (f _ _ _) as [x ids]. by apply good_with_program_ids.
  - destruct (f _ _ _) as [x ids]. cbn [snd]. apply good_with_context; [done|]. exact (proj1 (keeps_ids cfg _ _ _ _ Hc)).
  - destruct (f _ _ _) as [x ids]. cbn [snd]. apply good_with_context; [done|]. exact (proj1 (keeps_ids cfg _ _ _ _ Hc)).
Qed.

Lemma with_allocator_answer {B} namespace (f : forall A, IdAllocatorInterface A -> A -> B * A) (Q : B -> Prop) g :
  (forall A i s, Q (f A i s).1) -> yields (fun r => Q r.1) (with_allocator namespace f g).
Proof.
  intros HQ. apply yields_Done. destruct namespace;
    match goal with |- context [f ?A ?i ?s] => specialize (HQ A i s); by destruct (f A i s) end.
Qed.

(** A rule for answers of allocators whose length matters. *)
Lemma fine_with_allocator_bind {B X} rooms namespace (f : forall A, IdAllocatorInterface A -> A -> B * A) (Q : B -> Prop)
    (k : B -> Handler X) :
  (forall A i s, Q (f A i s).1) -> (forall x, Q x -> fine rooms (k x)) ->
  fine rooms (in_state (with_allocator namespace f) ≫= k).
Proof.
  intros HQ Hk w Hw Hr. destruct (fine_with_allocator rooms namespace f w Hw Hr) as ([x w1] & E1 & Hw1 & Hk1). cbn [fst snd] in *.
  unfold mbind, handler_bind. rewrite E1. cbn [obind].
  assert (Q x) as Hx.
  { unfold in_state in E1. destruct (with_allocator_answer namespace f Q w.2 HQ) as ([y g] & E2 & Hy).
    rewrite E2 in E1. by injection E1 as <- _. }
  destruct (Hk x Hx w1 Hw1 (has_rooms_keeps _ _ _ Hr Hk1)) as (r & -> & Hw2 & Hk2).
  apply yields_Done. split; [done|]. intros a n Ha. auto.
Qed.

Lemma zlen_allocate n A i (s : A) : zlen (allocate n i s).1 = Z.of_nat n.
Proof.
  revert s. induction n as [|n IH]; intros s; cbn [allocate]; [done|].
  destruct (AllocateID s) as [id s']. specialize (IH s'). destruct (allocate n i s') as [ids s'']. cbn [fst] in *.
  rewrite zlen_cons. lia.
Qed.

Lemma zlen_allocate_above n id_offset A i (s : A) : zlen (allocate_above n id_offset i s).1 = Z.of_nat n.
Proof.
  revert id_offset s. induction n as [|n IH]; intros o s; cbn [allocate_above]; [done|].
  destruct (AllocateIDAtOrAbove o s) as [id s']. specialize (IH (u32 (id + 1)) s').
  destruct (allocate_above n _ i s') as [ids s'']. cbn [fst] in *. rewrite zlen_cons. lia.
Qed.

Lemma load_each_fine rooms a o size n :
  (a, size) ∈ rooms -> 0 <= o -> o + 4 * Z.of_nat n <= size -> fine rooms (load_each n (address_at a o)).
Proof.
  intros Ha. revert o. induction n as [|n IH]; intros o Ho Hn; cbn [load_each]; [apply fine_ret|].
  apply fine_bind; [eapply fine_load_at; [done|lia..]|]. intros x. apply fine_bind; [|intros; apply fine_ret].
  replace (address_at (address_at a o) 4) with (address_at a (o + 4)) by (destruct a; unfold address_at; cbn; f_equal; lia).
  apply IH; lia.
Qed.

(** The client's words are [n] ids; the namespace is there. *)
Lemma in_namespace_fine rooms namespace_id n shm_id shm_offset Do :
  is_u32 shm_offset -> is_i32 n -> (0 < n -> is_Some (GetIdAllocator namespace_id)) ->
  (forall namespace a rooms, 0 < n -> (a, n * 4) ∈ rooms -> fine rooms (Do namespace (Z.to_nat n) a)) ->
  fine rooms (in_namespace namespace_id n shm_id shm_offset Do).
Proof.
  intros Ho Hn Hns Hd. unfold in_namespace. pose proof (u32_range n) as Hu.
  rewrite SafeMultiplyUint32_exact by (done || (unfold is_u32; lia)).
  destruct (u32 n * 4 <? 2 ^ 32) eqn:El; cbn [negb]; [|apply fine_ret]. zbool.
  apply fine_address; [done|unfold is_u32 in *; lia| |case_match; auto with fine]. intros a.
  case_match; [apply fine_failing|]. case_match; [apply fine_ret|]. zbool.
  apply fine_the. destruct (Hns ltac:(lia)) as [ns Hs]. exists ns. split; [done|].
  apply fine_done, Hd; [lia|]. rewrite u32_id by (unfold is_u32, is_i32 in *; lia). by left.
Qed.

Lemma HandleGenSharedIds_fine rooms namespace_id id_offset n shm_id shm_offset :
  is_u32 shm_offset -> is_i32 n -> (0 < n -> is_Some (GetIdAllocator namespace_id)) ->
  fine rooms (HandleGenSharedIdsCHROMIUM namespace_id id_offset n shm_id shm_offset).
Proof.
  intros Ho Hn Hns. apply in_namespace_fine; [done..|]. intros namespace a rooms' Hp Ha.
  apply fine_with_allocator_bind with (Q := fun ids => zlen ids = n).
  - intros A i s. case_match; [rewrite zlen_allocate|rewrite zlen_allocate_above]; lia.
  - intros ids Hids. eapply fine_store; [done|lia].
Qed.

Lemma HandleDeleteSharedIds_fine rooms namespace_id n shm_id shm_offset :
  is_u32 shm_offset -> is_i32 n -> (0 < n -> is_Some (GetIdAllocator namespace_id)) ->
  fine rooms (HandleDeleteSharedIdsCHROMIUM namespace_id n shm_id shm_offset).
Proof.
  intros Ho Hn Hns. apply in_namespace_fine; [done..|]. intros namespace a rooms' Hp Ha.
  apply fine_bind; [rewrite <- (address_at_0 a); eapply load_each_fine; [done|lia..]|]. intros ids.
  apply fine_with_allocator.
Qed.

Lemma HandleRegisterSharedIds_fine rooms namespace_id n shm_id shm_offset :
  is_u32 shm_offset -> is_i32 n -> (0 < n -> is_Some (GetIdAllocator namespace_id)) ->
  fine rooms (HandleRegisterSharedIdsCHROMIUM namespace_id n shm_id shm_offset).
Proof.
  intros Ho Hn Hns. apply in_namespace_fine; [done..|]. intros namespace a rooms' Hp Ha.
  apply fine_bind; [rewrite <- (address_at_0 a); eapply load_each_fine; [done|lia..]|]. intros ids.
  apply fine_bind; [apply fine_with_allocator|]. intros ok.
  case_match; [apply fine_ret|]. apply fine_modify. intros g. apply good_noted.
Qed.

(** *** Features *)

Lemma enable_feature_good feature g :
  translators_ready env = true -> state_good g -> yields (fun r => state_good r.2) (enable_feature cfg env feature g).
Proof.
  intros Ht Hg. unfold enable_feature. cbv zeta.
  assert (state_good (with_vertices [] (AllowMultipleTargets (vertices g)) g)) as Hm.
  { apply good_with_vertices; [done| |done]. apply AllowMultipleTargets_ok, Hg. }
  case_match; [by apply yields_Done|]. case_match.
  { apply yields_Done, good_with_enabled; [done|]. cbn [with_fixed vertex_attrib_types].
    apply list_subseteq_app_iff_l. split; [apply Hg|]. intros x ->%list_elem_of_singleton. by left. }
  case_match; [|by apply yields_Done]. unfold InitializeShaderTranslator. rewrite Ht. cbv zeta.
  case_match; cbn [obind]; apply yields_Done, good_with_enabled; (apply good_with_enabled; [done|]) || idtac; apply Hg.
Qed.

Lemma HandleEnableFeature_fine rooms bucket_id shm_id shm_offset :
  is_u32 shm_offset -> translators_ready env = true ->
  fine rooms (HandleEnableFeatureCHROMIUM cfg env bucket_id shm_id shm_offset).
Proof.
  intros Ho Ht. unfold HandleEnableFeatureCHROMIUM.
  eapply (fine_ask_bind _ _ _ _ _ _ (fun b => forall b', b = Some b' -> bucket_ok b')).
  { intros d Hd _. apply yields_Done. intros b Hb. by eapply decoder_buckets. }
  intros [b|] Hb; [|apply fine_ret]. case_match; [apply fine_ret|].
  apply fine_address; [done|unfold is_u32; lia| |apply fine_ret]. intros a.
  apply fine_bind; [eapply fine_load; [by left|lia]|]. intros word. case_match; [apply fine_ret|].
  apply fine_bind.
  { apply fine_ask. intros d _ _. destruct (GetAsString_ok b (Hb b eq_refl)) as (r & -> & _). by apply yields_Done. }
  intros [feature|]; [|apply fine_ret].
  apply fine_bind; [apply fine_in_state; intros g Hg; by apply enable_feature_good|]. intros known.
  case_match; [|apply fine_ret]. apply fine_done. eapply fine_store; [by left|]. unfold zlen. simpl. lia.
Qed.

End safety.
