(* ===== verification/DrawCalls.v ===== *)
(** * Draw calls

    [HandleDrawArrays] and [HandleDrawElements] of
    [gpu/command_buffer/service/gles2_cmd_decoder.cc], whole: the checks of [DrawValidation.v],
    the buffers that stand in for attribute 0 and for attributes of type [GL_FIXED] where the
    driver is not one of OpenGL ES, the black textures of [DrawTextures.v], the masks, and the
    driver's state given back afterwards. *)

From S2P Require Import Prelude CmdFormat CommandBufferService CommonDecoder.
From Stdlib Require Import ZArith Lia ZifyBool Bool String.
From stdpp Require Import base numbers option gmap list.
From S2P Require Import Floats GLConstants Validators GLES2Util FeatureInfo IdAllocator BufferManager VertexAttribManager.
From S2P Require Import TextureInfo TextureManager.
From S2P Require Import DrawValidation VertexSafety ShaderManager ProgramManager ProgramInvariant ProgramDecoder ContextState.
From S2P Require Import ContextInvariant FramebufferDecoder ProgramQueries ProgramSafety ProgramCommands DrawTextures.
From S2P Require Import DecoderState HandlerSafety.
Local Open Scope Z_scope.

Section draw.
Context `{Platform} {E : Type} `{CommandBufferEngine E}.
Variables (cfg : Config) (lim : GroupLimits) (env : DecoderAnswers).
Implicit Types (g : GLES2State).
Notation Handler := (Handler E).
Notation own := (negb (ContextState.egl_gles2 cfg)).

(** ** The program in use *)

Definition with_current_program {A} (f : ProgramInfo -> outcome A) g : outcome A :=
  (do a <- of_option (current_program_ (program_state g)) ;;
   do p <- program a (program_manager (program_state g)) ;; f p)%gpu.

(** [current_program_->GetAttribInfoByLocation(location) != NULL] *)
Definition attrib_used g (location : Z) : outcome bool :=
  with_current_program (fun p =>
    do info <- GetAttribInfoByLocation location p ;; Done (bool_decide (is_Some info)))%gpu g.

Definition current_attribs g : CurrentProgram :=
  match current_program_ (program_state g) with
  | None => None
  | Some _ => Some (attrib_used g)
  end.

(** ** Attribute 0 *)

Definition emit (call : DrawValidation.GLCall) : GLES2State -> GLES2State := emit_call (OfVertices call).

Definition bind_array_buffer (service_id : Z) : GLES2State -> GLES2State := emit (glBindBuffer GL_ARRAY_BUFFER service_id).

Definition Vec4_list (v : Vec4) : list Z := let '(x, y, z, w) := v in [x; y; z; w].

(** Whether no component differs, as floating point numbers. *)
Definition Vec4_eqb (v w : Vec4) : bool := forallb (fun '(x, y) => float_eqb x y) (zip (Vec4_list v) (Vec4_list w)).

(** The bytes of [n] copies. *)
Definition Vec4s (n : nat) (v : Vec4) : list Z := words_to_bytes (mjoin (replicate n (Vec4_list v))).

Definition mismatched (s : Simulation) : Simulation :=
  mkSimulation (attrib_0_buffer_id_ s) false (attrib_0_value_ s) (attrib_0_size_ s) (fixed_attrib_buffer_id_ s)
    (fixed_attrib_buffer_size_ s).

Definition filled (value : Vec4) (size : Z) (s : Simulation) : Simulation :=
  mkSimulation (attrib_0_buffer_id_ s) true value size (fixed_attrib_buffer_id_ s) (fixed_attrib_buffer_size_ s).

(** [SimulateAttrib0]: [None] is the answer [false], or else the answer is whether the buffer
    stands in. *)
Definition SimulateAttrib0 (max_vertex_accessed : Z) g : outcome (option bool * GLES2State) :=
  if ContextState.egl_gles2 cfg then Done (Some false, g)
  else
    (do info <- of_option (GetVertexAttribInfo 0 (vertex_attrib_manager_ (vertices g))) ;;
     do attrib_0_used <- attrib_used g 0 ;;
     if enabled_ info && attrib_0_used then Done (Some false, g)
     else
       let num_vertices := u32 (max_vertex_accessed + 1) in
       let '(ok, size_needed) := SafeMultiplyUint32 num_vertices 16 in
       if (num_vertices =? 0) || negb ok || (size_needed >? 2147483647)
       then Done (None, SetGLError GL_OUT_OF_MEMORY g)
       else
         let g := bind_array_buffer (attrib_0_buffer_id_ (simulation g)) (CopyRealGLErrorsToWrapper env g) in
         let grow := i32 size_needed >? attrib_0_size_ (simulation g) in
         let g := if grow then emit (glBufferDataNULL GL_ARRAY_BUFFER size_needed GL_DYNAMIC_DRAW) g else g in
         if grow && negb (attrib_0_error env =? GL_NO_ERROR) then Done (None, SetGLError GL_OUT_OF_MEMORY g)
         else
           let g := if grow then with_simulation (mismatched (simulation g)) g else g in
           let value := value_ info in
           let stale := negb (attrib_0_buffer_matches_value_ (simulation g))
                        || negb (Vec4_eqb value (attrib_0_value_ (simulation g))) in
           let g := if attrib_0_used && stale
                    then with_simulation (filled value size_needed (simulation g))
                           (emit (glBufferSubData GL_ARRAY_BUFFER 0 size_needed (Vec4s (Z.to_nat num_vertices) value)) g)
                    else g in
           Done (Some true, emit (DrawValidation.glVertexAttribPointer 0 4 GL_FLOAT GL_FALSE 0 0) g))%gpu.

(** The service's name of a buffer that is held; zero is none. *)
Definition buffer_service_id (buffer : option Z) g : outcome Z :=
  match buffer with
  | None => Done 0
  | Some a => (do b <- object a (vertices g) ;; Done (BufferManager.service_id_ b))%gpu
  end.

Definition bind_client_buffer g : outcome GLES2State :=
  (do id <- buffer_service_id (bound_array_buffer_ (vertices g)) g ;; Done (bind_array_buffer id g))%gpu.

Definition RestoreStateForSimulatedAttrib0 g : outcome GLES2State :=
  (do info <- of_option (GetVertexAttribInfo 0 (vertex_attrib_manager_ (vertices g))) ;;
   do id <- buffer_service_id (VertexAttribManager.buffer_ info) g ;;
   let g := bind_array_buffer id g in
   bind_client_buffer
     (emit (DrawValidation.glVertexAttribPointer 0 (va_size_ info) (VertexAttribManager.type_ info) (normalized_ info) (gl_stride_ info)
              (offset_ info)) g))%gpu.

(** ** Attributes of type [GL_FIXED] *)

(** The enabled attributes that are converted. *)
Fixpoint fixed_attribs (max_vertex_accessed : Z) (indices : list Z) g : outcome (list VertexAttribInfo) :=
  match indices with
  | [] => Done []
  | it :: indices =>
      (do info <- of_option (zget (vertex_attrib_infos_ (vertex_attrib_manager_ (vertices g))) it) ;;
       do attrib_info <- attrib_used g (va_index_ info) ;;
       do rest <- fixed_attribs max_vertex_accessed indices g ;;
       Done (if attrib_info && CanAccess (objects (buffer_manager (vertices g))) max_vertex_accessed info
                && (VertexAttribManager.type_ info =? GL_FIXED)
             then info :: rest else rest))%gpu
  end.

(** The floats of all of them, if they can be counted. *)
Fixpoint elements_needed (num_vertices : Z) (infos : list VertexAttribInfo) (sum : Z) : option Z :=
  match infos with
  | [] => Some sum
  | info :: infos =>
      let '(ok, used) := SafeMultiplyUint32 num_vertices (u32 (va_size_ info)) in
      let '(ok', sum) := SafeAddUint32 sum used in
      if negb (ok && ok') then None else elements_needed num_vertices infos sum
  end.

(** A 16.16 number as a float: an [int] that is not zero is at least 1 as a float, and its
    exponent has room for the division by 65536. *)
Definition float_of_fixed (n : Z) : Z := if n =? 0 then 0 else float_of_int n - 16 * 2 ^ 23.

(** The pointer to the shadow of the buffer can be null, and four vertices are read, whatever
    the number of vertices is; what is not written of the array is not set. *)
Definition fixed_data (num_vertices : Z) (info : VertexAttribInfo) g : outcome (Z * list Z) :=
  let num_elements := va_size_ info * 4 in
  let size := i32 (u32 (num_elements * num_vertices)) in
  (do a <- of_option (VertexAttribManager.buffer_ info) ;;
   do b <- object a (vertices g) ;;
   do start <- of_option (GetRange (offset_ info) size b) ;;
   do shadow <- of_option (shadow_ b) ;;
   do bytes <- of_option (zread shadow start (4 * num_elements)) ;;
   let floats := (float_of_fixed ∘ i32) <$> bytes_to_words bytes in
   Done (size, words_to_bytes (resize (Z.to_nat (size / 4)) (uninitialized env) floats)))%gpu.

Fixpoint convert_fixed (num_vertices offset : Z) (infos : list VertexAttribInfo) g : outcome GLES2State :=
  match infos with
  | [] => Done g
  | info :: infos =>
      (do (size, data) <- fixed_data num_vertices info g ;;
       let g := emit (glBufferSubData GL_ARRAY_BUFFER offset size data) g in
       let g := emit (DrawValidation.glVertexAttribPointer (va_index_ info) (va_size_ info) GL_FLOAT GL_FALSE 0 offset) g in
       convert_fixed num_vertices (offset + size) infos g)%gpu
  end.

Definition SimulateFixedAttribs (max_vertex_accessed : Z) g : outcome (option bool * GLES2State) :=
  let m := vertex_attrib_manager_ (vertices g) in
  if ContextState.egl_gles2 cfg then Done (Some false, g)
  else if negb (HaveFixedAttribs m) then Done (Some false, g)
  else
    let out_of_memory g := Done (None, SetGLError GL_OUT_OF_MEMORY g) in
    let num_vertices := u32 (max_vertex_accessed + 1) in
    if num_vertices =? 0 then out_of_memory g
    else
      (do infos <- fixed_attribs max_vertex_accessed (enabled_vertex_attribs_ m) g ;;
       match elements_needed num_vertices infos 0 with
       | None => out_of_memory g
       | Some elements =>
           let '(ok, size_needed) := SafeMultiplyUint32 elements 4 in
           if negb ok || (size_needed >? 2147483647) then out_of_memory g
           else
             let g := bind_array_buffer (fixed_attrib_buffer_id_ (simulation g)) (CopyRealGLErrorsToWrapper env g) in
             let grow := i32 size_needed >? fixed_attrib_buffer_size_ (simulation g) in
             let g := if grow then emit (glBufferDataNULL GL_ARRAY_BUFFER size_needed GL_DYNAMIC_DRAW) g else g in
             if grow && negb (fixed_attrib_error env =? GL_NO_ERROR) then out_of_memory g
             else do g <- convert_fixed num_vertices 0 infos g ;; Done (Some true, g)
       end)%gpu.

Definition RestoreStateForSimulatedFixedAttribs : GLES2State -> outcome GLES2State := bind_client_buffer.

(** ** The handlers *)

(** A change of the state that answers nothing. *)
Definition change (f : GLES2State -> outcome GLES2State) : Handler () :=
  in_state (fun g => do g <- f g ;; Done ((), g))%gpu.

Definition black_textures g : outcome (bool * GLES2State) :=
  with_current_program (fun p => in_context (SetBlackTextureForNonRenderableTextures cfg p) g) g.

Definition restore_textures g : outcome GLES2State :=
  with_current_program (fun p =>
    do c <- RestoreStateForNonRenderableTextures cfg p (context g) ;; Done (with_context c g))%gpu g.

(** [WasContextLost]; the reset status is what the driver answered. *)
Definition WasContextLost : bool := has_arb_robustness lim && negb (graphics_reset_status env =? GL_NO_ERROR).

(** What both handlers do with a draw that is valid. *)
Definition draw (max_vertex_accessed : Z) (call : DrawValidation.GLCall) : Handler Error :=
  simulated_attrib_0 ← in_state (SimulateAttrib0 max_vertex_accessed);
  match simulated_attrib_0 with
  | None => mret kNoError
  | Some simulated_attrib_0 =>
      simulated_fixed_attribs ← in_state (SimulateFixedAttribs max_vertex_accessed);
      match simulated_fixed_attribs with
      | None => mret ()
      | Some simulated_fixed_attribs =>
          textures_set ← in_state black_textures;
          in_state (change_context (ApplyDirtyState cfg)) ;;
          modify (emit call) ;;
          (if textures_set : bool then change restore_textures else mret ()) ;;
          (if simulated_fixed_attribs : bool then change RestoreStateForSimulatedFixedAttribs else mret ())
      end ;;
      (if simulated_attrib_0 : bool then change RestoreStateForSimulatedAttrib0 else mret ()) ;;
      mret (if WasContextLost then kLostContext else kNoError)
  end.

Definition draw_if (max_vertex_accessed : option Z) (call : DrawValidation.GLCall) : Handler Error :=
  match max_vertex_accessed with
  | None => mret kNoError
  | Some max_vertex_accessed => draw max_vertex_accessed call
  end.

Definition HandleDrawArrays (mode first count : Z) : Handler Error :=
  if negb (is_case mode valid_draw_mode_table) then failing GL_INVALID_ENUM
  else if count <? 0 then failing GL_INVALID_VALUE
  else
    complete ← in_state (in_context CheckFramebufferComplete);
    if negb complete then mret kNoError
    else
      g ← gets id;
      max ← in_state (check_vertices (arrays_in_range (current_attribs g) first count));
      draw_if max (glDrawArrays mode first count).

(** The buffer of the indices, if there is one that is not deleted. *)
Definition element_array_buffer g : outcome (option Z) :=
  match bound_element_array_buffer_ (vertices g) with
  | None => Done None
  | Some a => (do b <- object a (vertices g) ;; Done (if IsDeleted b then None else Some a))%gpu
  end.

Definition HandleDrawElements (mode count type offset : Z) : Handler Error :=
  indices ← in_state (fun g => do a <- element_array_buffer g ;; Done (a, g))%gpu;
  match indices with
  | None => failing GL_INVALID_OPERATION
  | Some a =>
      if count <? 0 then failing GL_INVALID_VALUE
      else if offset <? 0 then failing GL_INVALID_VALUE
      else if negb (is_case mode valid_draw_mode_table) then failing GL_INVALID_ENUM
      else if negb (is_case type valid_index_type_table) then failing GL_INVALID_ENUM
      else
        complete ← in_state (in_context CheckFramebufferComplete);
        if negb complete then mret kNoError
        else
          g ← gets id;
          max ← in_state (check_vertices (elements_in_range (current_attribs g) a count type offset));
          draw_if max (glDrawElements mode count type offset)
  end.

End draw.

(** ** Safety *)

Section safety.
Context `{Platform} {E : Type} `{CommandBufferEngine E} (engine_ok : E -> Prop) (engine_entries : E -> Z).
Variables (cfg : Config) (lim : GroupLimits) (env : DecoderAnswers).
Implicit Types (g : GLES2State).
Notation Handler := (Handler E).
Notation state_good := (state_good cfg lim).
Notation fine := (fine engine_ok engine_entries cfg lim).
Notation fine_if := (fine_if engine_ok engine_entries cfg lim).

Hypothesis some_attribs : 0 < max_vertex_attribs lim.

(** The driver takes [GL_FIXED], or there is no attribute of that type. *)
Definition no_fixed g : Prop :=
  ContextState.egl_gles2 cfg = true \/ HaveFixedAttribs (vertex_attrib_manager_ (vertices g)) = false.

Definition drawable g : Prop := no_fixed g /\ is_Some (current_program_ (program_state g)).

Lemma current_program_ok {A} (f : ProgramInfo -> outcome A) (Q : A -> Prop) g :
  state_good g -> is_Some (current_program_ (program_state g)) -> (forall p, inputs_ok (inputs p) -> yields Q (f p)) ->
  yields Q (with_current_program f g).
Proof.
  intros Hg [a Ha] Hf. unfold with_current_program. rewrite Ha. cbn [of_option obind].
  destruct (current_program _ (good_programs _ _ _ Hg) a Ha) as (p & Hp & _ & _ & Hi). unfold program. rewrite Hp.
  by apply Hf.
Qed.

Lemma GetAttribInfoByLocation_ok p location :
  inputs_ok (inputs p) -> 0 <= location -> yields (fun _ => True) (GetAttribInfoByLocation location p).
Proof.
  intros Hi Hl. unfold GetAttribInfoByLocation. case_match; [|by apply yields_Done]. zbool.
  destruct (zget_in (attrib_location_to_index_map_ (inputs p)) location) as [k Hk]; [lia|]. rewrite Hk. cbn [of_option obind].
  case_match; [|by apply yields_Done]. zbool. destruct (inputs_attribs _ Hi _ _ Hk) as [->|Hr]; [lia|].
  destruct (zget_in (attrib_infos_ (inputs p)) k Hr) as [i ->]. by apply yields_Done.
Qed.

Lemma attrib_used_ok g location :
  state_good g -> is_Some (current_program_ (program_state g)) -> 0 <= location ->
  yields (fun _ => True) (attrib_used g location).
Proof.
  intros Hg Hc Hl. apply current_program_ok; [done..|]. intros p Hp.
  destruct (GetAttribInfoByLocation_ok p location Hp Hl) as (i & -> & _). by apply yields_Done.
Qed.

Lemma current_attribs_total g : state_good g -> program_total (current_attribs g).
Proof.
  intros Hg used Hu location Hl. unfold current_attribs in Hu. destruct (current_program_ _) eqn:Ea; [|done].
  injection Hu as <-. destruct (attrib_used_ok g location Hg) as (b & Hb & _); [by rewrite Ea|done|]. by exists b.
Qed.

Definition draw_call (call : DriverCall) : bool :=
  match call with OfVertices (glDrawArrays _ _ _) | OfVertices (glDrawElements _ _ _ _) => true | _ => false end.

(** The driver was asked for no draw in between. *)
Definition draws_nothing g g' : Prop :=
  exists calls, driver_calls g' = driver_calls g ++ calls /\ forallb (fun call => negb (draw_call call)) calls = true.

(** A step of a draw that leaves alone what the draw depends on. *)
Record aside g g' : Prop := {
  aside_draws : draws_nothing g g';
  aside_attribs : vertex_attrib_manager_ (vertices g') = vertex_attrib_manager_ (vertices g);
  aside_programs : program_state g' = program_state g;
}.

Definition program_in_use g : option ProgramInfo :=
  a ← current_program_ (program_state g); programs (program_manager (program_state g)) !! a.

(** The textures of a draw are bound. *)
Record prepared g g' : Prop := {
  prepared_aside : aside g g';
  prepared_binds : only_binds (context g) (context g');
  prepared_samplers p : program_in_use g = Some p -> samplers_prepared cfg p (context g) (context g');
}.

(** The state [g'] at the moment of a draw that began in [g]. *)
Record at_draw g g' : Prop := {
  at_aside : aside g g';
  at_bindings : bindings (context g') = bindings (context g);
  at_saved : saved (context g') = saved (context g);
  at_group : group (context g') = group (context g);
  at_samplers p : program_in_use g = Some p -> samplers_prepared cfg p (context g) (context g');
  at_clear : driver_clear (ContextState.gl_calls (context g')) = wanted_clear (saved (context g'));
  at_masks : masks_current cfg (context g) ->
    wanted_masks cfg (context g') = Done (driver_masks (ContextState.gl_calls (context g')));
}.

(** There was one draw. *)
Definition drew (call : DrawValidation.GLCall) g g' : Prop :=
  exists g1 after, at_draw g g1 /\ driver_calls g' = driver_calls g1 ++ OfVertices call :: after /\
    forallb (fun call => negb (draw_call call)) after = true.

Definition drawn_at_most (call : DrawValidation.GLCall) g g' : Prop := draws_nothing g g' \/ drew call g g'.

Lemma draws_nothing_refl g : draws_nothing g g.
Proof. exists []. by rewrite app_nil_r. Qed.

Lemma draws_nothing_trans g1 g2 g3 : draws_nothing g1 g2 -> draws_nothing g2 g3 -> draws_nothing g1 g3.
Proof. intros (l & E1 & H1) (l' & E2 & H2). exists (l ++ l'). by rewrite E2, E1, app_assoc, forallb_app, H1, H2. Qed.

Lemma draws_nothing_noted errors calls g :
  forallb (fun call => negb (draw_call call)) calls = true -> draws_nothing g (noted errors calls g).
Proof. by exists calls. Qed.

Lemma draws_nothing_context c g : draws_nothing g (with_context c g).
Proof.
  eexists. split; [reflexivity|]. generalize (since (ContextState.gl_calls (context g)) (ContextState.gl_calls c)) as l.
  by induction l.
Qed.

Lemma aside_refl g : aside g g.
Proof. split; [apply draws_nothing_refl|done..]. Qed.

Lemma aside_trans g1 g2 g3 : aside g1 g2 -> aside g2 g3 -> aside g1 g3.
Proof. intros [H1 E1 F1] [H2 E2 F2]. split; [by eapply draws_nothing_trans|congruence..]. Qed.

Lemma aside_context c g : aside g (with_context c g).
Proof. split; [apply draws_nothing_context|done..]. Qed.

Lemma aside_noted errors calls g : forallb (fun call => negb (draw_call call)) calls = true -> aside g (noted errors calls g).
Proof. intros Hc. split; [by apply draws_nothing_noted|done..]. Qed.

Lemma aside_simulation s g : aside g (with_simulation s g).
Proof. split; [exists []; by rewrite app_nil_r|done..]. Qed.

Lemma drawable_aside g g' : drawable g -> aside g g' -> drawable g'.
Proof. unfold drawable, no_fixed. by intros ? [_ -> ->]. Qed.

Lemma drew_aside call g g1 g2 : drew call g g1 -> draws_nothing g1 g2 -> drew call g g2.
Proof.
  intros (g' & l & Ha & E1 & Hl) (l' & E2 & Hl'). exists g', (l ++ l'). split; [done|].
  by rewrite E2, E1, <- app_assoc, forallb_app, Hl, Hl'.
Qed.

(** Notes and changes of the simulation, one after the other. *)
Ltac asides :=
  unfold SetGLError, bind_array_buffer, emit, CopyRealGLErrorsToWrapper, emit_call;
  repeat first
    [ apply aside_refl
    | eapply aside_trans; [|first [apply aside_noted; reflexivity | apply aside_simulation | apply aside_context]] ].

(** *** Attribute 0 *)

Lemma good_emit call g : state_good g -> state_good (emit call g).
Proof. apply good_noted. Qed.

Lemma attrib_0 g : state_good g ->
  exists info, GetVertexAttribInfo 0 (vertex_attrib_manager_ (vertices g)) = Some info /\ held (vertices g) (VertexAttribManager.buffer_ info).
Proof.
  intros Hg. pose proof (dec_attribs _ (good_vertices _ _ _ Hg)) as Hat. pose proof (good_attribs _ _ _ Hg) as Hm.
  unfold max_attribs in Hm. unfold GetVertexAttribInfo. rewrite Hm. btrue (0 <? max_vertex_attribs lim).
  destruct (zget_in (vertex_attrib_infos_ (vertex_attrib_manager_ (vertices g))) 0) as [info Hi].
  { rewrite (attribs_length _ _ Hat). lia. }
  exists info. split; [done|]. by destruct (attribs_index _ _ Hat _ _ Hi) as (_ & _ & Hh).
Qed.

Lemma SimulateAttrib0_ok max g :
  state_good g -> is_Some (current_program_ (program_state g)) ->
  yields (fun r => state_good r.2 /\ aside g r.2 /\ context r.2 = context g) (SimulateAttrib0 cfg env max g).
Proof.
  intros Hg Hc. unfold SimulateAttrib0. case_match; [by apply yields_Done; split; [|split; [apply aside_refl|]]|].
  destruct (attrib_0 g Hg) as (info & Hi & _). rewrite Hi. cbn [of_option obind].
  destruct (attrib_used_ok g 0 Hg Hc ltac:(lia)) as (used & -> & _). cbn [obind].
  case_match; [by apply yields_Done; split; [|split; [apply aside_refl|]]|]. destruct (SafeMultiplyUint32 _ _) as [ok size].
  case_match; [apply yields_Done; split; [by apply good_noted|split; [asides|done]]|]. cbv zeta.
  repeat case_match; apply yields_Done; cbn [fst snd]; (split; [|split; [asides|done]]);
    unfold SetGLError, bind_array_buffer, emit, CopyRealGLErrorsToWrapper, emit_call;
    repeat first [done | apply good_noted | apply good_with_simulation].
Qed.

Lemma buffer_service_id_ok buffer g : held (vertices g) buffer -> yields (fun _ => True) (buffer_service_id buffer g).
Proof.
  intros Hh. unfold buffer_service_id. destruct buffer as [a|]; [|by apply yields_Done].
  destruct (Hh a eq_refl) as [b Hb]. unfold object. rewrite Hb. by apply yields_Done.
Qed.

Lemma bind_client_buffer_ok g : state_good g -> yields (fun g' => state_good g' /\ draws_nothing g g') (bind_client_buffer g).
Proof.
  intros Hg. unfold bind_client_buffer.
  destruct (buffer_service_id_ok (bound_array_buffer_ (vertices g)) g) as (id & -> & _); [apply dec_array, (good_vertices _ _ _ Hg)|].
  apply yields_Done. split; [by apply good_emit|by apply draws_nothing_noted].
Qed.

Lemma RestoreStateForSimulatedAttrib0_ok g :
  state_good g -> yields (fun g' => state_good g' /\ draws_nothing g g') (RestoreStateForSimulatedAttrib0 g).
Proof.
  intros Hg. unfold RestoreStateForSimulatedAttrib0. destruct (attrib_0 g Hg) as (info & -> & Hh). cbn [of_option obind].
  destruct (buffer_service_id_ok _ g Hh) as (id & -> & _). cbn [obind].
  edestruct bind_client_buffer_ok as (g' & -> & Hg' & Hd); [by apply good_emit, good_emit|].
  apply yields_Done. split; [done|]. eapply draws_nothing_trans; [|exact Hd].
  eapply draws_nothing_trans; by apply draws_nothing_noted.
Qed.

(** *** Fixed numbers *)

Lemma SimulateFixedAttribs_none max g : no_fixed g -> SimulateFixedAttribs cfg env max g = Done (Some false, g).
Proof. unfold SimulateFixedAttribs. intros [->| ->]; [done|]. cbn [negb]. by case_match. Qed.

(** *** Textures *)

Lemma black_textures_ok g0 g :
  state_good g -> is_Some (current_program_ (program_state g)) -> aside g0 g -> context g = context g0 ->
  yields (fun r => state_good r.2 /\ prepared g0 r.2) (black_textures cfg g).
Proof.
  intros Hg [a Ha] Hs Hc. unfold black_textures, with_current_program. rewrite Ha. cbn [of_option obind].
  destruct (current_program _ (good_programs _ _ _ Hg) a Ha) as (p & Hp & _ & _ & Hi). unfold program. rewrite Hp.
  unfold in_context. cbn [of_option obind].
  destruct (SetBlackTextures_exact cfg p _ (good_context _ _ _ Hg) Hi) as (set & c & -> & Hb & _ & _ & Hx). cbn [obind].
  apply yields_Done. split.
  - apply good_with_context; [done|]. eapply only_binds_ok; [apply Hg|done].
  - split; [eapply aside_trans; [exact Hs|apply aside_context]|by rewrite <- Hc|].
    intros p' Hp'. unfold program_in_use in Hp'. rewrite <- (aside_programs _ _ Hs), Ha in Hp'. cbn in Hp'.
    rewrite Hp in Hp'. injection Hp' as <-. unfold samplers_prepared. by rewrite <- Hc.
Qed.

Lemma restore_textures_ok g :
  state_good g -> is_Some (current_program_ (program_state g)) ->
  yields (fun g' => state_good g' /\ draws_nothing g g') (restore_textures cfg g).
Proof.
  intros Hg Hc. apply current_program_ok; [done..|]. intros p Hp.
  destruct (restore_all cfg p _ (good_context _ _ _ Hg) Hp) as (c & -> & Hb & _). cbn [obind].
  apply yields_Done. split; [|apply draws_nothing_context]. apply good_with_context; [done|].
  eapply only_binds_keeps; [apply Hg|done].
Qed.

(** *** Masks *)

(** No texture is bound by the calls that set masks. *)
Lemma ApplyDirtyState_sampled c c' : ApplyDirtyState cfg c = Done c' -> forall i t, sampled c' i t = sampled c i t.
Proof.
  unfold ApplyDirtyState, EnableDisable. destruct (state_dirty_ c); [|by intros [= <-]].
  destruct (BoundFramebufferHasColorAttachmentWithAlpha cfg c) as [alpha| |]; [|done..]. cbn [obind].
  destruct (BoundFramebufferHasDepthAttachment cfg _) as [depth| |]; [|done..]. cbn [obind].
  destruct (BoundFramebufferHasStencilAttachment cfg _) as [stencil| |]; [|done..]. cbn [obind].
  intros [= <-] i t. unfold sampled. cbn [ContextState.gl_calls gl with_dirty]. rewrite !driver_app.
  by destruct (enable_depth_test_ _ && _), (enable_stencil_test_ _ && _).
Qed.

Lemma dirty_at_draw g0 g :
  state_good g0 -> state_good g -> prepared g0 g ->
  yields (fun r => state_good r.2 /\ at_draw g0 r.2) (change_context (ApplyDirtyState cfg) g).
Proof.
  intros Hg0 Hg [Ha Hb Hp]. unfold change_context.
  destruct (ApplyDirtyState_ok cfg _ (good_context _ _ _ Hg)) as (calls & E1 & Hok & Hm). rewrite E1. cbn [obind].
  pose proof (only_binds_keeps cfg _ _ (good_context _ _ _ Hg0) Hb) as [_ Hk].
  apply yields_Done. split; [by apply good_with_context, context_ok_dirty|].
  destruct (only_binds_same _ _ Hb) as [Hbb Hbg]. split.
  - eapply aside_trans; [exact Ha|apply aside_context].
  - exact Hbb.
  - cbn. by destruct Hb as (l & -> & _).
  - exact Hbg.
  - intros p Hpp index type Ht. rewrite <- (Hp p Hpp index type Ht). by apply ApplyDirtyState_sampled.
  - apply (ctx_clear _ _ Hok).
  - intros Hc. cbn. exact (Hm (Hk Hc)).
Qed.

(** *** The handlers *)

(** A state of which [P] and [Q] are so. *)
Notation both P Q := (fun g => P g /\ Q g).

Lemma nothing_more_fine (Q : GLES2State -> Prop) rooms (b : bool) (f : GLES2State -> outcome GLES2State) :
  (forall g, Q g -> state_good g -> yields (fun g' => state_good g' /\ Q g') (f g)) ->
  fine_if Q rooms (if b then change f else mret ()) (fun _ => Q).
Proof.
  intros Hf. destruct b; [|eapply fine_if_post; [|apply fine_if_ret]; by intros ? ? []].
  apply fine_if_state. intros g Hq Hg. destruct (Hf g Hq Hg) as (g' & -> & Hg'). by apply yields_Done.
Qed.

(** The driver draws, and has the textures back. *)
Lemma with_textures_fine g0 rooms (set : bool) call :
  state_good g0 ->
  fine_if (both drawable (prepared g0)) rooms
    (in_state (change_context (ApplyDirtyState cfg)) ;; modify (emit call) ;;
     (if set then change (restore_textures cfg) else mret ()) ;; mret ()) (fun _ => drew call g0).
Proof.
  intros Hg0. eapply (fine_if_bind _ _ _ _ _ (fun _ => both drawable (at_draw g0))).
  { apply fine_if_state. intros g [Hd Hp] Hg. destruct (dirty_at_draw g0 g Hg0 Hg Hp) as (r & Er & Hr & Ha). rewrite Er.
    apply yields_Done. split; [done|]. split; [|done]. eapply drawable_aside; [exact Hd|].
    unfold change_context in Er. destruct (ApplyDirtyState cfg (context g)); [|done..]. injection Er as <-. apply aside_context. }
  intros _. eapply (fine_if_bind _ _ _ _ _ (fun _ => both drawable (drew call g0))).
  { apply fine_if_modify. intros g [Hd Ha] Hg. split; [by apply good_emit|]. split; [exact Hd|].
    by exists g, []. }
  intros _. eapply (fine_if_bind _ _ _ _ _ (fun _ => drew call g0)).
  - eapply fine_if_post; [|apply (nothing_more_fine (both drawable (drew call g0)))]; [by intros ? ? []|].
    intros g [Hd Hw] Hg. destruct (restore_textures_ok g Hg (proj2 Hd)) as (g' & E1 & Hg' & Hn). rewrite E1.
    apply yields_Done. split; [done|]. split; [|by eapply drew_aside].
    unfold restore_textures, with_current_program in E1. destruct (of_option _) as [a| |]; [|done..]. cbn [obind] in E1.
    destruct (program a _) as [p| |]; [|done..]. cbn [obind] in E1.
    destruct (RestoreStateForNonRenderableTextures _ _ _); [|done..]. injection E1 as <-.
    eapply drawable_aside; [exact Hd|apply aside_context].
  - intros _. eapply fine_if_post; [|apply fine_if_ret]. by intros ? ? [].
Qed.

(** The state of before, but for what a draw leaves aside. *)
Definition still g g' : Prop := aside g g' /\ context g' = context g.

Lemma still_refl g : still g g.
Proof. split; [apply aside_refl|done]. Qed.

Lemma draw_fine g0 rooms max call :
  state_good g0 ->
  fine_if (both drawable (still g0)) rooms (draw cfg lim env max call) (fun _ => drawn_at_most call g0).
Proof.
  intros Hg0. unfold draw. eapply (fine_if_bind _ _ _ _ _ (fun _ => both drawable (still g0))).
  { apply fine_if_state. intros g [Hd [Ha Hc]] Hg.
    destruct (SimulateAttrib0_ok max g Hg (proj2 Hd)) as ([x g'] & -> & Hg' & Hs & Hc').
    apply yields_Done. split; [done|]. split; [by eapply drawable_aside|]. split; [by eapply aside_trans|by rewrite <- Hc]. }
  intros [simulated|].
  2: { eapply fine_if_post; [|apply fine_if_ret]. intros ? g [_ [_ [Ha _]]]. left. apply Ha. }
  eapply (fine_if_bind _ _ _ _ _ (fun fixed g => fixed = Some false /\ drawable g /\ still g0 g)).
  { apply fine_if_state. intros g [Hd Hs] Hg. rewrite SimulateFixedAttribs_none by apply Hd. by apply yields_Done. }
  intros fixed. eapply (fine_if_bind _ _ _ _ _ (fun _ => drew call g0)).
  - destruct fixed as [[]|]; [by intros w [? _]| |by intros w [? _]].
    eapply fine_if_weaken; [intros g [_ Hd]; exact Hd|].
    eapply (fine_if_bind _ _ _ _ _ (fun _ => both drawable (prepared g0))); [|intros set; by apply with_textures_fine].
    apply fine_if_state. intros g [Hd [Ha Hc]] Hg.
    destruct (black_textures_ok g0 g Hg (proj2 Hd) Ha Hc) as ([x g'] & -> & Hg' & Hs).
    apply yields_Done. split; [done|]. split; [|done]. destruct Hd as [Hn Hp]. destruct Hs as [[_ H1 H2] _ _].
    destruct Ha as [_ H3 H4]. unfold drawable, no_fixed in *. cbn [snd] in *. by rewrite H1, H2, <- H3, <- H4.
  - intros _. eapply (fine_if_bind _ _ _ _ _ (fun _ => drew call g0)).
    + apply nothing_more_fine. intros g Hw Hg. destruct (RestoreStateForSimulatedAttrib0_ok g Hg) as (g' & -> & Hg' & Hn).
      apply yields_Done. split; [done|]. by eapply drew_aside.
    + intros _. eapply fine_if_post; [|apply fine_if_ret]. intros ? g [_ Hw]. by right.
Qed.

Lemma current_attribs_Some g used : current_attribs g = Some used -> is_Some (current_program_ (program_state g)).
Proof. unfold current_attribs. by case_match. Qed.

(** A draw that the driver gets only when [checks] are so. *)
Definition drawn_if (checks : Prop) (call : DrawValidation.GLCall) g g' : Prop :=
  draws_nothing g g' \/ (checks /\ drew call g g').

(** A handler that only records an error, or does nothing. *)
Lemma failing_fine checks call g0 rooms error :
  fine_if (draws_nothing g0) rooms (failing error) (fun _ => drawn_if checks call g0).
Proof.
  eapply (fine_if_bind _ _ _ _ _ (fun _ => draws_nothing g0)).
  - apply fine_if_modify. intros g Hn Hg. split; [by apply good_noted|].
    eapply draws_nothing_trans; [exact Hn|by apply draws_nothing_noted].
  - intros _. eapply fine_if_post; [|apply fine_if_ret]. intros ? g [_ Hn]. by left.
Qed.

Lemma no_draw_fine checks call g0 rooms :
  fine_if (draws_nothing g0) rooms (mret kNoError) (fun _ => drawn_if checks call g0).
Proof. eapply fine_if_post; [|apply fine_if_ret]. intros ? g [_ Hn]. by left. Qed.

(** The state after the checks. *)
Definition checked (checks : Prop) g0 (max : option Z) g : Prop :=
  match max with Some _ => drawable g /\ still g0 g /\ checks | None => draws_nothing g0 g end.

Lemma draw_if_fine checks g0 rooms max call :
  state_good g0 -> fine_if (checked checks g0 max) rooms (draw_if cfg lim env max call) (fun _ => drawn_if checks call g0).
Proof.
  intros Hg0. destruct max as [max|]; [|apply no_draw_fine].
  intros w (Hd & Hs & Hc) Hw Hr. cbn [draw_if]. destruct (draw_fine g0 rooms max call Hg0 w (conj Hd Hs) Hw Hr) as (r & -> & Hx & Hy).
  apply yields_Done. split; [done|]. destruct Hy as [Hy|Hy]; [by left|by right].
Qed.

(** The framebuffer is looked at, and nothing else is changed but when it is not complete. *)
Lemma complete_fine g0 rooms :
  fine_if (fun g => g = g0) rooms (in_state (in_context CheckFramebufferComplete))
    (fun complete g => draws_nothing g0 g /\
       (complete = true -> still g0 g /\ vertices g = vertices g0 /\ CheckFramebufferComplete (context g0) = Done (true, context g0))).
Proof.
  apply fine_if_state. intros g -> Hg. unfold in_context.
  destruct (CheckFramebufferComplete_ok cfg _ (good_context _ _ _ Hg)) as (complete & E1). rewrite E1. cbn [obind].
  apply yields_Done. split.
  - apply good_with_context; [done|]. cbn [snd]. destruct complete; [apply Hg|apply keeps_SetGLError, Hg].
  - cbn [fst snd]. split; [apply draws_nothing_context|]. intros ->. split; [split; [apply aside_context|done]|done].
Qed.

Lemma still_vertices g0 g d :
  still g0 g -> vertex_attrib_manager_ d = vertex_attrib_manager_ (vertices g) -> still g0 (with_vertices [] d g).
Proof.
  intros [Ha Hc] Hv. split; [|exact Hc]. eapply aside_trans; [exact Ha|]. split; [by eexists|exact Hv|done].
Qed.

Lemma current_attribs_same g g' : program_state g' = program_state g -> current_attribs g' = current_attribs g.
Proof. intros Hp. unfold current_attribs, attrib_used, with_current_program. by rewrite Hp. Qed.

(** The checks of the vertices are over. *)
Lemma checked_vertices checks g0 g d max :
  still g0 g -> no_fixed g0 -> vertex_attrib_manager_ d = vertex_attrib_manager_ (vertices g) ->
  (forall m, max = Some m -> checks /\ is_Some (current_program_ (program_state g))) ->
  checked checks g0 max (with_vertices [] d g).
Proof.
  intros Hs Hn Hv Hm. pose proof (still_vertices _ _ _ Hs Hv) as Hs'. destruct max as [m|]; [|apply Hs'].
  destruct (Hm m eq_refl) as [Hc Hp]. split; [|by split]. split; [|exact Hp].
  unfold no_fixed in *. by rewrite (aside_attribs _ _ (proj1 Hs')).
Qed.

(** The vertices up to [max] that the program reads are inside their buffers, for attributes whose elements do
    not overlap. *)
Definition vertices_inside (max : Z) g : Prop :=
  forall v index, read_by_program (current_attribs g) (vertices g) v -> element_size v <= real_stride_ v ->
  0 <= index <= max -> vertex_in_bounds (objects (buffer_manager (vertices g))) v index.

(** What [glDrawArrays] is drawn with. *)
Record arrays_ready mode first count g : Prop := {
  arrays_mode : is_case mode valid_draw_mode_table = true;
  arrays_complete : CheckFramebufferComplete (context g) = Done (true, context g);
  arrays_program : is_Some (current_program_ (program_state g));
  arrays_range : 0 <= first /\ 0 < count;
  arrays_vertices : vertices_inside (first + count - 1) g;
}.

(** Both handlers, when the framebuffer is looked at: [in_range] checks the vertices. *)
Lemma complete_then_draw checks g0 rooms call in_range :
  state_good g0 -> no_fixed g0 ->
  (CheckFramebufferComplete (context g0) = Done (true, context g0) ->
   exists max d, in_range (current_attribs g0) (vertices g0) = Done (max, d) /\ dec_ok d /\
     vertex_attrib_manager_ d = vertex_attrib_manager_ (vertices g0) /\
     forall m, max = Some m -> checks /\ is_Some (current_program_ (program_state g0))) ->
  fine_if (fun g => g = g0) rooms
    (complete ← in_state (in_context CheckFramebufferComplete);
     if negb complete then mret kNoError
     else g ← gets id; max ← in_state (check_vertices (in_range (current_attribs g))); draw_if cfg lim env max call)
    (fun _ => drawn_if checks call g0).
Proof.
  intros Hg0 Hn Hr. eapply fine_if_bind; [apply complete_fine|]. intros complete. cbn beta.
  destruct complete; cbn [negb]; [|by eapply fine_if_weaken; [|apply no_draw_fine]; intros g [? _]].
  apply fine_if_gets. intros g [_ Hg1]. destruct (Hg1 eq_refl) as (Hs & Hv & Hcomplete).
  destruct (Hr Hcomplete) as (max & d & E1 & Hd & Hva & Hm).
  eapply (fine_if_bind _ _ _ _ _ (checked checks g0)); [|intros max'; by apply draw_if_fine].
  apply fine_if_state. intros g' -> Hg. unfold check_vertices. cbn [id].
  rewrite (current_attribs_same g0 g), Hv, E1 by apply Hs. cbn [obind]. apply yields_Done. cbn [fst snd]. split.
  - apply good_with_vertices; [done|done|]. unfold max_attribs. by rewrite Hva, Hv.
  - apply checked_vertices; [done|done|by rewrite Hv|]. intros m Em. destruct (Hm m Em) as [? ?].
    by rewrite (aside_programs _ _ (proj1 Hs)).
Qed.

Lemma HandleDrawArrays_fine g0 rooms mode first count :
  state_good g0 -> is_i32 first -> is_i32 count ->
  fine_if (fun g => g = g0 /\ no_fixed g) rooms (HandleDrawArrays cfg lim env mode first count)
    (fun _ => drawn_if (arrays_ready mode first count g0) (glDrawArrays mode first count) g0).
Proof.
  intros Hg0 Hf Hc. apply fine_if_at. intros Hn. unfold HandleDrawArrays.
  assert (Hrefl : forall g, g = g0 -> draws_nothing g0 g) by (intros g ->; apply draws_nothing_refl).
  destruct (is_case mode _) eqn:Em; cbn [negb]; [|by eapply fine_if_weaken; [|apply failing_fine]].
  destruct (count <? 0) eqn:E0; [by eapply fine_if_weaken; [|apply failing_fine]|]. zbool.
  apply (complete_then_draw _ _ _ _ (fun program => arrays_in_range program first count)); [done..|]. intros Hcomplete.
  destruct (arrays_in_range_ok (current_attribs g0) first count (vertices g0) (good_vertices _ _ _ Hg0))
    as (max & d & E1 & Hd & Hm); [by apply current_attribs_total|done..|].
  exists max, d. split_and!; [done|done|by eapply arrays_in_range_attribs|].
  intros m ->. destruct (Hm m eq_refl) as (-> & H1 & H2 & -> & Hdraw).
  assert (is_Some (current_program_ (program_state g0))) as Hp.
  { destruct Hdraw as (used & Hu & _). by eapply current_attribs_Some. }
  split; [|exact Hp]. split; [done..|]. intros v index Hr Hes Hx. eapply draw_ok_in_bounds; [apply Hg0|exact Hdraw|done..].
Qed.

Lemma element_array_buffer_ok g : state_good g ->
  exists r, element_array_buffer g = Done r /\ forall a, r = Some a ->
    bound_element_array_buffer_ (vertices g) = Some a /\
    exists b, objects (buffer_manager (vertices g)) !! a = Some b /\ IsDeleted b = false.
Proof.
  intros Hg. unfold element_array_buffer. destruct (bound_element_array_buffer_ _) as [a|] eqn:Ea; [|by exists None].
  destruct (dec_element _ (good_vertices _ _ _ Hg) a Ea) as [b Hb]. unfold object. rewrite Hb. cbn [of_option obind].
  destruct (IsDeleted b) eqn:Ed; eexists; (split; [done|]); [done|]. intros ? [= <-]. split; [done|]. by exists b.
Qed.

(** What [glDrawElements] is drawn with. *)
Record elements_ready mode count type offset g : Prop := {
  elements_mode : is_case mode valid_draw_mode_table = true;
  elements_type : is_case type valid_index_type_table = true;
  elements_complete : CheckFramebufferComplete (context g) = Done (true, context g);
  elements_program : is_Some (current_program_ (program_state g));
  elements_range : 0 < count /\ 0 <= offset;
  elements_vertices : exists max, indices_ok (vertices g) count type offset max /\ vertices_inside max g;
}.

Lemma HandleDrawElements_fine g0 rooms mode count type offset :
  state_good g0 -> is_i32 count -> is_i32 offset ->
  fine_if (fun g => g = g0 /\ no_fixed g) rooms (HandleDrawElements cfg lim env mode count type offset)
    (fun _ => drawn_if (elements_ready mode count type offset g0) (glDrawElements mode count type offset) g0).
Proof.
  intros Hg0 Hc Ho. apply fine_if_at. intros Hn. unfold HandleDrawElements.
  assert (Hrefl : forall g, g = g0 -> draws_nothing g0 g) by (intros g ->; apply draws_nothing_refl).
  destruct (element_array_buffer_ok g0 Hg0) as (indices & Ei & Ha).
  eapply (fine_if_bind _ _ _ _ _ (fun r g => g = g0 /\ r = indices)).
  { apply fine_if_state. intros g -> Hg. rewrite Ei. by apply yields_Done. }
  intros r. apply fine_if_at. intros ->.
  destruct indices as [a|]; [|by eapply fine_if_weaken; [|apply failing_fine]].
  destruct (Ha a eq_refl) as (Hb & b & Hbb & Hd).
  destruct (count <? 0) eqn:E0; [by eapply fine_if_weaken; [|apply failing_fine]|].
  destruct (offset <? 0) eqn:E1; [by eapply fine_if_weaken; [|apply failing_fine]|]. zbool.
  destruct (is_case mode _) eqn:Em; cbn [negb]; [|by eapply fine_if_weaken; [|apply failing_fine]].
  destruct (is_case type _) eqn:Et; cbn [negb]; [|by eapply fine_if_weaken; [|apply failing_fine]].
  apply (complete_then_draw _ _ _ _ (fun program => elements_in_range program a count type offset)); [done..|]. intros Hcomplete.
  destruct (elements_in_range_ok (current_attribs g0) a b count type offset (vertices g0) (good_vertices _ _ _ Hg0))
    as (max & d & E2 & Hdd & Hm); [by apply current_attribs_total|done..|].
  exists max, d. split_and!; [done|done|by eapply elements_in_range_attribs|].
  intros m ->. destruct (Hm m eq_refl) as (Hc0 & Hsame & Hi & Hdraw).
  assert (is_Some (current_program_ (program_state g0))) as Hp.
  { destruct Hdraw as (used & Hu & _). by eapply current_attribs_Some. }
  split; [|exact Hp]. split; [done..|]. exists m. split; [done|]. intros v index Hr Hes Hx.
    eapply same_but_cached_in_bounds; [done|]. eapply draw_ok_in_bounds; [done|exact Hdraw| |done..].
    destruct Hr as (j & used & Hr). exists j, used. by rewrite (proj1 Hsame).
Qed.

(** *** What reaches the driver *)

(** For each sampler the driver has a texture that can be rendered, without external textures. *)
Lemma at_draw_ready g g' :
  state_good g -> at_draw g g' ->
  oes_egl_image_external (feature_flags_ (feature_info_ cfg)) = false -> Z.of_nat (size (texs (context g))) < 2 ^ 31 ->
  forall p, program_in_use g = Some p -> samplers_renderable cfg p (context g) (context g').
Proof.
  intros Hg Ha Hext Hsize p Hp. apply prepared_renderable; [apply Hg| |done|done|by apply (at_samplers _ _ Ha)].
  unfold program_in_use in Hp. destruct (current_program_ (program_state g)) as [a|] eqn:Ea; [|done]. cbn in Hp.
  destruct (current_program _ (good_programs _ _ _ Hg) a Ea) as (p' & Hp' & _ & _ & Hi). congruence.
Qed.

(** There was one draw, with a program that was linked. *)
Definition drew_linked call g g' : Prop := exists p g1 after,
  program_in_use g = Some p /\ p_valid_ p = true /\ at_draw g g1 /\
  (oes_egl_image_external (feature_flags_ (feature_info_ cfg)) = false -> Z.of_nat (size (texs (context g))) < 2 ^ 31 ->
   samplers_renderable cfg p (context g) (context g1)) /\
  driver_calls g' = driver_calls g1 ++ OfVertices call :: after /\
  forallb (fun call => negb (draw_call call)) after = true.

Lemma drew_with_linked call g g' :
  state_good g -> is_Some (current_program_ (program_state g)) -> drew call g g' -> drew_linked call g g'.
Proof.
  intros Hg [a Ha] (g1 & after & Hd & Hc & Hn). destruct (current_program _ (good_programs _ _ _ Hg) a Ha) as (p & Hp & Hv & _).
  assert (program_in_use g = Some p) as Hu by (unfold program_in_use; by rewrite Ha).
  exists p, g1, after. split_and!; [done..| |done|done]. intros Hext Hsize. by apply at_draw_ready.
Qed.

(** A handler from a good state. *)
Definition runs checks call (m : Handler Error) w : Prop :=
  yields (fun r => world_good engine_ok engine_entries cfg lim r.2 /\ drawn_if checks call w.2 r.2.2) (m w).

Lemma run_draw checks call m w :
  world_good engine_ok engine_entries cfg lim w -> no_fixed w.2 ->
  (state_good w.2 -> fine_if (fun g => g = w.2 /\ no_fixed g) [] m (fun _ => drawn_if checks call w.2)) ->
  runs checks call m w.
Proof.
  intros Hw Hn Hm. destruct (Hm (proj2 Hw) w (conj eq_refl Hn) Hw ltac:(constructor)) as (r & E1 & (Hw' & _) & Hd).
  by exists r.
Qed.

Lemma HandleDrawArrays_runs mode first count w :
  world_good engine_ok engine_entries cfg lim w -> no_fixed w.2 -> is_i32 first -> is_i32 count ->
  runs (arrays_ready mode first count w.2) (glDrawArrays mode first count) (HandleDrawArrays cfg lim env mode first count) w.
Proof. intros Hw Hn Hf Hc. apply run_draw; [done..|]. intros Hg. by apply HandleDrawArrays_fine. Qed.

Lemma HandleDrawElements_runs mode count type offset w :
  world_good engine_ok engine_entries cfg lim w -> no_fixed w.2 -> is_i32 count -> is_i32 offset ->
  runs (elements_ready mode count type offset w.2) (glDrawElements mode count type offset)
    (HandleDrawElements cfg lim env mode count type offset) w.
Proof. intros Hw Hn Hc Ho. apply run_draw; [done..|]. intros Hg. by apply HandleDrawElements_fine. Qed.

(** C37: When [glDrawArrays] draws.  In every good state in which the driver takes [GL_FIXED] or no
    attribute has that type ([no_fixed]), the handler answers, and leaves a good state.
    The driver gets no draw, or one, the client's, and then the mode is one of the table, the
    framebuffer is complete, a program that was linked is in use, and the vertices from [first] on
    are inside the buffer of every enabled attribute that the program reads and whose elements
    are no larger than its stride ([overlapping_vertices_overrun] is about the others).  At that
    moment the driver has the bindings of before the draw but for black textures in place
    of those that cannot be rendered, so that it samples only textures that can be, if external
    textures are not enabled; it has the clear values and the scissor test of the context, and,
    unless they were out of date before (see [storage_keeps_stale_masks]), its masks and tests,
    restricted to what the framebuffer has. *)
Theorem draw_arrays_reaches_driver mode first count w :
  world_good engine_ok engine_entries cfg lim w -> no_fixed w.2 -> is_i32 first -> is_i32 count ->
  exists e w', HandleDrawArrays cfg lim env mode first count w = Done (e, w') /\
    world_good engine_ok engine_entries cfg lim w' /\
    (draws_nothing w.2 w'.2 \/
     (arrays_ready mode first count w.2 /\ drew_linked (glDrawArrays mode first count) w.2 w'.2)).
Proof.
  intros Hw Hn Hf Hc. destruct (HandleDrawArrays_runs mode first count w Hw Hn Hf Hc) as ([e w'] & E1 & Hg & Hd).
  exists e, w'. split_and!; [done..|]. destruct Hd as [?|[Hr Hd]]; [by left|right]. split; [exact Hr|].
  by apply drew_with_linked; [apply Hw|apply Hr|].
Qed.

(** C36: When [glDrawElements] draws: the same, in the same states and with the same provisos, and
    each index is read inside the element array buffer and is at most the last vertex that was
    checked. *)
Theorem draw_elements_reaches_driver mode count type offset w :
  world_good engine_ok engine_entries cfg lim w -> no_fixed w.2 -> is_i32 count -> is_i32 offset ->
  exists e w', HandleDrawElements cfg lim env mode count type offset w = Done (e, w') /\
    world_good engine_ok engine_entries cfg lim w' /\
    (draws_nothing w.2 w'.2 \/
     (elements_ready mode count type offset w.2 /\ drew_linked (glDrawElements mode count type offset) w.2 w'.2)).
Proof.
  intros Hw Hn Hc Ho. destruct (HandleDrawElements_runs mode count type offset w Hw Hn Hc Ho) as ([e w'] & E1 & Hg & Hd).
  exists e, w'. split_and!; [done..|]. destruct Hd as [?|[Hr Hd]]; [by left|right]. split; [exact Hr|].
  by apply drew_with_linked; [apply Hw|apply Hr|].
Qed.

End safety.
