(* ===== verification/AttribSimulation.v ===== *)
(** * The buffer that stands in for attribute 0

    OpenGL draws nothing while attribute 0 is disabled, OpenGL ES takes the attribute's current
    value.  [SimulateAttrib0] of [gpu/command_buffer/service/gles2_cmd_decoder.cc] keeps a
    buffer filled with that value, and fills it again only when it has to.  Here the calls that
    reach the driver are played on a small model of the driver, and the buffer is found to
    hold the current value for every vertex of every draw. *)

From S2P Require Import Prelude CmdFormat CommandBufferService CommonDecoder.
From Stdlib Require Import ZArith Lia ZifyBool Bool.
From stdpp Require Import base numbers option list.
From S2P Require Import Floats GLConstants GLES2Util VertexAttribManager DrawValidation ContextState DecoderState DrawCalls.
Local Open Scope Z_scope.

(** ** The driver *)

(** Where attribute 0 is read from: the buffer, then the arguments of
    [glVertexAttribPointer]. *)
Definition Pointer : Type := Z * Z * Z * Z * Z * Z.

(** What the driver has bound, the bytes of the buffer that stands in, and where attribute 0
    is. *)
Record VertexDriver := mkVertexDriver {
  array_binding : Z;
  stand_in : list Z;
  attrib_0_pointer : Pointer;
}.

Section driver.
(** The name of the buffer, and what a buffer of a size holds before it is filled. *)
Variables (buffer_id : Z) (undefined : Z -> list Z).

Definition with_binding (id : Z) (v : VertexDriver) : VertexDriver :=
  mkVertexDriver id (stand_in v) (attrib_0_pointer v).

(** The data of the buffer that is bound to [target]. *)
Definition with_data (target : Z) (data : list Z -> list Z) (v : VertexDriver) : VertexDriver :=
  if (target =? GL_ARRAY_BUFFER) && (array_binding v =? buffer_id)
  then mkVertexDriver (array_binding v) (data (stand_in v)) (attrib_0_pointer v) else v.

Definition with_pointer (p : Pointer) (v : VertexDriver) : VertexDriver :=
  mkVertexDriver (array_binding v) (stand_in v) p.

(** A write past the end is refused. *)
Definition play_vertices (call : DrawValidation.GLCall) (v : VertexDriver) : VertexDriver :=
  match call with
  | glBindBuffer target id => if target =? GL_ARRAY_BUFFER then with_binding id v else v
  | glDeleteBuffersARB id => if array_binding v =? id then with_binding 0 v else v
  | glBufferData target size usage data => with_data target (fun _ => data) v
  | glBufferDataNULL target size usage => with_data target (fun _ => undefined size) v
  | glBufferSubData target offset size data => with_data target (fun old => default old (zwrite old offset data)) v
  | glVertexAttribPointer index size type normalized stride offset =>
      if index =? 0 then with_pointer (array_binding v, size, type, normalized, stride, offset) v else v
  | _ => v
  end.

Definition play (v : VertexDriver) (call : DriverCall) : VertexDriver :=
  match call with OfVertices call => play_vertices call v | _ => v end.

Definition play_all (calls : list DriverCall) (v : VertexDriver) : VertexDriver := fold_left play calls v.

End driver.

(** ** What the buffer holds *)

(** The first [size] bytes are copies of [x]. *)
Definition copies_of (x : Vec4) (size : Z) (store : list Z) : Prop :=
  forall i, 0 <= i -> 16 * (i + 1) <= size -> zread store (16 * i) 16 = Some (Vec4s 1 x).

(** What [SimulateAttrib0] believes of the buffer. *)
Record stands_in (s : Simulation) (store : list Z) : Prop := {
  stands_size : 0 <= attrib_0_size_ s <= zlen store;
  stands_value : attrib_0_buffer_matches_value_ s = true -> copies_of (attrib_0_value_ s) (attrib_0_size_ s) store;
}.

Lemma zlen_Vec4s n x : zlen (Vec4s n x) = 16 * Z.of_nat n.
Proof.
  destruct x as [[[a b] c] d]. unfold Vec4s. rewrite zlen_words_to_bytes.
  induction n as [|n IH]; [done|].
  change (mjoin (replicate (S n) (Vec4_list (a, b, c, d)))) with (Vec4_list (a, b, c, d) ++ mjoin (replicate n (Vec4_list (a, b, c, d)))). rewrite zlen_app.
  change (zlen (Vec4_list (a, b, c, d))) with 4. lia.
Qed.

Lemma Vec4s_app n m x : Vec4s (n + m) x = Vec4s n x ++ Vec4s m x.
Proof. unfold Vec4s. by rewrite replicate_add, join_app, words_to_bytes_app. Qed.

Lemma Vec4s_copies n x rest : copies_of x (16 * Z.of_nat n) (Vec4s n x ++ rest).
Proof.
  intros i Hi Hs. pose proof (zlen_Vec4s n x). pose proof (zlen_nonneg rest).
  rewrite zread_in by (rewrite ?zlen_app; lia). f_equal.
  assert (n = Z.to_nat i + (1 + (n - 1 - Z.to_nat i)))%nat as -> by lia.
  rewrite Vec4s_app, Vec4s_app, <- app_assoc.
  pose proof (zlen_Vec4s (Z.to_nat i) x). pose proof (zlen_Vec4s 1 x). unfold zlen in *.
  rewrite drop_app_length' by lia. rewrite <- app_assoc. by rewrite take_app_length' by lia.
Qed.

Lemma copies_of_le x size size' store : copies_of x size store -> size' <= size -> copies_of x size' store.
Proof. intros Hc Hle i Hi Hs. apply Hc; lia. Qed.

(** The start of a buffer is filled. *)
Lemma filled_copies n x store :
  16 * Z.of_nat n <= zlen store ->
  exists store', zwrite store 0 (Vec4s n x) = Some store' /\ zlen store' = zlen store /\
    copies_of x (16 * Z.of_nat n) store'.
Proof.
  intros Hle. pose proof (zlen_Vec4s n x) as Hl. rewrite zwrite_in by lia. eexists. split; [done|].
  change (Z.to_nat 0) with 0%nat. rewrite take_0, app_nil_l. split; [|apply Vec4s_copies].
  rewrite zlen_app. unfold zlen in *. rewrite length_drop. lia.
Qed.

(** ** The calls of one simulation *)

Section simulate.
Variables (cfg : Config) (env : DecoderAnswers).
Implicit Types (g : GLES2State).

(** The value is sent again when the buffer has grown since, or held another. *)
Definition refill (grow : bool) (value : Vec4) (s : Simulation) : bool :=
  grow || negb (attrib_0_buffer_matches_value_ s) || negb (Vec4_eqb value (attrib_0_value_ s)).

(** The state of the simulation afterwards. *)
Definition simulated (grow used : bool) (value : Vec4) (size : Z) (s : Simulation) : Simulation :=
  if used && refill grow value s then filled value size s else if grow then mismatched s else s.

Definition simulation_calls (grow used : bool) (value : Vec4) (n : Z) (s : Simulation) : list DrawValidation.GLCall :=
  [glBindBuffer GL_ARRAY_BUFFER (attrib_0_buffer_id_ s)] ++
  (if grow then [glBufferDataNULL GL_ARRAY_BUFFER (16 * n) GL_DYNAMIC_DRAW] else []) ++
  (if used && refill grow value s
   then [glBufferSubData GL_ARRAY_BUFFER 0 (16 * n) (Vec4s (Z.to_nat n) value)] else []) ++
  [DrawValidation.glVertexAttribPointer 0 4 GL_FLOAT GL_FALSE 0 0].

(** When the buffer stands in: how many vertices, and what was done. *)
Record stood_in (max : Z) g g' (info : VertexAttribInfo) (used : bool) (n : Z) : Prop := {
  stood_info : GetVertexAttribInfo 0 (vertex_attrib_manager_ (vertices g)) = Some info;
  stood_used : attrib_used g 0 = Done used;
  stood_off : enabled_ info && used = false;
  stood_count : n = u32 (max + 1) /\ 0 < n /\ 16 * n <= 2147483647;
  stood_calls : let grow := 16 * n >? attrib_0_size_ (simulation g) in
    driver_calls g' = driver_calls g ++ (OfVertices <$> simulation_calls grow used (value_ info) n (simulation g)) /\
    simulation g' = simulated grow used (value_ info) (16 * n) (simulation g) /\
    vertices g' = vertices g /\ program_state g' = program_state g;
}.

Lemma emitted_calls call g : driver_calls (emit_call call g) = driver_calls g ++ [call].
Proof. done. Qed.

Lemma copied_errors g :
  driver_calls (CopyRealGLErrorsToWrapper env g) = driver_calls g /\
  simulation (CopyRealGLErrorsToWrapper env g) = simulation g.
Proof. unfold CopyRealGLErrorsToWrapper, noted. cbn. by rewrite app_nil_r. Qed.

(** It answers that the buffer stands in, that nothing is needed, or, for a draw of too many
    vertices, that there is no memory. *)
Lemma SimulateAttrib0_cases max g r g' :
  SimulateAttrib0 cfg env max g = Done (r, g') -> attrib_0_error env = GL_NO_ERROR ->
  match r with
  | Some true => exists info used n, stood_in max g g' info used n
  | _ => driver_calls g' = driver_calls g /\ simulation g' = simulation g
  end.
Proof.
  unfold SimulateAttrib0. intros E He. destruct (egl_gles2 cfg); [by injection E as <- <-|].
  destruct (GetVertexAttribInfo 0 _) as [info|] eqn:Ei; [|done]. cbn [of_option obind] in E.
  destruct (attrib_used g 0) as [used| |] eqn:Eu; [|done..]. cbn [obind] in E.
  destruct (enabled_ info && used) eqn:Eo; [by injection E as <- <-|].
  set (n := u32 (max + 1)) in *.
  assert (Hn : is_u32 n) by apply u32_range.
  rewrite SafeMultiplyUint32_exact in E by (unfold is_u32 in *; lia).
  destruct (n * 16 <? 2 ^ 32) eqn:Em; cbn [negb orb] in E;
    [|rewrite orb_true_r in E; cbn [orb] in E; injection E as <- <-; cbn; by rewrite app_nil_r].
  destruct ((n =? 0) || false || (n * 16 >? 2147483647)) eqn:Eb;
    [injection E as <- <-; cbn; by rewrite app_nil_r|].
  assert (Hlt : 0 < n /\ 16 * n <= 2147483647) by (unfold is_u32 in Hn; zbool; lia).
  replace (n * 16) with (16 * n) in * by lia. clear Em Eb.
  rewrite i32_id in E by (unfold is_i32; lia).
  rewrite He in E. change (GL_NO_ERROR =? GL_NO_ERROR) with true in E. rewrite andb_false_r in E.
  destruct (copied_errors g) as [Hc Hs]. unfold bind_array_buffer, emit in E.
  assert (Hg : forall grow, grow = (16 * n >? attrib_0_size_ (simulation g)) ->
    driver_calls g' = driver_calls g ++ (OfVertices <$> simulation_calls grow used (value_ info) n (simulation g)) /\
    simulation g' = simulated grow used (value_ info) (16 * n) (simulation g) /\
    vertices g' = vertices g /\ program_state g' = program_state g ->
    exists info used n, stood_in max g g' info used n).
  { intros grow -> Hx. exists info, used, n. by split. }
  cbn -[Z.mul Vec4s Vec4_eqb Z.gtb u32] in E.
  destruct (16 * n >? attrib_0_size_ (simulation g)) eqn:Eg; cbn -[Z.mul Vec4s Vec4_eqb u32] in E;
    destruct used; cbn -[Z.mul Vec4s Vec4_eqb u32] in E.
  all: try match type of E with context [if ?b then _ else _] => destruct b eqn:Eb end.
  all: injection E as <- <-; apply (Hg _ eq_refl); unfold simulated, simulation_calls, refill;
    cbn -[Z.mul Vec4s Vec4_eqb u32 CopyRealGLErrorsToWrapper];
    rewrite ?Hc, <- ?app_assoc, ?Eb; repeat split.
Qed.

End simulate.

(** ** The buffer in every draw *)

Section stands.
Variables (cfg : Config) (buffer_id : Z) (undefined : Z -> list Z).
Hypothesis undefined_size : forall size, 0 <= size -> zlen (undefined size) = size.
Implicit Types (g : GLES2State) (v : VertexDriver).
Notation play_all := (play_all buffer_id undefined).

Lemma play_all_app calls calls' v : play_all (calls ++ calls') v = play_all calls' (play_all calls v).
Proof. apply fold_left_app. Qed.

(** The buffer after it was bound, made larger and filled. *)
Definition store_after (grow used : bool) (value : Vec4) (n : Z) (s : Simulation) (store : list Z) : list Z :=
  let store := if grow then undefined (16 * n) else store in
  if used && refill grow value s then default store (zwrite store 0 (Vec4s (Z.to_nat n) value)) else store.

Lemma with_data_bound data store p :
  with_data buffer_id GL_ARRAY_BUFFER data (mkVertexDriver buffer_id store p) = mkVertexDriver buffer_id (data store) p.
Proof. unfold with_data. cbn. by rewrite Z.eqb_refl. Qed.

Lemma play_simulation grow used value n s v :
  attrib_0_buffer_id_ s = buffer_id ->
  play_all (OfVertices <$> simulation_calls grow used value n s) v =
  mkVertexDriver buffer_id (store_after grow used value n s (stand_in v)) (buffer_id, 4, GL_FLOAT, GL_FALSE, 0, 0).
Proof.
  intros Hb. unfold simulation_calls, store_after. rewrite Hb.
  destruct grow, (used && _); cbn -[Z.mul Vec4s zwrite with_data]; unfold with_binding, with_pointer;
    cbn -[Z.mul Vec4s zwrite with_data]; by rewrite ?with_data_bound.
Qed.

(** The buffer holds the value of every vertex, and the simulation is right about it. *)
Lemma store_after_stands used value n s store :
  0 < n -> stands_in s store ->
  let grow := 16 * n >? attrib_0_size_ s in
  let store' := store_after grow used value n s store in
  stands_in (simulated grow used value (16 * n) s) store' /\
  (used = true -> exists x, (x = value \/ Vec4_eqb value x = true) /\ copies_of x (16 * n) store').
Proof.
  intros Hn [Hs Hv] grow. unfold store_after, simulated.
  set (store1 := if grow then undefined (16 * n) else store).
  assert (Hl : 16 * n <= zlen store1 /\ attrib_0_size_ s <= zlen store1).
  { unfold store1, grow. destruct (16 * n >? attrib_0_size_ s) eqn:Eg; zbool; [rewrite undefined_size by lia|]; lia. }
  destruct (used && refill grow value s) eqn:Er.
  - destruct (filled_copies (Z.to_nat n) value store1) as (store2 & -> & Hz & Hc); [lia|]. cbn [default].
    replace (16 * Z.of_nat (Z.to_nat n)) with (16 * n) in Hc by lia.
    split; [|intros _; exists value; split; [by left|done]]. by split; cbn; [rewrite Hz; lia|].
  - split.
    + destruct grow eqn:Eg; [split; cbn; [lia|done]|]. by split; unfold store1.
    + intros ->. cbn [andb] in Er. unfold refill in Er. apply orb_false_iff in Er as [Er Ee].
      apply orb_false_iff in Er as [Eg Em]. apply negb_false_iff in Em, Ee. unfold store1. rewrite Eg.
      exists (attrib_0_value_ s). split; [by right|]. eapply copies_of_le; [by apply Hv|]. unfold grow in Eg. zbool. lia.
Qed.

(** The states of the decoder and of the driver while draws go on, as long as every draw finds
    memory for the buffer and other commands leave alone what the decoder knows of the buffer
    and the buffer ([other_calls_spare]: they do if it is not bound and they do not name it;
    see [out_of_memory_rebinds] for when they do not). *)
Inductive sim_reach : GLES2State -> VertexDriver -> Prop :=
| sim_new g v fixed_attrib_buffer_id :
    simulation g = Simulation_new buffer_id fixed_attrib_buffer_id -> stand_in v = [] -> sim_reach g v
| sim_other g v g' calls :
    sim_reach g v -> simulation g' = simulation g -> driver_calls g' = driver_calls g ++ calls ->
    stand_in (play_all calls v) = stand_in v -> sim_reach g' (play_all calls v)
| sim_draw env max g v r g' calls :
    sim_reach g v -> SimulateAttrib0 cfg env max g = Done (r, g') -> attrib_0_error env = GL_NO_ERROR ->
    driver_calls g' = driver_calls g ++ calls -> sim_reach g' (play_all calls v).

(** A call that does not name the buffer. *)
Definition names_other (call : DriverCall) : bool :=
  match call with
  | OfVertices (glBindBuffer _ id) | OfVertices (glDeleteBuffersARB id) => negb (id =? buffer_id)
  | _ => true
  end.

Lemma other_calls_spare calls v :
  buffer_id <> 0 -> array_binding v <> buffer_id -> forallb names_other calls = true ->
  stand_in (play_all calls v) = stand_in v /\ array_binding (play_all calls v) <> buffer_id.
Proof.
  intros H0. revert v. induction calls as [|call calls IH]; intros v Hv; [done|].
  cbn [forallb]. intros [Hc Hcs]%andb_true_iff.
  assert (stand_in (play buffer_id undefined v call) = stand_in v /\ array_binding (play buffer_id undefined v call) <> buffer_id)
    as [E Hb].
  { destruct call as [| |call|]; try done. unfold play, play_vertices, with_data, with_binding, with_pointer.
    destruct call; cbn [names_other] in Hc; repeat case_match; cbn [stand_in array_binding];
      (split; [try done|lia]); exfalso; zbool; lia. }
  destruct (IH _ Hb Hcs) as [E' Hb']. split; [|exact Hb']. rewrite <- E. exact E'.
Qed.

Definition sim_ok g v : Prop := attrib_0_buffer_id_ (simulation g) = buffer_id /\ stands_in (simulation g) (stand_in v).

Lemma simulated_buffer grow used value size s :
  attrib_0_buffer_id_ (simulated grow used value size s) = attrib_0_buffer_id_ s.
Proof. unfold simulated. by destruct (_ && _), grow. Qed.

Lemma stood_in_ok max g g' info used n v :
  stood_in max g g' info used n -> sim_ok g v ->
  exists calls, driver_calls g' = driver_calls g ++ calls /\ sim_ok g' (play_all calls v) /\
    attrib_0_pointer (play_all calls v) = (buffer_id, 4, GL_FLOAT, GL_FALSE, 0, 0) /\
    (used = true -> exists x, (x = value_ info \/ Vec4_eqb (value_ info) x = true) /\
       copies_of x (16 * n) (stand_in (play_all calls v))).
Proof.
  intros [_ _ _ (_ & Hn & _) (Hc & Hs & _)] [Hb Hst]. eexists. split; [exact Hc|].
  rewrite play_simulation by done. cbn [stand_in attrib_0_pointer].
  destruct (store_after_stands used (value_ info) n _ _ Hn Hst) as [Hst' Hx].
  split; [|by split]. split; [by rewrite Hs, simulated_buffer|by rewrite Hs].
Qed.

Lemma sim_reach_ok g v : sim_reach g v -> sim_ok g v.
Proof.
  induction 1 as [g v fixed Hs Hv|g v g' calls _ [Hb Hst] Hs Hc Hv|env max g v r g' calls _ IH E He Hc].
  - split; rewrite Hs; [done|]. rewrite Hv. split; [done|]. intros _ i Hi Hi'. cbn in Hi'. lia.
  - split; rewrite Hs; [done|]. by rewrite Hv.
  - pose proof (SimulateAttrib0_cases cfg env max g r g' E He) as Hr.
    assert (Hsame : driver_calls g' = driver_calls g /\ simulation g' = simulation g -> sim_ok g' (play_all calls v)).
    { intros [Hd Hs]. rewrite Hd, <- (app_nil_r (driver_calls g)) in Hc at 1. apply app_inv_head in Hc as <-.
      destruct IH. by split; rewrite Hs. }
    destruct r as [[]|]; [|by apply Hsame..]. destruct Hr as (info & used & n & Hin).
    destruct (stood_in_ok _ _ _ _ _ _ v Hin IH) as (calls' & Hc' & Hok & _).
    rewrite Hc in Hc'. by apply app_inv_head in Hc' as ->.
Qed.

(** C28: Attribute 0 has its current value in every draw, while the driver has memory for the
    buffer that stands in for it and no other command writes to that buffer ([sim_reach]).
    Whatever draws and other such commands came before, when [SimulateAttrib0] answers that the
    buffer stands in, the driver reads attribute 0 from that buffer, as four floats; and if the
    program uses the attribute, each of the vertices of the draw is there with the current value
    of the attribute (or with one that is equal to it as four floating point numbers), although
    the buffer is not filled again for every draw. *)
Theorem attribute_0_stands_in env max g v g' :
  sim_reach g v -> SimulateAttrib0 cfg env max g = Done (Some true, g') -> attrib_0_error env = GL_NO_ERROR ->
  is_u32 max ->
  exists info used calls,
    GetVertexAttribInfo 0 (vertex_attrib_manager_ (vertices g)) = Some info /\ attrib_used g 0 = Done used /\
    driver_calls g' = driver_calls g ++ calls /\
    attrib_0_pointer (play_all calls v) = (buffer_id, 4, GL_FLOAT, GL_FALSE, 0, 0) /\
    (used = true -> exists x, (x = value_ info \/ Vec4_eqb (value_ info) x = true) /\
       forall i, 0 <= i <= max -> zread (stand_in (play_all calls v)) (16 * i) 16 = Some (Vec4s 1 x)).
Proof.
  intros Hr E He Hm. destruct (SimulateAttrib0_cases cfg env max g _ g' E He) as (info & used & n & Hin).
  destruct (stood_in_ok _ _ _ _ _ _ v Hin (sim_reach_ok g v Hr)) as (calls & Hc & _ & Hp & Hx).
  exists info, used, calls. split_and!; [apply Hin|apply Hin|done|done|]. intros Hu.
  destruct (Hx Hu) as (x & Hx1 & Hx2). exists x. split; [done|]. intros i Hi. apply Hx2; [lia|].
  destruct (stood_count _ _ _ _ _ _ Hin) as (Hn & Hn0 & _). unfold is_u32 in Hm.
  assert (max + 1 < 2 ^ 32) by (destruct (decide (max + 1 = 2 ^ 32)) as [Hq|]; [rewrite Hq in Hn; by change (n = 0) in Hn; lia|lia]).
  rewrite u32_id in Hn by (unfold is_u32; lia). lia.
Qed.

Lemma bind_client_buffer_calls g g' :
  bind_client_buffer g = Done g' ->
  exists client, buffer_service_id (bound_array_buffer_ (vertices g)) g = Done client /\
    driver_calls g' = driver_calls g ++ [OfVertices (glBindBuffer GL_ARRAY_BUFFER client)].
Proof.
  unfold bind_client_buffer. destruct (buffer_service_id _ g) as [client| |]; [|done..]. cbn [obind].
  intros [= <-]. by exists client.
Qed.

(** After the draw the driver has the client's pointer and the client's array buffer again. *)
Lemma attribute_0_given_back g v g' :
  RestoreStateForSimulatedAttrib0 g = Done g' ->
  exists info id client calls,
    GetVertexAttribInfo 0 (vertex_attrib_manager_ (vertices g)) = Some info /\
    buffer_service_id (VertexAttribManager.buffer_ info) g = Done id /\
    buffer_service_id (bound_array_buffer_ (vertices g)) g = Done client /\
    driver_calls g' = driver_calls g ++ calls /\
    attrib_0_pointer (play_all calls v) =
      (id, va_size_ info, VertexAttribManager.type_ info, normalized_ info, gl_stride_ info, offset_ info) /\
    array_binding (play_all calls v) = client.
Proof.
  unfold RestoreStateForSimulatedAttrib0.
  destruct (GetVertexAttribInfo 0 _) as [info|] eqn:Ei; [|done]. cbn [of_option obind].
  destruct (buffer_service_id (VertexAttribManager.buffer_ info) g) as [id| |] eqn:Eb; [|done..]. cbn [obind].
  intros (client & Hc & Hd)%bind_client_buffer_calls. exists info, id, client. eexists. split; [done|].
  split; [exact Eb|]. split; [exact Hc|]. split; [rewrite Hd; cbn; rewrite <- !app_assoc; reflexivity|]. done.
Qed.

(** When the driver has no memory for the buffer, nothing is drawn, but the client's array buffer
    is not bound again: what it uploads next goes into the buffer that stands in. *)
Lemma out_of_memory_rebinds env max g v g' :
  attrib_0_buffer_id_ (simulation g) = buffer_id ->
  SimulateAttrib0 cfg env max g = Done (None, g') -> attrib_0_error env <> GL_NO_ERROR ->
  driver_calls g' = driver_calls g \/
  exists calls, driver_calls g' = driver_calls g ++ calls /\ array_binding (play_all calls v) = buffer_id.
Proof.
  unfold SimulateAttrib0. intros Hb E He. destruct (egl_gles2 cfg); [done|].
  destruct (GetVertexAttribInfo 0 _) as [info|]; [|done]. cbn [of_option obind] in E.
  destruct (attrib_used g 0) as [used| |]; [|done..]. cbn [obind] in E.
  destruct (enabled_ info && used); [done|]. destruct (SafeMultiplyUint32 _ _) as [ok size].
  match type of E with (if ?b then _ else _) = _ => destruct b end; [injection E as <-; left; cbn; by rewrite app_nil_r|].
  destruct (copied_errors env g) as [Hc Hs]. rewrite (proj2 (Z.eqb_neq _ _) He) in E.
  unfold bind_array_buffer, emit in E. cbn -[Z.mul Vec4s Vec4_eqb u32] in E.
  destruct (i32 size >? attrib_0_size_ (simulation g)); cbn -[Z.mul Vec4s Vec4_eqb u32] in E; [|done].
  injection E as <-. right. eexists. split.
  - cbn -[CopyRealGLErrorsToWrapper]. rewrite Hc, app_nil_r, <- app_assoc. reflexivity.
  - cbn -[with_data]. unfold with_data. cbn. by rewrite Hb, Z.eqb_refl.
Qed.

End stands.
