(* ===== verification/DecoderCommands.v ===== *)
(** * The other commands of the decoder

    The commands on buffers, vertex attributes and the state of the driver, the draw calls, and
    the questions about the state, one step each; what they take for granted; and that every
    one of them is safe. *)

From S2P Require Import Prelude CmdFormat CommandBufferService CommonDecoder.
From Stdlib Require Import ZArith Lia ZifyBool Bool.
From stdpp Require Import base numbers option gmap list.
From S2P Require Import GLConstants Validators GLES2Util FeatureInfo BufferManager VertexAttribManager DrawValidation ContextState ContextInvariant.
From S2P Require Import ProgramDecoder ProgramSafety ProgramCommands DecoderState HandlerSafety BufferDecoder QueryDecoder QuerySafety StateDecoder DrawCalls.
Local Open Scope Z_scope.

Inductive DecoderCommand :=
| GenBuffers (n shm_id shm_offset : Z)
| GenBuffersImmediate (n : Z) (immediate : list Z)
| DeleteBuffers (n shm_id shm_offset : Z)
| DeleteBuffersImmediate (n : Z) (immediate : list Z)
| BindBuffer (target buffer : Z)
| BufferData (target size data_shm_id data_shm_offset usage : Z)
| BufferDataImmediate (target size usage : Z) (immediate : list Z)
| BufferSubData (target offset size data_shm_id data_shm_offset : Z)
| BufferSubDataImmediate (target offset size : Z) (immediate : list Z)
| IsBuffer (buffer shm_id shm_offset : Z)
| GetMaxValueInBufferCHROMIUM (buffer_id count type offset shm_id shm_offset : Z)
| EnableVertexAttribArray (index : Z)
| DisableVertexAttribArray (index : Z)
| VertexAttribPointer (indx size type normalized stride offset : Z)
| VertexAttrib1f (indx x : Z)
| VertexAttrib2f (indx x y : Z)
| VertexAttrib3f (indx x y z : Z)
| VertexAttrib4f (indx x y z w : Z)
| VertexAttrib1fv (indx shm_id shm_offset : Z)
| VertexAttrib2fv (indx shm_id shm_offset : Z)
| VertexAttrib3fv (indx shm_id shm_offset : Z)
| VertexAttrib4fv (indx shm_id shm_offset : Z)
| VertexAttrib1fvImmediate (indx : Z) (immediate : list Z)
| VertexAttrib2fvImmediate (indx : Z) (immediate : list Z)
| VertexAttrib3fvImmediate (indx : Z) (immediate : list Z)
| VertexAttrib4fvImmediate (indx : Z) (immediate : list Z)
| GetVertexAttribPointerv (index pname shm_id shm_offset : Z)
| GetBooleanv (pname shm_id shm_offset : Z)
| GetFloatv (pname shm_id shm_offset : Z)
| GetIntegerv (pname shm_id shm_offset : Z)
| GetBufferParameteriv (target pname shm_id shm_offset : Z)
| GetTexParameterfv (target pname shm_id shm_offset : Z)
| GetTexParameteriv (target pname shm_id shm_offset : Z)
| GetFramebufferAttachmentParameteriv (target attachment pname shm_id shm_offset : Z)
| GetRenderbufferParameteriv (target pname shm_id shm_offset : Z)
| GetVertexAttribfv (index pname shm_id shm_offset : Z)
| GetVertexAttribiv (index pname shm_id shm_offset : Z)
| GetMultipleIntegervCHROMIUM (pnames_shm_id pnames_shm_offset count results_shm_id results_shm_offset size : Z)
| GetError (shm_id shm_offset : Z)
| IsEnabled (cap shm_id shm_offset : Z)
| GetShaderPrecisionFormat (shadertype precisiontype shm_id shm_offset : Z)
| GetString (name bucket_id : Z)
| BlendColor (red green blue alpha : Z)
| BlendEquation (mode : Z)
| BlendEquationSeparate (modeRGB modeAlpha : Z)
| BlendFunc (sfactor dfactor : Z)
| BlendFuncSeparate (srcRGB dstRGB srcAlpha dstAlpha : Z)
| CullFace (mode : Z)
| DepthFunc (func : Z)
| DepthRangef (zNear zFar : Z)
| Finish
| Flush
| FrontFace (mode : Z)
| Hint (target mode : Z)
| LineWidth (width : Z)
| PolygonOffset (factor units : Z)
| ReleaseShaderCompiler
| SampleCoverage (value invert : Z)
| Scissor (x y width height : Z)
| ShaderBinary
| StencilFunc (func ref mask : Z)
| StencilFuncSeparate (face func ref mask : Z)
| StencilOp (fail zfail zpass : Z)
| StencilOpSeparate (face fail zfail zpass : Z)
| Viewport (x y width height : Z)
| Placeholder447CHROMIUM
| Placeholder453CHROMIUM
| TexParameterf (target pname param : Z)
| TexParameterfv (target pname shm_id shm_offset : Z)
| TexParameterfvImmediate (target pname : Z) (immediate : list Z)
| TexParameteriv (target pname shm_id shm_offset : Z)
| TexParameterivImmediate (target pname : Z) (immediate : list Z)
| CompressedTexSubImage2DImmediate (target level xoffset yoffset width height format imageSize : Z) (immediate : list Z)
| GenSharedIdsCHROMIUM (namespace_id id_offset n shm_id shm_offset : Z)
| DeleteSharedIdsCHROMIUM (namespace_id n shm_id shm_offset : Z)
| RegisterSharedIdsCHROMIUM (namespace_id n shm_id shm_offset : Z)
| EnableFeatureCHROMIUM (bucket_id shm_id shm_offset : Z)
| DrawArrays (mode first count : Z)
| DrawElements (mode count type offset : Z).

Section execute.
Context `{Platform} {E : Type} `{CommandBufferEngine E}.
Variables (cfg : Config) (lim : GroupLimits) (env : DecoderAnswers).
Notation Handler := (Handler E).

Definition execute (command : DecoderCommand) : Handler Error :=
  match command with
  | GenBuffers n shm_id shm_offset => HandleGenBuffers env n shm_id shm_offset
  | GenBuffersImmediate n immediate => HandleGenBuffersImmediate env n immediate
  | DeleteBuffers n shm_id shm_offset => HandleDeleteBuffers n shm_id shm_offset
  | DeleteBuffersImmediate n immediate => HandleDeleteBuffersImmediate n immediate
  | BindBuffer target buffer => HandleBindBuffer cfg lim env target buffer
  | BufferData target size data_shm_id data_shm_offset usage =>
      HandleBufferData cfg lim env target size data_shm_id data_shm_offset usage
  | BufferDataImmediate target size usage immediate =>
      HandleBufferDataImmediate cfg lim env target size usage immediate
  | BufferSubData target offset size data_shm_id data_shm_offset =>
      HandleBufferSubData cfg lim env target offset size data_shm_id data_shm_offset
  | BufferSubDataImmediate target offset size immediate =>
      HandleBufferSubDataImmediate cfg lim env target offset size immediate
  | IsBuffer buffer shm_id shm_offset => HandleIsBuffer buffer shm_id shm_offset
  | GetMaxValueInBufferCHROMIUM buffer_id count type offset shm_id shm_offset =>
      HandleGetMaxValueInBufferCHROMIUM cfg buffer_id count type offset shm_id shm_offset
  | EnableVertexAttribArray index => HandleEnableVertexAttribArray index
  | DisableVertexAttribArray index => HandleDisableVertexAttribArray cfg lim env index
  | VertexAttribPointer indx size type normalized stride offset =>
      BufferDecoder.HandleVertexAttribPointer lim indx size type normalized stride offset
  | VertexAttrib1f indx x => HandleVertexAttrib1f indx x
  | VertexAttrib2f indx x y => HandleVertexAttrib2f indx x y
  | VertexAttrib3f indx x y z => HandleVertexAttrib3f indx x y z
  | VertexAttrib4f indx x y z w => HandleVertexAttrib4f indx x y z w
  | VertexAttrib1fv indx shm_id shm_offset => HandleVertexAttrib1fv indx shm_id shm_offset
  | VertexAttrib2fv indx shm_id shm_offset => HandleVertexAttrib2fv indx shm_id shm_offset
  | VertexAttrib3fv indx shm_id shm_offset => HandleVertexAttrib3fv indx shm_id shm_offset
  | VertexAttrib4fv indx shm_id shm_offset => HandleVertexAttrib4fv indx shm_id shm_offset
  | VertexAttrib1fvImmediate indx immediate => HandleVertexAttrib1fvImmediate indx immediate
  | VertexAttrib2fvImmediate indx immediate => HandleVertexAttrib2fvImmediate indx immediate
  | VertexAttrib3fvImmediate indx immediate => HandleVertexAttrib3fvImmediate indx immediate
  | VertexAttrib4fvImmediate indx immediate => HandleVertexAttrib4fvImmediate indx immediate
  | GetVertexAttribPointerv index pname shm_id shm_offset =>
      HandleGetVertexAttribPointerv cfg lim index pname shm_id shm_offset
  | GetBooleanv pname shm_id shm_offset => HandleGetBooleanv cfg lim env pname shm_id shm_offset
  | GetFloatv pname shm_id shm_offset => HandleGetFloatv cfg lim env pname shm_id shm_offset
  | GetIntegerv pname shm_id shm_offset => HandleGetIntegerv cfg lim env pname shm_id shm_offset
  | GetBufferParameteriv target pname shm_id shm_offset =>
      HandleGetBufferParameteriv cfg lim env target pname shm_id shm_offset
  | GetTexParameterfv target pname shm_id shm_offset =>
      HandleGetTexParameterfv cfg lim env target pname shm_id shm_offset
  | GetTexParameteriv target pname shm_id shm_offset =>
      HandleGetTexParameteriv cfg lim env target pname shm_id shm_offset
  | GetFramebufferAttachmentParameteriv target attachment pname shm_id shm_offset =>
      HandleGetFramebufferAttachmentParameteriv cfg lim env target attachment pname shm_id shm_offset
  | GetRenderbufferParameteriv target pname shm_id shm_offset =>
      HandleGetRenderbufferParameteriv cfg lim env target pname shm_id shm_offset
  | GetVertexAttribfv index pname shm_id shm_offset =>
      HandleGetVertexAttribfv cfg lim env index pname shm_id shm_offset
  | GetVertexAttribiv index pname shm_id shm_offset =>
      HandleGetVertexAttribiv cfg lim env index pname shm_id shm_offset
  | GetMultipleIntegervCHROMIUM pnames_shm_id pnames_shm_offset count results_shm_id results_shm_offset size =>
      HandleGetMultipleIntegervCHROMIUM cfg lim env pnames_shm_id pnames_shm_offset count results_shm_id results_shm_offset size
  | GetError shm_id shm_offset => HandleGetError env shm_id shm_offset
  | IsEnabled cap shm_id shm_offset => HandleIsEnabled cfg env cap shm_id shm_offset
  | GetShaderPrecisionFormat shadertype precisiontype shm_id shm_offset =>
      HandleGetShaderPrecisionFormat cfg shadertype precisiontype shm_id shm_offset
  | GetString name bucket_id => HandleGetString cfg env name bucket_id
  | BlendColor red green blue alpha => HandleBlendColor red green blue alpha
  | BlendEquation mode => HandleBlendEquation cfg mode
  | BlendEquationSeparate modeRGB modeAlpha => HandleBlendEquationSeparate cfg modeRGB modeAlpha
  | BlendFunc sfactor dfactor => HandleBlendFunc cfg sfactor dfactor
  | BlendFuncSeparate srcRGB dstRGB srcAlpha dstAlpha => HandleBlendFuncSeparate cfg srcRGB dstRGB srcAlpha dstAlpha
  | CullFace mode => HandleCullFace cfg mode
  | DepthFunc func => HandleDepthFunc cfg func
  | DepthRangef zNear zFar => HandleDepthRangef zNear zFar
  | Finish => HandleFinish
  | Flush => HandleFlush
  | FrontFace mode => HandleFrontFace cfg mode
  | Hint target mode => HandleHint cfg target mode
  | LineWidth width => HandleLineWidth width
  | PolygonOffset factor units => HandlePolygonOffset factor units
  | ReleaseShaderCompiler => HandleReleaseShaderCompiler
  | SampleCoverage value invert => HandleSampleCoverage value invert
  | Scissor x y width height => HandleScissor x y width height
  | ShaderBinary => HandleShaderBinary
  | StencilFunc func ref mask => HandleStencilFunc cfg func ref mask
  | StencilFuncSeparate face func ref mask => HandleStencilFuncSeparate cfg face func ref mask
  | StencilOp fail zfail zpass => HandleStencilOp cfg fail zfail zpass
  | StencilOpSeparate face fail zfail zpass => HandleStencilOpSeparate cfg face fail zfail zpass
  | Viewport x y width height => HandleViewport x y width height
  | Placeholder447CHROMIUM => HandlePlaceholder447CHROMIUM
  | Placeholder453CHROMIUM => HandlePlaceholder453CHROMIUM
  | TexParameterf target pname param => HandleTexParameterf cfg env target pname param
  | TexParameterfv target pname shm_id shm_offset => HandleTexParameterfv cfg env target pname shm_id shm_offset
  | TexParameterfvImmediate target pname immediate => HandleTexParameterfvImmediate cfg env target pname immediate
  | TexParameteriv target pname shm_id shm_offset => HandleTexParameteriv cfg target pname shm_id shm_offset
  | TexParameterivImmediate target pname immediate => HandleTexParameterivImmediate cfg target pname immediate
  | CompressedTexSubImage2DImmediate target level xoffset yoffset width height format imageSize immediate =>
      HandleCompressedTexSubImage2DImmediate cfg target level xoffset yoffset width height format imageSize immediate
  | GenSharedIdsCHROMIUM namespace_id id_offset n shm_id shm_offset =>
      HandleGenSharedIdsCHROMIUM namespace_id id_offset n shm_id shm_offset
  | DeleteSharedIdsCHROMIUM namespace_id n shm_id shm_offset =>
      HandleDeleteSharedIdsCHROMIUM namespace_id n shm_id shm_offset
  | RegisterSharedIdsCHROMIUM namespace_id n shm_id shm_offset =>
      HandleRegisterSharedIdsCHROMIUM namespace_id n shm_id shm_offset
  | EnableFeatureCHROMIUM bucket_id shm_id shm_offset =>
      HandleEnableFeatureCHROMIUM cfg env bucket_id shm_id shm_offset
  | DrawArrays mode first count => HandleDrawArrays cfg lim env mode first count
  | DrawElements mode count type offset => HandleDrawElements cfg lim env mode count type offset
  end.

End execute.

(** ** What a command takes for granted *)

(** The widths of the fields, where a proof needs them. *)
Definition args_ok (command : DecoderCommand) : Prop :=
  match command with
  | GenBuffers _ _ shm_offset | DeleteBuffers _ _ shm_offset | IsBuffer _ _ shm_offset
  | GetBooleanv _ _ shm_offset | GetFloatv _ _ shm_offset | GetIntegerv _ _ shm_offset
  | GetBufferParameteriv _ _ _ shm_offset | GetTexParameterfv _ _ _ shm_offset | GetTexParameteriv _ _ _ shm_offset
  | GetFramebufferAttachmentParameteriv _ _ _ _ shm_offset | GetRenderbufferParameteriv _ _ _ shm_offset
  | GetVertexAttribfv _ _ _ shm_offset | GetVertexAttribiv _ _ _ shm_offset
  | GetError _ shm_offset | IsEnabled _ _ shm_offset | GetShaderPrecisionFormat _ _ _ shm_offset
  | TexParameterfv _ _ _ shm_offset | TexParameteriv _ _ _ shm_offset
  | EnableFeatureCHROMIUM _ _ shm_offset => is_u32 shm_offset
  | BufferData _ size _ shm_offset _ => is_i32 size /\ is_u32 shm_offset
  | BufferDataImmediate _ size _ _ => is_i32 size
  | BufferSubData _ offset size _ shm_offset => is_i32 size /\ is_i32 offset /\ is_u32 shm_offset
  | BufferSubDataImmediate _ offset size _ => is_i32 size /\ is_i32 offset
  | GetMaxValueInBufferCHROMIUM _ count _ offset _ shm_offset => is_u32 offset /\ is_i32 count /\ is_u32 shm_offset
  | EnableVertexAttribArray index | DisableVertexAttribArray index
  | VertexAttrib1f index _ | VertexAttrib2f index _ _ | VertexAttrib3f index _ _ _ | VertexAttrib4f index _ _ _ _
  | VertexAttrib1fvImmediate index _ | VertexAttrib2fvImmediate index _ | VertexAttrib3fvImmediate index _
  | VertexAttrib4fvImmediate index _ => 0 <= index
  | VertexAttrib1fv index _ shm_offset | VertexAttrib2fv index _ shm_offset | VertexAttrib3fv index _ shm_offset
  | VertexAttrib4fv index _ shm_offset | GetVertexAttribPointerv index _ _ shm_offset =>
      0 <= index /\ is_u32 shm_offset
  | VertexAttribPointer indx _ _ _ _ offset => 0 <= indx /\ is_i32 offset
  | GetMultipleIntegervCHROMIUM _ pnames_shm_offset count _ results_shm_offset _ =>
      is_u32 pnames_shm_offset /\ is_u32 count /\ is_u32 results_shm_offset
  | GenSharedIdsCHROMIUM _ _ n _ shm_offset | DeleteSharedIdsCHROMIUM _ n _ shm_offset
  | RegisterSharedIdsCHROMIUM _ n _ shm_offset => is_u32 shm_offset /\ is_i32 n
  | DrawArrays _ first count => is_i32 first /\ is_i32 count
  | DrawElements _ count _ offset => is_i32 count /\ is_i32 offset
  | _ => True
  end.

(** What the code takes for granted of the driver: it writes no more values than the decoder
    counts, and its strings are short.  And of the client, though it does not check it: the
    namespace of shared ids exists, and where the driver is not one of OpenGL ES nothing is
    drawn while an attribute has the type [GL_FIXED].  And of the translators, that they can
    be made. *)
Definition command_ok `{Platform} (cfg : Config) (lim : GroupLimits) (env : DecoderAnswers) (command : DecoderCommand)
    (g : GLES2State) : Prop :=
  match command with
  | GetBooleanv pname _ _ | GetFloatv pname _ _ | GetBufferParameteriv _ pname _ _ | GetTexParameterfv _ pname _ _
  | GetTexParameteriv _ pname _ _ | GetFramebufferAttachmentParameteriv _ _ pname _ _
  | GetRenderbufferParameteriv _ pname _ _ => zlen (gl_values env) <= counted cfg lim pname
  | GetIntegerv pname _ _ => zlen (gl_integers env pname) <= counted cfg lim pname
  | GetMultipleIntegervCHROMIUM _ _ _ _ _ _ => integers_fit lim env
  | GetString _ _ => strings_short cfg env
  | GenSharedIdsCHROMIUM namespace_id _ n _ _ | DeleteSharedIdsCHROMIUM namespace_id n _ _
  | RegisterSharedIdsCHROMIUM namespace_id n _ _ => 0 < n -> is_Some (GetIdAllocator namespace_id)
  | EnableFeatureCHROMIUM _ _ _ => translators_ready env = true
  | DrawArrays _ _ _ | DrawElements _ _ _ _ => no_fixed cfg g
  | _ => True
  end.

Create HintDb handlers.

Section safety.
Context `{Platform} {E : Type} `{CommandBufferEngine E} (engine_ok : E -> Prop) (engine_entries : E -> Z).
Variables (cfg : Config) (lim : GroupLimits).
Notation Handler := (Handler E).
Notation fine := (fine engine_ok engine_entries cfg lim).
Notation formats v := (validators_ (feature_info_ cfg) v).

Variable driver : Driver.
Hypothesis features : feature_reach driver (feature_info_ cfg).

Lemma group_index_types type : ContextState.valid cfg Validator.get_max_index_type type = true -> type ∈ index_types.
Proof.
  intros Hv%(valid_possible _ _ features). revert type Hv. apply Forall_forall.
  assert (forallb (fun type => bool_decide (type ∈ index_types)) (possible_values Validator.get_max_index_type) = true) as Hb
    by (vm_compute; reflexivity).
  rewrite forallb_forall in Hb. apply Forall_forall. intros x Hx%list_elem_of_In. exact (proj1 (bool_decide_eq_true _) (Hb x Hx)).
Qed.

Lemma group_vertex_types : vertex_attrib_types (Enabled_new cfg) ⊆ vertex_types.
Proof.
  intros type Hv. apply IsValid_true in Hv. apply (valid_possible cfg _ features Validator.vertex_attrib_type) in Hv.
  revert type Hv. apply Forall_forall.
  assert (forallb (fun type => bool_decide (type ∈ vertex_types)) (possible_values Validator.vertex_attrib_type) = true) as Hb
    by (vm_compute; reflexivity).
  rewrite forallb_forall in Hb. apply Forall_forall. intros x Hx%list_elem_of_In. exact (proj1 (bool_decide_eq_true _) (Hb x Hx)).
Qed.

(** What is so of every group: see [QuerySafety.v] and [DrawCalls.v]. *)
Record group_ok : Prop := {
  group_compressed : num_compressed_texture_formats lim = zlen (formats Validator.compressed_texture_format);
  group_binary : num_shader_binary_formats lim = zlen (formats Validator.shader_binary_format);
  group_compressed_short : zlen (formats Validator.compressed_texture_format) < 2 ^ 28;
  group_binary_short : zlen (formats Validator.shader_binary_format) < 2 ^ 28;
  group_attribs : 0 < max_vertex_attribs lim;
}.

Hypothesis group : group_ok.

#[local] Hint Resolve HandleGenBuffers_fine HandleGenBuffersImmediate_fine HandleDeleteBuffers_fine
  HandleDeleteBuffersImmediate_fine HandleBindBuffer_fine HandleBufferData_fine HandleBufferDataImmediate_fine
  HandleBufferSubData_fine HandleBufferSubDataImmediate_fine HandleIsBuffer_fine HandleGetMaxValueInBuffer_fine
  HandleEnableVertexAttribArray_fine HandleDisableVertexAttribArray_fine HandleVertexAttribPointer_fine
  HandleGetVertexAttribPointerv_fine : handlers.
#[local] Hint Resolve HandleGetBooleanv_fine HandleGetFloatv_fine HandleGetIntegerv_fine driver_parameter_fine
  HandleGetFramebufferAttachmentParameteriv_fine HandleGetRenderbufferParameteriv_fine HandleGetVertexAttribfv_fine
  HandleGetVertexAttribiv_fine HandleGetMultipleIntegervCHROMIUM_fine HandleGetError_fine HandleIsEnabled_fine
  HandleGetShaderPrecisionFormat_fine HandleGetString_fine : handlers.
#[local] Hint Resolve HandleScissor_fine HandleViewport_fine HandleTexParameterf_fine
  HandleCompressedTexSubImage2DImmediate_fine HandleGenSharedIds_fine HandleDeleteSharedIds_fine
  HandleRegisterSharedIds_fine HandleEnableFeature_fine : handlers.

(** The draw calls are safe in some states only. *)
Definition is_draw (command : DecoderCommand) : bool :=
  match command with DrawArrays _ _ _ | DrawElements _ _ _ _ => true | _ => false end.

(** A handler is one of a kind, or it has its lemma. *)
Ltac handler :=
  first [ apply tested_call_fine | apply fine_call | apply fine_ret | apply fine_failing
        | apply vertex_attrib_fine; assumption
        | apply vertex_attribs_fine; [assumption|intros; first [eapply values_shared | apply values_immediate]; eauto; lia]
        | apply tex_parameter_in_memory_fine; [assumption|intros; by apply tex_parameter_fine]
        | apply tex_parameter_in_command_fine; intros; by apply tex_parameter_fine
        | eauto with handlers ].

Lemma execute_other_fine env command g :
  is_draw command = false -> args_ok command -> command_ok cfg lim env command g ->
  fine [] (execute cfg lim env command).
Proof.
  destruct group. pose proof group_index_types as Hindex. intros Hd Ha Hc.
  destruct command; try discriminate Hd; clear Hd; cbn [execute args_ok command_ok] in *;
    repeat match goal with Hx : _ /\ _ |- _ => destruct Hx end; solve [handler].
Qed.

(** Every command is answered, and leaves a good state, from every good one in which what it
    takes for granted is so. *)
Lemma decoder_execute_fine env command w :
  world_good engine_ok engine_entries cfg lim w -> args_ok command -> command_ok cfg lim env command w.2 ->
  yields (fun r => world_good engine_ok engine_entries cfg lim r.2) (execute cfg lim env command w).
Proof.
  intros Hw Ha Hc. destruct (is_draw command) eqn:Ed.
  - destruct group. destruct command; try discriminate Ed; cbn [execute args_ok command_ok] in *; destruct Ha.
    + eapply yields_weaken; [by eapply HandleDrawArrays_runs|by intros r [Hr _]].
    + eapply yields_weaken; [by eapply HandleDrawElements_runs|by intros r [Hr _]].
  - destruct (execute_other_fine env command w.2 Ed Ha Hc w Hw ltac:(constructor)) as (r & -> & Hr & _).
    by apply yields_Done.
Qed.

(** The state of a decoder that was just made is good. *)
Lemma GLES2State_new_good c attrib_0_buffer_id fixed_attrib_buffer_id :
  context_ok cfg c -> state_good cfg lim (GLES2State_new cfg lim c attrib_0_buffer_id fixed_attrib_buffer_id).
Proof.
  intros Hc. pose proof (group_attribs group). split; [done|apply Programs_new_good| |apply group_vertex_types|done].
  apply Decoder_new_ok. lia.
Qed.

End safety.
