(* ===== verification/Connection.v ===== *)
(** * The connection of a GLES2 client

    What [GLES2Implementation] ([gpu/command_buffer/client/gles2_implementation.cc]) asks of
    its helper, and of the memory it shares with the service: commands are queued, and carried
    out in order at some later time; what a command reads in the transfer buffer is what is
    there at that time.  [Connection] is the interface, [ConnectionLaws] what it promises;
    [Link] is a connection whose service works when a schedule says so. *)

From S2P Require Import Prelude GLES2Format Tokens.
From Stdlib Require Import ZArith Lia ZifyBool Bool.
From stdpp Require Import base numbers option list sorting.
Local Open Scope Z_scope.

(** ** Commands

    A method of the GLES2 helper, or one of the common commands. *)
Inductive ClientCommand :=
| Gl (c : Struct) (args data : list Z)
| SetBucketSize (bucket_id size : Z)
| SetBucketData (bucket_id offset size shared_memory_id shared_memory_offset : Z)
| GetBucketSize (bucket_id shared_memory_id shared_memory_offset : Z)
| GetBucketData (bucket_id offset size shared_memory_id shared_memory_offset : Z)
| SetToken (token : Z).

(** ** The interface

    [shared] is what the transfer buffer holds, byte by byte; the client may change it at any
    time.  A command that is issued is not a token: those are the business of [InsertToken]. *)
Class Connection (W : Type) `{TokenHelper W} := {
  issue : ClientCommand -> W -> outcome W;
  InsertToken : W -> outcome (Z * W);
  Finish : W -> outcome W;
  Flush : W -> outcome W;
  shared : W -> list Z;
  set_shared : list Z -> W -> W;
}.

Definition token_of (c : ClientCommand) : option Z := match c with SetToken t => Some t | _ => None end.

(** What was done: each command with the transfer buffer as it found it. *)
Definition History : Type := list (ClientCommand * list Z).

(** Commands carried out one after the other; [serve h c m] is what the command [c] makes of
    the transfer buffer [m], after all of [h] was done. *)
Fixpoint carry_out (serve : History -> ClientCommand -> list Z -> list Z) (cs : list ClientCommand) (m : list Z) (h : History)
    : list Z * History :=
  match cs with
  | [] => (m, h)
  | c :: cs => carry_out serve cs (serve h c m) (h ++ [(c, m)])
  end.

(** Commands are added to those that wait, and then some of them are carried out. *)
Record advanced {W} `{Connection W} (serve : History -> ClientCommand -> list Z -> list Z) (ok : W -> Prop)
    (pending : W -> list ClientCommand) (history : W -> History) (added : list ClientCommand) (w w' : W) : Prop := {
  advanced_ok : ok w';
  advanced_done : exists d, pending w ++ added = d ++ pending w' /\
    carry_out serve d (shared w) (history w) = (shared w', history w');
}.

Class ConnectionLaws (W : Type) `{Connection W} (serve : History -> ClientCommand -> list Z -> list Z) (ok : W -> Prop)
    (pending : W -> list ClientCommand) (history : W -> History) : Prop := {
  issue_ok c w : ok w -> token_of c = None -> exists w', issue c w = Done w' /\ advanced serve ok pending history [c] w w';
  InsertToken_ok w : ok w -> exists t w', InsertToken w = Done (t, w') /\ 0 <= t < 2 ^ 31 /\
    advanced serve ok pending history [SetToken t] w w';
  Finish_ok w : ok w -> exists w', Finish w = Done w' /\ advanced serve ok pending history [] w w' /\ pending w' = [];
  Flush_ok w : ok w -> exists w', Flush w = Done w' /\ advanced serve ok pending history [] w w';
  WaitForToken_ok t w : ok w -> exists w', WaitForToken t w = Done w' /\
    advanced serve ok pending history [] w w' /\ SetToken t ∉ pending w';
  last_token_read_ok w : ok w -> advanced serve ok pending history [] w (last_token_read w).2 /\
    forall t, t <= (last_token_read w).1 -> SetToken t ∉ pending (last_token_read w).2;
  set_shared_ok m w : ok w -> ok (set_shared m w) /\ shared (set_shared m w) = m /\
    pending (set_shared m w) = pending w /\ history (set_shared m w) = history w;
}.

(** ** Lemmas *)

Lemma carry_out_app serve cs cs' m h :
  carry_out serve (cs ++ cs') m h =
    let '(m, h) := carry_out serve cs m h in carry_out serve cs' m h.
Proof. revert m h. induction cs as [|c cs IH]; intros m h; [done|]. cbn. apply IH. Qed.

(** The history only grows. *)
Lemma carry_out_grows serve cs m h :
  exists m' done, carry_out serve cs m h = (m', h ++ done) /\ done.*1 = cs.
Proof.
  revert m h. induction cs as [|c cs IH]; intros m h; cbn; [exists m, []; by rewrite app_nil_r|].
  destruct (IH (serve h c m) (h ++ [(c, m)])) as (m' & done & -> & E). exists m', ((c, m) :: done).
  rewrite <- app_assoc. split; [done|]. cbn. by rewrite E.
Qed.

Section tokens.
Context {W : Type} `{ConnectionLaws W serve ok pending history}.
Notation advanced := (advanced serve ok pending history).

Lemma nothing_advanced w : ok w -> advanced [] w w.
Proof. intros Hw. split; [done|]. exists []. by rewrite app_nil_r. Qed.

Lemma advanced_app cs cs' w w' w'' : advanced cs w w' -> advanced cs' w' w'' -> advanced (cs ++ cs') w w''.
Proof.
  intros [_ (d & E & Hd)] [Hok (d' & E' & Hd')]. split; [done|]. exists (d ++ d').
  rewrite app_assoc, E, <- app_assoc, E', app_assoc. split; [done|]. by rewrite carry_out_app, Hd.
Qed.

(** A token that was read stays read until it is issued again. *)
Lemma advanced_read w w' t : advanced [] w w' -> SetToken t ∉ pending w -> SetToken t ∉ pending w'.
Proof.
  intros [_ (d & E & _)] Hn Hin. rewrite app_nil_r in E. apply Hn. rewrite E. apply elem_of_app. by right.
Qed.

(** The connection waits for tokens as the allocators want it, and does nothing else. *)
Lemma connection_tokens w0 :
  TokenLaws W (fun _ w => advanced [] w0 w) (fun w t => SetToken t ∉ pending w).
Proof.
  split.
  - intros K t w Hw _. destruct (WaitForToken_ok t w (advanced_ok _ _ _ _ _ _ _ Hw)) as (w' & E & Ha & Hn).
    exists w'. split_and!; [done|exact (advanced_app [] [] _ _ _ Hw Ha)|done|]. intros u. by apply advanced_read.
  - intros K w Hw. destruct (last_token_read_ok w (advanced_ok _ _ _ _ _ _ _ Hw)) as [Ha Hn].
    split_and!; [exact (advanced_app [] [] _ _ _ Hw Ha)|done|]. intros u. by apply advanced_read.
Qed.

End tokens.

(** ** A connection that works by a schedule

    After each call of the client the service carries out as many commands as the schedule
    says; [last_read] is the last token it met. *)
Record Link := mkLink {
  waiting : list ClientCommand;
  memory : list Z;
  done_so_far : History;
  last_token : Z;
  last_read : Z;
  schedule : list nat;
}.

Definition Link_new (memory : list Z) (schedule : list nat) : Link := mkLink [] memory [] 0 0 schedule.

Section link.
Variable serve : History -> ClientCommand -> list Z -> list Z.

Definition tokens_of (cs : list ClientCommand) : list Z := omap token_of cs.

Definition run (n : nat) (w : Link) : Link :=
  let now := take n (waiting w) in
  let '(m, h) := carry_out serve now (memory w) (done_so_far w) in
  mkLink (drop n (waiting w)) m h (last_token w) (default (last_read w) (last (tokens_of now))) (schedule w).

(** The service gets its turn. *)
Definition turn (w : Link) : Link :=
  match schedule w with
  | [] => w
  | n :: ns => run n (mkLink (waiting w) (memory w) (done_so_far w) (last_token w) (last_read w) ns)
  end.

Definition append (c : ClientCommand) (token : Z) (w : Link) : Link :=
  mkLink (waiting w ++ [c]) (memory w) (done_so_far w) token (last_read w) (schedule w).

(** How many commands there are up to the last one that sets a token. *)
Fixpoint up_to (t : Z) (cs : list ClientCommand) : nat :=
  match cs with
  | [] => O
  | c :: cs => match up_to t cs with
               | O => if bool_decide (token_of c = Some t) then 1%nat else O
               | S n => S (S n)
               end
  end.

#[export] Instance link_tokens : TokenHelper Link := {|
  WaitForToken := fun t w => Done (run (up_to t (waiting w)) w);
  last_token_read := fun w => (last_read w, turn w);
|}.

(** The tokens start again at zero when there are no more, and then everything is carried out. *)
#[export] Instance link_connection : Connection Link := {|
  issue := fun c w => Done (turn (append c (last_token w) w));
  InsertToken := fun w =>
    let t := Z.land (last_token w + 1) 2147483647 in
    let w := append (SetToken t) t w in
    Done (t, if t =? 0 then run (length (waiting w)) w else turn w);
  Finish := fun w => Done (run (length (waiting w)) w);
  Flush := fun w => Done (turn w);
  shared := memory;
  set_shared := fun m w => mkLink (waiting w) m (done_so_far w) (last_token w) (last_read w) (schedule w);
|}.

(** The tokens that wait come after the last one that was read, in order. *)
Record link_ok (w : Link) : Prop := {
  link_range : 0 <= last_token w < 2 ^ 31 /\ last_read w <= last_token w;
  link_sorted : StronglySorted Z.lt (last_read w :: tokens_of (waiting w));
  link_issued : Forall (fun t => t <= last_token w) (tokens_of (waiting w));
}.

Notation advanced := (advanced serve link_ok waiting done_so_far).

Lemma sorted_after (x : Z) l1 l2 : StronglySorted Z.lt (x :: l1 ++ l2) -> StronglySorted Z.lt (default x (last l1) :: l2).
Proof.
  revert x. induction l1 as [|y l1 IH]; intros x Hs; [done|]. apply StronglySorted_inv in Hs as [Hs _].
  specialize (IH y Hs). rewrite last_cons. by destruct (last l1).
Qed.

Lemma run_waiting n w : waiting (run n w) = drop n (waiting w).
Proof. unfold run. by destruct (carry_out _ _ _ _). Qed.

Lemma run_link_ok n w : link_ok w -> link_ok (run n w).
Proof.
  intros [Hr Hs Hi]. pose proof (run_waiting n w) as Hw.
  assert (tokens_of (waiting w) = tokens_of (take n (waiting w)) ++ tokens_of (drop n (waiting w))) as E.
  { unfold tokens_of. by rewrite <- omap_app, take_drop. }
  rewrite E in *. apply Forall_app in Hi as [Hi1 Hi2]. split.
  - unfold run. destruct (carry_out _ _ _ _). cbn. split; [lia|].
    destruct (last (tokens_of (take n (waiting w)))) as [t|] eqn:El; [|apply Hr].
    apply last_Some in El as [before El]. rewrite El in Hi1. apply Forall_app in Hi1 as [_ Hi1]. by inversion Hi1.
  - rewrite Hw. unfold run. destruct (carry_out _ _ _ _). cbn. by apply sorted_after.
  - rewrite Hw. unfold run. by destruct (carry_out _ _ _ _).
Qed.

Lemma run_carried n w :
  carry_out serve (take n (waiting w)) (memory w) (done_so_far w) = (memory (run n w), done_so_far (run n w)).
Proof. unfold run. by destruct (carry_out _ _ _ _). Qed.

Lemma run_advanced n w : link_ok w -> advanced [] w (run n w).
Proof.
  intros Hw. split; [by apply run_link_ok|]. exists (take n (waiting w)).
  rewrite app_nil_r, run_waiting, take_drop. split; [done|]. apply run_carried.
Qed.

Lemma turn_link_ok w : link_ok w -> link_ok (turn w).
Proof. intros [Hr Hs Hi]. unfold turn. destruct (schedule w); [done|]. by apply run_link_ok. Qed.

Lemma turn_advanced w : link_ok w -> advanced [] w (turn w).
Proof.
  intros Hw. pose proof Hw as [Hr Hs Hi]. unfold turn. destruct (schedule w) as [|n ns].
  - split; [done|]. exists []. by rewrite app_nil_r.
  - destruct (run_advanced n (mkLink (waiting w) (memory w) (done_so_far w) (last_token w) (last_read w) ns))
      as [Hok Hd]; [by split|]. by split.
Qed.

(** A command is added, and then there is a turn of either kind. *)
Lemma append_advanced c t w w' : advanced [] (append c t w) w' -> advanced [c] w w'.
Proof. intros [Hok (d & E & Hd)]. split; [done|]. exists d. rewrite app_nil_r in E. by split. Qed.

Lemma append_link_ok c w : link_ok w -> token_of c = None -> link_ok (append c (last_token w) w).
Proof.
  intros [Hr Hs Hi] Hc. assert (tokens_of (waiting w ++ [c]) = tokens_of (waiting w)) as E.
  { unfold tokens_of. rewrite omap_app. cbn. by rewrite Hc, app_nil_r. }
  split; cbn [waiting last_token last_read append]; rewrite ?E; done.
Qed.

Lemma append_token_ok t w : link_ok w -> last_token w < t < 2 ^ 31 -> link_ok (append (SetToken t) t w).
Proof.
  intros [Hr Hs Hi] Ht. assert (tokens_of (waiting w ++ [SetToken t]) = tokens_of (waiting w) ++ [t]) as E.
  { unfold tokens_of. by rewrite omap_app. }
  split; cbn [waiting last_token last_read append]; rewrite ?E.
  - lia.
  - apply (StronglySorted_app_2 Z.lt (last_read w :: tokens_of (waiting w))); [|done|by repeat constructor].
    intros x y Hx ->%list_elem_of_singleton.
    apply elem_of_cons in Hx as [->|Hx]; [lia|]. rewrite Forall_forall in Hi. specialize (Hi x Hx). cbn in Hi. lia.
  - apply Forall_app. split; [|by repeat constructor]. eapply Forall_impl; [exact Hi|]. cbn. lia.
Qed.

Lemma up_to_spec t cs : SetToken t ∉ drop (up_to t cs) cs.
Proof.
  induction cs as [|c cs IH]; cbn; [by intros ?%elem_of_nil|]. destruct (up_to t cs) as [|n] eqn:E; [|exact IH].
  case_bool_decide as Hc; cbn [drop] in *; [done|]. rewrite not_elem_of_cons. split; [|done]. by intros <-.
Qed.

(** When the tokens start again, nothing waits. *)
Lemma run_all_tokens_again w : link_ok w -> advanced [] (append (SetToken 0) 0 w) (run (length (waiting (append (SetToken 0) 0 w))) (append (SetToken 0) 0 w)).
Proof.
  intros Hw. set (w1 := append (SetToken 0) 0 w). pose proof (run_waiting (length (waiting w1)) w1) as E.
  rewrite drop_all in E. split.
  - split; rewrite ?E; [|by repeat constructor|constructor]. unfold run. destruct (carry_out _ _ _ _). cbn.
    rewrite firstn_all2 by done. unfold tokens_of. rewrite omap_app. cbn. by rewrite last_snoc.
  - exists (take (length (waiting w1)) (waiting w1)). rewrite app_nil_r, E, app_nil_r, firstn_all2 by done.
    split; [done|]. pose proof (run_carried (length (waiting w1)) w1) as Hc. by rewrite firstn_all2 in Hc by done.
Qed.

Lemma advanced_waits w w' c : advanced [] w w' -> c ∈ waiting w' -> c ∈ waiting w.
Proof. intros [_ (d & E & _)] Hc. rewrite app_nil_r in E. rewrite E. apply elem_of_app. by right. Qed.

Lemma token_waits t cs : SetToken t ∈ cs -> t ∈ tokens_of cs.
Proof. intros Hc. apply list_elem_of_omap. by exists (SetToken t). Qed.

#[export] Instance link_laws : ConnectionLaws Link serve link_ok waiting done_so_far.
Proof.
  split.
  - intros c w Hw Hc. eexists. split; [done|]. eapply append_advanced, turn_advanced, append_link_ok; done.
  - intros w Hw. pose proof (link_range _ Hw) as Hr. cbn [InsertToken link_connection].
    destruct (decide (last_token w = 2 ^ 31 - 1)) as [E|E].
    + exists 0. eexists. rewrite E. split; [done|]. split; [lia|]. eapply append_advanced, run_all_tokens_again; done.
    + assert (Z.land (last_token w + 1) 2147483647 = last_token w + 1) as ->.
      { change 2147483647 with (Z.ones 31). rewrite Z.land_ones by lia. apply Z.mod_small. lia. }
      bfalse (last_token w + 1 =? 0).
      eexists _, _. split; [done|]. split; [lia|]. eapply append_advanced, turn_advanced, append_token_ok; [done|lia].
  - intros w Hw. eexists. split; [done|]. split; [by apply run_advanced|]. rewrite run_waiting. apply drop_all.
  - intros w Hw. eexists. split; [done|]. by apply turn_advanced.
  - intros t w Hw. eexists. split; [done|]. split; [by apply run_advanced|]. rewrite run_waiting. apply up_to_spec.
  - intros w Hw. split; [by apply turn_advanced|]. intros t Ht Hin. cbn in Ht, Hin.
    apply (advanced_waits _ _ _ (turn_advanced w Hw)) in Hin. pose proof (link_sorted _ Hw) as [_ Hs]%StronglySorted_inv.
    rewrite Forall_forall in Hs. specialize (Hs t (token_waits _ _ Hin)). lia.
  - intros m w [Hr Hs Hi]. by split_and!.
Qed.

End link.
