(* ===== verification/TransferBuffer.v ===== *)
(** * The transfer buffer of a GLES2 client

    [AlignedRingBuffer] of [gpu/command_buffer/client/gles2_implementation.h], and what all
    uploads of [gles2_implementation.cc] do with it: take memory, fill it, issue a command that
    reads it, and give it back with a token.  The token is what makes this right: the service
    works later, and still finds what was put there. *)

From S2P Require Import Prelude GLES2Format Tokens RingBuffer Connection.
From Stdlib Require Import ZArith Lia ZifyBool Bool.
From stdpp Require Import base numbers option list.
Local Open Scope Z_scope.

(** ** Operations *)

Definition kAlignment : Z := 4.

Definition RoundToAlignment (size : Z) : Z := Z.land (u32 (size + kAlignment - 1)) (u32 (- kAlignment)).

Section operations.
Context {W : Type} `{Connection W}.

Definition Alloc (size : Z) (r : RingBuffer) (w : W) : outcome (Z * RingBuffer * W) :=
  RingBuffer.Alloc (RoundToAlignment (u32 size)) r w.

(** [memcpy] to the transfer buffer, and from it. *)
Definition memcpy_to (offset : Z) (bytes : list Z) (w : W) : outcome W :=
  (do m <- of_option (zwrite (shared w) offset bytes) ;; Done (set_shared m w))%gpu.

Definition memcpy_from (offset size : Z) (w : W) : outcome (list Z) := of_option (zread (shared w) offset size).

(** An upload: [command] is issued with the place of the bytes. *)
Definition put (bytes : list Z) (command : Z -> ClientCommand) (r : RingBuffer) (w : W) : outcome (RingBuffer * W) :=
  (do (offset, r, w) <- Alloc (zlen bytes) r w ;;
   do w <- memcpy_to offset bytes w ;;
   do w <- issue (command offset) w ;;
   do (token, w) <- InsertToken w ;;
   Done (RingBuffer.FreePendingToken offset token r, w))%gpu.

End operations.

(** ** What was promised *)

(** The place of bytes that a command will read, and the bytes. *)
Definition Promise : Type := option (Z * list Z).

(** What a command found when it was carried out. *)
Definition seen (p : Promise) (x : ClientCommand * list Z) : Prop :=
  match p with Some (o, bytes) => zread x.2 o (zlen bytes) = Some bytes | None => True end.

Section promises.
Context {W : Type} `{ConnectionLaws W serve ok pending history}.
Notation advanced := (advanced serve ok pending history).
Implicit Types (blocks : list Block) (m : list Z).

(** Commands that leave the transfer buffer alone. *)
Definition quiet (c : ClientCommand) : Prop := forall h m, serve h c m = m.
Hypothesis tokens_quiet : forall t, quiet (SetToken t).

(** Bytes in a block that waits for one of the [later] commands. *)
Definition covered (base : Z) blocks (later : list ClientCommand) (o n : Z) : Prop :=
  exists b, b ∈ blocks /\ b_state b = FREE_PENDING_TOKEN /\ SetToken (i32 (b_token b)) ∈ later /\
    base + b_offset b <= o /\ o + n <= base + b_offset b + b_size b.

Definition promise_kept (base : Z) blocks m (later : list ClientCommand) (p : Promise) : Prop :=
  match p with
  | Some (o, bytes) => zread m o (zlen bytes) = Some bytes /\ covered base blocks later o (zlen bytes)
  | None => True
  end.

Fixpoint kept (base : Z) blocks m (cs : list ClientCommand) (ps : list Promise) : Prop :=
  match cs, ps with
  | [], [] => True
  | c :: cs, p :: ps => quiet c /\ promise_kept base blocks m cs p /\ kept base blocks m cs ps
  | _, _ => False
  end.

(** All that was issued since the history was [h0], with what was promised: a part of it was
    carried out, and the rest waits. *)
Record sent (base n : Z) (h0 : History) (calls : list (ClientCommand * Promise)) (r : RingBuffer) (w : W) : Prop := {
  sent_ok : ok w;
  sent_ring : wf n r /\ base_offset_ r = base /\ base + n <= zlen (shared w);
  sent_released : released (fun _ => True) (blocks_ r);
  sent_done : exists ps ps' dn, calls.*2 = ps ++ ps' /\ calls.*1 = dn.*1 ++ pending w /\
    history w = h0 ++ dn /\ Forall2 seen ps dn /\ kept base (blocks_ r) (shared w) (pending w) ps';
}.

(** ** Lemmas *)

Lemma kept_length base blocks m cs ps : kept base blocks m cs ps -> length cs = length ps.
Proof. revert ps. induction cs as [|c cs IH]; intros [|p ps]; cbn; try done. intros (_ & _ & Hk). by rewrite (IH ps). Qed.

Lemma promise_kept_mono base blocks blocks' m m' later later' p :
  (forall o k, covered base blocks later o k -> covered base blocks' later' o k) ->
  (forall o bytes, p = Some (o, bytes) -> covered base blocks later o (zlen bytes) ->
     zread m o (zlen bytes) = Some bytes -> zread m' o (zlen bytes) = Some bytes) ->
  promise_kept base blocks m later p -> promise_kept base blocks' m' later' p.
Proof. destruct p as [[o bytes]|]; [|done]. intros Hc Hm [X1 X2]. split; [by apply Hm|by apply Hc]. Qed.

(** Fewer blocks, another memory: where what is waited for stays. *)
Lemma kept_mono base blocks blocks' m m' cs ps :
  (forall b, b ∈ blocks -> b_state b = FREE_PENDING_TOKEN -> SetToken (i32 (b_token b)) ∈ cs -> b ∈ blocks') ->
  (forall b o k bytes, b ∈ blocks' -> b_state b = FREE_PENDING_TOKEN -> base + b_offset b <= o ->
     o + k <= base + b_offset b + b_size b -> zread m o k = Some bytes -> zread m' o k = Some bytes) ->
  kept base blocks m cs ps -> kept base blocks' m' cs ps.
Proof.
  intros Hb Hm. revert ps. induction cs as [|c cs IH]; intros [|p ps]; cbn; try done. intros (Hq & Hp & Hk).
  assert (forall b, b ∈ blocks -> b_state b = FREE_PENDING_TOKEN -> SetToken (i32 (b_token b)) ∈ cs -> b ∈ blocks') as Hb'.
  { intros b X1 X2 X3. apply (Hb b X1 X2). apply elem_of_cons. by right. }
  split; [done|]. split; [|by apply IH].
  eapply promise_kept_mono; [| |exact Hp].
  - intros o k (b & X1 & X2 & X3 & X4). exists b. split; [by apply Hb'|]. by split.
  - intros o bytes _ (b & X1 & X2 & X3 & X4 & X5). by apply (Hm b); [apply Hb'|..].
Qed.

(** What waits after more was issued. *)
Lemma kept_more base blocks m cs ps cs' ps' :
  kept base blocks m cs ps -> kept base blocks m cs' ps' -> kept base blocks m (cs ++ cs') (ps ++ ps').
Proof.
  intros Hk Hk'. revert ps Hk. induction cs as [|c cs IH]; intros [|p ps]; cbn; try done. intros (Hq & Hp & Hk).
  split; [done|]. split; [|by apply IH]. eapply promise_kept_mono; [|by intros|exact Hp].
  intros o k (b & X1 & X2 & X3 & X4). exists b. split; [done|]. split; [done|]. split; [|done].
  apply elem_of_app. by left.
Qed.

(** A part is carried out: it found what was promised. *)
Lemma kept_carried base blocks m d cs ps h : kept base blocks m (d ++ cs) ps ->
  exists ps1 ps2, ps = ps1 ++ ps2 /\ carry_out serve d m h = (m, h ++ ((fun c => (c, m)) <$> d)) /\
    Forall2 seen ps1 ((fun c => (c, m)) <$> d) /\ kept base blocks m cs ps2.
Proof.
  revert ps h. induction d as [|c d IH]; intros ps h; cbn.
  - intros Hk. exists [], ps. by rewrite app_nil_r.
  - destruct ps as [|p ps]; [done|]. intros (Hq & Hp & Hk). destruct (IH ps (h ++ [(c, m)]) Hk) as (ps1 & ps2 & -> & E & Hs & Hk2).
    exists (p :: ps1), ps2. rewrite Hq, E, <- app_assoc. split_and!; [done|done| |done].
    constructor; [|done]. destruct p as [[o bytes]|]; [|done]. apply Hp.
Qed.

(** Any progress of the connection keeps the promises. *)
Lemma sent_advanced base n h0 calls more r w w' :
  sent base n h0 calls r w -> advanced (more.*1) w w' ->
  kept base (blocks_ r) (shared w) (more.*1) (more.*2) -> sent base n h0 (calls ++ more) r w'.
Proof.
  intros [Hw Hr Hrel (ps & ps' & dn & E1 & E2 & E3 & Hs & Hk)] [Hok (d & Ed & Hd)] Hm.
  pose proof (kept_more _ _ _ _ _ _ _ Hk Hm) as Hk'. rewrite Ed in Hk'.
  destruct (kept_carried _ _ _ _ _ _ (history w) Hk') as (ps1 & ps2 & Ep & Ec & Hs' & Hk2).
  rewrite Ec in Hd. injection Hd as Em Eh. split; [done|by rewrite <- Em|done|].
  exists (ps ++ ps1), ps2, (dn ++ ((fun c => (c, shared w)) <$> d)). rewrite <- Em. split_and!.
  - rewrite fmap_app, E1, <- !app_assoc. by rewrite Ep.
  - rewrite fmap_app, E2, <- app_assoc, Ed, fmap_app, <- app_assoc. f_equal. f_equal.
    clear. induction d as [|c d IH]; [done|]. cbn. by rewrite <- IH.
  - by rewrite <- Eh, E3, <- app_assoc.
  - by apply Forall2_app.
  - done.
Qed.

Lemma RoundToAlignment_le size n : 0 <= size <= n -> n mod 4 = 0 -> n <= 2 ^ 31 ->
  0 <= RoundToAlignment (u32 size) <= n /\ size <= RoundToAlignment (u32 size).
Proof.
  intros Hs Hn Hm. unfold RoundToAlignment, kAlignment. rewrite !(u32_id size), (u32_id (size + 4 - 1)) by (unfold is_u32; lia).
  assert (Z.land (size + 4 - 1) (u32 (Z.opp 4)) = (size + 4 - 1) / 4 * 4) as ->.
  { change (u32 (Z.opp 4)) with (Z.ldiff (Z.ones 32) (Z.ones 2)). rewrite Z.ldiff_land, Z.land_assoc, Z.land_ones by lia.
    rewrite Z.mod_small by lia. rewrite <- Z.ldiff_land, Z.ldiff_ones_r, Z.shiftl_mul_pow2, Z.shiftr_div_pow2 by lia. done. }
  pose proof (Z.div_mod n 4). pose proof (Z.div_mod (size + 4 - 1) 4). pose proof (Z.mod_pos_bound (size + 4 - 1) 4).
  assert ((size + 4 - 1) / 4 <= n / 4); [|lia]. apply Z.lt_succ_r. apply Z.div_lt_upper_bound; lia.
Qed.

(** The ring after memory was taken and the token set: nothing that is waited for was touched. *)
Lemma blocks_kept base n h0 calls r w popped rest pad o size bytes m t :
  sent base n h0 calls r w -> blocks_ r = popped ++ rest ->
  taken_back (passed := fun w t => SetToken t ∉ pending w) w popped ->
  Forall (fun b => range_disjoint b (o - base) size) rest -> zlen bytes <= size -> zwrite (shared w) o bytes = Some m ->
  exists ps ps' dn, calls.*2 = ps ++ ps' /\ calls.*1 = dn.*1 ++ pending w /\ history w = h0 ++ dn /\ Forall2 seen ps dn /\
    kept base (rest ++ pad ++ [mkBlock (o - base) size t FREE_PENDING_TOKEN]) m (pending w) ps'.
Proof.
  intros [_ _ _ (ps & ps' & dn & E1 & E2 & E3 & Hs & Hk)] Eb Ht Hd Hz Hm.
  exists ps, ps', dn. split_and!; try done. rewrite Eb in Hk.
  apply (kept_mono _ (popped ++ rest) rest _ m) in Hk.
  - eapply kept_mono; [| |exact Hk]; [|done]. intros b Hin _ _. apply elem_of_app. by left.
  - intros b Hin Hst Hp. apply elem_of_app in Hin as [Hin|Hin]; [|done].
    unfold taken_back in Ht. rewrite Forall_forall in Ht. by destruct (Ht b Hin Hst).
  - intros b o' k bs Hin Hst X1 X2 Hr. rewrite <- Hr. apply (zread_unwritten _ _ _ _ _ _ Hm).
    rewrite Forall_forall in Hd. specialize (Hd b Hin). unfold range_disjoint in Hd. lia.
Qed.

(** A command that is waited for: it comes after all the others, and finds the transfer buffer
    as the client left it. *)
Lemma issue_Finish_ok base blocks h0 (calls : list (ClientCommand * Promise)) w c : ok w -> token_of c = None ->
  (exists ps ps' dn, calls.*2 = ps ++ ps' /\ calls.*1 = dn.*1 ++ pending w /\
     history w = h0 ++ dn /\ Forall2 seen ps dn /\ kept base blocks (shared w) (pending w) ps') ->
  exists w1 w2 dn, issue c w = Done w1 /\ Finish w1 = Done w2 /\ ok w2 /\ pending w2 = [] /\
    dn.*1 = calls.*1 /\ Forall2 seen calls.*2 dn /\ history w2 = (h0 ++ dn) ++ [(c, shared w)] /\
    shared w2 = serve (h0 ++ dn) c (shared w).
Proof.
  intros Hw Hc (ps & ps' & dn & E1 & E2 & E3 & Hs & Hk).
  destruct (issue_ok c w Hw Hc) as (w1 & F1 & A1). destruct (Finish_ok w1) as (w2 & F2 & A2 & Hp); [apply A1|].
  destruct (advanced_app _ _ _ _ _ A1 A2) as [Hok (d & Ed & Hd)]. rewrite Hp, !app_nil_r in Ed. subst d.
  rewrite <- (app_nil_r (pending w)) in Hk.
  destruct (kept_carried base blocks _ (pending w) [] ps' (history w) Hk) as (ps1 & ps2 & -> & Ec & Hs1 & Hk2).
  destruct ps2; [|done]. rewrite app_nil_r in *. rewrite carry_out_app, Ec in Hd. cbn in Hd. injection Hd as Em Eh.
  exists w1, w2, (dn ++ ((fun c => (c, shared w)) <$> pending w)). rewrite app_assoc, <- E3. split_and!; try done.
  - rewrite E2, fmap_app. f_equal. rewrite <- list_fmap_compose. by apply list_fmap_id.
  - rewrite E1. by apply Forall2_app.
Qed.

Lemma put_ok base n h0 calls bytes command r w :
  sent base n h0 calls r w -> zlen bytes <= n -> n mod 4 = 0 ->
  (forall o, quiet (command o) /\ token_of (command o) = None) ->
  exists o t r' w', put bytes command r w = Done (r', w') /\
    sent base n h0 (calls ++ [(command o, Some (o, bytes)); (SetToken t, None)]) r' w' /\
    base <= o /\ o + zlen bytes <= base + n.
Proof.
  intros Hs Hn Hn4 Hc. pose proof Hs as [Hw (Hwf & Hbase & Hmem) Hrel _]. pose proof (wf_size _ _ Hwf) as [_ Hn0]. pose proof (wf_base _ _ Hwf) as [Hb0 _].
  pose proof (zlen_nonneg bytes). destruct (RoundToAlignment_le (zlen bytes) n) as [Hr1 Hr2]; [lia..|].
  destruct (Alloc_room (TL := connection_tokens w) (fun _ => True) n (RoundToAlignment (u32 (zlen bytes))) r w)
    as (popped & rest & pad & o & r1 & w1 & Ea & Eb & Ht & Eb1 & Hpad & Ho1 & Ho2 & Hdis & Hwf1 & Hadv & Hbase1);
    [done|by apply nothing_advanced|done|lia|]. rewrite Hbase in *.
  assert (zlen bytes <= request (RoundToAlignment (u32 (zlen bytes))) /\ 0 < request (RoundToAlignment (u32 (zlen bytes)))) as [Hreq Hsz]
    by (unfold request; case_match; zbool; lia).
  set (size := request _) in *.
  assert (sent base n h0 calls r w1) as Hs1.
  { rewrite <- (app_nil_r calls). by eapply sent_advanced. }
  pose proof Hs1 as [Hw1 (_ & _ & Hmem1) _ _].
  destruct (zwrite_Some (shared w1) bytes o) as (m & Em & Hl); [lia..|].
  destruct (set_shared_ok m w1 Hw1) as (Hw2 & Es2 & Ep2 & Eh2).
  destruct (issue_ok (command o) (set_shared m w1) Hw2) as (w3 & E3 & Ha3); [apply Hc|].
  destruct (InsertToken_ok w3) as (t & w4 & E4 & Ht4 & Ha4); [apply Ha3|].
  assert (i32 t = t) as Hi by (apply i32_id; unfold is_i32; lia).
  destruct (FreePendingToken_last n r1 (rest ++ pad) o size t) as (Hwf' & Hbase' & Eb'); [done| |rewrite Hbase1; lia|].
  { by rewrite Hbase1, Eb1, <- app_assoc. }
  exists o, t, (FreePendingToken o t r1), w4. split; [|split; [|lia]].
  - unfold put, Alloc. rewrite Ea. cbn [obind]. unfold memcpy_to. rewrite Em. cbn [of_option obind]. rewrite E3. cbn [obind].
    by rewrite E4.
  - apply (sent_advanced base n h0 calls [(command o, Some (o, bytes)); (SetToken t, None)] _ (set_shared m w1) w4).
    + split; [done| | |].
      * split; [done|]. split; [done|]. rewrite Es2. lia.
      * rewrite Eb'. unfold released in *. rewrite Eb in Hrel. apply Forall_app in Hrel as [_ Hrel].
        rewrite <- app_assoc. apply Forall_app. split; [done|]. apply Forall_app. split; [|by repeat constructor].
        eapply Forall_impl; [exact Hpad|]. intros b Hb. by rewrite Hb.
      * rewrite Eb', Hbase1, <- app_assoc, Es2, Ep2, Eh2. by eapply blocks_kept.
    + exact (advanced_app [_] [_] _ _ _ Ha3 Ha4).
    + refine (conj (proj1 (Hc o)) (conj (conj _ _) (conj (tokens_quiet t) (conj I I)))).
      { rewrite Es2. by apply (zread_written (shared w1)). }
      exists (mkBlock (o - base) size t FREE_PENDING_TOKEN). rewrite Eb', Hbase1. cbn. rewrite Hi.
      split; [rewrite !elem_of_app; right; by left|]. split; [done|]. split; [by left|]. lia.
Qed.

End promises.
