(* ===== verification/ClientState.v ===== *)
(** * The state of a GLES2 client

    [GLES2Implementation] of [gpu/command_buffer/client/gles2_implementation.{h,cc}]: the
    application's side of OpenGL ES.  Its methods are computations of a monad over its members
    and the connection to the service.  Here: the members, errors, results, uploads, buckets,
    and the handlers of ids. *)

From S2P Require Import Prelude CmdFormat GLES2Format GLES2Commands.
From Stdlib Require Import ZArith Lia ZifyBool Bool.
From stdpp Require Import base numbers option gmap list.
From S2P Require Import GLConstants GLES2Util IdAllocator ProgramInfoManager RingBuffer Tokens.
From S2P Require Import MappedMemory Connection TransferBuffer.
Local Open Scope Z_scope.

(** ** Data *)

Record PixelStore := mkPixelStore { pack_alignment_ : Z; unpack_alignment_ : Z; unpack_flip_y_ : bool }.

Record TextureUnit := mkTextureUnit { bound_texture_2d : Z; bound_texture_cube_map : Z }.

(** What the client remembers to have bound. *)
Record Bound := mkBound {
  texture_units_ : list TextureUnit;
  active_texture_unit_ : Z;
  bound_framebuffer_ : Z;
  bound_renderbuffer_ : Z;
  bound_array_buffer_id_ : Z;
  bound_element_array_buffer_id_ : Z;
}.

(** The limits that the client asks for once, [GLState]. *)
Record GLState := mkGLState {
  max_combined_texture_image_units : Z;
  max_cube_map_texture_size : Z;
  max_fragment_uniform_vectors : Z;
  max_renderbuffer_size : Z;
  max_texture_image_units : Z;
  max_texture_size : Z;
  max_varying_vectors : Z;
  max_vertex_attribs : Z;
  max_vertex_texture_image_units : Z;
  max_vertex_uniform_vectors : Z;
  num_compressed_texture_formats : Z;
  num_shader_binary_formats : Z;
}.

Definition GLState_new : GLState := mkGLState 0 0 0 0 0 0 0 0 0 0 0 0.

(** The classes that implement [IdHandlerInterface]. *)
Inductive IdHandler :=
| NonSharedIdHandler (id_allocator_ : Reused.IdAllocator)
| NonSharedNonReusedIdHandler (last_id_ : Z)
| SharedIdHandler (id_namespace_ : Z)
| StrictSharedIdHandler (id_namespace_ : Z) (used_ids_ : gset Z) (free_ids_ : list Z).

(** [id_namespaces::IdNamespaces]. *)
Inductive Namespace := Buffers | Framebuffers | ProgramsAndShaders | Renderbuffers | Textures.

Definition number (ns : Namespace) : Z :=
  match ns with Buffers => 0 | Framebuffers => 1 | ProgramsAndShaders => 2 | Renderbuffers => 3 | Textures => 4 end.

(** A vertex attribute as the client sees it: [pointer_] is an address of the application, or
    an offset in a buffer. *)
Record ClientAttrib := mkClientAttrib {
  enabled_ : bool;
  buffer_id_ : Z;
  size_ : Z;
  type_ : Z;
  normalized_ : Z;
  pointer_ : Z;
  gl_stride_ : Z;
}.

(** [ClientSideBufferHelper], there when the client is compiled with
    [GLES2_SUPPORT_CLIENT_SIDE_ARRAYS]. *)
Record ClientSideBufferHelper := mkClientSide {
  max_vertex_attribs_ : Z;
  num_client_side_pointers_enabled_ : Z;
  array_buffer_id_ : Z;
  array_buffer_size_ : Z;
  array_buffer_offset_ : Z;
  element_array_buffer_id_ : Z;
  element_array_buffer_size_ : Z;
  vertex_attrib_infos_ : list ClientAttrib;
}.

(** Memory that the application was given to fill, [MappedBuffer] and [MappedTexture]: the
    arguments of the call that follows, and where the memory is. *)
Record MappedResource := mkMappedResource { access : Z; mapped_shm_id : Z; mapped_shm_offset : Z }.

Record MappedBuffer := mkMappedBuffer { mb_resource : MappedResource; mb_target : Z; mb_offset : Z; mb_size : Z }.

Record MappedTexture := mkMappedTexture {
  mt_resource : MappedResource;
  mt_target : Z; mt_level : Z; mt_xoffset : Z; mt_yoffset : Z;
  mt_width : Z; mt_height : Z; mt_format : Z; mt_type : Z;
}.

(** The maps have the addresses for keys. *)
Record Mapped := mkMapped {
  mapped_memory_ : list MemoryChunk;
  mapped_buffers_ : gmap Z MappedBuffer;
  mapped_textures_ : gmap Z MappedTexture;
}.

(** [util_] holds the two numbers of [GLES2Util]. *)
Record GLES2Implementation := mkGLES2Implementation {
  transfer_buffer_ : RingBuffer;
  pixel_store : PixelStore;
  bound : Bound;
  buffer_id_handler_ : IdHandler;
  framebuffer_id_handler_ : IdHandler;
  program_and_shader_id_handler_ : IdHandler;
  renderbuffer_id_handler_ : IdHandler;
  texture_id_handler_ : IdHandler;
  client_side_buffer_helper_ : option ClientSideBufferHelper;
  reserved_ids_ : list Z;
  error_bits_ : Z;
  gl_state_ : GLState;
  util_ : Z * Z;
  gl_strings_ : gmap Z (gset (list Z));
  requestable_extensions_set_ : gset (list Z);
  swap_buffers_tokens_ : list Z;
  rate_limit_tokens_ : list Z;
  mapped : Mapped;
  program_info_manager_ : CachedProgramInfoManager;
}.

(** What is chosen when the client is made. *)
Record ClientConfig := mkClientConfig {
  transfer_buffer_id_ : Z;
  sharing_resources_ : bool;
  bind_generates_resource_ : bool;
}.

Definition kMaxSizeOfSimpleResult : Z := 16 * 4.
Definition kStartingOffset : Z := kMaxSizeOfSimpleResult.
Definition kResultBucketId : Z := 1.
Definition kMaxSwapBuffers : Z := 2.
Definition kNumIdsToGet : Z := 2048.

(** ** Changes *)

Definition with_transfer_buffer (r : RingBuffer) (g : GLES2Implementation) : GLES2Implementation :=
  mkGLES2Implementation r (pixel_store g) (bound g) (buffer_id_handler_ g) (framebuffer_id_handler_ g)
    (program_and_shader_id_handler_ g) (renderbuffer_id_handler_ g) (texture_id_handler_ g)
    (client_side_buffer_helper_ g) (reserved_ids_ g) (error_bits_ g) (gl_state_ g) (util_ g) (gl_strings_ g)
    (requestable_extensions_set_ g) (swap_buffers_tokens_ g) (rate_limit_tokens_ g) (mapped g)
    (program_info_manager_ g).

Definition with_pixel_store (p : PixelStore) (g : GLES2Implementation) : GLES2Implementation :=
  mkGLES2Implementation (transfer_buffer_ g) p (bound g) (buffer_id_handler_ g) (framebuffer_id_handler_ g)
    (program_and_shader_id_handler_ g) (renderbuffer_id_handler_ g) (texture_id_handler_ g)
    (client_side_buffer_helper_ g) (reserved_ids_ g) (error_bits_ g) (gl_state_ g) (util_ g) (gl_strings_ g)
    (requestable_extensions_set_ g) (swap_buffers_tokens_ g) (rate_limit_tokens_ g) (mapped g)
    (program_info_manager_ g).

Definition with_bound (b : Bound) (g : GLES2Implementation) : GLES2Implementation :=
  mkGLES2Implementation (transfer_buffer_ g) (pixel_store g) b (buffer_id_handler_ g) (framebuffer_id_handler_ g)
    (program_and_shader_id_handler_ g) (renderbuffer_id_handler_ g) (texture_id_handler_ g)
    (client_side_buffer_helper_ g) (reserved_ids_ g) (error_bits_ g) (gl_state_ g) (util_ g) (gl_strings_ g)
    (requestable_extensions_set_ g) (swap_buffers_tokens_ g) (rate_limit_tokens_ g) (mapped g)
    (program_info_manager_ g).

Definition id_handler (ns : Namespace) (g : GLES2Implementation) : IdHandler :=
  match ns with
  | Buffers => buffer_id_handler_ g
  | Framebuffers => framebuffer_id_handler_ g
  | ProgramsAndShaders => program_and_shader_id_handler_ g
  | Renderbuffers => renderbuffer_id_handler_ g
  | Textures => texture_id_handler_ g
  end.

Definition with_id_handler (ns : Namespace) (h : IdHandler) (g : GLES2Implementation) : GLES2Implementation :=
  let at_ x := if decide (number ns = number x) then h else id_handler x g in
  mkGLES2Implementation (transfer_buffer_ g) (pixel_store g) (bound g) (at_ Buffers) (at_ Framebuffers)
    (at_ ProgramsAndShaders) (at_ Renderbuffers) (at_ Textures) (client_side_buffer_helper_ g) (reserved_ids_ g)
    (error_bits_ g) (gl_state_ g) (util_ g) (gl_strings_ g) (requestable_extensions_set_ g) (swap_buffers_tokens_ g)
    (rate_limit_tokens_ g) (mapped g) (program_info_manager_ g).

Definition with_client_side (c : option ClientSideBufferHelper) (reserved : list Z) (g : GLES2Implementation) : GLES2Implementation :=
  mkGLES2Implementation (transfer_buffer_ g) (pixel_store g) (bound g) (buffer_id_handler_ g)
    (framebuffer_id_handler_ g) (program_and_shader_id_handler_ g) (renderbuffer_id_handler_ g)
    (texture_id_handler_ g) c reserved (error_bits_ g) (gl_state_ g) (util_ g) (gl_strings_ g)
    (requestable_extensions_set_ g) (swap_buffers_tokens_ g) (rate_limit_tokens_ g) (mapped g)
    (program_info_manager_ g).

Definition with_error_bits (bits : Z) (g : GLES2Implementation) : GLES2Implementation :=
  mkGLES2Implementation (transfer_buffer_ g) (pixel_store g) (bound g) (buffer_id_handler_ g)
    (framebuffer_id_handler_ g) (program_and_shader_id_handler_ g) (renderbuffer_id_handler_ g)
    (texture_id_handler_ g) (client_side_buffer_helper_ g) (reserved_ids_ g) bits (gl_state_ g) (util_ g)
    (gl_strings_ g) (requestable_extensions_set_ g) (swap_buffers_tokens_ g) (rate_limit_tokens_ g) (mapped g)
    (program_info_manager_ g).

Definition with_gl_state (s : GLState) (g : GLES2Implementation) : GLES2Implementation :=
  mkGLES2Implementation (transfer_buffer_ g) (pixel_store g) (bound g) (buffer_id_handler_ g)
    (framebuffer_id_handler_ g) (program_and_shader_id_handler_ g) (renderbuffer_id_handler_ g)
    (texture_id_handler_ g) (client_side_buffer_helper_ g) (reserved_ids_ g) (error_bits_ g) s (util_ g)
    (gl_strings_ g) (requestable_extensions_set_ g) (swap_buffers_tokens_ g) (rate_limit_tokens_ g) (mapped g)
    (program_info_manager_ g).

Definition with_strings (strings : gmap Z (gset (list Z))) (requestable : gset (list Z)) (g : GLES2Implementation) : GLES2Implementation :=
  mkGLES2Implementation (transfer_buffer_ g) (pixel_store g) (bound g) (buffer_id_handler_ g)
    (framebuffer_id_handler_ g) (program_and_shader_id_handler_ g) (renderbuffer_id_handler_ g)
    (texture_id_handler_ g) (client_side_buffer_helper_ g) (reserved_ids_ g) (error_bits_ g) (gl_state_ g) (util_ g)
    strings requestable (swap_buffers_tokens_ g) (rate_limit_tokens_ g) (mapped g) (program_info_manager_ g).

Definition with_tokens (swap rate : list Z) (g : GLES2Implementation) : GLES2Implementation :=
  mkGLES2Implementation (transfer_buffer_ g) (pixel_store g) (bound g) (buffer_id_handler_ g)
    (framebuffer_id_handler_ g) (program_and_shader_id_handler_ g) (renderbuffer_id_handler_ g)
    (texture_id_handler_ g) (client_side_buffer_helper_ g) (reserved_ids_ g) (error_bits_ g) (gl_state_ g) (util_ g)
    (gl_strings_ g) (requestable_extensions_set_ g) swap rate (mapped g) (program_info_manager_ g).

Definition with_mapped (m : Mapped) (g : GLES2Implementation) : GLES2Implementation :=
  mkGLES2Implementation (transfer_buffer_ g) (pixel_store g) (bound g) (buffer_id_handler_ g)
    (framebuffer_id_handler_ g) (program_and_shader_id_handler_ g) (renderbuffer_id_handler_ g)
    (texture_id_handler_ g) (client_side_buffer_helper_ g) (reserved_ids_ g) (error_bits_ g) (gl_state_ g) (util_ g)
    (gl_strings_ g) (requestable_extensions_set_ g) (swap_buffers_tokens_ g) (rate_limit_tokens_ g) m
    (program_info_manager_ g).

Definition with_program_info (m : CachedProgramInfoManager) (g : GLES2Implementation) : GLES2Implementation :=
  mkGLES2Implementation (transfer_buffer_ g) (pixel_store g) (bound g) (buffer_id_handler_ g)
    (framebuffer_id_handler_ g) (program_and_shader_id_handler_ g) (renderbuffer_id_handler_ g)
    (texture_id_handler_ g) (client_side_buffer_helper_ g) (reserved_ids_ g) (error_bits_ g) (gl_state_ g) (util_ g)
    (gl_strings_ g) (requestable_extensions_set_ g) (swap_buffers_tokens_ g) (rate_limit_tokens_ g) (mapped g) m.

(** ** The monad of methods *)

Definition Method (W A : Type) : Type := GLES2Implementation * W -> outcome (A * (GLES2Implementation * W)).

#[export] Instance method_ret {W} : MRet (Method W) := fun A x s => Done (x, s).
#[export] Instance method_bind {W} : MBind (Method W) := fun A B k m s => (do (x, s) <- m s ;; k x s)%gpu.

Section methods.
Context `{Platform} {W : Type} `{Connection W}.
Variable cfg : ClientConfig.
Notation Method := (Method W).

Definition get {A} (f : GLES2Implementation -> A) : Method A := fun s => Done (f s.1, s).
Definition modify (f : GLES2Implementation -> GLES2Implementation) : Method () := fun s => Done ((), (f s.1, s.2)).
Definition undefined {A} : Method A := fun _ => UB.
Definition never {A} : Method A := fun _ => Fuel.
Definition the {A} (o : option A) : Method A := fun s => (do x <- of_option o ;; Done (x, s))%gpu.

(** A signed result that an [int] does not hold is not defined. *)
Definition int (x : Z) : Method Z := if decide (- 2 ^ 31 <= x < 2 ^ 31) then mret x else undefined.

(** What the helper and the memory do. *)
Definition link (f : W -> outcome W) : Method () := fun s => (do w <- f s.2 ;; Done ((), (s.1, w)))%gpu.
Definition ask_link {A} (f : W -> outcome (A * W)) : Method A := fun s => (do (x, w) <- f s.2 ;; Done (x, (s.1, w)))%gpu.

Definition helper (c : ClientCommand) : Method () := link (issue c).
Definition gl (c : Struct) (args : list Z) : Method () := helper (Gl c args []).
Definition immediate (c : Struct) (args data : list Z) : Method () := helper (Gl c args data).
Definition InsertToken : Method Z := ask_link Connection.InsertToken.
Definition WaitForToken (token : Z) : Method () := link (Tokens.WaitForToken token).
Definition WaitForCmd : Method () := link Connection.Finish.
Definition FlushHelper : Method () := link Connection.Flush.

(** *** Errors *)

Definition SetGLError (error : Z) : Method () :=
  modify (fun g => with_error_bits (Z.lor (error_bits_ g) (GLErrorToErrorBit error)) g).

(** *** Results

    The first bytes of the transfer buffer hold the results of commands. *)
Definition result_shm_id : Z := transfer_buffer_id_ cfg.
Definition result_shm_offset : Z := 0.

Definition set_result (words : list Z) : Method () := link (memcpy_to result_shm_offset (words_to_bytes (u32 <$> words))).

Definition read_shared (offset size : Z) : Method (list Z) := ask_link (fun w => do bytes <- memcpy_from offset size w ;; Done (bytes, w))%gpu.

Definition result_word (index : Z) : Method Z :=
  bytes ← read_shared (result_shm_offset + 4 * index) 4; mret (le_word bytes).

(** Asking the service: the result is set first, for a service that is lost. *)
Definition ask (initial : list Z) (command : ClientCommand) : Method () :=
  set_result initial ;; helper command ;; WaitForCmd.

Definition ask_word (initial : Z) (command : ClientCommand) : Method Z := ask [initial] command ;; result_word 0.

(** [CopyResult] of a result whose size stands in front. *)
Definition ask_sized (command : ClientCommand) : Method (list Z) :=
  ask [0] command ;; size ← result_word 0; read_shared (result_shm_offset + 4) size.

(** *** Uploads *)

Definition upload (bytes : list Z) (command : Z -> ClientCommand) : Method () := fun s =>
  (do (r, w) <- put bytes command (transfer_buffer_ s.1) s.2 ;; Done ((), (with_transfer_buffer r s.1, w)))%gpu.

Definition Alloc (size : Z) : Method Z := fun s =>
  (do (offset, r, w) <- TransferBuffer.Alloc size (transfer_buffer_ s.1) s.2 ;;
   Done (offset, (with_transfer_buffer r s.1, w)))%gpu.

Definition FreePendingToken (offset token : Z) : Method () :=
  modify (fun g => with_transfer_buffer (RingBuffer.FreePendingToken offset token (transfer_buffer_ g)) g).

(** A download: the command has the place where the service puts the bytes. *)
Definition fetch (size : Z) (command : Z -> ClientCommand) : Method (list Z) :=
  buffer ← Alloc size;
  helper (command buffer) ;;
  WaitForCmd ;;
  bytes ← read_shared buffer size;
  token ← InsertToken;
  FreePendingToken buffer token ;;
  mret bytes.

Definition max_transfer : Method Z := get (fun g => GetLargestFreeOrPendingSize (transfer_buffer_ g)).

(** Data that does not fit is sent in parts, each with its offset; a transfer buffer without
    room makes no progress. *)
Fixpoint put_parts (fuel : nat) (max : Z) (next : Z -> Z) (command : Z -> Z -> Z -> ClientCommand) (offset : Z)
    (data : list Z) : Method Z :=
  match data with
  | [] => mret offset
  | _ =>
      match fuel with
      | O => never
      | S fuel =>
          let part_size := Z.min (zlen data) max in
          upload (take (Z.to_nat part_size) data) (command offset part_size) ;;
          put_parts fuel max next command (next (offset + part_size)) (drop (Z.to_nat part_size) data)
      end
  end.

(** ** Buckets *)

Definition set_bucket_part (bucket_id offset part_size shm_offset : Z) : ClientCommand :=
  SetBucketData bucket_id offset part_size (transfer_buffer_id_ cfg) shm_offset.

(** [data] are the bytes the application gives. *)
Definition SetBucketContents (bucket_id : Z) (data : list Z) : Method () :=
  helper (SetBucketSize bucket_id (u32 (zlen data))) ;;
  max_size ← max_transfer;
  put_parts (length data) max_size u32 (set_bucket_part bucket_id) 0 data ;; mret ().

Definition SetBucketAsCString (bucket_id : Z) (str : option (list Z)) : Method () :=
  match str with
  | Some s => SetBucketContents bucket_id (s ++ [0])
  | None => helper (SetBucketSize bucket_id 0)
  end.

Definition SetBucketAsString (bucket_id : Z) (str : list Z) : Method () := SetBucketContents bucket_id (str ++ [0]).

Fixpoint get_bucket_parts (fuel : nat) (max bucket_id offset size : Z) : Method (list Z) :=
  if size =? 0 then mret []
  else
    match fuel with
    | O => never
    | S fuel =>
        let part_size := Z.min max size in
        part ← fetch part_size (GetBucketData bucket_id offset part_size (transfer_buffer_id_ cfg));
        rest ← get_bucket_parts fuel max bucket_id (u32 (offset + part_size)) (size - part_size);
        mret (part ++ rest)
    end.

Definition GetBucketContents (bucket_id : Z) : Method (list Z) :=
  size ← ask_word 0 (GetBucketSize bucket_id result_shm_id result_shm_offset);
  if size >? 0 then
    max_size ← max_transfer;
    data ← get_bucket_parts (Z.to_nat size) max_size bucket_id 0 size;
    helper (SetBucketSize bucket_id 0) ;;
    mret data
  else mret [].

(** The zero at the end is left out; [None] is the answer [false]. *)
Definition GetBucketAsString (bucket_id : Z) : Method (option (list Z)) :=
  data ← GetBucketContents bucket_id;
  mret (match data with [] => None | _ => Some (take (length data - 1) data) end).

(** ** Ids *)

(** The commands of [n] ids in parts. *)
Fixpoint gen_shared_ids (fuel : nat) (max_num_per namespace_id id_offset n : Z) : Method (list Z) :=
  if n =? 0 then mret []
  else
    match fuel with
    | O => never
    | S fuel =>
        let num := Z.min n max_num_per in
        ids ← fetch (4 * num) (fun id_buffer =>
          Gl cmds.GenSharedIdsCHROMIUM [namespace_id; id_offset; num; transfer_buffer_id_ cfg; id_buffer] []);
        rest ← gen_shared_ids fuel max_num_per namespace_id id_offset (n - num);
        mret (bytes_to_words ids ++ rest)
    end.

Definition GenSharedIdsCHROMIUM (namespace_id id_offset n : Z) : Method (list Z) :=
  max_size ← max_transfer; gen_shared_ids (Z.to_nat n) (i32 max_size / 4) namespace_id id_offset n.

Fixpoint delete_shared_ids (fuel : nat) (max_num_per namespace_id : Z) (ids : list Z) : Method () :=
  match ids with
  | [] => mret ()
  | _ =>
      match fuel with
      | O => never
      | S fuel =>
          let num := Z.min (zlen ids) max_num_per in
          id_buffer ← Alloc (num * 4);
          link (memcpy_to id_buffer (words_to_bytes (u32 <$> take (Z.to_nat num) ids))) ;;
          gl cmds.DeleteSharedIdsCHROMIUM [namespace_id; num; transfer_buffer_id_ cfg; id_buffer] ;;
          WaitForCmd ;;
          token ← InsertToken;
          FreePendingToken id_buffer token ;;
          delete_shared_ids fuel max_num_per namespace_id (drop (Z.to_nat num) ids)
      end
  end.

Definition DeleteSharedIdsCHROMIUM (namespace_id : Z) (ids : list Z) : Method () :=
  max_size ← max_transfer; delete_shared_ids (length ids) (i32 max_size / 4) namespace_id ids.

(** Here each turn sends all the ids that are left. *)
Fixpoint register_shared_ids (fuel : nat) (max_num_per namespace_id : Z) (ids : list Z) : Method () :=
  match ids with
  | [] => mret ()
  | _ =>
      match fuel with
      | O => never
      | S fuel =>
          let num := Z.min (zlen ids) max_num_per in
          id_buffer ← Alloc (zlen ids * 4);
          link (memcpy_to id_buffer (words_to_bytes (u32 <$> ids))) ;;
          gl cmds.RegisterSharedIdsCHROMIUM [namespace_id; zlen ids; transfer_buffer_id_ cfg; id_buffer] ;;
          WaitForCmd ;;
          token ← InsertToken;
          FreePendingToken id_buffer token ;;
          register_shared_ids fuel max_num_per namespace_id (drop (Z.to_nat num) ids)
      end
  end.

Definition RegisterSharedIdsCHROMIUM (namespace_id : Z) (ids : list Z) : Method () :=
  max_size ← max_transfer; register_shared_ids (length ids) (i32 max_size / 4) namespace_id ids.

(** *** The handlers *)

Fixpoint allocate_ids (n : nat) (a : Reused.IdAllocator) : list Z * Reused.IdAllocator :=
  match n with
  | O => ([], a)
  | S n => let '(id, a) := Reused.AllocateID a in let '(ids, a) := allocate_ids n a in (id :: ids, a)
  end.

Fixpoint allocate_ids_above (n : nat) (id_offset : Z) (a : Reused.IdAllocator) : list Z * Reused.IdAllocator :=
  match n with
  | O => ([], a)
  | S n =>
      let '(id, a) := Reused.AllocateIDAtOrAbove id_offset a in
      let '(ids, a) := allocate_ids_above n (u32 (id + 1)) a in (id :: ids, a)
  end.

(** [StrictSharedIdHandler::GetId], once for each id. *)
Fixpoint strict_ids (n : nat) (namespace id_offset : Z) (used : gset Z) (free : list Z) : Method (list Z * (gset Z * list Z)) :=
  match n with
  | O => mret ([], (used, free))
  | S n =>
      free ← match free with
             | [] => GenSharedIdsCHROMIUM namespace id_offset kNumIdsToGet
             | _ => mret free
             end;
      match free with
      | [] => undefined
      | id :: free =>
          r ← strict_ids n namespace id_offset ({[id]} ∪ used) free;
          mret (id :: r.1, r.2)
      end
  end.

Definition MakeIds (ns : Namespace) (id_offset n : Z) : Method (list Z) :=
  h ← get (id_handler ns);
  match h with
  | NonSharedIdHandler a =>
      let '(ids, a) := if id_offset =? 0 then allocate_ids (Z.to_nat n) a else allocate_ids_above (Z.to_nat n) id_offset a in
      modify (with_id_handler ns (NonSharedIdHandler a)) ;; mret ids
  | NonSharedNonReusedIdHandler last =>
      let ids := (fun i => u32 (u32 (last + 1 + i) + id_offset)) <$> seqZ 0 n in
      modify (with_id_handler ns (NonSharedNonReusedIdHandler (u32 (last + n)))) ;; mret ids
  | SharedIdHandler namespace => GenSharedIdsCHROMIUM namespace id_offset n
  | StrictSharedIdHandler namespace used free =>
      r ← strict_ids (Z.to_nat n) namespace id_offset used free;
      modify (with_id_handler ns (StrictSharedIdHandler namespace r.2.1 r.2.2)) ;; mret r.1
  end.

(** [StrictSharedIdHandler::FreeIds]: all or none. *)
Definition strict_known (used : gset Z) (ids : list Z) : bool :=
  forallb (fun id => (id =? 0) || bool_decide (id ∈ used)) ids.

Fixpoint strict_free (ids : list Z) (used : gset Z) (free : list Z) : gset Z * list Z :=
  match ids with
  | [] => (used, free)
  | id :: ids =>
      if negb (id =? 0) && bool_decide (id ∈ used)
      then strict_free ids (used ∖ {[id]}) (free ++ [id])
      else strict_free ids used free
  end.

Definition FreeIds (ns : Namespace) (ids : list Z) : Method bool :=
  h ← get (id_handler ns);
  match h with
  | NonSharedIdHandler a =>
      modify (with_id_handler ns (NonSharedIdHandler (fold_left (fun a id => Reused.FreeID id a) ids a))) ;; mret true
  | NonSharedNonReusedIdHandler _ => mret true
  | SharedIdHandler namespace => DeleteSharedIdsCHROMIUM namespace ids ;; mret true
  | StrictSharedIdHandler namespace used free =>
      if strict_known used ids then
        let '(used, free) := strict_free ids used free in
        modify (with_id_handler ns (StrictSharedIdHandler namespace used free)) ;; mret true
      else mret false
  end.

Definition MarkAsUsedForBind (ns : Namespace) (id : Z) : Method bool :=
  h ← get (id_handler ns);
  match h with
  | NonSharedIdHandler a =>
      if id =? 0 then mret true
      else let '(ok, a) := Reused.MarkAsUsed id a in modify (with_id_handler ns (NonSharedIdHandler a)) ;; mret ok
  | NonSharedNonReusedIdHandler _ => mret false
  | _ => mret true
  end.

End methods.
