(* ===== verification/ClientBindings.v ===== *)
(** * What a GLES2 client remembers

    Methods of [GLES2Implementation] ([gpu/command_buffer/client/gles2_implementation.cc] and
    [gles2_implementation_autogen.h]) that keep something at the client's side: errors, limits,
    what is bound, pixel storage, the ids that were made and deleted, and the frames that are
    on their way. *)

From S2P Require Import Prelude CmdFormat GLES2Format GLES2Commands.
From Stdlib Require Import ZArith Lia ZifyBool Bool.
From stdpp Require Import base numbers option gmap list.
From S2P Require Import GLConstants Floats GLES2Util QueryDecoder Tokens.
From S2P Require Import MappedMemory Connection TransferBuffer ClientState.
Local Open Scope Z_scope.

Section bindings.
Context `{Platform} {W : Type} `{Connection W}.
Variable cfg : ClientConfig.
Notation Method := (Method W).

(** ** Errors *)

(** [GetGLError]: the service's error first, then the lowest of the client's own. *)
Definition GetGLError : Method Z :=
  error ← ask_word GL_NO_ERROR (Gl cmds.GetError [result_shm_id cfg; result_shm_offset] []);
  bits ← get error_bits_;
  let error := if error =? GL_NO_ERROR
               then match first_bit bits with
                    | Some mask => GLErrorBitToGLError mask
                    | None => error
                    end
               else error in
  (if negb (error =? GL_NO_ERROR)
   then modify (fun g => with_error_bits (Z.ldiff (error_bits_ g) (GLErrorToErrorBit error)) g) else mret ()) ;;
  mret error.

Definition GetError : Method Z := GetGLError.

(** ** Waiting *)

Definition FlushClient : Method () := gl cmds.Flush [] ;; FlushHelper.
Definition FinishClient : Method () := gl cmds.Finish [] ;; WaitForCmd.

(** At most [kMaxSwapBuffers + 1] frames wait. *)
Definition SwapBuffers : Method () :=
  token ← InsertToken;
  modify (fun g => with_tokens (swap_buffers_tokens_ g ++ [token]) (rate_limit_tokens_ g) g) ;;
  gl cmds.SwapBuffers [] ;;
  FlushHelper ;;
  tokens ← get swap_buffers_tokens_;
  if zlen tokens >? kMaxSwapBuffers + 1 then
    match tokens with
    | [] => undefined
    | oldest :: tokens =>
        WaitForToken oldest ;; modify (fun g => with_tokens tokens (rate_limit_tokens_ g) g)
    end
  else mret ().

Definition RateLimitOffscreenContextCHROMIUM : Method () :=
  tokens ← get rate_limit_tokens_;
  (if zlen tokens =? kMaxSwapBuffers then
     match tokens with
     | [] => undefined
     | oldest :: tokens =>
         WaitForToken oldest ;; modify (fun g => with_tokens (swap_buffers_tokens_ g) tokens g)
     end
   else mret ()) ;;
  token ← InsertToken;
  modify (fun g => with_tokens (swap_buffers_tokens_ g) (rate_limit_tokens_ g ++ [token]) g).

(** ** Limits and bindings that the client knows *)

Definition active_unit (g : GLES2Implementation) : option TextureUnit :=
  zget (texture_units_ (bound g)) (active_texture_unit_ (bound g)).

Definition limit_of (pname : Z) (s : GLState) : option Z :=
  if pname =? GL_MAX_COMBINED_TEXTURE_IMAGE_UNITS then Some (max_combined_texture_image_units s)
  else if pname =? GL_MAX_CUBE_MAP_TEXTURE_SIZE then Some (max_cube_map_texture_size s)
  else if pname =? GL_MAX_FRAGMENT_UNIFORM_VECTORS then Some (max_fragment_uniform_vectors s)
  else if pname =? GL_MAX_RENDERBUFFER_SIZE then Some (max_renderbuffer_size s)
  else if pname =? GL_MAX_TEXTURE_IMAGE_UNITS then Some (max_texture_image_units s)
  else if pname =? GL_MAX_TEXTURE_SIZE then Some (max_texture_size s)
  else if pname =? GL_MAX_VARYING_VECTORS then Some (max_varying_vectors s)
  else if pname =? GL_MAX_VERTEX_ATTRIBS then Some (max_vertex_attribs s)
  else if pname =? GL_MAX_VERTEX_TEXTURE_IMAGE_UNITS then Some (max_vertex_texture_image_units s)
  else if pname =? GL_MAX_VERTEX_UNIFORM_VECTORS then Some (max_vertex_uniform_vectors s)
  else if pname =? GL_NUM_COMPRESSED_TEXTURE_FORMATS then Some (num_compressed_texture_formats s)
  else if pname =? GL_NUM_SHADER_BINARY_FORMATS then Some (num_shader_binary_formats s)
  else None.

(** The value is written to a [GLint]; [None] is the answer [false]. *)
Definition GetHelper (pname : Z) : Method (option Z) :=
  g ← get id;
  match limit_of pname (gl_state_ g) with
  | Some value => mret (Some value)
  | None =>
      let if_generated (value : Method Z) :=
        if bind_generates_resource_ cfg then value ← value; mret (Some (i32 value)) else mret None in
      if pname =? GL_ARRAY_BUFFER_BINDING then if_generated (mret (bound_array_buffer_id_ (bound g)))
      else if pname =? GL_ELEMENT_ARRAY_BUFFER_BINDING then if_generated (mret (bound_element_array_buffer_id_ (bound g)))
      else if pname =? GL_ACTIVE_TEXTURE then mret (Some (i32 (active_texture_unit_ (bound g) + GL_TEXTURE0)))
      else if pname =? GL_TEXTURE_BINDING_2D then
        if_generated (unit ← the (active_unit g); mret (bound_texture_2d unit))
      else if pname =? GL_TEXTURE_BINDING_CUBE_MAP then
        if_generated (unit ← the (active_unit g); mret (bound_texture_cube_map unit))
      else if pname =? GL_FRAMEBUFFER_BINDING then if_generated (mret (bound_framebuffer_ (bound g)))
      else if pname =? GL_RENDERBUFFER_BINDING then if_generated (mret (bound_renderbuffer_ (bound g)))
      else mret None
  end.

Definition GetBooleanvHelper (pname : Z) : Method (option Z) :=
  value ← GetHelper pname; mret ((fun v => v mod 2 ^ 8) <$> value).

(** The bits of the [float]. *)
Definition GetFloatvHelper (pname : Z) : Method (option Z) :=
  value ← GetHelper pname; mret (float_of_int <$> value).

Definition GetIntegervHelper (pname : Z) : Method (option Z) := GetHelper pname.

(** ** Pixel storage and the active unit *)

Definition PixelStorei (pname param : Z) : Method () :=
  if pname =? GL_UNPACK_FLIP_Y_CHROMIUM then
    modify (fun g => with_pixel_store (mkPixelStore (pack_alignment_ (pixel_store g)) (unpack_alignment_ (pixel_store g))
                                         (negb (param =? 0))) g)
  else
    (if pname =? GL_PACK_ALIGNMENT then
       modify (fun g => with_pixel_store (mkPixelStore param (unpack_alignment_ (pixel_store g)) (unpack_flip_y_ (pixel_store g))) g)
     else if pname =? GL_UNPACK_ALIGNMENT then
       modify (fun g => with_pixel_store (mkPixelStore (pack_alignment_ (pixel_store g)) param (unpack_flip_y_ (pixel_store g))) g)
     else mret ()) ;;
    gl cmds.PixelStorei [pname; param].

Definition with_active_texture_unit (index : Z) (b : Bound) : Bound :=
  mkBound (texture_units_ b) index (bound_framebuffer_ b) (bound_renderbuffer_ b) (bound_array_buffer_id_ b)
    (bound_element_array_buffer_id_ b).

Definition ActiveTexture (texture : Z) : Method () :=
  g ← get id;
  let texture_index := u32 (texture - GL_TEXTURE0) in
  if texture_index >=? u32 (max_combined_texture_image_units (gl_state_ g)) then SetGLError GL_INVALID_ENUM
  else
    modify (with_bound (with_active_texture_unit texture_index (bound g))) ;;
    gl cmds.ActiveTexture [texture].

(** ** Binding *)

Definition with_buffers (array element_array : Z) (b : Bound) : Bound :=
  mkBound (texture_units_ b) (active_texture_unit_ b) (bound_framebuffer_ b) (bound_renderbuffer_ b) array element_array.

Definition with_framebuffer (framebuffer : Z) (b : Bound) : Bound :=
  mkBound (texture_units_ b) (active_texture_unit_ b) framebuffer (bound_renderbuffer_ b) (bound_array_buffer_id_ b)
    (bound_element_array_buffer_id_ b).

Definition with_renderbuffer (renderbuffer : Z) (b : Bound) : Bound :=
  mkBound (texture_units_ b) (active_texture_unit_ b) (bound_framebuffer_ b) renderbuffer (bound_array_buffer_id_ b)
    (bound_element_array_buffer_id_ b).

Definition with_texture_units (units : list TextureUnit) (b : Bound) : Bound :=
  mkBound units (active_texture_unit_ b) (bound_framebuffer_ b) (bound_renderbuffer_ b) (bound_array_buffer_id_ b)
    (bound_element_array_buffer_id_ b).

Definition BindBufferHelper (target buffer : Z) : Method () :=
  modify (fun g => let b := bound g in
    if target =? GL_ARRAY_BUFFER then with_bound (with_buffers buffer (bound_element_array_buffer_id_ b) b) g
    else if target =? GL_ELEMENT_ARRAY_BUFFER then with_bound (with_buffers (bound_array_buffer_id_ b) buffer b) g
    else g) ;;
  MarkAsUsedForBind Buffers buffer ;; mret ().

Definition BindFramebufferHelper (target framebuffer : Z) : Method () :=
  modify (fun g => if target =? GL_FRAMEBUFFER then with_bound (with_framebuffer framebuffer (bound g)) g else g) ;;
  MarkAsUsedForBind Framebuffers framebuffer ;; mret ().

Definition BindRenderbufferHelper (target renderbuffer : Z) : Method () :=
  modify (fun g => if target =? GL_RENDERBUFFER then with_bound (with_renderbuffer renderbuffer (bound g)) g else g) ;;
  MarkAsUsedForBind Renderbuffers renderbuffer ;; mret ().

Definition bind_to_unit (target texture : Z) (u : TextureUnit) : TextureUnit :=
  if target =? GL_TEXTURE_2D then mkTextureUnit texture (bound_texture_cube_map u)
  else if target =? GL_TEXTURE_CUBE_MAP then mkTextureUnit (bound_texture_2d u) texture
  else u.

Definition with_active_unit (f : TextureUnit -> TextureUnit) : Method () :=
  b ← get bound;
  unit ← the (zget (texture_units_ b) (active_texture_unit_ b));
  units ← the (zset (texture_units_ b) (active_texture_unit_ b) (f unit));
  modify (with_bound (with_texture_units units b)).

Definition BindTextureHelper (target texture : Z) : Method () :=
  with_active_unit (bind_to_unit target texture) ;;
  MarkAsUsedForBind Textures texture ;; mret ().

(** Ids that the client keeps for itself. *)
Definition IsBufferReservedId (id : Z) (g : GLES2Implementation) : bool :=
  match client_side_buffer_helper_ g with
  | Some _ => existsb (Z.eqb id) (reserved_ids_ g)
  | None => false
  end.

Definition IsFramebufferReservedId (id : Z) (g : GLES2Implementation) : bool := false.
Definition IsRenderbufferReservedId (id : Z) (g : GLES2Implementation) : bool := false.
Definition IsTextureReservedId (id : Z) (g : GLES2Implementation) : bool := false.

Definition BindBuffer (target buffer : Z) : Method () :=
  reserved ← get (IsBufferReservedId buffer);
  if reserved : bool then SetGLError GL_INVALID_OPERATION
  else BindBufferHelper target buffer ;; gl cmds.BindBuffer [target; buffer].

Definition BindFramebuffer (target framebuffer : Z) : Method () :=
  reserved ← get (IsFramebufferReservedId framebuffer);
  if reserved : bool then SetGLError GL_INVALID_OPERATION
  else BindFramebufferHelper target framebuffer ;; gl cmds.BindFramebuffer [target; framebuffer].

Definition BindRenderbuffer (target renderbuffer : Z) : Method () :=
  reserved ← get (IsRenderbufferReservedId renderbuffer);
  if reserved : bool then SetGLError GL_INVALID_OPERATION
  else BindRenderbufferHelper target renderbuffer ;; gl cmds.BindRenderbuffer [target; renderbuffer].

Definition BindTexture (target texture : Z) : Method () :=
  reserved ← get (IsTextureReservedId texture);
  if reserved : bool then SetGLError GL_INVALID_OPERATION
  else BindTextureHelper target texture ;; gl cmds.BindTexture [target; texture].

(** ** Making ids *)

Definition gen (ns : Namespace) (command : Struct) (n : Z) : Method (option (list Z)) :=
  if n <? 0 then SetGLError GL_INVALID_VALUE ;; mret None
  else
    ids ← MakeIds cfg ns 0 n;
    immediate command [n] ids ;;
    mret (Some ids).

Definition GenBuffers := gen Buffers cmds.GenBuffersImmediate.
Definition GenFramebuffers := gen Framebuffers cmds.GenFramebuffersImmediate.
Definition GenRenderbuffers := gen Renderbuffers cmds.GenRenderbuffersImmediate.
Definition GenTextures := gen Textures cmds.GenTexturesImmediate.

Definition one_id (ns : Namespace) : Method Z :=
  ids ← MakeIds cfg ns 0 1; the (zget ids 0).

Definition CreateProgram : Method Z :=
  client_id ← one_id ProgramsAndShaders;
  gl cmds.CreateProgram [client_id] ;;
  mret client_id.

Definition CreateShader (type : Z) : Method Z :=
  client_id ← one_id ProgramsAndShaders;
  gl cmds.CreateShader [type; client_id] ;;
  mret client_id.

Definition MakeTextureId : Method Z := one_id Textures.
Definition FreeTextureId (id : Z) : Method () := FreeIds cfg Textures [id] ;; mret ().

(** ** Deleting *)

Definition DeleteBuffersHelper (buffers : list Z) : Method () :=
  freed ← FreeIds cfg Buffers buffers;
  if negb freed then SetGLError GL_INVALID_VALUE
  else
    modify (fun g => with_bound (fold_left (fun b id =>
      with_buffers (if id =? bound_array_buffer_id_ b then 0 else bound_array_buffer_id_ b)
        (if id =? bound_element_array_buffer_id_ b then 0 else bound_element_array_buffer_id_ b) b) buffers (bound g)) g) ;;
    immediate cmds.DeleteBuffersImmediate [zlen buffers] buffers ;;
    FlushClient.

Definition DeleteFramebuffersHelper (framebuffers : list Z) : Method () :=
  freed ← FreeIds cfg Framebuffers framebuffers;
  if negb freed then SetGLError GL_INVALID_VALUE
  else
    modify (fun g => with_bound (fold_left (fun b id =>
      with_framebuffer (if id =? bound_framebuffer_ b then 0 else bound_framebuffer_ b) b) framebuffers (bound g)) g) ;;
    immediate cmds.DeleteFramebuffersImmediate [zlen framebuffers] framebuffers ;;
    FlushClient.

Definition DeleteRenderbuffersHelper (renderbuffers : list Z) : Method () :=
  freed ← FreeIds cfg Renderbuffers renderbuffers;
  if negb freed then SetGLError GL_INVALID_VALUE
  else
    modify (fun g => with_bound (fold_left (fun b id =>
      with_renderbuffer (if id =? bound_renderbuffer_ b then 0 else bound_renderbuffer_ b) b) renderbuffers (bound g)) g) ;;
    immediate cmds.DeleteRenderbuffersImmediate [zlen renderbuffers] renderbuffers ;;
    FlushClient.

Definition unbind_from_unit (texture : Z) (u : TextureUnit) : TextureUnit :=
  mkTextureUnit (if texture =? bound_texture_2d u then 0 else bound_texture_2d u)
    (if texture =? bound_texture_cube_map u then 0 else bound_texture_cube_map u).

(** The body of the loop over the units looks at the active one each time. *)
Fixpoint unbind_textures (n : nat) (texture : Z) : Method () :=
  match n with
  | O => mret ()
  | S n => with_active_unit (unbind_from_unit texture) ;; unbind_textures n texture
  end.

Fixpoint unbind_all (units : nat) (textures : list Z) : Method () :=
  match textures with
  | [] => mret ()
  | texture :: textures => unbind_textures units texture ;; unbind_all units textures
  end.

Definition DeleteTexturesHelper (textures : list Z) : Method () :=
  freed ← FreeIds cfg Textures textures;
  if negb freed then SetGLError GL_INVALID_VALUE
  else
    units ← get (fun g => max_combined_texture_image_units (gl_state_ g));
    unbind_all (Z.to_nat units) textures ;;
    immediate cmds.DeleteTexturesImmediate [zlen textures] textures ;;
    FlushClient.

(** [n] and the [n] ids of an array. *)
Definition delete_ids (helper : list Z -> Method ()) (n : Z) (ids : list Z) : Method () :=
  if n <? 0 then SetGLError GL_INVALID_VALUE
  else ids ← the (zread ids 0 n); helper ids.

Definition DeleteBuffers := delete_ids DeleteBuffersHelper.
Definition DeleteFramebuffers := delete_ids DeleteFramebuffersHelper.
Definition DeleteRenderbuffers := delete_ids DeleteRenderbuffersHelper.
Definition DeleteTextures := delete_ids DeleteTexturesHelper.

End bindings.
