(* ===== verification/ClientBuffers.v ===== *)
(** * Buffers and draws of a GLES2 client

    [BufferData] and [BufferSubData], the draws, and [ClientSideBufferHelper] of
    [gpu/command_buffer/client/gles2_implementation.cc]: where clients may keep vertices in their own
    memory, the vertices are copied to a buffer of the service before each draw. *)

From S2P Require Import Prelude CmdFormat GLES2Format GLES2Commands.
From Stdlib Require Import ZArith Lia ZifyBool Bool.
From stdpp Require Import base numbers option gmap list.
From S2P Require Import GLConstants Floats GLES2Util BufferManager Tokens.
From S2P Require Import MappedMemory Connection TransferBuffer ClientState.
Local Open Scope Z_scope.

Section buffers.
Context `{Platform} {W : Type} `{Connection W}.
Variable cfg : ClientConfig.
Notation Method := (Method W).

(** ** Uploads *)

Definition buffer_part (target offset part_size shm_offset : Z) : ClientCommand :=
  Gl cmds.BufferSubData [target; offset; part_size; transfer_buffer_id_ cfg; shm_offset] [].

(** [data] is what can be read where the application points. *)
Definition BufferSubData (target offset size : Z) (data : list Z) : Method () :=
  if size =? 0 then mret ()
  else if size <? 0 then SetGLError GL_INVALID_VALUE
  else
    data ← the (zread data 0 size);
    max_size ← max_transfer;
    put_parts (length data) (isize max_size) isize (buffer_part target) offset data ;; mret ().

Definition BufferData (target size : Z) (data : option (list Z)) (usage : Z) : Method () :=
  max_size ← max_transfer;
  match data with
  | Some data =>
      if size >? isize max_size then
        gl cmds.BufferData [target; size; 0; 0; usage] ;; BufferSubData target 0 size data
      else
        data ← the (zread data 0 size);
        upload data (fun shm_offset => Gl cmds.BufferData [target; size; transfer_buffer_id_ cfg; shm_offset; usage] [])
  | None => gl cmds.BufferData [target; size; 0; 0; usage]
  end.

(** ** Vertex attributes *)

Definition IsClientSide (a : ClientAttrib) : bool := buffer_id_ a =? 0.

Definition with_enabled (enabled : bool) (a : ClientAttrib) : ClientAttrib :=
  mkClientAttrib enabled (buffer_id_ a) (size_ a) (type_ a) (normalized_ a) (pointer_ a) (gl_stride_ a).

Definition ClientAttrib_SetInfo (buffer_id size type normalized gl_stride pointer : Z) (a : ClientAttrib) : ClientAttrib :=
  mkClientAttrib (enabled_ a) buffer_id size type normalized pointer gl_stride.

Definition ClientAttrib_new : ClientAttrib := mkClientAttrib false 0 4 GL_FLOAT 0 0 0.

Definition ClientSide_new (max_vertex_attribs array_buffer_id element_array_buffer_id : Z) : ClientSideBufferHelper :=
  mkClientSide max_vertex_attribs 0 array_buffer_id 0 0 element_array_buffer_id 0
    (replicate (Z.to_nat max_vertex_attribs) ClientAttrib_new).

Definition with_infos (enabled : Z) (infos : list ClientAttrib) (c : ClientSideBufferHelper) : ClientSideBufferHelper :=
  mkClientSide (max_vertex_attribs_ c) enabled (array_buffer_id_ c) (array_buffer_size_ c) (array_buffer_offset_ c)
    (element_array_buffer_id_ c) (element_array_buffer_size_ c) infos.

Definition with_array_buffer (size offset : Z) (c : ClientSideBufferHelper) : ClientSideBufferHelper :=
  mkClientSide (max_vertex_attribs_ c) (num_client_side_pointers_enabled_ c) (array_buffer_id_ c) size offset
    (element_array_buffer_id_ c) (element_array_buffer_size_ c) (vertex_attrib_infos_ c).

Definition with_element_array_buffer (size : Z) (c : ClientSideBufferHelper) : ClientSideBufferHelper :=
  mkClientSide (max_vertex_attribs_ c) (num_client_side_pointers_enabled_ c) (array_buffer_id_ c) (array_buffer_size_ c)
    (array_buffer_offset_ c) (element_array_buffer_id_ c) size (vertex_attrib_infos_ c).

Definition HaveEnabledClientSideBuffers (c : ClientSideBufferHelper) : bool := num_client_side_pointers_enabled_ c >? 0.

(** The count is a [GLuint]. *)
Definition SetAttribEnable (index : Z) (enabled : bool) (c : ClientSideBufferHelper) : outcome ClientSideBufferHelper :=
  if index <? max_vertex_attribs_ c then
    (do info <- of_option (zget (vertex_attrib_infos_ c) index) ;;
     if negb (eqb (enabled_ info) enabled) then
       let n := num_client_side_pointers_enabled_ c in
       let n := if IsClientSide info then u32 (n + (if enabled then 1 else -1)) else n in
       do infos <- of_option (zset (vertex_attrib_infos_ c) index (with_enabled enabled info)) ;;
       Done (with_infos n infos c)
     else Done c)%gpu
  else Done c.

Definition counted (a : ClientAttrib) : bool := IsClientSide a && enabled_ a.

Definition SetAttribPointer (buffer_id index size type normalized stride ptr : Z) (c : ClientSideBufferHelper)
    : outcome ClientSideBufferHelper :=
  if index <? max_vertex_attribs_ c then
    (do info <- of_option (zget (vertex_attrib_infos_ c) index) ;;
     let n := num_client_side_pointers_enabled_ c in
     let n := if counted info then u32 (n - 1) else n in
     let info := ClientAttrib_SetInfo buffer_id size type normalized stride ptr info in
     let n := if counted info then u32 (n + 1) else n in
     do infos <- of_option (zset (vertex_attrib_infos_ c) index info) ;;
     Done (with_infos n infos c))%gpu
  else Done c.

(** An attribute in range whose vertices are the client's. *)
Definition GetAttribInfo (index : Z) (c : ClientSideBufferHelper) : outcome (option ClientAttrib) :=
  if index <? max_vertex_attribs_ c then
    (do info <- of_option (zget (vertex_attrib_infos_ c) index) ;;
     Done (if IsClientSide info then Some info else None))%gpu
  else Done None.

Definition GetAttribPointer (index pname : Z) (c : ClientSideBufferHelper) : outcome (option Z) :=
  (do info <- GetAttribInfo index c ;;
   Done match info with
        | Some info => if pname =? GL_VERTEX_ATTRIB_ARRAY_POINTER then Some (pointer_ info) else None
        | None => None
        end)%gpu.

(** A change of the helper, where the client has one. *)
Definition in_client_side (f : ClientSideBufferHelper -> outcome ClientSideBufferHelper) : Method () :=
  g ← get id;
  match client_side_buffer_helper_ g with
  | Some c => c ← (fun s => (do c <- f c ;; Done (c, s))%gpu); modify (with_client_side (Some c) (reserved_ids_ g))
  | None => mret ()
  end.

Definition EnableVertexAttribArray (index : Z) : Method () :=
  in_client_side (SetAttribEnable index true) ;; gl cmds.EnableVertexAttribArray [index].

Definition DisableVertexAttribArray (index : Z) : Method () :=
  in_client_side (SetAttribEnable index false) ;; gl cmds.DisableVertexAttribArray [index].

Definition VertexAttribPointer (index size type normalized stride ptr : Z) : Method () :=
  g ← get id;
  let array := bound_array_buffer_id_ (bound g) in
  match client_side_buffer_helper_ g with
  | Some _ =>
      in_client_side (SetAttribPointer array index size type normalized stride ptr) ;;
      if negb (array =? 0) then gl cmds.VertexAttribPointer [index; size; type; normalized; stride; u32 ptr] else mret ()
  | None => gl cmds.VertexAttribPointer [index; size; type; normalized; stride; u32 ptr]
  end.

(** What the client knows of an attribute; [None] is the answer [false]. *)
Definition GetVertexAttribHelper (index pname : Z) : Method (option Z) :=
  c ← get client_side_buffer_helper_;
  match c with
  | None => mret None
  | Some c =>
      info ← (fun s => (do info <- GetAttribInfo index c ;; Done (info, s))%gpu);
      match info with
      | None => mret None
      | Some a =>
          if pname =? GL_VERTEX_ATTRIB_ARRAY_BUFFER_BINDING then mret (Some (buffer_id_ a))
          else if pname =? GL_VERTEX_ATTRIB_ARRAY_ENABLED then mret (Some (Z.b2z (enabled_ a)))
          else if pname =? GL_VERTEX_ATTRIB_ARRAY_SIZE then mret (Some (u32 (size_ a)))
          else if pname =? GL_VERTEX_ATTRIB_ARRAY_STRIDE then mret (Some (u32 (gl_stride_ a)))
          else if pname =? GL_VERTEX_ATTRIB_ARRAY_TYPE then mret (Some (type_ a))
          else if pname =? GL_VERTEX_ATTRIB_ARRAY_NORMALIZED then mret (Some (normalized_ a))
          else if pname =? GL_CURRENT_VERTEX_ATTRIB then mret None
          else SetGLError GL_INVALID_ENUM ;; mret (Some 0)
      end
  end.

(** The bytes that are written for the application. *)
Definition GetVertexAttribfv (index pname : Z) : Method (list Z) :=
  value ← GetVertexAttribHelper index pname;
  match value with
  | Some value => mret (le_bytes 4 (float_of_int value))
  | None => ask_sized (Gl cmds.GetVertexAttribfv [index; pname; result_shm_id cfg; result_shm_offset] [])
  end.

Definition GetVertexAttribiv (index pname : Z) : Method (list Z) :=
  value ← GetVertexAttribHelper index pname;
  match value with
  | Some value => mret (le_bytes 4 value)
  | None => ask_sized (Gl cmds.GetVertexAttribiv [index; pname; result_shm_id cfg; result_shm_offset] [])
  end.

(** [inl] is the client's own pointer. *)
Definition GetVertexAttribPointerv (index pname : Z) : Method (Z + list Z) :=
  c ← get client_side_buffer_helper_;
  ptr ← (fun s => (do ptr <- match c with Some c => GetAttribPointer index pname c | None => Done None end ;; Done (ptr, s))%gpu);
  match ptr with
  | Some ptr => mret (inl ptr)
  | None =>
      bytes ← ask_sized (Gl cmds.GetVertexAttribPointerv [index; pname; result_shm_id cfg; result_shm_offset] []);
      mret (inr bytes)
  end.

(** ** Vertices of the client

    [app address n] are the [n] bytes that the application has at an address. *)
Section application.
Variable app : Z -> Z -> option (list Z).

Definition RoundUpToMultipleOf4 (size : Z) : Method Z := sum ← int (size + 3); mret (Z.land sum (Z.lnot 3)).

(** A [size_t]. *)
Definition bytes_per_element (a : ClientAttrib) : Z := usize (GetGLTypeSizeForTexturesAndBuffers (type_ a) * usize (size_ a)).

(** The elements side by side; [n] is how many there are. *)
Fixpoint collect (n : nat) (data size real_stride : Z) : option (list Z) :=
  match n with
  | O => Some []
  | S n => element ← app data size; rest ← collect n (data + real_stride) size real_stride; Some (element ++ rest)
  end.

(** The number of bytes, and the bytes. *)
Definition CollectData (data size real_stride num_elements : Z) : Method (Z * list Z) :=
  bytes_needed ← int (size * num_elements);
  if size <=? 0 then (if bytes_needed <=? 0 then mret (bytes_needed, []) else undefined)
  else bytes ← the (collect (Z.to_nat num_elements) data size real_stride); mret (bytes_needed, bytes).

Fixpoint total_size (num_elements : Z) (infos : list ClientAttrib) (total : Z) : Method Z :=
  match infos with
  | [] => mret total
  | info :: infos =>
      if counted info then
        size ← RoundUpToMultipleOf4 (i32 (usize (bytes_per_element info * usize num_elements)));
        total ← int (total + size);
        total_size num_elements infos total
      else total_size num_elements infos total
  end.

(** The second loop: [ii] is the attribute. *)
Fixpoint send_attribs (num_elements ii : Z) (infos : list ClientAttrib) : Method () :=
  match infos with
  | [] => mret ()
  | info :: infos =>
      (if counted info then
         let size := bytes_per_element info in
         let real_stride := if gl_stride_ info =? 0 then i32 size else gl_stride_ info in
         collected ← CollectData (pointer_ info) (i32 size) real_stride num_elements;
         g ← get id;
         c ← the (client_side_buffer_helper_ g);
         BufferSubData GL_ARRAY_BUFFER (array_buffer_offset_ c) collected.1 collected.2 ;;
         gl cmds.VertexAttribPointer [ii; size_ info; type_ info; normalized_ info; 0; u32 (array_buffer_offset_ c)] ;;
         rounded ← RoundUpToMultipleOf4 collected.1;
         offset ← int (array_buffer_offset_ c + rounded);
         modify (with_client_side (Some (with_array_buffer (array_buffer_size_ c) offset c)) (reserved_ids_ g))
       else mret ()) ;;
      send_attribs num_elements (ii + 1) infos
  end.

Definition SetupSimualtedClientSideBuffers (num_elements : Z) : Method () :=
  g ← get id;
  c ← the (client_side_buffer_helper_ g);
  total ← total_size num_elements (vertex_attrib_infos_ c) 0;
  gl cmds.BindBuffer [GL_ARRAY_BUFFER; array_buffer_id_ c] ;;
  modify (with_client_side (Some (with_array_buffer (array_buffer_size_ c) 0 c)) (reserved_ids_ g)) ;;
  (if total >? array_buffer_size_ c then
     BufferData GL_ARRAY_BUFFER total None GL_DYNAMIC_DRAW ;;
     modify (fun g => with_client_side (Some (with_array_buffer total 0 c)) (reserved_ids_ g) g)
   else mret ()) ;;
  send_attribs num_elements 0 (vertex_attrib_infos_ c).

(** The greatest index: [-1] when there is none, or the type is another. *)
Fixpoint shorts (bytes : list Z) : list Z :=
  match bytes with
  | b0 :: b1 :: bytes => le_word [b0; b1] :: shorts bytes
  | _ => []
  end.

Definition indices_of (type : Z) (bytes : list Z) : list Z :=
  if type =? GL_UNSIGNED_BYTE then bytes else if type =? GL_UNSIGNED_SHORT then shorts bytes else [].

Definition max_index (indices : list Z) : Z := foldl Z.max (-1) indices.

Definition SetupSimulatedIndexBuffer (count type indices : Z) : Method Z :=
  g ← get id;
  c ← the (client_side_buffer_helper_ g);
  gl cmds.BindBuffer [GL_ELEMENT_ARRAY_BUFFER; element_array_buffer_id_ c] ;;
  bytes_needed ← int (GetGLTypeSizeForTexturesAndBuffers type * count);
  (if bytes_needed >? element_array_buffer_size_ c then
     modify (with_client_side (Some (with_element_array_buffer bytes_needed c)) (reserved_ids_ g)) ;;
     BufferData GL_ELEMENT_ARRAY_BUFFER bytes_needed None GL_DYNAMIC_DRAW
   else mret ()) ;;
  bytes ← the (app indices bytes_needed);
  BufferSubData GL_ELEMENT_ARRAY_BUFFER 0 bytes_needed bytes ;;
  mret (max_index (indices_of type bytes) + 1).

(** ** Draws *)

Definition GetMaxValueInBufferCHROMIUM (buffer_id count type offset : Z) : Method Z :=
  ask_word 0 (Gl cmds.GetMaxValueInBufferCHROMIUM [buffer_id; count; type; offset; result_shm_id cfg; result_shm_offset] []).

Definition DrawArrays (mode first count : Z) : Method () :=
  if count <? 0 then SetGLError GL_INVALID_VALUE
  else
    c ← get client_side_buffer_helper_;
    let have_client_side := match c with Some c => HaveEnabledClientSideBuffers c | None => false end in
    (if have_client_side then
       num_elements ← int (first + count);
       SetupSimualtedClientSideBuffers num_elements
     else mret ()) ;;
    gl cmds.DrawArrays [mode; first; count] ;;
    if have_client_side then
      array ← get (fun g => bound_array_buffer_id_ (bound g));
      gl cmds.BindBuffer [GL_ARRAY_BUFFER; array]
    else mret ().

(** How many vertices the indices reach, and where the indices are. *)
Definition drawn_elements (have_client_side : bool) (count type indices : Z) : Method (Z * Z) :=
  element_array ← get (fun g => bound_element_array_buffer_id_ (bound g));
  if element_array =? 0 then
    num_elements ← SetupSimulatedIndexBuffer count type indices;
    mret (num_elements, 0)
  else if have_client_side then
    max ← GetMaxValueInBufferCHROMIUM element_array count type (u32 indices);
    mret (i32 (u32 (max + 1)), u32 indices)
  else mret (0, u32 indices).

Definition DrawElements (mode count type indices : Z) : Method () :=
  if count <? 0 then SetGLError GL_INVALID_VALUE
  else if count =? 0 then mret ()
  else
    c ← get client_side_buffer_helper_;
    match c with
    | None => gl cmds.DrawElements [mode; count; type; u32 indices]
    | Some c =>
        let have_client_side := HaveEnabledClientSideBuffers c in
        elements ← drawn_elements have_client_side count type indices;
        (if have_client_side then SetupSimualtedClientSideBuffers elements.1 else mret ()) ;;
        gl cmds.DrawElements [mode; count; type; elements.2] ;;
        b ← get bound;
        (if have_client_side then gl cmds.BindBuffer [GL_ARRAY_BUFFER; bound_array_buffer_id_ b] else mret ()) ;;
        if bound_element_array_buffer_id_ b =? 0 then gl cmds.BindBuffer [GL_ELEMENT_ARRAY_BUFFER; 0] else mret ()
    end.

End application.

End buffers.

(** ** Mapped buffers *)

Section mapped.
Context `{Platform} {W : Type} `{Connection W, TransferBuffers W}.
Notation Method := (Method W).

(** Memory to fill: its address, and its place. *)
Definition map_memory (size : Z) : Method (option (Z * MappedResource)) := fun s =>
  (do (mem, chunks, w) <- MappedMemory.Alloc (u32 size) (mapped_memory_ (mapped s.1)) s.2 ;;
   let m := mapped s.1 in
   let s := (with_mapped (mkMapped chunks (mapped_buffers_ m) (mapped_textures_ m)) s.1, w) in
   match mem with
   | (Some address, Some (id, offset)) => Done (Some (address, mkMappedResource GL_WRITE_ONLY id offset), s)
   | _ => Done (None, s)
   end)%gpu.

Definition free_mapped (address token : Z) : Method () := fun s =>
  (do chunks <- MappedMemory.FreePendingToken (Some address) token (mapped_memory_ (mapped s.1)) ;;
   let m := mapped s.1 in
   Done ((), (with_mapped (mkMapped chunks (mapped_buffers_ m) (mapped_textures_ m)) s.1, s.2)))%gpu.

Definition FreeUnusedSharedMemory : Method () := fun s =>
  (do (chunks, w) <- MappedMemory.FreeUnused (mapped_memory_ (mapped s.1)) s.2 ;;
   let m := mapped s.1 in
   Done ((), (with_mapped (mkMapped chunks (mapped_buffers_ m) (mapped_textures_ m)) s.1, w)))%gpu.

(** [insert] leaves what is there. *)
Definition insert_new {A} (key : Z) (x : A) (m : gmap Z A) : gmap Z A :=
  match m !! key with Some _ => m | None => <[key := x]> m end.

Definition with_mapped_buffers (buffers : gmap Z MappedBuffer) (g : GLES2Implementation) : GLES2Implementation :=
  with_mapped (mkMapped (mapped_memory_ (mapped g)) buffers (mapped_textures_ (mapped g))) g.

Definition MapBufferSubDataCHROMIUM (target offset size access : Z) : Method (option Z) :=
  if negb (access =? GL_WRITE_ONLY) then SetGLError GL_INVALID_ENUM ;; mret None
  else if (offset <? 0) || (size <? 0) then SetGLError GL_INVALID_VALUE ;; mret None
  else
    mem ← map_memory size;
    match mem with
    | None => SetGLError GL_OUT_OF_MEMORY ;; mret None
    | Some (address, resource) =>
        modify (fun g => with_mapped_buffers
          (insert_new address (mkMappedBuffer resource target offset size) (mapped_buffers_ (mapped g))) g) ;;
        mret (Some address)
    end.

Definition UnmapBufferSubDataCHROMIUM (mem : Z) : Method () :=
  buffers ← get (fun g => mapped_buffers_ (mapped g));
  match buffers !! mem with
  | None => SetGLError GL_INVALID_VALUE
  | Some mb =>
      let r := mb_resource mb in
      gl cmds.BufferSubData [mb_target mb; mb_offset mb; mb_size mb; mapped_shm_id r; mapped_shm_offset r] ;;
      token ← InsertToken;
      free_mapped mem token ;;
      FlushHelper ;;
      modify (fun g => with_mapped_buffers (base.delete mem (mapped_buffers_ (mapped g))) g)
  end.

End mapped.
