(* ===== verification/ClientTextures.v ===== *)
(** * Images of a GLES2 client

    The methods of [gpu/command_buffer/client/gles2_implementation.cc] that carry images, in rows
    that fit in the transfer buffer: [TexImage2D], [TexSubImage2D], the compressed images,
    [ReadPixels], and mapped textures. *)

From S2P Require Import Prelude CmdFormat GLES2Format GLES2Commands.
From Stdlib Require Import ZArith Lia ZifyBool Bool.
From stdpp Require Import base numbers option gmap list.
From S2P Require Import GLConstants GLES2Util BufferManager Tokens.
From S2P Require Import MappedMemory Connection TransferBuffer ClientState ClientBuffers.
Local Open Scope Z_scope.

Section textures.
Context `{Platform} {W : Type} `{Connection W}.
Variable cfg : ClientConfig.
Notation Method := (Method W).

(** ** Sizes *)

(** [ComputeImageDataSize]: an alignment of 0 is divided by when there is more than one row. *)
Definition image_size (width height format type alignment : Z) : Method (option Z) :=
  match ComputeImageDataSize width height format type alignment with
  | Some size => if (height >? 1) && (u32 alignment =? 0) then undefined else mret (Some size)
  | None => mret None
  end.

(** The bytes of a row, and from a row to the next: an error is recorded where they are
    too many. *)
Definition row_sizes (width format type alignment : Z) : Method (option (Z * Z)) :=
  one ← image_size width 1 format type alignment;
  match one with
  | None => SetGLError GL_INVALID_VALUE ;; mret None
  | Some one =>
      let unpadded_row_size := isize one in
      two ← image_size width 2 format type alignment;
      match two with
      | None => SetGLError GL_INVALID_VALUE ;; mret None
      | Some two =>
          let padded_row_size := isize (two - unpadded_row_size) in
          if (padded_row_size <? 0) || (unpadded_row_size <? 0) then SetGLError GL_INVALID_VALUE ;; mret None
          else mret (Some (unpadded_row_size, padded_row_size))
      end
  end.

Definition unpack_alignment : Method Z := get (fun g => unpack_alignment_ (pixel_store g)).
Definition unpack_flip_y : Method bool := get (fun g => unpack_flip_y_ (pixel_store g)).

(** ** Flipping

    [height] rows from [source] are written to the buffer, the first one at the end. *)
Fixpoint copy_flipped (height : nat) (source dest unpadded padded : Z) (pixels : list Z) : Method () :=
  match height with
  | O => mret ()
  | S height =>
      row ← the (zread pixels source unpadded);
      link (memcpy_to dest row) ;;
      copy_flipped height (source + padded) (dest - padded) unpadded padded pixels
  end.

Definition CopyRectToBufferFlipped (pixels : list Z) (width height format type buffer : Z) : Method bool :=
  if (width =? 0) || (height =? 0) then mret true
  else
    alignment ← unpack_alignment;
    sizes ← row_sizes width format type alignment;
    match sizes with
    | None => mret false
    | Some (unpadded, padded) =>
        copy_flipped (Z.to_nat height) 0 (buffer + padded * (height - 1)) unpadded padded pixels ;; mret true
    end.

(** ** Parts of an image *)

(** Rows [source], [part_size] bytes of them, are put in the transfer buffer, and a command is
    issued with their place. *)
Definition put_rows (flip : bool) (pixels : list Z) (part_size width num_rows format type : Z)
    (command : Z -> ClientCommand) : Method () :=
  buffer ← ClientState.Alloc (u32 part_size);
  (if flip then CopyRectToBufferFlipped pixels width num_rows format type buffer ;; mret ()
   else bytes ← the (zread pixels 0 part_size); link (memcpy_to buffer bytes)) ;;
  helper (command buffer) ;;
  token ← InsertToken;
  FreePendingToken buffer token.

Record Image := mkImage { i_target : Z; i_level : Z; i_xoffset : Z; i_width : Z; i_format : Z; i_type : Z; i_internal : Z }.

Definition sub_image (i : Image) (xoffset y width num_rows shm_offset : Z) : ClientCommand :=
  Gl cmds.TexSubImage2D [i_target i; i_level i; xoffset; y; width; num_rows; i_format i; i_type i;
                          transfer_buffer_id_ cfg; shm_offset; i_internal i] [].

(** The loop over groups of rows.  [original_height] is the height of the whole image. *)
Fixpoint by_rows (fuel : nat) (i : Image) (original_height max_rows unpadded padded : Z) (yoffset height : Z) (source : list Z)
    : Method () :=
  if height =? 0 then mret ()
  else
    match fuel with
    | O => never
    | S fuel =>
        let num_rows := Z.min height max_rows in
        let part_size := isize ((num_rows - 1) * padded + unpadded) in
        flip ← unpack_flip_y;
        y ← (if flip : bool then y ← int (original_height - yoffset); int (y - num_rows) else mret yoffset);
        put_rows flip source part_size (i_width i) num_rows (i_format i) (i_type i)
          (sub_image i (i_xoffset i) y (i_width i) num_rows) ;;
        yoffset ← int (yoffset + num_rows);
        by_rows fuel i original_height max_rows unpadded padded yoffset (height - num_rows)
          (drop (Z.to_nat (num_rows * padded)) source)
    end.

(** The loop over the parts of one row: each time, as many pixels as the whole row has. *)
Fixpoint by_sub_rows (fuel : nat) (i : Image) (max_sub_row_pixels element_size y : Z) (temp_xoffset temp_width : Z)
    (row_source : list Z) : Method () :=
  if temp_width =? 0 then mret ()
  else
    match fuel with
    | O => never
    | S fuel =>
        let num_pixels := Z.min (i_width i) max_sub_row_pixels in
        let part_size := isize (num_pixels * element_size) in
        put_rows false row_source part_size num_pixels 1 (i_format i) (i_type i)
          (sub_image i temp_xoffset y num_pixels 1) ;;
        temp_xoffset ← int (temp_xoffset + num_pixels);
        temp_width ← int (temp_width - num_pixels);
        by_sub_rows fuel i max_sub_row_pixels element_size y temp_xoffset temp_width
          (drop (Z.to_nat part_size) row_source)
    end.

(** Where the loop above does not end, its fuel runs out. *)
Fixpoint rows_by_sub_rows (height fuel : nat) (i : Image) (original_height max_sub_row_pixels element_size padded yoffset : Z)
    (source : list Z) : Method () :=
  match height with
  | O => mret ()
  | S height =>
      flip ← unpack_flip_y;
      y ← (if flip : bool then y ← int (original_height - yoffset); int (y - 1) else mret yoffset);
      by_sub_rows fuel i max_sub_row_pixels element_size y (i_xoffset i) (i_width i) source ;;
      yoffset ← int (yoffset + 1);
      rows_by_sub_rows height fuel i original_height max_sub_row_pixels element_size padded yoffset
        (drop (Z.to_nat padded) source)
  end.

(** The pixels of the transfer buffer that are whole: [max_size] and [max_sub_row_pixels]. *)
Definition sub_row_pixels (max_size element_size : Z) : Method Z :=
  if element_size =? 0 then undefined
  else mret (i32 (Z.quot (max_size - Z.rem max_size element_size) element_size)).

Definition TexSubImage2DImpl (target level xoffset yoffset width height format type : Z) (pixels : list Z) (internal : Z)
    : Method () :=
  if (level <? 0) || (height <? 0) || (width <? 0) then SetGLError GL_INVALID_VALUE
  else if (height =? 0) || (width =? 0) then mret ()
  else
    max ← max_transfer;
    let max_size := isize max in
    alignment ← unpack_alignment;
    sizes ← row_sizes width format type alignment;
    match sizes with
    | None => mret ()
    | Some (unpadded, padded) =>
        let i := mkImage target level xoffset width format type internal in
        if padded <=? max_size then
          by_rows (Z.to_nat height) i height (i32 (max_size / Z.max padded 1)) unpadded padded yoffset height pixels
        else
          let element_size := isize (default 0 (ComputeImageDataSize 1 1 format type alignment)) in
          max_sub_row_pixels ← sub_row_pixels max_size element_size;
          rows_by_sub_rows (Z.to_nat height) (Z.to_nat width) i height max_sub_row_pixels element_size padded yoffset pixels
    end.

Definition TexSubImage2D (target level xoffset yoffset width height format type : Z) (pixels : list Z) : Method () :=
  TexSubImage2DImpl target level xoffset yoffset width height format type pixels 0.

Definition TexImage2D (target level internalformat width height border format type : Z) (pixels : option (list Z))
    : Method () :=
  if (level <? 0) || (height <? 0) || (width <? 0) then SetGLError GL_INVALID_VALUE
  else
    alignment ← unpack_alignment;
    size ← image_size width height format type alignment;
    match size with
    | None => SetGLError GL_INVALID_VALUE
    | Some size =>
        let command shm_id shm_offset :=
          Gl cmds.TexImage2D [target; level; internalformat; width; height; border; format; type; shm_id; shm_offset] [] in
        max_size ← max_transfer;
        match pixels with
        | None => helper (command 0 0)
        | Some pixels =>
            if size >? max_size then
              helper (command 0 0) ;;
              TexSubImage2DImpl target level 0 0 width height format type pixels 1
            else
              buffer ← ClientState.Alloc size;
              flip ← unpack_flip_y;
              success ← (if flip : bool then CopyRectToBufferFlipped pixels width height format type buffer
                         else bytes ← the (zread pixels 0 size); link (memcpy_to buffer bytes) ;; mret true);
              (if success : bool then helper (command (transfer_buffer_id_ cfg) buffer) else mret ()) ;;
              token ← InsertToken;
              FreePendingToken buffer token
        end
    end.

(** ** Compressed images, through a bucket

    [image_size] bytes of [data]. *)
Definition bucket_image (image_size : Z) (data : list Z) (command : ClientCommand) : Method () :=
  data ← the (zread data 0 (usize image_size));
  SetBucketContents cfg kResultBucketId data ;;
  helper command ;;
  helper (SetBucketSize kResultBucketId 0).

Definition CompressedTexImage2D (target level internalformat width height border image_size : Z) (data : list Z) : Method () :=
  if (width <? 0) || (height <? 0) || (level <? 0) then SetGLError GL_INVALID_VALUE
  else if (height =? 0) || (width =? 0) then mret ()
  else bucket_image image_size data
         (Gl cmds.CompressedTexImage2DBucket [target; level; internalformat; width; height; border; kResultBucketId] []).

Definition CompressedTexSubImage2D (target level xoffset yoffset width height format image_size : Z) (data : list Z) : Method () :=
  if (width <? 0) || (height <? 0) || (level <? 0) then SetGLError GL_INVALID_VALUE
  else bucket_image image_size data
         (Gl cmds.CompressedTexSubImage2DBucket [target; level; xoffset; yoffset; width; height; format; kResultBucketId] []).

(** ** Reading pixels

    The answer: what is written to the application's memory, each time the offset and the
    bytes. *)
Definition Writes : Type := list (Z * list Z).

Definition read_command (x y width height format type shm_offset : Z) : ClientCommand :=
  Gl cmds.ReadPixels [x; y; width; height; format; type; transfer_buffer_id_ cfg; shm_offset;
                       result_shm_id cfg; result_shm_offset] [].

Fixpoint copy_rows (rows : nat) (src dest unpadded padded : Z) : Method Writes :=
  match rows with
  | O => mret []
  | S rows =>
      row ← read_shared src unpadded;
      rest ← copy_rows rows (src + padded) (dest + padded) unpadded padded;
      mret ((dest, row) :: rest)
  end.

(** One command: the pixels that came, and whether the service succeeded. *)
Definition read_part (part_size : Z) (command : Z -> ClientCommand) (copy : Z -> Method Writes) : Method (Writes * bool) :=
  buffer ← ClientState.Alloc (u32 part_size);
  ask [0] (command buffer) ;;
  result ← result_word 0;
  writes ← (if negb (result =? 0) then copy buffer else mret []);
  token ← InsertToken;
  FreePendingToken buffer token ;;
  result ← result_word 0;
  mret (writes, negb (result =? 0)).

Fixpoint read_rows (fuel : nat) (xoffset width format type max_rows unpadded padded : Z) (yoffset height dest : Z)
    : Method Writes :=
  if height =? 0 then mret []
  else
    match fuel with
    | O => never
    | S fuel =>
        let num_rows := Z.min height max_rows in
        let part_size := isize (unpadded + padded * (num_rows - 1)) in
        part ← read_part part_size (read_command xoffset yoffset width num_rows format type)
                 (fun buffer => copy_rows (Z.to_nat num_rows) buffer dest unpadded padded);
        if negb part.2 then mret part.1
        else
          yoffset ← int (yoffset + num_rows);
          rest ← read_rows fuel xoffset width format type max_rows unpadded padded yoffset (height - num_rows)
                   (dest + num_rows * padded);
          mret (part.1 ++ rest)
    end.

(** The parts of one row, [true] when all of them came. *)
Fixpoint read_sub_rows (fuel : nat) (yoffset width format type max_sub_row_pixels element_size : Z)
    (temp_xoffset temp_width row_dest : Z) : Method (Writes * bool) :=
  if temp_width =? 0 then mret ([], true)
  else
    match fuel with
    | O => never
    | S fuel =>
        let num_pixels := Z.min width max_sub_row_pixels in
        let part_size := isize (num_pixels * element_size) in
        part ← read_part part_size (read_command temp_xoffset yoffset temp_width 1 format type)
                 (fun buffer => bytes ← read_shared buffer part_size; mret [(row_dest, bytes)]);
        if negb part.2 then mret (part.1, false)
        else
          temp_xoffset ← int (temp_xoffset + num_pixels);
          temp_width ← int (temp_width - num_pixels);
          rest ← read_sub_rows fuel yoffset width format type max_sub_row_pixels element_size temp_xoffset temp_width
                   (row_dest + part_size);
          mret (part.1 ++ rest.1, rest.2)
    end.

Fixpoint read_rows_by_sub_rows (height fuel : nat) (xoffset width format type max_sub_row_pixels element_size padded : Z)
    (yoffset dest : Z) : Method Writes :=
  match height with
  | O => mret []
  | S height =>
      row ← read_sub_rows fuel yoffset width format type max_sub_row_pixels element_size xoffset width dest;
      if negb row.2 then mret row.1
      else
        yoffset ← int (yoffset + 1);
        rest ← read_rows_by_sub_rows height fuel xoffset width format type max_sub_row_pixels element_size padded yoffset
                 (dest + padded);
        mret (row.1 ++ rest)
  end.

Definition ReadPixels (xoffset yoffset width height format type : Z) : Method Writes :=
  if (width <? 0) || (height <? 0) then SetGLError GL_INVALID_VALUE ;; mret []
  else if (width =? 0) || (height =? 0) then mret []
  else
    max ← max_transfer;
    let max_size := isize max in
    alignment ← get (fun g => pack_alignment_ (pixel_store g));
    sizes ← row_sizes width format type alignment;
    match sizes with
    | None => mret []
    | Some (unpadded, padded) =>
        if padded <=? max_size then
          read_rows (Z.to_nat height) xoffset width format type (i32 (max_size / Z.max padded 1)) unpadded padded
            yoffset height 0
        else
          let element_size := isize (default 0 (ComputeImageDataSize 1 1 format type alignment)) in
          max_sub_row_pixels ← sub_row_pixels max_size element_size;
          read_rows_by_sub_rows (Z.to_nat height) (Z.to_nat width) xoffset width format type max_sub_row_pixels element_size
            padded yoffset 0
    end.

(** ** Mapped textures *)

Context `{!TransferBuffers W}.

Definition with_mapped_textures (textures : gmap Z MappedTexture) (g : GLES2Implementation) : GLES2Implementation :=
  with_mapped (mkMapped (mapped_memory_ (mapped g)) (mapped_buffers_ (mapped g)) textures) g.

Definition MapTexSubImage2DCHROMIUM (target level xoffset yoffset width height format type access : Z) : Method (option Z) :=
  if negb (access =? GL_WRITE_ONLY) then SetGLError GL_INVALID_ENUM ;; mret None
  else if (level <? 0) || (xoffset <? 0) || (yoffset <? 0) || (width <? 0) || (height <? 0)
  then SetGLError GL_INVALID_VALUE ;; mret None
  else
    alignment ← unpack_alignment;
    size ← image_size width height format type alignment;
    match size with
    | None => SetGLError GL_INVALID_VALUE ;; mret None
    | Some size =>
        mem ← map_memory size;
        match mem with
        | None => SetGLError GL_OUT_OF_MEMORY ;; mret None
        | Some (address, resource) =>
            modify (fun g => with_mapped_textures
              (insert_new address (mkMappedTexture resource target level xoffset yoffset width height format type)
                 (mapped_textures_ (mapped g))) g) ;;
            mret (Some address)
        end
    end.

Definition UnmapTexSubImage2DCHROMIUM (mem : Z) : Method () :=
  textures ← get (fun g => mapped_textures_ (mapped g));
  match textures !! mem with
  | None => SetGLError GL_INVALID_VALUE
  | Some mt =>
      let r := mt_resource mt in
      gl cmds.TexSubImage2D [mt_target mt; mt_level mt; mt_xoffset mt; mt_yoffset mt; mt_width mt; mt_height mt;
                              mt_format mt; mt_type mt; mapped_shm_id r; mapped_shm_offset r; 0] ;;
      token ← InsertToken;
      free_mapped mem token ;;
      FlushHelper ;;
      modify (fun g => with_mapped_textures (base.delete mem (mapped_textures_ (mapped g))) g)
  end.

End textures.
