(* ===== verification/ClientPrograms.v ===== *)
(** * Programs and queries of a GLES2 client

    The methods of [gpu/command_buffer/client/gles2_implementation.cc] that send and receive
    strings and tables: shader sources, locations, names of attributes and uniforms, logs,
    extensions, and limits; and the constructor, which asks for the limits.  Pointers for
    answers are not null unless an argument says so. *)

From S2P Require Import Prelude CmdFormat GLES2Format GLES2Commands.
From Stdlib Require Import ZArith Lia ZifyBool Bool String.
From stdpp Require Import base numbers option gmap list.
From S2P Require Import Prelude GLConstants Names GLES2Util IdAllocator ProgramInfoManager RingBuffer Tokens.
From S2P Require Import MappedMemory Connection TransferBuffer ClientState ClientBindings ClientBuffers.
Local Open Scope Z_scope.

Section programs.
Context `{Platform} {W : Type} `{Connection W}.
Variable cfg : ClientConfig.
Notation Method := (Method W).

(** ** Shaders *)

(** The sources are the bytes at each pointer, [None] for a null pointer; the first loop takes
    a negative length for a string that ends in zero. *)
Definition counted_size (source : list Z) (length : option Z) : Method Z :=
  match length with
  | Some n => if n >=? 0 then mret n else the (strlen source)
  | None => the (strlen source)
  end.

Definition length_at (lengths : option (list Z)) (ii : Z) : Method (option Z) :=
  match lengths with
  | Some l => n ← the (zget l ii); mret (Some n)
  | None => mret None
  end.

Fixpoint source_sizes (ii : Z) (sources : list (option (list Z))) (lengths : option (list Z)) (total : Z) : Method Z :=
  match sources with
  | [] => mret total
  | None :: sources => source_sizes (ii + 1) sources lengths total
  | Some source :: sources =>
      length ← length_at lengths ii;
      size ← counted_size source length;
      source_sizes (ii + 1) sources lengths (u32 (total + size))
  end.

(** The second loop takes the length as it is. *)
Fixpoint send_sources (max_size ii offset : Z) (sources : list (option (list Z))) (lengths : option (list Z)) : Method Z :=
  match sources with
  | [] => mret offset
  | None :: sources => send_sources max_size (ii + 1) offset sources lengths
  | Some source :: sources =>
      length ← length_at lengths ii;
      size ← match length with
             | Some n => mret (u32 n)
             | None => n ← the (strlen source); mret (u32 n)
             end;
      data ← the (zread source 0 size);
      offset ← put_parts (List.length data) max_size u32 (set_bucket_part cfg kResultBucketId) offset data;
      send_sources max_size (ii + 1) offset sources lengths
  end.

Definition ShaderSource (shader count : Z) (source : list (option (list Z))) (length : option (list Z)) : Method () :=
  if count <? 0 then SetGLError GL_INVALID_VALUE
  else if shader =? 0 then SetGLError GL_INVALID_VALUE
  else
    sources ← the (zread source 0 count);
    total_size ← source_sizes 0 sources length 1;
    helper (SetBucketSize kResultBucketId total_size) ;;
    max_size ← max_transfer;
    offset ← send_sources max_size 0 0 sources length;
    put_parts 1 max_size u32 (set_bucket_part cfg kResultBucketId) offset [0] ;;
    gl cmds.ShaderSourceBucket [shader; kResultBucketId] ;;
    helper (SetBucketSize kResultBucketId 0).

(** The ids and the binary are sent in one piece. *)
Definition ShaderBinary (n : Z) (shaders : list Z) (binaryformat : Z) (binary : list Z) (length : Z) : Method () :=
  if n <? 0 then SetGLError GL_INVALID_VALUE
  else if length <? 0 then SetGLError GL_INVALID_VALUE
  else
    let shader_id_size := i32 (4 * n) in
    total ← int (shader_id_size + length);
    buffer ← ClientState.Alloc (u32 total);
    ids ← the (zread shaders 0 n);
    binary ← the (zread binary 0 length);
    link (memcpy_to buffer (words_to_bytes (u32 <$> ids))) ;;
    link (memcpy_to (buffer + shader_id_size) binary) ;;
    gl cmds.ShaderBinary [n; transfer_buffer_id_ cfg; buffer; binaryformat; transfer_buffer_id_ cfg;
                          u32 (buffer + shader_id_size); length] ;;
    token ← InsertToken;
    FreePendingToken buffer token.

(** ** Names *)

Definition BindAttribLocation (program index : Z) (name : list Z) : Method () :=
  SetBucketAsString cfg kResultBucketId name ;;
  gl cmds.BindAttribLocationBucket [program; index; kResultBucketId] ;;
  helper (SetBucketSize kResultBucketId 0).

(** A question about a name, which the bucket holds. *)
Definition ask_with_name (initial : Z) (name : list Z) (command : ClientCommand) : Method Z :=
  set_result [initial] ;;
  SetBucketAsCString cfg kResultBucketId (Some name) ;;
  helper command ;;
  WaitForCmd ;;
  helper (SetBucketSize kResultBucketId 0) ;;
  result_word 0.

Definition GetAttribLocationHelper (program : Z) (name : list Z) : Method Z :=
  location ← ask_with_name (-1) name
    (Gl cmds.GetAttribLocationBucket [program; kResultBucketId; result_shm_id cfg; result_shm_offset] []);
  mret (i32 location).

Definition GetUniformLocationHelper (program : Z) (name : list Z) : Method Z :=
  location ← ask_with_name (-1) name
    (Gl cmds.GetUniformLocationBucket [program; kResultBucketId; result_shm_id cfg; result_shm_offset] []);
  mret (i32 location).

Definition EnableFeatureCHROMIUM (feature : list Z) : Method Z :=
  result ← ask_with_name 0 feature (Gl cmds.EnableFeatureCHROMIUM [kResultBucketId; result_shm_id cfg; result_shm_offset] []);
  mret (result mod 2 ^ 8).

Definition RequestExtensionCHROMIUM (extension : list Z) : Method () :=
  SetBucketAsCString cfg kResultBucketId (Some extension) ;;
  gl cmds.RequestExtensionCHROMIUM [kResultBucketId] ;;
  helper (SetBucketSize kResultBucketId 0).

(** The answer [None] is [false]. *)
Definition ask_active (command : ClientCommand) (bufsize : Z) : Method (option ActiveAnswer) :=
  helper (SetBucketSize kResultBucketId 0) ;;
  ask [0] command ;;
  success ← result_word 0;
  if negb (success =? 0) then
    size ← result_word 1;
    type ← result_word 2;
    str ← GetBucketContents cfg kResultBucketId;
    let max_size := i32 (Z.min (usize (usize bufsize - 1)) (usize (zlen str - 1))) in
    name ← (if bufsize >? 0 then name ← the (zread str 0 max_size); mret (name ++ [0]) else mret []);
    mret (Some (mkActiveAnswer (i32 size) type max_size name))
  else mret None.

Definition GetActiveAttribHelper (program index bufsize : Z) : Method (option ActiveAnswer) :=
  ask_active (Gl cmds.GetActiveAttrib [program; index; kResultBucketId; result_shm_id cfg; result_shm_offset] []) bufsize.

Definition GetActiveUniformHelper (program index bufsize : Z) : Method (option ActiveAnswer) :=
  ask_active (Gl cmds.GetActiveUniform [program; index; kResultBucketId; result_shm_id cfg; result_shm_offset] []) bufsize.

(** ** Programs *)

Definition GetProgramInfoCHROMIUMHelper (program : Z) : Method (list Z) :=
  helper (SetBucketSize kResultBucketId 0) ;;
  gl cmds.GetProgramInfoCHROMIUM [program; kResultBucketId] ;;
  GetBucketContents cfg kResultBucketId.

(** The manager of program information asks the service about a program that it knows and has
    no copy of.  Where resources are shared there is no copy of any program. *)
Definition fetched (program : Z) : Method (list Z) :=
  m ← get program_info_manager_;
  match m !! program with
  | Some p => if cached_ p then mret [] else GetProgramInfoCHROMIUMHelper program
  | None => mret []
  end.

Definition ask_manager {A} (program : Z)
    (f : (Z -> list Z) -> CachedProgramInfoManager -> outcome (option A * CachedProgramInfoManager)) : Method (option A) :=
  if sharing_resources_ cfg then mret None
  else
    data ← fetched program;
    ((fun s => (do (a, m) <- f (fun _ => data) (program_info_manager_ s.1) ;; Done (a, (with_program_info m s.1, s.2)))%gpu)
      : Method (option A)).

Definition change_manager (f : CachedProgramInfoManager -> CachedProgramInfoManager) : Method () :=
  if sharing_resources_ cfg then mret ()
  else modify (fun g => with_program_info (f (program_info_manager_ g)) g).

Definition GetAttribLocation (program : Z) (name : list Z) : Method Z :=
  location ← ask_manager program (fun fetch => Manager_GetAttribLocation fetch program name);
  match location with Some l => mret l | None => GetAttribLocationHelper program name end.

Definition GetUniformLocation (program : Z) (name : list Z) : Method Z :=
  location ← ask_manager program (fun fetch => Manager_GetUniformLocation fetch program name);
  match location with Some l => mret l | None => GetUniformLocationHelper program name end.

Definition GetProgramivHelper (program pname : Z) : Method (option Z) :=
  ask_manager program (fun fetch => Manager_GetProgramiv fetch program pname).

Definition GetActiveAttrib (program index bufsize : Z) : Method (option ActiveAnswer) :=
  if bufsize <? 0 then SetGLError GL_INVALID_VALUE ;; mret None
  else
    answer ← ask_manager program (fun fetch => ProgramInfoManager.GetActiveAttrib fetch program index bufsize);
    match answer with Some a => mret (Some a) | None => GetActiveAttribHelper program index bufsize end.

Definition GetActiveUniform (program index bufsize : Z) : Method (option ActiveAnswer) :=
  if bufsize <? 0 then SetGLError GL_INVALID_VALUE ;; mret None
  else
    answer ← ask_manager program (fun fetch => ProgramInfoManager.GetActiveUniform fetch program index bufsize);
    match answer with Some a => mret (Some a) | None => GetActiveUniformHelper program index bufsize end.

Definition LinkProgram (program : Z) : Method () :=
  gl cmds.LinkProgram [program] ;; change_manager (CreateInfo program).

Definition delete_program_or_shader (command : Struct) (id : Z) : Method () :=
  freed ← FreeIds cfg ProgramsAndShaders [id];
  if negb freed then SetGLError GL_INVALID_VALUE
  else change_manager (DeleteInfo id) ;; gl command [id] ;; FlushClient.

Definition DeleteProgramHelper := delete_program_or_shader cmds.DeleteProgram.
Definition DeleteShaderHelper := delete_program_or_shader cmds.DeleteShader.
Definition DeleteProgram := DeleteProgramHelper.
Definition DeleteShader := DeleteShaderHelper.

(** What is written to [*size] and to [info], which may be null pointers. *)
Definition GetProgramInfoCHROMIUM (program bufsize : Z) (size info : bool) : Method (option Z * option (list Z)) :=
  if bufsize <? 0 then SetGLError GL_INVALID_VALUE ;; mret (None, None)
  else if negb size then SetGLError GL_INVALID_VALUE ;; mret (None, None)
  else
    result ← GetProgramInfoCHROMIUMHelper program;
    match result with
    | [] => mret (None, None)
    | _ =>
        if negb info then mret (Some (i32 (zlen result)), None)
        else if usize bufsize <? zlen result then
          SetGLError GL_INVALID_OPERATION ;; mret (Some (i32 (zlen result)), None)
        else mret (Some (i32 (zlen result)), Some result)
    end.

(** A result of its own, as the answer can be long: [AllocTyped] takes eight bytes for each
    byte that is asked for.  The number of shaders, and the bytes that are written. *)
Definition GetAttachedShaders (program maxcount : Z) : Method (option (Z * list Z)) :=
  if maxcount <? 0 then SetGLError GL_INVALID_VALUE ;; mret None
  else
    let size := u32 (4 * maxcount + 4) in
    buffer ← ClientState.Alloc (u32 (8 * size));
    link (memcpy_to buffer (words_to_bytes [0])) ;;
    gl cmds.GetAttachedShaders [program; transfer_buffer_id_ cfg; buffer; size] ;;
    token ← InsertToken;
    WaitForCmd ;;
    bytes ← read_shared buffer 4;
    let result_size := le_word bytes in
    shaders ← read_shared (buffer + 4) result_size;
    FreePendingToken buffer token ;;
    mret (Some (result_size / 4, shaders)).

(** The two ends of the range and the precision; [None]: nothing is written. *)
Definition GetShaderPrecisionFormat (shadertype precisiontype : Z) : Method (option (Z * Z * Z)) :=
  ask [0] (Gl cmds.GetShaderPrecisionFormat [shadertype; precisiontype; result_shm_id cfg; result_shm_offset] []) ;;
  success ← result_word 0;
  if negb (success =? 0) then
    min_range ← result_word 1;
    max_range ← result_word 2;
    precision ← result_word 3;
    mret (Some (i32 min_range, i32 max_range, i32 precision))
  else mret None.

Definition GetUniformfv (program location : Z) : Method (list Z) :=
  ask_sized (Gl cmds.GetUniformfv [program; location; result_shm_id cfg; result_shm_offset] []).

Definition GetUniformiv (program location : Z) : Method (list Z) :=
  ask_sized (Gl cmds.GetUniformiv [program; location; result_shm_id cfg; result_shm_offset] []).

(** ** Strings *)

(** Info logs and sources: the length, and what is written. *)
Definition ask_log (command : Struct) (id bufsize : Z) : Method (Z * list Z) :=
  helper (SetBucketSize kResultBucketId 0) ;;
  gl command [id; kResultBucketId] ;;
  str ← GetBucketAsString cfg kResultBucketId;
  match str with
  | Some str =>
      if bufsize >? 0 then
        let max_size := i32 (Z.min (usize (usize bufsize - 1)) (zlen str)) in
        written ← the (zread (str ++ [0]) 0 max_size);
        mret (max_size, written ++ [0])
      else mret (0, [])
  | None => mret (0, [])
  end.

Definition GetProgramInfoLog := ask_log cmds.GetProgramInfoLog.
Definition GetShaderInfoLog := ask_log cmds.GetShaderInfoLog.
Definition GetShaderSource := ask_log cmds.GetShaderSource.
Definition GetTranslatedShaderSourceANGLE := ask_log cmds.GetTranslatedShaderSourceANGLE.

Definition client_extensions : list Z := chars "GL_CHROMIUM_map_sub GL_CHROMIUM_flipy".

(** Each string that was ever answered is kept, since the application may still hold it. *)
Definition GetString (name : Z) : Method (option (list Z)) :=
  helper (SetBucketSize kResultBucketId 0) ;;
  gl cmds.GetString [name; kResultBucketId] ;;
  str ← GetBucketAsString cfg kResultBucketId;
  match str with
  | None => mret None
  | Some str =>
      let str := if name =? GL_EXTENSIONS
                 then str ++ (match str with [] => [] | _ => chars " " end) ++ client_extensions else str in
      modify (fun g => with_strings (<[name := {[str]} ∪ default ∅ (gl_strings_ g !! name)]> (gl_strings_ g))
                         (requestable_extensions_set_ g) g) ;;
      mret (Some str)
  end.

Definition GetRequestableExtensionsCHROMIUM : Method (option (list Z)) :=
  helper (SetBucketSize kResultBucketId 0) ;;
  gl cmds.GetRequestableExtensionsCHROMIUM [kResultBucketId] ;;
  str ← GetBucketAsString cfg kResultBucketId;
  match str with
  | None => mret None
  | Some str =>
      modify (fun g => with_strings (gl_strings_ g) ({[str]} ∪ requestable_extensions_set_ g) g) ;;
      mret (Some str)
  end.

(** ** Limits *)

(** How many values the names stand for; [None] for a name that stands for none. *)
Fixpoint count_results (util : Z * Z) (pnames : list Z) (num_results : Z) : Method (option Z) :=
  match pnames with
  | [] => mret (Some num_results)
  | pname :: pnames =>
      let num := GLGetNumValuesReturned util.1 util.2 pname in
      if num =? 0 then mret None
      else num_results ← int (num_results + num); count_results util pnames num_results
  end.

(** [pnames] and [results] are arrays; the new results, [None] when there are none. *)
Definition GetMultipleIntegervCHROMIUM (pnames : list Z) (count : Z) (results : list Z) (size : Z) : Method (option (list Z)) :=
  pnames ← the (zread pnames 0 count);
  util ← get util_;
  num_results ← count_results util pnames 0;
  match num_results with
  | None => SetGLError GL_INVALID_ENUM ;; mret None
  | Some num_results =>
      if negb (usize size =? usize (4 * num_results)) then SetGLError GL_INVALID_VALUE ;; mret None
      else
        results ← the (zread results 0 num_results);
        if existsb (fun r => negb (r =? 0)) results then SetGLError GL_INVALID_VALUE ;; mret None
        else
          let size_needed := u32 (4 * count + 4 * num_results) in
          pnames_buffer ← ClientState.Alloc size_needed;
          let results_buffer := pnames_buffer + 4 * count in
          link (memcpy_to pnames_buffer (words_to_bytes (u32 <$> pnames))) ;;
          link (memcpy_to results_buffer (words_to_bytes (replicate (Z.to_nat num_results) 0))) ;;
          gl cmds.GetMultipleIntegervCHROMIUM [transfer_buffer_id_ cfg; pnames_buffer; count; transfer_buffer_id_ cfg;
                                               u32 results_buffer; size] ;;
          WaitForCmd ;;
          bytes ← read_shared results_buffer (usize size);
          token ← InsertToken;
          FreePendingToken pnames_buffer token ;;
          mret (Some (i32 <$> bytes_to_words bytes))
  end.

(** ** The constructor and the destructor *)

Definition kClientSideArrayId : Z := 4275878552.

Definition limit_names : list Z :=
  [GL_MAX_COMBINED_TEXTURE_IMAGE_UNITS; GL_MAX_CUBE_MAP_TEXTURE_SIZE; GL_MAX_FRAGMENT_UNIFORM_VECTORS; GL_MAX_RENDERBUFFER_SIZE;
   GL_MAX_TEXTURE_IMAGE_UNITS; GL_MAX_TEXTURE_SIZE; GL_MAX_VARYING_VECTORS; GL_MAX_VERTEX_ATTRIBS;
   GL_MAX_VERTEX_TEXTURE_IMAGE_UNITS; GL_MAX_VERTEX_UNIFORM_VECTORS; GL_NUM_COMPRESSED_TEXTURE_FORMATS;
   GL_NUM_SHADER_BINARY_FORMATS].

(** The members of [GLState], in order. *)
Definition limits_of (results : list Z) : GLState :=
  let r i := default 0 (zget results i) in
  mkGLState (r 0) (r 1) (r 2) (r 3) (r 4) (r 5) (r 6) (r 7) (r 8) (r 9) (r 10) (r 11).

Definition new_handler (ns : Namespace) : IdHandler :=
  if sharing_resources_ cfg then
    if bind_generates_resource_ cfg then SharedIdHandler (number ns) else StrictSharedIdHandler (number ns) ∅ []
  else
    match ns with
    | ProgramsAndShaders => NonSharedNonReusedIdHandler 0
    | _ => NonSharedIdHandler Reused.new
    end.

(** Before the limits are known. *)
Definition members (transfer_buffer_size : Z) : GLES2Implementation :=
  mkGLES2Implementation (RingBuffer.new kStartingOffset (u32 (transfer_buffer_size - kStartingOffset)))
    (mkPixelStore 4 4 false) (mkBound [] 0 0 0 0 0)
    (new_handler Buffers) (new_handler Framebuffers) (new_handler ProgramsAndShaders) (new_handler Renderbuffers)
    (new_handler Textures) None [0; 0] 0 GLState_new
    (num_compressed_texture_formats GLState_new, num_shader_binary_formats GLState_new)
    ∅ ∅ [] [] (mkMapped [] ∅ ∅) ∅.

(** The rest of the body; [client_side] is [GLES2_SUPPORT_CLIENT_SIDE_ARRAYS]. *)
Definition initialize (client_side : bool) : Method () :=
  results ← GetMultipleIntegervCHROMIUM limit_names 12 (replicate 12 0) 48;
  let limits := limits_of (default [] results) in
  let units := max_combined_texture_image_units limits in
  (if units <? 0 then undefined else mret ()) ;;
  modify (fun g => with_bound (with_texture_units (replicate (Z.to_nat units) (mkTextureUnit 0 0)) (bound g)) (with_gl_state limits g)) ;;
  if client_side then
    ids ← MakeIds cfg Buffers kClientSideArrayId 2;
    array ← the (zget ids 0);
    element_array ← the (zget ids 1);
    modify (with_client_side (Some (ClientSide_new (u32 (max_vertex_attribs limits)) array element_array)) ids)
  else mret ().

Definition GLES2Implementation_new (transfer_buffer_size : Z) (client_side : bool) (w : W) : outcome (GLES2Implementation * W) :=
  (do (_, s) <- initialize client_side (members transfer_buffer_size, w) ;; Done s)%gpu.

Definition destructor : Method () :=
  g ← get id;
  match client_side_buffer_helper_ g with
  | Some _ => DeleteBuffers cfg 2 (reserved_ids_ g)
  | None => mret ()
  end.

(** ** Streams *)

Definition ResizeCHROMIUM (width height : Z) : Method () := gl cmds.ResizeCHROMIUM [width; height].

Definition CreateStreamTextureCHROMIUM (texture : Z) : Method Z :=
  ask_word 0 (Gl cmds.CreateStreamTextureCHROMIUM [texture; result_shm_id cfg; result_shm_offset] []).

Definition DestroyStreamTextureCHROMIUM (texture : Z) : Method () := gl cmds.DestroyStreamTextureCHROMIUM [texture].

End programs.
