(* ===== verification/ClientCommands.v ===== *)
(** * The other methods of a GLES2 client

    The methods of [gpu/command_buffer/client/gles2_implementation_autogen.h] that only check
    their arguments and issue a command, or ask for a value. *)

From S2P Require Import Prelude CmdFormat GLES2Format GLES2Commands.
From Stdlib Require Import ZArith Lia ZifyBool Bool.
From stdpp Require Import base numbers option gmap list.
From S2P Require Import GLConstants ProgramInfoManager Tokens.
From S2P Require Import Connection ClientState ClientBindings ClientPrograms.
Local Open Scope Z_scope.

Section commands.
Context `{Platform} {W : Type} `{Connection W}.
Variable cfg : ClientConfig.
Notation Method := (Method W).

(** The bytes that are written: what the client knows, or what the service answers. *)
Definition get_values (size : nat) (known : Method (option Z)) (command : ClientCommand) : Method (list Z) :=
  value ← known;
  match value with
  | Some value => mret (le_bytes size value)
  | None => ask_sized command
  end.

Definition AttachShader (program shader : Z) : Method () := gl cmds.AttachShader [program; shader].

Definition BlendColor (red green blue alpha : Z) : Method () := gl cmds.BlendColor [red; green; blue; alpha].

Definition BlendEquation (mode : Z) : Method () := gl cmds.BlendEquation [mode].

Definition BlendEquationSeparate (modeRGB modeAlpha : Z) : Method () :=
  gl cmds.BlendEquationSeparate [modeRGB; modeAlpha].

Definition BlendFunc (sfactor dfactor : Z) : Method () := gl cmds.BlendFunc [sfactor; dfactor].

Definition BlendFuncSeparate (srcRGB dstRGB srcAlpha dstAlpha : Z) : Method () :=
  gl cmds.BlendFuncSeparate [srcRGB; dstRGB; srcAlpha; dstAlpha].

Definition CheckFramebufferStatus (target : Z) : Method Z :=
  ask_word 0 (Gl cmds.CheckFramebufferStatus [target; result_shm_id cfg; result_shm_offset] []).

Definition Clear (mask : Z) : Method () := gl cmds.Clear [mask].

Definition ClearColor (red green blue alpha : Z) : Method () := gl cmds.ClearColor [red; green; blue; alpha].

Definition ClearDepthf (depth : Z) : Method () := gl cmds.ClearDepthf [depth].

Definition ClearStencil (s : Z) : Method () := gl cmds.ClearStencil [s].

Definition ColorMask (red green blue alpha : Z) : Method () := gl cmds.ColorMask [red; green; blue; alpha].

Definition CompileShader (shader : Z) : Method () := gl cmds.CompileShader [shader].

Definition CopyTexImage2D (target level internalformat x y width height border : Z) : Method () :=
  if (width <? 0) || (height <? 0) then SetGLError GL_INVALID_VALUE
  else gl cmds.CopyTexImage2D [target; level; internalformat; x; y; width; height; border].

Definition CopyTexSubImage2D (target level xoffset yoffset x y width height : Z) : Method () :=
  if (width <? 0) || (height <? 0) then SetGLError GL_INVALID_VALUE
  else gl cmds.CopyTexSubImage2D [target; level; xoffset; yoffset; x; y; width; height].

Definition CullFace (mode : Z) : Method () := gl cmds.CullFace [mode].

Definition DepthFunc (func : Z) : Method () := gl cmds.DepthFunc [func].

Definition DepthMask (flag : Z) : Method () := gl cmds.DepthMask [flag].

Definition DepthRangef (zNear zFar : Z) : Method () := gl cmds.DepthRangef [zNear; zFar].

Definition DetachShader (program shader : Z) : Method () := gl cmds.DetachShader [program; shader].

Definition Disable (cap : Z) : Method () := gl cmds.Disable [cap].

Definition Enable (cap : Z) : Method () := gl cmds.Enable [cap].

Definition FramebufferRenderbuffer (target attachment renderbuffertarget renderbuffer : Z) : Method () :=
  gl cmds.FramebufferRenderbuffer [target; attachment; renderbuffertarget; renderbuffer].

Definition FramebufferTexture2D (target attachment textarget texture level : Z) : Method () :=
  gl cmds.FramebufferTexture2D [target; attachment; textarget; texture; level].

Definition FrontFace (mode : Z) : Method () := gl cmds.FrontFace [mode].

Definition GenerateMipmap (target : Z) : Method () := gl cmds.GenerateMipmap [target].

Definition GetBooleanv (pname : Z) : Method (list Z) :=
  get_values 1 (GetBooleanvHelper cfg pname) (Gl cmds.GetBooleanv [pname; result_shm_id cfg; result_shm_offset] []).

Definition GetBufferParameterivHelper (target pname : Z) : Method (option Z) := mret None.

Definition GetBufferParameteriv (target pname : Z) : Method (list Z) :=
  get_values 4 (GetBufferParameterivHelper target pname) (Gl cmds.GetBufferParameteriv [target; pname;
    result_shm_id cfg; result_shm_offset] []).

Definition GetFloatv (pname : Z) : Method (list Z) :=
  get_values 4 (GetFloatvHelper cfg pname) (Gl cmds.GetFloatv [pname; result_shm_id cfg; result_shm_offset] []).

Definition GetFramebufferAttachmentParameterivHelper (target attachment pname : Z) : Method (option Z) := mret None.

Definition GetFramebufferAttachmentParameteriv (target attachment pname : Z) : Method (list Z) :=
  get_values 4 (GetFramebufferAttachmentParameterivHelper target attachment pname) (Gl
    cmds.GetFramebufferAttachmentParameteriv [target; attachment; pname; result_shm_id cfg; result_shm_offset] []).

Definition GetIntegerv (pname : Z) : Method (list Z) :=
  get_values 4 (GetIntegervHelper cfg pname) (Gl cmds.GetIntegerv [pname; result_shm_id cfg; result_shm_offset] []).

Definition GetProgramiv (program pname : Z) : Method (list Z) :=
  get_values 4 (GetProgramivHelper cfg program pname) (Gl cmds.GetProgramiv [program; pname; result_shm_id cfg;
    result_shm_offset] []).

Definition GetRenderbufferParameterivHelper (target pname : Z) : Method (option Z) := mret None.

Definition GetRenderbufferParameteriv (target pname : Z) : Method (list Z) :=
  get_values 4 (GetRenderbufferParameterivHelper target pname) (Gl cmds.GetRenderbufferParameteriv [target; pname;
    result_shm_id cfg; result_shm_offset] []).

Definition GetShaderivHelper (shader pname : Z) : Method (option Z) := mret None.

Definition GetShaderiv (shader pname : Z) : Method (list Z) :=
  get_values 4 (GetShaderivHelper shader pname) (Gl cmds.GetShaderiv [shader; pname; result_shm_id cfg;
    result_shm_offset] []).

Definition GetTexParameterfvHelper (target pname : Z) : Method (option Z) := mret None.

Definition GetTexParameterfv (target pname : Z) : Method (list Z) :=
  get_values 4 (GetTexParameterfvHelper target pname) (Gl cmds.GetTexParameterfv [target; pname; result_shm_id cfg;
    result_shm_offset] []).

Definition GetTexParameterivHelper (target pname : Z) : Method (option Z) := mret None.

Definition GetTexParameteriv (target pname : Z) : Method (list Z) :=
  get_values 4 (GetTexParameterivHelper target pname) (Gl cmds.GetTexParameteriv [target; pname; result_shm_id cfg;
    result_shm_offset] []).

Definition Hint (target mode : Z) : Method () := gl cmds.Hint [target; mode].

Definition IsBuffer (buffer : Z) : Method Z :=
  result ← ask_word 0 (Gl cmds.IsBuffer [buffer; result_shm_id cfg; result_shm_offset] []);
  mret (result mod 2 ^ 8).

Definition IsEnabled (cap : Z) : Method Z :=
  result ← ask_word 0 (Gl cmds.IsEnabled [cap; result_shm_id cfg; result_shm_offset] []);
  mret (result mod 2 ^ 8).

Definition IsFramebuffer (framebuffer : Z) : Method Z :=
  result ← ask_word 0 (Gl cmds.IsFramebuffer [framebuffer; result_shm_id cfg; result_shm_offset] []);
  mret (result mod 2 ^ 8).

Definition IsProgram (program : Z) : Method Z :=
  result ← ask_word 0 (Gl cmds.IsProgram [program; result_shm_id cfg; result_shm_offset] []);
  mret (result mod 2 ^ 8).

Definition IsRenderbuffer (renderbuffer : Z) : Method Z :=
  result ← ask_word 0 (Gl cmds.IsRenderbuffer [renderbuffer; result_shm_id cfg; result_shm_offset] []);
  mret (result mod 2 ^ 8).

Definition IsShader (shader : Z) : Method Z :=
  result ← ask_word 0 (Gl cmds.IsShader [shader; result_shm_id cfg; result_shm_offset] []);
  mret (result mod 2 ^ 8).

Definition IsTexture (texture : Z) : Method Z :=
  result ← ask_word 0 (Gl cmds.IsTexture [texture; result_shm_id cfg; result_shm_offset] []);
  mret (result mod 2 ^ 8).

Definition LineWidth (width : Z) : Method () := gl cmds.LineWidth [width].

Definition PolygonOffset (factor units : Z) : Method () := gl cmds.PolygonOffset [factor; units].

Definition ReleaseShaderCompiler : Method () := gl cmds.ReleaseShaderCompiler [].

Definition RenderbufferStorage (target internalformat width height : Z) : Method () :=
  if (width <? 0) || (height <? 0) then SetGLError GL_INVALID_VALUE
  else gl cmds.RenderbufferStorage [target; internalformat; width; height].

Definition SampleCoverage (value invert : Z) : Method () := gl cmds.SampleCoverage [value; invert].

Definition Scissor (x y width height : Z) : Method () :=
  if (width <? 0) || (height <? 0) then SetGLError GL_INVALID_VALUE
  else gl cmds.Scissor [x; y; width; height].

Definition StencilFunc (func ref mask : Z) : Method () := gl cmds.StencilFunc [func; ref; mask].

Definition StencilFuncSeparate (face func ref mask : Z) : Method () :=
  gl cmds.StencilFuncSeparate [face; func; ref; mask].

Definition StencilMask (mask : Z) : Method () := gl cmds.StencilMask [mask].

Definition StencilMaskSeparate (face mask : Z) : Method () := gl cmds.StencilMaskSeparate [face; mask].

Definition StencilOp (fail zfail zpass : Z) : Method () := gl cmds.StencilOp [fail; zfail; zpass].

Definition StencilOpSeparate (face fail zfail zpass : Z) : Method () :=
  gl cmds.StencilOpSeparate [face; fail; zfail; zpass].

Definition TexParameterf (target pname param : Z) : Method () := gl cmds.TexParameterf [target; pname; param].

Definition TexParameterfv (target pname : Z) (params : list Z) : Method () :=
  immediate cmds.TexParameterfvImmediate [target; pname] params.

Definition TexParameteri (target pname param : Z) : Method () := gl cmds.TexParameteri [target; pname; param].

Definition TexParameteriv (target pname : Z) (params : list Z) : Method () :=
  immediate cmds.TexParameterivImmediate [target; pname] params.

Definition Uniform1f (location x : Z) : Method () := gl cmds.Uniform1f [location; x].

Definition Uniform1fv (location count : Z) (v : list Z) : Method () :=
  if (count <? 0) then SetGLError GL_INVALID_VALUE
  else immediate cmds.Uniform1fvImmediate [location; count] v.

Definition Uniform1i (location x : Z) : Method () := gl cmds.Uniform1i [location; x].

Definition Uniform1iv (location count : Z) (v : list Z) : Method () :=
  if (count <? 0) then SetGLError GL_INVALID_VALUE
  else immediate cmds.Uniform1ivImmediate [location; count] v.

Definition Uniform2f (location x y : Z) : Method () := gl cmds.Uniform2f [location; x; y].

Definition Uniform2fv (location count : Z) (v : list Z) : Method () :=
  if (count <? 0) then SetGLError GL_INVALID_VALUE
  else immediate cmds.Uniform2fvImmediate [location; count] v.

Definition Uniform2i (location x y : Z) : Method () := gl cmds.Uniform2i [location; x; y].

Definition Uniform2iv (location count : Z) (v : list Z) : Method () :=
  if (count <? 0) then SetGLError GL_INVALID_VALUE
  else immediate cmds.Uniform2ivImmediate [location; count] v.

Definition Uniform3f (location x y z : Z) : Method () := gl cmds.Uniform3f [location; x; y; z].

Definition Uniform3fv (location count : Z) (v : list Z) : Method () :=
  if (count <? 0) then SetGLError GL_INVALID_VALUE
  else immediate cmds.Uniform3fvImmediate [location; count] v.

Definition Uniform3i (location x y z : Z) : Method () := gl cmds.Uniform3i [location; x; y; z].

Definition Uniform3iv (location count : Z) (v : list Z) : Method () :=
  if (count <? 0) then SetGLError GL_INVALID_VALUE
  else immediate cmds.Uniform3ivImmediate [location; count] v.

Definition Uniform4f (location x y z w : Z) : Method () := gl cmds.Uniform4f [location; x; y; z; w].

Definition Uniform4fv (location count : Z) (v : list Z) : Method () :=
  if (count <? 0) then SetGLError GL_INVALID_VALUE
  else immediate cmds.Uniform4fvImmediate [location; count] v.

Definition Uniform4i (location x y z w : Z) : Method () := gl cmds.Uniform4i [location; x; y; z; w].

Definition Uniform4iv (location count : Z) (v : list Z) : Method () :=
  if (count <? 0) then SetGLError GL_INVALID_VALUE
  else immediate cmds.Uniform4ivImmediate [location; count] v.

Definition UniformMatrix2fv (location count transpose : Z) (value : list Z) : Method () :=
  if (count <? 0) then SetGLError GL_INVALID_VALUE
  else immediate cmds.UniformMatrix2fvImmediate [location; count; transpose] value.

Definition UniformMatrix3fv (location count transpose : Z) (value : list Z) : Method () :=
  if (count <? 0) then SetGLError GL_INVALID_VALUE
  else immediate cmds.UniformMatrix3fvImmediate [location; count; transpose] value.

Definition UniformMatrix4fv (location count transpose : Z) (value : list Z) : Method () :=
  if (count <? 0) then SetGLError GL_INVALID_VALUE
  else immediate cmds.UniformMatrix4fvImmediate [location; count; transpose] value.

Definition UseProgram (program : Z) : Method () := gl cmds.UseProgram [program].

Definition ValidateProgram (program : Z) : Method () := gl cmds.ValidateProgram [program].

Definition VertexAttrib1f (indx x : Z) : Method () := gl cmds.VertexAttrib1f [indx; x].

Definition VertexAttrib1fv (indx : Z) (values : list Z) : Method () :=
  immediate cmds.VertexAttrib1fvImmediate [indx] values.

Definition VertexAttrib2f (indx x y : Z) : Method () := gl cmds.VertexAttrib2f [indx; x; y].

Definition VertexAttrib2fv (indx : Z) (values : list Z) : Method () :=
  immediate cmds.VertexAttrib2fvImmediate [indx] values.

Definition VertexAttrib3f (indx x y z : Z) : Method () := gl cmds.VertexAttrib3f [indx; x; y; z].

Definition VertexAttrib3fv (indx : Z) (values : list Z) : Method () :=
  immediate cmds.VertexAttrib3fvImmediate [indx] values.

Definition VertexAttrib4f (indx x y z w : Z) : Method () := gl cmds.VertexAttrib4f [indx; x; y; z; w].

Definition VertexAttrib4fv (indx : Z) (values : list Z) : Method () :=
  immediate cmds.VertexAttrib4fvImmediate [indx] values.

Definition Viewport (x y width height : Z) : Method () :=
  if (width <? 0) || (height <? 0) then SetGLError GL_INVALID_VALUE
  else gl cmds.Viewport [x; y; width; height].

Definition BlitFramebufferEXT (srcX0 srcY0 srcX1 srcY1 dstX0 dstY0 dstX1 dstY1 mask filter : Z) : Method () :=
  gl cmds.BlitFramebufferEXT [srcX0; srcY0; srcX1; srcY1; dstX0; dstY0; dstX1; dstY1; mask; filter].

Definition RenderbufferStorageMultisampleEXT (target samples internalformat width height : Z) : Method () :=
  if (samples <? 0) || (width <? 0) || (height <? 0) then SetGLError GL_INVALID_VALUE
  else gl cmds.RenderbufferStorageMultisampleEXT [target; samples; internalformat; width; height].

End commands.
