(* ===== verification/ClientDelivery.v ===== *)
(** * What a GLES2 client sends, the service receives

    The uploads of [ClientState.v] and [ClientBuffers.v] are issued now and carried out later, at a
    time nobody knows.  [sends m] says what a method issues, and what each of its commands
    is promised to find in the transfer buffer; the rules below follow the methods. *)

From S2P Require Import Prelude CmdFormat GLES2Format GLES2Commands.
From Stdlib Require Import ZArith Lia ZifyBool Bool.
From stdpp Require Import base numbers option gmap list.
From S2P Require Import GLConstants RingBuffer Tokens Connection TransferBuffer ClientState.
Local Open Scope Z_scope.

Section sending.
Context {W : Type} `{ConnectionLaws W serve ok pending history}.
Hypothesis tokens_quiet : forall t, quiet (serve := serve) (SetToken t).
Notation Method := (Method W).
Notation quiet := (quiet (serve := serve)).
Notation advanced := (advanced serve ok pending history).
Notation Calls := (list (ClientCommand * Promise)).

(** A client whose ring has [n] bytes, with [calls] issued since the history was [h0]. *)
Definition issued (n : Z) (h0 : History) (calls : Calls) (s : GLES2Implementation * W) : Prop :=
  sent kStartingOffset n h0 calls (transfer_buffer_ s.1) s.2 (serve := serve) (ok := ok) (pending := pending) (history := history).

(** Any client at work. *)
Definition at_work (n : Z) (s : GLES2Implementation * W) : Prop := exists h0 calls, issued n h0 calls s.

(** A client at work has just come to life, or has gone on. *)
Lemma new_at_work n g w : 0 < n < 2 ^ 31 -> transfer_buffer_ g = RingBuffer.new kStartingOffset n ->
  ok w -> pending w = [] -> kStartingOffset + n <= zlen (shared w) -> at_work n (g, w).
Proof.
  intros Hn Hr Hw Hp Hm. exists (history w), []. split; cbn [fst snd]; rewrite ?Hr.
  - done.
  - split; [|done]. apply new_wf; unfold kStartingOffset, kMaxSizeOfSimpleResult; lia.
  - constructor.
  - exists [], [], []. rewrite Hp. split_and!; [done|done|by rewrite app_nil_r|constructor|done].
Qed.

(** All but the transfer buffer is as it was. *)
Definition unchanged (g g' : GLES2Implementation) : Prop := g' = with_transfer_buffer (transfer_buffer_ g') g.

(** [m] returns some [a], having issued some [new] commands. *)
Definition sends {A} (n : Z) (m : Method A) (g : GLES2Implementation) (what : A -> Calls -> Prop) : Prop :=
  forall h0 calls g0 w, unchanged g g0 -> issued n h0 calls (g0, w) ->
    exists a new g' w', m (g0, w) = Done (a, (g', w')) /\ issued n h0 (calls ++ new) (g', w') /\ unchanged g g' /\ what a new.

Lemma unchanged_refl g : unchanged g g.
Proof. by destruct g. Qed.

Lemma unchanged_again r g g' : unchanged g g' -> unchanged g (with_transfer_buffer r g').
Proof. by intros ->. Qed.

Lemma sends_weaken {A} n (m : Method A) g what (what' : A -> Calls -> Prop) :
  (forall a new, what a new -> what' a new) -> sends n m g what -> sends n m g what'.
Proof.
  intros Hw Hm h0 calls g0 w Hu Hi. destruct (Hm h0 calls g0 w Hu Hi) as (a & new & g' & w' & E1 & E2 & E3 & E4).
  exists a, new, g', w'. eauto.
Qed.

Lemma sends_ret {A} n (a : A) g : sends n (mret a) g (fun a' new => a' = a /\ new = []).
Proof. intros h0 calls g0 w Hu Hi. exists a, [], g0, w. by rewrite app_nil_r. Qed.

Lemma sends_bind {A B} n (m : Method A) (k : A -> Method B) g (what1 : A -> Calls -> Prop) (what : B -> Calls -> Prop) :
  sends n m g what1 ->
  (forall a new, what1 a new -> sends n (k a) g (fun b new' => what b (new ++ new'))) ->
  sends n (m ≫= k) g what.
Proof.
  intros Hm Hk h0 calls g0 w Hu Hi. destruct (Hm h0 calls g0 w Hu Hi) as (a & new & g1 & w1 & E1 & Hi1 & Hu1 & Ha).
  destruct (Hk a new Ha h0 (calls ++ new) g1 w1 Hu1 Hi1) as (b & new' & g2 & w2 & E2 & Hi2 & Hu2 & Hb).
  exists b, (new ++ new'), g2, w2. rewrite app_assoc. split; [|done]. unfold mbind, method_bind. by rewrite E1.
Qed.

Lemma sends_get {A} n (f : GLES2Implementation -> A) g :
  (forall r, f (with_transfer_buffer r g) = f g) -> sends n (get f) g (fun a new => a = f g /\ new = []).
Proof.
  intros Hf h0 calls g0 w Hu Hi. exists (f g), [], g0, w. rewrite app_nil_r. split_and!; try done.
  unfold get. cbn. by rewrite Hu, Hf.
Qed.

Lemma sends_the {A} n (a : A) g : sends n (the (Some a)) g (fun a' new => a' = a /\ new = []).
Proof. intros h0 calls g0 w Hu Hi. exists a, [], g0, w. by rewrite app_nil_r. Qed.

Lemma sends_int n x g : is_i32 x -> sends n (int x) g (fun y new => y = x /\ new = []).
Proof. intros Hx. unfold int. destruct (decide _) as [|Hn]; [|by destruct Hn]. apply sends_ret. Qed.

Lemma sends_max_transfer n g : sends n max_transfer g (fun m new => m = n /\ new = []).
Proof.
  intros h0 calls g0 w Hu Hi. exists n, [], g0, w. rewrite app_nil_r. split_and!; try done.
  destruct Hi as [_ ([[Hs _] _ _ _ _] & _) _ _]. unfold max_transfer, get, GetLargestFreeOrPendingSize. cbn in *. by rewrite Hs.
Qed.

(** A command that leaves the transfer buffer alone. *)
Lemma sends_helper n c g : quiet c -> token_of c = None -> sends n (helper c) g (fun _ new => new = [(c, None)]).
Proof.
  intros Hq Hc h0 calls g0 w Hu Hi. destruct (issue_ok c w) as (w' & E & Ha); [apply Hi|done|].
  exists tt, [(c, None)], g0, w'. split_and!; [|by eapply sent_advanced|done|done].
  unfold helper, link. cbn. by rewrite E.
Qed.

Lemma sends_upload n bytes command g : zlen bytes <= n -> n mod 4 = 0 ->
  (forall o, quiet (command o) /\ token_of (command o) = None) ->
  sends n (upload bytes command) g (fun _ new => exists o t, new = [(command o, Some (o, bytes)); (SetToken t, None)] /\
    kStartingOffset <= o /\ o + zlen bytes <= kStartingOffset + n).
Proof.
  intros Hb Hn Hc h0 calls g0 w Hu Hi.
  destruct (put_ok tokens_quiet _ n h0 calls bytes command (transfer_buffer_ g0) w Hi) as (o & t & r & w' & E & Hs & Ho); [done..|].
  exists tt, [(command o, Some (o, bytes)); (SetToken t, None)], (with_transfer_buffer r g0), w'.
  split_and!; [|exact Hs|by apply unchanged_again|by exists o, t]. unfold upload. cbn. by rewrite E.
Qed.

(** ** Answers

    Nothing waits: what was issued since then is nothing. *)
Lemma sent_anew base n h0 calls r w w' : sent base n h0 calls r w (serve := serve) (ok := ok) (pending := pending) (history := history) ->
  ok w' -> pending w' = [] -> zlen (shared w') = zlen (shared w) ->
  sent base n (history w') [] r w' (serve := serve) (ok := ok) (pending := pending) (history := history).
Proof.
  intros [_ (Hwf & Hb & Hm) Hr _] Hok Hp Hl. split; [done|by rewrite Hl|done|].
  exists [], [], []. rewrite Hp. cbn. rewrite app_nil_r. by split_and!.
Qed.

(** A question: the command finds the result as it was set, and is the last that is done. *)
Lemma question_ok n h0 calls g w initial c : issued n h0 calls (g, w) -> token_of c = None -> zlen initial <= 16 ->
  (forall h m, zlen (serve h c m) = zlen m) ->
  exists w' dn m, ask initial c (g, w) = Done ((), (g, w')) /\ pending w' = [] /\ history w' = (h0 ++ dn) ++ [(c, m)] /\
    issued n (history w') [] (g, w') /\ dn.*1 = calls.*1 /\ Forall2 seen calls.*2 dn /\
    zwrite (shared w) 0 (words_to_bytes (u32 <$> initial)) = Some m /\ shared w' = serve (h0 ++ dn) c m.
Proof.
  intros Hi Hc Hl Hserve. pose proof Hi as [Hw (Hwf & Hb & Hmem) Hrel (ps & ps' & dn0 & E1 & E2 & E3 & Hs & Hk)]. cbn in *.
  assert (zlen (words_to_bytes (u32 <$> initial)) <= 64) as Hr by (rewrite zlen_words_to_bytes; unfold zlen in *; rewrite length_fmap; lia).
  pose proof (wf_size _ _ Hwf) as [_ Hn].
  destruct (zwrite_Some (shared w) (words_to_bytes (u32 <$> initial)) 0) as (m & Em & Hlm); [lia|unfold kStartingOffset, kMaxSizeOfSimpleResult in Hmem; lia|].
  destruct (set_shared_ok m w Hw) as (Hw1 & Es1 & Ep1 & Eh1).
  destruct (issue_Finish_ok kStartingOffset (blocks_ (transfer_buffer_ g)) h0 calls (set_shared m w) c Hw1 Hc)
    as (w1 & w2 & dn & F1 & F2 & Hok2 & Hp2 & F3 & F4 & F5 & F6).
  { exists ps, ps', dn0. rewrite Ep1, Eh1, Es1. split_and!; try done. eapply kept_mono; [| |exact Hk]; [done|].
    intros b o k bytes Hin _ Ho _ Hread. rewrite <- Hread. apply (zread_unwritten _ _ _ _ _ _ Em).
    destruct (wf_laid _ _ Hwf) as (e & Hlaid & _). pose proof (wf_in_use _ _ Hwf).
    destruct (laid_block _ _ _ _ _ Hlaid Hin) as (v & Hv1 & Hv2 & Hv3 & Hv4 & _). rewrite Hv4 in Ho. revert Ho. case_match; zbool; intros Ho;
      unfold kStartingOffset, kMaxSizeOfSimpleResult in Ho; lia. }
  rewrite Es1 in *. exists w2, dn, m. split_and!; try done.
  - unfold ask, set_result, helper, WaitForCmd, link. clear - Em F1 F2. set (ws := words_to_bytes _) in *. clearbody ws.
    unfold memcpy_to, result_shm_offset, mbind, method_bind. cbn [fst snd]. rewrite Em. cbn [obind of_option fst snd].
    rewrite F1. cbn [obind fst snd]. by rewrite F2.
  - apply (sent_anew _ _ _ _ _ _ w2 Hi); [done|done|]. by rewrite F6, Hserve.
Qed.

(** A download. *)
Lemma fetch_ok n h0 calls g w size command : issued n h0 calls (g, w) -> 0 <= size <= n -> n mod 4 = 0 ->
  (forall o, token_of (command o) = None /\ forall h m, zlen (serve h (command o) m) = zlen m) ->
  exists o t bytes w' dn m, fetch size command (g, w) = Done (bytes, (with_transfer_buffer (transfer_buffer_ w'.1) g, w'.2)) /\
    kStartingOffset <= o /\ o + size <= kStartingOffset + n /\ kStartingOffset + n <= zlen m /\
    issued n ((h0 ++ dn) ++ [(command o, m)]) [(SetToken t, None)] w' /\ dn.*1 = calls.*1 /\ Forall2 seen calls.*2 dn /\
    zread (serve (h0 ++ dn) (command o) m) o size = Some bytes.
Proof.
  intros Hi Hsize Hn4 Hc. pose proof Hi as [Hw (Hwf & Hb & Hmem) Hrel _]. cbn in *.
  pose proof (wf_size _ _ Hwf) as [_ Hn0]. destruct (RoundToAlignment_le size n) as [Hr1 Hr2]; [lia..|].
  destruct (Alloc_room (TL := connection_tokens w) (fun _ => True) n (RoundToAlignment (u32 size)) (transfer_buffer_ g) w)
    as (popped & rest & pad & o & r1 & w1 & Ea & Eb & Ht & Eb1 & Hpad & Ho1 & Ho2 & Hdis & Hwf1 & Hadv & Hbase1);
    [done|by apply nothing_advanced|done|lia|]. rewrite Hb in *.
  assert (size <= request (RoundToAlignment (u32 size)) /\ 0 < request (RoundToAlignment (u32 size))) as [Hreq Hsz]
    by (unfold request; case_match; zbool; lia).
  set (rs := request _) in *.
  assert (sent kStartingOffset n h0 calls (transfer_buffer_ g) w1 (serve := serve) (ok := ok) (pending := pending) (history := history)) as Hs1.
  { rewrite <- (app_nil_r calls). by eapply sent_advanced. }
  pose proof Hs1 as [Hw1 (_ & _ & Hmem1) _ _].
  destruct (zwrite_Some (shared w1) [] o) as (m & Em & Hl); [unfold kStartingOffset, kMaxSizeOfSimpleResult in *; lia|
    unfold zlen at 1; cbn; lia|].
  assert (m = shared w1) as ->.
  { apply zwrite_inv in Em as (_ & _ & ->). cbn. by rewrite Nat.add_0_r, take_drop. }
  destruct (Hc o) as [Hco Hserve].
  destruct (blocks_kept _ n h0 calls _ w1 popped rest pad o rs [] (shared w1) 0 Hs1 Eb Ht) as (ps & ps' & dn0 & G); [done|unfold zlen; cbn; lia|done|].
  destruct (issue_Finish_ok _ _ h0 calls w1 (command o) Hw1 Hco (ex_intro _ ps (ex_intro _ ps' (ex_intro _ dn0 G))))
    as (w2 & w3 & dn & F1 & F2 & Hok3 & Hp3 & F3 & F4 & F5 & F6).
  destruct (zread_Some (shared w3) o size) as (bytes & Eread & _); [unfold kStartingOffset, kMaxSizeOfSimpleResult in *; lia|lia|rewrite F6, Hserve; lia|].
  destruct (InsertToken_ok w3 Hok3) as (t & w4 & E4 & Ht4 & Ha4).
  destruct (FreePendingToken_last n r1 (rest ++ pad) o rs t) as (Hwf' & Hbase' & Eb'); [done| |rewrite Hbase1; lia|].
  { by rewrite Hbase1, Eb1, <- app_assoc. }
  exists o, t, bytes, (with_transfer_buffer (RingBuffer.FreePendingToken o t r1) g, w4), dn, (shared w1).
  split_and!; try done; try lia.
  - unfold fetch, helper, WaitForCmd, InsertToken, FreePendingToken, read_shared, link, ask_link, modify, ClientState.Alloc,
      TransferBuffer.Alloc, memcpy_from, mbind, method_bind.
    cbn [fst snd]. rewrite Ea. cbn [obind fst snd]. rewrite F1. cbn [obind fst snd]. rewrite F2. cbn [obind fst snd].
    rewrite Eread. cbn [obind of_option fst snd]. by rewrite E4.
  - rewrite <- F5. apply (sent_advanced _ _ (history w3) [] [(SetToken t, None)] (RingBuffer.FreePendingToken o t r1) w3 w4).
    + split; [done| | |].
      * split; [exact Hwf'|]. split; [exact (eq_trans Hbase' Hbase1)|]. rewrite F6, Hserve. exact Hmem1.
      * rewrite Eb', <- app_assoc. unfold released in *. rewrite Eb in Hrel. apply Forall_app in Hrel as [_ Hrel].
        apply Forall_app. split; [done|]. apply Forall_app. split; [|by repeat constructor].
        eapply Forall_impl; [exact Hpad|]. intros b Hpb. by rewrite Hpb.
      * exists [], [], []. rewrite Hp3. cbn. rewrite app_nil_r. by split_and!.
    + exact Ha4.
    + exact (conj (tokens_quiet t) (conj I I)).
  - by rewrite <- F6.
Qed.

(** ** Data in parts *)

(** The commands of an upload in parts of at most [n] bytes, in order, each part with its
    offset and its place in the transfer buffer; [stop] is the offset after them. *)
Inductive parts (next : Z -> Z) (command : Z -> Z -> Z -> ClientCommand) (n : Z) (stop : Z) : Z -> list Z -> Calls -> Prop :=
| parts_nil : parts next command n stop stop [] []
| parts_cons offset part rest new o t :
    0 < zlen part <= n -> kStartingOffset <= o -> o + zlen part <= kStartingOffset + n ->
    parts next command n stop (next (offset + zlen part)) rest new ->
    parts next command n stop offset (part ++ rest)
      ((command offset (zlen part) o, Some (o, part)) :: (SetToken t, None) :: new).

Lemma sends_parts n next command g : 0 < n -> n mod 4 = 0 ->
  (forall offset size o, quiet (command offset size o) /\ token_of (command offset size o) = None) ->
  forall fuel offset data, (length data <= fuel)%nat ->
  sends n (put_parts fuel n next command offset data) g (fun stop new => parts next command n stop offset data new).
Proof.
  intros Hn Hn4 Hc. induction fuel as [|fuel IH]; intros offset [|b data] Hf; try (cbn in Hf; lia).
  1, 2: eapply sends_weaken; [|apply sends_ret]; intros a new [-> ->]; constructor.
  cbn [put_parts]. set (d := b :: data) in *. set (part_size := Z.min (zlen d) n).
  assert (0 < zlen d) as Hd by (unfold d; rewrite zlen_cons; pose proof (zlen_nonneg data); lia).
  assert (zlen (take (Z.to_nat part_size) d) = part_size) as Hp by (unfold zlen in *; rewrite length_take; lia).
  eapply sends_bind; [apply sends_upload; [lia|done|intros o; apply Hc]|].
  intros [] new (o & t & -> & Ho1 & Ho2). rewrite Hp in Ho2. eapply sends_weaken; [|apply IH; rewrite length_drop; unfold zlen in *; lia].
  intros stop new Hnew. pose proof (parts_cons next command n stop offset (take (Z.to_nat part_size) d)
    (drop (Z.to_nat part_size) d) new o t) as Hc'. rewrite Hp, take_drop in Hc'. by apply Hc'; [lia|..].
Qed.

(** ** When all is done *)

Lemma issued_history n h0 calls new s s' : issued n h0 calls s -> issued n h0 (calls ++ new) s' -> pending s'.2 = [] ->
  exists before dn, history s'.2 = before ++ dn /\ before.*1 = (history s.2).*1 ++ pending s.2 /\
    dn.*1 = new.*1 /\ Forall2 seen new.*2 dn.
Proof.
  intros [_ _ _ (ps & ps' & dn & E1 & E2 & E3 & Hs & Hk)] [_ _ _ (qs & qs' & dn' & F1 & F2 & F3 & Hs' & Hk')] Hp.
  rewrite Hp in *. cbn in Hk'. destruct qs'; [|done]. rewrite app_nil_r in F1, F2. rewrite <- F1 in Hs'.
  rewrite fmap_app in Hs'. apply Forall2_app_inv_l in Hs' as (d1 & d2 & Hs1 & Hs2 & ->).
  exists (h0 ++ d1), d2. rewrite fmap_app in F2. rewrite (fmap_app fst d1 d2) in F2.
  apply app_inj_1 in F2 as [F4 F5].
  - split_and!; [by rewrite F3, app_assoc| |done|done]. by rewrite E3, !fmap_app, <- F4, E2, app_assoc.
  - rewrite !length_fmap. apply Forall2_length in Hs1. by rewrite length_fmap in Hs1.
Qed.

Lemma issued_Finish n h0 calls g w : issued n h0 calls (g, w) ->
  exists w', Connection.Finish w = Done w' /\ issued n h0 calls (g, w') /\ pending w' = [].
Proof.
  intros Hi. destruct (Finish_ok w) as (w' & E & Ha & Hp); [apply Hi|]. exists w'. split_and!; [done| |done].
  rewrite <- (app_nil_r calls). by apply (sent_advanced _ _ _ _ [] _ w w').
Qed.

(** All that a method sends arrives: after it the client waits, and the history has become longer
    by what waited before, and by the commands of the method, each of which found what it was
    promised. *)
Lemma sends_arrives {A} n (m : Method A) g w what : sends n m g what -> at_work n (g, w) ->
  exists a new g' w1 w2 before dn, m (g, w) = Done (a, (g', w1)) /\ Connection.Finish w1 = Done w2 /\
    at_work n (g', w2) /\ unchanged g g' /\ what a new /\ pending w2 = [] /\
    history w2 = before ++ dn /\ before.*1 = (history w).*1 ++ pending w /\ dn.*1 = new.*1 /\ Forall2 seen new.*2 dn.
Proof.
  intros Hm (h0 & calls & Hi). destruct (Hm h0 calls g w (unchanged_refl g) Hi) as (a & new & g' & w1 & E1 & Hi1 & Hu & Ha).
  destruct (issued_Finish n h0 (calls ++ new) g' w1 Hi1) as (w2 & E2 & Hi2 & Hp).
  destruct (issued_history n h0 calls new (g, w) (g', w2) Hi Hi2 Hp) as (before & dn & F1 & F2 & F3 & F4).
  exists a, new, g', w1, w2, before, dn. split_and!; try done. by exists h0, (calls ++ new).
Qed.

End sending.
