(* ===== verification/ClientBuckets.v ===== *)
(** * Buckets there and back

    A client sets the contents of a bucket and asks for them, [SetBucketContents] and
    [GetBucketContents] of [gpu/command_buffer/client/gles2_implementation.cc], of a service that
    runs the handlers of [gpu/command_buffer/service/common_decoder.cc]. *)

From S2P Require Import Prelude CmdFormat CommandBufferService CommonDecoder GLES2Format GLES2Commands.
From Stdlib Require Import ZArith Lia ZifyBool Bool.
From stdpp Require Import base numbers option gmap list.
From S2P Require Import GLConstants RingBuffer Tokens Connection TransferBuffer ClientState ClientDelivery.
Local Open Scope Z_scope.

(** ** The service *)

(** An engine whose only shared memory is the transfer buffer: its id and its size. *)
#[local] Instance transfer_engine : CommandBufferEngine (Z * Z) := {|
  GetSharedMemoryBuffer := fun e id =>
    if id =? e.1 then {| ptr := Some 0; CommandBufferService.b_size := e.2; shared_memory := Some 0 |} else null_buffer;
  set_token := fun _ e => e;
  engine_SetGetOffset := fun _ e => (false, e);
  GetGetOffset := fun _ => 0;
|}.

Section service.
Context `{Platform}.
Variable id : Z.

(** What the commands of OpenGL ES make of the transfer buffer. *)
Variable other : History -> Struct -> list Z -> list Z -> list Z -> list Z.

(** The decoder with these buckets, the transfer buffer being [m]. *)
Definition decoder_at (buckets : gmap Z Bucket) (m : list Z) : Decoder (Z * Z) :=
  mkDecoder (id, zlen m) buckets [] {[0 := m]}.

Definition handle (c : ClientCommand) (d : Decoder (Z * Z)) : outcome (Error * Decoder (Z * Z)) :=
  match c with
  | Gl _ _ _ => Done (kNoError, d)
  | SetBucketSize bucket_id size => HandleSetBucketSize (mkSetBucketSize bucket_id size) d
  | SetBucketData bucket_id offset size shm_id shm_offset =>
      HandleSetBucketData (mkSetBucketData bucket_id offset size shm_id shm_offset) d
  | GetBucketSize bucket_id shm_id shm_offset => HandleGetBucketSize (mkGetBucketSize bucket_id shm_id shm_offset) d
  | GetBucketData bucket_id offset size shm_id shm_offset =>
      HandleGetBucketData (mkGetBucketData bucket_id offset size shm_id shm_offset) d
  | SetToken token => HandleSetToken (mkSetToken (u32 token)) d
  end.

(** The buckets after a command, [None] when it is an error. *)
Definition bucket_step (buckets : option (gmap Z Bucket)) (x : ClientCommand * list Z) : option (gmap Z Bucket) :=
  buckets ← buckets;
  match handle x.1 (decoder_at buckets x.2) with
  | Done (kNoError, d) => Some (buckets_ d)
  | _ => None
  end.

Definition buckets_after (h : History) (buckets : gmap Z Bucket) : option (gmap Z Bucket) :=
  foldl bucket_step (Some buckets) h.

Definition common_serve (h : History) (c : ClientCommand) (m : list Z) : list Z :=
  match c with
  | Gl s args data => other h s args data m
  | _ =>
      match buckets_after h ∅ with
      | Some buckets =>
          match handle c (decoder_at buckets m) with
          | Done (_, d) => default m (heap d !! 0)
          | _ => m
          end
      | None => m
      end
  end.

Lemma buckets_after_app h h' b : buckets_after (h ++ h') b = foldl bucket_step (buckets_after h b) h'.
Proof. apply foldl_app. Qed.

Hypothesis id_int : is_i32 id.

(** Where the transfer buffer can be read and written. *)
Lemma decoder_address bs m offset size : 0 <= offset -> 0 <= size -> offset + size <= zlen m -> offset + size < 2 ^ 32 ->
  GetAddressAndCheckSize id offset size (decoder_at bs m) = Some (0, offset).
Proof.
  intros Ho Hs Hm Hb. unfold GetAddressAndCheckSize, decoder_at. cbn. rewrite i32_id, Z.eqb_refl by done. cbn.
  rewrite u32_id by (unfold is_u32; lia). by bfalse ((offset + size >? zlen m) || (offset + size <? offset)).
Qed.

Lemma decoder_read bs m offset n : mem_read (decoder_at bs m) (0, offset) n = zread m offset n.
Proof. unfold mem_read, decoder_at. cbn. by rewrite lookup_singleton_eq. Qed.

Lemma decoder_write bs m offset src m' : zwrite m offset src = Some m' ->
  mem_write (decoder_at bs m) (0, offset) src = Some (mkDecoder (id, zlen m) bs [] {[0 := m']}).
Proof. intros E. unfold mem_write, decoder_at. cbn. rewrite lookup_singleton_eq. cbn. rewrite E. cbn. by rewrite insert_singleton_eq. Qed.

(** What each command does. *)
Lemma SetToken_step bs t m : bucket_step (Some bs) (SetToken t, m) = Some bs.
Proof. done. Qed.

Lemma SetBucketSize_step bs bucket_id size m :
  bucket_step (Some bs) (SetBucketSize bucket_id size, m) =
    Some (<[bucket_id := SetSize size (default new_Bucket (bs !! bucket_id))]> bs).
Proof.
  unfold bucket_step, handle, HandleSetBucketSize, CreateBucket, GetBucket. cbn.
  destruct (bs !! bucket_id); cbn; [done|]. by rewrite insert_insert_eq.
Qed.

Lemma SetBucketData_step bs bucket_id m offset part o b pre post :
  zread m o (zlen part) = Some part -> o + zlen part < 2 ^ 32 ->
  bs !! bucket_id = Some b -> bucket_ok b -> data_ b = Some (pre ++ post) -> offset = zlen pre -> zlen part <= zlen post ->
  exists b', bucket_step (Some bs) (SetBucketData bucket_id offset (zlen part) id o, m) = Some (<[bucket_id := b']> bs) /\
    bucket_ok b' /\ CommonDecoder.size_ b' = CommonDecoder.size_ b /\
    data_ b' = Some ((pre ++ part) ++ drop (length part) post).
Proof.
  intros Hr Ho Hb Hok Hd -> Hl. pose proof (zread_inv _ _ _ _ Hr) as (Ho1 & _ & Hr1 & _). pose proof (zlen_nonneg part).
  pose proof Hok as [Hsz Hdat]. rewrite Hd, zlen_app in Hdat. unfold is_u32 in Hsz. pose proof (zlen_nonneg pre).
  destruct (SetData_spec (zread m o) (zlen pre) (zlen part) b) as [[? _]|(_ & b' & E & Hok' & Hsz' & Hd')];
    [unfold is_u32; lia..|done|by exists part|lia|].
  rewrite Hd, Hr in Hd'. destruct Hd' as (d' & Ed & Hw). exists b'. split_and!; [|done|done|].
  - unfold bucket_step, handle, HandleSetBucketData, GetBucket. cbn. rewrite decoder_address by lia. rewrite Hb.
    assert (SetData (mem_read (decoder_at bs m) (0, o)) (zlen pre) (zlen part) b = Done (true, b')) as ->; [|done].
    rewrite <- E. unfold SetData. by rewrite decoder_read.
  - apply zwrite_inv in Hw as (_ & _ & ->). rewrite Ed. f_equal. unfold zlen.
    rewrite <- app_assoc, Nat2Z.id, take_app_length, drop_app_ge by lia. do 3 f_equal. lia.
Qed.

(** Reading leaves the buckets as they are, and [common_serve] does what the handlers say. *)
Lemma GetBucketSize_serve h bs bucket_id b m m0 :
  buckets_after h ∅ = Some bs -> bs !! bucket_id = Some b -> is_u32 (CommonDecoder.size_ b) ->
  zwrite m0 0 (le_bytes 4 0) = Some m ->
  exists m', common_serve h (GetBucketSize bucket_id id 0) m = m' /\
    zread m' 0 4 = Some (le_bytes 4 (CommonDecoder.size_ b)) /\
    bucket_step (Some bs) (GetBucketSize bucket_id id 0, m) = Some bs.
Proof.
  intros Hh Hb Hs Hw. pose proof (zlen_zwrite _ _ _ _ Hw) as Hl. pose proof (zwrite_inv _ _ _ _ Hw) as (_ & Hr & _).
  change (zlen (le_bytes 4 0)) with 4 in Hr. pose proof (zread_written _ _ _ _ Hw) as Hread. change (zlen (le_bytes 4 0)) with 4 in Hread.
  destruct (zwrite_Some m (le_bytes 4 (u32 (CommonDecoder.size_ b))) 0) as (m' & Em & _); [lia|change (zlen (le_bytes 4 (u32 (CommonDecoder.size_ b)))) with 4; lia|].
  assert (handle (GetBucketSize bucket_id id 0) (decoder_at bs m) = Done (kNoError, mkDecoder (id, zlen m) bs [] {[0 := m']})) as E.
  { unfold handle, HandleGetBucketSize, GetBucket. cbn -[decoder_at le_bytes]. rewrite decoder_address by lia.
    rewrite decoder_read, Hread. change (buckets_ (decoder_at bs m)) with bs. rewrite Hb.
    rewrite (decoder_write _ _ _ _ _ Em). reflexivity. }
  exists m'. split_and!.
  - unfold common_serve. rewrite Hh, E. cbn. by rewrite lookup_singleton_eq.
  - apply zread_written in Em. by rewrite u32_id in Em by done.
  - unfold bucket_step, fst, snd. cbn [mbind option_bind]. by rewrite E.
Qed.

Lemma GetBucketData_serve h bs bucket_id b m data offset size o :
  buckets_after h ∅ = Some bs -> bs !! bucket_id = Some b -> bucket_ok b -> data_ b = Some data ->
  0 <= offset -> 0 <= size -> offset + size <= zlen data -> 0 <= o -> o + size <= zlen m -> o + size < 2 ^ 32 ->
  exists bytes m', zread data offset size = Some bytes /\ common_serve h (GetBucketData bucket_id offset size id o) m = m' /\
    zread m' o size = Some bytes /\ bucket_step (Some bs) (GetBucketData bucket_id offset size id o, m) = Some bs.
Proof.
  intros Hh Hb Hok Hd Ho Hs Hl Ho' Hm Hm'. pose proof Hok as [Hsz Hdat]. rewrite Hd in Hdat. unfold is_u32 in Hsz.
  destruct (zread_Some data offset size) as (bytes & Er & Hz); [lia..|].
  destruct (zwrite_Some m bytes o) as (m' & Em & _); [lia..|].
  assert (handle (GetBucketData bucket_id offset size id o) (decoder_at bs m) = Done (kNoError, mkDecoder (id, zlen m) bs [] {[0 := m']})) as E.
  { unfold handle, HandleGetBucketData, GetBucket. cbn -[decoder_at]. rewrite decoder_address by lia.
    change (buckets_ (decoder_at bs m)) with bs. rewrite Hb, GetData_spec by (unfold is_u32; lia || done).
    rewrite Hd. btrue (offset + size <=? CommonDecoder.size_ b). rewrite Er. cbn [of_option obind].
    rewrite (decoder_write _ _ _ _ _ Em). reflexivity. }
  exists bytes, m'. split_and!; [done| | |].
  - unfold common_serve. rewrite Hh, E. cbn. by rewrite lookup_singleton_eq.
  - apply zread_written in Em. by rewrite Hz in Em.
  - unfold bucket_step, fst, snd. cbn [mbind option_bind]. by rewrite E.
Qed.

Lemma decoder_written bs m a src d : mem_write (decoder_at bs m) a src = Some d ->
  exists m', heap d = {[0 := m']} /\ zlen m' = zlen m.
Proof.
  unfold mem_write, decoder_at. cbn [heap]. intros E. apply bind_Some in E as (old & E1 & E).
  apply lookup_singleton_Some in E1 as [E1 <-]. apply bind_Some in E as (new & E2 & [= <-]).
  exists new. rewrite <- E1. cbn. rewrite insert_singleton_eq. split; [done|]. by apply zlen_zwrite in E2.
Qed.

Definition answers (c : ClientCommand) : bool :=
  match c with GetBucketSize _ _ _ | GetBucketData _ _ _ _ _ => true | _ => false end.

(** The handlers change the transfer buffer only where they answer, and never its size. *)
Lemma handle_memory c bs m e d : handle c (decoder_at bs m) = Done (e, d) ->
  exists m', heap d = {[0 := m']} /\ zlen m' = zlen m /\ (answers c = false -> m' = m).
Proof.
  assert (forall e', Done (e', decoder_at bs m) = Done (e, d) -> exists m', heap d = {[0 := m']} /\ zlen m' = zlen m /\
    (answers c = false -> m' = m)) as Hsame by (intros e' [= <- <-]; by exists m).
  destruct c as [s args data|bucket_id size|bucket_id offset size shm o|bucket_id shm o|bucket_id offset size shm o|t]; unfold handle.
  - apply Hsame.
  - unfold HandleSetBucketSize, CreateBucket, GetBucket. destruct (buckets_ _ !! _); intros [= <- <-]; by exists m.
  - unfold HandleSetBucketData, GetBucket. cbn [SetBucketData_shared_memory_id SetBucketData_shared_memory_offset
      SetBucketData_size SetBucketData_bucket_id SetBucketData_offset].
    destruct (GetAddressAndCheckSize _ _ _ _); [|apply Hsame]. destruct (buckets_ _ !! _); [|apply Hsame].
    destruct (SetData _ _ _ _) as [[[] b']| | ]; try done; cbn [obind negb]; [|apply Hsame]. intros [= <- <-]. by exists m.
  - unfold HandleGetBucketSize, GetBucket. cbn [GetBucketSize_shared_memory_id GetBucketSize_shared_memory_offset GetBucketSize_bucket_id].
    destruct (GetAddressAndCheckSize _ _ _ _); [|apply Hsame]. destruct (mem_read _ _ _); [|done]. cbn [of_option obind].
    destruct (negb _); [apply Hsame|]. destruct (buckets_ _ !! _); [|apply Hsame].
    destruct (mem_write _ _ _) eqn:Em; [|done]. cbn [of_option obind]. intros [= <- <-].
    apply decoder_written in Em as (m' & ? & ?). by exists m'.
  - unfold HandleGetBucketData, GetBucket. cbn [GetBucketData_shared_memory_id GetBucketData_shared_memory_offset
      GetBucketData_size GetBucketData_bucket_id GetBucketData_offset].
    destruct (GetAddressAndCheckSize _ _ _ _); [|apply Hsame]. destruct (buckets_ _ !! _) as [b|]; [|apply Hsame].
    destruct (GetData _ _ _); [|apply Hsame]. destruct (data_ b); [|apply Hsame]. destruct (zread _ _ _); [|done].
    cbn [of_option obind]. destruct (mem_write _ _ _) eqn:Em; [|done]. cbn [of_option obind]. intros [= <- <-].
    apply decoder_written in Em as (m' & ? & ?). by exists m'.
  - intros [= <- <-]. by exists m.
Qed.

Definition is_gl (c : ClientCommand) : bool := match c with Gl _ _ _ => true | _ => false end.

Lemma common_serve_memory c h m : is_gl c = false ->
  zlen (common_serve h c m) = zlen m /\ (answers c = false -> common_serve h c m = m).
Proof.
  intros Hc. unfold common_serve. destruct (buckets_after h ∅) as [bs|]; [|by destruct c].
  destruct (handle c (decoder_at bs m)) as [[e d]| | ] eqn:E; [|by destruct c..].
  apply handle_memory in E as (m' & -> & Hl & Hm). rewrite lookup_singleton_eq. by destruct c.
Qed.

Lemma common_serve_quiet c : is_gl c = false -> answers c = false -> quiet (serve := common_serve) c.
Proof. intros Hc Ha h m. by apply common_serve_memory. Qed.

End service.

(** ** The client *)

Section client.
Context `{Platform}.
Variable cfg : ClientConfig.
Variable other : History -> Struct -> list Z -> list Z -> list Z -> list Z.
Notation id := (transfer_buffer_id_ cfg).
Notation serve := (common_serve id other).
Context {W : Type} `{Connection W} {ok : W -> Prop} {pending : W -> list ClientCommand} {history : W -> History}.
Context {laws : ConnectionLaws W serve ok pending history}.
Hypothesis id_int : is_i32 id.
Notation issued := (issued (serve := serve) (ok := ok) (pending := pending) (history := history)).
Notation at_work := (at_work (serve := serve) (ok := ok) (pending := pending) (history := history)).
Notation sends := (sends (serve := serve) (ok := ok) (pending := pending) (history := history)).

Lemma quiet_tokens t : quiet (serve := serve) (SetToken t).
Proof. by apply common_serve_quiet. Qed.

(** The parts of the data, one after the other, fill the bucket. *)
Lemma parts_bucket n stop bucket_id offset data new dn bs b pre post : n < 2 ^ 31 ->
  parts u32 (set_bucket_part cfg bucket_id) n stop offset data new -> dn.*1 = new.*1 -> Forall2 seen new.*2 dn ->
  bs !! bucket_id = Some b -> bucket_ok b -> data_ b = Some (pre ++ post) -> offset = zlen pre -> zlen post = zlen data ->
  exists bs' b', foldl (bucket_step id) (Some bs) dn = Some bs' /\ bs' !! bucket_id = Some b' /\ bucket_ok b' /\
    data_ b' = Some (pre ++ data).
Proof.
  intros Hn Hp. revert dn bs b pre post. induction Hp as [|offset part rest new o t Hl Ho1 Ho2 Hp IH]; intros dn bs b pre post Ed Hs Hb Hok Hd -> Hlen.
  - apply fmap_nil_inv in Ed as ->. exists bs, b. destruct post as [|x post]; [done|].
    rewrite zlen_cons in Hlen. pose proof (zlen_nonneg post). change (zlen (A := Z) []) with 0 in Hlen. lia.
  - destruct dn as [|[c1 m1] [|[c2 m2] dn]]; try done. cbn in Ed. injection Ed as -> -> E3.
    inversion Hs as [|? ? ? ? Hs1 Hs']; subst. inversion Hs' as [|? ? ? ? Hs0 Hs2]; subst. cbn in Hs1.
    rewrite zlen_app in Hlen. pose proof (zlen_nonneg rest).
    destruct (SetBucketData_step id id_int bs bucket_id m1 (zlen pre) part o b pre post) as (b1 & E1 & Hok1 & Hsz1 & Hd1);
      [done|unfold kStartingOffset, kMaxSizeOfSimpleResult in *; lia|done..|lia|].
    pose proof Hok1 as [Hsz Hdat]. rewrite Hd1, !zlen_app in Hdat. unfold is_u32 in Hsz. pose proof (zlen_nonneg pre).
    pose proof (zlen_nonneg (drop (length part) post)).
    destruct (IH dn (<[bucket_id := b1]> bs) b1 (pre ++ part) (drop (length part) post)) as (bs' & b' & E & Hb' & Hok' & Hd');
      [done|done|by rewrite lookup_insert_eq|done|done| | |].
    + rewrite zlen_app, u32_id; [done|unfold is_u32; lia].
    + unfold zlen in *. rewrite length_drop. lia.
    + exists bs', b'. rewrite <- app_assoc in Hd'. split_and!; [|done..]. rewrite <- E. cbn [foldl]. f_equal. unfold set_bucket_part. by rewrite E1.
Qed.

Lemma sends_SetBucketContents n bucket_id data g : 0 < n -> n mod 4 = 0 ->
  sends n (SetBucketContents cfg bucket_id data) g (fun _ new => exists stop ps,
    new = (SetBucketSize bucket_id (u32 (zlen data)), None) :: ps /\ parts u32 (set_bucket_part cfg bucket_id) n stop 0 data ps).
Proof.
  intros Hn Hn4. unfold SetBucketContents. eapply sends_bind; [apply sends_helper; [by apply common_serve_quiet|done]|]. intros ? new1 ->.
  eapply sends_bind; [apply sends_max_transfer|]. intros ? new2 [-> ->].
  eapply sends_bind; [apply (sends_parts quiet_tokens); [done|done| |done]|].
  { intros off size o. split; [by apply common_serve_quiet|done]. }
  intros stop new3 Hp. eapply sends_weaken; [|apply sends_ret]. intros x new4 [_ ->]. exists stop, new3. by rewrite app_nil_r.
Qed.

(** What the service has when all of it was carried out. *)
Lemma contents_set n stop bucket_id data ps dn bs : n < 2 ^ 31 -> zlen data < 2 ^ 32 ->
  parts u32 (set_bucket_part cfg bucket_id) n stop 0 data ps ->
  dn.*1 = ((SetBucketSize bucket_id (u32 (zlen data)), None) :: ps).*1 ->
  Forall2 seen ((SetBucketSize bucket_id (u32 (zlen data)), None) :: ps).*2 dn ->
  bucket_ok (default new_Bucket (bs !! bucket_id)) ->
  exists bs' b', foldl (bucket_step id) (Some bs) dn = Some bs' /\ bs' !! bucket_id = Some b' /\ bucket_ok b' /\
    CommonDecoder.size_ b' = zlen data /\ (data <> [] -> data_ b' = Some data).
Proof.
  intros Hn Hdata Hp Ed Hs Hb. destruct dn as [|[c m] dn]; [done|]. cbn in Ed. injection Ed as -> Ed. inversion Hs as [|? ? ? ? _ Hs']; subst.
  cbn [foldl]. rewrite SetBucketSize_step, u32_id by (pose proof (zlen_nonneg data); unfold is_u32; lia).
  set (b := SetSize (zlen data) _). assert (bucket_ok b) as Hok by (apply SetSize_ok; [pose proof (zlen_nonneg data); unfold is_u32; lia|done]).
  pose proof (SetSize_size (zlen data) (default new_Bucket (bs !! bucket_id)) : CommonDecoder.size_ b = _) as Hsz.
  pose proof Hok as [_ Hdat]. rewrite Hsz in Hdat. destruct (data_ b) as [post|] eqn:Epost.
  - destruct (parts_bucket n stop bucket_id 0 data ps dn (<[bucket_id := b]> bs) b [] post) as (bs' & b' & E & Hb' & Hok' & Hd');
      [done..|by rewrite lookup_insert_eq|done|done|done|done|].
    exists bs', b'. split_and!; try done. destruct Hok' as [_ Hdat']. by rewrite Hd' in Hdat'.
  - assert (data = []) as -> by (destruct data as [|x data]; [done|]; rewrite zlen_cons in Hdat; pose proof (zlen_nonneg data); lia). inversion Hp; subst; [|destruct part; [cbn in *; lia|done]].
    apply fmap_nil_inv in Ed as ->. exists (<[bucket_id := b]> bs), b. rewrite lookup_insert_eq. by split_and!.
Qed.

Definition token_call (c : ClientCommand) : Prop := exists t, c = SetToken t.

Lemma tokens_step bs dn : Forall token_call dn.*1 -> foldl (bucket_step id) (Some bs) dn = Some bs.
Proof.
  induction dn as [|[c m] dn IH]; [done|]. cbn. intros [[t ->] Hd]%Forall_cons. by apply IH.
Qed.

(** Bytes are asked for part by part. *)
Lemma get_parts_ok n bucket_id bs b data : 0 < n < 2 ^ 31 -> n mod 4 = 0 ->
  bs !! bucket_id = Some b -> bucket_ok b -> data_ b = Some data ->
  forall fuel offset pre rest h calls g w, data = pre ++ rest -> offset = zlen pre -> (length rest <= fuel)%nat ->
  issued n h calls (g, w) -> Forall token_call calls.*1 -> buckets_after id h ∅ = Some bs ->
  exists h' calls' g' w', get_bucket_parts cfg fuel n bucket_id offset (zlen rest) (g, w) = Done (rest, (g', w')) /\
    issued n h' calls' (g', w') /\ unchanged g g'.
Proof.
  intros Hn Hn4 Hb Hok Hd. pose proof Hok as [Hsz Hdat]. rewrite Hd in Hdat. unfold is_u32 in Hsz.
  induction fuel as [|fuel IH]; intros offset pre rest h calls g w E -> Hf Hi Hc Hh.
  all: destruct rest as [|x rest']; [exists h, calls, g, w; split_and!; [done|done|apply unchanged_refl]|].
  { cbn in Hf. lia. }
  set (rest := x :: rest') in *. assert (0 < zlen rest) as Hr by (unfold rest; rewrite zlen_cons; pose proof (zlen_nonneg rest'); lia).
  assert (zlen data = zlen pre + zlen rest) as Hl by (by rewrite E, zlen_app). pose proof (zlen_nonneg pre).
  set (k := Z.min n (zlen rest)).
  destruct (fetch_ok quiet_tokens n h calls g w k (GetBucketData bucket_id (zlen pre) k id) Hi) as
    (o & t & bytes & w1 & dn & m & F1 & Ho1 & Ho2 & Hm & Hi1 & F2 & F3 & F4); [lia|done|..].
  { intros o. split; [done|]. intros. by apply common_serve_memory. }
  assert (buckets_after id (h ++ dn) ∅ = Some bs) as Hh'.
  { rewrite buckets_after_app, Hh. apply tokens_step. by rewrite F2. }
  destruct (GetBucketData_serve id other id_int (h ++ dn) bs bucket_id b m data (zlen pre) k o Hh' Hb Hok Hd)
    as (bytes' & m' & G1 & G2 & G3 & G4); [lia..|unfold kStartingOffset, kMaxSizeOfSimpleResult in *; lia|lia|
    unfold kStartingOffset, kMaxSizeOfSimpleResult in *; lia|].
  rewrite G2, G3 in F4. injection F4 as ->.
  assert (bytes = take (Z.to_nat k) rest) as ->.
  { apply zread_inv in G1 as (_ & _ & _ & ->). rewrite E. unfold zlen. by rewrite Nat2Z.id, drop_app_length. }
  set (r1 := transfer_buffer_ w1.1) in *.
  assert (zlen (take (Z.to_nat k) rest) = k) as Hk by (unfold zlen in *; rewrite length_take; lia).
  destruct (IH (zlen (pre ++ take (Z.to_nat k) rest)) (pre ++ take (Z.to_nat k) rest) (drop (Z.to_nat k) rest)
    ((h ++ dn) ++ [(GetBucketData bucket_id (zlen pre) k id o, m)]) [(SetToken t, None)] (with_transfer_buffer r1 g) w1.2)
    as (h' & calls' & g' & w' & G & Hi' & Hu); [by rewrite <- app_assoc, take_drop|done|rewrite length_drop; unfold zlen in *; lia| | | |].
  - by destruct w1.
  - repeat constructor. by exists t.
  - by rewrite buckets_after_app, Hh'.
  - exists h', calls', g', w'. split_and!; [|done|by rewrite Hu].
    cbn [get_bucket_parts]. bfalse (zlen rest =? 0). fold k. unfold mbind, method_bind. rewrite F1. cbn [obind].
    assert (u32 (zlen pre + k) = zlen (pre ++ take (Z.to_nat k) rest)) as -> by (rewrite zlen_app, u32_id; [lia|unfold is_u32; lia]).
    assert (zlen rest - k = zlen (drop (Z.to_nat k) rest)) as -> by (unfold zlen in *; rewrite length_drop; lia).
    rewrite G. cbn [obind]. unfold mret, method_ret. by rewrite take_drop.
Qed.

(** The contents of a bucket that has been filled. *)
Lemma GetBucketContents_ok n bucket_id data h calls g w : 0 < n < 2 ^ 31 -> n mod 4 = 0 ->
  issued n h calls (g, w) ->
  (forall dn, dn.*1 = calls.*1 -> Forall2 seen calls.*2 dn -> exists bs b, buckets_after id (h ++ dn) ∅ = Some bs /\
     bs !! bucket_id = Some b /\ bucket_ok b /\ CommonDecoder.size_ b = zlen data /\ (data <> [] -> data_ b = Some data)) ->
  exists h' calls' g' w', GetBucketContents cfg bucket_id (g, w) = Done (data, (g', w')) /\
    issued n h' calls' (g', w') /\ unchanged g g'.
Proof.
  intros Hn Hn4 Hi Hbuckets.
  destruct (question_ok n h calls g w [0] (GetBucketSize bucket_id id 0) Hi)
    as (w1 & dn & m & E1 & Hp1 & Eh1 & Hi1 & F1 & F2 & Em & Es1); [done|by unfold zlen; cbn; lia|intros; by apply common_serve_memory|].
  destruct (Hbuckets dn F1 F2) as (bs & b & Hh & Hb & Hok & Hsz & Hd).
  pose proof Hok as [Hu Hdat].
  destruct (GetBucketSize_serve id other id_int (h ++ dn) bs bucket_id b m (shared w) Hh Hb Hu Em) as (m' & G1 & G2 & G3).
  rewrite Hsz in *. rewrite <- Es1 in G1. subst m'.
  assert (ask_word 0 (GetBucketSize bucket_id (result_shm_id cfg) result_shm_offset) (g, w) = Done (zlen data, (g, w1))) as Eask.
  { unfold ask_word, result_word, read_shared, ask_link, memcpy_from, mbind, method_bind.
    change (result_shm_id cfg) with id. change result_shm_offset with 0. rewrite E1. cbn [obind fst snd].
    change (0 + 4 * 0) with 0. rewrite G2. cbn [of_option obind]. unfold mret, method_ret.
    rewrite le_word_bytes. do 2 f_equal. apply Z.mod_small. exact Hu. }
  unfold GetBucketContents. unfold mbind at 1, method_bind at 1. rewrite Eask. cbn [obind].
  destruct data as [|x data]; [exists (history w1), [], g, w1; split_and!; [done|done|apply unchanged_refl]|]. specialize (Hd ltac:(done)).
  set (data' := x :: data) in *. assert (0 < zlen data') as Hl by (unfold data'; rewrite zlen_cons; pose proof (zlen_nonneg data); lia).
  btrue (zlen data' >? 0).
  destruct (sends_max_transfer n g (history w1) [] g w1 (unchanged_refl g) Hi1) as (? & ? & ? & ? & E2 & Hi2 & _ & -> & ->).
  unfold mbind at 1, method_bind at 1. rewrite E2. cbn [obind].
  assert (buckets_after id (history w1) ∅ = Some bs) as Hh1 by (by rewrite Eh1, buckets_after_app, Hh).
  injection E2 as _ <- <-.
  destruct (get_parts_ok n bucket_id bs b data' Hn Hn4 Hb Hok Hd (Z.to_nat (zlen data')) 0 [] data' (history w1) [] g w1)
    as (h' & calls' & g' & w' & E3 & Hi3 & Hu3); [done|done|unfold zlen; lia|done|done|done|].
  unfold mbind at 1, method_bind at 1. rewrite E3. cbn [obind].
  assert (sends n (helper (SetBucketSize bucket_id 0)) g' (fun _ new => new = [(SetBucketSize bucket_id 0, None)])) as Hs
    by (apply sends_helper; [by apply common_serve_quiet|done]).
  destruct (Hs h' calls' g' w' (unchanged_refl g') Hi3) as (? & ? & g2 & w2 & E4 & Hi4 & Hu4 & _).
  unfold mbind at 1, method_bind at 1. rewrite E4. cbn [obind]. eexists _, _, g2, w2. split_and!; [done|exact Hi4|].
  unfold unchanged in *. rewrite Hu3 in Hu4. exact Hu4.
Qed.

(** C8: What a client puts in a bucket it gets back, whatever the size of the transfer buffer, and
    whenever the service works. *)
Theorem bucket_contents_round_trip n bucket_id data g w bs :
  at_work n (g, w) -> pending w = [] -> buckets_after id (history w) ∅ = Some bs ->
  bucket_ok (default new_Bucket (bs !! bucket_id)) -> 0 < n < 2 ^ 31 -> n mod 4 = 0 -> zlen data < 2 ^ 32 ->
  exists g' w', (SetBucketContents cfg bucket_id data ;; GetBucketContents cfg bucket_id) (g, w) = Done (data, (g', w')) /\
    at_work n (g', w') /\ unchanged g g'.
Proof.
  intros (h0 & calls & Hi) Hp Hh Hb Hn Hn4 Hdata.
  pose proof (sent_anew _ _ _ _ _ _ w Hi (sent_ok _ _ _ _ _ _ Hi) Hp eq_refl) as Hi0.
  destruct (sends_SetBucketContents n bucket_id data g ltac:(lia) Hn4 (history w) [] g w (unchanged_refl g) Hi0)
    as ([] & new & g1 & w1 & E1 & Hi1 & Hu1 & stop & ps & -> & Hps).
  destruct (GetBucketContents_ok n bucket_id data _ _ g1 w1 Hn Hn4 Hi1) as (h' & calls' & g' & w' & E2 & Hi2 & Hu2).
  - intros dn Ed Hs. rewrite buckets_after_app, Hh.
    destruct (contents_set n stop bucket_id data ps dn bs) as (bs' & b' & ?); [lia|done..|]. by exists bs', b'.
  - exists g', w'. split_and!; [|by exists h', calls'|].
    + unfold mbind, method_bind. rewrite E1. exact E2.
    + unfold unchanged in *. rewrite Hu1 in Hu2. exact Hu2.
Qed.

End client.
