(* ===== verification/ClientUploads.v ===== *)
(** * Buffers and images arrive whole

    [BufferSubData] of [gpu/command_buffer/client/gles2_implementation.cc] against the service's copy
    of a buffer ([BufferManager.v]), and [TexSubImage2DImpl], where rows are not flipped and at
    least one fits the transfer buffer, against [HandleTexSubImage2D] ([TextureDecoder.v]) and a
    driver that plays its calls on the texels of a level: in how many parts the data goes, and
    when the service gets to them, makes no difference. *)

From S2P Require Import Prelude CmdFormat GLES2Format GLES2Commands.
From Stdlib Require Import ZArith Lia ZifyBool Bool.
From stdpp Require Import base numbers option gmap list.
From S2P Require Import GLConstants GLES2Util RingBuffer Tokens Connection TransferBuffer ClientState ClientBuffers ClientTextures.
From S2P Require Import ClientDelivery BufferManager Validators TextureInfo ContextState.
From S2P Require CommonDecoder TextureDecoder ClientBuckets.
Local Open Scope Z_scope.

#[local] Existing Instance ClientBuckets.transfer_engine.

#[export] Instance Struct_eq_dec : EqDecision Struct.
Proof. solve_decision. Defined.

(** ** What the service makes of the commands *)

Section service.
Context `{Platform}.

(** [BufferSubData] for [target], with the bytes that are in the transfer buffer [id] then;
    [None]: it is refused. *)
Definition buffer_step (id target : Z) (b : option BufferInfo) (x : ClientCommand * list Z) : option BufferInfo :=
  match x.1 with
  | Gl c [target'; offset; size; shm_id; shm_offset] _ =>
      if bool_decide (c = cmds.BufferSubData) && (target' =? target) then
        b ← b;
        bytes ← (if shm_id =? id then zread x.2 shm_offset size else None);
        match SetRange offset size bytes b with Done (true, b) => Some b | _ => None end
      else b
  | _ => b
  end.

Definition buffer_after (id target : Z) (h : History) (b : BufferInfo) : option BufferInfo :=
  foldl (buffer_step id target) (Some b) h.

Lemma isize_id x : 0 <= x < 2 ^ (size_bits - 1) -> isize x = x.
Proof.
  intros Hx. unfold isize.
  assert (2 ^ size_bits = 2 * 2 ^ (size_bits - 1)) as E by (destruct size_bits_ok as [-> | ->]; done).
  rewrite Z.mod_small; lia.
Qed.

(** A buffer whose contents the service keeps. *)
Definition holds (b : BufferInfo) (s : list Z) : Prop :=
  shadowed_ b = true /\ shadow_ b = Some s /\ zlen s = size_ b /\ size_ b < 2 ^ (size_bits - 1).

Lemma SetRange_holds offset data b s s' : holds b s -> zwrite s offset data = Some s' ->
  exists b', SetRange offset (zlen data) data b = Done (true, b') /\ holds b' s'.
Proof.
  intros (Hsh & Hs & Hl & Hb) E. pose proof (zwrite_inv _ _ _ _ E) as (Ho & Hr & _). pose proof (zlen_nonneg data).
  unfold SetRange, out_of_range. rewrite isize_id by lia.
  bfalse ((offset <? 0) || (offset + zlen data <? offset) || (offset + zlen data >? size_ b)).
  rewrite Hsh, Hs. cbn [of_option obind]. rewrite E. eexists. split; [done|]. split_and!; try done.
  cbn. by rewrite (zlen_zwrite _ _ _ _ E).
Qed.

End service.

Section uploads.
Context `{Platform} {W : Type} `{ConnectionLaws W serve ok pending history}.
Hypothesis tokens_quiet : forall t, quiet (serve := serve) (SetToken t).
Hypothesis buffers_quiet : forall args, quiet (serve := serve) (Gl cmds.BufferSubData args []).
Variable cfg : ClientConfig.

(** The parts of the data, one after the other, are the data. *)
Lemma parts_buffer target n stop offset data new dn b s s' :
  parts isize (buffer_part cfg target) n stop offset data new -> dn.*1 = new.*1 -> Forall2 seen new.*2 dn ->
  holds b s -> zwrite s offset data = Some s' ->
  exists b', buffer_after (transfer_buffer_id_ cfg) target dn b = Some b' /\ holds b' s'.
Proof.
  intros Hp. revert dn b s. induction Hp as [|offset part rest new o t Hl _ _ Hp IH]; intros dn b s Ed Hs Hb Hw.
  - apply fmap_nil_inv in Ed as ->. exists b. split; [done|]. apply zwrite_inv in Hw as (_ & _ & ->).
    cbn. by rewrite Nat.add_0_r, take_drop.
  - destruct dn as [|[c1 m1] [|[c2 m2] dn]]; try done. cbn in Ed. injection Ed as E1 E2 E3. subst c1 c2.
    inversion Hs as [|? ? ? ? Hs1 Hs']; subst. inversion Hs' as [|? ? ? ? Hs0 Hs2]; subst. cbn in Hs1.
    pose proof (zwrite_inv _ _ _ _ Hw) as (Ho & Hr & _). rewrite zlen_app in Hr. pose proof (zlen_nonneg rest).
    pose proof Hb as (_ & _ & Hsz & Hsb).
    destruct (zwrite_Some s part offset) as (s1 & Hw1 & Hl1); [lia..|].
    destruct (SetRange_holds offset part b s s1 Hb Hw1) as (b1 & Eb1 & Hb1).
    rewrite isize_id in IH by lia.
    destruct (IH dn b1 s1 E3 Hs2 Hb1) as (b' & Eb' & Hb'); [rewrite (zwrite_app s part _ _ _ Hw1); [done|lia]|].
    exists b'. split; [|done]. rewrite <- Eb'. unfold buffer_after. cbn [foldl]. f_equal.
    unfold buffer_step. cbn [fst snd buffer_part]. rewrite bool_decide_true, !Z.eqb_refl by done. cbn [andb]. rewrite Hs1. cbn [mbind option_bind]. by rewrite Eb1.
Qed.

Lemma sends_BufferSubData target n offset data g : 0 < n < 2 ^ 31 -> n mod 4 = 0 -> 0 < zlen data ->
  sends (serve := serve) (ok := ok) (pending := pending) (history := history) n
    (BufferSubData cfg target offset (zlen data) data) g
    (fun _ new => exists stop, parts isize (buffer_part cfg target) n stop offset data new).
Proof.
  intros Hn Hn4 Hd. unfold BufferSubData. bfalse (zlen data =? 0). bfalse (zlen data <? 0).
  rewrite zread_in by lia. replace (Z.to_nat (zlen data)) with (length data) by (unfold zlen; lia). rewrite drop_0, firstn_all.
  eapply sends_bind; [apply sends_the|]. intros ? new1 [-> ->].
  eapply sends_bind; [apply sends_max_transfer|]. intros ? new2 [-> ->].
  assert (isize n = n) as ->.
  { apply isize_id. assert (2 ^ 31 <= 2 ^ (size_bits - 1)) by (destruct size_bits_ok as [-> | ->]; done). lia. }
  eapply sends_bind; [apply (sends_parts tokens_quiet); [lia|done| |done]|].
  { intros off size o. split; [apply buffers_quiet|done]. }
  intros stop new3 Hp. eapply sends_weaken; [|apply sends_ret]. intros a new4 [_ ->]. exists stop. by rewrite app_nil_r.
Qed.

(** C9: Data that a client puts in a buffer is in it: whenever the service gets to the parts. *)
Theorem BufferSubData_arrives n target offset data g w b s s' :
  at_work (serve := serve) (ok := ok) (pending := pending) (history := history) n (g, w) ->
  0 < n < 2 ^ 31 -> n mod 4 = 0 -> 0 < zlen data -> holds b s -> zwrite s offset data = Some s' ->
  exists g' w1 w2 before dn b', BufferSubData cfg target offset (zlen data) data (g, w) = Done ((), (g', w1)) /\
    Connection.Finish w1 = Done w2 /\ history w2 = before ++ dn /\ before.*1 = (history w).*1 ++ pending w /\
    buffer_after (transfer_buffer_id_ cfg) target dn b = Some b' /\ holds b' s' /\ unchanged g g'.
Proof.
  intros Hwork Hn Hn4 Hd Hb Hw.
  destruct (sends_arrives _ _ _ _ _ (sends_BufferSubData target n offset data g Hn Hn4 Hd) Hwork)
    as ([] & new & g' & w1 & w2 & before & dn & E1 & E2 & _ & Hu & (stop & Hp) & _ & E3 & E4 & E5 & Hs).
  destruct (parts_buffer _ _ _ _ _ _ dn b s s' Hp E5 Hs Hb Hw) as (b' & Eb & Hb').
  by exists g', w1, w2, before, dn, b'.
Qed.

End uploads.

#[export] Instance Image_eq_dec : EqDecision Image.
Proof. solve_decision. Defined.

(** ** What the service makes of the commands of an image

    [HandleTexSubImage2D] of a decoder with the configuration [svc], the transfer buffer being
    the memory it can read.  The upload is nothing else, but for the tokens. *)

Section service_images.
Context `{Platform}.
Variables (svc : Config) (id : Z).

Definition image_step (c : option Context) (x : ClientCommand * list Z) : option Context :=
  c ← c;
  match x.1 with
  | Gl s [target; level; xoffset; yoffset; width; height; format; type; shm_id; shm_offset; internal] _ =>
      if bool_decide (s = cmds.TexSubImage2D) then
        match TextureDecoder.HandleTexSubImage2D svc target level xoffset yoffset width height format type
                shm_id shm_offset internal (ClientBuckets.decoder_at id ∅ x.2) c with
        | Done (kNoError, c) => Some c
        | _ => None
        end
      else None
  | SetToken _ => Some c
  | _ => None
  end.

Definition context_after (h : History) (c : Context) : option Context := foldl image_step (Some c) h.

(** The level that an image goes to: the decoder has the level [lw] by [lh] of the bound
    texture, with the format and type of the image, and reads rows with [align]. *)
Definition level_ready (i : Image) (lw lh align : Z) (c : Context) : Prop :=
  ContextState.valid svc Validator.texture_target (i_target i) = true /\
  ContextState.valid svc Validator.texture_format (i_format i) = true /\
  ContextState.valid svc Validator.pixel_type (i_type i) = true /\
  (i_internal i =? GL_TRUE) && tex_image_2d_failed_ c = false /\ unpack_alignment_ c = align /\
  exists a t, GetTextureInfoForTarget (i_target i) c = Done (Some (a, t)) /\
    GetLevelType (i_target i) (i_level i) t = Some (i_type i, i_format i) /\
    GetLevelSize (i_target i) (i_level i) t = Some (lw, lh).

Lemma level_ready_gl i lw lh align call c : level_ready i lw lh align c -> level_ready i lw lh align (gl call c).
Proof. done. Qed.

(** The call of the driver for some rows of the image. *)
Definition rows_call (i : Image) (lw lh y height : Z) (bytes : list Z) : GLCall :=
  if teximage2d_faster_than_texsubimage2d_ svc && (i_xoffset i =? 0) && (y =? 0) && (i_width i =? lw) && (height =? lh)
  then TextureDecoder.WrappedTexImage2D svc (i_target i) (i_level i) (i_format i) (i_width i) height 0 (i_format i) (i_type i) bytes
  else glTexSubImage2D (i_target i) (i_level i) (i_xoffset i) y (i_width i) height (i_format i) (i_type i) bytes.

Hypothesis id_int : is_i32 id.

(** Rows that are in the transfer buffer reach the driver. *)
Lemma image_step_call cfg i lw lh align y height bytes o m c : transfer_buffer_id_ cfg = id ->
  level_ready i lw lh align c -> align ∈ [1; 2; 4; 8] -> lw < 2 ^ 31 -> lh < 2 ^ 31 ->
  0 <= i_xoffset i -> 0 < i_width i -> i_xoffset i + i_width i <= lw -> 0 <= y -> 0 < height -> y + height <= lh ->
  i_width i * group_size (i_format i) (i_type i) < 2 ^ 32 ->
  zlen bytes = GLES2Util.image_size (i_width i) height (i_format i) (i_type i) align ->
  zread m o (zlen bytes) = Some bytes -> o + zlen bytes < 2 ^ 32 ->
  image_step (Some c) (sub_image cfg i (i_xoffset i) y (i_width i) height o, m) = Some (gl (rows_call i lw lh y height bytes) c).
Proof.
  intros Hid (Ht & Hf & Hp & Hi & Ha & a & t & Et & Ety & Esz) Hal Hlw Hlh Hx Hw Hxw Hy Hh Hyh Hrow Hlen Hm Ho.
  pose proof (zread_inv _ _ _ _ Hm) as (Ho1 & Ho2 & Ho3 & _). unfold image_step, sub_image. cbn [fst snd mbind option_bind].
  rewrite bool_decide_true, Hid by done. unfold TextureDecoder.HandleTexSubImage2D. rewrite Hi, Ha, ComputeImageDataSize_exact by (done || lia).
  rewrite <- Hlen. btrue ((i_width i * group_size (i_format i) (i_type i) <? 2 ^ 32) && (zlen bytes <? 2 ^ 32)).
  unfold TextureDecoder.GetSharedMemoryAs. rewrite ClientBuckets.decoder_address by (done || lia).
  rewrite ClientBuckets.decoder_read, Hm. cbn [of_option obind]. unfold TextureDecoder.checked_sub_image.
  rewrite Ht, Hf, Hp. cbn [negb]. bfalse (i_width i <? 0). bfalse (height <? 0).
  unfold TextureDecoder.DoTexSubImage2D. rewrite Et. cbn [obind]. rewrite Ety, !Z.eqb_refl. cbn [negb].
  assert (ValidForTexture (i_target i) (i_level i) (i_xoffset i) y (i_width i) height (i_format i) (i_type i) t = true) as ->.
  { unfold ValidForTexture, GetLevelType, GetLevelSize in *. destruct (checked_level _ _ t) as [info|]; [|done].
    cbn [mbind option_bind] in Ety, Esz. destruct (l_valid info); [|done]. injection Ety as -> ->. injection Esz as <- <-.
    rewrite !TextureDecoder.SafeAddInt32_exact by (unfold is_i32; lia). btrue (i_xoffset i + i_width i <? 2 ^ 31). btrue (y + height <? 2 ^ 31).
    rewrite !Z.eqb_refl. lia. }
  rewrite Esz. cbn [negb default Datatypes.id]. cbv beta iota delta [rows_call Datatypes.id]. by destruct (_ && (height =? lh)).
Qed.

End service_images.

(** ** What the driver makes of the calls

    The texels of a level that have contents, by column and row: the bytes of each.  The driver
    finds the rows of an image with the alignment that it was given. *)

Notation Texels := (Z -> Z -> option (list Z)) (only parsing).

(** The bytes of a row of an image, and from a row to the next. *)
Definition row_bytes (width format type : Z) : Z := width * group_size format type.
Definition row_pitch (width format type align : Z) : Z := pitch (row_bytes width format type) align.

(** The texel in column [u] and row [v] of an image. *)
Definition texel (width format type align u v : Z) (pixels : list Z) : option (list Z) :=
  zread pixels (v * row_pitch width format type align + u * group_size format type) (group_size format type).

Definition play (target level align : Z) (texels : Texels) (call : GLCall) : Texels :=
  match call with
  | glTexSubImage2D tg lv x y w h format type pixels => fun u v =>
      if (tg =? target) && (lv =? level) && TextureDecoder.in_rect u v x y w h
      then texel w format type align (u - x) (v - y) pixels else texels u v
  | glTexImage2D tg lv _ w h _ format type pixels => fun u v =>
      if (tg =? target) && (lv =? level) then
        if TextureDecoder.in_rect u v 0 0 w h then texel w format type align u v pixels else None
      else texels u v
  | _ => texels
  end.

Definition play_all (target level align : Z) (texels : Texels) (calls : list GLCall) : Texels :=
  foldl (play target level align) texels calls.

(** Whichever call it is. *)
Lemma play_rows svc i lw lh align y height bytes texels u v :
  0 <= u < lw -> 0 <= v < lh ->
  play (i_target i) (i_level i) align texels (rows_call svc i lw lh y height bytes) u v =
    if TextureDecoder.in_rect u v (i_xoffset i) y (i_width i) height
    then texel (i_width i) (i_format i) (i_type i) align (u - i_xoffset i) (v - y) bytes else texels u v.
Proof.
  intros Hu Hv. unfold rows_call. destruct (_ && (height =? lh)) eqn:E; cbn [play TextureDecoder.WrappedTexImage2D]; rewrite !Z.eqb_refl; cbn [andb]; [|done].
  zbool. subst y height. replace (i_xoffset i) with 0 by lia. replace (i_width i) with lw by lia. rewrite !Z.sub_0_r.
  by assert (TextureDecoder.in_rect u v 0 0 lw lh = true) as -> by (apply TextureDecoder.in_rect_true; lia).
Qed.

(** Texels of a part are texels of the whole. *)
Lemma zread_take {A} (l : list A) k off n : off + n <= k -> k <= zlen l -> zread (take (Z.to_nat k) l) off n = zread l off n.
Proof.
  intros Ho Hk. unfold zread, zlen in *. rewrite length_take.
  destruct ((0 <=? off) && (0 <=? n) && (off + n <=? Z.of_nat (length l))) eqn:E; zbool.
  - btrue ((0 <=? off) && (0 <=? n) && (off + n <=? Z.of_nat (Init.Nat.min (Z.to_nat k) (length l)))). f_equal.
    rewrite skipn_firstn_comm, take_take. f_equal. lia.
  - by bfalse ((0 <=? off) && (0 <=? n) && (off + n <=? Z.of_nat (Init.Nat.min (Z.to_nat k) (length l)))).
Qed.

Lemma zread_drop {A} (l : list A) k off n : 0 <= k <= zlen l -> 0 <= off -> zread (drop (Z.to_nat k) l) off n = zread l (k + off) n.
Proof.
  intros Hk Ho. unfold zread, zlen in *. rewrite length_drop.
  destruct ((0 <=? k + off) && (0 <=? n) && (k + off + n <=? Z.of_nat (length l))) eqn:E; zbool.
  - btrue ((0 <=? off) && (0 <=? n) && (off + n <=? Z.of_nat (length l - Z.to_nat k))). f_equal.
    rewrite drop_drop. do 2 f_equal. lia.
  - by bfalse ((0 <=? off) && (0 <=? n) && (off + n <=? Z.of_nat (length l - Z.to_nat k))).
Qed.

(** ** The client *)

Section images.
Context `{Platform} {W : Type} `{ConnectionLaws W serve ok pending history}.
Hypothesis tokens_quiet : forall t, quiet (serve := serve) (SetToken t).
Hypothesis images_quiet : forall args, quiet (serve := serve) (Gl cmds.TexSubImage2D args []).
Variable cfg : ClientConfig.
Notation sends := (sends (serve := serve) (ok := ok) (pending := pending) (history := history)).
Notation id := (transfer_buffer_id_ cfg).

Lemma sends_same {A} n (m m' : Method W A) g what : (forall s, m s = m' s) -> sends n m' g what -> sends n m g what.
Proof. intros E Hm h0 calls g0 w Hu Hi. rewrite E. by apply Hm. Qed.

Lemma sends_pure {A} n (m : Method W A) a g :
  (forall r w, m (with_transfer_buffer r g, w) = Done (a, (with_transfer_buffer r g, w))) ->
  sends n m g (fun a' new => a' = a /\ new = []).
Proof. intros E h0 calls g0 w Hu Hi. exists a, [], g0, w. rewrite app_nil_r. split_and!; try done. rewrite Hu. apply E. Qed.

(** Rows that are not flipped are an upload. *)
Lemma put_rows_upload pixels part_size width num_rows format type command bytes s :
  zread pixels 0 part_size = Some bytes ->
  put_rows false pixels part_size width num_rows format type command s = upload bytes command s.
Proof.
  intros Hr. pose proof (zlen_zread _ _ _ _ Hr) as Hl. unfold put_rows, upload, put, ClientState.Alloc, TransferBuffer.Alloc.
  rewrite Hl. assert (u32 (u32 part_size) = u32 part_size) as -> by apply u32_u32.
  unfold mbind, method_bind. destruct s as [g w]. cbn [fst snd].
  destruct (RingBuffer.Alloc _ _ _) as [[[o r] w1]| | ]; [|done..]. cbn [obind fst snd]. rewrite Hr.
  unfold the, link, helper. cbn [of_option obind fst snd].
  destruct (memcpy_to o bytes w1) as [w2| | ]; [|done..]. cbn [obind fst snd].
  unfold link. cbn [fst snd]. destruct (issue (command o) w2) as [w3| | ]; [|done..]. cbn [obind fst snd].
  unfold InsertToken, ask_link. cbn [fst snd]. by destruct (Connection.InsertToken w3) as [[t w4]| | ].
Qed.

Variables (svc : Config) (n align lw lh : Z) (i : Image).
Hypothesis id_int : is_i32 id.
Hypothesis room : 0 < n < 2 ^ 31 /\ n mod 4 = 0.
Hypothesis aligned : align ∈ [1; 2; 4; 8].
Notation group := (group_size (i_format i) (i_type i)).
Notation unpadded := (row_bytes (i_width i) (i_format i) (i_type i)).
Notation padded := (row_pitch (i_width i) (i_format i) (i_type i) align).

(** The columns are in the level. *)
Hypothesis columns : 0 <= i_xoffset i /\ 0 < i_width i /\ i_xoffset i + i_width i <= lw /\ lw < 2 ^ 31 /\ lh < 2 ^ 31.
Hypothesis pixels_some : 0 < group.
Hypothesis row_fits : padded <= n.

Lemma rows_apart : 0 < unpadded <= padded.
Proof.
  destruct (align_cases align aligned) as [Ha _]. pose proof (pitch_bounds unpadded align ltac:(lia)) as Hb.
  fold padded in Hb. unfold row_bytes in *. nia.
Qed.

(** What [height] rows take. *)
Definition rows_size (height : Z) : Z := (height - 1) * padded + unpadded.

Lemma rows_size_image height : 0 < height -> rows_size height = GLES2Util.image_size (i_width i) height (i_format i) (i_type i) align.
Proof.
  intros Hh. unfold rows_size, GLES2Util.image_size. fold unpadded padded. destruct (height >? 1) eqn:E; [done|].
  replace height with 1 by lia. lia.
Qed.

(** What the level has when rows of [source] were put in it. *)
Definition rows_put (yoffset height : Z) (source : list Z) (calls : list GLCall) : Prop :=
  forall texels u v, 0 <= u < lw -> 0 <= v < lh ->
    play_all (i_target i) (i_level i) align texels calls u v =
      if TextureDecoder.in_rect u v (i_xoffset i) yoffset (i_width i) height
      then texel (i_width i) (i_format i) (i_type i) align (u - i_xoffset i) (v - yoffset) source else texels u v.

(** A group of rows arrives. *)
Lemma group_arrives y height source o dn t c : 0 <= y -> 0 < height -> y + height <= lh ->
  rows_size height <= zlen source -> rows_size height <= n -> kStartingOffset <= o -> o + rows_size height <= kStartingOffset + n ->
  let bytes := take (Z.to_nat (rows_size height)) source in
  let new := [(sub_image cfg i (i_xoffset i) y (i_width i) height o, Some (o, bytes)); (SetToken t, None)] in
  dn.*1 = new.*1 -> Forall2 seen new.*2 dn -> level_ready svc i lw lh align c ->
  context_after svc id dn c = Some (gl (rows_call svc i lw lh y height bytes) c).
Proof.
  intros Hy Hh Hyh Hl Hn Ho1 Ho2 bytes new Ed Hs Hc. pose proof rows_apart.
  destruct dn as [|[c1 m1] [|[c2 m2] [|? ?]]]; try done. cbn in Ed. injection Ed as -> ->.
  inversion Hs as [|? ? ? ? Hs1 _]; subst. cbn in Hs1.
  assert (0 < rows_size height) by (unfold rows_size; nia).
  assert (zlen bytes = rows_size height) as Hz by (unfold bytes, zlen in *; rewrite length_take; lia).
  unfold context_after. cbn [foldl].
  rewrite (image_step_call svc id id_int cfg i lw lh align y height bytes o m1 c); try done; try lia.
  - unfold row_bytes in *. lia.
  - by rewrite Hz, rows_size_image.
  - unfold kStartingOffset, kMaxSizeOfSimpleResult in *. lia.
Qed.

Lemma rows_put_group y height source bytes : 0 < height -> rows_size height <= zlen source ->
  bytes = take (Z.to_nat (rows_size height)) source -> rows_put y height source [rows_call svc i lw lh y height bytes].
Proof.
  intros Hh Hl -> texels u v Hu Hv. unfold play_all. cbn [foldl]. rewrite play_rows by done.
  destruct (TextureDecoder.in_rect _ _ _ _ _ _) eqn:E; [|done]. apply TextureDecoder.in_rect_true in E. pose proof rows_apart.
  unfold texel. apply zread_take; [|done]. unfold rows_size, row_bytes in *. nia.
Qed.

Lemma rows_put_app y h1 h2 source calls1 calls2 : 0 <= h1 -> 0 <= h2 -> h1 * padded <= zlen source \/ h2 = 0 ->
  rows_put y h1 source calls1 -> rows_put (y + h1) h2 (drop (Z.to_nat (h1 * padded)) source) calls2 ->
  rows_put y (h1 + h2) source (calls1 ++ calls2).
Proof.
  intros Hh1 Hh2 Hl P1 P2 texels u v Hu Hv. unfold play_all. rewrite foldl_app. fold (play_all (i_target i) (i_level i) align texels calls1).
  specialize (P2 (play_all (i_target i) (i_level i) align texels calls1) u v Hu Hv). unfold play_all at 1 in P2. rewrite P2, P1 by done.
  destruct (TextureDecoder.in_rect u v _ (y + h1) _ h2) eqn:E2; [apply TextureDecoder.in_rect_true in E2|].
  - assert (TextureDecoder.in_rect u v (i_xoffset i) y (i_width i) (h1 + h2) = true) as -> by (apply TextureDecoder.in_rect_true; lia).
    pose proof rows_apart. unfold texel. rewrite zread_drop by nia. f_equal. ring.
  - assert (TextureDecoder.in_rect u v (i_xoffset i) y (i_width i) (h1 + h2) = TextureDecoder.in_rect u v (i_xoffset i) y (i_width i) h1) as ->; [|done].
    apply eq_true_iff_eq. apply not_true_iff_false in E2. rewrite !TextureDecoder.in_rect_true in *. lia.
Qed.

(** All groups arrive. *)
Lemma sends_by_rows original_height max_rows g : unpack_flip_y_ (pixel_store g) = false ->
  0 < max_rows -> max_rows * padded <= n ->
  forall fuel yoffset height source, 0 <= height <= Z.of_nat fuel -> 0 <= yoffset -> yoffset + height <= lh ->
  (height <> 0 -> rows_size height <= zlen source) ->
  sends n (by_rows cfg fuel i original_height max_rows unpadded padded yoffset height source) g
    (fun _ new => forall dn c, dn.*1 = new.*1 -> Forall2 seen new.*2 dn -> level_ready svc i lw lh align c ->
       exists calls, context_after svc id dn c = Some (foldl (fun c call => gl call c) c calls) /\ rows_put yoffset height source calls).
Proof.
  intros Hflip Hmax Hn. pose proof rows_apart as Hrows. induction fuel as [|fuel IH]; intros yoffset height source Hf Hy1 Hy2 Hs; cbn [by_rows].
  all: destruct (Z.eqb_spec height 0) as [->|Hh];
    [eapply sends_weaken; [|apply sends_ret]; intros ? ? [_ ->] dn c Ed _ _; apply fmap_nil_inv in Ed as ->;
     exists []; split; [done|]; intros texels u v _ _; cbn;
     destruct (TextureDecoder.in_rect _ _ _ _ _ _) eqn:E; [apply TextureDecoder.in_rect_true in E; lia|done]|].
  { lia. }
  specialize (Hs Hh). set (num_rows := Z.min height max_rows).
  assert (0 < num_rows <= max_rows /\ num_rows <= height) as Hnum by lia. clearbody num_rows.
  assert (0 < rows_size num_rows <= n) as Hpart by (unfold rows_size; nia).
  assert (rows_size num_rows <= zlen source) as Hl by (revert Hs; unfold rows_size; nia).
  assert (isize ((num_rows - 1) * padded + unpadded) = rows_size num_rows) as ->.
  { apply (isize_id (rows_size num_rows)). assert (2 ^ 31 <= 2 ^ (size_bits - 1)) by (destruct size_bits_ok as [-> | ->]; done). lia. }
  eapply sends_bind; [by apply sends_get|]. intros ? new1 [-> ->]. rewrite Hflip.
  eapply sends_bind; [apply sends_ret|]. intros ? new2 [-> ->].
  assert (zlen (take (Z.to_nat (rows_size num_rows)) source) = rows_size num_rows) as Hz by (unfold zlen in *; rewrite length_take; lia).
  eapply sends_bind.
  { eapply sends_same; [intros s; apply put_rows_upload, zread_in; [lia..|done]|].
    rewrite drop_0. apply (sends_upload tokens_quiet); [lia|apply room|intros o; split; [apply images_quiet|done]]. }
  intros [] new3 (o & t & -> & Ho). rewrite Hz in Ho.
  eapply sends_bind; [apply sends_int; unfold is_i32; lia|]. intros ? new4 [-> ->].
  eapply sends_weaken; [|apply IH; [lia..|]].
  - cbn [app]. intros _ new Hnew dn c Ed Hd Hc.
    destruct dn as [|x1 [|x2 dn]]; try done. cbn in Ed. injection Ed as E1 E2 E3.
    inversion Hd as [|? ? ? ? D1 Hd']; subst. inversion Hd' as [|? ? ? ? D2 Hd2]; subst.
    set (bytes := take (Z.to_nat (rows_size num_rows)) source) in *.
    pose proof (group_arrives yoffset num_rows source o [x1; x2] t c ltac:(lia) ltac:(lia) ltac:(lia) Hl ltac:(lia) ltac:(lia) ltac:(lia)
      ltac:(cbn; by rewrite E1, E2) ltac:(by repeat constructor) Hc) as Eg.
    destruct (Hnew dn _ E3 Hd2 (level_ready_gl svc i lw lh align (rows_call svc i lw lh yoffset num_rows bytes) c Hc)) as (calls & Ec & Hput).
    exists (rows_call svc i lw lh yoffset num_rows bytes :: calls). split.
    + unfold context_after in *. change (x1 :: x2 :: dn) with ([x1; x2] ++ dn). rewrite foldl_app, Eg. exact Ec.
    + replace height with (num_rows + (height - num_rows)) by lia.
      apply (rows_put_app yoffset num_rows (height - num_rows) source [_] calls); [lia..| | |exact Hput].
      * destruct (decide (height = num_rows)); [right; lia|left]. revert Hs. unfold rows_size. nia.
      * apply rows_put_group; [lia|done..].
  - intros Hh'. unfold zlen in *. rewrite length_drop. revert Hs. unfold rows_size. nia.
Qed.

End images.

(** ** The whole image *)

Section whole.
Context `{Platform} {W : Type} `{ConnectionLaws W serve ok pending history}.
Hypothesis tokens_quiet : forall t, quiet (serve := serve) (SetToken t).
Hypothesis images_quiet : forall args, quiet (serve := serve) (Gl cmds.TexSubImage2D args []).
Variable cfg : ClientConfig.
Hypothesis id_int : is_i32 (transfer_buffer_id_ cfg).

Lemma row_sizes_pitch width format type align s : 0 < width < 2 ^ 31 -> align ∈ [1; 2; 4; 8] -> 0 < group_size format type ->
  row_pitch width format type align < 2 ^ 31 ->
  row_sizes (W := W) width format type align s = Done (Some (row_bytes width format type, row_pitch width format type align), s).
Proof.
  intros Hw Hal Hg Hp. destruct (align_cases align Hal) as [Ha _].
  pose proof (pitch_bounds (row_bytes width format type) align ltac:(lia)) as Hb. fold (row_pitch width format type align) in Hb.
  assert (0 < row_bytes width format type) by (unfold row_bytes; nia).
  assert (2 ^ 31 <= 2 ^ (size_bits - 1)) by (destruct size_bits_ok as [-> | ->]; done).
  assert (forall h, h = 1 \/ h = 2 -> ClientTextures.image_size (W := W) width h format type align s =
    Done (Some (if h =? 2 then row_pitch width format type align + row_bytes width format type else row_bytes width format type), s)) as E.
  { intros h Hh. unfold ClientTextures.image_size. rewrite ComputeImageDataSize_exact by (done || lia).
    fold (row_bytes width format type). unfold GLES2Util.image_size. fold (row_bytes width format type) (row_pitch width format type align).
    destruct Hh as [-> | ->]; cbn [Z.gtb Z.compare Pos.compare Pos.compare_cont Z.eqb Pos.eqb andb].
    - by btrue ((row_bytes width format type <? 2 ^ 32) && (1 * row_bytes width format type <? 2 ^ 32)); rewrite Z.mul_1_l.
    - btrue ((row_bytes width format type <? 2 ^ 32) && ((2 - 1) * row_pitch width format type align + row_bytes width format type <? 2 ^ 32)).
      rewrite u32_id by (unfold is_u32; lia). bfalse (align =? 0). by rewrite Z.mul_1_l. }
  unfold row_sizes, mbind, method_bind. rewrite (E 1) by lia. cbn [obind Z.eqb Pos.eqb]. rewrite (E 2) by lia. cbn [obind Z.eqb Pos.eqb].
  rewrite !isize_id by (rewrite ?isize_id; lia).
  replace (row_pitch width format type align + row_bytes width format type - row_bytes width format type)
    with (row_pitch width format type align) by lia.
  by bfalse ((row_pitch width format type align <? 0) || (row_bytes width format type <? 0)).
Qed.

Lemma sends_TexSubImage2DImpl svc n target level xoffset yoffset width height format type pixels internal align lw lh g :
  let i := mkImage target level xoffset width format type internal in
  0 < n < 2 ^ 31 -> n mod 4 = 0 -> 0 <= level -> 0 <= xoffset -> 0 < width -> xoffset + width <= lw -> lw < 2 ^ 31 ->
  0 <= yoffset -> 0 < height -> yoffset + height <= lh -> lh < 2 ^ 31 ->
  align ∈ [1; 2; 4; 8] -> ClientState.unpack_alignment_ (pixel_store g) = align -> unpack_flip_y_ (pixel_store g) = false ->
  0 < group_size format type -> row_pitch width format type align <= n ->
  (height - 1) * row_pitch width format type align + row_bytes width format type <= zlen pixels ->
  sends (serve := serve) (ok := ok) (pending := pending) (history := history) n
    (TexSubImage2DImpl cfg target level xoffset yoffset width height format type pixels internal) g
    (fun _ new => forall dn c, dn.*1 = new.*1 -> Forall2 seen new.*2 dn -> level_ready svc i lw lh align c ->
       exists calls, context_after svc (transfer_buffer_id_ cfg) dn c = Some (foldl (fun c call => gl call c) c calls) /\
         rows_put align lw lh i yoffset height pixels calls).
Proof.
  intros i Hn Hn4 Hlevel Hx Hw Hxw Hlw Hy1 Hh Hy2 Hlh Hal Ha Hflip Hg Hp Hpix.
  pose proof (rows_apart align lw lh i Hal ltac:(cbn; lia) Hg) as Hr. cbn [i i_width i_format i_type] in Hr.
  unfold TexSubImage2DImpl. bfalse ((level <? 0) || (height <? 0) || (width <? 0)). bfalse ((height =? 0) || (width =? 0)).
  eapply sends_bind; [apply sends_max_transfer|]. intros ? new1 [-> ->].
  eapply sends_bind; [by apply sends_get|]. intros ? new2 [-> ->]. rewrite Ha.
  eapply sends_bind; [apply sends_pure; intros r w; apply row_sizes_pitch; done || lia|]. intros ? new3 [-> ->].
  assert (isize n = n) as ->.
  { apply isize_id. assert (2 ^ 31 <= 2 ^ (size_bits - 1)) by (destruct size_bits_ok as [-> | ->]; done). lia. }
  set (padded := row_pitch width format type align) in *.
  btrue (padded <=? n). rewrite Z.max_l by lia.
  assert (0 < n / padded <= n) as Hmax.
  { split; [apply Z.div_str_pos; lia|]. apply Z.div_le_upper_bound; nia. }
  rewrite i32_id by (unfold is_i32; lia).
  eapply sends_weaken; [|apply (sends_by_rows tokens_quiet images_quiet cfg svc n align lw lh i id_int); cbn; try done; try lia].
  - intros x new Hnew. exact Hnew.
  - fold padded. rewrite Z.mul_comm. apply Z.mul_div_le. lia.
Qed.

(** C7: The rows of an image that a client puts in a texture are in it: in however many groups
    they go through the transfer buffer, and whenever the service gets to them.  The rows are not
    flipped ([unpack_flip_y_]), and at least one of them fits in the transfer buffer.  The
    decoder has a level of the bound texture with the format and type of the image and room for
    it.  [HandleTexSubImage2D] accepts each of the commands, and makes only calls of the driver;
    those give each texel in the rectangle the bytes of its pixel, and leave the others. *)
Theorem TexSubImage2D_arrives svc n target level xoffset yoffset width height format type pixels internal align lw lh g w c :
  let i := mkImage target level xoffset width format type internal in
  at_work (serve := serve) (ok := ok) (pending := pending) (history := history) n (g, w) ->
  0 < n < 2 ^ 31 -> n mod 4 = 0 -> 0 <= level -> 0 <= xoffset -> 0 < width -> xoffset + width <= lw -> lw < 2 ^ 31 ->
  0 <= yoffset -> 0 < height -> yoffset + height <= lh -> lh < 2 ^ 31 ->
  align ∈ [1; 2; 4; 8] -> ClientState.unpack_alignment_ (pixel_store g) = align -> unpack_flip_y_ (pixel_store g) = false ->
  0 < group_size format type -> row_pitch width format type align <= n ->
  (height - 1) * row_pitch width format type align + row_bytes width format type <= zlen pixels ->
  level_ready svc i lw lh align c ->
  exists g' w1 w2 before dn calls,
    TexSubImage2DImpl cfg target level xoffset yoffset width height format type pixels internal (g, w) = Done ((), (g', w1)) /\
    Connection.Finish w1 = Done w2 /\ history w2 = before ++ dn /\ before.*1 = (history w).*1 ++ pending w /\
    context_after svc (transfer_buffer_id_ cfg) dn c = Some (foldl (fun c call => gl call c) c calls) /\
    (forall texels u v, 0 <= u < lw -> 0 <= v < lh ->
       play_all target level align texels calls u v =
         if TextureDecoder.in_rect u v xoffset yoffset width height
         then texel width format type align (u - xoffset) (v - yoffset) pixels else texels u v) /\
    unchanged g g'.
Proof.
  intros i Hwork Hn Hn4 Hlevel Hx Hw Hxw Hlw Hy1 Hh Hy2 Hlh Hal Ha Hflip Hg Hp Hpix Hc.
  destruct (sends_arrives _ _ _ _ _ (sends_TexSubImage2DImpl svc n target level xoffset yoffset width height format type pixels internal
    align lw lh g Hn Hn4 Hlevel Hx Hw Hxw Hlw Hy1 Hh Hy2 Hlh Hal Ha Hflip Hg Hp Hpix) Hwork)
    as ([] & new & g' & w1 & w2 & before & dn & E1 & E2 & _ & Hu & Himage & _ & E3 & E4 & E5 & Hs).
  destruct (Himage dn c E5 Hs Hc) as (calls & Ec & Hput). by exists g', w1, w2, before, dn, calls.
Qed.

End whole.
