(* ===== verification/GLES2Dispatch.v ===== *)
(** * From command words to handlers

    The switch of [GLES2DecoderImpl::DoCommand] ([gles2_cmd_decoder.cc]): a command whose number
    of arguments is right is read out of the ring buffer as its struct, and its handler takes
    the fields from the struct.  Here the words become the commands of [ContextCommands.v],
    [ProgramCommands.v] and [DecoderCommands.v]; the handlers of the six others are a
    parameter. *)

From S2P Require Import Prelude CmdFormat GLES2Format GLES2Commands CommandBufferService CmdParser CommonDecoder GpuScheduler.
From Stdlib Require Import ZArith Lia ZifyBool Bool.
From stdpp Require Import base list numbers option strings gmap.
From S2P Require Import Validators FeatureInfo IdAllocator ContextState ContextInvariant ReadPixels.
From S2P Require Import Uniforms ShaderManager ProgramManager ProgramInvariant ProgramCounting ProgramDecoder ProgramSafety.
From S2P Require Import GLConstants QueryDecoder VertexAttribManager DrawValidation ContextCommands ProgramCommands DecoderState HandlerSafety QuerySafety StateDecoder DrawCalls DecoderCommands.
Local Open Scope Z_scope.

(** ** The commands *)

Section tables.
(** The service ids that the driver generates for a command that asks for [n]. *)
Variable generated : Z -> list Z.

(** Textures, renderbuffers, framebuffers, the clear state. *)
Definition context_commands : list (Struct * (list Z -> list Z -> option ContextCommands.Command)) :=
  [(cmds.GenTextures, fun f _ =>
     match f with
     | [n; shm_id; shm_offset] =>
         Some (ContextCommands.GenTextures (generated n) n shm_id shm_offset)
     | _ => None
     end);
   (cmds.GenTexturesImmediate, fun f data =>
     match f with
     | [n] =>
         Some (ContextCommands.GenTexturesImmediate (generated n) n data)
     | _ => None
     end);
   (cmds.GenRenderbuffers, fun f _ =>
     match f with
     | [n; shm_id; shm_offset] =>
         Some (ContextCommands.GenRenderbuffers (generated n) n shm_id shm_offset)
     | _ => None
     end);
   (cmds.GenRenderbuffersImmediate, fun f data =>
     match f with
     | [n] =>
         Some (ContextCommands.GenRenderbuffersImmediate (generated n) n data)
     | _ => None
     end);
   (cmds.GenFramebuffers, fun f _ =>
     match f with
     | [n; shm_id; shm_offset] =>
         Some (ContextCommands.GenFramebuffers (generated n) n shm_id shm_offset)
     | _ => None
     end);
   (cmds.GenFramebuffersImmediate, fun f data =>
     match f with
     | [n] =>
         Some (ContextCommands.GenFramebuffersImmediate (generated n) n data)
     | _ => None
     end);
   (cmds.DeleteTextures, fun f _ =>
     match f with
     | [n; shm_id; shm_offset] =>
         Some (ContextCommands.DeleteTextures n shm_id shm_offset)
     | _ => None
     end);
   (cmds.DeleteTexturesImmediate, fun f data =>
     match f with
     | [n] =>
         Some (ContextCommands.DeleteTexturesImmediate n data)
     | _ => None
     end);
   (cmds.DeleteRenderbuffers, fun f _ =>
     match f with
     | [n; shm_id; shm_offset] =>
         Some (ContextCommands.DeleteRenderbuffers n shm_id shm_offset)
     | _ => None
     end);
   (cmds.DeleteRenderbuffersImmediate, fun f data =>
     match f with
     | [n] =>
         Some (ContextCommands.DeleteRenderbuffersImmediate n data)
     | _ => None
     end);
   (cmds.DeleteFramebuffers, fun f _ =>
     match f with
     | [n; shm_id; shm_offset] =>
         Some (ContextCommands.DeleteFramebuffers n shm_id shm_offset)
     | _ => None
     end);
   (cmds.DeleteFramebuffersImmediate, fun f data =>
     match f with
     | [n] =>
         Some (ContextCommands.DeleteFramebuffersImmediate n data)
     | _ => None
     end);
   (cmds.IsTexture, fun f _ =>
     match f with
     | [texture; shm_id; shm_offset] =>
         Some (ContextCommands.IsTexture texture shm_id shm_offset)
     | _ => None
     end);
   (cmds.IsRenderbuffer, fun f _ =>
     match f with
     | [renderbuffer; shm_id; shm_offset] =>
         Some (ContextCommands.IsRenderbuffer renderbuffer shm_id shm_offset)
     | _ => None
     end);
   (cmds.IsFramebuffer, fun f _ =>
     match f with
     | [framebuffer; shm_id; shm_offset] =>
         Some (ContextCommands.IsFramebuffer framebuffer shm_id shm_offset)
     | _ => None
     end);
   (cmds.CheckFramebufferStatus, fun f _ =>
     match f with
     | [target; shm_id; shm_offset] =>
         Some (ContextCommands.CheckFramebufferStatus target shm_id shm_offset)
     | _ => None
     end);
   (cmds.ActiveTexture, fun f _ =>
     match f with
     | [texture] =>
         Some (ContextCommands.ActiveTexture texture)
     | _ => None
     end);
   (cmds.BindTexture, fun f _ =>
     match f with
     | [target; texture] =>
         Some (ContextCommands.BindTexture target texture)
     | _ => None
     end);
   (cmds.BindRenderbuffer, fun f _ =>
     match f with
     | [target; renderbuffer] =>
         Some (ContextCommands.BindRenderbuffer target renderbuffer)
     | _ => None
     end);
   (cmds.BindFramebuffer, fun f _ =>
     match f with
     | [target; framebuffer] =>
         Some (ContextCommands.BindFramebuffer target framebuffer)
     | _ => None
     end);
   (cmds.TexParameteri, fun f _ =>
     match f with
     | [target; pname; param] =>
         Some (ContextCommands.TexParameteri target pname param)
     | _ => None
     end);
   (cmds.GenerateMipmap, fun f _ =>
     match f with
     | [target] =>
         Some (ContextCommands.GenerateMipmap target)
     | _ => None
     end);
   (cmds.PixelStorei, fun f _ =>
     match f with
     | [pname; param] =>
         Some (ContextCommands.PixelStorei pname (u32 param))
     | _ => None
     end);
   (cmds.TexImage2D, fun f _ =>
     match f with
     | [target; level; internalformat; width; height; border; format; type; shm_id; shm_offset] =>
         Some (ContextCommands.TexImage2D target level internalformat width height border format
           type shm_id shm_offset)
     | _ => None
     end);
   (cmds.TexImage2DImmediate, fun f data =>
     match f with
     | [target; level; internalformat; width; height; border; format; type] =>
         Some (ContextCommands.TexImage2DImmediate target level internalformat width height
           border format type data)
     | _ => None
     end);
   (cmds.TexSubImage2D, fun f _ =>
     match f with
     | [target; level; xoffset; yoffset; width; height; format; type; shm_id; shm_offset;
       internal] =>
         Some (ContextCommands.TexSubImage2D target level xoffset yoffset width height format
           type shm_id shm_offset (u8 internal))
     | _ => None
     end);
   (cmds.TexSubImage2DImmediate, fun f data =>
     match f with
     | [target; level; xoffset; yoffset; width; height; format; type; internal] =>
         Some (ContextCommands.TexSubImage2DImmediate target level xoffset yoffset width height
           format type (u8 internal) data)
     | _ => None
     end);
   (cmds.CompressedTexImage2D, fun f _ =>
     match f with
     | [target; level; internalformat; width; height; border; image_size; shm_id; shm_offset] =>
         Some (ContextCommands.CompressedTexImage2D target level internalformat width height
           border image_size shm_id shm_offset)
     | _ => None
     end);
   (cmds.CompressedTexImage2DImmediate, fun f data =>
     match f with
     | [target; level; internalformat; width; height; border; image_size] =>
         Some (ContextCommands.CompressedTexImage2DImmediate target level internalformat width
           height border image_size data)
     | _ => None
     end);
   (cmds.CompressedTexImage2DBucket, fun f _ =>
     match f with
     | [target; level; internalformat; width; height; border; bucket_id] =>
         Some (ContextCommands.CompressedTexImage2DBucket target level internalformat width
           height border bucket_id)
     | _ => None
     end);
   (cmds.CompressedTexSubImage2D, fun f _ =>
     match f with
     | [target; level; xoffset; yoffset; width; height; format; image_size; shm_id; shm_offset] =>
         Some (ContextCommands.CompressedTexSubImage2D target level xoffset yoffset width height
           format image_size shm_id shm_offset)
     | _ => None
     end);
   (cmds.CompressedTexSubImage2DBucket, fun f _ =>
     match f with
     | [target; level; xoffset; yoffset; width; height; format; bucket_id] =>
         Some (ContextCommands.CompressedTexSubImage2DBucket target level xoffset yoffset width
           height format bucket_id)
     | _ => None
     end);
   (cmds.CopyTexImage2D, fun f _ =>
     match f with
     | [target; level; internalformat; x; y; width; height; border] =>
         Some (ContextCommands.CopyTexImage2D target level internalformat x y width height border)
     | _ => None
     end);
   (cmds.CopyTexSubImage2D, fun f _ =>
     match f with
     | [target; level; xoffset; yoffset; x; y; width; height] =>
         Some (ContextCommands.CopyTexSubImage2D target level xoffset yoffset x y width height)
     | _ => None
     end);
   (cmds.FramebufferRenderbuffer, fun f _ =>
     match f with
     | [target; attachment; renderbuffertarget; renderbuffer] =>
         Some (ContextCommands.FramebufferRenderbuffer target attachment renderbuffertarget
           renderbuffer)
     | _ => None
     end);
   (cmds.FramebufferTexture2D, fun f _ =>
     match f with
     | [target; attachment; textarget; texture; level] =>
         Some (ContextCommands.FramebufferTexture2D target attachment textarget texture level)
     | _ => None
     end);
   (cmds.RenderbufferStorage, fun f _ =>
     match f with
     | [target; internalformat; width; height] =>
         Some (ContextCommands.RenderbufferStorage target internalformat width height)
     | _ => None
     end);
   (cmds.RenderbufferStorageMultisampleEXT, fun f _ =>
     match f with
     | [target; samples; internalformat; width; height] =>
         Some (ContextCommands.RenderbufferStorageMultisampleEXT target samples internalformat
           width height)
     | _ => None
     end);
   (cmds.BlitFramebufferEXT, fun f _ =>
     match f with
     | [srcX0; srcY0; srcX1; srcY1; dstX0; dstY0; dstX1; dstY1; mask; filter_] =>
         Some (ContextCommands.BlitFramebufferEXT srcX0 srcY0 srcX1 srcY1 dstX0 dstY0 dstX1 dstY1
           mask filter_)
     | _ => None
     end);
   (cmds.Enable, fun f _ =>
     match f with
     | [cap] =>
         Some (ContextCommands.Enable cap)
     | _ => None
     end);
   (cmds.Disable, fun f _ =>
     match f with
     | [cap] =>
         Some (ContextCommands.Disable cap)
     | _ => None
     end);
   (cmds.ClearColor, fun f _ =>
     match f with
     | [red; green; blue; alpha] =>
         Some (ContextCommands.ClearColor red green blue alpha)
     | _ => None
     end);
   (cmds.ClearDepthf, fun f _ =>
     match f with
     | [depth] =>
         Some (ContextCommands.ClearDepthf depth)
     | _ => None
     end);
   (cmds.ClearStencil, fun f _ =>
     match f with
     | [s] =>
         Some (ContextCommands.ClearStencil s)
     | _ => None
     end);
   (cmds.ColorMask, fun f _ =>
     match f with
     | [red; green; blue; alpha] =>
         Some (ContextCommands.ColorMask (u8 red) (u8 green) (u8 blue) (u8 alpha))
     | _ => None
     end);
   (cmds.DepthMask, fun f _ =>
     match f with
     | [flag] =>
         Some (ContextCommands.DepthMask (u8 flag))
     | _ => None
     end);
   (cmds.StencilMask, fun f _ =>
     match f with
     | [mask] =>
         Some (ContextCommands.StencilMask mask)
     | _ => None
     end);
   (cmds.StencilMaskSeparate, fun f _ =>
     match f with
     | [face; mask] =>
         Some (ContextCommands.StencilMaskSeparate face mask)
     | _ => None
     end);
   (cmds.Clear, fun f _ =>
     match f with
     | [mask] =>
         Some (ContextCommands.Clear mask)
     | _ => None
     end);
   (cmds.ReadPixels, fun f _ =>
     match f with
     | [x; y; width; height; format; type; pixels_shm_id; pixels_shm_offset; result_shm_id;
       result_shm_offset] =>
         Some (ContextCommands.ReadPixels x y width height format type pixels_shm_id
           pixels_shm_offset result_shm_id result_shm_offset)
     | _ => None
     end)].

(** Shaders, programs and uniforms. *)
Definition program_commands : list (Struct * (list Z -> list Z -> option ProgramCommands.ProgramCommand)) :=
  [(cmds.CreateProgram, fun f _ =>
     match f with
     | [client_id] =>
         Some (ProgramCommands.CreateProgram client_id)
     | _ => None
     end);
   (cmds.CreateShader, fun f _ =>
     match f with
     | [type; client_id] =>
         Some (ProgramCommands.CreateShader type client_id)
     | _ => None
     end);
   (cmds.DeleteProgram, fun f _ =>
     match f with
     | [program] =>
         Some (ProgramCommands.DeleteProgram program)
     | _ => None
     end);
   (cmds.DeleteShader, fun f _ =>
     match f with
     | [shader] =>
         Some (ProgramCommands.DeleteShader shader)
     | _ => None
     end);
   (cmds.AttachShader, fun f _ =>
     match f with
     | [program; shader] =>
         Some (ProgramCommands.AttachShader program shader)
     | _ => None
     end);
   (cmds.DetachShader, fun f _ =>
     match f with
     | [program; shader] =>
         Some (ProgramCommands.DetachShader program shader)
     | _ => None
     end);
   (cmds.LinkProgram, fun f _ =>
     match f with
     | [program] =>
         Some (ProgramCommands.LinkProgram program)
     | _ => None
     end);
   (cmds.ValidateProgram, fun f _ =>
     match f with
     | [program] =>
         Some (ProgramCommands.ValidateProgram program)
     | _ => None
     end);
   (cmds.UseProgram, fun f _ =>
     match f with
     | [program] =>
         Some (ProgramCommands.UseProgram program)
     | _ => None
     end);
   (cmds.CompileShader, fun f _ =>
     match f with
     | [shader] =>
         Some (ProgramCommands.CompileShader shader)
     | _ => None
     end);
   (cmds.ShaderSource, fun f _ =>
     match f with
     | [shader; shm_id; shm_offset; data_size] =>
         Some (ProgramCommands.ShaderSource shader shm_id shm_offset data_size)
     | _ => None
     end);
   (cmds.ShaderSourceImmediate, fun f data =>
     match f with
     | [shader; data_size] =>
         Some (ProgramCommands.ShaderSourceImmediate shader data_size data)
     | _ => None
     end);
   (cmds.ShaderSourceBucket, fun f _ =>
     match f with
     | [shader; bucket_id] =>
         Some (ProgramCommands.ShaderSourceBucket shader bucket_id)
     | _ => None
     end);
   (cmds.BindAttribLocation, fun f _ =>
     match f with
     | [program; index; shm_id; shm_offset; data_size] =>
         Some (ProgramCommands.BindAttribLocation program index shm_id shm_offset data_size)
     | _ => None
     end);
   (cmds.BindAttribLocationImmediate, fun f data =>
     match f with
     | [program; index; data_size] =>
         Some (ProgramCommands.BindAttribLocationImmediate program index data_size data)
     | _ => None
     end);
   (cmds.BindAttribLocationBucket, fun f _ =>
     match f with
     | [program; index; bucket_id] =>
         Some (ProgramCommands.BindAttribLocationBucket program index bucket_id)
     | _ => None
     end);
   (cmds.Uniform1f, fun f _ =>
     match f with
     | [location; x] =>
         Some (ProgramCommands.Uniform1f location x)
     | _ => None
     end);
   (cmds.Uniform1i, fun f _ =>
     match f with
     | [location; x] =>
         Some (ProgramCommands.Uniform1i location x)
     | _ => None
     end);
   (cmds.Uniform2f, fun f _ =>
     match f with
     | [location; x; y] =>
         Some (ProgramCommands.Uniform2f location x y)
     | _ => None
     end);
   (cmds.Uniform2i, fun f _ =>
     match f with
     | [location; x; y] =>
         Some (ProgramCommands.Uniform2i location x y)
     | _ => None
     end);
   (cmds.Uniform3f, fun f _ =>
     match f with
     | [location; x; y; z] =>
         Some (ProgramCommands.Uniform3f location x y z)
     | _ => None
     end);
   (cmds.Uniform3i, fun f _ =>
     match f with
     | [location; x; y; z] =>
         Some (ProgramCommands.Uniform3i location x y z)
     | _ => None
     end);
   (cmds.Uniform4f, fun f _ =>
     match f with
     | [location; x; y; z; w] =>
         Some (ProgramCommands.Uniform4f location x y z w)
     | _ => None
     end);
   (cmds.Uniform4i, fun f _ =>
     match f with
     | [location; x; y; z; w] =>
         Some (ProgramCommands.Uniform4i location x y z w)
     | _ => None
     end);
   (cmds.Uniform1fv, fun f _ =>
     match f with
     | [location; count; shm_id; shm_offset] =>
         Some (ProgramCommands.Uniform1fv location count shm_id shm_offset)
     | _ => None
     end);
   (cmds.Uniform1fvImmediate, fun f data =>
     match f with
     | [location; count] =>
         Some (ProgramCommands.Uniform1fvImmediate location count data)
     | _ => None
     end);
   (cmds.Uniform1iv, fun f _ =>
     match f with
     | [location; count; shm_id; shm_offset] =>
         Some (ProgramCommands.Uniform1iv location count shm_id shm_offset)
     | _ => None
     end);
   (cmds.Uniform1ivImmediate, fun f data =>
     match f with
     | [location; count] =>
         Some (ProgramCommands.Uniform1ivImmediate location count data)
     | _ => None
     end);
   (cmds.Uniform2fv, fun f _ =>
     match f with
     | [location; count; shm_id; shm_offset] =>
         Some (ProgramCommands.Uniform2fv location count shm_id shm_offset)
     | _ => None
     end);
   (cmds.Uniform2fvImmediate, fun f data =>
     match f with
     | [location; count] =>
         Some (ProgramCommands.Uniform2fvImmediate location count data)
     | _ => None
     end);
   (cmds.Uniform2iv, fun f _ =>
     match f with
     | [location; count; shm_id; shm_offset] =>
         Some (ProgramCommands.Uniform2iv location count shm_id shm_offset)
     | _ => None
     end);
   (cmds.Uniform2ivImmediate, fun f data =>
     match f with
     | [location; count] =>
         Some (ProgramCommands.Uniform2ivImmediate location count data)
     | _ => None
     end);
   (cmds.Uniform3fv, fun f _ =>
     match f with
     | [location; count; shm_id; shm_offset] =>
         Some (ProgramCommands.Uniform3fv location count shm_id shm_offset)
     | _ => None
     end);
   (cmds.Uniform3fvImmediate, fun f data =>
     match f with
     | [location; count] =>
         Some (ProgramCommands.Uniform3fvImmediate location count data)
     | _ => None
     end);
   (cmds.Uniform3iv, fun f _ =>
     match f with
     | [location; count; shm_id; shm_offset] =>
         Some (ProgramCommands.Uniform3iv location count shm_id shm_offset)
     | _ => None
     end);
   (cmds.Uniform3ivImmediate, fun f data =>
     match f with
     | [location; count] =>
         Some (ProgramCommands.Uniform3ivImmediate location count data)
     | _ => None
     end);
   (cmds.Uniform4fv, fun f _ =>
     match f with
     | [location; count; shm_id; shm_offset] =>
         Some (ProgramCommands.Uniform4fv location count shm_id shm_offset)
     | _ => None
     end);
   (cmds.Uniform4fvImmediate, fun f data =>
     match f with
     | [location; count] =>
         Some (ProgramCommands.Uniform4fvImmediate location count data)
     | _ => None
     end);
   (cmds.Uniform4iv, fun f _ =>
     match f with
     | [location; count; shm_id; shm_offset] =>
         Some (ProgramCommands.Uniform4iv location count shm_id shm_offset)
     | _ => None
     end);
   (cmds.Uniform4ivImmediate, fun f data =>
     match f with
     | [location; count] =>
         Some (ProgramCommands.Uniform4ivImmediate location count data)
     | _ => None
     end);
   (cmds.UniformMatrix2fv, fun f _ =>
     match f with
     | [location; count; transpose; shm_id; shm_offset] =>
         Some (ProgramCommands.UniformMatrix2fv location count (u8 transpose) shm_id shm_offset)
     | _ => None
     end);
   (cmds.UniformMatrix2fvImmediate, fun f data =>
     match f with
     | [location; count; transpose] =>
         Some (ProgramCommands.UniformMatrix2fvImmediate location count (u8 transpose) data)
     | _ => None
     end);
   (cmds.UniformMatrix3fv, fun f _ =>
     match f with
     | [location; count; transpose; shm_id; shm_offset] =>
         Some (ProgramCommands.UniformMatrix3fv location count (u8 transpose) shm_id shm_offset)
     | _ => None
     end);
   (cmds.UniformMatrix3fvImmediate, fun f data =>
     match f with
     | [location; count; transpose] =>
         Some (ProgramCommands.UniformMatrix3fvImmediate location count (u8 transpose) data)
     | _ => None
     end);
   (cmds.UniformMatrix4fv, fun f _ =>
     match f with
     | [location; count; transpose; shm_id; shm_offset] =>
         Some (ProgramCommands.UniformMatrix4fv location count (u8 transpose) shm_id shm_offset)
     | _ => None
     end);
   (cmds.UniformMatrix4fvImmediate, fun f data =>
     match f with
     | [location; count; transpose] =>
         Some (ProgramCommands.UniformMatrix4fvImmediate location count (u8 transpose) data)
     | _ => None
     end);
   (cmds.GetAttribLocation, fun f _ =>
     match f with
     | [program; name_shm_id; name_shm_offset; shm_id; shm_offset; data_size] =>
         Some (ProgramCommands.GetAttribLocation program name_shm_id name_shm_offset data_size
           shm_id shm_offset)
     | _ => None
     end);
   (cmds.GetAttribLocationImmediate, fun f data =>
     match f with
     | [program; shm_id; shm_offset; data_size] =>
         Some (ProgramCommands.GetAttribLocationImmediate program data_size data shm_id
           shm_offset)
     | _ => None
     end);
   (cmds.GetAttribLocationBucket, fun f _ =>
     match f with
     | [program; bucket_id; shm_id; shm_offset] =>
         Some (ProgramCommands.GetAttribLocationBucket program bucket_id shm_id shm_offset)
     | _ => None
     end);
   (cmds.GetUniformLocation, fun f _ =>
     match f with
     | [program; name_shm_id; name_shm_offset; shm_id; shm_offset; data_size] =>
         Some (ProgramCommands.GetUniformLocation program name_shm_id name_shm_offset data_size
           shm_id shm_offset)
     | _ => None
     end);
   (cmds.GetUniformLocationImmediate, fun f data =>
     match f with
     | [program; shm_id; shm_offset; data_size] =>
         Some (ProgramCommands.GetUniformLocationImmediate program data_size data shm_id
           shm_offset)
     | _ => None
     end);
   (cmds.GetUniformLocationBucket, fun f _ =>
     match f with
     | [program; bucket_id; shm_id; shm_offset] =>
         Some (ProgramCommands.GetUniformLocationBucket program bucket_id shm_id shm_offset)
     | _ => None
     end);
   (cmds.GetProgramiv, fun f _ =>
     match f with
     | [program; pname; shm_id; shm_offset] =>
         Some (ProgramCommands.GetProgramiv program pname shm_id shm_offset)
     | _ => None
     end);
   (cmds.GetShaderiv, fun f _ =>
     match f with
     | [shader; pname; shm_id; shm_offset] =>
         Some (ProgramCommands.GetShaderiv shader pname shm_id shm_offset)
     | _ => None
     end);
   (cmds.IsProgram, fun f _ =>
     match f with
     | [program; shm_id; shm_offset] =>
         Some (ProgramCommands.IsProgram program shm_id shm_offset)
     | _ => None
     end);
   (cmds.IsShader, fun f _ =>
     match f with
     | [shader; shm_id; shm_offset] =>
         Some (ProgramCommands.IsShader shader shm_id shm_offset)
     | _ => None
     end);
   (cmds.GetShaderSource, fun f _ =>
     match f with
     | [shader; bucket_id] =>
         Some (ProgramCommands.GetShaderSource shader bucket_id)
     | _ => None
     end);
   (cmds.GetTranslatedShaderSourceANGLE, fun f _ =>
     match f with
     | [shader; bucket_id] =>
         Some (ProgramCommands.GetTranslatedShaderSourceANGLE shader bucket_id)
     | _ => None
     end);
   (cmds.GetShaderInfoLog, fun f _ =>
     match f with
     | [shader; bucket_id] =>
         Some (ProgramCommands.GetShaderInfoLog shader bucket_id)
     | _ => None
     end);
   (cmds.GetProgramInfoLog, fun f _ =>
     match f with
     | [program; bucket_id] =>
         Some (ProgramCommands.GetProgramInfoLog program bucket_id)
     | _ => None
     end);
   (cmds.GetActiveUniform, fun f _ =>
     match f with
     | [program; index; bucket_id; shm_id; shm_offset] =>
         Some (ProgramCommands.GetActiveUniform program index bucket_id shm_id shm_offset)
     | _ => None
     end);
   (cmds.GetActiveAttrib, fun f _ =>
     match f with
     | [program; index; bucket_id; shm_id; shm_offset] =>
         Some (ProgramCommands.GetActiveAttrib program index bucket_id shm_id shm_offset)
     | _ => None
     end);
   (cmds.GetProgramInfoCHROMIUM, fun f _ =>
     match f with
     | [program; bucket_id] =>
         Some (ProgramCommands.GetProgramInfoCHROMIUM program bucket_id)
     | _ => None
     end);
   (cmds.GetUniformiv, fun f _ =>
     match f with
     | [program; location; shm_id; shm_offset] =>
         Some (ProgramCommands.GetUniformiv program location shm_id shm_offset)
     | _ => None
     end);
   (cmds.GetUniformfv, fun f _ =>
     match f with
     | [program; location; shm_id; shm_offset] =>
         Some (ProgramCommands.GetUniformfv program location shm_id shm_offset)
     | _ => None
     end);
   (cmds.GetAttachedShaders, fun f _ =>
     match f with
     | [program; shm_id; shm_offset; result_size] =>
         Some (ProgramCommands.GetAttachedShaders program shm_id shm_offset result_size)
     | _ => None
     end)].

(** Buffers, vertex attributes, the state of the driver, draw calls and questions. *)
Definition decoder_commands : list (Struct * (list Z -> list Z -> option DecoderCommands.DecoderCommand)) :=
  [(cmds.GenBuffers, fun f _ =>
     match f with
     | [n; shm_id; shm_offset] =>
         Some (DecoderCommands.GenBuffers n shm_id shm_offset)
     | _ => None
     end);
   (cmds.GenBuffersImmediate, fun f data =>
     match f with
     | [n] =>
         Some (DecoderCommands.GenBuffersImmediate n data)
     | _ => None
     end);
   (cmds.DeleteBuffers, fun f _ =>
     match f with
     | [n; shm_id; shm_offset] =>
         Some (DecoderCommands.DeleteBuffers n shm_id shm_offset)
     | _ => None
     end);
   (cmds.DeleteBuffersImmediate, fun f data =>
     match f with
     | [n] =>
         Some (DecoderCommands.DeleteBuffersImmediate n data)
     | _ => None
     end);
   (cmds.BindBuffer, fun f _ =>
     match f with
     | [target; buffer] =>
         Some (DecoderCommands.BindBuffer target buffer)
     | _ => None
     end);
   (cmds.BufferData, fun f _ =>
     match f with
     | [target; size; data_shm_id; data_shm_offset; usage] =>
         Some (DecoderCommands.BufferData target size data_shm_id data_shm_offset usage)
     | _ => None
     end);
   (cmds.BufferDataImmediate, fun f data =>
     match f with
     | [target; size; usage] =>
         Some (DecoderCommands.BufferDataImmediate target size usage data)
     | _ => None
     end);
   (cmds.BufferSubData, fun f _ =>
     match f with
     | [target; offset; size; data_shm_id; data_shm_offset] =>
         Some (DecoderCommands.BufferSubData target offset size data_shm_id data_shm_offset)
     | _ => None
     end);
   (cmds.BufferSubDataImmediate, fun f data =>
     match f with
     | [target; offset; size] =>
         Some (DecoderCommands.BufferSubDataImmediate target offset size data)
     | _ => None
     end);
   (cmds.IsBuffer, fun f _ =>
     match f with
     | [buffer; shm_id; shm_offset] =>
         Some (DecoderCommands.IsBuffer buffer shm_id shm_offset)
     | _ => None
     end);
   (cmds.GetMaxValueInBufferCHROMIUM, fun f _ =>
     match f with
     | [buffer_id; count; type; offset; shm_id; shm_offset] =>
         Some (DecoderCommands.GetMaxValueInBufferCHROMIUM buffer_id count type offset shm_id
           shm_offset)
     | _ => None
     end);
   (cmds.EnableVertexAttribArray, fun f _ =>
     match f with
     | [index] =>
         Some (DecoderCommands.EnableVertexAttribArray index)
     | _ => None
     end);
   (cmds.DisableVertexAttribArray, fun f _ =>
     match f with
     | [index] =>
         Some (DecoderCommands.DisableVertexAttribArray index)
     | _ => None
     end);
   (cmds.VertexAttribPointer, fun f _ =>
     match f with
     | [indx; size; type; normalized; stride; offset] =>
         Some (DecoderCommands.VertexAttribPointer indx size type (u8 normalized) stride (i32
           offset))
     | _ => None
     end);
   (cmds.VertexAttrib1f, fun f _ =>
     match f with
     | [indx; x] =>
         Some (DecoderCommands.VertexAttrib1f indx x)
     | _ => None
     end);
   (cmds.VertexAttrib2f, fun f _ =>
     match f with
     | [indx; x; y] =>
         Some (DecoderCommands.VertexAttrib2f indx x y)
     | _ => None
     end);
   (cmds.VertexAttrib3f, fun f _ =>
     match f with
     | [indx; x; y; z] =>
         Some (DecoderCommands.VertexAttrib3f indx x y z)
     | _ => None
     end);
   (cmds.VertexAttrib4f, fun f _ =>
     match f with
     | [indx; x; y; z; w] =>
         Some (DecoderCommands.VertexAttrib4f indx x y z w)
     | _ => None
     end);
   (cmds.VertexAttrib1fv, fun f _ =>
     match f with
     | [indx; shm_id; shm_offset] =>
         Some (DecoderCommands.VertexAttrib1fv indx shm_id shm_offset)
     | _ => None
     end);
   (cmds.VertexAttrib2fv, fun f _ =>
     match f with
     | [indx; shm_id; shm_offset] =>
         Some (DecoderCommands.VertexAttrib2fv indx shm_id shm_offset)
     | _ => None
     end);
   (cmds.VertexAttrib3fv, fun f _ =>
     match f with
     | [indx; shm_id; shm_offset] =>
         Some (DecoderCommands.VertexAttrib3fv indx shm_id shm_offset)
     | _ => None
     end);
   (cmds.VertexAttrib4fv, fun f _ =>
     match f with
     | [indx; shm_id; shm_offset] =>
         Some (DecoderCommands.VertexAttrib4fv indx shm_id shm_offset)
     | _ => None
     end);
   (cmds.VertexAttrib1fvImmediate, fun f data =>
     match f with
     | [indx] =>
         Some (DecoderCommands.VertexAttrib1fvImmediate indx data)
     | _ => None
     end);
   (cmds.VertexAttrib2fvImmediate, fun f data =>
     match f with
     | [indx] =>
         Some (DecoderCommands.VertexAttrib2fvImmediate indx data)
     | _ => None
     end);
   (cmds.VertexAttrib3fvImmediate, fun f data =>
     match f with
     | [indx] =>
         Some (DecoderCommands.VertexAttrib3fvImmediate indx data)
     | _ => None
     end);
   (cmds.VertexAttrib4fvImmediate, fun f data =>
     match f with
     | [indx] =>
         Some (DecoderCommands.VertexAttrib4fvImmediate indx data)
     | _ => None
     end);
   (cmds.GetVertexAttribPointerv, fun f _ =>
     match f with
     | [index; pname; shm_id; shm_offset] =>
         Some (DecoderCommands.GetVertexAttribPointerv index pname shm_id shm_offset)
     | _ => None
     end);
   (cmds.GetBooleanv, fun f _ =>
     match f with
     | [pname; shm_id; shm_offset] =>
         Some (DecoderCommands.GetBooleanv pname shm_id shm_offset)
     | _ => None
     end);
   (cmds.GetFloatv, fun f _ =>
     match f with
     | [pname; shm_id; shm_offset] =>
         Some (DecoderCommands.GetFloatv pname shm_id shm_offset)
     | _ => None
     end);
   (cmds.GetIntegerv, fun f _ =>
     match f with
     | [pname; shm_id; shm_offset] =>
         Some (DecoderCommands.GetIntegerv pname shm_id shm_offset)
     | _ => None
     end);
   (cmds.GetBufferParameteriv, fun f _ =>
     match f with
     | [target; pname; shm_id; shm_offset] =>
         Some (DecoderCommands.GetBufferParameteriv target pname shm_id shm_offset)
     | _ => None
     end);
   (cmds.GetTexParameterfv, fun f _ =>
     match f with
     | [target; pname; shm_id; shm_offset] =>
         Some (DecoderCommands.GetTexParameterfv target pname shm_id shm_offset)
     | _ => None
     end);
   (cmds.GetTexParameteriv, fun f _ =>
     match f with
     | [target; pname; shm_id; shm_offset] =>
         Some (DecoderCommands.GetTexParameteriv target pname shm_id shm_offset)
     | _ => None
     end);
   (cmds.GetFramebufferAttachmentParameteriv, fun f _ =>
     match f with
     | [target; attachment; pname; shm_id; shm_offset] =>
         Some (DecoderCommands.GetFramebufferAttachmentParameteriv target attachment pname shm_id
           shm_offset)
     | _ => None
     end);
   (cmds.GetRenderbufferParameteriv, fun f _ =>
     match f with
     | [target; pname; shm_id; shm_offset] =>
         Some (DecoderCommands.GetRenderbufferParameteriv target pname shm_id shm_offset)
     | _ => None
     end);
   (cmds.GetVertexAttribfv, fun f _ =>
     match f with
     | [index; pname; shm_id; shm_offset] =>
         Some (DecoderCommands.GetVertexAttribfv index pname shm_id shm_offset)
     | _ => None
     end);
   (cmds.GetVertexAttribiv, fun f _ =>
     match f with
     | [index; pname; shm_id; shm_offset] =>
         Some (DecoderCommands.GetVertexAttribiv index pname shm_id shm_offset)
     | _ => None
     end);
   (cmds.GetMultipleIntegervCHROMIUM, fun f _ =>
     match f with
     | [pnames_shm_id; pnames_shm_offset; count; results_shm_id; results_shm_offset; size] =>
         Some (DecoderCommands.GetMultipleIntegervCHROMIUM pnames_shm_id pnames_shm_offset count
           results_shm_id results_shm_offset size)
     | _ => None
     end);
   (cmds.GetError, fun f _ =>
     match f with
     | [shm_id; shm_offset] =>
         Some (DecoderCommands.GetError shm_id shm_offset)
     | _ => None
     end);
   (cmds.IsEnabled, fun f _ =>
     match f with
     | [cap; shm_id; shm_offset] =>
         Some (DecoderCommands.IsEnabled cap shm_id shm_offset)
     | _ => None
     end);
   (cmds.GetShaderPrecisionFormat, fun f _ =>
     match f with
     | [shadertype; precisiontype; shm_id; shm_offset] =>
         Some (DecoderCommands.GetShaderPrecisionFormat shadertype precisiontype shm_id
           shm_offset)
     | _ => None
     end);
   (cmds.GetString, fun f _ =>
     match f with
     | [name; bucket_id] =>
         Some (DecoderCommands.GetString name bucket_id)
     | _ => None
     end);
   (cmds.BlendColor, fun f _ =>
     match f with
     | [red; green; blue; alpha] =>
         Some (DecoderCommands.BlendColor red green blue alpha)
     | _ => None
     end);
   (cmds.BlendEquation, fun f _ =>
     match f with
     | [mode] =>
         Some (DecoderCommands.BlendEquation mode)
     | _ => None
     end);
   (cmds.BlendEquationSeparate, fun f _ =>
     match f with
     | [modeRGB; modeAlpha] =>
         Some (DecoderCommands.BlendEquationSeparate modeRGB modeAlpha)
     | _ => None
     end);
   (cmds.BlendFunc, fun f _ =>
     match f with
     | [sfactor; dfactor] =>
         Some (DecoderCommands.BlendFunc sfactor dfactor)
     | _ => None
     end);
   (cmds.BlendFuncSeparate, fun f _ =>
     match f with
     | [srcRGB; dstRGB; srcAlpha; dstAlpha] =>
         Some (DecoderCommands.BlendFuncSeparate srcRGB dstRGB srcAlpha dstAlpha)
     | _ => None
     end);
   (cmds.CullFace, fun f _ =>
     match f with
     | [mode] =>
         Some (DecoderCommands.CullFace mode)
     | _ => None
     end);
   (cmds.DepthFunc, fun f _ =>
     match f with
     | [func] =>
         Some (DecoderCommands.DepthFunc func)
     | _ => None
     end);
   (cmds.DepthRangef, fun f _ =>
     match f with
     | [zNear; zFar] =>
         Some (DecoderCommands.DepthRangef zNear zFar)
     | _ => None
     end);
   (cmds.Finish, fun f _ => match f with [] => Some (DecoderCommands.Finish ) | _ => None end);
   (cmds.Flush, fun f _ => match f with [] => Some (DecoderCommands.Flush ) | _ => None end);
   (cmds.FrontFace, fun f _ =>
     match f with
     | [mode] =>
         Some (DecoderCommands.FrontFace mode)
     | _ => None
     end);
   (cmds.Hint, fun f _ =>
     match f with
     | [target; mode] =>
         Some (DecoderCommands.Hint target mode)
     | _ => None
     end);
   (cmds.LineWidth, fun f _ =>
     match f with
     | [width] =>
         Some (DecoderCommands.LineWidth width)
     | _ => None
     end);
   (cmds.PolygonOffset, fun f _ =>
     match f with
     | [factor; units] =>
         Some (DecoderCommands.PolygonOffset factor units)
     | _ => None
     end);
   (cmds.ReleaseShaderCompiler, fun f _ =>
     match f with
     | [] =>
         Some (DecoderCommands.ReleaseShaderCompiler )
     | _ => None
     end);
   (cmds.SampleCoverage, fun f _ =>
     match f with
     | [value; invert] =>
         Some (DecoderCommands.SampleCoverage value (u8 invert))
     | _ => None
     end);
   (cmds.Scissor, fun f _ =>
     match f with
     | [x; y; width; height] =>
         Some (DecoderCommands.Scissor x y width height)
     | _ => None
     end);
   (cmds.ShaderBinary, fun f _ =>
     match f with
     | [_; _; _; _; _; _; _] =>
         Some (DecoderCommands.ShaderBinary )
     | _ => None
     end);
   (cmds.StencilFunc, fun f _ =>
     match f with
     | [func; ref; mask] =>
         Some (DecoderCommands.StencilFunc func ref mask)
     | _ => None
     end);
   (cmds.StencilFuncSeparate, fun f _ =>
     match f with
     | [face; func; ref; mask] =>
         Some (DecoderCommands.StencilFuncSeparate face func ref mask)
     | _ => None
     end);
   (cmds.StencilOp, fun f _ =>
     match f with
     | [fail; zfail; zpass] =>
         Some (DecoderCommands.StencilOp fail zfail zpass)
     | _ => None
     end);
   (cmds.StencilOpSeparate, fun f _ =>
     match f with
     | [face; fail; zfail; zpass] =>
         Some (DecoderCommands.StencilOpSeparate face fail zfail zpass)
     | _ => None
     end);
   (cmds.Viewport, fun f _ =>
     match f with
     | [x; y; width; height] =>
         Some (DecoderCommands.Viewport x y width height)
     | _ => None
     end);
   (cmds.Placeholder447CHROMIUM, fun f _ =>
     match f with
     | [] =>
         Some (DecoderCommands.Placeholder447CHROMIUM )
     | _ => None
     end);
   (cmds.Placeholder453CHROMIUM, fun f _ =>
     match f with
     | [] =>
         Some (DecoderCommands.Placeholder453CHROMIUM )
     | _ => None
     end);
   (cmds.TexParameterf, fun f _ =>
     match f with
     | [target; pname; param] =>
         Some (DecoderCommands.TexParameterf target pname param)
     | _ => None
     end);
   (cmds.TexParameterfv, fun f _ =>
     match f with
     | [target; pname; shm_id; shm_offset] =>
         Some (DecoderCommands.TexParameterfv target pname shm_id shm_offset)
     | _ => None
     end);
   (cmds.TexParameterfvImmediate, fun f data =>
     match f with
     | [target; pname] =>
         Some (DecoderCommands.TexParameterfvImmediate target pname data)
     | _ => None
     end);
   (cmds.TexParameteriv, fun f _ =>
     match f with
     | [target; pname; shm_id; shm_offset] =>
         Some (DecoderCommands.TexParameteriv target pname shm_id shm_offset)
     | _ => None
     end);
   (cmds.TexParameterivImmediate, fun f data =>
     match f with
     | [target; pname] =>
         Some (DecoderCommands.TexParameterivImmediate target pname data)
     | _ => None
     end);
   (cmds.CompressedTexSubImage2DImmediate, fun f data =>
     match f with
     | [target; level; xoffset; yoffset; width; height; format; imageSize] =>
         Some (DecoderCommands.CompressedTexSubImage2DImmediate target level xoffset yoffset
           width height format imageSize data)
     | _ => None
     end);
   (cmds.GenSharedIdsCHROMIUM, fun f _ =>
     match f with
     | [namespace_id; id_offset; n; shm_id; shm_offset] =>
         Some (DecoderCommands.GenSharedIdsCHROMIUM namespace_id id_offset n shm_id shm_offset)
     | _ => None
     end);
   (cmds.DeleteSharedIdsCHROMIUM, fun f _ =>
     match f with
     | [namespace_id; n; shm_id; shm_offset] =>
         Some (DecoderCommands.DeleteSharedIdsCHROMIUM namespace_id n shm_id shm_offset)
     | _ => None
     end);
   (cmds.RegisterSharedIdsCHROMIUM, fun f _ =>
     match f with
     | [namespace_id; n; shm_id; shm_offset] =>
         Some (DecoderCommands.RegisterSharedIdsCHROMIUM namespace_id n shm_id shm_offset)
     | _ => None
     end);
   (cmds.EnableFeatureCHROMIUM, fun f _ =>
     match f with
     | [bucket_id; shm_id; shm_offset] =>
         Some (DecoderCommands.EnableFeatureCHROMIUM bucket_id shm_id shm_offset)
     | _ => None
     end);
   (cmds.DrawArrays, fun f _ =>
     match f with
     | [mode; first; count] =>
         Some (DecoderCommands.DrawArrays mode first count)
     | _ => None
     end);
   (cmds.DrawElements, fun f _ =>
     match f with
     | [mode; count; type; offset] =>
         Some (DecoderCommands.DrawElements mode count type (i32 offset))
     | _ => None
     end)].

(** The handler of a struct, given its fields and the bytes after it. *)
Definition find_command {A} (table : list (Struct * (list Z -> list Z -> option A))) (c : Struct)
    (fields data : list Z) : option A :=
  list_find (fun e => s_name e.1 = s_name c) table ≫= fun r => r.2.2 fields data.

End tables.

(** ** The decoder *)

Notation Process := (GpuProcess GLES2State).

Definition with_gles2 {G} (w : GpuProcess G) (d : CommonDecoder.Decoder GpuScheduler) (g : G) : GpuProcess G :=
  mkGpuProcess d (current_decoder_error_ w) (reset_status_ w) g.

Definition with_reset_status {G} (w : GpuProcess G) (status : Z) : GpuProcess G :=
  mkGpuProcess (decoder w) (current_decoder_error_ w) status (gles2 w).

Section dispatch.
Context `{Platform}.
Variables (cfg : Config) (ReadPixels : Z -> Z -> Z -> Z -> Z -> Z -> Z -> list Z).
Variable lim : GroupLimits.
(** The translators, as the features that are switched on make them. *)
Variable Translate : Enabled -> Z -> list Z -> option Translation * list Z.
(** The driver: what it answers to a command. *)
Variable generated : GLES2State -> Z -> list Z.
Variable context_answers : ContextCommands.Command -> GLES2State -> ContextState.Answers.
Variable program_answers : ProgramCommands.ProgramCommand -> GLES2State -> ProgramAnswers.
Variable decoder_answers : DecoderCommands.DecoderCommand -> GLES2State -> DecoderAnswers.
(** The handlers that are not modelled. *)
Variable other_Handle : Struct -> list Z -> list Z -> Process -> outcome (Error * Process).
Implicit Types w : Process.

(** The compiler of shaders. *)
Definition compiler (g : GLES2State) : Compiler := mkCompiler (is_angle lim) (DecoderState.use_shader_translator_ (enabled g)).

(** The handler of the struct [c], once its fields are read.  A handler of [DecoderCommands.v]
    answers [kLostContext] when the driver says that the context was reset, and why. *)
Definition Handle (c : Struct) (fields data : list Z) w : outcome (Error * Process) :=
  let g := gles2 w in
  match find_command (context_commands (generated g)) c fields data with
  | Some command =>
      (do (e, (d, context)) <-
         ContextCommands.execute cfg ReadPixels (context_answers command g) command (decoder w) (context g) ;;
       Done (e, with_gles2 w d (with_context context g)))%gpu
  | None =>
      match find_command program_commands c fields data with
      | Some command =>
          (do (e, (d, programs)) <-
             ProgramCommands.execute (compiler g) (Translate (enabled g)) (num_compressed_texture_formats lim)
               (num_shader_binary_formats lim) (program_answers command g) command (decoder w) (program_state g) ;;
           Done (e, with_gles2 w d (with_program_state programs g)))%gpu
      | None =>
          match find_command decoder_commands c fields data with
          | Some command =>
              let env := decoder_answers command g in
              (do (e, (d, g)) <- DecoderCommands.execute cfg lim env command (decoder w, g) ;;
               let w := with_gles2 w d g in
               Done (e, if bool_decide (e = kLostContext) then with_reset_status w (graphics_reset_status env) else w))%gpu
          | None => other_Handle c fields data w
          end
      end
  end.

(** The switch of [DoCommand]. *)
Definition dispatch (command immediate_data_size : Z) (cmd_data : list Z) w : outcome (Error * Process) :=
  (do c <- of_option (structs !! Z.to_nat (u32 (command - kStartPoint - 1))) ;;
   do fields <- of_option (GLES2Format.read c cmd_data) ;;
   Handle c fields (immediate_data c immediate_data_size cmd_data) w)%gpu.

#[local] Instance dispatch_handlers : GLES2Handlers GLES2State := {
  g_command_info := GLES2Commands.g_command_info;
  gles2_Handle := dispatch;
}.

End dispatch.

(** ** Lemmas *)

(** *** What the source leaves to the client

    Seven uses of commands that no check stands in front of, and that go wrong: a compressed
    image of a negative size ([new int8[image_size]]); a deleted shader, detached where it is
    attached for the last time ([detached_shader_read_after_free]); too little room for the
    answer of [GetAttachedShaders] ([attached_shaders_beyond_memory]); strings and tables that
    do not fit a bucket of 32 bits; [GL_MAX_VIEWPORT_DIMS] of a window, which the helper does
    not count; shared ids of a namespace that does not exist; a draw where the driver does not
    take [GL_FIXED] and an attribute has that type ([fixed_data]). *)

Definition context_careful (command : ContextCommands.Command) : bool :=
  match command with
  | ContextCommands.CompressedTexImage2D _ _ _ _ _ _ image_size _ _ => 0 <=? image_size
  | _ => true
  end.

Definition shortb (str : option (list Z)) : bool := zlen (default [] str) + 1 <? 2 ^ 32.

(** [f] is so of the program or the shader with a name. *)
Definition for_program (f : ProgramInfo -> bool) (client_id : Z) (s : Programs) : bool :=
  match LookupProgram client_id (program_manager s) ≫= fun a => programs (program_manager s) !! a with
  | Some p => f p
  | None => true
  end.

Definition for_shader (f : Z -> ShaderInfo -> bool) (client_id : Z) (s : Programs) : bool :=
  match GetShaderInfo client_id (shader_manager s) with
  | Some a => match shaders (shader_manager s) !! a with Some i => f a i | None => true end
  | None => true
  end.

Definition program_careful (env : ProgramAnswers) (command : ProgramCommands.ProgramCommand) (s : Programs) : bool :=
  match command with
  | DetachShader _ shader =>
      for_shader (fun a i => negb (IsDeleted_shader i) || (2 <=? uses (programs (program_manager s)) a)) shader s
  | GetAttachedShaders _ _ _ result_size => 4 * zlen (attached_ids env) + 4 <=? result_size
  | GetProgramInfoCHROMIUM program _ => for_program (fun p => info_size p <? 2 ^ 32) program s
  | GetShaderSource shader _ => for_shader (fun _ i => shortb (source_ i)) shader s
  | GetTranslatedShaderSourceANGLE shader _ => for_shader (fun _ i => shortb (translated_source_ i)) shader s
  | GetShaderInfoLog shader _ => for_shader (fun _ i => shortb (sh_log_info_ i)) shader s
  | GetProgramInfoLog program _ => for_program (fun p => shortb (p_log_info_ p)) program s
  | GetActiveUniform program _ _ _ _ =>
      for_program (fun p => forallb (fun u => shortb (Some (u_name (uniform u)))) (uniform_infos_ (inputs p))) program s
  | GetActiveAttrib program _ _ _ _ =>
      for_program (fun p => forallb (fun i => shortb (Some (a_name i))) (attrib_infos_ (inputs p))) program s
  | _ => true
  end.

Definition decoder_careful (cfg : Config) (command : DecoderCommands.DecoderCommand) (g : GLES2State) : bool :=
  match command with
  | GenSharedIdsCHROMIUM namespace_id _ n _ _ | DeleteSharedIdsCHROMIUM namespace_id n _ _
  | RegisterSharedIdsCHROMIUM namespace_id n _ _ =>
      (n <=? 0) || match GetIdAllocator namespace_id with Some _ => true | None => false end
  | GetBooleanv pname _ _ | GetFloatv pname _ _ | GetIntegerv pname _ _ | GetBufferParameteriv _ pname _ _
  | GetTexParameterfv _ pname _ _ | GetTexParameteriv _ pname _ _ | GetFramebufferAttachmentParameteriv _ _ pname _ _
  | GetRenderbufferParameteriv _ pname _ _ => negb (uncounted_dims cfg pname)
  | DrawArrays _ _ _ | DrawElements _ _ _ _ =>
      ContextState.egl_gles2 cfg || negb (HaveFixedAttribs (vertex_attrib_manager_ (vertices g)))
  | _ => true
  end.

(** *** What the source leaves to the driver

    Documented behaviour: a link locates what is active in a program, the value of a uniform
    has the size of its type, an answer has the number of values that its name asks for, and
    strings are short; storage for no renderbuffer is an error.  And the translators can be
    made. *)

(** How many values a parameter has: the table of [GLES2Util] misses one. *)
Definition answer_length (lim : GroupLimits) (pname : Z) : Z :=
  if pname =? GL_READ_FRAMEBUFFER_BINDING then 1 else values_returned lim pname.

Definition program_promises (env : ProgramAnswers) (command : ProgramCommands.ProgramCommand) (s : Programs) : Prop :=
  match command with
  | LinkProgram program => link_answer_ok s (link_answer env) program
  | GetUniformiv program location _ _ | GetUniformfv program location _ _ =>
      values_fit (uniform_values env) program location s
  | _ => True
  end.

Definition decoder_promises `{Platform} (cfg : Config) (lim : GroupLimits) (env : DecoderAnswers)
    (command : DecoderCommands.DecoderCommand) : Prop :=
  match command with
  | GetBooleanv pname _ _ | GetFloatv pname _ _ | GetBufferParameteriv _ pname _ _ | GetTexParameterfv _ pname _ _
  | GetTexParameteriv _ pname _ _ | GetFramebufferAttachmentParameteriv _ _ pname _ _
  | GetRenderbufferParameteriv _ pname _ _ => zlen (gl_values env) <= answer_length lim pname
  | GetIntegerv pname _ _ => zlen (gl_integers env pname) <= answer_length lim pname
  | GetMultipleIntegervCHROMIUM _ _ _ _ _ _ => integers_fit lim env
  | GetString _ _ => strings_short cfg env
  | EnableFeatureCHROMIUM _ _ _ => translators_ready env = true
  | _ => True
  end.

Lemma shortb_short str : shortb str = true -> string_short str.
Proof. unfold shortb, string_short. lia. Qed.

Lemma for_program_of (f : ProgramInfo -> bool) (P : ProgramInfo -> Prop) client_id s :
  (forall p, f p = true -> P p) -> for_program f client_id s = true -> of_program P client_id s.
Proof. unfold for_program. intros Hf Hb a p E1 E2. rewrite E1 in Hb. cbn [mbind option_bind] in Hb. rewrite E2 in Hb. auto. Qed.

Lemma for_shader_of (f : Z -> ShaderInfo -> bool) (P : Z -> ShaderInfo -> Prop) client_id s :
  (forall a i, f a i = true -> P a i) -> for_shader f client_id s = true ->
  forall a i, GetShaderInfo client_id (shader_manager s) = Some a -> shaders (shader_manager s) !! a = Some i -> P a i.
Proof. unfold for_shader. intros Hf Hb a i E1 E2. rewrite E1, E2 in Hb. auto. Qed.

Lemma shader_short_of f client_id s :
  for_shader (fun _ i => shortb (f i)) client_id s = true -> shader_strings_short f client_id s.
Proof. intros Hb a i E1 E2. exact (shortb_short _ (for_shader_of _ (fun _ i => shortb (f i) = true) client_id s (fun _ _ H => H) Hb a i E1 E2)). Qed.

(** A careful command and a driver as promised: the preconditions of the handlers. *)
Lemma program_command_ok env command s :
  program_careful env command s = true -> program_promises env command s -> ProgramCommands.command_ok env command s.
Proof.
  destruct command; cbn [program_careful program_promises ProgramCommands.command_ok]; intros Hc Hp; try done; try lia.
  { refine (for_shader_of _ (fun a i => IsDeleted_shader i = false \/ 2 <= uses (programs (program_manager s)) a) _ _ _ Hc).
    intros a i. destruct (IsDeleted_shader i); cbn [negb orb]; [right; lia|by left]. }
  all: try by apply shader_short_of.
  all: refine (for_program_of _ _ _ _ _ Hc); intros p.
  all: first [ apply shortb_short
             | rewrite forallb_forall, Forall_forall; intros Hb x Hx%list_elem_of_In; by apply shortb_short, Hb
             | lia ].
Qed.

Lemma decoder_command_ok `{Platform} cfg lim env command g :
  decoder_careful cfg command g = true -> decoder_promises cfg lim env command ->
  DecoderCommands.command_ok cfg lim env command g.
Proof.
  assert (Hns : forall n ns, (n <=? 0) || match GetIdAllocator ns with Some _ => true | None => false end = true ->
    0 < n -> is_Some (GetIdAllocator ns)).
  { intros n ns Hb Hn. destruct (GetIdAllocator ns); [by eexists|]. lia. }
  assert (Hf : ContextState.egl_gles2 cfg || negb (HaveFixedAttribs (vertex_attrib_manager_ (vertices g))) = true ->
    no_fixed cfg g).
  { unfold no_fixed. destruct (ContextState.egl_gles2 cfg); [by left|]. intros Hn%negb_true_iff. by right. }
  assert (Hn : forall pname n, negb (uncounted_dims cfg pname) = true -> n <= answer_length lim pname ->
    n <= counted cfg lim pname).
  { intros pname n. unfold answer_length, counted. by intros ->%negb_true_iff. }
  destruct command; cbn [decoder_careful decoder_promises DecoderCommands.command_ok]; auto;
    intros Hb _; by apply Hns.
Qed.

(** What the fields of a struct in the ring buffer can be. *)
Definition fields_ok (c : Struct) (fields : list Z) : Prop :=
  Forall2 (fun f a => arg_ok f.2 a) (s_fields c) fields.

Lemma load_ok t w : is_u32 w -> arg_ok t (GLES2Format.load t w).
Proof. destruct t; [done|intros _; apply i32_range|done]. Qed.

Lemma read_ok c cmd_data fields :
  Forall is_u32 cmd_data -> GLES2Format.read c cmd_data = Some fields -> fields_ok c fields.
Proof.
  unfold GLES2Format.read. intros Hu. destruct (zread cmd_data 1 _) as [ws|] eqn:E; [|done]. intros [= <-].
  apply zread_inv in E as (_ & _ & Hl & ->).
  assert (Hw : Forall is_u32 (take (Z.to_nat (zlen (s_fields c))) (drop (Z.to_nat 1) cmd_data)))
    by by apply Forall_take, Forall_drop.
  assert (Hlen : length (take (Z.to_nat (zlen (s_fields c))) (drop (Z.to_nat 1) cmd_data)) = length (s_fields c)).
  { rewrite length_take, length_drop. unfold zlen in *. lia. }
  revert Hw Hlen. generalize (take (Z.to_nat (zlen (s_fields c))) (drop (Z.to_nat 1) cmd_data)) as ws.
  unfold fields_ok. clear. induction (s_fields c) as [|f fields IH]; intros [|w ws] Hw Hlen; try done.
  apply Forall_cons in Hw as [Hw Hws]. cbn [zip_with]. constructor; [by apply load_ok|].
  apply (IH ws Hws). cbn in Hlen. lia.
Qed.

Lemma struct_unique c c' : c ∈ structs -> c' ∈ structs -> s_name c = s_name c' -> c = c'.
Proof.
  intros (i & Hi & Ei & _)%structs_at (j & Hj & Ej & _)%structs_at En. unfold kCmdId in *.
  rewrite En in Ei. assert (i = j) as -> by lia. congruence.
Qed.

(** An entry found by its name is that of the struct. *)
Lemma find_command_entry {A} (table : list (Struct * (list Z -> list Z -> option A))) c fields data command :
  Forall (fun e => e.1 ∈ structs) table -> c ∈ structs -> find_command table c fields data = Some command ->
  exists make, (c, make) ∈ table /\ make fields data = Some command.
Proof.
  intros Ht Hc. unfold find_command. destruct (list_find _ table) as [[i [c' make]]|] eqn:E; [|done].
  apply list_find_Some in E as (Hi & Hn & _). cbn [fst snd] in *. intros Hm.
  pose proof (proj1 (Forall_lookup _ _) Ht i _ Hi) as Hin. cbn in Hin.
  rewrite (struct_unique c' c Hin Hc Hn) in Hi. exists make. split; [|exact Hm]. by eapply list_elem_of_lookup_2.
Qed.

Lemma context_commands_in generated : Forall (fun e => e.1 ∈ structs) (context_commands generated).
Proof.
  unfold context_commands. repeat (constructor; [cbn [fst];
    match goal with |- ?c ∈ _ => apply (list_elem_of_lookup_2 _ (Z.to_nat (kCmdId c - 256))); reflexivity end|]).
  constructor.
Qed.

Lemma program_commands_in : Forall (fun e => e.1 ∈ structs) program_commands.
Proof.
  unfold program_commands. repeat (constructor; [cbn [fst];
    match goal with |- ?c ∈ _ => apply (list_elem_of_lookup_2 _ (Z.to_nat (kCmdId c - 256))); reflexivity end|]).
  constructor.
Qed.

(** In every entry the fields have the widths that the handler takes. *)
Definition entry_ok {A} (Q : A -> Prop) (e : Struct * (list Z -> list Z -> option A)) : Prop :=
  forall fields data command, fields_ok e.1 fields -> e.2 fields data = Some command -> Q command.

Ltac solve_entry :=
  intros fields data command Hf Hm; cbn [fst snd] in Hf, Hm; unfold fields_ok in Hf;
  match type of Hf with Forall2 _ (s_fields ?c) _ => let fs := eval cbv in (s_fields c) in change (s_fields c) with fs in Hf end;
  repeat (apply Forall2_cons_inv_l in Hf as (?a & ?fields & ?Ha & Hf & ->));
  apply Forall2_nil_inv_l in Hf as ->; injection Hm as <-; cbn in *;
  try (match goal with |- context [i32 ?a] => pose proof (i32_range a) end);
  unfold is_u32, is_i32 in *; try tauto; lia.

Lemma context_entries generated :
  Forall (entry_ok (fun command => context_careful command = true -> ContextCommands.args_ok command))
    (context_commands generated).
Proof. unfold context_commands. repeat (constructor; [solve_entry|]). constructor. Qed.

Lemma decoder_commands_in : Forall (fun e => e.1 ∈ structs) decoder_commands.
Proof.
  unfold decoder_commands. repeat (constructor; [cbn [fst];
    match goal with |- ?c ∈ _ => apply (list_elem_of_lookup_2 _ (Z.to_nat (kCmdId c - 256))); reflexivity end|]).
  constructor.
Qed.

Lemma program_entries : Forall (entry_ok ProgramCommands.args_ok) program_commands.
Proof. unfold program_commands. repeat (constructor; [solve_entry|]). constructor. Qed.

Lemma decoder_entries : Forall (entry_ok DecoderCommands.args_ok) decoder_commands.
Proof. unfold decoder_commands. repeat (constructor; [solve_entry|]). constructor. Qed.

(** ** Every command of a client is handled *)

Section safety.
Context `{Platform}.
Variables (cfg : Config) (driver : Driver).
Hypothesis features : feature_reach driver (feature_info_ cfg).
Hypothesis units : 0 < max_texture_units cfg.
Variable ReadPixels : Z -> Z -> Z -> Z -> Z -> Z -> Z -> list Z.
Variable pixel : Z -> Z -> Z -> Z -> list Z.
Hypothesis laws : reads_pixels ReadPixels pixel.
Variable lim : GroupLimits.
(** The translators, as the features that are switched on make them. *)
Variable Translate : Enabled -> Z -> list Z -> option Translation * list Z.
Variable generated : GLES2State -> Z -> list Z.
Variable context_answers : ContextCommands.Command -> GLES2State -> ContextState.Answers.
Variable program_answers : ProgramCommands.ProgramCommand -> GLES2State -> ProgramAnswers.
Variable decoder_answers : DecoderCommands.DecoderCommand -> GLES2State -> DecoderAnswers.
Variable other_Handle : Struct -> list Z -> list Z -> Process -> outcome (Error * Process).
Implicit Types (w : Process) (g : GLES2State).

Notation Handle :=
  (Handle cfg ReadPixels lim Translate generated context_answers program_answers decoder_answers other_Handle).
#[local] Instance handlers : GLES2Handlers GLES2State :=
  dispatch_handlers cfg ReadPixels lim Translate generated context_answers program_answers decoder_answers other_Handle.

(** What is so of the group: see [DecoderCommands.v]. *)
Hypothesis group : group_ok cfg lim.

Notation good := (state_good cfg lim).

(** What the driver promises, in every state that is good. *)
Record driver_promised : Prop := {
  context_promised g command : good g ->
    ContextCommands.driver_answers (context_answers command g) command (context g);
  program_promised g command : good g -> program_promises (program_answers command g) command (program_state g);
  decoder_promised g command : good g -> decoder_promises cfg lim (decoder_answers command g) command;
}.

Hypothesis promised : driver_promised.

(** The command is one of those whose handlers are here, and not used as in the list of what the
    source leaves to the client. *)
Definition careful (c : Struct) (fields data : list Z) g : bool :=
  match find_command (context_commands (generated g)) c fields data with
  | Some command => context_careful command
  | None =>
      match find_command program_commands c fields data with
      | Some command => program_careful (program_answers command g) command (program_state g)
      | None =>
          match find_command decoder_commands c fields data with
          | Some command => decoder_careful cfg command g
          | None => false
          end
      end
  end.

Lemma entry_args {A} (Q : A -> Prop) table c fields data command :
  Forall (fun e => e.1 ∈ structs) table -> Forall (entry_ok Q) table -> c ∈ structs -> fields_ok c fields ->
  find_command table c fields data = Some command -> Q command.
Proof.
  intros Ht Hq Hc Hf E. destruct (find_command_entry table c fields data command Ht Hc E) as (make & Hin & Hm).
  exact (proj1 (Forall_forall _ _) Hq _ Hin fields data command Hf Hm).
Qed.

Lemma decoder_ok_also (P : GpuScheduler -> Prop) d :
  decoder_ok (fun e => scheduler_ok e /\ P e) scheduler_entries d <->
  decoder_ok scheduler_ok scheduler_entries d /\ P (engine d).
Proof.
  split.
  - intros [[? ?] ? ? ? ?]. by split.
  - intros [[? ? ? ? ?] ?]. by split.
Qed.

(** A handler leaves the scheduler as it is. *)
Lemma Handle_good c fields data w :
  c ∈ structs -> fields_ok c fields -> process_good good w -> careful c fields data (gles2 w) = true ->
  exists e w', Handle c fields data w = Done (e, w') /\ process_good good w' /\ scheduler w' = scheduler w.
Proof.
  intros Hc Hf [Hw Hg]. unfold careful, GLES2Dispatch.Handle.
  set (same := fun e => scheduler_ok e /\ e = scheduler w).
  assert (Hs : decoder_ok same scheduler_entries (decoder w)) by by apply decoder_ok_also.
  destruct (find_command (context_commands _) c fields data) as [command|] eqn:E1.
  { intros Hca. pose proof (entry_args _ _ _ _ _ _ (context_commands_in _) (context_entries _) Hc Hf E1 Hca) as Ha.
    destruct (execute_ok same scheduler_entries cfg driver features ReadPixels pixel laws
      (context_answers command (gles2 w)) command (decoder w) (context (gles2 w)) (good_context _ _ _ Hg) Hs Ha
      (context_promised promised _ command Hg)) as (e & d & c' & -> & [Hd' He]%decoder_ok_also & Hc' & _).
    cbn [obind]. eexists _, _. split; [done|]. split; [|exact He]. split; [done|by apply good_with_context]. }
  destruct (find_command program_commands c fields data) as [command|] eqn:E2.
  { intros Hca. pose proof (entry_args _ _ _ _ _ _ program_commands_in program_entries Hc Hf E2) as Ha.
    pose proof (program_command_ok _ _ _ Hca (program_promised promised _ command Hg)) as Hok.
    destruct (execute_fine same scheduler_entries (decoder w) (program_state (gles2 w)) Hs (good_programs _ _ _ Hg)
      (compiler lim (gles2 w)) (Translate (enabled (gles2 w))) (num_compressed_texture_formats lim)
      (num_shader_binary_formats lim) (program_answers command (gles2 w)) command Ha Hok)
      as ([e [d p]] & -> & [Hd' He]%decoder_ok_also & Hp').
    cbn [obind]. eexists _, _. split; [done|]. split; [|exact He]. split; [done|by apply good_with_programs]. }
  destruct (find_command decoder_commands c fields data) as [command|] eqn:E3; [|done].
  intros Hca. pose proof (entry_args _ _ _ _ _ _ decoder_commands_in decoder_entries Hc Hf E3) as Ha.
  pose proof (decoder_command_ok _ _ _ _ _ Hca (decoder_promised promised _ command Hg)) as Hok.
  destruct (decoder_execute_fine same scheduler_entries cfg lim driver features group
    (decoder_answers command (gles2 w)) command (decoder w, gles2 w) (conj Hs Hg) Ha Hok)
    as ([e [d g]] & -> & [Hd He]%decoder_ok_also & Hg').
  cbn [obind]. eexists _, _. split; [done|]. case_bool_decide; (split; [by split|exact He]).
Qed.

(** The words of a command in the ring buffer, with as many arguments as it has. *)
Definition words_careful (command immediate_data_size : Z) (cmd_data : list Z) g : bool :=
  match structs !! Z.to_nat (u32 (command - kStartPoint - 1)) with
  | Some c =>
      match GLES2Format.read c cmd_data with
      | Some fields => careful c fields (immediate_data c immediate_data_size cmd_data) g
      | None => true
      end
  | None => true
  end.

(** The size that [DoCommand] computes of the data behind the struct. *)
Definition data_size (command arg_count : Z) : Z :=
  match structs !! Z.to_nat (u32 (command - kStartPoint - 1)) with
  | Some c => u32 (u32 (arg_count - zlen (s_fields c)) * 4)
  | None => 0
  end.

Notation dispatch :=
  (GLES2Dispatch.dispatch cfg ReadPixels lim Translate generated context_answers program_answers decoder_answers other_Handle).

Lemma command_info_at i : GLES2Commands.g_command_info !! i = (fun c => (s_ArgFlags c, zlen (s_fields c))) <$> structs !! i.
Proof. unfold GLES2Commands.g_command_info. rewrite list_lookup_fmap. destruct (structs !! i) as [c|]; [|done]. cbn [fmap option_fmap option_map]. by rewrite command_info_args. Qed.

Lemma switch_good command arg_count (flags : ArgFlags) n cmd_data w :
  process_good good w -> Forall is_u32 cmd_data -> 1 + arg_count <= zlen cmd_data ->
  GLES2Commands.g_command_info !! Z.to_nat (u32 (command - kStartPoint - 1)) = Some (flags, n) -> n <= arg_count ->
  words_careful command (u32 (u32 (arg_count - n) * 4)) cmd_data (gles2 w) = true ->
  exists e w', dispatch command (u32 (u32 (arg_count - n) * 4)) cmd_data w = Done (e, w') /\
    process_good good w' /\ scheduler w' = scheduler w.
Proof.
  intros Hw Hu Hl Hi Hn. rewrite command_info_at in Hi. unfold words_careful, GLES2Dispatch.dispatch.
  destruct (structs !! _) as [c|] eqn:Hc; [|done]. injection Hi as <- <-. cbn [of_option obind].
  assert (Hin : c ∈ structs) by (by eapply list_elem_of_lookup_2).
  destruct (GLES2Format.read c cmd_data) as [fields|] eqn:Er.
  - cbn [of_option obind]. intros Hca. apply Handle_good; [done|by eapply read_ok|done..].
  - unfold GLES2Format.read in Er. pose proof (zlen_nonneg (s_fields c)). rewrite zread_in in Er by lia. done.
Qed.

(** The end of [DoCommand]. *)
Lemma answered_good e w : process_good good w -> exists e' w',
  (if bool_decide (e = kNoError) && negb (bool_decide (current_decoder_error_ w = kNoError))
   then Done (current_decoder_error_ w, with_current_decoder_error w kNoError) else Done (e, w)) = Done (e', w') /\
  process_good good w'.
Proof. intros Hw. destruct (_ && _); eexists _, _; by split. Qed.

Lemma DoCommand_good depth command arg_count cmd_data w :
  process_good good w -> Forall is_u32 cmd_data -> 1 + arg_count <= zlen cmd_data ->
  kStartPoint < command < kStartPoint + 1 + zlen structs ->
  words_careful command (data_size command arg_count) cmd_data (gles2 w) = true ->
  exists e w', GLES2_DoCommand (H0 := handlers) depth command arg_count cmd_data w = Done (e, w') /\ process_good good w'.
Proof.
  intros Hw Hu Hl Hcmd Hca. unfold GLES2_DoCommand.
  assert (Hr : u32 (command - kStartPoint - 1) = command - kStartPoint - 1).
  { apply u32_id. unfold is_u32, kStartPoint in *. change (zlen structs) with 201 in Hcmd. lia. }
  change (GpuScheduler.g_command_info (G := GLES2State)) with GLES2Commands.g_command_info.
  change (zlen GLES2Commands.g_command_info) with (zlen structs). btrue (u32 (command - kStartPoint - 1) <? zlen structs).
  unfold data_size in Hca. pose proof (command_info_at (Z.to_nat (u32 (command - kStartPoint - 1)))) as Hi.
  destruct (structs !! _) as [c|] eqn:Hc.
  2: { apply lookup_ge_None in Hc. unfold zlen, kStartPoint in *. lia. }
  cbn [fmap option_fmap option_map] in Hi. rewrite Hi. cbn iota beta.
  match goal with |- context [obind (if ?b then _ else _) _] => destruct b eqn:Eb end; [|apply (answered_good kInvalidArguments w Hw)].
  destruct (switch_good command arg_count (s_ArgFlags c) (zlen (s_fields c)) cmd_data w) as (e & w' & E & Hw' & _);
    [done..|lia|done|].
  change (gles2_Handle command) with (dispatch command). rewrite E. cbn [obind]. apply (answered_good e w' Hw').
Qed.

(** The states that clients can bring about: a new context group; anything that the common
    commands, the scheduler or the client do to the process between two GLES2 commands, as
    long as it keeps the invariant of the process; GLES2 commands, of which the client wrote the
    words. *)
Inductive stream_reach : Process -> Prop :=
| stream_new (g : ContextState.Group) c w attrib_0_buffer_id fixed_attrib_buffer_id :
    new_group cfg g -> Initialize_units cfg g = Done c ->
    process_ok w -> gles2 w = GLES2State_new cfg lim c attrib_0_buffer_id fixed_attrib_buffer_id -> stream_reach w
| stream_other w w' : stream_reach w -> process_ok w' -> gles2 w' = gles2 w -> stream_reach w'
| stream_command depth command arg_count cmd_data w e w' :
    stream_reach w -> Forall is_u32 cmd_data -> 1 + arg_count <= zlen cmd_data ->
    kStartPoint < command < kStartPoint + 1 + zlen structs ->
    words_careful command (data_size command arg_count) cmd_data (gles2 w) = true ->
    GLES2_DoCommand (H0 := handlers) depth command arg_count cmd_data w = Done (e, w') -> stream_reach w'.

Lemma new_state_good (g : ContextState.Group) c i j :
  new_group cfg g -> Initialize_units cfg g = Done c -> good (GLES2State_new cfg lim c i j).
Proof.
  intros Hn Hi. destruct (Initialize_units_ok cfg driver features g Hn units) as (c' & E1 & Hc & _).
  rewrite Hi in E1. injection E1 as ->. by eapply GLES2State_new_good.
Qed.

Lemma stream_reach_good w : stream_reach w -> process_good good w.
Proof.
  induction 1 as [g c w i j Hn Hi Hw Hg|w w' _ [_ Hg] Hw' E|depth command arg_count cmd_data w e w' _ Hw Hu Hl Hc Hg E].
  - split; [done|]. rewrite Hg. by eapply new_state_good.
  - split; [done|]. by rewrite E.
  - destruct (DoCommand_good depth command arg_count cmd_data w) as (e' & w2 & E2 & Hw2); [done..|].
    rewrite E in E2. by injection E2 as _ ->.
Qed.

(** *** The process up to the first careless command *)

(** The handlers, stopped at a command that is not careful. *)
Definition careful_handlers : GLES2Handlers GLES2State := {|
  GpuScheduler.g_command_info := GLES2Commands.g_command_info;
  gles2_Handle command immediate_data_size cmd_data w :=
    if words_careful command immediate_data_size cmd_data (gles2 w)
    then dispatch command immediate_data_size cmd_data w else Fuel;
|}.

Lemma careful_laws : GLES2Laws (H := careful_handlers) GLES2State good.
Proof.
  split; intros command arg_count flags n cmd_data w; cbn [gles2_Handle careful_handlers].
  - intros Hw Hu Hl Hi Hn. destruct (words_careful _ _ _ _) eqn:Hca; [|done].
    by destruct (switch_good command arg_count flags n cmd_data w) as (e & w' & -> & _).
  - intros e w' Hw Hu Hl Hi Hn. destruct (words_careful _ _ _ _) eqn:Hca; [|done].
    destruct (switch_good command arg_count flags n cmd_data w) as (e2 & w2 & -> & Hw2 & Hs); [done..|].
    intros [= <- <-]. split; [done|]. cbn. by rewrite Hs.
Qed.

(** A run that was stopped, or is that of the source. *)
Definition stopped {A} (m m' : outcome A) : Prop := m = Fuel \/ m = m'.

Lemma stopped_bind {A B} (m m' : outcome A) (k k' : A -> outcome B) :
  stopped m m' -> (forall a, stopped (k a) (k' a)) -> stopped (obind m k) (obind m' k').
Proof. intros [-> | ->] Hk; [by left|]. destruct m'; [apply Hk|by right..]. Qed.

Lemma stopped_DoCommand depth command arg_count cmd_data w :
  stopped (GLES2_DoCommand (H0 := careful_handlers) depth command arg_count cmd_data w)
    (GLES2_DoCommand (H0 := handlers) depth command arg_count cmd_data w).
Proof.
  unfold GLES2_DoCommand. apply stopped_bind; [|by right]. cbn [GpuScheduler.g_command_info careful_handlers handlers dispatch_handlers].
  destruct (if _ <? _ then _ else _) as [[flags n]|]; [|by right]. destruct (_ || _); [|by right].
  cbn [gles2_Handle careful_handlers handlers dispatch_handlers]. destruct (words_careful _ _ _ _); [by right|by left].
Qed.

Lemma stopped_ProcessCommand depth w :
  stopped (ProcessCommand (H0 := GLES2_API (H0 := careful_handlers) depth) w)
    (ProcessCommand (H0 := GLES2_API (H0 := handlers) depth) w).
Proof.
  unfold ProcessCommand. repeat (case_match; [by right|]). apply stopped_bind; [by right|]. intros a.
  repeat (case_match; [by right|]). apply stopped_bind; [apply stopped_DoCommand|by right].
Qed.

Lemma stopped_loop depth rc rp fuel w :
  stopped (PutChanged_loop (H0 := careful_handlers) depth rc rp fuel w) (PutChanged_loop (H0 := handlers) depth rc rp fuel w).
Proof.
  revert w. induction fuel as [|fuel IH]; intros w; cbn [PutChanged_loop]; (destruct (IsEmpty _); [by right|]); [by right|].
  apply stopped_bind; [apply stopped_ProcessCommand|]. intros [e w']. destruct (IsError e); [by right|].
  apply stopped_bind; [by right|]. intros w2. destruct (_ >? 0); [by right|]. apply IH.
Qed.

Lemma stopped_Flush depth rc rp fuel put w :
  stopped (CommandBufferService.Flush (PutChanged (H0 := careful_handlers) depth rc rp fuel) put w)
    (CommandBufferService.Flush (PutChanged (H0 := handlers) depth rc rp fuel) put w).
Proof.
  unfold CommandBufferService.Flush. destruct (_ || _); [by right|]. destruct (put_offset_change_callback _); [|by right].
  unfold PutChanged. destruct (GetState _) as [state s]. destruct (negb _); [by right|]. apply stopped_loop.
Qed.

(** ** Properties *)

(** C2: The words that a client writes cannot take the decoder where it should not be.  Whatever
    commands came before, a GLES2 command with any number of arguments that the
    parser found in the ring buffer and any words there, is answered with an error code or
    handled, without an access out of bounds, and it leaves the decoder in a state of which
    this is true again; as long as the client is careful ([words_careful]), which excludes the
    six commands that are not modelled and seven uses in front of which the source has no check,
    and the driver keeps its promises ([driver_promised]). *)
Theorem gles2_stream_safe depth command arg_count cmd_data w :
  stream_reach w -> Forall is_u32 cmd_data -> 1 + arg_count <= zlen cmd_data ->
  kStartPoint < command < kStartPoint + 1 + zlen structs ->
  words_careful command (data_size command arg_count) cmd_data (gles2 w) = true ->
  exists e w', GLES2_DoCommand (H0 := handlers) depth command arg_count cmd_data w = Done (e, w') /\
    process_ok w' /\ stream_reach w'.
Proof.
  intros Hr Hu Hl Hc Hg.
  destruct (DoCommand_good depth command arg_count cmd_data w (stream_reach_good w Hr) Hu Hl Hc Hg)
    as (e & w' & E & Hw'). exists e, w'. split; [done|]. split; [apply Hw'|]. by eapply stream_command.
Qed.

(** C4: Memory safety of the GPU process.  From a process started on a real ring buffer with a
    new context group, after any sequence of writes of the client to the ring buffer and to
    shared memory, of flushes, registrations and destructions of transfer buffers, processed
    commands, common and GLES2, and (un)schedulings, the next command and the next flush make no
    access outside the ring buffer, the shared memory, the buckets and the objects of the
    decoder: up to the first GLES2 command that is not careful, where the run on the left is
    stopped, and until then it is the run of the source. *)
Theorem gpu_reachable_safe depth rs rc rp memory os size (group0 : ContextState.Group) c i j service w :
  callback_ok good rs -> callback_ok good rc -> callback_ok good rp ->
  CommandBufferService.Initialize true os size CommandBufferService_new = (true, service) -> 4 <= size ->
  size / 4 <= zlen (memory (map_memory os)) -> Forall is_u32 (memory (map_memory os)) ->
  new_group cfg group0 -> Initialize_units cfg group0 = Done c ->
  steps (gpu_step (H0 := careful_handlers) depth rs rc rp) (start_process memory service (GLES2State_new cfg lim c i j)) w ->
  process_good good w /\
  (let next h := ProcessCommand (H0 := GLES2_API (H0 := h) depth) w in
   safe (next careful_handlers) /\ stopped (next careful_handlers) (next handlers)) /\
  forall fuel put,
    let flush h := CommandBufferService.Flush (PutChanged (H0 := h) depth rc rp fuel) put w in
    safe (flush careful_handlers) /\ stopped (flush careful_handlers) (flush handlers).
Proof.
  intros Hrs Hrc Hrp Hi Hs Hm Hu Hn Hc Hst. pose proof (new_state_good group0 c i j Hn Hc) as Hg.
  destruct (reachable_safe (GLES2Handlers0 := careful_handlers) good (GLES2Laws0 := careful_laws) depth rs rc rp memory os size
    (GLES2State_new cfg lim c i j) service w Hrs Hrc Hrp Hi Hs Hm Hu Hg Hst) as (Hw & Hp & Hf).
  split; [exact Hw|]. split.
  - split; [exact Hp|]. apply stopped_ProcessCommand.
  - intros fuel put. split; [apply Hf|]. apply stopped_Flush.
Qed.

End safety.

(** ** What the client wrote is what the handler gets *)

Section round_trip.
Context `{Platform}.
Variables (cfg : Config) (ReadPixels : Z -> Z -> Z -> Z -> Z -> Z -> Z -> list Z).
Variable lim : GroupLimits.
(** The translators, as the features that are switched on make them. *)
Variable Translate : Enabled -> Z -> list Z -> option Translation * list Z.
Variable generated : GLES2State -> Z -> list Z.
Variable context_answers : ContextCommands.Command -> GLES2State -> ContextState.Answers.
Variable program_answers : ProgramCommands.ProgramCommand -> GLES2State -> ProgramAnswers.
Variable decoder_answers : DecoderCommands.DecoderCommand -> GLES2State -> DecoderAnswers.
Variable other_Handle : Struct -> list Z -> list Z -> Process -> outcome (Error * Process).
Implicit Types w : Process.

Notation Handle :=
  (Handle cfg ReadPixels lim Translate generated context_answers program_answers decoder_answers other_Handle).
#[local] Instance handlers_rt : GLES2Handlers GLES2State :=
  dispatch_handlers cfg ReadPixels lim Translate generated context_answers program_answers decoder_answers other_Handle.

(** The end of [DoCommand]: an error that was recorded is answered. *)
Definition deferred (r : Error * Process) : outcome (Error * Process) :=
  let '(result, w) := r in
  if bool_decide (result = kNoError) && negb (bool_decide (current_decoder_error_ w = kNoError))
  then Done (current_decoder_error_ w, with_current_decoder_error w kNoError)
  else Done (result, w).

Lemma read_app c words rest fields :
  GLES2Format.read c words = Some fields -> GLES2Format.read c (words ++ rest) = Some fields.
Proof.
  unfold GLES2Format.read. destruct (zread words 1 _) as [ws|] eqn:E; [|done].
  apply zread_inv in E as (H1 & H2 & H3 & ->). pose proof (zlen_app words rest). pose proof (zlen_nonneg rest).
  rewrite zread_in by lia. intros <-. f_equal. f_equal. unfold zlen in *.
  rewrite drop_app_le by lia. rewrite take_app_le; [done|]. rewrite length_drop. lia.
Qed.

(** The bytes after the struct. *)
Lemma immediate_written c args data n words rest :
  written c args data n words -> 0 <= n -> sizeof c + 4 * ((n + 3) / 4) = 4 * zlen words -> 0 <= sizeof c ->
  n <= zlen (immediate_data c (4 * ((n + 3) / 4)) (words ++ rest)) < n + 4 /\
  (copies c = true ->
   zread (immediate_data c (4 * ((n + 3) / 4)) (words ++ rest)) 0 n = zread data 0 n).
Proof.
  intros Hw Hn Hs H0. pose proof (Z.div_mod (n + 3) 4). pose proof (Z.mod_pos_bound (n + 3) 4).
  pose proof (zlen_words_to_bytes words) as Hlw.
  assert (E : immediate_data c (4 * ((n + 3) / 4)) (words ++ rest) = drop (Z.to_nat (sizeof c)) (words_to_bytes words)).
  { unfold immediate_data. rewrite words_to_bytes_app, drop_app_le by (unfold zlen in *; lia).
    rewrite take_app_le by (rewrite length_drop; unfold zlen in *; lia).
    apply take_ge. rewrite length_drop. unfold zlen in *. lia. }
  rewrite E. assert (Hl : zlen (drop (Z.to_nat (sizeof c)) (words_to_bytes words)) = 4 * ((n + 3) / 4))
    by (rewrite zlen_drop by lia; lia).
  split; [lia|]. intros Hc. rewrite <- (w_data _ _ _ _ _ Hw Hc).
  rewrite zread_in by lia. rewrite zread_in by lia. done.
Qed.

(** C6: The service reads a command that [Init] wrote, wherever it lies in the ring buffer, with
    the arguments it was written with and, behind the struct, the data. *)
Theorem command_reaches_handler depth c args data n words rest w :
  c ∈ structs -> GLES2Format.args_ok c args -> data_length c args data = Some n -> written c args data n words ->
  zlen words < 2 ^ 21 ->
  exists immediate,
    GLES2_DoCommand depth (kCmdId c) (zlen words - 1) (words ++ rest) w
      = (do r <- Handle c (args ++ extra_fields c n) immediate w ;; deferred r)%gpu /\
    n <= zlen immediate < n + 4 /\ (copies c = true -> zread immediate 0 n = zread data 0 n).
Proof.
  intros Hin Hargs Hd Hw Hlt. destruct (structs_at c Hin) as (i & Hi & Eid & Hr).
  pose proof (struct_in c Hin) as Hok. destruct (data_length_nonneg c args data n Hok Hargs Hd) as [Hn _]. destruct (struct_ok_inv c Hok) as (_ & _ & Hf & _ & _ & Hfl & _).
  destruct (sizeof_bounds c Hf) as [Hs Hm]. pose proof (w_size _ _ _ _ _ Hw) as Hsz.
  rewrite entries_of_size in Hsz by done. unfold sizeof in Hsz.
  rewrite (Z.mul_comm 4), Z.div_mul in Hsz by lia.
  pose proof (Z.div_mod (n + 3) 4). pose proof (Z.mod_pos_bound (n + 3) 4). pose proof (zlen_nonneg (s_fields c)).
  assert (Hsize : u32 (u32 (zlen words - 1 - zlen (s_fields c)) * 4) = 4 * ((n + 3) / 4)).
  { rewrite (u32_id (zlen words - 1 - _)) by (unfold is_u32; lia). rewrite u32_id by (unfold is_u32; lia). lia. }
  exists (immediate_data c (4 * ((n + 3) / 4)) (words ++ rest)). split.
  - unfold GLES2_DoCommand, kStartPoint. rewrite Eid.
    rewrite u32_id by (unfold is_u32; lia). change (zlen g_command_info) with 201.
    btrue (256 + Z.of_nat i - 255 - 1 <? 201).
    replace (Z.to_nat (256 + Z.of_nat i - 255 - 1)) with i by lia.
    change GpuScheduler.g_command_info with GLES2Commands.g_command_info.
    unfold GLES2Commands.g_command_info. rewrite list_lookup_fmap, Hi. cbn [fmap option_fmap option_map].
    rewrite command_info_args. cbn iota beta.
    match goal with |- obind (if ?b then _ else _) _ = _ => assert (b = true) as -> end.
    { rewrite Hfl. unfold data_length in Hd. destruct (s_tail c); [injection Hd as <-; change ((0 + 3) / 4) with 0 in *|..];
        repeat match goal with |- context [bool_decide (?x = ?y)] =>
          let b := eval vm_compute in (bool_decide (x = y)) in change (bool_decide (x = y)) with b end;
        cbn [andb orb]; lia. }
    rewrite Hsize.
    change (gles2_Handle (256 + Z.of_nat i)) with (GLES2Dispatch.dispatch cfg ReadPixels lim Translate
      generated context_answers program_answers decoder_answers other_Handle (256 + Z.of_nat i)).
    unfold dispatch, kStartPoint. rewrite u32_id by (unfold is_u32; lia).
    replace (Z.to_nat (256 + Z.of_nat i - 255 - 1)) with i by lia.
    rewrite Hi. cbn [of_option obind].
    rewrite (read_app c words rest _ (w_fields _ _ _ _ _ Hw)). cbn [of_option obind].
    unfold extra_fields. match goal with |- obind ?m _ = _ => destruct m as [[e w']| |] end; done.
  - apply (immediate_written c args data n words rest); [done|done|unfold sizeof; lia|lia].
Qed.

End round_trip.
