(* ===== verification/ProgramExamples.v ===== *)
(** * Programs at work

    A program that is compiled, linked, used and drawn with, the theorems about programs
    applied to it, and what the handlers leave undone. *)

From S2P Require Import Prelude CmdFormat CommandBufferService CommonDecoder.
From Stdlib Require Import ZArith Lia ZifyBool Bool String.
From stdpp Require Import base numbers option gmap list.
From S2P Require Import Prelude GLConstants Validators GLES2Util Names Uniforms ShaderManager ProgramManager.
From S2P Require Import ProgramInvariant ProgramCounting ProgramInfoManager ProgramRoundTrip.
From S2P Require Import ProgramDecoder UniformDecoder ProgramQueries ProgramSafety ProgramCommands.
Local Open Scope Z_scope.

(** ** The surroundings *)

#[local] Instance platform32 : Platform := {| size_bits := 32; size_bits_ok := or_introl eq_refl |}.

#[local] Instance one_block : CommandBufferEngine Buffer := {|
  GetSharedMemoryBuffer := fun e _ => e;
  set_token := fun _ e => e;
  engine_SetGetOffset := fun _ e => (false, e);
  GetGetOffset := fun _ => 0;
|}.

(** 256 bytes of shared memory, all zero. *)
Definition example_memory : Decoder Buffer :=
  mkDecoder (mkBuffer (Some 1) 256 (Some 1)) ∅ [] {[1 := replicate 256 0]}.

Definition any_engine (e : Buffer) : Prop := True.
Definition no_entries (e : Buffer) : Z := 0.

Lemma program_memory_ok : decoder_ok any_engine no_entries example_memory.
Proof.
  split; simpl; [done|by intros ? ? ?|done|by intros ? ?%elem_of_nil|]. intros id block [= <-].
  exists (replicate 256 0). split; [done|]. by vm_compute.
Qed.

Definition example_compiler : Compiler := mkCompiler false true.

(** The translator knows one array of two elements. *)
Definition example_translate (type : Z) (source : list Z) : option Translation * list Z :=
  (Some (mkTranslation source ∅ {[ chars "a[0]" := mkVariableInfo GL_FLOAT 2 (chars "a[0]") ]}), []).

Definition example_reflection : Reflection :=
  mkReflection [mkActive (chars "pos") 1 GL_FLOAT_VEC4]
    [mkActive (chars "a[0]") 2 GL_FLOAT; mkActive (chars "tex") 1 GL_SAMPLER_2D]
    (fun _ => 0)
    (fun name => if bool_decide (name = chars "a[0]") then 3 else
                 if bool_decide (name = chars "a[1]") then 4 else 1).

(** The service id of what is made, the answer to a link and the shaders that are attached. *)
Definition answers (id : Z) (attached : list Z) : ProgramAnswers :=
  mkProgramAnswers id (mkLinkAnswer true example_reflection None) None (mkCompileAnswer [] true []) 0 GL_NO_ERROR [] attached.

Notation example_execute := (execute example_compiler example_translate 0 0).
Notation example_reach := (program_reach any_engine no_entries example_compiler example_translate 0 0).

(** ** Running commands *)

Definition State : Type := Decoder Buffer * Programs.

Definition done_or {A} (a : A) (m : outcome A) : A := match m with Done b => b | _ => a end.

Definition run_one (command : ProgramAnswers * ProgramCommand) (st : State) : Error * State :=
  done_or (kNoError, st) (example_execute command.1 command.2 st.1 st.2).

Definition run (commands : list (ProgramAnswers * ProgramCommand)) (st : State) : State :=
  fold_left (fun st command => (run_one command st).2) commands st.

Fixpoint all_ok (commands : list (ProgramAnswers * ProgramCommand)) (st : State) : Prop :=
  match commands with
  | [] => True
  | (env, command) :: commands =>
      (args_ok command /\ command_ok env command st.2) /\ all_ok commands (run_one (env, command) st).2
  end.

Lemma programs_run_reach commands st :
  example_reach st.1 st.2 -> all_ok commands st -> example_reach (run commands st).1 (run commands st).2.
Proof.
  revert st. induction commands as [|[env command] commands IH]; intros [d s] Hr; [done|]. intros [[Ha Hc] Hok].
  destruct (program_reach_good _ _ _ _ _ _ _ _ Hr) as [Hd Hs].
  destruct (execute_fine any_engine no_entries d s Hd Hs example_compiler example_translate 0 0 env command Ha Hc)
    as ([e [d' s']] & Eq & _).
  change (run ((env, command) :: commands) (d, s)) with (run commands (run_one (env, command) (d, s)).2).
  assert ((run_one (env, command) (d, s)).2 = (d', s')) as E1 by (unfold run_one; cbn [fst snd]; by rewrite Eq).
  rewrite E1 in *. apply IH; [|done]. by eapply program_reach_command.
Qed.

(** A vertex shader 7 and a fragment shader 8, attached to the program 5. *)
Definition attach_commands : list (ProgramAnswers * ProgramCommand) :=
  [(answers 50 [], CreateProgram 5);
   (answers 70 [], CreateShader GL_VERTEX_SHADER 7);
   (answers 80 [], CreateShader GL_FRAGMENT_SHADER 8);
   (answers 0 [], CompileShader 7);
   (answers 0 [], CompileShader 8);
   (answers 0 [], AttachShader 5 7);
   (answers 0 [], AttachShader 5 8)].

Definition use_commands : list (ProgramAnswers * ProgramCommand) :=
  [(answers 0 [], LinkProgram 5);
   (answers 0 [], UseProgram 5);
   (answers 0 [], Uniform1i 1 0)].

Definition attached_state : State := run attach_commands (example_memory, Programs_new).
Definition used_state : State := run use_commands attached_state.

Lemma attached_reach : example_reach attached_state.1 attached_state.2.
Proof.
  apply (programs_run_reach attach_commands (example_memory, Programs_new)); [apply program_reach_new, program_memory_ok|].
  by repeat split.
Qed.

(** The driver locates what is active in the example. *)
Lemma example_located ss attached :
  (forall v, v ∈ active_uniforms example_reflection -> uniform_located ss attached example_reflection v) ->
  reflection_ok ss attached example_reflection.
Proof. intros Hu. split; [|done]. intros v Hv _. done. Qed.

Lemma used_commands_ok : all_ok use_commands attached_state.
Proof.
  split; [|by repeat split]. split; [done|]. intros a p Ha Hp _.
  assert (a = 0) as -> by (vm_compute in Ha; congruence).
  assert (p = done_or p (program 0 (program_manager attached_state.2))) as ->.
  { unfold program. by rewrite Hp. }
  clear. apply example_located. intros v Hv. unfold example_reflection in Hv. cbn [active_uniforms] in Hv.
  rewrite !elem_of_cons, elem_of_nil in Hv. destruct Hv as [->|[->|[]]]; intros _; (split; [by vm_compute|]);
    intros name original_name size type Eq; vm_compute in Eq; injection Eq as <- <- <- <-;
    (split; [lia|]); intros k Hk; [|lia]. assert (k = 1) as -> by lia. by vm_compute.
Qed.

Lemma used_reach : example_reach used_state.1 used_state.2.
Proof. exact (programs_run_reach use_commands attached_state attached_reach used_commands_ok). Qed.

(** ** The theorems there *)

Lemma program_commands_safe_witness :
  exists e d' s', example_execute (answers 0 []) (DetachShader 5 7) used_state.1 used_state.2 = Done (e, (d', s')) /\
    decoder_ok any_engine no_entries d' /\ example_reach d' s'.
Proof.
  apply (program_commands_safe any_engine no_entries example_compiler example_translate 0 0); [exact used_reach|done|].
  intros a i Ha Hi. left. assert (a = 0) as -> by (vm_compute in Ha; congruence).
  assert (i = done_or i (shader 0 (shader_manager used_state.2))) as -> by (unfold shader; by rewrite Hi).
  by vm_compute.
Defined.

Lemma program_counts_witness :
  match programs (program_manager used_state.2) !! 0 with
  | Some p => p_use_count_ p = 1 /\ p_valid_ p = true
  | None => False
  end.
Proof.
  destruct (program_counts any_engine no_entries example_compiler example_translate 0 0 used_state.1 used_state.2 used_reach)
    as [_ Hprogram].
  assert (current_program_ used_state.2 = Some 0) as Hc by (vm_compute; reflexivity).
  destruct (programs (program_manager used_state.2) !! 0) as [p|] eqn:Hp; [|vm_compute in Hp; discriminate].
  destruct (Hprogram 0 p Hp) as (H1 & H2 & _). rewrite decide_True in H1 by exact Hc.
  split; [exact H1|exact (H2 Hc)].
Defined.

Lemma CheckCurrentProgram_exact_witness : CheckCurrentProgram used_state.2 = Done (true, used_state.2).
Proof.
  rewrite (CheckCurrentProgram_exact any_engine no_entries example_compiler example_translate 0 0 used_state.1 used_state.2 used_reach).
  assert (current_program_ used_state.2 = Some 0) as -> by (vm_compute; reflexivity). reflexivity.
Defined.

(** The program after its link. *)
Definition linked_program : ProgramManager.ProgramInfo :=
  done_or (ProgramManager.ProgramInfo_new 0) (program 0 (program_manager used_state.2)).

Lemma linked_inputs_ok : inputs_ok (inputs linked_program).
Proof.
  destruct (program_reach_good _ _ _ _ _ _ _ _ used_reach) as [_ Hs].
  apply (programs_inputs _ _ _ _ Hs 0). vm_compute. reflexivity.
Qed.

(** A check that the uniforms fit, good for small ones. *)
Definition small_uniform (u : ServiceUniform) : bool :=
  (zlen (element_locations (uniform u)) =? u_size (uniform u)) && (1 <=? u_size (uniform u)) && (u_size (uniform u) <=? 9) &&
  (0 <=? u_type (uniform u)) && (u_type (uniform u) <? 2 ^ 32) &&
  forallb (fun l => (0 <=? l) && (l <? 9)) (element_locations (uniform u)) &&
  eqb (u_is_array (uniform u)) (bool_decide (last (u_name (uniform u)) = Some close_bracket)).

Lemma small_uniforms_fit us : forallb small_uniform us = true -> Forall uniform_fits us.
Proof.
  intros Hs. apply Forall_forall. intros u Hu. rewrite forallb_forall in Hs.
  specialize (Hs u (proj1 (list_elem_of_In _ _) Hu)). unfold small_uniform in Hs. rewrite !andb_true_iff in Hs.
  destruct Hs as [[[[[[H1 H2] H3] H4] H5] H6] H7]. zbool. apply eqb_prop in H7. repeat split; unfold is_i32, is_u32; try lia; try done.
  apply Forall_forall. intros l Hl. rewrite forallb_forall in H6. specialize (H6 l (proj1 (list_elem_of_In _ _) Hl)).
  unfold is_i32. lia.
Qed.

Lemma linked_program_fits : program_fits linked_program.
Proof.
  split; [| |by vm_compute].
  - assert (ProgramManager.attrib_infos_ (inputs linked_program) = [mkVertexAttribInfo 1 GL_FLOAT_VEC4 0 (chars "pos")])
      as -> by (vm_compute; reflexivity).
    repeat constructor; by vm_compute.
  - apply small_uniforms_fit. vm_compute. reflexivity.
Qed.

Lemma program_info_round_trip_witness :
  exists b' bytes client', ProgramManager.GetProgramInfo linked_program (mkBucket 0 None) = Done b' /\ data_ b' = Some bytes /\
    ProgramInfoManager.Update bytes ProgramInfoManager.ProgramInfo_new = Done client' /\ cached_ client' = true.
Proof.
  destruct (program_info_round_trip linked_program (mkBucket 0 None) ProgramInfoManager.ProgramInfo_new)
    as (b' & bytes & client' & H1 & H2 & H3 & H4 & _); [by split|exact linked_program_fits|vm_compute; reflexivity|reflexivity|].
  exists b', bytes, client'. auto.
Defined.

Lemma active_answer_bounded_witness :
  exists n, active_answer 2 GL_FLOAT (chars "a[0]") 3 =
      Done (mkActiveAnswer 2 GL_FLOAT n (take (Z.to_nat n) (chars "a[0]") ++ [0])) /\ n = 2.
Proof.
  destruct (active_answer_bounded 2 GL_FLOAT (chars "a[0]") 3) as (n & H1 & H2 & _); [lia|by vm_compute|].
  exists n. split; [exact H1|]. rewrite H2. reflexivity.
Defined.

(** ** What the handlers leave undone *)

(** A shader that is deleted and then detached from its only program is read after it was
    freed. *)
Definition deleted_shader_state : State := run [(answers 0 [], DeleteShader 7)] attached_state.

Theorem detached_shader_read_after_free :
  example_reach deleted_shader_state.1 deleted_shader_state.2 /\
  example_execute (answers 0 []) (DetachShader 5 7) deleted_shader_state.1 deleted_shader_state.2 = UB.
Proof.
  split; [|vm_compute; reflexivity].
  apply (programs_run_reach [(answers 0 [], DeleteShader 7)] attached_state attached_reach). by repeat split.
Qed.

(** A result of three bytes is taken to have room for 2^30 ids, of which the size wraps to
    zero: the driver then writes at the end of the shared memory. *)
Theorem attached_shaders_beyond_memory :
  example_execute (answers 0 [70]) (GetAttachedShaders 5 1 256 3) attached_state.1 attached_state.2 = UB.
Proof. vm_compute. reflexivity. Qed.

(** While a deleted shader is attached, the question for the attached shaders is an error that
    loses the context. *)
Theorem attached_deleted_shader_is_an_error :
  example_execute (answers 0 [70; 80]) (GetAttachedShaders 5 1 0 256) deleted_shader_state.1 deleted_shader_state.2 =
  Done (kGenericError, (done_or (deleted_shader_state.1) (write_words (1, 4) [70; 80] deleted_shader_state.1),
                        deleted_shader_state.2)).
Proof. vm_compute. reflexivity. Qed.

(** A program that is deleted while it is used is freed when it is used again: it stays the
    current program, without a name, and the driver is told to use none. *)
Definition used_again_state : State :=
  run [(answers 0 [], DeleteProgram 5); (answers 0 [], UseProgram 5)] used_state.

Theorem deleted_program_used_again :
  let s := used_again_state.2 in
  current_program_ s = Some 0 /\ LookupProgram 5 (program_manager s) = None /\
  last (gl_calls s) = Some (glUseProgram 0) /\ gl_errors s = [].
Proof. repeat split; vm_compute; reflexivity. Qed.

(** A bucket that already has the size of a header keeps it: after the information of a
    linked program without inputs, that of a program that does not exist says that it is
    linked. *)
Definition no_reflection : Reflection := mkReflection [] [] (fun _ => -1) (fun _ => -1).

Definition bare_answers : ProgramAnswers :=
  mkProgramAnswers 0 (mkLinkAnswer true no_reflection None) None (mkCompileAnswer [] true []) 0 GL_NO_ERROR [] [].

Definition stale_state : State :=
  run [(bare_answers, LinkProgram 5); (bare_answers, GetProgramInfoCHROMIUM 5 2); (bare_answers, GetProgramInfoCHROMIUM 99 2)]
    attached_state.

Theorem stale_program_info :
  LookupProgram 99 (program_manager stale_state.2) = None /\
  option_bind _ _ data_ (GetBucket 2 stale_state.1) = Some [1; 0; 0; 0; 0; 0; 0; 0; 0; 0; 0; 0].
Proof. split; vm_compute; reflexivity. Qed.
