(* ===== verification/ContextExamples.v ===== *)
(** * A context at work

    A small context, a few commands of it, and the theorems of its parts applied there. *)

From S2P Require Import Prelude CmdFormat CommandBufferService CommonDecoder.
From Stdlib Require Import ZArith Lia ZifyBool Bool.
From stdpp Require Import base numbers option gmap sets list strings.
From S2P Require Import Prelude GLConstants Validators GLES2Util FeatureInfo TextureInfo IdAllocator.
From S2P Require Import TextureManager RenderbufferManager FramebufferManager ContextState ContextInvariant.
From S2P Require Import TextureDecoder FramebufferDecoder ObjectNames ReadPixels ContextCommands.
Local Open Scope Z_scope.

(** ** The surroundings *)

#[local] Instance platform32 : Platform := {| size_bits := 32; size_bits_ok := or_introl eq_refl |}.

(** An engine with one block of shared memory. *)
#[local] Instance one_block : CommandBufferEngine Buffer := {|
  GetSharedMemoryBuffer := fun e _ => e;
  set_token := fun _ e => e;
  engine_SetGetOffset := fun _ e => (false, e);
  GetGetOffset := fun _ => 0;
|}.

Definition example_memory : Decoder Buffer :=
  mkDecoder (mkBuffer (Some 1) 256 (Some 1)) ∅ [] {[1 := replicate 256 9]}.

Definition any_engine (e : Buffer) : Prop := True.
Definition no_entries (e : Buffer) : Z := 0.

Lemma example_memory_ok : decoder_ok any_engine no_entries example_memory.
Proof.
  split; simpl; [done|by intros ? ? ?|done|by intros ? ?%elem_of_nil|]. intros id block [= <-].
  exists (replicate 256 9). split; [done|]. by vm_compute.
Qed.

(** A framebuffer whose every byte is 7. *)
Definition example_pixel (format type x y : Z) : list Z := replicate (Z.to_nat (group_size format type)) 7.

Definition example_read (align x y width height format type : Z) : list Z :=
  replicate (Z.to_nat (image_size width height format type align)) 7.

Lemma zget_replicate {A} n (x : A) i : 0 <= i < Z.of_nat n -> zget (replicate n x) i = Some x.
Proof. intros Hi. unfold zget. btrue (0 <=? i). apply lookup_replicate. split; [done|lia]. Qed.

Lemma example_reads : reads_pixels example_read example_pixel.
Proof.
  split.
  - intros align x y width height format type Ha Hw Hh. apply zlen_replicate. unfold image_size.
    pose proof (group_size_range format type). pose proof (pitch_bounds (width * group_size format type) align Ha).
    assert (0 <= width * group_size format type) by nia. destruct (height >? 1) eqn:E1; zbool; nia.
  - intros align x y width height format type xx yy k Ha Hxx Hyy Hk row. unfold example_read, example_pixel.
    pose proof (pitch_bounds row align Ha) as Hp. fold row.
    assert (xx * group_size format type + group_size format type <= row) by (unfold row; nia).
    rewrite !zget_replicate; [done|lia|]. unfold image_size. fold row.
    assert (0 <= xx * group_size format type) by nia.
    assert (0 <= yy * pitch row align) by nia. split; [lia|].
    destruct (height >? 1) eqn:E1; zbool.
    + assert (yy * pitch row align <= (height - 1) * pitch row align) by nia. lia.
    + assert (yy = 0 /\ height = 1) as [-> ->] by lia. lia.
Qed.

Definition example_features : FeatureInfo := FeatureInfo.Initialize example_driver false None FeatureInfo_new.

Definition example_config : Config :=
  mkConfig example_features true 2 false false None (8, 8) 0 GL_RGB true true.

Definition no_error_answers (id : Z) : Answers := mkAnswers id GL_NO_ERROR GL_FRAMEBUFFER_COMPLETE.

Definition example_textures : TextureManager :=
  done_or (TextureManager_new 64 64)
    (TextureManager.Initialize example_features (1, 2, 3, 4) (5, 6) (TextureManager_new 64 64)).

Definition example_group : Group :=
  Group_new 64 example_textures Reused.new.

Definition example_new : Context :=
  done_or (Context_new example_group) (Initialize_units example_config example_group).

Lemma example_units : 0 < max_texture_units example_config.
Proof. done. Qed.

Lemma example_group_new : new_group example_config example_group.
Proof.
  exists 64, 64, 64, (1, 2, 3, 4), (5, 6), example_textures, Reused.new.
  split; [lia|]. split; [lia|]. split; [|done]. unfold example_textures.
  destruct (textures_Initialize_ok example_features 64 64 (1, 2, 3, 4) (5, 6)) as (m & Em & _); [lia..|].
  change (feature_info_ example_config) with example_features. by rewrite Em.
Qed.

Lemma example_features_reach : feature_reach example_driver (feature_info_ example_config).
Proof. apply reach_Initialize. Qed.

Notation example_execute := (execute example_config example_read).
Notation example_reach := (reach any_engine no_entries example_config example_read).

Lemma example_new_reach P : example_reach P example_new.
Proof.
  destruct (Initialize_units_ok example_config example_driver example_features_reach example_group
    example_group_new example_units) as (c & Ec & _).
  apply reach_new with example_group; [apply example_group_new|]. unfold example_new. by rewrite Ec.
Qed.

(** ** Running commands *)

Definition run_one (command : Answers * Command) (dc : Decoder Buffer * Context) : Decoder Buffer * Context :=
  snd (done_or (kNoError, dc) (example_execute command.1 command.2 dc.1 dc.2)).

Definition run (commands : list (Answers * Command)) (dc : Decoder Buffer * Context) :=
  fold_left (fun dc command => run_one command dc) commands dc.

Lemma run_reach (P : Command -> Context -> Prop) commands d c :
  example_reach P c -> decoder_ok any_engine no_entries d ->
  Forall (fun '(env, command) => args_ok command /\ forall c, driver_answers env command c /\ P command c)
    commands ->
  let dc := run commands (d, c) in example_reach P dc.2 /\ decoder_ok any_engine no_entries dc.1.
Proof.
  intros Hr Hd Hf. revert d c Hr Hd. induction Hf as [|[env command] commands [Ha HP] _ IH]; intros d c Hr Hd;
    [done|].
  destruct (execute_ok any_engine no_entries example_config example_driver example_features_reach example_read
    example_pixel example_reads env command d c) as (e & d' & c' & Ee & Hd' & _);
    [by eapply reach_ok; [apply example_features_reach|apply example_reads|apply example_units|]|done|done|apply HP|].
  assert (run_one (env, command) (d, c) = (d', c')) as E1 by (unfold run_one; cbn [fst snd]; by rewrite Ee).
  change (run ((env, command) :: commands) (d, c)) with (run commands (run_one (env, command) (d, c))).
  rewrite E1. apply IH; [|done].
  eapply reach_execute; [exact Hr|exact Hd|exact Ha|apply HP|apply HP|exact Ee].
Qed.

(** A texture of 4 by 4 texels; its name is generated when it is bound. *)
Definition texture_commands : list (Answers * Command) :=
  [(no_error_answers 20, BindTexture GL_TEXTURE_2D 10);
   (no_error_answers 0, TexImage2DImmediate GL_TEXTURE_2D 0 GL_RGB 4 4 0 GL_RGB GL_UNSIGNED_BYTE
                          (replicate 48 1))].

(** A framebuffer with a renderbuffer that was attached while the driver found it incomplete. *)
Definition framebuffer_commands : list (Answers * Command) :=
  [(no_error_answers 40, BindFramebuffer GL_FRAMEBUFFER 30);
   (no_error_answers 60, BindRenderbuffer GL_RENDERBUFFER 50);
   (no_error_answers 0, RenderbufferStorage GL_RENDERBUFFER GL_RGBA4 8 8);
   (mkAnswers 0 GL_NO_ERROR 0, FramebufferRenderbuffer GL_FRAMEBUFFER GL_COLOR_ATTACHMENT0 GL_RENDERBUFFER 50)].

Definition mask_commands : list (Answers * Command) :=
  [(no_error_answers 0, ColorMask 1 0 1 1); (no_error_answers 0, Enable GL_DEPTH_TEST);
   (no_error_answers 0, Enable GL_SCISSOR_TEST)].

Definition any_command (command : Command) (c : Context) : Prop := True.

Definition example_textured := run texture_commands (example_memory, example_new).
Definition example_attached := run framebuffer_commands example_textured.
Definition example_masked := run mask_commands example_textured.

Lemma example_textured_reach : example_reach keeps_masks example_textured.2 /\
  decoder_ok any_engine no_entries example_textured.1.
Proof.
  apply run_reach; [apply example_new_reach|apply example_memory_ok|]. repeat constructor.
Qed.

Lemma example_masked_reach : example_reach keeps_masks example_masked.2 /\
  decoder_ok any_engine no_entries example_masked.1.
Proof.
  destruct example_textured_reach. unfold example_masked. destruct example_textured.
  apply run_reach; [done|done|]. repeat constructor.
Qed.

Lemma reach_any P c : example_reach P c -> example_reach any_command c.
Proof.
  intros Hr. induction Hr as [g c Hg Eg|env command d e d' c c' Hr IH Hd Ha Hdr _ Ee].
  - by eapply reach_new.
  - by eapply reach_execute.
Qed.

Lemma example_attached_reach : example_reach any_command example_attached.2 /\
  decoder_ok any_engine no_entries example_attached.1.
Proof.
  destruct example_textured_reach as [Hr%reach_any Hd]. unfold example_attached. destruct example_textured.
  apply run_reach; [done|done|]. repeat constructor.
Qed.

Lemma example_ok P c : example_reach P c -> context_ok example_config c.
Proof. apply (reach_ok any_engine no_entries _ example_driver example_features_reach _ _ example_reads), example_units. Qed.

(** ** The theorems at work *)

Lemma context_safe_witness :
  exists e d' c',
    example_execute (no_error_answers 0) (ReadPixels (-1) 0 3 2 GL_RGBA GL_UNSIGNED_BYTE 5 0 5 100)
      example_attached.1 example_attached.2 = Done (e, (d', c')) /\
    decoder_ok any_engine no_entries d' /\ uploads_ok 4 (gl_calls c') /\
    driver_unpack (gl_calls c') = unpack_alignment_ c' /\ driver_pack (gl_calls c') = pack_alignment_ c' /\
    driver_clear (gl_calls c') = wanted_clear (saved c').
Proof.
  destruct example_attached_reach as [Hr Hd].
  apply (context_safe any_engine no_entries example_config example_driver example_features_reach example_read
    example_pixel example_reads any_command example_attached.2); try done; vm_compute; intuition discriminate.
Defined.

Lemma clears_with_current_masks_witness :
  exists c', DoClear example_config GL_COLOR_BUFFER_BIT example_masked.2 = Done c' /\
    ((gl_calls c' = gl_calls example_masked.2 /\
      gl_errors c' = gl_errors example_masked.2 ++ [GL_INVALID_FRAMEBUFFER_OPERATION]) \/
     exists calls, gl_calls c' = (gl_calls example_masked.2 ++ calls) ++ [glClear GL_COLOR_BUFFER_BIT] /\
       wanted_masks example_config example_masked.2 =
         Done (driver_masks (gl_calls example_masked.2 ++ calls)) /\
       driver_clear (gl_calls example_masked.2 ++ calls) = wanted_clear (saved example_masked.2)).
Proof.
  apply (clears_with_current_masks any_engine no_entries example_config example_driver example_features_reach
    example_read example_pixel example_reads); [apply example_units|apply example_masked_reach].
Defined.

(** The masks of that clear: no green, no alpha as the back buffer has none, a depth test. *)
Example example_masks :
  wanted_masks example_config example_masked.2 =
  Done (mkDriverMasks (true, false, true, false) true true (u32 (-1)) (u32 (-1)) false).
Proof. vm_compute. reflexivity. Qed.

Definition example_sub_image : Context :=
  done_or example_textured.2
    (DoTexSubImage2D example_config GL_TEXTURE_2D 0 1 1 2 2 GL_RGB GL_UNSIGNED_BYTE (replicate 14 3)
       example_textured.2).

Lemma sub_image_inside_witness :
  let c := example_textured.2 in
  let c' := example_sub_image in
  let call := glTexSubImage2D GL_TEXTURE_2D 0 1 1 2 2 GL_RGB GL_UNSIGNED_BYTE (replicate 14 3) in
  gl_calls c' = gl_calls c ++ [call] /\
  ((gl_calls c' = gl_calls c /\ exists e, gl_errors c' = gl_errors c ++ [e]) \/
   exists a t, GetTextureInfoForTarget GL_TEXTURE_2D c = Done (Some (a, t)) /\
     inside t GL_TEXTURE_2D 0 1 1 2 2 /\
     GetLevelType GL_TEXTURE_2D 0 t = Some (GL_UNSIGNED_BYTE, GL_RGB) /\
     (gl_calls c' = gl_calls c ++ [call] \/
      (1 = 0 /\ 1 = 0 /\ GetLevelSize GL_TEXTURE_2D 0 t = Some (2, 2) /\
       gl_calls c' = gl_calls c ++ [WrappedTexImage2D example_config GL_TEXTURE_2D 0 GL_RGB 2 2 0 GL_RGB
                                      GL_UNSIGNED_BYTE (replicate 14 3)]))).
Proof.
  intros c c' call. split; [vm_compute; reflexivity|].
  apply (sub_image_inside example_config c c'); [unfold is_i32; lia..|vm_compute; reflexivity].
Defined.

Definition example_copy : Context :=
  done_or example_textured.2
    (DoCopyTexSubImage2D example_config GL_TEXTURE_2D 0 1 1 6 6 3 3 example_textured.2).

(** Three by three texels are asked for, of which the back buffer has two by two. *)
Lemma copy_inside_witness :
  let c := example_textured.2 in
  last (gl_calls example_copy) = Some (glCopyTexSubImage2D GL_TEXTURE_2D 0 1 1 6 6 2 2) /\
  exists calls, gl_calls example_copy = gl_calls c ++ calls /\ Forall (copy_ok c GL_TEXTURE_2D 0 8 8) calls /\
    forall u v, texel_after calls GL_TEXTURE_2D 0 u v =
      if in_rect u v 1 1 3 3
      then Some (if in_rect (6 + (u - 1)) (6 + (v - 1)) 0 0 8 8 then Pixel (6 + (u - 1)) (6 + (v - 1)) else Zero) else None.
Proof.
  intros c. split; [vm_compute; reflexivity|].
  destruct (copy_inside example_config c example_copy GL_TEXTURE_2D 0 1 1 6 6 3 3 8 8) as [[E _]|Hc];
    [unfold is_i32; lia..|vm_compute; reflexivity|lia|lia|vm_compute; reflexivity| |exact Hc].
  vm_compute in E. discriminate E.
Defined.

(** The framebuffer and what was never cleared of it. *)
Definition example_framebuffer : FramebufferInfo :=
  default (FramebufferInfo_new 0) (fbs example_attached.2 !! 0).

Lemma ClearUnclearedRenderbuffers_clears_witness :
  let c := example_attached.2 in
  let f := example_framebuffer in
  uncleared c f GL_COLOR_ATTACHMENT0 /\ drawn_framebuffer (gl_calls c) = fb_service_id_ f /\
  exists c' format before bits after,
    ClearUnclearedRenderbuffers GL_FRAMEBUFFER f c = Done c' /\
    GetColorAttachmentFormat (texs c) (rbs c) f = Done format /\
    gl_calls c' = gl_calls c ++ before ++ [glClear bits] ++ after /\
    (forall k, uncleared c f k ->
       clears (gl_calls c ++ before) bits (drawn_framebuffer (gl_calls c)) (alpha_of_format format) k) /\
    (forall k a, attachments_ f !! k = Some (RenderbufferAttachment a) ->
       exists r, rbs c' !! a = Some r /\ cleared_ r = true) /\
    driver_clear (gl_calls c') = wanted_clear (saved c) /\
    drawn_framebuffer (gl_calls c') = drawn_framebuffer (gl_calls c) /\ state_dirty_ c' = true.
Proof.
  intros c f. assert (fbs c !! 0 = Some f) as Hf by (vm_compute; reflexivity).
  assert (context_ok example_config c) as Hc by (eapply example_ok, example_attached_reach). split; [|split].
  - exists 0, (mkRenderbufferInfo 60 false true 0 GL_RGBA4 8 8). split_and!; vm_compute; reflexivity.
  - vm_compute. reflexivity.
  - apply (ClearUnclearedRenderbuffers_clears example_config c GL_FRAMEBUFFER f Hc).
    intros k att Hk. by apply (proj2 (ctx_framebuffer _ _ Hc 0 f Hf) k).
Defined.

(** A renderbuffer that was never cleared is attached to a framebuffer that is only read (the
    framebuffer 41, while 40 is drawn to): the clear goes to the other framebuffer, and the
    renderbuffer is taken for cleared. *)
Example read_framebuffer_not_cleared :
  match (do c <- DoBindFramebuffer example_config (no_error_answers 41) GL_READ_FRAMEBUFFER_EXT 31
                   (run [(no_error_answers 40, BindFramebuffer GL_FRAMEBUFFER 30);
                         (no_error_answers 60, BindRenderbuffer GL_RENDERBUFFER 50);
                         (no_error_answers 0, RenderbufferStorage GL_RENDERBUFFER GL_RGBA4 8 8)] example_textured).2 ;;
         do c <- DoFramebufferRenderbuffer (no_error_answers 0) GL_READ_FRAMEBUFFER_EXT GL_COLOR_ATTACHMENT0 GL_RENDERBUFFER 50 c ;;
         Done c)%gpu with
  | Done c =>
      glFramebufferRenderbufferEXT GL_READ_FRAMEBUFFER_EXT GL_COLOR_ATTACHMENT0 GL_RENDERBUFFER 60 ∈ gl_calls c /\
      glBindFramebufferEXT GL_READ_FRAMEBUFFER_EXT 41 ∈ gl_calls c /\
      glClear GL_COLOR_BUFFER_BIT ∈ gl_calls c /\ drawn_framebuffer (gl_calls c) = 40 /\
      cleared_ <$> rbs c !! 0 = Some true
  | _ => False
  end.
Proof.
  match goal with |- match ?x with _ => _ end => let y := eval vm_compute in x in change x with y end. cbv beta iota.
  split_and!; try (vm_compute; reflexivity); apply list_elem_of_In; cbn [In gl_calls]; tauto.
Qed.

Notation example_handled := (HandleReadPixels example_config example_read (no_error_answers 0) (-1) 0 3 2
  GL_RGBA GL_UNSIGNED_BYTE 5 0 5 100 example_textured.1 example_textured.2).

Definition example_pixels_read : Error * (Decoder Buffer * Context) :=
  done_or (kNoError, example_textured) example_handled.

Lemma ReadPixels_safe_witness :
  let d := example_textured.1 in
  let c := example_textured.2 in
  exists e d' c', example_handled = Done (e, (d', c')) /\ decoder_ok any_engine no_entries d' /\
    keeps example_config c c' /\
    (d' = d \/ exists pixels result size,
       regions 3 2 GL_RGBA GL_UNSIGNED_BYTE 5 0 5 100 d c pixels result size /\
       wrote (within pixels result size) d d') /\
    exists calls, gl_calls c' = gl_calls c ++ calls /\
      forall max_width max_height,
        GetBoundReadFrameBufferSize example_config c = Done (max_width, max_height) ->
        Forall (inside_frame max_width max_height) calls.
Proof.
  intros d c. destruct example_textured_reach as [Hr Hd].
  apply (ReadPixels_safe any_engine no_entries example_config example_read example_pixel example_reads);
    [by eapply example_ok|exact Hd|unfold is_u32, is_i32; lia..].
Defined.

(** A column to the left of the back buffer, and two of its columns; it has no alpha. *)
Lemma ReadPixels_content_witness :
  let d' := example_pixels_read.2.1 in
  (forall j, 0 <= j < 4 -> byte_at d' 1 (100 + j) = zget [1; 0; 0; 0] j) /\
  (forall xx yy k, 0 <= xx < 3 -> 0 <= yy < 2 -> 0 <= k < 4 ->
     byte_at d' 1 (0 + yy * 12 + xx * 4 + k) =
     if opaque GL_RGBA GL_RGB k then Some 255
     else frame_byte example_pixel 8 8 GL_RGBA GL_UNSIGNED_BYTE (-1 + xx) (0 + yy) k).
Proof.
  intros d'. destruct example_textured_reach as [Hr Hd].
  assert (GetAddressAndCheckSize 5 0 24 example_textured.1 = Some (1, 0)) as Ep by (vm_compute; reflexivity).
  assert (GetAddressAndCheckSize 5 100 4 example_textured.1 = Some (1, 100)) as Er by (vm_compute; reflexivity).
  apply (ReadPixels_content any_engine no_entries example_config example_read example_pixel example_reads
    (no_error_answers 0) (-1) 0 3 2 GL_RGBA GL_UNSIGNED_BYTE 5 0 5 100 example_textured.1 example_textured.2)
    with (pixels := (1, 0)) (result := (1, 100)) (size := 24) (c' := example_pixels_read.2.2);
    [by eapply example_ok|exact Hd|unfold is_u32, is_i32; lia..|reflexivity|vm_compute; reflexivity|
     vm_compute; reflexivity| | |vm_compute; reflexivity|vm_compute; reflexivity].
  - split; [vm_compute; reflexivity|]. by split.
  - intros b i [-> Hi] [_ Hi']. cbn [fst snd] in Hi, Hi'. clear - Hi Hi'. lia.
Defined.

(** ** What the handlers leave undone

    Each example is a context after a few commands, and the driver answers no error and
    that the framebuffer is complete. *)

Definition storage_after_attach : list (Answers * Command) :=
  [(no_error_answers 40, BindFramebuffer GL_FRAMEBUFFER 30);
   (no_error_answers 60, BindRenderbuffer GL_RENDERBUFFER 50);
   (no_error_answers 0, FramebufferRenderbuffer GL_FRAMEBUFFER GL_COLOR_ATTACHMENT0 GL_RENDERBUFFER 50);
   (no_error_answers 0, RenderbufferStorage GL_RENDERBUFFER GL_RGBA4 8 8)].

Definition storage_then_attach : list (Answers * Command) :=
  [(no_error_answers 40, BindFramebuffer GL_FRAMEBUFFER 30);
   (no_error_answers 60, BindRenderbuffer GL_RENDERBUFFER 50);
   (no_error_answers 0, RenderbufferStorage GL_RENDERBUFFER GL_RGBA4 8 8);
   (no_error_answers 0, FramebufferRenderbuffer GL_FRAMEBUFFER GL_COLOR_ATTACHMENT0 GL_RENDERBUFFER 50)].

(** Storage given to a renderbuffer after it was attached is not cleared: the framebuffer
    passes the checks with an attachment that was never cleared. *)
Theorem storage_after_attach_uncleared :
  let c := (run storage_after_attach example_textured).2 in
  match CheckFramebufferComplete c with Done (complete, _) => complete = true | _ => False end /\
  (default (Done false) (HasUnclearedAttachment (rbs c) GL_COLOR_ATTACHMENT0 <$> fbs c !! 0) = Done true).
Proof. split; vm_compute; reflexivity. Qed.

(** Storage without alpha for the color buffer that is drawn to does not make the state
    dirty: the next clear is made with the old mask. *)
Theorem storage_keeps_stale_masks :
  let c := (run (storage_then_attach ++
                 [(no_error_answers 0, Clear GL_COLOR_BUFFER_BIT);
                  (no_error_answers 0, RenderbufferStorage GL_RENDERBUFFER GL_RGB565 8 8);
                  (no_error_answers 0, Clear GL_COLOR_BUFFER_BIT)]) example_textured).2 in
  last (gl_calls c) = Some (glClear GL_COLOR_BUFFER_BIT) /\
  color_mask (driver_masks (gl_calls c)) = (true, true, true, true) /\
  match wanted_masks example_config c with
  | Done m => color_mask m = (true, true, true, false)
  | _ => False
  end.
Proof. split_and!; vm_compute; reflexivity. Qed.

(** Deleting the framebuffer that is bound leaves it bound for reading, and what is read
    afterwards is empty, not the back buffer. *)
Theorem deleted_framebuffer_read :
  let c := (run (storage_then_attach ++ [(no_error_answers 0, DeleteFramebuffersImmediate 1 (le_bytes 4 30))])
             example_textured).2 in
  bound_draw_framebuffer_ (bindings c) = None /\ bound_read_framebuffer_ (bindings c) = Some 0 /\
  GetBoundReadFrameBufferSize example_config c = Done (0, 0).
Proof. split_and!; vm_compute; reflexivity. Qed.
