(* ===== verification/ClientExamples.v ===== *)
(** * A client with a small transfer buffer

    The theorems of [ClientBuckets.v] and [ClientUploads.v] at a client whose transfer buffer has
    room for eight bytes, over a connection whose service works now and then; and
    calls of such a client that go wrong. *)

From S2P Require Import Prelude CmdFormat CommandBufferService CommonDecoder GLES2Format GLES2Commands.
From Stdlib Require Import ZArith Lia ZifyBool Bool.
From stdpp Require Import base numbers option gmap list.
From S2P Require Import GLConstants GLES2Util RingBuffer Tokens Connection TransferBuffer ClientState ClientBindings ClientBuffers.
From S2P Require Import ClientTextures ClientPrograms ClientDelivery ClientBuckets ClientUploads BufferManager.
From S2P Require ContextState TextureDecoder ContextExamples.
Local Open Scope Z_scope.

#[local] Instance platform32 : Platform := {| size_bits := 32; size_bits_ok := or_introl eq_refl |}.

Definition small_config : ClientConfig := mkClientConfig 5 false true.

Definition small_room : Z := 8.

(** A service that knows the common commands only. *)
Definition small_serve : History -> ClientCommand -> list Z -> list Z := common_serve 5 (fun _ _ _ _ m => m).

#[local] Instance small_tokens : TokenHelper Link := link_tokens small_serve.
#[local] Instance small_connection : Connection Link := link_connection small_serve.
#[local] Instance small_laws : ConnectionLaws Link small_serve link_ok waiting done_so_far := link_laws small_serve.

Definition small_client : GLES2Implementation := members small_config (kStartingOffset + small_room).

Definition small_link : Link := Link_new (replicate 72 0) [0; 2; 0; 1; 0; 0; 3]%nat.

Lemma small_ok : link_ok small_link.
Proof. split; [by vm_compute| |constructor]. repeat constructor. Qed.

Lemma small_at_work :
  at_work (serve := small_serve) (ok := link_ok) (pending := waiting) (history := done_so_far) small_room (small_client, small_link).
Proof. apply new_at_work; [done|done|apply small_ok|done|by vm_compute]. Qed.

Definition twenty_bytes : list Z := map Z.of_nat (seq 1 20).

(** A buffer of thirty bytes that the service has a copy of. *)
Definition kept_buffer : BufferInfo := BufferInfo_SetInfo 30 GL_STATIC_DRAW true (BufferInfo_new 7).

Lemma kept_buffer_holds : holds kept_buffer (replicate 30 0).
Proof. by split_and!. Qed.

Lemma small_tokens_quiet t : quiet (serve := small_serve) (SetToken t).
Proof. by apply common_serve_quiet. Qed.

Lemma small_buffers_quiet args : quiet (serve := small_serve) (Gl cmds.BufferSubData args []).
Proof. done. Qed.

(** Three parts: eight bytes, eight, and four. *)
Lemma BufferSubData_arrives_witness :
  exists g' w1 w2 before dn b', BufferSubData small_config GL_ARRAY_BUFFER 5 20 twenty_bytes (small_client, small_link) = Done ((), (g', w1)) /\
    Connection.Finish w1 = Done w2 /\ done_so_far w2 = before ++ dn /\ before.*1 = [] /\
    buffer_after 5 GL_ARRAY_BUFFER dn kept_buffer = Some b' /\
    holds b' (replicate 5 0 ++ twenty_bytes ++ replicate 5 0) /\ unchanged small_client g'.
Proof.
  refine (BufferSubData_arrives small_tokens_quiet small_buffers_quiet small_config small_room GL_ARRAY_BUFFER 5 twenty_bytes
    small_client small_link kept_buffer (replicate 30 0) _ small_at_work _ _ _ kept_buffer_holds _).
  - done.
  - reflexivity.
  - reflexivity.
  - vm_compute. reflexivity.
Defined.

Lemma small_images_quiet args : quiet (serve := small_serve) (Gl cmds.TexSubImage2D args []).
Proof. done. Qed.

Lemma small_id_int : is_i32 (transfer_buffer_id_ small_config).
Proof. done. Qed.

(** The service has a texture of 4 by 4 texels.  Rows of three bytes, four bytes apart, go to its
    second column: two at a time, from the second row on. *)
Definition small_image : Image := mkImage GL_TEXTURE_2D 0 1 1 GL_RGB GL_UNSIGNED_BYTE 0.
Definition small_texture : ContextState.Context := ContextExamples.example_textured.2.

Lemma small_level : level_ready ContextExamples.example_config small_image 4 4 4 small_texture.
Proof. vm_compute. split_and!; try reflexivity. do 2 eexists. split_and!; reflexivity. Qed.

Lemma TexSubImage2D_arrives_witness :
  exists g' w1 w2 before dn calls,
    TexSubImage2DImpl small_config GL_TEXTURE_2D 0 1 1 1 3 GL_RGB GL_UNSIGNED_BYTE twenty_bytes 0 (small_client, small_link) =
      Done ((), (g', w1)) /\
    Connection.Finish w1 = Done w2 /\ done_so_far w2 = before ++ dn /\ before.*1 = [] /\
    context_after ContextExamples.example_config 5 dn small_texture = Some (foldl (fun c call => ContextState.gl call c) small_texture calls) /\
    (forall texels u v, 0 <= u < 4 -> 0 <= v < 4 ->
       play_all GL_TEXTURE_2D 0 4 texels calls u v =
         if TextureDecoder.in_rect u v 1 1 1 3
         then texel 1 GL_RGB GL_UNSIGNED_BYTE 4 (u - 1) (v - 1) twenty_bytes else texels u v) /\
    unchanged small_client g'.
Proof.
  refine (TexSubImage2D_arrives small_tokens_quiet small_images_quiet small_config small_id_int ContextExamples.example_config
    small_room GL_TEXTURE_2D 0 1 1 1 3 GL_RGB GL_UNSIGNED_BYTE twenty_bytes 0 4 4 4 small_client small_link small_texture
    small_at_work _ _ _ _ _ _ _ _ _ _ _ _ _ _ _ _ _ small_level).
  all: try done; try reflexivity.
  rewrite !elem_of_cons. by right; right; left.
Defined.

(** The texels of the second column, when all is done. *)
Example small_image_texels :
  match TexSubImage2DImpl small_config GL_TEXTURE_2D 0 1 1 1 3 GL_RGB GL_UNSIGNED_BYTE twenty_bytes 0 (small_client, small_link) with
  | Done (_, (_, w1)) =>
      match Connection.Finish w1 with
      | Done w2 =>
          match context_after ContextExamples.example_config 5 (done_so_far w2) small_texture with
          | Some c =>
              let texels := play_all GL_TEXTURE_2D 0 4 (fun _ _ => None) (ContextState.gl_calls c) in
              map (texels 1) [0; 1; 2; 3] = [Some [1; 1; 1]; Some [1; 2; 3]; Some [5; 6; 7]; Some [9; 10; 11]] /\
              length (ContextState.gl_calls c) = (length (ContextState.gl_calls small_texture) + 2)%nat
          | None => False
          end
      | _ => False
      end
  | _ => False
  end.
Proof. vm_compute. by split. Qed.

Lemma bucket_contents_round_trip_witness :
  exists g' w', (SetBucketContents small_config 1 twenty_bytes ;; GetBucketContents small_config 1) (small_client, small_link) =
      Done (twenty_bytes, (g', w')) /\
    at_work (serve := small_serve) (ok := link_ok) (pending := waiting) (history := done_so_far) small_room (g', w') /\
    unchanged small_client g'.
Proof.
  refine (bucket_contents_round_trip small_config (fun _ _ _ _ m => m) (laws := small_laws) small_id_int small_room 1 twenty_bytes
    small_client small_link ∅ small_at_work _ _ _ _ _ _).
  - reflexivity.
  - reflexivity.
  - done.
  - done.
  - reflexivity.
  - done.
Defined.

(** The same, run: the commands that were carried out when the data is back. *)
Example round_trip_commands :
  match (SetBucketContents small_config 1 (take 12 twenty_bytes) ;; GetBucketContents small_config 1) (small_client, small_link) with
  | Done (data, (_, w)) => data = take 12 twenty_bytes /\ (done_so_far w).*1 =
      [SetBucketSize 1 12; SetBucketData 1 0 8 5 64; SetToken 1; SetBucketData 1 8 4 5 64; SetToken 2;
       GetBucketSize 1 5 0; GetBucketData 1 0 8 5 64; SetToken 3; GetBucketData 1 8 4 5 64]
  | _ => False
  end.
Proof. by vm_compute. Qed.

(** ** Calls that go wrong *)

(** What was issued. *)
Definition commands_of {A} (m : Method Link A) : outcome (list (list Z)) :=
  (do (_, (_, w)) <- m (small_client, small_link) ;;
   Done ((fun c => match c with Gl _ args _ => args | SetToken t => [t] | _ => [] end) <$> (done_so_far w).*1 ++ waiting w))%gpu.

(** Two pixels fit: three are sent as two, and again two, of which the last is not there. *)
Example sub_rows_read_past_end :
  TexSubImage2D small_config GL_TEXTURE_2D 0 0 0 3 1 GL_RGBA GL_UNSIGNED_BYTE (take 12 twenty_bytes) (small_client, small_link) = UB.
Proof. by vm_compute. Qed.

(** With rows flipped, one row at [yoffset] 1 goes to the row -1. *)
Example flipped_row_misplaced :
  commands_of (PixelStorei GL_UNPACK_FLIP_Y_CHROMIUM 1 ;;
               TexSubImage2D small_config GL_TEXTURE_2D 0 0 1 1 1 GL_RGBA GL_UNSIGNED_BYTE (take 4 twenty_bytes)) =
    Done [[GL_TEXTURE_2D; 0; 0; -1; 1; 1; GL_RGBA; GL_UNSIGNED_BYTE; 5; 64; 0]; [1]].
Proof. by vm_compute. Qed.

(** An alignment that OpenGL refuses is refused by the service and used by the client: the rows are
    three bytes apart for one, and four for the other. *)
Example invalid_alignment_used :
  commands_of (PixelStorei GL_UNPACK_ALIGNMENT 3 ;;
               TexSubImage2D small_config GL_TEXTURE_2D 0 0 0 1 2 GL_RGB GL_UNSIGNED_BYTE (take 6 twenty_bytes)) =
    Done [[GL_UNPACK_ALIGNMENT; 3]; [GL_TEXTURE_2D; 0; 0; 0; 1; 2; GL_RGB; GL_UNSIGNED_BYTE; 5; 64; 0]; [1]].
Proof. by vm_compute. Qed.

(** A length below zero says that the string ends with a zero; four gigabytes are read. *)
Example negative_length_read_past_end :
  ShaderSource small_config 3 1 [Some [65; 0]] (Some [-1]) (small_client, small_link) = UB.
Proof. by vm_compute. Qed.

(** Three ids do not fit at once, and room for all three is asked for: the allocator frees blocks
    until there are none, and goes on. *)
Example shared_ids_without_room :
  RegisterSharedIdsCHROMIUM small_config 1 [1; 2; 3] (small_client, small_link) = UB.
Proof. by vm_compute. Qed.

(** So it is for a shader that is longer than the transfer buffer. *)
Example long_binary_without_room :
  ShaderBinary small_config 1 [3] 1 (take 8 twenty_bytes) 8 (small_client, small_link) = UB.
Proof. by vm_compute. Qed.

(** A client of two texture units: a texture that is deleted while the other unit is active stays
    bound, for the client. *)
Example deleted_texture_stays_bound :
  match (modify (fun g => with_bound (with_texture_units (replicate 2 (mkTextureUnit 0 0)) (bound g))
                            (with_gl_state (limits_of [2]) g)) ;;
         ids ← GenTextures small_config 1; BindTexture GL_TEXTURE_2D 1 ;; ActiveTexture (GL_TEXTURE0 + 1) ;;
         DeleteTextures small_config 1 [1] ;; mret ids) (small_client, small_link) with
  | Done (ids, (g, _)) => ids = Some [1] /\ texture_units_ (bound g) = [mkTextureUnit 1 0; mkTextureUnit 0 0] /\ error_bits_ g = 0
  | _ => False
  end.
Proof. by vm_compute. Qed.

(** The numbers of formats that the client's [util_] knows were taken before the service was asked:
    what should have been answered is an error. *)
Example compressed_formats_refused :
  match (modify (with_gl_state (mkGLState 0 0 0 0 0 0 0 0 0 0 3 0)) ;;
         GetMultipleIntegervCHROMIUM small_config [GL_COMPRESSED_TEXTURE_FORMATS] 1 [0; 0; 0] 12) (small_client, small_link) with
  | Done (answer, (g, _)) => answer = None /\ error_bits_ g = GLErrorToErrorBit GL_INVALID_ENUM
  | _ => False
  end.
Proof. by vm_compute. Qed.
