(* ===== verification/GLES2EndToEnd.v ===== *)
(** * GL calls, end to end

    A client that calls methods of [GLES2CmdHelper], the ring buffer, the parser, the switch of
    [DoCommand] and the handlers of textures, framebuffers and the clear state, composed.  The
    commands are those of fixed size that always succeed, for which nothing is asked of the
    driver. *)

From S2P Require Import Prelude CmdFormat GLES2Format GLES2Commands CommandBufferService CmdParser CommonDecoder GpuScheduler.
From S2P Require Import RingProtocol CmdBufferHelper GLES2CmdHelper InProcess.
From Stdlib Require Import ZArith Lia ZifyBool Bool.
From stdpp Require Import base list numbers option strings gmap.
From S2P Require Import GLConstants Validators FeatureInfo ContextState ContextInvariant TextureDecoder ReadPixels.
From S2P Require Import ShaderManager ProgramManager ProgramInvariant ProgramDecoder ProgramSafety.
From S2P Require Import DrawValidation ContextCommands ProgramCommands DecoderState HandlerSafety DecoderCommands GLES2Dispatch.
Local Open Scope Z_scope.

(** ** The calls *)

(** The commands whose handlers always answer [kNoError] and do not ask the driver for
    storage. *)
Definition always_succeeds (command : ContextCommands.Command) : bool :=
  match command with
  | ContextCommands.ActiveTexture _ | ContextCommands.BindTexture _ _ | ContextCommands.BindRenderbuffer _ _
  | ContextCommands.BindFramebuffer _ _ | ContextCommands.TexParameteri _ _ _ | ContextCommands.GenerateMipmap _
  | ContextCommands.PixelStorei _ _ | ContextCommands.CopyTexImage2D _ _ _ _ _ _ _ _
  | ContextCommands.CopyTexSubImage2D _ _ _ _ _ _ _ _ | ContextCommands.FramebufferRenderbuffer _ _ _ _
  | ContextCommands.FramebufferTexture2D _ _ _ _ _ | ContextCommands.RenderbufferStorage _ _ _ _
  | ContextCommands.BlitFramebufferEXT _ _ _ _ _ _ _ _ _ _ | ContextCommands.Enable _ | ContextCommands.Disable _
  | ContextCommands.ClearColor _ _ _ _ | ContextCommands.ClearDepthf _ | ContextCommands.ClearStencil _
  | ContextCommands.ColorMask _ _ _ _ | ContextCommands.DepthMask _ | ContextCommands.StencilMask _
  | ContextCommands.StencilMaskSeparate _ _ | ContextCommands.Clear _ => true
  | _ => false
  end.

(** A call of a method: its struct and its arguments. *)
Definition MethodCall : Type := Struct * list Z.

Definition call_command (call : MethodCall) : option ContextCommands.Command :=
  find_command (context_commands (fun _ => [])) call.1 call.2 [].

(** The command in the ring buffer, and the call that it is. *)
Definition ring_command (call : MethodCall) : RingProtocol.Command := mkCommand (kCmdId call.1) (u32 <$> call.2).

Definition call_of (command : RingProtocol.Command) : option MethodCall :=
  c ← structs !! Z.to_nat (c_id command - 256); fields ← GLES2Format.read c (0 :: c_args command); Some (c, fields).

Definition call_ok (call : MethodCall) : Prop :=
  call.1 ∈ structs /\ s_tail call.1 = NoTail /\ GLES2Format.args_ok call.1 call.2 /\
  match call_command call with Some command => always_succeeds command = true | None => False end.

(** Several calls, in order. *)
Fixpoint make_calls `{Platform, CommandBuffer B} (fuel : nat) (calls : list MethodCall) (client : Client B)
    : outcome (Client B) :=
  match calls with
  | [] => Done client
  | (c, args) :: calls => (do client <- put_command fuel c args [] client ;; make_calls fuel calls client)%gpu
  end.

Section meaning.
Context `{Platform}.
Variables (cfg : Config) (ReadPixels : Z -> Z -> Z -> Z -> Z -> Z -> Z -> list Z).
Variable context_answers : ContextCommands.Command -> GLES2State -> ContextState.Answers.
(** The handlers below do not look at the common decoder: any one does. *)
Variable no_decoder : CommonDecoder.Decoder GpuScheduler.

(** What a call means: its handler on the state, without any client or ring buffer. *)
Definition call_meaning (g : GLES2State) (call : MethodCall) : GLES2State :=
  match call_command call with
  | Some command =>
      match ContextCommands.execute cfg ReadPixels (context_answers command g) command no_decoder (context g) with
      | Done (_, (_, c)) => with_context c g
      | _ => g
      end
  | None => g
  end.
End meaning.

(** ** Lemmas *)

(** A command that always succeeds is made from the fields alone. *)
Definition fields_only (e : Struct * (list Z -> list Z -> option ContextCommands.Command))
    (e' : Struct * (list Z -> list Z -> option ContextCommands.Command)) : Prop :=
  e.1 = e'.1 /\ forall fields data data' command,
    e.2 fields data = Some command -> always_succeeds command = true -> e'.2 fields data' = Some command.

Lemma context_commands_same gen gen' : Forall2 fields_only (context_commands gen) (context_commands gen').
Proof.
  unfold context_commands.
  repeat (constructor; [split; [reflexivity|cbn [snd]; intros fields data data' command Hm Ha;
    repeat match type of Hm with context [match ?l with [] => _ | _ :: _ => _ end] => destruct l; try discriminate Hm end;
    first [exact Hm|injection Hm as <-; discriminate Ha]]|]).
  constructor.
Qed.

Lemma find_command_same table table' c fields data data' command :
  Forall2 fields_only table table' -> find_command table c fields data = Some command ->
  always_succeeds command = true -> find_command table' c fields data' = Some command.
Proof.
  unfold find_command. intros Ht Hf Ha.
  destruct (list_find _ table) as [[i e]|] eqn:E; [|done]. apply list_find_Some in E as (Hi & Hn & Hfirst).
  destruct (Forall2_lookup_l _ _ _ _ _ Ht Hi) as (e' & Hi' & He & Hsame).
  assert (list_find (fun e => s_name e.1 = s_name c) table' = Some (i, e')) as ->.
  { apply list_find_Some. split_and!; [done|by rewrite <- He|]. intros j y Hj Hlt.
    destruct (Forall2_lookup_r _ _ _ _ _ Ht Hj) as (x & Hx & Hxy & _). rewrite <- Hxy. by eapply Hfirst. }
  by eapply Hsame.
Qed.

Lemma call_command_any gen data call command :
  call_command call = Some command -> always_succeeds command = true ->
  find_command (context_commands gen) call.1 call.2 data = Some command.
Proof. intros Hc Ha. eapply find_command_same; [apply context_commands_same|exact Hc|exact Ha]. Qed.

(** *** The words of a call *)

Section words.
Context `{Platform}.

Lemma struct_fixed c : c ∈ structs -> s_tail c = NoTail ->
  zlen (s_fields c) < 16 /\ sizeof c / 4 = 1 + zlen (s_fields c) /\ params c = s_fields c.
Proof.
  intros Hin Ht. destruct (struct_ok_inv c (struct_in c Hin)) as (_ & _ & Hf & _).
  split_and!; [done| |unfold params; by rewrite Ht].
  unfold sizeof. rewrite (Z.mul_comm 4), Z.div_mul; lia.
Qed.

Lemma args_length c args : GLES2Format.args_ok c args -> params c = s_fields c -> zlen args = zlen (s_fields c).
Proof. unfold GLES2Format.args_ok. intros Ha Hp. rewrite Hp in Ha. unfold zlen. by rewrite (Forall2_length _ _ _ Ha). Qed.

Lemma zlen_words (args : list Z) : zlen (u32 <$> args) = zlen args.
Proof. unfold zlen. by rewrite length_fmap. Qed.

Lemma read_words c args h rest :
  GLES2Format.args_ok c args -> params c = s_fields c ->
  GLES2Format.read c (h :: (u32 <$> args) ++ rest) = Some args.
Proof.
  intros Ha Hp. pose proof (args_length c args Ha Hp) as Hl. pose proof (zlen_words args).
  unfold GLES2Format.read. rewrite zread_in.
  - change (Z.to_nat 1) with 1%nat. cbn [drop]. rewrite drop_0. cbn [fmap option_fmap option_map]. f_equal.
    rewrite take_app_le, take_ge by (unfold zlen in *; lia). apply load_fields.
    unfold GLES2Format.args_ok in Ha. by rewrite Hp in Ha.
  - lia.
  - apply zlen_nonneg.
  - rewrite zlen_cons, zlen_app. pose proof (zlen_nonneg rest). lia.
Qed.

Lemma words_u32 (args : list Z) : Forall is_u32 (u32 <$> args).
Proof. apply Forall_fmap, Forall_forall. intros. apply u32_range. Qed.

(** The words of a call are what [Init] writes, and nothing else is. *)
Lemma ring_command_written c args :
  c ∈ structs -> s_tail c = NoTail -> GLES2Format.args_ok c args ->
  written c args [] 0 (RingProtocol.encode (ring_command (c, args))).
Proof.
  intros Hin Ht Ha. destruct (struct_fixed c Hin Ht) as (Hf & Hs & Hp).
  pose proof (args_length c args Ha Hp) as Hl. pose proof (zlen_words args).
  assert (Hz : zlen (RingProtocol.encode (ring_command (c, args))) = 1 + zlen args).
  { rewrite zlen_encode. unfold command_size, ring_command. cbn [c_args fst snd]. lia. }
  split.
  - rewrite Hz. unfold RingProtocol.encode, command_size, ring_command. cbn [c_args c_id fst snd]. rewrite zlen_words. by eexists.
  - rewrite Hz, entries_of_size by (apply sizeof_bounds; lia). change ((0 + 3) / 4) with 0. lia.
  - constructor; [apply header_word_u32|apply words_u32].
  - rewrite Ht, app_nil_r. unfold RingProtocol.encode, ring_command. cbn [c_args fst snd].
    rewrite <- (app_nil_r (u32 <$> args)). by apply read_words.
  - unfold copies. by rewrite Ht.
Qed.

Lemma load_inj t w : is_u32 w -> u32 (GLES2Format.load t w) = w.
Proof.
  intros Hw. destruct t; cbn [GLES2Format.load]; [by apply u32_id| |by apply u32_id].
  unfold i32, u32. rewrite Zminus_mod_idemp_l. replace (w + 2 ^ 31 - 2 ^ 31) with w by lia. by apply Z.mod_small.
Qed.

Lemma written_ring c args words :
  c ∈ structs -> s_tail c = NoTail -> GLES2Format.args_ok c args -> written c args [] 0 words ->
  command_in c words = ring_command (c, args).
Proof.
  intros Hin Ht Ha Hw. destruct (struct_fixed c Hin Ht) as (Hf & Hs & Hp).
  pose proof (args_length c args Ha Hp) as Hl. destruct (w_header _ _ _ _ _ Hw) as (rest & E).
  unfold command_in, ring_command. cbn [fst snd]. f_equal.
  pose proof (w_fields _ _ _ _ _ Hw) as Hr. pose proof (w_words _ _ _ _ _ Hw) as Hu.
  pose proof (w_size _ _ _ _ _ Hw) as Hz. rewrite entries_of_size in Hz by (apply sizeof_bounds; lia).
  change ((0 + 3) / 4) with 0 in Hz. rewrite Ht, app_nil_r in Hr.
  destruct words as [|h t]; [done|]. cbn [tail]. rewrite zlen_cons in Hz.
  apply Forall_cons in Hu as [_ Hu]. unfold GLES2Format.read in Hr.
  rewrite zread_in in Hr by (rewrite ?zlen_cons; pose proof (zlen_nonneg (s_fields c)); lia).
  change (Z.to_nat 1) with 1%nat in Hr. cbn [drop] in Hr. rewrite drop_0 in Hr.
  rewrite take_ge in Hr by (unfold zlen in *; lia). injection Hr as <-.
  assert (Hlen : length t = length (s_fields c)) by (unfold zlen in *; lia).
  clear -Hu Hlen. revert t Hu Hlen. induction (s_fields c) as [|f fields IH]; intros [|w t] Hu Hlen; try done.
  apply Forall_cons in Hu as [Hw Hu]. cbn [zip_with fmap list_fmap]. rewrite load_inj by done. f_equal.
  apply IH; [done|]. cbn in Hlen. lia.
Qed.
End words.

(** *** The calls are simple commands of the process *)

Section simple_calls.
Context `{Platform}.
Variables (cfg : Config) (driver : Driver).
Hypothesis features : feature_reach driver (feature_info_ cfg).
Variable ReadPixels : Z -> Z -> Z -> Z -> Z -> Z -> Z -> list Z.
Variable pixel : Z -> Z -> Z -> Z -> list Z.
Hypothesis laws : reads_pixels ReadPixels pixel.
Variables (lim : GroupLimits) (Translate : Enabled -> Z -> list Z -> option Translation * list Z).
Variable generated : GLES2State -> Z -> list Z.
Variable context_answers : ContextCommands.Command -> GLES2State -> ContextState.Answers.
Variable program_answers : ProgramCommands.ProgramCommand -> GLES2State -> ProgramAnswers.
Variable decoder_answers : DecoderCommands.DecoderCommand -> GLES2State -> DecoderAnswers.
Variable other_Handle : Struct -> list Z -> list Z -> GpuProcess GLES2State ->
  outcome (CmdFormat.Error * GpuProcess GLES2State).
Variable no_decoder : CommonDecoder.Decoder GpuScheduler.
Hypothesis no_decoder_ok : decoder_ok scheduler_ok scheduler_entries no_decoder.

Notation Handle :=
  (Handle cfg ReadPixels lim Translate generated context_answers program_answers decoder_answers other_Handle).
#[local] Instance call_handlers : GLES2Handlers GLES2State :=
  dispatch_handlers cfg ReadPixels lim Translate generated context_answers program_answers decoder_answers other_Handle.
Notation call_meaning := (call_meaning cfg ReadPixels context_answers no_decoder).

#[local] Instance calls_simple : SimpleGLES2 GLES2State := {
  gl_simple command := exists call, call_ok call /\ command = ring_command call;
  gl_exec command g := match call_of command with Some call => call_meaning g call | None => g end;
  gl_ok := state_good cfg lim;
}.

Lemma call_of_ring call : call_ok call -> call_of (ring_command call) = Some call.
Proof.
  destruct call as [c args]. intros (Hin & Ht & Ha & _). cbn [fst snd] in *.
  destruct (structs_at c Hin) as (i & Hi & Ei & _). destruct (struct_fixed c Hin Ht) as (_ & _ & Hp).
  unfold call_of, ring_command. cbn [c_id c_args fst snd]. rewrite Ei.
  replace (Z.to_nat (256 + Z.of_nat i - 256)) with i by lia. rewrite Hi. cbn [mbind option_bind].
  rewrite <- (app_nil_r (u32 <$> args)). by rewrite read_words.
Qed.

Lemma ring_command_plain call : call_ok call -> plain (ring_command call) /\ kStartPoint < kCmdId call.1.
Proof.
  destruct call as [c args]. intros (Hin & Ht & Ha & _). cbn [fst snd] in *.
  destruct (structs_at c Hin) as (i & _ & Ei & Hi). destruct (struct_fixed c Hin Ht) as (Hf & _ & Hp).
  pose proof (args_length c args Ha Hp). pose proof (zlen_words args).
  unfold plain, ring_command, command_size, kStartPoint, id_num. cbn [c_id c_args fst snd]. rewrite Ei.
  split_and!; try lia. apply words_u32.
Qed.

(** Such a handler works on the context alone, and answers [kNoError]. *)
Lemma always_succeeds_inv command env c :
  always_succeeds command = true ->
  exists m, forall d : CommonDecoder.Decoder GpuScheduler,
    ContextCommands.execute cfg ReadPixels env command d c = no_error d m.
Proof. destruct command; try discriminate; intros _; eexists; intros d; reflexivity. Qed.

Lemma call_meaning_spec call g :
  call_ok call -> state_good cfg lim g ->
  exists command c', call_command call = Some command /\ always_succeeds command = true /\
    (forall d : CommonDecoder.Decoder GpuScheduler,
       ContextCommands.execute cfg ReadPixels (context_answers command g) command d (context g) = Done (kNoError, (d, c'))) /\
    call_meaning g call = with_context c' g /\ state_good cfg lim (call_meaning g call).
Proof.
  destruct call as [c args]. intros (Hin & Ht & Hargs & Hcall) Hg. cbn [fst snd] in *.
  destruct (call_command (c, args)) as [command|] eqn:Ec; [|done].
  destruct (find_command_entry _ c args [] command (context_commands_in _) Hin Ec) as (make & Hmake & Hm).
  assert (Ha : ContextCommands.args_ok command).
  { apply (proj1 (Forall_forall _ _) (context_entries (fun _ => [])) _ Hmake args [] command); [|done|].
    - unfold fields_ok. unfold GLES2Format.args_ok, params in Hargs. by rewrite Ht in Hargs.
    - by destruct command. }
  assert (Hd : ContextCommands.driver_answers (context_answers command g) command (context g))
    by by destruct command.
  destruct (execute_ok scheduler_ok scheduler_entries cfg driver features ReadPixels pixel laws
    (context_answers command g) command no_decoder (context g) (good_context _ _ _ Hg) no_decoder_ok Ha Hd)
    as (e & d & c' & E & _ & Hc' & _).
  destruct (always_succeeds_inv command (context_answers command g) (context g) Hcall) as [m Em].
  rewrite Em in E. destruct m as [c1| |]; [|done..]. cbn in E. injection E as <- <- <-.
  assert (Emean : call_meaning g (c, args) = with_context c1 g).
  { unfold GLES2EndToEnd.call_meaning. by rewrite Ec, Em. }
  exists command, c1. split_and!; try done.
  rewrite Emean. by apply good_with_context.
Qed.

(** What a call does is its meaning. *)
Lemma Handle_call c args data w :
  call_ok (c, args) -> state_good cfg lim (gles2 w) ->
  Handle c args data w = Done (kNoError, set_gles2 w (call_meaning (gles2 w) (c, args))).
Proof.
  intros Hc Hg. destruct (call_meaning_spec (c, args) (gles2 w) Hc Hg) as (command & c' & Ec & Ha & E & -> & _).
  unfold GLES2Dispatch.Handle.
  pose proof (call_command_any (generated (gles2 w)) data (c, args) command Ec Ha) as Ef. cbn [fst snd] in Ef.
  by rewrite Ef, E.
Qed.

Lemma calls_laws : SimpleLaws GLES2State.
Proof.
  split.
  - intros command (call & Hc & ->). by apply ring_command_plain.
  - intros depth command rest w (call & Hc & ->) Hw Hg He. destruct call as [c args].
    pose proof Hc as (Hin & Ht & Ha & _). cbn [fst snd] in *.
    assert (Hz : zlen (RingProtocol.encode (ring_command (c, args))) = 1 + zlen (c_args (ring_command (c, args))))
      by by rewrite zlen_encode.
    destruct (ring_command_plain _ Hc) as [(_ & Hsz & _) _]. unfold command_size in Hsz.
    destruct (command_reaches_handler cfg ReadPixels lim Translate generated context_answers program_answers
      decoder_answers other_Handle depth c args [] 0 (RingProtocol.encode (ring_command (c, args))) rest w)
      as (immediate & E & _); [done|done|by unfold data_length; rewrite Ht|by apply ring_command_written|lia|].
    replace (zlen (RingProtocol.encode (ring_command (c, args))) - 1) with (zlen (c_args (ring_command (c, args)))) in E by lia.
    change (c_id (ring_command (c, args))) with (kCmdId c). unfold extra_fields in E. rewrite Ht, app_nil_r in E.
    etrans; [exact E|]. rewrite (Handle_call c args immediate w Hc Hg). cbn [obind].
    unfold gl_exec, calls_simple. rewrite call_of_ring by done. unfold deferred.
    cbn [current_decoder_error_ set_gles2]. by rewrite He.
  - intros command g (call & Hc & ->) Hg. unfold gl_exec, calls_simple. rewrite call_of_ring by done.
    by destruct (call_meaning_spec call g Hc Hg) as (? & ? & _ & _ & _ & _ & ?).
Qed.

(** *** The client makes the calls *)

Section client.
Context {B : Type} `{!CommandBuffer B}.
Context {usable : Z} {ok : B -> Prop} {reader sent tok : B -> Z} {did : B -> list RingProtocol.Command -> B -> Prop}
  `{!CommandBufferLaws B (simple (G := GLES2State)) usable ok reader sent tok did}.

Lemma make_calls_ok b0 fuel calls issued l1 l2 (client : Client B) :
  client_ok (simple (G := GLES2State)) usable ok reader sent did b0 issued l1 l2 client ->
  Forall call_ok calls -> Forall (fun call => sizeof call.1 / 4 < usable) calls -> usable <= Z.of_nat fuel ->
  exists l1' l2' client', make_calls fuel calls client = Done client' /\
    client_ok (simple (G := GLES2State)) usable ok reader sent did b0 (issued ++ (ring_command <$> calls)) l1' l2' client'.
Proof.
  intros Hc Hcalls Hsz Hf. revert issued l1 l2 client Hc.
  induction Hcalls as [|[c args] calls Hcall Hcalls IH]; intros issued l1 l2 client Hc; cbn [make_calls].
  - exists l1, l2, client. by rewrite app_nil_r.
  - apply Forall_cons in Hsz as [Hs Hsz]. cbn [fst] in Hs. pose proof Hcall as (Hin & Ht & Ha & _). cbn [fst snd] in *.
    destruct (struct_fixed c Hin Ht) as (Hfl & Hs' & Hp). pose proof (sizeof_bounds c Hfl) as [Hb Hm].
    assert (Hn : (sizeof c + 0 + 3) / 4 = sizeof c / 4).
    { rewrite entries_of_size by done. change ((0 + 3) / 4) with 0. lia. }
    destruct (put_command_ok b0 issued l1 l2 client fuel c args [] args 0)
      as (words & l1' & l2' & client1 & -> & Hw & Hc1); try done.
    + by apply struct_in.
    + unfold sized. by rewrite Ht.
    + unfold init_args. by rewrite Ht.
    + unfold data_length. by rewrite Ht.
    + lia.
    + lia.
    + intros words Hw. rewrite (written_ring c args words) by done.
      split; [by apply ring_command_plain|]. do 3 right. by exists (c, args).
    + cbn [obind]. rewrite (written_ring c args words) in Hc1 by done.
      destruct (IH Hsz _ _ _ _ Hc1) as (l3 & l4 & client2 & E & Hc2). exists l3, l4, client2. split; [done|].
      rewrite <- app_assoc in Hc2. exact Hc2.
Qed.

End client.

(** The meaning of the commands is that of the calls. *)
Lemma exec_calls calls t bs g :
  Forall call_ok calls ->
  fold_left InProcess.exec (ring_command <$> calls) (t, bs, g) = (t, bs, fold_left call_meaning calls g).
Proof.
  intros Hc. revert g. induction Hc as [|call calls Hcall Hcalls IH]; intros g; [done|].
  cbn [fmap list_fmap fold_left]. rewrite <- IH. f_equal.
  destruct (ring_command_plain call Hcall) as [_ Hid]. unfold InProcess.exec, kStartPoint in *.
  change (c_id (ring_command call)) with (kCmdId call.1). unfold id_num.
  bfalse (kCmdId call.1 =? 1). bfalse (kCmdId call.1 =? 7). btrue (255 <? kCmdId call.1).
  unfold gl_exec, calls_simple. by rewrite call_of_ring.
Qed.

(** C1: GL calls, end to end.  A client that initialises its helper on the ring buffer of a fresh
    process, makes any sequence of calls whose structs fit the ring buffer, and finishes, has
    brought the decoder to the state that the handlers make of the calls one after the other,
    with no ring buffer, no headers and no words between them. *)
Theorem gl_calls_end_to_end depth fuel clock memory os usable (g : GLES2State) c calls :
  state_good cfg lim g ->
  CommandBufferService.Initialize true os (4 * (usable + 2)) CommandBufferService_new = (true, c) ->
  1 <= usable -> usable + 2 <= zlen (memory (map_memory os)) ->
  Forall is_u32 (memory (map_memory os)) -> usable <= Z.of_nat fuel ->
  Forall call_ok calls -> Forall (fun call => sizeof call.1 / 4 < usable) calls ->
  let B := InProcess (S depth) fuel clock in
  let w := start_process memory c g in
  exists c0 c1 c2,
    CommandBufferHelper.Initialize (H0 := B) (4 * (usable + 2)) (CommandBufferHelper.new w) = (true, c0) /\
    make_calls (H0 := B) fuel calls c0 = Done c1 /\
    CommandBufferHelper.Finish (H0 := B) (S fuel) c1 = Done (true, c2) /\
    meaning (CmdBufferHelper.command_buffer_ c2) = (0, ∅, fold_left call_meaning calls g).
Proof.
  intros Hg E Hu Hm Hw Hf Hs Hn B w. pose proof calls_laws as Hcl.
  assert (Hgl : gl_ok g) by exact Hg.
  destruct (start_process_idle usable memory os g c Hgl E Hu Hm Hw) as (Hidle & Hmean & Hput & Hptr & Hbuf).
  fold w in Hidle, Hmean, Hput, Hptr, Hbuf.
  pose proof (InProcess_laws depth usable fuel clock eq_refl Hf) as Hlaws. fold B in Hlaws.
  assert (Hbig : usable < 2 ^ 27).
  { revert E. unfold CommandBufferService.Initialize. simpl. unfold kMaxCommandBufferSize.
    destruct (_ || _) eqn:E0; [done|]. zbool. lia. }
  destruct (Initialize_ok w (map_memory os) Hidle) as (c0 & E0 & Hc0 & _);
    [lia|simpl in *; by rewrite Hbuf|done|
     by rewrite (idle_published _ _ Hidle), (idle_drained _ _ Hidle)|simpl in *; lia|].
  destruct (make_calls_ok w fuel calls _ _ _ _ Hc0 Hs Hn Hf) as (l1 & l2 & c1 & E1 & Hc1).
  pose proof (client_length w _ _ _ _ Hc1).
  destruct (Finish_ok w _ _ _ _ fuel Hc1) as (c2 & E2 & _ & Hd); [lia|].
  exists c0, c1, c2. split_and!; [done..|]. unfold executed in Hd. simpl in Hd.
  by rewrite Hd, Hmean, exec_calls.
Qed.

End simple_calls.
