(* ===== verification/GLES2Examples.v ===== *)
(** * GLES2 commands on concrete inputs

    A process with the context of [ContextExamples.v] and a driver that answers no error, and the
    theorems of [GLES2CmdHelper.v], [GLES2Dispatch.v] and [GLES2EndToEnd.v] there. *)

From S2P Require Import Prelude CmdFormat GLES2Format GLES2Commands CommandBufferService CmdParser CommonDecoder GpuScheduler.
From S2P Require Import RingProtocol CmdBufferHelper GLES2CmdHelper InProcess.
From Stdlib Require Import ZArith Lia ZifyBool Bool.
From stdpp Require Import base list numbers option strings gmap.
From S2P Require Import GLConstants Validators FeatureInfo ContextState ContextInvariant FramebufferDecoder TextureDecoder ReadPixels.
From S2P Require Import GLES2Util Uniforms ShaderManager ProgramManager ProgramInvariant ProgramDecoder ProgramSafety QuerySafety.
From S2P Require Import DrawValidation ContextCommands ProgramCommands DecoderState HandlerSafety DecoderCommands GLES2Dispatch ProgramExamples ContextExamples GLES2EndToEnd.
Local Open Scope Z_scope.

#[local] Instance platform_armhf : Platform := armhf.

(** ** The process *)

(** A group with sixteen vertex attributes, of a driver of OpenGL. *)
Definition example_lim : GroupLimits :=
  mkGroupLimits 16 64 32 128
    (zlen (validators_ (feature_info_ example_config) Validator.compressed_texture_format))
    (zlen (validators_ (feature_info_ example_config) Validator.shader_binary_format)) false false false.

Lemma example_group_ok : group_ok example_config example_lim.
Proof. split; [reflexivity|reflexivity|vm_compute; reflexivity..]. Qed.

Definition example_state : GLES2State := GLES2State_new example_config example_lim example_new 1 2.

Definition example_generated (g : GLES2State) (n : Z) : list Z := Z.of_nat <$> seq 20 (Z.to_nat n).
Definition example_context_answers (command : ContextCommands.Command) (g : GLES2State) : ContextState.Answers := no_error_answers 0.
Definition example_program_answers (command : ProgramCommands.ProgramCommand) (g : GLES2State) : ProgramAnswers :=
  ProgramExamples.answers 9 [].
Definition example_decoder_answers (command : DecoderCommands.DecoderCommand) (g : GLES2State) : DecoderAnswers :=
  mkDecoderAnswers [] 0 0 0 [] (fun _ => []) [] false None 0 (fun m => map_to_list m) (fun _ => 0) 0 true 0.
Definition example_translators (enabled : Enabled) : Z -> list Z -> option Translation * list Z := example_translate.
Definition example_other (c : Struct) (fields data : list Z) (w : GpuProcess GLES2State)
    : outcome (CmdFormat.Error * GpuProcess GLES2State) := Done (CmdFormat.kNoError, w).

#[local] Instance example_handlers : GLES2Handlers GLES2State :=
  dispatch_handlers example_config example_read example_lim example_translators example_generated
    example_context_answers example_program_answers example_decoder_answers example_other.

Lemma example_state_good : state_good example_config example_lim example_state.
Proof.
  apply (GLES2State_new_good example_config example_lim example_driver example_features_reach example_group_ok).
  exact (example_ok _ _ (example_new_reach any_command)).
Qed.

Lemma example_units_initialized : Initialize_units example_config example_group = Done example_new.
Proof.
  destruct (Initialize_units_ok example_config example_driver example_features_reach example_group
    example_group_new example_units) as (c & Ec & _).
  unfold example_new. by rewrite Ec.
Qed.

(** A process over a ring buffer of twelve entries. *)
Definition gl_process (ring : list Z) : GpuProcess GLES2State :=
  start_process (fun _ => ring) (example_service 48) example_state.

Lemma gl_process_ok ring : zlen ring = 12 -> all_u32 ring = true -> process_ok (gl_process ring).
Proof.
  intros Hl Hu%all_u32_ok. apply (start_process_ok (fun _ => ring) (mkMapResult true true 1 2) 48);
    [reflexivity|lia|cbn [map_memory]; change (48 / 4) with 12; lia|done].
Qed.

(** Any decoder that is well formed. *)
Definition example_decoder : CommonDecoder.Decoder GpuScheduler := decoder (gl_process (replicate 12 0)).

(** ** Calls *)

Definition example_calls : list MethodCall :=
  [(cmds.ClearColor, [1065353216; 0; 0; 1065353216]); (cmds.Enable, [GL_SCISSOR_TEST]);
   (cmds.ColorMask, [1; 0; 1; 0]); (cmds.BindTexture, [GL_TEXTURE_2D; 0]); (cmds.Clear, [GL_COLOR_BUFFER_BIT])].

(** [call_ok], to compute. *)
Definition arg_okb (f : string * FieldType) (a : Z) : bool :=
  match f.2 with Int32 => (- 2 ^ 31 <=? a) && (a <? 2 ^ 31) | _ => (0 <=? a) && (a <? 2 ^ 32) end.

Definition args_okb (c : Struct) (args : list Z) : bool :=
  (length args =? length (params c))%nat && forallb (fun fa => arg_okb fa.1 fa.2) (zip (params c) args).

Lemma args_okb_ok c args : args_okb c args = true -> GLES2Format.args_ok c args.
Proof.
  unfold args_okb, GLES2Format.args_ok. intros [Hl%Nat.eqb_eq Hf]%andb_prop.
  revert args Hl Hf. induction (params c) as [|f fields IH]; intros [|a args] Hl Hf; try done.
  cbn [zip zip_with forallb fst snd] in Hf. apply andb_prop in Hf as [Ha Hf]. constructor.
  - unfold arg_okb, arg_ok, is_i32, is_u32 in *. destruct f.2; lia.
  - apply IH; [by injection Hl|done].
Qed.

Lemma struct_at c i : structs !! i = Some c -> c ∈ structs.
Proof. apply list_elem_of_lookup_2. Qed.

(** The struct of a call is in the list. *)
Ltac in_structs :=
  match goal with |- ?c ∈ structs => apply (struct_at c (Z.to_nat (kCmdId c - 256))); reflexivity end.

Lemma example_calls_ok : Forall call_ok example_calls.
Proof.
  unfold example_calls. repeat (constructor; [split; [cbn [fst]; in_structs|split; [reflexivity|
    split; [apply args_okb_ok; reflexivity|vm_compute; reflexivity]]]|]). constructor.
Qed.

(** ** The theorems *)

Lemma gl_calls_end_to_end_witness :
  let B := InProcess 1 12 (fun _ => 0) in
  let w := start_process (fun _ => replicate 12 0) (example_service 48) example_state in
  exists c0 c1 c2,
    CommandBufferHelper.Initialize (H0 := B) (4 * (10 + 2)) (CommandBufferHelper.new w) = (true, c0) /\
    make_calls (H0 := B) 12 example_calls c0 = Done c1 /\
    CommandBufferHelper.Finish (H0 := B) (S 12) c1 = Done (true, c2) /\
    meaning (CmdBufferHelper.command_buffer_ c2)
      = (0, ∅, fold_left (call_meaning example_config example_read example_context_answers example_decoder)
                 example_calls example_state).
Proof.
  refine (gl_calls_end_to_end example_config example_driver example_features_reach example_read example_pixel
    example_reads example_lim example_translators example_generated example_context_answers
    example_program_answers example_decoder_answers example_other example_decoder _ 0 12 (fun _ => 0) (fun _ => replicate 12 0)
    (mkMapResult true true 1 2) 10 example_state (example_service 48) example_calls
    example_state_good _ _ _ _ _ _ _).
  - apply (gl_process_ok (replicate 12 0)); reflexivity.
  - reflexivity.
  - lia.
  - discriminate.
  - apply all_u32_ok. reflexivity.
  - lia.
  - exact example_calls_ok.
  - repeat constructor.
Defined.

(** The clear reached the driver, with the masks that the calls asked for. *)
Example example_calls_clear :
  let g := fold_left (call_meaning example_config example_read example_context_answers example_decoder)
             example_calls example_state in
  last (ContextState.gl_calls (context g)) = Some (glClear GL_COLOR_BUFFER_BIT) /\
  ContextState.gl_errors (context g) = [] /\ driver_clear (ContextState.gl_calls (context g)) = wanted_clear (saved (context g)).
Proof. vm_compute. repeat split. Qed.

(** *** Words of a client *)

(** A driver that keeps its promises in every state: it gives no storage to no renderbuffer, links
    programs without inputs, and the value of a uniform has the size of its type. *)
Definition kept_context_answers (command : ContextCommands.Command) (g : GLES2State) : ContextState.Answers :=
  ContextState.mkAnswers 0 (match bound_renderbuffer_ (bindings (context g)) with None => GL_INVALID_OPERATION | Some _ => GL_NO_ERROR end)
    GL_FRAMEBUFFER_COMPLETE.

Definition uniform_answer (client_id location : Z) (s : Programs) : list Z :=
  match LookupProgram client_id (program_manager s) ≫= fun a => programs (program_manager s) !! a with
  | Some p =>
      match GetUniformInfoByLocation location p with
      | Done (Some (u, _)) => replicate (Z.to_nat (GetGLDataTypeSizeForUniforms (u_type (uniform u)) / 4)) 0
      | _ => []
      end
  | None => []
  end.

Definition kept_program_answers (command : ProgramCommands.ProgramCommand) (g : GLES2State) : ProgramAnswers :=
  mkProgramAnswers 9 (mkLinkAnswer true no_reflection None) None (mkCompileAnswer [] true []) 0 GL_NO_ERROR
    (match command with
     | ProgramCommands.GetUniformiv program location _ _ | ProgramCommands.GetUniformfv program location _ _ =>
         uniform_answer program location (program_state g)
     | _ => []
     end) [].

Lemma uniform_answer_fits client_id location s : values_fit (uniform_answer client_id location s) client_id location s.
Proof.
  intros a p u k E1 E2 E3. unfold uniform_answer. rewrite E1. cbn [mbind option_bind]. rewrite E2, E3.
  assert (forall n, In n [4; 8; 12; 16; 36; 64; 0] -> 4 * zlen (replicate (Z.to_nat (n / 4)) 0) = n) as Hn.
  { intros n. cbn [In]. intros Hin. repeat destruct Hin as [<-|Hin]; done. }
  apply Hn. unfold GetGLDataTypeSizeForUniforms. repeat (case_match; [cbn [In]; lia|]). cbn [In]. lia.
Qed.

Lemma example_values_returned pname : 0 <= QueryDecoder.values_returned example_lim pname.
Proof.
  apply (values_returned_bounds example_config example_lim (group_compressed _ _ example_group_ok)
    (group_binary _ _ example_group_ok) (group_compressed_short _ _ example_group_ok) (group_binary_short _ _ example_group_ok)).
Qed.

Lemma example_answer_length pname : 0 <= answer_length example_lim pname.
Proof. unfold answer_length. case_match; [lia|apply example_values_returned]. Qed.

Lemma kept_promises :
  driver_promised example_config example_lim kept_context_answers kept_program_answers example_decoder_answers.
Proof.
  split; intros g command _; destruct command; try exact I.
  { intros E. unfold kept_context_answers. rewrite E. discriminate. }
  1: { intros a p _ _ _. split; [by intros v ?%elem_of_nil|]. by intros v ?%elem_of_nil. }
  1-2: apply uniform_answer_fits.
  1-8: apply example_answer_length.
  - intros e _. apply example_values_returned.
  - split; vm_compute; reflexivity.
  - reflexivity.
Qed.

Notation kept_handlers := (dispatch_handlers example_config example_read example_lim example_translators example_generated
  kept_context_answers kept_program_answers example_decoder_answers example_other).

Definition example_process := gl_process (replicate 12 0).

(** [Clear] of every buffer there is, and of some that there are not. *)
Definition clear_words : list Z := [header_word (CommandHeader_Init (kCmdId cmds.Clear) 2); 4294967295].

Lemma gles2_stream_safe_witness :
  exists e w', GLES2_DoCommand (H0 := kept_handlers) 0 (kCmdId cmds.Clear) 1 clear_words example_process = Done (e, w') /\
    process_ok w' /\
    stream_reach example_config example_read example_lim example_translators example_generated
      kept_context_answers kept_program_answers example_decoder_answers example_other w'.
Proof.
  apply (gles2_stream_safe example_config example_driver example_features_reach example_units example_read
    example_pixel example_reads example_lim example_translators example_generated kept_context_answers
    kept_program_answers example_decoder_answers example_other example_group_ok kept_promises 0 (kCmdId cmds.Clear) 1
    clear_words example_process).
  - apply (stream_new _ _ _ _ _ _ _ _ _ example_group example_new _ 1 2).
    + exact example_group_new.
    + exact example_units_initialized.
    + apply gl_process_ok; reflexivity.
    + reflexivity.
  - apply all_u32_ok. reflexivity.
  - discriminate.
  - split; reflexivity.
  - vm_compute. reflexivity.
Defined.

(** The same command, in a process that started on a ring of zeros; the client wrote it there. *)
Lemma gpu_reachable_safe_witness :
  let careful := careful_handlers example_config example_read example_lim example_translators example_generated
    kept_context_answers kept_program_answers example_decoder_answers example_other in
  let w := set_parser example_process (with_buffer_ (parser example_process) (clear_words ++ replicate 10 0)) in
  process_good (state_good example_config example_lim) w /\
  (let next h := ProcessCommand (H0 := GLES2_API (H0 := h) 1) w in
   safe (next careful) /\ stopped (next careful) (next kept_handlers)) /\
  forall fuel put,
    let flush h := CommandBufferService.Flush (PutChanged (H0 := h) 1 Done Done fuel) put w in
    safe (flush careful) /\ stopped (flush careful) (flush kept_handlers).
Proof.
  intros careful w.
  apply (gpu_reachable_safe example_config example_driver example_features_reach example_units example_read
    example_pixel example_reads example_lim example_translators example_generated kept_context_answers
    kept_program_answers example_decoder_answers example_other example_group_ok kept_promises 1 Done Done Done
    (fun _ => replicate 12 0) (mkMapResult true true 1 2) 48 example_group example_new 1 2 (example_service 48) w).
  - apply callback_ok_Done.
  - apply callback_ok_Done.
  - apply callback_ok_Done.
  - reflexivity.
  - lia.
  - discriminate.
  - apply all_u32_ok. reflexivity.
  - exact example_group_new.
  - exact example_units_initialized.
  - eapply steps_next; [apply steps_refl|]. apply client_writes_ring; [reflexivity|apply all_u32_ok; reflexivity].
Defined.

(** The flush of that ring runs the command to its end. *)
Example clear_words_flushed :
  let w := set_parser example_process (with_buffer_ (parser example_process) (clear_words ++ replicate 10 0)) in
  match CommandBufferService.Flush (PutChanged (H0 := kept_handlers) 1 Done Done 2) 2 w with
  | Done w' => get_ (parser w') = 2
  | _ => False
  end.
Proof. vm_compute. reflexivity. Qed.

(** *** Data behind the struct *)

(** [Uniform2fvImmediate] with one vector, and other commands behind it. *)
Definition uniform_args : list Z := [3; 1].
Definition uniform_data : list Z := [0; 0; 128; 63; 0; 0; 0; 64].
Definition uniform_words : list Z := [header_word (CommandHeader_Init (kCmdId cmds.Uniform2fvImmediate) 5); 3; 1; 1065353216; 1073741824].

Lemma uniform_written : written cmds.Uniform2fvImmediate uniform_args uniform_data 8 uniform_words.
Proof.
  split; [by eexists|reflexivity|apply all_u32_ok; reflexivity|reflexivity|reflexivity].
Qed.

Lemma command_reaches_handler_witness :
  exists immediate,
    GLES2_DoCommand 0 (kCmdId cmds.Uniform2fvImmediate) (zlen uniform_words - 1) (uniform_words ++ clear_words)
        example_process
      = (do r <- GLES2Dispatch.Handle example_config example_read example_lim example_translators
              example_generated example_context_answers example_program_answers example_decoder_answers example_other
              cmds.Uniform2fvImmediate (uniform_args ++ extra_fields cmds.Uniform2fvImmediate 8) immediate
              example_process ;; deferred r)%gpu /\
    8 <= zlen immediate < 8 + 4 /\
    (copies cmds.Uniform2fvImmediate = true -> zread immediate 0 8 = zread uniform_data 0 8).
Proof.
  change example_handlers with (handlers_rt example_config example_read example_lim example_translators
    example_generated example_context_answers example_program_answers example_decoder_answers example_other).
  apply (command_reaches_handler example_config example_read example_lim example_translators
    example_generated example_context_answers example_program_answers example_decoder_answers example_other 0 cmds.Uniform2fvImmediate
    uniform_args uniform_data 8 uniform_words clear_words example_process).
  - in_structs.
  - apply args_okb_ok. reflexivity.
  - reflexivity.
  - exact uniform_written.
  - reflexivity.
Defined.

(** *** The methods of the helper *)

#[local] Instance example_simple : SimpleGLES2 GLES2State :=
  calls_simple example_config example_read example_lim example_context_answers example_decoder.

Lemma example_decoder_ok : decoder_ok scheduler_ok scheduler_entries example_decoder.
Proof. apply (gl_process_ok (replicate 12 0)); reflexivity. Qed.

Lemma example_simple_laws : SimpleLaws GLES2State.
Proof.
  exact (calls_laws example_config example_driver example_features_reach example_read example_pixel
    example_reads example_lim example_translators example_generated example_context_answers
    example_program_answers example_decoder_answers example_other example_decoder example_decoder_ok).
Qed.

Definition gl_buffer : CommandBuffer (GpuProcess GLES2State) := InProcess 1 12 (fun _ => 0).

Definition gl_client : Client (GpuProcess GLES2State) :=
  snd (CommandBufferHelper.Initialize (H0 := gl_buffer) (4 * (10 + 2)) (CommandBufferHelper.new example_process)).

Notation gl_ready issued c :=
  (ready (H0 := gl_buffer) (simple (G := GLES2State)) 10 (idle 10) (fun w => get_offset (service w))
     (fun w => put_offset (service w)) InProcess.executed example_process issued c).

Lemma gl_laws :
  CommandBufferLaws (GpuProcess GLES2State) (H := gl_buffer) (simple (G := GLES2State)) 10 (idle 10)
    (fun w => get_offset (service w)) (fun w => put_offset (service w))
    (fun w => token (service w)) InProcess.executed.
Proof. pose proof example_simple_laws. by apply InProcess_laws. Qed.

Lemma gl_client_ready : gl_ready [] gl_client.
Proof.
  pose proof gl_laws as Hlaws.
  assert (Hi : idle 10 example_process).
  { destruct (start_process_idle 10 (fun _ => replicate 12 0) (mkMapResult true true 1 2) example_state
      (example_service 48)) as (? & _); [exact example_state_good|done|lia|done|by apply all_u32_ok|done]. }
  destruct (Initialize_ok (CommandBufferLaws0 := Hlaws) example_process 1 Hi)
    as (c & E & Hc & _); [lia|done|done|done|done|].
  assert (Ec : gl_client = c) by (unfold gl_client; by rewrite E).
  rewrite Ec. by exists [], [].
Qed.

Lemma method_queues_command_witness :
  exists words c', put_command (H0 := gl_buffer) 10 cmds.ColorMask [1; 0; 1; 0] [] gl_client = Done c' /\
    written cmds.ColorMask [1; 0; 1; 0] [] 0 words /\ gl_ready ([] ++ [command_in cmds.ColorMask words]) c'.
Proof.
  apply (method_queues_command (CommandBufferLaws0 := gl_laws) example_process [] gl_client 10 cmds.ColorMask
    [1; 0; 1; 0] [] [1; 0; 1; 0] 0).
  - exact gl_client_ready.
  - in_structs.
  - reflexivity.
  - reflexivity.
  - apply args_okb_ok. reflexivity.
  - reflexivity.
  - constructor.
  - reflexivity.
  - reflexivity.
  - discriminate.
  - assert (Hcall : call_ok (cmds.ColorMask, [1; 0; 1; 0])).
    { split; [cbn [fst]; in_structs|]. split; [reflexivity|]. split; [by apply args_okb_ok|reflexivity]. }
    intros words Hw. destruct Hcall as (Hin & Ht & Ha & Hs) eqn:E. clear E.
    rewrite (written_ring cmds.ColorMask [1; 0; 1; 0] words Hin Ht Ha Hw).
    split; [by apply ring_command_plain|]. do 3 right. by exists (cmds.ColorMask, [1; 0; 1; 0]).
Defined.

(** Twenty textures are not deleted over a ring buffer with room for ten words. *)
Lemma oversized_command_hangs_witness :
  put_command (H0 := gl_buffer) 10 cmds.DeleteTexturesImmediate [20] (replicate 80 0) gl_client = Fuel.
Proof.
  apply (oversized_command_hangs (CommandBufferLaws0 := gl_laws) example_process [] gl_client 10
    cmds.DeleteTexturesImmediate [20] (replicate 80 0) [20] 80).
  - exact gl_client_ready.
  - in_structs.
  - reflexivity.
  - reflexivity.
  - apply args_okb_ok. reflexivity.
  - reflexivity.
  - vm_compute. split; [discriminate|reflexivity].
  - discriminate.
Defined.
