(* ===== verification/DrawExamples.v ===== *)
(** * A draw with textures

    A program with one sampler draws with a texture that lacks its mipmaps; and the black
    texture that is left when the unit was last bound at another target. *)

From S2P Require Import Prelude CmdFormat CommandBufferService CommonDecoder.
From Stdlib Require Import ZArith Lia ZifyBool Bool.
From stdpp Require Import base numbers option gmap sets list.
From S2P Require Import Prelude Floats IdAllocator BufferManager VertexAttribManager DrawValidation.
From S2P Require Import GLConstants Validators GLES2Util FeatureInfo TextureInfo.
From S2P Require Import Uniforms ShaderManager ProgramManager ProgramInvariant.
From S2P Require Import TextureManager RenderbufferManager FramebufferManager ContextState ContextInvariant.
From S2P Require Import TextureDecoder FramebufferDecoder ObjectNames ReadPixels ContextCommands DrawTextures.
From S2P Require Import ProgramDecoder ProgramSafety ProgramCommands DecoderState HandlerSafety AttribRoundTrip DrawCalls AttribSimulation DecoderCommands.
From S2P Require Import GLES2Examples ProgramExamples.
From S2P Require Import ContextExamples.
Local Open Scope Z_scope.

(** The program's sampler names the first unit, where the texture of
    [ContextExamples.example_textured] is: 4 by 4 texels, without the mipmaps that its filter
    wants. *)
Definition textured_context : Context := example_textured.2.

Lemma textured_ok : context_ok example_config textured_context.
Proof. eapply example_ok, example_textured_reach. Qed.

Definition sampling_program : ProgramInfo := ProgramExamples.linked_program.

Lemma sampling_places : sampler_places sampling_program = [(GL_SAMPLER_2D, 0)].
Proof. vm_compute. reflexivity. Qed.

Lemma draw_samples_renderable_witness :
  exists set c', SetBlackTextureForNonRenderableTextures example_config sampling_program textured_context = Done (set, c') /\
    (sampled c' 0 GL_TEXTURE_2D = 1 \/ sampled c' 0 GL_TEXTURE_2D = 20).
Proof.
  destruct (draw_samples_renderable example_config sampling_program textured_context textured_ok
    ProgramExamples.linked_inputs_ok) as (set & c' & H1 & H2 & _); [reflexivity|vm_compute; reflexivity|].
  exists set, c'. split; [exact H1|].
  destruct (zget (texture_units_ (bindings textured_context)) 0) as [unit|] eqn:Hu; [|vm_compute in Hu; discriminate].
  destruct (H2 GL_SAMPLER_2D 0 unit) as [H3|[H3 _]];
    [rewrite sampling_places; by left|vm_compute; reflexivity|exact Hu| |].
  - left. etransitivity; [exact H3|vm_compute; reflexivity].
  - right. etransitivity; [exact H3|vm_compute; reflexivity].
Defined.



(** When the cube map target of the unit is bound last, the draw leaves the black texture at
    the target for textures of two dimensions: what the service next uploads to the texture
    with the name 10, which it knows as bound there, goes to the black texture. *)
Definition cube_bound_last : Context :=
  (run [(no_error_answers 21, BindTexture GL_TEXTURE_CUBE_MAP 11)] example_textured).2.

Theorem black_texture_left_example :
  (unit ← zget (texture_units_ (bindings cube_bound_last)) 0; bound_texture_2d unit) =
  (unit ← zget (texture_units_ (bindings textured_context)) 0; bound_texture_2d unit) /\
  sampled cube_bound_last 0 GL_TEXTURE_2D = 20 /\
  exists c', textures_replaced example_config sampling_program cube_bound_last = Done c' /\
    sampled c' 0 GL_TEXTURE_2D = black_texture_id GL_SAMPLER_2D (texture_manager (group c')).
Proof. do 2 (split; [vm_compute; reflexivity|]). eexists. split; [vm_compute; reflexivity|vm_compute; reflexivity]. Qed.

(** ** Whole draws

    The program of [ProgramExamples.used_state], which reads attribute 0, is in use, and the
    attribute is not enabled: the driver's OpenGL needs a buffer in its place. *)

#[local] Existing Instance ProgramExamples.platform32.
#[local] Existing Instance ProgramExamples.one_block.

Definition drawing_state : GLES2State :=
  mkGLES2State textured_context ProgramExamples.used_state.2 (Decoder_new 16) NonReused.new (Simulation_new 7 8)
    (Enabled_new example_config) 0 [].

Lemma drawing_good : state_good example_config example_lim drawing_state.
Proof.
  split; [exact textured_ok| | | |reflexivity].
  - eapply program_reach_good, ProgramExamples.used_reach.
  - by apply Decoder_new_ok.
  - eapply group_vertex_types. exact example_features_reach.
Qed.

Definition drawing_world : World Buffer := (ProgramExamples.example_memory, drawing_state).

Lemma drawing_world_good :
  world_good ProgramExamples.any_engine ProgramExamples.no_entries example_config example_lim drawing_world.
Proof. split; [exact ProgramExamples.program_memory_ok|exact drawing_good]. Qed.

Definition drawing_answers : DecoderAnswers :=
  mkDecoderAnswers [] 0 0 0 [] (fun _ => []) [] false None 0 (fun m => map_to_list m) (fun _ => 0) 0 true 0.

Definition drawn_world (m : Handler Buffer Error) : World Buffer :=
  match m drawing_world with Done (_, w) => w | _ => drawing_world end.

Definition three_points : Handler Buffer Error :=
  HandleDrawArrays example_config example_lim drawing_answers GL_POINTS 0 3.


Lemma draws_something g g' : driver_calls g = [] -> existsb draw_call (driver_calls g') = true -> ~ draws_nothing g g'.
Proof.
  intros Hn He (calls & Hc & Hf). rewrite Hn in Hc. cbn in Hc. rewrite Hc in He.
  apply existsb_exists in He as (x & Hx & Hd). rewrite forallb_forall in Hf. specialize (Hf x Hx). by rewrite Hd in Hf.
Qed.

(** The calls of the draw: the buffer is filled, the black texture bound, the masks set; then
    the draw; and the texture and the attribute are given back. *)
Example three_points_calls :
  driver_calls (drawn_world three_points).2 =
  [OfVertices (glBindBuffer GL_ARRAY_BUFFER 7); OfVertices (glBufferDataNULL GL_ARRAY_BUFFER 48 GL_DYNAMIC_DRAW);
   OfVertices (glBufferSubData GL_ARRAY_BUFFER 0 48 (Vec4s 3 (0, 0, 0, one_f)));
   OfVertices (glVertexAttribPointer 0 4 GL_FLOAT GL_FALSE 0 0);
   OfContext (glActiveTexture GL_TEXTURE0); OfContext (glBindTexture GL_TEXTURE_2D 1);
   OfContext (glColorMask 1 1 1 0); OfContext (glDepthMask 1); OfContext (glDisable GL_DEPTH_TEST);
   OfContext (glStencilMaskSeparate GL_FRONT (2 ^ 32 - 1)); OfContext (glStencilMaskSeparate GL_BACK (2 ^ 32 - 1));
   OfContext (glDisable GL_STENCIL_TEST);
   OfVertices (glDrawArrays GL_POINTS 0 3);
   OfContext (glActiveTexture GL_TEXTURE0); OfContext (glBindTexture GL_TEXTURE_2D 20);
   OfContext (glActiveTexture GL_TEXTURE0);
   OfVertices (glBindBuffer GL_ARRAY_BUFFER 0); OfVertices (glVertexAttribPointer 0 4 GL_FLOAT GL_FALSE 0 0);
   OfVertices (glBindBuffer GL_ARRAY_BUFFER 0)].
Proof. vm_compute. reflexivity. Qed.

Lemma draw_arrays_reaches_driver_witness :
  exists e w', three_points drawing_world = Done (e, w') /\
    drew_linked example_config (glDrawArrays GL_POINTS 0 3) drawing_state w'.2.
Proof.
  destruct (draw_arrays_reaches_driver ProgramExamples.any_engine ProgramExamples.no_entries example_config example_lim
    drawing_answers ltac:(done) GL_POINTS 0 3 drawing_world drawing_world_good) as (e & w' & E & _ & Hd).
  - right. vm_compute. reflexivity.
  - vm_compute. by split.
  - vm_compute. by split.
  - exists e, w'. split; [exact E|]. destruct Hd as [Hd|[_ Hd]]; [|exact Hd].
    destruct (draws_something drawing_state w'.2); [reflexivity| |exact Hd].
    assert (Ew : w' = drawn_world three_points) by (unfold drawn_world, three_points; by rewrite E).
    rewrite Ew. vm_compute. reflexivity.
Defined.

(** Two indices name the same vertex of [DrawValidation.example_indexed], in whose attribute 0
    there are two. *)
Definition indexed_lim : GroupLimits := mkGroupLimits 2 64 32 128 0 0 false false false.

Definition indexed_state : GLES2State :=
  mkGLES2State textured_context ProgramExamples.used_state.2 DrawValidation.example_indexed NonReused.new
    (Simulation_new 7 8) (Enabled_new example_config) 0 [].

Lemma indexed_good : state_good example_config indexed_lim indexed_state.
Proof.
  split; [exact textured_ok| | | |reflexivity].
  - eapply program_reach_good, ProgramExamples.used_reach.
  - apply decoder_reach_ok, example_indexed_reach.
  - eapply group_vertex_types. exact example_features_reach.
Qed.

Definition indexed_world : World Buffer := (ProgramExamples.example_memory, indexed_state).

Definition triangle : Handler Buffer Error :=
  HandleDrawElements example_config indexed_lim drawing_answers GL_TRIANGLES 3 GL_UNSIGNED_BYTE 0.

Lemma draw_elements_reaches_driver_witness :
  exists e w', triangle indexed_world = Done (e, w') /\
    drew_linked example_config (glDrawElements GL_TRIANGLES 3 GL_UNSIGNED_BYTE 0) indexed_state w'.2.
Proof.
  destruct (draw_elements_reaches_driver ProgramExamples.any_engine ProgramExamples.no_entries example_config indexed_lim
    drawing_answers ltac:(done) GL_TRIANGLES 3 GL_UNSIGNED_BYTE 0 indexed_world
    (conj ProgramExamples.program_memory_ok indexed_good)) as (e & w' & E & _ & Hd).
  - right. vm_compute. reflexivity.
  - vm_compute. by split.
  - vm_compute. by split.
  - exists e, w'. split; [exact E|]. destruct Hd as [Hd|[_ Hd]]; [|exact Hd].
    destruct (draws_something indexed_state w'.2); [reflexivity| |exact Hd].
    assert (Ew : w' = match triangle indexed_world with Done (_, w) => w | _ => indexed_world end)
      by (unfold triangle; by rewrite E).
    rewrite Ew. vm_compute. reflexivity.
Defined.

(** *** The buffer that stands in *)

Definition undefined_bytes (size : Z) : list Z := replicate (Z.to_nat size) 170.

Definition example_driver_vertices : VertexDriver := mkVertexDriver 0 [] (0, 4, GL_FLOAT, GL_FALSE, 0, 0).

Definition simulated_state : GLES2State :=
  match SimulateAttrib0 example_config drawing_answers 2 drawing_state with Done (_, g) => g | _ => drawing_state end.

(** After the draw of three vertices the third is there. *)
Lemma attribute_0_stands_in_witness :
  exists calls, driver_calls simulated_state = driver_calls drawing_state ++ calls /\
    attrib_0_pointer (play_all 7 undefined_bytes calls example_driver_vertices) = (7, 4, GL_FLOAT, GL_FALSE, 0, 0) /\
    exists x, zread (stand_in (play_all 7 undefined_bytes calls example_driver_vertices)) 32 16 = Some (Vec4s 1 x).
Proof.
  destruct (attribute_0_stands_in example_config 7 undefined_bytes) with (env := drawing_answers) (max := 2)
    (g := drawing_state) (v := example_driver_vertices) (g' := simulated_state)
    as (info & used & calls & _ & Hu & Hc & Hp & Hx).
  - intros size Hs. unfold undefined_bytes, zlen. rewrite length_replicate. lia.
  - by apply sim_new with (fixed_attrib_buffer_id := 8).
  - vm_compute. reflexivity.
  - reflexivity.
  - vm_compute. by split.
  - exists calls. split; [exact Hc|]. split; [exact Hp|].
    assert (used = true) as -> by (vm_compute in Hu; congruence).
    destruct (Hx eq_refl) as (x & _ & Hi). exists x. apply (Hi 2). lia.
Defined.

(** ** Values and errors

    A client gives attribute 2 a value and asks for it; it finds 16 and the four numbers. *)
Lemma vertex_attrib_round_trip_witness :
  exists w', set_and_get example_config example_lim drawing_answers 2 one_f 0 0 one_f 5 8 drawing_world
      = Done (kNoError, w') /\
    mem_read w'.1 (1, 8) 20 = Some (words_to_bytes (u32 <$> [16; one_f; 0; 0; one_f])).
Proof.
  destruct (vertex_attrib_round_trip ProgramExamples.any_engine ProgramExamples.no_entries example_config example_lim
    drawing_answers drawing_world 2 one_f 0 0 one_f (set_index 2 VertexAttribInfo_new) 5 8 (1, 8) drawing_world_good)
    as (w' & H1 & H2); [lia|reflexivity..|by unfold is_u32|vm_compute; reflexivity|vm_compute; reflexivity|].
  exists w'. split; [exact H1|exact H2].
Defined.

(** Three errors, two of them the same. *)
Lemma errors_told_once_witness :
  asked drawing_answers 4
    (fold_left (flip SetGLError) [GL_INVALID_OPERATION; GL_INVALID_ENUM; GL_INVALID_OPERATION] drawing_state) =
    Done [GL_INVALID_ENUM; GL_INVALID_OPERATION; GL_NO_ERROR; GL_NO_ERROR].
Proof.
  exact (errors_told_once drawing_answers 4 drawing_state
    [GL_INVALID_OPERATION; GL_INVALID_ENUM; GL_INVALID_OPERATION] eq_refl eq_refl).
Defined.
